(* ===== verification/_CoqProject ===== *)
-Q . S2P
Prelude.v
Parser.v
Rs485Wire.v
Rs485Engine.v
Persist.v
EventBus.v
State.v
DeviceProfile.v
Pve.v
Snapshot.v
Failsafe.v
Ladder.v
Cluster.v
Automation.v
NodeRegistry.v
Rs485Master.v
Fieldbus.v
IoDriver.v
InputLearning.v
Observability.v
Scheduler.v
Watchdog.v
ControlLoop.v
NetworkPolicy.v
Onboarding.v
IoBinding.v
V3.v
Auth.v
NetworkReady.v
SystemDiag.v
ClusterTransport.v
Rs485Port.v
HttpText.v
InstallationMap.v
Web.v
WebIo.v
WebConfig.v
