(* ===== verification/Prelude.v ===== *)
(** * ENDAP firmware: a verified model

    The firmware turns an ESP32 into a small industrial controller.  A control
    task samples inputs, runs a ladder program and automation rules and drives
    relays, every millisecond; other tasks talk to a web page, to a wired RS485
    bus and to the other controllers of a cluster.  This library models the
    control side of it, translated from the C sources under [src/components],
    and proves what its parts promise.

    ** Parts and files

    - [Prelude]: records with named updates, machine integers as [Z] with their
      wrap-around ([u8] .. [i32]), arrays indexed as in C, the state monad [st]
      with its reasoning ([keeps] for invariants, triples), clocks, FNV-1a.
    - [Persist]: packed structures, checksums, the class [Nvs] of flash.
    - [Parser], [Rs485Wire], [Rs485Engine], [Rs485Master], [Fieldbus]: the field
      bus, from bytes to polls ([comm/parser], [runtime/rs485_engine],
      [runtime/rs485_master], [runtime/fieldbus], [runtime/latency_histogram]).
    - [EventBus]: the three ring buffers ([runtime/event_bus],
      [runtime/io_command], [runtime/event_set]); one refinement to a bounded
      FIFO serves them all.
    - [State]: the table of 256 values every part reads and writes ([data/state]);
      [StateApi] with [StateLaws] is what its clients rely on.
    - [Pve]: process variables, their alarms and settings ([runtime/pve]).
    - [Snapshot]: the state's image in flash ([runtime/snapshot]).
    - [Failsafe]: safe values and latches of outputs ([runtime/failsafe]);
      it implements [FailsafeApi].
    - [Ladder]: the bytecode engine ([runtime/ladder]).
    - [Cluster]: membership, ownership, failover and messages
      ([cluster/cluster_manager.c], [cluster_io.c], [cluster_failover.c],
      [cluster_events.c], [comm/protocol]).
    - [Automation]: rules, interlocks, delays, remote outputs ([runtime/automation]).
    - [NodeRegistry]: what the operator decided about nodes
      ([cluster/node_registry.c]); it implements [NodeRegistryApi].
    - [DeviceProfile]: the channels a board has and which pins they may use;
      [NetworkPolicy]: which networks and transports a node may use, and the pins
      that leaves ([device_profile]).
    - [IoBinding]: which pin or expander port each channel is bound to
      ([runtime/io_binding]).
    - [IoDriver]: debouncing, analog settling and relays
      ([runtime/io_driver], [data/io_image]).
    - [InputLearning] ([runtime/input_learning]), [Observability]
      ([observability], [runtime/runtime_monitor], [kernel/control_kernel]).
    - [Scheduler]: the five phases of a control cycle, composed of the above
      ([kernel/scheduler]).
    - [Watchdog] ([kernel/watchdog]) and [ControlLoop], the 1 ms task that runs
      the phases ([kernel/control_loop]).
    - [Onboarding]: who claimed the node ([onboarding]).
    - [V3]: the catalogue of resources with its discovery, events, persistence
      and pages ([v3]).
    - [Auth]: accounts, sessions and the audit log ([security/auth]).
    - [NetworkReady]: which link is active ([runtime/network/network_ready]);
      [SystemDiag]: causes of restarts ([data/system_diag]).
    - [ClusterTransport]: the messages of the cluster over UDP and the remote
      claim ([cluster/cluster_transport.c]).
    - [Rs485Port]: the UART driver with its direction pins ([hal/rs485]).
    - [HttpText], [InstallationMap], [Web], [WebIo], [WebConfig]: the web server
      ([runtime/http_server/http_server.c]): its texts; the table of names; reading
      requests, the requests about accounts and the web socket; the requests that
      switch outputs and set fail-safe policies; the requests about bindings,
      rules, programs and nodes.

    ** How the model is made

    The static variables of a C file are a record; a function that changes them
    is a state transformer [st W A], where [W] is the record together with what
    the function calls.  A component's [on_..] functions run a callee on its
    part of the state.  Error returns are values, early returns are branches,
    [NULL] is [None].  A critical section is one step; where other tasks may run
    between two sections, what they do is an argument ([others]).  Definitions
    keep the names of the source; [*_zero] is memory the loader or [memset]
    cleared.  Log lines are left out everywhere.

    A blob in flash is the list of bytes of the packed structure, with the bytes
    of the compiler's padding written as 0, which is what [= {0}] or [memset]
    leaves there.

    ** What the code calls and is not here

    Each is a class or an argument, with its documented behaviour as laws:
    - [Nvs] and [NvsKeys]: ESP-IDF's flash storage; any call may fail, and a
      blob that was set and committed is what a later read gives;
    - [SerialPort]: the UART; [Hardware]: GPIO and ADC, where a pin that is only
      an output reads 0; [RemoteQueue]: the FreeRTOS queue of the automation;
    - clocks: [esp_timer_get_time] and the raw timer count are streams of
      readings, one per component, for which theorems assume at most that they
      do not go back;
    - [NvsU32], [NvsProfile], [NvsEntries]: flash namespaces with other kinds of
      values; [Uart]: the UART driver of ESP-IDF; [Net]: sockets and the link of
      the cluster; mbedTLS's hash, the random generator and the MAC address are
      arguments of [Auth];
    - in the web server: a request is the record of what esp_http_server answers
      about it; [httpd_query_key_value] is an argument with its documented
      behaviour ([reads_forms], [reads_queries]); cJSON is the record
      [json_reader]; the cluster's transport is the class [TransportApi]; [malloc]
      is an argument where the contents of its block matter;
    - [NodeRegistryApi], [FailsafeApi], [StateApi]: the interfaces between
      components; their implementations are proved and are put together in
      [Scheduler], where the firmware is an instance of them and of their laws,
      and in the witnesses.

    ** What is proved

    - One cycle, pin to pin: [Scheduler.contact_drives_relay]; outputs follow
      the state and the owner whatever interleaves:
      [IoDriver.outputs_follow_state]; inputs are the reference debouncing:
      [IoDriver.input_debounced]; the loop runs exactly these cycles and aborts
      exactly on sustained overruns: [ControlLoop.rounds_run_control_cycles],
      [ControlLoop.deadline_fault_when_sustained], [ControlLoop.round_keeps_grid].
    - From a web page to the pin: [WebIo.web_command_drives_relay]; into the rule
      table: [WebConfig.rule_request_stores_rule]; into the ladder engine:
      [WebConfig.ladder_upload_reads_back]; what is typed into a form reaches the
      operation unchanged ([Web.first_admin_as_typed], [HttpText]).
    - Programs: what the loader accepts runs as its instructions say
      ([Ladder.loaded_program_meaning], [Ladder.rung_correct],
      [Ladder.ton_on_delay]) and every scan ends ([Ladder.scan_terminates]).
    - Safety of outputs: latches, safe states, interlocks
      ([Failsafe.manual_latch], [Failsafe.all_outputs_made_safe],
      [Automation.interlock_enforced], [Automation.remote_command_admission]).
    - Data: what is stored is what the next boot reads, and corruption is
      noticed (the [.._survive_reboot] theorems,
      [Snapshot.snapshot_corruption_rejected], [Rs485Wire.wire_roundtrip],
      [Rs485Wire.decode_sound], [Rs485Wire.single_byte_corruption_detected]).
    - Communication: supervision of links and nodes, polling, failover and
      ownership ([Rs485Engine.link_supervision],
      [Rs485Master.silent_bus_round_robin], [Fieldbus.poll_round_trip],
      [Cluster.failover_failback], [NodeRegistry.trust_only_by_operator]).
    - Accounts and admission: an administrator is never lost, changes need the
      rights they need, nobody is trusted but by the operator
      ([Auth.administrator_never_lost], [Auth.account_changes_authorized],
      [WebConfig.web_trust_needs_claim], [ClusterTransport.remote_claim_end_to_end]).
    - Wires: one channel per pin ([IoBinding.digital_addresses_exclusive]), the
      network policy is consistent ([NetworkPolicy.policy_always_consistent]), the
      bus is driven only while sending ([Rs485Port.bus_driven_only_while_sending]).
    - Restart of a stalled device exactly when a task stopped feeding:
      [Watchdog.restart_exactly_when_stalled].
    - Defects the model exposed, as theorems about the code as it is: among them
      [Scheduler.self_test_hides_contact], [IoDriver.concurrent_write_lost],
      [Automation.on_delay_ignores_interlock],
      [ControlLoop.phase_times_mislabelled].

    ** Bounds and fuel

    Every table has the size the source gives it.  [validate] and [run_loop] of
    [Ladder] have as fuel the length of the program, and [Ladder.scan_terminates]
    shows that the loop ends before; loops over tables recurse on the table; the drains of
    queues recurse on their budget; [event_process_set_queue] has as fuel the
    events queued.  The search of [V3] has one more than the records, the decoders
    [decode_inplace] and [cookie_scan] one more than the length of the text, and
    their lemmas show that it is enough; [decimal_digits] has 20, enough for 64
    bits; [flush_word] has the 32 bits of its word.  No other recursion of the
    model is bounded by fuel; of what stands for a client, [pages] of
    [V3] has the pages its theorem shows to be enough, and [kv_scan], a parser for
    the witnesses, the length of the query.

    ** Not modelled, and why

    - The rest of [runtime/http_server]: the JSON pages, which print what the
      components export; the requests about Wi-Fi, Ethernet, sensors and process
      variables, the proxy to other nodes, claiming and factory reset; the table
      of routes; constant headers.
    - [runtime/network] apart from [network_ready], [runtime/network_v1],
      [cluster_discovery.c]: drivers of lwIP, Wi-Fi, Ethernet and ESP-NOW; what
      they publish reaches the model through [NetworkReady] and [ClusterTransport].
    - [hal] apart from [hal/rs485], [drivers/sensor], [runtime/pve/telemetry.c],
      [util], [data/_device_manager]: register access, sensor protocols, text
      output.
    - [kernel/core/core_boot.c], [main]: the order in which the parts above are
      initialised and their tasks created.
    - [cluster_self_test.c] and [cluster_io_map.c]: disabled by macro, and never
      called.
    - Of modelled parts: names copied for display, [fieldbus_init]'s two answers
      of the device profile (arguments), log throttling. *)

From Stdlib Require Export ZArith Lia.
From stdpp Require Export base tactics relations numbers option list.

#[export] Set Default Goal Selector "!".

Declare Scope endap_scope.
Delimit Scope endap_scope with endap.
Open Scope Z_scope.
Open Scope endap_scope.

(** ** Record update

    The firmware keeps its state in file-level variables and mutates one field
    at a time; [r <| f := v |>] is that assignment.  A record opts in with an
    instance of [Rebuild] (its eta expansion), from which the setter of any of
    its fields is computed. *)

Class Rebuild (R : Type) := rebuild : R -> R.
Class Setter {R F : Type} (proj : R -> F) := update : (F -> F) -> R -> R.
Arguments update {R F} proj {_} _ _.

Ltac derive_setter :=
  lazymatch goal with
  | |- @Setter ?R ?F ?proj =>
    let inst := constr:(_ : Rebuild R) in
    let body := eval red in inst in
    let body := eval hnf in body in
    let abs := eval pattern proj in body in
    lazymatch abs with
    | ?ctx _ =>
      let r := constr:(fun (u : F -> F) (x : R) => ctx (fun y => u (proj y)) x) in
      let r := eval cbv beta in r in
      exact r
    end
  end.
#[export] Hint Extern 1 (Setter _) => derive_setter : typeclass_instances.

Notation "r <| f := v |>" := (update f (fun _ => v) r)
  (at level 12, f at next level, left associativity) : endap_scope.

(** ** Machine integers

    Values are [Z]; a cast to a [w]-bit C type is the wrap-around below. *)

Definition u8 (x : Z) : Z := x mod 256.
Definition u16 (x : Z) : Z := x mod 65536.
Definition u32 (x : Z) : Z := x mod 4294967296.
Definition u64 (x : Z) : Z := x mod 18446744073709551616.
Definition i8 (x : Z) : Z := (x + 128) mod 256 - 128.
Definition i16 (x : Z) : Z := (x + 32768) mod 65536 - 32768.
Definition i32 (x : Z) : Z := (x + 2147483648) mod 4294967296 - 2147483648.

Abbreviation is_u8 x := (0 <= x < 256) (only parsing).
Abbreviation is_u16 x := (0 <= x < 65536) (only parsing).
Abbreviation is_u32 x := (0 <= x < 4294967296) (only parsing).
Abbreviation is_u64 x := (0 <= x < 18446744073709551616) (only parsing).
Abbreviation is_i16 x := (-32768 <= x <= 32767) (only parsing).
Abbreviation is_i32 x := (-2147483648 <= x <= 2147483647) (only parsing).

Create HintDb endap discriminated.
Create Rewrite HintDb endap.

(** [word_lia] decides linear goals after replacing the wrap-arounds by their
    quotient-and-remainder equations. *)
Ltac unfold_wraps := unfold u8, u16, u32, u64, i8, i16, i32 in *.
Ltac word_lia := unfold_wraps; Z.to_euclidean_division_equations; lia.

Lemma u8_id x : is_u8 x -> u8 x = x.
Proof. intros. unfold u8. by rewrite Z.mod_small. Qed.
Lemma u16_id x : is_u16 x -> u16 x = x.
Proof. intros. unfold u16. by rewrite Z.mod_small. Qed.
Lemma u32_id x : is_u32 x -> u32 x = x.
Proof. intros. unfold u32. by rewrite Z.mod_small. Qed.
Lemma u64_id x : is_u64 x -> u64 x = x.
Proof. intros. unfold u64. by rewrite Z.mod_small. Qed.
Lemma i32_id x : is_i32 x -> i32 x = x.
Proof. intros. unfold i32. rewrite Z.mod_small; lia. Qed.

Lemma u8_range x : is_u8 (u8 x).
Proof. apply Z.mod_pos_bound; lia. Qed.
Lemma u16_range x : is_u16 (u16 x).
Proof. apply Z.mod_pos_bound; lia. Qed.
Lemma u32_range x : is_u32 (u32 x).
Proof. apply Z.mod_pos_bound; lia. Qed.
Lemma u64_range x : is_u64 (u64 x).
Proof. apply Z.mod_pos_bound; lia. Qed.
Lemma i16_id x : is_i16 x -> i16 x = x.
Proof. word_lia. Qed.
Lemma i16_range x : is_i16 (i16 x).
Proof. word_lia. Qed.
Lemma i32_range x : is_i32 (i32 x).
Proof. unfold i32. pose proof (Z.mod_pos_bound (x + 2147483648) 4294967296). lia. Qed.

#[export] Hint Resolve u8_range u16_range u32_range u64_range i32_range : endap.
#[export] Hint Rewrite u8_id u16_id u32_id u64_id i32_id using lia : endap.

(** A number below [2^n] has no bit from [n] on. *)
Lemma testbit_above x n i : 0 <= x < 2 ^ n -> 0 <= n <= i -> Z.testbit x i = false.
Proof.
  intros Hx Hi. rewrite <- (Z.mod_small x (2 ^ n)) by lia.
  by apply Z.mod_pow2_bits_high.
Qed.

Lemma lxor_range (n x y : Z) (Hn : 0 <= n) (Hx : 0 <= x < 2 ^ n) (Hy : 0 <= y < 2 ^ n) :
  0 <= Z.lxor x y < 2 ^ n.
Proof. assert (0 <= Z.lxor x y) by (apply Z.lxor_nonneg; lia).
  split; [done|].
  assert (Z.lxor x y = Z.lxor x y mod 2 ^ n) as ->.
  { apply Z.bits_inj'. intros i Hi. destruct (decide (i < n)).
    - by rewrite Z.mod_pow2_bits_low.
    - rewrite Z.mod_pow2_bits_high by lia.
      by rewrite Z.lxor_spec, (testbit_above x n), (testbit_above y n) by lia. }
  apply Z.mod_pos_bound. lia.
Qed.

(** ** Arithmetic of the byte packing *)

Lemma shiftl_lor_add h l n : 0 <= n -> 0 <= l < 2 ^ n -> Z.lor (Z.shiftl h n) l = h * 2 ^ n + l.
Proof.
  intros Hn Hl. rewrite <- Z.shiftl_mul_pow2 by done.
  symmetry. rewrite <- Z.lxor_lor.
  - apply Z.add_nocarry_lxor. apply Z.bits_inj'. intros i Hi.
    rewrite Z.land_spec, Z.bits_0. destruct (decide (i < n)).
    + by rewrite Z.shiftl_spec_low.
    + rewrite (testbit_above l n) by lia. by rewrite andb_false_r.
  - apply Z.bits_inj'. intros i Hi. rewrite Z.land_spec, Z.bits_0.
    destruct (decide (i < n)).
    + by rewrite Z.shiftl_spec_low.
    + rewrite (testbit_above l n) by lia. by rewrite andb_false_r.
Qed.

Lemma land_mask (x n : Z) (Hn : 0 <= n) : Z.land x (2 ^ n - 1) = x mod 2 ^ n.
Proof. rewrite <- Z.land_ones by done. f_equal. rewrite Z.ones_equiv. lia. Qed.

Lemma shiftr_div x n : 0 <= n -> Z.shiftr x n = x / 2 ^ n.
Proof. intros. by apply Z.shiftr_div_pow2. Qed.

(** The big-endian 16-bit packing that the frame uses for [msg_id] and the CRC. *)
Lemma pack16 x : is_u16 x ->
  u16 (Z.lor (Z.shiftl (u8 (Z.shiftr x 8)) 8) (u8 (Z.land x 255))) = x.
Proof.
  intros. change 255 with (2 ^ 8 - 1). rewrite (land_mask x 8), (shiftr_div x 8) by lia.
  rewrite shiftl_lor_add by (try lia; apply u8_range).
  change (2 ^ 8) with 256. word_lia.
Qed.

Lemma unpack16 h l : is_u8 h -> is_u8 l ->
  let x := u16 (Z.lor (Z.shiftl h 8) l) in
  u8 (Z.shiftr x 8) = h /\ u8 (Z.land x 255) = l.
Proof.
  intros Hh Hl x. subst x. rewrite shiftl_lor_add by lia.
  change 255 with (2 ^ 8 - 1). rewrite (land_mask _ 8), (shiftr_div _ 8) by lia.
  change (2 ^ 8) with 256. split; word_lia.
Qed.

(** ** Arrays

    A C array is a list; its indices are [Z].  Reads and writes out of range
    are undefined behaviour in C, so every use below guards them the way the
    code does; [zget] gives [None] and [zset] changes nothing there. *)

Definition zget {A} (l : list A) (i : Z) : option A :=
  if 0 <=? i then l !! Z.to_nat i else None.
Definition zset {A} (l : list A) (i : Z) (x : A) : list A :=
  if 0 <=? i then <[Z.to_nat i := x]> l else l.

Section zarray.
Context {A : Type}.
Implicit Types (l : list A) (i j : Z).

Lemma zget_range l i x : zget l i = Some x -> 0 <= i < Z.of_nat (length l).
Proof.
  unfold zget. destruct (Z.leb_spec 0 i); [|done].
  intros Hl%lookup_lt_Some. lia.
Qed.

Lemma zget_some l i : 0 <= i < Z.of_nat (length l) -> is_Some (zget l i).
Proof.
  intros. unfold zget. destruct (Z.leb_spec 0 i); [|lia].
  apply lookup_lt_is_Some. lia.
Qed.

Lemma length_zset l i x : length (zset l i x) = length l.
Proof. unfold zset. destruct (0 <=? i); by rewrite ?length_insert. Qed.

Lemma zget_zset_eq l i x : 0 <= i < Z.of_nat (length l) -> zget (zset l i x) i = Some x.
Proof.
  intros. unfold zget, zset. destruct (Z.leb_spec 0 i); [|lia].
  apply list_lookup_insert_eq. lia.
Qed.

Lemma zget_zset_ne l i j x : i <> j -> zget (zset l i x) j = zget l j.
Proof.
  intros. unfold zget, zset. destruct (Z.leb_spec 0 j), (Z.leb_spec 0 i); try done.
  apply list_lookup_insert_ne. lia.
Qed.

Lemma zget_nat l (n : nat) : zget l (Z.of_nat n) = l !! n.
Proof. unfold zget. destruct (Z.leb_spec 0 (Z.of_nat n)); [|lia]. by rewrite Nat2Z.id. Qed.
End zarray.
#[export] Hint Rewrite @length_zset : endap.

(** First index whose element satisfies [p]: the [for (...) if (p) return &a[i];]
    loop that most of the components use. *)
Fixpoint find_idx {A} (p : A -> bool) (l : list A) : option nat :=
  match l with
  | [] => None
  | x :: l => if p x then Some O else S <$> find_idx p l
  end.

Section find_idx.
Context {A : Type} (p : A -> bool).

Lemma find_idx_Some l i :
  find_idx p l = Some i ->
  exists x, l !! i = Some x /\ p x = true /\
    forall j y, (j < i)%nat -> l !! j = Some y -> p y = false.
Proof.
  revert i. induction l as [|x l IH]; intros i; cbn; [done|].
  destruct (p x) eqn:Hp.
  - intros [= <-]. exists x. repeat split; try done. intros; lia.
  - destruct (find_idx p l) as [k|] eqn:Hk; cbn; [|done]. intros [= <-].
    destruct (IH k eq_refl) as (y & Hy & Hpy & Hfirst).
    exists y. repeat split; try done.
    intros [|j] z Hj Hz; cbn in Hz; [by simplify_eq|]. eapply Hfirst; [|done]. lia.
Qed.

Lemma find_idx_None l : find_idx p l = None <-> forall x, x ∈ l -> p x = false.
Proof.
  induction l as [|x l IH]; cbn; [split; [intros _ y Hy; inversion Hy|done]|].
  destruct (p x) eqn:Hp.
  - split; [done|]. intros H. rewrite (H x) in Hp; [done|]. left.
  - rewrite fmap_None, IH. split.
    + intros H y [->|Hy]%elem_of_cons; [done|by apply H].
    + intros H y Hy. apply H. by right.
Qed.

Lemma find_idx_is_Some l x : x ∈ l -> p x = true -> is_Some (find_idx p l).
Proof.
  intros Hx Hp. destruct (find_idx p l) eqn:E; [done|].
  rewrite find_idx_None in E. rewrite (E _ Hx) in Hp. done.
Qed.

Lemma find_idx_lt l i : find_idx p l = Some i -> (i < length l)%nat.
Proof. intros (x & Hx & _)%find_idx_Some. by eapply lookup_lt_Some. Qed.

(** Uniqueness makes the first match the only one. *)
Lemma find_idx_unique l i x :
  l !! i = Some x -> p x = true ->
  (forall j y, l !! j = Some y -> p y = true -> j = i) -> find_idx p l = Some i.
Proof.
  intros Hx Hp Huniq.
  destruct (find_idx_is_Some l x) as [j Hj]; [by eapply list_elem_of_lookup_2|done|].
  destruct (find_idx_Some _ _ Hj) as (y & Hy & Hpy & _).
  by rewrite (Huniq j y Hy Hpy) in Hj.
Qed.

Lemma find_idx_snoc l x : find_idx p l = None -> p x = true -> find_idx p (l ++ [x]) = Some (length l).
Proof.
  intros Hl Hx. induction l as [|y l IH]; cbn in *; [by rewrite Hx|].
  destruct (p y); [done|]. apply fmap_None in Hl. by rewrite IH.
Qed.
End find_idx.

Lemma find_idx_ext {A} (p q : A -> bool) l :
  (forall x, x ∈ l -> p x = q x) -> find_idx p l = find_idx q l.
Proof.
  induction l as [|x l IH]; intros H; cbn; [done|].
  rewrite (H x) by left. case_match; [done|]. f_equal. apply IH. intros. apply H. by right.
Qed.

Lemma find_idx_fmap {A B} (g : A -> B) (p : B -> bool) l :
  find_idx p (g <$> l) = find_idx (fun x => p (g x)) l.
Proof. induction l as [|x l IH]; cbn; [done|]. case_match; [done|]. by rewrite IH. Qed.

(** An update of one element that keeps what the search looks at. *)
Lemma fmap_alter_same {A B} (g : A -> B) (h : A -> A) i (l : list A) :
  (forall x, l !! i = Some x -> g (h x) = g x) -> g <$> alter h i l = g <$> l.
Proof.
  intros H. apply list_eq. intros j. rewrite !list_lookup_fmap.
  destruct (decide (i = j)) as [->|]; [|by rewrite list_lookup_alter_ne].
  rewrite list_lookup_alter_eq. destruct (l !! j) as [x|]; cbn; [|done]. by rewrite H.
Qed.

Lemma alter_twice {A} (f g : A -> A) (i : nat) (l : list A) : alter f i (alter g i l) = alter (fun x => f (g x)) i l.
Proof.
  apply list_eq. intros j. destruct (decide (i = j)) as [->|]; [|by rewrite !list_lookup_alter_ne].
  rewrite !list_lookup_alter_eq. by destruct (l !! j).
Qed.

(** ** State passing

    A routine that reads and writes a state of type [W] and returns an [A]. *)
Definition st (W A : Type) : Type := W -> A * W.
#[export] Instance st_ret W : MRet (st W) := fun _ a w => (a, w).
#[export] Instance st_bind W : MBind (st W) :=
  fun _ _ k m w => let '(a, w) := m w in k a w.
Definition gets {W A} (f : W -> A) : st W A := fun w => (f w, w).
Definition modify {W} (f : W -> W) : st W () := fun w => (tt, f w).
(** Run a routine on a part of the state. *)
Definition on_part {W V A} (get : W -> V) (put : V -> W -> W) (m : st V A) : st W A :=
  fun w => let '(a, v) := m (get w) in (a, put v w).

(** Equations that run a routine one statement at a time. *)
Section run.
Context {W A B : Type}.
Lemma run_ret (a : A) (w : W) : (mret a : st W A) w = (a, w).
Proof. done. Qed.
Lemma run_bind_ret (a : A) (k : A -> st W B) w : ((mret a : st W A) ≫= k) w = k a w.
Proof. done. Qed.
Lemma run_bind_gets (f : W -> A) (k : A -> st W B) w : (gets f ≫= k) w = k (f w) w.
Proof. done. Qed.
Lemma run_bind_modify (f : W -> W) (k : () -> st W B) w : (modify f ≫= k) w = k tt (f w).
Proof. done. Qed.
Lemma run_bind_eq (m : st W A) (k : A -> st W B) w a w' : m w = (a, w') -> (m ≫= k) w = k a w'.
Proof. intros H. unfold mbind, st_bind. by rewrite H. Qed.
Lemma run_bind_surj (m : st W A) (k : A -> st W B) w : (m ≫= k) w = k (m w).1 (m w).2.
Proof. unfold mbind, st_bind. by destruct (m w). Qed.
Lemma run_gets (f : W -> A) w : gets f w = (f w, w).
Proof. done. Qed.
Lemma run_modify (f : W -> W) w : modify f w = (tt, f w).
Proof. done. Qed.
Lemma run_bind_assoc {C} (m : st W A) (k : A -> st W B) (h : B -> st W C) w :
  ((m ≫= k) ≫= h) w = (m ≫= (fun a => k a ≫= h)) w.
Proof. unfold mbind, st_bind. by destruct (m w). Qed.
End run.
Create Rewrite HintDb run.
#[export] Hint Rewrite @run_ret @run_bind_ret @run_bind_gets @run_bind_modify @run_gets
  @run_modify @run_bind_assoc : run.
Ltac run := autorewrite with run.

(** [for (...) body(x);] *)
Fixpoint for_each {W A} (body : A -> st W ()) (l : list A) : st W () :=
  match l with
  | [] => mret tt
  | x :: l => body x;; for_each body l
  end.
Lemma for_each_app {W A} (body : A -> st W ()) l1 l2 w :
  for_each body (l1 ++ l2) w = for_each body l2 (for_each body l1 w).2.
Proof.
  revert w. induction l1 as [|x l1 IH]; intros w; [done|]. cbn [for_each app].
  rewrite !run_bind_surj. apply IH.
Qed.

Lemma for_each_one {W A} (body : A -> st W ()) x w : (for_each body [x] w).2 = (body x w).2.
Proof. cbn [for_each]. by rewrite run_bind_surj. Qed.

(** [keeps I m]: the routine [m] preserves the invariant [I].  The rules below
    follow the shape of the code; [keeps] applies them. *)
Definition keeps {W A} (I : W -> Prop) (m : st W A) : Prop := forall w, I w -> I (m w).2.

Section keeps.
Context {W A B : Type} (I : W -> Prop).
Lemma keeps_ret (a : A) : keeps I (mret a).
Proof. by intros w. Qed.
Lemma keeps_gets (f : W -> A) : keeps I (gets f).
Proof. by intros w. Qed.
Lemma keeps_modify (f : W -> W) : (forall w, I w -> I (f w)) -> keeps I (modify f).
Proof. intros H w. apply H. Qed.
Lemma keeps_bind (m : st W A) (k : A -> st W B) :
  keeps I m -> (forall a, keeps I (k a)) -> keeps I (m ≫= k).
Proof.
  intros Hm Hk w Hw. rewrite run_bind_surj. by apply Hk, Hm.
Qed.
Lemma keeps_for_each {C} (body : C -> st W ()) (l : list C) :
  (forall x, x ∈ l -> keeps I (body x)) -> keeps I (for_each body l).
Proof.
  induction l as [|x l IH]; intros Hl; cbn [for_each]; [by intros w|]. intros w Hw. rewrite run_bind_surj.
  apply IH; [intros; apply Hl; by right|]. apply Hl; [by left|done].
Qed.
Lemma keeps_if (b : bool) (m n : st W A) :
  keeps I m -> keeps I n -> keeps I (if b then m else n).
Proof. by destruct b. Qed.
Lemma keeps_on_part (get : W -> B) (put : B -> W -> W) (m : st B A) :
  (forall w, I w -> I (put (m (get w)).2 w)) -> keeps I (on_part get put m).
Proof. intros H w Hw. unfold on_part. specialize (H w Hw). by destruct (m (get w)). Qed.
End keeps.
Create HintDb keeps discriminated.
#[export] Hint Resolve keeps_ret keeps_gets keeps_modify : keeps.
Ltac keeps_step :=
  first
    [ solve [auto with keeps]
    | lazymatch goal with
      | |- keeps _ (_ ≫= _) => apply keeps_bind; [|intros ?]
      | |- keeps _ (mret _) => apply keeps_ret
      | |- keeps _ (gets _) => apply keeps_gets
      | |- keeps _ (modify _) => apply keeps_modify; intros ? ?
      | |- keeps _ (if _ then _ else _) => apply keeps_if
      | |- keeps _ (match ?x with _ => _ end) => destruct x eqn:?
      | |- forall _, _ => intros ?
      end
    | progress cbv zeta ].
Ltac keeps := repeat keeps_step.

(** [hoare I m Q]: from a state in [I], the routine [m] gives a result and a
    state in [Q]. *)
Definition hoare {W A} (I : W -> Prop) (m : st W A) (Q : A -> W -> Prop) : Prop :=
  forall w, I w -> Q (m w).1 (m w).2.
Section hoare.
Context {W A B : Type} (I : W -> Prop).
Lemma hoare_ret (a : A) (Q : A -> W -> Prop) : (forall w, I w -> Q a w) -> hoare I (mret a) Q.
Proof. intros HQ w. apply HQ. Qed.
Lemma hoare_bind (m : st W A) (k : A -> st W B) (R : A -> W -> Prop) (Q : B -> W -> Prop) :
  hoare I m R -> (forall a, hoare (R a) (k a) Q) -> hoare I (m ≫= k) Q.
Proof. intros Hm Hk w Hw. rewrite run_bind_surj. by apply Hk, Hm. Qed.
(** A statement that keeps the invariant. *)
Lemma hoare_keep (m : st W A) (k : A -> st W B) (Q : B -> W -> Prop) :
  keeps I m -> (forall a, hoare I (k a) Q) -> hoare I (m ≫= k) Q.
Proof. intros Hm. by apply (hoare_bind m k (fun _ => I)). Qed.
(** A statement whose result is known from the invariant. *)
Lemma hoare_value (m : st W A) (k : A -> st W B) (Q : B -> W -> Prop) a :
  (forall w, I w -> (m w).1 = a /\ I (m w).2) -> hoare I (k a) Q -> hoare I (m ≫= k) Q.
Proof. intros Hm Hk w Hw. rewrite run_bind_surj. destruct (Hm w Hw) as [-> Hw']. by apply Hk. Qed.
(** A fact that does not depend on the state. *)
Lemma hoare_fact (C : Prop) (m : st W A) (Q : A -> W -> Prop) : (C -> hoare I m Q) -> hoare (fun w => C /\ I w) m Q.
Proof. intros Hm w [Hc Hw]. by apply Hm. Qed.
Lemma hoare_post (m : st W A) (Q Q' : A -> W -> Prop) : hoare I m Q -> (forall a w, Q a w -> Q' a w) -> hoare I m Q'.
Proof. intros Hm HQ w Hw. by apply HQ, Hm. Qed.
Lemma hoare_part {V} (J : V -> Prop) (get : W -> V) (put : V -> W -> W) (m : st V A) (Q : A -> V -> Prop) (Q' : A -> W -> Prop) :
  hoare J m Q -> (forall w, I w -> J (get w)) -> (forall w a v, I w -> Q a v -> Q' a (put v w)) -> hoare I (on_part get put m) Q'.
Proof.
  intros Hm Hget Hput w Hw. specialize (Hm _ (Hget w Hw)). unfold on_part. destruct (m (get w)) as [a v]. by apply Hput.
Qed.
End hoare.

(** ** Time

    [esp_timer_get_time] is ESP-IDF code: a clock is the stream of its readings
    and the number taken so far.  The documented behaviour the theorems use is
    that readings never go back. *)
Record clock := Clock { readings : nat -> Z; taken : nat }.
Definition clock_read : st clock Z :=
  fun c => (readings c (taken c), Clock (readings c) (S (taken c))).
Definition monotone (c : clock) : Prop :=
  forall i j, (i <= j)%nat -> readings c i <= readings c j.

(** ** FNV-1a

    The 32-bit FNV-1a hash, which the sources name [*_crc32] and copy into each
    file that persists a blob. *)
Definition fnv1a32 (data : list Z) : Z :=
  foldl (fun crc b => u32 (Z.lxor crc b * 16777619)) 2166136261 data.

Lemma fnv1a32_range data : is_u32 (fnv1a32 data).
Proof.
  unfold fnv1a32.
  assert (forall l a, is_u32 a ->
    is_u32 (foldl (fun crc b => u32 (Z.lxor crc b * 16777619)) a l)) as H.
  { induction l as [|b l IH]; intros a Ha; cbn; [lia|]. apply IH, u32_range. }
  apply H. lia.
Qed.
#[export] Hint Resolve fnv1a32_range : endap.
