(* ===== verification/Parser.v ===== *)
(** * The byte-level frame parser ([components/comm/parser/parser.c])

    The parser keeps a 192-byte buffer, the write index and two flags.  It
    collects what stands between ['<'] and ['>'].  The theorems relate it to the
    bytes fed since the last ['<']. *)

From S2P Require Import Prelude.

Definition START_BYTE : Z := 60.
Definition END_BYTE : Z := 62.
Definition PARSER_MAX_FRAME : Z := 192.

(** The file-level variables [frame], [index], [receiving], [frame_ready]. *)
Record parser := Parser {
  frame : list Z;
  index : Z;
  receiving : bool;
  frame_ready : bool;
}.
#[export] Instance parser_rebuild : Rebuild parser :=
  fun p => Parser (frame p) (index p) (receiving p) (frame_ready p).

Definition parser_zero : parser := Parser (replicate 192 0) 0 false false.

Definition parser_init (p : parser) : parser :=
  p <| index := 0 |> <| receiving := false |> <| frame_ready := false |>.

Definition parser_process_byte (b : Z) (p : parser) : bool * parser :=
  if b =? START_BYTE then (false, p <| receiving := true |> <| index := 0 |>)
  else if negb (receiving p) then (false, p)
  else if b =? END_BYTE then (true, p <| frame_ready := true |> <| receiving := false |>)
  else if index p <? PARSER_MAX_FRAME then
    (false, p <| frame := zset (frame p) (index p) b |> <| index := u16 (index p + 1) |>)
  else (false, p).

Definition parser_frame_available (p : parser) : bool := frame_ready p.

(** Returns the bytes written to [buf]; the C return value is their number, or
    [max_len] itself when it is negative, when nothing is written. *)
Definition parser_get_frame (max_len : Z) (p : parser) : (Z * list Z) * parser :=
  if negb (frame_ready p) then ((0, []), p)
  else
    let len := index p in
    let len := if max_len <? len then max_len else len in
    ((len, take (Z.to_nat len) (frame p)), p <| frame_ready := false |> <| index := 0 |>).

(** [for (...) if (parser_process_byte(bytes[i])) break;]: the reading loop of
    the engine, which stops at the byte that completes a frame. *)
Fixpoint parser_feed (bytes : list Z) (p : parser) : parser :=
  match bytes with
  | [] => p
  | b :: bytes =>
    let '(ready, p) := parser_process_byte b p in
    if ready then p else parser_feed bytes p
  end.

(** ** Invariant *)

Definition parser_wf (p : parser) : Prop :=
  length (frame p) = 192%nat /\ 0 <= index p <= 192.

(** The bytes collected so far. *)
Definition content (p : parser) : list Z := take (Z.to_nat (index p)) (frame p).

Lemma parser_zero_wf : parser_wf parser_zero.
Proof. split; cbn; lia. Qed.

Lemma parser_init_wf p : parser_wf p -> parser_wf (parser_init p).
Proof. intros [? ?]. split; cbn; [done|lia]. Qed.

Lemma parser_process_byte_wf b p : parser_wf p -> parser_wf (parser_process_byte b p).2.
Proof.
  intros [Hl Hi]. unfold parser_process_byte, PARSER_MAX_FRAME.
  repeat case_match; split; cbn; rewrite ?length_zset; try done; try lia.
  rewrite u16_id; lia.
Qed.

Lemma parser_feed_wf bytes p : parser_wf p -> parser_wf (parser_feed bytes p).
Proof.
  revert p. induction bytes as [|b bytes IH]; intros p Hp; cbn; [done|].
  pose proof (parser_process_byte_wf b p Hp) as Hw.
  destruct (parser_process_byte b p) as [[] p']; cbn in Hw; auto.
Qed.

Lemma parser_get_frame_wf n p : parser_wf p -> parser_wf (parser_get_frame n p).2.
Proof.
  intros [? ?]. unfold parser_get_frame. case_match; split; cbn; try done.
Qed.
#[export] Hint Resolve parser_zero_wf parser_init_wf parser_process_byte_wf
  parser_feed_wf parser_get_frame_wf : endap.

(** ** What a frame delivers *)

Lemma content_push b p :
  parser_wf p -> index p < 192 ->
  content (p <| frame := zset (frame p) (index p) b |> <| index := u16 (index p + 1) |>)
  = content p ++ [b].
Proof.
  intros [Hl Hi] Hlt. unfold content; cbn. rewrite u16_id by lia.
  unfold zset. destruct (Z.leb_spec 0 (index p)); [|lia].
  rewrite Z2Nat.inj_add by lia. change (Z.to_nat 1) with 1%nat. rewrite Nat.add_1_r.
  rewrite (take_S_r _ _ b) by (apply list_lookup_insert_eq; lia).
  by rewrite take_insert_ge by lia.
Qed.

Definition plain (b : Z) : Prop := b <> START_BYTE /\ b <> END_BYTE.

(** Collecting a body free of delimiters appends it, up to the buffer size, and
    a longer body is cut without any error being reported. *)
Lemma parser_feed_body body rest p :
  parser_wf p -> receiving p = true -> Forall plain body ->
  exists p', parser_feed (body ++ rest) p = parser_feed rest p' /\
    parser_wf p' /\ receiving p' = true /\ frame_ready p' = frame_ready p /\
    content p' = take 192 (content p ++ body).
Proof.
  revert p. induction body as [|b body IH]; intros p Hp Hr Hb.
  - exists p. rewrite app_nil_r. repeat split; try done; try apply Hp.
    rewrite take_ge; [done|]. unfold content. rewrite length_take.
    destruct Hp as [-> ?]. lia.
  - apply Forall_cons_1 in Hb as [[Hs He] Hb]. cbn [app parser_feed].
    assert (parser_wf (parser_process_byte b p).2) as Hw by auto with endap.
    assert (length (content p) = Z.to_nat (index p)) as Hlen.
    { unfold content. rewrite length_take. destruct Hp as [-> ?]. lia. }
    unfold parser_process_byte, PARSER_MAX_FRAME in *.
    rewrite (proj2 (Z.eqb_neq b START_BYTE)), Hr, (proj2 (Z.eqb_neq b END_BYTE)) in * by done.
    cbn [negb] in *. destruct (Z.ltb_spec (index p) 192); cbn [snd] in Hw.
    + destruct (IH _ Hw Hr Hb) as (p' & -> & Hw' & Hr' & Hf' & Hc').
      exists p'. repeat split; try done; try apply Hw'.
      rewrite Hc', content_push by done. by rewrite <- app_assoc.
    + destruct (IH _ Hp Hr Hb) as (p' & -> & Hw' & Hr' & Hf' & Hc').
      exists p'. repeat split; try done; try apply Hw'.
      rewrite Hc'. destruct Hp as [? ?].
      assert (length (content p) = 192)%nat by lia.
      rewrite !take_app_le by lia. done.
Qed.

(** From any well-formed state, ['<' body '>'] makes exactly [body] (its first
    192 bytes) available, whatever was collected before. *)
Lemma parser_delimited body rest p :
  parser_wf p -> Forall plain body ->
  let p' := parser_feed (START_BYTE :: body ++ END_BYTE :: rest) p in
  parser_wf p' /\ frame_ready p' = true /\ receiving p' = false /\
  content p' = take 192 body.
Proof.
  intros Hp Hb. cbn.
  set (p0 := p <| receiving := true |> <| index := 0 |>).
  assert (parser_wf p0) as H0 by (destruct Hp; split; cbn; [done|lia]).
  destruct (parser_feed_body body (END_BYTE :: rest) p0 H0 eq_refl Hb)
    as (p' & Hfeed & Hw & Hr & Hf & Hc).
  change (update index _ _) with p0. rewrite Hfeed. cbn. rewrite Hr. cbn.
  repeat split; try apply Hw. exact Hc.
Qed.

Lemma parser_get_frame_content n p :
  parser_wf p -> frame_ready p = true -> index p <= n ->
  parser_get_frame n p =
    ((index p, content p), p <| frame_ready := false |> <| index := 0 |>).
Proof.
  intros [Hl Hi] Hr Hn. unfold parser_get_frame. rewrite Hr; cbn.
  destruct (Z.ltb_spec n (index p)); [lia|]. done.
Qed.
