(* ===== verification/Rs485Wire.v ===== *)
(** * RS485 framing: CRC-16, hexadecimal armour, encode and decode
    ([components/runtime/rs485_engine/rs485_engine.c], first part) *)

From S2P Require Import Prelude Parser.

Definition RS485_FRAME_HEADER_SIZE : Z := 5.
Definition RS485_FRAME_CRC_SIZE : Z := 2.
Definition RS485_FRAME_MAX_PAYLOAD : Z := 64.
Definition RS485_FRAME_RAW_MAX : Z :=
  RS485_FRAME_HEADER_SIZE + RS485_FRAME_MAX_PAYLOAD + RS485_FRAME_CRC_SIZE.
Definition RS485_FRAME_WIRE_MAX : Z := RS485_FRAME_RAW_MAX * 2 + 2.

Definition RS485_FRAME_TYPE_POLL : Z := 1.
Definition RS485_FRAME_TYPE_ACK : Z := 2.
Definition RS485_FRAME_TYPE_CLUSTER_HEARTBEAT : Z := 16.
Definition RS485_FRAME_TYPE_CLUSTER_FRAME : Z := 17.

Inductive rx_result := RS485_ENGINE_RX_NONE | RS485_ENGINE_RX_FRAME | RS485_ENGINE_RX_CRC_ERROR | RS485_ENGINE_RX_FORMAT_ERROR.
#[export] Instance rx_result_eq_dec : EqDecision rx_result.
Proof. solve_decision. Defined.

(** [rs485_frame_t]; [payload] is the whole 64-byte array, of which the first
    [flen] bytes are meaningful. *)
Record rs485_frame := Frame {
  node : Z;
  msg_id : Z;
  ftype : Z;
  flen : Z;
  payload : list Z;
}.
#[export] Instance rs485_frame_rebuild : Rebuild rs485_frame :=
  fun f => Frame (node f) (msg_id f) (ftype f) (flen f) (payload f).

Definition frame_zero : rs485_frame := Frame 0 0 0 0 (replicate 64 0).

(** The representation invariant of the C structure. *)
Definition frame_wf (f : rs485_frame) : Prop :=
  is_u8 (node f) /\ is_u16 (msg_id f) /\ is_u8 (ftype f) /\ is_u8 (flen f) /\
  length (payload f) = 64%nat /\ Forall (fun b => is_u8 b) (payload f).

(** ** CRC *)

Definition crc_bit (crc : Z) : Z :=
  if Z.odd crc then u16 (Z.lxor (Z.shiftr crc 1) 40961) else Z.shiftr crc 1.
Definition crc_byte (crc data : Z) : Z := Nat.iter 8 crc_bit (Z.lxor crc data).
Definition rs485_crc16 (data : list Z) (len : Z) : Z :=
  foldl crc_byte 65535 (take (Z.to_nat len) data).

(** ** Hexadecimal *)

Definition nibble_to_hex (value : Z) : Z :=
  let value := Z.land value 15 in
  if value <? 10 then 48 + value else 65 + (value - 10).

Definition toupper (c : Z) : Z := if (97 <=? c) && (c <=? 122) then c - 32 else c.

Definition hex_to_nibble (value : Z) : Z :=
  if (48 <=? value) && (value <=? 57) then value - 48
  else
    let value := u8 (toupper value) in
    if (65 <=? value) && (value <=? 70) then 10 + (value - 65) else -1.

(** ** Encoding *)

(** [None] is the C result 0; otherwise the bytes of [raw], whose number is the
    C result. *)
Definition encode_raw_frame (f : rs485_frame) (max_len : Z) : option (list Z) :=
  if RS485_FRAME_MAX_PAYLOAD <? flen f then None
  else
    let raw_len := u16 (RS485_FRAME_HEADER_SIZE + flen f + RS485_FRAME_CRC_SIZE) in
    if max_len <? raw_len then None
    else
      let body := [node f; u8 (Z.shiftr (msg_id f) 8); u8 (Z.land (msg_id f) 255);
                   ftype f; flen f] ++ take (Z.to_nat (flen f)) (payload f) in
      let crc := rs485_crc16 body (u16 (RS485_FRAME_HEADER_SIZE + flen f)) in
      Some (body ++ [u8 (Z.shiftr crc 8); u8 (Z.land crc 255)]).

Definition hex_byte (b : Z) : list Z :=
  [u8 (nibble_to_hex (u8 (Z.shiftr b 4))); u8 (nibble_to_hex b)].

Definition encode_wire_frame (f : rs485_frame) (max_len : Z) : option (list Z) :=
  match encode_raw_frame f RS485_FRAME_RAW_MAX with
  | None => None
  | Some raw =>
    let wire_len := u16 (Z.of_nat (length raw) * 2 + 2) in
    if max_len <? wire_len then None
    else Some (START_BYTE :: concat (hex_byte <$> raw) ++ [END_BYTE])
  end.

(** ** Decoding *)

(** The loop that rebuilds [raw]; [None] is its early exit. *)
Fixpoint decode_pairs (wire : list Z) : option (list Z) :=
  match wire with
  | h :: l :: wire =>
    let hi := hex_to_nibble h in
    let lo := hex_to_nibble l in
    if (hi <? 0) || (lo <? 0) then None
    else cons (u8 (Z.lor (Z.shiftl hi 4) lo)) <$> decode_pairs wire
  | _ => Some []
  end.

Definition nth0 (l : list Z) (i : nat) : Z := default 0 (l !! i).

(** The result and the frame object as the call leaves it: only a [RS485_ENGINE_RX_FRAME]
    writes to it, and only the first [flen] payload bytes. *)
Definition decode_wire_frame (wire : list Z) (f : rs485_frame) : rx_result * rs485_frame :=
  let wire_len := Z.of_nat (length wire) in
  if (wire_len =? 0) || negb (Z.land wire_len 1 =? 0) then (RS485_ENGINE_RX_FORMAT_ERROR, f)
  else
    let raw_len := u16 (wire_len / 2) in
    if (raw_len <? RS485_FRAME_HEADER_SIZE + RS485_FRAME_CRC_SIZE)
       || (RS485_FRAME_RAW_MAX <? raw_len) then (RS485_ENGINE_RX_FORMAT_ERROR, f)
    else
      match decode_pairs wire with
      | None => (RS485_ENGINE_RX_FORMAT_ERROR, f)
      | Some raw =>
        let payload_len := nth0 raw 4 in
        let expected_len := u16 (RS485_FRAME_HEADER_SIZE + payload_len + RS485_FRAME_CRC_SIZE) in
        if negb (expected_len =? raw_len) then (RS485_ENGINE_RX_FORMAT_ERROR, f)
        else
          let expected_crc := u16 (Z.lor (Z.shiftl (nth0 raw (Z.to_nat (expected_len - 2))) 8)
                                         (nth0 raw (Z.to_nat (expected_len - 1)))) in
          let actual_crc := rs485_crc16 raw (u16 (expected_len - RS485_FRAME_CRC_SIZE)) in
          if negb (expected_crc =? actual_crc) then (RS485_ENGINE_RX_CRC_ERROR, f)
          else
            (RS485_ENGINE_RX_FRAME,
             f <| node := nth0 raw 0 |>
               <| msg_id := u16 (Z.lor (Z.shiftl (nth0 raw 1) 8) (nth0 raw 2)) |>
               <| ftype := nth0 raw 3 |>
               <| flen := payload_len |>
               <| payload := take (Z.to_nat payload_len) (drop 5 raw)
                             ++ drop (Z.to_nat payload_len) (payload f) |>)
      end.

(** ** The CRC register *)

Lemma crc_bit_range c : is_u16 c -> is_u16 (crc_bit c).
Proof.
  intros. unfold crc_bit. case_match; [apply u16_range|].
  rewrite (shiftr_div c 1) by lia. word_lia.
Qed.

(** The feedback polynomial has bit 15 set and the shifted register does not,
    so the top bit of the result tells which branch was taken. *)
Lemma crc_bit_odd c : is_u16 c -> Z.odd c = true ->
  crc_bit c = Z.lxor (Z.shiftr c 1) 40961 /\ Z.testbit (crc_bit c) 15 = true.
Proof.
  intros Hc Ho. unfold crc_bit. rewrite Ho.
  assert (0 <= Z.shiftr c 1 < 2 ^ 15) as Hs.
  { rewrite (shiftr_div c 1) by lia. split; word_lia. }
  rewrite u16_id.
  - split; [done|]. rewrite Z.lxor_spec, (testbit_above _ 15) by lia. done.
  - apply (lxor_range 16); lia.
Qed.

Lemma crc_bit_even c : is_u16 c -> Z.odd c = false ->
  crc_bit c = Z.shiftr c 1 /\ Z.testbit (crc_bit c) 15 = false.
Proof.
  intros Hc Ho. unfold crc_bit. rewrite Ho. split; [done|].
  apply (testbit_above _ 15); [|lia]. rewrite (shiftr_div c 1) by lia. split; word_lia.
Qed.

Lemma odd_shiftr_inj x y : Z.odd x = Z.odd y -> Z.shiftr x 1 = Z.shiftr y 1 -> x = y.
Proof.
  intros Ho Hs. rewrite (Z.div2_odd x), (Z.div2_odd y). rewrite !Z.div2_spec. congruence.
Qed.

Lemma crc_bit_inj x y : is_u16 x -> is_u16 y -> crc_bit x = crc_bit y -> x = y.
Proof.
  intros Hx Hy He.
  destruct (Z.odd x) eqn:Ox, (Z.odd y) eqn:Oy;
    repeat match goal with
    | H : is_u16 ?c, O : Z.odd ?c = true |- _ =>
      destruct (crc_bit_odd c H O) as [? ?]; clear H
    | H : is_u16 ?c, O : Z.odd ?c = false |- _ =>
      destruct (crc_bit_even c H O) as [? ?]; clear H
    end; try congruence; apply odd_shiftr_inj; try congruence.
  assert (Z.lxor (Z.lxor (Z.shiftr x 1) 40961) 40961 = Z.lxor (Z.lxor (Z.shiftr y 1) 40961) 40961)
    as Hc by congruence.
  by rewrite !Z.lxor_assoc, Z.lxor_nilpotent, !Z.lxor_0_r in Hc.
Qed.

Lemma crc_bits_range n c : is_u16 c -> is_u16 (Nat.iter n crc_bit c).
Proof. intros. induction n; cbn; [done|]. by apply crc_bit_range. Qed.

Lemma crc_bits_inj n x y :
  is_u16 x -> is_u16 y -> Nat.iter n crc_bit x = Nat.iter n crc_bit y -> x = y.
Proof.
  intros Hx Hy. induction n as [|n IH]; cbn; [done|]. intros He. apply IH.
  by apply crc_bit_inj; [apply crc_bits_range..|].
Qed.

Lemma lxor_cancel_l c x y : Z.lxor c x = Z.lxor c y -> x = y.
Proof.
  intros H. apply (f_equal (Z.lxor c)) in H.
  by rewrite <- !Z.lxor_assoc, Z.lxor_nilpotent, !Z.lxor_0_l in H.
Qed.

Lemma crc_xor_range c d : is_u16 c -> is_u8 d -> is_u16 (Z.lxor c d).
Proof. intros. apply (lxor_range 16); lia. Qed.

Lemma crc_byte_range c d : is_u16 c -> is_u8 d -> is_u16 (crc_byte c d).
Proof. intros. by apply crc_bits_range, crc_xor_range. Qed.

Lemma crc_byte_inj_data c x y :
  is_u16 c -> is_u8 x -> is_u8 y -> crc_byte c x = crc_byte c y -> x = y.
Proof.
  intros Hc Hx Hy He. apply (lxor_cancel_l c).
  by apply (crc_bits_inj 8); [apply crc_xor_range..|].
Qed.

Lemma crc_byte_inj_crc c c' x :
  is_u16 c -> is_u16 c' -> is_u8 x -> crc_byte c x = crc_byte c' x -> c = c'.
Proof.
  intros Hc Hc' Hx He. apply (lxor_cancel_l x). rewrite !(Z.lxor_comm x).
  by apply (crc_bits_inj 8); [apply crc_xor_range..|].
Qed.

Abbreviation bytes l := (Forall (fun b => is_u8 b) l) (only parsing).

Lemma crc_fold_range l c : bytes l -> is_u16 c -> is_u16 (foldl crc_byte c l).
Proof.
  revert c. induction l as [|b l IH]; intros c Hl Hc; cbn; [done|].
  apply Forall_cons in Hl as [? ?]. apply IH; [done|]. by apply crc_byte_range.
Qed.

Lemma crc_fold_inj l c c' :
  bytes l -> is_u16 c -> is_u16 c' -> foldl crc_byte c l = foldl crc_byte c' l -> c = c'.
Proof.
  revert c c'. induction l as [|b l IH]; intros c c' Hl Hc Hc'; cbn; [done|].
  apply Forall_cons in Hl as [? ?]. intros He.
  apply (crc_byte_inj_crc c c' b); try done. apply IH; try done; by apply crc_byte_range.
Qed.

(** Changing one byte always changes the CRC. *)
Lemma crc_fold_insert l c (i : nat) b x :
  bytes l -> is_u16 c -> is_u8 b -> l !! i = Some x -> b <> x ->
  foldl crc_byte c (<[i := b]> l) <> foldl crc_byte c l.
Proof.
  intros Hl Hc Hb Hx Hne He.
  rewrite <- (take_drop_middle l i x Hx) in He at 2.
  rewrite (insert_take_drop l i b) in He by (by eapply lookup_lt_Some).
  rewrite !foldl_app in He. cbn in He.
  assert (is_u8 x) as Hxr by exact (Forall_lookup_1 _ _ _ _ Hl Hx).
  assert (is_u16 (foldl crc_byte c (take i l))) as Hr by (by apply crc_fold_range; [apply Forall_take|]).
  apply crc_fold_inj in He;
    [|by apply Forall_drop|by apply crc_byte_range|by apply crc_byte_range].
  by apply crc_byte_inj_data in He.
Qed.

(** ** Hexadecimal pairs *)

Lemma nibble_roundtrip n : 0 <= n < 16 ->
  hex_to_nibble (u8 (nibble_to_hex n)) = n /\ plain (u8 (nibble_to_hex n)).
Proof.
  intros Hn.
  assert (Forall (fun n => hex_to_nibble (u8 (nibble_to_hex n)) = n /\
    u8 (nibble_to_hex n) <> START_BYTE /\ u8 (nibble_to_hex n) <> END_BYTE) (Z.of_nat <$> seq 0 16)) as Hall
    by (apply (bool_decide_unpack _); vm_compute; exact I).
  rewrite <- (Z2Nat.id n) by lia. refine (proj1 (Forall_forall _ _) Hall _ _).
  apply list_elem_of_fmap_2, elem_of_seq. lia.
Qed.

Lemma nibble_to_hex_mod v : nibble_to_hex v = nibble_to_hex (v mod 16).
Proof.
  unfold nibble_to_hex. change 15 with (2 ^ 4 - 1). rewrite !land_mask by lia.
  change (2 ^ 4) with 16. by rewrite Z.mod_mod by lia.
Qed.

Lemma hex_byte_nibbles b : is_u8 b ->
  hex_byte b = [u8 (nibble_to_hex (b / 16)); u8 (nibble_to_hex (b mod 16))].
Proof.
  intros. unfold hex_byte. rewrite (nibble_to_hex_mod b), (shiftr_div b 4) by lia.
  change (2 ^ 4) with 16. by rewrite (u8_id (b / 16)) by word_lia.
Qed.

Lemma decode_pairs_hex_byte b wire : is_u8 b ->
  decode_pairs (hex_byte b ++ wire) = cons b <$> decode_pairs wire.
Proof.
  intros Hb. rewrite hex_byte_nibbles by done. cbn [app decode_pairs].
  destruct (nibble_roundtrip (b / 16)) as [-> _]; [word_lia|].
  destruct (nibble_roundtrip (b mod 16)) as [-> _]; [word_lia|].
  destruct (Z.ltb_spec (b / 16) 0); [word_lia|].
  destruct (Z.ltb_spec (b mod 16) 0); [word_lia|]. cbn [orb].
  rewrite shiftl_lor_add by word_lia. change (2 ^ 4) with 16.
  f_equal. f_equal. word_lia.
Qed.

Lemma decode_pairs_hex raw : bytes raw -> decode_pairs (concat (hex_byte <$> raw)) = Some raw.
Proof.
  induction raw as [|b raw IH]; intros Hr; [done|]. apply Forall_cons in Hr as [? ?].
  cbn [fmap list_fmap concat]. by rewrite decode_pairs_hex_byte, IH.
Qed.

Lemma length_hex raw : length (concat (hex_byte <$> raw)) = (2 * length raw)%nat.
Proof. induction raw; cbn in *; lia. Qed.

Lemma hex_plain raw : bytes raw -> Forall plain (concat (hex_byte <$> raw)).
Proof.
  induction raw as [|b raw IH]; intros Hr; [by constructor|].
  apply Forall_cons in Hr as [? ?]. cbn [fmap list_fmap concat].
  apply Forall_app. split; [|by apply IH]. rewrite hex_byte_nibbles by done.
  repeat constructor; apply nibble_roundtrip; word_lia.
Qed.

(** ** Frames *)

(** The header and payload of a frame, as [encode_raw_frame] lays them out. *)
Definition frame_body (f : rs485_frame) : list Z :=
  [node f; u8 (Z.shiftr (msg_id f) 8); u8 (Z.land (msg_id f) 255); ftype f; flen f]
  ++ take (Z.to_nat (flen f)) (payload f).
Definition crc_trailer (crc : Z) : list Z := [u8 (Z.shiftr crc 8); u8 (Z.land crc 255)].
Definition crc_of (body : list Z) : Z := foldl crc_byte 65535 body.

Lemma frame_body_length f : frame_wf f -> flen f <= 64 ->
  length (frame_body f) = (5 + Z.to_nat (flen f))%nat.
Proof.
  intros (?&?&?&?&?&?) ?. unfold frame_body.
  rewrite length_app, length_take. cbn. lia.
Qed.

Lemma frame_body_bytes f : frame_wf f -> bytes (frame_body f).
Proof.
  intros (?&?&?&?&?&?). unfold frame_body.
  repeat (apply Forall_cons; split); try done; try apply u8_range.
  by apply Forall_take.
Qed.

Lemma crc_of_range body : bytes body -> is_u16 (crc_of body).
Proof. intros. by apply crc_fold_range. Qed.

Lemma crc_trailer_bytes crc : bytes (crc_trailer crc).
Proof. repeat (apply Forall_cons; split); try apply u8_range. done. Qed.

Lemma encode_raw_frame_eq f : frame_wf f -> flen f <= 64 ->
  encode_raw_frame f RS485_FRAME_RAW_MAX = Some (frame_body f ++ crc_trailer (crc_of (frame_body f))).
Proof.
  intros Hf Hl. pose proof (frame_body_length f Hf Hl) as Hlen.
  destruct Hf as (?&?&?&?&?&?).
  unfold encode_raw_frame, RS485_FRAME_MAX_PAYLOAD, RS485_FRAME_RAW_MAX, RS485_FRAME_MAX_PAYLOAD,
    RS485_FRAME_HEADER_SIZE, RS485_FRAME_CRC_SIZE.
  destruct (Z.ltb_spec 64 (flen f)); [lia|]. rewrite !u16_id by lia.
  destruct (Z.ltb_spec (5 + 64 + 2) (5 + flen f + 2)); [lia|].
  change ([node f; _; _; _; _] ++ take _ _) with (frame_body f).
  unfold rs485_crc16, crc_of, crc_trailer. rewrite take_ge by lia. done.
Qed.

(** What [decode_wire_frame] does once the armour is off: the shape every
    decoding theorem below reduces to. *)
Lemma decode_wire_frame_raw raw f0 :
  bytes raw -> (7 <= length raw <= 71)%nat ->
  decode_wire_frame (concat (hex_byte <$> raw)) f0 =
    let n := Z.to_nat (nth0 raw 4) in
    if negb (7 + nth0 raw 4 =? Z.of_nat (length raw)) then (RS485_ENGINE_RX_FORMAT_ERROR, f0)
    else if negb (u16 (Z.lor (Z.shiftl (nth0 raw (n + 5)) 8) (nth0 raw (n + 6)))
                  =? crc_of (take (5 + n) raw)) then (RS485_ENGINE_RX_CRC_ERROR, f0)
    else (RS485_ENGINE_RX_FRAME,
          f0 <| node := nth0 raw 0 |>
             <| msg_id := u16 (Z.lor (Z.shiftl (nth0 raw 1) 8) (nth0 raw 2)) |>
             <| ftype := nth0 raw 3 |>
             <| flen := nth0 raw 4 |>
             <| payload := take n (drop 5 raw) ++ drop n (payload f0) |>).
Proof.
  intros Hr Hl. unfold decode_wire_frame. rewrite length_hex, decode_pairs_hex by done.
  assert (is_u8 (nth0 raw 4)) as H4.
  { unfold nth0. destruct (raw !! 4%nat) as [x|] eqn:E; cbn; [|lia].
    exact (Forall_lookup_1 _ _ _ _ Hr E). }
  assert (Z.of_nat (2 * length raw) / 2 = Z.of_nat (length raw)) as -> by word_lia.
  assert (Z.land (Z.of_nat (2 * length raw)) 1 = 0) as ->.
  { change 1 with (2 ^ 1 - 1) at 1. rewrite land_mask by lia. word_lia. }
  unfold RS485_FRAME_RAW_MAX, RS485_FRAME_HEADER_SIZE, RS485_FRAME_CRC_SIZE, RS485_FRAME_MAX_PAYLOAD.
  rewrite !u16_id by lia.
  destruct (Z.eqb_spec (Z.of_nat (2 * length raw)) 0); [lia|].
  destruct (Z.ltb_spec (Z.of_nat (length raw)) (5 + 2)); [lia|].
  destruct (Z.ltb_spec (5 + 64 + 2) (Z.of_nat (length raw))); [lia|]. cbn [negb orb Z.eqb].
  replace (5 + nth0 raw 4 + 2) with (7 + nth0 raw 4) by lia.
  case_match; [done|].
  replace (Z.to_nat (7 + nth0 raw 4 - 2)) with (Z.to_nat (nth0 raw 4) + 5)%nat by lia.
  replace (Z.to_nat (7 + nth0 raw 4 - 1)) with (Z.to_nat (nth0 raw 4) + 6)%nat by lia.
  unfold rs485_crc16, crc_of.
  rewrite (u16_id (7 + nth0 raw 4 - 2)) by lia.
  replace (Z.to_nat (7 + nth0 raw 4 - 2)) with (5 + Z.to_nat (nth0 raw 4))%nat by lia.
  done.
Qed.

(** Two frame objects that carry the same message: equal headers and equal
    meaningful payload bytes. *)
Definition frame_equiv (f g : rs485_frame) : Prop :=
  node f = node g /\ msg_id f = msg_id g /\ ftype f = ftype g /\ flen f = flen g /\
  take (Z.to_nat (flen f)) (payload f) = take (Z.to_nat (flen g)) (payload g).
#[export] Instance frame_equiv_equivalence : Equivalence frame_equiv.
Proof.
  split.
  - intros f. by repeat split.
  - intros f g (?&?&?&?&?). by repeat split.
  - intros f g h (?&?&?&?&?) (?&?&?&?&?). repeat split; congruence.
Qed.

(** Encoding only looks at the message. *)
#[export] Instance encode_raw_frame_proper :
  Proper (frame_equiv ==> eq ==> eq) encode_raw_frame.
Proof.
  intros f g (Hn & Hm & Ht & Hl & Hp) n _ <-. unfold encode_raw_frame.
  by rewrite Hn, Hm, Ht, Hp, Hl.
Qed.
#[export] Instance encode_wire_frame_proper :
  Proper (frame_equiv ==> eq ==> eq) encode_wire_frame.
Proof. intros f g Hfg n _ <-. unfold encode_wire_frame. by rewrite Hfg. Qed.

Section frames.
Variable f : rs485_frame.
Hypothesis Hf : frame_wf f.
Hypothesis Hlen : flen f <= 64.

Lemma raw_length :
  length (frame_body f ++ crc_trailer (crc_of (frame_body f))) = (7 + Z.to_nat (flen f))%nat.
Proof. rewrite length_app, frame_body_length by done. cbn. lia. Qed.

Lemma raw_bytes : bytes (frame_body f ++ crc_trailer (crc_of (frame_body f))).
Proof. apply Forall_app. auto using frame_body_bytes, crc_trailer_bytes. Qed.

(** The wire form of a well-formed frame always fits the transmit buffer. *)
Lemma encode_wire_frame_eq :
  encode_wire_frame f RS485_FRAME_WIRE_MAX =
  Some (START_BYTE :: concat (hex_byte <$> (frame_body f ++ crc_trailer (crc_of (frame_body f))))
        ++ [END_BYTE]).
Proof.
  destruct Hf as (?&?&?&?&?&?).
  unfold encode_wire_frame. rewrite encode_raw_frame_eq, raw_length by done.
  rewrite u16_id by lia. unfold RS485_FRAME_WIRE_MAX, RS485_FRAME_RAW_MAX,
    RS485_FRAME_HEADER_SIZE, RS485_FRAME_MAX_PAYLOAD, RS485_FRAME_CRC_SIZE.
  destruct (Z.ltb_spec ((5 + 64 + 2) * 2 + 2) (Z.of_nat (7 + Z.to_nat (flen f)) * 2 + 2)); [lia|].
  done.
Qed.

Lemma nth0_app_l (l k : list Z) i : (i < length l)%nat -> nth0 (l ++ k) i = nth0 l i.
Proof. intros. unfold nth0. by rewrite lookup_app_l. Qed.
Lemma nth0_app_r (l k : list Z) i : nth0 (l ++ k) (length l + i) = nth0 k i.
Proof. unfold nth0. rewrite lookup_app_r by lia. do 2 f_equal. lia. Qed.

Lemma decode_encoded f0 : length (payload f0) = 64%nat ->
  exists f', decode_wire_frame
    (concat (hex_byte <$> (frame_body f ++ crc_trailer (crc_of (frame_body f))))) f0
    = (RS485_ENGINE_RX_FRAME, f') /\ frame_equiv f' f.
Proof.
  intros H0. pose proof raw_length as Hraw. pose proof (frame_body_length f Hf Hlen) as Hb.
  pose proof Hf as (?&?&?&?&Hp&?).
  rewrite decode_wire_frame_raw by (rewrite ?Hraw; try apply raw_bytes; lia).
  cbv zeta. rewrite Hraw.
  rewrite !(nth0_app_l _ _ 4), !(nth0_app_l _ _ 0), !(nth0_app_l _ _ 1), !(nth0_app_l _ _ 2),
    !(nth0_app_l _ _ 3) by (rewrite Hb; lia).
  change (nth0 (frame_body f) 4) with (flen f).
  change (nth0 (frame_body f) 0) with (node f). change (nth0 (frame_body f) 3) with (ftype f).
  replace (Z.to_nat (flen f) + 5)%nat with (length (frame_body f) + 0)%nat by lia.
  replace (Z.to_nat (flen f) + 6)%nat with (length (frame_body f) + 1)%nat by lia.
  rewrite !nth0_app_r.
  destruct (Z.eqb_spec (7 + flen f) (Z.of_nat (7 + Z.to_nat (flen f)))); [|lia]. cbn [negb].
  rewrite take_app_length' by lia.
  change (nth0 (crc_trailer (crc_of (frame_body f))) 0) with (u8 (Z.shiftr (crc_of (frame_body f)) 8)).
  change (nth0 (crc_trailer (crc_of (frame_body f))) 1) with (u8 (Z.land (crc_of (frame_body f)) 255)).
  rewrite pack16 by (by apply crc_of_range, frame_body_bytes).
  rewrite Z.eqb_refl. cbn [negb]. eexists. split; [done|].
  repeat split; cbn [node msg_id ftype flen payload update].
  - unfold nth0, frame_body; cbn. by apply pack16.
  - unfold frame_body at 1. cbn [app drop]. rewrite drop_0.
    rewrite take_app_le by (rewrite length_take, length_app, length_take; lia).
    rewrite take_take, Nat.min_id, take_app_le by (rewrite length_take; lia).
    by rewrite take_take, Nat.min_id.
Qed.
End frames.

(** ** What decoding accepts *)

Definition canon (v : Z) : Z := u8 (toupper v).

Lemma hex_to_nibble_canon v : is_u8 v -> 0 <= hex_to_nibble v ->
  0 <= hex_to_nibble v < 16 /\ u8 (nibble_to_hex (hex_to_nibble v)) = canon v.
Proof.
  intros Hv Hn. unfold hex_to_nibble, canon, toupper in *.
  destruct (Z.leb_spec 48 v), (Z.leb_spec v 57); cbn [andb] in *.
  - destruct (Z.leb_spec 97 v); [lia|]. cbn [andb].
    split; [lia|]. unfold nibble_to_hex. change 15 with (2 ^ 4 - 1). rewrite land_mask by lia.
    change (2 ^ 4) with 16. destruct (Z.ltb_spec ((v - 48) mod 16) 10); word_lia.
  - set (w := if (97 <=? v) && (v <=? 122) then v - 32 else v) in *.
    assert (is_u8 w) as Hw by (unfold w; destruct (Z.leb_spec 97 v), (Z.leb_spec v 122); cbn; lia).
    rewrite (u8_id w) in * by done. destruct (Z.leb_spec 65 w), (Z.leb_spec w 70); cbn [andb] in *; try lia.
    split; [lia|]. unfold nibble_to_hex. change 15 with (2 ^ 4 - 1). rewrite land_mask by lia.
    change (2 ^ 4) with 16. destruct (Z.ltb_spec ((10 + (w - 65)) mod 16) 10); word_lia.
  - set (w := if (97 <=? v) && (v <=? 122) then v - 32 else v) in *.
    assert (w = v) as -> by (unfold w; destruct (Z.leb_spec 97 v); cbn; lia).
    rewrite u8_id in * by done. destruct (Z.leb_spec 65 v); [lia|]. cbn [andb] in *. lia.
  - lia.
Qed.

(** A successful unarmouring inverts the armour, up to the case of the digits. *)
Lemma decode_pairs_inv wire raw :
  bytes wire -> Nat.Even (length wire) -> decode_pairs wire = Some raw ->
  bytes raw /\ concat (hex_byte <$> raw) = canon <$> wire /\ length wire = (2 * length raw)%nat.
Proof.
  revert raw. induction wire as [wire IH] using (induction_ltof1 _ (@length Z)).
  intros raw Hw He Hd. destruct wire as [|h [|l wire]].
  - cbn in Hd. simplify_eq. done.
  - cbn in He. destruct He as [k Hk]. lia.
  - apply Forall_cons in Hw as [Hh Hw]. apply Forall_cons in Hw as [Hl Hw].
    cbn [decode_pairs] in Hd.
    destruct (Z.ltb_spec (hex_to_nibble h) 0); [done|].
    destruct (Z.ltb_spec (hex_to_nibble l) 0); [done|]. cbn [orb] in Hd.
    destruct (decode_pairs wire) as [raw'|] eqn:E; [|done]. cbn in Hd. simplify_eq.
    destruct (IH wire) with raw' as (Hr & Hc & Hlen); try done.
    { unfold ltof. cbn. lia. }
    { destruct He as [k Hk]. exists (k - 1)%nat. cbn in Hk. lia. }
    destruct (hex_to_nibble_canon h Hh ltac:(lia)) as [Hhr Hhc].
    destruct (hex_to_nibble_canon l Hl ltac:(lia)) as [Hlr Hlc].
    rewrite shiftl_lor_add by lia. change (2 ^ 4) with 16.
    rewrite u8_id by lia. split; [|split].
    + apply Forall_cons. split; [lia|done].
    + cbn [fmap list_fmap concat]. rewrite Hc, hex_byte_nibbles by lia.
      rewrite <- Hhc, <- Hlc. cbn [app]. do 3 f_equal; [|f_equal]; word_lia.
    + cbn. lia.
Qed.

(** Decoding only looks at the length of the wire bytes and at what they armour. *)
Lemma decode_wire_frame_of_pairs w1 w2 f0 :
  length w1 = length w2 -> decode_pairs w1 = decode_pairs w2 ->
  decode_wire_frame w1 f0 = decode_wire_frame w2 f0.
Proof. intros Hl Hp. unfold decode_wire_frame. by rewrite Hl, Hp. Qed.

Lemma decode_wire_frame_lengths wire f0 f :
  Z.of_nat (length wire) < 65536 -> decode_wire_frame wire f0 = (RS485_ENGINE_RX_FRAME, f) ->
  Nat.Even (length wire) /\ (14 <= length wire <= 143)%nat /\ is_Some (decode_pairs wire).
Proof.
  intros Hlt Hd. unfold decode_wire_frame in Hd.
  change 1 with (2 ^ 1 - 1) in Hd. rewrite land_mask in Hd by lia. change (2 ^ 1) with 2 in Hd.
  change (RS485_FRAME_HEADER_SIZE + RS485_FRAME_CRC_SIZE) with 7 in Hd.
  change RS485_FRAME_RAW_MAX with 71 in Hd.
  rewrite u16_id in Hd by word_lia.
  destruct (Z.eqb_spec (Z.of_nat (length wire)) 0); [done|].
  destruct (Z.eqb_spec (Z.of_nat (length wire) mod 2) 0); [|done]. cbn [negb orb] in Hd.
  destruct (Z.ltb_spec (Z.of_nat (length wire) / 2) 7); [done|].
  destruct (Z.ltb_spec 71 (Z.of_nat (length wire) / 2)); [done|]. cbn [orb] in Hd.
  split; [exists (Z.to_nat (Z.of_nat (length wire) / 2)); word_lia|].
  split; [word_lia|]. by destruct (decode_pairs wire).
Qed.

Lemma nth0_byte raw i : bytes raw -> is_u8 (nth0 raw i).
Proof.
  intros Hr. unfold nth0. destruct (raw !! i) as [x|] eqn:E; cbn; [|lia].
  exact (Forall_lookup_1 _ _ _ _ Hr E).
Qed.

Lemma list_nth0_cons l : (0 < length l)%nat -> l = nth0 l 0 :: drop 1 l.
Proof. by destruct l as [|x l]; cbn; [lia|]; rewrite drop_0. Qed.

(** An accepted byte sequence is the encoding of the frame it decodes to. *)
Lemma decode_raw_sound raw f0 f :
  bytes raw -> (7 <= length raw <= 71)%nat -> length (payload f0) = 64%nat ->
  bytes (payload f0) ->
  decode_wire_frame (concat (hex_byte <$> raw)) f0 = (RS485_ENGINE_RX_FRAME, f) ->
  frame_wf f /\ flen f <= 64 /\ raw = frame_body f ++ crc_trailer (crc_of (frame_body f)).
Proof.
  intros Hr Hl Hp0 Hb0. rewrite decode_wire_frame_raw by done. cbv zeta.
  pose proof (nth0_byte raw 0 Hr). pose proof (nth0_byte raw 1 Hr). pose proof (nth0_byte raw 2 Hr).
  pose proof (nth0_byte raw 3 Hr). pose proof (nth0_byte raw 4 Hr).
  set (n := Z.to_nat (nth0 raw 4)) in *.
  destruct (Z.eqb_spec (7 + nth0 raw 4) (Z.of_nat (length raw))); cbn [negb]; [|done].
  destruct (Z.eqb_spec (u16 (Z.lor (Z.shiftl (nth0 raw (n + 5)) 8) (nth0 raw (n + 6))))
             (crc_of (take (5 + n) raw))) as [Hcrc|]; cbn [negb]; [|done].
  intros [= <-]. set (f := _ <| payload := _ |>).
  assert (frame_body f = take (5 + n) raw) as Hbody.
  { unfold frame_body, f. cbn [node msg_id ftype flen payload update].
    destruct (unpack16 (nth0 raw 1) (nth0 raw 2)) as [-> ->]; [done..|].
    rewrite take_app_le by (rewrite length_take, length_drop; lia).
    rewrite take_take, Nat.min_id. fold n.
    do 5 (destruct raw as [|? raw]; [cbn in Hl; lia|]). cbn. by rewrite drop_0. }
  split; [|split].
  - unfold frame_wf, f. cbn [node msg_id ftype flen payload update].
    repeat split; try lia; try apply u16_range.
    + rewrite length_app, length_take, !length_drop. lia.
    + apply Forall_app. split; [by apply Forall_take, Forall_drop|by apply Forall_drop].
  - unfold f. cbn [flen update]. lia.
  - rewrite Hbody, <- Hcrc. unfold crc_trailer.
    destruct (unpack16 (nth0 raw (n + 5)) (nth0 raw (n + 6))) as [-> ->]; [by apply nth0_byte..|].
    rewrite <- (take_drop (5 + n) raw) at 1. f_equal.
    assert (length (drop (5 + n) raw) = 2%nat) as Hd2 by (rewrite length_drop; lia).
    assert (nth0 raw (n + 5) = nth0 (drop (5 + n) raw) 0) as ->.
    { unfold nth0. rewrite lookup_drop. do 2 f_equal. lia. }
    assert (nth0 raw (n + 6) = nth0 (drop (5 + n) raw) 1) as ->.
    { unfold nth0. rewrite lookup_drop. do 2 f_equal. lia. }
    by destruct (drop (5 + n) raw) as [|? [|? [|]]]; cbn in Hd2; try lia.
Qed.

(** Ground instances of the invariants. *)
Ltac solve_bytes := cbn; repeat (apply Forall_cons; split; [lia|]); by apply Forall_nil.
Ltac solve_frame_wf :=
  unfold frame_wf; split_and!;
  first [solve [solve_bytes] | by cbn | cbn; lia].

(** ** Claims *)

(** C24: Round trip through the bus: the bytes [encode_wire_frame] produces for a
    well-formed frame, read by the parser from any state it can be in (and
    whatever follows on the line), make a frame available whose bytes decode to
    the same message. *)
Theorem wire_roundtrip (f f0 : rs485_frame) (p : parser) (rest : list Z) :
  frame_wf f -> flen f <= 64 -> frame_wf f0 -> parser_wf p ->
  exists wire p' n w f',
    encode_wire_frame f RS485_FRAME_WIRE_MAX = Some wire /\
    parser_feed (wire ++ rest) p = p' /\
    parser_frame_available p' = true /\
    (parser_get_frame RS485_FRAME_WIRE_MAX p').1 = (n, w) /\ 0 < n /\
    decode_wire_frame w f0 = (RS485_ENGINE_RX_FRAME, f') /\ frame_equiv f' f.
Proof.
  intros Hf Hlen Hf0 Hp.
  pose proof (encode_wire_frame_eq f Hf Hlen) as Hw. pose proof (raw_length f Hf Hlen) as Hrl.
  pose proof (raw_bytes f Hf) as Hrb.
  destruct (decode_encoded f Hf Hlen f0) as (f' & Hd & He); [apply Hf0|].
  set (hex := concat (hex_byte <$> _)) in *.
  assert (length hex = 2 * (7 + Z.to_nat (flen f)))%nat as Hhl.
  { unfold hex. by rewrite length_hex, Hrl. }
  destruct (parser_delimited hex rest p Hp (hex_plain _ Hrb)) as (Hw' & Hr & _ & Hc).
  set (p' := parser_feed (START_BYTE :: hex ++ END_BYTE :: rest) p) in *.
  assert (index p' = Z.of_nat (length hex)) as Hi.
  { apply (f_equal length) in Hc. unfold content in Hc. rewrite !length_take in Hc.
    destruct Hw'. lia. }
  eexists _, p', (index p'), hex, f'. split; [exact Hw|]. repeat split; try done; try apply He.
  - unfold p'. cbn [app]. by rewrite <- app_assoc.
  - rewrite parser_get_frame_content by (try done; unfold RS485_FRAME_WIRE_MAX,
      RS485_FRAME_RAW_MAX, RS485_FRAME_HEADER_SIZE, RS485_FRAME_MAX_PAYLOAD, RS485_FRAME_CRC_SIZE; lia).
    cbn [fst]. by rewrite Hc, take_ge by lia.
  - lia.
Qed.

Lemma wire_roundtrip_witness :
  exists wire p' n w f',
    encode_wire_frame (Frame 3 258 RS485_FRAME_TYPE_ACK 2 ([171; 5] ++ replicate 62 0)) RS485_FRAME_WIRE_MAX
      = Some wire /\
    parser_feed (wire ++ [60; 1]) parser_zero = p' /\
    parser_frame_available p' = true /\
    (parser_get_frame RS485_FRAME_WIRE_MAX p').1 = (n, w) /\ 0 < n /\
    decode_wire_frame w frame_zero = (RS485_ENGINE_RX_FRAME, f') /\
    frame_equiv f' (Frame 3 258 RS485_FRAME_TYPE_ACK 2 ([171; 5] ++ replicate 62 0)).
Proof.
  apply (wire_roundtrip (Frame 3 258 RS485_FRAME_TYPE_ACK 2 ([171; 5] ++ replicate 62 0))
           frame_zero parser_zero [60; 1]).
  - solve_frame_wf.
  - cbn; lia.
  - solve_frame_wf.
  - apply parser_zero_wf.
Defined.

(** C25: Decoding is sound: when it reports a frame, the frame object is
    well-formed and re-encoding it gives back the bytes received, delimiters
    added and hexadecimal digits in upper case.  So no malformed or truncated
    line is ever taken for a frame, and two different messages never share an
    encoding. *)
Theorem decode_sound (wire : list Z) (f0 f : rs485_frame) :
  bytes wire -> Z.of_nat (length wire) < 65536 -> frame_wf f0 ->
  decode_wire_frame wire f0 = (RS485_ENGINE_RX_FRAME, f) ->
  frame_wf f /\
  encode_wire_frame f RS485_FRAME_WIRE_MAX = Some (START_BYTE :: (canon <$> wire) ++ [END_BYTE]).
Proof.
  intros Hw Hlt (_&_&_&_&Hp0&Hb0) Hd.
  destruct (decode_wire_frame_lengths _ _ _ Hlt Hd) as (Heven & Hlen & [raw Hraw]).
  destruct (decode_pairs_inv _ _ Hw Heven Hraw) as (Hr & Hc & Hl2).
  rewrite (decode_wire_frame_of_pairs wire (concat (hex_byte <$> raw))) in Hd;
    [|by rewrite length_hex|by rewrite decode_pairs_hex].
  destruct (decode_raw_sound raw f0 f Hr ltac:(lia) Hp0 Hb0 Hd) as (Hf & Hle & ->).
  split; [done|]. by rewrite encode_wire_frame_eq, Hc.
Qed.

(** The line "030102020" "1abbfdd" with lower-case digits. *)
Lemma decode_sound_witness :
  let wire := [48; 51; 48; 49; 48; 50; 48; 50; 48; 49; 97; 98; 98; 102; 100; 100] in
  let f := (decode_wire_frame wire frame_zero).2 in
  frame_wf f /\
  encode_wire_frame f RS485_FRAME_WIRE_MAX = Some (START_BYTE :: (canon <$> wire) ++ [END_BYTE]).
Proof.
  intros wire f. apply (decode_sound wire frame_zero f).
  - solve_bytes.
  - cbn; lia.
  - solve_frame_wf.
  - vm_compute. reflexivity.
Defined.

(** C26: Every corruption confined to one byte of the raw frame (header,
    payload or CRC) is rejected: the CRC-16 update is injective both in the
    register and in the byte, so the check never lets one through. *)
Theorem single_byte_corruption_detected (f f0 : rs485_frame) (raw : list Z) (i : nat) (b : Z) :
  frame_wf f -> flen f <= 64 -> frame_wf f0 ->
  encode_raw_frame f RS485_FRAME_RAW_MAX = Some raw ->
  (i < length raw)%nat -> is_u8 b -> raw !! i <> Some b ->
  (decode_wire_frame (concat (hex_byte <$> <[i := b]> raw)) f0).1 <> RS485_ENGINE_RX_FRAME.
Proof.
  intros Hf Hlen (_&_&_&_&Hp0&Hb0) Hraw Hi Hb Hne.
  rewrite encode_raw_frame_eq in Hraw by done. simplify_eq.
  pose proof (raw_length f Hf Hlen) as Hrl. pose proof (raw_bytes f Hf) as Hrb.
  pose proof (frame_body_length f Hf Hlen) as Hbl.
  set (raw := frame_body f ++ _) in *. set (raw' := <[i := b]> raw).
  assert (length raw' = length raw) as Hl' by apply length_insert.
  assert (bytes raw') as Hrb' by (unfold raw'; by apply Forall_insert).
  destruct (decode_wire_frame _ f0) as [r f'] eqn:Hd. cbn. intros ->.
  pose proof Hf as (?&?&?&?&?&?).
  destruct (decode_raw_sound raw' f0 f' Hrb' ltac:(lia) Hp0 Hb0 Hd) as (Hf' & Hle' & Heq).
  pose proof (raw_length f' Hf' Hle') as Hrl'. rewrite <- Heq in Hrl'.
  pose proof (frame_body_length f' Hf' Hle') as Hbl'.
  assert (length (frame_body f') = length (frame_body f)) as Hbb by lia.
  assert (is_u16 (crc_of (frame_body f))) as Hcr.
  { by apply crc_of_range, frame_body_bytes. }
  assert (is_u16 (crc_of (frame_body f'))) as Hcr' by (by apply crc_of_range, frame_body_bytes).
  destruct (decide (i < length (frame_body f))%nat) as [Hin|Hout].
  - assert (raw' = <[i := b]> (frame_body f) ++ crc_trailer (crc_of (frame_body f))) as Hx
      by (unfold raw', raw; by rewrite insert_app_l).
    rewrite Heq in Hx. apply app_inj_1 in Hx as [Hx1 Hx2]; [|by rewrite length_insert].
    unfold crc_trailer in Hx2. injection Hx2 as Ha Hc.
    assert (crc_of (frame_body f') = crc_of (frame_body f)) as Hcc.
    { rewrite <- (pack16 (crc_of (frame_body f'))), <- (pack16 (crc_of (frame_body f))) by done.
      by rewrite Ha, Hc. }
    rewrite Hx1 in Hcc. destruct (lookup_lt_is_Some_2 _ _ Hin) as [x Hx].
    revert Hcc. apply (crc_fold_insert _ _ _ _ x); try done; [by apply frame_body_bytes|].
    intros ->. apply Hne. unfold raw. by rewrite lookup_app_l.
  - assert (raw' = frame_body f ++ <[(i - length (frame_body f))%nat := b]>
              (crc_trailer (crc_of (frame_body f)))) as Hx
      by (unfold raw', raw; by rewrite insert_app_r_alt by lia).
    rewrite Heq in Hx. apply app_inj_1 in Hx as [Hx1 Hx2]; [|done].
    apply Hne. unfold raw. rewrite lookup_app_r by lia.
    rewrite Hx1 in Hx2. rewrite Hx2. apply list_lookup_insert_eq.
    change (length (crc_trailer _)) with 2%nat.
    lia.
Qed.

Lemma single_byte_corruption_detected_witness :
  (decode_wire_frame (concat (hex_byte <$> <[5%nat := 172]> [3; 1; 2; 2; 1; 171; 191; 221]))
     frame_zero).1 <> RS485_ENGINE_RX_FRAME.
Proof.
  apply (single_byte_corruption_detected (Frame 3 258 2 1 (171 :: replicate 63 0))).
  - solve_frame_wf.
  - cbn; lia.
  - solve_frame_wf.
  - vm_compute. reflexivity.
  - cbn; lia.
  - lia.
  - done.
Defined.
