(* ===== verification/Rs485Engine.v ===== *)
(** * The RS485 engine: link state of the nodes, poll responder, self test
    ([components/runtime/rs485_engine/rs485_engine.c], second part, and
    [components/cluster/node_identity/node_identity.c]) *)

From S2P Require Import Prelude Parser Rs485Wire.

(** ** The serial port

    What the engine asks of the UART layer ([rs485_read_bytes],
    [rs485_send_bytes]).  [recv n] returns at most [n] bytes. *)
Class SerialPort (P : Type) := {
  recv : Z -> st P (list Z);
  send : list Z -> st P ();
}.
Class SerialPortLaws (P : Type) `{SerialPort P} := {
  recv_bound n p : 0 <= n -> Z.of_nat (length (recv n p).1) <= n;
  recv_bytes n p : Forall (fun b => is_u8 b) (recv n p).1;
}.

(** A port that plays a script of received bytes and records what is sent: the
    instance the concrete runs below use. *)
Record script := Script { incoming : list Z; outgoing : list (list Z) }.
#[export] Instance script_rebuild : Rebuild script :=
  fun s => Script (incoming s) (outgoing s).
#[export] Instance script_port : SerialPort script := {
  recv n s := (take (Z.to_nat n) (incoming s), s <| incoming := drop (Z.to_nat n) (incoming s) |>);
  send w s := (tt, s <| outgoing := outgoing s ++ [w] |>);
}.

(** ** Data *)

Definition RS485_ENGINE_MAX_NODES : Z := 64.
Definition RS485_ENGINE_TIMEOUT_MS : Z := 100.
Definition RS485_ENGINE_SELF_TEST_NODE_ID : Z := 1.
Definition RS485_ENGINE_SELF_TEST_ACK_DELAY_US : Z := 500.
Definition RS485_ENGINE_RX_BYTES_PER_CALL : Z := 16.

Inductive node_state := NODE_STATE_UNKNOWN | NODE_STATE_ONLINE | NODE_STATE_OFFLINE.
#[export] Instance node_state_eq_dec : EqDecision node_state.
Proof. solve_decision. Defined.

Record node_entry := NodeEntry { state : node_state; last_seen_us : Z; retry : Z }.
#[export] Instance node_entry_rebuild : Rebuild node_entry :=
  fun n => NodeEntry (state n) (last_seen_us n) (retry n).
Definition node_entry_zero : node_entry := NodeEntry NODE_STATE_UNKNOWN 0 0.

(** [rs485_engine_metrics_t] *)
Record engine_metrics := EngineMetrics {
  em_enabled : bool;
  em_self_test_enabled : bool;
  em_self_test_active : bool;
  em_tx_count : Z;
  em_tx_bytes : Z;
  em_rx_count : Z;
  em_rx_bytes : Z;
  em_crc_error_count : Z;
  em_format_error_count : Z;
  em_last_tx_ms : Z;
  em_last_rx_ms : Z;
}.
#[export] Instance engine_metrics_rebuild : Rebuild engine_metrics := fun m =>
  EngineMetrics (em_enabled m) (em_self_test_enabled m) (em_self_test_active m) (em_tx_count m)
    (em_tx_bytes m) (em_rx_count m) (em_rx_bytes m) (em_crc_error_count m)
    (em_format_error_count m) (em_last_tx_ms m) (em_last_rx_ms m).
Definition engine_metrics_zero : engine_metrics := EngineMetrics false false false 0 0 0 0 0 0 0 0.

(** The file-level variables of the engine, with what they reach: the parser,
    the clock, the port, the MAC address ([None] when [esp_read_mac] fails), the
    identity derived from it, and the frames handed to the external callback
    ([has_callback] is whether one is registered). *)
Record engine {P : Type} := Engine {
  nodes : list node_entry;
  metrics : engine_metrics;
  engine_enabled : bool;
  self_test_enabled : bool;
  self_test_pending : bool;
  self_test_wire : list Z;
  self_test_ready_us : Z;
  local_node_id : Z;
  has_callback : bool;
  ack_pending : bool;
  pending_ack_frame : rs485_frame;
  the_parser : parser;
  the_clock : clock;
  the_port : P;
  mac : option (list Z);
  node_id : Z;
  external : list rs485_frame;
}.
Arguments engine : clear implicits.
Arguments Engine {P}.
#[export] Instance engine_rebuild {P} : Rebuild (engine P) := fun e =>
  Engine (nodes e) (metrics e) (engine_enabled e) (self_test_enabled e) (self_test_pending e)
    (self_test_wire e) (self_test_ready_us e) (local_node_id e) (has_callback e) (ack_pending e)
    (pending_ack_frame e) (the_parser e) (the_clock e) (the_port e) (mac e) (node_id e) (external e).

(** The variables at program start. *)
Definition engine_zero {P} (port : P) (clk : clock) (m : option (list Z)) : engine P :=
  Engine (replicate 64 node_entry_zero) engine_metrics_zero false false false [] 0 0 false false
    frame_zero parser_zero clk port m 0 [].

(** ** Node identity *)

Definition mac_to_id (m : list Z) : Z :=
  u32 (Z.lor (Z.lor (Z.lor (Z.shiftl (nth0 m 2) 24) (Z.shiftl (nth0 m 3) 16))
                    (Z.shiftl (nth0 m 4) 8))
             (nth0 m 5)).

(** [rs485_engine_compute_local_node_id] *)
Definition compute_local_node_id (uid : Z) : Z :=
  let id := u8 (uid mod RS485_ENGINE_MAX_NODES + 1) in
  if id =? 0 then 1 else id.

Section engine.
Context {P : Type} `{SerialPort P}.
Implicit Types e : engine P.

Definition esp_timer_get_time : st (engine P) Z :=
  on_part the_clock (fun c e => e <| the_clock := c |>) clock_read.
Definition with_parser {A} (m : st parser A) : st (engine P) A :=
  on_part the_parser (fun p e => e <| the_parser := p |>) m.
Definition with_port {A} (m : st P A) : st (engine P) A :=
  on_part the_port (fun p e => e <| the_port := p |>) m.
Definition now_ms : st (engine P) Z := t ← esp_timer_get_time; mret (u32 (t / 1000)).
Definition upd_metrics (f : engine_metrics -> engine_metrics) : st (engine P) () :=
  modify (fun e => e <| metrics := f (metrics e) |>).

Definition node_identity_init : st (engine P) () :=
  modify (fun e => match mac e with
                   | None => e <| node_id := 0 |>
                   | Some m => e <| node_id := mac_to_id m |>
                   end).

Definition rs485_engine_local_node_id : st (engine P) Z :=
  id ← gets local_node_id;
  if id =? 0 then
    node_identity_init;;
    modify (fun e => e <| local_node_id := compute_local_node_id (node_id e) |>);;
    gets local_node_id
  else mret id.

(** ** Control *)

Definition rs485_engine_init : st (engine P) () :=
  modify (fun e =>
    e <| nodes := replicate 64 node_entry_zero |> <| metrics := engine_metrics_zero |>
      <| the_parser := parser_init (the_parser e) |>);;
  node_identity_init;;
  modify (fun e =>
    e <| local_node_id := compute_local_node_id (node_id e) |>
      <| ack_pending := false |> <| pending_ack_frame := frame_zero |>
      <| self_test_pending := false |> <| self_test_wire := [] |> <| self_test_ready_us := 0 |>
      <| metrics := (metrics e) <| em_self_test_enabled := self_test_enabled e |>
                                <| em_self_test_active := false |> |>
      <| nodes := (fun n => n <| state := NODE_STATE_UNKNOWN |>) <$> nodes e |>).

Definition rs485_engine_enable : st (engine P) () :=
  modify (fun e => e <| engine_enabled := true |>
                     <| metrics := (metrics e) <| em_enabled := true |> |>).

Definition rs485_engine_disable : st (engine P) () :=
  modify (fun e => e <| engine_enabled := false |> <| ack_pending := false |>
                     <| metrics := (metrics e) <| em_enabled := false |>
                                               <| em_self_test_active := false |> |>).

Definition rs485_engine_set_self_test (enabled : bool) : st (engine P) () :=
  modify (fun e => e <| self_test_enabled := enabled |> <| self_test_pending := false |>
                     <| self_test_wire := [] |> <| self_test_ready_us := 0 |>
                     <| metrics := (metrics e) <| em_self_test_enabled := enabled |>
                                               <| em_self_test_active := false |> |>).

Definition rs485_engine_self_test_enabled e : bool := self_test_enabled e.

Definition rs485_engine_register_external_frame_callback (cb : bool) : st (engine P) () :=
  modify (fun e => e <| has_callback := cb |>).

(** ** Node table *)

Definition node_index (id : Z) : Z := u8 (id - 1).

Definition rs485_engine_node_state (id : Z) e : node_state :=
  if RS485_ENGINE_MAX_NODES <=? node_index id then NODE_STATE_UNKNOWN
  else from_option state NODE_STATE_UNKNOWN (zget (nodes e) (node_index id)).

Definition rs485_engine_node_online (id : Z) e : bool :=
  if RS485_ENGINE_MAX_NODES <=? node_index id then false
  else bool_decide (state <$> zget (nodes e) (node_index id) = Some NODE_STATE_ONLINE).

(** [nodes[idx] = ONLINE, seen now, no retry] *)
Definition mark_online (idx : Z) : st (engine P) () :=
  t ← esp_timer_get_time;
  modify (fun e => e <| nodes := zset (nodes e) idx (NodeEntry NODE_STATE_ONLINE (u64 t) 0) |>).

Definition rs485_engine_on_ack (id : Z) : st (engine P) () :=
  if RS485_ENGINE_MAX_NODES <=? node_index id then mret tt else mark_online (node_index id).

(** ** Sending *)

Definition count_tx (wire : list Z) (ms : Z) (m : engine_metrics) : engine_metrics :=
  m <| em_tx_count := u32 (em_tx_count m + 1) |>
    <| em_tx_bytes := u32 (em_tx_bytes m + Z.of_nat (length wire)) |>
    <| em_last_tx_ms := ms |>.

Definition rs485_engine_send (f : rs485_frame) : st (engine P) () :=
  en ← gets engine_enabled;
  if negb en then mret tt
  else
    ms ← now_ms;
    self ← gets self_test_enabled;
    if self && (ftype f =? RS485_FRAME_TYPE_POLL) && (node f =? RS485_ENGINE_SELF_TEST_NODE_ID)
    then
      let ack := Frame (node f) (msg_id f) RS485_FRAME_TYPE_ACK 0 (replicate 64 0) in
      let wire := default [] (encode_wire_frame ack RS485_FRAME_WIRE_MAX) in
      t ← esp_timer_get_time;
      modify (fun e =>
        e <| self_test_wire := wire |>
          <| self_test_ready_us := u64 (u64 t + RS485_ENGINE_SELF_TEST_ACK_DELAY_US) |>
          <| self_test_pending := bool_decide (wire <> []) |>
          <| metrics := (count_tx wire ms (metrics e))
               <| em_self_test_active := bool_decide (wire <> []) |> |>)
    else
      match encode_wire_frame f RS485_FRAME_WIRE_MAX with
      | None => mret tt
      | Some wire => with_port (send wire);; upd_metrics (count_tx wire ms)
      end.

(** ** The 1 ms tick *)

Definition node_timeout (now : Z) (n : node_entry) : node_entry :=
  if bool_decide (state n <> NODE_STATE_ONLINE) then n
  else if RS485_ENGINE_TIMEOUT_MS * 1000 <? u64 (now - last_seen_us n)
       then n <| state := NODE_STATE_OFFLINE |> else n.

Definition rs485_engine_tick_1ms : st (engine P) () :=
  en ← gets engine_enabled;
  if negb en then mret tt
  else
    pend ← gets ack_pending;
    (if pend : bool then
       modify (fun e => e <| ack_pending := false |>);;
       f ← gets pending_ack_frame;
       rs485_engine_send f
     else mret tt);;
    now ← esp_timer_get_time;
    modify (fun e => e <| nodes := node_timeout (u64 now) <$> nodes e |>).

(** ** Receiving *)

Definition rs485_engine_should_reply_to_poll (f : rs485_frame) : st (engine P) bool :=
  if negb (ftype f =? RS485_FRAME_TYPE_POLL) then mret false
  else if negb (flen f =? 0) then mret false
  else id ← rs485_engine_local_node_id; mret (node f =? id).

Definition rs485_engine_feed_parser_bounded (bs : list Z) (len : Z) : st (engine P) () :=
  let budget := if RS485_ENGINE_RX_BYTES_PER_CALL <? len
                then RS485_ENGINE_RX_BYTES_PER_CALL else len in
  with_parser (modify (parser_feed (take (Z.to_nat budget) bs))).

(** The self-test injection at the head of [rs485_engine_receive]. *)
Definition receive_self_test : st (engine P) () :=
  e ← gets id;
  if self_test_enabled e && self_test_pending e then
    now ← esp_timer_get_time;
    if self_test_ready_us e <=? u64 now then
      rs485_engine_feed_parser_bounded (self_test_wire e) (Z.of_nat (length (self_test_wire e)));;
      avail ← gets (fun e => parser_frame_available (the_parser e));
      if avail : bool then
        modify (fun e => e <| self_test_pending := false |> <| self_test_wire := [] |>
                           <| metrics := (metrics e) <| em_self_test_active := false |> |>)
      else mret tt
    else mret tt
  else mret tt.

(** The counters of the [switch (result)]. *)
Definition count_rx (result : rx_result) (wire_len : Z) : st (engine P) () :=
  match result with
  | RS485_ENGINE_RX_FRAME =>
    upd_metrics (fun m => m <| em_rx_count := u32 (em_rx_count m + 1) |>
                            <| em_rx_bytes := u32 (em_rx_bytes m + u32 wire_len) |>);;
    ms ← now_ms;
    upd_metrics (fun m => m <| em_last_rx_ms := ms |>)
  | RS485_ENGINE_RX_CRC_ERROR =>
    upd_metrics (fun m => m <| em_crc_error_count := u32 (em_crc_error_count m + 1) |>)
  | RS485_ENGINE_RX_FORMAT_ERROR =>
    upd_metrics (fun m => m <| em_format_error_count := u32 (em_format_error_count m + 1) |>)
  | RS485_ENGINE_RX_NONE => mret tt
  end.

(** What a received frame triggers in the engine itself.  A poll for this node
    records the acknowledgement that the next tick sends. *)
Definition receive_frame (f : rs485_frame) : st (engine P) rx_result :=
  reply ← rs485_engine_should_reply_to_poll f;
  if reply : bool then
    modify (fun e =>
      e <| pending_ack_frame := (pending_ack_frame e) <| node := node f |> <| msg_id := msg_id f |>
             <| ftype := RS485_FRAME_TYPE_ACK |> <| flen := 0 |> |>
        <| ack_pending := true |>);;
    mret RS485_ENGINE_RX_NONE
  else if (ftype f =? RS485_FRAME_TYPE_CLUSTER_HEARTBEAT)
          || (ftype f =? RS485_FRAME_TYPE_CLUSTER_FRAME) then
    (if negb (node f =? 0) && (node_index (node f) <? RS485_ENGINE_MAX_NODES)
     then mark_online (node_index (node f)) else mret tt);;
    modify (fun e => if has_callback e then e <| external := external e ++ [f] |> else e);;
    mret RS485_ENGINE_RX_NONE
  else mret RS485_ENGINE_RX_FRAME.

(** [rs485_engine_receive] from the point where a chunk has been read. *)
Definition receive_chunk (f : rs485_frame) (chunk : list Z) : st (engine P) (rx_result * rs485_frame) :=
  with_parser (modify (parser_feed chunk));;
  avail ← gets (fun e => parser_frame_available (the_parser e));
  if negb avail then mret (RS485_ENGINE_RX_NONE, f)
  else
    lw ← with_parser (parser_get_frame RS485_FRAME_WIRE_MAX);
    let '(wire_len, wire) := lw in
    if wire_len <=? 0 then
      upd_metrics (fun m => m <| em_format_error_count := u32 (em_format_error_count m + 1) |>);;
      mret (RS485_ENGINE_RX_FORMAT_ERROR, f)
    else
      let '(result, f) := decode_wire_frame wire f in
      count_rx result wire_len;;
      match result with
      | RS485_ENGINE_RX_FRAME => r ← receive_frame f; mret (r, f)
      | _ => mret (result, f)
      end.

Definition rs485_engine_receive (f : rs485_frame) : st (engine P) (rx_result * rs485_frame) :=
  receive_self_test;;
  chunk ← with_port (recv RS485_ENGINE_RX_BYTES_PER_CALL);
  receive_chunk f chunk.

Definition rs485_engine_get_metrics : st (engine P) engine_metrics :=
  modify (fun e => e <| metrics := (metrics e) <| em_enabled := engine_enabled e |>
                          <| em_self_test_enabled := self_test_enabled e |>
                          <| em_self_test_active := self_test_pending e |> |>);;
  gets metrics.

(** ** Link supervision *)

Lemma mark_online_eq idx e :
  mark_online idx e =
    (tt, e <| the_clock := (clock_read (the_clock e)).2 |>
           <| nodes := zset (nodes e) idx
                (NodeEntry NODE_STATE_ONLINE (u64 (clock_read (the_clock e)).1) 0) |>).
Proof. done. Qed.

Lemma rs485_engine_tick_idle e :
  engine_enabled e = true -> ack_pending e = false ->
  rs485_engine_tick_1ms e =
    (tt, e <| the_clock := (clock_read (the_clock e)).2 |>
           <| nodes := node_timeout (u64 (clock_read (the_clock e)).1) <$> nodes e |>).
Proof. intros He Ha. unfold rs485_engine_tick_1ms. run. rewrite He. cbn [negb]. run. by rewrite Ha. Qed.

(** C27: The engine's notion of a live node: right after an acknowledgement the
    node is online; the tick that reads a time more than 100 ms later turns it
    offline, an earlier one leaves it online; and no other node is touched by
    the acknowledgement. *)
Theorem link_supervision e (id : Z) :
  engine_enabled e = true -> ack_pending e = false ->
  length (nodes e) = 64%nat -> 1 <= id <= 64 ->
  let c := the_clock e in
  let t0 := readings c (taken c) in
  let t1 := readings c (S (taken c)) in
  0 <= t0 <= t1 -> t1 < 18446744073709551616 ->
  let e1 := (rs485_engine_on_ack id e).2 in
  let e2 := (rs485_engine_tick_1ms e1).2 in
  rs485_engine_node_state id e1 = NODE_STATE_ONLINE /\
  rs485_engine_node_state id e2 =
    (if t1 - t0 <=? 100000 then NODE_STATE_ONLINE else NODE_STATE_OFFLINE) /\
  (forall id', id' <> id -> 1 <= id' <= 64 ->
     rs485_engine_node_state id' e1 = rs485_engine_node_state id' e).
Proof.
  intros He Ha Hn Hid c t0 t1 Ht Ht1 e1 e2.
  assert (node_index id = id - 1) as Hidx by (unfold node_index; rewrite u8_id; lia).
  assert (e1 = (mark_online (id - 1) e).2) as He1.
  { unfold e1, rs485_engine_on_ack. rewrite Hidx. unfold RS485_ENGINE_MAX_NODES.
    destruct (Z.leb_spec 64 (id - 1)); [lia|done]. }
  assert (zget (nodes e1) (id - 1) = Some (NodeEntry NODE_STATE_ONLINE t0 0)) as Hget.
  { rewrite He1, mark_online_eq. cbn. rewrite zget_zset_eq by lia. fold c. fold t0. by rewrite u64_id by lia. }
  unfold rs485_engine_node_state. rewrite Hidx. unfold RS485_ENGINE_MAX_NODES.
  destruct (Z.leb_spec 64 (id - 1)); [lia|]. rewrite Hget. cbn [from_option].
  split; [done|]. split.
  - unfold e2. rewrite rs485_engine_tick_idle by (rewrite He1; done).
    cbn [snd nodes update]. unfold zget in *. destruct (0 <=? id - 1); [|done].
    rewrite list_lookup_fmap, Hget. rewrite He1, mark_online_eq. cbn. fold c. fold t1. rewrite u64_id by lia.
    unfold node_timeout, RS485_ENGINE_TIMEOUT_MS. cbn. rewrite bool_decide_eq_false_2 by tauto.
    rewrite u64_id by lia. change (100 * 1000) with 100000.
    destruct (Z.leb_spec (t1 - t0) 100000), (Z.ltb_spec 100000 (t1 - t0)); cbn; try done; lia.
  - intros id' Hne Hid'. unfold node_index. rewrite u8_id by lia.
    destruct (Z.leb_spec 64 (id' - 1)); [lia|]. rewrite He1, mark_online_eq. cbn.
    by rewrite zget_zset_ne by lia.
Qed.

(** ** Responding to polls *)

Lemma parser_feed_whole_frame body (e : engine P) :
  parser_wf (the_parser e) -> Forall plain body -> (length body <= 142)%nat ->
  let p := parser_feed (START_BYTE :: body ++ [END_BYTE]) (the_parser e) in
  parser_frame_available p = true /\
  parser_get_frame RS485_FRAME_WIRE_MAX p =
    ((Z.of_nat (length body), body), p <| frame_ready := false |> <| index := 0 |>).
Proof.
  intros Hp Hb Hl p. destruct (parser_delimited body [] _ Hp Hb) as (Hw & Hr & _ & Hc). fold p in Hw, Hr, Hc.
  split; [done|]. rewrite take_ge in Hc by lia.
  assert (index p = Z.of_nat (length body)) as Hi.
  { apply (f_equal length) in Hc. unfold content in Hc. rewrite length_take in Hc.
    destruct Hw. lia. }
  rewrite parser_get_frame_content, Hc, Hi; try done. rewrite Hi.
  unfold RS485_FRAME_WIRE_MAX, RS485_FRAME_RAW_MAX, RS485_FRAME_HEADER_SIZE,
    RS485_FRAME_MAX_PAYLOAD, RS485_FRAME_CRC_SIZE. lia.
Qed.

Lemma receive_no_self_test e :
  self_test_enabled e && self_test_pending e = false -> receive_self_test e = (tt, e).
Proof. intros Hs. unfold receive_self_test. run. cbn [id]. by rewrite Hs. Qed.

Lemma count_rx_keeps r n e :
  let e' := (count_rx r n e).2 in
  engine_enabled e' = engine_enabled e /\ local_node_id e' = local_node_id e /\
  the_port e' = the_port e /\ pending_ack_frame e' = pending_ack_frame e /\
  self_test_enabled e' = self_test_enabled e /\ nodes e' = nodes e.
Proof. by destruct r. Qed.

(** A whole encoded frame in one chunk reaches [receive_frame]. *)
Lemma receive_whole_frame f f0 e :
  frame_wf f -> flen f <= 64 -> length (payload f0) = 64%nat -> parser_wf (the_parser e) ->
  exists wire f' e1,
    encode_wire_frame f RS485_FRAME_WIRE_MAX = Some wire /\ frame_equiv f' f /\
    receive_chunk f0 wire e =
      (let (r, e2) := receive_frame f' e1 in ((r, f'), e2)) /\
    engine_enabled e1 = engine_enabled e /\ local_node_id e1 = local_node_id e /\
    the_port e1 = the_port e /\ pending_ack_frame e1 = pending_ack_frame e /\
    self_test_enabled e1 = self_test_enabled e /\ nodes e1 = nodes e.
Proof.
  intros Hf Hl H0 Hp. pose proof (raw_length f Hf Hl) as Hrl.
  set (raw := frame_body f ++ crc_trailer (crc_of (frame_body f))) in *.
  pose proof (raw_bytes f Hf) as Hrb. fold raw in Hrb.
  assert (length (concat (hex_byte <$> raw)) = 2 * length raw)%nat as Hhl by apply length_hex.
  destruct (parser_feed_whole_frame (concat (hex_byte <$> raw)) e Hp) as [Ha Hg];
    [by apply hex_plain|lia|].
  destruct (decode_encoded f Hf Hl f0 H0) as (f' & Hd & He). fold raw in Hd.
  eexists _, f', _. split; [by apply encode_wire_frame_eq|]. split; [exact He|]. split.
  - fold raw. unfold receive_chunk, with_parser, on_part. run. cbn [the_parser update].
    unfold mbind at 1, st_bind at 1. cbn [modify]. run. cbn [the_parser update].
    rewrite Ha. cbn [negb]. unfold mbind at 1, st_bind at 1. cbn [the_parser update]. rewrite Hg.
    destruct (Z.leb_spec (Z.of_nat (length (concat (hex_byte <$> raw)))) 0); [lia|].
    rewrite Hd. rewrite run_bind_surj. cbv beta.
    unfold mbind, st_bind. reflexivity.
  - cbv beta. match goal with |- context [count_rx ?r ?n ?e] => apply (count_rx_keeps r n e) end.
Qed.

Lemma empty_frame_wf n m t : is_u8 n -> is_u16 m -> is_u8 t -> frame_wf (Frame n m t 0 (replicate 64 0)).
Proof.
  intros. split_and!; cbn [node msg_id ftype flen payload]; try lia; [done|].
  apply Forall_replicate. lia.
Qed.

Lemma tick_sends_ack e wire :
  engine_enabled e = true -> ack_pending e = true ->
  ftype (pending_ack_frame e) = RS485_FRAME_TYPE_ACK ->
  encode_wire_frame (pending_ack_frame e) RS485_FRAME_WIRE_MAX = Some wire ->
  the_port (rs485_engine_tick_1ms e).2 = (send wire (the_port e)).2 /\
  ack_pending (rs485_engine_tick_1ms e).2 = false.
Proof.
  intros He Ha Ht Hw. unfold rs485_engine_tick_1ms. run. rewrite He. cbn [negb]. run.
  rewrite Ha. run. cbn [pending_ack_frame update]. unfold rs485_engine_send. run.
  cbn [engine_enabled update]. rewrite He. cbn [negb].
  unfold now_ms, esp_timer_get_time, with_port, upd_metrics, on_part, gets, modify, clock_read.
  unfold mbind, st_bind, mret, st_ret. cbn [fst snd self_test_enabled update]. rewrite Ht.
  change (RS485_FRAME_TYPE_ACK =? RS485_FRAME_TYPE_POLL) with false.
  rewrite andb_false_r. cbn [andb]. rewrite Hw. cbn. by destruct (send _ _).
Qed.

(** A POLL for this node that arrives whole is kept from the caller and leaves
    the acknowledgement to be sent. *)
Lemma receive_poll e f0 n m :
  self_test_enabled e = false -> parser_wf (the_parser e) ->
  local_node_id e = n -> 1 <= n <= 64 -> is_u16 m ->
  frame_wf (pending_ack_frame e) -> length (payload f0) = 64%nat ->
  let msg t := encode_wire_frame (Frame n m t 0 (replicate 64 0)) RS485_FRAME_WIRE_MAX in
  msg RS485_FRAME_TYPE_POLL = Some (recv RS485_ENGINE_RX_BYTES_PER_CALL (the_port e)).1 ->
  exists ack f' e2,
    msg RS485_FRAME_TYPE_ACK = Some ack /\ rs485_engine_receive f0 e = ((RS485_ENGINE_RX_NONE, f'), e2) /\
    engine_enabled e2 = engine_enabled e /\ ack_pending e2 = true /\ ftype (pending_ack_frame e2) = RS485_FRAME_TYPE_ACK /\
    encode_wire_frame (pending_ack_frame e2) RS485_FRAME_WIRE_MAX = Some ack /\
    the_port e2 = (recv RS485_ENGINE_RX_BYTES_PER_CALL (the_port e)).2.
Proof.
  intros Hs Hp Hn Hr Hm Hpf H0 msg Hmsg.
  destruct (recv RS485_ENGINE_RX_BYTES_PER_CALL (the_port e)) as [chunk p1] eqn:Hrecv.
  cbn [fst snd] in *. set (e0 := e <| the_port := p1 |>).
  destruct (receive_whole_frame (Frame n m RS485_FRAME_TYPE_POLL 0 (replicate 64 0)) f0 e0)
    as (wire & f' & e1 & Hw & Hfe & Hrec & Hen & Hid & Hport & Hpend & Hst & _);
    [by apply empty_frame_wf; try lia|done|done|done|].
  unfold msg in Hmsg. rewrite Hw in Hmsg. injection Hmsg as <-.
  destruct Hfe as (Hfn & Hfm & Hft & Hfl & _). cbn in Hfn, Hfm, Hft, Hfl.
  set (ackf := pending_ack_frame e <| node := n |> <| msg_id := m |>
                 <| ftype := RS485_FRAME_TYPE_ACK |> <| flen := 0 |>).
  assert (frame_wf ackf) as Hack.
  { destruct Hpf as (?&?&?&?&?&?). split_and!; cbn; try lia; done. }
  set (e2 := e1 <| pending_ack_frame := ackf |> <| ack_pending := true |>).
  assert (receive_frame f' e1 = (RS485_ENGINE_RX_NONE, e2)) as Hrf.
  { unfold receive_frame, rs485_engine_should_reply_to_poll. rewrite Hft, Hfl, !Z.eqb_refl. cbn [negb].
    unfold rs485_engine_local_node_id. run. rewrite Hid. cbn [local_node_id e0 update]. rewrite Hn.
    destruct (Z.eqb_spec n 0); [lia|]. run. rewrite Hfn, Z.eqb_refl. run.
    unfold e2, ackf. rewrite Hfm. cbn in Hpend. by rewrite <- Hpend. }
  rewrite Hrf in Hrec.
  pose proof (encode_wire_frame_eq ackf Hack ltac:(done)) as Hae.
  eexists _, f', e2. split_and!; [|..|done|done|done|exact Hae|done].
  - unfold msg. rewrite <- Hae. apply encode_wire_frame_proper; [|done]. by repeat split.
  - unfold rs485_engine_receive.
    rewrite (run_bind_eq _ _ _ _ _ (receive_no_self_test e ltac:(by rewrite Hs))).
    rewrite (run_bind_eq _ _ _ wire e0); [done|]. unfold with_port, on_part. by rewrite Hrecv.
Qed.

(** Responder: when the port delivers the bytes of a POLL addressed to this
    node, the next tick sends the bytes of the ACK with the same node and
    message id, exactly once, whatever the earlier ACK was. *)
Theorem poll_answered e f0 n m :
  engine_enabled e = true -> self_test_enabled e = false -> parser_wf (the_parser e) ->
  local_node_id e = n -> 1 <= n <= 64 -> is_u16 m ->
  frame_wf (pending_ack_frame e) -> length (payload f0) = 64%nat ->
  let msg t := encode_wire_frame (Frame n m t 0 (replicate 64 0)) RS485_FRAME_WIRE_MAX in
  msg RS485_FRAME_TYPE_POLL = Some (recv RS485_ENGINE_RX_BYTES_PER_CALL (the_port e)).1 ->
  exists ack f' e1,
    msg RS485_FRAME_TYPE_ACK = Some ack /\
    rs485_engine_receive f0 e = ((RS485_ENGINE_RX_NONE, f'), e1) /\
    the_port (rs485_engine_tick_1ms e1).2 =
      (send ack (recv RS485_ENGINE_RX_BYTES_PER_CALL (the_port e)).2).2 /\
    ack_pending (rs485_engine_tick_1ms e1).2 = false.
Proof.
  intros He Hs Hp Hn Hr Hm Hpf H0 msg Hmsg.
  destruct (receive_poll e f0 n m Hs Hp Hn Hr Hm Hpf H0 Hmsg) as (ack & f' & e2 & Ha & Hrec & Hen & Hpend & Hty & Henc & Hport).
  destruct (tick_sends_ack e2 ack (eq_trans Hen He) Hpend Hty Henc) as [Htick1 Htick2].
  exists ack, f', e2. split_and!; [done|done| |done]. by rewrite Htick1, Hport.
Qed.

(** A whole frame that is neither a poll nor a cluster frame is handed to the
    caller. *)
Lemma receive_other f f0 e :
  frame_wf f -> flen f <= 64 -> length (payload f0) = 64%nat -> parser_wf (the_parser e) -> self_test_enabled e = false ->
  (ftype f ∉ [RS485_FRAME_TYPE_POLL; RS485_FRAME_TYPE_CLUSTER_HEARTBEAT; RS485_FRAME_TYPE_CLUSTER_FRAME]) ->
  encode_wire_frame f RS485_FRAME_WIRE_MAX = Some (recv RS485_ENGINE_RX_BYTES_PER_CALL (the_port e)).1 ->
  exists f' e', frame_equiv f' f /\ rs485_engine_receive f0 e = ((RS485_ENGINE_RX_FRAME, f'), e') /\
    engine_enabled e' = engine_enabled e /\ self_test_enabled e' = false /\
    the_port e' = (recv RS485_ENGINE_RX_BYTES_PER_CALL (the_port e)).2.
Proof.
  intros Hf Hl H0 Hp Hs Ht Hw. destruct (recv _ _) as [chunk p1] eqn:Hrecv. cbn [fst snd] in *. set (e0 := e <| the_port := p1 |>).
  destruct (receive_whole_frame f f0 e0 Hf Hl H0 Hp) as (wire & f' & e1 & Hw' & Heq & Hchunk & Hen & _ & Hport & _ & Hst & _).
  rewrite Hw in Hw'. injection Hw' as ->. destruct Heq as (Hn & Hm & Hty & Hrest).
  rewrite !not_elem_of_cons in Ht. destruct Ht as (H1 & H2 & H3 & _).
  assert (receive_frame f' e1 = (RS485_ENGINE_RX_FRAME, e1)) as Hrf.
  { unfold receive_frame, rs485_engine_should_reply_to_poll. rewrite Hty. destruct (Z.eqb_spec (ftype f) RS485_FRAME_TYPE_POLL); [done|]. cbn [negb].
    rewrite run_bind_ret. by destruct (Z.eqb_spec (ftype f) RS485_FRAME_TYPE_CLUSTER_HEARTBEAT), (Z.eqb_spec (ftype f) RS485_FRAME_TYPE_CLUSTER_FRAME). }
  rewrite Hrf in Hchunk. exists f', e1. rewrite Hen, Hst, Hport. split_and!; try done.
  unfold rs485_engine_receive. rewrite (run_bind_eq _ _ _ _ _ (receive_no_self_test e ltac:(by rewrite Hs))).
  rewrite (run_bind_eq _ _ _ wire e0); [done|]. unfold with_port, on_part. by rewrite Hrecv.
Qed.

(** A chunk without bytes changes nothing but the port. *)
Lemma receive_nothing e f p :
  self_test_enabled e = false -> parser_frame_available (the_parser e) = false ->
  recv RS485_ENGINE_RX_BYTES_PER_CALL (the_port e) = ([], p) ->
  rs485_engine_receive f e = ((RS485_ENGINE_RX_NONE, f), e <| the_port := p |>).
Proof.
  intros Hs Ha Hr. unfold rs485_engine_receive.
  rewrite (run_bind_eq _ _ _ _ _ (receive_no_self_test e ltac:(by rewrite Hs))).
  rewrite (run_bind_eq _ _ _ [] (e <| the_port := p |>)) by (unfold with_port, on_part; by rewrite Hr).
  unfold receive_chunk, with_parser, on_part, modify. unfold mbind, st_bind, gets. cbn [the_parser update].
  unfold parser_feed. cbn [foldl the_parser update]. rewrite Ha. cbn [negb]. by destruct e.
Qed.

(** Whatever is received, the port is only read. *)
Lemma receive_reads f e : the_port (rs485_engine_receive f e).2 = (recv RS485_ENGINE_RX_BYTES_PER_CALL (the_port e)).2.
Proof.
  unfold rs485_engine_receive. rewrite run_bind_surj.
  assert (the_port (receive_self_test e).2 = the_port e) as Hp.
  { assert (keeps (fun x => the_port x = the_port e) receive_self_test) as Hk; [|by apply Hk].
    unfold receive_self_test, rs485_engine_feed_parser_bounded, with_parser, esp_timer_get_time. keeps.
    all: try (apply keeps_on_part; intros ? ?); done. }
  set (e1 := (receive_self_test e).2) in *. rewrite run_bind_surj. unfold with_port at 1 2, on_part. rewrite <- Hp.
  destruct (recv _ _) as [chunk p]. cbn [fst snd]. set (e2 := e1 <| the_port := p |>).
  assert (keeps (fun x => the_port x = p) (receive_chunk f chunk)) as Hk; [|by apply Hk].
  unfold receive_chunk, with_parser, upd_metrics. keeps.
  all: try (apply keeps_on_part; intros ? ?); try done.
  - destruct r; unfold count_rx, upd_metrics, now_ms, esp_timer_get_time; keeps; try (apply keeps_on_part; intros ? ?); done.
  - unfold receive_frame, rs485_engine_should_reply_to_poll, rs485_engine_local_node_id, node_identity_init, mark_online, esp_timer_get_time. keeps.
    all: try (apply keeps_on_part; intros ? ?); try done; by case_match.
Qed.

(** ** Invariant of the engine *)

Definition node_wf (n : node_entry) : Prop := is_u64 (last_seen_us n) /\ is_u8 (retry n).
Definition metrics_wf (m : engine_metrics) : Prop :=
  is_u32 (em_tx_count m) /\ is_u32 (em_tx_bytes m) /\ is_u32 (em_rx_count m) /\
  is_u32 (em_rx_bytes m) /\ is_u32 (em_crc_error_count m) /\ is_u32 (em_format_error_count m).
Record engine_wf (e : engine P) : Prop := {
  ew_parser : parser_wf (the_parser e);
  ew_nodes : length (nodes e) = 64%nat;
  ew_node : Forall node_wf (nodes e);
  ew_metrics : metrics_wf (metrics e);
  ew_self : 0 <= local_node_id e <= 64;
  ew_ack : frame_wf (pending_ack_frame e);
  ew_pending : ack_pending e = true -> 1 <= node (pending_ack_frame e) <= 64;
}.

Lemma engine_zero_wf port clk m : engine_wf (engine_zero port clk m).
Proof.
  split; cbn [the_parser nodes metrics local_node_id pending_ack_frame ack_pending engine_zero].
  - apply parser_zero_wf.
  - done.
  - apply Forall_replicate. split; cbn; lia.
  - split_and!; cbn; lia.
  - lia.
  - apply empty_frame_wf; lia.
  - done.
Qed.

Lemma compute_local_node_id_range uid : 1 <= compute_local_node_id uid <= 64.
Proof.
  unfold compute_local_node_id, RS485_ENGINE_MAX_NODES. rewrite u8_id by word_lia.
  case_match; word_lia.
Qed.

Lemma frame_zero_wf : frame_wf frame_zero.
Proof. apply empty_frame_wf; lia. Qed.

Ltac wf_fields := split; cbn [the_parser nodes metrics local_node_id pending_ack_frame
  ack_pending update fst snd]; try done.

Lemma upd_metrics_wf f :
  (forall m, metrics_wf m -> metrics_wf (f m)) -> keeps engine_wf (upd_metrics f).
Proof. intros Hf. apply keeps_modify. intros e []; wf_fields. by apply Hf. Qed.

Lemma esp_timer_get_time_wf : keeps engine_wf esp_timer_get_time.
Proof. apply keeps_on_part. intros e []; wf_fields. Qed.
Lemma with_port_wf {A} (m : st P A) : keeps engine_wf (with_port m).
Proof. apply keeps_on_part. intros e []; wf_fields. Qed.
Lemma with_parser_wf {A} (m : st parser A) :
  keeps parser_wf m -> keeps engine_wf (with_parser m).
Proof. intros Hm. apply keeps_on_part. intros e []; wf_fields. by apply Hm. Qed.
#[local] Hint Resolve upd_metrics_wf esp_timer_get_time_wf with_port_wf with_parser_wf : keeps.

Lemma now_ms_wf : keeps engine_wf now_ms.
Proof. unfold now_ms. keeps. Qed.
#[local] Hint Resolve now_ms_wf : keeps.

Ltac metrics_fields := intros m (?&?&?&?&?&?); split_and!; cbn;
  try apply u32_range; lia.
Lemma count_tx_wf wire ms m : metrics_wf m -> metrics_wf (count_tx wire ms m).
Proof. revert m. metrics_fields. Qed.

Lemma node_identity_init_wf : keeps engine_wf node_identity_init.
Proof. apply keeps_modify. intros e []. destruct (mac e); wf_fields. Qed.
#[local] Hint Resolve node_identity_init_wf : keeps.

Lemma rs485_engine_local_node_id_wf : keeps engine_wf rs485_engine_local_node_id.
Proof.
  unfold rs485_engine_local_node_id. keeps.
  all: match goal with W : engine_wf ?w |- _ =>
    destruct W; pose proof (compute_local_node_id_range (node_id w)); wf_fields; lia end.
Qed.

Lemma mark_online_wf idx : keeps engine_wf (mark_online idx).
Proof.
  intros e []. rewrite mark_online_eq. wf_fields; [by rewrite length_zset|].
  unfold zset. case_match; [|done]. apply Forall_insert; [done|].
  split; cbn; [apply u64_range|lia].
Qed.
#[local] Hint Resolve mark_online_wf rs485_engine_local_node_id_wf : keeps.

Lemma rs485_engine_send_wf f : keeps engine_wf (rs485_engine_send f).
Proof.
  unfold rs485_engine_send. keeps.
  - match goal with W : engine_wf _ |- _ => destruct W end. wf_fields. by apply count_tx_wf.
  - apply upd_metrics_wf, count_tx_wf.
Qed.
#[local] Hint Resolve rs485_engine_send_wf : keeps.

Lemma rs485_engine_tick_1ms_wf : keeps engine_wf rs485_engine_tick_1ms.
Proof.
  unfold rs485_engine_tick_1ms. keeps.
  - match goal with W : engine_wf ?w |- _ => destruct W; wf_fields end.
  - match goal with W : engine_wf ?w |- _ => destruct W; wf_fields end.
    + by rewrite length_fmap.
    + apply Forall_fmap. eapply Forall_impl; [done|]. intros n [??]. unfold node_timeout; cbn.
      by repeat case_match.
Qed.

Lemma decode_wire_frame_fields wire f f' :
  decode_wire_frame wire f = (RS485_ENGINE_RX_FRAME, f') -> is_u8 (node f') /\ is_u16 (msg_id f').
Proof.
  unfold decode_wire_frame. destruct (_ || _); [done|]. destruct (_ || _); [done|].
  destruct (decode_pairs wire) as [raw|] eqn:Hd; [|done]. repeat (case_match; try done).
  intros [= <-]. cbn [node msg_id update]. split; [|apply u16_range].
  destruct wire as [|h [|l0 wire]]; cbn [decode_pairs] in Hd; [by simplify_eq..|].
  case_match; [done|]. destruct (decode_pairs wire); cbn in Hd; simplify_eq. apply u8_range.
Qed.

Lemma should_reply_wf f e b e' :
  engine_wf e -> rs485_engine_should_reply_to_poll f e = (b, e') ->
  engine_wf e' /\ (b = true -> 1 <= node f <= 64).
Proof.
  intros He. unfold rs485_engine_should_reply_to_poll.
  case_match; [intros [= <- <-]; done|]. case_match; [intros [= <- <-]; done|].
  rewrite run_bind_surj. pose proof (rs485_engine_local_node_id_wf e He) as Hw.
  intros [= <- <-]. split; [done|]. intros ->%Z.eqb_eq.
  revert Hw. unfold rs485_engine_local_node_id. run.
  destruct (Z.eqb_spec (local_node_id e) 0); run.
  - intros _. rewrite run_bind_surj. run. cbn. apply compute_local_node_id_range.
  - intros []. cbn [fst snd] in *. lia.
Qed.

Lemma receive_frame_wf f :
  is_u8 (node f) -> is_u16 (msg_id f) -> keeps engine_wf (receive_frame f).
Proof.
  intros Hn Hm e He. unfold receive_frame. rewrite run_bind_surj.
  destruct (rs485_engine_should_reply_to_poll f e) as [[] e'] eqn:E; cbn [fst snd];
    destruct (should_reply_wf _ _ _ _ He E) as [He' Hr].
  - run. destruct He'. wf_fields.
    destruct ew_ack0 as (?&?&?&?&?&?). split_and!; cbn; try lia; done.
  - revert e' He' Hr E. intros e' He' _ _. revert e' He'. change (keeps engine_wf
      (if (ftype f =? RS485_FRAME_TYPE_CLUSTER_HEARTBEAT)
          || (ftype f =? RS485_FRAME_TYPE_CLUSTER_FRAME) then
         (if negb (node f =? 0) && (node_index (node f) <? RS485_ENGINE_MAX_NODES)
          then mark_online (node_index (node f)) else mret tt);;
         modify (fun e => if has_callback e then e <| external := external e ++ [f] |> else e);;
         mret RS485_ENGINE_RX_NONE
       else mret RS485_ENGINE_RX_FRAME)).
    keeps. case_match; [|done]. match goal with W : engine_wf _ |- _ => destruct W end. wf_fields.
Qed.
#[local] Hint Resolve receive_frame_wf : keeps.

Lemma parser_feed_keeps bs : keeps parser_wf (modify (parser_feed bs)).
Proof. apply keeps_modify. intros. by apply parser_feed_wf. Qed.
Lemma parser_get_frame_keeps n : keeps parser_wf (parser_get_frame n).
Proof. intros p Hp. by apply parser_get_frame_wf. Qed.
#[local] Hint Resolve parser_feed_keeps parser_get_frame_keeps : keeps.

Lemma count_rx_wf r n : keeps engine_wf (count_rx r n).
Proof. destruct r; cbn [count_rx]; keeps; apply upd_metrics_wf; metrics_fields. Qed.
#[local] Hint Resolve count_rx_wf : keeps.

Lemma rs485_engine_receive_wf f : keeps engine_wf (rs485_engine_receive f).
Proof.
  unfold rs485_engine_receive. keeps.
  - unfold receive_self_test, rs485_engine_feed_parser_bounded. keeps.
    match goal with W : engine_wf _ |- _ => destruct W end. wf_fields.
  - unfold receive_chunk. keeps.
    + apply upd_metrics_wf. metrics_fields.
    + simplify_eq. by apply receive_frame_wf; eapply decode_wire_frame_fields.
Qed.

Lemma rs485_engine_init_wf : keeps engine_wf rs485_engine_init.
Proof.
  unfold rs485_engine_init. keeps;
    match goal with W : engine_wf ?w |- _ =>
      pose proof (compute_local_node_id_range (node_id w)); destruct W end.
  - wf_fields; [by apply parser_init_wf|apply Forall_replicate; split; cbn; lia].
  - wf_fields; try lia; [by rewrite length_fmap| |apply frame_zero_wf].
    apply Forall_fmap. by eapply Forall_impl.
Qed.

(** One call into the engine from the fieldbus, the master or the control loop. *)
Inductive engine_step : engine P -> engine P -> Prop :=
| step_init e : engine_step e (rs485_engine_init e).2
| step_enable e : engine_step e (rs485_engine_enable e).2
| step_disable e : engine_step e (rs485_engine_disable e).2
| step_set_self_test b e : engine_step e (rs485_engine_set_self_test b e).2
| step_register cb e : engine_step e (rs485_engine_register_external_frame_callback cb e).2
| step_local_node_id e : engine_step e (rs485_engine_local_node_id e).2
| step_on_ack id e : engine_step e (rs485_engine_on_ack id e).2
| step_send f e : engine_step e (rs485_engine_send f e).2
| step_tick e : engine_step e (rs485_engine_tick_1ms e).2
| step_receive f e : engine_step e (rs485_engine_receive f e).2
| step_get_metrics e : engine_step e (rs485_engine_get_metrics e).2.

Lemma engine_step_wf e e' : engine_step e e' -> engine_wf e -> engine_wf e'.
Proof.
  intros [] He; [by apply rs485_engine_init_wf|destruct He; by wf_fields..| | | | | |
    destruct He; by wf_fields].
  - by apply rs485_engine_local_node_id_wf.
  - unfold rs485_engine_on_ack. case_match; [done|by apply mark_online_wf].
  - by apply rs485_engine_send_wf.
  - by apply rs485_engine_tick_1ms_wf.
  - by apply rs485_engine_receive_wf.
Qed.

(** Whatever the order of the calls into the engine, the bytes the port
    delivers and the time the clock reads: the parser's write index stays
    inside its buffer, the node table keeps its 64 entries, the counters stay
    32-bit numbers, the node's own id stays in 1..64 once it is known, and a
    pending ACK is a well-formed frame that carries a bus address. *)
Theorem engine_invariant port clk m e :
  rtc engine_step (engine_zero port clk m) e -> engine_wf e.
Proof.
  intros Hr. pose proof (engine_zero_wf port clk m) as Hw.
  induction Hr; [done|]. eauto using engine_step_wf.
Qed.
End engine.

(** ** Concrete runs *)

Definition tick_clock (step : Z) : clock := Clock (fun i => step * Z.of_nat i) 0.
Definition demo_mac : list Z := [36; 111; 40; 0; 0; 4].
Definition poll_5 : list Z :=
  default [] (encode_wire_frame (Frame 5 7 RS485_FRAME_TYPE_POLL 0 (replicate 64 0)) RS485_FRAME_WIRE_MAX).
(** The engine of node 5, enabled, with a POLL for it on the wire. *)
Definition demo_engine : engine script :=
  (rs485_engine_enable (rs485_engine_init
     (engine_zero (Script poll_5 []) (tick_clock 60000) (Some demo_mac))).2).2.

Lemma link_supervision_witness :
  let e1 := (rs485_engine_on_ack 9 demo_engine).2 in
  rs485_engine_node_state 9 e1 = NODE_STATE_ONLINE /\
  rs485_engine_node_state 9 (rs485_engine_tick_1ms e1).2 = NODE_STATE_ONLINE.
Proof.
  destruct (link_supervision demo_engine 9) as (H1 & H2 & _);
    [reflexivity|reflexivity|reflexivity|lia|vm_compute; split; discriminate|vm_compute; reflexivity|].
  split; [exact H1|exact H2].
Defined.

Lemma poll_answered_witness :
  exists ack f' e1,
    rs485_engine_receive frame_zero demo_engine = ((RS485_ENGINE_RX_NONE, f'), e1) /\
    outgoing (the_port (rs485_engine_tick_1ms e1).2) = [ack] /\ hd 0 ack = START_BYTE.
Proof.
  destruct (poll_answered demo_engine frame_zero 5 7) as (ack & f' & e1 & Ha & Hr & Hp & _);
    [reflexivity|reflexivity|exact (parser_init_wf _ parser_zero_wf)|vm_compute; reflexivity|lia|lia|
     exact frame_zero_wf|reflexivity|vm_compute; reflexivity|].
  exists ack, f', e1. split; [exact Hr|]. rewrite Hp. split; [reflexivity|].
  vm_compute in Ha. injection Ha as <-. reflexivity.
Defined.

Lemma engine_invariant_witness : engine_wf (rs485_engine_tick_1ms demo_engine).2.
Proof.
  apply (engine_invariant (Script poll_5 []) (tick_clock 60000) (Some demo_mac)).
  eapply rtc_l; [apply step_init|]. eapply rtc_l; [apply step_enable|].
  eapply rtc_l; [apply step_tick|]. apply rtc_refl.
Defined.
