(* ===== verification/Persist.v ===== *)
(** * Persistence: byte layout, checksum and non-volatile storage

    What the components that save a blob share: little-endian fields of packed
    C structures, C strings, the FNV-1a and CRC-32 checksums, and the contract of ESP-IDF's NVS that
    they rely on. *)

From Stdlib Require Import String Ascii.
From S2P Require Import Prelude.
Local Open Scope list_scope.
Local Open Scope Z_scope.

(** ** Little-endian fields *)

Fixpoint le (n : nat) (x : Z) : list Z :=
  match n with O => [] | S n => x mod 256 :: le n (x / 256) end.
Definition unle (l : list Z) : Z := foldr (fun b acc => b + 256 * acc) 0 l.
(** The [n]-byte field of [buf] at offset [off]. *)
Definition field (off n : nat) (buf : list Z) : Z := unle (take n (drop off buf)).

Lemma length_le n x : length (le n x) = n.
Proof. revert x. induction n; intros; cbn; [done|]. by f_equal. Qed.

Lemma unle_le n x : 0 <= x < 256 ^ Z.of_nat n -> unle (le n x) = x.
Proof.
  revert x. induction n as [|n IH]; intros x Hx; cbn; [cbn in Hx; lia|].
  rewrite Nat2Z.inj_succ, Z.pow_succ_r in Hx by lia.
  fold (unle (le n (x / 256))). rewrite IH by word_lia. word_lia.
Qed.

Lemma unle_range l : Forall (fun b => is_u8 b) l -> 0 <= unle l < 256 ^ Z.of_nat (length l).
Proof.
  induction 1 as [|b l Hb _ IH]; cbn; [lia|]. fold (unle l). rewrite Nat2Z.inj_succ, Z.pow_succ_r in * by lia. lia.
Qed.
Lemma field_range off n buf : Forall (fun b => is_u8 b) buf -> 0 <= field off n buf < 256 ^ Z.of_nat n.
Proof.
  intros Hb. unfold field. assert (Forall (fun b => is_u8 b) (take n (drop off buf))) as Hf by (by apply Forall_take, Forall_drop).
  pose proof (unle_range _ Hf) as Hr.
  assert (256 ^ Z.of_nat (length (take n (drop off buf))) <= 256 ^ Z.of_nat n)
    by (apply Z.pow_le_mono_r; [lia|]; rewrite length_take; lia). lia.
Qed.

Lemma le_bytes n x : Forall (fun b => is_u8 b) (le n x).
Proof.
  revert x. induction n as [|n IH]; intros x; cbn; [done|]. apply Forall_cons. split; [word_lia|apply IH].
Qed.

(** Reading a field right where it was written. *)
Lemma field_app_le n x pre post :
  0 <= x < 256 ^ Z.of_nat n -> field (length pre) n (pre ++ le n x ++ post) = x.
Proof.
  intros Hx. unfold field. rewrite drop_app_length, take_app_length' by (by rewrite length_le).
  by apply unle_le.
Qed.
Lemma field_drop off m n buf : field (off + m) n buf = field m n (drop off buf).
Proof. unfold field. by rewrite drop_drop. Qed.
Lemma field_take off n k buf : (off + n <= k)%nat -> field off n (take k buf) = field off n buf.
Proof.
  intros. unfold field. rewrite skipn_firstn_comm, take_take. f_equal. f_equal. lia.
Qed.

(** The members of a packed structure, as (size, value), one after the other. *)
Definition pack (members : list (nat * Z)) : list Z := concat ((fun m => le m.1 m.2) <$> members).
Definition offset_of (k : nat) (members : list (nat * Z)) : nat := sum_list (fst <$> take k members).

Lemma length_pack ms : length (pack ms) = sum_list (fst <$> ms).
Proof. induction ms as [|m ms IH]; [done|]. unfold pack in *. cbn. by rewrite length_app, length_le, IH. Qed.

Lemma pack_bytes ms : Forall (fun b => is_u8 b) (pack ms).
Proof. induction ms as [|m ms IH]; [done|]. apply Forall_app. split; [apply le_bytes|apply IH]. Qed.

Lemma field_pack k ms n x rest :
  ms !! k = Some (n, x) -> 0 <= x < 256 ^ Z.of_nat n -> field (offset_of k ms) n (pack ms ++ rest) = x.
Proof.
  intros Hk Hx. unfold pack. rewrite <- (take_drop_middle ms k (n, x) Hk) at 2.
  rewrite fmap_app, concat_app, fmap_cons. cbn [concat fst snd]. rewrite <- !app_assoc.
  unfold offset_of. rewrite <- length_pack. by apply field_app_le.
Qed.

Lemma field_pack_nil k ms n x :
  ms !! k = Some (n, x) -> 0 <= x < 256 ^ Z.of_nat n -> field (offset_of k ms) n (pack ms) = x.
Proof. intros Hk Hx. rewrite <- (app_nil_r (pack ms)). by apply field_pack. Qed.

(** An array of [n] places of [size] bytes, those after the last slot being 0,
    and its [i]-th place at offset [off] of a buffer. *)
Definition array_bytes (n size : nat) (slots : list (list Z)) : list Z :=
  concat slots ++ replicate (size * (n - length slots)) 0.
Definition array_slot (off size i : nat) (buf : list Z) : list Z := take size (drop (off + size * i) buf).
Lemma length_array_bytes n size slots : Forall (fun s => length s = size) slots -> (length slots <= n)%nat ->
  length (array_bytes n size slots) = (size * n)%nat.
Proof.
  intros Hs Hl. unfold array_bytes. rewrite length_app, length_replicate.
  assert (length (concat slots) = (size * length slots)%nat) as ->; [|nia].
  clear Hl. induction Hs as [|s slots Hlen _ IH]; cbn; [lia|]. rewrite length_app, Hlen, IH. lia.
Qed.
Lemma array_slot_app n size slots pre post i s : Forall (fun s => length s = size) slots -> slots !! i = Some s ->
  array_slot (length pre) size i (pre ++ array_bytes n size slots ++ post) = s.
Proof.
  intros Hs Hi. unfold array_slot, array_bytes. rewrite <- drop_drop, drop_app_length, <- app_assoc.
  generalize (replicate (size * (n - length slots)) 0 ++ post). intros tail.
  revert i Hi. induction Hs as [|t slots Hlen Hs IH]; intros i Hi; [done|]. cbn [concat]. rewrite <- app_assoc.
  destruct i as [|i]; cbn in Hi.
  - injection Hi as <-. rewrite Nat.mul_0_r, drop_0. by apply take_app_length'.
  - by rewrite Nat.mul_succ_r, Nat.add_comm, <- drop_drop, (drop_app_length' t), IH.
Qed.

(** Read back the [k]-th member of a packed structure. *)
Ltac packed k :=
  match goal with
  | |- field _ _ (pack ?ms ++ _) = _ => apply (field_pack k ms)
  | |- field _ _ (pack ?ms) = _ => apply (field_pack_nil k ms)
  end.

(** A signed 32-bit field. *)
Lemma i32_u32 v : is_i32 v -> i32 (u32 v) = v.
Proof. intros. word_lia. Qed.

(** ** The checksum *)

Definition FNV_PRIME_INV : Z := 899433627.

Lemma fnv_mul_inj x y : is_u32 x -> is_u32 y -> u32 (x * 16777619) = u32 (y * 16777619) -> x = y.
Proof.
  intros Hx Hy He. apply (f_equal (fun z => u32 (z * FNV_PRIME_INV))) in He. unfold u32 in He.
  rewrite !Z.mul_mod_idemp_l, <- !Z.mul_assoc in He by lia.
  change (16777619 * FNV_PRIME_INV) with (1 + 3513497 * 4294967296) in He.
  rewrite !Z.mul_add_distr_l, !Z.mul_1_r, !Z.mul_assoc, !Z.mod_add, !Z.mod_small in He by lia. done.
Qed.

Lemma fnv_step_range c b : is_u32 (u32 (Z.lxor c b * 16777619)).
Proof. apply u32_range. Qed.

Lemma lxor_u32 c b : is_u32 c -> is_u8 b -> is_u32 (Z.lxor c b).
Proof. intros. apply (lxor_range 32); lia. Qed.

Lemma fnv_step_inj c c' b b' :
  is_u32 c -> is_u32 c' -> is_u8 b -> is_u8 b' ->
  u32 (Z.lxor c b * 16777619) = u32 (Z.lxor c' b' * 16777619) ->
  (c = c' <-> b = b').
Proof.
  intros Hc Hc' Hb Hb' He. apply fnv_mul_inj in He; [|by apply lxor_u32..].
  split; intros ->.
  - apply (f_equal (Z.lxor c')) in He.
    by rewrite <- !Z.lxor_assoc, Z.lxor_nilpotent, !Z.lxor_0_l in He.
  - apply (f_equal (fun z => Z.lxor z b')) in He.
    by rewrite !Z.lxor_assoc, Z.lxor_nilpotent, !Z.lxor_0_r in He.
Qed.

Abbreviation fnv_from c l := (foldl (fun crc b => u32 (Z.lxor crc b * 16777619)) c l).

Lemma fnv_fold_inj l c c' :
  Forall (fun b => is_u8 b) l -> is_u32 c -> is_u32 c' -> fnv_from c l = fnv_from c' l -> c = c'.
Proof.
  revert c c'. induction l as [|b l IH]; intros c c' Hl Hc Hc'; cbn; [done|].
  apply Forall_cons in Hl as [Hb Hl]. intros He. apply IH in He; [|done|apply u32_range..].
  by apply (fnv_step_inj c c' b b Hc Hc' Hb Hb).
Qed.

(** Changing one byte changes the checksum. *)
Lemma fnv1a32_insert l (i : nat) b x :
  Forall (fun b => is_u8 b) l -> is_u8 b -> l !! i = Some x -> b <> x ->
  fnv1a32 (<[i := b]> l) <> fnv1a32 l.
Proof.
  intros Hl Hb Hx Hne He. pose proof (Forall_lookup_1 _ _ _ _ Hl Hx) as Hxr. cbn in Hxr.
  unfold fnv1a32 in He. rewrite <- (take_drop_middle l i x Hx) in He at 2.
  rewrite (insert_take_drop l i b) in He by (by eapply lookup_lt_Some).
  rewrite !foldl_app in He. cbn in He.
  assert (is_u32 (fnv_from 2166136261 (take i l))) as Hc by apply (fnv1a32_range (take i l)).
  apply fnv_fold_inj in He; [|by apply Forall_drop|apply u32_range..].
  apply Hne. by apply (fnv_step_inj _ _ _ _ Hc Hc Hb Hxr He).
Qed.

(** ** CRC-32

    The reflected CRC-32 of Ethernet, copied into each file that uses it. *)
Definition crc32_bit (crc : Z) : Z := if Z.odd crc then Z.lxor (Z.shiftr crc 1) 3988292384 else Z.shiftr crc 1.
Definition crc32_byte (crc b : Z) : Z :=
  crc32_bit (crc32_bit (crc32_bit (crc32_bit (crc32_bit (crc32_bit (crc32_bit (crc32_bit (Z.lxor crc b)))))))).
Definition crc32 (data : list Z) : Z := u32 (Z.lnot (foldl crc32_byte 4294967295 data)).

Lemma crc32_range data : is_u32 (crc32 data).
Proof. apply u32_range. Qed.
#[export] Hint Resolve crc32_range : endap.

(** ** Non-volatile storage

    The calls of ESP-IDF's [nvs.h] on the one key a component uses.  Any call
    may fail; what the documentation promises is that a blob that was set and
    committed is what a later read gives. *)
Class Nvs (N : Type) := {
  nvs_open_rw : st N bool;                   (* nvs_open(.., NVS_READWRITE) = ESP_OK *)
  nvs_set_blob : list Z -> st N bool;
  nvs_commit : st N bool;
  nvs_get_blob : N -> option (list Z);       (* open read-only and read *)
  nvs_erase_key : st N bool;
}.
Class NvsLaws (N : Type) `{Nvs N} := {
  nvs_commit_durable buf n n' : nvs_set_blob buf n = (true, n') ->
    (nvs_commit n').1 = true -> nvs_get_blob (nvs_commit n').2 = Some buf;
}.

(** Flash whose writes all succeed. *)
Class NvsReliable (N : Type) `{Nvs N} := {
  open_succeeds (n : N) : (nvs_open_rw n).1 = true;
  set_succeeds buf (n : N) : (nvs_set_blob buf n).1 = true;
  commit_succeeds (n : N) : (nvs_commit n).1 = true;
}.

(** Flash that never fails: the instance of the concrete runs. *)
Definition flash : Type := option (list Z).
#[export] Instance flash_nvs : Nvs flash := {
  nvs_open_rw f := (true, f);
  nvs_set_blob buf _ := (true, Some buf);
  nvs_commit f := (true, f);
  nvs_get_blob f := f;
  nvs_erase_key _ := (true, None);
}.
#[export] Program Instance flash_nvs_laws : NvsLaws flash.
Next Obligation. intros buf n n' [= <-] _. done. Qed.
#[export] Instance flash_nvs_reliable : NvsReliable flash.
Proof. by split. Qed.

(** ** Texts *)

Definition bytes_of (s : string) : list Z := (fun c => Z.of_nat (nat_of_ascii c)) <$> list_ascii_of_string s.
(** The C string that starts an array. *)
Fixpoint cstr (l : list Z) : list Z :=
  match l with
  | [] => []
  | b :: l => if b =? 0 then [] else b :: cstr l
  end.
(** [strncpy(dst, src, n)]: the bytes of [src] up to its terminator, then zeros
    up to [n]; the rest of [dst] is kept. *)
Definition strncpy (dst src : list Z) (n : nat) : list Z :=
  let s := cstr (take n src) in s ++ replicate (n - length s) 0 ++ drop n dst.

(** The text [snprintf] leaves in an array of [n] bytes. *)
Definition cut (n : nat) (s : list Z) : list Z := take (n - 1) s.
(** The array itself: the text, its terminator, and what was behind them. *)
Definition snprintf_into (dst s : list Z) : list Z := let t := cut (length dst) s in t ++ 0 :: drop (S (length t)) dst.

(** [ctype.h] in the C locale. *)
Definition isspace (c : Z) : bool := (c =? 32) || ((9 <=? c) && (c <=? 13)).
Fixpoint skip_spaces (l : list Z) : list Z :=
  match l with c :: l' => if isspace c then skip_spaces l' else l | [] => [] end.
Definition isupper (c : Z) : bool := (65 <=? c) && (c <=? 90).
Definition tolower (c : Z) : Z := if isupper c then c + 32 else c.
Definition isalnum (c : Z) : bool := ((48 <=? c) && (c <=? 57)) || isupper c || ((97 <=? c) && (c <=? 122)).

(** [%llu], [%u] and [%lu]: the decimal digits.  20 are enough for 64 bits. *)
Fixpoint decimal_digits (fuel : nat) (x : Z) (acc : list Z) : list Z :=
  match fuel with
  | O => acc
  | S fuel => let acc := 48 + x mod 10 :: acc in if x / 10 =? 0 then acc else decimal_digits fuel (x / 10) acc
  end.
Definition decimal (x : Z) : list Z := decimal_digits 20 x [].

Lemma cstr_no_zero l : 0 ∉ cstr l.
Proof.
  induction l as [|b l IH]; cbn; [apply not_elem_of_nil|]. destruct (Z.eqb_spec b 0); [apply not_elem_of_nil|].
  intros [|]%elem_of_cons; congruence.
Qed.
Lemma cstr_length l : (length (cstr l) <= length l)%nat.
Proof. induction l as [|b l IH]; cbn; [done|]. destruct (b =? 0); cbn; lia. Qed.
Lemma cstr_id s : 0 ∉ s -> cstr s = s.
Proof.
  induction s as [|x s IH]; intros Hs; cbn; [done|]. apply not_elem_of_cons in Hs as [Hx Hs].
  destruct (Z.eqb_spec x 0); [congruence|]. by rewrite IH.
Qed.
Lemma cstr_app_zero l l' : 0 ∉ l -> cstr (l ++ 0 :: l') = l.
Proof.
  induction l as [|b l IH]; intros Hl; cbn; [done|]. apply not_elem_of_cons in Hl as [Hb Hl].
  destruct (Z.eqb_spec b 0); [congruence|]. by rewrite IH.
Qed.

Lemma length_strncpy dst src n : (n <= length dst)%nat -> length (strncpy dst src n) = length dst.
Proof.
  intros Hn. unfold strncpy. cbv zeta. rewrite !length_app, length_replicate, length_drop.
  pose proof (cstr_length (take n src)). rewrite length_take in *. lia.
Qed.
Lemma cstr_bytes l : Forall (fun b => is_u8 b) l -> Forall (fun b => is_u8 b) (cstr l).
Proof. induction 1 as [|b l Hb Hl IH]; cbn; [done|]. destruct (b =? 0); [done|]. by constructor. Qed.
Lemma strncpy_bytes dst src n : Forall (fun b => is_u8 b) dst -> Forall (fun b => is_u8 b) src -> Forall (fun b => is_u8 b) (strncpy dst src n).
Proof.
  intros Hd Hs. unfold strncpy. cbv zeta. rewrite !Forall_app. refine (conj _ (conj _ _)).
  - by apply cstr_bytes, Forall_take.
  - by apply Forall_replicate.
  - by apply Forall_drop.
Qed.

(** Every byte of a name lands in the array, with its terminator. *)
Lemma cstr_snprintf dst s : 0 ∉ s -> (length s < length dst)%nat -> cstr (snprintf_into dst s) = s.
Proof. intros Hs Hl. unfold snprintf_into, cut. cbv zeta. rewrite take_ge by lia. by apply cstr_app_zero. Qed.
Lemma length_snprintf dst s : (0 < length dst)%nat -> length (snprintf_into dst s) = length dst.
Proof. intros Hl. unfold snprintf_into, cut. cbv zeta. rewrite length_app. cbn [length]. rewrite length_drop, length_take. lia. Qed.

(** ** Structure layout

    Size of a C structure whose members have the given sizes and alignments. *)
Definition align_up (o a : Z) : Z := (o + a - 1) / a * a.
Definition struct_end (members : list (Z * Z)) : Z :=
  foldl (fun o m => align_up o m.2 + m.1) 0 members.
Definition struct_align (members : list (Z * Z)) : Z := foldr (fun m a => Z.max m.2 a) 1 members.
Definition struct_size (members : list (Z * Z)) : Z :=
  align_up (struct_end members) (struct_align members).
Definition c_u8 : Z * Z := (1, 1).
Definition c_u16 : Z * Z := (2, 2).
Definition c_u32 : Z * Z := (4, 4).
Definition c_i32 : Z * Z := (4, 4).
(** An array of [n] structures. *)
Definition c_array (n : Z) (members : list (Z * Z)) : Z * Z :=
  (n * struct_size members, struct_align members).
