(* ===== verification/EventBus.v ===== *)
(** * Queues: the event bus, the I/O command queue and the set queue
    ([components/runtime/event_bus/event_bus.c],
     [components/runtime/io_command/io_command.c],
     [components/runtime/event_set/event_set.c])

    The three sources use the same ring buffer, with one slot left free to tell
    full from empty.  The ring is shown to implement a bounded FIFO once, and
    each queue is an instance of it. *)

From S2P Require Import Prelude.

(** ** The ring buffer *)

Record ring {A : Type} := Ring { slots : list A; head : Z; tail : Z }.
Arguments ring : clear implicits.
Arguments Ring {A}.
#[export] Instance ring_rebuild {A} : Rebuild (ring A) := fun r => Ring (slots r) (head r) (tail r).

Section ring.
(** [n] slots; [zero] is what static storage holds before any write. *)
Context {A : Type} (n : Z) (zero : A).
Implicit Types r : ring A.

Definition ring_zero : ring A := Ring (replicate (Z.to_nat n) zero) 0 0.

Definition ring_push (x : A) (r : ring A) : bool * ring A :=
  let next := (head r + 1) mod n in
  if next =? tail r then (false, r)
  else (true, r <| slots := zset (slots r) (head r) x |> <| head := next |>).

Definition ring_pop (r : ring A) : option A * ring A :=
  if tail r =? head r then (None, r)
  else (Some (default zero (zget (slots r) (tail r))), r <| tail := (tail r + 1) mod n |>).

Definition ring_wf (r : ring A) : Prop :=
  Z.of_nat (length (slots r)) = n /\ 0 <= head r < n /\ 0 <= tail r < n.

(** The elements waiting, oldest first. *)
Definition slot r (i : Z) : A := default zero (zget (slots r) i).
Definition waiting r : list A :=
  (fun k => slot r ((tail r + Z.of_nat k) mod n)) <$> seq 0 (Z.to_nat ((head r - tail r) mod n)).

Hypothesis Hn : 1 < n.

Lemma ring_zero_wf : ring_wf ring_zero.
Proof. split; cbn; [rewrite length_replicate|]; lia. Qed.

Lemma waiting_zero : waiting ring_zero = [].
Proof. unfold waiting; cbn. by rewrite Z.mod_0_l by lia. Qed.

Lemma ring_push_wf x r : ring_wf r -> ring_wf (ring_push x r).2.
Proof.
  intros (?&?&?). unfold ring_push. case_match; [done|].
  split_and!; cbn; rewrite ?length_zset; try lia; apply Z.mod_pos_bound; lia.
Qed.

Lemma ring_pop_wf r : ring_wf r -> ring_wf (ring_pop r).2.
Proof.
  intros (?&?&?). unfold ring_pop. case_match; [done|].
  split_and!; cbn; try lia; apply Z.mod_pos_bound; lia.
Qed.

Lemma length_waiting r : length (waiting r) = Z.to_nat ((head r - tail r) mod n).
Proof. unfold waiting. by rewrite length_fmap, length_seq. Qed.

Lemma waiting_bound r : Z.of_nat (length (waiting r)) <= n - 1.
Proof. rewrite length_waiting. pose proof (Z.mod_pos_bound (head r - tail r) n). lia. Qed.

(** Adding one slot at the end of a range of ring positions. *)
Lemma mod_range a b : 0 <= a < n -> 0 <= b < n ->
  (a - b) mod n = if b <=? a then a - b else a - b + n.
Proof.
  intros. destruct (Z.leb_spec b a).
  - apply Z.mod_small. lia.
  - symmetry. apply (Z.mod_unique_pos _ _ (-1)); lia.
Qed.
Lemma mod_succ a : 0 <= a < n -> (a + 1) mod n = if a =? n - 1 then 0 else a + 1.
Proof.
  intros. destruct (Z.eqb_spec a (n - 1)) as [->|].
  - replace (n - 1 + 1) with n by lia. by apply Z.mod_same; lia.
  - apply Z.mod_small. lia.
Qed.
Lemma mod_wrap a : 0 <= a < 2 * n -> a mod n = if a <? n then a else a - n.
Proof.
  intros. destruct (Z.ltb_spec a n); [apply Z.mod_small; lia|].
  symmetry. apply (Z.mod_unique_pos _ _ 1); lia.
Qed.

(** [ring_push] appends, or refuses when [n - 1] elements wait. *)
Lemma ring_push_spec x r :
  ring_wf r ->
  ring_push x r =
    (bool_decide (Z.of_nat (length (waiting r)) < n - 1), (ring_push x r).2) /\
  waiting (ring_push x r).2 =
    if bool_decide (Z.of_nat (length (waiting r)) < n - 1) then waiting r ++ [x] else waiting r.
Proof.
  intros (Hl&Hh&Ht). rewrite length_waiting. unfold ring_push.
  pose proof (mod_range (head r) (tail r) Hh Ht) as Hd.
  pose proof (mod_succ (head r) Hh) as Hs.
  set (d := (head r - tail r) mod n) in *. set (h' := (head r + 1) mod n) in *.
  destruct (Z.eqb_spec h' (tail r)) as [He|He].
  - rewrite bool_decide_eq_false_2; [done|].
    destruct (Z.eqb_spec (head r) (n - 1)), (Z.leb_spec (tail r) (head r)); lia.
  - rewrite bool_decide_eq_true_2
      by (destruct (Z.eqb_spec (head r) (n - 1)), (Z.leb_spec (tail r) (head r)); lia).
    split; [done|]. unfold waiting at 1; cbn [slots head tail update snd].
    assert ((h' - tail r) mod n = d + 1) as ->.
    { rewrite mod_range by (unfold h'; try lia; apply Z.mod_pos_bound; lia).
      destruct (Z.eqb_spec (head r) (n - 1)), (Z.leb_spec (tail r) (head r)),
        (Z.leb_spec (tail r) h'); lia. }
    assert (0 <= d < n) by (apply Z.mod_pos_bound; lia).
    rewrite Z2Nat.inj_add by lia. change (Z.to_nat 1) with 1%nat. rewrite Nat.add_1_r, seq_S, fmap_app.
    cbn [fmap list_fmap Nat.add]. f_equal.
    + unfold waiting. fold d. apply list_fmap_ext. intros i k Hk%lookup_seq. unfold slot. cbn.
      rewrite zget_zset_ne; [done|]. rewrite mod_wrap by lia.
      destruct (Z.ltb_spec (tail r + Z.of_nat k) n), (Z.leb_spec (tail r) (head r)); lia.
    + unfold slot. cbn. rewrite Z2Nat.id by lia.
      replace ((tail r + d) mod n) with (head r); [by rewrite zget_zset_eq by lia|].
      rewrite mod_wrap by lia.
      destruct (Z.ltb_spec (tail r + d) n), (Z.leb_spec (tail r) (head r)); lia.
Qed.

(** [ring_pop] removes the oldest element. *)
Lemma ring_pop_spec r :
  ring_wf r ->
  match waiting r with
  | [] => ring_pop r = (None, r)
  | x :: rest => (ring_pop r).1 = Some x /\ waiting (ring_pop r).2 = rest
  end.
Proof.
  intros (Hl&Hh&Ht). unfold ring_pop, waiting.
  pose proof (mod_range (head r) (tail r) Hh Ht) as Hd.
  pose proof (mod_succ (tail r) Ht) as Hs.
  set (d := (head r - tail r) mod n) in *.
  destruct (Z.eqb_spec (tail r) (head r)) as [He|He].
  - assert (d = 0) as -> by (destruct (Z.leb_spec (tail r) (head r)); lia). done.
  - assert (0 < d < n) as Hdp by (destruct (Z.leb_spec (tail r) (head r)); lia).
    replace (Z.to_nat d) with (S (Z.to_nat (d - 1))) by lia. cbn [seq fmap list_fmap].
    rewrite Z.add_0_r, (Z.mod_small (tail r)) by lia. split; [done|].
    cbn [snd head tail slots update].
    assert ((head r - (tail r + 1) mod n) mod n = d - 1) as ->.
    { rewrite mod_range by (try lia; apply Z.mod_pos_bound; lia). rewrite Hs.
      destruct (Z.eqb_spec (tail r) (n - 1)), (Z.leb_spec (tail r) (head r));
        case_match; lia. }
    rewrite <- fmap_S_seq, <- list_fmap_compose. apply list_fmap_ext.
    intros i k Hk%lookup_seq. cbn. unfold slot. cbn. f_equal. f_equal.
    rewrite Z.add_mod_idemp_l by lia. f_equal. lia.
Qed.
End ring.

(** ** The abstract queue

    What a client may rely on: a FIFO of bounded capacity that refuses the
    newest element when full.  [Fifo] is the interface; the event bus and the
    command queues are its instances. *)

Inductive queue_op (A : Type) := Push (x : A) | Pop.
Arguments Push {A}. Arguments Pop {A}.
Inductive queue_result (A : Type) := Pushed (ok : bool) | Popped (x : option A).
Arguments Pushed {A}. Arguments Popped {A}.

Definition spec_step {A} (cap : Z) (o : queue_op A) (l : list A) : queue_result A * list A :=
  match o with
  | Push x => if bool_decide (Z.of_nat (length l) < cap) then (Pushed true, l ++ [x]) else (Pushed false, l)
  | Pop => match l with [] => (Popped None, []) | x :: l => (Popped (Some x), l) end
  end.

Fixpoint run_ops {S O R} (step : O -> S -> R * S) (ops : list O) (s : S) : list R * S :=
  match ops with
  | [] => ([], s)
  | o :: ops => let '(r, s) := step o s in let '(rs, s) := run_ops step ops s in (r :: rs, s)
  end.

Class Fifo (Q A : Type) := {
  fifo_push : A -> Q -> bool * Q;
  fifo_pop : Q -> option A * Q;
  fifo_view : Q -> list A;
  fifo_inv : Q -> Prop;
  fifo_cap : Z;
  fifo_push_inv x q : fifo_inv q -> fifo_inv (fifo_push x q).2;
  fifo_pop_inv q : fifo_inv q -> fifo_inv (fifo_pop q).2;
  fifo_push_law x q : fifo_inv q ->
    let '(r, l) := spec_step fifo_cap (Push x) (fifo_view q) in
    r = Pushed (fifo_push x q).1 /\ fifo_view (fifo_push x q).2 = l;
  fifo_pop_law q : fifo_inv q ->
    let '(r, l) := spec_step fifo_cap Pop (fifo_view q) in
    r = Popped (fifo_pop q).1 /\ fifo_view (fifo_pop q).2 = l;
}.

Section fifo.
Context {Q A : Type} `{Fifo Q A}.

Definition fifo_step (o : queue_op A) (q : Q) : queue_result A * Q :=
  match o with
  | Push x => let '(b, q) := fifo_push x q in (Pushed b, q)
  | Pop => let '(x, q) := fifo_pop q in (Popped x, q)
  end.

Lemma fifo_step_spec o q : fifo_inv q ->
  fifo_inv (fifo_step o q).2 /\
  spec_step fifo_cap o (fifo_view q) = ((fifo_step o q).1, fifo_view (fifo_step o q).2).
Proof.
  intros Hq. destruct o as [x|]; cbn [fifo_step].
  - pose proof (fifo_push_inv x q Hq) as Hi. pose proof (fifo_push_law x q Hq) as Hl.
    destruct (fifo_push x q) as [b q']. split; [done|].
    destruct (spec_step _ _ _) as [r l]. cbn in *. by destruct Hl as [-> ->].
  - pose proof (fifo_pop_inv q Hq) as Hi. pose proof (fifo_pop_law q Hq) as Hl.
    destruct (fifo_pop q) as [b q']. split; [done|].
    destruct (spec_step _ _ _) as [r l]. cbn in *. by destruct Hl as [-> ->].
Qed.

(** A trace of the implementation is a trace of the abstract queue. *)
Lemma fifo_refines ops q : fifo_inv q ->
  (run_ops fifo_step ops q).1 = (run_ops (spec_step fifo_cap) ops (fifo_view q)).1 /\
  fifo_view (run_ops fifo_step ops q).2 = (run_ops (spec_step fifo_cap) ops (fifo_view q)).2.
Proof.
  revert q. induction ops as [|o ops IH]; intros q Hq; cbn [run_ops]; [done|].
  destruct (fifo_step_spec o q Hq) as [Hi ->].
  destruct (fifo_step o q) as [r q']. cbn [fst snd] in *.
  destruct (IH q' Hi) as [H1 H2].
  destruct (run_ops fifo_step ops q'), (run_ops (spec_step fifo_cap) ops (fifo_view q')).
  cbn in *. by rewrite H1, H2.
Qed.
End fifo.

(** ** The I/O command queue *)

Definition IO_CMD_QUEUE_SIZE : Z := 32.
(** [io_cmd_t] *)
Record io_cmd := IoCmd { cmd_id : Z; cmd_value : Z }.
Definition io_cmd_zero : io_cmd := IoCmd 0 0.

Definition io_command_init (q : ring io_cmd) : ring io_cmd := q <| head := 0 |> <| tail := 0 |>.

Definition io_command_push (id value : Z) (q : ring io_cmd) : bool * ring io_cmd :=
  let next := (head q + 1) mod IO_CMD_QUEUE_SIZE in
  if negb (next =? tail q)
  then (true, q <| slots := zset (slots q) (head q) (IoCmd id value) |> <| head := next |>)
  else (false, q).

Definition io_command_pop (q : ring io_cmd) : option io_cmd * ring io_cmd :=
  if negb (tail q =? head q)
  then (Some (default io_cmd_zero (zget (slots q) (tail q))),
        q <| tail := (tail q + 1) mod IO_CMD_QUEUE_SIZE |>)
  else (None, q).

Lemma io_command_push_ring c q :
  io_command_push (cmd_id c) (cmd_value c) q = ring_push IO_CMD_QUEUE_SIZE c q.
Proof. unfold io_command_push, ring_push. destruct c. by destruct (_ =? _). Qed.
Lemma io_command_pop_ring q : io_command_pop q = ring_pop IO_CMD_QUEUE_SIZE io_cmd_zero q.
Proof. unfold io_command_pop, ring_pop. by destruct (_ =? _). Qed.

(** Any ring of [n] slots with these two operations is a [Fifo]. *)
Section ring_fifo.
Context {A : Type} (n : Z) (zero : A) (push : A -> ring A -> bool * ring A)
  (pop : ring A -> option A * ring A).
Hypothesis Hn : 1 < n.
Hypothesis Hpush : forall x q, push x q = ring_push n x q.
Hypothesis Hpop : forall q, pop q = ring_pop n zero q.

Lemma ring_fifo_push_law x q : ring_wf n q ->
  let '(r, l) := spec_step (n - 1) (Push x) (waiting n zero q) in
  r = Pushed (push x q).1 /\ waiting n zero (push x q).2 = l.
Proof.
  intros Hq. rewrite Hpush. destruct (ring_push_spec n zero Hn x q Hq) as [H1 H2].
  cbn [spec_step]. rewrite H2. case_match; (split; [|done]); by rewrite H1.
Qed.
Lemma ring_fifo_pop_law q : ring_wf n q ->
  let '(r, l) := spec_step (n - 1) Pop (waiting n zero q) in
  r = Popped (pop q).1 /\ waiting n zero (pop q).2 = l.
Proof.
  intros Hq. rewrite Hpop. pose proof (ring_pop_spec n zero Hn q Hq) as Hs. cbn [spec_step].
  destruct (waiting n zero q) as [|x l] eqn:E; [by rewrite Hs|].
  destruct Hs as [-> ->]. done.
Qed.
Definition ring_fifo : Fifo (ring A) A.
Proof.
  refine {| fifo_push := push; fifo_pop := pop; fifo_view := waiting n zero;
            fifo_inv := ring_wf n; fifo_cap := n - 1 |};
    [intros ?? ?; rewrite Hpush; by apply ring_push_wf
    |intros ? ?; rewrite Hpop; by apply ring_pop_wf
    |apply ring_fifo_push_law|apply ring_fifo_pop_law].
Defined.
End ring_fifo.

#[export] Instance io_command_fifo : Fifo (ring io_cmd) io_cmd :=
  ring_fifo IO_CMD_QUEUE_SIZE io_cmd_zero
    (fun c => io_command_push (cmd_id c) (cmd_value c)) io_command_pop
    eq_refl io_command_push_ring io_command_pop_ring.

(** C30: The command queue between the network side and the control loop is a
    first-in first-out queue of 31 commands: whatever the interleaving of
    pushes and pops, every result (accepted or refused, which command comes
    out) is the one of the abstract bounded queue, started empty. *)
Theorem io_command_refines_fifo (ops : list (queue_op io_cmd)) (q : ring io_cmd) :
  length (slots q) = 32%nat ->
  let q0 := io_command_init q in
  (run_ops fifo_step ops q0).1 = (run_ops (spec_step 31) ops []).1 /\
  waiting IO_CMD_QUEUE_SIZE io_cmd_zero (run_ops fifo_step ops q0).2
    = (run_ops (spec_step 31) ops []).2.
Proof.
  intros Hq q0. assert (fifo_inv q0) as Hi by (split_and!; cbn; unfold IO_CMD_QUEUE_SIZE; lia).
  destruct (fifo_refines ops q0 Hi) as [H1 H2]. split; [exact H1|exact H2].
Qed.

Lemma io_command_refines_fifo_witness :
  (run_ops fifo_step [Push (IoCmd 100 1); Push (IoCmd 101 0); Pop; Pop; Pop]
     (io_command_init (ring_zero IO_CMD_QUEUE_SIZE io_cmd_zero))).1
  = [Pushed true; Pushed true; Popped (Some (IoCmd 100 1)); Popped (Some (IoCmd 101 0)); Popped None].
Proof.
  destruct (io_command_refines_fifo
    [Push (IoCmd 100 1); Push (IoCmd 101 0); Pop; Pop; Pop]
    (ring_zero IO_CMD_QUEUE_SIZE io_cmd_zero) eq_refl) as [H _].
  exact H.
Defined.

(** ** The event bus *)

Definition EVENT_BUS_MAX_EVENTS : Z := 64.
Definition EVENT_BUS_MAX_HANDLERS : Z := 8.
Definition EVENT_MASK : Z := EVENT_BUS_MAX_EVENTS - 1.

Definition EVENT_INPUT_CHANGE : Z := 0.
Definition EVENT_STATE_CHANGE : Z := 1.
Definition EVENT_TIMER : Z := 2.
Definition EVENT_PVE_ALARM_HIGH : Z := 3.
Definition EVENT_PVE_ALARM_LOW : Z := 4.
Definition EVENT_TYPE_MAX : Z := 5.

(** [endap_event_t] *)
Record event := Event { ev_type : Z; ev_source : Z; ev_data : Z }.
Definition event_zero : event := Event 0 0 0.

(** Routes: for each type, the handlers in subscription order ([count] is the
    length).  [H] is the type of handler addresses. *)
Record event_bus {H : Type} := EventBus { queue : ring event; routes : list (list H) }.
Arguments event_bus : clear implicits.
Arguments EventBus {H}.
#[export] Instance event_bus_rebuild {H} : Rebuild (event_bus H) :=
  fun b => EventBus (queue b) (routes b).

Definition event_bus_publish_ring (e : event) (q : ring event) : bool * ring event :=
  let next := Z.land (u8 (head q + 1)) EVENT_MASK in
  if next =? tail q then (false, q)
  else (true, q <| slots := zset (slots q) (head q) e |> <| head := next |>).

Definition event_bus_take (q : ring event) : option event * ring event :=
  if tail q =? head q then (None, q)
  else (Some (default event_zero (zget (slots q) (tail q))),
        q <| tail := Z.land (u8 (tail q + 1)) EVENT_MASK |>).

Lemma event_mask_mod x : Z.land (u8 x) EVENT_MASK = x mod EVENT_BUS_MAX_EVENTS.
Proof.
  change EVENT_MASK with (Z.ones 6). rewrite Z.land_ones by lia.
  unfold u8, EVENT_BUS_MAX_EVENTS. change (2 ^ 6) with 64. change 256 with (64 * 4).
  rewrite Z.rem_mul_r by lia.
  rewrite (Z.mul_comm 64), Z.mod_add by lia. by rewrite Z.mod_mod by lia.
Qed.

Lemma event_bus_publish_is_ring e q :
  event_bus_publish_ring e q = ring_push EVENT_BUS_MAX_EVENTS e q.
Proof. unfold event_bus_publish_ring, ring_push. by rewrite event_mask_mod. Qed.
Lemma event_bus_take_is_ring q :
  event_bus_take q = ring_pop EVENT_BUS_MAX_EVENTS event_zero q.
Proof. unfold event_bus_take, ring_pop. by rewrite event_mask_mod. Qed.

#[export] Instance event_fifo : Fifo (ring event) event :=
  ring_fifo EVENT_BUS_MAX_EVENTS event_zero event_bus_publish_ring event_bus_take
    eq_refl event_bus_publish_is_ring event_bus_take_is_ring.

(** Publishing, subscribing and dispatching.  A handler runs on the bus and on
    the rest of the world [W]; [call h e] is what the code at address [h] does
    with event [e]. *)
Section bus.
Context {H W : Type} (call : H -> event -> st (event_bus H * W) ()).
Implicit Types b : event_bus H.

Definition event_bus_init b : event_bus H :=
  b <| queue := (queue b) <| head := 0 |> <| tail := 0 |> |>
    <| routes := replicate (Z.to_nat EVENT_TYPE_MAX) [] |>.

Definition event_bus_publish (e : event) b : event_bus H :=
  b <| queue := (event_bus_publish_ring e (queue b)).2 |>.

Definition event_bus_subscribe (type : Z) (h : H) b : event_bus H :=
  if EVENT_TYPE_MAX <=? type then b
  else
    let r := default [] (zget (routes b) type) in
    if EVENT_BUS_MAX_HANDLERS <=? Z.of_nat (length r) then b
    else b <| routes := zset (routes b) type (r ++ [h]) |>.

(** One event to each of its handlers, in order. *)
Definition event_bus_deliver (e : event) : st (event_bus H * W) () :=
  fun s =>
    if ev_type e <? EVENT_TYPE_MAX
    then foldr (fun h m => call h e;; m) (mret tt) (default [] (zget (routes s.1) (ev_type e))) s
    else (tt, s).

Fixpoint event_bus_dispatch_loop (budget : nat) : st (event_bus H * W) () :=
  match budget with
  | O => mret tt
  | S budget => fun s =>
    match event_bus_take (queue s.1) with
    | (None, _) => (tt, s)
    | (Some e, q) =>
      (event_bus_deliver e;; event_bus_dispatch_loop budget) (s.1 <| queue := q |>, s.2)
    end
  end.
(** [while (processed < max_events)]: [max_events] rounds at most, whatever the
    handlers publish. *)
Definition event_bus_dispatch_budgeted (max_events : Z) : st (event_bus H * W) () :=
  event_bus_dispatch_loop (Z.to_nat max_events).
Definition event_bus_dispatch : st (event_bus H * W) () :=
  event_bus_dispatch_budgeted (EVENT_BUS_MAX_EVENTS - 1).

Definition bus_wf b : Prop :=
  ring_wf EVENT_BUS_MAX_EVENTS (queue b) /\ length (routes b) = 5%nat /\
  Forall (fun r => (length r <= 8)%nat) (routes b).
Definition events b : list event := waiting EVENT_BUS_MAX_EVENTS event_zero (queue b).

Lemma event_bus_publish_wf e b : bus_wf b -> bus_wf (event_bus_publish e b).
Proof.
  intros (?&?&?). split_and!; try done. cbn. rewrite event_bus_publish_is_ring.
  apply ring_push_wf; [|done]. unfold EVENT_BUS_MAX_EVENTS. lia.
Qed.

(** Publishing queues the event last, or drops it when 63 wait. *)
Lemma events_publish e b : bus_wf b ->
  events (event_bus_publish e b) =
    if bool_decide (Z.of_nat (length (events b)) < 63) then events b ++ [e] else events b.
Proof.
  intros [Hq _]. unfold events, event_bus_publish. cbn [queue update].
  rewrite event_bus_publish_is_ring.
  by destruct (ring_push_spec EVENT_BUS_MAX_EVENTS event_zero ltac:(done) e (queue b) Hq).
Qed.

Lemma event_bus_subscribe_wf type h b : bus_wf b -> bus_wf (event_bus_subscribe type h b).
Proof.
  intros (?&?&Hr). unfold event_bus_subscribe. case_match; [done|].
  unfold EVENT_BUS_MAX_HANDLERS. case_match eqn:Hc; [done|]. apply Z.leb_gt in Hc.
  split_and!; cbn; rewrite ?length_zset; try done. unfold zset. case_match; [|done].
  apply Forall_insert; [done|]. rewrite length_app; cbn. lia.
Qed.

Lemma event_bus_init_wf b : ring_wf EVENT_BUS_MAX_EVENTS (queue b) -> bus_wf (event_bus_init b).
Proof.
  intros (?&_&_). split_and!; cbn; unfold EVENT_BUS_MAX_EVENTS in *; try done; try lia.
  repeat (apply Forall_cons; split); cbn; try lia. done.
Qed.

End bus.

(** Handlers that act on the world only. *)
Section delivery.
Context {H W : Type} (run : H -> event -> W -> W).
Implicit Types b : event_bus H.

Definition call_run (h : H) (e : event) : st (event_bus H * W) () :=
  fun s => (tt, (s.1, run h e s.2)).
(** One event seen by the handlers of its type, in subscription order. *)
Definition handle (rs : list (list H)) (w : W) (e : event) : W :=
  if ev_type e <? EVENT_TYPE_MAX
  then foldl (fun w h => run h e w) w (default [] (zget rs (ev_type e)))
  else w.

Lemma event_bus_deliver_run e b w :
  event_bus_deliver call_run e (b, w) = (tt, (b, handle (routes b) w e)).
Proof.
  unfold event_bus_deliver, handle. cbn [fst]. case_match; [|done].
  generalize (default [] (zget (routes b) (ev_type e))) as hs. intros hs. revert w.
  induction hs as [|h hs IH]; intros w; cbn [foldr foldl]; [done|].
  rewrite run_bind_surj. apply IH.
Qed.

Lemma event_bus_dispatch_loop_run m b w :
  bus_wf b ->
  exists b', event_bus_dispatch_loop call_run m (b, w) =
      (tt, (b', foldl (handle (routes b)) w (take m (events b)))) /\
    events b' = drop m (events b) /\ routes b' = routes b /\ bus_wf b'.
Proof.
  revert b w. induction m as [|m IH]; intros b w Hb; cbn [event_bus_dispatch_loop].
  { exists b. by rewrite drop_0. }
  destruct Hb as (Hq&Hr). cbn [fst snd]. rewrite event_bus_take_is_ring. unfold events.
  pose proof (ring_pop_spec EVENT_BUS_MAX_EVENTS event_zero ltac:(done) _ Hq) as Hpop.
  pose proof (ring_pop_wf EVENT_BUS_MAX_EVENTS event_zero ltac:(done) _ Hq) as Hwf.
  destruct (waiting _ _ (queue b)) as [|e es] eqn:Hes.
  - rewrite Hpop. by exists b.
  - destruct (ring_pop _ _ (queue b)) as [oe q]. cbn [fst snd] in *. destruct Hpop as [-> <-].
    rewrite run_bind_surj, event_bus_deliver_run. cbn [fst snd].
    change (routes (b <| queue := q |>)) with (routes b).
    destruct (IH (b <| queue := q |>) (handle (routes b) w e)) as (b' & -> & ?); [done|].
    by exists b'.
Qed.
End delivery.

(** Budgeted dispatch: with a budget of [m], the handlers see the oldest
    [m] waiting events, oldest first, each event through the handlers of its
    type in subscription order; the others stay queued in order, and the routes
    are untouched.  A budget of 63 (the full drain) empties the queue. *)
Theorem dispatch_in_order {H W : Type} (run : H -> event -> W -> W) (m : Z) (b : event_bus H) (w : W) :
  bus_wf b -> 0 <= m ->
  exists b', event_bus_dispatch_budgeted (call_run run) m (b, w) =
      (tt, (b', foldl (handle run (routes b)) w (take (Z.to_nat m) (events b)))) /\
    events b' = drop (Z.to_nat m) (events b) /\ routes b' = routes b /\ bus_wf b' /\
    (exists b'', event_bus_dispatch (call_run run) (b, w) =
        (tt, (b'', foldl (handle run (routes b)) w (events b))) /\ events b'' = []).
Proof.
  intros Hb Hm. destruct (event_bus_dispatch_loop_run run (Z.to_nat m) b w Hb) as (b' & H1 & H2 & H3 & H4).
  exists b'. split_and!; try done.
  pose proof (waiting_bound EVENT_BUS_MAX_EVENTS event_zero ltac:(done) (queue b)) as Hw.
  fold (events b) in Hw. unfold EVENT_BUS_MAX_EVENTS in Hw.
  destruct (event_bus_dispatch_loop_run run 63 b w Hb) as (b'' & H5 & H6 & _).
  exists b''. rewrite take_ge in H5 by lia. rewrite drop_ge in H6 by lia. done.
Qed.

Lemma dispatch_in_order_witness :
  let b0 := event_bus_init (EventBus (ring_zero EVENT_BUS_MAX_EVENTS event_zero) []) in
  let b := event_bus_publish (Event EVENT_TIMER 7 42)
             (event_bus_publish (Event EVENT_STATE_CHANGE 100 1)
                (event_bus_subscribe EVENT_STATE_CHANGE tt b0)) in
  (event_bus_dispatch_budgeted (call_run (fun _ e l => l ++ [ev_source e])) 2 (b, [])).2.2 = [100].
Proof.
  intros b0 b.
  destruct (dispatch_in_order (fun (_ : ()) e l => l ++ [ev_source e]) 2 b []) as (b' & -> & _);
    [|lia|vm_compute; reflexivity].
  apply event_bus_publish_wf, event_bus_publish_wf, event_bus_subscribe_wf, event_bus_init_wf.
  exact (ring_zero_wf EVENT_BUS_MAX_EVENTS event_zero ltac:(unfold EVENT_BUS_MAX_EVENTS; lia)).
Defined.

(** ** The set queue *)

Definition EVENT_QUEUE_SIZE : Z := 32.
(** [event_set_t] *)
Record event_set := EventSet { es_id : Z; es_value : Z }.
Definition event_set_zero : event_set := EventSet 0 0.

Definition event_enqueue_set (id value : Z) (q : ring event_set) : bool * ring event_set :=
  let next := u16 ((head q + 1) mod EVENT_QUEUE_SIZE) in
  if next =? tail q then (false, q)
  else (true, q <| slots := zset (slots q) (head q) (EventSet id value) |> <| head := next |>).

Section set_queue.
(** [set] is [state_set_int] on the rest of the world, its result ignored. *)
Context {W : Type} (set : Z -> Z -> W -> W).

(** [while (tail != head)], with the number of rounds allowed as fuel. *)
Fixpoint event_process_set_queue (fuel : nat) : st (ring event_set * W) () :=
  fun s =>
    match fuel with
    | O => (tt, s)
    | S fuel =>
      let q := s.1 in
      if tail q =? head q then (tt, s)
      else
        let ev := default event_set_zero (zget (slots q) (tail q)) in
        event_process_set_queue fuel
          (q <| tail := u16 ((tail q + 1) mod EVENT_QUEUE_SIZE) |>, set (es_id ev) (es_value ev) s.2)
    end.

Lemma event_process_set_queue_run fuel q w :
  ring_wf EVENT_QUEUE_SIZE q -> (length (waiting EVENT_QUEUE_SIZE event_set_zero q) <= fuel)%nat ->
  exists q', event_process_set_queue fuel (q, w) =
      (tt, (q', foldl (fun w ev => set (es_id ev) (es_value ev) w) w
                  (waiting EVENT_QUEUE_SIZE event_set_zero q))) /\
    head q' = head q /\ tail q' = head q.
Proof.
  revert q w. induction fuel as [|fuel IH]; intros q w Hq Hlen;
    pose proof (ring_pop_spec EVENT_QUEUE_SIZE event_set_zero ltac:(done) q Hq) as Hp;
    pose proof (ring_pop_wf EVENT_QUEUE_SIZE event_set_zero ltac:(done) q Hq) as Hw;
    unfold ring_pop in Hp, Hw; cbn [event_process_set_queue fst snd].
  - destruct (waiting _ _ q); [|cbn in Hlen; lia].
    destruct (Z.eqb_spec (tail q) (head q)); [|done]. by exists q.
  - destruct (Z.eqb_spec (tail q) (head q)) as [E|E]; cbn [fst snd] in *.
    + destruct (waiting _ _ q); [by exists q|]. by destruct Hp.
    + destruct (waiting _ _ q) as [|x rest]; [done|]. destruct Hp as [[= <-] Hrest].
      assert (u16 ((tail q + 1) mod EVENT_QUEUE_SIZE) = (tail q + 1) mod EVENT_QUEUE_SIZE) as ->.
      { apply u16_id. unfold EVENT_QUEUE_SIZE. word_lia. }
      cbn [foldl length] in *. rewrite <- Hrest.
      edestruct (IH (q <| tail := (tail q + 1) mod EVENT_QUEUE_SIZE |>)) as (q' & Hr & Hh & Ht);
        [done|rewrite Hrest; lia|].
      exists q'. split; [exact Hr|]. by rewrite Hh, Ht.
Qed.
End set_queue.
