(* ===== verification/State.v ===== *)
(** * The state table and its interface
    ([components/data/state/state.c], [components/data/state/include/io_map.h];
     the output hook is [state_output_changed] of
     [components/runtime/io_driver/io_driver.c], the dirty mark is
     [snapshot_mark_dirty] of [components/runtime/snapshot/snapshot.c])

    [StateApi] is what the other components (failsafe, automation, ladder,
    command application) rely on; the table implements it at the end. *)

From S2P Require Import Prelude EventBus.

Definition STATE_MAX_ENTRIES : Z := 256.
Definition state_valid_id (id : Z) : bool := id <? STATE_MAX_ENTRIES.

(** ** The interface *)

Class StateApi (W : Type) := {
  state_get_int : Z -> W -> option Z;        (* [None]: the C result is false *)
  state_set_int : Z -> Z -> st W bool;
}.
Class StateLaws (W : Type) `{StateApi W} := {
  state_inv : W -> Prop;
  state_get_valid id w : state_inv w -> 0 <= id ->
    (is_Some (state_get_int id w) <-> state_valid_id id = true);
  state_set_inv id v w : state_inv w -> is_i32 v -> state_inv (state_set_int id v w).2;
  state_set_result id v w : (state_set_int id v w).1 = state_valid_id id;
  state_set_invalid id v w : state_valid_id id = false -> state_set_int id v w = (false, w);
  state_get_set_eq id v w : state_inv w -> 0 <= id -> state_valid_id id = true ->
    state_get_int id (state_set_int id v w).2 = Some v;
  state_get_set_ne id id' v w : 0 <= id -> 0 <= id' -> id <> id' ->
    state_get_int id' (state_set_int id v w).2 = state_get_int id' w;
  state_set_same id v w : state_get_int id w = Some v -> state_set_int id v w = (true, w);
}.

(** A world that holds such a table in one of its parts implements the interface
    too. *)
Section part.
Context {V W : Type} `{StateLaws V} (get : W -> V) (put : V -> W -> W).
Context (Hget : forall v w, get (put v w) = v) (Hput : forall w, put (get w) w = w).
Definition part_state : StateApi W := {|
  state_get_int id w := state_get_int id (get w);
  state_set_int id v := on_part get put (state_set_int id v);
|}.
Lemma part_set id v w : (state_set_int (StateApi := part_state) id v w).1 = (state_set_int id v (get w)).1 /\
  get (state_set_int (StateApi := part_state) id v w).2 = (state_set_int id v (get w)).2.
Proof. cbn. unfold on_part. destruct (state_set_int id v (get w)) as [b x]. split; [done|]. apply Hget. Qed.
Lemma part_set_same id v w b : state_set_int id v (get w) = (b, get w) -> state_set_int (StateApi := part_state) id v w = (b, w).
Proof. intros Hs. cbn. unfold on_part. rewrite Hs. by rewrite Hput. Qed.
#[program] Definition part_laws : StateLaws W (H := part_state) := {| state_inv w := state_inv (get w) |}.
Next Obligation. intros id w Hw Hid. exact (state_get_valid id (get w) Hw Hid). Qed.
Next Obligation. intros id v w Hw Hv. cbv beta. rewrite (proj2 (part_set id v w)). exact (state_set_inv id v (get w) Hw Hv). Qed.
Next Obligation. intros id v w. rewrite (proj1 (part_set id v w)). exact (state_set_result id v (get w)). Qed.
Next Obligation. intros id v w Hv. exact (part_set_same id v w false (state_set_invalid id v (get w) Hv)). Qed.
Next Obligation. intros id v w Hw Hid Hv. cbn [state_get_int part_state]. rewrite (proj2 (part_set id v w)). exact (state_get_set_eq id v (get w) Hw Hid Hv). Qed.
Next Obligation. intros id id' v w Hid Hid' Hne. cbn [state_get_int part_state]. rewrite (proj2 (part_set id v w)). exact (state_get_set_ne id id' v (get w) Hid Hid' Hne). Qed.
Next Obligation. intros id v w Hv. exact (part_set_same id v w true (state_set_same id v (get w) Hv)). Qed.
End part.

(** ** Identifiers of the inputs and outputs *)

Definition ENDAP_INPUT_BASE_ID : Z := 10.
Definition ENDAP_OUTPUT_BASE_ID : Z := 100.
Definition ENDAP_MAX_INPUT_SLOTS : Z := 16.
Definition ENDAP_MAX_OUTPUT_SLOTS : Z := 16.
Definition ENDAP_DEFAULT_ACTIVE_INPUTS : Z := 6.
Definition ENDAP_DEFAULT_ACTIVE_OUTPUTS : Z := 6.
Definition ENDAP_INPUT_ID (slot : Z) : Z := u16 (ENDAP_INPUT_BASE_ID + u16 slot).
Definition ENDAP_OUTPUT_ID (slot : Z) : Z := u16 (ENDAP_OUTPUT_BASE_ID + u16 slot).
Definition ENDAP_INPUT_SLOT_FROM_ID (id : Z) : Z := i32 (u32 (u16 id - ENDAP_INPUT_BASE_ID)).
Definition ENDAP_OUTPUT_SLOT_FROM_ID (id : Z) : Z := i32 (u32 (u16 id - ENDAP_OUTPUT_BASE_ID)).
Definition ENDAP_INPUT_ID_MIN : Z := ENDAP_INPUT_ID 0.
Definition ENDAP_INPUT_ID_MAX : Z := ENDAP_INPUT_ID (ENDAP_MAX_INPUT_SLOTS - 1).
Definition ENDAP_OUTPUT_ID_MIN : Z := ENDAP_OUTPUT_ID 0.
Definition ENDAP_OUTPUT_ID_MAX : Z := ENDAP_OUTPUT_ID (ENDAP_MAX_OUTPUT_SLOTS - 1).

Definition endap_is_valid_input_slot (slot : Z) : bool := (0 <=? slot) && (slot <? ENDAP_MAX_INPUT_SLOTS).
Definition endap_is_valid_output_slot (slot : Z) : bool := (0 <=? slot) && (slot <? ENDAP_MAX_OUTPUT_SLOTS).
Definition endap_is_valid_input_id (id : Z) : bool :=
  (ENDAP_INPUT_ID_MIN <=? id) && (id <=? ENDAP_INPUT_ID_MAX).
Definition endap_is_valid_output_id (id : Z) : bool :=
  (ENDAP_OUTPUT_ID_MIN <=? id) && (id <=? ENDAP_OUTPUT_ID_MAX).
Definition endap_is_default_input_id (id : Z) : bool :=
  endap_is_valid_input_id id && (ENDAP_INPUT_SLOT_FROM_ID id <? ENDAP_DEFAULT_ACTIVE_INPUTS).
Definition endap_is_default_output_id (id : Z) : bool :=
  endap_is_valid_output_id id && (ENDAP_OUTPUT_SLOT_FROM_ID id <? ENDAP_DEFAULT_ACTIVE_OUTPUTS).
Definition endap_is_extra_input_id (id : Z) : bool :=
  endap_is_valid_input_id id && negb (endap_is_default_input_id id).
Definition endap_is_extra_output_id (id : Z) : bool :=
  endap_is_valid_output_id id && negb (endap_is_default_output_id id).

(** Every input and output identifier is a valid index of the state table, and
    an identifier is never both. *)
Lemma io_ids_valid id : is_u16 id ->
  (endap_is_valid_input_id id = true -> state_valid_id id = true) /\
  (endap_is_valid_output_id id = true -> state_valid_id id = true) /\
  (endap_is_valid_input_id id = true -> endap_is_valid_output_id id = false).
Proof.
  intros. unfold endap_is_valid_input_id, endap_is_valid_output_id, state_valid_id.
  change ENDAP_INPUT_ID_MIN with 10. change ENDAP_INPUT_ID_MAX with 25.
  change ENDAP_OUTPUT_ID_MIN with 100. change ENDAP_OUTPUT_ID_MAX with 115.
  unfold STATE_MAX_ENTRIES.
  destruct (Z.leb_spec 10 id), (Z.leb_spec id 25), (Z.leb_spec 100 id), (Z.leb_spec id 115),
    (Z.ltb_spec id 256); cbn; split_and!; try done; lia.
Qed.

(** ** The table

    With the modules that a change of the table reaches: the event bus and its
    two subscribers, the snapshot's dirty mark and the I/O driver's pending
    mask. *)
Inductive subscriber := on_automation_event | on_input_learning_event.

Record store := Store {
  int_values : list Z;
  dirty_flags : list bool;
  bus : event_bus subscriber;
  snapshot_dirty : bool;
  last_change : Z;
  snapshot_crc : Z;
  st_clock : clock;
  output_ids : list Z;          (* output_table[i].id, i < output_count *)
  input_ids : list Z;           (* input_table[i].id, i < input_count *)
  pending_mask : Z;
  http_notifications : N;       (* calls of http_server_notify_state_change *)
}.
#[export] Instance store_rebuild : Rebuild store := fun s =>
  Store (int_values s) (dirty_flags s) (bus s) (snapshot_dirty s) (last_change s) (snapshot_crc s)
    (st_clock s) (output_ids s) (input_ids s) (pending_mask s) (http_notifications s).

Definition state_init (s : store) : store :=
  s <| int_values := replicate (Z.to_nat STATE_MAX_ENTRIES) 0 |>
    <| dirty_flags := replicate (Z.to_nat STATE_MAX_ENTRIES) false |>.

Definition snapshot_mark_dirty (s : store) : store :=
  s <| st_clock := (clock_read (st_clock s)).2 |>
    <| snapshot_dirty := true |>
    <| last_change := (clock_read (st_clock s)).1 / 1000 |>.

Definition io_driver_is_known_state (id : Z) (s : store) : bool :=
  bool_decide (is_Some (find_idx (fun o => o =? id) (output_ids s)) \/
               is_Some (find_idx (fun o => o =? id) (input_ids s))).

Definition state_output_changed (id value : Z) (s : store) : store :=
  let s := match find_idx (fun o => o =? id) (output_ids s) with
           | Some i => s <| pending_mask := Z.lor (pending_mask s) (u32 (Z.shiftl 1 (Z.of_nat i))) |>
           | None => s
           end in
  if io_driver_is_known_state id s
  then s <| http_notifications := (http_notifications s + 1)%N |> else s.

Definition set_int (id value : Z) : st store bool := fun s =>
  if negb (state_valid_id id) then (false, s)
  else
    let s :=
      if negb (default 0 (zget (int_values s) id) =? value) then
        let s := s <| int_values := zset (int_values s) id value |>
                   <| dirty_flags := zset (dirty_flags s) id true |> in
        let s := snapshot_mark_dirty s in
        let s := s <| bus := event_bus_publish (Event EVENT_STATE_CHANGE id value) (bus s) |> in
        state_output_changed id value s
      else s in
    (true, s).

Definition get_int (id : Z) (s : store) : option Z :=
  if negb (state_valid_id id) then None else Some (default 0 (zget (int_values s) id)).

#[export] Instance store_api : StateApi store := {
  state_get_int := get_int;
  state_set_int := set_int;
}.

Definition state_set_bool {W} `{StateApi W} (id : Z) (value : bool) : st W bool :=
  state_set_int id (if value then 1 else 0).
Definition state_get_bool {W} `{StateApi W} (id : Z) (w : W) : option bool :=
  (fun v => negb (v =? 0)) <$> state_get_int id w.

Definition state_is_dirty (id : Z) (s : store) : bool :=
  if negb (state_valid_id id) then false else default false (zget (dirty_flags s) id).
Definition state_clear_dirty (id : Z) (s : store) : store :=
  if negb (state_valid_id id) then s
  else s <| dirty_flags := zset (dirty_flags s) id false |>.

(** [state_entry_t] *)
Record state_entry := StateEntry { se_id : Z; se_value : Z }.

(** The loop over the identifiers, which stops at the first entry that does
    not fit. *)
Fixpoint export_from (ids : list nat) (s : store) (room : nat) : list state_entry :=
  match ids with
  | [] => []
  | id :: ids =>
    let val := default 0 (int_values s !! id) in
    if (val =? 0) && negb (default false (dirty_flags s !! id)) then export_from ids s room
    else match room with
         | O => []
         | S room => StateEntry (Z.of_nat id) val :: export_from ids s room
         end
  end.
Definition state_export_entries (max : Z) (s : store) : list state_entry :=
  if max =? 0 then [] else export_from (seq 0 (Z.to_nat STATE_MAX_ENTRIES)) s (Z.to_nat max).

Definition state_export_snapshot (max_entries : Z) (s : store) : list Z :=
  let count := if max_entries <? STATE_MAX_ENTRIES then max_entries else STATE_MAX_ENTRIES in
  take (Z.to_nat count) (int_values s).

Definition state_import_snapshot (buffer : list Z) (entries : Z) (s : store) : store :=
  let count := if entries <? STATE_MAX_ENTRIES then entries else STATE_MAX_ENTRIES in
  s <| int_values := take (Z.to_nat count) buffer ++ drop (Z.to_nat count) (int_values s) |>
    <| dirty_flags := replicate (Z.to_nat STATE_MAX_ENTRIES) false |>.

(** ** Invariant and laws *)

Record store_wf (s : store) : Prop := {
  sw_values : length (int_values s) = 256%nat;
  sw_flags : length (dirty_flags s) = 256%nat;
  sw_i32 : Forall (fun v => is_i32 v) (int_values s);
  sw_bus : bus_wf (bus s);
  sw_outputs : (length (output_ids s) <= 16)%nat;
  sw_mask : 0 <= pending_mask s < 2 ^ 16;
}.

Lemma set_int_values id v s :
  int_values (set_int id v s).2 =
    if state_valid_id id && negb (default 0 (zget (int_values s) id) =? v)
    then zset (int_values s) id v else int_values s.
Proof.
  unfold set_int. destruct (state_valid_id id); [|done]. cbn [negb andb].
  destruct (negb _) eqn:E; [|done]. unfold state_output_changed. by repeat case_match.
Qed.

Lemma state_output_changed_wf id v s : store_wf s -> store_wf (state_output_changed id v s).
Proof.
  intros []. unfold state_output_changed.
  assert (store_wf (match find_idx (fun o => o =? id) (output_ids s) with
     | Some i => s <| pending_mask := Z.lor (pending_mask s) (u32 (Z.shiftl 1 (Z.of_nat i))) |>
     | None => s end)) as Hw.
  { destruct (find_idx _ _) as [i|] eqn:Hi; [|by constructor].
    apply find_idx_lt in Hi. constructor; try done. cbn [pending_mask update].
    rewrite Z.shiftl_mul_pow2, Z.mul_1_l by lia.
    assert (2 ^ Z.of_nat i < 2 ^ 16) by (apply Z.pow_lt_mono_r; lia).
    assert (0 < 2 ^ Z.of_nat i) by (apply Z.pow_pos_nonneg; lia).
    rewrite u32_id by lia.
    assert (0 <= Z.lor (pending_mask s) (2 ^ Z.of_nat i)) by (apply Z.lor_nonneg; lia).
    split; [done|]. apply Z.log2_lt_cancel. rewrite Z.log2_lor by lia.
    rewrite Z.log2_pow2 by lia. change (Z.log2 (2 ^ 16)) with 16.
    apply Z.max_lub_lt; [|lia]. destruct (decide (pending_mask s = 0)) as [->|]; [done|].
    apply Z.log2_lt_pow2; lia. }
  destruct (io_driver_is_known_state _ _); [|done]. by destruct Hw.
Qed.

Lemma set_int_wf id v s : store_wf s -> is_i32 v -> store_wf (set_int id v s).2.
Proof.
  intros Hs Hv. unfold set_int. case_match; [done|]. case_match; [|done]. cbn [snd].
  apply state_output_changed_wf. destruct Hs. constructor; cbn; rewrite ?length_zset; try done.
  - unfold zset. case_match; [by apply Forall_insert|done].
  - by apply event_bus_publish_wf.
Qed.

#[export] Program Instance store_laws : StateLaws store := {| state_inv := store_wf |}.
Next Obligation.
  intros id w _ _. cbn. unfold get_int. destruct (state_valid_id id); cbn; [done|].
  split; [intros [? ?]; done|done].
Qed.
Next Obligation. intros id v w Hw Hv. by apply set_int_wf. Qed.
Next Obligation. intros id v w. cbn. unfold set_int. by destruct (state_valid_id id). Qed.
Next Obligation. intros id v w H. cbn. unfold set_int. by rewrite H. Qed.
Next Obligation.
  intros id v w Hw Hid H. cbn. unfold get_int. rewrite H. cbn [negb]. f_equal.
  rewrite set_int_values, H. cbn [andb].
  unfold state_valid_id, STATE_MAX_ENTRIES in H. apply Z.ltb_lt in H.
  destruct (Z.eqb_spec (default 0 (zget (int_values w) id)) v); cbn [negb]; [done|].
  rewrite zget_zset_eq; [done|]. destruct Hw. lia.
Qed.
Next Obligation.
  intros id id' v w Hid Hid' H. cbn. unfold get_int. destruct (state_valid_id id'); [|done].
  cbn [negb]. do 2 f_equal. rewrite set_int_values. case_match; [|done]. by apply zget_zset_ne.
Qed.
Next Obligation.
  intros id v w. cbn. unfold get_int, set_int. destruct (state_valid_id id); [|done].
  cbn [negb]. intros [= ->]. by rewrite Z.eqb_refl.
Qed.

(** The output hook touches the driver's mask and the HTTP counter only. *)
Lemma state_output_changed_shape id v s :
  exists m n, state_output_changed id v s = s <| pending_mask := m |> <| http_notifications := n |>.
Proof.
  exists (pending_mask (state_output_changed id v s)), (http_notifications (state_output_changed id v s)).
  destruct s. unfold state_output_changed. by repeat case_match.
Qed.

(** The mask gains the bit of the output with that identifier. *)
Lemma state_output_changed_mask id v s i :
  (length (output_ids s) <= 16)%nat -> 0 <= i ->
  Z.testbit (pending_mask (state_output_changed id v s)) i =
    Z.testbit (pending_mask s) i ||
    bool_decide (find_idx (fun o => o =? id) (output_ids s) = Some (Z.to_nat i)).
Proof.
  intros Hlen Hi.
  assert (pending_mask (state_output_changed id v s) =
    match find_idx (fun o => o =? id) (output_ids s) with
    | Some k => Z.lor (pending_mask s) (u32 (Z.shiftl 1 (Z.of_nat k)))
    | None => pending_mask s end) as ->.
  { unfold state_output_changed. by repeat case_match. }
  destruct (find_idx _ _) as [k|] eqn:Hk; [|by rewrite bool_decide_eq_false_2, orb_false_r].
  apply find_idx_lt in Hk. assert (2 ^ Z.of_nat k < 2 ^ 16) by (apply Z.pow_lt_mono_r; lia).
  rewrite Z.lor_spec. f_equal.
  rewrite Z.shiftl_mul_pow2, Z.mul_1_l, u32_id by lia. rewrite Z.pow2_bits_eqb by lia.
  destruct (Z.eqb_spec (Z.of_nat k) i) as [<-|Hne]; symmetry.
  - apply bool_decide_eq_true_2. by rewrite Nat2Z.id.
  - apply bool_decide_eq_false_2. intros [= ->]. lia.
Qed.

(** A write of a new value, one step after the other. *)
Lemma set_int_changed id v s :
  state_valid_id id = true -> get_int id s <> Some v ->
  exists s1, set_int id v s = (true, state_output_changed id v s1) /\
    int_values s1 = zset (int_values s) id v /\ dirty_flags s1 = zset (dirty_flags s) id true /\
    bus s1 = event_bus_publish (Event EVENT_STATE_CHANGE id v) (bus s) /\
    snapshot_dirty s1 = true /\ output_ids s1 = output_ids s /\ pending_mask s1 = pending_mask s.
Proof.
  unfold set_int, get_int. intros -> Hne. cbn [negb] in *.
  destruct (Z.eqb_spec (default 0 (zget (int_values s) id)) v); [congruence|]. cbn [negb].
  eexists. split; [reflexivity|]. by split_and!.
Qed.

(** C5: A write through [state_set_int] on a valid identifier succeeds, reads
    back, and touches no other identifier.  When the value changes it has
    exactly its documented effects: the entry becomes dirty, the snapshot is
    marked for saving, one STATE_CHANGE event for it is queued behind the
    waiting ones (unless the bus is full), and the driver's pending mask gains
    the bit of that output and nothing else.  Writing the value already there
    changes nothing at all. *)
Theorem state_set_effects (s : store) (id v : Z) :
  store_wf s -> 0 <= id < 256 -> is_i32 v ->
  let '(ok, s') := state_set_int id v s in
  ok = true /\ state_get_int id s' = Some v /\
  (forall id', 0 <= id' -> id' <> id -> state_get_int id' s' = state_get_int id' s) /\
  (if decide (state_get_int id s = Some v) then s' = s
   else state_is_dirty id s' = true /\ snapshot_dirty s' = true /\
        events (bus s') = (if bool_decide (Z.of_nat (length (events (bus s))) < 63)
          then events (bus s) ++ [Event EVENT_STATE_CHANGE id v] else events (bus s)) /\
        (forall i, 0 <= i -> Z.testbit (pending_mask s') i =
           Z.testbit (pending_mask s) i ||
           bool_decide (find_idx (fun o => o =? id) (output_ids s) = Some (Z.to_nat i)))).
Proof.
  intros Hs Hid Hv. assert (state_valid_id id = true) as Hval.
  { unfold state_valid_id, STATE_MAX_ENTRIES. apply Z.ltb_lt. lia. }
  pose proof (state_get_set_eq id v s Hs ltac:(lia) Hval) as Heq.
  pose proof (fun id' H0 Hne => state_get_set_ne id id' v s ltac:(lia) H0 Hne) as Hother.
  pose proof (state_set_result id v s) as Hres. rewrite Hval in Hres.
  pose proof (state_set_same id v s) as Hsame.
  destruct (state_set_int id v s) as [ok s'] eqn:E. cbn [fst snd] in *.
  split_and!; [done|done|intros; apply Hother; [done|congruence]|].
  case_decide as Hd; [by apply Hsame in Hd; simplify_eq|].
  destruct (set_int_changed id v s Hval Hd) as (s1 & E' & _ & Hf & Hb & Hsd & Hid' & Hm).
  assert (s' = state_output_changed id v s1) as -> by (cbn in E; congruence).
  destruct (state_output_changed_shape id v s1) as (m & n & Hout).
  split_and!.
  - rewrite Hout. unfold state_is_dirty. rewrite Hval. cbn [negb dirty_flags update].
    rewrite Hf, zget_zset_eq; [done|]. destruct Hs. lia.
  - by rewrite Hout.
  - rewrite Hout. cbn [bus update]. rewrite Hb. apply events_publish, Hs.
  - intros i Hi. rewrite state_output_changed_mask by (rewrite ?Hid'; try apply Hs; done).
    by rewrite Hm, Hid'.
Qed.

(** A store at boot: clock running, empty bus, the six default outputs driven. *)
Definition store_boot : store :=
  state_init (Store [] [] (event_bus_init (EventBus (ring_zero EVENT_BUS_MAX_EVENTS event_zero) []))
    false 0 0 (Clock (fun i => 1000 * Z.of_nat i) 0) [100; 101; 102; 103; 104; 105]
    [10; 11; 12; 13; 14; 15] 0 0%N).

Lemma store_boot_wf : store_wf store_boot.
Proof.
  constructor; [reflexivity|reflexivity| | |cbn; lia|cbn; lia].
  - apply Forall_replicate. lia.
  - apply event_bus_init_wf, ring_zero_wf. unfold EVENT_BUS_MAX_EVENTS. lia.
Qed.

Lemma state_set_effects_witness :
  (state_set_int 103 1 store_boot).1 = true /\
  state_get_int 103 (state_set_int 103 1 store_boot).2 = Some 1.
Proof.
  pose proof (state_set_effects store_boot 103 1 store_boot_wf ltac:(lia) ltac:(lia)) as H.
  destruct (state_set_int 103 1 store_boot) as [ok s'].
  destruct H as (H1 & H2 & _). split; [exact H1|exact H2].
Defined.
