(* ===== verification/DeviceProfile.v ===== *)
(** * The device profile ([components/device_profile])

    The tables of channels a board has and the pins they may use, the pins of
    its sensors, the network policy with its image in flash, and the templates
    of the node profiles.  Names shown to a user are kept where another part
    stores them; descriptions and notes are left out. *)

From Stdlib Require Import String Ascii.
From S2P Require Import Prelude Persist EventBus State.
Local Open Scope string_scope.
Local Open Scope list_scope.
Local Open Scope Z_scope.

(** ** Channels *)

Definition GPIO_NUM_NC : Z := -1.
(** [device_channel_backend_t] *)
Definition DEVICE_CHANNEL_BACKEND_GPIO : Z := 0.
Definition DEVICE_CHANNEL_BACKEND_MCP23X17 : Z := 1.
Definition DEVICE_CHANNEL_BACKEND_ADC_NATIVE : Z := 2.
Definition DEVICE_CHANNEL_BACKEND_ADC_EXTERNAL : Z := 3.
(** [device_channel_class_t] *)
Definition DEVICE_CHANNEL_CLASS_DIGITAL_INPUT : Z := 0.
Definition DEVICE_CHANNEL_CLASS_DIGITAL_OUTPUT : Z := 1.
Definition DEVICE_CHANNEL_CLASS_ANALOG_INPUT : Z := 2.
Definition DEVICE_CHANNEL_CLASS_ANALOG_OUTPUT : Z := 3.
Definition device_profile_gpio_is_input_only (gpio : Z) : bool := (gpio =? 34) || (gpio =? 35) || (gpio =? 36) || (gpio =? 39).

(** [device_input_profile_t] and [device_output_profile_t] *)
Record device_input_profile := InputProfile { ip_id : Z; ip_name : string; ip_gpio : Z; ip_active_low : bool; ip_debounce_samples : Z }.
Record device_output_profile := OutputProfile { op_id : Z; op_name : string; op_gpio : Z; op_active_low : bool }.

Definition input_profile : list device_input_profile :=
  [InputProfile (ENDAP_INPUT_ID 0) "GPIO16" 16 false 5; InputProfile (ENDAP_INPUT_ID 1) "GPIO17" 17 false 5;
   InputProfile (ENDAP_INPUT_ID 2) "GPIO21" 21 false 5; InputProfile (ENDAP_INPUT_ID 3) "GPIO22" GPIO_NUM_NC false 5;
   InputProfile (ENDAP_INPUT_ID 4) "GPIO27" 27 false 5; InputProfile (ENDAP_INPUT_ID 5) "GPIO26" 26 false 5;
   InputProfile (ENDAP_INPUT_ID 6) "GPIO18" 18 false 5; InputProfile (ENDAP_INPUT_ID 7) "GPIO19" 19 false 5;
   InputProfile (ENDAP_INPUT_ID 8) "GPIO23" 23 false 5; InputProfile (ENDAP_INPUT_ID 9) "GPIO32" 32 false 5;
   InputProfile (ENDAP_INPUT_ID 10) "GPIO33" 33 false 5; InputProfile (ENDAP_INPUT_ID 11) "GPIO25" 25 false 5;
   InputProfile (ENDAP_INPUT_ID 12) "GPIO34" 34 false 5; InputProfile (ENDAP_INPUT_ID 13) "GPIO35" 35 false 5;
   InputProfile (ENDAP_INPUT_ID 14) "GPIO36" 36 false 5; InputProfile (ENDAP_INPUT_ID 15) "GPIO39" 39 false 5].
Definition output_profile : list device_output_profile :=
  [OutputProfile (ENDAP_OUTPUT_ID 0) "GPIO22" 22 true; OutputProfile (ENDAP_OUTPUT_ID 1) "GPIO4" 4 true;
   OutputProfile (ENDAP_OUTPUT_ID 2) "GPIO5" 5 true; OutputProfile (ENDAP_OUTPUT_ID 3) "GPIO14" 14 true;
   OutputProfile (ENDAP_OUTPUT_ID 4) "GPIO25" GPIO_NUM_NC false; OutputProfile (ENDAP_OUTPUT_ID 5) "GPIO33" 33 true;
   OutputProfile (ENDAP_OUTPUT_ID 6) "GPIO13" 13 true; OutputProfile (ENDAP_OUTPUT_ID 7) "GPIO16" 16 true;
   OutputProfile (ENDAP_OUTPUT_ID 8) "GPIO17" 17 true; OutputProfile (ENDAP_OUTPUT_ID 9) "GPIO18" 18 true;
   OutputProfile (ENDAP_OUTPUT_ID 10) "GPIO19" 19 true; OutputProfile (ENDAP_OUTPUT_ID 11) "GPIO21" 21 true;
   OutputProfile (ENDAP_OUTPUT_ID 12) "GPIO22" 22 true; OutputProfile (ENDAP_OUTPUT_ID 13) "GPIO23" 23 true;
   OutputProfile (ENDAP_OUTPUT_ID 14) "GPIO26" GPIO_NUM_NC false; OutputProfile (ENDAP_OUTPUT_ID 15) "GPIO32" 32 true].

Definition device_profile_input_count : Z := Z.of_nat (length input_profile).
Definition device_profile_output_count : Z := Z.of_nat (length output_profile).
Definition device_profile_input_at (index : Z) : option device_input_profile :=
  if (index <? 0) || (device_profile_input_count <=? index) then None else zget input_profile index.
Definition device_profile_output_at (index : Z) : option device_output_profile :=
  if (index <? 0) || (device_profile_output_count <=? index) then None else zget output_profile index.
Definition device_profile_input_id_at (index : Z) : Z :=
  match device_profile_input_at index with Some p => ip_id p | None => 0 end.
Definition device_profile_output_id_at (index : Z) : Z :=
  match device_profile_output_at index with Some p => op_id p | None => 0 end.
Definition device_profile_find_input (id : Z) : option device_input_profile :=
  i ← find_idx (fun p => ip_id p =? id) input_profile; input_profile !! i.
Definition device_profile_find_output (id : Z) : option device_output_profile :=
  i ← find_idx (fun p => op_id p =? id) output_profile; output_profile !! i.
Definition device_profile_is_valid_input (id : Z) : bool := match device_profile_find_input id with Some _ => true | None => false end.
Definition device_profile_is_valid_output (id : Z) : bool := match device_profile_find_output id with Some _ => true | None => false end.

Definition device_profile_default_input_count : Z := ENDAP_DEFAULT_ACTIVE_INPUTS.
Definition device_profile_default_output_count : Z := ENDAP_DEFAULT_ACTIVE_OUTPUTS.
Definition device_profile_is_default_input_id (id : Z) : bool :=
  existsb (fun p => ip_id p =? id) (take (Z.to_nat ENDAP_DEFAULT_ACTIVE_INPUTS) input_profile).
Definition device_profile_is_default_output_id (id : Z) : bool :=
  existsb (fun p => op_id p =? id) (take (Z.to_nat ENDAP_DEFAULT_ACTIVE_OUTPUTS) output_profile).
Definition device_profile_is_extra_input_id (id : Z) : bool :=
  device_profile_is_valid_input id && negb (device_profile_is_default_input_id id).
Definition device_profile_is_extra_output_id (id : Z) : bool :=
  device_profile_is_valid_output id && negb (device_profile_is_default_output_id id).
(** The last of the default outputs. *)
Fixpoint preferred_from (n : nat) : Z :=
  match n with
  | O => 0
  | S n =>
    match device_profile_output_at (Z.of_nat n) with
    | Some p => if negb (op_id p =? 0) then op_id p else preferred_from n
    | None => preferred_from n
    end
  end.
Definition device_profile_preferred_self_test_output_id : Z := preferred_from (Z.to_nat ENDAP_DEFAULT_ACTIVE_OUTPUTS).
(** The identifiers written to [out_ids], [None] when it is [NULL], and the total. *)
Definition device_profile_copy_local_io_ids (max_ids : option Z) : list Z * Z :=
  let all := (ip_id <$> input_profile) ++ (op_id <$> output_profile) in
  let total := Z.of_nat (length all) in
  match max_ids with
  | Some max_ids => if max_ids <=? 0 then ([], total) else (take (Z.to_nat max_ids) all, total)
  | None => ([], total)
  end.

(** The identifiers of the two tables, as other parts range over them. *)
Definition local_input_ids : list Z := ip_id <$> input_profile.
Definition local_output_ids : list Z := op_id <$> output_profile.
Lemma valid_input_iff id : device_profile_is_valid_input id = true <-> 10 <= id <= 25.
Proof.
  unfold device_profile_is_valid_input, device_profile_find_input, input_profile. cbn [find_idx ip_id].
  split.
  - repeat (match goal with |- context [?a =? id] => destruct (Z.eqb_spec a id) as [<-|]; [intros _; by vm_compute|] end). done.
  - intros H. assert (id ∈ (Z.of_nat <$> seq 10 16)) as Hin.
    { apply list_elem_of_fmap. exists (Z.to_nat id). split; [lia|]. apply elem_of_seq. lia. }
    cbn in Hin. by repeat (apply elem_of_cons in Hin as [->|Hin]; [by vm_compute|]); apply not_elem_of_nil in Hin.
Qed.
Lemma valid_output_iff id : device_profile_is_valid_output id = true <-> 100 <= id <= 115.
Proof.
  unfold device_profile_is_valid_output, device_profile_find_output, output_profile. cbn [find_idx op_id].
  split.
  - repeat (match goal with |- context [?a =? id] => destruct (Z.eqb_spec a id) as [<-|]; [intros _; by vm_compute|] end). done.
  - intros H. assert (id ∈ ((fun k => 100 + Z.of_nat k) <$> seq 0 16)) as Hin.
    { apply list_elem_of_fmap. exists (Z.to_nat (id - 100)). split; [lia|]. apply elem_of_seq. lia. }
    cbn in Hin. by repeat (apply elem_of_cons in Hin as [->|Hin]; [by vm_compute|]); apply not_elem_of_nil in Hin.
Qed.
Lemma find_input_spec id p : device_profile_find_input id = Some p -> p ∈ input_profile /\ ip_id p = id.
Proof.
  unfold device_profile_find_input. destruct (find_idx _ _) as [i|] eqn:Hi; [|done]. cbn [mbind option_bind].
  destruct (find_idx_Some _ _ _ Hi) as (q & Hq & He & _). rewrite Hq. intros [= <-]. split; [by eapply list_elem_of_lookup_2|lia].
Qed.
Lemma find_output_spec id p : device_profile_find_output id = Some p -> p ∈ output_profile /\ op_id p = id.
Proof.
  unfold device_profile_find_output. destruct (find_idx _ _) as [i|] eqn:Hi; [|done]. cbn [mbind option_bind].
  destruct (find_idx_Some _ _ _ Hi) as (q & Hq & He & _). rewrite Hq. intros [= <-]. split; [by eapply list_elem_of_lookup_2|lia].
Qed.
Lemma find_input_range id p : device_profile_find_input id = Some p -> 10 <= id <= 25.
Proof. intros H. apply valid_input_iff. unfold device_profile_is_valid_input. by rewrite H. Qed.
Lemma find_output_range id p : device_profile_find_output id = Some p -> 100 <= id <= 115.
Proof. intros H. apply valid_output_iff. unfold device_profile_is_valid_output. by rewrite H. Qed.
