(* ===== verification/Pve.v ===== *)
(** * Process variables ([components/runtime/pve/pve.c], [pve_self_test.c])

    Seven analog channels: scaling of a raw sample to engineering units, alarm
    limits with hysteresis, the history of alarm transitions, the stored
    configuration, and the self test that runs at every boot. *)

From Stdlib Require Import String Ascii.
From S2P Require Import Prelude Persist EventBus.
Local Open Scope string_scope.
Local Open Scope list_scope.
Local Open Scope Z_scope.

Definition MAX_PVE_VARIABLES : Z := 7.
Definition PVE_SOURCE_ADC_NATIVE : Z := 0.
Definition PVE_SOURCE_VIRTUAL : Z := 4.
Definition PVE_ALARM_STATE_OK : Z := 0.
Definition PVE_ALARM_STATE_HIGH : Z := 1.
Definition PVE_ALARM_STATE_LOW : Z := 2.
Definition ALARM_HISTORY_MAX : Z := 64.

(** [pve_runtime_t], [pve_config_t], [pve_alarm_t] and [pve_variable_t]; a
    [char] array is the list of its bytes. *)
Record pve_runtime := Runtime { raw_value : Z; scaled_value : Z; alarm_state : Z }.
#[export] Instance pve_runtime_rebuild : Rebuild pve_runtime :=
  fun r => Runtime (raw_value r) (scaled_value r) (alarm_state r).
Record pve_config := Config {
  input_min : Z; input_max : Z; scaled_min : Z; scaled_max : Z; decimals : Z; unit_ : list Z }.
#[export] Instance pve_config_rebuild : Rebuild pve_config :=
  fun c => Config (input_min c) (input_max c) (scaled_min c) (scaled_max c) (decimals c) (unit_ c).
Record pve_alarm := Alarm { high_limit : Z; low_limit : Z; hysteresis : Z; alarm_enabled : Z }.
#[export] Instance pve_alarm_rebuild : Rebuild pve_alarm :=
  fun a => Alarm (high_limit a) (low_limit a) (hysteresis a) (alarm_enabled a).
Record pve_variable := PveVariable {
  source_type : Z; source_id : Z; pve_name : list Z;
  runtime : pve_runtime; config : pve_config; alarm : pve_alarm }.
#[export] Instance pve_variable_rebuild : Rebuild pve_variable :=
  fun v => PveVariable (source_type v) (source_id v) (pve_name v) (runtime v) (config v) (alarm v).

(** [pve_alarm_event_t] *)
Record pve_alarm_event := AlarmEvent { ae_timestamp : Z; ae_pve_id : Z; ae_state : Z; ae_scaled_value : Z }.
Definition alarm_event_zero : pve_alarm_event := AlarmEvent 0 0 0 0.

(** The variables of [pve.c]. *)
Record pve := Pve {
  pve_variables : list pve_variable;
  alarm_history : list pve_alarm_event;
  alarm_history_head : Z;
  alarm_history_count : Z;
}.
#[export] Instance pve_rebuild : Rebuild pve := fun p =>
  Pve (pve_variables p) (alarm_history p) (alarm_history_head p) (alarm_history_count p).

(** ** Scaling *)

(** The differences are computed in [int32_t], the product and the division
    in [int64_t]; the division truncates. *)
Definition pve_scale (raw input_min input_max scaled_min scaled_max : Z) : Z :=
  if input_max =? input_min then scaled_min
  else
    let interpolate :=
      let numerator := i32 (raw - input_min) * i32 (scaled_max - scaled_min) in
      let denominator := i32 (input_max - input_min) in
      let result :=
        if xorb (numerator <? 0) (denominator <? 0)
        then Z.quot (numerator - Z.quot denominator 2) denominator
        else Z.quot (numerator + Z.quot denominator 2) denominator in
      i32 (scaled_min + result) in
    let is_inverted := input_max <? input_min in
    if negb is_inverted then
      if raw <=? input_min then scaled_min
      else if input_max <=? raw then scaled_max
      else interpolate
    else
      if input_min <=? raw then scaled_min
      else if raw <=? input_max then scaled_max
      else interpolate.

(** ** Alarms *)

Definition next_alarm_state (a : pve_alarm) (state scaled : Z) : Z :=
  if negb (alarm_enabled a =? 0) then
    if state =? PVE_ALARM_STATE_HIGH then
      if scaled <=? i32 (high_limit a - hysteresis a) then
        if scaled <=? low_limit a then PVE_ALARM_STATE_LOW else PVE_ALARM_STATE_OK
      else state
    else if state =? PVE_ALARM_STATE_LOW then
      if i32 (low_limit a + hysteresis a) <=? scaled then
        if high_limit a <=? scaled then PVE_ALARM_STATE_HIGH else PVE_ALARM_STATE_OK
      else state
    else
      if high_limit a <=? scaled then PVE_ALARM_STATE_HIGH
      else if scaled <=? low_limit a then PVE_ALARM_STATE_LOW
      else state
  else PVE_ALARM_STATE_OK.

Definition pve_clear_variable (v : pve_variable) : pve_variable :=
  v <| runtime := Runtime 0 0 PVE_ALARM_STATE_OK |>.

(** ** The alarm history *)

Definition log_alarm (ev : pve_alarm_event) (p : pve) : pve :=
  let p := p <| alarm_history := zset (alarm_history p) (alarm_history_head p) ev |>
             <| alarm_history_head := (alarm_history_head p + 1) mod ALARM_HISTORY_MAX |> in
  if alarm_history_count p <? ALARM_HISTORY_MAX
  then p <| alarm_history_count := alarm_history_count p + 1 |> else p.

(** [(head - count + 64) % 64] in [uint32_t]. *)
Definition pve_get_alarm_history (max_len : Z) (p : pve) : list pve_alarm_event :=
  if max_len =? 0 then []
  else
    let copy_count := if alarm_history_count p <? max_len then alarm_history_count p else max_len in
    let start_idx := u32 (alarm_history_head p - alarm_history_count p + ALARM_HISTORY_MAX) mod ALARM_HISTORY_MAX in
    (fun i => default alarm_event_zero (zget (alarm_history p) (u32 (start_idx + Z.of_nat i) mod ALARM_HISTORY_MAX)))
      <$> seq 0 (Z.to_nat copy_count).

Definition pve_clear_alarm_history (p : pve) : pve :=
  p <| alarm_history_head := 0 |> <| alarm_history_count := 0 |>
    <| alarm_history := replicate 64 alarm_event_zero |>.

(** ** Reading from the automation engine *)

(** [pve_bindings]: state identifier and variable. *)
Definition pve_bindings : list (Z * Z) := [(12, 0); (13, 1); (14, 2); (15, 3); (16, 4)].
Definition pve_get_scaled_value (state_id fallback : Z) (p : pve) : Z :=
  match list_find (fun b => b.1 = state_id /\ b.2 < MAX_PVE_VARIABLES) pve_bindings with
  | Some (_, b) => from_option (fun v => scaled_value (runtime v)) 0 (zget (pve_variables p) b.2)
  | None => fallback
  end.

(** ** Default configuration *)

(** A string literal in a [char] array of [n] bytes. *)
Definition chars (n : nat) (s : string) : list Z :=
  let l := (fun c => Z.of_nat (nat_of_ascii c)) <$> list_ascii_of_string s in
  take n (l ++ replicate n 0).
Definition channel (source id : Z) (name : string) (imin imax smin smax dec : Z) (u : string) (hi lo hyst : Z) : pve_variable :=
  PveVariable source id (chars 16 name) (Runtime 0 0 PVE_ALARM_STATE_OK)
    (Config imin imax smin smax dec (chars 8 u)) (Alarm hi lo hyst 0).
Definition factory : list pve_variable := [
  channel PVE_SOURCE_ADC_NATIVE 6 "AIN1" 0 4095 0 1000 1 "bar" 800 200 50;
  channel PVE_SOURCE_ADC_NATIVE 7 "AIN2" 0 4095 0 10000 2 "%" 9000 1000 500;
  channel PVE_SOURCE_VIRTUAL 14 "TEMP_AHT" (-400) 800 (-400) 800 1 "C" 500 0 20;
  channel PVE_SOURCE_VIRTUAL 15 "HUM_AHT" 0 1000 0 1000 1 "%" 800 200 50;
  channel PVE_SOURCE_VIRTUAL 16 "TEMP_DS" (-550) 1250 (-550) 1250 1 "C" 600 50 15;
  channel PVE_SOURCE_VIRTUAL 17 "TEMP_DHT" (-200) 600 (-200) 600 1 "C" 500 0 20;
  channel PVE_SOURCE_VIRTUAL 18 "HUM_DHT" 0 1000 0 1000 1 "%" 800 200 50].
Definition pve_init_variables (p : pve) : pve := p <| pve_variables := factory |>.

(** ** Stored configuration

    [pve_persisted_config_t]; the two bytes of padding after
    [alarm_enabled] are zero, like the [= {0}] that builds it. *)
Definition pve_crc32 : list Z -> Z := fnv1a32.
Definition persisted_body (v : pve_variable) : list Z :=
  strncpy (replicate 16 0) (pve_name v) 15 ++
  pack [(4%nat, u32 (input_min (config v))); (4%nat, u32 (input_max (config v)));
        (4%nat, u32 (scaled_min (config v))); (4%nat, u32 (scaled_max (config v)));
        (1%nat, decimals (config v))] ++
  strncpy (replicate 8 0) (unit_ (config v)) 7 ++
  pack [(1%nat, alarm_enabled (alarm v)); (2%nat, 0); (4%nat, u32 (high_limit (alarm v)));
        (4%nat, u32 (low_limit (alarm v))); (4%nat, u32 (hysteresis (alarm v)))].
Definition persisted (v : pve_variable) : list Z :=
  persisted_body v ++ le 4 (pve_crc32 (persisted_body v)).
Definition sizeof_persisted : Z := 60.

(** The configuration in a stored blob, copied over a variable. *)
Definition load_persisted (pc : list Z) (v : pve_variable) : pve_variable :=
  v <| pve_name := strncpy (pve_name v) (take 16 pc) 15 |>
    <| config := Config (i32 (field 16 4 pc)) (i32 (field 20 4 pc)) (i32 (field 24 4 pc)) (i32 (field 28 4 pc))
         (field 32 1 pc) (strncpy (unit_ (config v)) (take 8 (drop 33 pc)) 7) |>
    <| alarm := Alarm (i32 (field 44 4 pc)) (i32 (field 48 4 pc)) (i32 (field 52 4 pc)) (field 41 1 pc) |>.

(** NVS with several keys: the blob of variable [i] is under ["pve_i"]. *)
Class NvsKeys (N : Type) := {
  keys_open_rw : st N bool;
  keys_open_ro : N -> bool;
  keys_set : nat -> list Z -> st N bool;
  keys_commit : st N bool;
  keys_get : nat -> N -> option (list Z);
}.

Record pw {H N : Type} := Pw { pv : pve; pw_bus : event_bus H; pw_nvs : N; pw_clock : clock }.
Arguments pw : clear implicits.
Arguments Pw {H N}.
#[export] Instance pw_rebuild {H N} : Rebuild (pw H N) := fun w =>
  Pw (pv w) (pw_bus w) (pw_nvs w) (pw_clock w).

Section pve.
Context {H N : Type} `{NvsKeys N}.

Definition on_pve (f : pve -> pve) : st (pw H N) () := modify (fun w => w <| pv := f (pv w) |>).
Definition pve_flash {A} (m : st N A) : st (pw H N) A := on_part pw_nvs (fun n w => w <| pw_nvs := n |>) m.
(** Assignments to the fields of [pve_variables[i]]. *)
Definition on_var (i : nat) (f : pve_variable -> pve_variable) : st (pw H N) () :=
  on_pve (fun p => p <| pve_variables := alter f i (pve_variables p) |>).
Definition publish (e : event) : st (pw H N) () :=
  modify (fun w => w <| pw_bus := event_bus_publish e (pw_bus w) |>).

Definition pve_log_alarm_event (id state scaled : Z) : st (pw H N) () :=
  t ← on_part pw_clock (fun c w => w <| pw_clock := c |>) clock_read;
  on_pve (log_alarm (AlarmEvent (u32 (t / 1000000)) id state scaled)).

(** [pve_update(&pve_variables[i], raw_value)] *)
Definition pve_update (i : nat) (raw : Z) : st (pw H N) () :=
  w ← gets (fun w => w);
  match pve_variables (pv w) !! i with
  | None => mret tt
  | Some v =>
    let c := config v in
    let scaled := pve_scale raw (input_min c) (input_max c) (scaled_min c) (scaled_max c) in
    let next := next_alarm_state (alarm v) (alarm_state (runtime v)) scaled in
    on_var i (fun v => v <| runtime := Runtime raw scaled (alarm_state (runtime v)) |>);;
    if negb (next =? alarm_state (runtime v)) then
      on_var i (fun v => v <| runtime := runtime v <| alarm_state := next |> |>);;
      pve_log_alarm_event (Z.of_nat i) next scaled;;
      if next =? PVE_ALARM_STATE_HIGH then publish (Event EVENT_PVE_ALARM_HIGH (u16 (source_id v)) scaled)
      else if next =? PVE_ALARM_STATE_LOW then publish (Event EVENT_PVE_ALARM_LOW (u16 (source_id v)) scaled)
      else mret tt
    else mret tt
  end.

Fixpoint for_vars (idx : list nat) (body : nat -> st (pw H N) ()) : st (pw H N) () :=
  match idx with
  | [] => mret tt
  | i :: idx => body i;; for_vars idx body
  end.

Definition pve_save_config : st (pw H N) () :=
  ok ← pve_flash keys_open_rw;
  if negb ok then mret tt
  else
    for_vars (seq 0 7) (fun i =>
      w ← gets (fun w => w);
      match pve_variables (pv w) !! i with
      | Some v => pve_flash (keys_set i (persisted v));; mret tt
      | None => mret tt
      end);;
    pve_flash keys_commit;;
    mret tt.

(** One round of the load loop: was the blob taken? *)
Definition load_one (i : nat) : st (pw H N) bool :=
  w ← gets (fun w => w);
  match keys_get i (pw_nvs w) with
  | Some pc =>
    if (Z.of_nat (length pc) =? sizeof_persisted) && (pve_crc32 (take 56 pc) =? field 56 4 pc) then
      on_var i (load_persisted pc);;
      pve_update i (from_option (fun v => raw_value (runtime v)) 0 (pve_variables (pv w) !! i));;
      mret true
    else mret false
  | None => mret false
  end.
(** [loaded_any] and [any_failed] over the seven keys. *)
Fixpoint load_all (idx : list nat) (loaded_any any_failed : bool) : st (pw H N) (bool * bool) :=
  match idx with
  | [] => mret (loaded_any, any_failed)
  | i :: idx => ok ← load_one i; load_all idx (loaded_any || ok) (any_failed || negb ok)
  end.
Definition pve_load_config : st (pw H N) () :=
  w ← gets (fun w => w);
  if negb (keys_open_ro (pw_nvs w)) then on_pve pve_init_variables
  else
    r ← load_all (seq 0 7) false false;
    if r.2 || negb r.1 then on_pve pve_init_variables else mret tt.
End pve.

(** ** The self test ([pve_self_test.c]) *)

Local Notation "'TEST_ASSERT' b ';' k" := (if (b : bool) then k else mret false)
  (at level 100, b at level 99, k at level 200, right associativity).

Definition scale_tests : bool :=
  (pve_scale 2048 0 4095 0 1000 =? 500) && (pve_scale 1024 0 4095 0 1000 =? 250) &&
  (pve_scale 2048 0 4095 1000 0 =? 500) && (pve_scale 1024 0 4095 1000 0 =? 750) &&
  (pve_scale (-100) 0 4095 0 1000 =? 0) && (pve_scale 4200 4095 0 0 1000 =? 0) &&
  (pve_scale 5000 0 4095 0 1000 =? 1000) && (pve_scale (-50) 4095 0 0 1000 =? 1000) &&
  (pve_scale 2048 0 4095 0 10000 =? 5001) && (pve_scale 819 819 4095 0 10000 =? 0) &&
  (pve_scale 2457 819 4095 0 10000 =? 5000) && (pve_scale 4095 819 4095 0 10000 =? 10000) &&
  (pve_scale 2000 1000 1000 50 100 =? 50).

Section self_test.
Context {H N : Type} `{NvsKeys N}.
Implicit Types w : pw H N.

Definition set_scaled (i : nat) (x : Z) : st (pw H N) () :=
  on_var i (fun v => v <| runtime := runtime v <| scaled_value := x |> |>).
Definition set_channel (i : nat) (name : string) (imin imax smin smax dec : Z) (u : string) (en hi lo : Z) : st (pw H N) () :=
  on_var i (fun v =>
    v <| pve_name := strncpy (pve_name v) (chars 16 name) 15 |>
      <| config := Config imin imax smin smax dec (strncpy (unit_ (config v)) (chars 8 u) 7) |>
      <| alarm := Alarm hi lo (hysteresis (alarm v)) en |>).
Definition channel_is (i : nat) (name : string) (imin imax smin smax dec : Z) (u : string) (en hi lo : Z) w : bool :=
  match pve_variables (pv w) !! i with
  | None => false
  | Some v =>
    bool_decide (cstr (pve_name v) = cstr (chars 16 name)) &&
    (input_min (config v) =? imin) && (input_max (config v) =? imax) &&
    (scaled_min (config v) =? smin) && (scaled_max (config v) =? smax) && (decimals (config v) =? dec) &&
    bool_decide (cstr (unit_ (config v)) = cstr (chars 8 u)) &&
    (alarm_enabled (alarm v) =? en) && (high_limit (alarm v) =? hi) && (low_limit (alarm v) =? lo)
  end.
Definition state_is (x : Z) w : bool :=
  from_option (fun v => alarm_state (runtime v) =? x) false (pve_variables (pv w) !! 0%nat).
Definition arm_alarm : st (pw H N) () :=
  on_var 0 (fun v => v <| alarm := Alarm 800 200 50 1 |>
                       <| runtime := runtime v <| alarm_state := PVE_ALARM_STATE_OK |> |>).
Definition event_state (k : Z) (evs : list pve_alarm_event) : Z :=
  from_option ae_state (-1) (zget evs k).
Fixpoint oscillate (n : nat) : st (pw H N) () :=
  match n with O => mret tt | S n => pve_update 0 3276;; pve_update 0 3071;; oscillate n end.
Definition storm : st (pw H N) () :=
  on_var 0 (fun v => v <| runtime := runtime v <| alarm_state := PVE_ALARM_STATE_HIGH |> |>);;
  pve_update 0 3071;;
  pve_update 0 3272;; pve_update 0 3280;; pve_update 0 3272;; pve_update 0 3280;;
  pve_update 0 3272;; pve_update 0 3280.

(** Tests 11 and the two audits, on variable 0. *)
Definition alarm_tests (backup : list pve_variable) : st (pw H N) bool :=
  on_pve pve_init_variables;; arm_alarm;;
  pve_update 0 3276;;
  s ← gets (state_is PVE_ALARM_STATE_HIGH); TEST_ASSERT s;
  (pve_update 0 3075;;
   s ← gets (state_is PVE_ALARM_STATE_HIGH); TEST_ASSERT s;
   (pve_update 0 3071;;
    s ← gets (state_is PVE_ALARM_STATE_OK); TEST_ASSERT s;
    (evs ← gets (fun w => pve_get_alarm_history 10 (pv w));
     let n := Z.of_nat (length evs) in
     TEST_ASSERT (2 <=? n);
     TEST_ASSERT (event_state (n - 2) evs =? PVE_ALARM_STATE_HIGH);
     TEST_ASSERT (event_state (n - 1) evs =? PVE_ALARM_STATE_OK);
     (on_pve pve_init_variables;; arm_alarm;;
      oscillate 100;;
      evs ← gets (fun w => pve_get_alarm_history 100 (pv w));
      TEST_ASSERT (Z.of_nat (length evs) =? 64);
      TEST_ASSERT (event_state 63 evs =? PVE_ALARM_STATE_OK);
      TEST_ASSERT (event_state 62 evs =? PVE_ALARM_STATE_HIGH);
      (on_pve pve_clear_alarm_history;;
       before ← gets (fun w => Z.of_nat (length (pve_get_alarm_history 64 (pv w))));
       storm;;
       after ← gets (fun w => Z.of_nat (length (pve_get_alarm_history 64 (pv w))));
       TEST_ASSERT (after - before =? 2);
       (on_pve (fun p => p <| pve_variables := backup |>);;
        pve_save_config;;
        mret true)))))).

(** The second half of test 10: the saved values come back. *)
Definition restored_tests (backup : list pve_variable) : st (pw H N) bool :=
  on_pve pve_init_variables;;
  pve_load_config;;
  ok0 ← gets (channel_is 0 "TEST_P1" 100 900 10 90 3 "psi" 1 85 15); TEST_ASSERT ok0;
  (ok1 ← gets (channel_is 1 "TEST_P2" 200 800 20 80 0 "C" 0 70 30); TEST_ASSERT ok1;
   alarm_tests backup).

(** Tests 1 to 9 and the first half of test 10. *)
Definition pve_run_self_tests : st (pw H N) bool :=
  TEST_ASSERT scale_tests;
  TEST_ASSERT (forallb (fun _ => pve_scale 1500 0 4095 0 1000 =? pve_scale 1500 0 4095 0 1000) (seq 0 1000));
  (on_pve pve_init_variables;;
   set_scaled 0 598;; set_scaled 1 7500;;
   p ← gets pv;
   TEST_ASSERT (pve_get_scaled_value 12 100 p =? 598);
   TEST_ASSERT (pve_get_scaled_value 13 200 p =? 7500);
   TEST_ASSERT (pve_get_scaled_value 10 42 p =? 42);
   (set_channel 0 "TEST_P1" 100 900 10 90 3 "psi" 1 85 15;;
    set_channel 1 "TEST_P2" 200 800 20 80 0 "C" 0 70 30;;
    pve_save_config;;
    restored_tests (pve_variables p))).
End self_test.

(** Flash that never fails. *)
Definition key_flash : Type := nat -> option (list Z).
#[export] Instance key_flash_keys : NvsKeys key_flash := {
  keys_open_rw f := (true, f);
  keys_open_ro _ := true;
  keys_set i b f := (true, fun j => if (j =? i)%nat then Some b else f j);
  keys_commit f := (true, f);
  keys_get i f := f i;
}.

(** ** Scaling is rounding to the nearest *)

Section scaling.

(** Division rounded to the nearest, halves away from zero, on magnitudes. *)
Lemma half_div n D : 0 <= n -> 0 < D -> let q := (n + D / 2) / D in 0 <= q /\ 2 * Z.abs (q * D - n) <= D.
Proof.
  intros Hn HD q. subst q. assert (0 <= D / 2) by (apply Z.div_pos; lia).
  split; [apply Z.div_pos; lia|].
  pose proof (Z.div_mod (n + D / 2) D ltac:(lia)). pose proof (Z.mod_pos_bound (n + D / 2) D HD).
  pose proof (Z.div_mod D 2 ltac:(lia)). pose proof (Z.mod_pos_bound D 2 ltac:(lia)).
  rewrite (Z.mul_comm D) in *. lia.
Qed.

Definition rounded (num den : Z) : Z :=
  if xorb (num <? 0) (den <? 0) then Z.quot (num - Z.quot den 2) den else Z.quot (num + Z.quot den 2) den.

Lemma rounded_magnitude num den : den <> 0 ->
  rounded num den = (if xorb (num <? 0) (den <? 0) then -1 else 1) * ((Z.abs num + Z.abs den / 2) / Z.abs den).
Proof.
  intros Hd. unfold rounded. assert (0 <= Z.abs den / 2) by (apply Z.div_pos; lia).
  assert (Z.quot den 2 = Z.sgn den * (Z.abs den / 2)) as ->.
  { destruct (Z.abs_spec den) as [[? ->]|[? E]].
    - rewrite Z.quot_div_nonneg by lia. destruct den; cbn [Z.sgn]; lia.
    - rewrite E. replace den with (- - den) at 1 by lia. rewrite Z.quot_opp_l, Z.quot_div_nonneg by lia.
      destruct den; cbn [Z.sgn]; lia. }
  rewrite <- (Z.quot_div_nonneg (Z.abs num + Z.abs den / 2)) by lia.
  destruct (Z.ltb_spec num 0), (Z.ltb_spec den 0); cbn [xorb].
  - rewrite (Z.abs_neq num), (Z.abs_neq den) in * by lia. rewrite (Z.sgn_neg den) by lia.
    rewrite Z.mul_1_l, <- Z.quot_opp_opp by lia. f_equal. lia.
  - rewrite (Z.abs_neq num), (Z.abs_eq den) in * by lia. rewrite (Z.sgn_pos den) by lia.
    rewrite (Z.mul_comm (-1)), <- Z.opp_eq_mul_m1, <- Z.quot_opp_l by lia. f_equal. lia.
  - rewrite (Z.abs_eq num), (Z.abs_neq den) in * by lia. rewrite (Z.sgn_neg den) by lia.
    rewrite (Z.mul_comm (-1)), <- Z.opp_eq_mul_m1, <- Z.quot_opp_r by lia. f_equal; lia.
  - rewrite (Z.abs_eq num), (Z.abs_eq den) in * by lia. rewrite (Z.sgn_pos den) by lia.
    rewrite Z.mul_1_l. f_equal. lia.
Qed.

Lemma rounded_nearest num den : den <> 0 -> 2 * Z.abs (rounded num den * den - num) <= Z.abs den.
Proof.
  intros Hd. rewrite rounded_magnitude by done.
  destruct (half_div (Z.abs num) (Z.abs den)) as [Hq Hr]; [lia|lia|].
  set (q := (Z.abs num + Z.abs den / 2) / Z.abs den) in *. clearbody q.
  destruct (Z.ltb_spec num 0), (Z.ltb_spec den 0); cbn [xorb];
    rewrite ?(Z.abs_neq num), ?(Z.abs_neq den), ?(Z.abs_eq num), ?(Z.abs_eq den) in * by lia; lia.
Qed.

Lemma nearest_between q t d s :
  2 * Z.abs (q * d - t * s) <= Z.abs d -> Z.min 0 d < t < Z.max 0 d -> Z.min 0 s <= q <= Z.max 0 s.
Proof.
  intros Hq Ht. destruct (Z.le_gt_cases 0 d); destruct (Z.le_gt_cases 0 s).
  - assert (0 <= t * s <= d * s) by nia. split; [|rewrite Z.max_r by lia]; nia.
  - assert (d * s <= t * s <= 0) by nia. split; [rewrite Z.min_r by lia|]; nia.
  - assert (d * s <= t * s <= 0) by nia. split; [|rewrite Z.max_r by lia]; nia.
  - assert (0 <= t * s <= d * s) by nia. split; [rewrite Z.min_r by lia|]; nia.
Qed.

(** Between the end points no [int32_t] wraps and the result is the rounded
    interpolation. *)
Lemma pve_scale_inside raw imin imax smin smax :
  is_i32 smin -> is_i32 smax -> is_i32 (imax - imin) -> is_i32 (smax - smin) ->
  Z.min imin imax < raw < Z.max imin imax ->
  let q := rounded ((raw - imin) * (smax - smin)) (imax - imin) in
  pve_scale raw imin imax smin smax = smin + q /\ Z.min 0 (smax - smin) <= q <= Z.max 0 (smax - smin).
Proof.
  intros Hmin Hmax Hin Hs Hraw q.
  assert (Z.min 0 (smax - smin) <= q <= Z.max 0 (smax - smin)) as Hq.
  { pose proof (rounded_nearest ((raw - imin) * (smax - smin)) (imax - imin) ltac:(lia)) as Hr. fold q in Hr.
    apply (nearest_between q (raw - imin) (imax - imin)); [done|lia]. }
  split; [|done]. unfold pve_scale. destruct (Z.eqb_spec imax imin); [lia|].
  rewrite (i32_id (raw - imin)), (i32_id (imax - imin)), (i32_id (smax - smin)) by lia.
  fold (rounded ((raw - imin) * (smax - smin)) (imax - imin)). fold q.
  rewrite (i32_id (smin + q)) by lia.
  destruct (Z.ltb_spec imax imin); cbn [negb].
  - destruct (Z.leb_spec imin raw); [lia|]. destruct (Z.leb_spec raw imax); [lia|done].
  - destruct (Z.leb_spec raw imin); [lia|]. destruct (Z.leb_spec imax raw); [lia|done].
Qed.

(** Scaling stays between the two scaled end points, gives exactly the
    end points at and beyond the ends of the input range (in either direction),
    and in between is the linear interpolation rounded to the nearest unit. *)
Theorem pve_scale_correct raw imin imax smin smax :
  is_i32 smin -> is_i32 smax -> is_i32 (imax - imin) -> is_i32 (smax - smin) ->
  let r := pve_scale raw imin imax smin smax in
  let travelled := (raw - imin) * Z.sgn (imax - imin) in
  Z.min smin smax <= r <= Z.max smin smax /\
  (travelled <= 0 -> r = smin) /\
  (imin <> imax -> Z.abs (imax - imin) <= travelled -> r = smax) /\
  (0 < travelled < Z.abs (imax - imin) ->
   2 * Z.abs ((r - smin) * (imax - imin) - (raw - imin) * (smax - smin)) <= Z.abs (imax - imin)).
Proof.
  intros Hmin Hmax Hin Hs r travelled.
  assert (travelled <= 0 -> r = smin) as H0.
  { subst r travelled. unfold pve_scale. destruct (Z.eqb_spec imax imin); [done|].
    destruct (Z.ltb_spec imax imin); cbn [negb]; intros Ht.
    - rewrite Z.sgn_neg in Ht by lia. destruct (Z.leb_spec imin raw); [done|lia].
    - rewrite Z.sgn_pos in Ht by lia. destruct (Z.leb_spec raw imin); [done|lia]. }
  assert (imin <> imax -> Z.abs (imax - imin) <= travelled -> r = smax) as H1.
  { subst r travelled. unfold pve_scale. destruct (Z.eqb_spec imax imin); [done|]. intros _.
    destruct (Z.ltb_spec imax imin); cbn [negb]; intros Ht.
    - rewrite Z.sgn_neg in Ht by lia. destruct (Z.leb_spec imin raw); [lia|]. destruct (Z.leb_spec raw imax); [done|lia].
    - rewrite Z.sgn_pos in Ht by lia. destruct (Z.leb_spec raw imin); [lia|]. destruct (Z.leb_spec imax raw); [done|lia]. }
  destruct (decide (0 < travelled < Z.abs (imax - imin))) as [Ht|Ht].
  - assert (Z.min imin imax < raw < Z.max imin imax) as Hraw.
    { subst travelled. destruct (Z.lt_trichotomy imax imin) as [?|[?|?]];
        [rewrite Z.sgn_neg in Ht by lia|lia|rewrite Z.sgn_pos in Ht by lia]; lia. }
    destruct (pve_scale_inside raw imin imax smin smax Hmin Hmax Hin Hs Hraw) as [Hr Hq].
    subst r. rewrite Hr. split_and!; try lia. intros _. rewrite Z.add_simpl_l. apply rounded_nearest. lia.
  - destruct (decide (travelled <= 0)); [rewrite H0 by done; split_and!; auto; lia|].
    destruct (decide (imin = imax)) as [->|Hne].
    + exfalso. subst travelled. rewrite Z.sub_diag in *. cbn in *. lia.
    + rewrite H1 by lia. split_and!; auto; lia.
Qed.

Lemma pve_scale_correct_witness : pve_scale 2048 0 4095 0 10000 = 5001 /\
  2 * Z.abs ((pve_scale 2048 0 4095 0 10000 - 0) * (4095 - 0) - (2048 - 0) * (10000 - 0)) <= Z.abs (4095 - 0).
Proof.
  split; [reflexivity|]. apply (pve_scale_correct 2048 0 4095 0 10000); try (cbn; lia).
Defined.
End scaling.

(** ** Hysteresis *)

(** A sample of [samples] met [on], and every later one [hold]. *)
Definition tripped (on hold : Z -> Prop) (samples : list Z) : Prop :=
  exists pre x post, samples = pre ++ x :: post /\ on x /\ Forall hold post.

Lemma tripped_nil on hold : ~ tripped on hold [].
Proof. intros (pre & x & post & E & _). by destruct pre. Qed.
Lemma tripped_snoc (on hold : Z -> Prop) samples x :
  tripped on hold (samples ++ [x]) <-> on x \/ (tripped on hold samples /\ hold x).
Proof.
  split.
  - intros (pre & y & post & E & Hy & Hpost). destruct post as [|z post _] using rev_ind.
    + apply app_inj_tail in E as [-> ->]. by left.
    + rewrite app_comm_cons, app_assoc in E. apply app_inj_tail in E as [-> ->].
      apply Forall_app in Hpost as [? Hz]. apply Forall_inv in Hz. right. split; [|done]. by exists pre, y, post.
  - intros [Hx|[(pre & y & post & -> & Hy & Hpost) Hx]].
    + by exists samples, x, [].
    + exists pre, y, (post ++ [x]). rewrite <- app_assoc. split; [done|]. split; [done|].
      apply Forall_app. split; [done|]. by apply Forall_singleton.
Qed.

(** A nonzero hysteresis, and limits far enough apart for the two bands. *)
Definition limits_ok (a : pve_alarm) : Prop :=
  alarm_enabled a <> 0 /\ 0 < hysteresis a /\ low_limit a < high_limit a /\
  low_limit a + hysteresis a <= high_limit a /\
  is_i32 (high_limit a) /\ is_i32 (low_limit a) /\
  is_i32 (high_limit a - hysteresis a) /\ is_i32 (low_limit a + hysteresis a).

Lemma next_alarm_state_spec a state x : limits_ok a ->
  (next_alarm_state a state x = PVE_ALARM_STATE_HIGH <->
   high_limit a <= x \/ (state = PVE_ALARM_STATE_HIGH /\ high_limit a - hysteresis a < x)) /\
  (next_alarm_state a state x = PVE_ALARM_STATE_LOW <->
   x <= low_limit a \/ (state = PVE_ALARM_STATE_LOW /\ x < low_limit a + hysteresis a)).
Proof.
  intros (Hen & Hh & Hlh & Hb & _ & _ & H1 & H2). unfold next_alarm_state.
  rewrite (i32_id _ H1), (i32_id _ H2). unfold PVE_ALARM_STATE_HIGH, PVE_ALARM_STATE_LOW, PVE_ALARM_STATE_OK in *.
  destruct (Z.eqb_spec (alarm_enabled a) 0); [done|]. cbn [negb].
  split; repeat case_match; lia.
Qed.

Section alarm.
Context {H N : Type}.
Implicit Types w : pw H N.

(** A series of samples on one variable. *)
Fixpoint pve_updates (i : nat) (raws : list Z) : st (pw H N) () :=
  match raws with [] => mret tt | r :: raws => pve_update i r;; pve_updates i raws end.

Definition scaled_by (c : pve_config) (raw : Z) : Z :=
  pve_scale raw (input_min c) (input_max c) (scaled_min c) (scaled_max c).

Lemma on_var_lookup i j f w : pve_variables (pv (on_var i f w).2) !! j =
  (if (j =? i)%nat then f else fun v => v) <$> pve_variables (pv w) !! j.
Proof.
  unfold on_var, on_pve. rewrite run_modify. cbn [snd pv update pve_variables].
  destruct (Nat.eqb_spec j i) as [->|].
  - apply list_lookup_alter_eq.
  - rewrite list_lookup_alter_ne by done. by destruct (_ !! j).
Qed.

(** Logging and publishing leave the variables alone. *)
Lemma log_vars id state x w : pve_variables (pv (pve_log_alarm_event id state x w).2) = pve_variables (pv w).
Proof.
  unfold pve_log_alarm_event, on_pve, log_alarm. rewrite run_bind_surj, run_modify.
  unfold on_part. destruct (clock_read _). cbn. by case_match.
Qed.

Lemma publish_vars e w : pve_variables (pv (publish e w).2) = pve_variables (pv w).
Proof. done. Qed.

Lemma pve_update_vars i raw w v : pve_variables (pv w) !! i = Some v ->
  pve_variables (pv (pve_update i raw w).2) !! i = Some (v <| runtime :=
    Runtime raw (scaled_by (config v) raw)
      (next_alarm_state (alarm v) (alarm_state (runtime v)) (scaled_by (config v) raw)) |>).
Proof.
  intros Hv. unfold pve_update. run. rewrite Hv. fold (scaled_by (config v) raw).
  set (scaled := scaled_by (config v) raw). set (next := next_alarm_state _ _ _). rewrite run_bind_surj.
  destruct (Z.eqb_spec next (alarm_state (runtime v))) as [->|Hne]; cbn [negb].
  - rewrite run_ret. cbn [snd]. by rewrite on_var_lookup, Hv, Nat.eqb_refl.
  - rewrite !run_bind_surj.
    assert (forall w, pve_variables (pv ((if next =? PVE_ALARM_STATE_HIGH then publish (Event EVENT_PVE_ALARM_HIGH (u16 (source_id v)) scaled)
      else if next =? PVE_ALARM_STATE_LOW then publish (Event EVENT_PVE_ALARM_LOW (u16 (source_id v)) scaled)
      else mret tt) w).2) = pve_variables (pv w)) as -> by (intros; by repeat case_match).
    by rewrite log_vars, on_var_lookup, on_var_lookup, Hv, Nat.eqb_refl.
Qed.

Lemma pve_updates_app i l1 l2 w : (pve_updates i (l1 ++ l2) w).2 = (pve_updates i l2 (pve_updates i l1 w).2).2.
Proof. revert w. induction l1 as [|r l1 IH]; intros w; cbn [pve_updates app]; [done|]. by rewrite !run_bind_surj, IH. Qed.

(** C40: alarms are a Schmitt trigger.  From a variable without an alarm, after
    any series of samples the alarm is HIGH exactly when some sample reached
    the high limit and all later ones stayed above the limit less the
    hysteresis, and LOW in the mirrored case: noise narrower than the
    hysteresis never toggles the alarm. *)
Theorem alarm_is_schmitt_trigger i raws v w :
  pve_variables (pv w) !! i = Some v -> limits_ok (alarm v) -> alarm_state (runtime v) = PVE_ALARM_STATE_OK ->
  exists v', pve_variables (pv (pve_updates i raws w).2) !! i = Some v' /\
    config v' = config v /\ alarm v' = alarm v /\
    let samples := scaled_by (config v) <$> raws in
    (alarm_state (runtime v') = PVE_ALARM_STATE_HIGH <->
     tripped (fun x => high_limit (alarm v) <= x) (fun x => high_limit (alarm v) - hysteresis (alarm v) < x) samples) /\
    (alarm_state (runtime v') = PVE_ALARM_STATE_LOW <->
     tripped (fun x => x <= low_limit (alarm v)) (fun x => x < low_limit (alarm v) + hysteresis (alarm v)) samples).
Proof.
  intros Hv Hlim Hok. induction raws as [|r raws IH] using rev_ind.
  - exists v. unfold PVE_ALARM_STATE_OK, PVE_ALARM_STATE_HIGH, PVE_ALARM_STATE_LOW in *.
    split_and!; try done; rewrite Hok; (split; [done|]); intros []%tripped_nil.
  - destruct IH as (v' & Hv' & Hc & Ha & Hhi & Hlo). rewrite pve_updates_app. cbn [pve_updates].
    rewrite run_bind_surj. eexists. split; [by apply pve_update_vars|]. cbn [config alarm runtime update alarm_state].
    rewrite Hc, Ha. split_and!; try done; rewrite fmap_app; cbn [fmap list_fmap]; rewrite tripped_snoc.
    + rewrite (proj1 (next_alarm_state_spec _ _ _ Hlim)), Hhi. reflexivity.
    + rewrite (proj2 (next_alarm_state_spec _ _ _ Hlim)), Hlo. reflexivity.
Qed.
End alarm.

(** ** The self test and the configuration *)

(** What the user configures of a variable. *)
Definition settings (v : pve_variable) : list Z * pve_config * pve_alarm := (pve_name v, config v, alarm v).

Lemma persisted_settings v v' : settings v = settings v' -> persisted v = persisted v'.
Proof. intros [= Hn Hc Ha]. unfold persisted, persisted_body. by rewrite Hn, Hc, Ha. Qed.

Section resets.
Context {H : Type}.
Implicit Types w : pw H key_flash.

(** The factory settings, in RAM and in flash, of the variables in [ks]. *)
Definition ram_factory (w : pw H key_flash) : Prop :=
  drop 2 (settings <$> pve_variables (pv w)) = drop 2 (settings <$> factory).
Definition flash_factory (ks : list nat) (w : pw H key_flash) : Prop :=
  forall k, k ∈ ks -> pw_nvs w k = persisted <$> factory !! k.
Definition reset (w : pw H key_flash) : Prop := ram_factory w /\ flash_factory (seq 2 5) w.
Definition all_reset (w : pw H key_flash) : Prop :=
  settings <$> pve_variables (pv w) = settings <$> factory /\ flash_factory (seq 0 7) w.

Lemma settings_alter i f (l : list pve_variable) :
  (forall v, settings (f v) = settings v) -> settings <$> alter f i l = settings <$> l.
Proof. intros Hf. apply fmap_alter_same. auto. Qed.

Lemma update_settings i raw w :
  settings <$> pve_variables (pv (pve_update i raw w).2) = settings <$> pve_variables (pv w) /\
  pw_nvs (pve_update i raw w).2 = pw_nvs w.
Proof.
  enough (forall l f, keeps (fun w : pw H key_flash => settings <$> pve_variables (pv w) = l /\ pw_nvs w = f) (pve_update i raw))
    as Hk by by apply Hk.
  intros l f.
  assert (forall i g, (forall v, settings (g v) = settings v) ->
    keeps (fun w : pw H key_flash => settings <$> pve_variables (pv w) = l /\ pw_nvs w = f) (on_var i g)) as Hvar.
  { intros j g Hg. unfold on_var, on_pve. apply keeps_modify. intros w' [Hl Hf]. split; [|done].
    cbn [pv update pve_variables]. by rewrite settings_alter. }
  assert (forall id s x, keeps (fun w : pw H key_flash => settings <$> pve_variables (pv w) = l /\ pw_nvs w = f)
    (pve_log_alarm_event id s x)) as Hlog.
  { intros id s x w' [Hl Hf]. rewrite log_vars. split; [done|]. unfold pve_log_alarm_event. rewrite run_bind_surj.
    unfold on_pve, on_part. rewrite run_modify. by destruct (clock_read _). }
  unfold pve_update, publish. keeps; auto.
Qed.

Lemma on_var_reset i f : (i < 2)%nat -> keeps reset (on_var (H := H) i f).
Proof.
  intros Hi. unfold on_var, on_pve. apply keeps_modify. intros w [Hr Hf]. split; [|done].
  unfold ram_factory in *. cbn [pv update pve_variables]. rewrite <- Hr, <- !fmap_drop. f_equal. by apply drop_alter_lt.
Qed.
Lemma update_reset i raw : keeps reset (pve_update (H := H) i raw).
Proof.
  intros w [Hr Hf]. destruct (update_settings i raw w) as [Hs Hn]. split.
  - unfold ram_factory in *. by rewrite Hs.
  - unfold flash_factory in *. by rewrite Hn.
Qed.
Lemma init_reset : keeps reset (on_pve (H := H) pve_init_variables).
Proof. unfold on_pve. apply keeps_modify. intros w [_ Hf]. by split. Qed.
Lemma on_pve_reset f : (forall p, pve_variables (f p) = pve_variables p) -> keeps reset (on_pve (H := H) f).
Proof. intros Hv. unfold on_pve. apply keeps_modify. intros w [Hr Hf]. split; [|done]. unfold ram_factory in *. cbn [pv update]. by rewrite Hv. Qed.

(** Saving writes the settings of every variable, and changes nothing else. *)
Definition save_one (i : nat) : st (pw H key_flash) () :=
  w ← gets (fun w => w);
  match pve_variables (pv w) !! i with
  | Some v => pve_flash (keys_set i (persisted v));; mret tt
  | None => mret tt
  end.
Lemma save_one_flash i w : pv (save_one i w).2 = pv w /\
  forall k, pw_nvs (save_one i w).2 k =
    match (if (k =? i)%nat then pve_variables (pv w) !! i else None) with
    | Some v => Some (persisted v)
    | None => pw_nvs w k
    end.
Proof.
  unfold save_one. run. destruct (pve_variables (pv w) !! i) as [v|] eqn:Hv.
  - rewrite run_bind_surj, run_ret. cbn [snd]. split; [done|]. intros k.
    unfold pve_flash, on_part. cbn. by destruct (k =? i)%nat.
  - rewrite run_ret. cbn [snd]. split; [done|]. intros k. by destruct (k =? i)%nat.
Qed.
Lemma save_loop_flash idx w : pv (for_vars idx save_one w).2 = pv w /\
  forall k, pw_nvs (for_vars idx save_one w).2 k =
    match (if bool_decide (k ∈ idx) then pve_variables (pv w) !! k else None) with
    | Some v => Some (persisted v)
    | None => pw_nvs w k
    end.
Proof.
  revert w. induction idx as [|i idx IH]; intros w; cbn [for_vars]; [by split|].
  rewrite run_bind_surj. destruct (IH (save_one i w).2) as [IHp IHf], (save_one_flash i w) as [Hp Hf].
  rewrite IHp, Hp. split; [done|]. intros k. rewrite IHf, Hp, Hf.
  destruct (Nat.eqb_spec k i) as [->|Hne].
  - rewrite (bool_decide_eq_true_2 (i ∈ i :: idx)) by left.
    destruct (pve_variables (pv w) !! i); by destruct (bool_decide _).
  - rewrite (bool_decide_ext (k ∈ i :: idx) (k ∈ idx)) by (rewrite elem_of_cons; tauto). done.
Qed.
Lemma save_flash w : pv (pve_save_config w).2 = pv w /\
  forall k, (k < 7)%nat -> pw_nvs (pve_save_config w).2 k =
    match pve_variables (pv w) !! k with Some v => Some (persisted v) | None => pw_nvs w k end.
Proof.
  unfold pve_save_config. rewrite run_bind_surj.
  assert (pve_flash keys_open_rw w = (true, w)) as -> by by destruct w. cbn [fst snd negb].
  fold save_one. rewrite !run_bind_surj, run_ret. cbn [snd]. destruct (save_loop_flash (seq 0 7) w) as [Hp Hf].
  destruct (for_vars (seq 0 7) save_one w) as [[] w1]. cbn [snd] in *. split; [done|].
  intros k Hk. change (pw_nvs (pve_flash keys_commit w1).2 k) with (pw_nvs w1 k). rewrite Hf.
  rewrite bool_decide_eq_true_2; [done|]. apply elem_of_seq. lia.
Qed.

Lemma lookup_settings (l l' : list pve_variable) k :
  settings <$> l = settings <$> l' -> match l !! k with Some v => Some (persisted v) | None => None end = persisted <$> l' !! k.
Proof.
  intros He. apply (f_equal (fun l => l !! k)) in He. rewrite !list_lookup_fmap in He.
  destruct (l !! k), (l' !! k); cbn [fmap option_fmap option_map] in *; try done.
  apply (inj Some) in He. f_equal. by apply persisted_settings.
Qed.
Lemma save_reset w : ram_factory w -> reset (pve_save_config w).2.
Proof.
  intros Hr. destruct (save_flash w) as [Hp Hf]. split; [unfold ram_factory in *; by rewrite Hp|].
  intros k Hk%elem_of_seq. rewrite Hf by lia. unfold ram_factory in Hr. rewrite <- !fmap_drop in Hr.
  pose proof (lookup_settings _ _ (k - 2) Hr) as Hl. rewrite !lookup_drop in Hl.
  replace (2 + (k - 2))%nat with k in Hl by lia. rewrite <- Hl.
  destruct (pve_variables (pv w) !! k) eqn:E; [done|]. exfalso.
  apply (f_equal length) in Hr. rewrite !length_fmap, !length_drop in Hr. apply lookup_ge_None_1 in E.
  change (length factory) with 7%nat in Hr. lia.
Qed.
Lemma save_all_reset w : settings <$> pve_variables (pv w) = settings <$> factory -> all_reset (pve_save_config w).2.
Proof.
  intros Hr. destruct (save_flash w) as [Hp Hf]. split; [by rewrite Hp|].
  intros k Hk%elem_of_seq. rewrite Hf by lia. rewrite <- (lookup_settings _ _ k Hr).
  destruct (pve_variables (pv w) !! k) eqn:E; [done|]. exfalso.
  apply (f_equal length) in Hr. rewrite !length_fmap in Hr. apply lookup_ge_None_1 in E.
  change (length factory) with 7%nat in Hr. lia.
Qed.

Lemma load_factory : Forall (fun f => settings (load_persisted (persisted f) f) = settings f) factory.
Proof. repeat (constructor; [vm_compute; reflexivity|]). constructor. Qed.
Lemma load_settings pc v v' : settings v = settings v' -> settings (load_persisted pc v) = settings (load_persisted pc v').
Proof. intros [= Hn Hc Ha]. unfold settings, load_persisted. cbn [pve_name config alarm update]. by rewrite Hn, Hc. Qed.

Lemma ram_factory_lookup w k v f : ram_factory w -> (2 <= k)%nat -> pve_variables (pv w) !! k = Some v ->
  factory !! k = Some f -> settings v = settings f.
Proof.
  intros Hr Hk Hv Hf. unfold ram_factory in Hr. apply (f_equal (fun l => l !! (k - 2)%nat)) in Hr.
  rewrite !lookup_drop, !list_lookup_fmap in Hr. replace (2 + (k - 2))%nat with k in Hr by lia.
  rewrite Hv, Hf in Hr. cbn in Hr. by apply (inj Some) in Hr.
Qed.

Lemma load_one_reset k : (k < 7)%nat -> keeps reset (load_one (H := H) k).
Proof.
  intros Hk w Hw. unfold load_one. run. cbn [keys_get key_flash_keys].
  destruct (pw_nvs w k) as [pc|] eqn:Hpc; [|done]. case_match; [|done].
  rewrite !run_bind_surj, run_ret. cbn [snd]. apply update_reset.
  destruct (decide (k < 2)%nat); [by apply on_var_reset|].
  destruct Hw as [Hr Hf]. rewrite Hf in Hpc by (apply elem_of_seq; lia).
  destruct (factory !! k) as [f|] eqn:Hfk; [|done]. cbn in Hpc. apply (inj Some) in Hpc. subst pc.
  split; [|done]. unfold ram_factory. rewrite <- Hr. unfold on_var, on_pve. rewrite run_modify.
  cbn [snd pv update pve_variables]. f_equal. apply fmap_alter_same. intros v Hv.
  pose proof (ram_factory_lookup w k v f Hr ltac:(lia) Hv Hfk) as Hs.
  rewrite (load_settings _ v f Hs). rewrite Hs. exact (Forall_lookup_1 _ _ _ _ load_factory Hfk).
Qed.
Lemma load_all_reset idx a b : Forall (fun k => (k < 7)%nat) idx -> keeps reset (load_all (H := H) idx a b).
Proof.
  intros Hidx. revert a b. induction Hidx as [|k idx Hk Hidx IH]; intros a b; cbn [load_all]; keeps; auto using load_one_reset.
Qed.
Lemma load_reset : keeps reset (pve_load_config (H := H) (N := key_flash)).
Proof.
  unfold pve_load_config. keeps; auto using init_reset. apply load_all_reset.
  apply Forall_forall. intros k Hk%elem_of_seq. lia.
Qed.

(** From the save on, every path keeps the reset, and success resets all. *)
Definition ends_reset (m : st (pw H key_flash) bool) : Prop :=
  forall w, reset w -> reset (m w).2 /\ ((m w).1 = true -> all_reset (m w).2).
Lemma ends_assert (b : bool) m : ends_reset m -> ends_reset (if b then m else mret false).
Proof. intros Hm w Hw. destruct b; [by apply Hm|]. by split. Qed.
Lemma ends_then {A} (m : st (pw H key_flash) A) k : keeps reset m -> (forall a, ends_reset (k a)) -> ends_reset (m ≫= k).
Proof. intros Hm Hk w Hw. rewrite run_bind_surj. by apply Hk, Hm. Qed.
Ltac ends_step :=
  lazymatch goal with
  | |- ends_reset (if _ then _ else _) => apply ends_assert
  | |- ends_reset (_ ≫= fun _ => pve_save_config ≫= _) => fail
  | |- ends_reset (_ ≫= _) => apply ends_then; [|intros ?]
  end.
Lemma oscillate_reset n : keeps reset (oscillate (H := H) (N := key_flash) n).
Proof. induction n; cbn [oscillate]; keeps; auto using update_reset. Qed.
Lemma storm_reset : keeps reset (storm (H := H) (N := key_flash)).
Proof. unfold storm. keeps; auto using update_reset, on_var_reset with lia. Qed.

#[local] Opaque pve_update oscillate pve_save_config pve_load_config storm.
Lemma ends_final backup : settings <$> backup = settings <$> factory ->
  ends_reset (on_pve (fun p => p <| pve_variables := backup |>);; pve_save_config;; mret true).
Proof.
  intros Hb w _. rewrite !run_bind_surj, run_ret. cbn [fst snd].
  set (w1 := (on_pve _ w).2).
  assert (settings <$> pve_variables (pv w1) = settings <$> factory) as Hv by exact Hb.
  split; [apply save_reset; unfold ram_factory; by rewrite Hv|]. intros _. by apply save_all_reset.
Qed.

Lemma alarm_tests_reset backup : settings <$> backup = settings <$> factory -> ends_reset (alarm_tests backup).
Proof.
  intros Hb. unfold alarm_tests, arm_alarm. repeat ends_step; [..|by apply ends_final];
    first [apply keeps_gets | apply init_reset | apply update_reset | apply oscillate_reset | apply storm_reset
      | apply on_var_reset; lia | by apply on_pve_reset].
Qed.

(** The settings of the last five variables are kept by the writes of test 9
    and 10, which touch the first two. *)
Lemma on_var_ram i f w : (i < 2)%nat -> ram_factory w -> ram_factory (on_var i f w).2.
Proof.
  intros Hi Hr. unfold on_var, on_pve, ram_factory in *. rewrite run_modify. cbn [snd pv update pve_variables].
  rewrite <- Hr, <- !fmap_drop. f_equal. by apply drop_alter_lt.
Qed.

Lemma restored_tests_reset backup : settings <$> backup = settings <$> factory -> ends_reset (restored_tests backup).
Proof.
  intros Hb. unfold restored_tests. repeat ends_step; [..|by apply alarm_tests_reset];
    first [apply keeps_gets | apply init_reset | apply load_reset].
Qed.

(** Tests 1 to 9 always pass, and the save of test 10 resets the flash. *)
Lemma self_test_prefix w : exists backup w', settings <$> backup = settings <$> factory /\ reset w' /\
  pve_run_self_tests w = restored_tests backup w'.
Proof.
  unfold pve_run_self_tests. change scale_tests with true. cbv iota.
  match goal with |- context [forallb ?f ?l] => replace (forallb f l) with true by (vm_compute; reflexivity) end.
  unfold set_scaled. rewrite !run_bind_surj.
  set (w2 := (on_var 1 _ (on_var 0 _ (on_pve _ w).2).2).2).
  assert (exists a b rest, pve_variables (pv w2) = a :: b :: rest /\ scaled_value (runtime a) = 598 /\
    scaled_value (runtime b) = 7500 /\ settings <$> pve_variables (pv w2) = settings <$> factory) as (a & b & rest & Hw2 & Ha & Hb & Hs).
  { do 3 eexists. split; [reflexivity|]. by split_and!. }
  clearbody w2. clear w. rewrite run_gets. cbn [fst snd].
  assert (pve_get_scaled_value 12 100 (pv w2) = 598) as -> by by unfold pve_get_scaled_value; rewrite Hw2.
  assert (pve_get_scaled_value 13 200 (pv w2) = 7500) as -> by by unfold pve_get_scaled_value; rewrite Hw2.
  change (pve_get_scaled_value 10 42 (pv w2)) with 42. cbn [Z.eqb Pos.eqb]. rewrite !run_bind_surj.
  eexists _, _. split; [exact Hs|]. split; [|reflexivity].
  apply save_reset. unfold set_channel. do 2 (apply on_var_ram; [lia|]). unfold ram_factory. by rewrite Hs.
Qed.

(** The boot self test erases the configuration of the process variables.
    Whatever was configured before it, afterwards the five temperature and
    humidity channels have their factory settings in RAM and in flash, whether
    the test passes or not, and when it passes all seven channels have. *)
Theorem self_test_resets_settings w :
  let w' := (pve_run_self_tests w).2 in
  reset w' /\ ((pve_run_self_tests w).1 = true -> all_reset w').
Proof.
  destruct (self_test_prefix w) as (backup & w1 & Hb & Hw1 & Hrun). cbv zeta. rewrite Hrun.
  by apply restored_tests_reset.
Qed.
End resets.

(** A unit whose first channel was recalibrated to 0..16 bar. *)
Definition recalibrated : list pve_variable :=
  alter (fun v => v <| config := config v <| scaled_max := 1600 |> |>) 0%nat factory.
Definition pve_boot : pw nat key_flash :=
  Pw (Pve recalibrated (replicate 64 alarm_event_zero) 0 0)
    (EventBus (ring_zero EVENT_BUS_MAX_EVENTS event_zero) (replicate 5 []))
    (fun i => persisted <$> recalibrated !! i) (Clock (fun k => 1000 * Z.of_nat k) 0).
Lemma self_test_resets_settings_witness :
  settings <$> pve_variables (pv pve_boot) <> settings <$> factory /\
  all_reset (pve_run_self_tests pve_boot).2.
Proof.
  split; [by intros [=]|]. apply (self_test_resets_settings pve_boot). vm_compute. reflexivity.
Defined.

Lemma alarm_is_schmitt_trigger_witness :
  let v := channel 0 6 "AIN1" 0 4095 0 1000 1 "bar" 800 200 50 <| alarm := Alarm 800 200 50 1 |> in
  let w := pve_boot <| pv := Pve [v] [] 0 0 |> in
  exists v', pve_variables (pv (pve_updates 0 [3280; 3272; 3280] w).2) !! 0%nat = Some v' /\
    alarm_state (runtime v') = PVE_ALARM_STATE_HIGH.
Proof.
  intros v w. destruct (alarm_is_schmitt_trigger 0 [3280; 3272; 3280] v w) as (v' & Hv & _ & _ & [Hhi _]).
  - reflexivity.
  - unfold limits_ok. cbn. lia.
  - reflexivity.
  - exists v'. split; [exact Hv|]. apply Hhi. exists [], 801, [799; 801]. split_and!; [vm_compute; reflexivity|cbn; lia|].
    repeat constructor; cbn; lia.
Defined.

(** ** The history is the last 64 transitions *)

Definition log_all (evs : list pve_alarm_event) (p : pve) : pve := foldl (fun p e => log_alarm e p) p evs.

(** The slot of the [j]-th transition holds it while it is among the last 64. *)
Definition history_of (evs : list pve_alarm_event) (p : pve) : Prop :=
  let n := Z.of_nat (length evs) in
  length (alarm_history p) = 64%nat /\ alarm_history_head p = n mod 64 /\ alarm_history_count p = Z.min n 64 /\
  forall j e, evs !! j = Some e -> n - 64 <= Z.of_nat j -> zget (alarm_history p) (Z.of_nat j mod 64) = Some e.

Lemma log_history evs e p : history_of evs p -> history_of (evs ++ [e]) (log_alarm e p).
Proof.
  intros (Hl & Hh & Hc & Hev). unfold log_alarm, ALARM_HISTORY_MAX. cbn [alarm_history_count update].
  rewrite Hc, Hh.
  match goal with |- history_of _ (if ?c then ?p1 else ?p2) =>
    set (q := if c then p1 else p2);
    assert (alarm_history q = zset (alarm_history p) (Z.of_nat (length evs) mod 64) e) as Hqh by (subst q; by case_match);
    assert (alarm_history_head q = (Z.of_nat (length evs) mod 64 + 1) mod 64) as Hqd by (subst q; by case_match);
    assert (alarm_history_count q = Z.min (Z.of_nat (length evs) + 1) 64) as Hqc
      by (subst q; destruct (Z.ltb_spec (Z.min (Z.of_nat (length evs)) 64) 64);
          cbn [alarm_history_count update]; rewrite ?Hc; lia)
  end.
  clearbody q. unfold history_of. rewrite length_app. cbn [length].
  rewrite Nat2Z.inj_add, Hqh, Hqd, Hqc, length_zset, Z.add_mod_idemp_l by lia. split_and!; try done.
  intros j x Hj Hn. destruct (decide (j < length evs)%nat) as [Hlt|Hge].
  - rewrite lookup_app_l in Hj by done. rewrite zget_zset_ne; [by apply Hev; [|lia]|].
    pose proof (Z.div_mod (Z.of_nat j) 64 ltac:(lia)). pose proof (Z.div_mod (Z.of_nat (length evs)) 64 ltac:(lia)).
    pose proof (Z.mod_pos_bound (Z.of_nat j) 64 ltac:(lia)). lia.
  - pose proof (lookup_lt_Some _ _ _ Hj) as Hb. rewrite length_app in Hb. cbn in Hb.
    assert (j = length evs) as -> by lia. rewrite lookup_app_r, Nat.sub_diag in Hj by lia. cbn in Hj. simplify_eq.
    apply zget_zset_eq. pose proof (Z.mod_pos_bound (Z.of_nat (length evs)) 64 ltac:(lia)). lia.
Qed.

(** After any series of transitions, reading the history gives the last
    64 of them, oldest first, cut to the caller's buffer. *)
Theorem alarm_history_last_64 evs p max_len :
  0 <= max_len ->
  pve_get_alarm_history max_len (log_all evs (pve_clear_alarm_history p)) =
    take (Z.to_nat max_len) (drop (length evs - 64) evs).
Proof.
  intros Hm.
  assert (history_of evs (log_all evs (pve_clear_alarm_history p))) as (Hl & Hh & Hc & Hev).
  { induction evs as [|e evs IH] using rev_ind; [by split_and!|].
    unfold log_all in *. rewrite foldl_snoc. by apply log_history. }
  generalize dependent (log_all evs (pve_clear_alarm_history p)). intros q Hl Hh Hc Hev.
  unfold pve_get_alarm_history. destruct (Z.eqb_spec max_len 0) as [->|Hpos]; [done|].
  rewrite Hh, Hc. unfold ALARM_HISTORY_MAX.
  set (n := Z.of_nat (length evs)) in *.
  set (count := if Z.min n 64 <? max_len then Z.min n 64 else max_len).
  assert (count = Z.min (Z.min n 64) max_len) as Hcount
    by (subst count; destruct (Z.ltb_spec (Z.min n 64) max_len); lia).
  clearbody count. pose proof (Z.mod_pos_bound n 64 ltac:(lia)).
  rewrite (u32_id (n mod 64 - Z.min n 64 + 64)) by lia.
  assert ((n mod 64 - Z.min n 64 + 64) mod 64 = (n - Z.min n 64) mod 64) as ->.
  { rewrite <- Z.add_mod_idemp_r by lia. change (64 mod 64) with 0. rewrite Z.add_0_r.
    by rewrite Zminus_mod_idemp_l. }
  apply list_eq. intros i. rewrite list_lookup_fmap, lookup_take, lookup_drop.
  destruct (decide (i < Z.to_nat count)%nat) as [Hi|Hi].
  - rewrite lookup_seq_lt by done. cbn [fmap option_fmap option_map Nat.add]. rewrite decide_True by lia.
    pose proof (Z.mod_pos_bound (n - Z.min n 64) 64 ltac:(lia)).
    rewrite u32_id, Z.add_mod_idemp_l by lia.
    destruct (lookup_lt_is_Some_2 evs (length evs - 64 + i)) as [e He]; [lia|].
    rewrite He. pose proof (Hev _ e He ltac:(lia)) as Hz.
    replace (n - Z.min n 64 + Z.of_nat i) with (Z.of_nat (length evs - 64 + i)) by lia. by rewrite Hz.
  - rewrite lookup_seq_ge by lia. cbn [fmap option_fmap option_map].
    case_decide; [|done]. symmetry. apply lookup_ge_None_2. lia.
Qed.

Lemma alarm_history_last_64_witness :
  pve_get_alarm_history 2 (log_all [AlarmEvent 1 0 1 801; AlarmEvent 2 0 0 750; AlarmEvent 3 0 1 900]
    (pve_clear_alarm_history (Pve [] [] 5 9))) = [AlarmEvent 1 0 1 801; AlarmEvent 2 0 0 750].
Proof.
  rewrite (alarm_history_last_64 [AlarmEvent 1 0 1 801; AlarmEvent 2 0 0 750; AlarmEvent 3 0 1 900] (Pve [] [] 5 9) 2); [reflexivity|lia].
Defined.
