(* ===== verification/Snapshot.v ===== *)
(** * The state snapshot ([components/runtime/snapshot/snapshot.c])

    The image is a 12-byte header (magic, version, count, checksum) followed by
    one 8-byte [state_entry_t] per entry: identifier, two padding bytes, value. *)

From S2P Require Import Prelude Persist EventBus State.

Definition SNAPSHOT_DEBOUNCE_MS : Z := 5000.
Definition SNAPSHOT_MAGIC : Z := 1397637456.     (* 0x534E4150 *)
Definition SNAPSHOT_VERSION : Z := 1.
Definition sizeof_snapshot_header : nat := 12.
Definition sizeof_state_entry : nat := 8.

(** [snapshot_header_t] *)
Record snapshot_header := SnapshotHeader { sh_magic : Z; sh_version : Z; sh_count : Z; sh_crc : Z }.
Definition header_bytes (h : snapshot_header) : list Z :=
  pack [(4%nat, sh_magic h); (2%nat, sh_version h); (2%nat, sh_count h); (4%nat, sh_crc h)].
Definition header_of (buf : list Z) : snapshot_header :=
  SnapshotHeader (field 0 4 buf) (field 4 2 buf) (field 6 2 buf) (field 8 4 buf).

(** [pad] is what the two padding bytes happen to hold: the entries are built in
    an uninitialised array. *)
Definition entry_bytes (pad : Z * Z) (e : state_entry) : list Z :=
  le 2 (se_id e) ++ [pad.1; pad.2] ++ le 4 (u32 (se_value e)).
(** The [i]-th entry of the image in [buf]; [None] when it lies outside the
    memory object. *)
Definition entry_at (buf : list Z) (i : nat) : option state_entry :=
  let off := (sizeof_snapshot_header + sizeof_state_entry * i)%nat in
  if bool_decide (off + 8 <= length buf)%nat
  then Some (StateEntry (field off 2 buf) (i32 (field (off + 4) 4 buf)))
  else None.

(** The array of entries as bytes. *)
Definition payload_of (pads : nat -> Z * Z) (es : list state_entry) : list Z :=
  concat (imap (fun i e => entry_bytes (pads i) e) es).

Definition snapshot_crc32 (data : list Z) : Z := fnv1a32 data.

(** ** Export *)

Definition snapshot_export (pads : nat -> Z * Z) (max_len : Z) (s : store) : option (list Z) * store :=
  let entries := state_export_entries STATE_MAX_ENTRIES s in
  let count := Z.of_nat (length entries) in
  let payload_len := u16 (count * Z.of_nat sizeof_state_entry) in
  let total_len := u16 (Z.of_nat sizeof_snapshot_header + payload_len) in
  if max_len <? total_len then (None, s)
  else
    let payload := take (Z.to_nat payload_len) (payload_of pads entries) in
    let crc := snapshot_crc32 payload in
    (Some (header_bytes (SnapshotHeader SNAPSHOT_MAGIC SNAPSHOT_VERSION count crc) ++ payload),
     s <| snapshot_crc := crc |>).

(** ** Restore *)

Definition restore_entry (e : state_entry) (s : store) : store :=
  state_clear_dirty (se_id e) (state_set_int (se_id e) (se_value e) s).2.

(** The loop over [header->count]: [None] is an access outside the object. *)
Fixpoint restore_entries (buf : list Z) (i count : nat) (s : store) : option store :=
  match count with
  | O => Some s
  | S count => e ← entry_at buf i; restore_entries buf (S i) count (restore_entry e s)
  end.

(** [buf] is the whole memory object the pointer points into, [len] the number
    of valid bytes. *)
Definition snapshot_restore (buf : list Z) (len : Z) (s : store) : option store :=
  if len <? Z.of_nat sizeof_snapshot_header then Some s
  else
    let h := header_of buf in
    if negb (sh_magic h =? SNAPSHOT_MAGIC) || negb (sh_version h =? SNAPSHOT_VERSION) then Some s
    else
      let payload_len := u16 (sh_count h * Z.of_nat sizeof_state_entry) in
      if negb (u16 (Z.of_nat sizeof_snapshot_header + payload_len) =? len) then Some s
      else
        let crc := snapshot_crc32 (take (Z.to_nat payload_len) (drop sizeof_snapshot_header buf)) in
        if negb (crc =? sh_crc h) then Some s
        else
          s ← restore_entries buf 0 (Z.to_nat (sh_count h)) s;
          Some (s <| snapshot_crc := sh_crc h |> <| snapshot_dirty := false |> <| last_change := 0 |>).

(** ** Saving and booting *)

(** [snapshot_storage_if_t], whose operations may be absent. *)
Record storage_if {N : Type} := StorageIf {
  sif_write : option (list Z -> st N bool);
  sif_read : option (Z -> N -> option (list Z));
}.
Arguments storage_if : clear implicits.

Record snap {N : Type} := Snap { sn_store : store; sn_nvs : N; sn_storage : option (storage_if N) }.
Arguments snap : clear implicits.
Arguments Snap {N}.
#[export] Instance snap_rebuild {N} : Rebuild (snap N) :=
  fun w => Snap (sn_store w) (sn_nvs w) (sn_storage w).

Definition SNAPSHOT_BUFFER : nat := sizeof_snapshot_header + 256 * sizeof_state_entry.

Section save.
Context {N : Type} `{Nvs N}.
Implicit Types w : snap N.

Definition on_nvs {A} (m : st N A) : st (snap N) A :=
  on_part sn_nvs (fun n w => w <| sn_nvs := n |>) m.
Definition on_store (f : store -> store) : st (snap N) () :=
  modify (fun w => w <| sn_store := f (sn_store w) |>).

Definition snapshot_backend_write (buf : list Z) : st (snap N) bool :=
  storage ← gets sn_storage;
  match storage ≫= sif_write with
  | Some write => on_nvs (write buf)
  | None =>
    ok ← on_nvs nvs_open_rw;
    if negb ok then mret false
    else
      ok ← on_nvs (nvs_set_blob buf);
      if negb ok then mret false
      else on_nvs nvs_commit;; mret true
  end.

(** The bytes read, the rest of the object keeping the [junk] it held. *)
Definition snapshot_backend_read w : option (list Z) :=
  match sn_storage w ≫= sif_read with
  | Some read => read (Z.of_nat SNAPSHOT_BUFFER) (sn_nvs w)
  | None =>
    match nvs_get_blob (sn_nvs w) with
    | None => None
    | Some blob =>
      if (length blob =? 0)%nat || (SNAPSHOT_BUFFER <? length blob)%nat then None else Some blob
    end
  end.

Definition snapshot_save (pads : nat -> Z * Z) : st (snap N) () :=
  w ← gets id;
  let '(image, s) := snapshot_export pads (Z.of_nat SNAPSHOT_BUFFER) (sn_store w) in
  on_store (fun _ => s);;
  let entries := state_export_entries STATE_MAX_ENTRIES s in
  match image with
  | None => mret tt
  | Some buf =>
    ok ← snapshot_backend_write buf;
    if negb ok then mret tt
    else on_store (fun s =>
           foldl (fun s e => state_clear_dirty (se_id e) s) s entries <| snapshot_dirty := false |>)
  end.

(** [None]: undefined behaviour while restoring. *)
Definition snapshot_init (junk : list Z) w : option (snap N) :=
  let s := sn_store w <| snapshot_dirty := false |> <| snapshot_crc := 0 |> <| last_change := 0 |> in
  match snapshot_backend_read w with
  | None => Some (w <| sn_store := s |>)
  | Some blob =>
    (fun s => w <| sn_store := s |>) <$>
      snapshot_restore (blob ++ drop (length blob) (take SNAPSHOT_BUFFER junk))
        (u16 (Z.of_nat (length blob))) s
  end.

Definition snapshot_set_storage (iface : option (storage_if N)) : st (snap N) () :=
  modify (fun w => w <| sn_storage := iface |>).
Definition snapshot_get_crc w : Z := snapshot_crc (sn_store w).
Definition snapshot_force_save (pads : nat -> Z * Z) : st (snap N) () := snapshot_save pads.

Definition snapshot_process (pads : nat -> Z * Z) : st (snap N) () :=
  dirty ← gets (fun w => snapshot_dirty (sn_store w));
  if negb dirty then mret tt
  else
    now ← (fun w => ((clock_read (st_clock (sn_store w))).1 / 1000,
                     w <| sn_store := sn_store w <| st_clock := (clock_read (st_clock (sn_store w))).2 |> |>));
    last ← gets (fun w => last_change (sn_store w));
    if SNAPSHOT_DEBOUNCE_MS <=? now - last then snapshot_save pads else mret tt.
End save.

(** ** What is exported *)

Definition exported (s : store) (id : nat) : option state_entry :=
  let val := default 0 (int_values s !! id) in
  if (val =? 0) && negb (default false (dirty_flags s !! id)) then None
  else Some (StateEntry (Z.of_nat id) val).

Lemma export_from_all ids s room :
  (length ids <= room)%nat -> export_from ids s room = omap (exported s) ids.
Proof.
  revert room. induction ids as [|id ids IH]; intros room Hr; cbn; [done|].
  unfold exported at 1. cbn in Hr. case_match; [apply IH; lia|].
  destruct room as [|room]; [lia|]. f_equal. apply IH. lia.
Qed.

Lemma state_export_entries_all s :
  state_export_entries STATE_MAX_ENTRIES s = omap (exported s) (seq 0 256).
Proof. unfold state_export_entries. cbn [Z.eqb]. by apply export_from_all. Qed.

Lemma length_omap_le {A B} (f : A -> option B) l : (length (omap f l) <= length l)%nat.
Proof. induction l; cbn; [done|]. case_match; cbn; lia. Qed.

Lemma length_export s : (length (state_export_entries STATE_MAX_ENTRIES s) <= 256)%nat.
Proof. rewrite state_export_entries_all. apply length_omap_le. Qed.

(** The entries are table indices and 32-bit values. *)
Definition entry_wf (e : state_entry) : Prop := 0 <= se_id e < 256 /\ is_i32 (se_value e).

Lemma exported_wf s id e : store_wf s -> (id < 256)%nat -> exported s id = Some e -> entry_wf e.
Proof.
  intros Hs Hid. unfold exported. case_match; [done|]. intros [= <-]. split; cbn; [lia|].
  destruct (int_values s !! id) eqn:E; cbn; [|lia]. by eapply (Forall_lookup_1 _ _ _ _ (sw_i32 s Hs)).
Qed.

Lemma export_wf s : store_wf s -> Forall entry_wf (state_export_entries STATE_MAX_ENTRIES s).
Proof.
  intros Hs. rewrite state_export_entries_all. apply Forall_forall. intros e.
  rewrite list_elem_of_omap. intros (id & Hid%elem_of_seq & He). apply (exported_wf s id e Hs); [lia|done].
Qed.

(** ** Layout *)

Lemma length_entry_bytes pad e : length (entry_bytes pad e) = 8%nat.
Proof. done. Qed.
Lemma length_header_bytes h : length (header_bytes h) = 12%nat.
Proof. done. Qed.

Lemma length_payload pads es : length (payload_of pads es) = (8 * length es)%nat.
Proof.
  unfold payload_of. revert pads. induction es as [|e es IH]; intros pads; [done|].
  cbn [imap concat]. rewrite length_app, length_entry_bytes.
  specialize (IH (pads ∘ S)). cbn [length]. unfold compose in *. lia.
Qed.

Definition header_wf (h : snapshot_header) : Prop :=
  is_u32 (sh_magic h) /\ is_u16 (sh_version h) /\ is_u16 (sh_count h) /\ is_u32 (sh_crc h).

Lemma header_roundtrip h rest : header_wf h -> header_of (header_bytes h ++ rest) = h.
Proof.
  intros (Hm&Hv&Hc&Hx). destruct h as [m v c x]. unfold header_of, header_bytes.
  cbn [sh_magic sh_version sh_count sh_crc] in *.
  f_equal; [by packed 0%nat|by packed 1%nat|by packed 2%nat|by packed 3%nat].
Qed.

(** The [i]-th entry of an exported payload is the [i]-th entry. *)
Lemma entry_at_payload pads es head rest (i : nat) e :
  length head = 12%nat -> Forall entry_wf es -> es !! i = Some e ->
  entry_at (head ++ payload_of pads es ++ rest) i = Some e.
Proof.
  intros Hh Hes Hi. pose proof (lookup_lt_Some _ _ _ Hi) as Hlt.
  assert (payload_of pads es =
    payload_of pads (take i es) ++ entry_bytes (pads i) e ++ payload_of (fun k => pads (S (i + k))%nat) (drop (S i) es)) as ->.
  { unfold payload_of. rewrite <- (take_drop_middle es i e Hi) at 1.
    rewrite imap_app, concat_app. f_equal. cbn [imap concat].
    rewrite length_take, Nat.min_l, Nat.add_0_r by lia. f_equal. f_equal. apply imap_ext. intros k ? _.
    unfold compose. do 2 f_equal. lia. }
  pose proof (Forall_lookup_1 _ _ _ _ Hes Hi) as [Hid Hv].
  set (pre := payload_of pads (take i es)). set (post := payload_of _ (drop (S i) es)).
  assert (length pre = (8 * i)%nat) as Hpre by (unfold pre; rewrite length_payload, length_take; lia).
  unfold entry_at, sizeof_snapshot_header, sizeof_state_entry. rewrite bool_decide_eq_true_2
    by (rewrite !length_app, length_entry_bytes; lia).
  unfold entry_bytes. destruct e as [id v]. cbn [se_id se_value] in *.
  pose proof (field_app_le 2 id (head ++ pre) ([(pads i).1; (pads i).2] ++ le 4 (u32 v) ++ post ++ rest)) as H0.
  pose proof (field_app_le 4 (u32 v) (head ++ pre ++ le 2 id ++ [(pads i).1; (pads i).2]) (post ++ rest)) as H4.
  rewrite !length_app, Hh, Hpre in *. rewrite length_le in *. cbn [length] in *.
  replace (12 + (8 * i + (2 + 2)))%nat with (12 + 8 * i + 4)%nat in H4 by lia.
  repeat rewrite <- app_assoc in *. cbn [app] in *.
  rewrite H0 by (cbn; lia). rewrite H4 by (pose proof (u32_range v); cbn; lia).
  by rewrite i32_u32.
Qed.

(** ** What restoring does *)

Lemma restore_entries_fold buf es i s :
  (forall k e, es !! k = Some e -> entry_at buf (i + k) = Some e) ->
  restore_entries buf i (length es) s = Some (foldl (fun s e => restore_entry e s) s es).
Proof.
  revert i s. induction es as [|e es IH]; intros i s Hat; [done|]. cbn [length restore_entries foldl].
  pose proof (Hat 0%nat e eq_refl) as H0. rewrite Nat.add_0_r in H0. rewrite H0. cbn [mbind option_bind].
  apply IH. intros k e' Hk. replace (S i + k)%nat with (i + S k)%nat by lia. by apply Hat.
Qed.

Lemma restore_entry_spec e s : store_wf s -> entry_wf e ->
  store_wf (restore_entry e s) /\
  int_values (restore_entry e s) = <[Z.to_nat (se_id e) := se_value e]> (int_values s) /\
  dirty_flags (restore_entry e s) = <[Z.to_nat (se_id e) := false]> (dirty_flags s).
Proof.
  intros Hs [Hid Hv]. unfold restore_entry.
  assert (state_valid_id (se_id e) = true) as Hval.
  { unfold state_valid_id, STATE_MAX_ENTRIES. apply Z.ltb_lt. lia. }
  pose proof (set_int_wf (se_id e) (se_value e) s Hs Hv) as Hw.
  assert (int_values (set_int (se_id e) (se_value e) s).2 =
    <[Z.to_nat (se_id e) := se_value e]> (int_values s)) as Hi.
  { rewrite set_int_values, Hval. cbn [andb]. unfold zset. destruct (Z.leb_spec 0 (se_id e)); [|lia].
    destruct (Z.eqb_spec (default 0 (zget (int_values s) (se_id e))) (se_value e)) as [He|]; [|done].
    cbn [negb]. symmetry. apply list_insert_id. rewrite <- He.
    destruct (zget_some (int_values s) (se_id e)) as [x Hx]; [destruct Hs; lia|].
    rewrite Hx. unfold zget in Hx. destruct (Z.leb_spec 0 (se_id e)); [done|lia]. }
  assert (<[Z.to_nat (se_id e) := false]> (dirty_flags (set_int (se_id e) (se_value e) s).2) =
    <[Z.to_nat (se_id e) := false]> (dirty_flags s)) as Hf.
  { destruct (decide (get_int (se_id e) s = Some (se_value e))) as [Hsame|Hch].
    - pose proof (state_set_same (se_id e) (se_value e) s Hsame) as Hss.
      change (state_set_int (se_id e)) with (set_int (se_id e)) in Hss. by rewrite Hss.
    - destruct (set_int_changed _ _ s Hval Hch) as (s1 & -> & _ & Hd & _). cbn [snd].
      destruct (state_output_changed_shape (se_id e) (se_value e) s1) as (m & n & ->).
      cbn [dirty_flags update]. rewrite Hd. unfold zset. destruct (Z.leb_spec 0 (se_id e)); [|lia].
      apply list_insert_insert_eq. }
  unfold state_clear_dirty. rewrite Hval. cbn [negb]. change (state_set_int (se_id e)) with (set_int (se_id e)).
  unfold zset. destruct (Z.leb_spec 0 (se_id e)); [|lia]. split_and!; [|done|done].
  destruct Hw. constructor; try done. cbn. by rewrite length_insert.
Qed.

Lemma restore_fold_spec s ids s0 :
  store_wf s -> NoDup ids -> (forall k, k ∈ ids -> (k < 256)%nat) -> store_wf s0 ->
  (forall k, k ∈ ids -> int_values s0 !! k = Some 0) -> Forall (fun d => d = false) (dirty_flags s0) ->
  let s1 := foldl (fun s e => restore_entry e s) s0 (omap (exported s) ids) in
  store_wf s1 /\ Forall (fun d => d = false) (dirty_flags s1) /\
  forall k, int_values s1 !! k = if decide (k ∈ ids) then int_values s !! k else int_values s0 !! k.
Proof.
  intros Hs. revert s0. induction ids as [|id ids IH]; intros s0 Hnd Hlt H0 Hz Hd.
  { cbn. split_and!; [done..|]. intros k. by rewrite decide_False by (by apply not_elem_of_nil). }
  apply NoDup_cons in Hnd as [Hid Hnd].
  assert (id < 256)%nat as Hid' by (apply Hlt; left).
  destruct (lookup_lt_is_Some_2 (int_values s) id) as [v Hv]; [by destruct Hs as [-> _ _ _ _ _]|].
  cbn [omap list_omap]. destruct (exported s id) as [e|] eqn:He; cbn [foldl].
  - destruct (restore_entry_spec e s0 H0 (exported_wf s id e Hs Hid' He)) as (Hw & Hi & Hf).
    assert (Z.to_nat (se_id e) = id /\ se_value e = v) as [Hei Hev].
    { unfold exported in He. rewrite Hv in He. cbn in He. case_match; [done|]. simplify_eq. cbn. lia. }
    rewrite Hei, Hev in *. destruct (IH (restore_entry e s0)) as (Hw1 & Hd1 & Hk1); try done.
    { intros k Hk. apply Hlt. by right. }
    { intros k Hk. rewrite Hi, list_lookup_insert_ne by (intros ->; done). apply Hz. by right. }
    { rewrite Hf. by apply Forall_insert. }
    split_and!; [done..|]. intros k. rewrite Hk1, Hi. destruct (decide (k = id)) as [->|Hne].
    + rewrite decide_False, decide_True by (done || left). rewrite Hv, list_lookup_insert_eq; [done|].
      destruct H0. lia.
    + rewrite list_lookup_insert_ne by done. apply decide_ext; rewrite elem_of_cons; tauto.
  - destruct (IH s0) as (Hw1 & Hd1 & Hk1); try done.
    { intros k Hk. apply Hlt. by right. } { intros k Hk. apply Hz. by right. }
    split_and!; [done..|]. intros k. rewrite Hk1. destruct (decide (k = id)) as [->|Hne].
    + rewrite decide_False, decide_True by (done || left). rewrite Hz by left.
      unfold exported in He. rewrite Hv in He. cbn in He.
      destruct (Z.eqb_spec v 0) as [->|]; [done|]. by cbn in He.
    + apply decide_ext; rewrite elem_of_cons; tauto.
Qed.

(** ** Images *)

Definition image_header (pads : nat -> Z * Z) (es : list state_entry) : snapshot_header :=
  SnapshotHeader SNAPSHOT_MAGIC SNAPSHOT_VERSION (Z.of_nat (length es)) (fnv1a32 (payload_of pads es)).
Definition image_of (pads : nat -> Z * Z) (es : list state_entry) : list Z :=
  header_bytes (image_header pads es) ++ payload_of pads es.

Lemma length_image pads es : length (image_of pads es) = (12 + 8 * length es)%nat.
Proof. unfold image_of. by rewrite length_app, length_payload. Qed.

Lemma image_header_wf pads es : (length es <= 256)%nat -> header_wf (image_header pads es).
Proof.
  intros. pose proof (fnv1a32_range (payload_of pads es)).
  split_and!; cbn; unfold SNAPSHOT_MAGIC, SNAPSHOT_VERSION; lia.
Qed.

Lemma snapshot_export_eq pads s :
  snapshot_export pads (Z.of_nat SNAPSHOT_BUFFER) s =
    (Some (image_of pads (state_export_entries STATE_MAX_ENTRIES s)),
     s <| snapshot_crc := fnv1a32 (payload_of pads (state_export_entries STATE_MAX_ENTRIES s)) |>).
Proof.
  pose proof (length_export s) as Hl. unfold snapshot_export.
  set (es := state_export_entries STATE_MAX_ENTRIES s) in *.
  unfold sizeof_state_entry, sizeof_snapshot_header, SNAPSHOT_BUFFER, sizeof_state_entry, sizeof_snapshot_header.
  rewrite (u16_id (Z.of_nat (length es) * Z.of_nat 8)), u16_id by lia.
  destruct (Z.ltb_spec (Z.of_nat (12 + 256 * 8)) (Z.of_nat 12 + Z.of_nat (length es) * Z.of_nat 8)); [lia|].
  rewrite take_ge by (rewrite length_payload; lia). done.
Qed.

(** An image restores by replaying its entries, whatever follows it in memory. *)
Lemma snapshot_restore_image pads es rest s :
  Forall entry_wf es -> (length es <= 256)%nat ->
  snapshot_restore (image_of pads es ++ rest) (Z.of_nat (length (image_of pads es))) s =
    Some (foldl (fun s e => restore_entry e s) s es <| snapshot_crc := fnv1a32 (payload_of pads es) |>
            <| snapshot_dirty := false |> <| last_change := 0 |>).
Proof.
  intros Hes Hl. unfold snapshot_restore. rewrite length_image.
  unfold sizeof_state_entry, sizeof_snapshot_header.
  destruct (Z.ltb_spec (Z.of_nat (12 + 8 * length es)) (Z.of_nat 12)); [lia|].
  unfold image_of. rewrite <- app_assoc.
  rewrite header_roundtrip by by apply image_header_wf.
  unfold image_header. cbn [sh_magic sh_version sh_count sh_crc]. rewrite !Z.eqb_refl. cbn [negb orb].
  rewrite (u16_id (Z.of_nat (length es) * Z.of_nat 8)), u16_id by lia.
  destruct (Z.eqb_spec (Z.of_nat 12 + Z.of_nat (length es) * Z.of_nat 8) (Z.of_nat (12 + 8 * length es))); [|lia].
  cbn [negb]. rewrite drop_app_length' by done.
  rewrite take_app_length' by (rewrite length_payload; lia).
  unfold snapshot_crc32. rewrite Z.eqb_refl, Nat2Z.id. cbn [negb].
  rewrite (restore_entries_fold _ es); [done|]. intros k e0 Hk. by apply entry_at_payload.
Qed.

Lemma entry_bytes_u8 pad e : is_u8 pad.1 -> is_u8 pad.2 -> Forall (fun b => is_u8 b) (entry_bytes pad e).
Proof.
  intros. unfold entry_bytes. repeat (apply Forall_app; split); try apply le_bytes.
  by repeat (apply Forall_cons; split).
Qed.

Lemma payload_u8 pads es : (forall i, is_u8 (pads i).1 /\ is_u8 (pads i).2) ->
  Forall (fun b => is_u8 b) (payload_of pads es).
Proof.
  revert pads. induction es as [|e es IH]; intros pads Hp; [done|]. unfold payload_of. cbn [imap concat].
  apply Forall_app. split; [by apply entry_bytes_u8; apply Hp|]. apply (IH (pads ∘ S)). intros i. apply Hp.
Qed.

Lemma snapshot_backend_write_ok {N} `{Nvs N} (w : snap N) buf n1 n2 c n3 :
  sn_storage w = None -> nvs_open_rw (sn_nvs w) = (true, n1) -> nvs_set_blob buf n1 = (true, n2) ->
  nvs_commit n2 = (c, n3) ->
  snapshot_backend_write buf w = (true, w <| sn_nvs := n3 |>).
Proof.
  intros Hst H1 H2 H3. unfold snapshot_backend_write. run. rewrite Hst. cbn [mbind option_bind].
  rewrite (run_bind_eq _ _ _ true (w <| sn_nvs := n1 |>)) by (unfold on_nvs, on_part; by rewrite H1).
  cbn [negb].
  rewrite (run_bind_eq _ _ _ true (w <| sn_nvs := n2 |>)).
  2: { unfold on_nvs, on_part. cbn [sn_nvs update]. by rewrite H2. }
  cbn [negb]. rewrite (run_bind_eq _ _ _ c (w <| sn_nvs := n3 |>)); [done|].
  unfold on_nvs, on_part. cbn [sn_nvs update]. by rewrite H3.
Qed.

Lemma snapshot_save_stores {N} `{NvsLaws N} pads (w : snap N) image n1 n2 n3 :
  sn_storage w = None ->
  image = image_of pads (state_export_entries STATE_MAX_ENTRIES (sn_store w)) ->
  nvs_open_rw (sn_nvs w) = (true, n1) -> nvs_set_blob image n1 = (true, n2) ->
  nvs_commit n2 = (true, n3) ->
  nvs_get_blob (sn_nvs (snapshot_save pads w).2) = Some image.
Proof.
  intros Hst Himg E1 E2 E3.
  assert (nvs_get_blob n3 = Some image) as Hd.
  { pose proof (nvs_commit_durable image n1 n2 E2) as Hd. rewrite E3 in Hd. by apply Hd. }
  unfold snapshot_save. rewrite run_bind_gets. unfold id. rewrite snapshot_export_eq, <- Himg.
  unfold on_store. rewrite run_bind_modify.
  erewrite run_bind_eq;
    [|apply (snapshot_backend_write_ok _ image n1 n2 true n3); [exact Hst|exact E1|exact E2|exact E3]].
  exact Hd.
Qed.

Lemma snapshot_init_blob {N} `{Nvs N} junk (s s0 : store) (n : N) pads es :
  Forall entry_wf es -> (length es <= 256)%nat -> nvs_get_blob n = Some (image_of pads es) ->
  s0 = s <| snapshot_dirty := false |> <| snapshot_crc := 0 |> <| last_change := 0 |> ->
  exists w2, snapshot_init junk (Snap s n None) = Some w2 /\
    int_values (sn_store w2) = int_values (foldl (fun s e => restore_entry e s) s0 es) /\
    dirty_flags (sn_store w2) = dirty_flags (foldl (fun s e => restore_entry e s) s0 es) /\
    snapshot_dirty (sn_store w2) = false.
Proof.
  intros Hes Hl Hget ->. unfold snapshot_init, snapshot_backend_read.
  cbn [sn_storage sn_nvs sn_store mbind option_bind]. rewrite Hget.
  pose proof (length_image pads es) as Hlen.
  destruct (Nat.eqb_spec (length (image_of pads es)) 0); [lia|].
  unfold SNAPSHOT_BUFFER at 1, sizeof_snapshot_header, sizeof_state_entry.
  destruct (Nat.ltb_spec (12 + 256 * 8) (length (image_of pads es))); [lia|]. cbn [orb].
  rewrite u16_id, snapshot_restore_image by (done || lia).
  generalize (foldl (fun s e => restore_entry e s)
    (s <| snapshot_dirty := false |> <| snapshot_crc := 0 |> <| last_change := 0 |>) es).
  intros s1. eexists. split; [reflexivity|]. done.
Qed.

(** Replaying an export on a cleared table rebuilds the table. *)
Lemma restore_export s s0 :
  store_wf s -> store_wf s0 -> (forall k, (k < 256)%nat -> int_values s0 !! k = Some 0) ->
  Forall (fun d => d = false) (dirty_flags s0) ->
  let s1 := foldl (fun s e => restore_entry e s) s0 (state_export_entries STATE_MAX_ENTRIES s) in
  int_values s1 = int_values s /\ Forall (fun d => d = false) (dirty_flags s1).
Proof.
  intros Hs H0 Hz Hd. rewrite state_export_entries_all.
  destruct (restore_fold_spec s (seq 0 256) s0 Hs) as (Hw & Hd1 & Hk); try done.
  { apply NoDup_seq. } { intros k Hk%elem_of_seq. lia. }
  { intros k Hk%elem_of_seq. apply Hz. lia. }
  cbv zeta. split; [|exact Hd1]. apply list_eq. intros k. rewrite Hk. case_decide as Hin; [done|].
  assert (256 <= k)%nat as Hge by (destruct (decide (k < 256)%nat); [exfalso; apply Hin, elem_of_seq|]; lia).
  rewrite !lookup_ge_None_2; [done| |]; destruct Hs, H0; lia.
Qed.

(** C37: Saving and rebooting: when the writes to flash succeed, the state table
    after the next boot holds exactly the values it held when saved, every
    entry clean and no save pending, whatever the padding bytes and the stack
    held. *)
Theorem snapshot_survives_reboot {N} `{NvsLaws N} (pads : nat -> Z * Z) (junk : list Z)
    (w : snap N) (boot : store) :
  store_wf (sn_store w) -> store_wf (state_init boot) -> sn_storage w = None ->
  let n0 := sn_nvs w in
  let image := image_of pads (state_export_entries STATE_MAX_ENTRIES (sn_store w)) in
  (nvs_open_rw n0).1 = true -> (nvs_set_blob image (nvs_open_rw n0).2).1 = true ->
  (nvs_commit (nvs_set_blob image (nvs_open_rw n0).2).2).1 = true ->
  let w1 := (snapshot_save pads w).2 in
  exists w2, snapshot_init junk (Snap (state_init boot) (sn_nvs w1) None) = Some w2 /\
    int_values (sn_store w2) = int_values (sn_store w) /\
    Forall (fun d => d = false) (dirty_flags (sn_store w2)) /\ snapshot_dirty (sn_store w2) = false.
Proof.
  intros Hs Hb Hst n0 image Ho Hset Hc w1.
  destruct (nvs_open_rw n0) as [ok n1] eqn:E1. cbn [fst snd] in Ho, Hset, Hc. subst ok.
  destruct (nvs_set_blob image n1) as [ok n2] eqn:E2. cbn [fst snd] in Hset, Hc. subst ok.
  destruct (nvs_commit n2) as [ok n3] eqn:E3. cbn [fst snd] in Hc. subst ok.
  pose proof (snapshot_save_stores pads w image n1 n2 n3 Hst eq_refl E1 E2 E3) as Hget. fold w1 in Hget.
  set (s0 := state_init boot <| snapshot_dirty := false |> <| snapshot_crc := 0 |> <| last_change := 0 |>).
  assert (forall k, (k < 256)%nat -> int_values s0 !! k = Some 0) as Hz0.
  { intros k Hk. by apply lookup_replicate_2. }
  assert (Forall (fun d => d = false) (dirty_flags s0)) as Hd0 by by apply Forall_replicate.
  assert (store_wf s0) as Hw0 by by destruct Hb.
  destruct (snapshot_init_blob junk (state_init boot) s0 (sn_nvs w1) pads _
    (export_wf _ Hs) (length_export (sn_store w)) Hget eq_refl) as (w2 & Hi & Hv & Hf & Hdirty).
  clearbody s0. destruct (restore_export (sn_store w) s0 Hs Hw0 Hz0 Hd0) as [Hv1 Hd1].
  exists w2. rewrite Hv, Hf. by split_and!.
Qed.

(** A byte of the payload that changed between save and boot is always
    noticed: the image is refused and the state stays as it was. *)
Theorem snapshot_corruption_rejected (pads : nat -> Z * Z) (es : list state_entry) (rest : list Z)
    (i : nat) (b x : Z) (s : store) :
  (forall i, is_u8 (pads i).1 /\ is_u8 (pads i).2) -> (length es <= 256)%nat ->
  is_u8 b -> payload_of pads es !! i = Some x -> b <> x ->
  snapshot_restore (<[(12 + i)%nat := b]> (image_of pads es) ++ rest)
    (Z.of_nat (length (image_of pads es))) s = Some s.
Proof.
  intros Hp Hl Hb Hx Hne. unfold snapshot_restore. rewrite length_image.
  unfold sizeof_state_entry, sizeof_snapshot_header.
  destruct (Z.ltb_spec (Z.of_nat (12 + 8 * length es)) (Z.of_nat 12)); [done|].
  unfold image_of. rewrite insert_app_r_alt by (rewrite length_header_bytes; lia).
  rewrite length_header_bytes. replace (12 + i - 12)%nat with i by lia.
  rewrite <- app_assoc, header_roundtrip by by apply image_header_wf.
  unfold image_header. cbn [sh_magic sh_version sh_count sh_crc]. rewrite !Z.eqb_refl. cbn [negb orb].
  rewrite (u16_id (Z.of_nat (length es) * Z.of_nat 8)), u16_id by lia. case_match; [done|].
  rewrite drop_app_length' by done.
  rewrite take_app_length' by (rewrite length_insert, length_payload; lia).
  unfold snapshot_crc32.
  pose proof (fnv1a32_insert (payload_of pads es) i b x (payload_u8 pads es Hp) Hb Hx Hne) as Hcrc.
  apply Z.eqb_neq in Hcrc. by rewrite Hcrc.
Qed.

(** Replaying more entries than the object holds leaves the object. *)
Lemma restore_entries_outside buf i count s :
  (12 + 8 * i <= length buf < 12 + 8 * (i + count))%nat -> restore_entries buf i count s = None.
Proof.
  revert i s. induction count as [|count IH]; intros i s Hl; [lia|]. cbn [restore_entries].
  destruct (entry_at buf i) as [e|] eqn:E; [|done]. cbn [mbind option_bind]. apply IH.
  unfold entry_at, sizeof_snapshot_header, sizeof_state_entry in E. case_bool_decide; [lia|done].
Qed.

(** The number of entries is not bounded: its product with the size of an
    entry is cut to 16 bits before it is compared with the length, so a 12-byte
    blob that announces 8192 entries, with the checksum of the empty payload,
    passes every check and makes the restore read past the 2060-byte buffer,
    whatever that buffer holds. *)
Theorem snapshot_count_unbounded (rest : list Z) (s : store) :
  length rest = 2048%nat ->
  snapshot_restore
    (header_bytes (SnapshotHeader SNAPSHOT_MAGIC SNAPSHOT_VERSION 8192 (fnv1a32 [])) ++ rest) 12 s = None.
Proof.
  intros Hr. unfold snapshot_restore, sizeof_state_entry, sizeof_snapshot_header.
  destruct (Z.ltb_spec 12 (Z.of_nat 12)); [lia|].
  rewrite header_roundtrip by (split_and!; vm_compute; congruence).
  cbn [sh_magic sh_version sh_count sh_crc]. rewrite !Z.eqb_refl. cbn [negb orb].
  change (u16 (8192 * Z.of_nat 8)) with 0. change (u16 (Z.of_nat 12 + 0) =? 12) with true. cbn [negb].
  rewrite restore_entries_outside; [done|]. rewrite length_app, length_header_bytes, Hr. lia.
Qed.

(** ** Concrete runs *)

Definition snap_demo : snap flash :=
  Snap (state_set_int 100 1 (state_set_int 10 7 store_boot).2).2 None None.

Lemma snapshot_survives_reboot_witness :
  exists w2, snapshot_init [] (Snap store_boot (sn_nvs (snapshot_save (fun _ => (170, 85)) snap_demo).2) None) = Some w2 /\
    state_get_int 100 (sn_store w2) = Some 1 /\ state_get_int 10 (sn_store w2) = Some 7.
Proof.
  destruct (snapshot_survives_reboot (fun _ => (170, 85)) [] snap_demo store_boot) as (w2 & H1 & H2 & _).
  - exact (set_int_wf 100 1 _ (set_int_wf 10 7 _ store_boot_wf ltac:(lia)) ltac:(lia)).
  - exact store_boot_wf.
  - reflexivity.
  - reflexivity.
  - reflexivity.
  - reflexivity.
  - exists w2. split; [exact H1|]. cbn [state_get_int store_api]. unfold get_int. rewrite H2.
    split; vm_compute; reflexivity.
Defined.

Lemma snapshot_corruption_rejected_witness :
  snapshot_restore (<[16%nat := 3]> (image_of (fun _ => (0, 0)) [StateEntry 100 1])) 20 store_boot
    = Some store_boot.
Proof.
  pose proof (snapshot_corruption_rejected (fun _ => (0, 0)) [StateEntry 100 1] [] 4 3 1 store_boot) as H.
  rewrite app_nil_r in H. apply H; [intros; cbn; lia|cbn; lia|lia|reflexivity|lia].
Defined.

Lemma snapshot_count_unbounded_witness :
  snapshot_restore
    (header_bytes (SnapshotHeader SNAPSHOT_MAGIC SNAPSHOT_VERSION 8192 (fnv1a32 [])) ++ replicate 2048 0)
    12 store_boot = None.
Proof. apply (snapshot_count_unbounded (replicate 2048 0) store_boot). apply length_replicate. Defined.
