(* ===== verification/Failsafe.v ===== *)
(** * Fail-safe outputs ([components/runtime/failsafe/failsafe.c])

    Per output, what value it takes at boot, when communication is lost and on a
    fault, and whether it then stays latched until a manual reset. *)

From Stdlib Require Import String.
From S2P Require Import Prelude Persist EventBus State DeviceProfile.

Local Open Scope string_scope.
Local Open Scope list_scope.
Local Open Scope Z_scope.

(** ** Data *)

Definition FAILSAFE_MAX_OUTPUTS : Z := 16.
Definition FAILSAFE_MAGIC : Z := 1179861318.     (* 0x46534146 *)
Definition FAILSAFE_VERSION : Z := 2.
Definition FAILSAFE_VERSION_V1 : Z := 1.

(** [failsafe_action_t]; a stored action is any byte, so it is a number. *)
Definition FAILSAFE_ACTION_FORCE_OFF : Z := 0.
Definition FAILSAFE_ACTION_FORCE_ON : Z := 1.
Definition FAILSAFE_ACTION_HOLD_LAST : Z := 2.
Definition FAILSAFE_ACTION_RESTORE_SNAPSHOT : Z := 3.
Definition FAILSAFE_ACTION_SAFE_VALUE : Z := 4.
Definition FAILSAFE_ACTION_MAX : Z := 5.

(** [failsafe_recovery_t] *)
Definition FAILSAFE_RECOVERY_AUTO : Z := 0.
Definition FAILSAFE_RECOVERY_MANUAL : Z := 1.
Definition FAILSAFE_RECOVERY_MAX : Z := 2.

(** [failsafe_reason_t] *)
Definition FAILSAFE_REASON_NONE : Z := 0.
Definition FAILSAFE_REASON_BOOT : Z := 1.
Definition FAILSAFE_REASON_COMM_LOSS : Z := 2.
Definition FAILSAFE_REASON_RUNTIME_FAULT : Z := 3.
Definition FAILSAFE_REASON_WATCHDOG : Z := 4.
Definition FAILSAFE_REASON_NODE_OFFLINE : Z := 5.
Definition FAILSAFE_REASON_NODE_REVOKED : Z := 6.
Definition FAILSAFE_REASON_UNAUTHORIZED : Z := 7.
Definition FAILSAFE_REASON_CONFIG_INVALID : Z := 8.
Definition FAILSAFE_REASON_MANUAL_TEST : Z := 9.
Definition FAILSAFE_REASON_MAX : Z := 10.

(** [failsafe_policy_storage_t] *)
Record policy := Policy {
  output_id : Z;
  enabled : Z;
  boot_action : Z;
  comm_loss_action : Z;
  runtime_fault_action : Z;
  recovery_mode : Z;
  reserved : Z;
  safe_value : Z;
}.
#[export] Instance policy_rebuild : Rebuild policy := fun p =>
  Policy (output_id p) (enabled p) (boot_action p) (comm_loss_action p) (runtime_fault_action p)
    (recovery_mode p) (reserved p) (safe_value p).
#[export] Instance policy_eq_dec : EqDecision policy.
Proof. solve_decision. Defined.

(** [failsafe_policy_storage_v1_t] *)
Record policy_v1 := PolicyV1 {
  v1_output_id : Z;
  v1_startup_mode : Z;
  v1_comm_loss_mode : Z;
  v1_manual_rearm : Z;
  v1_reserved : Z;
  v1_safe_value : Z;
}.

(** [failsafe_runtime_entry_t] *)
Record fs_entry := FsEntry {
  fe_policy : policy;
  active : bool;
  last_reason : Z;
  last_applied_value : Z;
}.
#[export] Instance fs_entry_rebuild : Rebuild fs_entry := fun e =>
  FsEntry (fe_policy e) (active e) (last_reason e) (last_applied_value e).

(** [entries[0 .. entry_count - 1]] and [boot_reason]. *)
Record failsafe := Failsafe { entries : list fs_entry; boot_reason : Z }.
#[export] Instance failsafe_rebuild : Rebuild failsafe := fun f => Failsafe (entries f) (boot_reason f).

(** The component with the state table and the flash it uses. *)
Record fsw {W N : Type} := Fsw { fs : failsafe; fs_world : W; fs_nvs : N }.
Arguments fsw : clear implicits.
Arguments Fsw {W N}.
#[export] Instance fsw_rebuild {W N} : Rebuild (fsw W N) := fun w => Fsw (fs w) (fs_world w) (fs_nvs w).

(** ** Pure helpers *)

Definition failsafe_crc32 (data : list Z) : Z := fnv1a32 data.
Definition failsafe_action_valid (action : Z) : bool := action <? FAILSAFE_ACTION_MAX.
Definition failsafe_recovery_valid (recovery : Z) : bool := recovery <? FAILSAFE_RECOVERY_MAX.
Definition failsafe_binary_value (value : Z) : Z := if value =? 0 then 0 else 1.

Definition failsafe_apply_action (action current_value snapshot_value safe_value : Z) : Z :=
  if action =? FAILSAFE_ACTION_FORCE_ON then 1
  else if action =? FAILSAFE_ACTION_HOLD_LAST then failsafe_binary_value current_value
  else if action =? FAILSAFE_ACTION_RESTORE_SNAPSHOT then failsafe_binary_value snapshot_value
  else if action =? FAILSAFE_ACTION_SAFE_VALUE then failsafe_binary_value safe_value
  else 0.

Definition failsafe_action_for_reason (e : fs_entry) (reason : Z) : Z :=
  if reason =? FAILSAFE_REASON_BOOT then boot_action (fe_policy e)
  else if (reason =? FAILSAFE_REASON_COMM_LOSS) || (reason =? FAILSAFE_REASON_NODE_OFFLINE)
          || (reason =? FAILSAFE_REASON_NODE_REVOKED) || (reason =? FAILSAFE_REASON_UNAUTHORIZED)
  then comm_loss_action (fe_policy e)
  else if (reason =? FAILSAFE_REASON_RUNTIME_FAULT) || (reason =? FAILSAFE_REASON_WATCHDOG)
          || (reason =? FAILSAFE_REASON_CONFIG_INVALID) || (reason =? FAILSAFE_REASON_MANUAL_TEST)
  then runtime_fault_action (fe_policy e)
  else FAILSAFE_ACTION_HOLD_LAST.

Definition failsafe_default_entry (id : Z) : fs_entry :=
  FsEntry (Policy id 1 FAILSAFE_ACTION_FORCE_OFF FAILSAFE_ACTION_FORCE_OFF FAILSAFE_ACTION_FORCE_OFF
             FAILSAFE_RECOVERY_AUTO 0 0) false FAILSAFE_REASON_NONE 0.

(** [esp_reset_reason_t], the values the code tells apart. *)
Inductive reset_reason := ESP_RST_TASK_WDT | ESP_RST_INT_WDT | ESP_RST_WDT | ESP_RST_PANIC | ESP_RST_OTHER.
Definition failsafe_detect_boot_reason (r : reset_reason) : Z :=
  match r with
  | ESP_RST_TASK_WDT | ESP_RST_INT_WDT | ESP_RST_WDT => FAILSAFE_REASON_WATCHDOG
  | ESP_RST_PANIC => FAILSAFE_REASON_RUNTIME_FAULT
  | ESP_RST_OTHER => FAILSAFE_REASON_BOOT
  end.

(** ** Names *)

Definition failsafe_reason_name (reason : Z) : string :=
  if reason =? FAILSAFE_REASON_BOOT then "boot"
  else if reason =? FAILSAFE_REASON_COMM_LOSS then "comm_loss"
  else if reason =? FAILSAFE_REASON_RUNTIME_FAULT then "runtime_fault"
  else if reason =? FAILSAFE_REASON_WATCHDOG then "watchdog"
  else if reason =? FAILSAFE_REASON_NODE_OFFLINE then "node_offline"
  else if reason =? FAILSAFE_REASON_NODE_REVOKED then "node_revoked"
  else if reason =? FAILSAFE_REASON_UNAUTHORIZED then "unauthorized"
  else if reason =? FAILSAFE_REASON_CONFIG_INVALID then "config_invalid"
  else if reason =? FAILSAFE_REASON_MANUAL_TEST then "manual_test"
  else "none".

Definition failsafe_action_from_code (text : string) : option Z :=
  if (text =? "force_off")%string || (text =? "off")%string then Some FAILSAFE_ACTION_FORCE_OFF
  else if (text =? "force_on")%string || (text =? "on")%string then Some FAILSAFE_ACTION_FORCE_ON
  else if (text =? "hold")%string || (text =? "hold_last")%string then Some FAILSAFE_ACTION_HOLD_LAST
  else if (text =? "restore_snapshot")%string || (text =? "restore")%string || (text =? "snapshot")%string
  then Some FAILSAFE_ACTION_RESTORE_SNAPSHOT
  else if (text =? "safe_value")%string || (text =? "safe")%string then Some FAILSAFE_ACTION_SAFE_VALUE
  else None.

Definition failsafe_action_to_code (action : Z) : string :=
  if action =? FAILSAFE_ACTION_FORCE_ON then "force_on"
  else if action =? FAILSAFE_ACTION_HOLD_LAST then "hold_last"
  else if action =? FAILSAFE_ACTION_RESTORE_SNAPSHOT then "restore_snapshot"
  else if action =? FAILSAFE_ACTION_SAFE_VALUE then "safe_value"
  else "force_off".

Definition failsafe_recovery_from_code (text : string) : option Z :=
  if (text =? "auto")%string || (text =? "automatic")%string then Some FAILSAFE_RECOVERY_AUTO
  else if (text =? "manual")%string || (text =? "manual_rearm")%string || (text =? "manual_reset")%string
  then Some FAILSAFE_RECOVERY_MANUAL
  else None.

Definition failsafe_recovery_to_code (recovery : Z) : string :=
  if recovery =? FAILSAFE_RECOVERY_MANUAL then "manual" else "auto".

Lemma code_roundtrip :
  (forall a, 0 <= a < FAILSAFE_ACTION_MAX -> failsafe_action_from_code (failsafe_action_to_code a) = Some a) /\
  (forall r, 0 <= r < FAILSAFE_RECOVERY_MAX -> failsafe_recovery_from_code (failsafe_recovery_to_code r) = Some r).
Proof.
  unfold FAILSAFE_ACTION_MAX, FAILSAFE_RECOVERY_MAX. split.
  - intros a Ha. assert (a = 0 \/ a = 1 \/ a = 2 \/ a = 3 \/ a = 4) as [-> | [-> | [-> | [-> | ->]]]] by lia; done.
  - intros r Hr. assert (r = 0 \/ r = 1) as [-> | ->] by lia; done.
Qed.

(** ** Stored form *)

(** [failsafe_blob_t] and [failsafe_blob_v1_t], as C lays them out. *)
Definition policy_layout : list (Z * Z) := [c_u16; c_u8; c_u8; c_u8; c_u8; c_u8; c_u8; c_i32].
Definition policy_v1_layout : list (Z * Z) := [c_u16; c_u8; c_u8; c_u8; c_u8; c_i32].
Definition sizeof_failsafe_blob : Z :=
  struct_size [c_u32; c_u16; c_u16; c_array FAILSAFE_MAX_OUTPUTS policy_layout; c_u32].
Definition sizeof_failsafe_blob_v1 : Z :=
  struct_size [c_u32; c_u16; c_u16; c_array FAILSAFE_MAX_OUTPUTS policy_v1_layout; c_u32].

Definition policy_bytes (p : policy) : list Z :=
  pack [(2%nat, output_id p); (1%nat, enabled p); (1%nat, boot_action p); (1%nat, comm_loss_action p);
        (1%nat, runtime_fault_action p); (1%nat, recovery_mode p); (1%nat, reserved p);
        (4%nat, u32 (safe_value p))].
Definition policy_of (b : list Z) : policy :=
  Policy (field 0 2 b) (field 2 1 b) (field 3 1 b) (field 4 1 b) (field 5 1 b) (field 6 1 b)
    (field 7 1 b) (i32 (field 8 4 b)).
Definition policy_v1_of (b : list Z) : policy_v1 :=
  PolicyV1 (field 0 2 b) (field 2 1 b) (field 3 1 b) (field 4 1 b) (field 5 1 b) (i32 (field 8 4 b)).

(** [policies[i]] of a blob. *)
Definition blob_policy (i : nat) (blob : list Z) : list Z := take 12 (drop (8 + 12 * i) blob).

(** The blob without its checksum; the unused slots of the array are zero. *)
Definition blob_body (version : Z) (slots : list (list Z)) : list Z :=
  pack [(4%nat, FAILSAFE_MAGIC); (2%nat, version); (2%nat, Z.of_nat (length slots))] ++ concat slots
  ++ replicate (12 * (16 - length slots)) 0.
Definition blob_bytes (version : Z) (slots : list (list Z)) : list Z :=
  blob_body version slots ++ le 4 (failsafe_crc32 (blob_body version slots)).

Section failsafe.
Context {W N : Type} `{StateApi W} `{Nvs N}.
Implicit Types w : fsw W N.

Definition fs_upd (f : failsafe -> failsafe) : st (fsw W N) () := modify (fun w => w <| fs := f (fs w) |>).
Definition fs_flash {A} (m : st N A) : st (fsw W N) A :=
  on_part fs_nvs (fun n w => w <| fs_nvs := n |>) m.
Definition fs_state {A} (m : st W A) : st (fsw W N) A :=
  on_part fs_world (fun n w => w <| fs_world := n |>) m.

(** [failsafe_find] *)
Definition failsafe_find (id : Z) (f : failsafe) : option nat :=
  find_idx (fun e => output_id (fe_policy e) =? id) (entries f).
Definition entry_of (id : Z) (f : failsafe) : option fs_entry :=
  i ← failsafe_find id f; entries f !! i.
Definition upd_entry (id : Z) (g : fs_entry -> fs_entry) (f : failsafe) : failsafe :=
  match failsafe_find id f with
  | Some i => f <| entries := alter g i (entries f) |>
  | None => f
  end.

(** The result, and whether the policy was taken. *)
Definition failsafe_apply_loaded_policy (p : policy) (f : failsafe) : bool * failsafe :=
  if negb (device_profile_is_valid_output (output_id p)) then (false, f)
  else if negb (failsafe_action_valid (boot_action p)) || negb (failsafe_action_valid (comm_loss_action p))
       || negb (failsafe_action_valid (runtime_fault_action p))
       || negb (failsafe_recovery_valid (recovery_mode p)) then (false, f)
  else
    match failsafe_find (output_id p) f with
    | None => (false, f)
    | Some _ =>
      (true, upd_entry (output_id p) (fun e =>
         FsEntry (p <| enabled := if enabled p =? 0 then 0 else 1 |>
                    <| safe_value := failsafe_binary_value (safe_value p) |>)
           false FAILSAFE_REASON_NONE 0) f)
    end.

Definition failsafe_v1_mode_to_action (mode : Z) : option Z :=
  if mode =? 0 then Some FAILSAFE_ACTION_HOLD_LAST
  else if mode =? 1 then Some FAILSAFE_ACTION_FORCE_OFF
  else if mode =? 2 then Some FAILSAFE_ACTION_FORCE_ON
  else if mode =? 3 then Some FAILSAFE_ACTION_SAFE_VALUE
  else None.

Definition failsafe_apply_loaded_policy_v1 (p : policy_v1) (f : failsafe) : bool * failsafe :=
  match failsafe_v1_mode_to_action (v1_startup_mode p), failsafe_v1_mode_to_action (v1_comm_loss_mode p) with
  | Some boot, Some comm =>
    failsafe_apply_loaded_policy
      (Policy (v1_output_id p) 1 boot comm FAILSAFE_ACTION_FORCE_OFF
         (if v1_manual_rearm p =? 0 then FAILSAFE_RECOVERY_AUTO else FAILSAFE_RECOVERY_MANUAL) 0
         (failsafe_binary_value (v1_safe_value p))) f
  | _, _ => (false, f)
  end.

Definition failsafe_save : st (fsw W N) bool :=
  f ← gets fs;
  let blob := blob_bytes FAILSAFE_VERSION ((fun e => policy_bytes (fe_policy e)) <$> entries f) in
  ok ← fs_flash nvs_open_rw;
  if negb ok then mret false
  else
    ok ← fs_flash (nvs_set_blob blob);
    if negb ok then mret false
    else ok ← fs_flash nvs_commit; mret ok.

(** [for (i < blob.count) loaded = apply(&blob.policies[i]) || loaded;] *)
Definition apply_loaded {P} (apply : P -> failsafe -> bool * failsafe) (ps : list P) (f : failsafe) : bool * failsafe :=
  foldl (fun '(loaded, f) p => let '(ok, f) := apply p f in (ok || loaded, f)) (false, f) ps.

(** The common checks of the two branches. *)
Definition blob_accepted (version : Z) (blob : list Z) : bool :=
  (field 0 4 blob =? FAILSAFE_MAGIC) && (field 4 2 blob =? version)
  && (field 6 2 blob <=? FAILSAFE_MAX_OUTPUTS)
  && (failsafe_crc32 (take 200 blob) =? field 200 4 blob).

Definition failsafe_load : st (fsw W N) bool := fun w =>
  match nvs_get_blob (fs_nvs w) with
  | None => (false, w)
  | Some blob =>
    let len := Z.of_nat (length blob) in
    let count := Z.to_nat (field 6 2 blob) in
    let '(loaded, f) :=
      if len =? sizeof_failsafe_blob then
        if blob_accepted FAILSAFE_VERSION blob
        then apply_loaded (fun i => failsafe_apply_loaded_policy (policy_of (blob_policy i blob)))
               (seq 0 count) (fs w)
        else (false, fs w)
      else if len =? sizeof_failsafe_blob_v1 then
        if blob_accepted FAILSAFE_VERSION_V1 blob
        then apply_loaded (fun i => failsafe_apply_loaded_policy_v1 (policy_v1_of (blob_policy i blob)))
               (seq 0 count) (fs w)
        else (false, fs w)
      else (false, fs w) in
    (loaded, w <| fs := f |>)
  end.

(** The default entries, then the stored policies; they are written back when
    nothing could be loaded. *)
Definition failsafe_init (r : reset_reason) : st (fsw W N) () :=
  fs_upd (fun _ => Failsafe
    (take (Z.to_nat FAILSAFE_MAX_OUTPUTS)
       (failsafe_default_entry <$> filter (fun id => id <> 0) local_output_ids))
    (failsafe_detect_boot_reason r));;
  loaded ← failsafe_load;
  if negb loaded then failsafe_save;; mret tt else mret tt.

(** ** Configuration *)

Definition failsafe_set_output_policy (id : Z) (en : bool) (boot comm fault safe recovery : Z) : st (fsw W N) bool :=
  f ← gets fs;
  match entry_of id f with
  | None => mret false
  | Some e =>
    if negb (failsafe_action_valid (u8 boot)) || negb (failsafe_action_valid (u8 comm))
       || negb (failsafe_action_valid (u8 fault)) || negb (failsafe_recovery_valid (u8 recovery))
    then mret false
    else
      let next := fe_policy e <| enabled := if en then 1 else 0 |>
                    <| boot_action := u8 boot |> <| comm_loss_action := u8 comm |>
                    <| runtime_fault_action := u8 fault |>
                    <| safe_value := failsafe_binary_value safe |>
                    <| recovery_mode := u8 recovery |> in
      if decide (fe_policy e = next) then mret true
      else
        fs_upd (upd_entry id (fun e =>
          let e := e <| fe_policy := next |> in
          if en then e else e <| active := false |> <| last_reason := FAILSAFE_REASON_NONE |>));;
        failsafe_save
  end.

Definition failsafe_set_policy (id startup comm safe : Z) (manual_rearm : bool) : st (fsw W N) bool :=
  f ← gets fs;
  let fault := from_option (fun e => runtime_fault_action (fe_policy e)) FAILSAFE_ACTION_FORCE_OFF (entry_of id f) in
  failsafe_set_output_policy id true startup comm fault safe
    (if manual_rearm then FAILSAFE_RECOVERY_MANUAL else FAILSAFE_RECOVERY_AUTO).

(** ** Deciding output values *)

Definition latches (e : fs_entry) : bool := recovery_mode (fe_policy e) =? FAILSAFE_RECOVERY_MANUAL.

(** The value and its origin. *)
Definition failsafe_startup_value (id restored : Z) : st (fsw W N) (option (Z * string)) :=
  f ← gets fs;
  match entry_of id f with
  | None => mret None
  | Some e =>
    if enabled (fe_policy e) =? 0 then
      let v := failsafe_binary_value restored in
      fs_upd (upd_entry id (fun e => e <| active := false |> <| last_reason := FAILSAFE_REASON_NONE |>
                                       <| last_applied_value := v |>));;
      mret (Some (v, "snapshot"))
    else
      let action := failsafe_action_for_reason e (boot_reason f) in
      let v := failsafe_binary_value (failsafe_apply_action action restored restored (safe_value (fe_policy e))) in
      fs_upd (upd_entry id (fun e => e <| last_applied_value := v |> <| last_reason := boot_reason f |>
                                       <| active := latches e |>));;
      mret (Some (v, failsafe_reason_name (boot_reason f)))
  end.

(** The result, the effective value and the reason written to the caller. *)
Definition failsafe_guard_command (id requested : Z) : st (fsw W N) (bool * option Z * option string) :=
  f ← gets fs;
  match entry_of id f with
  | None => mret (false, None, None)
  | Some e =>
    let v := failsafe_binary_value requested in
    if negb (enabled (fe_policy e) =? 0) && active e && latches e
    then mret (false, Some v, Some (failsafe_reason_name (last_reason e)))
    else
      fs_upd (upd_entry id (fun e => e <| last_applied_value := v |>));;
      mret (true, Some v, Some "command_allowed")
  end.

(** The value to apply, when the call succeeds. *)
Definition failsafe_apply_for_reason (id reason : Z) : st (fsw W N) (option Z) :=
  w ← gets (fun w => w);
  match entry_of id (fs w) with
  | None => mret None
  | Some e =>
    if (enabled (fe_policy e) =? 0) || (reason <=? FAILSAFE_REASON_NONE) || (FAILSAFE_REASON_MAX <=? reason)
    then mret None
    else
      let current := default 0 (state_get_int id (fs_world w)) in
      let action := failsafe_action_for_reason e reason in
      let v := failsafe_binary_value (failsafe_apply_action action current current (safe_value (fe_policy e))) in
      fs_upd (upd_entry id (fun e => e <| last_applied_value := v |> <| last_reason := reason |>
                                       <| active := latches e |>));;
      mret (Some v)
  end.

(** [for (i < entry_count)], the identifiers read as the loop goes. *)
Fixpoint apply_all_from (n i : nat) (reason : Z) : st (fsw W N) Z :=
  match n with
  | O => mret 0
  | S n =>
    f ← gets fs;
    match entries f !! i with
    | None => mret 0
    | Some e =>
      let id := output_id (fe_policy e) in
      r ← failsafe_apply_for_reason id reason;
      match r with
      | None => apply_all_from n (S i) reason
      | Some v =>
        fs_state (state_set_int id v);;
        k ← apply_all_from n (S i) reason;
        mret (k + 1)
      end
    end
  end.
Definition failsafe_apply_for_reason_all (reason : Z) : st (fsw W N) Z :=
  f ← gets fs; apply_all_from (length (entries f)) 0 reason.

Definition failsafe_clear_manual_reset (id : Z) : st (fsw W N) bool :=
  f ← gets fs;
  match entry_of id f with
  | None => mret false
  | Some _ =>
    fs_upd (upd_entry id (fun e => e <| active := false |> <| last_reason := FAILSAFE_REASON_NONE |>));;
    mret true
  end.
Definition failsafe_rearm (id : Z) : st (fsw W N) bool := failsafe_clear_manual_reset id.
Definition failsafe_is_active (id : Z) (f : failsafe) : bool := from_option active false (entry_of id f).

Definition failsafe_trigger_comm_loss (id : Z) := failsafe_apply_for_reason id FAILSAFE_REASON_COMM_LOSS.
Definition failsafe_trigger_runtime_fault (id : Z) := failsafe_apply_for_reason id FAILSAFE_REASON_RUNTIME_FAULT.
Definition failsafe_trigger_manual_test (id : Z) := failsafe_apply_for_reason id FAILSAFE_REASON_MANUAL_TEST.
End failsafe.

(** ** Looking up and updating entries *)

Section lookup.
Implicit Types f : failsafe.

Definition ids f : list Z := (fun e => output_id (fe_policy e)) <$> entries f.
Definition keeps_id (g : fs_entry -> fs_entry) : Prop :=
  forall e, output_id (fe_policy (g e)) = output_id (fe_policy e).

Lemma failsafe_find_ids id f : failsafe_find id f = find_idx (fun x => x =? id) (ids f).
Proof. unfold failsafe_find, ids. by rewrite find_idx_fmap. Qed.

Lemma ids_upd_entry id g f :
  (forall e, entry_of id f = Some e -> output_id (fe_policy (g e)) = id) ->
  ids (upd_entry id g f) = ids f.
Proof.
  intros Hg. unfold ids, upd_entry. destruct (failsafe_find id f) as [i|] eqn:Hi; [|done].
  apply fmap_alter_same. intros e He. rewrite Hg by (unfold entry_of; by rewrite Hi).
  apply find_idx_Some in Hi as (e' & He' & Hid%Z.eqb_eq & _). congruence.
Qed.

Lemma entry_of_id id f e : entry_of id f = Some e -> output_id (fe_policy e) = id.
Proof.
  unfold entry_of. destruct (failsafe_find id f) as [i|] eqn:Hi; cbn; [|done]. intros He.
  apply find_idx_Some in Hi as (e' & He' & Hid%Z.eqb_eq & _). congruence.
Qed.

Lemma entry_of_upd_eq id g f e :
  entry_of id f = Some e -> output_id (fe_policy (g e)) = id -> entry_of id (upd_entry id g f) = Some (g e).
Proof.
  intros He Hg. assert (ids (upd_entry id g f) = ids f) as Hids by (apply ids_upd_entry; congruence).
  unfold entry_of in *. rewrite !failsafe_find_ids, Hids in *. unfold upd_entry.
  rewrite failsafe_find_ids. destruct (find_idx _ (ids f)) as [i|]; cbn in *; [|done].
  rewrite list_lookup_alter_eq, He. done.
Qed.

Lemma entry_of_upd_ne id id' g f :
  id' <> id -> (forall e, entry_of id f = Some e -> output_id (fe_policy (g e)) = id) ->
  entry_of id' (upd_entry id g f) = entry_of id' f.
Proof.
  intros Hne Hg. pose proof (ids_upd_entry id g f Hg) as Hids.
  unfold entry_of. rewrite !failsafe_find_ids, Hids. unfold upd_entry.
  rewrite failsafe_find_ids. destruct (find_idx (fun x => x =? id) (ids f)) as [i|] eqn:Hi; [|done].
  destruct (find_idx (fun x => x =? id') (ids f)) as [j|] eqn:Hj; cbn; [|done].
  apply list_lookup_alter_ne. intros ->.
  apply find_idx_Some in Hi as (x & Hx & Hxi%Z.eqb_eq & _), Hj as (y & Hy & Hyj%Z.eqb_eq & _). congruence.
Qed.

Lemma entry_of_upd id id' g f :
  (forall e, entry_of id f = Some e -> output_id (fe_policy (g e)) = id) ->
  entry_of id' (upd_entry id g f) = (if id' =? id then g else fun e => e) <$> entry_of id' f.
Proof.
  intros Hg. destruct (Z.eqb_spec id' id) as [->|Hne].
  - destruct (entry_of id f) as [e|] eqn:He; cbn; [apply entry_of_upd_eq; auto|].
    unfold upd_entry. unfold entry_of in He.
    destruct (failsafe_find id f) as [i|] eqn:Hi; [|unfold entry_of; by rewrite Hi].
    apply find_idx_Some in Hi as (x & Hx & _). cbn in He. congruence.
  - rewrite entry_of_upd_ne by done. by destruct (entry_of id' f).
Qed.

Lemma entry_of_elem f e : NoDup (ids f) -> e ∈ entries f -> entry_of (output_id (fe_policy e)) f = Some e.
Proof.
  intros Hnd [i Hi]%list_elem_of_lookup. unfold entry_of.
  rewrite failsafe_find_ids, (find_idx_unique _ (ids f) i (output_id (fe_policy e))); [done| | |].
  - unfold ids. rewrite list_lookup_fmap, Hi. done.
  - apply Z.eqb_refl.
  - intros j y Hj Hy%Z.eqb_eq. subst y. eapply NoDup_lookup; [done..|].
    unfold ids. by rewrite list_lookup_fmap, Hi.
Qed.
End lookup.

(** ** The manual latch *)

(** Output [id] is in fail-safe and waits for a manual reset. *)
Definition latched (id : Z) (f : failsafe) : Prop :=
  exists e, entry_of id f = Some e /\ enabled (fe_policy e) <> 0 /\ active e = true /\ latches e = true.

Lemma latched_upd id id' g f :
  (forall e, entry_of id' f = Some e -> fe_policy (g e) = fe_policy e /\
     (enabled (fe_policy e) <> 0 -> active e = true -> latches e = true -> active (g e) = true)) ->
  latched id f -> latched id (upd_entry id' g f).
Proof.
  intros Hg (e & He & Hen & Ha & Hl).
  assert (forall e, entry_of id' f = Some e -> output_id (fe_policy (g e)) = id') as Hid.
  { intros e' He'. rewrite (proj1 (Hg e' He')). by eapply entry_of_id. }
  exists ((if id =? id' then g else fun e => e) e). rewrite entry_of_upd, He by done.
  split; [done|]. destruct (Z.eqb_spec id id') as [->|]; [|done].
  destruct (Hg e He) as [Hp Hact]. unfold latches. rewrite Hp. auto.
Qed.

Section latch.
Context {W N : Type} `{StateApi W} `{Nvs N}.
Implicit Types w : fsw W N.

(** What the firmware does to the fail-safe outputs while it runs, short of
    resetting output [id] or reconfiguring it. *)
Inductive fs_step (id : Z) : fsw W N -> fsw W N -> Prop :=
| fs_guard id' v w : fs_step id w (failsafe_guard_command id' v w).2
| fs_startup id' v w : fs_step id w (failsafe_startup_value id' v w).2
| fs_apply id' reason w : fs_step id w (failsafe_apply_for_reason id' reason w).2
| fs_apply_all reason w : fs_step id w (failsafe_apply_for_reason_all reason w).2
| fs_reset id' w : id' <> id -> fs_step id w (failsafe_rearm id' w).2
| fs_configure id' en boot comm fault safe rec w :
    id' <> id -> fs_step id w (failsafe_set_output_policy id' en boot comm fault safe rec w).2
| fs_configure_compat id' startup comm safe rearm w :
    id' <> id -> fs_step id w (failsafe_set_policy id' startup comm safe rearm w).2
| fs_store w : fs_step id w (failsafe_save w).2.

Abbreviation keeps_latch id m := (keeps (fun w : fsw W N => latched id (fs w)) m).

Lemma fs_flash_keeps {A} id (m : st N A) : keeps_latch id (fs_flash m).
Proof. by apply keeps_on_part. Qed.
Lemma fs_state_keeps {A} id (m : st W A) : keeps_latch id (fs_state m).
Proof. by apply keeps_on_part. Qed.
#[local] Hint Resolve fs_flash_keeps fs_state_keeps : keeps.

Lemma failsafe_save_keeps id : keeps_latch id failsafe_save.
Proof. unfold failsafe_save. keeps. Qed.

Lemma guard_keeps id id' v : keeps_latch id (failsafe_guard_command id' v).
Proof.
  intros w Hw. unfold failsafe_guard_command. run. destruct (entry_of id' (fs w)); [|done].
  case_match; [done|]. apply latched_upd; auto.
Qed.

Lemma startup_keeps id id' v : keeps_latch id (failsafe_startup_value id' v).
Proof.
  intros w Hw. unfold failsafe_startup_value. run. destruct (entry_of id' (fs w)) as [e|] eqn:He; [|done].
  destruct (Z.eqb_spec (enabled (fe_policy e)) 0) as [Hen|Hen]; run;
    (apply latched_upd; [|done]); intros e' He'; simplify_eq; auto.
Qed.

Lemma apply_keeps id id' reason : keeps_latch id (failsafe_apply_for_reason id' reason).
Proof.
  intros w Hw. unfold failsafe_apply_for_reason. run. destruct (entry_of id' (fs w)) as [e|] eqn:He; [|done].
  case_match; [done|]. run. apply latched_upd; [|done]. intros e' He'; simplify_eq; auto.
Qed.
#[local] Hint Resolve apply_keeps : keeps.

Lemma apply_all_from_keeps id n i reason : keeps_latch id (apply_all_from n i reason).
Proof.
  revert i. induction n as [|n IH]; intros i; cbn [apply_all_from]; [apply keeps_ret|]. keeps; apply IH.
Qed.

Lemma set_output_policy_keeps id id' en boot comm fault safe rec :
  id' <> id -> keeps_latch id (failsafe_set_output_policy id' en boot comm fault safe rec).
Proof.
  intros Hne w (e & He & Hl). unfold failsafe_set_output_policy. run.
  assert (latched id (fs w)) as Hlat by by exists e.
  destruct (entry_of id' (fs w)) as [e'|] eqn:He'; [|done]. case_match; [done|].
  case_decide; [done|]. unfold fs_upd. rewrite run_bind_modify. apply failsafe_save_keeps.
  exists e. split; [|done]. cbn [fs update]. rewrite entry_of_upd_ne; [done|congruence|].
  intros e'' He''. assert (e'' = e') as -> by congruence. apply entry_of_id in He'.
  by destruct en.
Qed.

Lemma fs_step_latched id w w' : fs_step id w w' -> latched id (fs w) -> latched id (fs w').
Proof.
  intros [] Hl.
  - by apply guard_keeps.
  - by apply startup_keeps.
  - by apply apply_keeps.
  - unfold failsafe_apply_for_reason_all. run. by apply apply_all_from_keeps.
  - unfold failsafe_rearm, failsafe_clear_manual_reset, fs_upd. run. case_match; [|done]. run.
    destruct Hl as (e & He & Hl). exists e. split; [|done]. cbn [snd fs update].
    rewrite entry_of_upd_ne; [exact He|congruence|]. intros e'' He''. by apply entry_of_id in He''.
  - by apply set_output_policy_keeps.
  - unfold failsafe_set_policy. run. by apply set_output_policy_keeps.
  - by apply failsafe_save_keeps.
Qed.

Definition rearmed (e : fs_entry) : fs_entry :=
  e <| active := false |> <| last_reason := FAILSAFE_REASON_NONE |>.
Lemma failsafe_rearm_eq id w e : entry_of id (fs w) = Some e ->
  failsafe_rearm id w = (true, w <| fs := upd_entry id rearmed (fs w) |>).
Proof. intros He. unfold failsafe_rearm, failsafe_clear_manual_reset. run. by rewrite He. Qed.

Lemma guard_eq id v w e : entry_of id (fs w) = Some e ->
  failsafe_guard_command id v w =
    if negb (enabled (fe_policy e) =? 0) && active e && latches e
    then ((false, Some (failsafe_binary_value v), Some (failsafe_reason_name (last_reason e))), w)
    else ((true, Some (failsafe_binary_value v), Some "command_allowed"),
          w <| fs := upd_entry id (fun e => e <| last_applied_value := failsafe_binary_value v |>) (fs w) |>).
Proof. intros He. unfold failsafe_guard_command. run. rewrite He. by case_match. Qed.

(** C10: The manual latch: once a fail-safe condition has been applied to an
    output whose policy asks for a manual reset, every command on that output
    is refused with the reason that latched it last, whatever else happens,
    until the output is reset or reconfigured; the reset lifts the latch. *)
Theorem manual_latch id reason w w' v :
  is_Some (failsafe_apply_for_reason id reason w).1 ->
  latches (default (failsafe_default_entry id) (entry_of id (fs w))) = true ->
  rtc (fs_step id) (failsafe_apply_for_reason id reason w).2 w' ->
  (failsafe_guard_command id v w').1.1.1 = false /\
  (failsafe_guard_command id v w').2 = w' /\
  (failsafe_guard_command id v (failsafe_rearm id w').2).1.1.1 = true.
Proof.
  intros Hok Hm Hr.
  assert (latched id (fs (failsafe_apply_for_reason id reason w).2)) as Hl.
  { revert Hok Hm. clear Hr. unfold failsafe_apply_for_reason, fs_upd. run.
    destruct (entry_of id (fs w)) as [e|] eqn:He; [|by intros []].
    destruct (Z.eqb_spec (enabled (fe_policy e)) 0); [by intros []|]. cbn [orb].
    case_match; [by intros []|]. run. cbn [default]. intros _ Hm.
    eexists. cbn [snd fs update].
    rewrite entry_of_upd by (intros e' He'; by apply entry_of_id in He').
    rewrite He, Z.eqb_refl. by split_and!. }
  assert (latched id (fs w')) as (e & He & Hen & Ha & Hla).
  { clear Hok Hm. induction Hr; eauto using fs_step_latched. }
  assert (entry_of id (fs (failsafe_rearm id w').2) = Some (rearmed e)) as Hre.
  { rewrite (failsafe_rearm_eq id w' e He). cbn [snd fs update].
    rewrite entry_of_upd by (intros e' He'; by apply entry_of_id in He'). by rewrite He, Z.eqb_refl. }
  rewrite (guard_eq id v w' e He), (guard_eq id v _ _ Hre), Ha, Hla.
  destruct (Z.eqb_spec (enabled (fe_policy e)) 0); [done|]. cbn [active rearmed update].
  rewrite andb_false_r. by split_and!.
Qed.
End latch.

(** ** Applying a condition to every output *)

(** The value the policy of [e] gives the output, from its current value. *)
Definition safe_output (reason : Z) (e : fs_entry) (current : Z) : Z :=
  failsafe_apply_action (failsafe_action_for_reason e reason) current current (safe_value (fe_policy e)).

Lemma failsafe_binary_cases v : failsafe_binary_value v = 0 \/ failsafe_binary_value v = 1.
Proof. unfold failsafe_binary_value. case_match; auto. Qed.
Lemma failsafe_apply_action_binary a c s v :
  failsafe_apply_action a c s v = 0 \/ failsafe_apply_action a c s v = 1.
Proof. unfold failsafe_apply_action. repeat case_match; auto using failsafe_binary_cases. Qed.
Lemma failsafe_binary_id a c s v :
  failsafe_binary_value (failsafe_apply_action a c s v) = failsafe_apply_action a c s v.
Proof. by destruct (failsafe_apply_action_binary a c s v) as [-> | ->]. Qed.

Definition reason_valid (reason : Z) : Prop := FAILSAFE_REASON_NONE < reason < FAILSAFE_REASON_MAX.
Definition policies (f : failsafe) : list policy := fe_policy <$> entries f.

Lemma ids_policies f : ids f = output_id <$> policies f.
Proof. unfold ids, policies. by rewrite <- list_fmap_compose. Qed.

Lemma policies_upd_entry id g f :
  (forall e, fe_policy (g e) = fe_policy e) -> policies (upd_entry id g f) = policies f.
Proof.
  intros Hg. unfold policies, upd_entry. case_match; [|done]. by apply fmap_alter_same.
Qed.

Section apply_all.
Context {W N : Type} `{StateApi W} `{!StateLaws W} `{Nvs N}.
Implicit Types w : fsw W N.

Definition after_reason (id reason v : Z) w : fsw W N :=
  w <| fs := upd_entry id (fun e' => e' <| last_applied_value := v |> <| last_reason := reason |>
                                        <| active := latches e' |>) (fs w) |>.

Lemma failsafe_apply_for_reason_eq id reason w e :
  reason_valid reason -> entry_of id (fs w) = Some e ->
  failsafe_apply_for_reason id reason w =
    if enabled (fe_policy e) =? 0 then (None, w)
    else
      let v := safe_output reason e (default 0 (state_get_int id (fs_world w))) in
      (Some v, after_reason id reason v w).
Proof.
  intros [H1 H2] He. unfold failsafe_apply_for_reason, fs_upd. run. rewrite He.
  destruct (Z.eqb_spec (enabled (fe_policy e)) 0); cbn [orb]; [done|].
  destruct (Z.leb_spec reason FAILSAFE_REASON_NONE); [lia|].
  destruct (Z.leb_spec FAILSAFE_REASON_MAX reason); [lia|]. cbn [orb]. run.
  rewrite failsafe_binary_id. done.
Qed.

Lemma after_reason_spec id reason v w :
  policies (fs (after_reason id reason v w)) = policies (fs w) /\
  fs_world (after_reason id reason v w) = fs_world w.
Proof. split; [|done]. cbn [fs after_reason update]. by apply policies_upd_entry. Qed.

(** Two entries with the same policy react alike. *)
Lemma safe_output_policy reason e e' c : fe_policy e = fe_policy e' -> safe_output reason e c = safe_output reason e' c.
Proof. intros Hp. unfold safe_output, failsafe_action_for_reason. by rewrite Hp. Qed.

Definition is_enabled (p : policy) : bool := negb (enabled p =? 0).
Definition as_entry (p : policy) : fs_entry := FsEntry p false 0 0.
(** What reading output [id] gives after the outputs of [ps] were treated. *)
Definition treated (reason : Z) (ps : list policy) (id : Z) (w : W) : option Z :=
  match find_idx (fun p => is_enabled p && (output_id p =? id)) ps ≫= (fun i => ps !! i) with
  | Some p => Some (safe_output reason (as_entry p) (default 0 (state_get_int id w)))
  | None => state_get_int id w
  end.

Lemma treated_cons reason p ps id (w : W) :
  treated reason (p :: ps) id w =
    if is_enabled p && (output_id p =? id)
    then Some (safe_output reason (as_entry p) (default 0 (state_get_int id w)))
    else treated reason ps id w.
Proof.
  unfold treated. cbn [find_idx]. destruct (is_enabled p && _); [done|]. by destruct (find_idx _ ps).
Qed.

Lemma treated_not_in reason ps id (w : W) : id ∉ (output_id <$> ps) -> treated reason ps id w = state_get_int id w.
Proof.
  induction ps as [|p ps IH]; [done|]. intros Hni. rewrite fmap_cons, not_elem_of_cons in Hni.
  rewrite treated_cons. destruct Hni as [Hne Hni].
  destruct (Z.eqb_spec (output_id p) id); [congruence|]. rewrite andb_false_r. auto.
Qed.

Lemma treated_ext reason ps id (w1 w2 : W) : state_get_int id w1 = state_get_int id w2 ->
  treated reason ps id w1 = treated reason ps id w2.
Proof. intros He. unfold treated. by rewrite He. Qed.

Lemma apply_all_from_spec reason n i w :
  reason_valid reason -> NoDup (ids (fs w)) -> (length (entries (fs w)) = i + n)%nat ->
  Forall (fun id => 0 <= id < STATE_MAX_ENTRIES) (ids (fs w)) -> state_inv (fs_world w) ->
  let '(k, w') := apply_all_from n i reason w in
  let ps := drop i (policies (fs w)) in
  policies (fs w') = policies (fs w) /\ state_inv (fs_world w') /\
  k = Z.of_nat (length (filter (fun p => is_enabled p) ps)) /\
  forall id, 0 <= id -> state_get_int id (fs_world w') = treated reason ps id (fs_world w).
Proof.
  intros Hr. revert i w. induction n as [|n IH]; intros i w Hnd Hlen Hids Hinv; cbn [apply_all_from].
  { run. cbv zeta. rewrite drop_ge by (unfold policies; rewrite length_fmap; lia). done. }
  run. destruct (lookup_lt_is_Some_2 (entries (fs w)) i) as [e He]; [lia|]. rewrite He.
  assert (policies (fs w) !! i = Some (fe_policy e)) as Hp by (unfold policies; by rewrite list_lookup_fmap, He).
  set (oid := output_id (fe_policy e)).
  assert (0 <= oid < STATE_MAX_ENTRIES) as Hoid.
  { eapply (Forall_lookup_1 _ _ i oid) in Hids; [done|]. by rewrite ids_policies, list_lookup_fmap, Hp. }
  rewrite (drop_S _ _ _ Hp).
  assert (oid ∉ (output_id <$> drop (S i) (policies (fs w)))) as Hni.
  { rewrite ids_policies, <- (take_drop_middle _ _ _ Hp), fmap_app, fmap_cons in Hnd.
    apply NoDup_app in Hnd as (_ & _ & Hnd). by apply NoDup_cons in Hnd as [? _]. }
  rewrite run_bind_surj, (failsafe_apply_for_reason_eq oid reason w e Hr)
    by (apply entry_of_elem; [done|by eapply list_elem_of_lookup_2]).
  cbv zeta. rewrite filter_cons.
  destruct (Z.eqb_spec (enabled (fe_policy e)) 0) as [Hen|Hen]; cbn [fst snd negb].
  - specialize (IH (S i) w Hnd ltac:(lia) Hids Hinv).
    destruct (apply_all_from n (S i) reason w) as [k w']. destruct IH as (? & ? & Hk & Hg).
    rewrite decide_False by (unfold is_enabled; rewrite Hen; by intros []).
    split_and!; try done. intros id Hid. rewrite treated_cons.
    unfold is_enabled. rewrite Hen. by apply Hg.
  - set (v := safe_output reason e (default 0 (state_get_int oid (fs_world w)))).
    destruct (after_reason_spec oid reason v w) as [Hps Hw].
    set (w1 := after_reason oid reason v w) in *.
    rewrite run_bind_surj. unfold fs_state, on_part.
    destruct (state_set_int oid v (fs_world w1)) as [ok s] eqn:Hset. cbn [fst snd].
    set (w2 := w1 <| fs_world := s |>).
    rewrite Hw in Hset. apply (f_equal snd) in Hset. cbn in Hset.
    assert (is_i32 v) as Hv by (destruct (failsafe_apply_action_binary
      (failsafe_action_for_reason e reason) (default 0 (state_get_int oid (fs_world w)))
      (default 0 (state_get_int oid (fs_world w))) (safe_value (fe_policy e))) as [Hb|Hb];
      unfold v, safe_output; rewrite Hb; lia).
    assert (state_inv (fs_world w2)) as Hinv2 by (cbn; subst s; by apply state_set_inv).
    assert (policies (fs w2) = policies (fs w)) as Hps2 by exact Hps.
    specialize (IH (S i) w2). rewrite Hps2, !ids_policies, Hps2 in IH.
    rewrite ids_policies in Hnd, Hids.
    specialize (IH Hnd). rewrite run_bind_surj.
    assert (length (entries (fs w2)) = (S i + n)%nat) as Hlen2.
    { apply (f_equal length) in Hps2. unfold policies in Hps2. rewrite !length_fmap in Hps2. lia. }
    specialize (IH Hlen2 Hids Hinv2).
    destruct (apply_all_from n (S i) reason w2) as [k w']. cbn [fst snd]. run.
    destruct IH as (HP & HI & Hk & Hg). rewrite decide_True
      by (unfold is_enabled; by rewrite (proj2 (Z.eqb_neq _ _) Hen)). cbn [length].
    split_and!; [done|done|lia|]. intros id Hid. rewrite Hg by done. rewrite treated_cons.
    destruct (Z.eqb_spec oid id) as [<-|Hne]; unfold is_enabled.
    + rewrite (proj2 (Z.eqb_neq _ _) Hen). fold oid. rewrite Z.eqb_refl. cbn [negb andb].
      rewrite treated_not_in by done. cbn [fs_world w2 update]. subst s.
      rewrite state_get_set_eq by (done || lia || (apply Z.ltb_lt; lia)).
      by rewrite (safe_output_policy reason (as_entry (fe_policy e)) e).
    + fold oid. rewrite (proj2 (Z.eqb_neq oid id) Hne), andb_false_r. apply treated_ext.
      cbn [fs_world w2 update]. subst s. by apply state_get_set_ne; lia.
Qed.

Lemma treated_in reason ps p (w : W) : NoDup (output_id <$> ps) -> p ∈ ps ->
  treated reason ps (output_id p) w =
    if is_enabled p then Some (safe_output reason (as_entry p) (default 0 (state_get_int (output_id p) w)))
    else state_get_int (output_id p) w.
Proof.
  induction ps as [|q ps IH]; [intros _ Hin; inversion Hin|]. rewrite fmap_cons, treated_cons.
  intros [Hq Hnd]%NoDup_cons [->|Hin]%elem_of_cons.
  - rewrite Z.eqb_refl, andb_true_r. case_match; [done|]. by apply treated_not_in.
  - destruct (Z.eqb_spec (output_id q) (output_id p)) as [He|]; [|rewrite andb_false_r; auto].
    exfalso. apply Hq. rewrite He. by apply list_elem_of_fmap_2.
Qed.

(** C11: A fail-safe condition reaches every output it governs: after
    [failsafe_apply_for_reason_all], each output whose policy is enabled holds
    in the state table the value its policy gives for that reason (0 or 1,
    computed from the value it had), every other entry of the table is as it
    was, and the result counts the outputs treated. *)
Theorem all_outputs_made_safe reason w :
  reason_valid reason -> NoDup (ids (fs w)) ->
  Forall (fun id => 0 <= id < STATE_MAX_ENTRIES) (ids (fs w)) -> state_inv (fs_world w) ->
  let '(k, w') := failsafe_apply_for_reason_all reason w in
  (forall e, e ∈ entries (fs w) -> let id := output_id (fe_policy e) in
     state_get_int id (fs_world w') =
       if negb (enabled (fe_policy e) =? 0)
       then Some (safe_output reason e (default 0 (state_get_int id (fs_world w))))
       else state_get_int id (fs_world w)) /\
  (forall id, 0 <= id -> id ∉ ids (fs w) -> state_get_int id (fs_world w') = state_get_int id (fs_world w)) /\
  k = Z.of_nat (length (filter (fun p => is_enabled p) (policies (fs w)))) /\
  state_inv (fs_world w').
Proof.
  intros Hr Hnd Hids Hinv. unfold failsafe_apply_for_reason_all. run.
  pose proof (apply_all_from_spec reason (length (entries (fs w))) 0 w Hr Hnd ltac:(lia) Hids Hinv) as Hs.
  destruct (apply_all_from _ 0 reason w) as [k w']. cbv zeta in Hs. rewrite drop_0 in Hs.
  destruct Hs as (_ & Hi & Hk & Hg). rewrite ids_policies in *. split_and!; try done.
  - intros e He. assert (fe_policy e ∈ policies (fs w)) as Hp by (by apply list_elem_of_fmap_2).
    rewrite Hg, (treated_in reason _ (fe_policy e)) by
      (done || exact (proj1 (proj1 (Forall_forall _ _) Hids _ (list_elem_of_fmap_2 output_id _ _ Hp)))).
    unfold is_enabled. case_match; [|done]. by rewrite (safe_output_policy reason (as_entry (fe_policy e)) e).
  - intros id Hid Hni. rewrite Hg by done. by apply treated_not_in.
Qed.
End apply_all.

(** ** Saving and loading *)

Record policy_wf (p : policy) : Prop := {
  pw_id : is_u16 (output_id p);
  pw_valid : device_profile_is_valid_output (output_id p) = true;
  pw_enabled : enabled p = 0 \/ enabled p = 1;
  pw_boot : 0 <= boot_action p < FAILSAFE_ACTION_MAX;
  pw_comm : 0 <= comm_loss_action p < FAILSAFE_ACTION_MAX;
  pw_fault : 0 <= runtime_fault_action p < FAILSAFE_ACTION_MAX;
  pw_recovery : 0 <= recovery_mode p < FAILSAFE_RECOVERY_MAX;
  pw_reserved : is_u8 (reserved p);
  pw_safe : safe_value p = 0 \/ safe_value p = 1;
}.

Lemma length_policy_bytes p : length (policy_bytes p) = 12%nat.
Proof. done. Qed.

Lemma policy_roundtrip p : policy_wf p -> policy_of (policy_bytes p) = p.
Proof.
  intros [Ha Hv Hb Hc Hd He Hf Hg Hh]. destruct p as [a b c d e f g h]. clear Hv.
  unfold FAILSAFE_ACTION_MAX, FAILSAFE_RECOVERY_MAX in *. unfold policy_of, policy_bytes.
  cbn [output_id enabled boot_action comm_loss_action runtime_fault_action recovery_mode reserved safe_value] in *.
  f_equal; [packed 0%nat|packed 1%nat|packed 2%nat|packed 3%nat
    |packed 4%nat|packed 5%nat|packed 6%nat|]; try done; try (cbn; lia).
  pose proof (u32_range h). rewrite <- (i32_u32 h) at 2 by lia. f_equal.
  by packed 7%nat.
Qed.

(** The two stored formats have the same size: the second branch of
    [failsafe_load] is never taken. *)
Lemma blob_sizes : sizeof_failsafe_blob = 204 /\ sizeof_failsafe_blob_v1 = 204.
Proof. split; vm_compute; reflexivity. Qed.

(** Policies stored by a version-1 firmware are never loaded: both layouts
    take 204 bytes, so the version-1 branch is unreachable and [failsafe_load]
    refuses the blob without reading a policy, whatever it holds; at boot the
    defaults are then written over it. *)
Theorem v1_blob_never_loaded {W N} `{Nvs N} (w : fsw W N) (blob : list Z) :
  nvs_get_blob (fs_nvs w) = Some blob -> field 4 2 blob = FAILSAFE_VERSION_V1 ->
  failsafe_load w = (false, w) /\
  (Z.of_nat (length blob) = sizeof_failsafe_blob_v1 ->
   blob_accepted FAILSAFE_VERSION_V1 blob = true -> Z.of_nat (length blob) = sizeof_failsafe_blob).
Proof.
  intros Hb Hv. destruct blob_sizes as [Hs1 Hs2]. split; [|intros ->; congruence].
  unfold failsafe_load. rewrite Hb.
  assert (blob_accepted FAILSAFE_VERSION blob = false) as ->.
  { unfold blob_accepted. rewrite Hv. by rewrite andb_false_r. }
  rewrite Hs1, Hs2. destruct (Z.of_nat (length blob) =? 204); by destruct w.
Qed.

Lemma length_concat_chunks (chunks : list (list Z)) :
  Forall (fun c => length c = 12%nat) chunks -> length (concat chunks) = (12 * length chunks)%nat.
Proof. induction 1 as [|x l Hx Hf IH]; [done|]. cbn [concat length]. rewrite length_app, Hx, IH. lia. Qed.

(** The slots of the array, read back. *)
Lemma chunk_lookup (chunks : list (list Z)) rest i c :
  Forall (fun c => length c = 12%nat) chunks -> chunks !! i = Some c ->
  take 12 (drop (12 * i) (concat chunks ++ rest)) = c.
Proof.
  intros Hc Hi. assert (length c = 12%nat) as Hlen by exact (Forall_lookup_1 _ _ _ _ Hc Hi).
  rewrite <- (take_drop_middle chunks i c Hi), concat_app. cbn [concat]. rewrite <- !app_assoc.
  assert (length (concat (take i chunks)) = 12 * i)%nat as Hl.
  { apply lookup_lt_Some in Hi. rewrite length_concat_chunks by by apply Forall_take.
    rewrite length_take. lia. }
  rewrite drop_app_length' by lia. by rewrite take_app_length' by lia.
Qed.

Section stored.
Variable slots : list (list Z).
Hypothesis Hslots : Forall (fun c => length c = 12%nat) slots.
Hypothesis Hcount : (length slots <= 16)%nat.

Lemma length_blob_body version : length (blob_body version slots) = 200%nat.
Proof.
  unfold blob_body. rewrite !length_app, length_pack, length_replicate, length_concat_chunks by done.
  change (sum_list _) with 8%nat. lia.
Qed.

Lemma blob_bytes_accepted version :
  is_u16 version -> blob_accepted version (blob_bytes version slots) = true /\
  length (blob_bytes version slots) = 204%nat /\
  field 6 2 (blob_bytes version slots) = Z.of_nat (length slots).
Proof.
  intros Hv. pose proof (length_blob_body version) as Hl.
  pose proof (fnv1a32_range (blob_body version slots)) as Hc.
  set (ms := [(4%nat, FAILSAFE_MAGIC); (2%nat, version); (2%nat, Z.of_nat (length slots))]).
  assert (blob_bytes version slots = pack ms ++ (concat slots ++ replicate (12 * (16 - length slots)) 0)
    ++ le 4 (failsafe_crc32 (blob_body version slots))) as Hb.
  { unfold blob_bytes, blob_body. fold ms. by rewrite <- !app_assoc. }
  assert (field 0 4 (blob_bytes version slots) = FAILSAFE_MAGIC) as H0 by (rewrite Hb; by apply (field_pack 0 ms)).
  assert (field 4 2 (blob_bytes version slots) = version) as H4 by (rewrite Hb; by apply (field_pack 1 ms)).
  assert (field 6 2 (blob_bytes version slots) = Z.of_nat (length slots)) as H6
    by (rewrite Hb; apply (field_pack 2 ms); [done|cbn; lia]).
  split_and!; [|unfold blob_bytes; rewrite length_app, Hl, length_le; lia|done].
  unfold blob_accepted. rewrite H0, H4, H6, !Z.eqb_refl. unfold FAILSAFE_MAX_OUTPUTS.
  destruct (Z.leb_spec (Z.of_nat (length slots)) 16); [|lia]. cbn [andb].
  unfold blob_bytes. rewrite take_app_length' by done.
  pose proof (field_app_le 4 (failsafe_crc32 (blob_body version slots)) (blob_body version slots) []) as H200.
  rewrite Hl, app_nil_r in H200. rewrite H200 by exact Hc. apply Z.eqb_refl.
Qed.

Lemma blob_policy_slot version i c : slots !! i = Some c -> blob_policy i (blob_bytes version slots) = c.
Proof.
  intros Hi. unfold blob_policy, blob_bytes, blob_body. rewrite <- !app_assoc, <- drop_drop.
  rewrite drop_app_length' by by rewrite length_pack. by apply chunk_lookup.
Qed.
End stored.

Lemma apply_loaded_fmap {P Q} (apply : Q -> failsafe -> bool * failsafe) (g : P -> Q) ps f :
  apply_loaded (fun p => apply (g p)) ps f = apply_loaded apply (g <$> ps) f.
Proof.
  unfold apply_loaded. generalize (false, f) as acc.
  induction ps as [|p ps IH]; intros [b f1]; cbn [foldl fmap list_fmap]; [done|]. apply IH.
Qed.

Definition loaded_entry (p : policy) : fs_entry := FsEntry p false FAILSAFE_REASON_NONE 0.

Lemma upd_entry_at id g f pre e post :
  entries f = pre ++ e :: post -> output_id (fe_policy e) = id -> NoDup (ids f) ->
  upd_entry id g f = f <| entries := pre ++ g e :: post |>.
Proof.
  intros He Hid Hnd. unfold upd_entry. rewrite failsafe_find_ids.
  assert (ids f !! length pre = Some id) as Hl.
  { unfold ids. rewrite He, fmap_app, fmap_cons, lookup_app_r by (by rewrite length_fmap).
    rewrite length_fmap, Nat.sub_diag. cbn. by rewrite Hid. }
  rewrite (find_idx_unique (fun x => x =? id) (ids f) (length pre) id Hl (Z.eqb_refl _)).
  - rewrite He. f_equal. by rewrite <- (Nat.add_0_r (length pre)), alter_app_r.
  - intros j y Hj Hy%Z.eqb_eq. subst y. by eapply NoDup_lookup.
Qed.

Lemma failsafe_apply_loaded_policy_at p f pre e post :
  policy_wf p -> entries f = pre ++ e :: post -> output_id (fe_policy e) = output_id p -> NoDup (ids f) ->
  failsafe_apply_loaded_policy p f = (true, f <| entries := pre ++ loaded_entry p :: post |>).
Proof.
  intros [Hid Hval Hen Hb Hc Hf Hr Hres Hs] He Hoid Hnd. unfold failsafe_apply_loaded_policy.
  rewrite Hval. unfold failsafe_action_valid, failsafe_recovery_valid. cbn [negb].
  rewrite !(proj2 (Z.ltb_lt _ _)) by lia. cbn [negb orb].
  destruct (failsafe_find (output_id p) f) eqn:Hfind.
  - rewrite (upd_entry_at _ _ f pre e post) by done. f_equal. f_equal. f_equal. unfold loaded_entry. f_equal.
    unfold failsafe_binary_value. destruct p as [a b0 c0 d e0 f0 g h]. cbn in *.
    destruct Hen as [-> | ->], Hs as [-> | ->]; done.
  - exfalso. rewrite failsafe_find_ids, find_idx_None in Hfind.
    assert (output_id p ∈ ids f) as Hin.
    { unfold ids. rewrite He, fmap_app, fmap_cons, <- Hoid. apply elem_of_app. right. left. }
    apply Hfind in Hin. by rewrite Z.eqb_refl in Hin.
Qed.

Lemma apply_loaded_all ps f pre post :
  Forall policy_wf ps -> entries f = pre ++ post -> NoDup (ids f) ->
  (fun e => output_id (fe_policy e)) <$> post = output_id <$> ps ->
  forall b, exists b', (b = true -> b' = true) /\ (ps <> [] -> b' = true) /\
    foldl (fun '(loaded, f) p => let '(ok, f) := failsafe_apply_loaded_policy p f in (ok || loaded, f)) (b, f) ps
      = (b', f <| entries := pre ++ (loaded_entry <$> ps) |>).
Proof.
  revert f pre post. induction ps as [|p ps IH]; intros f pre post Hps He Hnd Hids b.
  { destruct post; [|done]. exists b. split_and!; [done|done|]. cbn [foldl fmap list_fmap]. rewrite <- He. by destruct f. }
  destruct post as [|e post]; [done|]. rewrite !fmap_cons in Hids. injection Hids as Hid Hids.
  apply Forall_cons in Hps as [Hp Hps]. cbn [foldl].
  rewrite (failsafe_apply_loaded_policy_at p f pre e post) by done.
  destruct (IH (f <| entries := pre ++ loaded_entry p :: post |>) (pre ++ [loaded_entry p]) post) with (b := true || b)
    as (b' & Hb & _ & Hr); [done|cbn [entries update]; by rewrite <- app_assoc| |done|].
  - unfold ids in *. cbn [entries update]. rewrite He, !fmap_app, !fmap_cons in Hnd. rewrite fmap_app, fmap_cons.
    cbn [fe_policy loaded_entry]. by rewrite <- Hid.
  - exists b'. split_and!; [auto|auto|]. rewrite Hr. cbn [fmap list_fmap]. by rewrite <- app_assoc.
Qed.

(** Policies survive a reboot: when a save succeeds, the initialisation of
    the next boot ends with one entry per output holding exactly the saved
    policy, no condition active, whatever the reset reason. *)
Theorem policies_survive_reboot {W N} `{NvsLaws N} (w : fsw W N) (r : reset_reason) (w0 : W) n1 n2 n3 f0 :
  ids (fs w) = local_output_ids -> Forall policy_wf (policies (fs w)) ->
  let blob := blob_bytes FAILSAFE_VERSION (policy_bytes <$> policies (fs w)) in
  nvs_open_rw (fs_nvs w) = (true, n1) -> nvs_set_blob blob n1 = (true, n2) -> nvs_commit n2 = (true, n3) ->
  failsafe_save w = (true, w <| fs_nvs := n3 |>) /\
  let w1 := (failsafe_init r (Fsw f0 w0 n3)).2 in
  entries (fs w1) = (fun e => loaded_entry (fe_policy e)) <$> entries (fs w) /\ fs_nvs w1 = n3.
Proof.
  intros Hids Hwf blob H1 H2 H3. split.
  { unfold failsafe_save, fs_flash, on_part. run.
    assert (blob_bytes FAILSAFE_VERSION ((fun e => policy_bytes (fe_policy e)) <$> entries (fs w)) = blob) as ->
      by (unfold blob, policies; by rewrite <- list_fmap_compose).
    unfold mbind, st_bind. rewrite H1. cbn [negb fs_nvs update]. rewrite H2. cbn [negb fs_nvs update]. by rewrite H3. }
  assert (nvs_get_blob n3 = Some blob) as Hget.
  { pose proof (nvs_commit_durable blob n1 n2 H2) as Hd. rewrite H3 in Hd. by apply Hd. }
  set (ps := policies (fs w)) in *.
  assert (length ps = 16%nat) as Hlen.
  { apply (f_equal length) in Hids. unfold ps, policies. unfold ids in Hids. by rewrite !length_fmap in *. }
  assert (Forall (fun c => length c = 12%nat) (policy_bytes <$> ps)) as Hslots.
  { apply Forall_fmap, Forall_forall. intros p _. apply length_policy_bytes. }
  destruct (blob_bytes_accepted (policy_bytes <$> ps) Hslots) with (version := FAILSAFE_VERSION)
    as (Hacc & Hbl & Hcnt); [rewrite length_fmap; lia|unfold FAILSAFE_VERSION; lia|]. fold blob in Hacc, Hbl, Hcnt.
  set (fd := Failsafe (failsafe_default_entry <$> local_output_ids) (failsafe_detect_boot_reason r)).
  assert (failsafe_load (Fsw fd w0 n3) = (true, Fsw (fd <| entries := loaded_entry <$> ps |>) w0 n3)) as Hload.
  { unfold failsafe_load. cbn [fs_nvs fs]. rewrite Hget, Hbl, Hcnt, Hacc. destruct blob_sizes as [-> _].
    rewrite length_fmap, Hlen. change (Z.of_nat 204 =? 204) with true. cbv iota.
    rewrite (apply_loaded_fmap failsafe_apply_loaded_policy (fun i => policy_of (blob_policy i blob))).
    assert ((fun i => policy_of (blob_policy i blob)) <$> seq 0 (Z.to_nat (Z.of_nat 16)) = ps) as ->.
    { apply list_eq. intros i. rewrite list_lookup_fmap. destruct (ps !! i) as [p|] eqn:Hp.
      - rewrite lookup_seq_lt by (apply lookup_lt_Some in Hp; lia). cbn [fmap option_fmap option_map Nat.add].
        unfold blob. rewrite (blob_policy_slot _ Hslots _ i (policy_bytes p)) by (by rewrite list_lookup_fmap, Hp).
        f_equal. apply policy_roundtrip. exact (Forall_lookup_1 _ _ _ _ Hwf Hp).
      - rewrite lookup_seq_ge; [done|]. apply lookup_ge_None in Hp. lia. }
    unfold apply_loaded.
    destruct (apply_loaded_all ps fd [] (failsafe_default_entry <$> local_output_ids) Hwf eq_refl) with (b := false)
      as (b' & _ & Hb' & ->).
    - apply (bool_decide_unpack _). vm_compute. exact I.
    - transitivity local_output_ids; [reflexivity|]. unfold ps. by rewrite <- ids_policies.
    - rewrite Hb' by (intros Hnil; by rewrite Hnil in Hlen). done. }
  cbv zeta. unfold failsafe_init, fs_upd. run. cbn [fs update].
  change (take _ _) with (failsafe_default_entry <$> local_output_ids). fold fd.
  rewrite (run_bind_eq _ _ _ _ _ Hload). cbn [negb]. run. cbn [snd fs entries update fs_nvs]. split; [|done].
  unfold ps, policies. by rewrite <- list_fmap_compose.
Qed.

(** ** Concrete runs *)

Definition fs_boot : fsw store flash :=
  (failsafe_init ESP_RST_OTHER (Fsw (Failsafe [] 0) store_boot None)).2.
(** Output 103 on, holding its safe value 1 when communication is lost, until a
    manual reset. *)
Definition fs_demo : fsw store flash :=
  let w := (failsafe_set_output_policy 103 true FAILSAFE_ACTION_FORCE_OFF FAILSAFE_ACTION_SAFE_VALUE
     FAILSAFE_ACTION_FORCE_OFF 1 FAILSAFE_RECOVERY_MANUAL fs_boot).2 in
  w <| fs_world := (state_set_int 100 1 (fs_world w)).2 |>.

Lemma manual_latch_witness :
  (failsafe_guard_command 103 0
    (failsafe_guard_command 103 1 (failsafe_apply_for_reason 103 FAILSAFE_REASON_COMM_LOSS fs_demo).2).2).1.1.1
  = false.
Proof.
  apply (manual_latch 103 FAILSAFE_REASON_COMM_LOSS fs_demo).
  - vm_compute. exists 1. reflexivity.
  - vm_compute. reflexivity.
  - eapply rtc_l; [apply fs_guard|apply rtc_refl].
Defined.

Lemma all_outputs_made_safe_witness :
  let '(k, w') := failsafe_apply_for_reason_all FAILSAFE_REASON_COMM_LOSS fs_demo in
  k = 16 /\ state_get_int 103 (fs_world w') = Some 1 /\ state_get_int 100 (fs_world w') = Some 0.
Proof.
  assert (NoDup (ids (fs fs_demo))) as Hnd by (apply (bool_decide_unpack _); vm_compute; exact I).
  assert (Forall (fun id => 0 <= id < STATE_MAX_ENTRIES) (ids (fs fs_demo))) as Hids
    by (apply (bool_decide_unpack _); vm_compute; exact I).
  assert (state_inv (fs_world fs_demo)) as Hinv
    by exact (set_int_wf 100 1 store_boot store_boot_wf ltac:(lia)).
  pose proof (all_outputs_made_safe FAILSAFE_REASON_COMM_LOSS fs_demo
    ltac:(split; vm_compute; reflexivity) Hnd Hids Hinv) as H.
  destruct (failsafe_apply_for_reason_all _ _) as [k w'].
  destruct H as (Hon & _ & Hk & _).
  set (nth i := default (failsafe_default_entry 0) (entries (fs fs_demo) !! i)).
  assert (forall i, (i < 16)%nat -> nth i ∈ entries (fs fs_demo)) as Hin.
  { intros i Hi. apply (list_elem_of_lookup_2 _ i). unfold nth.
    destruct (lookup_lt_is_Some_2 (entries (fs fs_demo)) i) as [e He]; [exact Hi|]. rewrite He. reflexivity. }
  assert (output_id (fe_policy (nth 3%nat)) = 103) as H103 by (vm_compute; reflexivity).
  assert (output_id (fe_policy (nth 0%nat)) = 100) as H100 by (vm_compute; reflexivity).
  split_and!.
  - rewrite Hk. vm_compute. reflexivity.
  - rewrite <- H103. pose proof (Hon _ (Hin 3%nat ltac:(lia))) as H. cbv zeta in H. rewrite H.
    vm_compute. reflexivity.
  - rewrite <- H100. pose proof (Hon _ (Hin 0%nat ltac:(lia))) as H. cbv zeta in H. rewrite H.
    vm_compute. reflexivity.
Defined.

Lemma policies_survive_reboot_witness :
  entries (fs (failsafe_init ESP_RST_PANIC (Fsw (Failsafe [] 0) store_boot
    (fs_nvs (failsafe_save fs_demo).2))).2) = (fun e => loaded_entry (fe_policy e)) <$> entries (fs fs_demo).
Proof.
  destruct (policies_survive_reboot fs_demo ESP_RST_PANIC store_boot (fs_nvs fs_demo)
    (Some (blob_bytes FAILSAFE_VERSION (policy_bytes <$> policies (fs fs_demo))))
    (Some (blob_bytes FAILSAFE_VERSION (policy_bytes <$> policies (fs fs_demo)))) (Failsafe [] 0))
    as [Hs [He _]].
  - vm_compute. reflexivity.
  - vm_compute. repeat (apply Forall_cons; split; [constructor; vm_compute; intuition congruence|]). constructor.
  - reflexivity.
  - reflexivity.
  - reflexivity.
  - rewrite Hs. exact He.
Defined.

Definition v1_blob : list Z :=
  blob_bytes FAILSAFE_VERSION_V1 [[100; 0; 2; 2; 1; 0; 0; 0; 1; 0; 0; 0]].
Lemma v1_blob_never_loaded_witness :
  blob_accepted FAILSAFE_VERSION_V1 v1_blob = true /\ Z.of_nat (length v1_blob) = sizeof_failsafe_blob_v1 /\
  failsafe_load (Fsw (fs fs_demo) store_boot (Some v1_blob)) =
    (false, Fsw (fs fs_demo) store_boot (Some v1_blob)).
Proof.
  split; [vm_compute; reflexivity|]. split; [vm_compute; reflexivity|].
  apply (v1_blob_never_loaded (Fsw (fs fs_demo) store_boot (Some v1_blob)) v1_blob);
    [reflexivity|vm_compute; reflexivity].
Defined.
