(* ===== verification/Ladder.v ===== *)
(** * The ladder bytecode engine ([components/runtime/ladder/ladder_engine.c])

    A program is a header (ENDP and a version byte) and a sequence of
    instructions run once per control cycle.  The engine validates a program
    when it is loaded and interprets it byte by byte. *)

From S2P Require Import Prelude Persist EventBus State.

Definition LADDER_MAX_PROGRAM_SIZE : Z := 2048.
Definition OP_LD : Z := 1.
Definition OP_LDN : Z := 2.
Definition OP_AND : Z := 3.
Definition OP_ANDN : Z := 4.
Definition OP_OR : Z := 5.
Definition OP_ORN : Z := 6.
Definition OP_ST : Z := 16.
Definition OP_SET : Z := 17.
Definition OP_RST : Z := 18.
Definition OP_OR_BLOCK_START : Z := 32.
Definition OP_OR_BLOCK_NEXT : Z := 33.
Definition OP_OR_BLOCK_END : Z := 34.
Definition OP_TON : Z := 48.
Definition OP_TOF : Z := 49.
Definition OP_CTU : Z := 50.
Definition OP_CTD : Z := 51.
Definition OP_EQU : Z := 64.
Definition OP_GRT : Z := 65.
Definition OP_LES : Z := 66.
Definition OP_ADD : Z := 80.
Definition OP_SUB : Z := 81.
Definition OP_MUL : Z := 82.
Definition OP_DIV : Z := 83.
Definition OP_END : Z := 255.
Definition MAX_TIMERS : Z := 16.
Definition MAX_COUNTERS : Z := 16.
Definition MAX_STACK : Z := 16.

Inductive esp_err := ESP_OK | ESP_ERR_NO_MEM | ESP_ERR_INVALID_ARG.
#[export] Instance esp_err_eq_dec : EqDecision esp_err.
Proof. solve_decision. Defined.

(** [timer_state_t] and [counter_state_t] *)
Record timer := Timer { tm_tag : Z; tm_active : bool; tm_last_acc : bool; tm_start_ms : Z }.
#[export] Instance timer_rebuild : Rebuild timer :=
  fun t => Timer (tm_tag t) (tm_active t) (tm_last_acc t) (tm_start_ms t).
Record counter := Counter { ct_tag : Z; ct_last_acc : bool; ct_count : Z }.
#[export] Instance counter_rebuild : Rebuild counter :=
  fun c => Counter (ct_tag c) (ct_last_acc c) (ct_count c).

(** The engine's variables: [bytecode] is the whole 2048-byte array, [timers]
    the first [s_timer_count] entries, [counters] likewise. *)
Record ladder := Lad {
  bytecode : list Z;
  bytecode_length : Z;
  has_program : bool;
  timers : list timer;
  counters : list counter;
}.
#[export] Instance ladder_rebuild : Rebuild ladder := fun l =>
  Lad (bytecode l) (bytecode_length l) (has_program l) (timers l) (counters l).
Definition ladder_cleared : ladder := Lad (replicate 2048 0) 0 false [] [].

(** The engine with the state table, its flash key and the clock. *)
Record lw {W N : Type} := Lw { lad : ladder; lw_world : W; lw_nvs : N; lw_clock : clock }.
Arguments lw : clear implicits.
Arguments Lw {W N}.
#[export] Instance lw_rebuild {W N} : Rebuild (lw W N) := fun w =>
  Lw (lad w) (lw_world w) (lw_nvs w) (lw_clock w).

(** The branch stack: [logic_stack] and [or_stack] up to [stack_ptr], top first. *)
Record vm := Vm { pc : Z; acc : bool; stack : list (bool * bool) }.
#[export] Instance vm_rebuild : Rebuild vm := fun v => Vm (pc v) (acc v) (stack v).

Definition byte_at (buf : list Z) (i : Z) : Z := default 0 (zget buf i).
(** [(buf[i] << 8) | buf[i + 1]] as [uint16_t]. *)
Definition word_at (buf : list Z) (i : Z) : Z :=
  u16 (Z.lor (Z.shiftl (byte_at buf i) 8) (byte_at buf (i + 1))).

Definition between (lo x hi : Z) : bool := (lo <=? x) && (x <=? hi).

(** ** Validation *)

(** [exists] over the tags met so far, then append within the limit. *)
Definition note_tag (tag : Z) (tags : list Z) : option (list Z) :=
  if bool_decide (tag ∈ tags) then Some tags
  else if MAX_TIMERS <=? Z.of_nat (length tags) then None else Some (tags ++ [tag]).

(** The [while (pc < length)] loop of the first pass; each round consumes at
    least one byte. *)
Fixpoint validate (fuel : nat) (buf : list Z) (len pc : Z) (timer_tags counter_tags : list Z) : esp_err :=
  match fuel with
  | O => ESP_OK
  | S fuel =>
    if len <=? pc then ESP_OK
    else
      let op := byte_at buf pc in
      let pc := pc + 1 in
      if op =? OP_END then ESP_OK
      else if between OP_LD op OP_ORN || between OP_ST op OP_RST then
        if len <=? pc + 1 then ESP_ERR_INVALID_ARG
        else validate fuel buf len (pc + 2) timer_tags counter_tags
      else if between OP_OR_BLOCK_START op OP_OR_BLOCK_END then
        validate fuel buf len pc timer_tags counter_tags
      else if (op =? OP_TON) || (op =? OP_TOF) then
        if len <=? pc + 1 then ESP_ERR_INVALID_ARG
        else if len <=? pc + 2 + 1 then ESP_ERR_INVALID_ARG
        else match note_tag (word_at buf pc) timer_tags with
             | None => ESP_ERR_NO_MEM
             | Some tags => validate fuel buf len (pc + 4) tags counter_tags
             end
      else if (op =? OP_CTU) || (op =? OP_CTD) then
        if len <=? pc + 1 then ESP_ERR_INVALID_ARG
        else if len <=? pc + 2 + 1 then ESP_ERR_INVALID_ARG
        else match note_tag (word_at buf pc) counter_tags with
             | None => ESP_ERR_NO_MEM
             | Some tags => validate fuel buf len (pc + 4) timer_tags tags
             end
      else if between OP_EQU op OP_LES then
        if len <=? pc + 1 then ESP_ERR_INVALID_ARG
        else validate fuel buf len (pc + 2) timer_tags counter_tags
      else if between OP_ADD op OP_DIV then
        if len <=? pc + 6 then ESP_ERR_INVALID_ARG
        else if negb (byte_at buf (pc + 2) =? 0) && negb (byte_at buf (pc + 2) =? 1) then ESP_ERR_INVALID_ARG
        else validate fuel buf len (pc + 7) timer_tags counter_tags
      else ESP_ERR_INVALID_ARG
  end.

Definition header_ok (buf : list Z) : bool :=
  (byte_at buf 0 =? 69) && (byte_at buf 1 =? 78) && (byte_at buf 2 =? 68) && (byte_at buf 3 =? 80).

(** The checks of [ladder_engine_load_program] before anything is changed. *)
Definition check_program (buf : list Z) : esp_err :=
  let len := Z.of_nat (length buf) in
  if LADDER_MAX_PROGRAM_SIZE <? len then ESP_ERR_NO_MEM
  else if (len <? 5) || negb (header_ok buf) then ESP_ERR_INVALID_ARG
  else validate (length buf) buf len 5 [] [].

(** ** Timers and counters *)

Definition find_timer (tag : Z) (ts : list timer) : option nat := find_idx (fun t => tm_tag t =? tag) ts.
Definition find_counter (tag : Z) (cs : list counter) : option nat := find_idx (fun c => ct_tag c =? tag) cs.

Definition get_or_create_timer (tag : Z) (l : ladder) : option nat * ladder :=
  match find_timer tag (timers l) with
  | Some i => (Some i, l)
  | None =>
    if Z.of_nat (length (timers l)) <? MAX_TIMERS
    then (Some (length (timers l)), l <| timers := timers l ++ [Timer tag false false 0] |>)
    else (None, l)
  end.
Definition get_or_create_counter (tag : Z) (l : ladder) : option nat * ladder :=
  match find_counter tag (counters l) with
  | Some i => (Some i, l)
  | None =>
    if Z.of_nat (length (counters l)) <? MAX_COUNTERS
    then (Some (length (counters l)), l <| counters := counters l ++ [Counter tag false 0] |>)
    else (None, l)
  end.
Definition reset_timer_or_counter (tag : Z) (l : ladder) : ladder :=
  let l := match find_timer tag (timers l) with
           | Some i => l <| timers := alter (fun t => Timer (tm_tag t) false false 0) i (timers l) |>
           | None => l
           end in
  match find_counter tag (counters l) with
  | Some i => l <| counters := alter (fun c => Counter (ct_tag c) false 0) i (counters l) |>
  | None => l
  end.

(** One scan of a timer: its new state and the output. *)
Definition ton_scan (now_ms preset : Z) (a : bool) (t : timer) : timer * bool :=
  if a then
    let t := if negb (tm_active t) then t <| tm_active := true |> <| tm_start_ms := now_ms |> else t in
    (t, preset <=? now_ms - tm_start_ms t)
  else (t <| tm_active := false |>, false).

Definition tof_scan (now_ms preset : Z) (a : bool) (t : timer) : timer * bool :=
  let '(t, out) :=
    if a then (t <| tm_active := false |>, true)
    else
      let t := if tm_last_acc t && negb a then t <| tm_active := true |> <| tm_start_ms := now_ms |> else t in
      if tm_active t then
        if preset <=? now_ms - tm_start_ms t then (t <| tm_active := false |>, false) else (t, true)
      else (t, false) in
  (t <| tm_last_acc := out |>, out).

Definition ctu_scan (preset : Z) (a : bool) (c : counter) : counter * bool :=
  let c := if a && negb (ct_last_acc c) then c <| ct_count := i32 (ct_count c + 1) |> else c in
  let c := c <| ct_last_acc := a |> in
  (c, preset <=? ct_count c).

Definition ctd_scan (preset : Z) (a : bool) (c : counter) : counter * bool :=
  let c := if ct_count c =? 0 then c <| ct_count := preset |> else c in
  let c := if a && negb (ct_last_acc c)
           then if 0 <? ct_count c then c <| ct_count := ct_count c - 1 |> else c
           else c in
  let c := c <| ct_last_acc := a |> in
  (c, ct_count c =? 0).

Definition clamp32 (r : Z) : Z :=
  let r := if 2147483647 <? r then 2147483647 else r in
  if r <? -2147483648 then -2147483648 else r.
(** The arithmetic of the four operations, in [int64_t]. *)
Definition math_result (op a b : Z) : Z :=
  clamp32 (if op =? OP_ADD then a + b
           else if op =? OP_SUB then a - b
           else if op =? OP_MUL then a * b
           else if op =? OP_DIV then (if b =? 0 then 0 else Z.quot a b)
           else 0).

(** ** The interpreter *)

Section run.
Context {W N : Type} `{StateApi W} `{Nvs N}.

Definition on_world {A} (m : st W A) : st (lw W N) A :=
  on_part lw_world (fun s w => w <| lw_world := s |>) m.
Definition on_lad {A} (m : st ladder A) : st (lw W N) A :=
  on_part lad (fun l w => w <| lad := l |>) m.
Definition read_tag (tag : Z) (w : lw W N) : Z := default 0 (state_get_int tag (lw_world w)).
Definition write_tag (tag v : Z) : st (lw W N) () := on_world (state_set_int tag v);; mret tt.

Definition do_math (op tag_a flags_b b_raw dest : Z) (a : bool) : st (lw W N) () :=
  if a then
    w ← gets (fun w => w);
    let valA := read_tag tag_a w in
    let valB := if flags_b =? 0 then read_tag b_raw w else if flags_b =? 1 then i16 b_raw else 0 in
    write_tag dest (math_result op valA valB)
  else mret tt.

Definition do_ton (now tag preset : Z) (a : bool) : st (lw W N) bool :=
  i ← on_lad (get_or_create_timer tag);
  match i with
  | None => mret a
  | Some i =>
    w ← gets (fun w => w);
    let '(t, out) := ton_scan now preset a (default (Timer tag false false 0) (timers (lad w) !! i)) in
    on_lad (modify (fun l => l <| timers := <[i := t]> (timers l) |>));;
    write_tag tag (if out then 1 else 0);;
    mret out
  end.

Definition do_tof (now tag preset : Z) (a : bool) : st (lw W N) bool :=
  i ← on_lad (get_or_create_timer tag);
  match i with
  | None => mret a
  | Some i =>
    w ← gets (fun w => w);
    let '(t, out) := tof_scan now preset a (default (Timer tag false false 0) (timers (lad w) !! i)) in
    on_lad (modify (fun l => l <| timers := <[i := t]> (timers l) |>));;
    write_tag tag (if out then 1 else 0);;
    mret out
  end.

Definition do_counter (scan : Z -> bool -> counter -> counter * bool) (tag preset : Z) (a : bool) : st (lw W N) bool :=
  i ← on_lad (get_or_create_counter tag);
  match i with
  | None => mret a
  | Some i =>
    w ← gets (fun w => w);
    let '(c, out) := scan preset a (default (Counter tag false 0) (counters (lad w) !! i)) in
    on_lad (modify (fun l => l <| counters := <[i := c]> (counters l) |>));;
    write_tag tag (if out then 1 else 0);;
    mret out
  end.

(** The [switch] for the opcodes with one operand and no preset; other opcodes
    do nothing. *)
Definition do_bit (op tag : Z) (a : bool) : st (lw W N) bool :=
  w ← gets (fun w => w);
  let val := read_tag tag w in
  let tag_val := 0 <? val in
  if op =? OP_LD then mret tag_val
  else if op =? OP_LDN then mret (negb tag_val)
  else if op =? OP_AND then mret (a && tag_val)
  else if op =? OP_ANDN then mret (a && negb tag_val)
  else if op =? OP_OR then mret (a || tag_val)
  else if op =? OP_ORN then mret (a || negb tag_val)
  else if op =? OP_ST then write_tag tag (if a then 1 else 0);; mret a
  else if op =? OP_SET then (if a then write_tag tag 1 else mret tt);; mret a
  else if op =? OP_RST then
    (if a then write_tag tag 0;; on_lad (modify (reset_timer_or_counter tag)) else mret tt);; mret a
  else if op =? OP_EQU then mret (a && (val =? 0))
  else if op =? OP_GRT then mret (a && (0 <? val))
  else if op =? OP_LES then mret (a && (val <? 0))
  else mret a.

Definition do_timer (now op tag preset : Z) (a : bool) : st (lw W N) bool :=
  if op =? OP_TON then do_ton now tag preset a
  else if op =? OP_TOF then do_tof now tag preset a
  else if op =? OP_CTU then do_counter ctu_scan tag preset a
  else do_counter ctd_scan tag preset a.

Definition block_start (v : vm) : vm :=
  if Z.of_nat (length (stack v)) <? MAX_STACK then v <| stack := (acc v, false) :: stack v |> else v.
Definition block_next (v : vm) : vm :=
  match stack v with
  | (lg, o) :: rest => v <| stack := (lg, o || acc v) :: rest |> <| acc := lg |>
  | [] => v
  end.
Definition block_end (v : vm) : vm :=
  match stack v with
  | (_, o) :: rest => v <| acc := o || acc v |> <| stack := rest |>
  | [] => v
  end.

(** One round of [while (pc < s_bytecode_length)]; [None] is [break]. *)
Definition run_round (now : Z) (v : vm) : st (lw W N) (option vm) :=
  l ← gets lad;
  let buf := bytecode l in
  let len := bytecode_length l in
  let op := byte_at buf (pc v) in
  let v := v <| pc := pc v + 1 |> in
  if op =? OP_END then mret None
  else if op =? OP_OR_BLOCK_START then mret (Some (block_start v))
  else if op =? OP_OR_BLOCK_NEXT then mret (Some (block_next v))
  else if op =? OP_OR_BLOCK_END then mret (Some (block_end v))
  else if len <=? pc v + 1 then mret None
  else if between OP_ADD op OP_DIV then
    let tag_a := word_at buf (pc v) in
    let v := v <| pc := pc v + 2 |> in
    if len <=? pc v + 4 then mret None
    else
      do_math op tag_a (byte_at buf (pc v)) (word_at buf (pc v + 1)) (word_at buf (pc v + 3)) (acc v);;
      mret (Some (v <| pc := pc v + 5 |>))
  else
    let tag := word_at buf (pc v) in
    let v := v <| pc := pc v + 2 |> in
    if (op =? OP_TON) || (op =? OP_TOF) || (op =? OP_CTU) || (op =? OP_CTD) then
      if len <=? pc v + 1 then mret (Some v)
      else
        a ← do_timer now op tag (word_at buf (pc v)) (acc v);
        mret (Some (v <| pc := pc v + 2 |> <| acc := a |>))
    else
      a ← do_bit op tag (acc v);
      mret (Some (v <| acc := a |>)).

(** The loop: [pc] grows in every round, so [bytecode_length] rounds do. *)
Fixpoint run_loop (fuel : nat) (now : Z) (v : vm) : st (lw W N) vm :=
  match fuel with
  | O => mret v
  | S fuel =>
    len ← gets (fun w => bytecode_length (lad w));
    if len <=? pc v then mret v
    else
      r ← run_round now v;
      match r with
      | None => mret v
      | Some v => run_loop fuel now v
      end
  end.

(** [esp_timer_get_time() / 1000] *)
Definition esp_timer_get_time_ms : st (lw W N) Z :=
  t ← on_part lw_clock (fun c w => w <| lw_clock := c |>) clock_read; mret (t / 1000).

Definition ladder_engine_run : st (lw W N) () :=
  l ← gets lad;
  if negb (has_program l) || (bytecode_length l <? 5) then mret tt
  else
    now_ms ← esp_timer_get_time_ms;
    run_loop (Z.to_nat (bytecode_length l)) now_ms (Vm 5 false []);;
    mret tt.

(** ** Loading and clearing *)

Definition lad_flash {A} (m : st N A) : st (lw W N) A :=
  on_part lw_nvs (fun n w => w <| lw_nvs := n |>) m.

Definition ladder_engine_init : st (lw W N) esp_err :=
  modify (fun w => w <| lad := ladder_cleared |>);;
  modify (fun w =>
    match nvs_get_blob (lw_nvs w) with
    | Some blob =>
      if (0 <? Z.of_nat (length blob)) && (Z.of_nat (length blob) <=? LADDER_MAX_PROGRAM_SIZE)
      then w <| lad := lad w <| bytecode := blob ++ drop (length blob) (bytecode (lad w)) |>
                             <| bytecode_length := Z.of_nat (length blob) |> <| has_program := true |> |>
      else w
    | None => w
    end);;
  mret ESP_OK.

Definition ladder_engine_clear : st (lw W N) esp_err :=
  modify (fun w => w <| lad := ladder_cleared |>);;
  ok ← lad_flash nvs_open_rw;
  (if ok : bool then lad_flash nvs_erase_key;; lad_flash nvs_commit;; mret tt else mret tt);;
  mret ESP_OK.

Definition install (buf : list Z) (l : ladder) : ladder :=
  l <| bytecode := buf ++ drop (length buf) (bytecode l) |>
    <| bytecode_length := Z.of_nat (length buf) |> <| has_program := true |>.

Definition ladder_engine_load_program (buf : list Z) : st (lw W N) esp_err :=
  match check_program buf with
  | ESP_OK =>
    ladder_engine_clear;;
    on_lad (modify (install buf));;
    ok ← lad_flash nvs_open_rw;
    (if ok : bool then lad_flash (nvs_set_blob buf);; lad_flash nvs_commit;; mret tt else mret tt);;
    mret ESP_OK
  | e => mret e
  end.

Definition ladder_engine_get_program (max_len : Z) (w : lw W N) : list Z :=
  let l := lad w in
  if negb (has_program l) || (max_len =? 0) then []
  else take (Z.to_nat (if bytecode_length l <? max_len then bytecode_length l else max_len)) (bytecode l).

(** ** The boot self test *)

Definition test_prog : list Z :=
  [69; 78; 68; 80; 1;
   OP_LD; Z.land (Z.shiftr (ENDAP_INPUT_ID 0) 8) 255; Z.land (ENDAP_INPUT_ID 0) 255;
   OP_ST; Z.land (Z.shiftr (ENDAP_OUTPUT_ID 0) 8) 255; Z.land (ENDAP_OUTPUT_ID 0) 255;
   OP_END].

(** Put the saved program back in RAM, or clear everything. *)
Definition self_test_restore (saved : ladder) : st (lw W N) () :=
  if has_program saved && (0 <? bytecode_length saved) then
    on_lad (modify (fun l =>
      l <| bytecode := take (Z.to_nat (bytecode_length saved)) (bytecode saved)
                       ++ drop (Z.to_nat (bytecode_length saved)) (bytecode l) |>
        <| bytecode_length := bytecode_length saved |> <| has_program := true |>))
  else ladder_engine_clear;; mret tt.

(** [state_set_int(input, x); run(); output == expected]. *)
Definition self_test_scan (x expected : Z) : st (lw W N) bool :=
  write_tag (ENDAP_INPUT_ID 0) x;;
  ladder_engine_run;;
  gets (fun w => default (-1) (state_get_int (ENDAP_OUTPUT_ID 0) (lw_world w)) =? expected).

Definition ladder_engine_run_self_test : st (lw W N) bool :=
  saved ← gets lad;
  err ← ladder_engine_load_program test_prog;
  if bool_decide (err <> ESP_OK) then self_test_restore saved;; mret false
  else
    write_tag (ENDAP_INPUT_ID 0) 0;;
    write_tag (ENDAP_OUTPUT_ID 0) 1;;
    ladder_engine_run;;
    ok0 ← gets (fun w => default (-1) (state_get_int (ENDAP_OUTPUT_ID 0) (lw_world w)) =? 0);
    if negb ok0 then self_test_restore saved;; mret false
    else
      ok1 ← self_test_scan 1 1;
      if negb ok1 then self_test_restore saved;; mret false
      else
        ok2 ← self_test_scan 0 0;
        if negb ok2 then self_test_restore saved;; mret false
        else self_test_restore saved;; mret true.
End run.

(** ** Instructions

    The structured form of a program: what the bytes mean. *)

Inductive instr :=
| IBit (op tag : Z)
| IStart
| INext
| IEnd
| ITimer (op tag preset : Z)
| IMath (op tag_a flags_b b_raw dest : Z).

Definition be16 (x : Z) : list Z := [x / 256; x mod 256].
Definition encode_instr (i : instr) : list Z :=
  match i with
  | IBit op tag => op :: be16 tag
  | IStart => [OP_OR_BLOCK_START]
  | INext => [OP_OR_BLOCK_NEXT]
  | IEnd => [OP_OR_BLOCK_END]
  | ITimer op tag preset => op :: be16 tag ++ be16 preset
  | IMath op a f b d => op :: be16 a ++ f :: be16 b ++ be16 d
  end.

Definition is_bit_op (op : Z) : bool :=
  between OP_LD op OP_ORN || between OP_ST op OP_RST || between OP_EQU op OP_LES.
Definition is_timer_op (op : Z) : bool :=
  (op =? OP_TON) || (op =? OP_TOF) || (op =? OP_CTU) || (op =? OP_CTD).
Definition instr_wf (i : instr) : Prop :=
  match i with
  | IBit op tag => is_bit_op op = true /\ is_u16 tag
  | IStart | INext | IEnd => True
  | ITimer op tag preset => is_timer_op op = true /\ is_u16 tag /\ is_u16 preset
  | IMath op a f b d => between OP_ADD op OP_DIV = true /\ is_u16 a /\ (f = 0 \/ f = 1) /\ is_u16 b /\ is_u16 d
  end.

(** The opcode ranges are disjoint; [op_case] decides any opcode test. *)
Ltac ops := unfold is_bit_op, is_timer_op, between, OP_LD, OP_LDN, OP_AND, OP_ANDN, OP_OR, OP_ORN, OP_ST, OP_SET, OP_RST,
  OP_OR_BLOCK_START, OP_OR_BLOCK_NEXT, OP_OR_BLOCK_END, OP_TON, OP_TOF, OP_CTU, OP_CTD, OP_EQU,
  OP_GRT, OP_LES, OP_ADD, OP_SUB, OP_MUL, OP_DIV, OP_END in *.

Lemma byte_at_app pre x post n : n = Z.of_nat (length pre) -> byte_at (pre ++ x :: post) n = x.
Proof. intros ->. unfold byte_at. by rewrite zget_nat, list_lookup_middle. Qed.

Lemma word_at_app pre x post n :
  n = Z.of_nat (length pre) -> is_u16 x -> word_at (pre ++ be16 x ++ post) n = x.
Proof.
  intros Hn Hx. unfold word_at, be16. cbn [app].
  rewrite byte_at_app by done.
  replace (pre ++ x / 256 :: x mod 256 :: post) with ((pre ++ [x / 256]) ++ x mod 256 :: post)
    by by rewrite <- app_assoc.
  rewrite byte_at_app by (rewrite length_app; cbn; lia).
  rewrite shiftl_lor_add by word_lia. change (2 ^ 8) with 256.
  replace (x / 256 * 256 + x mod 256) with x by word_lia.
  by apply u16_id.
Qed.

(** Decide the opcode and bound tests that head the goal. *)
Ltac decide_op :=
  repeat match goal with
  | |- context [if ?b then _ else _] =>
    first [replace b with false by (ops; lia) | replace b with true by (ops; lia)]; cbv iota
  end.
Ltac side := rewrite ?length_app; cbn [length be16]; lia.

Section exec.
Context {W N : Type} `{StateApi W} `{Nvs N}.

(** The accumulator and the branch stack. *)
Abbreviation regs := (bool * list (bool * bool))%type (only parsing).

Definition exec_instr (now : Z) (i : instr) (r : bool * list (bool * bool)) : st (lw W N) (bool * list (bool * bool)) :=
  let v := Vm 0 r.1 r.2 in
  match i with
  | IBit op tag => a ← do_bit op tag r.1; mret (a, r.2)
  | IStart => mret (acc (block_start v), stack (block_start v))
  | INext => mret (acc (block_next v), stack (block_next v))
  | IEnd => mret (acc (block_end v), stack (block_end v))
  | ITimer op tag preset => a ← do_timer now op tag preset r.1; mret (a, r.2)
  | IMath op a f b d => do_math op a f b d r.1;; mret r
  end.

Fixpoint exec_list (now : Z) (il : list instr) (r : bool * list (bool * bool)) : st (lw W N) (bool * list (bool * bool)) :=
  match il with
  | [] => mret r
  | i :: il => r ← exec_instr now i r; exec_list now il r
  end.

(** No instruction touches the program. *)
Definition prog_part (l : ladder) : list Z * Z * bool := (bytecode l, bytecode_length l, has_program l).
Definition same_program (buf : list Z) (len : Z) (w : lw W N) : Prop :=
  bytecode (lad w) = buf /\ bytecode_length (lad w) = len /\ has_program (lad w) = true.
Abbreviation keeps_prog buf len m := (keeps (same_program buf len) m).

Lemma on_world_prog {A} buf len (m : st W A) : keeps_prog buf len (on_world m).
Proof. by apply keeps_on_part. Qed.
Lemma write_tag_prog buf len tag v : keeps_prog buf len (write_tag tag v).
Proof. unfold write_tag. apply keeps_bind; [apply on_world_prog|intros; apply keeps_ret]. Qed.
Lemma on_lad_prog {A} buf len (m : st ladder A) :
  (forall l, prog_part (m l).2 = prog_part l) ->
  keeps_prog buf len (on_lad m).
Proof.
  intros Hm. apply keeps_on_part. intros w (<- & <- & Hp). specialize (Hm (lad w)).
  destruct (m (lad w)) as [x l]. unfold prog_part in Hm. cbn in *.
  injection Hm as Eb El Ep. unfold same_program. cbn. split_and!; congruence.
Qed.

Lemma get_or_create_timer_prog tag l :
  prog_part (get_or_create_timer tag l).2 = prog_part l.
Proof. unfold get_or_create_timer. by repeat case_match. Qed.
Lemma get_or_create_counter_prog tag l :
  prog_part (get_or_create_counter tag l).2 = prog_part l.
Proof. unfold get_or_create_counter. by repeat case_match. Qed.
Lemma reset_prog tag l :
  prog_part (reset_timer_or_counter tag l) = prog_part l.
Proof. unfold reset_timer_or_counter. by repeat case_match. Qed.
#[local] Hint Resolve on_world_prog write_tag_prog on_lad_prog get_or_create_timer_prog
  get_or_create_counter_prog reset_prog : keeps.

Lemma do_math_prog buf len op a f b d r : keeps_prog buf len (do_math op a f b d r).
Proof. unfold do_math. keeps. Qed.
Lemma do_bit_prog buf len op tag a : keeps_prog buf len (do_bit op tag a).
Proof. unfold do_bit. keeps; apply on_lad_prog; intros; apply reset_prog. Qed.
Lemma do_timer_prog buf len now op tag preset a : keeps_prog buf len (do_timer now op tag preset a).
Proof.
  unfold do_timer, do_ton, do_tof, do_counter. keeps; by apply on_lad_prog; intros; cbn; auto with keeps.
Qed.
Lemma exec_instr_prog buf len now i r : keeps_prog buf len (exec_instr now i r).
Proof.
  destruct i; cbn [exec_instr]; keeps; auto using do_math_prog, do_bit_prog, do_timer_prog.
Qed.

Lemma vm_eq v v' : pc v = pc v' -> acc v = acc v' -> stack v = stack v' -> v = v'.
Proof. destruct v, v'. cbn. by intros -> -> ->. Qed.
Ltac same_vm :=
  cbn [fst snd]; rewrite ?run_ret; cbn [fst snd];
  apply (f_equal2 pair); [apply (f_equal Some), vm_eq; cbn [pc acc stack update fst snd]; lia || done|done].

(** One round of the interpreter on an encoded instruction executes it. *)
Lemma run_round_instr now i pre post len v w :
  instr_wf i -> same_program (pre ++ encode_instr i ++ post) len w ->
  pc v = Z.of_nat (length pre) -> Z.of_nat (length pre) + Z.of_nat (length (encode_instr i)) <= len ->
  run_round now v w =
    (let '(r, w') := exec_instr now i (acc v, stack v) w in
     (Some (Vm (pc v + Z.of_nat (length (encode_instr i))) r.1 r.2), w')).
Proof.
  intros Hi (Hb & Hl & _) Hpc Hfit. destruct v as [p a s]. cbn [pc acc stack] in *.
  unfold run_round. run. rewrite Hb, Hl. cbn [pc update acc stack].
  destruct i as [op tag| | | |op tag preset|op ta f b d]; cbn [encode_instr instr_wf exec_instr length app be16 fst snd] in *.
  - destruct Hi as [Hop Htag].
    rewrite byte_at_app by done.
    decide_op.
    replace (pre ++ op :: tag / 256 :: tag mod 256 :: post) with ((pre ++ [op]) ++ be16 tag ++ post)
      by by rewrite <- app_assoc.
    rewrite word_at_app by side.
    rewrite !run_bind_surj. destruct (do_bit op tag a w). same_vm.
  - rewrite byte_at_app by done. unfold block_start; cbn. case_match; same_vm.
  - rewrite byte_at_app by done. unfold block_next; cbn. repeat case_match; same_vm.
  - rewrite byte_at_app by done. unfold block_end; cbn. repeat case_match; same_vm.
  - destruct Hi as (Hop & Htag & Hpre).
    rewrite byte_at_app by done.
    decide_op.
    replace (pre ++ op :: tag / 256 :: tag mod 256 :: preset / 256 :: preset mod 256 :: post)
      with ((pre ++ [op]) ++ be16 tag ++ be16 preset ++ post) by by rewrite <- app_assoc.
    rewrite word_at_app by side.
    decide_op.
    rewrite app_assoc, word_at_app by side.
    rewrite !run_bind_surj. destruct (do_timer _ _ _ _ _ _). same_vm.
  - destruct Hi as (Hop & Hta & Hf & Hbr & Hd).
    rewrite byte_at_app by done.
    decide_op.
    replace (pre ++ op :: ta / 256 :: ta mod 256 :: f :: b / 256 :: b mod 256 :: d / 256 :: d mod 256 :: post)
      with ((pre ++ [op]) ++ be16 ta ++ f :: be16 b ++ be16 d ++ post) by by rewrite <- app_assoc.
    rewrite word_at_app by side.
    decide_op.
    rewrite app_assoc, byte_at_app by side.
    replace (((pre ++ [op]) ++ be16 ta) ++ f :: be16 b ++ be16 d ++ post)
      with ((((pre ++ [op]) ++ be16 ta) ++ [f]) ++ be16 b ++ be16 d ++ post) by by rewrite <- !app_assoc.
    rewrite word_at_app by side.
    rewrite (app_assoc _ (be16 b)), word_at_app by side.
    rewrite !run_bind_surj. destruct (do_math _ _ _ _ _ _). same_vm.
Qed.

Lemma encode_instr_nonempty i : (1 <= length (encode_instr i))%nat.
Proof. destruct i; cbn; lia. Qed.

(** Running the bytes of an instruction list executes the list. *)
Lemma run_loop_list now il pre tail rest fuel v w :
  Forall instr_wf il -> (tail = [] \/ exists junk, tail = OP_END :: junk) ->
  let code := concat (encode_instr <$> il) in
  same_program (pre ++ code ++ tail ++ rest) (Z.of_nat (length (pre ++ code ++ tail))) w ->
  pc v = Z.of_nat (length pre) -> (length code + length tail < fuel)%nat ->
  exists v' w', run_loop fuel now v w = (v', w') /\ exec_list now il (acc v, stack v) w = ((acc v', stack v'), w').
Proof.
  intros Hil Htail. revert pre fuel v w.
  induction il as [|i il IH]; intros pre fuel v w code Hprog Hpc Hfuel; subst code;
    (destruct fuel as [|fuel]; [lia|]); cbn [run_loop fmap list_fmap concat app length] in *; run;
    pose proof Hprog as (Hb & Hl & _); rewrite Hl, Hpc, !length_app.
  - destruct Htail as [->|[junk ->]]; cbn [length].
    + destruct (Z.leb_spec (Z.of_nat (length pre + 0)) (Z.of_nat (length pre))); [|lia]. by exists v, w.
    + destruct (Z.leb_spec (Z.of_nat (length pre + S (length junk))) (Z.of_nat (length pre))); [lia|].
      assert (run_round now v w = (None, w)) as Hr.
      { unfold run_round. run. rewrite Hb. cbn [app]. rewrite byte_at_app by done. done. }
      rewrite (run_bind_eq _ _ _ _ _ Hr). by exists v, w.
  - apply Forall_cons in Hil as [Hi Hil]. pose proof (encode_instr_nonempty i) as Hne.
    rewrite !length_app in *.
    match goal with |- context [Z.of_nat ?n <=? _] => destruct (Z.leb_spec (Z.of_nat n) (Z.of_nat (length pre))); [lia|] end.
    rewrite <- !app_assoc in Hprog.
    pose proof (run_round_instr now i pre _ _ v w Hi Hprog Hpc ltac:(lia)) as Hr.
    cbn [exec_list]. rewrite !run_bind_surj.
    pose proof (exec_instr_prog _ _ now i (acc v, stack v) w Hprog) as Hprog'.
    destruct (exec_instr now i (acc v, stack v) w) as [r w1]. rewrite Hr. cbn [fst snd] in *.
    destruct (IH Hil (pre ++ encode_instr i) fuel
      (Vm (pc v + Z.of_nat (length (encode_instr i))) r.1 r.2) w1) as (v' & w' & Hloop & Hexec).
    + rewrite !length_app, <- !app_assoc. replace (length pre + length (encode_instr i) + (length (concat (encode_instr <$> il)) + length tail))%nat
        with (length pre + (length (encode_instr i) + length (concat (encode_instr <$> il)) + length tail))%nat by lia.
      done.
    + cbn [pc]. rewrite length_app. lia.
    + lia.
    + exists v', w'. split; [done|]. by destruct r.
Qed.

(** A scan is the execution of the instruction list from a false accumulator
    and an empty stack, at the time read from the clock. *)
Definition exec_program (il : list instr) : st (lw W N) () :=
  now_ms ← esp_timer_get_time_ms; exec_list now_ms il (false, []);; mret tt.

Lemma ladder_engine_run_program hd il tail rest w :
  length hd = 5%nat -> Forall instr_wf il -> (tail = [] \/ exists junk, tail = OP_END :: junk) ->
  let code := concat (encode_instr <$> il) ++ tail in
  same_program (hd ++ code ++ rest) (Z.of_nat (length (hd ++ code))) w ->
  ladder_engine_run w = exec_program il w.
Proof.
  intros Hhd Hil Htail code Hprog. pose proof Hprog as (Hb & Hl & Hp).
  unfold ladder_engine_run, exec_program. run. rewrite Hp, Hl. cbn [negb orb].
  destruct (Z.ltb_spec (Z.of_nat (length (hd ++ code))) 5); [rewrite length_app in *; lia|].
  rewrite !run_bind_surj.
  assert (same_program (hd ++ code ++ rest) (Z.of_nat (length (hd ++ code))) (esp_timer_get_time_ms w).2) as Hprog1 by done.
  destruct (esp_timer_get_time_ms w) as [now w1]. cbn [fst snd] in Hprog1 |- *. subst code.
  rewrite <- app_assoc, Nat2Z.id in *.
  destruct (run_loop_list now il hd tail rest (length (hd ++ concat (encode_instr <$> il) ++ tail)) (Vm 5 false []) w1) as (v' & w' & Hloop & Hexec); try done.
  - cbn. lia.
  - rewrite !length_app. lia.
  - cbn [acc stack] in Hexec. by rewrite Hloop, Hexec.
Qed.
End exec.

(** ** What the validator accepts *)

Lemma be16_word hi lo : is_u8 hi -> is_u8 lo -> be16 (u16 (Z.lor (Z.shiftl hi 8) lo)) = [hi; lo].
Proof.
  intros Hh Hl. unfold be16. rewrite shiftl_lor_add by lia. change (2 ^ 8) with 256.
  rewrite u16_id by lia. f_equal; [|f_equal]; word_lia.
Qed.

Lemma drop_byte buf n : 0 <= n < Z.of_nat (length buf) ->
  drop (Z.to_nat n) buf = byte_at buf n :: drop (Z.to_nat (n + 1)) buf.
Proof.
  intros Hn. unfold byte_at, zget. destruct (Z.leb_spec 0 n); [|lia].
  destruct (lookup_lt_is_Some_2 buf (Z.to_nat n)) as [x Hx]; [lia|]. rewrite Hx.
  rewrite (drop_S _ _ _ Hx). cbn. do 2 f_equal. lia.
Qed.

Lemma byte_at_u8 buf n : Forall (fun b => is_u8 b) buf -> is_u8 (byte_at buf n).
Proof.
  intros Hb. unfold byte_at, zget. case_match; [|cbn; lia].
  destruct (buf !! Z.to_nat n) eqn:E; cbn; [|lia]. exact (Forall_lookup_1 _ _ _ _ Hb E).
Qed.

Lemma drop_word buf n : Forall (fun b => is_u8 b) buf -> 0 <= n -> n + 1 < Z.of_nat (length buf) ->
  drop (Z.to_nat n) buf = be16 (word_at buf n) ++ drop (Z.to_nat (n + 2)) buf.
Proof.
  intros Hb H0 Hn. unfold word_at. rewrite be16_word by by apply byte_at_u8.
  rewrite (drop_byte buf n), (drop_byte buf (n + 1)) by lia. cbn [app]. do 3 f_equal. lia.
Qed.

Lemma word_at_u16 buf n : is_u16 (word_at buf n).
Proof. apply u16_range. Qed.

Definition program_of (il : list instr) (bytes : list Z) : Prop :=
  Forall instr_wf il /\
  exists tail, bytes = concat (encode_instr <$> il) ++ tail /\ (tail = [] \/ exists junk, tail = OP_END :: junk).

Lemma program_of_cons i il bytes : instr_wf i -> program_of il bytes -> program_of (i :: il) (encode_instr i ++ bytes).
Proof.
  intros Hi (Hil & tail & -> & Ht). split; [by constructor|]. exists tail. split; [|done].
  cbn [fmap list_fmap concat]. by rewrite <- app_assoc.
Qed.

Ltac operand :=
  cbn [instr_wf]; split_and!; try done; try lia;
  match goal with
  | |- context [word_at ?b ?n] => pose proof (word_at_u16 b n); lia
  | _ => ops; lia
  end.
(** A round of the validator that continues consumes one instruction. *)
Lemma validate_step fuel buf pc ts cs :
  Forall (fun b => is_u8 b) buf -> 0 <= pc < Z.of_nat (length buf) -> byte_at buf pc <> OP_END ->
  validate (S fuel) buf (Z.of_nat (length buf)) pc ts cs = ESP_OK ->
  exists i pc' ts' cs', instr_wf i /\ drop (Z.to_nat pc) buf = encode_instr i ++ drop (Z.to_nat pc') buf /\
    pc < pc' <= Z.of_nat (length buf) /\ validate fuel buf (Z.of_nat (length buf)) pc' ts' cs' = ESP_OK.
Proof.
  intros Hb Hpc Hend. cbn [validate]. rewrite (drop_byte buf pc) by lia. revert Hend.
  generalize (byte_at buf pc). intros op Hend. set (len := Z.of_nat (length buf)) in *.
  destruct (Z.leb_spec len pc); [lia|]. destruct (Z.eqb_spec op OP_END); [done|].
  assert (forall k, pc + 1 <= k -> k + 1 < len -> drop (Z.to_nat k) buf = be16 (word_at buf k) ++ drop (Z.to_nat (k + 2)) buf) as Hword.
  { intros k ??. by apply drop_word; try lia. }
  destruct (between OP_LD op OP_ORN || between OP_ST op OP_RST) eqn:Hbit;
    [|destruct (between OP_OR_BLOCK_START op OP_OR_BLOCK_END) eqn:Hblk;
      [|destruct ((op =? OP_TON) || (op =? OP_TOF)) eqn:Htm;
        [|destruct ((op =? OP_CTU) || (op =? OP_CTD)) eqn:Hct;
          [|destruct (between OP_EQU op OP_LES) eqn:Hcmp;
            [|destruct (between OP_ADD op OP_DIV) eqn:Hmath; [|done]]]]]];
    repeat match goal with |- context [len <=? ?b] => destruct (Z.leb_spec len b); [done|] end.
  - intros Hv. exists (IBit op (word_at buf (pc + 1))), (pc + 1 + 2), ts, cs.
    rewrite Hword by lia. operand.
  - intros Hv.
    assert (op = OP_OR_BLOCK_START \/ op = OP_OR_BLOCK_NEXT \/ op = OP_OR_BLOCK_END) as [-> | [-> | ->]] by (ops; lia);
      [exists IStart|exists INext|exists IEnd]; exists (pc + 1), ts, cs; split_and!; try done; lia.
  - destruct (note_tag _ _) as [ts'|]; [|done]. intros Hv.
    exists (ITimer op (word_at buf (pc + 1)) (word_at buf (pc + 1 + 2))), (pc + 1 + 4), ts', cs.
    rewrite (Hword (pc + 1)), (Hword (pc + 1 + 2)) by lia. replace (pc + 1 + 2 + 2) with (pc + 1 + 4) by lia.
    operand.
  - destruct (note_tag _ _) as [cs'|]; [|done]. intros Hv.
    exists (ITimer op (word_at buf (pc + 1)) (word_at buf (pc + 1 + 2))), (pc + 1 + 4), ts, cs'.
    rewrite (Hword (pc + 1)), (Hword (pc + 1 + 2)) by lia. replace (pc + 1 + 2 + 2) with (pc + 1 + 4) by lia.
    operand.
  - intros Hv. exists (IBit op (word_at buf (pc + 1))), (pc + 1 + 2), ts, cs.
    rewrite Hword by lia. operand.
  - destruct (negb (byte_at buf (pc + 1 + 2) =? 0) && negb (byte_at buf (pc + 1 + 2) =? 1)) eqn:Hflag; [done|]. intros Hv.
    exists (IMath op (word_at buf (pc + 1)) (byte_at buf (pc + 1 + 2)) (word_at buf (pc + 1 + 3)) (word_at buf (pc + 1 + 5))),
      (pc + 1 + 7), ts, cs.
    rewrite (Hword (pc + 1)), (drop_byte buf (pc + 1 + 2)) by lia. replace (pc + 1 + 2 + 1) with (pc + 1 + 3) by lia.
    rewrite (Hword (pc + 1 + 3)) by lia. replace (pc + 1 + 3 + 2) with (pc + 1 + 5) by lia.
    rewrite (Hword (pc + 1 + 5)) by lia. replace (pc + 1 + 5 + 2) with (pc + 1 + 7) by lia.
    operand.
Qed.

Lemma validate_sound fuel buf pc ts cs :
  Forall (fun b => is_u8 b) buf -> 0 <= pc -> (Z.to_nat (Z.of_nat (length buf) - pc) <= fuel)%nat ->
  validate fuel buf (Z.of_nat (length buf)) pc ts cs = ESP_OK ->
  exists il, program_of il (drop (Z.to_nat pc) buf).
Proof.
  intros Hb. revert pc ts cs. induction fuel as [|fuel IH]; intros pc ts cs Hpc Hfuel Hv;
    destruct (decide (Z.of_nat (length buf) <= pc)).
  1,3: exists []; split; [done|]; exists []; rewrite drop_ge by lia; auto.
  { lia. }
  destruct (decide (byte_at buf pc = OP_END)) as [Hend|Hend].
  { exists []. split; [done|]. rewrite (drop_byte buf pc) by lia. rewrite Hend. eexists. split; [reflexivity|eauto]. }
  destruct (validate_step fuel buf pc ts cs Hb ltac:(lia) Hend Hv) as (i & pc' & ts' & cs' & Hi & -> & ? & Hv').
  destruct (IH pc' ts' cs' ltac:(lia) ltac:(lia) Hv') as [il Hil].
  exists (i :: il). by apply program_of_cons.
Qed.

(** ** The meaning of a loaded program *)

Section program.
Context {W N : Type} `{StateApi W} `{Nvs N}.

Lemma run_round_prog buf len now v : keeps (same_program (W := W) (N := N) buf len) (run_round now v).
Proof. unfold run_round. keeps; auto using do_math_prog, do_bit_prog, do_timer_prog. Qed.
Lemma run_loop_prog buf len fuel now v : keeps (same_program (W := W) (N := N) buf len) (run_loop fuel now v).
Proof.
  revert v. induction fuel as [|fuel IH]; intros v; cbn [run_loop]; [apply keeps_ret|].
  keeps; auto using run_round_prog.
Qed.
Lemma ladder_engine_run_prog buf len : keeps (same_program (W := W) (N := N) buf len) ladder_engine_run.
Proof. unfold ladder_engine_run, esp_timer_get_time_ms. keeps; auto using run_loop_prog. by apply keeps_on_part. Qed.

(** *** Every scan ends *)

(** [scan_rounds now n v w v' w']: from [v] the loop ends in [v'] after [n] rounds. *)
Inductive scan_rounds (now : Z) : nat -> vm -> lw W N -> vm -> lw W N -> Prop :=
| scan_end v (w : lw W N) : bytecode_length (lad w) <= pc v -> scan_rounds now 0 v w v w
| scan_break v (w w' : lw W N) : pc v < bytecode_length (lad w) -> run_round now v w = (None, w') -> scan_rounds now 1 v w v w'
| scan_next n v (w : lw W N) v1 w1 v' w' : pc v < bytecode_length (lad w) -> run_round now v w = (Some v1, w1) ->
    scan_rounds now n v1 w1 v' w' -> scan_rounds now (S n) v w v' w'.

Lemma round_advances now v (w : lw W N) v1 w1 : run_round now v w = (Some v1, w1) -> pc v < pc v1.
Proof.
  intros Hr. unfold run_round in Hr. revert Hr. run. cbn [pc acc update].
  assert (forall (m : st (lw W N) bool) (f : bool -> vm), (m ≫= (fun a => mret (Some (f a)))) w = (Some v1, w1) -> exists a, v1 = f a) as Hret.
  { intros m f Hm. rewrite run_bind_surj, run_ret in Hm. injection Hm as <- _. by eexists. }
  repeat case_match; unfold mret, st_ret; try done; intros Hr;
    try (injection Hr as <- <-; cbn; unfold block_start, block_next, block_end; repeat case_match; cbn; lia).
  - rewrite run_bind_surj in Hr. injection Hr as <- _. cbn. lia.
  - apply Hret in Hr as [a ->]. cbn. lia.
  - apply Hret in Hr as [a ->]. cbn. lia.
Qed.
Lemma run_loop_rounds now buf len fuel : forall v (w : lw W N), same_program buf len w -> len - pc v <= Z.of_nat fuel ->
  exists n v' w', run_loop fuel now v w = (v', w') /\ scan_rounds now n v w v' w' /\ Z.of_nat n <= Z.max 0 (len - pc v).
Proof.
  induction fuel as [|fuel IH]; intros v w Hw Hf; cbn [run_loop].
  - exists O, v, w. split; [done|]. split; [|lia]. constructor. destruct Hw as (_ & -> & _). lia.
  - run. assert (bytecode_length (lad w) = len) as Hlen by apply Hw. rewrite Hlen.
    destruct (Z.leb_spec len (pc v)); [exists O, v, w; split; [done|]; split; [by constructor; rewrite Hlen|lia]|].
    pose proof (run_round_prog buf len now v w Hw) as Hk. destruct (run_round now v w) as [[v1|] w1] eqn:E; rewrite (run_bind_eq _ _ _ _ _ E).
    + pose proof (round_advances _ _ _ _ _ E). destruct (IH v1 w1 Hk ltac:(lia)) as (n & v' & w' & Hl & Hr & Hn).
      exists (S n), v', w'. split; [done|]. split; [|lia]. eapply scan_next; [by rewrite Hlen|done|done].
    + exists 1%nat, v, w1. split; [done|]. split; [|lia]. apply scan_break; [by rewrite Hlen|done].
Qed.

(** C8: Every scan ends, whatever bytes the program is made of, accepted by the
    loader or not: the loop of [ladder_engine_run], followed round by round
    without any bound, comes to its end after at most one round per byte after
    the header, and the run leaves the state of that end. *)
Theorem scan_terminates (w : lw W N) :
  let w' := (ladder_engine_run w).2 in
  if negb (has_program (lad w)) || (bytecode_length (lad w) <? 5) then w' = w
  else exists now n v' w1, lad w1 = lad w /\ lw_world w1 = lw_world w /\
    scan_rounds now n (Vm 5 false []) w1 v' w' /\ Z.of_nat n <= bytecode_length (lad w) - 5.
Proof.
  cbv zeta. unfold ladder_engine_run. run. destruct (has_program (lad w)) eqn:Hp; cbn [negb orb]; [|done].
  destruct (Z.ltb_spec (bytecode_length (lad w)) 5) as [|Hlen]; [done|]. rewrite !run_bind_surj.
  set (now := (esp_timer_get_time_ms w).1). set (w1 := (esp_timer_get_time_ms w).2). exists now.
  assert (lad w1 = lad w /\ lw_world w1 = lw_world w) as [Hl Hw] by by subst w1.
  destruct (run_loop_rounds now (bytecode (lad w)) (bytecode_length (lad w)) (Z.to_nat (bytecode_length (lad w))) (Vm 5 false []) w1)
    as (n & v' & w' & Hloop & Hr & Hn); [unfold same_program; by rewrite Hl|cbn; lia|].
  exists n, v', w1. rewrite Hloop. split_and!; try done. cbn [pc] in Hn. lia.
Qed.

Lemma install_cleared buf :
  install buf ladder_cleared = Lad (buf ++ replicate (2048 - length buf) 0) (Z.of_nat (length buf)) true [] [].
Proof. rewrite <- drop_replicate. done. Qed.
Lemma lad_flash_lad {A} l (m : st N A) : keeps (fun w : lw W N => lad w = l) (lad_flash m).
Proof. by apply keeps_on_part. Qed.
Ltac flash_only := match goal with |- lad (?m _).2 = ?l =>
  enough (keeps (fun w => lad w = l) m) as Hk; [by apply Hk|keeps; auto using lad_flash_lad] end.
Lemma clear_lad (w : lw W N) : lad (ladder_engine_clear w).2 = ladder_cleared.
Proof. unfold ladder_engine_clear. rewrite run_bind_modify. flash_only. Qed.
Lemma load_program_lad buf (w : lw W N) : check_program buf = ESP_OK ->
  lad (ladder_engine_load_program buf w).2 = install buf ladder_cleared.
Proof.
  intros Hcheck. unfold ladder_engine_load_program. rewrite Hcheck, run_bind_surj, <- (clear_lad w).
  generalize (ladder_engine_clear w). intros [e w1]. cbn [fst snd]. unfold on_lad at 1.
  rewrite run_bind_surj. unfold on_part at 1. rewrite run_modify. cbn [fst snd]. flash_only.
Qed.
Lemma load_program_err buf (w : lw W N) : check_program buf = ESP_OK -> (ladder_engine_load_program buf w).1 = ESP_OK.
Proof. intros Hcheck. unfold ladder_engine_load_program. rewrite Hcheck. by rewrite !run_bind_surj, run_ret. Qed.
Lemma load_program_ok buf (w w' : lw W N) :
  ladder_engine_load_program buf w = (ESP_OK, w') ->
  check_program buf = ESP_OK /\
  lad w' = Lad (buf ++ replicate (2048 - length buf) 0) (Z.of_nat (length buf)) true [] [].
Proof.
  intros Hload. assert (check_program buf = ESP_OK) as Hc.
  { unfold ladder_engine_load_program in Hload. by destruct (check_program buf). }
  split; [done|]. pose proof (load_program_lad buf w Hc) as Hl. rewrite Hload in Hl. cbn [snd] in Hl.
  by rewrite Hl, install_cleared.
Qed.

Lemma check_program_length buf : check_program buf = ESP_OK ->
  5 <= Z.of_nat (length buf) <= 2048 /\
  validate (length buf) buf (Z.of_nat (length buf)) 5 [] [] = ESP_OK.
Proof.
  unfold check_program, LADDER_MAX_PROGRAM_SIZE. destruct (Z.ltb_spec 2048 (Z.of_nat (length buf))); [done|].
  destruct (Z.ltb_spec (Z.of_nat (length buf)) 5); [done|]. cbn [orb]. destruct (header_ok buf); [|done].
  intros Hv. split; [lia|exact Hv].
Qed.

(** C6: a program the engine accepts is an instruction list.  After a
    successful load the stored program reads back byte for byte, and from
    then on every scan is exactly the execution of that list, in order, from
    a false accumulator and an empty branch stack; a scan never changes the
    program. *)
Theorem loaded_program_meaning buf (w w' : lw W N) :
  Forall (fun b => is_u8 b) buf -> ladder_engine_load_program buf w = (ESP_OK, w') ->
  exists il, program_of il (drop 5 buf) /\ ladder_engine_get_program 2048 w' = buf /\
    same_program (bytecode (lad w')) (Z.of_nat (length buf)) w' /\
    forall w2 : lw W N, same_program (bytecode (lad w')) (Z.of_nat (length buf)) w2 ->
      ladder_engine_run w2 = exec_program il w2 /\
      same_program (bytecode (lad w')) (Z.of_nat (length buf)) (ladder_engine_run w2).2.
Proof.
  intros Hu8 Hload. destruct (load_program_ok _ _ _ Hload) as [Hcheck Hlad].
  destruct (check_program_length _ Hcheck) as [Hlen Hval].
  destruct (validate_sound (length buf) buf 5 [] [] Hu8 ltac:(lia) ltac:(lia) Hval) as [il Hil].
  exists il. split; [done|]. unfold ladder_engine_get_program. unfold same_program at 1. rewrite Hlad. cbn [has_program bytecode_length bytecode negb orb].
  split_and!; try done.
  - change (2048 =? 0) with false. cbv iota. destruct (Z.ltb_spec (Z.of_nat (length buf)) 2048).
    + rewrite Nat2Z.id. apply take_app_length.
    + rewrite take_app_length' by lia. done.
  - intros w2 Hw2. split; [|by apply ladder_engine_run_prog].
    destruct Hil as (Hwf & tail & Htl & Hend).
    change (Z.to_nat 5) with 5%nat in Htl.
    assert (buf = take 5 buf ++ concat (encode_instr <$> il) ++ tail) as Hbuf by (rewrite <- Htl; by rewrite take_drop).
    apply (ladder_engine_run_program (take 5 buf) il tail (replicate (2048 - length buf) 0)); try done.
    + rewrite length_take. lia.
    + rewrite <- Hbuf, app_assoc, <- Hbuf. done.
Qed.
End program.

(** ** Assembling a program *)

(** The tags a program gives to timers and counters fit the tables. *)
Fixpoint tags_fit (ts cs : list Z) (il : list instr) : bool :=
  match il with
  | [] => true
  | ITimer op tag _ :: il =>
    if (op =? OP_TON) || (op =? OP_TOF)
    then match note_tag tag ts with Some ts => tags_fit ts cs il | None => false end
    else match note_tag tag cs with Some cs => tags_fit ts cs il | None => false end
  | _ :: il => tags_fit ts cs il
  end.

Definition header : list Z := [69; 78; 68; 80; 1].
Definition assemble (il : list instr) : list Z := header ++ concat (encode_instr <$> il) ++ [OP_END].

(** One round of the validator on an encoded instruction. *)
Definition noted (ts cs : list Z) (i : instr) : option (list Z * list Z) :=
  match i with
  | ITimer op tag _ =>
    if (op =? OP_TON) || (op =? OP_TOF) then (fun ts => (ts, cs)) <$> note_tag tag ts
    else pair ts <$> note_tag tag cs
  | _ => Some (ts, cs)
  end.
Lemma validate_instr i pre post fuel len ts cs :
  instr_wf i -> Z.of_nat (length pre) + Z.of_nat (length (encode_instr i)) <= len ->
  validate (S fuel) (pre ++ encode_instr i ++ post) len (Z.of_nat (length pre)) ts cs =
    match noted ts cs i with
    | Some (ts, cs) =>
      validate fuel (pre ++ encode_instr i ++ post) len (Z.of_nat (length pre) + Z.of_nat (length (encode_instr i))) ts cs
    | None => ESP_ERR_NO_MEM
    end.
Proof.
  intros Hi Hfit. cbn [validate].
  assert (forall x y ts cs, x = y -> validate fuel (pre ++ encode_instr i ++ post) len x ts cs =
    validate fuel (pre ++ encode_instr i ++ post) len y ts cs) as Hpc by by intros ???? ->.
  destruct i as [op tag| | | |op tag preset|op ta f b d]; cbn [encode_instr instr_wf noted length app be16] in *;
    rewrite byte_at_app by done; decide_op.
  - destruct Hi as [Hop Htag]. unfold is_bit_op in Hop.
    destruct (between OP_LD op OP_ORN || between OP_ST op OP_RST); decide_op; apply Hpc; lia.
  - apply Hpc. lia.
  - apply Hpc. lia.
  - apply Hpc. lia.
  - destruct Hi as (Hop & Htag & Hpre). unfold is_timer_op in Hop.
    replace (pre ++ op :: tag / 256 :: tag mod 256 :: preset / 256 :: preset mod 256 :: post)
      with ((pre ++ [op]) ++ be16 tag ++ be16 preset ++ post) in * by by rewrite <- app_assoc.
    decide_op. rewrite word_at_app by side.
    destruct ((op =? OP_TON) || (op =? OP_TOF)); decide_op; destruct (note_tag _ _); cbn; try done; apply Hpc; lia.
  - destruct Hi as (Hop & Hta & Hf & Hbr & Hd).
    replace (pre ++ op :: ta / 256 :: ta mod 256 :: f :: b / 256 :: b mod 256 :: d / 256 :: d mod 256 :: post)
      with (((pre ++ [op]) ++ be16 ta) ++ f :: be16 b ++ be16 d ++ post) in * by by rewrite <- !app_assoc.
    rewrite byte_at_app by side. decide_op. apply Hpc. lia.
Qed.

Lemma validate_complete il pre post fuel len ts cs :
  Forall instr_wf il -> tags_fit ts cs il = true ->
  Z.of_nat (length pre) + Z.of_nat (length (concat (encode_instr <$> il))) < len -> (length il < fuel)%nat ->
  validate fuel (pre ++ concat (encode_instr <$> il) ++ OP_END :: post) len (Z.of_nat (length pre)) ts cs = ESP_OK.
Proof.
  intros Hwf. revert pre fuel ts cs. induction il as [|i il IH]; intros pre fuel ts cs Hfit Hlen Hfuel;
    (destruct fuel as [|fuel]; [lia|]); cbn [fmap list_fmap concat length app] in *.
  { cbn [validate]. rewrite byte_at_app by done. by case_match. }
  apply Forall_cons in Hwf as [Hi Hwf]. rewrite length_app in Hlen. rewrite <- app_assoc, validate_instr by (done || lia).
  specialize (IH Hwf (pre ++ encode_instr i) fuel). rewrite length_app, Nat2Z.inj_add, <- app_assoc in IH.
  destruct i as [op tag| | | |op tag preset|op ta f b d]; cbn [noted tags_fit] in *; try (apply IH; done || lia).
  case_match; destruct (note_tag _ _); cbn; try done; apply IH; done || lia.
Qed.

(** The assembled bytes of a well-formed list within the limits are accepted. *)
Lemma assemble_accepted il : Forall instr_wf il -> tags_fit [] [] il = true ->
  Z.of_nat (length (assemble il)) <= LADDER_MAX_PROGRAM_SIZE -> check_program (assemble il) = ESP_OK.
Proof.
  intros Hwf Hfit Hlen. unfold check_program. destruct (Z.ltb_spec LADDER_MAX_PROGRAM_SIZE (Z.of_nat (length (assemble il)))); [lia|].
  unfold assemble in *. rewrite !length_app in *. cbn [length header] in *.
  destruct (Z.ltb_spec (Z.of_nat (5 + (length (concat (encode_instr <$> il)) + 1))) 5); [lia|]. cbn [orb].
  change (header_ok _) with true. cbv iota. cbn [negb].
  apply (validate_complete il header []); try done; cbn [length header]; [lia|].
  assert (length il <= length (concat (encode_instr <$> il)))%nat; [|lia].
  clear. induction il as [|i il IH]; cbn; [done|]. rewrite length_app. pose proof (encode_instr_nonempty i). lia.
Qed.

(** ** Rungs

    A rung is a series-parallel circuit of contacts.  [compile] lays it out
    with the block opcodes; [closed] is its electrical meaning on the tags. *)
Inductive circuit :=
| Wire
| Contact (negated : bool) (tag : Z)
| Series (c1 c2 : circuit)
| Block (b : branches)
with branches :=
| Last (c : circuit)
| More (c : circuit) (b : branches).
Scheme circuit_mind := Induction for circuit Sort Prop
with branches_mind := Induction for branches Sort Prop.
Combined Scheme circuit_branches_ind from circuit_mind, branches_mind.

Fixpoint compile (c : circuit) : list instr :=
  match c with
  | Wire => []
  | Contact neg tag => [IBit (if neg then OP_ANDN else OP_AND) tag]
  | Series c1 c2 => compile c1 ++ compile c2
  | Block b => IStart :: compile_branches b ++ [IEnd]
  end
with compile_branches (b : branches) : list instr :=
  match b with
  | Last c => compile c
  | More c b => compile c ++ INext :: compile_branches b
  end.
Fixpoint nesting (c : circuit) : nat :=
  match c with
  | Wire | Contact _ _ => 0
  | Series c1 c2 => Nat.max (nesting c1) (nesting c2)
  | Block b => S (branches_nesting b)
  end
with branches_nesting (b : branches) : nat :=
  match b with
  | Last c => nesting c
  | More c b => Nat.max (nesting c) (branches_nesting b)
  end.
Fixpoint closed (tag_on : Z -> bool) (c : circuit) : bool :=
  match c with
  | Wire => true
  | Contact neg tag => xorb neg (tag_on tag)
  | Series c1 c2 => closed tag_on c1 && closed tag_on c2
  | Block b => some_closed tag_on b
  end
with some_closed (tag_on : Z -> bool) (b : branches) : bool :=
  match b with
  | Last c => closed tag_on c
  | More c b => closed tag_on c || some_closed tag_on b
  end.
Fixpoint tags_ok (c : circuit) : Prop :=
  match c with
  | Wire => True
  | Contact _ tag => is_u16 tag
  | Series c1 c2 => tags_ok c1 /\ tags_ok c2
  | Block b => branches_ok b
  end
with branches_ok (b : branches) : Prop :=
  match b with
  | Last c => tags_ok c
  | More c b => tags_ok c /\ branches_ok b
  end.

Definition logic_instr (i : instr) : Prop :=
  instr_wf i /\ match i with ITimer _ _ _ => False | _ => True end.
Lemma bit_logic op tag : is_bit_op op = true -> is_u16 tag -> logic_instr (IBit op tag).
Proof. by intros Hop Htag. Qed.
Lemma compile_logic :
  (forall c, tags_ok c -> Forall logic_instr (compile c)) /\
  (forall b, branches_ok b -> Forall logic_instr (compile_branches b)).
Proof.
  apply circuit_branches_ind; cbn [compile compile_branches tags_ok branches_ok]; intros; destruct_and?;
    repeat first [apply Forall_nil_2 | apply Forall_cons_2 | apply Forall_app_2]; auto; by repeat split; try destruct negated.
Qed.
Lemma tags_fit_logic ts cs il : Forall logic_instr il -> tags_fit ts cs il = true.
Proof. induction 1 as [|[] il [_ Hi] _ IH]; done. Qed.

Section rung.
Context {W N : Type} `{StateApi W} `{Nvs N}.

Definition tag_on (w : lw W N) (tag : Z) : bool := 0 <? read_tag tag w.

Lemma exec_list_app now il1 il2 r (w : lw W N) :
  exec_list now (il1 ++ il2) r w = (r ← exec_list now il1 r; exec_list now il2 r) w.
Proof.
  revert r w. induction il1 as [|i il1 IH]; intros r w; cbn [app exec_list]; run; [done|].
  rewrite run_bind_surj. symmetry. rewrite run_bind_surj. by rewrite IH.
Qed.

(** The branch of a block: the pending result is below. *)
Lemma exec_circuit now (w : lw W N) :
  (forall c a s, (length s + nesting c <= 16)%nat ->
    exec_list now (compile c) (a, s) w = ((a && closed (tag_on w) c, s), w)) /\
  (forall b a o s, (S (length s) + branches_nesting b <= 16)%nat ->
    exec_list now (compile_branches b ++ [IEnd]) (a, (a, o) :: s) w =
      ((o || (a && some_closed (tag_on w) b), s), w)).
Proof.
  apply circuit_branches_ind; cbn [compile compile_branches nesting branches_nesting closed some_closed].
  - intros a s _. by rewrite andb_true_r.
  - intros neg tag a s _. cbn [exec_list exec_instr]. unfold do_bit, tag_on, read_tag.
    destruct neg; run; cbn; by rewrite ?xorb_true_l, ?xorb_false_l.
  - intros c1 IH1 c2 IH2 a s Hn. rewrite exec_list_app, run_bind_surj, IH1 by lia. cbn [fst snd].
    rewrite IH2 by lia. by rewrite andb_assoc.
  - intros b IH a s Hn. cbn [exec_list exec_instr fst snd]. unfold block_start, MAX_STACK. cbn [stack acc pc].
    destruct (Z.ltb_spec (Z.of_nat (length s)) 16); [|lia]. run. cbn [acc stack update]. by rewrite IH by lia.
  - intros c IH a o s Hn. rewrite exec_list_app, run_bind_surj, IH by (cbn; lia). done.
  - intros c IH b IHb a o s Hn. rewrite <- app_assoc, exec_list_app, run_bind_surj, IH by (cbn; lia).
    cbn [fst snd app exec_list exec_instr]. unfold block_next. cbn [stack acc]. run. cbn [acc stack update].
    rewrite IHb by lia. apply (f_equal (fun x => ((x, s), w))). by destruct o, a, (closed (tag_on w) c).
Qed.

(** A rung: the first contact, the circuit, and the output coil. *)
Definition rung (neg : bool) (first : Z) (c : circuit) (out : Z) : list instr :=
  IBit (if neg then OP_LDN else OP_LD) first :: compile c ++ [IBit OP_ST out].

Lemma rung_logic neg first c out : is_u16 first -> tags_ok c -> is_u16 out -> Forall logic_instr (rung neg first c out).
Proof.
  intros Hf Hc Ho. unfold rung. apply Forall_cons_2; [apply bit_logic; [by destruct neg|done]|].
  apply Forall_app_2; [by apply compile_logic|]. apply Forall_cons_2; [|done]. by apply bit_logic.
Qed.

Lemma exec_rung neg first c out (w : lw W N) : (nesting c <= 16)%nat ->
  lw_world (exec_program (rung neg first c out) w).2 =
    (state_set_int out (if xorb neg (tag_on w first) && closed (tag_on w) c then 1 else 0) (lw_world w)).2.
Proof.
  intros Hn. unfold exec_program. rewrite !run_bind_surj.
  assert (lw_world (esp_timer_get_time_ms w).2 = lw_world w) as Hworld by done.
  destruct (esp_timer_get_time_ms w) as [now w1]. cbn [fst snd] in *.
  assert (tag_on w = tag_on w1) as -> by by unfold tag_on, read_tag; rewrite Hworld.
  rewrite <- Hworld. clear w Hworld. unfold rung. cbn [exec_list exec_instr fst snd].
  assert (do_bit (if neg then OP_LDN else OP_LD) first false w1 = (xorb neg (tag_on w1 first), w1)) as Hld
    by by unfold do_bit, tag_on; destruct neg; run; cbn; rewrite ?xorb_true_l, ?xorb_false_l.
  rewrite run_bind_assoc, (run_bind_eq _ _ _ _ _ Hld). run.
  rewrite exec_list_app, run_bind_surj. rewrite (proj1 (exec_circuit now w1)) by (cbn; lia).
  cbn [fst snd exec_list exec_instr]. generalize (xorb neg (tag_on w1 first) && closed (tag_on w1) c). intros r.
  assert (do_bit OP_ST out r w1 = (write_tag out (if r then 1 else 0);; mret r) w1) as Hst by done.
  rewrite !run_bind_surj, Hst, !run_bind_surj. unfold write_tag, on_world, on_part. rewrite !run_bind_surj.
  by destruct (state_set_int _ _ _).
Qed.

(** A rung that fits is accepted, and every later scan executes it. *)
Definition rung_fits neg first c out : Prop :=
  is_u16 first /\ tags_ok c /\ is_u16 out /\ (nesting c <= 16)%nat /\
  Z.of_nat (length (assemble (rung neg first c out))) <= LADDER_MAX_PROGRAM_SIZE.
Lemma rung_accepted neg first c out : rung_fits neg first c out -> check_program (assemble (rung neg first c out)) = ESP_OK.
Proof.
  intros (Hf & Hc & Ho & Hn & Hlen). pose proof (rung_logic neg first c out Hf Hc Ho) as Hlogic.
  apply assemble_accepted; [eapply Forall_impl; [exact Hlogic|by intros ? []]|by apply tags_fit_logic|done].
Qed.
Lemma rung_runs neg first c out (w : lw W N) w' : rung_fits neg first c out ->
  ladder_engine_load_program (assemble (rung neg first c out)) w = (ESP_OK, w') ->
  forall w2 : lw W N, prog_part (lad w2) = prog_part (lad w') -> ladder_engine_run w2 = exec_program (rung neg first c out) w2.
Proof.
  intros (Hf & Hc & Ho & Hn & Hlen) Hload w2 Hw2. pose proof (rung_logic neg first c out Hf Hc Ho) as Hlogic.
  set (il := rung neg first c out) in *. destruct (load_program_ok _ _ _ Hload) as [_ Hlad].
  rewrite Hlad in Hw2. unfold prog_part in Hw2. cbn [bytecode bytecode_length has_program] in Hw2.
  injection Hw2 as Hb Hl Hp. apply (ladder_engine_run_program header il [OP_END] (replicate (2048 - length (assemble il)) 0)).
  - done.
  - eapply Forall_impl; [exact Hlogic|by intros ? []].
  - right. by exists [].
  - unfold assemble in Hb, Hl. split_and!; [|done|done]. rewrite Hb. unfold header. cbn [app]. rewrite <- !app_assoc. done.
Qed.

(** C7: loading an assembled rung succeeds (contacts nested at most 16 blocks
    deep, within the program size), and every later scan drives the output coil
    with the electrical state of the circuit on the tags read in that scan; it
    changes nothing else of the state table. *)
Theorem rung_correct neg first c out (w : lw W N) :
  is_u16 first -> tags_ok c -> is_u16 out -> (nesting c <= 16)%nat ->
  Z.of_nat (length (assemble (rung neg first c out))) <= LADDER_MAX_PROGRAM_SIZE ->
  exists w', ladder_engine_load_program (assemble (rung neg first c out)) w = (ESP_OK, w') /\
    forall w2 : lw W N, prog_part (lad w2) = prog_part (lad w') ->
      lw_world (ladder_engine_run w2).2 =
        (state_set_int out (if xorb neg (tag_on w2 first) && closed (tag_on w2) c then 1 else 0) (lw_world w2)).2.
Proof.
  intros Hf Hc Ho Hn Hlen. assert (rung_fits neg first c out) as Hfits by (unfold rung_fits; tauto).
  pose proof (load_program_err _ w (rung_accepted _ _ _ _ Hfits)) as He.
  destruct (ladder_engine_load_program _ w) as [e w'] eqn:Hload. cbn [fst] in He. subst e.
  exists w'. split; [done|]. intros w2 Hw2. rewrite (rung_runs _ _ _ _ _ _ Hfits Hload w2 Hw2). by apply exec_rung.
Qed.
End rung.

(** ** Timers over successive scans *)

(** The outputs of a timer over scans [(now_ms, acc)]. *)
Fixpoint scan_all (scan : Z -> bool -> timer -> timer * bool) (scans : list (Z * bool)) (t : timer) : list bool :=
  match scans with
  | [] => []
  | (now, a) :: scans => let '(t, out) := scan now a t in out :: scan_all scan scans t
  end.

Section timers.
Context {W N : Type} `{StateApi W} `{Nvs N}.

(** The same scans of the instruction in the engine. *)
Fixpoint timer_scans (op tag preset : Z) (scans : list (Z * bool)) : st (lw W N) (list bool) :=
  match scans with
  | [] => mret []
  | (now, a) :: scans =>
    out ← do_timer now op tag preset a;
    outs ← timer_scans op tag preset scans;
    mret (out :: outs)
  end.

(** The entry the engine uses for [tag]: the one found, or a new one while
    there is room. *)
Definition timer_of (tag : Z) (t : timer) (l : ladder) : Prop :=
  tm_tag t = tag /\
  ((exists i, find_timer tag (timers l) = Some i /\ timers l !! i = Some t) \/
   (find_timer tag (timers l) = None /\ Z.of_nat (length (timers l)) < MAX_TIMERS /\ t = Timer tag false false 0)).

Lemma timer_of_get tag t l : timer_of tag t l -> exists i,
  (get_or_create_timer tag l).1 = Some i /\ timers (get_or_create_timer tag l).2 !! i = Some t /\
  find_timer tag (timers (get_or_create_timer tag l).2) = Some i.
Proof.
  intros (Htag & [(i & Hf & Hi) | (Hf & Hlen & ->)]); unfold get_or_create_timer; rewrite Hf.
  - by exists i.
  - destruct (Z.ltb_spec (Z.of_nat (length (timers l))) MAX_TIMERS); [|lia]. cbn [fst snd timers update].
    exists (length (timers l)). split_and!; [done|by rewrite lookup_app_r, Nat.sub_diag|].
    apply find_idx_snoc; [done|]. cbn. by rewrite Z.eqb_refl.
Qed.

Lemma find_timer_insert tag ts i t t' :
  ts !! i = Some t -> tm_tag t' = tm_tag t -> find_timer tag (<[i:=t']> ts) = find_timer tag ts.
Proof.
  intros Hi Ht. unfold find_timer. rewrite <- !(find_idx_fmap tm_tag (fun x => x =? tag)).
  rewrite list_fmap_insert, Ht, list_insert_id; [done|]. by rewrite list_lookup_fmap, Hi.
Qed.

(** The timer opcodes run their scan function on the entry. *)
Definition timer_scan (op : Z) : Z -> Z -> bool -> timer -> timer * bool :=
  if op =? OP_TON then ton_scan else tof_scan.
Lemma timer_scan_tag op now preset a t : tm_tag (timer_scan op now preset a t).1 = tm_tag t.
Proof. unfold timer_scan, ton_scan, tof_scan. by repeat case_match; simplify_eq/=. Qed.

Lemma do_timer_scan op now tag preset a t (w : lw W N) :
  op = OP_TON \/ op = OP_TOF -> timer_of tag t (lad w) ->
  (do_timer now op tag preset a w).1 = (timer_scan op now preset a t).2 /\
  timer_of tag (timer_scan op now preset a t).1 (lad (do_timer now op tag preset a w).2).
Proof.
  intros Hop Ht. destruct (timer_of_get _ _ _ Ht) as (i & Hget & Hi & Hf).
  destruct (get_or_create_timer tag (lad w)) as [o l] eqn:Hl. cbn [fst snd] in *. subst o.
  assert (do_timer now op tag preset a w =
    ((let '(t, out) := timer_scan op now preset a t in
      on_lad (modify (fun l => l <| timers := <[i := t]> (timers l) |>));;
      write_tag tag (if out then 1 else 0);; mret out) (w <| lad := l |>))) as ->.
  { assert (on_lad (get_or_create_timer tag) w = (Some i, w <| lad := l |>)) as Hg
      by (unfold on_lad, on_part; by rewrite Hl).
    destruct Hop as [-> | ->]; unfold do_timer; cbn [Z.eqb Pos.eqb OP_TON OP_TOF]; unfold do_ton, do_tof;
      rewrite (run_bind_eq _ _ _ _ _ Hg); run; cbn [lad update]; rewrite Hi; done. }
  pose proof (timer_scan_tag op now preset a t) as Htag.
  destruct (timer_scan op now preset a t) as [t' out]. cbn [fst snd] in *.
  unfold on_lad, write_tag, on_world, on_part. rewrite !run_bind_surj. split; [done|].
  rewrite run_modify. cbn [fst snd lad update lw_world].
  destruct (state_set_int _ _ _) as [e s]. cbn [fst snd lad update timers].
  split; [rewrite Htag; apply Ht|]. left. exists i. rewrite !run_ret. cbn [timers lad update snd].
  rewrite (find_timer_insert _ _ _ t) by done. split; [done|].
  apply list_lookup_insert_eq. by eapply lookup_lt_Some.
Qed.

Lemma timer_scans_outputs op tag preset scans t (w : lw W N) :
  op = OP_TON \/ op = OP_TOF -> timer_of tag t (lad w) ->
  (timer_scans op tag preset scans w).1 = scan_all (fun now => timer_scan op now preset) scans t.
Proof.
  intros Hop. revert t w. induction scans as [|[now a] scans IH]; intros t w Ht; cbn [timer_scans scan_all]; [done|].
  destruct (do_timer_scan op now tag preset a t w Hop Ht) as [Hout Hnext].
  rewrite !run_bind_surj, run_ret. cbn [fst]. rewrite Hout, (IH _ _ Hnext). by destruct (timer_scan _ _ _ _ _).
Qed.
End timers.

(** *** What the timers compute *)

(** The scans never go back in time. *)
Definition in_order (scans : list (Z * bool)) : Prop :=
  forall i j s s', (i <= j)%nat -> scans !! i = Some s -> scans !! j = Some s' -> s.1 <= s'.1.
(** The accumulator was true in every scan from [j] to [k]. *)
Definition on_from (scans : list (Z * bool)) (j k : nat) : Prop :=
  (j <= k)%nat /\ forall i s, (j <= i <= k)%nat -> scans !! i = Some s -> s.2 = true.
(** It has been true for [preset] milliseconds at scan [k]. *)
Definition on_for (preset : Z) (scans : list (Z * bool)) (k : nat) : Prop :=
  exists j s s', on_from scans j k /\ scans !! j = Some s /\ scans !! k = Some s' /\ preset <= s'.1 - s.1.

Lemma in_order_tail s scans : in_order (s :: scans) -> in_order scans.
Proof. intros Ho i j x y Hij Hx Hy. by apply (Ho (S i) (S j)); [lia|..]. Qed.
Lemma on_from_S s scans j k : on_from (s :: scans) (S j) (S k) <-> on_from scans j k.
Proof.
  split; intros [Hjk Hon]; (split; [lia|]); intros i x Hi Hx.
  - apply (Hon (S i)); [lia|done].
  - destruct i as [|i]; [lia|]. apply (Hon i); [lia|done].
Qed.
Lemma on_from_0 s scans k : on_from (s :: scans) 0 (S k) <-> s.2 = true /\ on_from scans 0 k.
Proof.
  split.
  - intros [_ Hon]. split; [apply (Hon O); [lia|done]|]. split; [lia|]. intros i x Hi Hx. apply (Hon (S i)); [lia|done].
  - intros [Hs [_ Hon]]. split; [lia|]. intros [|i] x Hi Hx; [by cbn in Hx; simplify_eq|]. apply (Hon i); [lia|done].
Qed.

(** A running timer adds the runs that started before the first scan. *)
Definition still_on (preset : Z) (t : timer) (scans : list (Z * bool)) (k : nat) : Prop :=
  tm_active t = true /\ on_from scans 0 k /\ exists s, scans !! k = Some s /\ preset <= s.1 - tm_start_ms t.

Lemma on_for_0 preset s scans : on_for preset (s :: scans) 0 <-> s.2 = true /\ preset <= 0.
Proof.
  split.
  - intros (j & x & x' & [Hj Hon] & Hx & Hx' & Hp). assert (j = O) as -> by lia. cbn in *. simplify_eq.
    split; [apply (Hon O); [lia|done]|lia].
  - intros [Hs Hp]. exists O, s, s. split_and!; try done; [|lia].
    split; [lia|]. intros [|i] x Hi Hx; [by cbn in Hx; simplify_eq|lia].
Qed.
Lemma on_for_S preset s scans k : on_for preset (s :: scans) (S k) <->
  on_for preset scans k \/ (s.2 = true /\ on_from scans 0 k /\ exists s', scans !! k = Some s' /\ preset <= s'.1 - s.1).
Proof.
  split.
  - intros ([|j] & x & x' & Hon & Hx & Hx' & Hp).
    + apply on_from_0 in Hon as [? ?]. cbn in Hx. simplify_eq. right. eauto.
    + left. exists j, x, x'. by rewrite on_from_S in Hon.
  - intros [(j & x & x' & Hon & Hx & Hx' & Hp) | (Hs & Hon & x' & Hx' & Hp)].
    + exists (S j), x, x'. by rewrite on_from_S.
    + exists O, s, x'. by rewrite on_from_0.
Qed.
Lemma still_on_false preset t now scans k : ~ still_on preset t ((now, false) :: scans) k.
Proof. intros (_ & [_ Hon] & _). by specialize (Hon O _ ltac:(lia) eq_refl). Qed.

Lemma ton_outputs preset scans t k :
  in_order scans -> (tm_active t = true -> forall s, scans !! O = Some s -> tm_start_ms t <= s.1) ->
  (scan_all (fun now => ton_scan now preset) scans t !! k = Some true <->
   on_for preset scans k \/ still_on preset t scans k).
Proof.
  revert t k. induction scans as [|[now a] scans IH]; intros t k Hord Hstart.
  { split; [done|]. intros [(j & s & s' & _ & _ & ? & _) | (_ & _ & s & ? & _)]; done. }
  cbn [scan_all]. unfold ton_scan at 1. pose proof (in_order_tail _ _ Hord) as Hord'. destruct a.
  - set (t' := if negb (tm_active t) then _ else t).
    assert (tm_active t' = true) as Hact by (subst t'; by destruct (tm_active t) eqn:E).
    assert (tm_start_ms t' = if tm_active t then tm_start_ms t else now) as Hst by (subst t'; by destruct (tm_active t)).
    clearbody t'. assert (tm_start_ms t' <= now) as Hle.
    { rewrite Hst. destruct (tm_active t); [|lia]. exact (Hstart eq_refl _ eq_refl). }
    destruct k as [|k]; cbn [lookup list_lookup].
    + rewrite on_for_0. cbn [snd]. split.
      * intros [= Hp]. destruct (tm_active t) eqn:E; [right|left; lia].
        split; [done|]. split; [|eexists; split; [reflexivity|cbn; lia]].
        split; [lia|]. intros [|i] x Hi Hx; [by cbn in Hx; simplify_eq|lia].
      * intros [[_ Hp]|(E & _ & s & [= <-] & Hp)]; do 2 f_equal; [lia|]. rewrite E in Hst. cbn in Hp. lia.
    + rewrite on_for_S, (IH t' k Hord').
      * clear IH Hord Hord' Hstart. unfold still_on. rewrite on_from_0, Hact, Hst. cbn [fst snd lookup list_lookup].
        destruct (tm_active t); [|intuition congruence]. split; [tauto|].
        intros [[?|(_ & Hon & s & Hs & Hp)]|?]; [auto| |tauto]. right. split_and!; try done. exists s. split; [done|lia].
      * intros _ s Hs. pose proof (Hord 0%nat 1%nat _ s ltac:(lia) eq_refl Hs). cbn in *. lia.
  - destruct k as [|k]; cbn [lookup list_lookup].
    + rewrite on_for_0. split; [done|]. intros [[? _]|[]%still_on_false]. done.
    + rewrite on_for_S, (IH _ k Hord') by done. split.
      * intros [?|[? _]]; [auto|done].
      * intros [[?|[? _]]|[]%still_on_false]; [auto|done].
Qed.

Section timer_claims.
Context {W N : Type} `{StateApi W} `{Nvs N}.

(** C9: on-delay.  Run by the engine on scans in time order, starting from
    a timer that is not running, TON's output at a scan is true exactly when its
    input has been true, without interruption, in scans spanning at least
    [preset] milliseconds. *)
Theorem ton_on_delay tag preset scans t (w : lw W N) k :
  timer_of tag t (lad w) -> tm_active t = false -> in_order scans ->
  ((timer_scans OP_TON tag preset scans w).1 !! k = Some true <-> on_for preset scans k).
Proof.
  intros Ht Hact Hord. rewrite (timer_scans_outputs OP_TON tag preset scans t w) by auto.
  change (timer_scan OP_TON) with ton_scan. rewrite ton_outputs by (congruence || done).
  unfold still_on. rewrite Hact. intuition congruence.
Qed.

(** The output a TOF last produced, not its input, is what it remembers. *)
Lemma tof_outputs preset scans t k :
  0 < preset -> (k < length scans)%nat -> (tm_active t = true -> tm_last_acc t = true) ->
  (scan_all (fun now => tof_scan now preset) scans t !! k = Some true <->
   tm_last_acc t = true \/ exists j s, (j <= k)%nat /\ scans !! j = Some s /\ s.2 = true).
Proof.
  intros Hp. revert t k. induction scans as [|[now a] scans IH]; intros t k Hk Hinv; cbn [length scan_all] in *; [lia|].
  assert (exists t' out, tof_scan now preset a t = (t', out) /\ out = tm_last_acc t || a /\
    tm_last_acc t' = out /\ (tm_active t' = true -> tm_last_acc t' = true)) as (t' & out & -> & Hout & Hl & Hi).
  { unfold tof_scan. destruct a; [do 2 eexists; split; [reflexivity|]; cbn; by rewrite orb_true_r|].
    destruct (tm_last_acc t) eqn:El; cbn [andb negb orb].
    - cbn. destruct (Z.leb_spec preset (now - now)); [lia|]. by do 2 eexists.
    - destruct (tm_active t) eqn:Ea; [by specialize (Hinv eq_refl)|]. do 2 eexists. split; [reflexivity|]. cbn. by rewrite Ea. }
  destruct k as [|k]; cbn [lookup list_lookup].
  - subst out. split.
    + intros [= [?|?]%orb_true_iff]; [by left|]. right. by exists O, (now, a).
    + intros [-> | (j & s & Hj & Hs & Ha)]; [done|]. assert (j = O) as -> by lia. cbn in Hs. simplify_eq/=. by rewrite orb_true_r.
  - rewrite (IH t' k) by (lia || done). rewrite Hl, Hout. split.
    + intros [[?|?]%orb_true_iff|(j & s & ? & ? & ?)]; [by left|right; exists O, (now, a); split; [lia|done]|].
      right. exists (S j), s. split; [lia|done].
    + intros [-> |([|j] & s & ? & Hs & ?)]; [by left| |].
      * cbn in Hs. simplify_eq/=. left. by rewrite orb_true_r.
      * right. exists j, s. split; [lia|done].
Qed.

(** Off-delay as it is.  With a nonzero preset, once TOF's input has been
    true its output never returns to false: every scan restarts the delay,
    because the edge detector compares the input with the timer's own last
    output. *)
Theorem tof_never_releases tag preset scans t (w : lw W N) k :
  timer_of tag t (lad w) -> tm_active t = false -> 0 < preset -> (k < length scans)%nat ->
  ((timer_scans OP_TOF tag preset scans w).1 !! k = Some true <->
   tm_last_acc t = true \/ exists j s, (j <= k)%nat /\ scans !! j = Some s /\ s.2 = true).
Proof.
  intros Ht Hact Hp Hk. rewrite (timer_scans_outputs OP_TOF tag preset scans t w) by auto.
  change (timer_scan OP_TOF) with tof_scan. apply tof_outputs; try done. by rewrite Hact.
Qed.
End timer_claims.

(** ** The self test and the stored program *)

Section self_test.
Context {W : Type} `{StateApi W}.
Abbreviation keeps_flash f m := (keeps (fun w : lw W flash => lw_nvs w = f) m).

Lemma on_world_flash {A} f (m : st W A) : keeps_flash f (on_world m).
Proof. by apply keeps_on_part. Qed.
Lemma on_lad_flash {A} f (m : st ladder A) : keeps_flash f (on_lad m).
Proof. by apply keeps_on_part. Qed.
#[local] Hint Resolve on_world_flash on_lad_flash : keeps.
Lemma write_tag_flash f tag v : keeps_flash f (write_tag tag v).
Proof. unfold write_tag. keeps. Qed.
#[local] Hint Resolve write_tag_flash : keeps.
Lemma run_round_flash f now v : keeps_flash f (run_round now v).
Proof. unfold run_round, do_timer, do_ton, do_tof, do_counter, do_bit, do_math. keeps. Qed.
Lemma run_loop_flash f fuel now v : keeps_flash f (run_loop fuel now v).
Proof. revert v. induction fuel; intros v; cbn [run_loop]; keeps; auto using run_round_flash. Qed.
Lemma ladder_engine_run_flash f : keeps_flash f ladder_engine_run.
Proof. unfold ladder_engine_run, esp_timer_get_time_ms. keeps; auto using run_loop_flash. by apply keeps_on_part. Qed.
#[local] Hint Resolve ladder_engine_run_flash : keeps.

(** With a program to restore, nothing after the load writes to flash. *)
Lemma self_test_restore_flash f saved : has_program saved && (0 <? bytecode_length saved) = true ->
  keeps_flash f (self_test_restore saved).
Proof. intros Hs. unfold self_test_restore. rewrite Hs. keeps. Qed.

Lemma self_test_restore_lad saved (w : lw W flash) : has_program saved && (0 <? bytecode_length saved) = true ->
  lad (self_test_restore saved w).2 =
    Lad (take (Z.to_nat (bytecode_length saved)) (bytecode saved) ++ drop (Z.to_nat (bytecode_length saved)) (bytecode (lad w)))
      (bytecode_length saved) true (timers (lad w)) (counters (lad w)).
Proof. intros Hs. unfold self_test_restore. rewrite Hs. done. Qed.

Lemma load_program_flash buf (w : lw W flash) : check_program buf = ESP_OK ->
  lw_nvs (ladder_engine_load_program buf w).2 = Some buf.
Proof. intros Hc. unfold ladder_engine_load_program. rewrite Hc. by rewrite !run_bind_surj. Qed.

(** Every path of the self test ends by restoring what it saved, with the test
    program in flash. *)
Definition ends_restored (saved : ladder) (m : st (lw W flash) bool) : Prop :=
  forall w, lw_nvs w = Some test_prog -> exists b w',
    m w = (b, (self_test_restore saved w').2) /\ lw_nvs w' = Some test_prog.
Lemma ends_restore saved b : ends_restored saved (self_test_restore saved;; mret b).
Proof. intros w Hw. exists b, w. by rewrite run_bind_surj. Qed.
Lemma ends_bind {A} saved (m : st (lw W flash) A) k :
  keeps_flash (Some test_prog) m -> (forall a, ends_restored saved (k a)) -> ends_restored saved (m ≫= k).
Proof. intros Hm Hk w Hw. rewrite run_bind_surj. by apply Hk, Hm. Qed.
Lemma ends_if saved (c : bool) m1 m2 :
  ends_restored saved m1 -> ends_restored saved m2 -> ends_restored saved (if c then m1 else m2).
Proof. by destruct c. Qed.

Lemma self_test_ends (w : lw W flash) : exists b w',
  ladder_engine_run_self_test w = (b, (self_test_restore (lad w) w').2) /\ lw_nvs w' = Some test_prog.
Proof.
  unfold ladder_engine_run_self_test. run. rewrite run_bind_surj.
  assert (check_program test_prog = ESP_OK) as Hc by (vm_compute; reflexivity).
  pose proof (load_program_flash test_prog w Hc) as Hf.
  rewrite (load_program_err test_prog w Hc). rewrite bool_decide_eq_false_2 by auto.
  revert Hf. generalize (ladder_engine_load_program test_prog w).2.
  change (ends_restored (lad w)
    (write_tag (ENDAP_INPUT_ID 0) 0;; write_tag (ENDAP_OUTPUT_ID 0) 1;; ladder_engine_run;;
     ok0 ← gets (fun w => default (-1) (state_get_int (ENDAP_OUTPUT_ID 0) (lw_world w)) =? 0);
     if negb ok0 then self_test_restore (lad w);; mret false
     else
       ok1 ← self_test_scan 1 1;
       if negb ok1 then self_test_restore (lad w);; mret false
       else
         ok2 ← self_test_scan 0 0;
         if negb ok2 then self_test_restore (lad w);; mret false
         else self_test_restore (lad w);; mret true)).
  repeat first [apply ends_restore | apply ends_if | apply ends_bind; [|intros ?]];
    unfold self_test_scan; keeps.
Qed.

Lemma get_program_prefix buf l (w : lw W flash) :
  lad w = l -> has_program l = true -> bytecode_length l = Z.of_nat (length buf) -> (length buf <= 2048)%nat ->
  take (length buf) (bytecode l) = buf -> ladder_engine_get_program 2048 w = buf.
Proof.
  intros <- Hp Hl Hlen Htake. unfold ladder_engine_get_program. rewrite Hp, Hl. cbn [negb orb].
  change (2048 =? 0) with false. cbv iota. destruct (Z.ltb_spec (Z.of_nat (length buf)) 2048).
  - by rewrite Nat2Z.id.
  - by replace (Z.to_nat 2048) with (length buf) by lia.
Qed.

(** The boot self test replaces the stored program.  A user program loaded
    before the self test is still in RAM after it, but flash holds the
    three-instruction test program, which the next boot loads and runs
    instead. *)
Theorem self_test_overwrites_flash user (w : lw W flash) :
  check_program user = ESP_OK ->
  let loaded := (ladder_engine_load_program user w).2 in
  let tested := (ladder_engine_run_self_test loaded).2 in
  let rebooted := (ladder_engine_init tested).2 in
  ladder_engine_get_program 2048 (ladder_engine_init loaded).2 = user /\
  ladder_engine_get_program 2048 tested = user /\
  ladder_engine_get_program 2048 rebooted = test_prog.
Proof.
  intros Hc loaded tested rebooted. subst tested rebooted.
  destruct (check_program_length _ Hc) as [Hlen _].
  pose proof (load_program_flash user w Hc) as Hf. fold loaded in Hf.
  assert (lad loaded = install user ladder_cleared) as Hlad by exact (load_program_lad user w Hc).
  assert (forall (buf : list Z) (w : lw W flash), lw_nvs w = Some buf -> 1 <= Z.of_nat (length buf) <= 2048 ->
    ladder_engine_get_program 2048 (ladder_engine_init w).2 = buf) as Hinit.
  { intros buf w0 Hb Hl. apply (get_program_prefix buf (install buf ladder_cleared)); try done; [|lia|apply take_app_length].
    unfold ladder_engine_init. run. cbn [lw_nvs update nvs_get_blob flash_nvs]. rewrite Hb.
    replace ((0 <? Z.of_nat (length buf)) && (Z.of_nat (length buf) <=? LADDER_MAX_PROGRAM_SIZE)) with true
      by (unfold LADDER_MAX_PROGRAM_SIZE; lia). done. }
  split; [by apply Hinit; [|lia]|].
  destruct (self_test_ends loaded) as (b & w' & -> & Hflash). cbn [snd].
  assert (has_program (lad loaded) && (0 <? bytecode_length (lad loaded)) = true) as Hs.
  { rewrite Hlad. unfold install. cbn [has_program bytecode_length update]. lia. }
  split.
  - eapply (get_program_prefix user); [by apply self_test_restore_lad| | |lia|];
      cbn [has_program bytecode_length bytecode]; rewrite ?Hlad; try done.
    unfold install. cbn [bytecode_length bytecode update]. rewrite Nat2Z.id.
    rewrite (take_app_length' user) by done. apply take_app_length.
  - apply Hinit; [by apply self_test_restore_flash|]. cbn. lia.
Qed.
End self_test.

(** ** Concrete runs *)

Definition lw_boot : lw store flash := Lw ladder_cleared store_boot None (Clock (fun k => 1000 * Z.of_nat k) 0).

Lemma loaded_program_meaning_witness : exists il,
  program_of il (drop 5 test_prog) /\
  ladder_engine_get_program 2048 (ladder_engine_load_program test_prog lw_boot).2 = test_prog.
Proof.
  destruct (loaded_program_meaning test_prog lw_boot (ladder_engine_load_program test_prog lw_boot).2) as (il & Hil & Hget & _).
  - apply (bool_decide_unpack _). vm_compute. exact I.
  - rewrite (surjective_pairing (ladder_engine_load_program test_prog lw_boot)) at 1. apply (f_equal2 pair); [|done].
    vm_compute. reflexivity.
  - by exists il.
Defined.

(** X0 AND (X1 OR NOT X2) drives Y0. *)
Definition demo_circuit : circuit := Block (More (Contact false 11) (Last (Contact true 12))).
Lemma rung_correct_witness : exists w',
  ladder_engine_load_program (assemble (rung false 10 demo_circuit 100)) lw_boot = (ESP_OK, w') /\
  lw_world (ladder_engine_run (lw_boot <| lad := lad w' |>)).2 = (state_set_int 100 0 store_boot).2.
Proof.
  destruct (rung_correct false 10 demo_circuit 100 lw_boot) as (w' & Hload & Hrun);
    [lia|cbn; lia|lia|cbn; lia|apply (bool_decide_unpack _); vm_compute; exact I|].
  exists w'. split; [exact Hload|].
  match goal with |- lw_world (ladder_engine_run ?w).2 = _ => exact (Hrun w eq_refl) end.
Defined.

Ltac in_order_list := intros [|[|[|i]]] [|[|[|j]]] s s' ???; simplify_eq/=; lia.

Lemma ton_on_delay_witness :
  let scans := [(0, true); (500, true); (1000, true)] in
  (timer_scans OP_TON 40 1000 scans lw_boot).1 !! 2%nat = Some true <-> on_for 1000 scans 2.
Proof.
  intros scans. apply (ton_on_delay 40 1000 scans (Timer 40 false false 0) lw_boot 2).
  - split; [done|]. right. by split.
  - done.
  - unfold scans. in_order_list.
Defined.

Lemma tof_never_releases_witness :
  (timer_scans OP_TOF 40 500 [(0, true); (1000, false); (100000, false)] lw_boot).1 !! 2%nat = Some true.
Proof.
  apply (tof_never_releases 40 500 _ (Timer 40 false false 0) lw_boot 2).
  - split; [done|]. right. by split.
  - done.
  - lia.
  - cbn. lia.
  - right. exists O, (0, true). split; [lia|done].
Defined.

Lemma self_test_overwrites_flash_witness :
  let user := assemble (rung false 11 Wire 101) in
  let loaded := (ladder_engine_load_program user lw_boot).2 in
  ladder_engine_get_program 2048 (ladder_engine_run_self_test loaded).2 = user /\
  ladder_engine_get_program 2048 (ladder_engine_init (ladder_engine_run_self_test loaded).2).2 = test_prog.
Proof. apply (self_test_overwrites_flash (assemble (rung false 11 Wire 101)) lw_boot). vm_compute. reflexivity. Defined.
