(* ===== verification/Cluster.v ===== *)
(** * The cluster: membership, ownership of inputs and outputs, failover
    ([components/cluster/cluster_manager.c], [cluster_io.c],
     [cluster_failover.c], [cluster_events.c], [protocol.c])

    The manager watches the heartbeats of at most ten nodes and elects the
    lowest identifier that is online.  The ownership table says which node
    drives each input and output; the master takes over those of a node that
    goes offline and gives them back when it returns. *)

From S2P Require Import Prelude Persist EventBus State Failsafe.

Definition MAX_NODES : Z := 10.
Definition HEARTBEAT_TIMEOUT_MS : Z := 3000.
Definition SUSPECT_TIMEOUT_MS : Z := 6000.
Definition CLUSTER_MANAGER_TICK_MS : Z := 1000.
Definition MAX_IO : Z := 256.

Inductive cluster_node_state := CLUSTER_NODE_ONLINE | CLUSTER_NODE_SUSPECT | CLUSTER_NODE_OFFLINE.
#[export] Instance cluster_node_state_eq_dec : EqDecision cluster_node_state.
Proof. solve_decision. Defined.
Inductive cluster_event_type := EVENT_NODE_ONLINE | EVENT_NODE_SUSPECT | EVENT_NODE_OFFLINE | EVENT_NODE_DISCOVERED.

(** [cluster_node_t]; the signal strength is never written here. *)
Record cluster_node := ClusterNode { cn_id : Z; cn_last_seen_ms : Z; cn_state : cluster_node_state }.
#[export] Instance cluster_node_rebuild : Rebuild cluster_node := fun n =>
  ClusterNode (cn_id n) (cn_last_seen_ms n) (cn_state n).
Definition cluster_node_zero : cluster_node := ClusterNode 0 0 CLUSTER_NODE_ONLINE.
Record cluster_event := ClusterEvent { ce_node : Z; ce_type : cluster_event_type }.

(** The variables of [cluster_manager.c]. *)
Record manager := Manager {
  nodes : list cluster_node;
  cluster_manager_started : bool;
  self_node_id : Z;
  cluster_manager_last_run_ms : Z;
}.
#[export] Instance manager_rebuild : Rebuild manager := fun m =>
  Manager (nodes m) (cluster_manager_started m) (self_node_id m) (cluster_manager_last_run_ms m).

(** [cluster_io_entry_t] and the table of [cluster_io.c]. *)
Record io_entry := IoEntry { io_id : Z; owner : Z; original_owner : Z; io_valid : bool }.
#[export] Instance io_entry_rebuild : Rebuild io_entry := fun e =>
  IoEntry (io_id e) (owner e) (original_owner e) (io_valid e).
Definition io_entry_zero : io_entry := IoEntry 0 0 0 false.
Record cluster_io := ClusterIo { io_table : list io_entry; io_self : Z }.
#[export] Instance cluster_io_rebuild : Rebuild cluster_io := fun c => ClusterIo (io_table c) (io_self c).

(** [protocol_msg_t]: the two message types. *)
Inductive protocol_msg :=
| PROTOCOL_MSG_CLUSTER_IO_UPDATE (id new_owner orig : Z)
| PROTOCOL_MSG_OUTPUT_COMMAND (target requester id value : Z).

(** ** What the cluster asks of the rest of the firmware *)

Class NodeRegistryApi (W : Type) := {
  node_registry_is_known : Z -> W -> bool;
  node_registry_is_operational : Z -> W -> bool;
  node_registry_is_gateway : Z -> W -> bool;   (* exported with profile "gateway" *)
}.
Class FailsafeApi (W : Type) := {
  guard_command : Z -> Z -> st W (bool * Z);   (* failsafe_guard_command and its output *)
  apply_all : Z -> st W Z;                     (* failsafe_apply_for_reason_all *)
}.

(** The fail-safe component implements it; the output of a refused command for
    an unknown identifier is the caller's own value. *)
#[export] Instance failsafe_api {W N} `{StateApi W} `{Nvs N} : FailsafeApi (fsw W N) := {
  guard_command id v := r ← failsafe_guard_command id v; mret (r.1.1, default v r.1.2);
  apply_all reason := failsafe_apply_for_reason_all reason;
}.

#[export] Instance fsw_state {W N} `{StateApi W} : StateApi (fsw W N) := {
  state_get_int id w := state_get_int id (fs_world w);
  state_set_int id v := on_part fs_world (fun s w => w <| fs_world := s |>) (state_set_int id v);
}.

(** What the guard promises: it reads nothing but the policies, and a value
    that is already 0 or 1 is what the caller may write. *)
Class FailsafeLaws (W : Type) `{StateLaws W} `{FailsafeApi W} := {
  guard_reads id v id' w : state_get_int id' (guard_command id v w).2 = state_get_int id' w;
  guard_inv id v w : state_inv w -> state_inv (guard_command id v w).2;
  guard_value id v w : v = 0 \/ v = 1 -> (guard_command id v w).1.1 = true -> (guard_command id v w).1.2 = v;
  guard_again id v id' v' w : (guard_command id v (guard_command id' v' w).2).1.1 = (guard_command id v w).1.1;
  guard_after_set id v id' v' w : (guard_command id v (state_set_int id' v' w).2).1.1 = (guard_command id v w).1.1;
}.

#[export] Program Instance fsw_laws {W N} `{StateLaws W} : StateLaws (fsw W N) := {
  state_inv w := state_inv (fs_world w);
}.
Next Obligation. intros W N ? ? id w Hw Hid. exact (state_get_valid id (fs_world w) Hw Hid). Qed.
Next Obligation.
  intros W N ? ? id v w Hw Hv. cbn [state_set_int fsw_state]. unfold on_part.
  pose proof (state_set_inv id v (fs_world w) Hw Hv). by destruct (state_set_int id v (fs_world w)).
Qed.
Next Obligation.
  intros W N ? ? id v w. cbn [state_set_int fsw_state]. unfold on_part.
  rewrite <- (state_set_result id v (fs_world w)). by destruct (state_set_int id v (fs_world w)).
Qed.
Next Obligation.
  intros W N ? ? id v w Hid. cbn [state_set_int fsw_state]. unfold on_part.
  rewrite (state_set_invalid id v _ Hid). by destruct w.
Qed.
Next Obligation.
  intros W N ? ? id v w Hw Hid Hv. cbn [state_set_int state_get_int fsw_state] in *. unfold on_part.
  rewrite <- (state_get_set_eq id v (fs_world w) Hw Hid Hv). by destruct (state_set_int id v (fs_world w)).
Qed.
Next Obligation.
  intros W N ? ? id id' v w Hid Hid' Hne. cbn [state_set_int state_get_int fsw_state]. unfold on_part.
  rewrite <- (state_get_set_ne id id' v (fs_world w) Hid Hid' Hne). by destruct (state_set_int id v (fs_world w)).
Qed.
Next Obligation.
  intros W N ? ? id v w Hv. cbn [state_set_int state_get_int fsw_state] in *. unfold on_part.
  rewrite (state_set_same id v _ Hv). by destruct w.
Qed.

#[export] Program Instance failsafe_laws {W N} `{StateLaws W} `{Nvs N} : FailsafeLaws (fsw W N).
Next Obligation.
  intros W N ? ? ? id v id' w. cbn [guard_command failsafe_api]. run. unfold failsafe_guard_command, fs_upd. run. repeat case_match; run; done.
Qed.
Next Obligation.
  intros W N ? ? ? id v w Hw. cbn [guard_command failsafe_api]. run. unfold failsafe_guard_command, fs_upd. run. repeat case_match; run; done.
Qed.
Next Obligation.
  intros W N ? ? ? id v w Hv. cbn [guard_command failsafe_api]. run. unfold failsafe_guard_command, fs_upd, failsafe_binary_value. run.
  repeat case_match; run; cbn; intros; try done; destruct Hv as [-> | ->]; done.
Qed.
Next Obligation.
  intros W N ? ? ? id v id' v' w.
  assert (forall x : fsw W N, (guard_command id v x).1.1 =
    from_option (fun e => negb (negb (enabled (fe_policy e) =? 0) && active e && latches e)) false (entry_of id (fs x))) as Hg.
  { intros x. cbn [guard_command failsafe_api]. rewrite run_bind_surj. unfold failsafe_guard_command. run.
    destruct (entry_of id (fs x)) as [e|]; [|done]. cbv zeta. cbn [from_option]. destruct (_ && _ && _); done. }
  rewrite !Hg. cbn [guard_command failsafe_api]. rewrite run_bind_surj. unfold failsafe_guard_command, fs_upd. run.
  destruct (entry_of id' (fs w)) as [e'|] eqn:He'; [|done]. cbv zeta. destruct (_ && _ && _); [done|]. run. cbn [snd fst fs update].
  unfold upd_entry, entry_of, failsafe_find in *. cbn [entries update].
  destruct (find_idx (fun e => output_id (fe_policy e) =? id') (entries (fs w))) as [i|] eqn:Hi; [|done].
  cbn [entries update]. match goal with |- context [alter ?f i _] => set (g := f) end.
  assert (find_idx (fun e => output_id (fe_policy e) =? id) (alter g i (entries (fs w))) =
          find_idx (fun e => output_id (fe_policy e) =? id) (entries (fs w))) as ->.
  { rewrite <- !(find_idx_fmap (fun e => output_id (fe_policy e)) (fun o => o =? id)). f_equal. by apply fmap_alter_same. }
  destruct (find_idx (fun e => output_id (fe_policy e) =? id) (entries (fs w))) as [j|]; [|done]. cbn [mbind option_bind].
  destruct (decide (i = j)) as [->|]; [|by rewrite list_lookup_alter_ne].
  rewrite list_lookup_alter_eq. by destruct (entries (fs w) !! j).
Qed.
Next Obligation.
  intros W N ? ? ? id v id' v' w. cbn [guard_command failsafe_api state_set_int fsw_state]. rewrite !run_bind_surj.
  unfold failsafe_guard_command, on_part. run. destruct (state_set_int id' v' (fs_world w)) as [b x]. cbn [snd fs update].
  destruct (entry_of id (fs w)) as [e|]; [|done]. cbv zeta. destruct (_ && _ && _); done.
Qed.

(** The cluster, the messages handed to the transport (last first), the clock
    and the rest. *)
Record cw {W : Type} := Cw {
  mgr : manager;
  cio : cluster_io;
  failover_self : Z;
  failover_started : bool;
  outbox : list protocol_msg;
  cw_clock : clock;
  cw_world : W;
}.
Arguments cw : clear implicits.
Arguments Cw {W}.
#[export] Instance cw_rebuild {W} : Rebuild (cw W) := fun w =>
  Cw (mgr w) (cio w) (failover_self w) (failover_started w) (outbox w) (cw_clock w) (cw_world w).

(** ** Queries *)

Definition cluster_manager_state_from_age (age_ms : Z) : cluster_node_state :=
  if SUSPECT_TIMEOUT_MS <? age_ms then CLUSTER_NODE_OFFLINE
  else if HEARTBEAT_TIMEOUT_MS <? age_ms then CLUSTER_NODE_SUSPECT
  else CLUSTER_NODE_ONLINE.

Definition find_node (id : Z) (ns : list cluster_node) : option nat := find_idx (fun n => cn_id n =? id) ns.

(** The least identifier online; 0 when there is none. *)
Definition cluster_get_master_node (ns : list cluster_node) : Z :=
  foldl (fun master n =>
    if (cn_id n =? 0) || negb (bool_decide (cn_state n = CLUSTER_NODE_ONLINE)) then master
    else if (master =? 0) || (cn_id n <? master) then cn_id n else master) 0 ns.

Definition cluster_manager_export_nodes (max_nodes : nat) (ns : list cluster_node) : list cluster_node :=
  take max_nodes (filter (fun n => cn_id n <> 0) ns).

(** [cluster_metrics_t]; the health sum counts 100 for every node. *)
Record cluster_metrics := ClusterMetrics {
  met_active : Z; met_total : Z; met_online : Z; met_suspect : Z; met_offline : Z;
  met_avg_health : Z; met_self : Z; met_master : Z;
}.
Definition count_state (s : cluster_node_state) (ns : list cluster_node) : Z :=
  Z.of_nat (length (filter (fun n => cn_id n <> 0 /\ cn_state n = s) ns)).
Definition cluster_get_metrics (m : manager) : cluster_metrics :=
  let ns := nodes m in
  let total := Z.of_nat (length (filter (fun n => cn_id n <> 0) ns)) in
  ClusterMetrics (if cluster_manager_started m then 1 else 0) total
    (count_state CLUSTER_NODE_ONLINE ns) (count_state CLUSTER_NODE_SUSPECT ns) (count_state CLUSTER_NODE_OFFLINE ns)
    (if 0 <? total then total * 100 / total else 0) (self_node_id m) (cluster_get_master_node ns).

Definition find_io (id : Z) (c : cluster_io) : option nat :=
  find_idx (fun e => io_valid e && (io_id e =? id)) (io_table c).
Definition io_of (id : Z) (c : cluster_io) : option io_entry := i ← find_io id c; io_table c !! i.
Definition cluster_io_is_local (id : Z) (c : cluster_io) : bool :=
  if io_self c =? 0 then true
  else match io_of id c with None => true | Some e => owner e =? io_self c end.
Definition cluster_io_get_owner (id : Z) (c : cluster_io) : Z :=
  match io_of id c with None => io_self c | Some e => owner e end.
Definition cluster_io_get_original_owner (id : Z) (c : cluster_io) : Z :=
  match io_of id c with None => io_self c | Some e => original_owner e end.

(** ** The ownership table *)

(** Find the entry, or take the first free one for this node. *)
Definition cluster_io_allocate (id : Z) (c : cluster_io) : option nat * cluster_io :=
  match find_io id c with
  | Some i => (Some i, c)
  | None =>
    match find_idx (fun e => negb (io_valid e)) (io_table c) with
    | Some i => (Some i, c <| io_table := <[i := IoEntry id (io_self c) (io_self c) true]> (io_table c) |>)
    | None => (None, c)
    end
  end.
Definition put_io (i : nat) (e : io_entry) (c : cluster_io) : cluster_io :=
  c <| io_table := <[i := e]> (io_table c) |>.

Definition cluster_io_init (id : Z) : cluster_io := ClusterIo (replicate 256 io_entry_zero) id.
Definition cluster_io_register_local (id : Z) (c : cluster_io) : cluster_io :=
  if id =? 0 then c
  else match cluster_io_allocate id c with
       | (None, c) => c
       | (Some i, c) => put_io i (IoEntry id (io_self c) (io_self c) true) c
       end.
Definition cluster_io_set_owner (id own orig : Z) (c : cluster_io) : cluster_io :=
  match cluster_io_allocate id c with
  | (None, c) => c
  | (Some i, c) => put_io i (IoEntry id own orig true) c
  end.

Definition update_msg (e : io_entry) : protocol_msg :=
  PROTOCOL_MSG_CLUSTER_IO_UPDATE (u16 (io_id e)) (owner e) (original_owner e).

(** One round of the takeover and of the failback loop: the entry, and whether
    it changed and is announced. *)
Definition takeover (self failed : Z) (e : io_entry) : io_entry * bool :=
  if io_valid e && (owner e =? failed) then (e <| owner := self |>, true) else (e, false).
Definition giveback (self node : Z) (e : io_entry) : io_entry * bool :=
  if io_valid e && (original_owner e =? node) && (owner e =? self) then (e <| owner := node |>, true) else (e, false).

(** ** The manager *)

Definition get_or_create_node (id : Z) (ns : list cluster_node) : option nat * list cluster_node :=
  match find_node id ns with
  | Some i => (Some i, ns)
  | None =>
    match find_node 0 ns with
    | Some i => (Some i, <[i := ClusterNode id 0 CLUSTER_NODE_OFFLINE]> ns)
    | None => (None, ns)
    end
  end.

(** One round of the refresh: the node and its event. *)
Definition refresh_node (self now : Z) (n : cluster_node) : cluster_node * option cluster_event :=
  if (cn_id n =? 0) || (cn_last_seen_ms n =? 0) then (n, None)
  else if cn_id n =? self then (n <| cn_last_seen_ms := now |> <| cn_state := CLUSTER_NODE_ONLINE |>, None)
  else
    let s := cluster_manager_state_from_age (u32 (now - cn_last_seen_ms n)) in
    (n <| cn_state := s |>,
     if decide (cn_state n = s) then None
     else Some (ClusterEvent (cn_id n)
            match s with
            | CLUSTER_NODE_ONLINE => EVENT_NODE_ONLINE
            | CLUSTER_NODE_SUSPECT => EVENT_NODE_SUSPECT
            | CLUSTER_NODE_OFFLINE => EVENT_NODE_OFFLINE
            end)).

(** The events fit their buffer: there are as many slots as nodes. *)
Definition cluster_manager_refresh_nodes (self now : Z) (ns : list cluster_node) : list cluster_node * list cluster_event :=
  (fst <$> (refresh_node self now <$> ns), omap snd (refresh_node self now <$> ns)).

(** ** Handlers *)

Section cluster.
Context {W : Type} `{StateApi W} `{NodeRegistryApi W} `{FailsafeApi W}.
Implicit Types w : cw W.

Definition on_mgr (f : manager -> manager) : st (cw W) () := modify (fun w => w <| mgr := f (mgr w) |>).
Definition on_cio (f : cluster_io -> cluster_io) : st (cw W) () := modify (fun w => w <| cio := f (cio w) |>).
Definition cw_on_world {A} (m : st W A) : st (cw W) A := on_part cw_world (fun v w => w <| cw_world := v |>) m.
Definition outbox_add (m : protocol_msg) : st (cw W) () :=
  modify (fun w => w <| outbox := m :: outbox w |>).
(** [(uint32_t)(esp_timer_get_time() / 1000)] *)
Definition now_ms : st (cw W) Z :=
  t ← on_part cw_clock (fun c w => w <| cw_clock := c |>) clock_read; mret (u32 (t / 1000)).

Fixpoint broadcast_all (ms : list protocol_msg) : st (cw W) () :=
  match ms with
  | [] => mret tt
  | m :: ms => outbox_add m;; broadcast_all ms
  end.
(** A loop over the table that announces the entries it changes. *)
Definition sweep (f : io_entry -> io_entry * bool) : st (cw W) () :=
  w ← gets (fun w => w);
  on_cio (fun c => c <| io_table := fst <$> (f <$> io_table c) |>);;
  broadcast_all (omap (fun r : io_entry * bool => if r.2 then Some (update_msg r.1) else None) (f <$> io_table (cio w))).

Definition cluster_io_sync_all : st (cw W) () :=
  w ← gets (fun w => w);
  broadcast_all (update_msg <$> filter (fun e : io_entry => io_valid e = true) (io_table (cio w))).

Definition cluster_io_handle_node_offline (failed : Z) : st (cw W) () :=
  w ← gets (fun w => w);
  if negb (io_self (cio w) =? cluster_get_master_node (nodes (mgr w))) then mret tt
  else sweep (takeover (io_self (cio w)) failed).

Definition cluster_io_handle_node_online (node : Z) : st (cw W) () :=
  w ← gets (fun w => w);
  sweep (giveback (io_self (cio w)) node);;
  cluster_io_sync_all.

Definition cluster_io_sync_state_to_node (node : Z) : st (cw W) () :=
  w ← gets (fun w => w);
  if node =? io_self (cio w) then mret tt
  else broadcast_all (omap (fun e =>
    if io_valid e && (owner e =? node)
    then (fun v => PROTOCOL_MSG_OUTPUT_COMMAND node (io_self (cio w)) (u16 (io_id e)) v) <$> state_get_int (io_id e) (cw_world w)
    else None) (io_table (cio w))).

Definition cluster_io_node_is_operational (id : Z) w : bool :=
  if (id =? 0) || (id =? io_self (cio w)) then true else node_registry_is_operational id (cw_world w).

Definition cluster_io_handle_update (id new_owner orig : Z) : st (cw W) () :=
  w ← gets (fun w => w);
  if negb (cluster_io_node_is_operational new_owner w) || negb (cluster_io_node_is_operational orig w) then mret tt
  else
    on_cio (fun c =>
      match cluster_io_allocate id c with
      | (None, c) => c
      | (Some i, c) =>
        let e := default io_entry_zero (io_table c !! i) in
        if io_valid e && (original_owner e =? io_self c) && negb (orig =? io_self c) then c
        else if (owner e =? new_owner) && (original_owner e =? orig) then c
        else put_io i (IoEntry id new_owner orig true) c
      end).

(** *** Failover *)

Definition cluster_failover_apply_local_failsafe_if_gateway_lost (node reason : Z) : st (cw W) () :=
  w ← gets (fun w => w);
  if node =? failover_self w then mret tt
  else if negb (node_registry_is_gateway node (cw_world w)) then mret tt
  else cw_on_world (apply_all reason);; mret tt.

Definition cluster_failover_event_handler (evt : cluster_event) : st (cw W) () :=
  w ← gets (fun w => w);
  match ce_type evt with
  | EVENT_NODE_OFFLINE =>
    if ce_node evt =? failover_self w then mret tt
    else
      cluster_failover_apply_local_failsafe_if_gateway_lost (ce_node evt) FAILSAFE_REASON_NODE_OFFLINE;;
      cluster_io_handle_node_offline (ce_node evt)
  | EVENT_NODE_ONLINE =>
    if ce_node evt =? failover_self w then mret tt
    else
      cluster_io_handle_node_online (ce_node evt);;
      cluster_io_sync_state_to_node (ce_node evt)
  | EVENT_NODE_SUSPECT =>
    cluster_failover_apply_local_failsafe_if_gateway_lost (ce_node evt) FAILSAFE_REASON_COMM_LOSS
  | EVENT_NODE_DISCOVERED => mret tt
  end.

Definition cluster_failover_init (self : Z) : st (cw W) () :=
  w ← gets (fun w => w);
  if failover_started w then modify (fun w => w <| failover_self := self |>)
  else modify (fun w => w <| failover_self := self |> <| cio := cluster_io_init self |> <| failover_started := true |>).

(** The failover handler is the one subscriber, from its initialization on. *)
Definition cluster_publish_event (evt : cluster_event) : st (cw W) () :=
  w ← gets (fun w => w);
  if failover_started w then cluster_failover_event_handler evt else mret tt.
Fixpoint cluster_manager_publish_events (evts : list cluster_event) : st (cw W) () :=
  match evts with
  | [] => mret tt
  | e :: evts => cluster_publish_event e;; cluster_manager_publish_events evts
  end.

(** *** The manager *)

Definition cluster_manager_start (self : Z) : st (cw W) () :=
  w ← gets (fun w => w);
  if cluster_manager_started (mgr w) then mret tt
  else
    now ← now_ms;
    let ns := replicate 10 cluster_node_zero in
    let ns := match get_or_create_node self ns with
              | (Some i, ns) => alter (fun n => n <| cn_last_seen_ms := now |> <| cn_state := CLUSTER_NODE_ONLINE |>) i ns
              | (None, ns) => ns
              end in
    on_mgr (fun _ => Manager ns true self 0).

(** A heartbeat of another node. *)
Definition cluster_manager_update_node (id : Z) : st (cw W) () :=
  w ← gets (fun w => w);
  match get_or_create_node id (nodes (mgr w)) with
  | (None, _) => mret tt
  | (Some i, ns) =>
    let old := default cluster_node_zero (ns !! i) in
    let known_before := negb (cn_last_seen_ms old =? 0) in
    now ← now_ms;
    on_mgr (fun m => m <| nodes := alter (fun n => n <| cn_last_seen_ms := now |> <| cn_state := CLUSTER_NODE_ONLINE |>) i ns |>);;
    (if negb (id =? self_node_id (mgr w)) && negb (bool_decide (cn_state old = CLUSTER_NODE_ONLINE))
     then cluster_publish_event (ClusterEvent id EVENT_NODE_ONLINE) else mret tt);;
    (if bool_decide (cn_state old = CLUSTER_NODE_OFFLINE) && negb known_before
     then cluster_publish_event (ClusterEvent id EVENT_NODE_DISCOVERED) else mret tt)
  end.

Definition cluster_manager_remove_node (id : Z) : st (cw W) () :=
  on_mgr (fun m =>
    match find_node id (nodes m) with
    | Some i => if negb (id =? 0) && negb (id =? self_node_id m)
                then m <| nodes := <[i := cluster_node_zero]> (nodes m) |> else m
    | None => m
    end).

(** Two readings of the clock: the tick and the refresh. *)
Definition cluster_manager_process : st (cw W) () :=
  w ← gets (fun w => w);
  if negb (cluster_manager_started (mgr w)) then mret tt
  else
    now ← now_ms;
    if negb (cluster_manager_last_run_ms (mgr w) =? 0)
       && (u32 (now - cluster_manager_last_run_ms (mgr w)) <? CLUSTER_MANAGER_TICK_MS)
    then mret tt
    else
      now2 ← now_ms;
      let '(ns, evts) := cluster_manager_refresh_nodes (self_node_id (mgr w)) now2 (nodes (mgr w)) in
      on_mgr (fun m => m <| cluster_manager_last_run_ms := now |> <| nodes := ns |>);;
      cluster_manager_publish_events evts.
End cluster.

(** ** Running the handlers *)

Section running.
Context {W : Type} `{StateApi W} `{NodeRegistryApi W} `{FailsafeApi W}.
Implicit Types w : cw W.

Lemma broadcast_all_run ms w : broadcast_all ms w = (tt, w <| outbox := rev ms ++ outbox w |>).
Proof.
  revert w. induction ms as [|m ms IH]; intros w; cbn [broadcast_all]; [by destruct w|].
  unfold outbox_add. rewrite run_bind_modify, IH. cbn [outbox update rev].
  by rewrite <- app_assoc.
Qed.

(** The entries a sweep changes, as announced. *)
Definition announced (f : io_entry -> io_entry * bool) (t : list io_entry) : list protocol_msg :=
  omap (fun r : io_entry * bool => if r.2 then Some (update_msg r.1) else None) (f <$> t).
Definition swept (f : io_entry -> io_entry * bool) (c : cluster_io) : cluster_io :=
  c <| io_table := fst <$> (f <$> io_table c) |>.
Lemma sweep_run f w : sweep f w = (tt, w <| cio := swept f (cio w) |> <| outbox := rev (announced f (io_table (cio w))) ++ outbox w |>).
Proof. unfold sweep, on_cio. by rewrite run_bind_gets, run_bind_modify, broadcast_all_run. Qed.

(** The fail-safe of a lost gateway only touches the rest of the firmware. *)
Lemma gateway_lost_run node reason w : exists v,
  cluster_failover_apply_local_failsafe_if_gateway_lost node reason w = (tt, w <| cw_world := v |>).
Proof.
  unfold cluster_failover_apply_local_failsafe_if_gateway_lost. rewrite run_bind_gets.
  destruct (node =? failover_self w); [exists (cw_world w); by destruct w|].
  destruct (node_registry_is_gateway _ _); cbn [negb]; [|exists (cw_world w); by destruct w].
  unfold cw_on_world, on_part. rewrite run_bind_surj. destruct (apply_all reason (cw_world w)) as [r v]. by exists v.
Qed.

Lemma offline_run node w :
  io_self (cio w) = failover_self w -> node <> failover_self w ->
  cluster_get_master_node (nodes (mgr w)) = failover_self w -> exists v,
  cluster_failover_event_handler (ClusterEvent node EVENT_NODE_OFFLINE) w =
    (tt, w <| cw_world := v |> <| cio := swept (takeover (failover_self w) node) (cio w) |>
           <| outbox := rev (announced (takeover (failover_self w) node) (io_table (cio w))) ++ outbox w |>).
Proof.
  intros Hself Hne Hm. unfold cluster_failover_event_handler. rewrite run_bind_gets. cbn [ce_type ce_node].
  destruct (Z.eqb_spec node (failover_self w)); [done|].
  destruct (gateway_lost_run node FAILSAFE_REASON_NODE_OFFLINE w) as [v Hv]. exists v.
  rewrite (run_bind_eq _ _ _ _ _ Hv). unfold cluster_io_handle_node_offline. rewrite run_bind_gets.
  cbn [cio mgr update]. rewrite Hself, Hm, Z.eqb_refl. cbn [negb]. by rewrite sweep_run.
Qed.

Lemma online_cio node w : node <> failover_self w ->
  let w' := (cluster_failover_event_handler (ClusterEvent node EVENT_NODE_ONLINE) w).2 in
  cio w' = swept (giveback (io_self (cio w)) node) (cio w) /\ mgr w' = mgr w /\
  failover_self w' = failover_self w /\ failover_started w' = failover_started w.
Proof.
  intros Hne w'. subst w'. unfold cluster_failover_event_handler. rewrite run_bind_gets. cbn [ce_type ce_node].
  destruct (Z.eqb_spec node (failover_self w)); [done|].
  unfold cluster_io_handle_node_online, cluster_io_sync_all, cluster_io_sync_state_to_node.
  run. rewrite (run_bind_eq _ _ _ _ _ (sweep_run _ _)). run.
  rewrite (run_bind_eq _ _ _ _ _ (broadcast_all_run _ _)). run. case_match; [done|]. by rewrite broadcast_all_run.
Qed.

(** Every entry of [node] is its own, and every entry that is its own is
    driven by it. *)
Definition at_home (node : Z) (c : cluster_io) : Prop :=
  forall e, e ∈ io_table c -> io_valid e = true -> (owner e = node <-> original_owner e = node).

Lemma giveback_takeover self node e : node <> self ->
  (io_valid e = true -> (owner e = node <-> original_owner e = node)) ->
  (giveback self node (takeover self node e).1).1 = e.
Proof.
  intros Hne Hh. destruct e as [i o r v]. unfold takeover, giveback. cbn [owner original_owner io_valid fst] in *.
  destruct v; cbn [andb]; [|done]. specialize (Hh eq_refl).
  destruct (Z.eqb_spec o node) as [->|Ho]; cbn [fst owner original_owner io_valid update andb].
  - rewrite (proj1 Hh eq_refl), !Z.eqb_refl. done.
  - destruct (Z.eqb_spec r node) as [->|Hr]; [tauto|done].
Qed.

(** C32: failover and failback.  When the master hears that another node is
    offline it drives exactly that node's outputs and announces each of them;
    when the node returns, the ownership table is again the one from before. *)
Theorem failover_failback node w :
  io_self (cio w) = failover_self w -> node <> failover_self w ->
  cluster_get_master_node (nodes (mgr w)) = failover_self w -> at_home node (cio w) ->
  let w1 := (cluster_failover_event_handler (ClusterEvent node EVENT_NODE_OFFLINE) w).2 in
  let w2 := (cluster_failover_event_handler (ClusterEvent node EVENT_NODE_ONLINE) w1).2 in
  (forall i e, io_table (cio w) !! i = Some e ->
     io_table (cio w1) !! i = Some (if io_valid e && (owner e =? node) then e <| owner := failover_self w |> else e)) /\
  outbox w1 = rev (announced (takeover (failover_self w) node) (io_table (cio w))) ++ outbox w /\
  cio w2 = cio w.
Proof.
  intros Hself Hne Hm Hhome w1 w2. destruct (offline_run node w Hself Hne Hm) as [v Hv].
  subst w2. subst w1. rewrite Hv. cbn [snd].
  match goal with |- context [cluster_failover_event_handler _ ?w1] =>
    destruct (online_cio node w1 Hne) as [-> _] end.
  cbn [cio update outbox]. split_and!; [|done|].
  - intros i e He. unfold swept. cbn [io_table update]. rewrite !list_lookup_fmap, He. cbn. f_equal.
    unfold takeover. by destruct (io_valid e && (owner e =? node)).
  - unfold swept. cbn [io_table io_self update]. rewrite Hself.
    assert (fst <$> (giveback (failover_self w) node <$> (fst <$> (takeover (failover_self w) node <$> io_table (cio w))))
      = io_table (cio w)) as Ht.
    { apply list_eq. intros i. rewrite !list_lookup_fmap. destruct (io_table (cio w) !! i) as [e|] eqn:He; [|done].
      cbn. f_equal. apply giveback_takeover; [done|]. intros Hval. apply Hhome; [|done]. by eapply list_elem_of_lookup_2. }
    destruct w as [m c fs ft ob ck wo]. destruct c as [t s]. cbn in *. by rewrite Ht.
Qed.
End running.

(** ** Supervision *)

Section supervision.
Context {W : Type} `{StateApi W} `{NodeRegistryApi W} `{FailsafeApi W}.
Implicit Types w : cw W.

(** What no event handler changes. *)
Definition frame (w : cw W) : manager * Z * Z * bool := (mgr w, io_self (cio w), failover_self w, failover_started w).
(** [node] drives nothing. *)
Definition drives_nothing (node : Z) (c : cluster_io) : Prop :=
  forall e, e ∈ io_table c -> io_valid e = true -> owner e <> node.

Lemma swept_drives f node c :
  (forall e, io_valid (f e).1 = true -> (owner (f e).1 = node -> io_valid e = true /\ owner e = node)) ->
  drives_nothing node c -> drives_nothing node (swept f c).
Proof.
  intros Hf Hc e He Hv Ho. unfold swept in He. cbn [io_table update] in He.
  apply list_elem_of_fmap in He as (r & -> & Hr). apply list_elem_of_fmap in Hr as (x & -> & Hx).
  destruct (Hf x Hv Ho). by apply (Hc x).
Qed.
Lemma takeover_stops self node c : self <> node -> drives_nothing node (swept (takeover self node) c).
Proof.
  intros Hne e He Hv Ho. unfold swept in He. cbn [io_table update] in He.
  apply list_elem_of_fmap in He as (r & -> & Hr). apply list_elem_of_fmap in Hr as (x & -> & Hx).
  unfold takeover in Hv, Ho. destruct (io_valid x) eqn:E; cbn [andb] in *; [|by cbn in Hv; congruence].
  destruct (Z.eqb_spec (owner x) node); by cbn in Ho.
Qed.

Lemma offline_cio node w : node <> failover_self w -> exists v,
  let w' := (cluster_failover_event_handler (ClusterEvent node EVENT_NODE_OFFLINE) w).2 in
  frame w' = frame w /\
  cio w' = (if io_self (cio w) =? cluster_get_master_node (nodes (mgr w))
            then swept (takeover (io_self (cio w)) node) (cio w) else cio w) /\ cw_world w' = v.
Proof.
  intros Hne. unfold cluster_failover_event_handler. run. cbn [ce_type ce_node].
  destruct (Z.eqb_spec node (failover_self w)); [done|].
  destruct (gateway_lost_run node FAILSAFE_REASON_NODE_OFFLINE w) as [v Hv]. exists v.
  rewrite (run_bind_eq _ _ _ _ _ Hv). unfold cluster_io_handle_node_offline. rewrite run_bind_gets.
  cbn [cio mgr update].
  destruct (io_self (cio w) =? cluster_get_master_node (nodes (mgr w))); cbn [negb]; [by rewrite sweep_run|done].
Qed.

Lemma publish_frame e w : frame (cluster_publish_event e w).2 = frame w.
Proof.
  unfold cluster_publish_event. run. destruct (failover_started w); [|done]. destruct e as [node []].
  - destruct (decide (node = failover_self w)) as [->|Hne].
    { unfold cluster_failover_event_handler. run. cbn [ce_type ce_node]. by rewrite Z.eqb_refl. }
    destruct (online_cio node w Hne) as (Hc & Hm & Hs & Ht). unfold frame. by rewrite Hc, Hm, Hs, Ht.
  - unfold cluster_failover_event_handler. run. cbn [ce_type ce_node].
    destruct (gateway_lost_run node FAILSAFE_REASON_COMM_LOSS w) as [v ->]. done.
  - destruct (decide (node = failover_self w)) as [->|Hne].
    { unfold cluster_failover_event_handler. run. cbn [ce_type ce_node]. by rewrite Z.eqb_refl. }
    by destruct (offline_cio node w Hne) as (v & -> & _).
  - done.
Qed.

(** No event but its own return makes [node] drive anything. *)
Lemma publish_drives node e w :
  io_self (cio w) <> node -> ~ (ce_node e = node /\ ce_type e = EVENT_NODE_ONLINE) ->
  drives_nothing node (cio w) -> drives_nothing node (cio (cluster_publish_event e w).2).
Proof.
  intros Hself Hno Hd. unfold cluster_publish_event. run. destruct (failover_started w); [|done].
  destruct e as [m []]; cbn [ce_node ce_type] in *.
  - destruct (decide (m = failover_self w)) as [->|Hne].
    { unfold cluster_failover_event_handler. run. cbn [ce_type ce_node]. by rewrite Z.eqb_refl. }
    destruct (online_cio m w Hne) as [-> _]. apply swept_drives; [|done]. intros x. unfold giveback.
    destruct (io_valid x && (original_owner x =? m) && (owner x =? io_self (cio w))); cbn [fst owner io_valid update]; [|done].
    intros _ ->. by destruct Hno.
  - unfold cluster_failover_event_handler. run. cbn [ce_type ce_node].
    destruct (gateway_lost_run m FAILSAFE_REASON_COMM_LOSS w) as [v ->]. done.
  - destruct (decide (m = failover_self w)) as [->|Hne].
    { unfold cluster_failover_event_handler. run. cbn [ce_type ce_node]. by rewrite Z.eqb_refl. }
    destruct (offline_cio m w Hne) as (v & _ & -> & _). case_match; [|done]. apply swept_drives; [|done].
    intros x. unfold takeover. destruct (io_valid x && (owner x =? m)); cbn [fst owner io_valid update]; done.
  - done.
Qed.

Lemma publish_events_drives node evts w :
  io_self (cio w) <> node -> (forall e, e ∈ evts -> ~ (ce_node e = node /\ ce_type e = EVENT_NODE_ONLINE)) ->
  drives_nothing node (cio w) -> drives_nothing node (cio (cluster_manager_publish_events evts w).2).
Proof.
  revert w. induction evts as [|e evts IH]; intros w Hself Hno Hd; cbn [cluster_manager_publish_events]; [done|].
  rewrite run_bind_surj. pose proof (publish_frame e w) as Hf. apply IH.
  - injection Hf. congruence.
  - intros e' He'. apply Hno. by right.
  - apply publish_drives; [done| |done]. apply Hno. by left.
Qed.
Lemma publish_events_frame evts w : frame (cluster_manager_publish_events evts w).2 = frame w.
Proof.
  revert w. induction evts as [|e evts IH]; intros w; cbn [cluster_manager_publish_events]; [done|].
  by rewrite run_bind_surj, IH, publish_frame.
Qed.
Lemma publish_events_app l1 l2 w :
  (cluster_manager_publish_events (l1 ++ l2) w).2 =
  (cluster_manager_publish_events l2 (cluster_manager_publish_events l1 w).2).2.
Proof.
  revert w. induction l1 as [|e l1 IH]; intros w; cbn [cluster_manager_publish_events app]; [done|].
  by rewrite !run_bind_surj, IH.
Qed.

(** The [k]-th reading of the clock from here, in milliseconds. *)
Definition reading w (k : nat) : Z := u32 (readings (cw_clock w) (k + taken (cw_clock w)) / 1000).

Lemma process_run w :
  cluster_manager_started (mgr w) = true ->
  cluster_manager_last_run_ms (mgr w) = 0 \/ CLUSTER_MANAGER_TICK_MS <= u32 (reading w 0 - cluster_manager_last_run_ms (mgr w)) ->
  exists c, let '(ns, evts) := cluster_manager_refresh_nodes (self_node_id (mgr w)) (reading w 1) (nodes (mgr w)) in
    cluster_manager_process w = cluster_manager_publish_events evts
      (w <| cw_clock := c |> <| mgr := mgr w <| cluster_manager_last_run_ms := reading w 0 |> <| nodes := ns |> |>).
Proof.
  intros Hst Htick. unfold cluster_manager_process. run. rewrite Hst. cbn [negb].
  unfold now_ms, on_part, clock_read. destruct w as [m c fs ft ob [rd k] wo]. unfold reading in *. cbn [mgr cw_clock readings taken] in *.
  exists (Clock rd (S (S k))). cbn [cluster_manager_refresh_nodes].
  rewrite !run_bind_surj. cbn -[u32 cluster_manager_refresh_nodes cluster_manager_publish_events Nat.add] in *.
  assert (negb (cluster_manager_last_run_ms m =? 0) &&
    (u32 (u32 (rd k / 1000) - cluster_manager_last_run_ms m) <? CLUSTER_MANAGER_TICK_MS) = false) as ->.
  { destruct Htick as [-> | Ht]; [done|]. apply andb_false_intro2. apply Z.ltb_ge. exact Ht. }
  done.
Qed.

Lemma refresh_event self now m e : (refresh_node self now m).2 = Some e -> ce_node e = cn_id m.
Proof. unfold refresh_node. repeat case_match; cbn; intros [=]; by subst. Qed.

(** A silent node is replaced.  When a node has not been heard for more
    than six seconds, the next run of the manager that is not held back by its
    one-second tick declares it offline, and if this node is then the master
    no input or output is left with the silent node, whatever else happened to
    the other nodes in the same run. *)
Theorem silent_node_taken_over n w :
  let self := self_node_id (mgr w) in
  let ns := (cluster_manager_refresh_nodes self (reading w 1) (nodes (mgr w))).1 in
  cluster_manager_started (mgr w) = true -> failover_started w = true ->
  io_self (cio w) = self -> failover_self w = self ->
  cluster_manager_last_run_ms (mgr w) = 0 \/ CLUSTER_MANAGER_TICK_MS <= u32 (reading w 0 - cluster_manager_last_run_ms (mgr w)) ->
  n ∈ nodes (mgr w) -> (forall m, m ∈ nodes (mgr w) -> cn_id m = cn_id n -> m = n) ->
  cn_id n <> 0 -> cn_id n <> self -> cn_last_seen_ms n <> 0 -> cn_state n <> CLUSTER_NODE_OFFLINE ->
  SUSPECT_TIMEOUT_MS < u32 (reading w 1 - cn_last_seen_ms n) ->
  cluster_get_master_node ns = self ->
  let w' := (cluster_manager_process w).2 in
  (forall m, m ∈ nodes (mgr w') -> cn_id m = cn_id n -> cn_state m = CLUSTER_NODE_OFFLINE) /\
  drives_nothing (cn_id n) (cio w').
Proof.
  intros self ns Hst Hfs Hio Hfo Htick Hin Huniq Hid Hne Hseen Hstate Hage Hmaster w'.
  destruct (process_run w Hst Htick) as [c Hrun]. unfold cluster_manager_refresh_nodes in Hrun.
  fold self in Hrun. subst w'. rewrite Hrun. clear Hrun.
  set (r := refresh_node self (reading w 1)) in *.
  assert (r n = (n <| cn_state := CLUSTER_NODE_OFFLINE |>, Some (ClusterEvent (cn_id n) EVENT_NODE_OFFLINE))) as Hrn.
  { subst r. unfold refresh_node. apply Z.eqb_neq in Hid, Hne, Hseen. rewrite Hid, Hseen, Hne. cbn [orb].
    assert (cluster_manager_state_from_age (u32 (reading w 1 - cn_last_seen_ms n)) = CLUSTER_NODE_OFFLINE) as ->
      by (unfold cluster_manager_state_from_age; destruct (Z.ltb_spec SUSPECT_TIMEOUT_MS (u32 (reading w 1 - cn_last_seen_ms n))); [done|lia]).
    by destruct (decide (cn_state n = CLUSTER_NODE_OFFLINE)). }
  match goal with |- context [cluster_manager_publish_events ?evts ?w1] =>
    pose proof (publish_events_frame evts w1) as Hframe; set (w1' := w1) in * end.
  split.
  - intros m Hm Hmid. injection Hframe as Hmgr _ _ _. rewrite Hmgr in Hm. cbn [w1' mgr nodes update] in Hm.
    apply list_elem_of_fmap in Hm as (x & -> & Hx). apply list_elem_of_fmap in Hx as (y & -> & Hy).
    assert (cn_id (r y).1 = cn_id y) as Hy1 by (subst r; unfold refresh_node; by repeat case_match).
    rewrite Hy1 in Hmid. by rewrite (Huniq y Hy Hmid), Hrn.
  - clear Hframe. assert (forall (l : list cluster_node) (e : cluster_event), (forall m, m ∈ l -> m ∈ nodes (mgr w)) -> e ∈ omap (M:=list) snd (r <$> l) ->
      ~ (ce_node e = cn_id n /\ ce_type e = EVENT_NODE_ONLINE)) as Hno.
    { intros l e Hsub He [Hn Ho]. apply list_elem_of_omap in He as (x & Hx & Hev).
      apply list_elem_of_fmap in Hx as (y & -> & Hy).
      assert (y = n) as -> by (apply Huniq; [by apply Hsub|]; rewrite <- Hn; symmetry; by apply (refresh_event self (reading w 1))).
      rewrite Hrn in Hev. cbn in Hev. by simplify_eq. }
    assert (io_self (cio w1') = self /\ failover_self w1' = self /\ failover_started w1' = true /\
      cluster_get_master_node (nodes (mgr w1')) = self) as Hw1 by done.
    clearbody w1'. clear ns Hmaster. pose proof Hin as Hin'. apply list_elem_of_split in Hin as (l1 & l2 & Hl).
    rewrite Hl, !fmap_app, !fmap_cons, omap_app. cbn [omap list_omap]. rewrite Hrn. cbn [snd].
    rewrite publish_events_app. cbn [cluster_manager_publish_events]. rewrite run_bind_surj.
    pose proof (publish_events_frame (omap snd (r <$> l1)) w1') as Hfa.
    set (wa := (cluster_manager_publish_events (omap snd (r <$> l1)) w1').2) in *.
    assert (io_self (cio wa) = self /\ failover_self wa = self /\ failover_started wa = true /\
      cluster_get_master_node (nodes (mgr wa)) = self) as (Hio1 & Hfo1 & Hfs1 & Hm1)
      by (injection Hfa as -> -> -> ->; done).
    clearbody wa. pose proof (publish_frame (ClusterEvent (cn_id n) EVENT_NODE_OFFLINE) wa) as Hfb.
    apply publish_events_drives.
    + injection Hfb as _ -> _ _. congruence.
    + intros e He. apply (Hno l2); [|exact He]. intros m Hm. rewrite Hl. apply elem_of_app. right. by right.
    + unfold cluster_publish_event. run. rewrite Hfs1.
      destruct (offline_cio (cn_id n) wa) as (v & _ & -> & _); [congruence|].
      rewrite Hio1, Hm1, Z.eqb_refl. apply takeover_stops. congruence.
Qed.

(** The master is online and no node online has a smaller identifier. *)
Definition online (n : cluster_node) : Prop := cn_id n <> 0 /\ cn_state n = CLUSTER_NODE_ONLINE.
Lemma master_least ns : Forall (fun n => 0 <= cn_id n) ns ->
  let m := cluster_get_master_node ns in
  (m = 0 /\ Forall (fun n => ~ online n) ns) \/
  ((exists n, n ∈ ns /\ online n /\ cn_id n = m) /\ Forall (fun n => online n -> m <= cn_id n) ns).
Proof.
  intros Hpos. cbv zeta. unfold cluster_get_master_node.
  induction ns as [|n ns IH] using rev_ind; [by left|].
  apply Forall_app in Hpos as [Hpos Hn]. apply Forall_inv in Hn. specialize (IH Hpos). rewrite foldl_snoc.
  set (m := foldl _ 0 ns) in *. clearbody m. unfold online in *.
  rewrite !Forall_app. setoid_rewrite elem_of_app.
  destruct (Z.eqb_spec (cn_id n) 0) as [Hz|Hz]; cbn [orb].
  { destruct IH as [[-> Hf]|[(x & Hx & Ho) Hf]]; [left|right].
    - split_and!; [done|done|]. constructor; [tauto|done].
    - split; [exists x; tauto|]. split; [done|]. constructor; [tauto|done]. }
  destruct (bool_decide_reflect (cn_state n = CLUSTER_NODE_ONLINE)) as [Hs|Hs]; cbn [negb].
  2:{ destruct IH as [[-> Hf]|[(x & Hx & Ho) Hf]]; [left|right].
    - split_and!; [done|done|]. constructor; [tauto|done].
    - split; [exists x; tauto|]. split; [done|]. constructor; [tauto|done]. }
  right. destruct IH as [[-> Hf]|[(x & Hx & Ho & <-) Hf]].
  - cbn [Z.eqb orb]. split; [exists n; split; [right; by left|done]|]. split; [|constructor; [lia|done]].
    eapply Forall_impl; [exact Hf|]. cbn. tauto.
  - destruct (Z.eqb_spec (cn_id x) 0); [tauto|]. cbn [orb].
    destruct (Z.ltb_spec (cn_id n) (cn_id x)).
    + split; [exists n; split; [right; by left|done]|]. split; [|constructor; [lia|done]].
      eapply Forall_impl; [exact Hf|]. cbn. intros y Hy Hyo. specialize (Hy Hyo). lia.
    + split; [exists x; tauto|]. split; [done|]. constructor; [lia|done].
Qed.
End supervision.

(** ** What the table can ever hold *)

Section ownership.
Context {W : Type} `{StateApi W} `{NodeRegistryApi W} `{FailsafeApi W}.
Implicit Types w : cw W.

(** Every entry is this node's own. *)
Definition all_own (self : Z) (w : cw W) : Prop :=
  io_self (cio w) = self /\ Forall (fun e => io_valid e = true -> original_owner e = self) (io_table (cio w)).

Lemma sweep_own self f w :
  (forall e, original_owner (f e).1 = original_owner e /\ io_valid (f e).1 = io_valid e) ->
  all_own self w -> all_own self (sweep f w).2.
Proof.
  intros Hf [Hs Ht]. rewrite sweep_run. split; [done|]. unfold swept. cbn [snd cio io_table update].
  rewrite <- list_fmap_compose. apply Forall_fmap. eapply Forall_impl; [exact Ht|]. intros e He. cbn.
  destruct (Hf e) as [-> ->]. done.
Qed.
Lemma takeover_same self node e :
  original_owner (takeover self node e).1 = original_owner e /\ io_valid (takeover self node e).1 = io_valid e.
Proof. unfold takeover. by case_match. Qed.
Lemma giveback_same self node e :
  original_owner (giveback self node e).1 = original_owner e /\ io_valid (giveback self node e).1 = io_valid e.
Proof. unfold giveback. by case_match. Qed.

Abbreviation keeps_own s m := (keeps (all_own s) m).
Lemma broadcast_own s ms : keeps_own s (broadcast_all (W := W) ms).
Proof. intros w Hw. by rewrite broadcast_all_run. Qed.
Lemma cw_on_world_own {A} s (m : st W A) : keeps_own s (cw_on_world m).
Proof. by apply keeps_on_part. Qed.
Lemma on_mgr_own s f : keeps_own s (on_mgr (W := W) f).
Proof. by apply keeps_modify. Qed.
Lemma now_ms_own s : keeps_own s (now_ms (W := W)).
Proof. unfold now_ms. apply keeps_bind; [by apply keeps_on_part|intros; apply keeps_ret]. Qed.
#[local] Hint Resolve broadcast_own cw_on_world_own on_mgr_own now_ms_own : keeps.

Lemma event_own s e : keeps_own s (cluster_failover_event_handler (W := W) e).
Proof.
  unfold cluster_failover_event_handler, cluster_failover_apply_local_failsafe_if_gateway_lost, cluster_io_handle_node_offline,
    cluster_io_handle_node_online, cluster_io_sync_all, cluster_io_sync_state_to_node.
  keeps; intros w Hw; apply sweep_own; auto using takeover_same, giveback_same.
Qed.
Lemma publish_own s e : keeps_own s (cluster_publish_event (W := W) e).
Proof. unfold cluster_publish_event. keeps. apply event_own. Qed.
Lemma publish_events_own s evts : keeps_own s (cluster_manager_publish_events (W := W) evts).
Proof. induction evts; cbn [cluster_manager_publish_events]; keeps; auto using publish_own. Qed.

Lemma allocate_own s id c :
  io_self c = s -> Forall (fun e => io_valid e = true -> original_owner e = s) (io_table c) ->
  let c' := (cluster_io_allocate id c).2 in
  io_self c' = s /\ Forall (fun e => io_valid e = true -> original_owner e = s) (io_table c').
Proof.
  intros Hs Ht. unfold cluster_io_allocate. repeat case_match; cbn [snd]; try done.
  split; [done|]. cbn [io_table update]. by apply Forall_insert.
Qed.

Lemma register_own s id : keeps_own s (on_cio (W := W) (cluster_io_register_local id)).
Proof.
  apply keeps_modify. intros w [Hs Ht]. unfold cluster_io_register_local. case_match; [done|].
  pose proof (allocate_own s id (cio w) Hs Ht) as [Hs' Ht']. destruct (cluster_io_allocate id (cio w)) as [[i|] c]; [|done].
  split; [done|]. cbn [snd] in *. cbn [cio update put_io io_table]. by apply Forall_insert.
Qed.

(** An announcement is only taken for an entry that is this node's own, or is
    said to be. *)
Lemma update_own s id new orig : keeps_own s (cluster_io_handle_update (W := W) id new orig).
Proof.
  unfold cluster_io_handle_update. keeps. apply keeps_modify. intros w [Hs Ht].
  pose proof (allocate_own s id (cio w) Hs Ht) as [Hs' Ht'].
  assert (forall i c, cluster_io_allocate id (cio w) = (Some i, c) -> exists e, io_table c !! i = Some e /\ io_valid e = true) as Hi.
  { intros i c. unfold cluster_io_allocate, find_io. destruct (find_idx _ (io_table (cio w))) as [j|] eqn:Hj.
    - intros [= <- <-]. apply find_idx_Some in Hj as (e & He & Hv & _). exists e. split; [done|]. by apply andb_prop in Hv as [? _].
    - destruct (find_idx (fun e => negb (io_valid e)) _) as [j|] eqn:Hk; intros [=]; subst.
      eexists. split; [|]. { cbn [io_table update]. apply list_lookup_insert_eq. by eapply find_idx_lt. } done. }
  destruct (cluster_io_allocate id (cio w)) as [[i|] c]; cbn [snd] in *; [|done].
  destruct (Hi i c eq_refl) as (e & He & Hv). rewrite He. cbv zeta. cbn [from_option Datatypes.id].
  pose proof (Forall_lookup_1 _ _ _ _ Ht' He Hv) as Ho. rewrite Hv, Ho, Hs', Z.eqb_refl. cbn [andb].
  destruct (Z.eqb_spec orig s) as [->|]; cbn [negb]; [|done]. case_match; [done|].
  split; [done|]. cbn [cio update put_io io_table]. by apply Forall_insert.
Qed.

(** What happens to a node: outputs are registered, frames and heartbeats
    arrive, the manager runs, the rest of the firmware runs. *)
Inductive cluster_step : cw W -> cw W -> Prop :=
| step_register id w : cluster_step w (on_cio (cluster_io_register_local id) w).2
| step_update id new orig w : cluster_step w (cluster_io_handle_update id new orig w).2
| step_heartbeat id w : cluster_step w (cluster_manager_update_node id w).2
| step_process w : cluster_step w (cluster_manager_process w).2
| step_remove id w : cluster_step w (cluster_manager_remove_node id w).2
| step_start id w : cluster_step w (cluster_manager_start id w).2
| step_sync w : cluster_step w (cluster_io_sync_all w).2
| step_other v w : cluster_step w (w <| cw_world := v |>).

Lemma step_own s w w' : cluster_step w w' -> all_own s w -> all_own s w'.
Proof.
  destruct 1; intros Hw.
  - by apply register_own.
  - by apply update_own.
  - revert Hw. generalize w. change (keeps_own s (cluster_manager_update_node (W := W) id)).
    unfold cluster_manager_update_node. keeps; auto using publish_own.
  - revert Hw. generalize w. change (keeps_own s (cluster_manager_process (W := W))).
    unfold cluster_manager_process. keeps; auto using publish_events_own.
  - done.
  - revert Hw. generalize w. change (keeps_own s (cluster_manager_start (W := W) id)).
    unfold cluster_manager_start. keeps.
  - revert Hw. generalize w. change (keeps_own s (cluster_io_sync_all (W := W))).
    unfold cluster_io_sync_all. keeps.
  - done.
Qed.

(** Ownership never spreads.  From the initial table, whatever frames,
    heartbeats and manager runs follow, every identifier counts as this node's
    own: an announcement that another node owns an output of its own is
    always refused, because looking the identifier up first claims it for this
    node, and after it the output counts as local here. *)
Theorem remote_outputs_never_known self w0 w :
  cio w0 = cluster_io_init self -> rtc cluster_step w0 w ->
  (forall id, cluster_io_get_original_owner id (cio w) = self) /\
  (forall id new orig, orig <> self -> find_io id (cio w) = None ->
     cluster_io_is_local id (cio (cluster_io_handle_update id new orig w).2) = true).
Proof.
  intros Hinit Hsteps. assert (all_own self w) as [Hs Ht].
  { assert (all_own self w0) as Hown by (unfold all_own; rewrite Hinit; split; [done|]; by apply Forall_replicate).
    clear Hinit. induction Hsteps; [done|]. eauto using step_own. }
  split.
  - intros id. unfold cluster_io_get_original_owner, io_of. destruct (find_io id (cio w)) as [i|] eqn:Hi; [|done]. cbn.
    apply find_idx_Some in Hi as (e & He & Hv & _). rewrite He. apply andb_prop in Hv as [Hv _].
    by apply (Forall_lookup_1 _ _ _ _ Ht He).
  - intros id new orig Hne Hnone.
    assert (cluster_io_is_local id (cio w) = true) as Hlocal
      by (unfold cluster_io_is_local, io_of; rewrite Hnone; by case_match).
    unfold cluster_io_handle_update. rewrite run_bind_gets. destruct (_ || _); [done|].
    unfold on_cio. rewrite run_modify. cbn [snd cio update].
    unfold cluster_io_allocate. rewrite Hnone.
    destruct (find_idx (fun e => negb (io_valid e)) (io_table (cio w))) as [i|] eqn:Hfree; [|done].
    cbn [io_table update]. rewrite list_lookup_insert_eq by (by eapply find_idx_lt). cbn [from_option Datatypes.id io_valid original_owner owner io_self update].
    rewrite Z.eqb_refl. cbn [andb]. rewrite Hs. destruct (Z.eqb_spec orig self); [done|]. cbn [negb].
    unfold cluster_io_is_local. cbn [io_self update]. case_match; [done|]. unfold io_of.
    match goal with |- context [find_io id ?c] => destruct (find_io id c) as [j|] eqn:Hj end; [|done].
    cbn [mbind option_bind].
    apply find_idx_Some in Hj as (e & He & Hp & _). cbn [io_table update] in *. rewrite He.
    destruct (decide (j = i)) as [->|Hji].
    + rewrite list_lookup_insert_eq in He by (by eapply find_idx_lt). injection He as <-. apply Z.eqb_eq. cbn. done.
    + rewrite list_lookup_insert_ne in He by done. unfold find_io in Hnone. rewrite find_idx_None in Hnone.
      rewrite (Hnone e) in Hp; [done|]. by eapply list_elem_of_lookup_2.
Qed.
End ownership.

(** ** Concrete runs *)

(** A registry that knows everybody. *)
#[local] Instance demo_registry : NodeRegistryApi (fsw store flash) := {
  node_registry_is_known _ _ := true;
  node_registry_is_operational _ _ := true;
  node_registry_is_gateway _ _ := false;
}.
Definition two_nodes : cw (fsw store flash) :=
  Cw (Manager [ClusterNode 1 500 CLUSTER_NODE_ONLINE; ClusterNode 2 1000 CLUSTER_NODE_ONLINE] true 1 0)
    (ClusterIo [IoEntry 100 1 1 true; IoEntry 200 2 2 true] 1) 1 true [] (Clock (fun _ => 8000000) 0) fs_demo.

Lemma failover_failback_witness :
  let w1 := (cluster_failover_event_handler (ClusterEvent 2 EVENT_NODE_OFFLINE) two_nodes).2 in
  io_table (cio w1) = [IoEntry 100 1 1 true; IoEntry 200 1 2 true] /\
  cio (cluster_failover_event_handler (ClusterEvent 2 EVENT_NODE_ONLINE) w1).2 = cio two_nodes.
Proof.
  intros w1. split; [reflexivity|]. apply (failover_failback 2 two_nodes).
  - reflexivity.
  - done.
  - reflexivity.
  - intros e He _. repeat (apply elem_of_cons in He as [->|He]; [cbn; lia|]). by apply not_elem_of_nil in He.
Defined.

Lemma silent_node_taken_over_witness :
  drives_nothing 2 (cio (cluster_manager_process two_nodes).2).
Proof.
  apply (silent_node_taken_over (ClusterNode 2 1000 CLUSTER_NODE_ONLINE) two_nodes); try reflexivity; try done.
  - by left.
  - right. by left.
  - intros m Hm. repeat (apply elem_of_cons in Hm as [->|Hm]; [done|]). by apply not_elem_of_nil in Hm.
Defined.

Lemma remote_outputs_never_known_witness :
  let w0 := two_nodes <| cio := cluster_io_init 1 |> in
  let w := (on_cio (cluster_io_register_local 100) w0).2 in
  cluster_io_is_local 200 (cio (cluster_io_handle_update 200 2 2 w).2) = true.
Proof.
  intros w0 w. apply (remote_outputs_never_known 1 w0 w).
  - reflexivity.
  - apply rtc_once. apply step_register.
  - done.
  - reflexivity.
Defined.
