(* ===== verification/Automation.v ===== *)
(** * The automation engine ([components/runtime/automation/automation_engine.c])

    At most sixteen rules of the form "when the input compares with the
    threshold, drive the output", with delays, toggles, interlocks, outputs on
    other nodes and persistence in NVS.  A state change runs
    [automation_event_handler]; the control loop runs [automation_engine_tick_1ms]. *)

From Stdlib Require Import String.
From S2P Require Import Prelude Persist EventBus State DeviceProfile Failsafe Pve Cluster.

Local Open Scope string_scope.
Local Open Scope list_scope.
Local Open Scope Z_scope.

(** ** Data *)

Definition AUTOMATION_ENGINE_MAX_NODES : Z := 16.
Definition AUTOMATION_MAX_INTERLOCK_COND : Z := 2.
Definition AUTOMATION_MAGIC : Z := 1096111183.     (* 0x4155544F *)
Definition AUTOMATION_VERSION : Z := 4.
Definition AUTOMATION_VERSION_V3 : Z := 3.
Definition AUTOMATION_VERSION_V2 : Z := 2.
Definition AUTOMATION_VERSION_V1 : Z := 1.

(** [automation_operator_t]; a stored operator is any byte, so it is a number. *)
Definition AUTOMATION_OP_GT : Z := 0.
Definition AUTOMATION_OP_GE : Z := 1.
Definition AUTOMATION_OP_EQ : Z := 2.
Definition AUTOMATION_OP_NE : Z := 3.
Definition AUTOMATION_OP_LE : Z := 4.
Definition AUTOMATION_OP_LT : Z := 5.
Definition AUTOMATION_OP_MAX : Z := 6.

(** [automation_mode_t] *)
Definition AUTOMATION_MODE_FOLLOW : Z := 0.
Definition AUTOMATION_MODE_PULSE_MS : Z := 1.
Definition AUTOMATION_MODE_ON_DELAY_MS : Z := 2.
Definition AUTOMATION_MODE_OFF_DELAY_MS : Z := 3.
Definition AUTOMATION_MODE_TOGGLE : Z := 4.
Definition AUTOMATION_MODE_FORCE_ON : Z := 5.
Definition AUTOMATION_MODE_FORCE_OFF : Z := 6.
Definition AUTOMATION_MODE_MAX : Z := 7.

(** [automation_result_t] *)
Inductive automation_result :=
| AUTOMATION_RESULT_OK | AUTOMATION_RESULT_DUPLICATE | AUTOMATION_RESULT_FULL
| AUTOMATION_RESULT_INVALID | AUTOMATION_RESULT_CONFLICT.

(** [automation_action_result_t] *)
Definition AUTOMATION_ACTION_IDLE : Z := 0.
Definition AUTOMATION_ACTION_APPLIED_LOCAL : Z := 1.
Definition AUTOMATION_ACTION_DISPATCHED_REMOTE : Z := 2.
Definition AUTOMATION_ACTION_DISPATCH_FAILED : Z := 3.
Definition AUTOMATION_ACTION_REMOTE_OWNER_OFFLINE : Z := 4.
Definition AUTOMATION_ACTION_TARGET_UNRESOLVED : Z := 5.
Definition AUTOMATION_ACTION_BLOCKED_FAILSAFE : Z := 6.

(** [automation_node_t] *)
Record automation_node := AutomationNode {
  input : Z; output : Z; threshold : Z; op : Z; mode : Z; duration_ms : Z; on_true : Z; on_false : Z;
}.
#[export] Instance automation_node_eq_dec : EqDecision automation_node.
Proof. solve_decision. Defined.

(** [automation_condition_t] and [automation_interlock_t] *)
Record automation_condition := Condition { cd_channel : Z; cd_op : Z; cd_target : Z }.
#[export] Instance automation_condition_eq_dec : EqDecision automation_condition.
Proof. solve_decision. Defined.
Definition condition_zero : automation_condition := Condition 0 0 0.
Record automation_interlock := Interlock {
  ilk_enabled : Z; ilk_logic_op : Z; ilk_cond_count : Z; ilk_reserved : Z;
  ilk_cond0 : automation_condition; ilk_cond1 : automation_condition;
}.
#[export] Instance automation_interlock_eq_dec : EqDecision automation_interlock.
Proof. solve_decision. Defined.
Definition interlock_zero : automation_interlock := Interlock 0 0 0 0 condition_zero condition_zero.

(** [automation_runtime_t] *)
Record automation_runtime := Runtime {
  rt_condition : bool; timer_active : bool; pulse_active : bool; latched_true : bool; deadline_ms : Z;
}.
#[export] Instance automation_runtime_rebuild : Rebuild automation_runtime := fun r =>
  Runtime (rt_condition r) (timer_active r) (pulse_active r) (latched_true r) (deadline_ms r).
Definition runtime_zero : automation_runtime := Runtime false false false false 0.

(** [automation_rule_diag_t] *)
Record automation_rule_diag := RuleDiag {
  last_trigger_ms : Z; last_eval_ms : Z; last_action_ms : Z; last_condition : Z; last_action_value : Z;
  last_action_result : Z; last_target_local : Z; last_target_owner : Z; last_target_original_owner : Z;
}.
#[export] Instance automation_rule_diag_rebuild : Rebuild automation_rule_diag := fun d =>
  RuleDiag (last_trigger_ms d) (last_eval_ms d) (last_action_ms d) (last_condition d) (last_action_value d)
    (last_action_result d) (last_target_local d) (last_target_owner d) (last_target_original_owner d).
Definition diag_zero : automation_rule_diag := RuleDiag 0 0 0 0 0 0 0 0 0.

(** The four parallel arrays, of which the first [node_count] places are in use:
    [nodes[i]], [interlocks[i]], [runtime_nodes[i]] and [rule_diags[i]]. *)
Record rule := Rule {
  nd : automation_node; ilk : automation_interlock; rt : automation_runtime; dg : automation_rule_diag;
}.
#[export] Instance rule_rebuild : Rebuild rule := fun r => Rule (nd r) (ilk r) (rt r) (dg r).
Definition fresh_rule (n : automation_node) (k : automation_interlock) : rule := Rule n k runtime_zero diag_zero.

(** [automation_remote_cmd_t] *)
Record remote_cmd := RemoteCmd { target_node : Z; requester_node : Z; cmd_output_id : Z; cmd_value : Z }.

(** The FreeRTOS queue of remote commands. *)
Class RemoteQueue (Q : Type) := {
  xQueueCreate : option Q;                              (* xQueueCreate(16, ..) *)
  xQueueSend : remote_cmd -> Q -> bool * Q;             (* without waiting *)
  xQueueReceive : Q -> option (remote_cmd * Q);
}.

(** The variables of [automation_engine.c]; [handlers_registered]: the engine
    has subscribed to state changes and to output commands. *)
Record automation {Q : Type} := Automation {
  rules : list rule;
  persisted_config : bool;
  automation_tick_ms : Z;
  automation_remote_queue : option Q;
  handlers_registered : bool;
}.
Arguments automation : clear implicits.
Arguments Automation {Q}.
#[export] Instance automation_rebuild {Q} : Rebuild (automation Q) := fun a =>
  Automation (rules a) (persisted_config a) (automation_tick_ms a) (automation_remote_queue a) (handlers_registered a).
Definition node_count {Q} (a : automation Q) : Z := Z.of_nat (length (rules a)).

(** The engine with the cluster (and, inside it, the state table and the
    fail-safe), the process variables and its key in flash. *)
Record aw {W N Q : Type} := Aw { au : automation Q; acl : cw W; apve : pve; anvs : N }.
Arguments aw : clear implicits.
Arguments Aw {W N Q}.
#[export] Instance aw_rebuild {W N Q} : Rebuild (aw W N Q) := fun w => Aw (au w) (acl w) (apve w) (anvs w).

(** ** Operators and modes *)

Definition operator_table : list (Z * string * string) :=
  [(AUTOMATION_OP_GT, "gt", ">"); (AUTOMATION_OP_GE, "ge", ">="); (AUTOMATION_OP_EQ, "eq", "==");
   (AUTOMATION_OP_NE, "ne", "!="); (AUTOMATION_OP_LE, "le", "<="); (AUTOMATION_OP_LT, "lt", "<")].
Definition mode_table : list (Z * string * string) :=
  [(AUTOMATION_MODE_FOLLOW, "follow", "FOLLOW"); (AUTOMATION_MODE_PULSE_MS, "pulse_ms", "PULSE_MS");
   (AUTOMATION_MODE_ON_DELAY_MS, "on_delay_ms", "ON_DELAY_MS"); (AUTOMATION_MODE_OFF_DELAY_MS, "off_delay_ms", "OFF_DELAY_MS");
   (AUTOMATION_MODE_TOGGLE, "toggle", "TOGGLE"); (AUTOMATION_MODE_FORCE_ON, "force_on", "FORCE_ON");
   (AUTOMATION_MODE_FORCE_OFF, "force_off", "FORCE_OFF")].

(** The lookups of the two tables: by either text, and by number, with the
    first row for a number that is not there. *)
Definition from_code (t : list (Z * string * string)) (text : string) : option Z :=
  (fun r : Z * string * string => r.1.1) <$> List.find (fun r => (text =? r.1.2)%string || (text =? r.2)%string) t.
Definition row_of (t : list (Z * string * string)) (v : Z) : Z * string * string :=
  match List.find (fun r => r.1.1 =? v) t with
  | Some r => r
  | None => default (0, "", "") (t !! 0%nat)
  end.
Definition automation_engine_operator_from_code (text : string) : option Z := from_code operator_table text.
Definition automation_engine_mode_from_code (text : string) : option Z := from_code mode_table text.
Definition automation_engine_operator_to_code (v : Z) : string := (row_of operator_table v).1.2.
Definition automation_engine_operator_to_symbol (v : Z) : string := (row_of operator_table v).2.
Definition automation_engine_mode_to_code (v : Z) : string := (row_of mode_table v).1.2.
Definition automation_engine_mode_to_label (v : Z) : string := (row_of mode_table v).2.

Definition automation_engine_action_result_name (r : Z) : string :=
  if r =? AUTOMATION_ACTION_APPLIED_LOCAL then "applied-local"
  else if r =? AUTOMATION_ACTION_DISPATCHED_REMOTE then "dispatched-remote"
  else if r =? AUTOMATION_ACTION_DISPATCH_FAILED then "dispatch-failed"
  else if r =? AUTOMATION_ACTION_REMOTE_OWNER_OFFLINE then "remote-owner-offline"
  else if r =? AUTOMATION_ACTION_TARGET_UNRESOLVED then "target-unresolved"
  else if r =? AUTOMATION_ACTION_BLOCKED_FAILSAFE then "blocked-failsafe"
  else "idle".

(** Every operator and mode has a code that is read back. *)
Lemma automation_codes :
  (forall v, 0 <= v < AUTOMATION_OP_MAX ->
     automation_engine_operator_from_code (automation_engine_operator_to_code v) = Some v /\
     automation_engine_operator_from_code (automation_engine_operator_to_symbol v) = Some v) /\
  (forall v, 0 <= v < AUTOMATION_MODE_MAX ->
     automation_engine_mode_from_code (automation_engine_mode_to_code v) = Some v /\
     automation_engine_mode_from_code (automation_engine_mode_to_label v) = Some v).
Proof.
  unfold AUTOMATION_OP_MAX, AUTOMATION_MODE_MAX. split; intros v Hv.
  - assert (v = 0 \/ v = 1 \/ v = 2 \/ v = 3 \/ v = 4 \/ v = 5) as [-> | [-> | [-> | [-> | [-> | ->]]]]] by lia; done.
  - assert (v = 0 \/ v = 1 \/ v = 2 \/ v = 3 \/ v = 4 \/ v = 5 \/ v = 6)
      as [-> | [-> | [-> | [-> | [-> | [-> | ->]]]]]] by lia; done.
Qed.

(** ** Validity of a rule *)

Definition automation_valid_input (i : Z) : bool := device_profile_is_valid_input (u16 i).
Definition automation_valid_output (o : Z) : bool := device_profile_is_valid_output (u16 o).
Definition automation_valid_action (v : Z) : bool := (v =? 0) || (v =? 1).
Definition automation_valid_operator (o : Z) : bool := o <? AUTOMATION_OP_MAX.
Definition automation_valid_mode (m : Z) : bool := m <? AUTOMATION_MODE_MAX.
Definition automation_rules_equal (a b : automation_node) : bool := bool_decide (a = b).
(** The modes with a delay need one. *)
Definition timed_mode (m : Z) : bool :=
  (m =? AUTOMATION_MODE_PULSE_MS) || (m =? AUTOMATION_MODE_ON_DELAY_MS) || (m =? AUTOMATION_MODE_OFF_DELAY_MS).
Definition automation_rule_is_valid (n : automation_node) : bool :=
  automation_valid_input (input n) && automation_valid_output (output n)
  && automation_valid_operator (op n) && automation_valid_mode (mode n)
  && automation_valid_action (on_true n) && automation_valid_action (on_false n)
  && (if timed_mode (mode n) then 0 <? duration_ms n else true).
Definition automation_mode_is_force_pair (m : Z) : bool :=
  (m =? AUTOMATION_MODE_FORCE_ON) || (m =? AUTOMATION_MODE_FORCE_OFF).
Definition automation_rule_conflicts (existing candidate : automation_node) : bool :=
  if negb (output existing =? output candidate) || automation_rules_equal existing candidate then false
  else if automation_mode_is_force_pair (mode existing) && automation_mode_is_force_pair (mode candidate)
  then mode existing =? mode candidate
  else true.

(** ** Evaluation *)

(** [value op threshold] *)
Definition compare_op (o value t : Z) : option bool :=
  if o =? AUTOMATION_OP_GT then Some (t <? value)
  else if o =? AUTOMATION_OP_GE then Some (t <=? value)
  else if o =? AUTOMATION_OP_EQ then Some (value =? t)
  else if o =? AUTOMATION_OP_NE then Some (negb (value =? t))
  else if o =? AUTOMATION_OP_LE then Some (value <=? t)
  else if o =? AUTOMATION_OP_LT then Some (value <? t)
  else None.
Definition automation_eval_rule (n : automation_node) (value : Z) : bool :=
  default false (compare_op (op n) value (threshold n)).
Definition automation_eval_condition {W} `{StateApi W} (c : automation_condition) (w : W) : bool :=
  match state_get_int (cd_channel c) w with
  | None => false
  | Some v => default (v =? cd_target c) (compare_op (cd_op c) v (cd_target c))
  end.
Definition automation_eval_interlock {W} `{StateApi W} (k : automation_interlock) (w : W) : bool :=
  if (ilk_enabled k =? 0) || (ilk_cond_count k =? 0) then true
  else if ilk_cond_count k =? 1 then automation_eval_condition (ilk_cond0 k) w
  else
    let c0 := automation_eval_condition (ilk_cond0 k) w in
    let c1 := automation_eval_condition (ilk_cond1 k) w in
    if ilk_logic_op k =? 1 then c0 || c1 else c0 && c1.

(** The conditions a count of at most two selects: [conditions[0 .. cond_count - 1]].
    The callers of [automation_engine_set_interlock_at] store no larger count,
    which would make the loop read past the array. *)
Definition ilk_conditions (k : automation_interlock) : list automation_condition :=
  take (Z.to_nat (ilk_cond_count k)) [ilk_cond0 k; ilk_cond1 k].
Definition is_interlock_channel (k : automation_interlock) (source : Z) : bool :=
  existsb (fun c => cd_channel c =? source) (ilk_conditions k).

Definition automation_owner_state (id : Z) (ns : list cluster_node) : cluster_node_state :=
  if id =? 0 then CLUSTER_NODE_OFFLINE
  else from_option (fun r : nat * cluster_node => cn_state r.2) CLUSTER_NODE_OFFLINE
         (list_find (fun n => cn_id n = id) (cluster_manager_export_nodes 10 ns)).

(** ** Stored form *)

Definition automation_crc32 (data : list Z) : Z := fnv1a32 data.

(** The layouts of the four blobs. *)
Definition node_layout : list (Z * Z) := [c_u16; c_u16; c_i32; c_u8; c_u8; c_u16; c_u8; c_u8].
Definition node_v1_layout : list (Z * Z) := [c_u16; c_u16; c_i32].
Definition node_v2_layout : list (Z * Z) := [c_u16; c_u16; c_i32; c_u8; c_u8; c_u8; c_u8].
Definition interlock_layout : list (Z * Z) := [c_u8; c_u8; c_u8; c_u8; c_array 2 [c_u16; c_u8; c_u8]].
Definition sizeof_automation_blob : Z :=
  struct_size [c_u32; c_u16; c_u16; c_array 16 node_layout; c_array 16 interlock_layout; c_u32].
Definition sizeof_automation_blob_v3 : Z := struct_size [c_u32; c_u16; c_u16; c_array 16 node_layout; c_u32].
Definition sizeof_automation_blob_v2 : Z := struct_size [c_u32; c_u16; c_u16; c_array 16 node_v2_layout; c_u32].
Definition sizeof_automation_blob_v1 : Z := struct_size [c_u32; c_u16; c_u16; c_array 16 node_v1_layout; c_u32].

(** The two bytes of padding of a node, which C leaves open, are written as 0. *)
Definition node_bytes (n : automation_node) : list Z :=
  pack [(2%nat, input n); (2%nat, output n); (4%nat, u32 (threshold n)); (1%nat, op n); (1%nat, mode n);
        (2%nat, duration_ms n); (1%nat, u8 (on_true n)); (1%nat, u8 (on_false n)); (2%nat, 0)].
Definition node_of (b : list Z) : automation_node :=
  AutomationNode (field 0 2 b) (field 2 2 b) (i32 (field 4 4 b)) (field 8 1 b) (field 9 1 b) (field 10 2 b)
    (i8 (field 12 1 b)) (i8 (field 13 1 b)).
Definition interlock_bytes (k : automation_interlock) : list Z :=
  pack [(1%nat, ilk_enabled k); (1%nat, ilk_logic_op k); (1%nat, ilk_cond_count k); (1%nat, ilk_reserved k);
        (2%nat, cd_channel (ilk_cond0 k)); (1%nat, cd_op (ilk_cond0 k)); (1%nat, u8 (cd_target (ilk_cond0 k)));
        (2%nat, cd_channel (ilk_cond1 k)); (1%nat, cd_op (ilk_cond1 k)); (1%nat, u8 (cd_target (ilk_cond1 k)))].
Definition interlock_of (b : list Z) : automation_interlock :=
  Interlock (field 0 1 b) (field 1 1 b) (field 2 1 b) (field 3 1 b)
    (Condition (field 4 2 b) (field 6 1 b) (i8 (field 7 1 b)))
    (Condition (field 8 2 b) (field 10 1 b) (i8 (field 11 1 b))).
Definition node_of_v2 (b : list Z) : automation_node :=
  AutomationNode (field 0 2 b) (field 2 2 b) (i32 (field 4 4 b)) (field 8 1 b) AUTOMATION_MODE_FOLLOW 0
    (i8 (field 9 1 b)) (i8 (field 10 1 b)).
Definition node_of_v1 (b : list Z) : automation_node :=
  AutomationNode (field 0 2 b) (field 2 2 b) (i32 (field 4 4 b)) AUTOMATION_OP_GT AUTOMATION_MODE_FOLLOW 0 1 0.

Definition automation_body (rs : list rule) : list Z :=
  pack [(4%nat, AUTOMATION_MAGIC); (2%nat, AUTOMATION_VERSION); (2%nat, Z.of_nat (length rs))]
  ++ array_bytes 16 16 ((fun r => node_bytes (nd r)) <$> rs) ++ array_bytes 16 12 ((fun r => interlock_bytes (ilk r)) <$> rs).
Definition automation_blob (rs : list rule) : list Z :=
  automation_body rs ++ le 4 (automation_crc32 (automation_body rs)).

(** The test of the header and of the checksum, the last member. *)
Definition automation_accepted (version : Z) (blob : list Z) : bool :=
  let body := (length blob - 4)%nat in
  (field 0 4 blob =? AUTOMATION_MAGIC) && (field 4 2 blob =? version)
  && (field 6 2 blob <=? AUTOMATION_ENGINE_MAX_NODES)
  && (field body 4 blob =? automation_crc32 (take body blob)).
(** Each rule valid and without conflict with the ones before it. *)
Fixpoint check_rules (before ns : list automation_node) : bool :=
  match ns with
  | [] => true
  | n :: ns => automation_rule_is_valid n && forallb (fun m => negb (automation_rule_conflicts m n)) before
               && check_rules (before ++ [n]) ns
  end.

(** ** Operations *)

Section automation.
Context {W N Q : Type} `{StateApi W} `{NodeRegistryApi W} `{FailsafeApi W} `{Nvs N} `{RemoteQueue Q}.
Implicit Types w : aw W N Q.
Abbreviation M := (st (aw W N Q)).

Definition on_au (f : automation Q -> automation Q) : M () := modify (fun w => w <| au := f (au w) |>).
Definition on_cl {A} (m : st (cw W) A) : M A := on_part acl (fun c w => w <| acl := c |>) m.
Definition on_sys {A} (m : st W A) : M A := on_cl (cw_on_world m).
Definition on_nvs {A} (m : st N A) : M A := on_part anvs (fun n w => w <| anvs := n |>) m.
(** The rest of the firmware: the state table and the fail-safe. *)
Definition sys w : W := cw_world (acl w).
Definition rule_at (i : nat) w : option rule := rules (au w) !! i.
Definition upd_rule (i : nat) (f : rule -> rule) : M () := on_au (fun a => a <| rules := alter f i (rules a) |>).
Definition upd_rt (i : nat) (f : automation_runtime -> automation_runtime) : M () :=
  upd_rule i (fun r => r <| rt := f (rt r) |>).

(** [(uint32_t)(esp_timer_get_time() / 1000)], and the tick count that delays use. *)
Definition automation_now_ms : M Z := on_cl now_ms.
Definition automation_deadline_after (duration : Z) w : Z := u32 (automation_tick_ms (au w) + duration).
Definition automation_time_reached (deadline : Z) w : bool := 0 <=? i32 (automation_tick_ms (au w) - deadline).

Definition automation_diag_mark_eval (i : nat) (condition_now : bool) (trigger_ms : Z) : M () :=
  upd_rule i (fun r => r <| dg := (dg r) <| last_trigger_ms := trigger_ms |> <| last_eval_ms := trigger_ms |>
                                  <| last_condition := if condition_now then 1 else 0 |> |>).
Definition automation_diag_mark_action (i : nat) (value result : Z) (target_local : bool) (own orig : Z) : M () :=
  now ← automation_now_ms;
  upd_rule i (fun r => r <| dg := RuleDiag (last_trigger_ms (dg r)) (last_eval_ms (dg r)) now (last_condition (dg r))
    (if value =? 0 then 0 else 1) result (if target_local then 1 else 0) own orig |>).

Definition automation_dispatch_output (out value : Z) (i : nat) : M Z :=
  w ← gets (fun w => w);
  let metrics := cluster_get_metrics (mgr (acl w)) in
  let own := cluster_io_get_owner out (cio (acl w)) in
  let orig := cluster_io_get_original_owner out (cio (acl w)) in
  let finish (v result : Z) (local : bool) : M Z :=
    automation_diag_mark_action i v result local own orig;; mret result in
  if cluster_io_is_local out (cio (acl w)) then
    r ← on_sys (guard_command out value);
    if negb r.1 then finish value AUTOMATION_ACTION_BLOCKED_FAILSAFE true
    else on_sys (state_set_int out r.2);; finish r.2 AUTOMATION_ACTION_APPLIED_LOCAL true
  else if (met_self metrics =? 0) || (own =? 0) then finish value AUTOMATION_ACTION_TARGET_UNRESOLVED false
  else if bool_decide (automation_owner_state own (nodes (mgr (acl w))) = CLUSTER_NODE_OFFLINE)
  then finish value AUTOMATION_ACTION_REMOTE_OWNER_OFFLINE false
  else
    match automation_remote_queue (au w) with
    | Some q =>
      let '(sent, q) := xQueueSend (RemoteCmd own (met_self metrics) out value) q in
      on_au (fun a => a <| automation_remote_queue := Some q |>);;
      if sent : bool then finish value AUTOMATION_ACTION_DISPATCHED_REMOTE false
      else finish value AUTOMATION_ACTION_DISPATCH_FAILED false
    | None => finish value AUTOMATION_ACTION_DISPATCH_FAILED false
    end.

Definition automation_apply_output (n : automation_node) (i : nat) (condition_true : bool) : M () :=
  automation_dispatch_output (output n) (if condition_true then on_true n else on_false n) i;; mret tt.
Definition automation_toggle_output (out : Z) (i : nat) : M () :=
  w ← gets sys;
  let current := default 0 (state_get_int out w) in
  automation_dispatch_output out (if current =? 0 then 1 else 0) i;; mret tt.

(** One round of the dispatcher task, with the transport ready or not. *)
Definition automation_dispatcher_round (cluster_transport_is_ready : bool) : M () :=
  w ← gets (fun w => w);
  match automation_remote_queue (au w) ≫= xQueueReceive with
  | None => mret tt
  | Some (cmd, q) =>
    on_au (fun a => a <| automation_remote_queue := Some q |>);;
    if cluster_transport_is_ready
    then on_cl (outbox_add
           (PROTOCOL_MSG_OUTPUT_COMMAND (target_node cmd) (requester_node cmd) (cmd_output_id cmd) (cmd_value cmd)))
    else mret tt
  end.

(** A command that arrives from another node. *)
Definition automation_handle_output_command (target requester id value : Z) : M () :=
  w ← gets (fun w => w);
  let metrics := cluster_get_metrics (mgr (acl w)) in
  if (met_self metrics =? 0) || negb (target =? met_self metrics) then mret tt
  else if negb (requester =? 0) && negb (requester =? met_self metrics)
          && negb (node_registry_is_known requester (sys w)) then mret tt
  else if negb (device_profile_is_valid_output id) then mret tt
  else
    r ← on_sys (guard_command id value);
    if negb r.1 then mret tt
    else on_sys (state_set_int id r.2);; mret tt.

(** [protocol_process_frame], on a frame already read as a message. *)
Definition sizeof_protocol_msg : Z := struct_size [c_u8; (struct_size [c_u32; c_u32; c_u16; c_i32], 4)].
Definition protocol_process_frame (len : Z) (m : protocol_msg) : M () :=
  if len <? sizeof_protocol_msg then mret tt
  else
    w ← gets (fun w => w);
    match m with
    | PROTOCOL_MSG_CLUSTER_IO_UPDATE id new orig =>
      if failover_started (acl w) then on_cl (cluster_io_handle_update id new orig) else mret tt
    | PROTOCOL_MSG_OUTPUT_COMMAND target requester id value =>
      if handlers_registered (au w) then automation_handle_output_command target requester id value else mret tt
    end.

(** *** Persistence *)

Definition automation_persist : M () :=
  a ← gets au;
  let blob := automation_blob (rules a) in
  ok ← on_nvs nvs_open_rw;
  if negb ok then mret tt
  else
    ok ← on_nvs (nvs_set_blob blob);
    if negb ok then mret tt
    else
      ok ← on_nvs nvs_commit;
      if ok : bool then on_au (fun a => a <| persisted_config := true |>) else mret tt.

(** The end of each branch of the loader: the rules become the table, whose
    run-time part [automation_engine_init] has just cleared; an old version is
    written back in the current form. *)
Definition install_rules (accepted migrated : bool) (ns : list automation_node) (ks : list automation_interlock) : M () :=
  if negb accepted || negb (check_rules [] ns) then mret tt
  else
    on_au (fun a => a <| rules := zip_with fresh_rule ns ks |> <| persisted_config := true |>);;
    if migrated then automation_persist else mret tt.

Definition automation_load : M () :=
  w ← gets (fun w => w);
  match nvs_get_blob (anvs w) with
  | None => mret tt
  | Some blob =>
    let len := Z.of_nat (length blob) in
    let count := Z.to_nat (field 6 2 blob) in
    let slots := fun off size => (fun i => array_slot off size i blob) <$> seq 0 count in
    let no_interlocks := replicate count interlock_zero in
    if len =? sizeof_automation_blob then
      install_rules (automation_accepted AUTOMATION_VERSION blob) false
        (node_of <$> slots 8%nat 16%nat) (interlock_of <$> slots 264%nat 12%nat)
    else if len =? sizeof_automation_blob_v3 then
      install_rules (automation_accepted AUTOMATION_VERSION_V3 blob) true (node_of <$> slots 8%nat 16%nat) no_interlocks
    else if len =? sizeof_automation_blob_v2 then
      install_rules (automation_accepted AUTOMATION_VERSION_V2 blob) true (node_of_v2 <$> slots 8%nat 12%nat) no_interlocks
    else if len =? sizeof_automation_blob_v1 then
      install_rules (automation_accepted AUTOMATION_VERSION_V1 blob) true (node_of_v1 <$> slots 8%nat 8%nat) no_interlocks
    else mret tt
  end.

(** *** Events *)

(** The [switch] on the mode, for a rule whose condition was just evaluated. *)
Definition run_mode (i : nat) (n : automation_node) (condition_now rising_edge : bool) : M () :=
  let m := mode n in
  if m =? AUTOMATION_MODE_FOLLOW then
    automation_apply_output n i condition_now;;
    upd_rt i (fun t => t <| timer_active := false |> <| pulse_active := false |> <| latched_true := condition_now |>)
  else if m =? AUTOMATION_MODE_PULSE_MS then
    if rising_edge then
      automation_apply_output n i true;;
      w ← gets (fun w => w);
      upd_rt i (fun t => t <| pulse_active := true |> <| timer_active := true |>
                           <| deadline_ms := automation_deadline_after (duration_ms n) w |>)
    else mret tt
  else if m =? AUTOMATION_MODE_ON_DELAY_MS then
    if condition_now then
      w ← gets (fun w => w);
      upd_rt i (fun t => t <| latched_true := false |> <| timer_active := true |>
                           <| deadline_ms := automation_deadline_after (duration_ms n) w |>);;
      automation_apply_output n i false
    else
      upd_rt i (fun t => t <| timer_active := false |> <| latched_true := false |>);;
      automation_apply_output n i false
  else if m =? AUTOMATION_MODE_OFF_DELAY_MS then
    if condition_now then
      upd_rt i (fun t => t <| timer_active := false |> <| latched_true := true |>);;
      automation_apply_output n i true
    else
      w ← gets (fun w => w);
      upd_rt i (fun t => t <| timer_active := true |> <| deadline_ms := automation_deadline_after (duration_ms n) w |>)
  else if m =? AUTOMATION_MODE_TOGGLE then
    if rising_edge then automation_toggle_output (output n) i else mret tt
  else if m =? AUTOMATION_MODE_FORCE_ON then
    if rising_edge then automation_dispatch_output (output n) 1 i;; mret tt else mret tt
  else if m =? AUTOMATION_MODE_FORCE_OFF then
    if rising_edge then automation_dispatch_output (output n) 0 i;; mret tt else mret tt
  else mret tt.

(** One round of the first loop: the rule whose input changed. *)
Definition trigger_rule (ev : event) (trigger_ms : Z) (i : nat) : M () :=
  w ← gets (fun w => w);
  match rule_at i w with
  | None => mret tt
  | Some r =>
    let n := nd r in
    if negb (input n =? ev_source ev) then mret tt
    else
      let eval_val := pve_get_scaled_value (ev_source ev) (ev_data ev) (apve w) in
      let condition_now := automation_eval_rule n eval_val in
      let rising_edge := condition_now && negb (rt_condition (rt r)) in
      upd_rt i (fun t => t <| rt_condition := condition_now |>);;
      automation_diag_mark_eval i condition_now trigger_ms;;
      if (condition_now || rising_edge) && negb (automation_eval_interlock (ilk r) (sys w)) then
        automation_diag_mark_action i (on_true n) AUTOMATION_ACTION_BLOCKED_FAILSAFE
          (cluster_io_is_local (output n) (cio (acl w))) (cluster_io_get_owner (output n) (cio (acl w)))
          (cluster_io_get_original_owner (output n) (cio (acl w)))
      else run_mode i n condition_now rising_edge
  end.

(** One round of the second loop: an output that is on and whose interlock has
    just lost its permission. *)
Definition guard_rule (ev : event) (i : nat) : M () :=
  w ← gets (fun w => w);
  match rule_at i w with
  | None => mret tt
  | Some r =>
    let k := ilk r in
    if (ilk_enabled k =? 0) || (ilk_cond_count k =? 0) then mret tt
    else if negb (is_interlock_channel k (ev_source ev)) then mret tt
    else
      match state_get_int (output (nd r)) (sys w) with
      | Some v =>
        if negb (v =? 0) && negb (automation_eval_interlock k (sys w)) then
          upd_rt i (fun t => t <| timer_active := false |> <| pulse_active := false |> <| latched_true := false |>);;
          automation_dispatch_output (output (nd r)) (on_false (nd r)) i;; mret tt
        else mret tt
      | None => mret tt
      end
  end.

Definition automation_event_handler (ev : event) : M () :=
  if negb (ev_type ev =? EVENT_STATE_CHANGE) then mret tt
  else
    trigger_ms ← automation_now_ms;
    a ← gets au;
    for_each (trigger_rule ev trigger_ms) (seq 0 (length (rules a)));;
    for_each (guard_rule ev) (seq 0 (length (rules a))).

(** One round of the tick: a rule whose timer has run out. *)
Definition tick_rule (i : nat) : M () :=
  w ← gets (fun w => w);
  match rule_at i w with
  | None => mret tt
  | Some r =>
    let n := nd r in
    if negb (timer_active (rt r)) then mret tt
    else if negb (automation_time_reached (deadline_ms (rt r)) w) then mret tt
    else
      upd_rt i (fun t => t <| timer_active := false |>);;
      if mode n =? AUTOMATION_MODE_PULSE_MS then
        if pulse_active (rt r) then
          upd_rt i (fun t => t <| pulse_active := false |>);; automation_apply_output n i false
        else mret tt
      else if mode n =? AUTOMATION_MODE_ON_DELAY_MS then
        if rt_condition (rt r) then
          upd_rt i (fun t => t <| latched_true := true |>);; automation_apply_output n i true
        else mret tt
      else if mode n =? AUTOMATION_MODE_OFF_DELAY_MS then
        if negb (rt_condition (rt r)) then
          upd_rt i (fun t => t <| latched_true := false |>);; automation_apply_output n i false
        else mret tt
      else mret tt
  end.
Definition automation_engine_tick_1ms : M () :=
  on_au (fun a => a <| automation_tick_ms := u32 (automation_tick_ms a + 1) |>);;
  a ← gets au;
  for_each tick_rule (seq 0 (length (rules a))).

(** *** The rule table *)

(** The loop over the existing rules: what the first one that objects answers. *)
Fixpoint check_candidate (c : automation_node) (rs : list rule) : option automation_result :=
  match rs with
  | [] => None
  | r :: rs =>
    if automation_rules_equal (nd r) c then Some AUTOMATION_RESULT_DUPLICATE
    else if automation_rule_conflicts (nd r) c then Some AUTOMATION_RESULT_CONFLICT
    else check_candidate c rs
  end.

Definition automation_engine_add_rule (inp o m t duration out on_t on_f : Z) : M automation_result :=
  if negb (automation_valid_input inp) || negb (automation_valid_output out) || negb (automation_valid_operator o)
     || negb (automation_valid_mode m) || negb (automation_valid_action on_t) || negb (automation_valid_action on_f)
     || (timed_mode m && (duration =? 0))
  then mret AUTOMATION_RESULT_INVALID
  else
    let candidate := AutomationNode (u16 inp) (u16 out) t o m duration (i8 on_t) (i8 on_f) in
    a ← gets au;
    match check_candidate candidate (rules a) with
    | Some refusal => mret refusal
    | None =>
      if AUTOMATION_ENGINE_MAX_NODES <=? node_count a then mret AUTOMATION_RESULT_FULL
      else
        on_au (fun a => a <| rules := rules a ++ [fresh_rule candidate interlock_zero] |>);;
        automation_persist;;
        s ← gets sys;
        match state_get_int (u16 inp) s with
        | Some current_val =>
          automation_event_handler (Event EVENT_STATE_CHANGE (u16 inp) current_val);; mret AUTOMATION_RESULT_OK
        | None => mret AUTOMATION_RESULT_OK
        end
    end.

Definition automation_engine_add_node (inp t out : Z) : M bool :=
  r ← automation_engine_add_rule inp AUTOMATION_OP_GT AUTOMATION_MODE_FOLLOW t 0 out 1 0;
  mret match r with AUTOMATION_RESULT_OK | AUTOMATION_RESULT_DUPLICATE => true | _ => false end.

Definition valid_index (index : Z) (a : automation Q) : bool := (0 <=? index) && (index <? node_count a).
Definition automation_engine_set_interlock_at (index : Z) (k : option automation_interlock) : M bool :=
  a ← gets au;
  if negb (valid_index index a) then mret false
  else
    upd_rule (Z.to_nat index) (fun r => r <| ilk := default interlock_zero k |>);;
    automation_persist;; mret true.
Definition automation_engine_get_interlock_at (index : Z) (a : automation Q) : option automation_interlock :=
  if valid_index index a then ilk <$> rules a !! Z.to_nat index else None.
Definition automation_engine_remove_node_at (index : Z) : M bool :=
  a ← gets au;
  if negb (valid_index index a) then mret false
  else on_au (fun a => a <| rules := delete (Z.to_nat index) (rules a) |>);; automation_persist;; mret true.
Definition automation_engine_clear : M () := on_au (fun a => a <| rules := [] |>);; automation_persist.

(** The copies for display: the result and the rules copied, for a buffer of
    [max_nodes] places or none. *)
Definition export {A} (part : rule -> A) (buffer : bool) (max_nodes : Z) (a : automation Q) : Z * list A :=
  if negb buffer || (max_nodes <=? 0) then (node_count a, [])
  else let n := Z.min (node_count a) max_nodes in (n, part <$> take (Z.to_nat n) (rules a)).
Definition automation_engine_export_nodes := export nd.
Definition automation_engine_export_diags := export dg.
Definition automation_engine_get_node_count (a : automation Q) : Z := node_count a.
Definition automation_engine_has_persisted_config (a : automation Q) : bool := persisted_config a.

Definition automation_engine_init : M () :=
  on_au (fun a => Automation [] false 0
    (match automation_remote_queue a with Some q => Some q | None => xQueueCreate end) (handlers_registered a));;
  automation_load;;
  on_au (fun a => a <| handlers_registered := true |>).
End automation.

(** ** What handlers and ticks can change

    [drives I outs ridx idx]: the moves the engine makes preserve [I] when they
    write only the outputs and values in [outs], the timers of the rules in
    [ridx] and the diagnostics of the rules in [idx].  Every handler then
    preserves [I], whatever the rules are. *)

Definition bit (v : Z) : Prop := v = 0 \/ v = 1.

Section drives.
Context {W N Q : Type} `{StateLaws W} `{NodeRegistryApi W} `{!FailsafeApi W} `{!FailsafeLaws W} `{Nvs N} `{RemoteQueue Q}.
Implicit Types (w : aw W N Q) (I : aw W N Q -> Prop).

Record drives (I : aw W N Q -> Prop) (outs : Z -> Z -> Prop) (ridx idx : nat -> Prop) : Prop := {
  dr_rt i f : ridx i -> keeps I (upd_rt i f);
  dr_dg i f : idx i -> keeps I (upd_rule i (fun r => r <| dg := f (dg r) |>));
  dr_now : keeps I automation_now_ms;
  dr_queue q : keeps I (on_au (fun a => a <| automation_remote_queue := q |>));
  dr_guard out v : outs out v -> bit v -> keeps I (on_sys (guard_command out v));
  dr_set out v : outs out v -> bit v -> keeps I (on_sys (state_set_int out v));
}.
(** The rules at these indexes drive these outputs, with 0 and 1. *)
Definition driven (outs : Z -> Z -> Prop) (idx : nat -> Prop) (w : aw W N Q) : Prop :=
  forall i r, idx i -> rule_at i w = Some r ->
    (forall v, bit v -> outs (output (nd r)) v) /\ bit (on_true (nd r)) /\ bit (on_false (nd r)).

Lemma drives_and I J outs ridx idx : drives I outs ridx idx -> drives J outs ridx idx ->
  drives (fun w => I w /\ J w) outs ridx idx.
Proof. unfold keeps. intros [] []. split; unfold keeps in *; intros; destruct_and?; split; eauto. Qed.

Context (I : aw W N Q -> Prop) (outs : Z -> Z -> Prop) (ridx idx : nat -> Prop).
Context (HI : drives I outs ridx idx).
#[local] Hint Resolve dr_rt dr_dg dr_now dr_queue dr_guard dr_set : keeps.

Lemma mark_action_keeps i v r l o g : idx i -> keeps I (automation_diag_mark_action i v r l o g).
Proof.
  intros Hi. unfold automation_diag_mark_action. apply keeps_bind; [apply (dr_now _ _ _ _ HI)|]. intros now.
  apply (dr_dg _ _ _ _ HI i (fun d => RuleDiag (last_trigger_ms d) (last_eval_ms d) now (last_condition d)
    (if v =? 0 then 0 else 1) r (if l then 1 else 0) o g) Hi).
Qed.
Lemma mark_eval_keeps i c t : idx i -> keeps I (automation_diag_mark_eval i c t).
Proof.
  intros Hi. exact (dr_dg _ _ _ _ HI i (fun d => d <| last_trigger_ms := t |> <| last_eval_ms := t |>
    <| last_condition := if c : bool then 1 else 0 |>) Hi).
Qed.

Lemma on_sys_value out v w : (on_sys (guard_command out v) w).1 = (guard_command out v (sys w)).1.
Proof. unfold on_sys, on_cl, cw_on_world, on_part, sys. by destruct (guard_command out v (cw_world (acl w))). Qed.

Lemma dispatch_keeps out v i : outs out v -> bit v -> idx i -> keeps I (automation_dispatch_output out v i).
Proof.
  intros Ho Hv Hi w Hw. unfold automation_dispatch_output. rewrite run_bind_gets. cbv zeta.
  set (own := cluster_io_get_owner _ _). set (orig := cluster_io_get_original_owner _ _). set (self := met_self _).
  assert (forall x r l, keeps I (automation_diag_mark_action i x r l own orig;; mret r)) as Hfin
    by (intros; apply keeps_bind; [by apply mark_action_keeps|intros; apply keeps_ret]).
  destruct (cluster_io_is_local _ _).
  { rewrite run_bind_surj, on_sys_value.
    pose proof (dr_guard _ _ _ _ HI out v Ho Hv w Hw) as Hg. pose proof (guard_value out v (sys w) Hv) as Hgv.
    destruct (guard_command out v (sys w)).1 as [[] x]; cbn [fst snd negb] in *; [|by apply Hfin].
    rewrite (Hgv eq_refl). revert Hg. generalize (on_sys (guard_command out v) w).2. intros w1 Hw1.
    rewrite run_bind_surj. apply Hfin. by apply (dr_set _ _ _ _ HI). }
  repeat case_match; try (by apply Hfin).
  all: rewrite run_bind_surj; apply Hfin; by apply (dr_queue _ _ _ _ HI).
Qed.

Lemma apply_output_keeps n i c :
  let v := if c : bool then on_true n else on_false n in
  outs (output n) v -> bit v -> idx i -> keeps I (automation_apply_output n i c).
Proof.
  intros. unfold automation_apply_output. apply keeps_bind; [|intros; apply keeps_ret]. by apply dispatch_keeps.
Qed.

Lemma run_mode_keeps n i c e : (forall v, bit v -> outs (output n) v) -> bit (on_true n) -> bit (on_false n) ->
  ridx i -> idx i -> keeps I (run_mode i n c e).
Proof.
  intros Ho Ht Hf Hr Hi. unfold run_mode, automation_toggle_output.
  assert (bit 0 /\ bit 1) as [? ?] by (unfold bit; lia).
  assert (forall f, keeps I (upd_rt i f)) by (intros; by apply (dr_rt _ _ _ _ HI)).
  assert (forall c, keeps I (automation_apply_output n i c)) by (intros []; apply apply_output_keeps; auto).
  assert (forall v, bit v -> keeps I (automation_dispatch_output (output n) v i)) by (intros; apply dispatch_keeps; auto).
  cbv zeta. keeps; auto. case_match; auto.
Qed.
(** A rule whose condition is false writes nothing but its [on_false]. *)
Lemma run_mode_off_keeps n i : outs (output n) (on_false n) -> bit (on_false n) -> ridx i -> idx i ->
  keeps I (run_mode i n false false).
Proof.
  intros Ho Hf Hr Hi. unfold run_mode.
  assert (forall f, keeps I (upd_rt i f)) by (intros; by apply (dr_rt _ _ _ _ HI)).
  assert (keeps I (automation_apply_output n i false)) by (by apply apply_output_keeps).
  cbv zeta. keeps; auto.
Qed.

Lemma trigger_keeps ev t i : ridx i -> idx i -> (forall w, I w -> driven outs idx w) -> keeps I (trigger_rule ev t i).
Proof.
  intros Hri Hi Hd w Hw. unfold trigger_rule. rewrite run_bind_gets. destruct (rule_at i w) as [r|] eqn:Hr; [|done].
  destruct (Hd w Hw i r Hi Hr) as (Ho & Ht & Hf). cbv zeta. destruct (input (nd r) =? ev_source ev); cbn [negb]; [|done].
  rewrite run_bind_surj. apply keeps_bind; [by apply mark_eval_keeps| |by apply (dr_rt _ _ _ _ HI)].
  intros _. case_match; [by apply mark_action_keeps|by apply run_mode_keeps].
Qed.

Lemma guard_rule_keeps ev i : ridx i -> idx i -> (forall w, I w -> driven outs idx w) -> keeps I (guard_rule ev i).
Proof.
  intros Hri Hi Hd w Hw. unfold guard_rule. rewrite run_bind_gets. destruct (rule_at i w) as [r|] eqn:Hr; [|done].
  destruct (Hd w Hw i r Hi Hr) as (Ho & Ht & Hf). cbv zeta. repeat case_match; try done.
  rewrite run_bind_surj. apply keeps_bind; [apply dispatch_keeps; auto|intros; apply keeps_ret|by apply (dr_rt _ _ _ _ HI)].
Qed.

Lemma tick_rule_keeps i : ridx i -> idx i -> (forall w, I w -> driven outs idx w) -> keeps I (tick_rule i).
Proof.
  intros Hri Hi Hd w Hw. unfold tick_rule. rewrite run_bind_gets. destruct (rule_at i w) as [r|] eqn:Hr; [|done].
  destruct (Hd w Hw i r Hi Hr) as (Ho & Ht & Hf). cbv zeta.
  assert (forall f, keeps I (upd_rt i f)) as Hrt by (intros; by apply (dr_rt _ _ _ _ HI)).
  assert (forall c, keeps I (automation_apply_output (nd r) i c)) as Happ by (intros []; apply apply_output_keeps; auto).
  repeat case_match; try done; rewrite run_bind_surj; try by apply Hrt.
  all: apply keeps_bind; [apply Hrt|intros _; apply Happ|by apply Hrt].
Qed.

(** Loops over some of the rules. *)
Lemma triggers_keep ev t l : (forall i, i ∈ l -> ridx i /\ idx i) -> (forall w, I w -> driven outs idx w) ->
  keeps I (for_each (trigger_rule ev t) l).
Proof. intros Hi Hd. apply keeps_for_each. intros i [? ?]%Hi. by apply trigger_keeps. Qed.
Lemma guards_keep ev l : (forall i, i ∈ l -> ridx i /\ idx i) -> (forall w, I w -> driven outs idx w) ->
  keeps I (for_each (guard_rule ev) l).
Proof. intros Hi Hd. apply keeps_for_each. intros i [? ?]%Hi. by apply guard_rule_keeps. Qed.
Lemma ticks_keep l : (forall i, i ∈ l -> ridx i /\ idx i) -> (forall w, I w -> driven outs idx w) ->
  keeps I (for_each tick_rule l).
Proof. intros Hi Hd. apply keeps_for_each. intros i [? ?]%Hi. by apply tick_rule_keeps. Qed.

(** The whole handler, when all indexes are in. *)
Lemma handler_keeps ev : (forall i, ridx i /\ idx i) -> (forall w, I w -> driven outs idx w) -> keeps I (automation_event_handler ev).
Proof.
  intros Hi Hd. unfold automation_event_handler. apply keeps_if; [apply keeps_ret|].
  apply keeps_bind; [apply (dr_now _ _ _ _ HI)|]. intros t. apply keeps_bind; [apply keeps_gets|]. intros a.
  apply keeps_bind; [|intros _]; auto using triggers_keep, guards_keep.
Qed.
End drives.

(** ** The rule table *)

Definition node_typed (n : automation_node) : Prop :=
  is_u16 (input n) /\ is_u16 (output n) /\ is_i32 (threshold n) /\ is_u8 (op n) /\ is_u8 (mode n) /\
  is_u16 (duration_ms n).
Definition condition_typed (c : automation_condition) : Prop :=
  is_u16 (cd_channel c) /\ is_u8 (cd_op c) /\ -128 <= cd_target c < 128.
Definition interlock_typed (k : automation_interlock) : Prop :=
  is_u8 (ilk_enabled k) /\ is_u8 (ilk_logic_op k) /\ is_u8 (ilk_cond_count k) /\ is_u8 (ilk_reserved k) /\
  condition_typed (ilk_cond0 k) /\ condition_typed (ilk_cond1 k).

(** The table without its run-time part. *)
Definition cfg {Q} (a : automation Q) : list (automation_node * automation_interlock) := (fun r => (nd r, ilk r)) <$> rules a.
Definition entry_ok (p : automation_node * automation_interlock) : Prop :=
  automation_rule_is_valid p.1 = true /\ node_typed p.1 /\ interlock_typed p.2.
Definition compatible (c : list (automation_node * automation_interlock)) : Prop :=
  forall i j p q, i <> j -> c !! i = Some p -> c !! j = Some q -> automation_rule_conflicts p.1 q.1 = false.
Definition table_ok (c : list (automation_node * automation_interlock)) : Prop :=
  (length c <= 16)%nat /\ Forall entry_ok c /\ compatible c.

Lemma conflicts_sym a b : automation_rule_conflicts a b = automation_rule_conflicts b a.
Proof.
  unfold automation_rule_conflicts, automation_rules_equal.
  rewrite (Z.eqb_sym (output a)), (Z.eqb_sym (mode a)), (andb_comm (automation_mode_is_force_pair (mode a))).
  do 2 case_bool_decide; try congruence; done.
Qed.

Lemma valid_actions n : automation_rule_is_valid n = true -> bit (on_true n) /\ bit (on_false n).
Proof.
  unfold automation_rule_is_valid, automation_valid_action, bit. intros Hv.
  repeat (apply andb_prop in Hv as [Hv ?]). split; lia.
Qed.

Lemma interlock_zero_typed : interlock_typed interlock_zero.
Proof. unfold interlock_typed, condition_typed. cbn. lia. Qed.

(** The checks of the loader and of [automation_engine_add_rule]. *)
Lemma check_rules_ok before ns : check_rules before ns = true ->
  Forall (fun n => automation_rule_is_valid n = true) ns /\
  forall i j a b, (i < j)%nat -> (length before <= j)%nat -> (before ++ ns) !! i = Some a -> (before ++ ns) !! j = Some b ->
    automation_rule_conflicts a b = false.
Proof.
  revert before. induction ns as [|n ns IH]; intros before; cbn [check_rules].
  - intros _. split; [done|]. intros i j a b _ Hj _ Hb. rewrite app_nil_r in Hb. apply lookup_lt_Some in Hb. lia.
  - intros [[Hv Hf]%andb_prop Hc]%andb_prop. destruct (IH _ Hc) as [Hvs Hp]. split; [by constructor|].
    intros i j a b Hij Hj Ha Hb. rewrite cons_middle, app_assoc in Ha, Hb.
    destruct (decide (j = length before)) as [->|Hne].
    + rewrite lookup_app_l in Ha by (rewrite length_app; cbn; lia). rewrite lookup_app_l in Ha by lia.
      rewrite lookup_app_l, list_lookup_middle in Hb by (rewrite ?length_app; cbn; lia). injection Hb as <-.
      rewrite forallb_forall in Hf. apply negb_true_iff, Hf, list_elem_of_In. by eapply list_elem_of_lookup_2.
    + eapply Hp; [done| |done|done]. rewrite length_app. cbn. lia.
Qed.

Lemma check_candidate_ok c rs : check_candidate c rs = None ->
  Forall (fun r => automation_rule_conflicts (nd r) c = false) rs.
Proof. induction rs as [|r rs IH]; cbn; [done|]. repeat case_match; try done. auto. Qed.

Lemma table_ok_snoc c p : table_ok c -> (length c < 16)%nat -> entry_ok p ->
  Forall (fun q => automation_rule_conflicts q.1 p.1 = false) c -> table_ok (c ++ [p]).
Proof.
  intros (_ & Hok & Hc) Hlen Hp Hf. split_and!.
  - rewrite length_app. cbn. lia.
  - apply Forall_app. split; [done|by apply Forall_singleton].
  - intros i j a b Hij Ha Hb. rewrite lookup_app_Some in Ha, Hb.
    destruct Ha as [Ha|[Hi Ha]], Hb as [Hb|[Hj Hb]].
    + by apply (Hc i j).
    + apply list_lookup_singleton_Some in Hb as [_ <-]. exact (Forall_lookup_1 _ _ _ _ Hf Ha).
    + apply list_lookup_singleton_Some in Ha as [_ <-]. rewrite conflicts_sym. exact (Forall_lookup_1 _ _ _ _ Hf Hb).
    + apply list_lookup_singleton_Some in Ha as [? _], Hb as [? _]. lia.
Qed.
Lemma table_ok_delete c i : table_ok c -> table_ok (delete i c).
Proof.
  intros (Hlen & Hok & Hc). split_and!.
  - pose proof (sublist_length _ _ (sublist_delete c i)). lia.
  - by apply Forall_delete.
  - intros a b p q Hab Ha Hb. rewrite list_lookup_delete in Ha, Hb.
    revert Ha Hb. do 2 case_decide; intros Ha Hb; (eapply Hc; [|exact Ha|exact Hb]); lia.
Qed.
Lemma table_ok_interlock c i k : table_ok c -> interlock_typed k -> table_ok (alter (fun p => (p.1, k)) i c).
Proof.
  intros (Hlen & Hok & Hc) Hk.
  assert (forall j (q : automation_node * automation_interlock), alter (fun p => (p.1, k)) i c !! j = Some q ->
    exists p, c !! j = Some p /\ q.1 = p.1 /\ (q.2 = p.2 \/ q.2 = k)) as Hlook.
  { intros j q Hq. destruct (decide (i = j)) as [->|].
    - rewrite list_lookup_alter_eq in Hq. destruct (c !! j) as [p|]; [|done]. cbn in Hq. injection Hq as <-. eauto.
    - rewrite list_lookup_alter_ne in Hq by done. eauto. }
  split_and!.
  - by rewrite length_alter.
  - apply Forall_lookup. intros j q (p & Hp & H1 & H2)%Hlook. destruct (Forall_lookup_1 _ _ _ _ Hok Hp) as (? & ? & ?).
    split_and!; rewrite ?H1; [done|done|]. by destruct H2 as [-> | ->].
  - intros a b p q Hab (p' & Hp & -> & _)%Hlook (q' & Hq & -> & _)%Hlook. by apply (Hc a b).
Qed.

Section table.
Context {W N Q : Type} `{StateLaws W} `{NodeRegistryApi W} `{!FailsafeApi W} `{!FailsafeLaws W} `{Nvs N} `{RemoteQueue Q}.
Implicit Types w : aw W N Q.

Lemma upd_rule_cfg i f w : (forall r, nd (f r) = nd r /\ ilk (f r) = ilk r) -> cfg (au (upd_rule i f w).2) = cfg (au w).
Proof. intros Hf. unfold cfg. cbn. apply fmap_alter_same. intros r _. by destruct (Hf r) as [-> ->]. Qed.

Lemma cfg_drives c : drives (fun w => cfg (au w) = c) (fun _ _ => True) (fun _ => True) (fun _ => True).
Proof.
  split; try (intros; by apply keeps_on_part); try (intros; intros w <-; by apply upd_rule_cfg); try by intros ? w.
Qed.

Lemma cfg_driven c w : table_ok c -> cfg (au w) = c -> driven (fun _ _ => True) (fun _ => True) w.
Proof.
  intros (_ & Hok & _) Hw i r _ Hr. split; [done|].
  assert (c !! i = Some (nd r, ilk r)) as Hl by (rewrite <- Hw; unfold cfg, rule_at in *; by rewrite list_lookup_fmap, Hr).
  destruct (Forall_lookup_1 _ _ _ _ Hok Hl) as (Hv & _). by apply valid_actions.
Qed.

Abbreviation same_cfg c := (fun w : aw W N Q => cfg (au w) = c).
Lemma handler_cfg c ev : table_ok c -> keeps (same_cfg c) (automation_event_handler ev).
Proof. intros Hc. eapply handler_keeps; [apply cfg_drives|done|]. intros w Hw. by apply (cfg_driven c). Qed.
Lemma tick_cfg c : table_ok c -> keeps (same_cfg c) automation_engine_tick_1ms.
Proof.
  intros Hc. apply keeps_bind; [by intros w|]. intros _. apply keeps_bind; [apply keeps_gets|]. intros a.
  eapply ticks_keep; [apply cfg_drives|done|]. intros w Hw. by apply (cfg_driven c).
Qed.
Lemma persist_cfg c : keeps (same_cfg c) automation_persist.
Proof. unfold automation_persist, on_nvs, on_au. keeps; try by apply keeps_on_part. Qed.
Lemma command_cfg c t r i v : keeps (same_cfg c) (automation_handle_output_command t r i v).
Proof. unfold automation_handle_output_command. keeps; try by apply keeps_on_part. Qed.
Lemma dispatcher_cfg c ready : keeps (same_cfg c) (automation_dispatcher_round ready).
Proof. unfold automation_dispatcher_round, on_au. keeps; try by apply keeps_on_part. Qed.

(** What the loader reads is well-typed, whatever bytes the flash holds. *)
Definition flash_bytes (n : N) : Prop := forall b, nvs_get_blob n = Some b -> Forall (fun x => is_u8 x) b.
Lemma node_of_typed b : Forall (fun x => is_u8 x) b -> node_typed (node_of b) /\ node_typed (node_of_v2 b) /\ node_typed (node_of_v1 b).
Proof.
  intros Hb. unfold node_typed. cbn.
  pose proof (field_range 0 2 b Hb). pose proof (field_range 2 2 b Hb). pose proof (field_range 8 1 b Hb).
  pose proof (field_range 9 1 b Hb). pose proof (field_range 10 2 b Hb). pose proof (i32_range (field 4 4 b)).
  cbn in *. unfold AUTOMATION_MODE_FOLLOW, AUTOMATION_OP_GT. lia.
Qed.
Lemma interlock_of_typed b : Forall (fun x => is_u8 x) b -> interlock_typed (interlock_of b).
Proof.
  intros Hb. unfold interlock_typed, condition_typed. cbn.
  pose proof (field_range 0 1 b Hb). pose proof (field_range 1 1 b Hb). pose proof (field_range 2 1 b Hb).
  pose proof (field_range 3 1 b Hb). pose proof (field_range 4 2 b Hb). pose proof (field_range 6 1 b Hb).
  pose proof (field_range 8 2 b Hb). pose proof (field_range 10 1 b Hb).
  assert (forall x, -128 <= i8 x < 128) as Hi by (intros x; unfold i8; pose proof (Z.mod_pos_bound (x + 128) 256); lia).
  pose proof (Hi (field 7 1 b)). pose proof (Hi (field 11 1 b)). cbn in *. lia.
Qed.

Lemma install_ok accepted migrated ns ks w :
  table_ok (cfg (au w)) -> (length ns = length ks)%nat -> (accepted = true -> length ns <= 16)%nat ->
  Forall node_typed ns -> Forall interlock_typed ks ->
  table_ok (cfg (au (install_rules accepted migrated ns ks w).2)).
Proof.
  intros Hw Hlen Hacc Hns Hks. unfold install_rules.
  destruct accepted; cbn [negb orb]; [|done]. destruct (check_rules [] ns) eqn:Hc; cbn [negb]; [|done].
  apply check_rules_ok in Hc as [Hv Hp].
  unfold on_au. rewrite run_bind_modify.
  match goal with |- context [(if migrated then _ else _) ?w1] => set (w1' := w1) end.
  assert (cfg (au w1') = zip ns ks) as Hcfg.
  { unfold w1', cfg. cbn. clear -Hlen. revert ks Hlen. induction ns as [|n ns IH]; intros [|k ks]; cbn; intros; [done..|]. f_equal. apply IH. lia. }
  assert (table_ok (zip ns ks)) as Hok.
  { split_and!.
    - rewrite length_zip_with. specialize (Hacc eq_refl). lia.
    - apply Forall_lookup. intros i [n k] (n' & k' & [= -> ->] & Hn & Hk)%lookup_zip_with_Some.
      split_and!; cbn; [exact (Forall_lookup_1 _ _ _ _ Hv Hn)|exact (Forall_lookup_1 _ _ _ _ Hns Hn)|exact (Forall_lookup_1 _ _ _ _ Hks Hk)].
    - intros i j p q Hij (n & k & -> & Hn & _)%lookup_zip_with_Some (n' & k' & -> & Hn' & _)%lookup_zip_with_Some.
      cbn. destruct (decide (i < j)%nat); [by apply (Hp i j); [|cbn; lia|..]|].
      rewrite conflicts_sym. apply (Hp j i); [lia|cbn; lia|done..]. }
  destruct migrated; cbn [snd]; [by rewrite (persist_cfg _ _ Hcfg)|]. change (table_ok (cfg (au w1'))). by rewrite Hcfg.
Qed.

Lemma load_ok w : flash_bytes (anvs w) -> table_ok (cfg (au w)) -> table_ok (cfg (au (automation_load w).2)).
Proof.
  intros Hb Hw. unfold automation_load. rewrite run_bind_gets.
  destruct (nvs_get_blob (anvs w)) as [blob|] eqn:Hblob; [|done]. specialize (Hb _ Hblob). cbv zeta.
  assert (forall off size i, Forall (fun x => is_u8 x) (array_slot off size i blob)) as Hs
    by (intros; unfold array_slot; by apply Forall_take, Forall_drop).
  assert (forall v, automation_accepted v blob = true -> (Z.to_nat (field 6 2 blob) <= 16)%nat) as Hcount.
  { intros v Ha. unfold automation_accepted, AUTOMATION_ENGINE_MAX_NODES in Ha. repeat (apply andb_prop in Ha as [Ha ?]). lia. }
  assert (forall (f : list Z -> automation_node) off size l, (forall b, Forall (fun x => is_u8 x) b -> node_typed (f b)) ->
    Forall node_typed (f <$> ((fun i => array_slot off size i blob) <$> (l : list nat)))) as Hf
    by (intros f off size l Hft; apply Forall_fmap, Forall_fmap, Forall_true; intros; cbn; auto).
  repeat case_match; try done; apply install_ok; try done; rewrite ?length_fmap, ?length_seq, ?length_replicate; eauto.
  all: lazymatch goal with
    | |- Forall node_typed _ => apply Hf; intros b Hbb; destruct (node_of_typed b Hbb) as (? & ? & ?); assumption
    | |- Forall _ (replicate _ _) => apply Forall_replicate, interlock_zero_typed
    | _ => apply Forall_fmap, Forall_fmap, Forall_true; intros i; apply interlock_of_typed, Hs
    end.
Qed.

(** Everything that happens to the engine. *)
Inductive automation_step : aw W N Q -> aw W N Q -> Prop :=
| do_init w : flash_bytes (anvs w) -> automation_step w (automation_engine_init w).2
| do_add inp o m t d out on_t on_f w : is_u8 o -> is_u8 m -> is_i32 t -> is_u16 d ->
    automation_step w (automation_engine_add_rule inp o m t d out on_t on_f w).2
| do_interlock i k w : from_option interlock_typed True k -> automation_step w (automation_engine_set_interlock_at i k w).2
| do_remove i w : automation_step w (automation_engine_remove_node_at i w).2
| do_clear w : automation_step w (automation_engine_clear w).2
| do_event ev w : automation_step w (automation_event_handler ev w).2
| do_tick w : automation_step w (automation_engine_tick_1ms w).2
| do_command t r i v w : automation_step w (automation_handle_output_command t r i v w).2
| do_dispatch ready w : automation_step w (automation_dispatcher_round ready w).2
| do_other c p n w : automation_step w (w <| acl := c |> <| apve := p |> <| anvs := n |>).

Lemma table_ok_nil : table_ok [].
Proof. split_and!; [cbn; lia|done|]. intros i j p q _ Hp. done. Qed.

Lemma add_rule_ok inp o m t d out on_t on_f w : is_u8 o -> is_u8 m -> is_i32 t -> is_u16 d ->
  table_ok (cfg (au w)) -> table_ok (cfg (au (automation_engine_add_rule inp o m t d out on_t on_f w).2)).
Proof.
  intros Ho Hm Ht Hd Hw. unfold automation_engine_add_rule.
  destruct (_ || (timed_mode m && (d =? 0))) eqn:Hval; [done|]. cbv zeta. rewrite run_bind_gets.
  set (c := AutomationNode _ _ _ _ _ _ _ _).
  destruct (check_candidate c (rules (au w))) eqn:Hc; [done|]. apply check_candidate_ok in Hc.
  destruct (Z.leb_spec AUTOMATION_ENGINE_MAX_NODES (node_count (au w))) as [|Hcount]; [done|].
  assert (entry_ok (c, interlock_zero)) as Hentry.
  { repeat (apply orb_false_iff in Hval as [Hval ?]). repeat match goal with Hn : negb _ = false |- _ => apply negb_false_iff in Hn end.
    assert (bit on_t /\ bit on_f) as [Hbt Hbf] by (unfold automation_valid_action, bit in *; lia).
    assert (i8 on_t = on_t /\ i8 on_f = on_f) as [Ht8 Hf8] by (destruct Hbt as [-> | ->], Hbf as [-> | ->]; done).
    split; [|split; [subst c; unfold node_typed; cbn; pose proof (u16_range inp); pose proof (u16_range out); lia|apply interlock_zero_typed]].
    unfold automation_rule_is_valid, automation_valid_input, automation_valid_output. subst c. cbn [fst input output op mode on_true on_false duration_ms].
    rewrite (u16_id (u16 inp)), (u16_id (u16 out)), Ht8, Hf8 by apply u16_range. unfold automation_valid_input, automation_valid_output in *.
    repeat (apply andb_true_iff; split); try done. destruct (timed_mode m); [|done]. cbn [andb] in *. lia. }
  unfold on_au. rewrite run_bind_modify, run_bind_surj.
  match goal with |- context [automation_persist ?w1] => set (w1' := w1) end.
  assert (table_ok (cfg (au w1'))) as Hok.
  { unfold w1', cfg. cbn. rewrite fmap_app. apply table_ok_snoc; [done| |done|].
    - rewrite length_fmap. unfold node_count, AUTOMATION_ENGINE_MAX_NODES in Hcount. lia.
    - apply Forall_fmap. eapply Forall_impl; [exact Hc|]. by intros r Hr. }
  pose proof (persist_cfg _ w1' eq_refl) as Hp. revert Hp. generalize (automation_persist w1').2. intros w2 Hp. rewrite <- Hp in Hok.
  run. destruct (state_get_int _ _); [|done]. rewrite run_bind_surj. run. cbn [snd]. by rewrite (handler_cfg _ _ Hok w2 eq_refl).
Qed.

(** A valid rule is refused for the first reason the table gives, or is the
    table's last one. *)
Lemma add_rule_stores n w : automation_rule_is_valid n = true -> node_typed n -> table_ok (cfg (au w)) ->
  let '(r, w') := automation_engine_add_rule (input n) (op n) (mode n) (threshold n) (duration_ms n) (output n) (on_true n) (on_false n) w in
  match check_candidate n (rules (au w)) with
  | Some refusal => r = refusal /\ w' = w
  | None =>
    if AUTOMATION_ENGINE_MAX_NODES <=? node_count (au w) then r = AUTOMATION_RESULT_FULL /\ w' = w
    else r = AUTOMATION_RESULT_OK /\ cfg (au w') = cfg (au w) ++ [(n, interlock_zero)]
  end.
Proof.
  intros Hv Ht Hw. pose proof (valid_actions n Hv) as [Hbt Hbf]. assert (n = AutomationNode (u16 (input n)) (u16 (output n)) (threshold n) (op n) (mode n)
    (duration_ms n) (i8 (on_true n)) (i8 (on_false n))) as Hn.
  { destruct Ht as (Hi & Ho & _), n. cbn in *. rewrite !u16_id by done. by destruct Hbt as [-> | ->], Hbf as [-> | ->]. }
  pose proof Hv as Hvalid. unfold automation_engine_add_rule. unfold automation_rule_is_valid in Hv. rewrite !andb_true_iff in Hv. destruct Hv as ((((((-> & ->) & ->) & ->) & ->) & ->) & Hd).
  assert (timed_mode (mode n) && (duration_ms n =? 0) = false) as -> by (destruct (timed_mode _); [|done]; destruct (Z.eqb_spec (duration_ms n) 0); [lia|done]).
  cbn [negb orb]. rewrite <- Hn. cbv zeta. rewrite run_bind_gets. destruct (check_candidate n (rules (au w))) as [refusal|] eqn:Hc; [done|].
  destruct (Z.leb_spec AUTOMATION_ENGINE_MAX_NODES (node_count (au w))) as [|Hcount]; [done|].
  unfold on_au. rewrite run_bind_modify, run_bind_surj.
  match goal with |- context [automation_persist ?w1] => set (w1' := w1) end.
  assert (cfg (au w1') = cfg (au w) ++ [(n, interlock_zero)]) as Hc1 by (unfold w1', cfg; cbn; by rewrite fmap_app).
  assert (table_ok (cfg (au w) ++ [(n, interlock_zero)])) as Hok.
  { apply table_ok_snoc; [done| |split; [done|split; [done|apply interlock_zero_typed]]|].
    - unfold cfg. rewrite length_fmap. unfold node_count, AUTOMATION_ENGINE_MAX_NODES in Hcount. lia.
    - apply Forall_fmap. eapply Forall_impl; [exact (check_candidate_ok _ _ Hc)|]. by intros r Hr. }
  pose proof (persist_cfg _ w1' Hc1) as Hp. revert Hp. generalize (automation_persist w1').2. intros w2 Hp.
  run. destruct (state_get_int _ _); [|done]. rewrite run_bind_surj. run. split; [done|]. by rewrite (handler_cfg _ _ Hok w2 Hp).
Qed.
Lemma set_interlock_cfg i k w : valid_index i (au w) = true ->
  cfg (au (automation_engine_set_interlock_at i (Some k) w).2) = alter (fun p => (p.1, k)) (Z.to_nat i) (cfg (au w)).
Proof.
  intros Hi. unfold automation_engine_set_interlock_at. run. rewrite Hi. cbn [negb]. rewrite run_bind_surj, run_bind_surj. run. cbn [snd].
  erewrite persist_cfg by done. unfold cfg, upd_rule, on_au. cbn. by rewrite (list_fmap_alter _ _ (fun p => (p.1, k))) by (by apply Forall_true).
Qed.

Lemma step_table_ok w w' : automation_step w w' -> table_ok (cfg (au w)) -> table_ok (cfg (au w')).
Proof.
  intros [ ] Hw; [|by apply add_rule_ok|..].
  - unfold automation_engine_init. unfold on_au. rewrite run_bind_modify, run_bind_surj, run_modify. cbn [snd].
    apply (load_ok (w0 <| au := _ |>)); [done|]. apply table_ok_nil.
  - unfold automation_engine_set_interlock_at. run. case_match; [done|].
    rewrite run_bind_surj, run_bind_surj. run. cbn [snd]. erewrite persist_cfg by done.
    unfold cfg, upd_rule, on_au. cbn. rewrite (list_fmap_alter _ _ (fun p => (p.1, default interlock_zero k))) by (by apply Forall_true).
    apply table_ok_interlock; [done|]. destruct k; [done|apply interlock_zero_typed].
  - unfold automation_engine_remove_node_at. run. case_match; [done|].
    unfold on_au. rewrite run_bind_modify, run_bind_surj. run. cbn [snd]. erewrite persist_cfg by done.
    unfold cfg. cbn. rewrite list_fmap_delete. by apply table_ok_delete.
  - unfold automation_engine_clear, on_au. rewrite run_bind_modify. erewrite persist_cfg by done. apply table_ok_nil.
  - by rewrite (handler_cfg _ _ Hw w0 eq_refl).
  - by rewrite (tick_cfg _ Hw w0 eq_refl).
  - by rewrite (command_cfg _ _ _ _ _ w0 eq_refl).
  - by rewrite (dispatcher_cfg _ _ w0 eq_refl).
  - done.
Qed.
End table.

(** C13: the rule table is well-formed in every reachable state.  Whatever the
    flash holds at the first boot, whatever rules, interlocks, events, ticks
    and commands follow, there are at most sixteen rules, each of them valid
    and with its fields in range, and two rules only share an output when they
    are the same or one forces it on and the other off. *)
Theorem rule_table_invariant {W N Q} `{StateLaws W} `{NodeRegistryApi W} `{!FailsafeApi W} `{!FailsafeLaws W}
    `{Nvs N} `{RemoteQueue Q} (w0 w : aw W N Q) :
  rules (au w0) = [] -> rtc automation_step w0 w ->
  (length (rules (au w)) <= 16)%nat /\
  (forall i r, rule_at i w = Some r ->
     automation_rule_is_valid (nd r) = true /\ node_typed (nd r) /\ interlock_typed (ilk r)) /\
  (forall i j r s, i <> j -> rule_at i w = Some r -> rule_at j w = Some s -> output (nd r) = output (nd s) ->
     nd r = nd s \/
     (mode (nd r) = AUTOMATION_MODE_FORCE_ON /\ mode (nd s) = AUTOMATION_MODE_FORCE_OFF) \/
     (mode (nd r) = AUTOMATION_MODE_FORCE_OFF /\ mode (nd s) = AUTOMATION_MODE_FORCE_ON)).
Proof.
  intros Hinit Hsteps. assert (table_ok (cfg (au w))) as (Hlen & Hok & Hc).
  { assert (table_ok (cfg (au w0))) as Hnil by (unfold cfg; rewrite Hinit; apply table_ok_nil).
    clear Hinit. induction Hsteps; [done|]. eauto using step_table_ok. }
  unfold cfg, rule_at in *. rewrite length_fmap in Hlen. split_and!; [done| |].
  - intros i r Hr. apply (Forall_lookup_1 _ _ i (nd r, ilk r) Hok). by rewrite list_lookup_fmap, Hr.
  - intros i j r s Hij Hr Hs Ho.
    specialize (Hc i j (nd r, ilk r) (nd s, ilk s) Hij). rewrite !list_lookup_fmap, Hr, Hs in Hc.
    specialize (Hc eq_refl eq_refl). cbn [fst] in Hc. unfold automation_rule_conflicts, automation_rules_equal in Hc.
    rewrite Ho, Z.eqb_refl in Hc. cbn [negb orb] in Hc. case_bool_decide; [by left|right].
    unfold automation_mode_is_force_pair in Hc. unfold AUTOMATION_MODE_FORCE_ON, AUTOMATION_MODE_FORCE_OFF in *.
    destruct ((mode (nd r) =? 5) || (mode (nd r) =? 6)) eqn:E1, ((mode (nd s) =? 5) || (mode (nd s) =? 6)) eqn:E2;
      cbn in Hc; try done. lia.
Qed.

(** ** Frames *)

Section frame.
Context {W N Q : Type} `{StateLaws W} `{NodeRegistryApi W} `{!FailsafeApi W} `{!FailsafeLaws W} `{Nvs N} `{RemoteQueue Q}.
Implicit Types w : aw W N Q.

(** From [w0] to [w] only outputs outside [keep], run-time parts of rules and
    diagnostics changed. *)
Definition frame (w0 : aw W N Q) (keep : Z -> Prop) (w : aw W N Q) : Prop :=
  cfg (au w) = cfg (au w0) /\ automation_tick_ms (au w) = automation_tick_ms (au w0) /\
  cio (acl w) = cio (acl w0) /\ apve w = apve w0 /\ state_inv (sys w) /\
  (forall id, keep id -> 0 <= id -> state_get_int id (sys w) = state_get_int id (sys w0)) /\
  (forall id v, (guard_command id v (sys w)).1.1 = (guard_command id v (sys w0)).1.1).

Lemma frame_refl w keep : state_inv (sys w) -> frame w keep w.
Proof. by intros; split_and!. Qed.
Lemma frame_trans w0 w1 w2 keep : frame w0 keep w1 -> frame w1 keep w2 -> frame w0 keep w2.
Proof.
  intros (F1 & F2 & F3 & F4 & _ & F5 & F6) (G1 & G2 & G3 & G4 & G5 & G6 & G7).
  split_and!; [congruence..|done| |].
  - intros id Hk Hid. by rewrite G6, F5.
  - intros id v. by rewrite G7, F6.
Qed.
Lemma frame_weaken w0 w (keep keep' : Z -> Prop) : (forall id, keep' id -> keep id) -> frame w0 keep w -> frame w0 keep' w.
Proof. intros Hk (? & ? & ? & ? & ? & Hr & ?). split_and!; eauto. Qed.

Lemma sys_on_sys {A} (m : st W A) w : sys (on_sys m w).2 = (m (sys w)).2 /\
  au (on_sys m w).2 = au w /\ cio (acl (on_sys m w).2) = cio (acl w) /\ apve (on_sys m w).2 = apve w.
Proof. unfold on_sys, on_cl, cw_on_world, on_part, sys. by destruct (m (cw_world (acl w))). Qed.

Lemma frame_drives w0 keep ridx idx : drives (frame w0 keep) (fun id _ => 0 <= id /\ ~ keep id) ridx idx.
Proof.
  split.
  - intros i f _ w (Hc & Hrest). split; [|done]. rewrite <- Hc. by apply upd_rule_cfg.
  - intros i f _ w (Hc & Hrest). split; [|done]. rewrite <- Hc. by apply upd_rule_cfg.
  - intros w Hw. done.
  - intros q w Hw. done.
  - intros out v [Ho Hk] Hv w (Hc & Ht & Hio & Hp & Hs & Hr & Hg).
    destruct (sys_on_sys (guard_command out v) w) as (Es & Ea & Ec & Ep). unfold frame. rewrite Es, Ea, Ec, Ep.
    split_and!; try done; [by apply guard_inv| |].
    + intros id Hid Hpos. rewrite guard_reads. by apply Hr.
    + intros id v'. by rewrite guard_again.
  - intros out v [Ho Hk] Hv w (Hc & Ht & Hio & Hp & Hs & Hr & Hg).
    destruct (sys_on_sys (state_set_int out v) w) as (Es & Ea & Ec & Ep). unfold frame. rewrite Es, Ea, Ec, Ep.
    split_and!; try done; [apply state_set_inv; [done|]; unfold bit in Hv; lia| |].
    + intros id Hid Hpos. rewrite state_get_set_ne; [by apply Hr|done..|]. by intros ->.
    + intros id v'. by rewrite guard_after_set.
Qed.

(** The other rules leave a rule's place in the table alone. *)
Lemma same_rule_drives i r outs : drives (fun w => rule_at i w = r) outs (fun j => j <> i) (fun j => j <> i).
Proof.
  split; try (intros j f Hj w <-; unfold rule_at; cbn; by rewrite list_lookup_alter_ne);
    intros; intros w Hw; try done; unfold rule_at; by rewrite (proj1 (proj2 (sys_on_sys _ _))).
Qed.
(** Driving an output leaves every rule's timer alone. *)
Lemma same_timer_drives i x outs : drives (fun w => rt <$> rule_at i w = x) outs (fun _ => False) (fun _ => True).
Proof.
  split; try done.
  - intros j f _ w <-. unfold rule_at. cbn. destruct (decide (j = i)) as [->|]; [|by rewrite list_lookup_alter_ne].
    rewrite list_lookup_alter_eq. by destruct (rules (au w) !! i).
  - by intros w Hw.
  - by intros q w Hw.
  - intros out v _ _ w Hw. unfold rule_at in *. by rewrite (proj1 (proj2 (sys_on_sys _ _))).
  - intros out v _ _ w Hw. unfold rule_at in *. by rewrite (proj1 (proj2 (sys_on_sys _ _))).
Qed.

(** Marks touch no state. *)
Lemma mark_action_sys i v r l o g w : sys (automation_diag_mark_action i v r l o g w).2 = sys w.
Proof. done. Qed.
Lemma mark_action_result i v res l o g w r : rule_at i w = Some r ->
  exists r', rule_at i (automation_diag_mark_action i v res l o g w).2 = Some r' /\ last_action_result (dg r') = res.
Proof.
  intros Hr. unfold automation_diag_mark_action. rewrite run_bind_surj.
  assert (rule_at i (automation_now_ms w).2 = Some r) as Hn by done. revert Hn.
  generalize (automation_now_ms w).1 (automation_now_ms w).2. intros t w1 Hn.
  unfold rule_at, upd_rule, on_au in *. run. cbn [snd au rules update].
  rewrite list_lookup_alter_eq, Hn. cbn [fmap option_fmap option_map]. eexists. split; reflexivity.
Qed.

(** Driving an output of this node: it takes the value, unless the fail-safe
    refuses, which the rule then shows. *)
Lemma dispatch_local out v i w r :
  state_inv (sys w) -> 0 <= out -> state_valid_id out = true -> bit v ->
  cluster_io_is_local out (cio (acl w)) = true -> rule_at i w = Some r ->
  let w' := (automation_dispatch_output out v i w).2 in
  if (guard_command out v (sys w)).1.1 then state_get_int out (sys w') = Some v
  else state_get_int out (sys w') = state_get_int out (sys w) /\
       exists r', rule_at i w' = Some r' /\ last_action_result (dg r') = AUTOMATION_ACTION_BLOCKED_FAILSAFE.
Proof.
  intros Hs Ho Hid Hv Hlocal Hr w'. subst w'. unfold automation_dispatch_output. rewrite run_bind_gets. cbv zeta. rewrite Hlocal.
  rewrite run_bind_surj, on_sys_value.
  destruct (sys_on_sys (guard_command out v) w) as (Es & Ea & _). revert Es Ea.
  generalize (on_sys (guard_command out v) w).2. intros w1 Es Ea.
  pose proof (guard_value out v (sys w) Hv) as Hgv.
  destruct (guard_command out v (sys w)).1 as [[] x] eqn:Hg; cbn [fst snd negb] in *.
  - rewrite (Hgv eq_refl), run_bind_surj, run_bind_surj. run. cbn [snd]. rewrite mark_action_sys.
    rewrite (proj1 (sys_on_sys _ _)). apply state_get_set_eq; [|done|done]. rewrite Es. by apply guard_inv.
  - rewrite run_bind_surj. run. cbn [snd]. rewrite mark_action_sys, Es, guard_reads. split; [done|].
    apply (mark_action_result _ _ _ _ _ _ _ r). unfold rule_at in *. by rewrite Ea.
Qed.
End frame.

(** ** One rule among the others *)

Section one_rule.
Context {W N Q : Type} `{StateLaws W} `{NodeRegistryApi W} `{!FailsafeApi W} `{!FailsafeLaws W} `{Nvs N} `{RemoteQueue Q}.
Implicit Types w : aw W N Q.

Lemma drives_mono (I : aw W N Q -> Prop) (outs outs' : Z -> Z -> Prop) (ridx ridx' idx idx' : nat -> Prop) :
  drives I outs ridx idx -> (forall id v, outs' id v -> outs id v) -> (forall j, ridx' j -> ridx j) ->
  (forall j, idx' j -> idx j) -> drives I outs' ridx' idx'.
Proof. intros [] Ho Hr Hi. split; eauto. Qed.

(** No rule drives it. *)
Definition quiet w (id : Z) : Prop := forall j s, rule_at j w = Some s -> id <> output (nd s).
(** Only rule [i] drives its output. *)
Definition exclusive (i : nat) (r : rule) w : Prop := forall j s, j <> i -> rule_at j w = Some s -> output (nd s) <> output (nd r).

Lemma rule_cfg w0 w j s : cfg (au w) = cfg (au w0) -> rule_at j w = Some s ->
  exists s0, rule_at j w0 = Some s0 /\ nd s0 = nd s /\ ilk s0 = ilk s.
Proof.
  intros Hc Hs. assert (cfg (au w0) !! j = Some (nd s, ilk s)) as Hl
    by (rewrite <- Hc; unfold cfg, rule_at in *; by rewrite list_lookup_fmap, Hs).
  unfold cfg in Hl. rewrite list_lookup_fmap in Hl. unfold rule_at.
  destruct (rules (au w0) !! j) as [s0|]; [|done]. injection Hl as <- <-. eauto.
Qed.
Lemma rule_ok w j s : table_ok (cfg (au w)) -> rule_at j w = Some s -> entry_ok (nd s, ilk s).
Proof.
  intros (_ & Hok & _) Hs. apply (Forall_lookup_1 _ _ j _ Hok). unfold cfg, rule_at in *. by rewrite list_lookup_fmap, Hs.
Qed.
Lemma valid_output n : automation_rule_is_valid n = true -> node_typed n -> 0 <= output n /\ state_valid_id (output n) = true.
Proof.
  intros Hv (_ & Ho & _). split; [lia|]. unfold automation_rule_is_valid in Hv. repeat (apply andb_prop in Hv as [Hv ?]).
  match goal with Hx : automation_valid_output _ = true |- _ => rename Hx into Hout end.
  unfold automation_valid_output in Hout. rewrite u16_id in Hout by done.
  apply valid_output_iff in Hout. unfold state_valid_id, STATE_MAX_ENTRIES. lia.
Qed.

Lemma frame_driven w0 w : table_ok (cfg (au w0)) -> cfg (au w) = cfg (au w0) ->
  driven (fun id _ => 0 <= id /\ ~ quiet w0 id) (fun _ => True) w.
Proof.
  intros Hok Hc j s _ Hs. destruct (rule_cfg _ _ _ _ Hc Hs) as (s0 & Hs0 & Hn & Hk).
  destruct (rule_ok _ _ _ Hok Hs0) as (Hv & Ht & _). cbn [fst] in *. rewrite <- Hn.
  destruct (valid_output _ Hv Ht) as [Hpos _]. destruct (valid_actions _ Hv). split_and!; try done.
  intros v _. split; [done|]. intros Hq. by apply (Hq j s0 Hs0).
Qed.
(** The rules other than [i]. *)
Lemma frame_driven_others w0 w i r : table_ok (cfg (au w0)) -> exclusive i r w0 -> cfg (au w) = cfg (au w0) ->
  driven (fun id _ => 0 <= id /\ ~ (quiet w0 id \/ id = output (nd r))) (fun j => j <> i) w.
Proof.
  intros Hok Hex Hc j s Hj Hs. destruct (frame_driven w0 w Hok Hc j s I Hs) as (Ho & Ht & Hf). split_and!; [|done|done].
  intros v Hv. destruct (Ho v Hv) as [Hpos Hq]. split; [done|]. intros [Hq'|He]; [done|].
  destruct (rule_cfg _ _ _ _ Hc Hs) as (s0 & Hs0 & Hn & _). apply (Hex j s0 Hj Hs0). by rewrite Hn.
Qed.

(** The permission of an interlock whose channels no rule drives. *)
Definition on_inputs (k : automation_interlock) w : Prop := forall c, c ∈ ilk_conditions k -> quiet w (cd_channel c).
Lemma frame_interlock k w0 w : interlock_typed k -> on_inputs k w0 -> frame w0 (quiet w0) w ->
  automation_eval_interlock k (sys w) = automation_eval_interlock k (sys w0).
Proof.
  intros (_ & _ & Hcount & _ & (Hc0 & _) & (Hc1 & _)) Hin (_ & _ & _ & _ & _ & Hr & _).
  unfold automation_eval_interlock, on_inputs, ilk_conditions in *.
  destruct (Z.eqb_spec (ilk_enabled k) 0); [done|]. destruct (Z.eqb_spec (ilk_cond_count k) 0) as [|Hnz]; [done|]. cbn [orb].
  assert (automation_eval_condition (ilk_cond0 k) (sys w) = automation_eval_condition (ilk_cond0 k) (sys w0)) as ->.
  { unfold automation_eval_condition. rewrite Hr; [done| |lia]. apply Hin.
    destruct (Z.to_nat (ilk_cond_count k)) eqn:E; [lia|]. by left. }
  destruct (Z.eqb_spec (ilk_cond_count k) 1) as [|Hn1]; [done|].
  assert (automation_eval_condition (ilk_cond1 k) (sys w) = automation_eval_condition (ilk_cond1 k) (sys w0)) as ->; [|done].
  unfold automation_eval_condition. rewrite Hr; [done| |lia]. apply Hin.
  destruct (Z.to_nat (ilk_cond_count k)) as [|[|m]] eqn:E; [lia|lia|]. right. by left.
Qed.

(** An output at [b] stays there when nothing but [b] is written to it. *)
Lemma rest_drives w0 out b : 0 <= out -> state_valid_id out = true ->
  drives (fun w => frame w0 (quiet w0) w /\ state_get_int out (sys w) = Some b)
    (fun id v => (0 <= id /\ ~ quiet w0 id) /\ (id = out -> v = b)) (fun _ => True) (fun _ => True).
Proof.
  intros Ho Hid. destruct (frame_drives w0 (quiet w0) (fun _ => True) (fun _ => True)) as [Drt Ddg Dnow Dq Dg Ds].
  split.
  - intros i f _ w [Hf Hz]. split; [by apply Drt|done].
  - intros i f _ w [Hf Hz]. split; [by apply Ddg|done].
  - intros w [Hf Hz]. by split.
  - intros q w [Hf Hz]. by split.
  - intros id v [Hk _] Hv w [Hf Hz]. split; [by apply Dg|]. rewrite (proj1 (sys_on_sys _ _)). by rewrite guard_reads.
  - intros id v [Hk Hzero] Hv w [Hf Hz]. split; [by apply Ds|]. rewrite (proj1 (sys_on_sys _ _)).
    destruct Hf as (_ & _ & _ & _ & Hs & _). destruct (decide (id = out)) as [->|Hne].
    + rewrite (Hzero eq_refl). by apply state_get_set_eq.
    + rewrite state_get_set_ne; [done|lia..|done].
Qed.
End one_rule.

Section interlock.
Context {W N Q : Type} `{StateLaws W} `{NodeRegistryApi W} `{!FailsafeApi W} `{!FailsafeLaws W} `{Nvs N} `{RemoteQueue Q}.
Context (w0 : aw W N Q) (i : nat) (r : rule).
Context (Hok : table_ok (cfg (au w0))) (Hinv : state_inv (sys w0)) (Hr : rule_at i w0 = Some r).
Implicit Types w : aw W N Q.

Abbreviation out := (output (nd r)).
Lemma out_ok : 0 <= out /\ state_valid_id out = true.
Proof. destruct (rule_ok _ _ _ Hok Hr) as (Hv & Ht & _). by apply valid_output. Qed.

Lemma rule_here w : cfg (au w) = cfg (au w0) -> exists r', rule_at i w = Some r' /\ nd r' = nd r /\ ilk r' = ilk r.
Proof. intros Hc. by apply (rule_cfg w w0 i r (eq_sym Hc)). Qed.

Lemma exclusive_cfg w : exclusive i r w0 -> cfg (au w) = cfg (au w0) -> exclusive i r w.
Proof. intros Hex Hc j s Hj Hs. destruct (rule_cfg _ _ _ _ Hc Hs) as (s0 & Hs0 & <- & _). by apply (Hex j). Qed.

(** What the other rules do leaves this rule, its output and the permission of
    its interlock as they are. *)
Lemma others_keep w (step : nat -> st (aw W N Q) ()) l :
  (forall I outs idx j, drives I outs idx idx -> idx j -> (forall w, I w -> driven outs idx w) -> keeps I (step j)) ->
  exclusive i r w0 -> frame w0 (quiet w0) w -> (forall j, j ∈ l -> j <> i) ->
  let w' := (for_each step l w).2 in
  frame w0 (quiet w0) w' /\ rule_at i w' = rule_at i w /\ state_get_int out (sys w') = state_get_int out (sys w).
Proof.
  intros Hstep Hex Hw Hl w'. pose proof Hw as (Hc & _ & _ & _ & Hs & _).
  assert (keeps (fun v => frame w (fun id => quiet w id \/ id = out) v /\ rule_at i v = rule_at i w) (for_each step l)) as Hk.
  { apply keeps_for_each. intros j Hj.
    apply (Hstep _ (fun id _ => 0 <= id /\ ~ (quiet w id \/ id = out)) (fun j => j <> i)); [|by apply Hl|].
    - apply drives_and; [apply frame_drives|apply same_rule_drives].
    - intros v [Hv _]. apply frame_driven_others; [by rewrite Hc|by apply exclusive_cfg|apply Hv]. }
  destruct (Hk w) as [Hf Hrule]; [split; [by apply frame_refl|done]|]. fold w' in Hf, Hrule.
  split_and!; [|done|].
  - apply (frame_trans w0 w); [done|]. eapply frame_weaken; [|exact Hf]. intros id Hq. left. intros j s Hs'.
    destruct (rule_cfg _ _ _ _ Hc Hs') as (s0 & Hs0 & <- & _). by apply (Hq j).
  - destruct Hf as (_ & _ & _ & _ & _ & Hread & _). apply Hread; [by right|apply out_ok].
Qed.

Lemma triggers_frame ev t l w : frame w0 (quiet w0) w -> frame w0 (quiet w0) (for_each (trigger_rule ev t) l w).2.
Proof.
  apply (triggers_keep _ _ _ _ (frame_drives w0 (quiet w0) (fun _ => True) (fun _ => True))); [done|].
  intros v Hv. apply frame_driven; [done|apply Hv].
Qed.
Lemma guards_frame ev l w : frame w0 (quiet w0) w -> frame w0 (quiet w0) (for_each (guard_rule ev) l w).2.
Proof.
  apply (guards_keep _ _ _ _ (frame_drives w0 (quiet w0) (fun _ => True) (fun _ => True))); [done|].
  intros v Hv. apply frame_driven; [done|apply Hv].
Qed.
Lemma now_frame w : frame w0 (quiet w0) w -> frame w0 (quiet w0) (automation_now_ms w).2.
Proof. done. Qed.

(** The permission is lost: the output stays at its [on_false]. *)
Context (Hex : exclusive i r w0) (Hin : on_inputs (ilk r) w0).
Context (Hlost : automation_eval_interlock (ilk r) (sys w0) = false).

Lemma still_lost w : frame w0 (quiet w0) w -> automation_eval_interlock (ilk r) (sys w) = false.
Proof.
  intros Hw. rewrite (frame_interlock (ilk r) w0 w); [done| |done|done]. by destruct (rule_ok _ _ _ Hok Hr) as (_ & _ & ?).
Qed.
Lemma off_bit : bit (on_false (nd r)).
Proof. destruct (rule_ok _ _ _ Hok Hr) as (Hv & _). by destruct (valid_actions _ Hv). Qed.

Abbreviation rests := (fun w : aw W N Q => frame w0 (quiet w0) w /\ state_get_int out (sys w) = Some (on_false (nd r))).
Lemma rests_others : drives rests (fun id v => 0 <= id /\ ~ quiet w0 id /\ id <> out) (fun _ => True) (fun _ => True).
Proof.
  eapply drives_mono; [apply rest_drives; apply out_ok| |done|done]. intros id v (Hp & Hq & Hne). split; [done|]. by intros ->.
Qed.
Lemma rests_driven w : rests w -> driven (fun id _ => 0 <= id /\ ~ quiet w0 id /\ id <> out) (fun j => j <> i) w.
Proof.
  intros [Hw _] j s Hj Hs. destruct (frame_driven w0 w Hok (proj1 Hw) j s I Hs) as (Ho & Ht & Hf). split_and!; [|done|done].
  intros v Hv. destruct (Ho v Hv) as [Hpos Hq]. split_and!; [done|done|]. exact (exclusive_cfg w Hex (proj1 Hw) j s Hj Hs).
Qed.
Lemma rests_self : drives rests (fun id v => id = out /\ v = on_false (nd r)) (fun _ => True) (fun _ => True).
Proof.
  eapply drives_mono; [apply rest_drives; apply out_ok| |done|done]. intros id v [-> ->]. split; [|done].
  split; [apply out_ok|]. intros Hq. by apply (Hq i r Hr).
Qed.
Lemma rests_step (step : nat -> st (aw W N Q) ()) j :
  (forall I outs idx j, drives I outs idx idx -> idx j -> (forall w, I w -> driven outs idx w) -> keeps I (step j)) ->
  j <> i -> keeps rests (step j).
Proof.
  intros Hstep Hj. apply (Hstep _ _ (fun j => j <> i) j (drives_mono _ _ _ _ _ _ _ rests_others (fun _ _ H => H) (fun _ _ => I) (fun _ _ => I)));
    [done|apply rests_driven].
Qed.

Lemma trigger_rests ev t j : keeps rests (trigger_rule ev t j).
Proof.
  destruct (decide (j = i)) as [->|Hj].
  2:{ apply rests_step; [|done]. intros I outs idx k HI Hk Hd. by apply (trigger_keeps I outs idx idx HI). }
  intros w Hw. unfold trigger_rule. rewrite run_bind_gets. destruct (rule_here w (proj1 (proj1 Hw))) as (r' & Hr' & Hn & Hk).
  rewrite Hr'. cbv zeta. rewrite Hn, Hk, (still_lost w (proj1 Hw)). case_match; [done|]. rewrite run_bind_surj.
  assert (forall f, keeps rests (upd_rt i f)) as Hrt by (intros; by apply (dr_rt _ _ _ _ rests_self)).
  apply keeps_bind; [by apply (mark_eval_keeps _ _ _ _ rests_self)| |by apply Hrt]. intros _.
  destruct (automation_eval_rule _ _); cbn [orb andb negb]; [by apply (mark_action_keeps _ _ _ _ rests_self)|].
  apply (run_mode_off_keeps _ _ _ _ rests_self); [done|apply off_bit|done|done].
Qed.
Lemma guard_rests ev j : keeps rests (guard_rule ev j).
Proof.
  destruct (decide (j = i)) as [->|Hj].
  2:{ apply rests_step; [|done]. intros I outs idx k HI Hk Hd. by apply (guard_rule_keeps I outs idx idx HI). }
  intros w Hw. unfold guard_rule. rewrite run_bind_gets. destruct (rule_here w (proj1 (proj1 Hw))) as (r' & Hr' & Hn & Hk).
  rewrite Hr'. cbv zeta. rewrite Hn. destruct (_ || _); [done|]. destruct (negb _); [done|].
  rewrite (proj2 Hw). destruct (_ && _); [|done].
  assert (forall f, keeps rests (upd_rt i f)) as Hrt by (intros; by apply (dr_rt _ _ _ _ rests_self)).
  rewrite run_bind_surj. apply keeps_bind; [|intros; apply keeps_ret|by apply Hrt].
  apply (dispatch_keeps _ _ _ _ rests_self); [done|apply off_bit|done].
Qed.
Lemma handler_rests ev : keeps rests (automation_event_handler ev).
Proof.
  unfold automation_event_handler. apply keeps_if; [apply keeps_ret|]. apply keeps_bind; [by intros w Hw|]. intros t.
  apply keeps_bind; [apply keeps_gets|]. intros a. apply keeps_bind; [|intros _]; apply keeps_for_each; intros;
    [apply trigger_rests|apply guard_rests].
Qed.

(** The guard on this rule. *)
Lemma guard_here ev w : on_false (nd r) = 0 -> frame w0 (quiet w0) w -> is_interlock_channel (ilk r) (ev_source ev) = true ->
  cluster_io_is_local out (cio (acl w0)) = true ->
  let w' := (guard_rule ev i w).2 in
  frame w0 (quiet w0) w' /\
  (state_get_int out (sys w') = Some 0 \/
   exists r', rule_at i w' = Some r' /\ last_action_result (dg r') = AUTOMATION_ACTION_BLOCKED_FAILSAFE).
Proof.
  intros Hoff Hw Hch Hlocal w'. split; [subst w'; rewrite <- for_each_one; by apply guards_frame|]. subst w'.
  unfold guard_rule. rewrite run_bind_gets. destruct (rule_here w (proj1 Hw)) as (r' & Hr' & Hn & Hk).
  rewrite Hr'. cbv zeta. rewrite Hn, Hk, Hch, (still_lost w Hw).
  assert ((ilk_enabled (ilk r) =? 0) || (ilk_cond_count (ilk r) =? 0) = false) as ->.
  { revert Hlost. unfold automation_eval_interlock. by destruct (_ || _). }
  cbn [negb]. pose proof Hw as (_ & _ & Hio & _ & Hs & _). destruct out_ok as [Hpos Hvalid].
  destruct (proj2 (state_get_valid out (sys w) Hs Hpos) Hvalid) as [v Hv]. rewrite Hv.
  destruct (Z.eqb_spec v 0) as [->|]; cbn [negb andb]; [by left|]. rewrite run_bind_surj, run_bind_surj. run. cbn [snd].
  set (w1 := (upd_rt i _ w).2).
  assert (exists r1, rule_at i w1 = Some r1) as [r1 Hr1].
  { unfold w1, upd_rt, upd_rule, on_au, rule_at in *. run. cbn [snd au rules update]. rewrite list_lookup_alter_eq, Hr'. by eexists. }
  pose proof (dispatch_local out 0 i w1 r1 Hs Hpos Hvalid (or_introl eq_refl)) as Hd. rewrite Hoff.
  change (cio (acl w1)) with (cio (acl w)) in Hd. rewrite Hio in Hd. specialize (Hd Hlocal Hr1). cbv zeta in Hd.
  destruct (guard_command out 0 (sys w1)).1.1; [by left|right; apply Hd].
Qed.
End interlock.


(** ** Whole handlers and ticks, seen from one rule *)

Section split.
Context {W N Q : Type} `{StateLaws W} `{NodeRegistryApi W} `{!FailsafeApi W} `{!FailsafeLaws W} `{Nvs N} `{RemoteQueue Q}.
Implicit Types w : aw W N Q.

(** [w'] is [w] as far as rule [i] is concerned. *)
Definition same_for (i : nat) (id : Z) w w' : Prop :=
  rule_at i w' = rule_at i w /\ state_get_int id (sys w') = state_get_int id (sys w).

Context (w0 : aw W N Q) (i : nat) (r : rule).
Context (Hok : table_ok (cfg (au w0))) (Hinv : state_inv (sys w0)) (Hr : rule_at i w0 = Some r) (Hex : exclusive i r w0).
Abbreviation out := (output (nd r)).

(** A loop over all rules is its round on rule [i], between rounds that do
    not concern it. *)
Lemma loop_split (step : nat -> st (aw W N Q) ()) w :
  (forall I outs idx j, drives I outs idx idx -> idx j -> (forall w, I w -> driven outs idx w) -> keeps I (step j)) ->
  frame w0 (quiet w0) w ->
  exists wa, let wb := (step i wa).2 in let w' := (for_each step (seq 0 (length (rules (au w)))) w).2 in
  frame w0 (quiet w0) wa /\ same_for i out w wa /\ frame w0 (quiet w0) wb /\ frame w0 (quiet w0) w' /\ same_for i out wb w'.
Proof.
  intros Hstep Hw. assert (i < length (rules (au w)))%nat as Hlt.
  { destruct (rule_here w0 i r Hr w (proj1 Hw)) as (r' & Hr' & _). by apply (lookup_lt_Some _ _ _ Hr'). }
  replace (length (rules (au w))) with (i + S (length (rules (au w)) - S i))%nat by lia.
  set (m := (length (rules (au w)) - S i)%nat). rewrite seq_app, Nat.add_0_l. cbn [seq].
  rewrite cons_middle, !for_each_app, for_each_one. set (wa := (for_each step (seq 0 i) w).2). exists wa.
  destruct (others_keep w0 i r Hok Hr w step (seq 0 i) Hstep Hex Hw) as (Ha & Hsame); [intros j Hj%elem_of_seq; lia|].
  fold wa in Ha, Hsame. cbv zeta.
  assert (frame w0 (quiet w0) (step i wa).2) as Hb.
  { apply (Hstep _ _ _ i (frame_drives w0 (quiet w0) (fun _ => True) (fun _ => True))); [done| |done].
    intros v Hv. apply frame_driven; [done|apply Hv]. }
  destruct (others_keep w0 i r Hok Hr (step i wa).2 step (seq (S i) m) Hstep Hex Hb) as (Hc & Hsame'); [intros j Hj%elem_of_seq; lia|].
  by split_and!.
Qed.

Lemma handler_split ev : ev_type ev = EVENT_STATE_CHANGE ->
  exists t wa wc, let wb := (trigger_rule ev t i wa).2 in let wd := (guard_rule ev i wc).2 in
  let w' := (automation_event_handler ev w0).2 in
  frame w0 (quiet w0) wa /\ same_for i out w0 wa /\ frame w0 (quiet w0) wb /\ same_for i out wb wc /\
  frame w0 (quiet w0) wc /\ frame w0 (quiet w0) w' /\ same_for i out wd w'.
Proof.
  intros Hty. unfold automation_event_handler. rewrite Hty, Z.eqb_refl. cbn [negb].
  rewrite run_bind_surj, run_bind_gets, run_bind_surj. set (t := (automation_now_ms w0).1). set (w1 := (automation_now_ms w0).2).
  assert (frame w0 (quiet w0) w1) as H1' by (by apply now_frame, frame_refl).
  destruct (loop_split (trigger_rule ev t) w1) as (wa & Ha & Hsa & Hb & Hc & Hsc); [|done|].
  { intros I outs idx j HI Hj Hd. by apply (trigger_keeps I outs idx idx HI). }
  set (w2 := (for_each (trigger_rule ev t) _ w1).2) in *.
  assert (length (rules (au w1)) = length (rules (au w2))) as ->.
  { pose proof (f_equal length (proj1 Hc)) as Hl. unfold cfg in Hl. rewrite !length_fmap in Hl. by rewrite Hl. }
  destruct (loop_split (guard_rule ev) w2) as (wc & Hc' & Hsc' & Hd & He & Hse); [|done|].
  { intros I outs idx j HI Hj Hd. by apply (guard_rule_keeps I outs idx idx HI). }
  exists t, wa, wc. cbv zeta. split_and!; try done; unfold same_for in *; destruct_and?; split; congruence.
Qed.
End split.

Section ticks.
Context {W N Q : Type} `{StateLaws W} `{NodeRegistryApi W} `{!FailsafeApi W} `{!FailsafeLaws W} `{Nvs N} `{RemoteQueue Q}.
Implicit Types w : aw W N Q.

Definition tick_w w : aw W N Q := (automation_engine_tick_1ms w).2.
Definition next_ms w : aw W N Q := w <| au := (au w) <| automation_tick_ms := u32 (automation_tick_ms (au w) + 1) |> |>.

Lemma tick_split w i r : table_ok (cfg (au w)) -> state_inv (sys w) -> rule_at i w = Some r -> exclusive i r w ->
  exists wa, frame (next_ms w) (quiet w) wa /\ same_for i (output (nd r)) w wa /\
    frame (next_ms w) (quiet w) (tick_w w) /\ same_for i (output (nd r)) (tick_rule i wa).2 (tick_w w).
Proof.
  intros Hok Hinv Hr Hex. unfold tick_w, automation_engine_tick_1ms, on_au. rewrite run_bind_modify, run_bind_gets.
  destruct (loop_split (next_ms w) i r Hok Hr Hex tick_rule (next_ms w)) as (wa & Ha & Hs & _ & Hb & Hs').
  - intros I outs idx j HI Hj Hd. by apply (tick_rule_keeps I outs idx idx HI).
  - by apply frame_refl.
  - by exists wa.
Qed.

(** What stays put over any number of ticks. *)
Record settled (i : nat) (n : automation_node) w : Prop := {
  se_ok : table_ok (cfg (au w));
  se_inv : state_inv (sys w);
  se_rule : exists r, rule_at i w = Some r /\ nd r = n /\ exclusive i r w;
  se_local : cluster_io_is_local (output n) (cio (acl w)) = true;
  se_allowed v : bit v -> (guard_command (output n) v (sys w)).1.1 = true;
}.
Lemma settled_frame i n w keep w' : settled i n w -> frame (next_ms w) keep w' \/ frame w keep w' -> settled i n w'.
Proof.
  intros [Hok Hinv (r & Hr & Hn & Hex) Hlocal Hall] Hf.
  assert (cfg (au w') = cfg (au w) /\ cio (acl w') = cio (acl w) /\ state_inv (sys w') /\
    (forall id v, (guard_command id v (sys w')).1.1 = (guard_command id v (sys w)).1.1)) as (Hc & Hio & Hs & Hg)
    by (destruct Hf as [(? & _ & ? & _ & ? & _ & ?)|(? & _ & ? & _ & ? & _ & ?)]; done).
  split; [by rewrite Hc|done| |by rewrite Hio|intros v Hv; rewrite Hg; auto].
  destruct (rule_here w i r Hr w' Hc) as (r' & Hr' & Hn' & Hk'). exists r'. split_and!; [done|congruence|].
  pose proof (exclusive_cfg w i r w' Hex Hc) as He. unfold exclusive in *. by rewrite Hn'.
Qed.

(** The timer of rule [i] runs out in [d] ticks; it does not run. *)
Definition timer_of i w : option automation_runtime := rt <$> rule_at i w.
Definition waiting (i : nat) (d : Z) w : Prop :=
  exists x, timer_of i w = Some x /\ timer_active x = true /\ rt_condition x = true /\
    deadline_ms x = u32 (automation_tick_ms (au w) + d).
Definition resting (i : nat) w : Prop := exists x, timer_of i w = Some x /\ timer_active x = false.

Lemma driving i n v w r : settled i n w -> bit v -> rule_at i w = Some r ->
  let w' := (automation_dispatch_output (output n) v i w).2 in
  state_get_int (output n) (sys w') = Some v /\ timer_of i w' = timer_of i w.
Proof.
  intros [Hok Hinv (r0 & Hr0 & Hn & _) Hlocal Hall] Hv Hr. split.
  - destruct (rule_ok _ _ _ Hok Hr0) as (Hval & Ht & _). cbn [fst] in *. rewrite Hn in *.
    destruct (valid_output _ Hval Ht) as [Hpos Hid].
    pose proof (dispatch_local (output n) v i w r Hinv Hpos Hid Hv Hlocal Hr) as Hd. cbv zeta in Hd. by rewrite (Hall v Hv) in Hd.
  - by apply (dispatch_keeps _ _ _ _ (same_timer_drives i (timer_of i w) (fun _ _ => True))).
Qed.

Lemma tick_settled i n w : settled i n w -> settled i n (tick_w w) /\
  exists wa, settled i n wa /\ automation_tick_ms (au wa) = automation_tick_ms (au (tick_w w)) /\
    automation_tick_ms (au wa) = u32 (automation_tick_ms (au w) + 1) /\ same_for i (output n) w wa /\
    same_for i (output n) (tick_rule i wa).2 (tick_w w).
Proof.
  intros Hs. pose proof Hs as [Hok Hinv (r & Hr & Hn & Hex) _ _].
  destruct (tick_split w i r Hok Hinv Hr Hex) as (wa & Ha & Hsa & Hb & Hsb). rewrite Hn in *.
  split; [eapply settled_frame; [exact Hs|by left]|]. exists wa. split_and!; try done.
  - eapply settled_frame; [exact Hs|by left].
  - by rewrite (proj1 (proj2 Ha)), (proj1 (proj2 Hb)).
  - apply (proj1 (proj2 Ha)).
Qed.

(** A tick before the end, the tick at the end, and any tick after it. *)
Lemma tick_waits i n d w : settled i n w -> waiting i d w -> 1 < d < 65536 ->
  settled i n (tick_w w) /\ waiting i (d - 1) (tick_w w) /\
  state_get_int (output n) (sys (tick_w w)) = state_get_int (output n) (sys w).
Proof.
  intros Hs (x & Hx & Ht & Hc & Hd) Hrange. destruct (tick_settled i n w Hs) as (Hs' & wa & Hsa & E1 & E2 & [Hra Hga] & [Hrb Hgb]).
  split; [done|]. assert ((tick_rule i wa).2 = wa) as Hid.
  { unfold tick_rule. rewrite run_bind_gets, Hra. unfold timer_of in Hx. destruct (rule_at i w) as [r|]; [|done]. injection Hx as Hx.
    cbv zeta. rewrite Hx, Ht. cbn [negb]. unfold automation_time_reached. rewrite E2, Hd.
    destruct (Z.leb_spec 0 (i32 (u32 (automation_tick_ms (au w) + 1) - u32 (automation_tick_ms (au w) + d)))); [|done].
    exfalso. word_lia. }
  rewrite Hid in *. split; [|congruence]. exists x. unfold timer_of in *. rewrite Hrb, Hra. split_and!; try done.
  rewrite Hd, <- E1, E2. word_lia.
Qed.
Lemma tick_rests i n w : settled i n w -> resting i w ->
  settled i n (tick_w w) /\ resting i (tick_w w) /\ state_get_int (output n) (sys (tick_w w)) = state_get_int (output n) (sys w).
Proof.
  intros Hs (x & Hx & Ht). destruct (tick_settled i n w Hs) as (Hs' & wa & Hsa & _ & _ & [Hra Hga] & [Hrb Hgb]).
  split; [done|]. assert ((tick_rule i wa).2 = wa) as Hid.
  { unfold tick_rule. rewrite run_bind_gets, Hra. unfold timer_of in Hx. destruct (rule_at i w) as [r|]; [|done]. injection Hx as Hx.
    cbv zeta. by rewrite Hx, Ht. }
  rewrite Hid in *. split; [|congruence]. exists x. unfold timer_of in *. by rewrite Hrb, Hra.
Qed.
Lemma tick_fires i n w : settled i n w -> waiting i 1 w -> mode n = AUTOMATION_MODE_ON_DELAY_MS -> bit (on_true n) ->
  settled i n (tick_w w) /\ resting i (tick_w w) /\ state_get_int (output n) (sys (tick_w w)) = Some (on_true n).
Proof.
  intros Hs (x & Hx & Ht & Hc & Hd) Hmode Hbit. destruct (tick_settled i n w Hs) as (Hs' & wa & Hsa & E1 & E2 & [Hra Hga] & [Hrb Hgb]).
  split; [done|]. rewrite Hgb. unfold resting, timer_of. rewrite Hrb. clear Hs' Hrb Hgb E1.
  pose proof Hsa as [_ _ (r & Hr & Hn & _) _ _].
  unfold tick_rule. rewrite run_bind_gets, Hr. assert (rt r = x) as Hrx.
  { unfold timer_of in Hx. rewrite <- Hra, Hr in Hx. by injection Hx. }
  cbv zeta. rewrite Hrx, Ht, Hn, Hmode, Hc. unfold automation_time_reached. rewrite E2, Hd.
  destruct (Z.leb_spec 0 (i32 (u32 (automation_tick_ms (au w) + 1) - u32 (automation_tick_ms (au w) + 1)))) as [|Hneg].
  2:{ exfalso. word_lia. }
  cbn [negb Z.eqb AUTOMATION_MODE_PULSE_MS AUTOMATION_MODE_ON_DELAY_MS Pos.eqb].
  rewrite run_bind_surj, run_bind_surj. set (w1 := (upd_rt i _ (upd_rt i _ wa).2).2).
  unfold automation_apply_output. rewrite run_bind_surj. run. cbn [snd].
  assert (rule_at i w1 = Some (r <| rt := x <| timer_active := false |> <| latched_true := true |> |>)) as Hr1.
  { subst x. unfold w1, upd_rt, upd_rule, on_au, rule_at in *. run. cbn [snd au rules update]. by rewrite !list_lookup_alter_eq, Hr. }
  assert (settled i n w1) as Hs1.
  { apply (settled_frame i n wa (fun _ => True)); [done|]. right.
    do 2 (apply (dr_rt _ _ _ _ (frame_drives wa (fun _ => True) (fun _ => True) (fun _ => True))); [done|]). apply frame_refl, Hsa. }
  destruct (driving i n (on_true n) w1 _ Hs1 Hbit Hr1) as [Hget Htimer]. split; [|done].
  unfold timer_of in Htimer. rewrite Htimer, Hr1. eexists. split; [reflexivity|done].
Qed.

(** The whole delay. *)
Lemma delay_runs i n d (k : nat) w : settled i n w -> waiting i (Z.of_nat d) w -> mode n = AUTOMATION_MODE_ON_DELAY_MS -> bit (on_true n) ->
  (0 < d)%nat -> Z.of_nat d < 65536 ->
  let w' := Nat.iter k tick_w w in
  settled i n w' /\
  state_get_int (output n) (sys w') = if decide (k < d)%nat then state_get_int (output n) (sys w) else Some (on_true n).
Proof.
  intros Hs Hw Hmode Hbit Hd Hmax. cbv zeta.
  assert (settled i n (Nat.iter k tick_w w) /\
    (if decide (k < d)%nat then waiting i (Z.of_nat (d - k)) (Nat.iter k tick_w w) else resting i (Nat.iter k tick_w w)) /\
    state_get_int (output n) (sys (Nat.iter k tick_w w)) =
      if decide (k < d)%nat then state_get_int (output n) (sys w) else Some (on_true n)) as (? & _ & ?); [|done].
  induction k as [|k (IHs & IHw & IHg)].
  - rewrite !decide_True by lia. cbn [Nat.iter nat_rect]. by rewrite Nat.sub_0_r.
  - cbn [Nat.iter nat_rect]. fold (Nat.iter k tick_w w). destruct (decide (k < d)%nat) as [Hk|Hk].
    + destruct (decide (S k < d)%nat).
      * destruct (tick_waits i n (Z.of_nat (d - k)) _ IHs IHw) as (H1' & H2' & H3'); [lia|]. split_and!; [done| |congruence].
        by replace (Z.of_nat (d - S k)) with (Z.of_nat (d - k) - 1) by lia.
      * replace (d - k)%nat with 1%nat in IHw by lia. by apply tick_fires.
    + rewrite !decide_False by lia. destruct (tick_rests i n _ IHs IHw) as (H1' & H2' & H3'). split_and!; [done|done|congruence].
Qed.
End ticks.

(** ** The on-delay *)

Section on_delay.
Context {W N Q : Type} `{StateLaws W} `{NodeRegistryApi W} `{!FailsafeApi W} `{!FailsafeLaws W} `{Nvs N} `{RemoteQueue Q}.
Implicit Types w : aw W N Q.

Lemma settled_intro i r w :
  table_ok (cfg (au w)) -> state_inv (sys w) -> rule_at i w = Some r -> exclusive i r w ->
  cluster_io_is_local (output (nd r)) (cio (acl w)) = true ->
  (forall v, bit v -> (guard_command (output (nd r)) v (sys w)).1.1 = true) -> settled i (nd r) w.
Proof. intros. split; eauto. Qed.

Lemma upd_rule_settled i n f w : settled i n w -> (forall r, nd (f r) = nd r /\ ilk (f r) = ilk r) -> settled i n (upd_rule i f w).2.
Proof.
  intros Hs Hf. apply (settled_frame i n w (fun _ => True)); [done|right]. split_and!; try done; [by apply upd_rule_cfg|apply Hs].
Qed.
Lemma rule_upd i f w r : rule_at i w = Some r -> rule_at i (upd_rule i f w).2 = Some (f r).
Proof. intros Hr. unfold rule_at, upd_rule, on_au in *. run. cbn [snd au rules update]. by rewrite list_lookup_alter_eq, Hr. Qed.

(** The event that starts the delay. *)
Lemma trigger_arms ev t i n w r : settled i n w -> rule_at i w = Some r -> nd r = n -> input n = ev_source ev ->
  automation_eval_rule n (pve_get_scaled_value (ev_source ev) (ev_data ev) (apve w)) = true ->
  automation_eval_interlock (ilk r) (sys w) = true -> mode n = AUTOMATION_MODE_ON_DELAY_MS -> bit (on_false n) ->
  let w' := (trigger_rule ev t i w).2 in
  waiting i (duration_ms n) w' /\ state_get_int (output n) (sys w') = Some (on_false n).
Proof.
  intros Hs Hr Hn Hin Hcond Hilk Hmode Hbit w'. subst w'. unfold trigger_rule. rewrite run_bind_gets, Hr. cbv zeta.
  rewrite Hn, Hin, Z.eqb_refl, Hcond, Hilk. cbn [negb andb orb]. unfold upd_rt, automation_diag_mark_eval.
  rewrite run_bind_surj, run_bind_surj. set (f1 := fun r : rule => r <| rt := _ |>). set (f2 := fun r : rule => r <| dg := _ |>).
  pose proof (upd_rule_settled i n f1 w Hs (fun _ => conj eq_refl eq_refl)) as Hs1.
  pose proof (upd_rule_settled i n f2 _ Hs1 (fun _ => conj eq_refl eq_refl)) as Hs2.
  pose proof (rule_upd i f2 _ _ (rule_upd i f1 w r Hr)) as Hr2.
  assert (automation_tick_ms (au (upd_rule i f2 (upd_rule i f1 w).2).2) = automation_tick_ms (au w)) as Htick by done.
  revert Hs2 Hr2 Htick. generalize (upd_rule i f2 (upd_rule i f1 w).2).2. intros w2 Hs2 Hr2 Htick.
  unfold run_mode. cbv zeta. rewrite Hmode.
  cbn [Z.eqb Pos.eqb AUTOMATION_MODE_FOLLOW AUTOMATION_MODE_PULSE_MS AUTOMATION_MODE_ON_DELAY_MS].
  rewrite run_bind_gets, run_bind_surj. unfold upd_rt. set (f3 := fun r : rule => r <| rt := _ |>).
  pose proof (upd_rule_settled i n f3 w2 Hs2 (fun _ => conj eq_refl eq_refl)) as Hs3.
  pose proof (rule_upd i f3 w2 _ Hr2) as Hr3.
  unfold automation_apply_output. rewrite run_bind_surj. run. cbn [snd].
  destruct (driving i n (on_false n) _ _ Hs3 Hbit Hr3) as [Hget Htimer]. split; [|done].
  assert (automation_tick_ms (au (automation_dispatch_output (output n) (on_false n) i (upd_rule i f3 w2).2).2) = automation_tick_ms (au w2)) as Ht.
  { apply (dispatch_keeps (fun v => automation_tick_ms (au v) = automation_tick_ms (au w2)) (fun _ _ => True) (fun _ => False) (fun _ => True)); try done.
    split; try done; intros; intros w9 Hw9; try done; by rewrite (proj1 (proj2 (sys_on_sys _ _))). }
  unfold waiting. rewrite Ht. unfold timer_of in Htimer |- *. rewrite Htimer, Hr3. eexists. by split_and!.
Qed.
End on_delay.

(** The on-delay keeps its promise.  From an event that makes the
    condition of an ON_DELAY rule true, the output is at [on_false] for exactly
    [duration_ms] - 1 ticks and at [on_true] from the next on, for as long as
    nothing else happens, whatever the other rules are. *)
Theorem on_delay_elapses {W N Q} `{StateLaws W} `{NodeRegistryApi W} `{!FailsafeApi W} `{!FailsafeLaws W}
    `{Nvs N} `{RemoteQueue Q} (ev : event) (i : nat) (r : rule) (w : aw W N Q) :
  table_ok (cfg (au w)) -> state_inv (sys w) -> rule_at i w = Some r -> exclusive i r w -> on_inputs (ilk r) w ->
  cluster_io_is_local (output (nd r)) (cio (acl w)) = true ->
  (forall v, bit v -> (guard_command (output (nd r)) v (sys w)).1.1 = true) ->
  mode (nd r) = AUTOMATION_MODE_ON_DELAY_MS -> ev_type ev = EVENT_STATE_CHANGE -> ev_source ev = input (nd r) ->
  automation_eval_rule (nd r) (pve_get_scaled_value (ev_source ev) (ev_data ev) (apve w)) = true ->
  automation_eval_interlock (ilk r) (sys w) = true ->
  forall k : nat,
  state_get_int (output (nd r)) (sys (Nat.iter k tick_w (automation_event_handler ev w).2)) =
    Some (if Z.of_nat k <? duration_ms (nd r) then on_false (nd r) else on_true (nd r)).
Proof.
  intros Hok Hinv Hr Hex Hin Hlocal Hall Hmode Hty Hsrc Hcond Hilk k.
  pose proof (settled_intro i r w Hok Hinv Hr Hex Hlocal Hall) as Hs.
  destruct (rule_ok _ _ _ Hok Hr) as (Hval & (_ & _ & _ & _ & _ & Hdur) & Hkt). cbn [fst snd] in *.
  destruct (valid_actions _ Hval) as [Hbt Hbf].
  assert (0 < duration_ms (nd r)) as Hpos.
  { unfold automation_rule_is_valid, timed_mode in Hval. rewrite Hmode in Hval. apply andb_prop in Hval as [_ Hd]. by apply Z.ltb_lt. }
  destruct (handler_split w i r Hok Hinv Hr Hex ev Hty) as (t & wa & wc & Ha & [Hra _] & Hb & [Hrc Hgc] & Hc & Hw' & [Hrw Hgw]).
  assert (settled i (nd r) wa) as Hsa by (eapply settled_frame; [exact Hs|right; exact Ha]). rewrite Hr in Hra.
  destruct (trigger_arms ev t i (nd r) wa r Hsa Hra eq_refl (eq_sym Hsrc)) as [(x & Hx & Hx1 & Hx2 & Hx3) Hget]; try done.
  { by rewrite (proj1 (proj2 (proj2 (proj2 Ha)))). }
  { by rewrite (frame_interlock (ilk r) w wa Hkt Hin Ha). }
  assert ((guard_rule ev i wc).2 = wc) as Hskip.
  { unfold guard_rule. rewrite run_bind_gets. destruct (rule_here w i r Hr wc (proj1 Hc)) as (r' & Hr' & Hn' & Hk'). rewrite Hr'. cbv zeta.
    rewrite Hn', Hk', (frame_interlock (ilk r) w wc Hkt Hin Hc), Hilk. cbn [negb]. destruct (state_get_int (output (nd r)) (sys wc)); [rewrite andb_false_r|]; repeat case_match; done. }
  rewrite Hskip in Hrw, Hgw.
  assert (settled i (nd r) (automation_event_handler ev w).2) as Hsw by (eapply settled_frame; [exact Hs|right; exact Hw']).
  destruct (delay_runs i (nd r) (Z.to_nat (duration_ms (nd r))) k _ Hsw) as [_ ->]; try done; try lia.
  { exists x. unfold timer_of in *. rewrite Z2Nat.id by lia. split_and!; [congruence|done|done|].
    rewrite Hx3, (proj1 (proj2 Hw')), <- (proj1 (proj2 Hb)). done. }
  case_decide; [|by rewrite (proj2 (Z.ltb_ge _ _)) by lia]. rewrite (proj2 (Z.ltb_lt _ _)) by lia. congruence.
Qed.

(** The on-delay ignores its interlock.  A rule that is waiting when the
    permission of its interlock is lost is not stopped: the event on the
    interlock's channel does nothing because the output is still off, and when
    the time is up the tick turns the output on without asking the interlock. *)
Theorem on_delay_ignores_interlock {W N Q} `{StateLaws W} `{NodeRegistryApi W} `{!FailsafeApi W} `{!FailsafeLaws W}
    `{Nvs N} `{RemoteQueue Q} (ev : event) (i : nat) (r : rule) (d : nat) (w : aw W N Q) :
  table_ok (cfg (au w)) -> state_inv (sys w) -> rule_at i w = Some r -> exclusive i r w -> on_inputs (ilk r) w ->
  cluster_io_is_local (output (nd r)) (cio (acl w)) = true ->
  (forall v, bit v -> (guard_command (output (nd r)) v (sys w)).1.1 = true) ->
  mode (nd r) = AUTOMATION_MODE_ON_DELAY_MS -> on_true (nd r) = 1 ->
  ev_type ev = EVENT_STATE_CHANGE -> is_interlock_channel (ilk r) (ev_source ev) = true -> ev_source ev <> input (nd r) ->
  automation_eval_interlock (ilk r) (sys w) = false -> state_get_int (output (nd r)) (sys w) = Some 0 ->
  waiting i (Z.of_nat d) w -> (0 < d)%nat -> Z.of_nat d < 65536 ->
  let w' := Nat.iter d tick_w (automation_event_handler ev w).2 in
  state_get_int (output (nd r)) (sys w') = Some 1 /\
  automation_eval_interlock (ilk r) (sys (automation_event_handler ev w).2) = false.
Proof.
  intros Hok Hinv Hr Hex Hin Hlocal Hall Hmode Hon Hty Hch Hsrc Hlost Hzero (x & Hx & Hx1 & Hx2 & Hx3) Hd Hmax. cbv zeta.
  pose proof (settled_intro i r w Hok Hinv Hr Hex Hlocal Hall) as Hs.
  destruct (rule_ok _ _ _ Hok Hr) as (_ & _ & Hkt). cbn [snd] in Hkt.
  destruct (handler_split w i r Hok Hinv Hr Hex ev Hty) as (t & wa & wc & Ha & [Hra Hga] & Hb & [Hrc Hgc] & Hc & Hw' & [Hrw Hgw]).
  rewrite (frame_interlock (ilk r) w _ Hkt Hin Hw'). split; [|done].
  assert ((trigger_rule ev t i wa).2 = wa) as Hskip.
  { unfold trigger_rule. rewrite run_bind_gets, Hra, Hr. cbv zeta. destruct (Z.eqb_spec (input (nd r)) (ev_source ev)); [congruence|done]. }
  rewrite Hskip in *.
  assert ((guard_rule ev i wc).2 = wc) as Hskip'.
  { unfold guard_rule. rewrite run_bind_gets, Hrc, Hra, Hr. cbv zeta. rewrite Hgc, Hga, Hzero. cbn [Z.eqb negb andb]. repeat case_match; done. }
  rewrite Hskip' in *.
  assert (settled i (nd r) (automation_event_handler ev w).2) as Hsw by (eapply settled_frame; [exact Hs|right; exact Hw']).
  destruct (delay_runs i (nd r) d d _ Hsw) as [_ ->]; try done.
  - exists x. unfold timer_of in *. split_and!; [congruence|done|done|]. by rewrite Hx3, (proj1 (proj2 Hw')).
  - rewrite Hon. by right.
  - rewrite decide_False by lia. by rewrite Hon.
Qed.

(** ** Persistence *)

Lemma node_round n : node_typed n -> bit (on_true n) -> bit (on_false n) -> node_of (node_bytes n) = n.
Proof.
  intros (Hi & Ho & Ht & Hop & Hm & Hd) Hbt Hbf. unfold node_of, node_bytes.
  set (ms := [_; _; _; _; _; _; _; _; _]).
  assert (field 0 2 (pack ms) = input n) as -> by (packed 0%nat; [done|cbn; lia]).
  assert (field 2 2 (pack ms) = output n) as -> by (packed 1%nat; [done|cbn; lia]).
  assert (field 4 4 (pack ms) = u32 (threshold n)) as -> by (packed 2%nat; [done|cbn; apply u32_range]).
  assert (field 8 1 (pack ms) = op n) as -> by (packed 3%nat; [done|cbn; lia]).
  assert (field 9 1 (pack ms) = mode n) as -> by (packed 4%nat; [done|cbn; lia]).
  assert (field 10 2 (pack ms) = duration_ms n) as -> by (packed 5%nat; [done|cbn; lia]).
  assert (field 12 1 (pack ms) = u8 (on_true n)) as -> by (packed 6%nat; [done|cbn; apply u8_range]).
  assert (field 13 1 (pack ms) = u8 (on_false n)) as -> by (packed 7%nat; [done|cbn; apply u8_range]).
  rewrite (i32_u32 _ Ht). destruct n, Hbt as [E | E], Hbf as [E' | E']; cbn in E, E' |- *; by subst.
Qed.

Lemma i8_u8 v : -128 <= v < 128 -> i8 (u8 v) = v.
Proof. intros. word_lia. Qed.
Lemma interlock_round k : interlock_typed k -> interlock_of (interlock_bytes k) = k.
Proof.
  intros (He & Hl & Hc & Hr & (Hc0 & Ho0 & Ht0) & (Hc1 & Ho1 & Ht1)). unfold interlock_of, interlock_bytes.
  set (ms := [_; _; _; _; _; _; _; _; _; _]).
  assert (field 0 1 (pack ms) = ilk_enabled k) as -> by (packed 0%nat; [done|cbn; lia]).
  assert (field 1 1 (pack ms) = ilk_logic_op k) as -> by (packed 1%nat; [done|cbn; lia]).
  assert (field 2 1 (pack ms) = ilk_cond_count k) as -> by (packed 2%nat; [done|cbn; lia]).
  assert (field 3 1 (pack ms) = ilk_reserved k) as -> by (packed 3%nat; [done|cbn; lia]).
  assert (field 4 2 (pack ms) = cd_channel (ilk_cond0 k)) as -> by (packed 4%nat; [done|cbn; lia]).
  assert (field 6 1 (pack ms) = cd_op (ilk_cond0 k)) as -> by (packed 5%nat; [done|cbn; lia]).
  assert (field 7 1 (pack ms) = u8 (cd_target (ilk_cond0 k))) as -> by (packed 6%nat; [done|cbn; apply u8_range]).
  assert (field 8 2 (pack ms) = cd_channel (ilk_cond1 k)) as -> by (packed 7%nat; [done|cbn; lia]).
  assert (field 10 1 (pack ms) = cd_op (ilk_cond1 k)) as -> by (packed 8%nat; [done|cbn; lia]).
  assert (field 11 1 (pack ms) = u8 (cd_target (ilk_cond1 k))) as -> by (packed 9%nat; [done|cbn; apply u8_range]).
  rewrite !i8_u8 by done. by destruct k as [? ? ? ? [] []].
Qed.

Section reboot.
Context {W N Q : Type} `{StateLaws W} `{NodeRegistryApi W} `{!FailsafeApi W} `{!FailsafeLaws W} `{NvsLaws N} `{RemoteQueue Q}.
Implicit Types w : aw W N Q.

Lemma node_slots rs : Forall (fun s => length s = 16%nat) ((fun r : rule => node_bytes (nd r)) <$> rs).
Proof. apply Forall_fmap, Forall_true. intros r. unfold node_bytes, compose. by rewrite length_pack. Qed.
Lemma interlock_slots rs : Forall (fun s => length s = 12%nat) ((fun r : rule => interlock_bytes (ilk r)) <$> rs).
Proof. apply Forall_fmap, Forall_true. intros r. unfold interlock_bytes, compose. by rewrite length_pack. Qed.

Definition automation_header (count : nat) : list (nat * Z) :=
  [(4%nat, AUTOMATION_MAGIC); (2%nat, AUTOMATION_VERSION); (2%nat, Z.of_nat count)].
Lemma length_automation_body rs : (length rs <= 16)%nat -> length (automation_body rs) = 456%nat.
Proof.
  intros Hl. unfold automation_body. rewrite !length_app, length_pack.
  rewrite (length_array_bytes 16 16), (length_array_bytes 16 12); rewrite ?length_fmap; auto using node_slots, interlock_slots.
Qed.
Lemma blob_slots rs i r : (length rs <= 16)%nat -> rs !! i = Some r ->
  array_slot 8 16 i (automation_blob rs) = node_bytes (nd r) /\ array_slot 264 12 i (automation_blob rs) = interlock_bytes (ilk r).
Proof.
  intros Hl Hr. unfold automation_blob, automation_body. split.
  - rewrite <- !app_assoc.
    apply (array_slot_app 16 16 _ (pack (automation_header (length rs)))); [apply node_slots|by rewrite list_lookup_fmap, Hr].
  - rewrite (app_assoc (pack _)), <- !app_assoc, (app_assoc (pack _)).
    match goal with |- array_slot 264 12 i (?pre ++ _ ++ _) = _ => replace 264%nat with (length pre) end.
    + apply array_slot_app; [apply interlock_slots|by rewrite list_lookup_fmap, Hr].
    + rewrite length_app, length_pack, (length_array_bytes 16 16); rewrite ?length_fmap; auto using node_slots.
Qed.

Lemma blob_accepted_back rs : (length rs <= 16)%nat -> automation_accepted AUTOMATION_VERSION (automation_blob rs) = true /\
  field 6 2 (automation_blob rs) = Z.of_nat (length rs) /\ length (automation_blob rs) = 460%nat.
Proof.
  intros Hl. pose proof (length_automation_body rs Hl) as Hlen.
  assert (length (automation_blob rs) = 460%nat) as Hlb by (unfold automation_blob; by rewrite length_app, length_le, Hlen).
  assert (forall k n x, automation_header (length rs) !! k = Some (n, x) -> 0 <= x < 256 ^ Z.of_nat n ->
    field (offset_of k (automation_header (length rs))) n (automation_blob rs) = x) as Hf.
  { intros k n x Hk Hx. unfold automation_blob, automation_body. rewrite <- app_assoc. by apply field_pack. }
  assert (field 6 2 (automation_blob rs) = Z.of_nat (length rs)) as Hcount by (apply (Hf 2%nat); [done|cbn; lia]).
  assert (field 0 4 (automation_blob rs) = AUTOMATION_MAGIC) as Hmagic by (by apply (Hf 0%nat)).
  assert (field 4 2 (automation_blob rs) = AUTOMATION_VERSION) as Hver by (by apply (Hf 1%nat)).
  split_and!; [|done|done]. unfold automation_accepted. rewrite Hlb, Hcount, Hmagic, Hver.
  change (460 - 4)%nat with 456%nat.
  unfold automation_blob at 1 2. rewrite take_app_length' by done. rewrite <- Hlen at 1.
  rewrite <- (app_nil_r (le 4 _)), field_app_le by (change (256 ^ Z.of_nat 4) with 4294967296; apply fnv1a32_range).
  rewrite !Z.eqb_refl. unfold AUTOMATION_ENGINE_MAX_NODES. cbn [andb]. rewrite andb_true_r. lia.
Qed.

Lemma check_rules_back before ns : Forall (fun n => automation_rule_is_valid n = true) ns ->
  (forall i j a b, i <> j -> (before ++ ns) !! i = Some a -> (before ++ ns) !! j = Some b -> automation_rule_conflicts a b = false) ->
  check_rules before ns = true.
Proof.
  revert before. induction ns as [|n ns IH]; intros before Hv Hc; [done|]. apply Forall_cons in Hv as [Hn Hv].
  cbn [check_rules]. rewrite Hn, IH; [|done|by rewrite <- app_assoc]. rewrite andb_true_r. cbn [andb].
  apply forallb_forall. intros m Hm%list_elem_of_In. apply list_elem_of_lookup_1 in Hm as [i Hi]. apply negb_true_iff.
  apply (Hc i (length before)).
  - apply lookup_lt_Some in Hi. lia.
  - rewrite lookup_app_l; [done|]. by eapply lookup_lt_Some.
  - by apply list_lookup_middle.
Qed.
End reboot.

(** Rules survive a reboot.  Once the flash has taken them, the next boot
    restores every rule with its interlock, in order, with its timers at rest. *)
Theorem rules_survive_reboot {W N Q} `{StateLaws W} `{NodeRegistryApi W} `{!FailsafeApi W} `{!FailsafeLaws W}
    `{NvsLaws N} `{RemoteQueue Q} (w w' : aw W N Q) (n1 n2 n3 : N) :
  table_ok (cfg (au w)) ->
  nvs_open_rw (anvs w) = (true, n1) -> nvs_set_blob (automation_blob (rules (au w))) n1 = (true, n2) -> nvs_commit n2 = (true, n3) ->
  anvs w' = anvs (automation_persist w).2 ->
  rules (au (automation_engine_init w').2) = (fun r => fresh_rule (nd r) (ilk r)) <$> rules (au w) /\
  persisted_config (au (automation_engine_init w').2) = true.
Proof.
  intros (Hlen & Hok & Hc) Ho Hset Hcom Hw'. unfold cfg in Hlen. rewrite length_fmap in Hlen.
  assert (nvs_get_blob (anvs w') = Some (automation_blob (rules (au w)))) as Hblob.
  { rewrite Hw'. unfold automation_persist, on_nvs, on_part. rewrite run_bind_gets. cbv zeta.
    rewrite run_bind_surj, Ho. cbn [fst snd negb anvs update]. rewrite run_bind_surj. cbn [anvs update]. rewrite Hset. cbn [fst snd negb anvs update].
    rewrite run_bind_surj. cbn [anvs update]. rewrite Hcom. cbn [fst snd].
    replace n3 with (nvs_commit n2).2 by (by rewrite Hcom). apply (nvs_commit_durable _ n1); [done|by rewrite Hcom]. }
  unfold automation_engine_init, on_au. rewrite run_bind_modify, run_bind_surj, run_modify. cbn [snd au update].
  unfold automation_load. rewrite run_bind_gets. cbn [anvs update]. rewrite Hblob.
  destruct (blob_accepted_back (rules (au w)) Hlen) as (Hacc & Hcount & Hl). cbv zeta. rewrite Hl, Hcount, Nat2Z.id, Hacc.
  change (Z.of_nat 460 =? sizeof_automation_blob) with true. cbv iota.
  assert (node_of <$> ((fun i => array_slot 8 16 i (automation_blob (rules (au w)))) <$> seq 0 (length (rules (au w)))) = nd <$> rules (au w) /\
    interlock_of <$> ((fun i => array_slot 264 12 i (automation_blob (rules (au w)))) <$> seq 0 (length (rules (au w)))) = ilk <$> rules (au w)) as [-> ->].
  { split; apply list_eq; intros i; rewrite !list_lookup_fmap;
      (destruct (decide (i < length (rules (au w)))%nat) as [Hi|Hi];
        [|rewrite lookup_seq_ge, (lookup_ge_None_2 (rules (au w))) by lia; done]);
      rewrite lookup_seq_lt by done; apply lookup_lt_is_Some in Hi as [r Hr]; rewrite Hr; cbn [fmap option_fmap option_map Nat.add];
      destruct (blob_slots _ _ _ Hlen Hr) as [Hn Hk];
      assert (cfg (au w) !! i = Some (nd r, ilk r)) as Hcfg by (unfold cfg; by rewrite list_lookup_fmap, Hr);
      destruct (Forall_lookup_1 _ _ _ _ Hok Hcfg) as (Hv & Ht & Hkt); cbn [fst snd] in *; destruct (valid_actions _ Hv).
    - by rewrite Hn, node_round.
    - by rewrite Hk, interlock_round. }
  unfold install_rules. cbn [negb orb].
  rewrite check_rules_back.
  - cbn [negb]. unfold on_au. rewrite run_bind_modify. run. cbn [snd au rules persisted_config update]. split; [|done].
    by rewrite zip_with_fmap_l, zip_with_fmap_r, zip_with_diag.
  - apply Forall_fmap. unfold cfg in Hok. rewrite Forall_fmap in Hok. eapply Forall_impl; [exact Hok|]. by intros r (Hv & _).
  - cbn [app]. intros i j a b Hij Ha Hb. apply list_lookup_fmap_Some in Ha as (r & -> & Hr), Hb as (s & -> & Hs).
    apply (Hc i j (nd r, ilk r) (nd s, ilk s) Hij); unfold cfg; by rewrite list_lookup_fmap, ?Hr, ?Hs.
Qed.

(** An interlock cannot switch an inverted rule off.  A rule that drives
    its output on when its condition is false keeps it on after the permission
    is lost: the guard writes [on_false], which is 1, and the trigger that
    would write 0 is the one the interlock blocks. *)
Theorem interlock_keeps_inverted_on {W N Q} `{StateLaws W} `{NodeRegistryApi W} `{!FailsafeApi W} `{!FailsafeLaws W}
    `{Nvs N} `{RemoteQueue Q} (ev : event) (i : nat) (r : rule) (w : aw W N Q) :
  table_ok (cfg (au w)) -> state_inv (sys w) -> rule_at i w = Some r -> exclusive i r w -> on_inputs (ilk r) w ->
  on_true (nd r) = 0 -> on_false (nd r) = 1 -> automation_eval_interlock (ilk r) (sys w) = false ->
  state_get_int (output (nd r)) (sys w) = Some 1 ->
  state_get_int (output (nd r)) (sys (automation_event_handler ev w).2) = Some 1.
Proof.
  intros Hok Hinv Hr Hex Hin Hon Hoff Hlost Hone. rewrite <- Hoff in Hone |- * at 1.
  exact (proj2 (handler_rests w i r Hok Hr Hex Hin Hlost ev w (conj (frame_refl w (quiet w) Hinv) Hone))).
Qed.

(** ** Commands between nodes *)

(** What FreeRTOS promises of a queue that was empty. *)
Class RemoteQueueLaws (Q : Type) `{RemoteQueue Q} := {
  queue_first c (q q' : Q) : xQueueReceive q = None -> xQueueSend c q = (true, q') -> exists q'', xQueueReceive q' = Some (c, q'');
}.

Section commands.
Context {W N Q : Type} `{StateLaws W} `{NodeRegistryApi W} `{!FailsafeApi W} `{!FailsafeLaws W} `{Nvs N} `{RemoteQueue Q}.
Implicit Types w : aw W N Q.

(** The conditions under which a node obeys a command. *)
Definition admitted w (target requester id : Z) : bool :=
  let self := self_node_id (mgr (acl w)) in
  negb (self =? 0) && (target =? self)
  && ((requester =? 0) || (requester =? self) || node_registry_is_known requester (sys w))
  && device_profile_is_valid_output id.

Lemma command_run w target requester id value :
  (automation_handle_output_command target requester id value w).2 =
  if admitted w target requester id then
    let w1 := (on_sys (guard_command id value) w).2 in
    if (guard_command id value (sys w)).1.1
    then (on_sys (state_set_int id (guard_command id value (sys w)).1.2) w1).2 else w1
  else w.
Proof.
  unfold automation_handle_output_command, admitted. rewrite run_bind_gets. cbn [met_self cluster_get_metrics]. cbv zeta.
  set (self := self_node_id (mgr (acl w))).
  destruct (self =? 0); [done|]. destruct (target =? self); cbn [negb orb andb]; [|done].
  destruct (requester =? 0), (requester =? self), (node_registry_is_known requester (sys w)); cbn [negb orb andb]; try done.
  all: destruct (device_profile_is_valid_output id); cbn [negb]; [|done].
  all: rewrite run_bind_surj, on_sys_value; destruct (guard_command id value (sys w)).1 as [[] x]; cbn [fst snd negb]; [|done].
  all: by rewrite run_bind_surj.
Qed.

Lemma output_valid_id id : is_u16 id -> device_profile_is_valid_output id = true -> 0 <= id /\ state_valid_id id = true.
Proof.
  intros Hid Hv. pose proof (valid_output (AutomationNode 10 id 0 0 0 0 0 0)) as Ho. apply Ho.
  - unfold automation_rule_is_valid. cbn [input output op mode on_true on_false duration_ms]. unfold automation_valid_output.
    rewrite u16_id, Hv by done. done.
  - unfold node_typed. cbn. lia.
Qed.
End commands.


(** C34: a rule on one node drives an output on another.  An action on an
    output that a node online owns is queued, sent by the dispatcher when the
    transport is ready, and, on the owner that knows the sender and whose
    fail-safe agrees, ends with the output at that value. *)
Theorem remote_action_reaches_owner {W N Q W' N' Q'} `{StateLaws W} `{NodeRegistryApi W} `{!FailsafeApi W} `{!FailsafeLaws W}
    `{Nvs N} `{RemoteQueueLaws Q} `{StateLaws W'} `{NodeRegistryApi W'} `{!FailsafeApi W'} `{!FailsafeLaws W'} `{Nvs N'} `{RemoteQueue Q'}
    (id v : Z) (i : nat) (q q' : Q) (a : aw W N Q) (b : aw W' N' Q') :
  let self_a := self_node_id (mgr (acl a)) in let self_b := self_node_id (mgr (acl b)) in
  is_u16 id -> bit v -> self_a <> 0 -> self_b <> 0 ->
  cluster_io_is_local id (cio (acl a)) = false -> cluster_io_get_owner id (cio (acl a)) = self_b ->
  automation_owner_state self_b (nodes (mgr (acl a))) = CLUSTER_NODE_ONLINE ->
  automation_remote_queue (au a) = Some q -> xQueueReceive q = None -> xQueueSend (RemoteCmd self_b self_a id v) q = (true, q') ->
  node_registry_is_known self_a (sys b) = true -> device_profile_is_valid_output id = true -> state_inv (sys b) ->
  handlers_registered (au b) = true -> (guard_command id v (sys b)).1.1 = true ->
  let r := automation_dispatch_output id v i a in
  let a' := (automation_dispatcher_round true r.2).2 in
  r.1 = AUTOMATION_ACTION_DISPATCHED_REMOTE /\
  exists m, outbox (acl a') = m :: outbox (acl a) /\
    state_get_int id (sys (protocol_process_frame sizeof_protocol_msg m b).2) = Some v.
Proof.
  intros self_a self_b Hid Hv Ha Hb Hlocal Hown Hstate Hq Hempty Hsend Hknown Hvalid Hinv Hreg Hguard r a'.
  destruct (queue_first _ _ _ Hempty Hsend) as [q'' Hrecv].
  assert (r.1 = AUTOMATION_ACTION_DISPATCHED_REMOTE /\ automation_remote_queue (au r.2) = Some q' /\ outbox (acl r.2) = outbox (acl a)) as (Hr & Hq' & Hout).
  { subst r. unfold automation_dispatch_output. rewrite run_bind_gets. cbv zeta. cbn [met_self cluster_get_metrics].
    rewrite Hlocal, Hown, Hstate, Hq. fold self_a. destruct (Z.eqb_spec self_a 0); [done|]. destruct (Z.eqb_spec self_b 0); [done|]. cbn [orb].
    rewrite bool_decide_eq_false_2 by done. rewrite Hsend. unfold on_au. rewrite run_bind_modify, run_bind_surj. done. }
  split; [done|]. exists (PROTOCOL_MSG_OUTPUT_COMMAND self_b self_a id v). split.
  - subst a'. unfold automation_dispatcher_round. rewrite run_bind_gets, Hq'. cbn [mbind option_bind]. rewrite Hrecv.
    unfold on_au. rewrite run_bind_modify. unfold on_cl, on_part, outbox_add, modify. cbn. by rewrite Hout.
  - unfold protocol_process_frame. rewrite Z.ltb_irrefl, run_bind_gets, Hreg, command_run.
    assert (admitted b self_b self_a id = true) as ->.
    { unfold admitted. fold self_b. destruct (Z.eqb_spec self_b 0); [done|]. by rewrite Z.eqb_refl, Hknown, Hvalid, !orb_true_r. }
    cbv zeta. rewrite Hguard, (proj1 (sys_on_sys _ _)), (proj1 (sys_on_sys _ _)), (guard_value _ _ _ Hv Hguard).
    destruct (output_valid_id id Hid Hvalid). apply state_get_set_eq; [by apply guard_inv|done|done].
Qed.

(** Five digital inputs are not seen by the rules on them.  For the
    identifiers 12 to 16 the engine evaluates a process variable in place of
    the input, so a rule on one of these inputs does the same whatever the
    input's value is. *)
Theorem bound_inputs_ignored {W N Q} `{StateLaws W} `{NodeRegistryApi W} `{!FailsafeApi W} `{Nvs N} `{RemoteQueue Q}
    (source v v' : Z) (w : aw W N Q) :
  12 <= source <= 16 ->
  automation_valid_input source = true /\
  automation_event_handler (Event EVENT_STATE_CHANGE source v) w = automation_event_handler (Event EVENT_STATE_CHANGE source v') w.
Proof.
  intros Hs. assert (source = 12 \/ source = 13 \/ source = 14 \/ source = 15 \/ source = 16) as Hcases by lia.
  assert (forall p, pve_get_scaled_value source v p = pve_get_scaled_value source v' p) as Hp.
  { intros p. destruct Hcases as [-> | [-> | [-> | [-> | ->]]]]; reflexivity. }
  split; [destruct Hcases as [-> | [-> | [-> | [-> | ->]]]]; reflexivity|].
  unfold automation_event_handler. cbn [ev_type]. rewrite Z.eqb_refl. cbn [negb].
  assert (forall t l x, for_each (trigger_rule (N := N) (Event EVENT_STATE_CHANGE source v) t) l x =
    for_each (trigger_rule (Event EVENT_STATE_CHANGE source v') t) l x) as Ht.
  { intros t l. induction l as [|i l IH]; intros x; [done|]. cbn [for_each].
    assert (trigger_rule (Event EVENT_STATE_CHANGE source v) t i x = trigger_rule (Event EVENT_STATE_CHANGE source v') t i x) as Hi.
    { unfold trigger_rule. rewrite !run_bind_gets. cbn [ev_source ev_data]. by rewrite Hp. }
    rewrite !run_bind_surj, Hi. apply IH. }
  rewrite !(run_bind_surj automation_now_ms), !run_bind_gets, !run_bind_surj, Ht.
  generalize (for_each (trigger_rule (Event EVENT_STATE_CHANGE source v') (automation_now_ms w).1)
    (seq 0 (length (rules (au (automation_now_ms w).2)))) (automation_now_ms w).2).2. intros x.
  generalize (seq 0 (length (rules (au (automation_now_ms w).2)))). intros l. revert x.
  induction l as [|i l IH]; intros x; [done|]. cbn [for_each]. rewrite !run_bind_surj. apply IH.
Qed.

(** ** Concrete runs *)

(** A queue of sixteen places. *)
Definition fifo : Type := list remote_cmd.
#[export] Instance fifo_queue : RemoteQueue fifo := {
  xQueueCreate := Some [];
  xQueueSend c q := if (length q <? 16)%nat then (true, q ++ [c]) else (false, q);
  xQueueReceive q := match q with [] => None | c :: q => Some (c, q) end;
}.
#[export] Program Instance fifo_laws : RemoteQueueLaws fifo.
Next Obligation. intros c [|d q] q' Hq; cbn; [|done]. intros [= <-]. by exists []. Qed.

(** A registry that knows node 1. *)
#[local] Instance demo_registry : NodeRegistryApi (fsw store flash) := {
  node_registry_is_known id _ := id =? 1;
  node_registry_is_operational _ _ := true;
  node_registry_is_gateway _ _ := false;
}.
Definition demo_sys (v10 v11 v100 : Z) : fsw store flash :=
  fs_boot <| fs_world := (state_set_int 100 v100 (state_set_int 11 v11 (state_set_int 10 v10 store_boot).2).2).2 |>.
(** Node [self] with the rules [rs]; output 101 belongs to node 2. *)
Definition demo_aw (self : Z) (rs : list rule) (s : fsw store flash) : aw (fsw store flash) flash fifo :=
  Aw (Automation rs false 7 (Some []) true)
    (Cw (Manager [ClusterNode 1 500 CLUSTER_NODE_ONLINE; ClusterNode 2 500 CLUSTER_NODE_ONLINE] true self 1)
       (ClusterIo [IoEntry 101 2 2 true] self) self true [] (Clock (fun _ => 8000000) 0) s)
    (Pve [] [] 0 0) None.
(** Output 100 follows input 10, as long as input 11 is 1. *)
Definition demo_ilk : automation_interlock := Interlock 1 0 1 0 (Condition 11 AUTOMATION_OP_EQ 1) condition_zero.
Definition demo_node (m d on_t on_f : Z) : automation_node := AutomationNode 10 100 0 AUTOMATION_OP_GT m d on_t on_f.
Definition demo_rule (m d on_t on_f : Z) (x : automation_runtime) : rule := Rule (demo_node m d on_t on_f) demo_ilk x diag_zero.

Section one.
Context {W N Q : Type} `{StateApi W}.
Implicit Types w : aw W N Q.
Lemma table_ok_one w r : rules (au w) = [r] -> entry_ok (nd r, ilk r) -> table_ok (cfg (au w)).
Proof. intros Hw Hr. unfold cfg. rewrite Hw. apply (table_ok_snoc []); [apply table_ok_nil|cbn; lia|done|done]. Qed.
Lemma exclusive_one w r : rules (au w) = [r] -> exclusive 0 r w.
Proof. intros Hw [|j] s Hj Hs; [done|]. unfold rule_at in Hs. by rewrite Hw in Hs. Qed.
Lemma on_inputs_one w r : rules (au w) = [r] ->
  forallb (fun c => negb (cd_channel c =? output (nd r))) (ilk_conditions (ilk r)) = true -> on_inputs (ilk r) w.
Proof.
  intros Hw Hc c Hin [|j] s Hs; unfold rule_at in Hs; rewrite Hw in Hs; [|done]. injection Hs as <-.
  rewrite forallb_forall in Hc. apply list_elem_of_In in Hin. specialize (Hc c Hin). intros He. rewrite He, Z.eqb_refl in Hc. done.
Qed.
End one.
Ltac demo_entry := split; [reflexivity|]; vm_compute; intuition congruence.
Lemma demo_inv v10 v11 v100 : is_i32 v10 -> is_i32 v11 -> is_i32 v100 -> state_inv (demo_sys v10 v11 v100).
Proof. intros Ha Hb Hc. exact (set_int_wf 100 v100 _ (set_int_wf 11 v11 _ (set_int_wf 10 v10 _ store_boot_wf Ha) Hb) Hc). Qed.
Lemma demo_allowed v10 v11 v100 v : bit v -> (guard_command 100 v (demo_sys v10 v11 v100)).1.1 = true.
Proof. intros [-> | ->]; vm_compute; reflexivity. Qed.

Ltac demo_state a b c := exact (demo_inv a b c ltac:(lia) ltac:(lia) ltac:(lia)).

Lemma rule_table_invariant_witness :
  let w0 := demo_aw 1 [] (demo_sys 0 0 0) in
  let w := (automation_engine_add_rule 10 AUTOMATION_OP_GT AUTOMATION_MODE_FOLLOW 0 0 100 1 0 w0).2 in
  length (rules (au w)) = 1%nat /\ (length (rules (au w)) <= 16)%nat.
Proof.
  intros w0 w. split; [vm_compute; reflexivity|]. apply (rule_table_invariant w0 w).
  - reflexivity.
  - apply rtc_once. apply do_add; vm_compute; intuition congruence.
Defined.


Lemma on_delay_elapses_witness :
  let w := demo_aw 1 [demo_rule AUTOMATION_MODE_ON_DELAY_MS 3 1 0 runtime_zero] (demo_sys 1 1 1) in
  let w1 := (automation_event_handler (Event EVENT_STATE_CHANGE 10 1) w).2 in
  state_get_int 100 (sys (Nat.iter 2 tick_w w1)) = Some 0 /\ state_get_int 100 (sys (Nat.iter 9 tick_w w1)) = Some 1.
Proof.
  intros w w1.
  assert (forall k : nat, state_get_int 100 (sys (Nat.iter k tick_w w1)) = Some (if Z.of_nat k <? 3 then 0 else 1)) as Hk.
  { apply (on_delay_elapses (Event EVENT_STATE_CHANGE 10 1) 0 (demo_rule AUTOMATION_MODE_ON_DELAY_MS 3 1 0 runtime_zero) w).
    - eapply table_ok_one; [reflexivity|demo_entry].
    - demo_state 1 1 1.
    - reflexivity.
    - by apply exclusive_one.
    - by apply on_inputs_one.
    - reflexivity.
    - apply demo_allowed.
    - reflexivity.
    - reflexivity.
    - reflexivity.
    - reflexivity.
    - vm_compute. reflexivity. }
  split; rewrite Hk; reflexivity.
Defined.

Lemma on_delay_ignores_interlock_witness :
  let w := demo_aw 1 [demo_rule AUTOMATION_MODE_ON_DELAY_MS 3 1 0 (Runtime true true false false 9)] (demo_sys 1 0 0) in
  state_get_int 100 (sys (Nat.iter 2 tick_w (automation_event_handler (Event EVENT_STATE_CHANGE 11 0) w).2)) = Some 1.
Proof.
  intros w.
  apply (on_delay_ignores_interlock (Event EVENT_STATE_CHANGE 11 0) 0
    (demo_rule AUTOMATION_MODE_ON_DELAY_MS 3 1 0 (Runtime true true false false 9)) 2 w).
  - eapply table_ok_one; [reflexivity|demo_entry].
  - demo_state 1 0 0.
  - reflexivity.
  - by apply exclusive_one.
  - by apply on_inputs_one.
  - reflexivity.
  - apply demo_allowed.
  - reflexivity.
  - reflexivity.
  - reflexivity.
  - reflexivity.
  - cbn. lia.
  - vm_compute. reflexivity.
  - vm_compute. reflexivity.
  - eexists. split; [reflexivity|]. by split_and!.
  - lia.
  - lia.
Defined.

(** The same from an empty table, through the operations: the rule is added,
    its interlock set, input 10 comes, input 11 goes, and 500 ms later the
    output is on. *)
Example on_delay_bypass_run :
  let on_event (id v : Z) (w : aw (fsw store flash) flash fifo) :=
    (automation_event_handler (Event EVENT_STATE_CHANGE id v) (on_sys (state_set_int id v) w).2).2 in
  let w := (automation_engine_add_rule 10 AUTOMATION_OP_GT AUTOMATION_MODE_ON_DELAY_MS 0 500 100 1 0 (demo_aw 1 [] (demo_sys 0 1 0))).2 in
  let w := (automation_engine_set_interlock_at 0 (Some demo_ilk) w).2 in
  let w := Nat.iter 500 tick_w (on_event 11 0 (on_event 10 1 w)) in
  (state_get_int 100 (sys w), automation_eval_interlock demo_ilk (sys w)) = (Some 1, false).
Proof. vm_compute. reflexivity. Qed.

Lemma rules_survive_reboot_witness :
  let w := demo_aw 1 [demo_rule AUTOMATION_MODE_FOLLOW 0 1 0 (Runtime true false false true 9)] (demo_sys 1 1 1) in
  rules (au (automation_engine_init (automation_persist w).2).2) = [demo_rule AUTOMATION_MODE_FOLLOW 0 1 0 runtime_zero].
Proof.
  intros w. apply (rules_survive_reboot w (automation_persist w).2 None
    (Some (automation_blob (rules (au w)))) (Some (automation_blob (rules (au w))))).
  - eapply table_ok_one; [reflexivity|demo_entry].
  - reflexivity.
  - reflexivity.
  - reflexivity.
  - reflexivity.
Defined.

Lemma interlock_keeps_inverted_on_witness :
  let w := demo_aw 1 [demo_rule AUTOMATION_MODE_FOLLOW 0 0 1 runtime_zero] (demo_sys 0 0 1) in
  state_get_int 100 (sys (automation_event_handler (Event EVENT_STATE_CHANGE 11 0) w).2) = Some 1.
Proof.
  intros w. apply (interlock_keeps_inverted_on (Event EVENT_STATE_CHANGE 11 0) 0 (demo_rule AUTOMATION_MODE_FOLLOW 0 0 1 runtime_zero) w).
  - eapply table_ok_one; [reflexivity|demo_entry].
  - demo_state 0 0 1.
  - reflexivity.
  - by apply exclusive_one.
  - by apply on_inputs_one.
  - reflexivity.
  - reflexivity.
  - vm_compute. reflexivity.
  - vm_compute. reflexivity.
Defined.


Lemma remote_action_reaches_owner_witness :
  let a := demo_aw 1 [] (demo_sys 0 0 0) in let b := demo_aw 2 [] (demo_sys 0 0 0) in
  exists m, outbox (acl (automation_dispatcher_round true (automation_dispatch_output 101 1 0 a).2).2) = [m] /\
    state_get_int 101 (sys (protocol_process_frame sizeof_protocol_msg m b).2) = Some 1.
Proof.
  intros a b. apply (remote_action_reaches_owner 101 1 0 [] [RemoteCmd 2 1 101 1] a b); try reflexivity; try done.
  - right. reflexivity.
  - demo_state 0 0 0.
Defined.

Lemma bound_inputs_ignored_witness :
  let w := demo_aw 1 [] (demo_sys 0 0 0) in
  automation_event_handler (Event EVENT_STATE_CHANGE 12 0) w = automation_event_handler (Event EVENT_STATE_CHANGE 12 1) w.
Proof. intros w. apply (bound_inputs_ignored 12 0 1 w). lia. Defined.
