(* ===== verification/NodeRegistry.v ===== *)
(** * The node registry ([components/cluster/node_registry.c])

    What the operator decided about each node: discovered, adopted, configured
    with a profile, active.  It follows the cluster manager's view of which
    nodes are there, is stored in NVS, and answers the questions other
    components ask before they trust a node; it implements [NodeRegistryApi]. *)

From Stdlib Require Import String Ascii.
From S2P Require Import Prelude Persist EventBus State Failsafe Cluster.

Local Open Scope string_scope.
Local Open Scope list_scope.
Local Open Scope Z_scope.

(** ** Data *)

Definition NODE_REGISTRY_MAX_NODES : Z := 10.
Definition NODE_REGISTRY_MAGIC : Z := 1314211143.     (* 0x4E524547 *)
Definition NODE_REGISTRY_VERSION : Z := 2.
Definition NODE_REGISTRY_VERSION_V1 : Z := 1.
Definition NODE_REGISTRY_SYNC_MS : Z := 1000.

(** [node_registry_state_t], ordered by how much the node is trusted. *)
Definition NODE_REGISTRY_STATE_DISCOVERED : Z := 0.
Definition NODE_REGISTRY_STATE_ADOPTED : Z := 1.
Definition NODE_REGISTRY_STATE_CONFIGURED : Z := 2.
Definition NODE_REGISTRY_STATE_ACTIVE : Z := 3.

(** [node_registry_transport_t] *)
Definition NODE_REGISTRY_TRANSPORT_NONE : Z := 0.
Definition NODE_REGISTRY_TRANSPORT_WIFI_UDP : Z := 1.
Definition NODE_REGISTRY_TRANSPORT_ETHERNET_UDP : Z := 2.
Definition NODE_REGISTRY_TRANSPORT_RS485_CLUSTER : Z := 3.
Definition NODE_REGISTRY_TRANSPORT_WIFI_NOW : Z := 4.

(** [node_registry_offline_reason_t] *)
Definition NODE_REGISTRY_OFFLINE_NONE : Z := 0.
Definition NODE_REGISTRY_OFFLINE_HEARTBEAT_TIMEOUT : Z := 1.
Definition NODE_REGISTRY_OFFLINE_MISSING_ADDRESS : Z := 2.
Definition NODE_REGISTRY_OFFLINE_LINK_DEGRADED : Z := 3.

(** [node_registry_entry_t]; the texts are the 24 bytes of their arrays. *)
Record reg_entry := RegEntry {
  re_node : Z; last_ip_addr : Z; age_ms : Z; last_seen_ms : Z;
  health : Z; cluster_state : Z; registry_state : Z; last_transport : Z;
  offline_reason : Z; recovery_capabilities : Z; reserved0 : Z; reserved1 : Z;
  profile : list Z; template_name : list Z;
}.
#[export] Instance reg_entry_rebuild : Rebuild reg_entry := fun e =>
  RegEntry (re_node e) (last_ip_addr e) (age_ms e) (last_seen_ms e) (health e) (cluster_state e) (registry_state e)
    (last_transport e) (offline_reason e) (recovery_capabilities e) (reserved0 e) (reserved1 e) (profile e) (template_name e).
Definition text_zero : list Z := replicate 24 0.
Definition reg_entry_zero : reg_entry := RegEntry 0 0 0 0 0 0 0 0 0 0 0 0 text_zero text_zero.

(** The variables of [node_registry.c]. *)
Record registry := Registry { reg_entries : list reg_entry; node_registry_initialized : bool; last_sync_ms : Z }.
#[export] Instance registry_rebuild : Rebuild registry := fun g =>
  Registry (reg_entries g) (node_registry_initialized g) (last_sync_ms g).

(** The registry with its key in flash. *)
Record rw {N : Type} := Rw { reg : registry; rnvs : N }.
Arguments rw : clear implicits.
Arguments Rw {N}.
#[export] Instance rw_rebuild {N} : Rebuild (rw N) := fun w => Rw (reg w) (rnvs w).

(** ** Texts *)

(** [strncpy] to an array of 24 bytes, the last of which is 0. *)
Definition node_registry_copy_text (src : list Z) : list Z :=
  let s := take 23 (cstr src) in s ++ replicate (24 - length s) 0.

Definition supported_profiles : list string := ["gateway"; "field-node"; "relay-node"; "sensor-node"; "local-io-node"].
Definition node_registry_profile_is_supported (p : list Z) : bool :=
  match cstr p with
  | [] => false
  | _ => existsb (fun s => bool_decide (cstr p = bytes_of s)) supported_profiles
  end.
Definition node_registry_template_is_valid (t : list Z) : bool :=
  forallb (fun c => isalnum c || (c =? 45) || (c =? 95) || (c =? 46)) (cstr t).

(** ** One entry *)

Definition cluster_state_code (s : cluster_node_state) : Z :=
  match s with CLUSTER_NODE_ONLINE => 0 | CLUSTER_NODE_SUSPECT => 1 | CLUSTER_NODE_OFFLINE => 2 end.

(** From [cluster_transport_type_t]. *)
Definition node_registry_transport_from_cluster (transport : Z) : Z :=
  if transport =? 1 then NODE_REGISTRY_TRANSPORT_WIFI_UDP
  else if transport =? 2 then NODE_REGISTRY_TRANSPORT_ETHERNET_UDP
  else if transport =? 3 then NODE_REGISTRY_TRANSPORT_RS485_CLUSTER
  else if transport =? 5 then NODE_REGISTRY_TRANSPORT_WIFI_NOW
  else NODE_REGISTRY_TRANSPORT_NONE.

Definition node_registry_compute_offline_reason (e : reg_entry) : Z :=
  if cluster_state e =? cluster_state_code CLUSTER_NODE_ONLINE then NODE_REGISTRY_OFFLINE_NONE
  else if cluster_state e =? cluster_state_code CLUSTER_NODE_SUSPECT then NODE_REGISTRY_OFFLINE_LINK_DEGRADED
  else if last_transport e =? NODE_REGISTRY_TRANSPORT_RS485_CLUSTER then NODE_REGISTRY_OFFLINE_HEARTBEAT_TIMEOUT
  else if last_ip_addr e =? 0 then NODE_REGISTRY_OFFLINE_MISSING_ADDRESS
  else NODE_REGISTRY_OFFLINE_HEARTBEAT_TIMEOUT.
(** The four capabilities, one bit each. *)
Definition node_registry_default_recovery_caps : Z := Z.lor 1 (Z.lor 2 (Z.lor 4 8)).

Definition node_registry_should_persist (e : reg_entry) : bool :=
  negb (re_node e =? 0)
  && (negb (registry_state e =? NODE_REGISTRY_STATE_DISCOVERED)
      || negb (default 0 (profile e !! 0%nat) =? 0) || negb (default 0 (template_name e !! 0%nat) =? 0)).

Definition node_registry_reset_runtime (e : reg_entry) : reg_entry :=
  if re_node e =? 0 then e
  else
    let e := e <| age_ms := 0 |> <| last_seen_ms := 0 |> <| health := 0 |>
               <| cluster_state := cluster_state_code CLUSTER_NODE_OFFLINE |> in
    e <| offline_reason := node_registry_compute_offline_reason e |>
      <| recovery_capabilities := node_registry_default_recovery_caps |>.

(** ** The table *)

Definition find_entry (id : Z) (es : list reg_entry) : option nat := find_idx (fun e => re_node e =? id) es.
Definition node_registry_allocate (es : list reg_entry) : option nat := find_entry 0 es.
(** Find the entry, or take the first free one as a discovered node. *)
Definition find_or_discover (id : Z) (es : list reg_entry) : option nat * list reg_entry :=
  match find_entry id es with
  | Some i => (Some i, es)
  | None =>
    match node_registry_allocate es with
    | Some i => (Some i, <[i := reg_entry_zero <| re_node := id |> <| registry_state := NODE_REGISTRY_STATE_DISCOVERED |>]> es)
    | None => (None, es)
    end
  end.

Definition node_registry_get_state (id : Z) (es : list reg_entry) : Z :=
  if id =? 0 then NODE_REGISTRY_STATE_DISCOVERED
  else match find_entry id es ≫= (es !!.) with Some e => registry_state e | None => NODE_REGISTRY_STATE_DISCOVERED end.
Definition node_registry_known (id : Z) (es : list reg_entry) : bool :=
  if id =? 0 then false else bool_decide (is_Some (find_entry id es)).
Definition node_registry_is_adopted (id : Z) (es : list reg_entry) : bool :=
  NODE_REGISTRY_STATE_ADOPTED <=? node_registry_get_state id es.
Definition node_registry_operational (id : Z) (es : list reg_entry) : bool :=
  NODE_REGISTRY_STATE_ACTIVE <=? node_registry_get_state id es.

(** The two loops that sort the exported copy: [j] against [i], then every
    [j > i], then every [i]. *)
Definition swap_if_less (i j : nat) (l : list reg_entry) : list reg_entry :=
  match l !! i, l !! j with
  | Some a, Some b => if re_node b <? re_node a then <[i := b]> (<[j := a]> l) else l
  | _, _ => l
  end.
Definition sort_pass (l : list reg_entry) (i : nat) : list reg_entry :=
  foldl (fun l j => swap_if_less i j l) l (seq (S i) (length l - S i)).
Definition sort_entries (l : list reg_entry) : list reg_entry := foldl sort_pass l (seq 0 (length l - 1)).
Definition node_registry_export (max_entries : Z) (es : list reg_entry) : list reg_entry :=
  if max_entries <=? 0 then []
  else sort_entries (take (Z.to_nat max_entries) (filter (fun e => re_node e <> 0) es)).

(** A node of the cluster manager's snapshot updates its entry. *)
Definition seen (n : cluster_node) (e : reg_entry) : reg_entry :=
  let e := e <| last_seen_ms := cn_last_seen_ms n |> <| cluster_state := cluster_state_code (cn_state n) |> in
  e <| offline_reason := node_registry_compute_offline_reason e |>
    <| recovery_capabilities := node_registry_default_recovery_caps |>.
Definition health_of (s : cluster_node_state) : Z :=
  match s with CLUSTER_NODE_ONLINE => 100 | CLUSTER_NODE_SUSPECT => 50 | CLUSTER_NODE_OFFLINE => 0 end.

Definition node_registry_seed_entry_from_cluster (id : Z) (ns : list cluster_node) (es : list reg_entry) : bool * list reg_entry :=
  if id =? 0 then (false, es)
  else
    match List.find (fun n => cn_id n =? id) (cluster_manager_export_nodes 10 ns) with
    | None => (false, es)
    | Some target =>
      match find_or_discover id es with
      | (Some i, es) => (true, alter (seen target) i es)
      | (None, es) => (false, es)
      end
    end.

(** One round of the loop over the snapshot, and what follows it. *)
Definition sync_node (self : Z) (es : list reg_entry) (n : cluster_node) : list reg_entry :=
  if (cn_id n =? 0) || (cn_id n =? self) then es
  else match find_or_discover (cn_id n) es with
       | (Some i, es) => alter (fun e => seen n e <| health := health_of (cn_state n) |>) i es
       | (None, es) => es
       end.
Definition sync_self (self : Z) (es : list reg_entry) : list reg_entry :=
  if self =? 0 then es
  else match find_entry self es with
       | Some i => alter (fun e => e <| cluster_state := cluster_state_code CLUSTER_NODE_ONLINE |> <| health := 100 |>
                                     <| offline_reason := NODE_REGISTRY_OFFLINE_NONE |>
                                     <| recovery_capabilities := node_registry_default_recovery_caps |>) i es
       | None => es
       end.

(** ** Stored form *)

Definition node_registry_crc32 (data : list Z) : Z := fnv1a32 data.
Definition reg_entry_layout : list (Z * Z) :=
  [c_u32; c_u32; c_u32; c_u32; c_u8; c_u8; c_u8; c_u8; c_u8; c_u8; c_u8; c_u8; (24, 1); (24, 1)].
Definition reg_entry_v1_layout : list (Z * Z) := [c_u32; c_u32; c_u32; c_u8; c_u8; c_u8; c_u8; (24, 1); (24, 1)].
Definition sizeof_node_registry_blob : Z := struct_size [c_u32; c_u16; c_u16; c_array 10 reg_entry_layout; c_u32].
Definition sizeof_node_registry_blob_v1 : Z := struct_size [c_u32; c_u16; c_u16; c_array 10 reg_entry_v1_layout; c_u32].

Definition reg_entry_bytes (e : reg_entry) : list Z :=
  pack [(4%nat, re_node e); (4%nat, last_ip_addr e); (4%nat, age_ms e); (4%nat, last_seen_ms e); (1%nat, health e);
        (1%nat, cluster_state e); (1%nat, registry_state e); (1%nat, last_transport e); (1%nat, offline_reason e);
        (1%nat, recovery_capabilities e); (1%nat, reserved0 e); (1%nat, reserved1 e)]
  ++ profile e ++ template_name e.
Definition reg_entry_of (b : list Z) : reg_entry :=
  RegEntry (field 0 4 b) (field 4 4 b) (field 8 4 b) (field 12 4 b) (field 16 1 b) (field 17 1 b) (field 18 1 b)
    (field 19 1 b) (field 20 1 b) (field 21 1 b) (field 22 1 b) (field 23 1 b) (take 24 (drop 24 b)) (take 24 (drop 48 b)).
Definition reg_entry_of_v1 (b : list Z) : reg_entry :=
  RegEntry (field 0 4 b) (field 4 4 b) (field 8 4 b) 0 (field 12 1 b) (field 13 1 b) (field 14 1 b)
    NODE_REGISTRY_TRANSPORT_NONE NODE_REGISTRY_OFFLINE_NONE node_registry_default_recovery_caps 0 0
    (node_registry_copy_text (take 24 (drop 16 b))) (node_registry_copy_text (take 24 (drop 40 b))).

(** The entries worth keeping, without their run-time part, and the blob; the
    checksum covers the entries in use only. *)
Definition persisted_entries (es : list reg_entry) : list reg_entry :=
  take (Z.to_nat NODE_REGISTRY_MAX_NODES) (node_registry_reset_runtime <$> filter (fun e => node_registry_should_persist e = true) es).
Definition node_registry_build_blob (es : list reg_entry) : list Z :=
  let slots := reg_entry_bytes <$> persisted_entries es in
  pack [(4%nat, NODE_REGISTRY_MAGIC); (2%nat, NODE_REGISTRY_VERSION); (2%nat, Z.of_nat (length slots))]
  ++ array_bytes 10 72 slots ++ le 4 (node_registry_crc32 (concat slots)).

(** The entries of an accepted blob of the given entry size. *)
Definition registry_accepted (version : Z) (size : nat) (blob : list Z) : bool :=
  let count := Z.to_nat (field 6 2 blob) in
  (field 0 4 blob =? NODE_REGISTRY_MAGIC) && (field 4 2 blob =? version) && (field 6 2 blob <=? NODE_REGISTRY_MAX_NODES)
  && (field (8 + size * 10) 4 blob =? node_registry_crc32 (take (count * size) (drop 8 blob))).
Definition node_registry_load_blob (flash : option (list Z)) : option (list reg_entry) :=
  match flash with
  | None => None
  | Some blob =>
    let len := Z.of_nat (length blob) in
    let count := Z.to_nat (field 6 2 blob) in
    if len =? sizeof_node_registry_blob then
      if registry_accepted NODE_REGISTRY_VERSION 72 blob
      then Some ((fun i => reg_entry_of (array_slot 8 72 i blob)) <$> seq 0 count) else None
    else if len =? sizeof_node_registry_blob_v1 then
      if registry_accepted NODE_REGISTRY_VERSION_V1 64 blob
      then Some ((fun i => reg_entry_of_v1 (array_slot 8 64 i blob)) <$> seq 0 count) else None
    else None
  end.

(** ** Operations *)

Section registry.
Context {N : Type} `{Nvs N}.
Implicit Types w : rw N.
Abbreviation M := (st (rw N)).

Definition on_entries (f : list reg_entry -> list reg_entry) : M () :=
  modify (fun w => w <| reg := (reg w) <| reg_entries := f (reg_entries (reg w)) |> |>).
Definition reg_flash {A} (m : st N A) : M A := on_part rnvs (fun n w => w <| rnvs := n |>) m.

Definition node_registry_save_blob (blob : list Z) : M bool :=
  ok ← reg_flash nvs_open_rw;
  if negb ok then mret false
  else
    ok ← reg_flash (nvs_set_blob blob);
    if negb ok then mret false else reg_flash nvs_commit.

Definition node_registry_init : M () :=
  w ← gets (fun w => w);
  let es := match node_registry_load_blob (nvs_get_blob (rnvs w)) with
            | Some loaded => node_registry_reset_runtime <$> loaded
            | None => []
            end in
  modify (fun w => w <| reg := Registry (es ++ replicate (10 - length es) reg_entry_zero) true 0 |>).

(** At most once a second, from the cluster manager's state [m] at [now_ms]. *)
Definition node_registry_process (m : manager) (now_ms : Z) : M () :=
  w ← gets (fun w => w);
  if negb (node_registry_initialized (reg w)) then mret tt
  else if u32 (now_ms - last_sync_ms (reg w)) <? NODE_REGISTRY_SYNC_MS then mret tt
  else
    modify (fun w => w <| reg := (reg w) <| last_sync_ms := now_ms |> |>);;
    on_entries (fun es =>
      let self := met_self (cluster_get_metrics m) in
      sync_self self
        (foldl (sync_node self) (node_registry_reset_runtime <$> es) (cluster_manager_export_nodes 10 (nodes m)))).

Definition node_registry_note_transport (id transport source_ip : Z) : M bool :=
  if id =? 0 then mret false
  else
    let mapped := node_registry_transport_from_cluster transport in
    w ← gets (fun w => w);
    match find_or_discover id (reg_entries (reg w)) with
    | (None, _) => mret false
    | (Some i, es) =>
      on_entries (fun _ => alter (fun e =>
        let e := e <| last_ip_addr := if source_ip =? 0 then last_ip_addr e else source_ip |>
                   <| last_transport := if mapped =? NODE_REGISTRY_TRANSPORT_NONE then last_transport e else mapped |> in
        e <| offline_reason := node_registry_compute_offline_reason e |>) i es);;
      mret true
    end.

Definition node_registry_restore_entry (id : Z) (previous : reg_entry) : M () :=
  if id =? 0 then mret tt
  else on_entries (fun es => match find_entry id es with Some i => <[i := previous]> es | None => es end).

(** The common part of the operator's actions: find the entry, which may be
    seeded from the cluster manager's nodes, change it when [f] agrees, store
    the registry, and put the entry back when that fails. *)
Definition admin_update (seed : option (list cluster_node)) (id : Z) (f : reg_entry -> option reg_entry) : M bool :=
  w ← gets (fun w => w);
  let es := reg_entries (reg w) in
  let '(found, es) :=
    match find_entry id es, seed with
    | None, Some ns => node_registry_seed_entry_from_cluster id ns es
    | None, None => (false, es)
    | Some _, _ => (true, es)
    end in
  on_entries (fun _ => es);;
  match (if found : bool then find_entry id es else None) ≫= (fun i => e ← es !! i; Some (i, e)) with
  | None => mret false
  | Some (i, previous) =>
    match f previous with
    | None => mret false
    | Some e =>
      on_entries (fun es => <[i := e]> es);;
      w ← gets (fun w => w);
      ok ← node_registry_save_blob (node_registry_build_blob (reg_entries (reg w)));
      if ok : bool then mret true
      else node_registry_restore_entry id previous;; mret false
    end
  end.

Definition node_registry_adopt (id : Z) (ns : list cluster_node) : M bool :=
  if id =? 0 then mret false
  else admin_update (Some ns) id (fun e => Some (
    if registry_state e <? NODE_REGISTRY_STATE_ADOPTED then e <| registry_state := NODE_REGISTRY_STATE_ADOPTED |> else e)).

Definition node_registry_configure (id : Z) (prof tmpl : list Z) (ns : list cluster_node) : M bool :=
  if (id =? 0) || negb (node_registry_profile_is_supported prof) || negb (node_registry_template_is_valid tmpl)
  then mret false
  else admin_update (Some ns) id (fun e => Some (
    e <| profile := node_registry_copy_text prof |> <| template_name := node_registry_copy_text tmpl |>
      <| registry_state := if NODE_REGISTRY_STATE_ACTIVE <=? registry_state e
                           then NODE_REGISTRY_STATE_ACTIVE else NODE_REGISTRY_STATE_CONFIGURED |>)).

Definition node_registry_activate (id : Z) (ns : list cluster_node) : M bool :=
  if id =? 0 then mret false
  else admin_update (Some ns) id (fun e =>
    if NODE_REGISTRY_STATE_ADOPTED <=? registry_state e
    then Some (e <| registry_state := NODE_REGISTRY_STATE_ACTIVE |>) else None).

Definition clear_text (t : list Z) : list Z := <[0%nat := 0]> t.
Definition node_registry_revoke (id : Z) : M bool :=
  if id =? 0 then mret false
  else admin_update None id (fun e => Some (
    e <| registry_state := NODE_REGISTRY_STATE_DISCOVERED |> <| profile := clear_text (profile e) |>
      <| template_name := clear_text (template_name e) |>)).

(** The new node takes over the old one's state; a slot is taken for it
    without clearing what a removed node left there. *)
Definition node_registry_replace (old_id new_id : Z) : M bool :=
  if (old_id =? 0) || (new_id =? 0) || (old_id =? new_id) then mret false
  else
    w ← gets (fun w => w);
    let es := reg_entries (reg w) in
    match find_entry old_id es ≫= (fun i => e ← es !! i; Some (i, e)) with
    | None => mret false
    | Some (io, old) =>
      match (match find_entry new_id es with Some i => Some i | None => node_registry_allocate es end) with
      | None => mret false
      | Some i =>
        on_entries (fun es =>
          alter (fun e => e <| re_node := 0 |>) io
            (alter (fun e => e <| re_node := new_id |> <| registry_state := registry_state old |>
                                <| profile := node_registry_copy_text (profile old) |>
                                <| template_name := node_registry_copy_text (template_name old) |>) i es));;
        w ← gets (fun w => w);
        ok ← node_registry_save_blob (node_registry_build_blob (reg_entries (reg w)));
        if ok : bool then mret true
        else node_registry_restore_entry old_id old;; mret false
      end
    end.
End registry.

(** ** Names *)

Definition node_registry_state_name (s : Z) : string :=
  if s =? NODE_REGISTRY_STATE_ADOPTED then "adopted"
  else if s =? NODE_REGISTRY_STATE_CONFIGURED then "configured"
  else if s =? NODE_REGISTRY_STATE_ACTIVE then "active"
  else "discovered".
Definition node_registry_cluster_state_name (s : Z) : string :=
  if s =? 0 then "online" else if s =? 1 then "suspect" else "offline".
Definition node_registry_transport_name (t : Z) : string :=
  if t =? NODE_REGISTRY_TRANSPORT_WIFI_UDP then "wifi-udp"
  else if t =? NODE_REGISTRY_TRANSPORT_ETHERNET_UDP then "ethernet-udp"
  else if t =? NODE_REGISTRY_TRANSPORT_RS485_CLUSTER then "rs485-cluster"
  else if t =? NODE_REGISTRY_TRANSPORT_WIFI_NOW then "wifi-now"
  else "none".
Definition node_registry_offline_reason_name (r : Z) : string :=
  if r =? NODE_REGISTRY_OFFLINE_HEARTBEAT_TIMEOUT then "heartbeat-timeout"
  else if r =? NODE_REGISTRY_OFFLINE_MISSING_ADDRESS then "missing-address"
  else if r =? NODE_REGISTRY_OFFLINE_LINK_DEGRADED then "link-degraded"
  else "none".

(** ** The registry implements what the cluster asks of it *)

(** [cluster_failover_node_is_registered_gateway] *)
Definition registered_gateway (id : Z) (es : list reg_entry) : bool :=
  existsb (fun e => (re_node e =? id) && bool_decide (cstr (profile e) = bytes_of "gateway"))
    (node_registry_export NODE_REGISTRY_MAX_NODES es).
#[export] Instance registry_api {N} : NodeRegistryApi (rw N) := {
  node_registry_is_known id w := node_registry_known id (reg_entries (reg w));
  node_registry_is_operational id w := node_registry_operational id (reg_entries (reg w));
  node_registry_is_gateway id w := registered_gateway id (reg_entries (reg w));
}.

(** ** What the operator decided about a node *)

Definition entry_for (id : Z) (es : list reg_entry) : option reg_entry := find_entry id es ≫= (es !!.).
Definition decision (e : reg_entry) : Z * list Z * list Z := (registry_state e, cstr (profile e), cstr (template_name e)).
Definition no_decision : Z * list Z * list Z := (NODE_REGISTRY_STATE_DISCOVERED, [], []).
Definition admin_view (id : Z) (es : list reg_entry) : Z * list Z * list Z := default no_decision (decision <$> entry_for id es).

Lemma get_state_view id es : id <> 0 -> node_registry_get_state id es = (admin_view id es).1.1.
Proof.
  intros Hid. unfold node_registry_get_state, admin_view, entry_for. destruct (Z.eqb_spec id 0); [done|].
  by destruct (find_entry id es ≫= (es !!.)).
Qed.

Lemma entry_for_cons id e es : entry_for id (e :: es) = if re_node e =? id then Some e else entry_for id es.
Proof. unfold entry_for, find_entry. cbn [find_idx]. destruct (re_node e =? id); [done|]. by destruct (find_idx _ es). Qed.
Lemma view_cons id e es : admin_view id (e :: es) = if re_node e =? id then decision e else admin_view id es.
Proof. unfold admin_view. rewrite entry_for_cons. by destruct (re_node e =? id). Qed.

(** An update of one entry that keeps its node and its decision. *)
Lemma view_alter id f i es : (forall e, re_node (f e) = re_node e /\ decision (f e) = decision e) ->
  admin_view id (alter f i es) = admin_view id es.
Proof.
  intros Hf. revert i. induction es as [|e es IH]; intros i; [done|].
  destruct i as [|i].
  - change (alter f 0%nat (e :: es)) with (f e :: es). rewrite !view_cons. by destruct (Hf e) as [-> ->].
  - change (alter f (S i) (e :: es)) with (e :: alter f i es). by rewrite !view_cons, IH.
Qed.
Lemma view_fmap id f es : (forall e, re_node (f e) = re_node e /\ decision (f e) = decision e) ->
  admin_view id (f <$> es) = admin_view id es.
Proof.
  intros Hf. induction es as [|e es IH]; [done|]. rewrite fmap_cons, !view_cons, IH. by destruct (Hf e) as [-> ->].
Qed.
(** An entry written over another one. *)
Lemma view_insert_other id i e es : (forall x, es !! i = Some x -> re_node x <> id) -> re_node e <> id ->
  admin_view id (<[i := e]> es) = admin_view id es.
Proof.
  intros Hx He. revert i Hx. induction es as [|x es IH]; intros i Hx; [done|].
  destruct i as [|i].
  - change (<[0%nat := e]> (x :: es)) with (e :: es). rewrite !view_cons. specialize (Hx x eq_refl). by destruct (Z.eqb_spec (re_node e) id), (Z.eqb_spec (re_node x) id).
  - change (<[S i := e]> (x :: es)) with (x :: <[i := e]> es). rewrite !view_cons, IH; [done|]. intros y Hy. by apply Hx.
Qed.
Lemma find_entry_is id i es : find_entry id es = Some i -> exists e, es !! i = Some e /\ re_node e = id /\ entry_for id es = Some e.
Proof.
  intros Hi. destruct (find_idx_Some _ _ _ Hi) as (e & He & Hn & _). exists e. apply Z.eqb_eq in Hn.
  split_and!; [done|done|]. unfold entry_for. by rewrite Hi.
Qed.
Lemma view_insert_same id i e es : find_entry id es = Some i -> re_node e = id -> admin_view id (<[i := e]> es) = decision e.
Proof.
  revert i. induction es as [|x es IH]; intros i Hi He; [done|]. unfold find_entry in Hi. cbn [find_idx] in Hi.
  destruct (Z.eqb_spec (re_node x) id) as [|Hx].
  - injection Hi as <-. change (<[0%nat := e]> (x :: es)) with (e :: es). by rewrite view_cons, He, Z.eqb_refl.
  - destruct (find_idx _ es) as [k|] eqn:Hk; [|done]. injection Hi as <-. change (<[S k := e]> (x :: es)) with (x :: <[k := e]> es). rewrite view_cons.
    destruct (Z.eqb_spec (re_node x) id); [done|]. by apply IH.
Qed.
Lemma view_none id es : find_entry id es = None -> admin_view id es = no_decision.
Proof. intros Hn. unfold admin_view, entry_for. by rewrite Hn. Qed.

Lemma decision_zero e : re_node e = 0 -> forall id, id <> 0 -> re_node e <> id.
Proof. intros -> id Hid. done. Qed.

(** Discovering a node decides nothing. *)
Lemma discover_view id' id es : id <> 0 -> id' <> 0 -> admin_view id (find_or_discover id' es).2 = admin_view id es.
Proof.
  intros Hid Hid'. unfold find_or_discover. destruct (find_entry id' es) eqn:Hf; [done|].
  destruct (node_registry_allocate es) as [i|] eqn:Ha; [|done]. cbn [snd].
  destruct (find_entry_is 0 i es Ha) as (x & Hx & Hx0 & _). destruct (decide (id = id')) as [->|Hne].
  - rewrite (view_none _ _ Hf).
    assert (find_entry id' (<[i := reg_entry_zero <| re_node := id' |> <| registry_state := NODE_REGISTRY_STATE_DISCOVERED |>]> es) = Some i) as Hn.
    { apply (find_idx_unique _ _ _ (reg_entry_zero <| re_node := id' |> <| registry_state := NODE_REGISTRY_STATE_DISCOVERED |>)).
      - apply list_lookup_insert_eq. by eapply lookup_lt_Some.
      - cbn. apply Z.eqb_refl.
      - intros j y Hy Hyn. destruct (decide (i = j)) as [|Hij]; [done|]. rewrite list_lookup_insert_ne in Hy by done.
        unfold find_entry in Hf. rewrite find_idx_None in Hf. rewrite (Hf y) in Hyn; [done|]. by eapply list_elem_of_lookup_2. }
    destruct (find_entry_is _ _ _ Hn) as (e & He & _ & Hent). rewrite list_lookup_insert_eq in He by (by eapply lookup_lt_Some).
    injection He as <-. unfold admin_view. by rewrite Hent.
  - apply view_insert_other; [|done]. intros y Hy. rewrite Hx in Hy. injection Hy as <-. congruence.
Qed.

Lemma seen_same n e : re_node (seen n e) = re_node e /\ decision (seen n e) = decision e.
Proof. done. Qed.
Lemma reset_same e : re_node (node_registry_reset_runtime e) = re_node e /\ decision (node_registry_reset_runtime e) = decision e.
Proof. unfold node_registry_reset_runtime. by destruct (re_node e =? 0). Qed.

Lemma seed_view id' ns id es : id <> 0 -> admin_view id (node_registry_seed_entry_from_cluster id' ns es).2 = admin_view id es.
Proof.
  intros Hid. unfold node_registry_seed_entry_from_cluster. destruct (Z.eqb_spec id' 0); [done|].
  destruct (List.find _ _) as [target|]; [|done]. pose proof (discover_view id' id es Hid n) as Hd.
  destruct (find_or_discover id' es) as [[i|] es']; cbn [snd] in *; [|done]. by rewrite view_alter.
Qed.
Lemma sync_view self ns id es : id <> 0 -> admin_view id (sync_self self (foldl (sync_node self) es ns)) = admin_view id es.
Proof.
  intros Hid. transitivity (admin_view id (foldl (sync_node self) es ns)).
  { unfold sync_self. destruct (self =? 0); [done|]. destruct (find_entry _ _); [|done]. by rewrite view_alter. }
  revert es. induction ns as [|n ns IH]; intros es; [done|]. cbn [foldl]. rewrite IH. unfold sync_node.
  destruct ((cn_id n =? 0) || (cn_id n =? self)) eqn:E; [done|]. apply orb_false_iff in E as [E _]. apply Z.eqb_neq in E.
  pose proof (discover_view (cn_id n) id es Hid E) as Hd.
  destruct (find_or_discover (cn_id n) es) as [[i|] es']; cbn [snd] in *; [|done]. by rewrite view_alter.
Qed.

Section trust.
Context {N : Type} `{Nvs N}.
Implicit Types w : rw N.
Abbreviation view w id := (admin_view id (reg_entries (reg w))).

Lemma save_reg blob w : reg (node_registry_save_blob blob w).2 = reg w.
Proof.
  unfold node_registry_save_blob, reg_flash, on_part. rewrite run_bind_surj. destruct (nvs_open_rw (rnvs w)) as [[] n]; cbn [fst snd negb]; [|done].
  rewrite run_bind_surj. cbn [rnvs update]. destruct (nvs_set_blob blob n) as [[] n']; cbn [fst snd negb]; [|done].
  cbn [rnvs update]. by destruct (nvs_commit n') as [ok n''].
Qed.

(** The entries an operator's action works on, and its outcome. *)
Definition admin_start (seed : option (list cluster_node)) (id : Z) (es : list reg_entry) : bool * list reg_entry :=
  match find_entry id es, seed with
  | None, Some ns => node_registry_seed_entry_from_cluster id ns es
  | None, None => (false, es)
  | Some _, _ => (true, es)
  end.
Lemma admin_start_view seed id id' es : id' <> 0 -> admin_view id' (admin_start seed id es).2 = admin_view id' es.
Proof. intros Hid. unfold admin_start. destruct (find_entry id es), seed; try done. by apply seed_view. Qed.

Lemma admin_update_run seed id f w :
  let start := admin_start seed id (reg_entries (reg w)) in
  let '(ok, w') := admin_update seed id f w in
  match (if start.1 then entry_for id start.2 else None) with
  | None => ok = false /\ reg_entries (reg w') = start.2
  | Some previous =>
    match f previous with
    | None => ok = false /\ reg_entries (reg w') = start.2
    | Some e => exists i, find_entry id start.2 = Some i /\ start.2 !! i = Some previous /\
        let es := <[i := e]> start.2 in
        ok = (node_registry_save_blob (node_registry_build_blob es) (w <| reg := (reg w) <| reg_entries := es |> |>)).1 /\
        if ok : bool
        then w' = (node_registry_save_blob (node_registry_build_blob es) (w <| reg := (reg w) <| reg_entries := es |> |>)).2
        else reg_entries (reg w') = if id =? 0 then es else match find_entry id es with Some j => <[j := previous]> es | None => es end
    end
  end.
Proof.
  cbv zeta. unfold admin_update. rewrite run_bind_gets. cbv zeta. fold (admin_start seed id (reg_entries (reg w))).
  destruct (admin_start seed id (reg_entries (reg w))) as [found es]. cbn [fst snd]. unfold on_entries. rewrite run_bind_modify.
  unfold entry_for. destruct found; cbn [mbind option_bind]; [|done].
  destruct (find_entry id es) as [i|] eqn:Hi; cbn [mbind option_bind]; [|done].
  destruct (es !! i) as [previous|] eqn:Hp; cbn [mbind option_bind]; [|done].
  destruct (f previous) as [e|]; [|done]. rewrite run_bind_modify, run_bind_gets. cbn [reg reg_entries update].
  set (w1 := w <| reg := (reg w) <| reg_entries := <[i := e]> es |> |>).
  match goal with |- context [(node_registry_save_blob ?b ≫= ?k) ?x] =>
    change ((node_registry_save_blob b ≫= k) x) with ((node_registry_save_blob b ≫= k) w1) end.
  rewrite run_bind_surj.
  pose proof (save_reg (node_registry_build_blob (<[i:=e]> es)) w1) as Hreg.
  destruct (node_registry_save_blob _ w1) as [ok w2] eqn:Hsave. unfold w1 in Hsave. cbn [fst snd] in *. destruct ok.
  - unfold mret, st_ret. exists i. by rewrite Hsave.
  - unfold node_registry_restore_entry, on_entries. destruct (id =? 0); exists i; rewrite Hsave; (split_and!; [done..|]).
    + cbn. by rewrite Hreg.
    + cbn. by rewrite Hreg.
Qed.

Lemma nodes_insert id i e p (es : list reg_entry) : es !! i = Some p -> re_node e = re_node p -> find_entry id (<[i := e]> es) = find_entry id es.
Proof.
  intros Hp He. unfold find_entry. rewrite <- !(find_idx_fmap re_node (fun n => n =? id)). f_equal.
  rewrite list_insert_alter. apply fmap_alter_same. intros y Hy. rewrite Hp in Hy. by injection Hy as <-.
Qed.
(** An action that fails decides nothing. *)
Lemma failed_admin_view seed id f w id' : id <> 0 -> id' <> 0 -> (forall e e', f e = Some e' -> re_node e' = re_node e) ->
  (admin_update seed id f w).1 = false -> view (admin_update seed id f w).2 id' = view w id'.
Proof.
  intros Hid Hid' Hf Hfail. pose proof (admin_update_run seed id f w) as Hrun. cbv zeta in Hrun.
  rewrite <- (admin_start_view seed id id' (reg_entries (reg w)) Hid').
  set (start := admin_start seed id (reg_entries (reg w))) in *.
  destruct (admin_update seed id f w) as [ok w']. cbn [fst snd] in *. subst ok.
  destruct (if start.1 then entry_for id start.2 else None) as [previous|]; [|by destruct Hrun as [_ ->]].
  destruct (f previous) as [e|] eqn:He; [|by destruct Hrun as [_ ->]].
  destruct Hrun as (i & Hi & Hp & _ & ->). destruct (Z.eqb_spec id 0); [done|].
  destruct (find_entry_is id i _ Hi) as (x & Hx & Hxn & _). rewrite Hp in Hx. injection Hx as <-.
  rewrite (nodes_insert _ _ _ _ _ Hp) by eauto. rewrite Hi.
  by rewrite list_insert_insert_eq, list_insert_id.
Qed.

(** An action on one node is no decision about another, and one that succeeds is
    the decision it says. *)
Lemma admin_update_view seed id f w : id <> 0 -> (forall e e', f e = Some e' -> re_node e' = re_node e) ->
  let '(ok, w') := admin_update seed id f w in
  (forall id', id' <> 0 -> id' <> id -> view w' id' = view w id') /\
  (ok = true -> exists previous e, f previous = Some e /\ view w' id = decision e).
Proof.
  intros Hid Hf. pose proof (admin_update_run seed id f w) as Hrun. cbv zeta in Hrun.
  pose proof (failed_admin_view seed id f w) as Hfail. destruct (admin_update seed id f w) as [ok w']. cbn [fst snd] in Hfail.
  destruct ok; [|split; [|done]; intros id' Hid' _; by apply Hfail].
  set (start := admin_start seed id (reg_entries (reg w))) in *.
  destruct (if start.1 then entry_for id start.2 else None) as [previous|]; [|by destruct Hrun].
  destruct (f previous) as [e|] eqn:He; [|by destruct Hrun].
  destruct Hrun as (i & Hi & Hp & _ & ->). rewrite !save_reg. cbn [reg reg_entries update].
  destruct (find_entry_is id i _ Hi) as (x & Hx & Hxn & _). rewrite Hp in Hx. injection Hx as <-. split.
  - intros id' Hid' Hne. rewrite view_insert_other; [by apply admin_start_view| |by rewrite (Hf _ _ He), Hxn].
    intros y Hy. rewrite Hp in Hy. injection Hy as <-. by rewrite Hxn.
  - intros _. exists previous, e. split; [done|]. unfold admin_view, entry_for. rewrite (nodes_insert _ _ _ _ _ Hp) by eauto.
    rewrite Hi. cbn. rewrite list_lookup_insert_eq; [done|]. by eapply lookup_lt_Some.
Qed.

(** What the network does, and what an operator tries in vain. *)
Inductive untrusted_step : rw N -> rw N -> Prop :=
| net_process m now w : untrusted_step w (node_registry_process m now w).2
| net_transport id t ip w : untrusted_step w (node_registry_note_transport id t ip w).2
| net_adopt id ns w : (node_registry_adopt id ns w).1 = false -> untrusted_step w (node_registry_adopt id ns w).2
| net_configure id p t ns w : (node_registry_configure id p t ns w).1 = false -> untrusted_step w (node_registry_configure id p t ns w).2
| net_activate id ns w : (node_registry_activate id ns w).1 = false -> untrusted_step w (node_registry_activate id ns w).2
| net_revoke id w : (node_registry_revoke id w).1 = false -> untrusted_step w (node_registry_revoke id w).2
| net_flash n w : untrusted_step w (w <| rnvs := n |>).

Lemma untrusted_view w w' id : id <> 0 -> untrusted_step w w' -> view w' id = view w id.
Proof.
  intros Hid Hstep. destruct Hstep as [m now w|id' t ip w|id' ns w Hf|id' p t ns w Hf|id' ns w Hf|id' w Hf|n w]; [..|done].
  - unfold node_registry_process. rewrite run_bind_gets. repeat case_match; try done.
    rewrite run_bind_modify. unfold on_entries. rewrite run_modify. cbn [snd reg reg_entries update].
    rewrite sync_view by done. by apply view_fmap, reset_same.
  - unfold node_registry_note_transport. destruct (Z.eqb_spec id' 0); [done|]. cbv zeta. rewrite run_bind_gets.
    pose proof (discover_view id' id (reg_entries (reg w)) Hid n) as Hd.
    destruct (find_or_discover id' (reg_entries (reg w))) as [[i|] es]; cbn [snd] in Hd; [|done].
    unfold on_entries. rewrite run_bind_modify, run_ret. cbn [snd reg reg_entries update]. by rewrite view_alter.
  - revert Hf. unfold node_registry_adopt. destruct (Z.eqb_spec id' 0); [done|]. intros Hf.
    apply failed_admin_view; try done. intros e e' [= <-]. by case_match.
  - revert Hf. unfold node_registry_configure. destruct (Z.eqb_spec id' 0); [done|]. cbn [orb]. case_match; [done|]. intros Hf.
    apply failed_admin_view; try done. by intros e e' [= <-].
  - revert Hf. unfold node_registry_activate. destruct (Z.eqb_spec id' 0); [done|]. intros Hf.
    apply failed_admin_view; try done. intros e e'. case_match; [|done]. by intros [= <-].
  - revert Hf. unfold node_registry_revoke. destruct (Z.eqb_spec id' 0); [done|]. intros Hf.
    apply failed_admin_view; try done. by intros e e' [= <-].
Qed.
End trust.


(** ** The stored registry *)

Definition entry_typed (e : reg_entry) : Prop :=
  (is_u32 (re_node e) /\ is_u32 (last_ip_addr e) /\ is_u32 (age_ms e) /\ is_u32 (last_seen_ms e)) /\
  (is_u8 (health e) /\ is_u8 (cluster_state e) /\ is_u8 (registry_state e) /\ is_u8 (last_transport e)) /\
  (is_u8 (offline_reason e) /\ is_u8 (recovery_capabilities e) /\ is_u8 (reserved0 e) /\ is_u8 (reserved1 e)) /\
  length (profile e) = 24%nat /\ length (template_name e) = 24%nat.
(** No identifier but 0 occurs twice. *)
Definition unique_ids (l : list Z) : Prop := forall i j n, l !! i = Some n -> l !! j = Some n -> n <> 0 -> i = j.
Definition reg_ok (es : list reg_entry) : Prop :=
  length es = 10%nat /\ unique_ids (re_node <$> es) /\ Forall entry_typed es.
Definition cluster_node_typed (n : cluster_node) : Prop := is_u32 (cn_id n) /\ is_u32 (cn_last_seen_ms n).

Lemma unique_insert l i n : unique_ids l -> n = 0 \/ n ∉ l -> unique_ids (<[i := n]> l).
Proof.
  intros Hl Hn a b m Ha Hb Hm. rewrite list_lookup_insert_Some in Ha, Hb.
  assert (forall k, l !! k = Some m -> m = n -> False) as Hno.
  { intros k Hk ->. destruct Hn as [|Hn]; [done|]. apply Hn. by eapply list_elem_of_lookup_2. }
  destruct Ha as [(<- & <- & _)|[_ Ha]], Hb as [(<- & Hb & _)|[_ Hb]]; try done.
  - by destruct (Hno b Hb).
  - subst m. by destruct (Hno a Ha).
  - by eapply Hl.
Qed.

Lemma copy_text_length src : length (node_registry_copy_text src) = 24%nat.
Proof. unfold node_registry_copy_text. rewrite length_app, length_replicate, length_take. lia. Qed.

Lemma offline_reason_u8 e : is_u8 (node_registry_compute_offline_reason e).
Proof. unfold node_registry_compute_offline_reason. repeat case_match; done. Qed.
(** The fields of a typed entry, one by one. *)
Ltac entry_fields :=
  intros ((? & ? & ? & ?) & (? & ? & ? & ?) & (? & ? & ? & ?) & ? & ?);
  unfold entry_typed; cbn -[node_registry_compute_offline_reason];
  try match goal with |- context [node_registry_compute_offline_reason ?x] => pose proof (offline_reason_u8 x) end;
  rewrite ?length_insert, ?copy_text_length; split_and!; done || lia.
Lemma reset_typed e : entry_typed e -> entry_typed (node_registry_reset_runtime e).
Proof.
  unfold node_registry_reset_runtime. case_match; [done|]. cbv zeta. entry_fields.
Qed.
Lemma seen_typed n e : cluster_node_typed n -> entry_typed e -> entry_typed (seen n e).
Proof.
  intros [? ?]. unfold seen. assert (is_u8 (cluster_state_code (cn_state n))) by (by destruct (cn_state n)). entry_fields.
Qed.
Lemma zero_typed id : is_u32 id -> entry_typed (reg_entry_zero <| re_node := id |> <| registry_state := NODE_REGISTRY_STATE_DISCOVERED |>).
Proof. intros. unfold entry_typed. cbn. split_and!; done || lia. Qed.

Lemma discover_ok id es : is_u32 id -> reg_ok es -> reg_ok (find_or_discover id es).2.
Proof.
  intros Hid (Hlen & Hu & Ht). unfold find_or_discover. destruct (find_entry id es) eqn:Hf; [done|].
  destruct (node_registry_allocate es) as [i|]; [|done]. cbn [snd]. split_and!.
  - by rewrite length_insert.
  - rewrite list_fmap_insert. apply unique_insert; [done|]. right. cbn. intros (x & -> & Hx)%list_elem_of_fmap.
    unfold find_entry in Hf. rewrite find_idx_None in Hf. specialize (Hf x Hx). by rewrite Z.eqb_refl in Hf.
  - apply Forall_insert; [done|by apply zero_typed].
Qed.
Lemma alter_ok f i es : (forall e, entry_typed e -> entry_typed (f e)) -> (forall e, re_node (f e) = re_node e) -> reg_ok es -> reg_ok (alter f i es).
Proof.
  intros Hf Hn (Hlen & Hu & Ht). split_and!; [by rewrite length_alter|by rewrite fmap_alter_same|].
  apply Forall_alter; [done|]. intros x _ Hx. by apply Hf.
Qed.
Lemma seed_ok id ns es : is_u32 id -> Forall cluster_node_typed ns -> reg_ok es ->
  reg_ok (node_registry_seed_entry_from_cluster id ns es).2.
Proof.
  intros Hid Hns Hes. unfold node_registry_seed_entry_from_cluster. case_match; [done|].
  destruct (List.find _ _) as [n|] eqn:Hn; [|done]. apply find_some in Hn as [Hin _]. apply list_elem_of_In in Hin.
  assert (cluster_node_typed n) as Hnt.
  { unfold cluster_manager_export_nodes in Hin. apply elem_of_take in Hin as (k & Hk & _).
    apply list_elem_of_lookup_2, list_elem_of_filter in Hk as [_ Hk]. by eapply Forall_forall in Hns. }
  pose proof (discover_ok id es Hid Hes) as Hd. destruct (find_or_discover id es) as [[i|] es']; cbn [snd] in *; [|done].
  apply alter_ok; [|done|done]. intros e. by apply seen_typed.
Qed.

Section stored.
Context {N : Type} `{NvsLaws N}.
Implicit Types w : rw N.

Lemma admin_update_ok seed id f w : is_u32 id -> Forall cluster_node_typed (default [] seed) ->
  (forall e e', f e = Some e' -> re_node e' = re_node e /\ (entry_typed e -> entry_typed e')) ->
  reg_ok (reg_entries (reg w)) -> (admin_update seed id f w).1 = true ->
  let w' := (admin_update seed id f w).2 in
  reg_ok (reg_entries (reg w')) /\ nvs_get_blob (rnvs w') = Some (node_registry_build_blob (reg_entries (reg w'))).
Proof.
  intros Hid Hseed Hf Hw Hok. cbv zeta. pose proof (admin_update_run seed id f w) as Hrun. cbv zeta in Hrun.
  assert (reg_ok (admin_start seed id (reg_entries (reg w))).2) as Hstart.
  { unfold admin_start. destruct (find_entry id (reg_entries (reg w))), seed; try done. by apply seed_ok. }
  set (start := admin_start seed id (reg_entries (reg w))) in *.
  destruct (admin_update seed id f w) as [ok w']. cbn [fst snd] in *. subst ok.
  destruct (if start.1 then entry_for id start.2 else None) as [previous|]; [|by destruct Hrun].
  destruct (f previous) as [e|] eqn:He; [|by destruct Hrun].
  destruct Hrun as (i & _ & Hp & Hsave & ->). destruct (Hf _ _ He) as [Hn Ht].
  rewrite save_reg. cbn [reg reg_entries update]. split.
  - destruct Hstart as (Hlen & Hu & Hty). split_and!.
    + by rewrite length_insert.
    + rewrite list_insert_alter, fmap_alter_same; [done|]. intros x Hx. rewrite Hp in Hx. by injection Hx as <-.
    + apply Forall_insert; [done|]. apply Ht. exact (Forall_lookup_1 _ _ _ _ Hty Hp).
  - revert Hsave. generalize (node_registry_build_blob (<[i := e]> start.2)) as blob. intros blob.
    generalize (w <| reg := (reg w) <| reg_entries := <[i := e]> start.2 |> |>). intros w1. unfold node_registry_save_blob, reg_flash, on_part.
    rewrite run_bind_surj. destruct (nvs_open_rw (rnvs w1)) as [[] n1]; cbn [fst snd negb]; [|done].
    rewrite run_bind_surj. cbn [rnvs update]. destruct (nvs_set_blob blob n1) as [[] n2] eqn:Hset; cbn [fst snd negb]; [|done].
    cbn [rnvs update]. destruct (nvs_commit n2) as [ok n3] eqn:Hc. cbn [fst snd rnvs update]. intros <-.
    replace n3 with (nvs_commit n2).2 by (by rewrite Hc). apply (nvs_commit_durable blob n1); [done|by rewrite Hc].
Qed.

(** The actions that leave no one out. *)
Inductive operator_action : st (rw N) bool -> Prop :=
| act_adopt id ns : is_u32 id -> Forall cluster_node_typed ns -> operator_action (node_registry_adopt id ns)
| act_configure id p t ns : is_u32 id -> Forall cluster_node_typed ns -> operator_action (node_registry_configure id p t ns)
| act_activate id ns : is_u32 id -> Forall cluster_node_typed ns -> operator_action (node_registry_activate id ns)
| act_revoke id : is_u32 id -> operator_action (node_registry_revoke id).

Lemma action_ok op w : operator_action op -> reg_ok (reg_entries (reg w)) -> (op w).1 = true ->
  reg_ok (reg_entries (reg (op w).2)) /\ nvs_get_blob (rnvs (op w).2) = Some (node_registry_build_blob (reg_entries (reg (op w).2))).
Proof.
  intros [id ns Hid Hns|id p t ns Hid Hns|id ns Hid Hns|id Hid] Hw.
  - unfold node_registry_adopt. case_match; [done|]. apply admin_update_ok; [done|done| |done].
    intros e e' [= <-]. case_match; [|done]. split; [done|]. entry_fields.
  - unfold node_registry_configure. case_match; [done|]. apply admin_update_ok; [done|done| |done].
    intros e e' [= <-]. split; [done|]. case_match; entry_fields.
  - unfold node_registry_activate. case_match; [done|]. apply admin_update_ok; [done|done| |done].
    intros e e'. case_match; [|done]. intros [= <-]. split; [done|]. entry_fields.
  - unfold node_registry_revoke. case_match; [done|]. apply admin_update_ok; [done|done| |done].
    intros e e' [= <-]. split; [done|]. unfold clear_text. entry_fields.
Qed.

(** Reading back what was written. *)
Lemma entry_round e : entry_typed e -> reg_entry_of (reg_entry_bytes e) = e.
Proof.
  intros ((? & ? & ? & ?) & (? & ? & ? & ?) & (? & ? & ? & ?) & Hp & Ht). unfold reg_entry_of, reg_entry_bytes.
  set (ms := [_; _; _; _; _; _; _; _; _; _; _; _]). set (rest := profile e ++ template_name e).
  assert (field 0 4 (pack ms ++ rest) = re_node e) as -> by (packed 0%nat; [done|cbn; lia]).
  assert (field 4 4 (pack ms ++ rest) = last_ip_addr e) as -> by (packed 1%nat; [done|cbn; lia]).
  assert (field 8 4 (pack ms ++ rest) = age_ms e) as -> by (packed 2%nat; [done|cbn; lia]).
  assert (field 12 4 (pack ms ++ rest) = last_seen_ms e) as -> by (packed 3%nat; [done|cbn; lia]).
  assert (field 16 1 (pack ms ++ rest) = health e) as -> by (packed 4%nat; [done|cbn; lia]).
  assert (field 17 1 (pack ms ++ rest) = cluster_state e) as -> by (packed 5%nat; [done|cbn; lia]).
  assert (field 18 1 (pack ms ++ rest) = registry_state e) as -> by (packed 6%nat; [done|cbn; lia]).
  assert (field 19 1 (pack ms ++ rest) = last_transport e) as -> by (packed 7%nat; [done|cbn; lia]).
  assert (field 20 1 (pack ms ++ rest) = offline_reason e) as -> by (packed 8%nat; [done|cbn; lia]).
  assert (field 21 1 (pack ms ++ rest) = recovery_capabilities e) as -> by (packed 9%nat; [done|cbn; lia]).
  assert (field 22 1 (pack ms ++ rest) = reserved0 e) as -> by (packed 10%nat; [done|cbn; lia]).
  assert (field 23 1 (pack ms ++ rest) = reserved1 e) as -> by (packed 11%nat; [done|cbn; lia]).
  assert (length (pack ms) = 24%nat) as Hl by (by rewrite length_pack).
  assert (drop 24 (pack ms ++ rest) = rest) as Hd by (by apply drop_app_length').
  assert (drop 48 (pack ms ++ rest) = template_name e) as ->.
  { replace 48%nat with (24 + 24)%nat by done. rewrite <- drop_drop, Hd. by apply drop_app_length'. }
  rewrite Hd. unfold rest. rewrite (take_app_length' (profile e)) by done. rewrite (take_ge (template_name e)) by lia. by destruct e.
Qed.
Lemma length_reg_entry_bytes e : entry_typed e -> length (reg_entry_bytes e) = 72%nat.
Proof. intros (_ & _ & _ & Hp & Ht). unfold reg_entry_bytes. by rewrite !length_app, length_pack, Hp, Ht. Qed.

Lemma load_back es : reg_ok es -> node_registry_load_blob (Some (node_registry_build_blob es)) = Some (persisted_entries es).
Proof.
  intros (Hlen & _ & Ht). unfold node_registry_build_blob, persisted_entries.
  set (kept := node_registry_reset_runtime <$> filter _ es).
  assert (length kept <= 10)%nat as Hk by (unfold kept; rewrite length_fmap, <- Hlen; apply length_filter).
  rewrite (take_ge kept) by exact Hk.
  assert (Forall entry_typed kept) as Hkt.
  { apply Forall_fmap. apply Forall_forall. intros e [_ He]%list_elem_of_filter. apply reset_typed. by eapply Forall_forall in Ht. }
  set (slots := reg_entry_bytes <$> kept).
  assert (Forall (fun s => length s = 72%nat) slots) as Hs.
  { apply Forall_fmap. eapply Forall_impl; [exact Hkt|]. apply length_reg_entry_bytes. }
  assert (length slots <= 10)%nat as Hsl by (unfold slots; by rewrite length_fmap).
  set (header := [(4%nat, NODE_REGISTRY_MAGIC); (2%nat, NODE_REGISTRY_VERSION); (2%nat, Z.of_nat (length slots))]).
  set (crc := le 4 _). set (blob := pack header ++ array_bytes 10 72 slots ++ crc).
  assert (length (array_bytes 10 72 slots) = 720%nat) as Hal by (by rewrite length_array_bytes).
  assert (length blob = 732%nat) as Hbl by (unfold blob, crc; by rewrite !length_app, length_pack, Hal, length_le).
  assert (forall k n x, header !! k = Some (n, x) -> 0 <= x < 256 ^ Z.of_nat n -> field (offset_of k header) n blob = x) as Hf
    by (intros k n x Hk' Hx; by apply field_pack).
  assert (field 0 4 blob = NODE_REGISTRY_MAGIC) as Hm by (by apply (Hf 0%nat)).
  assert (field 4 2 blob = NODE_REGISTRY_VERSION) as Hv by (by apply (Hf 1%nat)).
  assert (field 6 2 blob = Z.of_nat (length slots)) as Hc by (apply (Hf 2%nat); [done|cbn; lia]).
  assert (length (concat slots) = 72 * length slots)%nat as Hcl.
  { clear -Hs. induction Hs as [|s slots Hl _ IH]; cbn; [lia|]. rewrite length_app, Hl, IH. lia. }
  assert (take (length slots * 72) (drop 8 blob) = concat slots) as Hdata.
  { unfold blob. rewrite drop_app_length' by (by rewrite length_pack). unfold array_bytes. rewrite <- !app_assoc. apply take_app_length'. lia. }
  assert (field (8 + 72 * 10) 4 blob = node_registry_crc32 (concat slots)) as Hcrc.
  { unfold blob. rewrite app_assoc, <- (app_nil_r (_ ++ crc)), <- app_assoc.
    replace (8 + 72 * 10)%nat with (length (pack header ++ array_bytes 10 72 slots)) by (by rewrite length_app, length_pack, Hal).
    apply field_app_le. change (256 ^ Z.of_nat 4) with 4294967296. apply fnv1a32_range. }
  unfold node_registry_load_blob. rewrite Hbl. change (Z.of_nat 732 =? sizeof_node_registry_blob) with true. cbv iota.
  unfold registry_accepted. rewrite Hm, Hv, Hc, Nat2Z.id, Hdata, Hcrc, !Z.eqb_refl.
  destruct (Z.leb_spec (Z.of_nat (length slots)) NODE_REGISTRY_MAX_NODES); [|unfold NODE_REGISTRY_MAX_NODES in *; lia]. cbn [andb].
  f_equal. apply list_eq. intros i. rewrite list_lookup_fmap.
  assert (length slots = length kept) as Hlk by (unfold slots; by rewrite length_fmap).
  destruct (decide (i < length slots)%nat) as [Hi|Hi].
  - rewrite lookup_seq_lt by done. rewrite Hlk in Hi. apply lookup_lt_is_Some in Hi as [e He]. rewrite He. cbn [fmap option_fmap option_map Nat.add]. f_equal.
    replace (array_slot 8 72 i blob) with (reg_entry_bytes e); [apply entry_round; exact (Forall_lookup_1 _ _ _ _ Hkt He)|].
    symmetry. unfold blob. apply (array_slot_app 10 72 slots (pack header)); [done|]. unfold slots. by rewrite list_lookup_fmap, He.
  - rewrite lookup_seq_ge by lia. symmetry. apply lookup_ge_None_2. lia.
Qed.

(** What was left out had nothing decided. *)
Lemma view_filter id es : id <> 0 -> unique_ids (re_node <$> es) ->
  Forall (fun e => length (profile e) = 24%nat /\ length (template_name e) = 24%nat) es ->
  admin_view id (filter (fun e => node_registry_should_persist e = true) es) = admin_view id es.
Proof.
  intros Hid. induction es as [|e es IH]; intros Hu Hl; [done|]. apply Forall_cons in Hl as [[Hlp Hlt] Hl].
  assert (unique_ids (re_node <$> es)) as Hu'.
  { intros i j n Hi Hj Hn. specialize (Hu (S i) (S j) n Hi Hj Hn). lia. }
  rewrite filter_cons, view_cons. destruct (decide (node_registry_should_persist e = true)) as [Hp|Hp]; [rewrite view_cons, IH by done; done|].
  rewrite IH by done. destruct (Z.eqb_spec (re_node e) id) as [He|]; [|done].
  assert (find_entry id es = None) as Hnone.
  { apply find_idx_None. intros x Hx. apply Z.eqb_neq. intros Hxid. apply list_elem_of_lookup_1 in Hx as [j Hj].
    discriminate (Hu 0%nat (S j) id); [by cbn; rewrite He| |done].
    change ((re_node <$> es) !! j = Some id). by rewrite list_lookup_fmap, Hj, <- Hxid. }
  rewrite (view_none _ _ Hnone). unfold node_registry_should_persist in Hp. rewrite He in Hp. destruct (Z.eqb_spec id 0); [done|]. cbn [negb andb] in Hp.
  apply not_true_iff_false, orb_false_iff in Hp as [[Hs Hpr]%orb_false_iff Htm]. apply negb_false_iff in Hs, Hpr, Htm.
  unfold decision, no_decision. destruct (profile e) as [|p ps]; [done|]. destruct (template_name e) as [|t ts]; [done|].
  cbn in Hpr, Htm. apply Z.eqb_eq in Hs, Hpr, Htm. subst p t. cbn. by rewrite Hs.
Qed.
Lemma view_zeros id es n : id <> 0 -> admin_view id (es ++ replicate n reg_entry_zero) = admin_view id es.
Proof.
  intros Hid. induction es as [|e es IH]; cbn [app].
  - induction n as [|n IH]; [done|]. cbn [replicate]. rewrite view_cons, IH.
    change (re_node reg_entry_zero) with 0. destruct (Z.eqb_spec 0 id); [congruence|done].
  - by rewrite !view_cons, IH.
Qed.
End stored.

(** The operator's decisions survive a reboot.  After an action that
    reports success, the next boot gives every node the state, profile and
    template it had, whatever the other nodes are. *)
Theorem decisions_survive_reboot {N} `{NvsLaws N} (op : st (rw N) bool) (w x : rw N) (id : Z) :
  operator_action op -> reg_ok (reg_entries (reg w)) -> (op w).1 = true -> rnvs x = rnvs (op w).2 -> id <> 0 ->
  admin_view id (reg_entries (reg (node_registry_init x).2)) = admin_view id (reg_entries (reg (op w).2)).
Proof.
  intros Hop Hw Hok Hx Hid. destruct (action_ok op w Hop Hw Hok) as [Hreg Hblob].
  unfold node_registry_init. rewrite run_bind_gets, Hx, Hblob, (load_back _ Hreg), run_modify. cbn [snd reg reg_entries update].
  rewrite (view_zeros id _ _ Hid), (view_fmap id _ _ reset_same). unfold persisted_entries.
  destruct Hreg as (Hlen & Hu & Ht). rewrite take_ge.
  2:{ rewrite length_fmap. etransitivity; [apply length_filter|]. by rewrite Hlen. }
  rewrite (view_fmap id _ _ reset_same). apply view_filter; [done|done|]. eapply Forall_impl; [exact Ht|].
  by intros e (_ & _ & _ & ? & ?).
Qed.

(** ** A replacement that flash refuses *)

(** Flash that cannot be written any more. *)
Inductive worn_flash := Worn (content : option (list Z)).
#[export] Instance worn_nvs : Nvs worn_flash := {
  nvs_open_rw n := (false, n);
  nvs_set_blob _ n := (false, n);
  nvs_commit n := (false, n);
  nvs_get_blob n := let 'Worn c := n in c;
  nvs_erase_key n := (false, n);
}.

Lemma find_entry_unique id es i e :
  (forall j x, es !! j = Some x -> re_node x = id -> i = j) -> es !! i = Some e -> re_node e = id -> find_entry id es = Some i.
Proof.
  intros Hu He Hn. apply (find_idx_unique _ _ _ e); [done|by rewrite Hn, Z.eqb_refl|].
  intros j x Hx Hxn. apply Z.eqb_eq in Hxn. symmetry. by apply (Hu j x).
Qed.

(** The table once [new_id] has taken over the entry of [old_id]. *)
Section replaced.
Context (old_id new_id : Z) (es : list reg_entry) (i io : nat) (old : reg_entry) (f : reg_entry -> reg_entry).
Hypothesis (Hold : old_id <> 0) (Hnew : new_id <> 0) (Hne : old_id <> new_id) (Hu : unique_ids (re_node <$> es)).
Hypothesis (Hio : find_entry old_id es = Some io).
Hypothesis (Hi : match find_entry new_id es with Some i => Some i | None => node_registry_allocate es end = Some i).
Hypothesis (Hf : forall e, re_node (f e) = new_id).
Definition replaced : list reg_entry := alter (fun e => e <| re_node := 0 |>) io (alter f i es).

Lemma replaced_distinct : i <> io.
Proof.
  destruct (find_entry_is _ _ _ Hio) as (x & Hx & Hxn & _). intros <-. destruct (find_entry new_id es) as [k|] eqn:Hk.
  - injection Hi as ->. destruct (find_entry_is _ _ _ Hk) as (y & Hy & Hyn & _). congruence.
  - destruct (find_entry_is _ _ _ Hi) as (y & Hy & Hyn & _). congruence.
Qed.
Lemma replaced_old : find_entry old_id replaced = None.
Proof.
  apply find_idx_None. intros x (j & Hj)%list_elem_of_lookup. apply Z.eqb_neq. intros Hxn. unfold replaced in Hj.
  destruct (find_entry_is _ _ _ Hio) as (y & Hy & Hyn & _).
  destruct (decide (io = j)) as [<-|Hjo].
  - rewrite list_lookup_alter_eq in Hj. apply fmap_Some in Hj as (z & _ & ->). by cbn in Hxn.
  - rewrite list_lookup_alter_ne in Hj by done. destruct (decide (i = j)) as [<-|Hji].
    + rewrite list_lookup_alter_eq in Hj. apply fmap_Some in Hj as (z & _ & ->). rewrite Hf in Hxn. congruence.
    + rewrite list_lookup_alter_ne in Hj by done. apply Hjo. apply (Hu io j old_id); [by rewrite list_lookup_fmap, Hy, <- Hyn| |done].
      by rewrite list_lookup_fmap, Hj, <- Hxn.
Qed.
Lemma replaced_new : find_entry new_id replaced = Some i /\ exists e, replaced !! i = Some (f e).
Proof.
  pose proof replaced_distinct as Hd. assert (exists e, es !! i = Some e) as [e He].
  { destruct (find_entry new_id es) eqn:Hk; [injection Hi as ->; destruct (find_entry_is _ _ _ Hk) as (y & Hy & _); by exists y|].
    destruct (find_entry_is _ _ _ Hi) as (y & Hy & _). by exists y. }
  assert (replaced !! i = Some (f e)) as Hr by (unfold replaced; by rewrite list_lookup_alter_ne, list_lookup_alter_eq, He by done).
  split; [|by exists e]. apply (find_entry_unique _ _ _ (f e)); [|done|apply Hf].
  intros j x Hx Hxn. unfold replaced in Hx. destruct (decide (i = j)) as [|Hji]; [done|].
  destruct (decide (io = j)) as [<-|Hjo].
  - rewrite list_lookup_alter_eq in Hx. apply fmap_Some in Hx as (z & _ & ->). by cbn in Hxn.
  - rewrite !list_lookup_alter_ne in Hx by done. destruct (find_entry new_id es) as [k|] eqn:Hk.
    + injection Hi as ->. destruct (find_entry_is _ _ _ Hk) as (y & Hy & Hyn & _).
      apply (Hu i j new_id); [by rewrite list_lookup_fmap, Hy, <- Hyn| |done]. by rewrite list_lookup_fmap, Hx, <- Hxn.
    + unfold find_entry in Hk. rewrite find_idx_None in Hk. specialize (Hk x). rewrite Hxn, Z.eqb_refl in Hk.
      by discriminate Hk; eapply list_elem_of_lookup_2.
Qed.
End replaced.

(** The entry as the new node takes it over. *)
Definition taken (new_id : Z) (old e : reg_entry) : reg_entry :=
  e <| re_node := new_id |> <| registry_state := registry_state old |> <| profile := node_registry_copy_text (profile old) |>
    <| template_name := node_registry_copy_text (template_name old) |>.
Lemma failed_replace_run {N} `{Nvs N} old_id new_id (w : rw N) es i io old :
  old_id <> 0 -> new_id <> 0 -> old_id <> new_id -> unique_ids (re_node <$> es) -> reg_entries (reg w) = es ->
  find_entry old_id es = Some io -> es !! io = Some old ->
  match find_entry new_id es with Some i => Some i | None => node_registry_allocate es end = Some i ->
  (node_registry_replace old_id new_id w).1 = false ->
  reg_entries (reg (node_registry_replace old_id new_id w).2) = replaced es i io (taken new_id old).
Proof.
  intros Hold Hnew Hne Hu Hes Hio Ho Hi. apply Z.eqb_neq in Hold as Hold', Hnew as Hnew', Hne as Hne'.
  unfold node_registry_replace. rewrite Hold', Hnew', Hne'. cbn [orb]. rewrite run_bind_gets, Hes, Hio. cbn [mbind option_bind].
  rewrite Ho. cbn [mbind option_bind]. rewrite Hi. unfold on_entries. rewrite run_bind_modify, run_bind_gets. cbn [reg reg_entries update].
  rewrite Hes. change (alter _ io (alter _ i es)) with (replaced es i io (taken new_id old)).
  set (w1 := w <| reg := (reg w) <| reg_entries := replaced es i io (taken new_id old) |> |>).
  pose proof (replaced_old old_id new_id es i io (taken new_id old) Hold Hne Hu Hio (fun _ => eq_refl)) as Hno.
  pose proof (save_reg (node_registry_build_blob (replaced es i io (taken new_id old))) w1) as Hreg. rewrite run_bind_surj.
  destruct (node_registry_save_blob _ w1) as [[] w2]; cbn [fst snd] in *; [done|]. intros _.
  unfold node_registry_restore_entry. rewrite Hold'. unfold on_entries. rewrite run_bind_modify, run_ret. cbn [snd reg reg_entries update].
  rewrite Hreg. change (reg_entries (reg w1)) with (replaced es i io (taken new_id old)). by rewrite Hno.
Qed.

(** A replacement that could not be stored is reported as failed and still
    takes effect.  The function means to put the old entry back, but looks for
    it under the number it has just erased: the old node is no longer known,
    and the new one has its state, operational if it was, until the next boot. *)
Theorem failed_replace_takes_effect {N} `{Nvs N} (old_id new_id : Z) (w : rw N) (i : nat) :
  let es := reg_entries (reg w) in let r := node_registry_replace old_id new_id w in
  old_id <> 0 -> new_id <> 0 -> old_id <> new_id -> unique_ids (re_node <$> es) ->
  node_registry_is_known old_id w = true ->
  match find_entry new_id es with Some i => Some i | None => node_registry_allocate es end = Some i -> r.1 = false ->
  node_registry_is_known old_id r.2 = false /\ node_registry_is_known new_id r.2 = true /\
  node_registry_get_state new_id (reg_entries (reg r.2)) = node_registry_get_state old_id es /\
  node_registry_is_operational new_id r.2 = node_registry_is_operational old_id w.
Proof.
  cbv zeta. intros Hold Hnew Hne Hu Hk Hi Hfail. cbn in Hk |- *. unfold node_registry_known in Hk.
  destruct (Z.eqb_spec old_id 0); [done|]. apply bool_decide_eq_true in Hk as [io Hio].
  destruct (find_entry_is _ _ _ Hio) as (old & Ho & _).
  pose proof (failed_replace_run _ _ w _ _ _ _ Hold Hnew Hne Hu eq_refl Hio Ho Hi Hfail) as ->.
  pose proof (replaced_old old_id new_id _ i io (taken new_id old) Hold Hne Hu Hio (fun _ => eq_refl)) as Hno.
  destruct (replaced_new old_id new_id _ i io (taken new_id old) Hold Hnew Hne Hu Hio Hi (fun _ => eq_refl)) as (Hyes & e & He).
  unfold node_registry_operational, node_registry_known, node_registry_get_state.
  apply Z.eqb_neq in Hold as ->, Hnew as ->. rewrite Hno, Hyes, Hio. cbn [mbind option_bind]. by rewrite He, Ho.
Qed.

(** ** Concrete runs *)

Definition reg_boot {N} (n : N) : rw N := Rw (Registry (replicate 10 reg_entry_zero) false 0) n.
Definition reg_node (id : Z) : cluster_node := ClusterNode id 50 CLUSTER_NODE_ONLINE.
(** Node 7 active, node 9 seen only. *)
Definition reg_entry_7 : reg_entry := reg_entry_zero <| re_node := 7 |> <| registry_state := NODE_REGISTRY_STATE_ACTIVE |>
  <| profile := node_registry_copy_text (bytes_of "relay-node") |>.
Definition reg_running {N} (n : N) : rw N :=
  Rw (Registry (reg_entry_7 :: (reg_entry_zero <| re_node := 9 |>) :: replicate 8 reg_entry_zero) true 0) n.

Lemma unique_by_ids l : bool_decide (Forall (fun i => Forall (fun j => (l !!! i = 0) \/ (l !!! i <> l !!! j) \/ i = j)
  (seq 0 (length l))) (seq 0 (length l))) = true -> unique_ids l.
Proof.
  intros Hd%bool_decide_eq_true i j n Hi Hj Hn. pose proof (lookup_lt_Some _ _ _ Hi). pose proof (lookup_lt_Some _ _ _ Hj).
  rewrite Forall_forall in Hd. specialize (Hd i). rewrite elem_of_seq, Forall_forall in Hd. specialize (Hd ltac:(lia) j).
  rewrite elem_of_seq in Hd. apply list_lookup_total_correct in Hi, Hj. rewrite Hi, Hj in Hd. destruct (Hd ltac:(lia)) as [|[|]]; done.
Qed.


Lemma reg_boot_flash {N} (n : N) : rnvs (reg_boot n) = n.
Proof. done. Qed.
Definition reg_factory : rw flash := reg_boot None.
Definition adopt_7 : st (rw flash) bool := node_registry_adopt 7 [reg_node 7].
Definition reg_rebooted : rw flash := reg_boot (rnvs (adopt_7 reg_factory).2).
Lemma decisions_survive_reboot_witness :
  (operator_action adopt_7 /\ reg_ok (reg_entries (reg reg_factory)) /\ (adopt_7 reg_factory).1 = true) /\
  admin_view 7 (reg_entries (reg (node_registry_init reg_rebooted).2)) = (NODE_REGISTRY_STATE_ADOPTED, [], []).
Proof.
  assert (operator_action adopt_7 /\ reg_ok (reg_entries (reg reg_factory)) /\ (adopt_7 reg_factory).1 = true) as Hhyp.
  { split; [apply act_adopt; [done|by repeat constructor]|]. split; [|by vm_compute]. split; [done|]. split.
    - by apply unique_by_ids; vm_compute.
    - apply Forall_replicate. unfold entry_typed. cbn. split_and!; done || lia. }
  split; [exact Hhyp|].
  rewrite (decisions_survive_reboot adopt_7 reg_factory reg_rebooted 7 (proj1 Hhyp) (proj1 (proj2 Hhyp)) (proj2 (proj2 Hhyp))
    (reg_boot_flash (rnvs (adopt_7 reg_factory).2)) ltac:(done)).
  by vm_compute.
Defined.

Lemma failed_replace_takes_effect_witness :
  let w := reg_running (Worn None) in let r := node_registry_replace 7 9 w in
  (unique_ids (re_node <$> reg_entries (reg w)) /\ r.1 = false) /\
  node_registry_is_operational 7 w = true /\ node_registry_is_operational 9 w = false /\
  node_registry_is_known 7 r.2 = false /\ node_registry_is_operational 9 r.2 = true.
Proof.
  cbv zeta.
  assert (unique_ids (re_node <$> reg_entries (reg (reg_running (Worn None)))) /\
    (node_registry_replace 7 9 (reg_running (Worn None))).1 = false) as [Hu Hr].
  { split; [by apply unique_by_ids; vm_compute|by vm_compute]. }
  destruct (failed_replace_takes_effect 7 9 (reg_running (Worn None)) 1%nat) as (Hk & _ & _ & Ho);
    [done|done|done|exact Hu|by vm_compute|by vm_compute|exact Hr|].
  split; [exact (conj Hu Hr)|]. split; [by vm_compute|]. split; [by vm_compute|]. split; [exact Hk|]. rewrite Ho. by vm_compute.
Defined.
