(* ===== verification/Rs485Master.v ===== *)
(** * The RS485 master ([components/runtime/rs485_master/rs485_master.c])

    One poll at a time, to the nodes 1 to 64 in turn: send, wait for the
    acknowledgement, send again up to twice, give the node up.  The theorems
    compare it with the state machine it is meant to be. *)

From S2P Require Import Prelude Parser Rs485Wire Rs485Engine.

(** ** Data *)

Definition RESPONSE_TIMEOUT_US : Z := 6000.
Definition RETRY_BACKOFF_US : Z := 2000.
Definition IDLE_POLL_INTERVAL_US : Z := 4000.
Definition SELF_TEST_POLL_US : Z := 1000.
Definition RS485_MAX_NODES : Z := 64.
Definition RS485_MAX_RETRY : Z := 3.

Record node_status := NodeStatus { ns_id : Z; ns_online : Z; ns_retry_count : Z; ns_last_seen_ms : Z }.
#[export] Instance node_status_rebuild : Rebuild node_status := fun n =>
  NodeStatus (ns_id n) (ns_online n) (ns_retry_count n) (ns_last_seen_ms n).
Definition node_status_zero : node_status := NodeStatus 0 0 0 0.

Inductive master_event_type :=
| RS485_MASTER_EVENT_NONE | RS485_MASTER_EVENT_TX | RS485_MASTER_EVENT_ACK | RS485_MASTER_EVENT_RETRY
| RS485_MASTER_EVENT_TIMEOUT | RS485_MASTER_EVENT_CRC_ERROR | RS485_MASTER_EVENT_RX_IGNORED.
#[export] Instance master_event_type_eq_dec : EqDecision master_event_type.
Proof. solve_decision. Defined.
Record master_event := MasterEvent { me_type : master_event_type; me_node : Z; me_msg : Z; me_latency_us : Z }.
Definition master_event_zero : master_event := MasterEvent RS485_MASTER_EVENT_NONE 0 0 0.

(** [rs485_master_metrics_t] *)
Record master_metrics := MasterMetrics {
  mm_enabled : bool; mm_waiting_response : bool; mm_retry_pending : bool; mm_self_test_enabled : bool;
  mm_awaiting_node : Z; mm_online_nodes : Z;
  mm_tx_count : Z; mm_ack_count : Z; mm_retry_count : Z; mm_timeout_count : Z;
  mm_crc_error_count : Z; mm_rx_ignored_count : Z;
  mm_last_tx_ms : Z; mm_last_ack_ms : Z; mm_last_timeout_ms : Z;
}.
#[export] Instance master_metrics_rebuild : Rebuild master_metrics := fun m =>
  MasterMetrics (mm_enabled m) (mm_waiting_response m) (mm_retry_pending m) (mm_self_test_enabled m)
    (mm_awaiting_node m) (mm_online_nodes m) (mm_tx_count m) (mm_ack_count m) (mm_retry_count m)
    (mm_timeout_count m) (mm_crc_error_count m) (mm_rx_ignored_count m) (mm_last_tx_ms m) (mm_last_ack_ms m)
    (mm_last_timeout_ms m).
Definition master_metrics_zero : master_metrics := MasterMetrics false false false false 0 0 0 0 0 0 0 0 0 0 0.

(** A duration statistic: how often, sum and maximum, in microseconds. *)
Record usage := Usage { us_events : Z; us_sum : Z; us_max : Z }.
#[export] Instance usage_rebuild : Rebuild usage := fun u => Usage (us_events u) (us_sum u) (us_max u).
Definition usage_zero : usage := Usage 0 0 0.

(** [rs485_master_profile_acc_t]; receptions are counted by the samples. *)
Record master_profile := MasterProfile {
  p_samples : Z; p_rx : usage; p_frame : usage; p_timeout : usage; p_tx : usage; p_total : usage;
  p_ack_events : Z; p_ignored_events : Z; p_retry_events : Z; p_crc_events : Z;
}.
#[export] Instance master_profile_rebuild : Rebuild master_profile := fun p =>
  MasterProfile (p_samples p) (p_rx p) (p_frame p) (p_timeout p) (p_tx p) (p_total p)
    (p_ack_events p) (p_ignored_events p) (p_retry_events p) (p_crc_events p).
Definition master_profile_zero : master_profile :=
  MasterProfile 0 usage_zero usage_zero usage_zero usage_zero usage_zero 0 0 0 0.

(** The variables that say whose turn it is. *)
Record turn := Turn {
  current_node : Z; awaiting_node : Z; waiting_response : bool; retry_pending : bool;
  current_msg_id : Z; msg_id_counter : Z; request_start_us : Z; next_poll_due_us : Z;
}.
#[export] Instance turn_rebuild : Rebuild turn := fun s =>
  Turn (current_node s) (awaiting_node s) (waiting_response s) (retry_pending s) (current_msg_id s)
    (msg_id_counter s) (request_start_us s) (next_poll_due_us s).
Definition turn_zero : turn := Turn 0 0 false false 0 1 0 0.

Record master {P : Type} := Master {
  status : list node_status; turn_of : turn; mmetrics : master_metrics; mprofile : master_profile; eng : engine P;
}.
Arguments master : clear implicits.
Arguments Master {P}.
#[export] Instance master_rebuild {P} : Rebuild (master P) := fun m =>
  Master (status m) (turn_of m) (mmetrics m) (mprofile m) (eng m).
Definition master_zero {P} (e : engine P) : master P :=
  Master (replicate 64 node_status_zero) turn_zero master_metrics_zero master_profile_zero e.

(** ** Helpers *)

Definition profile_delta_us (start finish : Z) : Z := u32 (if start <=? finish then finish - start else 0).
Definition profile_accumulate (dt : Z) (u : usage) : usage :=
  u <| us_sum := u32 (us_sum u + dt) |> <| us_max := if us_max u <? dt then dt else us_max u |>.
(** With the count of events next to it. *)
Definition profile_event (dt : Z) (u : usage) : usage :=
  profile_accumulate dt (u <| us_events := u32 (us_events u + 1) |>).

(** [next_msg_id]: the identifier, and the counter after it, which skips 0. *)
Definition next_msg_id (counter : Z) : Z * Z :=
  (counter, if u16 (counter + 1) =? 0 then 1 else u16 (counter + 1)).

Section master.
Context {P : Type} `{SerialPort P}.
Implicit Types m : master P.
Abbreviation M := (st (master P)).

Definition on_engine {A} (op : st (engine P) A) : M A := on_part eng (fun e m => m <| eng := e |>) op.
Definition on_turn (f : turn -> turn) : M () := modify (fun m => m <| turn_of := f (turn_of m) |>).
Definition on_mmetrics (f : master_metrics -> master_metrics) : M () := modify (fun m => m <| mmetrics := f (mmetrics m) |>).
Definition on_profile (f : master_profile -> master_profile) : M () := modify (fun m => m <| mprofile := f (mprofile m) |>).
Definition on_status (i : Z) (f : node_status -> node_status) : M () :=
  modify (fun m => m <| status := alter f (Z.to_nat i) (status m) |>).

Definition rs485_master_now_us : M Z := t ← on_engine esp_timer_get_time; mret (u64 t).
Definition rs485_master_idle_interval_us m : Z :=
  if rs485_engine_self_test_enabled (eng m) then SELF_TEST_POLL_US else IDLE_POLL_INTERVAL_US.
Definition rs485_master_schedule_next_poll (now_us delay_us : Z) : M () :=
  on_turn (fun s => s <| next_poll_due_us := u64 (now_us + delay_us) |>).
Definition rs485_master_profile_finish (total_start : Z) : M () :=
  t ← rs485_master_now_us;
  on_profile (fun p => p <| p_samples := u32 (p_samples p + 1) |>
                         <| p_total := profile_accumulate (profile_delta_us total_start t) (p_total p) |>).

Definition rs485_master_init : M () :=
  modify (fun m => master_zero (eng m));;
  on_engine rs485_engine_init;;
  on_engine rs485_engine_enable;;
  modify (fun m => m <| mmetrics := (mmetrics m) <| mm_enabled := true |>
                         <| mm_self_test_enabled := rs485_engine_self_test_enabled (eng m) |> |>);;
  modify (fun m => m <| status := imap (fun i n => n <| ns_id := Z.of_nat i + 1 |>) (status m) |>);;
  now ← rs485_master_now_us;
  idle ← gets rs485_master_idle_interval_us;
  rs485_master_schedule_next_poll now idle.

(** [None] when the acknowledgement is not the one awaited, else the latency. *)
Definition rs485_master_on_ack (node_id msg : Z) : M (option Z) :=
  s ← gets turn_of;
  let idx := u8 (node_id - 1) in
  if negb (waiting_response s) then mret None
  else if negb (node_id =? awaiting_node s) then mret None
  else if negb (msg =? current_msg_id s) then mret None
  else if RS485_MAX_NODES <=? idx then mret None
  else
    now ← rs485_master_now_us;
    let latency := u32 (if request_start_us s <=? now then now - request_start_us s else 0) in
    on_turn (fun s => s <| waiting_response := false |> <| retry_pending := false |> <| awaiting_node := 0 |>
                        <| request_start_us := 0 |>);;
    on_engine (rs485_engine_on_ack node_id);;
    on_status idx (fun n => n <| ns_online := 1 |> <| ns_retry_count := 0 |> <| ns_last_seen_ms := u32 (now / 1000) |>);;
    on_mmetrics (fun k => k <| mm_ack_count := u32 (mm_ack_count k + 1) |> <| mm_last_ack_ms := u32 (now / 1000) |>);;
    idle ← gets rs485_master_idle_interval_us;
    rs485_master_schedule_next_poll now idle;;
    mret (Some latency).

Definition status_of (node_id : Z) m : option node_status :=
  if RS485_MAX_NODES <=? u8 (node_id - 1) then None else zget (status m) (u8 (node_id - 1)).
Definition rs485_master_node_online (node_id : Z) m : Z := from_option ns_online 0 (status_of node_id m).
Definition rs485_master_node_last_seen (node_id : Z) m : Z := from_option ns_last_seen_ms 0 (status_of node_id m).
Definition rs485_master_online_count m : Z :=
  Z.of_nat (length (filter (fun n => ns_online n <> 0) (status m))).

Definition rs485_master_get_metrics : M master_metrics :=
  modify (fun m => m <| mmetrics := (mmetrics m) <| mm_enabled := true |>
    <| mm_waiting_response := waiting_response (turn_of m) |> <| mm_retry_pending := retry_pending (turn_of m) |>
    <| mm_awaiting_node := awaiting_node (turn_of m) |> <| mm_online_nodes := rs485_master_online_count m |>
    <| mm_self_test_enabled := rs485_engine_self_test_enabled (eng m) |> |>);;
  gets mmetrics.

(** [rs485_master_profile_metrics_t]: averages in place of the sums. *)
Definition averaged (events : Z) (u : usage) : usage :=
  u <| us_sum := if events =? 0 then 0 else us_sum u / events |>.
Definition rs485_master_profile_snapshot (reset : bool) : M master_profile :=
  p ← gets mprofile;
  (if reset then on_profile (fun _ => master_profile_zero) else mret tt);;
  mret (p <| p_rx := averaged (p_samples p) (p_rx p) |> <| p_total := averaged (p_samples p) (p_total p) |>
          <| p_frame := averaged (us_events (p_frame p)) (p_frame p) |>
          <| p_timeout := averaged (us_events (p_timeout p)) (p_timeout p) |>
          <| p_tx := averaged (us_events (p_tx p)) (p_tx p) |>).

Definition rs485_master_has_work : M bool :=
  now ← rs485_master_now_us;
  s ← gets turn_of;
  mret (if waiting_response s then true else if retry_pending s then true else next_poll_due_us s <=? now).

(** ** [rs485_master_process_one] *)

Definition ignored (f : rs485_frame) : M master_event :=
  on_mmetrics (fun k => k <| mm_rx_ignored_count := u32 (mm_rx_ignored_count k + 1) |>);;
  on_profile (fun p => p <| p_ignored_events := u32 (p_ignored_events p + 1) |>);;
  mret (MasterEvent RS485_MASTER_EVENT_RX_IGNORED (node f) (msg_id f) 0).

(** A frame was received. *)
Definition process_frame (f : rs485_frame) (total_start : Z) : M (bool * master_event) :=
  t0 ← rs485_master_now_us;
  ev ← (if (ftype f =? RS485_FRAME_TYPE_ACK) && (flen f =? 0) then
          ack ← rs485_master_on_ack (node f) (msg_id f);
          match ack with
          | Some latency =>
            on_profile (fun p => p <| p_ack_events := u32 (p_ack_events p + 1) |>);;
            mret (MasterEvent RS485_MASTER_EVENT_ACK (node f) (msg_id f) latency)
          | None => ignored f
          end
        else ignored f);
  t1 ← rs485_master_now_us;
  on_profile (fun p => p <| p_frame := profile_event (profile_delta_us t0 t1) (p_frame p) |>);;
  rs485_master_profile_finish total_start;;
  mret (true, ev).

(** How the branches that deal with a silent node end. *)
Definition timeout_done (t0 total_start : Z) (r : bool * master_event) : M (bool * master_event) :=
  t1 ← rs485_master_now_us;
  on_profile (fun p => p <| p_timeout := profile_event (profile_delta_us t0 t1) (p_timeout p) |>);;
  rs485_master_profile_finish total_start;;
  mret r.

(** The node did not answer in time. *)
Definition process_timeout (now total_start : Z) : M (bool * master_event) :=
  s ← gets turn_of;
  if u64 (now - request_start_us s) <=? RESPONSE_TIMEOUT_US then
    rs485_master_profile_finish total_start;; mret (false, master_event_zero)
  else
    t0 ← rs485_master_now_us;
    let a := awaiting_node s in
    if (a =? 0) || (RS485_MAX_NODES <? a) then
      on_turn (fun s => s <| waiting_response := false |> <| retry_pending := false |> <| current_msg_id := 0 |>
                          <| request_start_us := 0 |>);;
      idle ← gets rs485_master_idle_interval_us;
      rs485_master_schedule_next_poll now idle;;
      timeout_done t0 total_start (false, master_event_zero)
    else
      on_status (a - 1) (fun n => n <| ns_retry_count := u8 (ns_retry_count n + 1) |>);;
      on_turn (fun s => s <| waiting_response := false |> <| request_start_us := 0 |>);;
      l ← gets status;
      if from_option ns_retry_count 0 (zget l (a - 1)) <? RS485_MAX_RETRY then
        on_turn (fun s => s <| retry_pending := true |>);;
        on_mmetrics (fun k => k <| mm_retry_count := u32 (mm_retry_count k + 1) |> <| mm_last_timeout_ms := u32 (now / 1000) |>);;
        on_profile (fun p => p <| p_retry_events := u32 (p_retry_events p + 1) |>);;
        rs485_master_schedule_next_poll now RETRY_BACKOFF_US;;
        timeout_done t0 total_start (true, MasterEvent RS485_MASTER_EVENT_RETRY a (current_msg_id s) 0)
      else
        on_status (a - 1) (fun n => n <| ns_online := 0 |> <| ns_retry_count := 0 |>);;
        on_mmetrics (fun k => k <| mm_timeout_count := u32 (mm_timeout_count k + 1) |> <| mm_last_timeout_ms := u32 (now / 1000) |>);;
        on_profile (fun p => p <| p_retry_events := u32 (p_retry_events p + 1) |>);;
        on_turn (fun s => s <| awaiting_node := 0 |> <| retry_pending := false |> <| current_msg_id := 0 |>);;
        idle ← gets rs485_master_idle_interval_us;
        rs485_master_schedule_next_poll now idle;;
        timeout_done t0 total_start (true, MasterEvent RS485_MASTER_EVENT_TIMEOUT a (current_msg_id s) 0).

(** Whom to poll next: the node that has to be asked again, or the next one. *)
Definition pick_poll (self_test : bool) (s : turn) : Z * Z * turn :=
  if retry_pending s then (awaiting_node s, current_msg_id s, s <| retry_pending := false |>)
  else
    let node_id := if self_test then RS485_ENGINE_SELF_TEST_NODE_ID else u8 (current_node s + 1) in
    let '(msg, counter) := next_msg_id (msg_id_counter s) in
    (node_id, msg,
     s <| msg_id_counter := counter |> <| current_msg_id := msg |>
       <| current_node := if self_test then current_node s
                          else if RS485_MAX_NODES <=? u8 (current_node s + 1) then 0 else u8 (current_node s + 1) |>).

Definition process_send (now total_start : Z) : M (bool * master_event) :=
  t0 ← rs485_master_now_us;
  self_test ← gets (fun m => rs485_engine_self_test_enabled (eng m));
  s ← gets turn_of;
  let '(node_id, msg, s) := pick_poll self_test s in
  on_turn (fun _ => s <| waiting_response := true |> <| awaiting_node := node_id |> <| request_start_us := now |>);;
  on_engine (rs485_engine_send (Frame node_id msg RS485_FRAME_TYPE_POLL 0 (replicate 64 0)));;
  on_mmetrics (fun k => k <| mm_tx_count := u32 (mm_tx_count k + 1) |> <| mm_last_tx_ms := u32 (now / 1000) |>);;
  rs485_master_schedule_next_poll now RESPONSE_TIMEOUT_US;;
  t1 ← rs485_master_now_us;
  on_profile (fun p => p <| p_tx := profile_event (profile_delta_us t0 t1) (p_tx p) |>);;
  rs485_master_profile_finish total_start;;
  mret (true, MasterEvent RS485_MASTER_EVENT_TX node_id msg 0).

Definition rs485_master_process_one : M (bool * master_event) :=
  total_start ← rs485_master_now_us;
  t0 ← rs485_master_now_us;
  rx ← on_engine (rs485_engine_receive frame_zero);
  t1 ← rs485_master_now_us;
  on_profile (fun p => p <| p_rx := profile_accumulate (profile_delta_us t0 t1) (p_rx p) |>);;
  match (rx : rx_result * rs485_frame).1 with
  | RS485_ENGINE_RX_CRC_ERROR =>
    on_mmetrics (fun k => k <| mm_crc_error_count := u32 (mm_crc_error_count k + 1) |>);;
    on_profile (fun p => p <| p_crc_events := u32 (p_crc_events p + 1) |>);;
    rs485_master_profile_finish total_start;;
    mret (true, MasterEvent RS485_MASTER_EVENT_CRC_ERROR 0 0 0)
  | RS485_ENGINE_RX_FRAME => process_frame rx.2 total_start
  | _ =>
    now ← rs485_master_now_us;
    s ← gets turn_of;
    if waiting_response s then process_timeout now total_start
    else if now <? next_poll_due_us s then
      rs485_master_profile_finish total_start;; mret (false, master_event_zero)
    else process_send now total_start
  end.
End master.

(** ** What polling is meant to be

    The abstract machine: node [q mod 64 + 1] is asked with identifier
    [q mod 65535 + 1]; it is asked three times at most. *)
Inductive phase := Idle | Waiting (k : Z) | Backoff (k : Z).
Definition slot_node (q : Z) : Z := q mod 64 + 1.
Definition slot_msg (q : Z) : Z := q mod 65535 + 1.
(** On a bus where nobody answers, the next event and what comes then. *)
Definition next_event (s : Z * phase) : master_event * (Z * phase) :=
  let '(q, ph) := s in
  let ev t := MasterEvent t (slot_node q) (slot_msg q) 0 in
  match ph with
  | Idle => (ev RS485_MASTER_EVENT_TX, (q, Waiting 0))
  | Backoff k => (ev RS485_MASTER_EVENT_TX, (q, Waiting k))
  | Waiting k =>
    if k <? 2 then (ev RS485_MASTER_EVENT_RETRY, (q, Backoff (k + 1)))
    else (ev RS485_MASTER_EVENT_TIMEOUT, (q + 1, Idle))
  end.
Fixpoint round_robin (n : nat) (s : Z * phase) : list master_event :=
  match n with
  | O => []
  | S n => (next_event s).1 :: round_robin n (next_event s).2
  end.

Example first_two_nodes : me_type <$> round_robin 7 (0, Idle) =
  [RS485_MASTER_EVENT_TX; RS485_MASTER_EVENT_RETRY; RS485_MASTER_EVENT_TX; RS485_MASTER_EVENT_RETRY;
   RS485_MASTER_EVENT_TX; RS485_MASTER_EVENT_TIMEOUT; RS485_MASTER_EVENT_TX] /\
  me_node <$> round_robin 7 (0, Idle) = [1; 1; 1; 1; 1; 1; 2].
Proof. split; reflexivity. Qed.

(** What the fieldbus does once per millisecond: one operation, when there is
    work; the result is the event to be handled. *)
Section slots.
Context {P : Type} `{SerialPort P}.
Definition master_slot : st (master P) (option master_event) :=
  work ← rs485_master_has_work;
  if work : bool then
    r ← rs485_master_process_one;
    mret (if (r : bool * master_event).1 then Some r.2 else None)
  else mret None.
Fixpoint master_slots (n : nat) : st (master P) (list master_event) :=
  match n with
  | O => mret []
  | S n =>
    e ← master_slot;
    es ← master_slots n;
    mret (match e with Some e => e :: es | None => es end)
  end.
Lemma master_slots_app a b m :
  (master_slots (a + b) m).1 = (master_slots a m).1 ++ (master_slots b (master_slots a m).2).1.
Proof.
  revert m. induction a as [|a IH]; intros m; [done|]. cbn [master_slots Nat.add]. rewrite !run_bind_surj.
  rewrite run_ret. cbn [fst]. rewrite IH. rewrite run_ret. cbn [fst snd]. by destruct (master_slot m).1.
Qed.
End slots.

(** ** A silent bus *)

Section silent.
Context {P : Type} `{SerialPort P}.
(** The port delivers nothing, however often it is read or written. *)
Context (silent : P -> Prop).
Hypothesis (Hrecv : forall n p, silent p -> (recv n p).1 = [] /\ silent (recv n p).2).
Hypothesis (Hsend : forall w p, silent p -> silent (send w p).2).
Implicit Types (m : master P) (e : engine P).

(** The engine does not come up with a frame of its own either. *)
Record quiet e : Prop := {
  q_port : silent (the_port e);
  q_parser : parser_frame_available (the_parser e) = false;
  q_self : self_test_enabled e = false;
}.
(** The clock: [r] its readings, [k] of them taken. *)
Definition at_time (r : nat -> Z) (k : nat) e : Prop := the_clock e = Clock r k.

Lemma quiet_receive e f r k : quiet e -> at_time r k e ->
  exists e', rs485_engine_receive f e = ((RS485_ENGINE_RX_NONE, f), e') /\ quiet e' /\ at_time r k e'.
Proof.
  intros [Hp Ha Hs] Ht. destruct (Hrecv RS485_ENGINE_RX_BYTES_PER_CALL _ Hp) as [Hnil Hp'].
  destruct (recv _ _) as [bs p'] eqn:E. cbn [fst snd] in *. subst bs. rewrite (receive_nothing e f p' Hs Ha E). by eexists.
Qed.

Lemma quiet_send e f r k : quiet e -> at_time r k e -> exists j,
  quiet (rs485_engine_send f e).2 /\ at_time r j (rs485_engine_send f e).2 /\ (k <= j)%nat.
Proof.
  intros [Hp Ha Hs] Ht. unfold rs485_engine_send. rewrite run_bind_gets. destruct (engine_enabled e); cbn [negb].
  2:{ exists k. split; [by split|]. by split. }
  unfold now_ms, esp_timer_get_time, on_part. rewrite run_bind_assoc, run_bind_surj. unfold at_time in Ht. rewrite Ht. cbn [clock_read fst snd readings taken].
  rewrite run_bind_ret, run_bind_gets. cbn [self_test_enabled update]. rewrite Hs. cbn [andb].
  destruct (encode_wire_frame f RS485_FRAME_WIRE_MAX) as [wire|].
  2:{ exists (S k). split; [by split|]. split; [done|lia]. }
  rewrite run_bind_surj. unfold with_port, on_part, upd_metrics. cbn [the_port update]. pose proof (Hsend wire _ Hp) as Hp'. destruct (send wire (the_port e)) as [[] p'].
  cbn [snd fst] in *. exists (S k). split; [by split|]. split; [done|lia].
Qed.

(** *** Running the master on a silent bus *)

Context (r : nat -> Z) (Hmono : forall i j, (i <= j)%nat -> r i <= r j) (Hr : forall k, 0 <= r k < 9223372036854775808).
Lemma reading k : u64 (r k) = r k.
Proof. apply u64_id. specialize (Hr k). lia. Qed.
Lemma later k d : 0 <= d < 1000000 -> u64 (r k + d) = r k + d.
Proof. intros. apply u64_id. specialize (Hr k). lia. Qed.

(** The variables that matter, [k] readings of the clock having been taken. *)
Record stage (k : nat) (s : turn) (l : list node_status) m : Prop := {
  g_turn : turn_of m = s;
  g_status : status m = l;
  g_quiet : quiet (eng m);
  g_time : at_time r k (eng m);
}.
Definition runs {A} (k : nat) (s : turn) (l : list node_status) (op : st (master P) A)
    (Q : A -> nat -> turn -> list node_status -> Prop) : Prop :=
  forall m, stage k s l m ->
  exists k' s' l', stage k' s' l' (op m).2 /\ (k <= k')%nat /\ Q (op m).1 k' s' l'.

Section rules.
Context {A : Type} (k : nat) (s : turn) (l : list node_status) (Q : A -> nat -> turn -> list node_status -> Prop).
Lemma runs_ret a : Q a k s l -> runs k s l (mret a) Q.
Proof. intros Ha m Hm. by exists k, s, l. Qed.
(** One statement that leads from one stage to another. *)
Lemma runs_step {B} (op : st (master P) B) (K : B -> st (master P) A) b k1 s1 l1 :
  (forall m, stage k s l m -> (op m).1 = b /\ stage k1 s1 l1 (op m).2) -> (k <= k1)%nat ->
  runs k1 s1 l1 (K b) Q -> runs k s l (op ≫= K) Q.
Proof.
  intros Hop Hk HK m Hm. destruct (Hop m Hm) as [Hb Hs]. rewrite run_bind_surj, Hb.
  destruct (HK _ Hs) as (k' & s' & l' & Hs' & Hk' & HQ). exists k', s', l'. split_and!; [done|lia|done].
Qed.
Lemma now_stage m : stage k s l m -> (rs485_master_now_us m).1 = r k /\ stage (S k) s l (rs485_master_now_us m).2.
Proof.
  intros [Ht Hl [Hp Ha Hs] Hc]. unfold rs485_master_now_us, on_engine, esp_timer_get_time, on_part. rewrite run_bind_surj, Hc.
  cbn [clock_read fst snd readings taken]. rewrite run_ret. cbn [fst snd]. split; [apply reading|]. by split.
Qed.
Lemma runs_now (K : Z -> st (master P) A) : runs (S k) s l (K (r k)) Q -> runs k s l (rs485_master_now_us ≫= K) Q.
Proof. apply runs_step; [|lia]. apply now_stage. Qed.
Lemma runs_turn f (K : () -> st (master P) A) : runs k (f s) l (K tt) Q -> runs k s l (on_turn f ≫= K) Q.
Proof. apply runs_step; [|lia]. intros m [<- Hl Hq Hc]. split; [done|]. by split. Qed.
Lemma runs_status i f (K : () -> st (master P) A) : runs k s (alter f (Z.to_nat i) l) (K tt) Q -> runs k s l (on_status i f ≫= K) Q.
Proof. apply runs_step; [|lia]. intros m [Ht <- Hq Hc]. split; [done|]. by split. Qed.
Lemma runs_mmetrics f (K : () -> st (master P) A) : runs k s l (K tt) Q -> runs k s l (on_mmetrics f ≫= K) Q.
Proof. apply runs_step; [|lia]. intros m [Ht Hl Hq Hc]. split; [done|]. by split. Qed.
Lemma runs_profile f (K : () -> st (master P) A) : runs k s l (K tt) Q -> runs k s l (on_profile f ≫= K) Q.
Proof. apply runs_step; [|lia]. intros m [Ht Hl Hq Hc]. split; [done|]. by split. Qed.
Lemma runs_get_turn (K : turn -> st (master P) A) : runs k s l (K s) Q -> runs k s l (gets turn_of ≫= K) Q.
Proof. apply runs_step; [|lia]. intros m [Ht Hl Hq Hc]. split; [done|]. by split. Qed.
Lemma runs_get_status (K : list node_status -> st (master P) A) : runs k s l (K l) Q -> runs k s l (gets status ≫= K) Q.
Proof. apply runs_step; [|lia]. intros m [Ht Hl Hq Hc]. split; [done|]. by split. Qed.
Lemma runs_self (K : bool -> st (master P) A) : runs k s l (K false) Q ->
  runs k s l (gets (fun m => rs485_engine_self_test_enabled (eng m)) ≫= K) Q.
Proof. apply runs_step; [|lia]. intros m [Ht Hl Hq Hc]. split; [apply Hq|]. by split. Qed.
Lemma runs_idle (K : Z -> st (master P) A) : runs k s l (K IDLE_POLL_INTERVAL_US) Q ->
  runs k s l (gets rs485_master_idle_interval_us ≫= K) Q.
Proof.
  apply runs_step; [|lia]. intros m [Ht Hl Hq Hc]. split; [|by split]. cbn. unfold rs485_master_idle_interval_us, rs485_engine_self_test_enabled.
  by rewrite (q_self _ Hq).
Qed.
Lemma runs_schedule now d (K : () -> st (master P) A) :
  runs k (s <| next_poll_due_us := u64 (now + d) |>) l (K tt) Q -> runs k s l (rs485_master_schedule_next_poll now d ≫= K) Q.
Proof. apply (runs_turn (fun s => s <| next_poll_due_us := u64 (now + d) |>)). Qed.
Lemma runs_finish t (K : () -> st (master P) A) : runs (S k) s l (K tt) Q -> runs k s l (rs485_master_profile_finish t ≫= K) Q.
Proof.
  apply runs_step; [|lia]. intros m Hm. unfold rs485_master_profile_finish. rewrite run_bind_surj. destruct (now_stage m Hm) as [-> [Ht Hl Hq Hc]].
  split; [done|]. by split.
Qed.
Lemma runs_receive f (K : rx_result * rs485_frame -> st (master P) A) :
  runs k s l (K (RS485_ENGINE_RX_NONE, f)) Q -> runs k s l (on_engine (rs485_engine_receive f) ≫= K) Q.
Proof.
  apply runs_step; [|lia]. intros m [Ht Hl Hq Hc]. unfold on_engine, on_part.
  destruct (quiet_receive (eng m) f r k Hq Hc) as (e' & -> & Hq' & Hc'). split; [done|]. by split.
Qed.
Lemma runs_send f (K : () -> st (master P) A) :
  (forall j, (k <= j)%nat -> runs j s l (K tt) Q) -> runs k s l (on_engine (rs485_engine_send f) ≫= K) Q.
Proof.
  intros HK m [Ht Hl Hq Hc]. destruct (quiet_send (eng m) f r k Hq Hc) as (j & Hq' & Hc' & Hj).
  destruct (rs485_engine_send f (eng m)) as [[] e'] eqn:He. cbn [fst snd] in *.
  rewrite (run_bind_eq _ _ _ tt (m <| eng := e' |>)) by (unfold on_engine, on_part; by rewrite He).
  destruct (HK j Hj (m <| eng := e' |>)) as (k' & s' & l' & Hs & Hk & HQ); [by split|]. exists k', s', l'. split_and!; [done|lia|done].
Qed.
Lemma runs_assoc {B C} (op : st (master P) B) (K : B -> st (master P) C) (h : C -> st (master P) A) :
  runs k s l (op ≫= (fun b => K b ≫= h)) Q -> runs k s l ((op ≫= K) ≫= h) Q.
Proof. intros Hop m Hm. rewrite run_bind_assoc. by apply Hop. Qed.
Lemma runs_bind_ret {B} (b : B) (K : B -> st (master P) A) : runs k s l (K b) Q -> runs k s l (mret b ≫= K) Q.
Proof. done. Qed.
End rules.

(** *** The master follows the abstract machine *)

(** Where the machine is at ([q], [ph]), the last event having been at time
    [last]. *)
Definition retries_of (q : Z) (ph : phase) (i : nat) : Z :=
  match ph with
  | Idle => 0
  | Waiting k | Backoff k => if bool_decide (Z.of_nat i = q mod 64) then k else 0
  end.
Record follows (q : Z) (ph : phase) (last : Z) (s : turn) (l : list node_status) : Prop := {
  f_len : length l = 64%nat;
  f_retries : forall i n, l !! i = Some n -> ns_retry_count n = retries_of q ph i;
  f_q : 0 <= q;
  f_k : match ph with Idle => True | Waiting k => 0 <= k <= 2 | Backoff k => 1 <= k <= 2 end;
  f_waiting : waiting_response s = match ph with Waiting _ => true | _ => false end;
  f_retry : retry_pending s = match ph with Backoff _ => true | _ => false end;
  f_current : current_node s = (match ph with Idle => q | _ => q + 1 end) mod 64;
  f_counter : msg_id_counter s = slot_msg (match ph with Idle => q | _ => q + 1 end);
  f_awaiting : ph = Idle \/ awaiting_node s = slot_node q /\ current_msg_id s = slot_msg q;
  f_start : match ph with Waiting _ => request_start_us s = last | _ => next_poll_due_us s <= last + RESPONSE_TIMEOUT_US end;
}.

Lemma follows_waiting q k last s l now :
  follows q (Waiting k) last s l -> 0 <= last <= now -> now < 9223372036854775808 ->
  u64 (now - request_start_us s) = now - last.
Proof. intros Hf Hl Hn. pose proof (f_start _ _ _ _ _ Hf) as ->. apply u64_id. lia. Qed.

(** The retry counter of the node that is asked. *)
Lemma awaited_index q : Z.to_nat (slot_node q - 1) = Z.to_nat (q mod 64).
Proof. unfold slot_node. f_equal. lia. Qed.
Lemma zget_awaited (l : list node_status) q : zget l (slot_node q - 1) = l !! Z.to_nat (q mod 64).
Proof.
  pose proof (Z.mod_pos_bound q 64 ltac:(lia)). unfold zget. rewrite awaited_index. unfold slot_node. by destruct (Z.leb_spec 0 (q mod 64 + 1 - 1)); [|lia].
Qed.
Lemma follows_lookup q ph last s l : follows q ph last s l -> exists n, l !! Z.to_nat (q mod 64) = Some n.
Proof. intros Hf. apply lookup_lt_is_Some. rewrite (f_len _ _ _ _ _ Hf). pose proof (Z.mod_pos_bound q 64). lia. Qed.

Lemma follows_counted q k last s l n : follows q (Waiting k) last s l -> l !! Z.to_nat (q mod 64) = Some n -> ns_retry_count n = k.
Proof.
  intros Hf Hn. rewrite (f_retries _ _ _ _ _ Hf _ _ Hn). cbn. rewrite bool_decide_eq_true_2; [done|]. pose proof (Z.mod_pos_bound q 64). lia.
Qed.

(** A change of the asked node's entry that leaves the others. *)
Lemma retries_alter q ph ph' last s l f i n :
  follows q ph last s l -> (forall j, Z.of_nat j <> q mod 64 -> retries_of q ph' j = retries_of q ph j) ->
  (forall x, l !! Z.to_nat (q mod 64) = Some x -> ns_retry_count (f x) = retries_of q ph' (Z.to_nat (q mod 64))) ->
  alter f (Z.to_nat (q mod 64)) l !! i = Some n -> ns_retry_count n = retries_of q ph' i.
Proof.
  intros Hf Ho Hx Hn. pose proof (Z.mod_pos_bound q 64 ltac:(lia)). destruct (decide (Z.to_nat (q mod 64) = i)) as [<-|Hne].
  - rewrite list_lookup_alter_eq in Hn. apply fmap_Some in Hn as (x & Hx' & ->). by apply Hx.
  - rewrite list_lookup_alter_ne in Hn by done. rewrite Ho by lia. by apply (f_retries _ _ _ _ _ Hf).
Qed.

(** What an operation that decides at time [now] leads to. *)
Definition one_result (q : Z) (ph : phase) (last now : Z) (res : bool * master_event) (k' : nat) (s' : turn) (l' : list node_status) : Prop :=
  if res.1 then res.2 = (next_event (q, ph)).1 /\ follows (next_event (q, ph)).2.1 (next_event (q, ph)).2.2 now s' l'
  else now <= last + RESPONSE_TIMEOUT_US /\ follows q ph last s' l'.

Lemma runs_timeout_done q ph last now k s l t0 ts res :
  one_result q ph last now res k s l -> runs k s l (timeout_done t0 ts res) (one_result q ph last now).
Proof.
  intros Hres. unfold timeout_done. apply runs_now, runs_profile, runs_finish, runs_ret. exact Hres.
Qed.

Lemma retry_follows q k0 last now s l :
  follows q (Waiting k0) last s l -> k0 < 2 -> 0 <= now < 9223372036854775808 ->
  follows q (Backoff (k0 + 1)) now
    (s <| waiting_response := false |> <| request_start_us := 0 |> <| retry_pending := true |> <| next_poll_due_us := u64 (now + RETRY_BACKOFF_US) |>)
    (alter (fun n => n <| ns_retry_count := u8 (ns_retry_count n + 1) |>) (Z.to_nat (q mod 64)) l).
Proof.
  intros Hf Hk Hn. pose proof (f_k _ _ _ _ _ Hf) as Hk0. cbn in Hk0.
  split; cbn [waiting_response retry_pending current_node msg_id_counter awaiting_node current_msg_id request_start_us next_poll_due_us update].
  - rewrite length_alter. apply Hf.
  - intros i n. eapply retries_alter; [exact Hf| |].
    + intros j Hj. cbn. by rewrite !bool_decide_eq_false_2.
    + intros x Hx. cbn. rewrite (follows_counted _ _ _ _ _ _ Hf Hx), bool_decide_eq_true_2, u8_id; [done|lia|]. pose proof (Z.mod_pos_bound q 64). lia.
  - apply Hf.
  - lia.
  - done.
  - done.
  - apply Hf.
  - apply Hf.
  - right. by destruct (f_awaiting _ _ _ _ _ Hf).
  - unfold RETRY_BACKOFF_US, RESPONSE_TIMEOUT_US. rewrite u64_id; lia.
Qed.

Lemma give_up_follows q last now s l :
  follows q (Waiting 2) last s l -> 0 <= now < 9223372036854775808 ->
  follows (q + 1) Idle now
    (s <| waiting_response := false |> <| request_start_us := 0 |> <| awaiting_node := 0 |> <| retry_pending := false |> <| current_msg_id := 0 |>
       <| next_poll_due_us := u64 (now + IDLE_POLL_INTERVAL_US) |>)
    (alter (fun n => n <| ns_online := 0 |> <| ns_retry_count := 0 |>) (Z.to_nat (q mod 64))
       (alter (fun n => n <| ns_retry_count := u8 (ns_retry_count n + 1) |>) (Z.to_nat (q mod 64)) l)).
Proof.
  intros Hf Hn. split; cbn [waiting_response retry_pending current_node msg_id_counter awaiting_node current_msg_id request_start_us next_poll_due_us update].
  - rewrite !length_alter. apply Hf.
  - intros i n. rewrite alter_twice. eapply (retries_alter q (Waiting 2) Idle); [exact Hf| |done].
    intros j Hj. cbn. by rewrite bool_decide_eq_false_2.
  - pose proof (f_q _ _ _ _ _ Hf). lia.
  - done.
  - done.
  - done.
  - apply Hf.
  - apply Hf.
  - by left.
  - unfold IDLE_POLL_INTERVAL_US, RESPONSE_TIMEOUT_US. rewrite u64_id; lia.
Qed.

Lemma process_timeout_runs q k0 last now k s l ts :
  follows q (Waiting k0) last s l -> 0 <= last <= now -> now < 9223372036854775808 ->
  runs k s l (process_timeout now ts) (one_result q (Waiting k0) last now).
Proof.
  intros Hf Hl Hn. unfold process_timeout. apply runs_get_turn. rewrite (follows_waiting _ _ _ _ _ _ Hf Hl Hn).
  destruct (Z.leb_spec (now - last) RESPONSE_TIMEOUT_US).
  { apply runs_finish, runs_ret. split; [lia|done]. }
  apply runs_now. destruct (f_awaiting _ _ _ _ _ Hf) as [|[Ha Hm]]; [done|]. rewrite Ha.
  pose proof (Z.mod_pos_bound q 64 ltac:(lia)) as Hq. unfold RS485_MAX_NODES.
  destruct (Z.eqb_spec (slot_node q) 0); [unfold slot_node in *; lia|]. destruct (Z.ltb_spec 64 (slot_node q)); [unfold slot_node in *; lia|]. cbn [orb].
  apply runs_status, runs_turn, runs_get_status. rewrite awaited_index.
  destruct (follows_lookup _ _ _ _ _ Hf) as [x Hx]. pose proof (f_k _ _ _ _ _ Hf) as Hk0. cbn in Hk0.
  rewrite zget_awaited, list_lookup_alter_eq, Hx.
  cbn [fmap option_fmap option_map from_option ns_retry_count update]. rewrite (follows_counted _ _ _ _ _ _ Hf Hx), u8_id by lia. unfold RS485_MAX_RETRY.
  destruct (Z.ltb_spec (k0 + 1) 3).
  - apply runs_turn, runs_mmetrics, runs_profile, runs_schedule, runs_timeout_done. unfold one_result, next_event. cbn [fst snd].
    destruct (Z.ltb_spec k0 2); [|lia]. cbn [fst snd]. split; [by rewrite Hm|]. by apply (retry_follows _ _ last); [|lia..].
  - apply runs_status. rewrite awaited_index. apply runs_mmetrics, runs_profile, runs_turn, runs_idle, runs_schedule, runs_timeout_done.
    unfold one_result, next_event. cbn [fst snd]. destruct (Z.ltb_spec k0 2); [lia|]. cbn [fst snd]. split; [by rewrite Hm|].
    assert (k0 = 2) as -> by lia. by apply (give_up_follows _ last); [|lia].
Qed.

(** The counters that wrap around. *)
Lemma next_msg_slot q : 0 <= q -> next_msg_id (slot_msg q) = (slot_msg q, slot_msg (q + 1)).
Proof.
  intros Hq. unfold next_msg_id, slot_msg. f_equal. pose proof (Z.mod_pos_bound q 65535 ltac:(lia)).
  destruct (Z.eqb_spec (u16 (q mod 65535 + 1 + 1)) 0); word_lia.
Qed.
Lemma next_current q : 0 <= q ->
  (if RS485_MAX_NODES <=? u8 (q mod 64 + 1) then 0 else u8 (q mod 64 + 1)) = (q + 1) mod 64 /\ u8 (q mod 64 + 1) = slot_node q.
Proof.
  intros Hq. pose proof (Z.mod_pos_bound q 64 ltac:(lia)). unfold slot_node, RS485_MAX_NODES. rewrite u8_id by lia. split; [|done].
  destruct (Z.leb_spec 64 (q mod 64 + 1)); Z.to_euclidean_division_equations; lia.
Qed.

(** The turn after a poll was sent. *)
Lemma sent_follows q ph k0 last now s l s1 :
  follows q ph last s l -> (ph = Idle /\ k0 = 0) \/ ph = Backoff k0 -> 0 <= now < 9223372036854775808 ->
  pick_poll false s = (slot_node q, slot_msg q, s1) ->
  current_node s1 = (q + 1) mod 64 -> msg_id_counter s1 = slot_msg (q + 1) -> current_msg_id s1 = slot_msg q -> retry_pending s1 = false ->
  follows q (Waiting k0) now
    (s1 <| waiting_response := true |> <| awaiting_node := slot_node q |> <| request_start_us := now |>
        <| next_poll_due_us := u64 (now + RESPONSE_TIMEOUT_US) |>) l.
Proof.
  intros Hf Hph Hn _ Hc Hm Hi Hr1. split; cbn [waiting_response retry_pending current_node msg_id_counter awaiting_node current_msg_id request_start_us next_poll_due_us update].
  - apply Hf.
  - intros i n Hx. rewrite (f_retries _ _ _ _ _ Hf _ _ Hx). destruct Hph as [[-> ->]| ->]; [|done]. cbn. by case_bool_decide.
  - apply Hf.
  - pose proof (f_k _ _ _ _ _ Hf). destruct Hph as [[-> ->]| ->]; lia.
  - done.
  - done.
  - done.
  - done.
  - by right.
  - done.
Qed.

Lemma process_send_runs q ph last now k s l ts :
  follows q ph last s l -> (forall j, ph <> Waiting j) -> 0 <= now < 9223372036854775808 ->
  runs k s l (process_send now ts) (one_result q ph last now).
Proof.
  intros Hf Hph Hn. pose proof (f_q _ _ _ _ _ Hf) as Hq. unfold process_send. apply runs_now, runs_self, runs_get_turn.
  assert (exists s1 k0, pick_poll false s = (slot_node q, slot_msg q, s1) /\ ((ph = Idle /\ k0 = 0) \/ ph = Backoff k0) /\
    (next_event (q, ph)).2 = (q, Waiting k0) /\
    current_node s1 = (q + 1) mod 64 /\ msg_id_counter s1 = slot_msg (q + 1) /\ current_msg_id s1 = slot_msg q /\ retry_pending s1 = false)
    as (s1 & k0 & Hp & Hk & Hnx & Hc & Hm & Hi & Hr1).
  { unfold pick_poll. rewrite (f_retry _ _ _ _ _ Hf). pose proof (f_current _ _ _ _ _ Hf) as Hc. pose proof (f_counter _ _ _ _ _ Hf) as Hm.
    destruct ph as [|j|j]; [|by destruct (Hph j)|].
    - rewrite Hm, Hc, next_msg_slot by done. destruct (next_current q Hq) as [-> ->]. eexists _, 0. split; [reflexivity|].
      split_and!; [by left|done|done|done|done|exact (f_retry _ _ _ _ _ Hf)].
    - destruct (f_awaiting _ _ _ _ _ Hf) as [|[-> Hi]]; [done|]. rewrite Hi. eexists _, j. split; [reflexivity|].
      split_and!; [by right|done|done|done|done|done]. }
  rewrite Hp. apply runs_turn, runs_send. intros j Hj. apply runs_mmetrics, runs_schedule, runs_now, runs_profile, runs_finish, runs_ret.
  unfold one_result. cbn [fst snd]. rewrite Hnx. cbn [fst snd]. split; [by destruct Hk as [[-> ->]| ->]|].
  eapply (sent_follows q ph k0 last now s l s1); done.
Qed.

(** One operation of a slot that starts after [k] readings, the decision being
    taken at the fourth one. *)
Lemma process_one_runs q ph last k s l :
  follows q ph last s l -> 0 <= last <= r k ->
  runs k s l rs485_master_process_one (fun res k' s' l' => exists now, r k <= now <= r k' /\ one_result q ph last now res k' s' l').
Proof.
  intros Hf Hl. set (now := r (S (S (S k)))).
  assert (r k <= now) as Hnow by (apply Hmono; lia). pose proof (Hr (S (S (S k)))) as Hb. fold now in Hb.
  assert (runs (S (S (S (S k)))) s l
    (if waiting_response s then process_timeout now (r k)
     else if now <? next_poll_due_us s then rs485_master_profile_finish (r k);; mret (false, master_event_zero)
     else process_send now (r k)) (one_result q ph last now)) as Hrun.
  { rewrite (f_waiting _ _ _ _ _ Hf). destruct ph as [|j|j]; [|by apply process_timeout_runs; [|lia..]|].
    - destruct (Z.ltb_spec now (next_poll_due_us s)); [|by apply process_send_runs].
      apply runs_finish, runs_ret. split; [|done]. pose proof (f_start _ _ _ _ _ Hf) as Hd. cbn in Hd. lia.
    - destruct (Z.ltb_spec now (next_poll_due_us s)); [|by apply process_send_runs].
      apply runs_finish, runs_ret. split; [|done]. pose proof (f_start _ _ _ _ _ Hf) as Hd. cbn in Hd. lia. }
  unfold rs485_master_process_one. apply runs_now, runs_now, runs_receive, runs_now, runs_profile. cbn [fst]. apply runs_now, runs_get_turn.
  intros m Hm. destruct (Hrun m Hm) as (k' & s' & l' & Hs & Hk & HQ). exists k', s', l'. split_and!; [done|lia|].
  exists now. split; [|done]. split; [done|]. apply Hmono. lia.
Qed.

Lemma slot_runs q ph last k s l :
  follows q ph last s l -> 0 <= last <= r k ->
  runs k s l master_slot (fun o k' s' l' =>
    match o with
    | None => r k <= last + RESPONSE_TIMEOUT_US /\ follows q ph last s' l'
    | Some ev => ev = (next_event (q, ph)).1 /\ exists now, r k <= now <= r k' /\ follows (next_event (q, ph)).2.1 (next_event (q, ph)).2.2 now s' l'
    end).
Proof.
  intros Hf Hl. unfold master_slot, rs485_master_has_work.
  assert (forall (work : bool), (work = false -> r k <= last + RESPONSE_TIMEOUT_US) -> runs (S k) s l
    (if work then r0 ← rs485_master_process_one; mret (if (r0 : bool * master_event).1 then Some r0.2 else None) else mret None)
    (fun o k' s' l' =>
    match o with
    | None => r k <= last + RESPONSE_TIMEOUT_US /\ follows q ph last s' l'
    | Some ev => ev = (next_event (q, ph)).1 /\ exists now, r k <= now <= r k' /\ follows (next_event (q, ph)).2.1 (next_event (q, ph)).2.2 now s' l'
    end)) as Hw.
  { intros [] Hdue; [|by apply runs_ret; split; [apply Hdue|]]. intros m Hm. rewrite run_bind_surj.
    assert (r k <= r (S k)) as Hk by (apply Hmono; lia).
    destruct (process_one_runs q ph last (S k) s l Hf ltac:(lia) m Hm) as (k' & s' & l' & Hs & Hk' & now & Hn & Ho). unfold one_result in Ho.
    destruct (rs485_master_process_one m) as [[[] ev] m']; cbn [fst snd] in *; destruct Ho as [Ho Hfo]; exists k', s', l'; rewrite run_ret; cbn [fst snd].
    - split; [done|]. split; [lia|]. split; [done|]. exists now. split; [lia|done].
    - split; [done|]. split; [lia|]. split; [lia|done]. }
  apply runs_assoc, runs_now, runs_assoc, runs_get_turn, runs_bind_ret, Hw. pose proof (f_start _ _ _ _ _ Hf) as Hd. rewrite (f_waiting _ _ _ _ _ Hf), (f_retry _ _ _ _ _ Hf).
  destruct ph; try done. intros Hlt%Z.leb_gt. lia.
Qed.

(** Any number of slots: the events are those of the abstract machine, and when
    there is none, no more than 6 ms passed since the last one. *)
Lemma slots_run n q ph last k s l :
  follows q ph last s l -> 0 <= last <= r k ->
  runs k s l (master_slots n) (fun es k' s' l' =>
    es = round_robin (length es) (q, ph) /\
    exists q' ph' last', last <= last' <= r k' /\ follows q' ph' last' s' l' /\ (es = [] -> last' = last /\ q' = q /\ ph' = ph)).
Proof.
  revert q ph last k s l. induction n as [|n IH]; intros q ph last k s l Hf Hl; cbn [master_slots].
  { apply runs_ret. split; [done|]. exists q, ph, last. split_and!; done || lia. }
  intros m Hm. rewrite run_bind_surj. destruct (slot_runs q ph last k s l Hf Hl m Hm) as (k1 & s1 & l1 & Hs1 & Hk1 & Ho).
  destruct (master_slot m) as [o m1]. cbn [fst snd] in *. rewrite run_bind_surj. assert (r k <= r k1) as Hrk by (by apply Hmono).
  destruct o as [ev|].
  - destruct Ho as (-> & now & Hn & Hf1). destruct (next_event (q, ph)) as [ev [q1 ph1]] eqn:Hne. cbn [fst snd] in *.
    destruct (IH q1 ph1 now k1 s1 l1 Hf1 ltac:(lia) m1 Hs1) as (k2 & s2 & l2 & Hs2 & Hk2 & He & q2 & ph2 & last2 & Hl2 & Hf2 & _).
    destruct (master_slots n m1) as [es m2]. cbn [fst snd] in *. exists k2, s2, l2. rewrite run_ret. cbn [fst snd length round_robin]. rewrite Hne. cbn [fst snd].
    split_and!; [done|lia|by rewrite <- He|]. exists q2, ph2, last2. split_and!; [lia..|done|done].
  - destruct Ho as (_ & Hf1).
    destruct (IH q ph last k1 s1 l1 Hf1 ltac:(lia) m1 Hs1) as (k2 & s2 & l2 & Hs2 & Hk2 & He & Hrest).
    destruct (master_slots n m1) as [es m2]. cbn [fst snd] in *. exists k2, s2, l2. rewrite run_ret. cbn [fst snd]. split_and!; [done|lia|done|done].
Qed.

(** The master starts at node 1. *)
Lemma engine_init_quiet e k : silent (the_port e) -> self_test_enabled e = false -> at_time r k e ->
  quiet (rs485_engine_enable (rs485_engine_init e).2).2 /\ at_time r k (rs485_engine_enable (rs485_engine_init e).2).2.
Proof.
  intros Hp Hs Ht. unfold rs485_engine_init, node_identity_init. run. cbn [snd]. unfold at_time.
  destruct (mac e) eqn:E; (split; [split|]); cbn; rewrite ?E; done.
Qed.
Lemma init_status i n : imap (fun i n => n <| ns_id := Z.of_nat i + 1 |>) (replicate 64 node_status_zero) !! i = Some n -> ns_retry_count n = 0.
Proof. rewrite list_lookup_imap. intros (x & Hx & ->)%fmap_Some. by apply lookup_replicate in Hx as [-> _]. Qed.

Lemma master_init_stage m k : silent (the_port (eng m)) -> self_test_enabled (eng m) = false -> at_time r k (eng m) ->
  exists s l, stage (S k) s l (rs485_master_init m).2 /\ follows 0 Idle (r k) s l.
Proof.
  intros Hp Hs Ht. destruct (engine_init_quiet (eng m) k Hp Hs Ht) as [Hq Hk]. unfold rs485_master_init, on_engine at 1 2, on_part. rewrite run_bind_modify, run_bind_surj.
  cbn [eng master_zero]. destruct (rs485_engine_init (eng m)) as [[] e1]. cbn [fst snd] in *. rewrite run_bind_surj. cbn [eng update].
  destruct (rs485_engine_enable e1) as [[] e2]. cbn [fst snd] in *. rewrite !run_bind_modify.
  set (m1 := _ <| status := _ |>).
  set (l1 := imap (fun i n => n <| ns_id := Z.of_nat i + 1 |>) (replicate 64 node_status_zero)).
  assert (stage k turn_zero l1 m1) as Hm1 by (by split). rewrite run_bind_surj. destruct (now_stage k turn_zero l1 m1 Hm1) as [-> Hm2].
  destruct (rs485_master_now_us m1) as [t m2]. cbn [snd] in *. rewrite run_bind_gets. unfold rs485_master_idle_interval_us, rs485_engine_self_test_enabled.
  destruct Hm2 as [Ht2 Hl2 Hq2 Hc2]. rewrite (q_self _ Hq2). exists (turn_zero <| next_poll_due_us := u64 (r k + IDLE_POLL_INTERVAL_US) |>), l1.
  split; [split; [by cbn; rewrite Ht2|done|done|done]|]. split; try done.
  - apply init_status.
  - by left.
  - cbn [next_poll_due_us update]. pose proof (Hr k). unfold IDLE_POLL_INTERVAL_US, RESPONSE_TIMEOUT_US. rewrite u64_id; lia.
Qed.
End silent.

(** The time the next reading of the clock gives. *)
Definition next_reading {P} (m : master P) : Z := readings (the_clock (eng m)) (taken (the_clock (eng m))).

(** C29: polling on a silent bus.  When nobody answers, the master polls node 1,
    2, .., 64, 1, .. three times each with a fresh identifier per node, and
    gives each up after the third time: whatever the number of slots, the
    events are exactly those of the abstract machine.  And it never stalls: in
    any stretch of slots longer than 6 ms there is an event. *)
Theorem silent_bus_round_robin {P} `{SerialPort P} (silent : P -> Prop) (m : master P) (n j : nat) :
  (forall n p, silent p -> (recv n p).1 = [] /\ silent (recv n p).2) -> (forall w p, silent p -> silent (send w p).2) ->
  silent (the_port (eng m)) -> self_test_enabled (eng m) = false ->
  monotone (the_clock (eng m)) -> (forall k, 0 <= readings (the_clock (eng m)) k < 9223372036854775808) ->
  let run := master_slots n (rs485_master_init m).2 in
  run.1 = round_robin (length run.1) (0, Idle) /\
  (RESPONSE_TIMEOUT_US < next_reading (master_slots j run.2).2 - next_reading run.2 -> (master_slots (j + 1) run.2).1 <> []).
Proof.
  cbv zeta. intros Hrecv Hsend Hp Hs Hmono Hr. set (r := readings (the_clock (eng m))) in *.
  destruct (master_init_stage silent r Hr m (taken (the_clock (eng m))) Hp Hs) as (s0 & l0 & Hm0 & Hf0);
    [unfold at_time, r; by destruct (the_clock (eng m))|].
  assert (forall k, 0 <= r k <= r (S k)) as Hnext by (intros k; split; [apply Hr|apply Hmono; lia]).
  destruct (slots_run silent Hrecv Hsend r Hmono Hr n _ _ _ _ _ _ Hf0 (Hnext _) _ Hm0) as (k1 & s1 & l1 & Hm1 & _ & He & q & ph & last & Hl & Hf & _).
  destruct (master_slots n _) as [es m1]. cbn [fst snd] in *.
  destruct (slots_run silent Hrecv Hsend r Hmono Hr j q ph last k1 s1 l1 Hf ltac:(pose proof (Hr (taken (the_clock (eng m)))); lia) _ Hm1)
    as (k2 & s2 & l2 & Hm2 & _ & _ & q2 & ph2 & last2 & Hl2 & Hf2 & Hnone).
  pose proof (master_slots_app j 1 m1) as Happ. destruct (master_slots j m1) as [es2 m2]. cbn [fst snd] in *. split; [exact He|].
  unfold next_reading. rewrite (g_time _ _ _ _ _ _ Hm1), (g_time _ _ _ _ _ _ Hm2). cbn [readings taken]. intros Hlong. rewrite Happ.
  intros [-> Hempty]%app_nil. destruct (Hnone eq_refl) as (-> & -> & ->).
  destruct (slot_runs silent Hrecv Hsend r Hmono Hr q ph last k2 s2 l2 Hf2 ltac:(pose proof (Hr (taken (the_clock (eng m)))); lia) _ Hm2) as (k3 & s3 & l3 & _ & _ & Ho).
  cbn [master_slots] in Hempty. rewrite !run_bind_surj, run_ret in Hempty. cbn [fst] in Hempty. destruct (master_slot m2).1; [done|]. lia.
Qed.

(** ** A babbling node *)

Section babble.
Context {P : Type} `{SerialPortLaws P}.
Context (s : turn) (l : list node_status).
(** Whatever the master does, each time it reads the port there is another
    whole frame that is not the acknowledgement it waits for. *)
Context (babble : P -> Prop).
Definition stray (f : rs485_frame) : Prop :=
  frame_wf f /\ flen f <= 64 /\ (ftype f ∉ [RS485_FRAME_TYPE_POLL; RS485_FRAME_TYPE_CLUSTER_HEARTBEAT; RS485_FRAME_TYPE_CLUSTER_FRAME]) /\
  (ftype f <> RS485_FRAME_TYPE_ACK \/ node f <> awaiting_node s \/ msg_id f <> current_msg_id s).
Hypothesis (Hbabble : forall p, babble p -> babble (recv RS485_ENGINE_RX_BYTES_PER_CALL p).2 /\
  (exists f, stray f /\ encode_wire_frame f RS485_FRAME_WIRE_MAX = Some (recv RS485_ENGINE_RX_BYTES_PER_CALL p).1)).
Hypothesis (Hwait : waiting_response s = true).

Record deaf (m : master P) : Prop := {
  d_turn : turn_of m = s;
  d_status : status m = l;
  d_engine : engine_wf (eng m);
  d_self : self_test_enabled (eng m) = false;
  d_port : babble (the_port (eng m));
}.

Lemma babble_receive (e : engine P) : engine_wf e -> self_test_enabled e = false -> babble (the_port e) ->
  exists f e', rs485_engine_receive frame_zero e = ((RS485_ENGINE_RX_FRAME, f), e') /\
    (ftype f <> RS485_FRAME_TYPE_ACK \/ node f <> awaiting_node s \/ msg_id f <> current_msg_id s) /\
    engine_wf e' /\ self_test_enabled e' = false /\ babble (the_port e').
Proof.
  intros He Hs Hp. destruct (Hbabble _ Hp) as (Hp' & f & (Hf & Hl & Ht & Hno) & Hw).
  pose proof (rs485_engine_receive_wf frame_zero e He) as Hwf.
  destruct (receive_other f frame_zero e Hf Hl eq_refl (ew_parser _ He) Hs Ht Hw) as (f' & e' & (Hn & Hm & Hty & _) & Hrec & _ & Hself & Hport).
  rewrite Hrec in Hwf. exists f', e'. rewrite Hn, Hm, Hty, Hport. by split_and!.
Qed.

Lemma deaf_on_engine {A} (op : st (engine P) A) m : deaf m ->
  engine_wf (op (eng m)).2 -> self_test_enabled (op (eng m)).2 = false -> babble (the_port (op (eng m)).2) -> deaf (on_engine op m).2.
Proof. intros [? ? ? ? ?] ? ? ?. unfold on_engine, on_part. by destruct (op (eng m)). Qed.
Lemma deaf_now : keeps deaf rs485_master_now_us.
Proof.
  intros m Hm. unfold rs485_master_now_us. rewrite run_bind_surj. unfold mret, st_ret. cbn [snd].
  apply deaf_on_engine; [done|by apply esp_timer_get_time_wf, d_engine|by apply Hm|by apply Hm].
Qed.
Lemma deaf_profile f : keeps deaf (on_profile f).
Proof. by intros m []. Qed.
Lemma deaf_mmetrics f : keeps deaf (on_mmetrics f).
Proof. by intros m []. Qed.
#[local] Hint Resolve deaf_now deaf_profile deaf_mmetrics : keeps.
Lemma deaf_finish t : keeps deaf (rs485_master_profile_finish t).
Proof. unfold rs485_master_profile_finish. keeps. Qed.
#[local] Hint Resolve deaf_finish : keeps.

Definition is_ignored (r : bool * master_event) : Prop := r.1 = true /\ me_type r.2 = RS485_MASTER_EVENT_RX_IGNORED.
Lemma ignored_deaf f : hoare deaf (ignored f) (fun ev m => me_type ev = RS485_MASTER_EVENT_RX_IGNORED /\ deaf m).
Proof. by intros m []. Qed.
Lemma process_frame_deaf f t : (ftype f <> RS485_FRAME_TYPE_ACK \/ node f <> awaiting_node s \/ msg_id f <> current_msg_id s) ->
  hoare deaf (process_frame f t) (fun r m => is_ignored r /\ deaf m).
Proof.
  intros Hno. unfold process_frame. apply hoare_keep; [apply deaf_now|]. intros t0.
  apply (hoare_bind _ _ _ (fun ev m => me_type ev = RS485_MASTER_EVENT_RX_IGNORED /\ deaf m)).
  - destruct (Z.eqb_spec (ftype f) RS485_FRAME_TYPE_ACK); cbn [andb]; [|apply ignored_deaf].
    destruct (flen f =? 0); [|apply ignored_deaf]. apply (hoare_value _ _ _ _ None); [|apply ignored_deaf].
    intros m Hm. unfold rs485_master_on_ack. rewrite run_bind_gets, (d_turn _ Hm), Hwait. cbn [negb].
    destruct (Z.eqb_spec (node f) (awaiting_node s)); [|done]. destruct (Z.eqb_spec (msg_id f) (current_msg_id s)); [|done]. by destruct Hno as [?|[?|?]].
  - intros ev. apply hoare_fact. intros Hev. apply hoare_keep; [apply deaf_now|]. intros t1. apply hoare_keep; [apply deaf_profile|]. intros _.
    apply hoare_keep; [apply deaf_finish|]. intros _. by apply hoare_ret.
Qed.
Lemma slot_deaf : hoare deaf master_slot (fun o m => (exists ev, o = Some ev /\ me_type ev = RS485_MASTER_EVENT_RX_IGNORED) /\ deaf m).
Proof.
  unfold master_slot. apply (hoare_value _ _ _ _ true).
  { apply (hoare_keep deaf _ _ (fun b m => b = true /\ deaf m)); [apply deaf_now|]. intros now m Hm.
    by rewrite run_bind_gets, run_ret, (d_turn _ Hm), Hwait. }
  apply (hoare_bind _ _ _ (fun r m => is_ignored r /\ deaf m)).
  - unfold rs485_master_process_one. apply hoare_keep; [apply deaf_now|]. intros t. apply hoare_keep; [apply deaf_now|]. intros t0.
    apply (hoare_bind _ _ _ (fun rx m => (rx.1 = RS485_ENGINE_RX_FRAME /\
      (ftype rx.2 <> RS485_FRAME_TYPE_ACK \/ node rx.2 <> awaiting_node s \/ msg_id rx.2 <> current_msg_id s)) /\ deaf m)).
    + intros m Hm. destruct (babble_receive (eng m) (d_engine _ Hm) (d_self _ Hm) (d_port _ Hm)) as (f & e' & He & Hno & Hwf & Hs & Hp).
      unfold on_engine, on_part. rewrite He. destruct Hm. by split.
    + intros [rx f]. apply hoare_fact. cbn [fst snd]. intros [-> Hno]. apply hoare_keep; [apply deaf_now|]. intros t1.
      apply hoare_keep; [apply deaf_profile|]. intros _. by apply process_frame_deaf.
  - intros r m [[Hr Ht] Hm]. destruct r as [b ev]. cbn [fst snd] in *. subst b. rewrite run_ret. split; [by exists ev|done].
Qed.
End babble.

(** A babbling node stops the supervision.  As long as each reception finds
    a stray frame, the master neither repeats its poll nor gives the node up
    nor polls another one, however long that lasts. *)
Theorem babble_stops_polling {P} `{SerialPortLaws P} (babble : P -> Prop) (m : master P) (n : nat) :
  (forall p, babble p -> babble (recv RS485_ENGINE_RX_BYTES_PER_CALL p).2 /\
    exists f, stray (turn_of m) f /\ encode_wire_frame f RS485_FRAME_WIRE_MAX = Some (recv RS485_ENGINE_RX_BYTES_PER_CALL p).1) ->
  babble (the_port (eng m)) -> engine_wf (eng m) -> self_test_enabled (eng m) = false -> waiting_response (turn_of m) = true ->
  let run := master_slots n m in
  length run.1 = n /\ Forall (fun e => me_type e = RS485_MASTER_EVENT_RX_IGNORED) run.1 /\
  turn_of run.2 = turn_of m /\ status run.2 = status m.
Proof.
  cbv zeta. intros Hb Hp He Hs Hw. assert (deaf (turn_of m) (status m) babble m) as Hm by by split.
  revert Hb Hw Hm. generalize (turn_of m) (status m). intros s l Hb Hw. clear Hp He Hs. revert m.
  induction n as [|n IH]; intros m Hm; cbn [master_slots]; [by destruct Hm|]. rewrite run_bind_surj.
  destruct (slot_deaf s l babble Hb Hw m Hm) as ((ev & -> & Hev) & Hm1). rewrite run_bind_surj. specialize (IH _ Hm1).
  destruct (master_slots n _) as [es m']. cbn [fst snd] in *. rewrite run_ret. destruct IH as (<- & Hes & ? & ?).
  split_and!; [done|by constructor|done|done].
Qed.

(** ** Concrete runs *)

(** A clock that stops before the counter overflows. *)
Definition slow_clock (step : Z) : clock := Clock (fun i => Z.min (step * Z.of_nat i) 1000000000) 0.
(** A master on an empty bus, looked at every few milliseconds. *)
Definition lonely_master : master script := master_zero (engine_zero (Script [] []) (slow_clock 700) (Some demo_mac)).

Lemma silent_bus_round_robin_witness :
  let r := master_slots 20 (rs485_master_init lonely_master).2 in
  r.1 = round_robin (length r.1) (0, Idle) /\ (master_slots (2 + 1) r.2).1 <> [].
Proof.
  cbv zeta. set (m := lonely_master).
  destruct (silent_bus_round_robin (fun p => incoming p = []) m 20 2) as [He Hlive].
  - intros n p Hp. cbn. rewrite Hp. by rewrite take_nil, drop_nil.
  - intros w p Hp. exact Hp.
  - reflexivity.
  - reflexivity.
  - intros i j Hij. cbn. lia.
  - intros k. cbn. lia.
  - split; [exact He|]. apply Hlive. apply Z.ltb_lt. vm_compute. reflexivity.
Defined.

(** A bus on which node 5 repeats its acknowledgement for ever, while the
    master waits for node 3. *)
Definition late_ack : rs485_frame := Frame 5 7 RS485_FRAME_TYPE_ACK 0 (replicate 64 0).
Definition late_ack_wire : list Z := default [] (encode_wire_frame late_ack RS485_FRAME_WIRE_MAX).
Inductive chatter := Chatter.
#[export] Instance chatter_port : SerialPort chatter := {
  recv n _ := (take (Z.to_nat n) late_ack_wire, Chatter);
  send _ _ := (tt, Chatter);
}.
#[export] Instance chatter_laws : SerialPortLaws chatter.
Proof.
  split.
  - intros n p Hn. cbn. rewrite length_take. lia.
  - intros n p. cbn. apply Forall_take. apply Forall_forall. intros x Hx.
    assert (Forall (fun b => (0 <=? b) = true /\ (b <? 256) = true) late_ack_wire) as Hb by (vm_compute; repeat constructor).
    rewrite Forall_forall in Hb. destruct (Hb x Hx) as [?%Z.leb_le ?%Z.ltb_lt]. done.
Qed.
Definition jammed_master : master chatter :=
  (master_zero (engine_zero Chatter (slow_clock 700) (Some demo_mac)))
    <| turn_of := turn_zero <| waiting_response := true |> <| awaiting_node := 3 |> <| current_msg_id := 9 |> |>.

Lemma babble_stops_polling_witness :
  let run := master_slots 30 jammed_master in
  length run.1 = 30%nat /\ Forall (fun e => me_type e = RS485_MASTER_EVENT_RX_IGNORED) run.1 /\ awaiting_node (turn_of run.2) = 3.
Proof.
  cbv zeta. destruct (babble_stops_polling (fun _ => True) jammed_master 30) as (Hl & Hes & Ht & _).
  - intros p _. split; [done|]. exists late_ack. split; [|by vm_compute].
    split; [apply empty_frame_wf; vm_compute; split; congruence|]. split; [by vm_compute|]. split; [|right; left; by vm_compute].
    rewrite !not_elem_of_cons. split_and!; try (by vm_compute). apply not_elem_of_nil.
  - done.
  - apply engine_zero_wf.
  - done.
  - done.
  - split; [exact Hl|]. split; [exact Hes|]. by rewrite Ht.
Defined.
