(* ===== verification/Fieldbus.v ===== *)
(** * The fieldbus ([components/runtime/fieldbus/fieldbus.c],
    [bus_health_monitor.c], [components/runtime/latency_histogram/latency_histogram.c])

    One tick per control cycle: the gateway runs the RS485 master, every other
    node answers polls.  The health counters and the latency histogram follow
    the master's events. *)

From S2P Require Import Prelude Parser Rs485Wire Rs485Engine Rs485Master.

(** ** Statistics *)

(** [bus_health_metrics_t] and the variables next to it. *)
Record bus_health := BusHealth {
  crc_errors : Z; timeouts : Z; retries : Z; avg_latency_us : Z; max_latency_us : Z; latency_sum : Z; latency_count : Z;
}.
#[export] Instance bus_health_rebuild : Rebuild bus_health := fun h =>
  BusHealth (crc_errors h) (timeouts h) (retries h) (avg_latency_us h) (max_latency_us h) (latency_sum h) (latency_count h).
Definition bus_health_init : bus_health := BusHealth 0 0 0 0 0 0 0.
Definition bus_health_crc_error (h : bus_health) : bus_health := h <| crc_errors := u32 (crc_errors h + 1) |>.
Definition bus_health_timeout (h : bus_health) : bus_health := h <| timeouts := u32 (timeouts h + 1) |>.
Definition bus_health_retry (h : bus_health) : bus_health := h <| retries := u32 (retries h + 1) |>.
Definition bus_health_latency (latency : Z) (h : bus_health) : bus_health :=
  let h := h <| latency_sum := u64 (latency_sum h + latency) |> <| latency_count := u32 (latency_count h + 1) |> in
  let h := h <| max_latency_us := if max_latency_us h <? latency then latency else max_latency_us h |> in
  if latency_count h =? 0 then h else h <| avg_latency_us := u32 (latency_sum h / latency_count h) |>.

Record histogram := Histogram {
  bucket_lt100 : Z; bucket_100_200 : Z; bucket_200_500 : Z; bucket_gt500 : Z; sample_count : Z;
}.
#[export] Instance histogram_rebuild : Rebuild histogram := fun h =>
  Histogram (bucket_lt100 h) (bucket_100_200 h) (bucket_200_500 h) (bucket_gt500 h) (sample_count h).
Definition latency_histogram_init : histogram := Histogram 0 0 0 0 0.
Definition latency_histogram_record (latency : Z) (h : histogram) : histogram :=
  let h := h <| sample_count := u32 (sample_count h + 1) |> in
  if latency <? 100 then h <| bucket_lt100 := u32 (bucket_lt100 h + 1) |>
  else if latency <? 200 then h <| bucket_100_200 := u32 (bucket_100_200 h + 1) |>
  else if latency <? 500 then h <| bucket_200_500 := u32 (bucket_200_500 h + 1) |>
  else h <| bucket_gt500 := u32 (bucket_gt500 h + 1) |>.
(** The percentages that are logged; [None] when there is nothing to log. *)
Definition latency_histogram_log (h : histogram) : option (list Z) :=
  if sample_count h =? 0 then None
  else Some ((fun b => u32 (b * 100) / sample_count h) <$> [bucket_lt100 h; bucket_100_200 h; bucket_200_500 h; bucket_gt500 h]).

(** ** State *)

Definition FIELDBUS_PROFILE_LOG_CYCLES : Z := 2000.

(** [fieldbus_profile_acc_t] *)
Record fieldbus_profile := FieldbusProfile { fp_cycles : Z; fp_engine : usage; fp_master : usage; fp_event : usage; fp_total : usage }.
#[export] Instance fieldbus_profile_rebuild : Rebuild fieldbus_profile := fun p =>
  FieldbusProfile (fp_cycles p) (fp_engine p) (fp_master p) (fp_event p) (fp_total p).
Definition fieldbus_profile_reset : fieldbus_profile := FieldbusProfile 0 usage_zero usage_zero usage_zero usage_zero.

Record fieldbus {P : Type} := Fieldbus {
  bus_last_activity : Z; histogram_cycle : Z; histogram_log_request : bool;
  fprofile : fieldbus_profile; fieldbus_profile_log_request : bool;
  rs485_runtime_enabled : bool; rs485_master_enabled : bool;
  health : bus_health; hist : histogram; mst : master P;
}.
Arguments fieldbus : clear implicits.
Arguments Fieldbus {P}.
#[export] Instance fieldbus_rebuild {P} : Rebuild (fieldbus P) := fun b =>
  Fieldbus (bus_last_activity b) (histogram_cycle b) (histogram_log_request b) (fprofile b) (fieldbus_profile_log_request b)
    (rs485_runtime_enabled b) (rs485_master_enabled b) (health b) (hist b) (mst b).
(** The variables at program start. *)
Definition fieldbus_zero {P} (m : master P) : fieldbus P :=
  Fieldbus 0 0 false fieldbus_profile_reset false false false bus_health_init latency_histogram_init m.

Section fieldbus.
Context {P : Type} `{SerialPort P}.
Implicit Types b : fieldbus P.
Abbreviation M := (st (fieldbus P)).

Definition on_master {A} (op : st (master P) A) : M A := on_part mst (fun m b => b <| mst := m |>) op.
Definition on_fprofile (f : fieldbus_profile -> fieldbus_profile) : M () := modify (fun b => b <| fprofile := f (fprofile b) |>).
Definition fieldbus_now : M Z := on_master rs485_master_now_us.

(** From the device profile: whether RS485 is enabled, and whether this node
    is the gateway. *)
Definition fieldbus_should_run_rs485_master (rs485_on gateway : bool) : bool := if negb rs485_on then false else gateway.

Definition fieldbus_init (rs485_on gateway : bool) : M () :=
  modify (fun b => b <| rs485_runtime_enabled := false |> <| rs485_master_enabled := false |> <| histogram_cycle := 0 |>
                     <| histogram_log_request := false |> <| fieldbus_profile_log_request := false |>
                     <| hist := latency_histogram_init |> <| health := bus_health_init |>);;
  now ← fieldbus_now;
  modify (fun b => b <| bus_last_activity := now |> <| fprofile := fieldbus_profile_reset |>);;
  if negb rs485_on then mret tt
  else
    modify (fun b => b <| rs485_runtime_enabled := true |>
                       <| rs485_master_enabled := fieldbus_should_run_rs485_master rs485_on gateway |>);;
    is_master ← gets rs485_master_enabled;
    if is_master : bool then on_master rs485_master_init
    else on_master (on_engine rs485_engine_init);; on_master (on_engine rs485_engine_enable).

Definition bus_watchdog (now : Z) : M () :=
  modify (fun b => if 2000000 <? u64 (now - bus_last_activity b) then b <| bus_last_activity := now |> else b).

Definition fieldbus_handle_event (ev : master_event) (now : Z) : M () :=
  let active f := modify (fun b => let b := b <| bus_last_activity := now |> in b <| health := f (health b) |>) in
  match me_type ev with
  | RS485_MASTER_EVENT_TX => active (fun h => h)
  | RS485_MASTER_EVENT_ACK =>
    active (bus_health_latency (me_latency_us ev));;
    modify (fun b => b <| hist := latency_histogram_record (me_latency_us ev) (hist b) |>)
  | RS485_MASTER_EVENT_RETRY => active bus_health_retry
  | RS485_MASTER_EVENT_TIMEOUT => active bus_health_timeout
  | RS485_MASTER_EVENT_CRC_ERROR => active bus_health_crc_error
  | RS485_MASTER_EVENT_RX_IGNORED | RS485_MASTER_EVENT_NONE => mret tt
  end.

Definition fieldbus_handle_passive_rx (rx : rx_result) (now : Z) : M () :=
  match rx with
  | RS485_ENGINE_RX_FRAME | RS485_ENGINE_RX_FORMAT_ERROR => modify (fun b => b <| bus_last_activity := now |>)
  | RS485_ENGINE_RX_CRC_ERROR =>
    modify (fun b => b <| bus_last_activity := now |> <| health := bus_health_crc_error (health b) |>)
  | RS485_ENGINE_RX_NONE => mret tt
  end.

(** [t0 = now(); m; t1 = now(); accumulate], as it is written around each part
    of the tick. *)
Definition timed {A} (acc : Z -> A -> fieldbus_profile -> fieldbus_profile) (m : M A) : M A :=
  t0 ← fieldbus_now; a ← m; t1 ← fieldbus_now;
  on_fprofile (acc (profile_delta_us t0 t1) a);;
  mret a.
Definition count_master {A} (dt : Z) (_ : A) (p : fieldbus_profile) : fieldbus_profile := p <| fp_master := profile_event dt (fp_master p) |>.
Definition handle {A} (f : A -> Z -> M ()) (x : A) : M () :=
  timed (fun dt _ p => p <| fp_event := profile_event dt (fp_event p) |>) (now ← fieldbus_now; f x now).

(** The end of the tick. *)
Definition fieldbus_account (total_start : Z) : M () :=
  modify (fun b =>
    let c := u32 (histogram_cycle b + 1) in
    if 10000 <=? c then b <| histogram_cycle := 0 |> <| histogram_log_request := true |> else b <| histogram_cycle := c |>);;
  finish ← fieldbus_now;
  on_fprofile (fun p => p <| fp_cycles := u32 (fp_cycles p + 1) |>
                          <| fp_total := profile_accumulate (profile_delta_us total_start finish) (fp_total p) |>);;
  modify (fun b => if FIELDBUS_PROFILE_LOG_CYCLES <=? fp_cycles (fprofile b) then b <| fieldbus_profile_log_request := true |> else b);;
  now ← fieldbus_now;
  bus_watchdog now.

Definition fieldbus_tick : M () :=
  total_start ← fieldbus_now;
  enabled ← gets rs485_runtime_enabled;
  if negb enabled then mret tt
  else
    timed (fun dt _ p => p <| fp_engine := profile_accumulate dt (fp_engine p) |>) (on_master (on_engine rs485_engine_tick_1ms));;
    is_master ← gets rs485_master_enabled;
    (if is_master : bool then
       work ← on_master rs485_master_has_work;
       if work : bool then
         r ← timed count_master (on_master rs485_master_process_one);
         if (r : bool * master_event).1 then handle fieldbus_handle_event r.2 else mret tt
       else mret tt
     else
       rx ← timed count_master (on_master (on_engine (rs485_engine_receive frame_zero)));
       if bool_decide ((rx : rx_result * rs485_frame).1 = RS485_ENGINE_RX_NONE) then mret tt
       else handle fieldbus_handle_passive_rx rx.1);;
    fieldbus_account total_start.

(** [fieldbus_profile_snapshot]: averages in place of the sums, and the reset
    that the log asks for. *)
Definition fieldbus_profile_snapshot (reset : bool) : M fieldbus_profile :=
  p ← gets fprofile;
  (if reset then on_fprofile (fun _ => fieldbus_profile_reset) else mret tt);;
  mret (p <| fp_engine := averaged (fp_cycles p) (fp_engine p) |> <| fp_total := averaged (fp_cycles p) (fp_total p) |>
          <| fp_master := averaged (us_events (fp_master p)) (fp_master p) |>
          <| fp_event := averaged (us_events (fp_event p)) (fp_event p) |>).

(** What is logged: the two profiles, and the histogram. *)
Definition fieldbus_process_logs : M (option (fieldbus_profile * master_profile) * option (list Z)) :=
  b ← gets (fun b => b);
  if negb (rs485_runtime_enabled b) then
    modify (fun b => b <| histogram_log_request := false |> <| fieldbus_profile_log_request := false |>);; mret (None, None)
  else
    profiles ← (if fieldbus_profile_log_request b then
                  modify (fun b => b <| fieldbus_profile_log_request := false |>);;
                  fb ← fieldbus_profile_snapshot true;
                  mp ← (if rs485_master_enabled b then on_master (rs485_master_profile_snapshot true) else mret master_profile_zero);
                  mret (Some (fb, mp))
                else mret None);
    latencies ← (if histogram_log_request b then
                   modify (fun b => b <| histogram_log_request := false |>);;
                   h ← gets hist;
                   mret (latency_histogram_log h)
                 else mret None);
    mret (profiles, latencies).
End fieldbus.

(** ** A poll and its answer *)

(** A message without payload on the wire, and bytes that arrive at a node. *)
Definition bus_message (n msg t : Z) : list Z :=
  default [] (encode_wire_frame (Frame n msg t 0 (replicate 64 0)) RS485_FRAME_WIRE_MAX).
Definition deliver (w : list Z) (b : fieldbus script) : fieldbus script :=
  let m := mst b in let e := eng m in
  b <| mst := m <| eng := e <| the_port := (the_port e) <| incoming := incoming (the_port e) ++ w |> |> |> |>.
Definition bus_out (b : fieldbus script) : list (list Z) := outgoing (the_port (eng (mst b))).

(** An engine that is up, without a poll to answer, whose port is [p]; [fresh]
    says that its parser holds no frame. *)
Record engine_up (fresh : bool) (p : script) (e : engine script) : Prop := {
  u_wf : engine_wf e;
  u_enabled : engine_enabled e = true;
  u_self : self_test_enabled e = false;
  u_ack : ack_pending e = false;
  u_port : the_port e = p;
  u_parser : fresh = true -> parser_frame_available (the_parser e) = false;
}.
(** A gateway whose master is at [s], and a field node; both with an empty
    receive buffer. *)
Record master_at (T : Z) (s : turn) (l : list node_status) (fresh : bool) (p : script) (m : master script) : Prop := {
  m_turn : turn_of m = s;
  m_status : status m = l;
  m_engine : engine_up fresh p (eng m);
  m_clock : forall k, (taken (the_clock (eng m)) <= k)%nat -> T <= u64 (readings (the_clock (eng m)) k);
}.

Lemma bus_message_wire n msg t : is_u8 n -> is_u16 msg -> is_u8 t ->
  encode_wire_frame (Frame n msg t 0 (replicate 64 0)) RS485_FRAME_WIRE_MAX = Some (bus_message n msg t) /\
  length (bus_message n msg t) = 16%nat.
Proof.
  intros Hn Hm Ht. pose proof (empty_frame_wf n msg t Hn Hm Ht) as Hf. unfold bus_message.
  rewrite (encode_wire_frame_eq _ Hf ltac:(done)). split; [done|]. cbn [from_option id].
  rewrite length_cons, length_app, length_hex, (raw_length _ Hf ltac:(done)). reflexivity.
Qed.

Section gateway.
Context (T : Z) (s : turn) (l : list node_status) (fresh : bool) (p : script).
Abbreviation I := (master_at T s l fresh p).
Lemma at_now : keeps I rs485_master_now_us.
Proof.
  intros m [Ht Hl [Hw He Hs Ha Hp Hf] Hc]. unfold rs485_master_now_us, on_engine, on_part. rewrite run_bind_surj.
  destruct (esp_timer_get_time (eng m)) as [t e] eqn:E. unfold esp_timer_get_time, on_part in E. injection E as <- <-. cbn.
  split; cbn; [done|done| |].
  - split; cbn; try done. destruct Hw; by split.
  - intros k Hk. apply Hc. lia.
Qed.
Lemma at_profile f : keeps I (on_profile f).
Proof. by intros m []. Qed.
Lemma at_mmetrics f : keeps I (on_mmetrics f).
Proof. by intros m []. Qed.
End gateway.
#[local] Hint Resolve at_now at_profile at_mmetrics : keeps.
Lemma at_finish T s l fresh p t : keeps (master_at T s l fresh p) (rs485_master_profile_finish t).
Proof. unfold rs485_master_profile_finish. keeps. Qed.
#[local] Hint Resolve at_finish : keeps.

(** The reading itself. *)
Lemma at_now_value T s l fresh p : hoare (master_at T s l fresh p) rs485_master_now_us (fun t m => T <= t /\ master_at T s l fresh p m).
Proof.
  intros m Hm. split; [|by apply at_now]. unfold rs485_master_now_us, on_engine, on_part. rewrite run_bind_surj.
  by apply (m_clock _ _ _ _ _ _ Hm).
Qed.
Lemma at_turn {A} T s l fresh p f (k : () -> st (master script) A) Q :
  hoare (master_at T (f s) l fresh p) (k tt) Q -> hoare (master_at T s l fresh p) (on_turn f ≫= k) Q.
Proof. intros Hk m [<- ? ? ?]. unfold on_turn. rewrite run_bind_modify. by apply Hk. Qed.
Lemma at_status {A} T s l fresh p i f (k : () -> st (master script) A) Q :
  hoare (master_at T s (alter f (Z.to_nat i) l) fresh p) (k tt) Q -> hoare (master_at T s l fresh p) (on_status i f ≫= k) Q.
Proof. intros Hk m [? <- ? ?]. unfold on_status. rewrite run_bind_modify. by apply Hk. Qed.

Lemma send_up fresh f wire w p :
  encode_wire_frame f RS485_FRAME_WIRE_MAX = Some wire -> p = Script [] w ->
  hoare (engine_up fresh p) (rs485_engine_send f) (fun _ => engine_up fresh (p <| outgoing := w ++ [wire] |>)).
Proof.
  intros Hw -> e [Hwf He Hs Ha Hp Hf]. pose proof (rs485_engine_send_wf f e Hwf) as Hwf'. revert Hwf'.
  unfold rs485_engine_send. rewrite run_bind_gets, He. cbn [negb]. unfold now_ms, esp_timer_get_time, on_part. rewrite run_bind_assoc, run_bind_surj.
  cbn [clock_read fst snd]. rewrite run_bind_ret, run_bind_gets. cbn [self_test_enabled update]. rewrite Hs. cbn [andb]. rewrite Hw, run_bind_surj.
  unfold with_port, on_part, upd_metrics. cbn [the_port update send script_port fst snd]. rewrite Hp. intros Hwf'. by split.
Qed.

(** The engine's tick leaves the port alone while there is no poll to answer. *)
Lemma tick_up fresh p : hoare (engine_up fresh p) rs485_engine_tick_1ms (fun _ => engine_up fresh p).
Proof.
  intros e [Hw He Hs Ha Hp Hf]. pose proof (rs485_engine_tick_1ms_wf e Hw) as Hw'. revert Hw'. rewrite (rs485_engine_tick_idle e He Ha). intros Hw'. by split.
Qed.
(** Routines of the engine only advance the clock. *)
Definition later_than (r : nat -> Z) (k : nat) (e : engine script) : Prop :=
  readings (the_clock e) = r /\ (k <= taken (the_clock e))%nat.
Section clock.
Context (r : nat -> Z) (k : nat).
Lemma later_time : keeps (later_than r k) esp_timer_get_time.
Proof. apply keeps_on_part. intros e [? ?]. split; cbn; [done|lia]. Qed.
Lemma later_port {A} (m : st script A) : keeps (later_than r k) (with_port m).
Proof. by apply keeps_on_part. Qed.
Lemma later_parser {A} (m : st parser A) : keeps (later_than r k) (with_parser m).
Proof. by apply keeps_on_part. Qed.
Lemma later_metrics f : keeps (later_than r k) (upd_metrics f).
Proof. by apply keeps_modify. Qed.
#[local] Hint Resolve later_time later_port later_parser later_metrics : keeps.
Lemma later_now : keeps (later_than r k) now_ms.
Proof. unfold now_ms. keeps. Qed.
Lemma later_mark idx : keeps (later_than r k) (mark_online idx).
Proof. unfold mark_online. keeps; done. Qed.
#[local] Hint Resolve later_now later_mark : keeps.
Lemma later_send f : keeps (later_than r k) (rs485_engine_send f).
Proof. unfold rs485_engine_send. keeps; done. Qed.
#[local] Hint Resolve later_send : keeps.
Lemma later_tick : keeps (later_than r k) rs485_engine_tick_1ms.
Proof. unfold rs485_engine_tick_1ms. keeps; done. Qed.
Lemma later_on_ack id : keeps (later_than r k) (rs485_engine_on_ack id).
Proof. unfold rs485_engine_on_ack. keeps. Qed.
Lemma later_receive f : keeps (later_than r k) (rs485_engine_receive f).
Proof.
  unfold rs485_engine_receive, receive_self_test, rs485_engine_feed_parser_bounded, receive_chunk. keeps; try done.
  - destruct r0; unfold count_rx; keeps.
  - unfold receive_frame, rs485_engine_should_reply_to_poll, rs485_engine_local_node_id, node_identity_init. keeps; try done; by case_match.
Qed.
End clock.

Lemma on_engine_at T s l fresh fresh' p p' {A} (op : st (engine script) A) (R : A -> Prop) :
  (forall r k, keeps (later_than r k) op) ->
  hoare (engine_up fresh p) op (fun a e => R a /\ engine_up fresh' p' e) ->
  hoare (master_at T s l fresh p) (on_engine op) (fun a m => R a /\ master_at T s l fresh' p' m).
Proof.
  intros Hclk Hop m [Ht Hl He Hc]. destruct (Hop _ He) as [Hr He'].
  destruct (Hclk (readings (the_clock (eng m))) (taken (the_clock (eng m))) (eng m)) as [Hrd Htk]; [done|]. unfold on_engine, on_part.
  destruct (op (eng m)) as [a e]. cbn [fst snd] in *. split; [done|]. split; cbn [turn_of status eng update]; try done.
  rewrite Hrd. intros k Hk. apply Hc. lia.
Qed.

(** *** The gateway's two ticks, seen by the master *)

Definition idle_turn (s : turn) : Prop :=
  waiting_response s = false /\ retry_pending s = false /\ 0 <= current_node s < 64 /\ is_u16 (msg_id_counter s).

(** Nothing was received and a poll is due: it is sent. *)
Lemma master_polls T s l w :
  idle_turn s -> next_poll_due_us s <= T ->
  hoare (master_at T s l true (Script [] w)) rs485_master_process_one (fun r m =>
    (r.1 = true /\ me_type r.2 = RS485_MASTER_EVENT_TX) /\
    exists s', waiting_response s' = true /\ awaiting_node s' = current_node s + 1 /\ current_msg_id s' = msg_id_counter s /\
      master_at T s' l true (Script [] (w ++ [bus_message (current_node s + 1) (msg_id_counter s) RS485_FRAME_TYPE_POLL])) m).
Proof.
  intros (Hw & Hrp & Hcn & Hmc) Hdue. unfold rs485_master_process_one.
  apply hoare_keep; [apply at_now|]. intros t. apply hoare_keep; [apply at_now|]. intros t0.
  apply (hoare_bind _ _ _ (fun rx m => rx = (RS485_ENGINE_RX_NONE, frame_zero) /\ master_at T s l true (Script [] w) m)).
  { apply on_engine_at; [intros; apply later_receive|]. intros e [Hwf He Hs Ha Hp Hf].
    pose proof (rs485_engine_receive_wf frame_zero e Hwf) as Hwf'. revert Hwf'.
    rewrite (receive_nothing e frame_zero (Script [] w) Hs (Hf eq_refl)) by (rewrite Hp; done). intros Hwf'. split; [done|]. by split. }
  intros rx. apply hoare_fact. intros ->. apply hoare_keep; [apply at_now|]. intros t1. apply hoare_keep; [apply at_profile|]. intros _. cbn [fst].
  apply (hoare_bind _ _ _ (fun now m => T <= now /\ master_at T s l true (Script [] w) m)); [apply at_now_value|]. intros now. apply hoare_fact. intros Hnow.
  apply (hoare_value _ _ _ _ s); [intros m Hm; split; [exact (m_turn _ _ _ _ _ _ Hm)|exact Hm]|]. rewrite Hw. destruct (Z.ltb_spec now (next_poll_due_us s)); [lia|].
  unfold process_send. apply hoare_keep; [apply at_now|]. intros t2.
  apply (hoare_value _ _ _ _ false). { intros m Hm. split; [apply (u_self _ _ _ (m_engine _ _ _ _ _ _ Hm))|done]. }
  apply (hoare_value _ _ _ _ s); [intros m Hm; split; [exact (m_turn _ _ _ _ _ _ Hm)|exact Hm]|]. unfold pick_poll. rewrite Hrp. unfold next_msg_id. rewrite (u8_id (current_node s + 1)) by lia.
  apply at_turn.
  set (n := current_node s + 1). set (mid := msg_id_counter s).
  destruct (bus_message_wire n mid RS485_FRAME_TYPE_POLL) as [Hwire _]; [unfold n; lia|done|by vm_compute|].
  eapply hoare_bind.
  { apply (on_engine_at _ _ _ true true (Script [] w) (Script [] (w ++ [bus_message n mid RS485_FRAME_TYPE_POLL])) _ (fun _ => True)); [intros; apply later_send|].
    eapply hoare_post; [by apply (send_up true _ _ w (Script [] w) Hwire)|]. intros a e He. by split. }
  intros ?. apply hoare_fact. intros _. apply hoare_keep; [apply at_mmetrics|]. intros _. apply at_turn.
  apply hoare_keep; [apply at_now|]. intros t3. apply hoare_keep; [apply at_profile|]. intros _. apply hoare_keep; [apply at_finish|]. intros _.
  apply hoare_ret. intros m Hm. split; [done|]. eexists. split_and!; [| | |exact Hm]; done.
Qed.

(** What remains of a slot once the engine has delivered a frame. *)
Definition turn_at (s : turn) (l : list node_status) (m : master script) : Prop := turn_of m = s /\ status m = l.
Section turn_at.
Context (s : turn) (l : list node_status).
Lemma turn_engine {A} (op : st (engine script) A) : keeps (turn_at s l) (on_engine op).
Proof. by apply keeps_on_part. Qed.
Lemma turn_profile f : keeps (turn_at s l) (on_profile f).
Proof. by apply keeps_modify. Qed.
Lemma turn_mmetrics f : keeps (turn_at s l) (on_mmetrics f).
Proof. by apply keeps_modify. Qed.
#[local] Hint Resolve turn_engine turn_profile turn_mmetrics : keeps.
Lemma turn_now : keeps (turn_at s l) rs485_master_now_us.
Proof. unfold rs485_master_now_us. keeps. Qed.
#[local] Hint Resolve turn_now : keeps.
Lemma turn_finish t : keeps (turn_at s l) (rs485_master_profile_finish t).
Proof. unfold rs485_master_profile_finish. keeps. Qed.
Lemma turn_on_turn {A} f (k : () -> st (master script) A) Q :
  hoare (turn_at (f s) l) (k tt) Q -> hoare (turn_at s l) (on_turn f ≫= k) Q.
Proof. intros Hk m [<- ?]. unfold on_turn. rewrite run_bind_modify. by apply Hk. Qed.
Lemma turn_on_status {A} i f (k : () -> st (master script) A) Q :
  hoare (turn_at s (alter f (Z.to_nat i) l)) (k tt) Q -> hoare (turn_at s l) (on_status i f ≫= k) Q.
Proof. intros Hk m [? <-]. unfold on_status. rewrite run_bind_modify. by apply Hk. Qed.
End turn_at.
#[local] Hint Resolve turn_engine turn_profile turn_mmetrics turn_now turn_finish : keeps.

Definition acked (n : Z) (m : master script) : Prop := waiting_response (turn_of m) = false /\ rs485_master_node_online n m = 1.
Lemma acked_engine {A} n (op : st (engine script) A) : keeps (acked n) (on_engine op).
Proof. by apply keeps_on_part. Qed.
Lemma acked_profile n f : keeps (acked n) (on_profile f).
Proof. by apply keeps_modify. Qed.
#[local] Hint Resolve acked_engine acked_profile : keeps.
Lemma acked_now n : keeps (acked n) rs485_master_now_us.
Proof. unfold rs485_master_now_us. keeps. Qed.
#[local] Hint Resolve acked_now : keeps.
Lemma acked_finish n t : keeps (acked n) (rs485_master_profile_finish t).
Proof. unfold rs485_master_profile_finish. keeps. Qed.
#[local] Hint Resolve acked_finish : keeps.

Lemma on_ack_accepts s l n msg : waiting_response s = true -> awaiting_node s = n -> current_msg_id s = msg -> 1 <= n <= 64 -> length l = 64%nat ->
  hoare (turn_at s l) (rs485_master_on_ack n msg) (fun a m => is_Some a /\ acked n m).
Proof.
  intros Hw Hn Hm Hr Hl. unfold rs485_master_on_ack. apply (hoare_value _ _ _ _ s); [intros m Hm'; split; [apply Hm'|done]|].
  rewrite Hw, Hn, Hm, !Z.eqb_refl. cbn [negb]. rewrite (u8_id (n - 1)) by lia. unfold RS485_MAX_NODES. destruct (Z.leb_spec 64 (n - 1)); [lia|].
  apply hoare_keep; [apply turn_now|]. intros now. apply turn_on_turn. apply hoare_keep; [apply turn_engine|]. intros _. apply turn_on_status.
  apply hoare_keep; [apply turn_mmetrics|]. intros _. apply hoare_keep; [by intros m ?|]. intros idle. apply turn_on_turn. apply hoare_ret.
  intros m [Ht Hs]. split; [done|]. split; [by rewrite Ht|]. unfold rs485_master_node_online, status_of. rewrite (u8_id (n - 1)) by lia. unfold RS485_MAX_NODES.
  destruct (Z.leb_spec 64 (n - 1)); [lia|]. unfold zget. destruct (Z.leb_spec 0 (n - 1)); [|lia]. rewrite Hs, list_lookup_alter_eq.
  assert (is_Some (l !! Z.to_nat (n - 1))) as [x ->] by (apply lookup_lt_is_Some; lia). done.
Qed.

Lemma master_hears T s l fresh n msg w :
  waiting_response s = true -> awaiting_node s = n -> current_msg_id s = msg -> 1 <= n <= 64 -> is_u16 msg -> length l = 64%nat ->
  hoare (master_at T s l fresh (Script (bus_message n msg RS485_FRAME_TYPE_ACK) w)) rs485_master_process_one (fun r m =>
    (r.1 = true /\ me_type r.2 = RS485_MASTER_EVENT_ACK) /\ acked n m).
Proof.
  intros Hw Hn Hm Hr Hmsg Hl. unfold rs485_master_process_one.
  apply hoare_keep; [apply at_now|]. intros t. apply hoare_keep; [apply at_now|]. intros t0.
  destruct (bus_message_wire n msg RS485_FRAME_TYPE_ACK) as [Hwire Hlen]; [lia|done|by vm_compute|].
  apply (hoare_bind _ _ _ (fun rx m => (rx.1 = RS485_ENGINE_RX_FRAME /\ node rx.2 = n /\ msg_id rx.2 = msg /\ ftype rx.2 = RS485_FRAME_TYPE_ACK /\ flen rx.2 = 0)
    /\ turn_at s l m)).
  { intros m [Ht Hs [Hwf He Hself Ha Hp _] _].
    destruct (receive_other (Frame n msg RS485_FRAME_TYPE_ACK 0 (replicate 64 0)) frame_zero (eng m)) as (f' & e' & (H1 & H2 & H3 & H4 & _) & Hrec & _);
      [apply empty_frame_wf; [lia|done|by vm_compute]|done|done|apply Hwf|done| | |].
    - rewrite !not_elem_of_cons. split_and!; try (by vm_compute). apply not_elem_of_nil.
    - rewrite Hp. cbn [recv script_port fst incoming]. rewrite take_ge; [done|]. rewrite Hlen. by vm_compute.
    - unfold on_engine, on_part. rewrite Hrec. by split_and!. }
  intros [rx f]. apply hoare_fact. cbn [fst snd]. intros (-> & <- & <- & Hty & Hfl).
  apply hoare_keep; [apply turn_now|]. intros t1. apply hoare_keep; [apply turn_profile|]. intros _.
  unfold process_frame. apply hoare_keep; [apply turn_now|]. intros t2. rewrite Hty, Hfl, !Z.eqb_refl. cbn [andb].
  apply (hoare_bind _ _ _ (fun ev m => me_type ev = RS485_MASTER_EVENT_ACK /\ acked (node f) m)).
  { eapply hoare_bind; [by apply on_ack_accepts|]. intros a. apply hoare_fact. intros [lat ->]. apply hoare_keep; [apply acked_profile|]. intros _.
    by apply hoare_ret. }
  intros ev. apply hoare_fact. intros Hev. apply hoare_keep; [apply acked_now|]. intros t3. apply hoare_keep; [apply acked_profile|]. intros _.
  apply hoare_keep; [apply acked_finish|]. intros _. by apply hoare_ret.
Qed.

(** *** The ticks *)

(** The fieldbus around a master in [K], with statistics in [S]. *)
Record fb (gateway : bool) (K : master script -> Prop) (S : bus_health -> histogram -> Prop) (b : fieldbus script) : Prop := {
  b_master : K (mst b);
  b_enabled : rs485_runtime_enabled b = true;
  b_gateway : rs485_master_enabled b = gateway;
  b_stats : S (health b) (hist b);
}.
Lemma fb_on_master {A} g K S (op : st (master script) A) K' : hoare K op K' -> hoare (fb g K S) (on_master op) (fun a => fb g (K' a) S).
Proof. intros Hop. eapply hoare_part; [exact Hop|by intros b []|]. intros b a m [] Hm. by split. Qed.

Section around.
Context (g : bool) (K : master script -> Prop) (S : bus_health -> histogram -> Prop) (Hnow : keeps K rs485_master_now_us).
Lemma fb_now : keeps (fb g K S) fieldbus_now.
Proof. apply (fb_on_master g K S rs485_master_now_us (fun _ => K)). exact Hnow. Qed.
Lemma fb_fprofile f : keeps (fb g K S) (on_fprofile f).
Proof. by intros b []. Qed.
#[local] Hint Resolve fb_now fb_fprofile : keeps.
Lemma fb_account t : keeps (fb g K S) (fieldbus_account t).
Proof.
  unfold fieldbus_account, bus_watchdog. keeps; match goal with Hb : fb _ _ _ ?w |- _ => destruct Hb end; case_match; by split.
Qed.
Lemma fb_timed {A} acc (m : st (fieldbus script) A) (Q : A -> fieldbus script -> Prop) :
  hoare (fb g K S) m Q -> (forall a, keeps (Q a) fieldbus_now) -> (forall a f, keeps (Q a) (on_fprofile f)) ->
  hoare (fb g K S) (timed acc m) Q.
Proof.
  intros Hm Hq Hp. unfold timed. apply hoare_keep; [apply fb_now|]. intros t0. eapply hoare_bind; [exact Hm|]. intros a.
  apply hoare_keep; [apply Hq|]. intros t1. apply hoare_keep; [apply Hp|]. intros _. by apply hoare_ret.
Qed.
End around.
#[local] Hint Resolve fb_now fb_fprofile fb_account : keeps.

(** What an event does to the statistics. *)
Definition event_health (ev : master_event) (h : bus_health) : bus_health :=
  match me_type ev with
  | RS485_MASTER_EVENT_ACK => bus_health_latency (me_latency_us ev) h
  | RS485_MASTER_EVENT_RETRY => bus_health_retry h
  | RS485_MASTER_EVENT_TIMEOUT => bus_health_timeout h
  | RS485_MASTER_EVENT_CRC_ERROR => bus_health_crc_error h
  | _ => h
  end.
Definition event_hist (ev : master_event) (h : histogram) : histogram :=
  match me_type ev with RS485_MASTER_EVENT_ACK => latency_histogram_record (me_latency_us ev) h | _ => h end.

Lemma gateway_tick K1 K2 (E : master_event -> Prop) h g :
  keeps K1 rs485_master_now_us -> (forall r : bool * master_event, keeps (K2 r) rs485_master_now_us) ->
  keeps K1 (on_engine rs485_engine_tick_1ms) -> (forall m, K1 m -> (rs485_master_has_work m).1 = true /\ K1 (rs485_master_has_work m).2) ->
  hoare K1 rs485_master_process_one (fun r m => (r.1 = true /\ E r.2) /\ K2 r m) ->
  hoare (fb true K1 (fun h' g' => h' = h /\ g' = g)) fieldbus_tick (fun _ b => exists r, E r.2 /\
    fb true (K2 r) (fun h' g' => h' = event_health r.2 h /\ g' = event_hist r.2 g) b).
Proof.
  intros Hk1 Hk2 Htick Hwork Hone. unfold fieldbus_tick. set (S0 := fun h' g' => h' = h /\ g' = g).
  apply hoare_keep; [by apply fb_now|]. intros start. apply (hoare_value _ _ _ _ true); [intros b []; split; [done|by split]|]. cbn [negb].
  apply (hoare_bind _ _ _ (fun _ => fb true K1 S0)).
  { apply fb_timed; [done| |intros; by apply fb_now|intros; apply fb_fprofile]. apply fb_on_master. exact Htick. }
  intros _. apply (hoare_value _ _ _ _ true); [intros b []; split; [done|by split]|].
  apply (hoare_bind _ _ _ (fun _ b => exists r, E r.2 /\ fb true (K2 r) (fun h' g' => h' = event_health r.2 h /\ g' = event_hist r.2 g) b)).
  - apply (hoare_value _ _ _ _ true).
    { intros b Hb. pose proof (Hwork _ (b_master _ _ _ _ Hb)) as [Hw Hk]. unfold on_master, on_part. destruct (rs485_master_has_work _) as [w m]. destruct Hb. by split. }
    apply (hoare_bind _ _ _ (fun r b => (r.1 = true /\ E r.2) /\ fb true (K2 r) S0 b)).
    { apply fb_timed; [done| |intros r b [? ?]; split; [done|by apply fb_now]|intros r f b [? ?]; split; [done|by apply fb_fprofile]].
      eapply hoare_post; [apply fb_on_master; exact Hone|]. intros r b [[Hr Hm] ? ? ?]. split; [done|by split]. }
    intros r. apply hoare_fact. intros [Hr HE]. rewrite Hr. unfold handle.
    set (Q := fb true (K2 r) (fun h' g' => h' = event_health r.2 h /\ g' = event_hist r.2 g)).
    eapply (hoare_post _ _ (fun _ => Q)); [|intros _ b Hb; by exists r].
    apply fb_timed; [done| |intros; by apply fb_now|intros; apply fb_fprofile].
    apply hoare_keep; [by apply fb_now|]. intros now. unfold Q, event_health, event_hist. clear Q. intros b [? ? ? [Hh Hg]]. unfold fieldbus_handle_event.
    rewrite <- Hh, <- Hg. destruct (me_type r.2); by split.
  - intros _ b (r & HE & Hb). exists r. split; [done|]. by apply fb_account.
Qed.

Lemma field_tick K1 K2 K3 :
  keeps K1 rs485_master_now_us -> keeps K2 rs485_master_now_us -> keeps K3 rs485_master_now_us ->
  hoare K1 (on_engine rs485_engine_tick_1ms) (fun _ => K2) -> hoare K2 (on_engine (rs485_engine_receive frame_zero)) (fun _ => K3) ->
  hoare (fb false K1 (fun _ _ => True)) fieldbus_tick (fun _ => fb false K3 (fun _ _ => True)).
Proof.
  intros Hk1 Hk2 Hk3 Htick Hrec. unfold fieldbus_tick. set (S0 := fun (_ : bus_health) (_ : histogram) => True).
  apply hoare_keep; [by apply fb_now|]. intros start. apply (hoare_value _ _ _ _ true); [intros b []; split; [done|by split]|]. cbn [negb].
  apply (hoare_bind _ _ _ (fun _ => fb false K2 S0)).
  { apply fb_timed; [done| |intros; by apply fb_now|intros; apply fb_fprofile]. by apply fb_on_master. }
  intros _. apply (hoare_value _ _ _ _ false); [intros b []; split; [done|by split]|].
  apply (hoare_bind _ _ _ (fun _ => fb false K3 S0)); [|intros _; by apply fb_account].
  apply (hoare_bind _ _ _ (fun _ => fb false K3 S0)).
  { apply fb_timed; [done| |intros; by apply fb_now|intros; apply fb_fprofile]. by apply fb_on_master. }
  intros [rx f]. cbn [fst]. case_bool_decide; [by apply hoare_ret|]. unfold handle.
  apply fb_timed; [done| |intros; by apply fb_now|intros; apply fb_fprofile].
  apply hoare_keep; [by apply fb_now|]. intros now b []. by destruct rx.
Qed.

(** *** The field node's two ticks, seen by its engine *)

Lemma engine_now (J : engine script -> Prop) : (forall e c, J e -> J (e <| the_clock := c |>)) -> keeps (fun m => J (eng m)) rs485_master_now_us.
Proof. intros HJ m Hm. unfold rs485_master_now_us, on_engine, esp_timer_get_time, on_part. rewrite run_bind_surj. cbn. by apply HJ. Qed.
Lemma engine_op {A} (J J' : engine script -> Prop) (op : st (engine script) A) :
  hoare J op (fun _ => J') -> hoare (fun m => J (eng m)) (on_engine op) (fun _ m => J' (eng m)).
Proof. intros Hop m Hm. specialize (Hop _ Hm). unfold on_engine, on_part. by destruct (op (eng m)). Qed.

(** A node that is to answer a poll with [ack]. *)
Record answering (ack : list Z) (p : script) (e : engine script) : Prop := {
  a_enabled : engine_enabled e = true;
  a_pending : ack_pending e = true;
  a_type : ftype (pending_ack_frame e) = RS485_FRAME_TYPE_ACK;
  a_frame : encode_wire_frame (pending_ack_frame e) RS485_FRAME_WIRE_MAX = Some ack;
  a_port : the_port e = p;
}.
Definition node_up (n : Z) (p : script) (e : engine script) : Prop := engine_up false p e /\ local_node_id e = n.

Lemma node_tick n p : hoare (node_up n p) rs485_engine_tick_1ms (fun _ => node_up n p).
Proof.
  intros e [He Hn]. split; [by apply tick_up|]. destruct He. by rewrite rs485_engine_tick_idle.
Qed.
Lemma node_hears n msg w : 1 <= n <= 64 -> is_u16 msg ->
  hoare (node_up n (Script (bus_message n msg RS485_FRAME_TYPE_POLL) w)) (rs485_engine_receive frame_zero)
    (fun _ => answering (bus_message n msg RS485_FRAME_TYPE_ACK) (Script [] w)).
Proof.
  intros Hn Hm e [[Hw He Hs Ha Hp _] Hid].
  destruct (bus_message_wire n msg RS485_FRAME_TYPE_POLL) as [Hpoll Hlen]; [lia|done|by vm_compute|].
  destruct (bus_message_wire n msg RS485_FRAME_TYPE_ACK) as [Hack _]; [lia|done|by vm_compute|].
  assert (recv RS485_ENGINE_RX_BYTES_PER_CALL (the_port e) = (bus_message n msg RS485_FRAME_TYPE_POLL, Script [] w)) as Hrecv.
  { rewrite Hp. cbn [recv script_port incoming outgoing update]. rewrite take_ge, drop_ge by (rewrite Hlen; by vm_compute). done. }
  destruct (receive_poll e frame_zero n msg Hs (ew_parser _ Hw) Hid Hn Hm (ew_ack _ Hw) eq_refl) as (ack & f' & e2 & Hack' & -> & H1 & H2 & H3 & H4 & H5).
  { rewrite Hrecv. exact Hpoll. }
  rewrite Hack in Hack'. injection Hack' as <-. rewrite Hrecv in H5. cbn [snd]. split; [by rewrite H1|done|done|done|exact H5].
Qed.
Lemma node_answers ack w : hoare (answering ack (Script [] w)) rs485_engine_tick_1ms (fun _ e => the_port e = Script [] (w ++ [ack])).
Proof. intros e [He Ha Ht Hf Hp]. destruct (tick_sends_ack e ack He Ha Ht Hf) as [-> _]. by rewrite Hp. Qed.

Definition port_is (p : script) (e : engine script) : Prop := the_port e = p.
Lemma port_now p : keeps (fun m => port_is p (eng m)) rs485_master_now_us.
Proof. by apply engine_now. Qed.
Lemma answering_now ack p : keeps (fun m => answering ack p (eng m)) rs485_master_now_us.
Proof. apply engine_now. by intros e c []. Qed.
Lemma node_up_now n p : keeps (fun m => node_up n p (eng m)) rs485_master_now_us.
Proof. apply engine_now. intros e c [[[] ? ? ? ? ?] ?]. split; [|done]. by split; [split|..]. Qed.
Lemma port_reads w : hoare (port_is (Script [] w)) (rs485_engine_receive frame_zero) (fun _ => port_is (Script [] w)).
Proof. intros e He. unfold port_is in *. by rewrite receive_reads, He. Qed.

Abbreviation any := (fun (_ : bus_health) (_ : histogram) => True).
Lemma first_tick n msg w : 1 <= n <= 64 -> is_u16 msg ->
  hoare (fb false (fun m => node_up n (Script (bus_message n msg RS485_FRAME_TYPE_POLL) w) (eng m)) any) fieldbus_tick
    (fun _ => fb false (fun m => answering (bus_message n msg RS485_FRAME_TYPE_ACK) (Script [] w) (eng m)) any).
Proof.
  intros Hn Hm. eapply field_tick; [apply node_up_now|apply node_up_now|apply answering_now| |].
  - apply engine_op, node_tick.
  - by apply engine_op, node_hears.
Qed.
Lemma second_tick ack w :
  hoare (fb false (fun m => answering ack (Script [] w) (eng m)) any) fieldbus_tick
    (fun _ => fb false (fun m => port_is (Script [] (w ++ [ack])) (eng m)) any).
Proof.
  eapply field_tick; [apply answering_now|apply port_now|apply port_now| |].
  - apply engine_op, node_answers.
  - apply engine_op, port_reads.
Qed.

(** *** The round trip *)

(** A gateway between two polls, when one is due. *)
Definition gateway_ready (g : fieldbus script) : Prop :=
  let m := mst g in
  rs485_runtime_enabled g = true /\ rs485_master_enabled g = true /\
  master_at (next_poll_due_us (turn_of m)) (turn_of m) (status m) true (Script [] (bus_out g)) m /\
  idle_turn (turn_of m) /\ length (status m) = 64%nat.
(** A field node with address [n] that has nothing to do. *)
Definition field_ready (n : Z) (f : fieldbus script) : Prop :=
  rs485_runtime_enabled f = true /\ rs485_master_enabled f = false /\ node_up n (Script [] (bus_out f)) (eng (mst f)).

Lemma master_at_work T s l p : next_poll_due_us s <= T \/ waiting_response s = true ->
  forall m, master_at T s l true p m -> (rs485_master_has_work m).1 = true /\ master_at T s l true p (rs485_master_has_work m).2.
Proof.
  intros Hs m Hm. revert m Hm. change (hoare (master_at T s l true p) rs485_master_has_work (fun w m => w = true /\ master_at T s l true p m)).
  unfold rs485_master_has_work. eapply hoare_bind; [apply at_now_value|]. intros now. apply hoare_fact. intros Hnow.
  apply (hoare_value _ _ _ _ s); [intros m Hm; split; [exact (m_turn _ _ _ _ _ _ Hm)|exact Hm]|]. apply hoare_ret. intros m Hm. split; [|done].
  destruct (waiting_response s), (retry_pending s); try done. destruct Hs; [|done]. apply Z.leb_le. lia.
Qed.
Lemma master_at_tick T s l p : keeps (master_at T s l true p) (on_engine rs485_engine_tick_1ms).
Proof.
  intros m Hm. apply (on_engine_at T s l true true p p rs485_engine_tick_1ms (fun _ => True) (fun r k => later_tick r k)); [|done].
  intros e He. split; [done|by apply tick_up].
Qed.

(** C28: a poll and its answer, end to end.  A gateway that is due polls the node
    whose turn it is; a field node with that address, given those bytes, answers
    at its next tick; and given the answer the gateway's next tick records the
    node as online, ends the wait and adds the latency to the statistics. *)
Theorem poll_round_trip (g f : fieldbus script) :
  let s := turn_of (mst g) in let n := current_node s + 1 in
  let poll := bus_message n (msg_id_counter s) RS485_FRAME_TYPE_POLL in
  let ack := bus_message n (msg_id_counter s) RS485_FRAME_TYPE_ACK in
  gateway_ready g -> field_ready n f ->
  let g1 := (fieldbus_tick g).2 in
  let f2 := (fieldbus_tick (fieldbus_tick (deliver poll f)).2).2 in
  let g2 := (fieldbus_tick (deliver ack g1)).2 in
  bus_out g1 = bus_out g ++ [poll] /\ bus_out f2 = bus_out f ++ [ack] /\
  rs485_master_node_online n (mst g2) = 1 /\ waiting_response (turn_of (mst g2)) = false /\
  exists latency, health g2 = bus_health_latency latency (health g) /\ hist g2 = latency_histogram_record latency (hist g).
Proof.
  cbv zeta. intros (Hen & Hgw & Hat & Hidle & Hlen) (Hfen & Hfgw & Hup). set (s := turn_of (mst g)) in *. set (l := status (mst g)) in *.
  set (T := next_poll_due_us s) in *. set (n := current_node s + 1) in *. set (id := msg_id_counter s) in *.
  set (poll := bus_message n id RS485_FRAME_TYPE_POLL). set (ack := bus_message n id RS485_FRAME_TYPE_ACK).
  pose proof Hidle as (_ & _ & Hc & Hid).
  set (polled := fun (_ : bool * master_event) m => exists s', waiting_response s' = true /\ awaiting_node s' = n /\ current_msg_id s' = id /\
    master_at T s' l true (Script [] (bus_out g ++ [poll])) m).
  destruct (gateway_tick (master_at T s l true (Script [] (bus_out g))) polled (fun ev => me_type ev = RS485_MASTER_EVENT_TX) (health g) (hist g)
    (at_now T s l true _) ltac:(intros r m (s' & ? & ? & ? & ?); exists s'; split_and!; try done; by apply at_now) (master_at_tick T s l _)
    (master_at_work T s l _ (or_introl (Z.le_refl T))) (master_polls T s l (bus_out g) Hidle (Z.le_refl T)) g ltac:(by split))
    as (r & Hr & Hb). set (g1 := (fieldbus_tick g).2) in *. destruct Hb as [(s' & Hw & Ha & Hm & Hat1) Hen1 Hgw1 Hst].
  unfold event_health, event_hist in Hst. rewrite Hr in Hst. destruct Hst as [Hh Hg].
  pose proof (u_port _ _ _ (m_engine _ _ _ _ _ _ Hat1)) as Hport.
  split; [unfold bus_out at 1; by rewrite Hport|]. split.
  - set (w := bus_out f) in *.
    assert (fb false (fun m => answering ack (Script [] w) (eng m)) (fun _ _ => True) (fieldbus_tick (deliver poll f)).2) as Hf1.
    { apply first_tick; [unfold n; lia|done|].
      split; [|done..]. destruct Hup as [[Hwf ? ? ? Hp ?] ?]. split; [|done]. cbn [eng mst deliver update]. destruct Hwf. split; [by split|done..| |done].
        cbn [the_port update]. rewrite Hp. done. }
    pose proof (second_tick ack w _ Hf1) as [Hp2 _ _ _]. unfold bus_out. by rewrite Hp2.
  - destruct (gateway_tick (master_at T s' l true (Script ack (bus_out g ++ [poll]))) (fun _ => acked n) (fun ev => me_type ev = RS485_MASTER_EVENT_ACK) (health g) (hist g)
      (at_now T s' l true _) (fun _ => acked_now n) (master_at_tick T s' l _) (master_at_work T s' l _ (or_intror Hw))
      (master_hears T s' l true n id _ Hw Ha Hm ltac:(unfold n; lia) Hid Hlen) (deliver ack g1)) as (r2 & Hr2 & Hb2).
    { split; [|done..]. destruct Hat1 as [Ht1 Hl1 [Hwf ? ? ? Hp ?] Hclk]. split; [done|done| |done]. destruct Hwf. split; [by split|done..| |done].
      cbn [the_port eng mst deliver update]. rewrite Hp. done. }
    destruct Hb2 as [[Hnw Hon] _ _ Hst2]. unfold event_health, event_hist in Hst2. rewrite Hr2 in Hst2. split; [done|]. split; [done|]. by exists (me_latency_us r2.2).
Qed.

(** ** Concrete run *)

(** A gateway whose first poll is due, and the node with address 1 (its MAC
    address ends in 64). *)
Definition node_1_mac : list Z := [36; 111; 40; 0; 0; 64].
Definition demo_bus (gateway : bool) : fieldbus script :=
  (fieldbus_init true gateway (fieldbus_zero (master_zero (engine_zero (Script [] []) (slow_clock 5000) (Some node_1_mac))))).2.

(** What the engine's own routines keep, initialization keeps. *)
Section init.
Context (J : engine script -> Prop).
Context (Htime : keeps J esp_timer_get_time) (Hinit : keeps J rs485_engine_init) (Henable : keeps J rs485_engine_enable).
Definition on_bus (b : fieldbus script) : Prop := J (eng (mst b)).
Lemma keeps_engine {A} (op : st (engine script) A) : keeps J op -> keeps (fun m => J (eng m)) (on_engine op).
Proof. intros Hop m Hm. specialize (Hop _ Hm). unfold on_engine, on_part. by destruct (op (eng m)). Qed.
Lemma keeps_master {A} (op : st (master script) A) : keeps (fun m => J (eng m)) op -> keeps on_bus (on_master op).
Proof. intros Hop b Hb. specialize (Hop _ Hb). unfold on_master, on_part. by destruct (op (mst b)). Qed.
Lemma keeps_time : keeps (fun m => J (eng m)) rs485_master_now_us.
Proof. unfold rs485_master_now_us. keeps. by apply keeps_engine. Qed.
Lemma keeps_master_init : keeps (fun m => J (eng m)) rs485_master_init.
Proof.
  unfold rs485_master_init, rs485_master_schedule_next_poll, on_turn. keeps; try done; [by apply keeps_engine..|apply keeps_time].
Qed.
Lemma fieldbus_init_keeps on gw : keeps on_bus (fieldbus_init on gw).
Proof.
  unfold fieldbus_init, fieldbus_now. keeps; try done; apply keeps_master; [apply keeps_time|apply keeps_master_init|by apply keeps_engine..].
Qed.
End init.

Lemma enable_wf : keeps (@engine_wf script) rs485_engine_enable.
Proof. intros e He. by apply (engine_step_wf _ _ (step_enable e)). Qed.
Lemma demo_wf gw : engine_wf (eng (mst (demo_bus gw))).
Proof. apply (fieldbus_init_keeps _ esp_timer_get_time_wf rs485_engine_init_wf enable_wf), engine_zero_wf. Qed.
Lemma demo_clock gw : readings (the_clock (eng (mst (demo_bus gw)))) = readings (slow_clock 5000).
Proof.
  assert (on_bus (later_than (readings (slow_clock 5000)) 0) (demo_bus gw)) as [Hr _]; [|exact Hr]. apply fieldbus_init_keeps.
  - apply later_time.
  - unfold rs485_engine_init, node_identity_init. keeps; try done; by case_match.
  - by apply keeps_modify.
  - split; [reflexivity|cbn; lia].
Qed.

Lemma demo_gateway_ready : gateway_ready (demo_bus true).
Proof.
  split; [by vm_compute|]. split; [by vm_compute|]. split; [|split; [by vm_compute|by vm_compute]]. split; [done|done| |].
  - split; [apply demo_wf|by vm_compute..].
  - intros k Hk. assert (next_poll_due_us (turn_of (mst (demo_bus true))) = 9000) as -> by (by vm_compute).
    assert (taken (the_clock (eng (mst (demo_bus true)))) = 2%nat) as Ht by (by vm_compute). rewrite Ht in Hk.
    rewrite demo_clock.
    cbn [slow_clock readings]. rewrite u64_id; lia.
Qed.
Lemma demo_field_ready : field_ready 1 (demo_bus false).
Proof.
  split; [by vm_compute|]. split; [by vm_compute|]. split; [|by vm_compute]. split; [apply demo_wf|by vm_compute..|done].
Qed.

Lemma poll_round_trip_witness :
  (gateway_ready (demo_bus true) /\ field_ready 1 (demo_bus false)) /\
  bus_out (fieldbus_tick (demo_bus true)).2 = [bus_message 1 1 RS485_FRAME_TYPE_POLL].
Proof.
  split; [exact (conj demo_gateway_ready demo_field_ready)|].
  exact (proj1 (poll_round_trip (demo_bus true) (demo_bus false) demo_gateway_ready demo_field_ready)).
Defined.
