(* ===== verification/IoDriver.v ===== *)
(** * The input and output driver and the image of the inputs and outputs
    ([components/runtime/io_driver/io_driver.c], [components/data/io_image/io_image.c])

    The driver samples the inputs every cycle, publishes the debounced values
    in the state table, and drives the pins of the outputs whose state or whose
    owner has changed.  The pins and the converter are the class [Hardware]; the
    bindings of [io_binding.c] are arguments. *)

From Stdlib Require Import String Ascii.
From S2P Require Import Prelude EventBus State DeviceProfile Pve Failsafe Cluster.
Local Open Scope string_scope.
Local Open Scope list_scope.
Local Open Scope Z_scope.

(** ** The image

    [input_read], [input_write], [output_read] and [output_write] point to four
    distinct buffers; exchanging two pointers exchanges the buffers. *)

Definition IO_MAX : Z := 256.
Record io_image := IoImage { input_read : list Z; input_write : list Z; output_read : list Z; output_write : list Z }.
#[export] Instance io_image_rebuild : Rebuild io_image := fun m =>
  IoImage (input_read m) (input_write m) (output_read m) (output_write m).

Definition io_image_clear : list Z := replicate (Z.to_nat IO_MAX) 0.
Definition io_image_init : io_image := IoImage io_image_clear io_image_clear io_image_clear io_image_clear.
Definition io_image_set_input (id value : Z) (m : io_image) : io_image :=
  if IO_MAX <=? id then m else m <| input_write := zset (input_write m) id value |>.
Definition io_image_get_input (id : Z) (m : io_image) : Z :=
  if IO_MAX <=? id then 0 else default 0 (zget (input_read m) id).
Definition io_image_set_output (id value : Z) (m : io_image) : io_image :=
  if IO_MAX <=? id then m else m <| output_write := zset (output_write m) id value |>.
Definition io_image_get_output (id : Z) (m : io_image) : Z :=
  if IO_MAX <=? id then 0 else default 0 (zget (output_read m) id).
Definition io_image_scan_inputs (m : io_image) : io_image :=
  m <| input_read := input_write m |> <| input_write := input_read m |>.
Definition io_image_apply_outputs (m : io_image) : io_image :=
  m <| output_read := output_write m |> <| output_write := io_image_clear |>.

(** ** Data *)

Definition INPUT_DEBOUNCE_SAMPLES : Z := 8.
Definition INPUT_DIAG_PERIOD_US : Z := 5 * 1000 * 1000.
Definition IO_DRIVER_MAX_OUTPUTS : nat := 16.
Definition IO_DRIVER_MAX_INPUTS : nat := 16.
Definition ADC_DEADBAND_COUNTS : Z := 64.
Definition ADC_SETTLE_SAMPLES : Z := 3.

Definition GPIO_NUM_34 : Z := 34.
Definition GPIO_NUM_35 : Z := 35.
Definition ADC_UNIT_1 : Z := 0.

(** What the driver reads of [io_binding_input_view_t] and
    [io_binding_output_view_t]. *)
Record binding := Binding { bd_id : Z; bd_gpio : Z; bd_backend : Z; bd_endpoint : Z }.
Record output_channel := OutputChannel { oc_id : Z; oc_gpio : Z; oc_active_low : bool }.
Record input_channel := InputChannel {
  ic_id : Z;
  ic_gpio : Z;
  ic_active_low : bool;
  debounce_samples : Z;
  last_sample : Z;
  stable_value : Z;
  stable_count : Z;
  raw_edges : Z;
  stable_edges : Z;
  reported_raw_edges : Z;
  reported_stable_edges : Z;
  recent_raw_edges : Z;
  recent_stable_edges : Z;
  recent_noise_edges : Z;
  backend : Z;
  endpoint_index : Z;
  last_adc_raw : Z;
  adc_settle_count : Z;
}.
#[export] Instance input_channel_rebuild : Rebuild input_channel := fun c =>
  InputChannel (ic_id c) (ic_gpio c) (ic_active_low c) (debounce_samples c) (last_sample c) (stable_value c)
    (stable_count c) (raw_edges c) (stable_edges c) (reported_raw_edges c) (reported_stable_edges c)
    (recent_raw_edges c) (recent_stable_edges c) (recent_noise_edges c) (backend c) (endpoint_index c)
    (last_adc_raw c) (adc_settle_count c).

(** [io_driver_input_diag_t] *)
Record input_diag := InputDiag {
  dg_id : Z; dg_level : Z; dg_raw : Z; dg_stable : Z; dg_noise : Z; dg_recent_raw : Z; dg_recent_stable : Z; dg_recent_noise : Z }.

(** ** The hardware

    ESP-IDF's GPIO and ADC drivers.  [driven] is the level a pin configured as
    an output puts out; the documentation of [gpio_get_level] says that the
    value read back from a pin that is only an output is always 0. *)

Inductive gpio_mode := GPIO_MODE_INPUT | GPIO_MODE_OUTPUT.
Class Hardware (G : Type) := {
  gpio_config : Z -> gpio_mode -> bool -> bool -> G -> G;     (* pin, mode, pull up, pull down *)
  gpio_set_level : Z -> Z -> G -> G;
  gpio_get_level : Z -> G -> Z;
  adc_oneshot_new_unit : st G bool;
  adc_oneshot_io_to_channel : Z -> option (Z * Z);            (* unit, channel *)
  adc_oneshot_config_channel : Z -> st G bool;
  adc_oneshot_read : Z -> st G (option Z);
}.
Class HardwareLaws (G : Type) `{Hardware G} := {
  driven : Z -> G -> Z;
  only_output : Z -> G -> Prop;
  driven_set p v g : driven p (gpio_set_level p v g) = v;
  driven_set_ne p q v g : p <> q -> driven q (gpio_set_level p v g) = driven q g;
  driven_config p q m u d g : p <> q -> driven q (gpio_config p m u d g) = driven q g;
  only_output_config p u d g : only_output p (gpio_config p GPIO_MODE_OUTPUT u d g);
  only_output_config_ne p q m u d g : p <> q -> only_output q g -> only_output q (gpio_config p m u d g);
  only_output_set p q v g : only_output q g -> only_output q (gpio_set_level p v g);
  only_output_level p g : only_output p g -> gpio_get_level p g = 0;
  level_adc_read p c g : gpio_get_level p (adc_oneshot_read c g).2 = gpio_get_level p g;
  driven_adc_new p g : driven p (adc_oneshot_new_unit g).2 = driven p g;
  driven_adc_config p c g : driven p (adc_oneshot_config_channel c g).2 = driven p g;
  driven_adc_read p c g : driven p (adc_oneshot_read c g).2 = driven p g;
  only_output_adc_new p g : only_output p g -> only_output p (adc_oneshot_new_unit g).2;
  only_output_adc_config p c g : only_output p g -> only_output p (adc_oneshot_config_channel c g).2;
  only_output_adc_read p c g : only_output p g -> only_output p (adc_oneshot_read c g).2;
}.

(** ** The driver's state, with the modules it calls *)

Record iow {G : Type} := Iow {
  sto : store;
  output_table : list output_channel;
  input_table : list input_channel;
  local_mask : Z;
  last_diag_report_us : Z;
  adc1_initialized : bool;
  image : io_image;
  pvars : pve;
  owners : cluster_io;
  fsafe : failsafe;
  hw : G;
}.
Arguments iow : clear implicits.
Arguments Iow {G}.
#[export] Instance iow_rebuild {G} : Rebuild (iow G) := fun w =>
  Iow (sto w) (output_table w) (input_table w) (local_mask w) (last_diag_report_us w) (adc1_initialized w) (image w)
    (pvars w) (owners w) (fsafe w) (hw w).

(** ** Helpers *)

Definition io_driver_clamp_debounce_samples (configured : Z) : Z :=
  if configured <? INPUT_DEBOUNCE_SAMPLES then INPUT_DEBOUNCE_SAMPLES else if 32 <? configured then 32 else configured.
Definition io_driver_output_gpio_level (ch : output_channel) (logical_on : bool) : Z :=
  if oc_active_low ch then (if logical_on then 0 else 1) else (if logical_on then 1 else 0).
Definition io_driver_state_shadow_assign (id value : Z) (shadow : list Z) : list Z :=
  if STATE_MAX_ENTRIES <=? id then shadow else zset shadow id value.
(** [active_low ? (level == 0) : (level != 0)] *)
Definition logical_level (active_low : bool) (level : Z) : Z :=
  if xorb active_low (negb (level =? 0)) then 1 else 0.

(** Loading the two tables from the bindings; a binding without a profile is
    skipped. *)
Definition load_output (b : binding) : option output_channel :=
  (fun c => OutputChannel (op_id c) (bd_gpio b) (op_active_low c)) <$> device_profile_find_output (bd_id b).
Definition load_input (b : binding) : option input_channel :=
  (fun c => InputChannel (ip_id c) (bd_gpio b) (ip_active_low c)
     (io_driver_clamp_debounce_samples (ip_debounce_samples c)) 0 0 0 0 0 0 0 0 0 0 (bd_backend b) (bd_endpoint b) 0 0)
    <$> device_profile_find_input (bd_id b).

(** ** Operations *)

Section driver.
Context {G : Type} `{Hardware G}.
Implicit Types w : iow G.
Abbreviation M := (st (iow G)).

Definition on_hw {A} (m : st G A) : M A := on_part hw (fun g w => w <| hw := g |>) m.
Definition on_store {A} (m : st store A) : M A := on_part sto (fun s w => w <| sto := s |>) m.
Definition on_image (f : io_image -> io_image) : M () := modify (fun w => w <| image := f (image w) |>).
(** [pve_update(&pve_variables[i], raw)], with the event bus and the clock. *)
Definition on_pve_update (i : nat) (raw : Z) : M () :=
  on_part (fun w => Pw (pvars w) (bus (sto w)) tt (st_clock (sto w)))
    (fun p w => w <| pvars := pv p |> <| sto := sto w <| bus := pw_bus p |> <| st_clock := pw_clock p |> |>)
    (pve_update i raw).
Definition on_failsafe {A} (m : st (fsw store ()) A) : M A :=
  on_part (fun w => Fsw (fsafe w) (sto w) tt) (fun f w => w <| fsafe := fs f |> <| sto := fs_world f |>) m.
Definition upd_input (i : nat) (f : input_channel -> input_channel) : M () :=
  modify (fun w => w <| input_table := alter f i (input_table w) |>).
Definition set_local (b : bool) (i : nat) : M () :=
  modify (fun w => w <| local_mask := if b then Z.lor (local_mask w) (u32 (Z.shiftl 1 (Z.of_nat i)))
                                      else Z.ldiff (local_mask w) (u32 (Z.shiftl 1 (Z.of_nat i))) |>).
Definition set_pending (b : bool) (i : nat) : M () :=
  on_store (modify (fun s => s <| pending_mask := if b then Z.lor (pending_mask s) (u32 (Z.shiftl 1 (Z.of_nat i)))
                                                  else Z.ldiff (pending_mask s) (u32 (Z.shiftl 1 (Z.of_nat i))) |>)).

(** [pve_update] for the two inputs that feed a process variable. *)
Definition feed_pve (gpio raw : Z) : M () :=
  if gpio =? GPIO_NUM_34 then on_pve_update 0 raw
  else if gpio =? GPIO_NUM_35 then on_pve_update 1 raw else mret tt.

(** [io_driver_load_profile] *)
Definition io_driver_load_profile (output_views input_views : list binding) : M () :=
  modify (fun w =>
    let os := take IO_DRIVER_MAX_OUTPUTS (omap load_output output_views) in
    let ins := take IO_DRIVER_MAX_INPUTS (omap load_input input_views) in
    w <| output_table := os |> <| input_table := ins |>
      <| sto := sto w <| output_ids := oc_id <$> os |> <| input_ids := ic_id <$> ins |> |>).

(** One output of [io_driver_init]; the shadow of the state table is passed
    along. *)
Definition init_output (i : nat) (shadow : list Z) : M (list Z) :=
  w ← gets (fun w => w);
  match output_table w !! i with
  | None => mret shadow
  | Some ch =>
    if oc_gpio ch =? GPIO_NUM_NC then
      on_image (io_image_set_output (oc_id ch) 0);;
      mret (io_driver_state_shadow_assign (oc_id ch) 0 shadow)
    else
      on_hw (modify (gpio_config (oc_gpio ch) GPIO_MODE_OUTPUT false false));;
      let restored_value := default 0 (state_get_int (oc_id ch) (sto w)) in
      r ← on_failsafe (failsafe_startup_value (oc_id ch) restored_value);
      let boot_value := from_option fst 0 r in
      on_hw (modify (gpio_set_level (oc_gpio ch) (io_driver_output_gpio_level ch (negb (boot_value =? 0)))));;
      set_local true i;;
      mret (io_driver_state_shadow_assign (oc_id ch) boot_value shadow)
  end.

(** One input of [io_driver_init]; [analog] counts the analog ones so far. *)
Definition init_adc (gpio : Z) (i : nat) : M () :=
  w ← gets (fun w => w);
  (if adc1_initialized w then mret tt
   else ok ← on_hw adc_oneshot_new_unit; modify (fun w => w <| adc1_initialized := ok |>));;
  w ← gets (fun w => w);
  if adc1_initialized w then
    match adc_oneshot_io_to_channel gpio with
    | Some (unit, channel) =>
      if unit =? ADC_UNIT_1 then
        upd_input i (fun c => c <| endpoint_index := channel |>);;
        on_hw (adc_oneshot_config_channel channel);; mret tt
      else mret tt
    | None => mret tt
    end
  else mret tt.
Definition init_input (i : nat) (r : list Z * Z) : M (list Z * Z) :=
  let '(shadow, analog) := r in
  w ← gets (fun w => w);
  match input_table w !! i with
  | None => mret r
  | Some ch =>
    if backend ch =? DEVICE_CHANNEL_BACKEND_ADC_NATIVE then
      init_adc (ic_gpio ch) i;;
      upd_input i (fun c => c <| last_adc_raw := 0 |> <| stable_value := 0 |> <| stable_count := u8 (analog mod 10) |>);;
      w ← gets (fun w => w);
      (if adc1_initialized w then
         v ← on_hw (adc_oneshot_read (from_option endpoint_index 0 (input_table w !! i)));
         match v with
         | Some raw => upd_input i (fun c => c <| last_adc_raw := raw |> <| stable_value := u8 raw |>)
         | None => mret tt
         end
       else mret tt);;
      w ← gets (fun w => w);
      let raw := from_option last_adc_raw 0 (input_table w !! i) in
      on_image (io_image_set_input (ic_id ch) raw);;
      feed_pve (ic_gpio ch) raw;;
      mret (io_driver_state_shadow_assign (ic_id ch) raw shadow, analog + 1)
    else if ic_gpio ch =? GPIO_NUM_NC then
      upd_input i (fun c => c <| last_sample := 0 |> <| stable_value := 0 |> <| stable_count := debounce_samples c |>);;
      on_image (io_image_set_input (ic_id ch) 0);;
      mret (io_driver_state_shadow_assign (ic_id ch) 0 shadow, analog)
    else
      on_hw (modify (gpio_config (ic_gpio ch) GPIO_MODE_INPUT (ic_active_low ch) (negb (ic_active_low ch))));;
      level ← gets (fun w => gpio_get_level (ic_gpio ch) (hw w));
      let logical := logical_level (ic_active_low ch) level in
      upd_input i (fun c => c <| last_sample := logical |> <| stable_value := logical |>
                              <| stable_count := debounce_samples c |>);;
      on_image (io_image_set_input (ic_id ch) logical);;
      mret (io_driver_state_shadow_assign (ic_id ch) logical shadow, analog)
  end.

(** [for (...)] with an accumulator. *)
Fixpoint for_fold {A} (body : nat -> A -> M A) (l : list nat) (a : A) : M A :=
  match l with
  | [] => mret a
  | i :: l => a ← body i a; for_fold body l a
  end.

Definition io_driver_init (output_views input_views : list binding) : M () :=
  io_driver_load_profile output_views input_views;;
  modify (fun w => w <| local_mask := 0 |> <| last_diag_report_us := 0 |>
                     <| sto := sto w <| pending_mask := 0 |> |>);;
  w ← gets (fun w => w);
  shadow ← for_fold init_output (seq 0 (length (output_table w))) (state_export_snapshot STATE_MAX_ENTRIES (sto w));
  r ← for_fold init_input (seq 0 (length (input_table w))) (shadow, 0);
  on_store (modify (state_import_snapshot r.1 STATE_MAX_ENTRIES)).

(** *** The scan of the inputs *)

(** A sample of a digital input: the channel, and whether its debounced value
    has changed. *)
Definition debounce (logical : Z) (c : input_channel) : input_channel * bool :=
  let c :=
    if negb (logical =? last_sample c) then
      c <| last_sample := logical |> <| stable_count := 1 |> <| raw_edges := u32 (raw_edges c + 1) |>
    else if stable_count c <? debounce_samples c then c <| stable_count := u8 (stable_count c + 1) |> else c in
  if (debounce_samples c <=? stable_count c) && negb (stable_value c =? logical)
  then (c <| stable_value := logical |> <| stable_edges := u32 (stable_edges c + 1) |>, true) else (c, false).

(** A sample of an analog input: the channel, and whether its value is
    published in the state table. *)
Definition settle (raw_val : Z) (c : input_channel) : input_channel * bool :=
  if ADC_DEADBAND_COUNTS <=? Z.abs (i32 (raw_val - last_adc_raw c)) then
    let c := c <| adc_settle_count := u8 (adc_settle_count c + 1) |> in
    if ADC_SETTLE_SAMPLES <=? adc_settle_count c
    then (c <| last_adc_raw := raw_val |> <| adc_settle_count := 0 |>, true) else (c, false)
  else (c <| adc_settle_count := 0 |>, false).

Definition scan_analog (i : nat) (c : input_channel) : M () :=
  let count := u8 (stable_count c + 1) in
  if count <? 10 then upd_input i (fun c => c <| stable_count := count |>)
  else
    upd_input i (fun c => c <| stable_count := 0 |>);;
    ready ← gets adc1_initialized;
    if negb ready then mret tt
    else
      v ← on_hw (adc_oneshot_read (endpoint_index c));
      match v with
      | None => mret tt
      | Some raw_val =>
        upd_input i (fun c => (settle raw_val c).1);;
        (if (settle raw_val c).2 then on_store (state_set_int (ic_id c) raw_val);; mret tt else mret tt);;
        on_image (io_image_set_input (ic_id c) raw_val);;
        feed_pve (ic_gpio c) raw_val
      end.
Definition http_server_notify_state_change : M () :=
  on_store (modify (fun s => s <| http_notifications := (http_notifications s + 1)%N |>)).
Definition scan_digital (i : nat) (c : input_channel) : M () :=
  level ← gets (fun w => gpio_get_level (ic_gpio c) (hw w));
  let logical := logical_level (ic_active_low c) level in
  upd_input i (fun c => (debounce logical c).1);;
  if (debounce logical c).2 then
    on_image (io_image_set_input (ic_id c) logical);;
    on_store (state_set_int (ic_id c) logical);;
    http_server_notify_state_change
  else mret tt.
Definition scan_input (i : nat) : M () :=
  w ← gets (fun w => w);
  match input_table w !! i with
  | None => mret tt
  | Some c => if backend c =? DEVICE_CHANNEL_BACKEND_ADC_NATIVE then scan_analog i c else scan_digital i c
  end.
Definition io_driver_scan_inputs : M () :=
  n ← gets (fun w => length (input_table w)); for_each scan_input (seq 0 n).

(** *** Diagnostics *)

Definition report_input (c : input_channel) : input_channel :=
  let delta_raw := u32 (raw_edges c - reported_raw_edges c) in
  let delta_stable := u32 (stable_edges c - reported_stable_edges c) in
  c <| recent_raw_edges := delta_raw |> <| recent_stable_edges := delta_stable |>
    <| recent_noise_edges := if delta_stable <? delta_raw then delta_raw - delta_stable else 0 |>
    <| reported_raw_edges := raw_edges c |> <| reported_stable_edges := stable_edges c |>.
Definition io_driver_process : M () :=
  now_us ← on_store (on_part st_clock (fun c s => s <| st_clock := c |>) clock_read);
  w ← gets (fun w => w);
  if u64 (now_us - last_diag_report_us w) <? INPUT_DIAG_PERIOD_US then mret tt
  else modify (fun w => w <| last_diag_report_us := now_us |> <| input_table := report_input <$> input_table w |>).
Definition diag_of (c : input_channel) : input_diag :=
  InputDiag (ic_id c) (stable_value c) (raw_edges c) (stable_edges c)
    (if stable_edges c <? raw_edges c then raw_edges c - stable_edges c else 0)
    (recent_raw_edges c) (recent_stable_edges c) (recent_noise_edges c).
(** The result and what is copied to a buffer of [max_inputs] places, or none. *)
Definition io_driver_get_input_diag (buffer : bool) (max_inputs : Z) (w : iow G) : Z * list input_diag :=
  let n := Z.of_nat (length (input_table w)) in
  if negb buffer || (max_inputs <=? 0) then (n, [])
  else let count := Z.min n max_inputs in (count, diag_of <$> take (Z.to_nat count) (input_table w)).

(** *** The outputs *)

(** [others i] is what the other tasks do between the read of the state and
    the clearing of the pending bit of output [i]. *)
Section update.
Context (others : nat -> M ()).
Definition drive (ch : output_channel) (on : bool) : M () :=
  if negb (oc_gpio ch =? GPIO_NUM_NC) && (0 <=? oc_gpio ch)
  then on_hw (modify (gpio_set_level (oc_gpio ch) (io_driver_output_gpio_level ch on))) else mret tt.
(** The first loop: outputs whose owner has changed become pending. *)
Definition refresh_owner (i : nat) (mask : Z) : M Z :=
  w ← gets (fun w => w);
  match output_table w !! i with
  | None => mret mask
  | Some ch =>
    let was_local := Z.testbit (local_mask w) (Z.of_nat i) in
    let is_local := cluster_io_is_local (oc_id ch) (owners w) in
    if eqb is_local was_local then mret mask
    else set_local is_local i;; set_pending true i;; mret (Z.lor mask (u32 (Z.shiftl 1 (Z.of_nat i))))
  end.
(** The second loop. *)
Definition apply_output (mask : Z) (i : nat) : M () :=
  if negb (Z.testbit mask (Z.of_nat i)) then mret tt
  else
    w ← gets (fun w => w);
    match output_table w !! i with
    | None => mret tt
    | Some ch =>
      (if negb (cluster_io_is_local (oc_id ch) (owners w)) then drive ch false
       else match state_get_int (oc_id ch) (sto w) with
            | Some value => drive ch (negb (value =? 0))
            | None => mret tt
            end);;
      others i;;
      set_pending false i
    end.
Definition io_driver_update : M () :=
  w ← gets (fun w => w);
  let n := length (output_table w) in
  if (n =? 0)%nat then mret tt
  else
    mask ← for_fold refresh_owner (seq 0 n) (pending_mask (sto w));
    if mask =? 0 then mret tt else for_each (apply_output mask) (seq 0 n).
End update.

(** The result is [Some] of the value written, or [None]. *)
Definition io_driver_get_output_physical_level (id : Z) (w : iow G) : option Z :=
  i ← find_idx (fun ch => oc_id ch =? id) (output_table w);
  ch ← output_table w !! i;
  if (oc_gpio ch =? GPIO_NUM_NC) || (oc_gpio ch <? 0) then Some (default 0 (state_get_int id (sto w)))
  else Some (logical_level (oc_active_low ch) (gpio_get_level (oc_gpio ch) (hw w))).
End driver.

(** ** Bits *)

Lemma bit_set m i j : (i < 16)%nat -> 0 <= j ->
  Z.testbit (Z.lor m (u32 (Z.shiftl 1 (Z.of_nat i)))) j = Z.testbit m j || (Z.of_nat i =? j).
Proof.
  intros Hi Hj. assert (2 ^ Z.of_nat i < 2 ^ 16) by (apply Z.pow_lt_mono_r; lia).
  by rewrite Z.lor_spec, Z.shiftl_mul_pow2, Z.mul_1_l, u32_id, Z.pow2_bits_eqb by lia.
Qed.
Lemma bit_clear m i j : (i < 16)%nat -> 0 <= j ->
  Z.testbit (Z.ldiff m (u32 (Z.shiftl 1 (Z.of_nat i)))) j = Z.testbit m j && negb (Z.of_nat i =? j).
Proof.
  intros Hi Hj. assert (2 ^ Z.of_nat i < 2 ^ 16) by (apply Z.pow_lt_mono_r; lia).
  by rewrite Z.ldiff_spec, Z.shiftl_mul_pow2, Z.mul_1_l, u32_id, Z.pow2_bits_eqb by lia.
Qed.

(** What a write does to the values, as a whole. *)
Lemma set_int_reads id v s id' : length (int_values s) = 256%nat -> 0 <= id' < 256 ->
  state_get_int id' (state_set_int id v s).2 = if id' =? id then Some v else state_get_int id' s.
Proof.
  intros Hlen Hid'. cbn [state_get_int state_set_int store_api]. unfold get_int. rewrite set_int_values.
  assert (state_valid_id id' = true) as -> by by unfold state_valid_id, STATE_MAX_ENTRIES; apply Z.ltb_lt; lia.
  cbn [negb]. destruct (Z.eqb_spec id' id) as [->|Hne].
  - assert (state_valid_id id = true) as -> by by unfold state_valid_id, STATE_MAX_ENTRIES; apply Z.ltb_lt; lia.
    cbn [andb]. destruct (Z.eqb_spec (default 0 (zget (int_values s) id)) v) as [Heq|]; cbn [negb]; [by rewrite Heq|].
    by rewrite zget_zset_eq by lia.
  - case_match; [|done]. by rewrite zget_zset_ne.
Qed.
Lemma set_int_length id v s : length (int_values (state_set_int id v s).2) = length (int_values s).
Proof. cbn. rewrite set_int_values. case_match; by rewrite ?length_zset. Qed.
Lemma set_int_ids id v s : output_ids (state_set_int id v s).2 = output_ids s /\ input_ids (state_set_int id v s).2 = input_ids s.
Proof. cbn. unfold set_int. repeat case_match; try done. cbn [snd]. unfold state_output_changed. by repeat case_match. Qed.
(** No bit is lost, and a changed output's bit is set. *)
Lemma set_int_pending id v s i : (length (output_ids s) <= 16)%nat ->
  Z.testbit (pending_mask (state_set_int id v s).2) (Z.of_nat i) = false ->
  Z.testbit (pending_mask s) (Z.of_nat i) = false /\
  (find_idx (fun o => o =? id) (output_ids s) = Some i -> state_set_int id v s = (true, s) \/ state_valid_id id = false).
Proof.
  intros Hlen. cbn. unfold set_int. destruct (state_valid_id id); cbn [negb]; [|by split; [|right]].
  destruct (negb _); [|by split; [|left]]. cbn [snd]. rewrite state_output_changed_mask by (done || lia). cbn -[state_output_changed].
  rewrite Nat2Z.id, orb_false_iff, bool_decide_eq_false. by intros [].
Qed.

(** ** The pins follow the state

    The invariant that every operation keeps: a pin whose pending bit is clear
    puts out what its output had to show when it was last local or not. *)

Section pins.
Context {G : Type} `{HardwareLaws G}.
Implicit Types (w : iow G) (ch : output_channel).
Abbreviation M := (st (iow G)).

Definition pending (i : nat) w : bool := Z.testbit (pending_mask (sto w)) (Z.of_nat i).
Definition local_bit (i : nat) w : bool := Z.testbit (local_mask w) (Z.of_nat i).
Definition state_on (id : Z) w : bool := negb (default 0 (state_get_int id (sto w)) =? 0).
Definition shows ch (on : bool) w : Prop := driven (oc_gpio ch) (hw w) = io_driver_output_gpio_level ch on.

(** The tables of a configured driver: at most sixteen outputs with distinct
    identifiers and distinct pins. *)
Record tables_ok w : Prop := {
  tk_len : length (int_values (sto w)) = 256%nat;
  tk_ids : output_ids (sto w) = oc_id <$> output_table w;
  tk_nodup : NoDup (oc_id <$> output_table w);
  tk_valid ch : ch ∈ output_table w -> 0 <= oc_id ch < 256;
  tk_max : (length (output_table w) <= 16)%nat;
  tk_pins i j ch ch' : output_table w !! i = Some ch -> output_table w !! j = Some ch' ->
    oc_gpio ch = oc_gpio ch' -> 0 <= oc_gpio ch -> i = j;
}.
Record io_inv w : Prop := {
  ii_tables : tables_ok w;
  ii_modes i ch : output_table w !! i = Some ch -> 0 <= oc_gpio ch -> only_output (oc_gpio ch) (hw w);
  ii_sync i ch : output_table w !! i = Some ch -> 0 <= oc_gpio ch -> pending i w = false ->
    shows ch (local_bit i w && state_on (oc_id ch) w) w;
}.

(** The pins of the outputs. *)
Definition out_pin (p : Z) w : Prop := exists ch, ch ∈ output_table w /\ oc_gpio ch = p /\ 0 <= p.
(** What the invariant looks at. *)
Record same_io w w' : Prop := {
  sm_outputs : output_table w' = output_table w;
  sm_local : local_mask w' = local_mask w;
  sm_values : int_values (sto w') = int_values (sto w);
  sm_ids : output_ids (sto w') = output_ids (sto w);
  sm_pending : pending_mask (sto w') = pending_mask (sto w);
  sm_driven p : out_pin p w -> driven p (hw w') = driven p (hw w);
  sm_modes p : out_pin p w -> only_output p (hw w) -> only_output p (hw w');
}.
Lemma out_pin_at i ch w : output_table w !! i = Some ch -> 0 <= oc_gpio ch -> out_pin (oc_gpio ch) w.
Proof. intros Hi Hg. exists ch. split; [by eapply list_elem_of_lookup_2|done]. Qed.
Lemma state_on_values id w w' : int_values (sto w') = int_values (sto w) -> state_on id w' = state_on id w.
Proof. intros E. unfold state_on. cbn. unfold get_int. by rewrite E. Qed.
Lemma same_io_tables w w' : same_io w w' -> tables_ok w -> tables_ok w'.
Proof. intros [Ho _ Hv Hi _ _ _] []. constructor; rewrite ?Ho, ?Hv, ?Hi; eauto. Qed.
Lemma same_io_inv w w' : same_io w w' -> io_inv w -> io_inv w'.
Proof.
  intros Hs [Ht Hm Hy]. pose proof (same_io_tables _ _ Hs Ht) as Ht'. destruct Hs. constructor; [done| |].
  - intros i ch Hi Hg. rewrite sm_outputs0 in Hi. eauto using out_pin_at.
  - intros i ch Hi Hg Hp. unfold pending, shows, local_bit in *. rewrite sm_outputs0 in Hi. rewrite sm_pending0 in Hp.
    rewrite sm_driven0, sm_local0, (state_on_values _ w) by eauto using out_pin_at. by apply (Hy i).
Qed.

(** [quiet m]: the routine does not touch what the invariant looks at. *)
Definition quiet {A} (m : M A) : Prop := forall w, same_io w (m w).2.
Lemma same_io_refl w : same_io w w.
Proof. by constructor. Qed.
Lemma same_io_trans w1 w2 w3 : same_io w1 w2 -> same_io w2 w3 -> same_io w1 w3.
Proof.
  intros [Ho1 ? ? ? ? Hd1 Hm1] [? ? ? ? ? Hd2 Hm2]. unfold out_pin in *. rewrite Ho1 in *.
  constructor; try congruence; intros p Hp; [rewrite Hd2; auto|auto].
Qed.
Lemma quiet_keeps {A} (m : M A) (I : iow G -> Prop) :
  (forall w w', same_io w w' -> I w -> I w') -> quiet m -> keeps I m.
Proof. intros HI Hm w. by apply HI. Qed.
Lemma quiet_bind {A B} (m : M A) (k : A -> M B) : quiet m -> (forall a, quiet (k a)) -> quiet (m ≫= k).
Proof. intros Hm Hk w. rewrite run_bind_surj. eapply same_io_trans; [apply Hm|apply Hk]. Qed.
Lemma quiet_upd i f : quiet (upd_input i f).
Proof. by constructor. Qed.
Lemma quiet_image f : quiet (on_image f).
Proof. by constructor. Qed.
Lemma quiet_hw {A} (m : st G A) :
  (forall p g, driven p (m g).2 = driven p g) -> (forall p g, only_output p g -> only_output p (m g).2) -> quiet (on_hw m).
Proof.
  intros Hd Ho w. unfold on_hw, on_part. pose proof (fun p => Hd p (hw w)) as Hd'.
  pose proof (fun p => Ho p (hw w)) as Ho'. destruct (m (hw w)) as [a g]. constructor; try done; cbn; auto.
Qed.
Lemma quiet_pve i raw : quiet (on_pve_update i raw).
Proof.
  intros w. unfold on_pve_update, on_part. by destruct (pve_update i raw _) as [[] p].
Qed.
Lemma quiet_feed gpio raw : quiet (feed_pve gpio raw).
Proof. unfold feed_pve. repeat case_match; try apply quiet_pve. by intros w. Qed.

(** *** Writes of the state *)

Lemma io_inv_set id v : keeps io_inv (on_store (state_set_int id v)).
Proof.
  intros w [Ht Hm Hy]. unfold on_store, on_part. destruct (state_set_int id v (sto w)) as [b s] eqn:E.
  assert (s = (state_set_int id v (sto w)).2) as Hs by by rewrite E.
  destruct (set_int_ids id v (sto w)) as [Hids _]. rewrite <- Hs in Hids. cbn [snd].
  pose proof (tk_ids _ Ht) as Hout. pose proof (tk_nodup _ Ht) as Hnd.
  assert (length (output_ids (sto w)) <= 16)%nat as Hmax by (rewrite Hout, length_fmap; apply Ht).
  constructor.
  - destruct Ht. constructor; cbn; rewrite ?Hids; try done. by rewrite Hs, set_int_length.
  - exact Hm.
  - intros i ch Hi Hg Hp. cbn in Hi. unfold pending in Hp. cbn [sto update] in Hp. rewrite Hs in Hp.
    apply set_int_pending in Hp as [Hp Hsame]; [|done]. unfold shows. cbn [hw update]. rewrite (Hy i ch Hi Hg Hp). f_equal.
    change (local_bit i (w <| sto := s |>)) with (local_bit i w). f_equal. unfold state_on. cbn [sto update]. rewrite Hs.
    assert (0 <= oc_id ch < 256) as Hch by (apply (tk_valid _ Ht); by eapply list_elem_of_lookup_2).
    rewrite set_int_reads by first [exact (tk_len _ Ht)|lia]. destruct (Z.eqb_spec (oc_id ch) id) as [<-|]; [|done].
    destruct Hsame as [Heq|Hno].
    + rewrite Hout, find_idx_fmap. apply (find_idx_unique _ _ _ ch); [done|by apply Z.eqb_refl|].
      intros j y Hj Hy'. apply Z.eqb_eq in Hy'. apply (NoDup_lookup _ j i (oc_id ch) Hnd); rewrite list_lookup_fmap;
        [by rewrite Hj; cbn; rewrite Hy'|by rewrite Hi].
    + pose proof (set_int_reads (oc_id ch) v (sto w) (oc_id ch) (tk_len _ Ht)) as Hr.
      rewrite Heq, Z.eqb_refl in Hr. cbn [snd] in Hr. by rewrite Hr by lia.
    + exfalso. unfold state_valid_id, STATE_MAX_ENTRIES in Hno. apply Z.ltb_ge in Hno. lia.
Qed.
Lemma io_inv_same_keeps {A} (m : M A) : quiet m -> keeps io_inv m.
Proof. apply quiet_keeps. intros w w'. apply same_io_inv. Qed.

(** *** The scan *)

Lemma io_inv_http : keeps io_inv http_server_notify_state_change.
Proof. apply io_inv_same_keeps. by constructor. Qed.
Lemma io_inv_scan : keeps io_inv io_driver_scan_inputs.
Proof.
  pose proof io_inv_set. pose proof io_inv_http.
  assert (forall i f, keeps io_inv (upd_input i f)) by (intros; apply io_inv_same_keeps, quiet_upd).
  assert (forall f, keeps io_inv (on_image f)) by (intros; apply io_inv_same_keeps, quiet_image).
  assert (forall c, keeps io_inv (on_hw (adc_oneshot_read c))).
  { intros c. apply io_inv_same_keeps, quiet_hw; intros; [apply driven_adc_read|by apply only_output_adc_read]. }
  assert (forall gpio raw, keeps io_inv (feed_pve gpio raw)) by (intros; apply io_inv_same_keeps, quiet_feed).
  assert (forall i, keeps io_inv (scan_input i)) by (intros i; unfold scan_input, scan_analog, scan_digital; keeps).
  unfold io_driver_scan_inputs. apply keeps_bind; [apply keeps_gets|intros n]. by apply keeps_for_each.
Qed.
Lemma io_inv_process : keeps io_inv io_driver_process.
Proof.
  apply io_inv_same_keeps, quiet_bind; [|intros t; apply quiet_bind].
  - intros w. by constructor.
  - intros w. by constructor.
  - intros ?. case_match; intros w'; by constructor.
Qed.

(** *** Loops *)

Lemma for_fold_ind {A} (P : nat -> A -> iow G -> Prop) (body : nat -> A -> M A) n a w : P 0%nat a w ->
  (forall k a w, (k < n)%nat -> P k a w -> P (S k) (body k a w).1 (body k a w).2) ->
  P n (for_fold body (seq 0 n) a w).1 (for_fold body (seq 0 n) a w).2.
Proof.
  intros Hz HS. assert (forall m k a w, (k + m = n)%nat -> P k a w ->
    P n (for_fold body (seq k m) a w).1 (for_fold body (seq k m) a w).2) as Hgo; [|by apply Hgo].
  induction m as [|m IH]; intros k a' w' Hk HP; cbn [seq for_fold]; [by replace n with k by lia|].
  rewrite run_bind_surj. apply IH; [lia|]. apply HS; [lia|done].
Qed.
Lemma for_each_ind (P : nat -> iow G -> Prop) (body : nat -> M ()) n w : P 0%nat w ->
  (forall k w, (k < n)%nat -> P k w -> P (S k) (body k w).2) -> P n (for_each body (seq 0 n) w).2.
Proof.
  intros Hz HS. assert (forall m k w, (k + m = n)%nat -> P k w -> P n (for_each body (seq k m) w).2) as Hgo; [|by apply Hgo].
  induction m as [|m IH]; intros k w' Hk HP; cbn [seq for_each]; [by replace n with k by lia|].
  rewrite run_bind_surj. apply IH; [lia|]. apply HS; [lia|done].
Qed.

(** *** Boot *)

(** The outputs below [k] have been set up with the values of the shadow. *)
Record booted (t : list output_channel) (k : nat) (shadow : list Z) w : Prop := {
  bt_table : output_table w = t;
  bt_tables : tables_ok w;
  bt_pending : pending_mask (sto w) = 0;
  bt_len : length shadow = 256%nat;
  bt_done i ch : (i < k)%nat -> t !! i = Some ch -> 0 <= oc_gpio ch ->
    only_output (oc_gpio ch) (hw w) /\ local_bit i w = true /\
    shows ch (negb (default 0 (zget shadow (oc_id ch)) =? 0)) w;
}.
Lemma booted_same t k shadow w w' : same_io w w' -> booted t k shadow w -> booted t k shadow w'.
Proof.
  intros Hs [Ht Htab Hp Hl Hd]. constructor; [by rewrite (sm_outputs _ _ Hs)|by eapply same_io_tables| |done|].
  - by rewrite (sm_pending _ _ Hs).
  - intros i ch Hi Hch Hg. destruct (Hd i ch Hi Hch Hg) as (Hm & Hb & Hsh). rewrite <- Ht in Hch.
    pose proof (out_pin_at _ _ _ Hch Hg) as Hpin. destruct Hs. unfold shows, local_bit in *.
    rewrite sm_driven0, sm_local0 by done. auto.
Qed.
Lemma shadow_length id v shadow : length (io_driver_state_shadow_assign id v shadow) = length shadow.
Proof. unfold io_driver_state_shadow_assign. case_match; by rewrite ?length_zset. Qed.
Lemma shadow_other id id' v shadow : id <> id' -> zget (io_driver_state_shadow_assign id v shadow) id' = zget shadow id'.
Proof. intros. unfold io_driver_state_shadow_assign. case_match; [done|by apply zget_zset_ne]. Qed.
Lemma shadow_same id v shadow : 0 <= id < 256 -> length shadow = 256%nat ->
  zget (io_driver_state_shadow_assign id v shadow) id = Some v.
Proof.
  intros. unfold io_driver_state_shadow_assign, STATE_MAX_ENTRIES. destruct (Z.leb_spec 256 id); [lia|].
  apply zget_zset_eq. lia.
Qed.

Lemma on_failsafe_startup id v w : exists r f, on_failsafe (failsafe_startup_value id v) w = (r, w <| fsafe := f |> <| sto := sto w |>).
Proof.
  unfold on_failsafe, on_part, failsafe_startup_value. run. cbn [fs].
  destruct (entry_of id (fsafe w)) as [e|]; [|by eexists _, _].
  destruct (_ =? 0); cbv zeta; unfold fs_upd; rewrite run_bind_modify; by eexists _, _.
Qed.
Lemma init_output_step t k shadow w : (k < length t)%nat -> booted t k shadow w ->
  booted t (S k) (init_output k shadow w).1 (init_output k shadow w).2.
Proof.
  intros Hk Hw. destruct Hw as [Ht Htab Hp Hl Hd]. destruct (lookup_lt_is_Some_2 t k Hk) as [ch Hch].
  assert (forall i ch', (i < k)%nat -> t !! i = Some ch' -> oc_id ch <> oc_id ch') as Hids.
  { intros i ch' Hi Hch' He. apply (Nat.lt_irrefl k). replace k with i at 1; [done|].
    apply (NoDup_lookup (oc_id <$> t) i k (oc_id ch)); [rewrite <- Ht; apply Htab| |];
      rewrite list_lookup_fmap; [by rewrite Hch', He|by rewrite Hch]. }
  unfold init_output. run. rewrite Ht, Hch. destruct (Z.eqb_spec (oc_gpio ch) GPIO_NUM_NC) as [Hnc|Hnc].
  - unfold on_image. run. cbn [fst snd]. constructor; try done; [destruct Htab; by constructor|by rewrite shadow_length|].
    intros i ch' Hi Hch' Hg. destruct (decide (i = k)) as [->|]; [simplify_eq; unfold GPIO_NUM_NC in Hnc; lia|].
    destruct (Hd i ch' ltac:(lia) Hch' Hg) as (Hm & Hb & Hsh). split_and!; [done|done|].
    rewrite shadow_other; [done|]. apply (Hids i ch'); [lia|done].
  - rewrite run_bind_surj. set (w1 := (on_hw (modify (gpio_config (oc_gpio ch) GPIO_MODE_OUTPUT false false)) w).2).
    rewrite run_bind_surj. edestruct on_failsafe_startup as (r & f & ->). cbn [fst snd].
    set (v := from_option fst 0 r). rewrite !run_bind_surj. cbn [fst snd].
    set (w2 := (set_local true k _).2). change (booted t (S k) (io_driver_state_shadow_assign (oc_id ch) v shadow) w2).
    assert (0 <= oc_id ch < 256) as Hid by (apply (tk_valid _ Htab); rewrite Ht; by eapply list_elem_of_lookup_2).
    assert (k < 16)%nat as Hk16 by (pose proof (tk_max _ Htab); rewrite Ht in *; lia).
    constructor; [done|destruct Htab; by constructor|done|by rewrite shadow_length|].
    intros i ch' Hi Hch' Hg. unfold local_bit. cbn [local_mask w2 set_local modify update snd]. rewrite bit_set by lia.
    destruct (decide (i = k)) as [->|Hne].
    + simplify_eq. rewrite Z.eqb_refl, orb_true_r, shadow_same by done. split_and!; [|done|].
      * apply only_output_set, only_output_config.
      * apply driven_set.
    + destruct (Hd i ch' ltac:(lia) Hch' Hg) as (Hm & Hb & Hsh).
      assert (oc_gpio ch <> oc_gpio ch') as Hpins.
      { intros He. apply Hne, (tk_pins _ Htab i k ch' ch); rewrite ?Ht; done. }
      rewrite shadow_other by (apply (Hids i ch'); [lia|done]). unfold local_bit in Hb. cbn -[Z.testbit]. rewrite Hb.
      split_and!; [|done|].
      * by apply only_output_set, only_output_config_ne.
      * unfold shows. cbn. rewrite driven_set_ne, driven_config by done. exact Hsh.
Qed.

(** The inputs use no pin and no identifier of an output. *)
Definition static (c : input_channel) : Z * Z := (ic_id c, ic_gpio c).
Definition apart (t : list output_channel) (ins : list (Z * Z)) : Prop := forall id gpio ch,
  (id, gpio) ∈ ins -> ch ∈ t -> id <> oc_id ch /\ (0 <= oc_gpio ch -> gpio <> oc_gpio ch).
Lemma upd_input_static ins i f : (forall c, static (f c) = static c) ->
  keeps (fun w => static <$> input_table w = ins) (upd_input i f).
Proof. intros Hf w <-. cbn. by apply fmap_alter_same. Qed.
Definition quiet_init (t : list output_channel) ins shadow w : Prop :=
  booted t (length t) shadow w /\ static <$> input_table w = ins.

Lemma qi_quiet {A} t ins shadow (m : M A) : quiet m -> (forall w, input_table (m w).2 = input_table w) ->
  keeps (quiet_init t ins shadow) m.
Proof. intros Hm Hin w [Hb Hi]. split; [by apply (booted_same _ _ _ w), Hb|by rewrite Hin]. Qed.
Lemma qi_upd t ins shadow i f : (forall c, static (f c) = static c) -> keeps (quiet_init t ins shadow) (upd_input i f).
Proof. intros Hf w [Hb Hi]. split; [by apply (booted_same _ _ _ w), Hb|by apply upd_input_static]. Qed.
Lemma qi_hw {A} t ins shadow (m : st G A) : (forall p g, driven p (m g).2 = driven p g) ->
  (forall p g, only_output p g -> only_output p (m g).2) -> keeps (quiet_init t ins shadow) (on_hw m).
Proof. intros Hd Ho. apply qi_quiet; [by apply quiet_hw|]. intros w. unfold on_hw, on_part. by destruct (m (hw w)). Qed.
Lemma qi_new t ins shadow : keeps (quiet_init t ins shadow) (on_hw adc_oneshot_new_unit).
Proof. apply qi_hw; intros; [apply driven_adc_new|by apply only_output_adc_new]. Qed.
Lemma qi_config t ins shadow c : keeps (quiet_init t ins shadow) (on_hw (adc_oneshot_config_channel c)).
Proof. apply qi_hw; intros; [apply driven_adc_config|by apply only_output_adc_config]. Qed.
Lemma qi_read t ins shadow c : keeps (quiet_init t ins shadow) (on_hw (adc_oneshot_read c)).
Proof. apply qi_hw; intros; [apply driven_adc_read|by apply only_output_adc_read]. Qed.
Lemma qi_image t ins shadow f : keeps (quiet_init t ins shadow) (on_image f).
Proof. by apply qi_quiet; [apply quiet_image|]. Qed.
Lemma qi_feed t ins shadow gpio raw : keeps (quiet_init t ins shadow) (feed_pve gpio raw).
Proof.
  apply qi_quiet; [apply quiet_feed|]. intros w. unfold feed_pve, on_pve_update, on_part.
  repeat case_match; try done; by simplify_eq.
Qed.
Lemma qi_flag t ins shadow b : keeps (quiet_init t ins shadow) (modify (fun w => w <| adc1_initialized := b |>)).
Proof. by apply qi_quiet; [intros w; constructor|]. Qed.
#[local] Hint Resolve qi_upd qi_new qi_config qi_read qi_image qi_feed qi_flag : keeps.

Lemma qi_pin t ins shadow p m u d : (forall ch, ch ∈ t -> 0 <= oc_gpio ch -> p <> oc_gpio ch) ->
  keeps (quiet_init t ins shadow) (on_hw (modify (gpio_config p m u d))).
Proof.
  intros Hp w [Hb Hi]. split; [|done]. apply (booted_same _ _ _ w); [|done].
  assert (forall q, out_pin q w -> p <> q) as Hpin.
  { intros q (ch & Hch & <- & Hq). rewrite (bt_table _ _ _ _ Hb) in Hch. by apply Hp. }
  constructor; try done; cbn; intros q Hq%Hpin; [by apply driven_config|by apply only_output_config_ne].
Qed.
Lemma qi_shadow t ins shadow id v w : (forall ch, ch ∈ t -> id <> oc_id ch) -> quiet_init t ins shadow w ->
  quiet_init t ins (io_driver_state_shadow_assign id v shadow) w.
Proof.
  intros Hid [[Ht Htab Hp Hl Hd] Hi]. split; [|done]. constructor; try done; [by rewrite shadow_length|].
  intros i ch Hi' Hch Hg. rewrite shadow_other by (apply Hid; by eapply list_elem_of_lookup_2). by apply Hd.
Qed.
Lemma init_input_step t ins k r w : apart t ins -> quiet_init t ins r.1 w ->
  quiet_init t ins (init_input k r w).1.1 (init_input k r w).2.
Proof.
  intros Hap Hw. destruct r as [shadow an]. cbn [fst] in Hw.
  unfold init_input. run. destruct (input_table w !! k) as [c|] eqn:Hc; [|done].
  assert (forall ch, ch ∈ t -> ic_id c <> oc_id ch /\ (0 <= oc_gpio ch -> ic_gpio c <> oc_gpio ch)) as Hc'.
  { intros ch. apply Hap. rewrite <- (proj2 Hw). apply list_elem_of_fmap. exists c.
    split; [done|by eapply list_elem_of_lookup_2]. }
  assert (forall v w', quiet_init t ins shadow w' -> quiet_init t ins (io_driver_state_shadow_assign (ic_id c) v shadow) w')
    as Hshadow by (intros v w'; apply qi_shadow; apply Hc').
  assert (forall (m : M (list Z * Z)), hoare (quiet_init t ins shadow) m (fun r w' => quiet_init t ins r.1 w') ->
    quiet_init t ins (m w).1.1 (m w).2) as Hgo by (intros m Hm; by apply Hm).
  apply Hgo. clear Hgo. destruct (_ =? _); [|destruct (_ =? _)].
  - apply hoare_keep; [unfold init_adc; keeps|intros _]. apply hoare_keep; [keeps|intros _].
    apply hoare_keep; [keeps|intros w1]. apply hoare_keep; [keeps|intros _]. apply hoare_keep; [keeps|intros w2].
    apply hoare_keep; [keeps|intros _]. apply hoare_keep; [keeps|intros _]. apply hoare_ret. cbn [fst]. auto.
  - apply hoare_keep; [keeps|intros _]. apply hoare_keep; [keeps|intros _]. apply hoare_ret. cbn [fst]. auto.
  - apply hoare_keep; [apply qi_pin; apply Hc'|intros _]. apply hoare_keep; [keeps|intros level].
    apply hoare_keep; [keeps|intros _]. apply hoare_keep; [keeps|intros _]. apply hoare_ret. cbn [fst]. auto.
Qed.

(** What the bindings have to satisfy: no identifier twice among the outputs,
    and no pin twice among all. *)
Record wiring (ov iv : list binding) : Prop := {
  wr_ids : NoDup (bd_id <$> ov);
  wr_pins : NoDup (filter (fun p => 0 <= p) ((bd_gpio <$> ov) ++ (bd_gpio <$> iv)));
}.
Definition os_of (ov : list binding) : list output_channel := take IO_DRIVER_MAX_OUTPUTS (omap load_output ov).
Definition is_of (iv : list binding) : list input_channel := take IO_DRIVER_MAX_INPUTS (omap load_input iv).

Lemma load_output_spec b ch : load_output b = Some ch -> oc_id ch = bd_id b /\ oc_gpio ch = bd_gpio b /\ 100 <= oc_id ch <= 115.
Proof.
  unfold load_output. destruct (device_profile_find_output (bd_id b)) as [p|] eqn:Hp; [|done]. intros [= <-]. cbn.
  destruct (find_output_spec _ _ Hp) as [_ ->]. by pose proof (find_output_range _ _ Hp).
Qed.
Lemma load_input_spec b c : load_input b = Some c -> ic_gpio c = bd_gpio b /\ 10 <= ic_id c <= 25.
Proof.
  unfold load_input. destruct (device_profile_find_input (bd_id b)) as [p|] eqn:Hp; [|done]. intros [= <-]. cbn.
  destruct (find_input_spec _ _ Hp) as [_ ->]. by pose proof (find_input_range _ _ Hp).
Qed.
Lemma omap_sublist {A B C} (f : A -> option B) (g : A -> C) (h : B -> C) l :
  (forall x y, f x = Some y -> h y = g x) -> h <$> omap f l `sublist_of` g <$> l.
Proof.
  intros Hf. induction l as [|x l IH]; cbn; [done|]. destruct (f x) as [y|] eqn:E; cbn.
  - rewrite (Hf x y E). by apply sublist_skip.
  - by apply sublist_cons.
Qed.
Lemma os_sublist {C} (g : binding -> C) (h : output_channel -> C) ov :
  (forall b ch, load_output b = Some ch -> h ch = g b) -> h <$> os_of ov `sublist_of` g <$> ov.
Proof. intros. unfold os_of. rewrite fmap_take. etrans; [apply sublist_take|by apply omap_sublist]. Qed.
Lemma is_sublist {C} (g : binding -> C) (h : input_channel -> C) iv :
  (forall b c, load_input b = Some c -> h c = g b) -> h <$> is_of iv `sublist_of` g <$> iv.
Proof. intros. unfold is_of. rewrite fmap_take. etrans; [apply sublist_take|by apply omap_sublist]. Qed.
Lemma sublist_filtered {A} (P : A -> Prop) `{forall x, Decision (P x)} l1 l2 :
  l1 `sublist_of` l2 -> filter P l1 `sublist_of` filter P l2.
Proof.
  induction 1 as [|x l1 l2 Hs IH|x l1 l2 Hs IH]; [done| |]; rewrite ?filter_cons; [|case_decide; [by apply sublist_cons|done]].
  case_decide; [by apply sublist_skip|done].
Qed.
Lemma filter_NoDup_lookup {A} (P : A -> Prop) `{forall x, Decision (P x)} l i j x :
  NoDup (filter P l) -> P x -> l !! i = Some x -> l !! j = Some x -> i = j.
Proof.
  intros Hnd HP. revert i j. induction l as [|y l IH]; intros i j Hi Hj; [done|]. rewrite filter_cons in Hnd.
  assert (x ∈ l -> P y -> x = y -> False) as Hno.
  { intros Hx Hy ->. rewrite decide_True in Hnd by done. apply NoDup_cons in Hnd as [Hn _]. apply Hn, list_elem_of_filter. done. }
  assert (NoDup (filter P l)) as Hnd' by (case_decide; [by apply NoDup_cons in Hnd as []|done]).
  destruct i as [|i], j as [|j]; cbn in Hi, Hj; simplify_eq; try done.
  - exfalso. apply Hno; [by eapply list_elem_of_lookup_2|done|done].
  - exfalso. apply Hno; [by eapply list_elem_of_lookup_2|done|done].
  - f_equal. by apply IH.
Qed.
Lemma pins_distinct ov iv : wiring ov iv ->
  NoDup (filter (fun p => 0 <= p) ((oc_gpio <$> os_of ov) ++ (ic_gpio <$> is_of iv))).
Proof.
  intros [_ Hp]. eapply sublist_NoDup; [exact Hp|]. apply sublist_filtered, sublist_app.
  - apply os_sublist. intros b ch Hb. by apply load_output_spec in Hb as (_ & Hg & _).
  - apply is_sublist. intros b c Hb. by apply load_input_spec in Hb as [Hg _].
Qed.
Lemma elem_of_os ov ch : ch ∈ os_of ov -> 100 <= oc_id ch <= 115.
Proof.
  intros Hch. assert (ch ∈ omap load_output ov) as Hin by (eapply elem_of_sublist; [exact Hch|apply sublist_take]).
  apply list_elem_of_omap in Hin as (b & _ & Hb). apply (load_output_spec _ _ Hb).
Qed.
Lemma elem_of_is iv c : c ∈ is_of iv -> 10 <= ic_id c <= 25.
Proof.
  intros Hc. assert (c ∈ omap load_input iv) as Hin by (eapply elem_of_sublist; [exact Hc|apply sublist_take]).
  apply list_elem_of_omap in Hin as (b & _ & Hb). apply (load_input_spec _ _ Hb).
Qed.
Lemma wiring_apart ov iv : wiring ov iv -> apart (os_of ov) (static <$> is_of iv).
Proof.
  intros Hw id gpio ch (c & Hc & Hin)%list_elem_of_fmap Hch. injection Hc as -> ->. split.
  - pose proof (elem_of_os _ _ Hch). pose proof (elem_of_is _ _ Hin). lia.
  - intros Hg Heq. pose proof (pins_distinct _ _ Hw) as Hnd.
    apply list_elem_of_lookup_1 in Hch as [i Hi]. apply list_elem_of_lookup_1 in Hin as [j Hj].
    assert (i = length (os_of ov) + j)%nat as Hij.
    { eapply (filter_NoDup_lookup _ _ _ _ (oc_gpio ch) Hnd); [done| |].
      - rewrite lookup_app_l by (rewrite length_fmap; by eapply lookup_lt_Some). by rewrite list_lookup_fmap, Hi.
      - rewrite lookup_app_r, length_fmap by (rewrite length_fmap; lia).
        replace (_ + j - _)%nat with j by lia. by rewrite list_lookup_fmap, Hj, <- Heq. }
    apply lookup_lt_Some in Hi. lia.
Qed.
Lemma profile_tables ov iv w : wiring ov iv -> length (int_values (sto w)) = 256%nat ->
  tables_ok (io_driver_load_profile ov iv w).2.
Proof.
  intros Hw Hlen. constructor; cbn [io_driver_load_profile modify fst snd sto output_table update]; try done.
  - eapply sublist_NoDup; [apply Hw|apply (os_sublist bd_id oc_id)]. intros b ch Hb. by apply load_output_spec in Hb as [].
  - intros ch Hch%elem_of_os. lia.
  - rewrite length_take. unfold IO_DRIVER_MAX_OUTPUTS. lia.
  - intros i j ch ch' Hi Hj Heq Hg. pose proof (pins_distinct _ _ Hw) as Hnd. rewrite filter_app in Hnd.
    apply NoDup_app in Hnd as [Hnd _].
    eapply (filter_NoDup_lookup _ _ _ _ (oc_gpio ch) Hnd); [done| |]; rewrite list_lookup_fmap; unfold os_of;
      [by rewrite Hi|by rewrite Hj, Heq].
Qed.

Lemma io_driver_init_ok ov iv w : wiring ov iv -> length (int_values (sto w)) = 256%nat ->
  io_inv (io_driver_init ov iv w).2 /\ output_table (io_driver_init ov iv w).2 = os_of ov.
Proof.
  intros Hw Hlen. pose proof (profile_tables ov iv w Hw Hlen) as Ht. unfold io_driver_init. rewrite run_bind_surj.
  set (w1 := (io_driver_load_profile ov iv w).2) in *. run. set (w2 := w1 <| local_mask := _ |> <| last_diag_report_us := _ |> <| sto := _ |>).
  rewrite !run_bind_surj. set (shadow0 := state_export_snapshot STATE_MAX_ENTRIES (sto w2)).
  change (output_table w2) with (os_of ov).
  assert (booted (os_of ov) 0 shadow0 w2) as Hb.
  { constructor; [done|destruct Ht; by constructor|done| |lia].
    unfold shadow0, state_export_snapshot. rewrite length_take. change (int_values (sto w2)) with (int_values (sto w)). by rewrite Hlen. }
  apply (for_fold_ind (booted (os_of ov)) init_output (length (os_of ov))) in Hb; [|intros; by apply init_output_step].
  assert (input_table (for_fold init_output (seq 0 (length (os_of ov))) shadow0 w2).2 = is_of iv) as Hin.
  { apply (for_fold_ind (fun _ _ w => input_table w = is_of iv)); [done|]. intros k a v _ Hv. unfold init_output. run.
    destruct (output_table v !! k) as [ch|]; [|done]. case_match; [done|]. rewrite run_bind_surj, run_bind_surj.
    edestruct on_failsafe_startup as (r & f & ->). done. }
  destruct (for_fold init_output _ _ _) as [shadow w3]. cbn [fst snd] in *.
  assert (quiet_init (os_of ov) (static <$> is_of iv) (shadow, 0).1 w3) as Hq by by split; [|rewrite Hin].
  apply (for_fold_ind (fun _ r w => quiet_init (os_of ov) (static <$> is_of iv) r.1 w) init_input (length (input_table w2))) in Hq;
    [|intros; apply init_input_step; [by apply wiring_apart|done]].
  destruct (for_fold init_input _ _ _) as [r w4]. cbn [fst snd] in *. destruct Hq as [[Htab Hok Hp Hl Hd] _].
  unfold on_store, on_part, modify. cbn [snd]. split; [|exact Htab].
  set (s' := state_import_snapshot r.1 STATE_MAX_ENTRIES (sto w4)).
  assert (int_values s' = r.1) as Hvals.
  { cbn. rewrite take_ge by (rewrite Hl; exact (Nat.le_refl 256)). rewrite drop_ge by (rewrite (tk_len _ Hok); exact (Nat.le_refl 256)). by rewrite app_nil_r. }
  constructor; cbn -[s'].
  - destruct Hok. constructor; cbn -[s']; rewrite ?Hvals; done.
  - intros i ch Hi Hg. rewrite Htab in Hi. pose proof (lookup_lt_Some _ _ _ Hi). by apply (Hd i ch).
  - intros i ch Hi Hg _. rewrite Htab in Hi. pose proof (lookup_lt_Some _ _ _ Hi).
    destruct (Hd i ch) as (_ & Hb' & Hsh); [done|done|done|]. unfold shows, local_bit, state_on in *. cbn -[s'] in *.
    rewrite Hb'. unfold get_int. rewrite Hvals.
    assert (state_valid_id (oc_id ch) = true) as ->; [|exact Hsh].
    unfold state_valid_id, STATE_MAX_ENTRIES. apply Z.ltb_lt.
    assert (0 <= oc_id ch < 256); [|lia]. apply (tk_valid _ Hok). rewrite Htab. by eapply list_elem_of_lookup_2.
Qed.

(** *** The update *)

Definition idle : nat -> M () := fun _ => mret tt.
(** The pin of output [i] shows its state if it is local, and off otherwise. *)
Definition is_local ch w : bool := cluster_io_is_local (oc_id ch) (owners w).
Record refreshed (c : cluster_io) (k : nat) (mask : Z) w : Prop := {
  rf_inv : io_inv w;
  rf_owners : owners w = c;
  rf_mask i : pending i w = Z.testbit mask (Z.of_nat i);
  rf_local i ch : (i < k)%nat -> output_table w !! i = Some ch -> local_bit i w = cluster_io_is_local (oc_id ch) c;
}.
Lemma refresh_step c k mask w : (k < length (output_table w))%nat -> refreshed c k mask w ->
  refreshed c (S k) (refresh_owner k mask w).1 (refresh_owner k mask w).2 /\
  output_table (refresh_owner k mask w).2 = output_table w.
Proof.
  intros Hk [Hi Ho Hm Hl]. destruct (lookup_lt_is_Some_2 _ _ Hk) as [ch Hch].
  pose proof (tk_max _ (ii_tables _ Hi)) as Hmax.
  unfold refresh_owner. run. rewrite Hch, Ho. fold (local_bit k w).
  destruct (eqb (cluster_io_is_local (oc_id ch) c) (local_bit k w)) eqn:E.
  - apply eqb_prop in E. split; [|done]. constructor; try done. intros i ch' Hik Hch'.
    change (output_table w !! i = Some ch') in Hch'. destruct (decide (i = k)) as [->|]; [rewrite Hch in Hch'; by injection Hch' as <-|]. apply (Hl i ch'); [lia|done].
  - rewrite !run_bind_surj. unfold mret, st_ret. cbn [fst snd]. split; [|done]. set (w' := (set_pending true k _).2).
    assert (forall i, pending i w' = pending i w || (Z.of_nat k =? Z.of_nat i)) as Hp.
    { intros i. unfold pending, w'. cbn. apply bit_set; lia. }
    assert (forall i, i <> k -> local_bit i w' = local_bit i w) as Hb.
    { intros i Hne. unfold local_bit, w'. cbn -[Z.testbit]. case_match.
      - rewrite bit_set by lia. by rewrite (proj2 (Z.eqb_neq _ _)), orb_false_r by lia.
      - rewrite bit_clear by lia. by rewrite (proj2 (Z.eqb_neq _ _)), andb_true_r by lia. }
    constructor.
    + destruct Hi as [Ht Hmo Hy]. constructor; [destruct Ht; by constructor|done|].
      intros i ch' Hi Hg. rewrite Hp, orb_false_iff. intros [Hp' Hne%Z.eqb_neq].
      assert (i <> k) by lia. rewrite Hb by done. by apply (Hy i ch').
    + done.
    + intros i. rewrite Hp, Hm, bit_set by lia. done.
    + intros i ch' Hik Hch'. change (output_table w !! i = Some ch') in Hch'. destruct (decide (i = k)) as [->|].
      * simplify_eq. unfold local_bit, w'. cbn -[Z.testbit]. case_match.
        -- rewrite bit_set by lia. by rewrite Z.eqb_refl, orb_true_r.
        -- rewrite bit_clear by lia. by rewrite Z.eqb_refl, andb_false_r.
      * rewrite Hb by done. apply (Hl i ch'); [lia|done].
Qed.

Lemma drive_spec ch on w : (drive ch on w).2 = w \/ (0 <= oc_gpio ch /\
  (drive ch on w).2 = w <| hw := gpio_set_level (oc_gpio ch) (io_driver_output_gpio_level ch on) (hw w) |>).
Proof. unfold drive. case_match eqn:E; [right|by left]. split; [|done]. apply andb_prop in E as [_ E]. lia. Qed.
Lemma drive_pin ch on w : 0 <= oc_gpio ch -> shows ch on (drive ch on w).2.
Proof.
  intros Hg. unfold drive, GPIO_NUM_NC. rewrite (proj2 (Z.eqb_neq _ _)), (proj2 (Z.leb_le _ _)) by lia. apply driven_set.
Qed.
(** The outputs below [k] have been applied. *)
Record applied (w0 : iow G) (mask : Z) (k : nat) w : Prop := {
  ap_inv : io_inv w;
  ap_owners : owners w = owners w0;
  ap_local : local_mask w = local_mask w0;
  ap_table : output_table w = output_table w0;
  ap_values : int_values (sto w) = int_values (sto w0);
  ap_pending i : pending i w = Z.testbit mask (Z.of_nat i) && (k <=? i)%nat;
}.
Lemma apply_step w0 mask k w : (k < length (output_table w0))%nat ->
  (forall i ch, output_table w0 !! i = Some ch -> local_bit i w0 = is_local ch w0) ->
  applied w0 mask k w -> applied w0 mask (S k) (apply_output idle mask k w).2.
Proof.
  intros Hk Hloc [Hi Ho Hlm Ht Hv Hp]. unfold apply_output. destruct (Z.testbit mask (Z.of_nat k)) eqn:Hm; cbn [negb].
  2: { constructor; try done. intros i. rewrite Hp. destruct (decide (i = k)) as [->|]; [by rewrite Hm|].
       f_equal. destruct (Nat.leb_spec k i), (Nat.leb_spec (S k) i); lia || done. }
  run. destruct (lookup_lt_is_Some_2 _ _ Hk) as [ch Hch]. rewrite Ht, Hch.
  assert (0 <= oc_id ch < 256) as Hid.
  { apply (tk_valid _ (ii_tables _ Hi)). rewrite Ht. by eapply list_elem_of_lookup_2. }
  set (on := local_bit k w0 && state_on (oc_id ch) w0).
  match goal with |- context [(if ?b then drive ch false else ?m) ;; _] => assert ((if b then drive ch false else m) w = drive ch on w) as Hdrive end.
  { unfold on. rewrite (Hloc k ch Hch). unfold is_local. rewrite Ho. destruct (cluster_io_is_local _ _); cbn [negb andb]; [|done].
    unfold state_on. cbn [state_get_int store_api]. unfold get_int. rewrite Hv.
    assert (state_valid_id (oc_id ch) = true) as ->; [|done].
    unfold state_valid_id, STATE_MAX_ENTRIES. apply Z.ltb_lt. lia. }
  rewrite run_bind_surj, Hdrive, run_bind_surj. cbn [idle fst snd]. unfold idle. rewrite run_ret. cbn [snd].
  set (w1 := (drive ch on w).2). set (w2 := (set_pending false k w1).2).
  pose proof (tk_max _ (ii_tables _ Hi)) as Hmax. rewrite Ht in Hmax.
  destruct (drive_spec ch on w) as [E|[Hg E]]; fold w1 in E.
  all: assert (forall i, pending i w2 = pending i w && negb (Z.of_nat k =? Z.of_nat i)) as Hp2
    by (intros i; unfold pending, w2; cbn; rewrite E; apply bit_clear; lia).
  all: assert (forall i, pending i w2 = Z.testbit mask (Z.of_nat i) && (S k <=? i)%nat) as Hp2'
    by (intros i; rewrite Hp2, Hp, <- andb_assoc; f_equal; destruct (Z.eqb_spec (Z.of_nat k) (Z.of_nat i)), (Nat.leb_spec k i), (Nat.leb_spec (S k) i); lia || done).
  all: assert (io_inv w2); [|constructor; try done; unfold w2; cbn; by rewrite E].
  all: destruct Hi as [Htab Hmo Hy]; constructor;
    [unfold w2; cbn; rewrite E; destruct Htab; by constructor
    |intros i ch' Hi Hg'; unfold w2 in *; cbn in *; rewrite E in *; cbn in *; try apply only_output_set; by apply (Hmo i)|].
  all: intros i ch' Hi Hg' Hpi; change (output_table w1 !! i = Some ch') in Hi;
    change (shows ch' (local_bit i w1 && state_on (oc_id ch') w1) w1);
    assert (output_table w1 = output_table w) as Ht1 by (by rewrite E); rewrite Ht1 in Hi;
    assert (local_bit i w1 && state_on (oc_id ch') w1 = local_bit i w0 && state_on (oc_id ch') w0) as ->
      by (unfold local_bit; rewrite (state_on_values _ w0) by (rewrite E; done); rewrite E; cbn; by rewrite Hlm).
  all: destruct (decide (i = k)) as [->|Hne];
    [rewrite Ht, Hch in Hi; injection Hi as <-; by apply drive_pin|].
  all: rewrite Hp2 in Hpi; rewrite (proj2 (Z.eqb_neq _ _)), andb_true_r in Hpi by lia; specialize (Hy i ch' Hi Hg' Hpi);
    assert (local_bit i w && state_on (oc_id ch') w = local_bit i w0 && state_on (oc_id ch') w0) as Heq
      by (unfold local_bit; by rewrite Hlm, (state_on_values _ w0)); rewrite Heq in Hy.
  - by rewrite E.
  - rewrite E. unfold shows in *. cbn. rewrite driven_set_ne; [done|]. intros Hpin. apply Hne.
    apply (tk_pins _ Htab i k ch' ch); rewrite ?Ht; try done. by rewrite <- Ht.
Qed.

Record updated w w' : Prop := {
  up_inv : io_inv w';
  up_owners : owners w' = owners w;
  up_table : output_table w' = output_table w;
  up_values : int_values (sto w') = int_values (sto w);
  up_local i ch : output_table w !! i = Some ch -> local_bit i w' = is_local ch w;
  up_pending i ch : output_table w !! i = Some ch -> pending i w' = false;
}.
Lemma refresh_loop w : io_inv w ->
  let r := for_fold refresh_owner (seq 0 (length (output_table w))) (pending_mask (sto w)) w in
  refreshed (owners w) (length (output_table w)) r.1 r.2 /\ output_table r.2 = output_table w /\
  int_values (sto r.2) = int_values (sto w).
Proof.
  intros Hw. apply (for_fold_ind (fun k mask w' => refreshed (owners w) k mask w' /\ output_table w' = output_table w /\
    int_values (sto w') = int_values (sto w))); [split_and!; try done; by constructor; try done; lia|].
  intros k a v Hk (Hrk & Htk & Hvk). destruct (refresh_step (owners w) k a v) as [H1' H2']; [by rewrite Htk|done|].
  split_and!; [done|by rewrite H2'|]. rewrite <- Hvk. unfold refresh_owner. run.
  destruct (output_table v !! k); [|done]. by case_match.
Qed.
Lemma refreshed_local w mask w1 : refreshed (owners w) (length (output_table w)) mask w1 -> output_table w1 = output_table w ->
  forall i ch, output_table w1 !! i = Some ch -> local_bit i w1 = is_local ch w1.
Proof.
  intros [_ Ho _ Hl] Ht i ch Hi'. unfold is_local. rewrite Ho. apply (Hl i ch); [|done]. rewrite <- Ht. by eapply lookup_lt_Some.
Qed.
Lemma update_ok w : io_inv w -> updated w (io_driver_update idle w).2.
Proof.
  intros Hw. unfold io_driver_update. run. destruct (Nat.eqb_spec (length (output_table w)) 0) as [Hn|Hn].
  { apply nil_length_inv in Hn. constructor; try done; rewrite Hn; done. }
  rewrite run_bind_surj. destruct (refresh_loop w Hw) as (Hr & Ht & Hv). destruct (for_fold refresh_owner _ _ _) as [mask w1].
  cbn [fst snd] in *. pose proof (refreshed_local _ _ _ Hr Ht) as Hloc. destruct Hr as [Hi Ho Hm Hl].
  destruct (Z.eqb_spec mask 0) as [Hz|_].
  { rewrite run_ret. cbn [snd]. constructor; try done; intros i ch Hch; [rewrite (Hloc i ch) by by rewrite Ht|rewrite Hm, Hz; apply Z.bits_0].
    unfold is_local. by rewrite Ho. }
  assert (applied w1 mask 0 w1) as Ha by (constructor; try done; intros i; by rewrite Hm, andb_true_r).
  apply (for_each_ind (applied w1 mask) (apply_output idle mask) (length (output_table w))) in Ha;
    [|intros; apply apply_step; [by rewrite Ht|done|done]].
  destruct Ha as [Hi2 Ho2 Hl2 Ht2 Hv2 Hp2]. constructor; [done|congruence|congruence|congruence| |].
  - intros i ch Hch. unfold local_bit in *. rewrite Hl2, (Hloc i ch) by by rewrite Ht. unfold is_local. by rewrite Ho.
  - intros i ch Hch%lookup_lt_Some. rewrite Hp2. destruct (Nat.leb_spec (length (output_table w)) i); [lia|by rewrite andb_false_r].
Qed.

(** *** What happens to a running driver *)

(** The state is written, the inputs are scanned, ownership moves in the
    cluster, the contacts change (the outputs do not), the diagnostics run, the
    outputs are updated. *)
Inductive io_event :=
| io_write (id v : Z)
| io_scan
| io_owners (c : cluster_io)
| io_contacts (g : G)
| io_diag
| io_update.
Definition io_step (e : io_event) : M () :=
  match e with
  | io_write id v => on_store (state_set_int id v);; mret tt
  | io_scan => io_driver_scan_inputs
  | io_owners c => modify (fun w => w <| owners := c |>)
  | io_contacts g => modify (fun w => w <| hw := g |>)
  | io_diag => io_driver_process
  | io_update => io_driver_update idle
  end.
(** New hardware that puts out the same levels. *)
Definition same_pins (g g' : G) : Prop := forall p, driven p g' = driven p g /\ (only_output p g -> only_output p g').
Fixpoint contacts_only (es : list io_event) w : Prop :=
  match es with
  | [] => True
  | e :: es => match e with io_contacts g => same_pins (hw w) g | _ => True end /\ contacts_only es (io_step e w).2
  end.
Lemma io_step_inv e w : io_inv w -> match e with io_contacts g => same_pins (hw w) g | _ => True end -> io_inv (io_step e w).2.
Proof.
  intros Hw He. destruct e as [id v| |c|g| |]; cbn [io_step].
  - rewrite run_bind_surj. by apply io_inv_set.
  - by apply io_inv_scan.
  - apply (same_io_inv w); [by constructor|done].
  - apply (same_io_inv w); [|done]. constructor; try done; intros p _; apply He.
  - by apply io_inv_process.
  - by apply update_ok.
Qed.
Lemma io_run_inv es w : io_inv w -> contacts_only es w -> io_inv (for_each io_step es w).2.
Proof.
  revert w. induction es as [|e es IH]; intros w Hw Hc; [done|]. cbn [for_each]. rewrite run_bind_surj. destruct Hc as [He Hc].
  apply IH; [by apply io_step_inv|done].
Qed.

(** C3: After an update, at any time since boot and whatever happened in between
    (writes by any component, scans, outputs changing hands in the cluster),
    every output's pin shows its value in the state table if the output is local
    and off otherwise, and nothing is left pending. *)
Theorem outputs_follow_state ov iv w0 es :
  wiring ov iv -> length (int_values (sto w0)) = 256%nat -> contacts_only es (io_driver_init ov iv w0).2 ->
  let w := (for_each io_step es (io_driver_init ov iv w0).2).2 in
  let w' := (io_driver_update idle w).2 in
  (forall i ch, output_table w' !! i = Some ch -> pending i w' = false /\
     (0 <= oc_gpio ch -> shows ch (is_local ch w' && state_on (oc_id ch) w') w')) /\
  (forall id, state_get_int id (sto w') = state_get_int id (sto w)) /\ owners w' = owners w.
Proof.
  intros Hw Hlen Hes w w'. destruct (io_driver_init_ok ov iv w0 Hw Hlen) as [Hinit _].
  pose proof (update_ok w (io_run_inv es _ Hinit Hes)) as [Hi Ho Ht Hv Hl Hp]. fold w' in Hi, Ho, Ht, Hv, Hl, Hp.
  split_and!; [|intros id; cbn; unfold get_int; by rewrite Hv|done].
  intros i ch Hch. rewrite Ht in Hch. split; [by apply (Hp i ch)|]. intros Hg.
  unfold is_local. rewrite Ho. fold (is_local ch w). rewrite <- (Hl i ch Hch). apply (ii_sync _ Hi); [by rewrite Ht|done|by apply (Hp i ch)].
Qed.

(** The level reported for an output that has a pin is the same whatever the
    output does: [gpio_get_level] reads 0 from a pin that is only an output. *)
Theorem physical_level_constant ov iv w0 es i ch :
  wiring ov iv -> length (int_values (sto w0)) = 256%nat -> contacts_only es (io_driver_init ov iv w0).2 ->
  let w := (for_each io_step es (io_driver_init ov iv w0).2).2 in
  output_table w !! i = Some ch -> 0 <= oc_gpio ch ->
  io_driver_get_output_physical_level (oc_id ch) w = Some (if oc_active_low ch then 1 else 0).
Proof.
  intros Hw Hlen Hes w Hch Hg. destruct (io_driver_init_ok ov iv w0 Hw Hlen) as [Hinit _].
  pose proof (io_run_inv es _ Hinit Hes) as Hi. fold w in Hi. unfold io_driver_get_output_physical_level.
  rewrite (find_idx_unique _ _ i ch Hch (Z.eqb_refl _)).
  2: { intros j y Hj Hy%Z.eqb_eq. apply (NoDup_lookup _ j i (oc_id ch) (tk_nodup _ (ii_tables _ Hi)));
         rewrite list_lookup_fmap; [by rewrite Hj, <- Hy|by rewrite Hch]. }
  cbn [mbind option_bind]. rewrite Hch. cbn [mbind option_bind]. unfold GPIO_NUM_NC.
  rewrite (proj2 (Z.eqb_neq _ _)), (proj2 (Z.ltb_ge _ _)) by lia. cbn [orb]. f_equal.
  rewrite only_output_level by by apply (ii_modes _ Hi i). unfold logical_level. by destruct (oc_active_low ch).
Qed.

(** *** A write between the read and the clearing *)

(** Output [i], local, has [v] in the state table while its pin shows [on] and
    no bit asks for an update. *)
Record stale (i : nat) ch (v : Z) (on : bool) w : Prop := {
  sl_tables : tables_ok w;
  sl_at : output_table w !! i = Some ch;
  sl_pin : 0 <= oc_gpio ch;
  sl_local : is_local ch w = true;
  sl_bit : local_bit i w = true;
  sl_state : state_get_int (oc_id ch) (sto w) = Some v;
  sl_pending : pending i w = false;
  sl_shows : shows ch on w;
}.
Lemma stale_drive i ch v on ch' on' k w : output_table w !! k = Some ch' -> k <> i -> stale i ch v on w ->
  stale i ch v on (drive ch' on' w).2.
Proof.
  intros Hk Hne [Ht Ha Hg Hl Hb Hs Hp Hsh]. destruct (drive_spec ch' on' w) as [->|[Hg' ->]]; [by constructor|].
  constructor; try done; [by destruct Ht; constructor|]. unfold shows. cbn. rewrite driven_set_ne; [done|].
  intros Hpin. apply Hne. by apply (tk_pins _ Ht k i ch' ch).
Qed.
Lemma stale_pending i ch v on b k w : (k < 16)%nat -> k <> i -> stale i ch v on w -> stale i ch v on (set_pending b k w).2.
Proof.
  intros Hk Hne [Ht Ha Hg Hl Hb Hs Hp Hsh]. constructor; try done; [by destruct Ht; constructor|].
  unfold pending in *. cbn -[Z.testbit]. destruct b; rewrite ?bit_set, ?bit_clear by lia; rewrite Hp; [|done].
  by rewrite (proj2 (Z.eqb_neq _ _)) by lia.
Qed.
Lemma stale_local i ch v on b k w : (k < 16)%nat -> k <> i -> stale i ch v on w -> stale i ch v on (set_local b k w).2.
Proof.
  intros Hk Hne [Ht Ha Hg Hl Hb Hs Hp Hsh]. constructor; try done; [by destruct Ht; constructor|].
  unfold local_bit in *. cbn -[Z.testbit]. destruct b; rewrite ?bit_set, ?bit_clear by lia; rewrite Hb; [done|].
  by rewrite (proj2 (Z.eqb_neq _ _)) by lia.
Qed.
Lemma stale_apply i ch v on mask k w : Z.testbit mask (Z.of_nat i) = false \/ k <> i -> stale i ch v on w ->
  stale i ch v on (apply_output idle mask k w).2.
Proof.
  intros Hmi Hw. unfold apply_output. destruct (Z.testbit mask (Z.of_nat k)) eqn:Hm; cbn [negb]; [|done].
  assert (k <> i) as Hne by (destruct Hmi as [Hmi|]; [congruence|done]).
  run. destruct (output_table w !! k) as [ch'|] eqn:Hk; [|done].
  assert (k < 16)%nat by (pose proof (tk_max _ (sl_tables _ _ _ _ _ Hw)); apply lookup_lt_Some in Hk; lia).
  unfold idle. rewrite !run_bind_surj. cbn [mret st_ret snd fst]. apply stale_pending; [done|done|].
  destruct (negb _); [by eapply stale_drive|]. destruct (state_get_int _ _); [by eapply stale_drive|done].
Qed.
Lemma stale_refresh i ch v on k mask w : Z.testbit mask (Z.of_nat i) = false -> stale i ch v on w ->
  Z.testbit (refresh_owner k mask w).1 (Z.of_nat i) = false /\ stale i ch v on (refresh_owner k mask w).2.
Proof.
  intros Hm Hw. unfold refresh_owner. run. destruct (output_table w !! k) as [ch'|] eqn:Hk; [|done].
  assert (k < 16)%nat by (pose proof (tk_max _ (sl_tables _ _ _ _ _ Hw)); apply lookup_lt_Some in Hk; lia).
  destruct (decide (k = i)) as [->|Hne].
  - pose proof (sl_at _ _ _ _ _ Hw) as Ha. rewrite Hk in Ha. injection Ha as ->.
    pose proof (sl_local _ _ _ _ _ Hw) as Hl. unfold is_local in Hl. fold (local_bit i w).
    by rewrite Hl, (sl_bit _ _ _ _ _ Hw).
  - destruct (eqb _ _); [done|]. rewrite !run_bind_surj. unfold mret, st_ret. cbn [fst snd]. split.
    + rewrite bit_set, Hm by lia. by rewrite (proj2 (Z.eqb_neq _ _)) by lia.
    + by apply stale_pending, stale_local.
Qed.
Lemma stale_update i ch v on w : stale i ch v on w -> stale i ch v on (io_driver_update idle w).2.
Proof.
  intros Hw. unfold io_driver_update. run. destruct (_ =? _)%nat; [done|]. rewrite run_bind_surj.
  pose proof (for_fold_ind (fun _ mask w => Z.testbit mask (Z.of_nat i) = false /\ stale i ch v on w) refresh_owner
    (length (output_table w)) (pending_mask (sto w)) w) as [Hm Hw1]; [split; [exact (sl_pending _ _ _ _ _ Hw)|done]|by intros k mask w' _ []; apply stale_refresh|].
  destruct (for_fold _ _ _ _) as [mask w1]. cbn [fst snd] in *. destruct (_ =? 0); [done|].
  apply (for_each_ind (fun _ => stale i ch v on)); [done|]. intros. apply stale_apply; [by left|done].
Qed.

(** The write of another task in the gap of output [i]. *)
Definition write_in_gap (i : nat) (id v : Z) : nat -> M () :=
  fun k => if (k =? i)%nat then on_store (state_set_int id v);; mret tt else mret tt.
Lemma apply_output_gap i id v mask k w : k <> i -> apply_output (write_in_gap i id v) mask k w = apply_output idle mask k w.
Proof.
  intros Hne. unfold apply_output. case_match; [done|]. run. destruct (output_table w !! k); [|done].
  unfold write_in_gap, idle. by rewrite (proj2 (Nat.eqb_neq _ _)).
Qed.
Lemma apply_gap_stale w0 mask i ch v w : applied w0 mask i w -> output_table w0 !! i = Some ch -> 0 <= oc_gpio ch ->
  (forall j ch', output_table w0 !! j = Some ch' -> local_bit j w0 = is_local ch' w0) -> is_local ch w0 = true ->
  Z.testbit mask (Z.of_nat i) = true ->
  stale i ch v (state_on (oc_id ch) w0) (apply_output (write_in_gap i (oc_id ch) v) mask i w).2.
Proof.
  intros [Hi Ho Hlm Ht Hv Hp] Hch Hg Hloc Hl Hm. unfold apply_output. rewrite Hm. cbn [negb]. run. rewrite Ht, Hch.
  pose proof (ii_tables _ Hi) as Htab. pose proof (tk_max _ Htab) as Hmax.
  assert (i < 16)%nat by (apply lookup_lt_Some in Hch; rewrite Ht in Hmax; lia).
  assert (0 <= oc_id ch < 256) as Hid by (apply (tk_valid _ Htab); rewrite Ht; by eapply list_elem_of_lookup_2).
  unfold is_local in Hl. rewrite Ho, Hl. cbn [negb].
  assert (state_get_int (oc_id ch) (sto w) = Some (default 0 (state_get_int (oc_id ch) (sto w0)))) as ->.
  { cbn. unfold get_int. rewrite Hv. unfold state_valid_id, STATE_MAX_ENTRIES. by rewrite (proj2 (Z.ltb_lt _ _)) by lia. }
  fold (state_on (oc_id ch) w0). set (on := state_on (oc_id ch) w0). rewrite !run_bind_surj.
  set (w1 := (drive ch on w).2). unfold write_in_gap. rewrite Nat.eqb_refl, run_bind_surj, run_ret. cbn [snd].
  assert (stale i ch v on (set_pending false i (on_store (state_set_int (oc_id ch) v) w1).2).2); [|done].
  assert (tables_ok w1 /\ output_table w1 = output_table w /\ local_mask w1 = local_mask w /\ owners w1 = owners w) as (Ht1 & Ho1 & Hl1 & Hown1).
  { unfold w1. destruct (drive_spec ch on w) as [->|[_ ->]]; [done|]. by destruct Htab; split_and!; [constructor|..]. }
  pose proof (drive_pin ch on w Hg) as Hsh. fold w1 in Hsh. unfold on_store at 1, on_part.
  pose proof (set_int_reads (oc_id ch) v (sto w1) (oc_id ch) (tk_len _ Ht1) Hid) as Hr. rewrite Z.eqb_refl in Hr.
  pose proof (set_int_length (oc_id ch) v (sto w1)) as Hlen. destruct (set_int_ids (oc_id ch) v (sto w1)) as [Hids _].
  destruct (state_set_int (oc_id ch) v (sto w1)) as [b s]. cbn [fst snd] in *. constructor; cbn -[Z.testbit state_get_int].
  - destruct Ht1. constructor; cbn; rewrite ?Hlen, ?Hids; done.
  - by rewrite Ho1, Ht.
  - done.
  - unfold is_local. cbn. by rewrite Hown1, Ho.
  - unfold local_bit. cbn -[Z.testbit]. rewrite Hl1, Hlm. fold (local_bit i w0). by rewrite (Hloc i ch Hch).
  - exact Hr.
  - unfold pending. cbn -[Z.testbit]. rewrite bit_clear by lia. by rewrite Z.eqb_refl, andb_false_r.
  - exact Hsh.
Qed.

(** A write of another task between the read of the output's state and the
    clearing of its pending bit is lost: the state table has the new value, the
    pin keeps showing the old one, and no later update changes that. *)
Theorem concurrent_write_lost w i ch v n :
  io_inv w -> output_table w !! i = Some ch -> 0 <= oc_gpio ch -> is_local ch w = true -> pending i w = true ->
  let w' := (io_driver_update (write_in_gap i (oc_id ch) v) w).2 in
  let w'' := Nat.iter n (fun w => (io_driver_update idle w).2) w' in
  state_get_int (oc_id ch) (sto w'') = Some v /\ pending i w'' = false /\ is_local ch w'' = true /\
  shows ch (state_on (oc_id ch) w) w''.
Proof.
  intros Hw Hch Hg Hl Hp w' w''. assert (stale i ch v (state_on (oc_id ch) w) w'') as []; [|done].
  subst w''. induction n as [|n IH]; cbn [Nat.iter nat_rect]; [|by apply stale_update]. subst w'.
  unfold io_driver_update. run. pose proof (lookup_lt_Some _ _ _ Hch) as Hlt.
  destruct (Nat.eqb_spec (length (output_table w)) 0); [lia|]. rewrite run_bind_surj.
  destruct (refresh_loop w Hw) as (Hr & Ht & Hv).
  assert (pending i (for_fold refresh_owner (seq 0 (length (output_table w))) (pending_mask (sto w)) w).2 = true) as Hp1.
  { apply (for_fold_ind (fun _ _ w => pending i w = true)); [done|]. intros k a v' _ Hv'. unfold refresh_owner. run.
    destruct (output_table v' !! k); [|done]. case_match; [done|]. rewrite !run_bind_surj. cbn [mret st_ret snd].
    unfold pending in *. cbn -[Z.testbit]. by rewrite Z.lor_spec, Hv'. }
  destruct (for_fold refresh_owner _ _ _) as [mask w1]. cbn [fst snd] in *. pose proof (refreshed_local _ _ _ Hr Ht) as Hloc.
  destruct Hr as [Hi Ho Hm _]. rewrite Hm in Hp1. destruct (Z.eqb_spec mask 0) as [->|_]; [by rewrite Z.bits_0 in Hp1|].
  assert (state_on (oc_id ch) w = state_on (oc_id ch) w1) as -> by (symmetry; by apply state_on_values).
  assert (is_local ch w1 = true) as Hl1 by by unfold is_local; rewrite Ho.
  assert (applied w1 mask 0 w1) as Ha by (constructor; try done; intros j; by rewrite Hm, andb_true_r).
  pose proof (for_each_ind (fun k v' => if decide (k <= i)%nat then applied w1 mask k v'
     else stale i ch v (state_on (oc_id ch) w1) v') (apply_output (write_in_gap i (oc_id ch) v) mask) (length (output_table w)) w1) as Hloop.
  cbv beta in Hloop. rewrite (decide_True (P := (0 <= i)%nat)), (decide_False (P := (_ <= i)%nat)) in Hloop by lia.
  apply Hloop; [done|]. clear Hloop.
  intros k v' Hk. destruct (decide (k <= i)%nat), (decide (S k <= i)%nat) as [Hki|Hki]; try lia.
  - rewrite apply_output_gap by lia. apply apply_step; [by rewrite Ht|done].
  - assert (k = i) as -> by lia. intros. by apply apply_gap_stale; [|rewrite Ht| | | |].
  - intros. rewrite apply_output_gap by lia. apply stale_apply; [right; lia|done].
Qed.
End pins.

(** ** Debouncing

    The reference: with the samples newest first, the value of the most recent
    [n] consecutive equal ones. *)

Fixpoint last_window (n : nat) (samples : list Z) : option Z :=
  match samples with
  | [] => None
  | x :: rest => if bool_decide (take n samples = replicate n x) then Some x else last_window n rest
  end.
(** The length of the run of [x] at the head. *)
Fixpoint leading (x : Z) (samples : list Z) : nat :=
  match samples with
  | [] => O
  | y :: rest => if y =? x then S (leading x rest) else O
  end.
Lemma leading_take n x l : take n l = replicate n x <-> (n <= leading x l)%nat.
Proof.
  revert l. induction n as [|n IH]; intros l; [split; [lia|done]|]. destruct l as [|y l]; cbn; [split; [done|lia]|].
  destruct (Z.eqb_spec y x) as [->|Hne]; [|split; [congruence|lia]].
  rewrite <- Nat.succ_le_mono, <- IH. split; [by intros [=]|by intros ->].
Qed.
Lemma last_window_cons n x l : last_window n (x :: l) = if bool_decide (n <= leading x (x :: l))%nat then Some x else last_window n l.
Proof. cbn [last_window]. by rewrite (bool_decide_ext _ _ (leading_take n x (x :: l))). Qed.

(** A digital channel whose samples have been [h], newest first. *)
Record sampled (h : list Z) (c : input_channel) : Prop := {
  sp_range : 1 <= debounce_samples c <= 32;
  sp_last : h !! 0%nat = Some (last_sample c);
  sp_count : stable_count c = Z.min (debounce_samples c) (Z.of_nat (leading (last_sample c) h));
  sp_stable : last_window (Z.to_nat (debounce_samples c)) h = Some (stable_value c);
}.
Lemma debounce_fixed s c : let c' := (debounce s c).1 in
  ic_id c' = ic_id c /\ ic_gpio c' = ic_gpio c /\ ic_active_low c' = ic_active_low c /\ backend c' = backend c /\
  debounce_samples c' = debounce_samples c.
Proof. unfold debounce. by repeat case_match. Qed.
Lemma debounce_sampled h s c : sampled h c -> sampled (s :: h) (debounce s c).1 /\
  (debounce s c).2 = negb (stable_value (debounce s c).1 =? stable_value c) /\
  stable_value (debounce s c).1 = (if (debounce s c).2 then s else stable_value c).
Proof.
  intros [Hr Hl Hc Hs]. destruct h as [|x h]; [done|]. cbn in Hl. injection Hl as ->.
  set (N := debounce_samples c) in *. set (c1 :=
    if negb (s =? last_sample c) then c <| last_sample := s |> <| stable_count := 1 |> <| raw_edges := u32 (raw_edges c + 1) |>
    else if stable_count c <? N then c <| stable_count := u8 (stable_count c + 1) |> else c).
  assert (last_sample c1 = s /\ debounce_samples c1 = N /\ stable_value c1 = stable_value c /\
    stable_count c1 = Z.min N (Z.of_nat (leading s (s :: last_sample c :: h)))) as (Hl1 & Hd1 & Hv1 & Hc1).
  { subst c1. cbn [leading] in *. rewrite Z.eqb_refl in *. destruct (Z.eqb_spec s (last_sample c)) as [->|Hne]; cbn [negb].
    - rewrite Z.eqb_refl. destruct (Z.ltb_spec (stable_count c) N); split_and!; try done; cbn [stable_count update];
        rewrite ?u8_id; lia.
    - rewrite (proj2 (Z.eqb_neq _ _)) by congruence. split_and!; try done. cbn [stable_count update]. lia. }
  change (debounce s c) with (if (debounce_samples c1 <=? stable_count c1) && negb (stable_value c1 =? s)
    then (c1 <| stable_value := s |> <| stable_edges := u32 (stable_edges c1 + 1) |>, true) else (c1, false)).
  rewrite Hd1, Hv1, Hc1. pose proof (last_window_cons (Z.to_nat N) s (last_sample c :: h)) as Hw. rewrite Hs in Hw.
  set (run := leading s (s :: last_sample c :: h)) in *.
  destruct (Z.leb_spec N (Z.min N (Z.of_nat run))) as [Hle|Hlt]; cbn [andb];
    [rewrite bool_decide_eq_true_2 in Hw by lia|rewrite bool_decide_eq_false_2 in Hw by lia].
  - destruct (Z.eqb_spec (stable_value c) s) as [He|Hne]; cbn [negb fst snd].
    + split_and!; [constructor; rewrite ?Hl1, ?Hd1, ?Hv1, ?He; try done; by rewrite Hc1|by rewrite Hv1, Z.eqb_refl|done].
    + split_and!; [constructor; cbn; rewrite ?Hl1, ?Hd1, ?Hc1; done| |done].
      cbn. symmetry. apply negb_true_iff, Z.eqb_neq. congruence.
  - cbn [fst snd]. split_and!; [constructor; rewrite ?Hl1, ?Hd1, ?Hv1, ?Hc1; done|by rewrite Hv1, Z.eqb_refl|done].
Qed.

Section inputs.
Context {G : Type} `{HardwareLaws G}.
Implicit Types (w : iow G) (c : input_channel).
Abbreviation M := (st (iow G)).

Definition logical_of c (g : G) : Z := logical_level (ic_active_low c) (gpio_get_level (ic_gpio c) g).
(** The input in place [i] of the table, of identifier [id]: [R] relates its
    channel to its value in the state table.  The pins are those of [g]. *)
Record watched (i : nat) (id : Z) (ids : list Z) (g : G) (R : input_channel -> option Z -> Prop) w : Prop := {
  fo_len : length (int_values (sto w)) = 256%nat;
  fo_ids : ic_id <$> input_table w = ids;
  fo_levels p : gpio_get_level p (hw w) = gpio_get_level p g;
  fo_chan : exists c, input_table w !! i = Some c /\ R c (state_get_int id (sto w));
}.
(** A digital channel like [c0] that has had the samples [h]; the state table
    shows its debounced value. *)
Definition follows (i : nat) (c0 : input_channel) (ids : list Z) (g : G) (h : list Z) : iow G -> Prop :=
  watched i (ic_id c0) ids g (fun c v => sampled h c /\ ic_id c = ic_id c0 /\ ic_gpio c = ic_gpio c0 /\
    ic_active_low c = ic_active_low c0 /\ backend c = backend c0 /\ debounce_samples c = debounce_samples c0 /\
    v = Some (stable_value c)).
Section one.
Context (i : nat) (id0 : Z) (ids : list Z) (g : G) (R : input_channel -> option Z -> Prop).
Context (Hid : 0 <= id0 < 256) (Hnd : NoDup ids) (Hat : ids !! i = Some id0).
Abbreviation F := (watched i id0 ids g R).

Lemma watched_read k : keeps F (on_hw (adc_oneshot_read k)).
Proof.
  intros w [Hl Hi Hp Hc]. unfold on_hw, on_part. pose proof (fun p => level_adc_read p k (hw w)) as Hlev.
  destruct (adc_oneshot_read k (hw w)) as [v g']. constructor; try done. intros p. cbn. rewrite <- Hp. apply Hlev.
Qed.
Lemma watched_upd k f : k <> i -> (forall c, ic_id (f c) = ic_id c) -> keeps F (upd_input k f).
Proof.
  intros Hne Hf w [Hl Hi Hp Hc]. constructor; try done; cbn.
  - rewrite <- Hi. by apply fmap_alter_same.
  - by rewrite list_lookup_alter_ne.
Qed.
Lemma watched_set id v : id <> id0 -> keeps F (on_store (state_set_int id v)).
Proof.
  intros Hne w [Hl Hi Hp Hc]. unfold on_store, on_part.
  pose proof (set_int_reads id v (sto w) (id0) Hl Hid) as Hr. rewrite (proj2 (Z.eqb_neq _ _)) in Hr by congruence.
  pose proof (set_int_length id v (sto w)) as Hlen. destruct (state_set_int id v (sto w)) as [b s]. cbn [fst snd] in *.
  constructor; cbn -[state_get_int]; [by rewrite Hlen|done|done|]. by rewrite Hr.
Qed.
Lemma watched_feed gpio raw : keeps F (feed_pve gpio raw).
Proof.
  intros w [Hl Hi Hp Hc]. unfold feed_pve, on_pve_update, on_part.
  repeat case_match; try (by constructor); destruct (pve_update _ _ _) as [[] q]; by constructor.
Qed.
Lemma watched_image f : keeps F (on_image f).
Proof. by intros w []. Qed.
Lemma watched_http : keeps F http_server_notify_state_change.
Proof. by intros w []. Qed.
#[local] Hint Resolve watched_read watched_feed watched_image watched_http : keeps.

(** The other inputs do not touch it. *)
Lemma watched_scan_other k : k <> i -> keeps F (scan_input k).
Proof.
  intros Hne w Hw. assert (forall f, (forall c, ic_id (f c) = ic_id c) -> keeps F (upd_input k f)) by (intros; by apply watched_upd).
  unfold scan_input. run. destruct (input_table w !! k) as [c|] eqn:Hc; [|done].
  assert (ic_id c <> id0) as Hidc.
  { intros He. apply Hne. apply (NoDup_lookup ids k i (ic_id c) Hnd).
    - rewrite <- (fo_ids _ _ _ _ _ _ Hw), list_lookup_fmap. by rewrite Hc.
    - by rewrite He. }
  pose proof (fun v => watched_set (ic_id c) v Hidc).
  assert (forall v, keeps F (upd_input k (fun c => (debounce v c).1))) by (intros; apply watched_upd; [done|]; intros; apply debounce_fixed).
  assert (forall v, keeps F (upd_input k (fun c => (settle v c).1)))
    by (intros; apply watched_upd; [done|]; intros; unfold settle; by repeat case_match).
  revert w Hw Hc. assert (keeps F (if backend c =? DEVICE_CHANNEL_BACKEND_ADC_NATIVE then scan_analog k c else scan_digital k c)) as Hk;
    [|intros w Hw _; by apply Hk]. unfold scan_analog, scan_digital. keeps.
Qed.
End one.
Lemma follows_scan_self i c0 ids g h w : 0 <= ic_id c0 < 256 -> backend c0 <> DEVICE_CHANNEL_BACKEND_ADC_NATIVE ->
  follows i c0 ids g h w -> follows i c0 ids g (logical_of c0 g :: h) (scan_input i w).2.
Proof.
  intros Hid Hb [Hl Hi Hp (c & Hc & Hs & Eid & Eg & Ea & Eb & Ed & Hv)]. unfold scan_input. run. rewrite Hc, Eb.
  rewrite (proj2 (Z.eqb_neq _ _)) by done. unfold scan_digital. run.
  assert (logical_level (ic_active_low c) (gpio_get_level (ic_gpio c) (hw w)) = logical_of c0 g) as ->
    by (unfold logical_of; by rewrite Hp, Ea, Eg).
  set (s := logical_of c0 g). destruct (debounce_sampled h s c Hs) as (Hs' & Hflag & Hval).
  destruct (debounce_fixed s c) as (F1 & F2 & F3 & F4 & F5). rewrite run_bind_surj.
  set (w1 := (upd_input i _ w).2).
  assert (input_table w1 !! i = Some (debounce s c).1) as Hc1 by by cbn; rewrite list_lookup_alter_eq, Hc.
  assert (ic_id <$> input_table w1 = ids) as Hi1.
  { rewrite <- Hi. cbn. apply fmap_alter_same. intros x _. apply debounce_fixed. }
  destruct (debounce s c).2 eqn:E.
  - rewrite !run_bind_surj. unfold on_store at 1, on_part. set (w2 := (on_image _ w1).2).
    pose proof (set_int_reads (ic_id c) s (sto w2) (ic_id c0)) as Hr. rewrite Eid, Z.eqb_refl in Hr. specialize (Hr Hl Hid).
    pose proof (set_int_length (ic_id c) s (sto w2)) as Hlen. rewrite Eid in *.
    destruct (state_set_int (ic_id c0) s (sto w2)) as [b s']. cbn [fst snd] in *.
    constructor; cbn -[state_get_int]; [by rewrite Hlen|done|done|].
    exists (debounce s c).1. split; [exact Hc1|]. split_and!; try congruence. rewrite Hval. exact Hr.
  - constructor; [done|done|done|]. exists (debounce s c).1. split; [exact Hc1|]. split_and!; try congruence.
    by rewrite Hval.
Qed.
(** A scan, given what the channel's own round does. *)
Lemma watched_scan i id ids g (R R' : input_channel -> option Z -> Prop) w : 0 <= id < 256 ->
  NoDup ids -> ids !! i = Some id ->
  (forall v, watched i id ids g R v -> watched i id ids g R' (scan_input i v).2) ->
  watched i id ids g R w -> watched i id ids g R' (io_driver_scan_inputs w).2.
Proof.
  intros Hid Hnd Hat Hself Hw. unfold io_driver_scan_inputs. run.
  pose proof (for_each_ind (fun k v => watched i id ids g (if decide (k <= i)%nat then R else R') v)
    scan_input (length (input_table w)) w) as Hloop. cbv beta in Hloop.
  assert (i < length (input_table w))%nat as Hlt.
  { rewrite <- (length_fmap ic_id), (fo_ids _ _ _ _ _ _ Hw). by eapply lookup_lt_Some. }
  rewrite (decide_True (P := (0 <= i)%nat)), (decide_False (P := (_ <= i)%nat)) in Hloop by lia. apply Hloop; [done|].
  intros k v _. destruct (decide (k <= i)%nat), (decide (S k <= i)%nat); try lia.
  - apply watched_scan_other; try done; lia.
  - assert (k = i) as -> by lia. by apply Hself.
  - apply watched_scan_other; try done; lia.
Qed.
Lemma follows_scan i c0 ids g h w : 0 <= ic_id c0 < 256 -> backend c0 <> DEVICE_CHANNEL_BACKEND_ADC_NATIVE ->
  NoDup ids -> ids !! i = Some (ic_id c0) -> follows i c0 ids g h w ->
  follows i c0 ids g (logical_of c0 g :: h) (io_driver_scan_inputs w).2.
Proof. intros Hid Hb Hnd Hat. apply watched_scan; try done. intros v. by apply follows_scan_self. Qed.

(** The contacts change, the driver scans, and so on. *)
Definition scans (gs : list G) : M () :=
  for_each (fun g => modify (fun w => w <| hw := g |>);; io_driver_scan_inputs) gs.

(** C4: A digital input that has been steady is published as the reference
    debouncing of everything sampled since: the value of the most recent
    [debounce_samples] consecutive equal samples.  No shorter glitch is ever
    seen by the rest of the program, and a change that lasts is seen at the scan
    of its last sample. *)
Theorem input_debounced w (gs : list G) i c :
  length (int_values (sto w)) = 256%nat -> NoDup (ic_id <$> input_table w) ->
  input_table w !! i = Some c -> 0 <= ic_id c < 256 -> backend c <> DEVICE_CHANNEL_BACKEND_ADC_NATIVE ->
  1 <= debounce_samples c <= 32 -> last_sample c = stable_value c -> stable_count c = debounce_samples c ->
  state_get_int (ic_id c) (sto w) = Some (stable_value c) ->
  state_get_int (ic_id c) (sto (scans gs w).2) =
    last_window (Z.to_nat (debounce_samples c))
      (rev (map (logical_of c) gs) ++ replicate (Z.to_nat (debounce_samples c)) (stable_value c)).
Proof.
  intros Hlen Hnd Hc Hid Hb Hr Hls Hsc Hv. set (N := Z.to_nat (debounce_samples c)).
  assert (forall gs h v, follows i c (ic_id <$> input_table w) (hw v) h v ->
    follows i c (ic_id <$> input_table w) (hw (scans gs v).2) (rev (map (logical_of c) gs) ++ h) (scans gs v).2) as Hgo.
  { clear gs. induction gs as [|g gs IH]; intros h v Hf; [done|]. unfold scans. cbn [for_each]. fold (scans gs).
    rewrite run_bind_surj. cbn [map rev]. rewrite <- app_assoc. cbn [app]. run.
    assert (follows i c (ic_id <$> input_table w) g h (v <| hw := g |>)) as Hf' by (by destruct Hf).
    apply follows_scan in Hf'; try done; [|by rewrite list_lookup_fmap, Hc]. apply IH.
    destruct Hf'. constructor; done. }
  assert (follows i c (ic_id <$> input_table w) (hw w) (replicate N (stable_value c)) w) as H0'.
  { constructor; try done. exists c. split_and!; try done.
    assert (forall n x, leading x (replicate n x) = n) as Hlead
      by (induction n as [|n IH]; intros x; cbn; [done|]; by rewrite Z.eqb_refl, IH).
    constructor; [done|rewrite Hls; apply lookup_replicate_2; lia|rewrite Hls, Hlead; lia|].
    assert (last_window N (replicate N (stable_value c)) = Some (stable_value c)); [|done].
    destruct N as [|m] eqn:E; [lia|]. cbn [replicate]. rewrite last_window_cons.
    rewrite bool_decide_eq_true_2; [done|]. change (S m <= leading (stable_value c) (replicate (S m) (stable_value c)))%nat.
    by rewrite Hlead. }
  destruct (Hgo gs _ _ H0') as [_ _ _ (c' & _ & [_ _ _ Hst] & _ & _ & _ & _ & Hd & Hs)].
  rewrite Hs, <- Hst. by rewrite Hd.
Qed.
End inputs.

(** ** A board *)

Record board := Board { outs : Z -> Z; output_only : Z -> bool; contacts : Z -> Z; samples : Z -> Z }.
Definition with_pin {A} (p : Z) (v : A) (f : Z -> A) : Z -> A := fun q => if q =? p then v else f q.
#[export] Instance board_hardware : Hardware board := {
  gpio_config p m _ _ g := Board (outs g) (with_pin p (match m with GPIO_MODE_OUTPUT => true | _ => false end) (output_only g))
    (contacts g) (samples g);
  gpio_set_level p v g := Board (with_pin p v (outs g)) (output_only g) (contacts g) (samples g);
  gpio_get_level p g := if output_only g p then 0 else contacts g p;
  adc_oneshot_new_unit := mret true;
  adc_oneshot_io_to_channel p := if (32 <=? p) && (p <=? 39) then Some (ADC_UNIT_1, p - 32) else None;
  adc_oneshot_config_channel _ := mret true;
  adc_oneshot_read c := gets (fun g => Some (samples g c));
}.
#[export] Program Instance board_laws : HardwareLaws board :=
  {| driven p g := outs g p; only_output p g := output_only g p = true |}.
Solve All Obligations with (intros; cbn; unfold with_pin; repeat case_match; lia || done || congruence).

Definition demo_outputs : list binding := [Binding 100 22 0 (-1); Binding 104 (-1) 0 (-1); Binding 101 4 0 (-1)].
Definition demo_inputs : list binding := [Binding 10 16 0 (-1); Binding 22 34 2 6].
Definition demo_io : iow board :=
  Iow store_boot [] [] 0 0 false io_image_init (pv pve_boot) (cluster_io_init 0) (Failsafe [] 0)
    (Board (fun _ => 0) (fun _ => false) (fun _ => 1) (fun _ => 1500)).
Definition demo_booted : iow board := (io_driver_init demo_outputs demo_inputs demo_io).2.
Definition demo_events : list (@io_event board) := [io_write 100 1; io_scan; io_owners (cluster_io_init 7); io_write 101 1].
Definition contacts_at (level : Z) : board := Board (fun _ => 0) (fun _ => false) (fun _ => level) (fun _ => 1500).
Lemma demo_wiring : wiring demo_outputs demo_inputs.
Proof. split; apply (bool_decide_unpack _); vm_compute; exact I. Qed.

Lemma outputs_follow_state_witness :
  let w := (io_driver_update idle (for_each io_step demo_events demo_booted).2).2 in
  shows (OutputChannel 100 22 true) (is_local (OutputChannel 100 22 true) w && state_on 100 w) w /\ outs (hw w) 22 = 0.
Proof.
  split; [|vm_compute; reflexivity].
  refine (proj2 (proj1 (outputs_follow_state demo_outputs demo_inputs demo_io demo_events demo_wiring _ _) 0%nat _ _) _);
    [reflexivity|repeat split|vm_compute; reflexivity|cbn; lia].
Defined.
Lemma physical_level_constant_witness :
  let w := (for_each io_step [io_write 100 0; io_update] demo_booted).2 in
  outs (hw w) 22 = 1 /\ io_driver_get_output_physical_level 100 w = Some 1.
Proof.
  split; [vm_compute; reflexivity|].
  refine (physical_level_constant demo_outputs demo_inputs demo_io [io_write 100 0; io_update] 0%nat (OutputChannel 100 22 true)
    demo_wiring _ _ _ _); [reflexivity|repeat split|vm_compute; reflexivity|cbn; lia].
Defined.
Lemma input_debounced_witness :
  let gs := map contacts_at [0; 1; 0; 0; 0; 0; 0; 0; 0; 0] in
  state_get_int 10 (sto (scans gs demo_booted).2) = Some 0 /\
  state_get_int 10 (sto (scans (take 9 gs) demo_booted).2) = Some 1.
Proof.
  assert (exists c, input_table demo_booted !! 0%nat = Some c /\ ic_id c = 10 /\ backend c <> DEVICE_CHANNEL_BACKEND_ADC_NATIVE /\
    debounce_samples c = 8 /\ last_sample c = stable_value c /\ stable_count c = debounce_samples c /\
    state_get_int (ic_id c) (sto demo_booted) = Some (stable_value c) /\ stable_value c = 1 /\ ic_gpio c = 16 /\ ic_active_low c = false) as
    (c & Hc & Hid & Hb & Hd & Hl & Hn & Hv & Hs & Hg & Ha).
  { eexists. split; [vm_compute; reflexivity|]. by vm_compute. }
  assert (NoDup (ic_id <$> input_table demo_booted)) as Hnd by (apply (bool_decide_unpack _); vm_compute; exact I).
  cbv zeta. rewrite <- Hid. split.
  - rewrite (input_debounced demo_booted _ 0%nat c) by (reflexivity || assumption || lia). rewrite Hd, Hs.
    unfold logical_of. rewrite Hg, Ha. vm_compute. reflexivity.
  - rewrite (input_debounced demo_booted _ 0%nat c) by (reflexivity || assumption || lia). rewrite Hd, Hs.
    unfold logical_of. rewrite Hg, Ha. vm_compute. reflexivity.
Defined.
Definition demo_switched : iow board := (io_step (io_write 100 1) demo_booted).2.
Lemma concurrent_write_lost_witness :
  let w := Nat.iter 5 (fun w => (io_driver_update idle w).2) (io_driver_update (write_in_gap 0 100 0) demo_switched).2 in
  state_get_int 100 (sto w) = Some 0 /\ shows (OutputChannel 100 22 true) true w.
Proof.
  assert (io_inv demo_switched) as Hi.
  { apply io_step_inv; [|exact I]. apply io_driver_init_ok; [exact demo_wiring|reflexivity]. }
  pose proof (concurrent_write_lost demo_switched 0%nat (OutputChannel 100 22 true) 0 5 Hi) as Hw.
  destruct Hw as (Hs & _ & _ & Hsh); [vm_compute; reflexivity|cbn; lia|vm_compute; reflexivity|vm_compute; reflexivity|].
  split; [exact Hs|exact Hsh].
Defined.
