(* ===== verification/InputLearning.v ===== *)
(** * Input learning ([components/runtime/input_learning/input_learning.c])

    While armed, the first input that switches on is remembered.  The names that
    the snapshot adds come from the bindings and are left out. *)

From Stdlib Require Import String.
From S2P Require Import Prelude EventBus State DeviceProfile Automation.

Record input_learning := InputLearning { learn_armed : bool; learn_found : bool; learned_input_id : Z }.
#[export] Instance input_learning_rebuild : Rebuild input_learning := fun l =>
  InputLearning (learn_armed l) (learn_found l) (learned_input_id l).

Definition input_learning_event_handler (ev : event) (l : input_learning) : input_learning :=
  if negb (ev_type ev =? EVENT_STATE_CHANGE) then l
  else if negb (learn_armed l) then l
  else if ev_data ev =? 0 then l
  else if negb (device_profile_is_valid_input (ev_source ev)) then l
  else l <| learned_input_id := ev_source ev |> <| learn_found := true |> <| learn_armed := false |>.
Definition input_learning_init (b : event_bus subscriber) : input_learning * event_bus subscriber :=
  (InputLearning false false 0, event_bus_subscribe EVENT_STATE_CHANGE on_input_learning_event b).
Definition input_learning_arm (l : input_learning) : input_learning := InputLearning true false 0.
Definition input_learning_cancel (l : input_learning) : input_learning := l <| learn_armed := false |>.
Definition input_learning_clear (l : input_learning) : input_learning := InputLearning false false 0.

(** The first valid input that switches on among a list of events. *)
Definition switched_on (ev : event) : bool :=
  (ev_type ev =? EVENT_STATE_CHANGE) && negb (ev_data ev =? 0) && device_profile_is_valid_input (ev_source ev).

(** Once armed, the module finds exactly the first valid input that switches
    on, and later events do not change it. *)
Theorem learns_first_input (evs : list event) (l : input_learning) :
  let l' := foldl (fun l ev => input_learning_event_handler ev l) (input_learning_arm l) evs in
  match find_idx switched_on evs with
  | None => l' = InputLearning true false 0
  | Some i => exists ev, evs !! i = Some ev /\ l' = InputLearning false true (ev_source ev)
  end.
Proof.
  assert (forall evs x, foldl (fun l ev => input_learning_event_handler ev l) (InputLearning false true x) evs = InputLearning false true x) as Hdone.
  { clear. induction evs as [|ev evs IH]; intros x; [done|]. cbn [foldl].
    assert (input_learning_event_handler ev (InputLearning false true x) = InputLearning false true x) as -> by (unfold input_learning_event_handler; by case_match).
    apply IH. }
  unfold input_learning_arm. cbv zeta. clear l. induction evs as [|ev evs IH]; cbn [foldl find_idx]; [done|].
  assert (input_learning_event_handler ev (InputLearning true false 0) =
    if switched_on ev then InputLearning false true (ev_source ev) else InputLearning true false 0) as ->.
  { unfold input_learning_event_handler, switched_on. cbn [learn_armed negb].
    by destruct (ev_type ev =? EVENT_STATE_CHANGE), (ev_data ev =? 0), (device_profile_is_valid_input (ev_source ev)). }
  destruct (switched_on ev); [exists ev; split; [done|apply Hdone]|].
  by destruct (find_idx switched_on evs) as [i|].
Qed.
