(* ===== verification/Observability.v ===== *)
(** * Measuring the control loop
    ([components/runtime/runtime_monitor/runtime_monitor.c],
     [components/kernel/control_kernel/control_kernel.c] and, under
     [components/observability], [phase_load_test.c], [phase_monitor.c],
     [kernel_metrics.c], [kernel_phase_metrics.c], [determinism_probe.c],
     [kernel_trace.c])

    What the loop reports about itself; the log lines are left out. *)

From S2P Require Import Prelude.

(** ** The runtime monitor and the supervisor *)

Record control_kernel := ControlKernel {
  last_cycle : Z; last_cycle_us : Z; rm_fault : Z;             (* runtime_monitor.c *)
  system_fault_active : Z; last_cycle_time_us : Z;             (* control_kernel.c *)
  ck_clock : clock;
}.
#[export] Instance control_kernel_rebuild : Rebuild control_kernel := fun k =>
  ControlKernel (last_cycle k) (last_cycle_us k) (rm_fault k) (system_fault_active k) (last_cycle_time_us k) (ck_clock k).
Definition ck_now : st control_kernel Z :=
  t ← on_part ck_clock (fun c k => k <| ck_clock := c |>) clock_read; mret (u64 t).
Definition runtime_monitor_init : st control_kernel () := now ← ck_now; modify (fun k => k <| last_cycle := now |>).
Definition runtime_monitor_tick : st control_kernel () :=
  now ← ck_now;
  modify (fun k => let us := u32 (now - last_cycle k) in
    k <| last_cycle_us := us |> <| last_cycle := now |> <| rm_fault := if 2000 <? us then 1 else 0 |>).
Definition runtime_monitor_get_last_cycle_us (k : control_kernel) : Z := last_cycle_us k.
Definition runtime_monitor_is_fault (k : control_kernel) : Z := rm_fault k.
Definition deterministic_snapshot_tick : st control_kernel () := mret tt.
Definition control_kernel_init : st control_kernel () :=
  runtime_monitor_init;; modify (fun k => k <| system_fault_active := 0 |> <| last_cycle_time_us := 0 |>).
Definition control_kernel_task : st control_kernel () :=
  deterministic_snapshot_tick;; runtime_monitor_tick;;
  modify (fun k => k <| last_cycle_time_us := runtime_monitor_get_last_cycle_us k |>
                     <| system_fault_active := runtime_monitor_is_fault k |>).
Definition control_kernel_has_fault (k : control_kernel) : Z := system_fault_active k.
Definition control_kernel_get_last_cycle_us (k : control_kernel) : Z := last_cycle_time_us k.

(** ** Artificial load *)

Definition PHASE_LOAD_TEST_PHASE_COUNT : Z := 5.
Definition PHASE_LOAD_TEST_MAX_EXTRA_US : Z := 1500.
Definition PHASE_LOAD_TEST_IO : Z := 0.
Definition PHASE_LOAD_TEST_IO_APPLY : Z := 1.
Definition PHASE_LOAD_TEST_FIELDBUS : Z := 2.
Definition PHASE_LOAD_TEST_AUTOMATION : Z := 3.
Definition PHASE_LOAD_TEST_EVENTS : Z := 4.
Record load_test := LoadTest { phase_extra_us : list Z; phase_mask : Z }.
#[export] Instance load_test_rebuild : Rebuild load_test := fun l => LoadTest (phase_extra_us l) (phase_mask l).
Definition phase_bit (phase : Z) : Z := if phase <? 32 then Z.shiftl 1 phase else 0.
Definition phase_load_test_set (phase extra_us : Z) (l : load_test) : load_test :=
  if PHASE_LOAD_TEST_PHASE_COUNT <=? phase then l
  else
    let extra := if PHASE_LOAD_TEST_MAX_EXTRA_US <? extra_us then PHASE_LOAD_TEST_MAX_EXTRA_US else extra_us in
    l <| phase_extra_us := zset (phase_extra_us l) phase extra |>
      <| phase_mask := if 0 <? extra then Z.lor (phase_mask l) (phase_bit phase) else Z.ldiff (phase_mask l) (phase_bit phase) |>.
Definition phase_load_test_clear (l : load_test) : load_test := LoadTest (replicate 5 0) 0.
Definition phase_load_test_is_active (l : load_test) : bool := negb (phase_mask l =? 0).
(** The microseconds that [phase_load_test_apply] busy-waits. *)
Definition phase_load_test_apply (phase : Z) (l : load_test) : Z :=
  if PHASE_LOAD_TEST_PHASE_COUNT <=? phase then 0
  else if Z.land (phase_mask l) (phase_bit phase) =? 0 then 0
  else default 0 (zget (phase_extra_us l) phase).
(** [phase_load_test_snapshot_t]: the five delays, and the summary. *)
Record load_snapshot := LoadSnapshot {
  ls_io : Z; ls_io_apply : Z; ls_fieldbus : Z; ls_automation : Z; ls_events : Z; ls_active : bool; ls_count : Z; ls_total : Z }.
Definition phase_load_test_get (l : load_test) : load_snapshot :=
  let v i := default 0 (zget (phase_extra_us l) i) in
  let on := filter (fun x => 0 < x) (phase_extra_us l) in
  LoadSnapshot (v PHASE_LOAD_TEST_IO) (v PHASE_LOAD_TEST_IO_APPLY) (v PHASE_LOAD_TEST_FIELDBUS)
    (v PHASE_LOAD_TEST_AUTOMATION) (v PHASE_LOAD_TEST_EVENTS)
    (bool_decide (on <> [])) (Z.of_nat (length on)) (u32 (foldr Z.add 0 on)).

(** ** Deadlines of the phases *)

Definition phase_deadline : list Z := [90; 30; 100; 150; 50].
Record phase_monitor_snapshot := PhaseMonitorSnapshot {
  io_deadline_us : Z; io_apply_deadline_us : Z; fieldbus_deadline_us : Z; automation_deadline_us : Z; events_deadline_us : Z;
  io_overruns : Z; io_apply_overruns : Z; fieldbus_overruns : Z; automation_overruns : Z; events_overruns : Z }.
(** On [overrun_counter]. *)
Definition phase_monitor_check (phase exec_time : Z) (counters : list Z) : list Z :=
  if 5 <=? phase then counters
  else if default 0 (zget phase_deadline phase) <? exec_time
       then zset counters phase (u32 (default 0 (zget counters phase) + 1)) else counters.
Definition phase_monitor_get (counters : list Z) : phase_monitor_snapshot :=
  let d i := default 0 (zget phase_deadline i) in let c i := default 0 (zget counters i) in
  PhaseMonitorSnapshot (d 0) (d 1) (d 2) (d 3) (d 4) (c 0) (c 1) (c 2) (c 3) (c 4).

(** ** Totals *)

(** [kernel_metrics_snapshot_t] and the number of updates since the last log. *)
Record kernel_metrics_t := KernelMetrics { max_jitter : Z; max_exec_time : Z; km_deadline_miss : Z; km_overrun_count : Z; km_cycles : Z }.
Definition kernel_metrics_init : kernel_metrics_t := KernelMetrics 0 0 0 0 0.
(** The result says whether the totals are logged. *)
Definition kernel_metrics_update (jitter exec miss over : Z) (k : kernel_metrics_t) : bool * kernel_metrics_t :=
  let n := u32 (km_cycles k + 1) in
  if 5000 <=? n then (true, KernelMetrics jitter exec miss over 0) else (false, KernelMetrics jitter exec miss over n).
Definition kernel_metrics_get (k : kernel_metrics_t) : Z * Z * Z * Z :=
  (max_jitter k, max_exec_time k, km_deadline_miss k, km_overrun_count k).

(** [kernel_phase_metrics_t] *)
Record kernel_phase_metrics := KernelPhaseMetrics { io_max : Z; fieldbus_max : Z; automation_max : Z; events_max : Z }.
Definition kernel_phase_metrics_update (io fieldbus automation events : Z) : kernel_phase_metrics :=
  KernelPhaseMetrics io fieldbus automation events.

(** ** The probe and the trace: statistics over windows of 1024 cycles *)

Definition LOOP_PERIOD_US : Z := 1000.
Definition REPORT_WINDOW_CYCLES : Z := 1024.
Definition UINT32_MAX : Z := 4294967295.
Definition UINT64_MAX : Z := 18446744073709551615.

(** [exec_min], [exec_max], [exec_sum] and the number of samples, all of one
    window. *)
Record window := Window { w_min : Z; w_max : Z; w_sum : Z; w_samples : Z }.
Definition window_reset : window := Window UINT32_MAX 0 0 0.
(** [if (x < min) min = x; if (x > max) max = x; sum += x; samples++;] with the
    64-bit [x] cut to 32 bits where it is stored. *)
Definition window_add (x : Z) (w : window) : window :=
  Window (if x <? w_min w then u32 x else w_min w) (if w_max w <? x then u32 x else w_max w) (u64 (w_sum w + x)) (u32 (w_samples w + 1)).

(** [determinism_probe_report_t] *)
Record probe_report := ProbeReport { pr_cycles : Z; pr_min : Z; pr_avg : Z; pr_max : Z }.
Record probe := Probe { pb_start : Z; pb_cycles : Z; pb_exec : window; pb_pending : option probe_report }.
Definition determinism_probe_init : probe := Probe 0 0 window_reset None.
Definition determinism_probe_cycle_start (now : Z) (p : probe) : probe := Probe now (pb_cycles p) (pb_exec p) (pb_pending p).
Definition determinism_probe_cycle_end (now : Z) (p : probe) : probe :=
  let e := window_add (if pb_start p <=? now then now - pb_start p else 0) (pb_exec p) in
  let n := u32 (pb_cycles p + 1) in
  if (n mod REPORT_WINDOW_CYCLES =? 0) && negb (w_samples e =? 0)
  then Probe (pb_start p) n window_reset (Some (ProbeReport n (w_min e) (u32 (w_sum e / w_samples e)) (w_max e)))
  else Probe (pb_start p) n e (pb_pending p).
(** What is logged. *)
Definition determinism_probe_process (p : probe) : option probe_report * probe :=
  (pb_pending p, Probe (pb_start p) (pb_cycles p) (pb_exec p) None).

(** [kernel_trace_report_t] *)
Record trace_report := TraceReport {
  tr_cycles : Z; tr_jitter_min : Z; tr_jitter_avg : Z; tr_jitter_max : Z; tr_exec_min : Z; tr_exec_avg : Z; tr_exec_max : Z;
  tr_slip_events : Z; tr_missed_cycles : Z; tr_slip_max : Z }.
Record trace := Trace {
  kt_start : Z; kt_last : Z; kt_cycles : Z; kt_jitter : window; kt_exec : window;
  slip_events : Z; missed_cycles : Z; slip_max : Z; kt_pending : option trace_report }.
#[export] Instance trace_rebuild : Rebuild trace := fun t =>
  Trace (kt_start t) (kt_last t) (kt_cycles t) (kt_jitter t) (kt_exec t) (slip_events t) (missed_cycles t) (slip_max t) (kt_pending t).
Definition kernel_trace_init : trace := Trace 0 0 0 window_reset window_reset 0 0 0 None.
(** What the time since the previous cycle adds. *)
Definition trace_period (period : Z) (t : trace) : trace :=
  if negb (period <? 100000) then t
  else if period <? 2 * LOOP_PERIOD_US then t <| kt_jitter := window_add (Z.abs (period - LOOP_PERIOD_US)) (kt_jitter t) |>
  else
    let slip := u32 (period - LOOP_PERIOD_US) in
    let missed := u32 (period / LOOP_PERIOD_US) in
    let missed := if 0 <? missed then missed - 1 else missed in
    t <| slip_max := if slip_max t <? slip then slip else slip_max t |> <| slip_events := u32 (slip_events t + 1) |>
      <| missed_cycles := u32 (missed_cycles t + missed) |>.
Definition kernel_trace_cycle_start (now : Z) (t : trace) : trace :=
  let t := t <| kt_start := now |> in
  let t := if negb (kt_last t =? 0) then trace_period (if kt_last t <=? now then now - kt_last t else 0) t else t in
  t <| kt_last := now |>.
Definition trace_summary (n : Z) (t : trace) : trace_report :=
  let j := kt_jitter t in let e := kt_exec t in let some x := if w_samples j =? 0 then 0 else x in
  TraceReport n (some (w_min j)) (some (u32 (w_sum j / w_samples j))) (some (w_max j))
    (w_min e) (u32 (w_sum e / w_samples e)) (w_max e) (slip_events t) (missed_cycles t) (slip_max t).
Definition kernel_trace_cycle_end (now : Z) (t : trace) : trace :=
  let t := t <| kt_exec := window_add (if kt_start t <=? now then now - kt_start t else 0) (kt_exec t) |> in
  let n := u32 (kt_cycles t + 1) in
  let t := t <| kt_cycles := n |> in
  if (n mod REPORT_WINDOW_CYCLES =? 0) && negb (w_samples (kt_exec t) =? 0)
  then t <| kt_pending := Some (trace_summary n t) |> <| kt_jitter := window_reset |> <| kt_exec := window_reset |>
         <| slip_events := 0 |> <| missed_cycles := 0 |> <| slip_max := 0 |>
  else t.
Definition kernel_trace_process (t : trace) : option trace_report * trace := (kt_pending t, t <| kt_pending := None |>).
