(* ===== verification/Scheduler.v ===== *)
(** * The phases of a control cycle ([components/kernel/scheduler/scheduler.c])

    The components that run in the control task, composed the way the scheduler
    calls them: the inputs and one command, the fieldbus, the automation engine
    with the ladder program, the outputs, the events.  Each component keeps the
    state of its own file; what two of them share (the state table, the process
    variables, the ownership table, the fail-safe) is kept once, in [fw]. *)

From S2P Require Import Prelude Persist EventBus State DeviceProfile Pve Failsafe Ladder Cluster Automation NodeRegistry.
From S2P Require Import Rs485Wire Rs485Engine Rs485Master Fieldbus IoDriver InputLearning Observability.

Definition IO_CMD_BUDGET : nat := 1.
Definition EVENT_BUS_BUDGET : Z := 1.

(** ** What the components share *)

Record fw {G N : Type} := Fw { fw_io : iow G; fw_reg : rw N; fw_fsnvs : N }.
Arguments fw : clear implicits.
Arguments Fw {G N}.
#[export] Instance fw_rebuild {G N} : Rebuild (fw G N) := fun w => Fw (fw_io w) (fw_reg w) (fw_fsnvs w).

#[export] Instance iow_state {G} : StateApi (iow G) := {
  state_get_int id w := state_get_int id (sto w);
  state_set_int id v := on_store (state_set_int id v);
}.
Section fw.
Context {G N : Type} `{Nvs N}.
Definition fw_on_io {A} (m : st (iow G) A) : st (fw G N) A := on_part fw_io (fun i w => w <| fw_io := i |>) m.
Definition fw_on_failsafe {A} (m : st (fsw store N) A) : st (fw G N) A :=
  on_part (fun w => Fsw (fsafe (fw_io w)) (sto (fw_io w)) (fw_fsnvs w))
    (fun f w => w <| fw_io := fw_io w <| fsafe := fs f |> <| sto := fs_world f |> |> <| fw_fsnvs := fs_nvs f |>) m.
#[export] Instance fw_state : StateApi (fw G N) := {
  state_get_int id w := state_get_int id (fw_io w);
  state_set_int id v := fw_on_io (state_set_int id v);
}.
#[export] Instance fw_failsafe : FailsafeApi (fw G N) := {
  guard_command id v := fw_on_failsafe (guard_command id v);
  apply_all reason := fw_on_failsafe (apply_all reason);
}.
#[export] Instance fw_registry : NodeRegistryApi (fw G N) := {
  node_registry_is_known id w := node_registry_is_known id (fw_reg w);
  node_registry_is_operational id w := node_registry_is_operational id (fw_reg w);
  node_registry_is_gateway id w := node_registry_is_gateway id (fw_reg w);
}.
End fw.

(** The firmware keeps the promises its clients rely on, so that the theorems
    about them are theorems about it. *)
#[export] Instance iow_laws {G} : StateLaws (iow G) :=
  part_laws sto (fun s w => w <| sto := s |>) (fun _ _ => eq_refl) (fun w => match w with Iow _ _ _ _ _ _ _ _ _ _ _ => eq_refl end).
#[export] Instance fw_laws {G N} : StateLaws (fw G N) :=
  part_laws fw_io (fun i w => w <| fw_io := i |>) (fun _ _ => eq_refl) (fun w => match w with Fw _ _ _ => eq_refl end).
Section fw_failsafe.
Context {G N : Type} `{Nvs N}.
Implicit Types w : fw G N.
Definition failsafe_view w : fsw store N := Fsw (fsafe (fw_io w)) (sto (fw_io w)) (fw_fsnvs w).
Lemma fw_guard id v w : let r := guard_command id v (failsafe_view w) in
  (guard_command id v w).1 = r.1 /\ failsafe_view (guard_command id v w).2 = r.2.
Proof. cbn [guard_command fw_failsafe]. unfold fw_on_failsafe, on_part. fold (failsafe_view w). by destruct (guard_command id v (failsafe_view w)) as [? []]. Qed.
Lemma fw_set id v w : failsafe_view (state_set_int id v w).2 = (state_set_int id v (failsafe_view w)).2.
Proof.
  cbn [state_set_int fw_state iow_state fsw_state failsafe_view]. unfold fw_on_io, on_store, on_part, failsafe_view. cbn.
  by destruct (set_int id v (sto (fw_io w))).
Qed.
#[export] Program Instance fw_failsafe_laws : FailsafeLaws (fw G N).
Next Obligation. intros id v id' w. change (state_get_int id' (failsafe_view (guard_command id v w).2) = state_get_int id' (failsafe_view w)). rewrite (proj2 (fw_guard id v w)). apply guard_reads. Qed.
Next Obligation. intros id v w Hw. change (state_inv (failsafe_view (guard_command id v w).2)). rewrite (proj2 (fw_guard id v w)). by apply guard_inv. Qed.
Next Obligation. intros id v w Hv. rewrite (proj1 (fw_guard id v w)). by apply guard_value. Qed.
Next Obligation. intros id v id' v' w. rewrite !(proj1 (fw_guard id _ _)), (proj2 (fw_guard id' v' w)). apply guard_again. Qed.
Next Obligation. intros id v id' v' w. rewrite !(proj1 (fw_guard id _ _)), fw_set. apply guard_after_set. Qed.
End fw_failsafe.

(** ** The system

    [cluster_part] is the cluster without the ownership table, which is in
    [fw]; each component that reads the time has its own stream of readings. *)
Record cluster_part := ClusterPart { cp_mgr : manager; cp_self : Z; cp_started : bool; cp_outbox : list protocol_msg; cp_clock : clock }.
Record ladder_part {N : Type} := LadderPart { lp_lad : ladder; lp_nvs : N; lp_clock : clock }.
Arguments ladder_part : clear implicits.
Arguments LadderPart {N}.
Record system {G N Q P : Type} := System {
  s_fw : fw G N;
  s_cmds : ring io_cmd;
  s_lad : ladder_part N;
  s_au : automation Q;
  s_cl : cluster_part;
  s_aunvs : N;
  s_learn : input_learning;
  s_bus : fieldbus P;
  s_ck : control_kernel;
}.
Arguments system : clear implicits.
Arguments System {G N Q P}.
#[export] Instance system_rebuild {G N Q P} : Rebuild (system G N Q P) := fun s =>
  System (s_fw s) (s_cmds s) (s_lad s) (s_au s) (s_cl s) (s_aunvs s) (s_learn s) (s_bus s) (s_ck s).

Section scheduler.
Context {G N Q P : Type} `{Hardware G} `{Nvs N} `{RemoteQueue Q} `{SerialPort P}.
Implicit Types s : system G N Q P.
Abbreviation M := (st (system G N Q P)).

Definition on_fw {A} (m : st (fw G N) A) : M A := on_part s_fw (fun f s => s <| s_fw := f |>) m.
Definition on_io {A} (m : st (iow G) A) : M A := on_fw (fw_on_io m).
Definition on_fieldbus {A} (m : st (fieldbus P) A) : M A := on_part s_bus (fun b s => s <| s_bus := b |>) m.
Definition on_kernel {A} (m : st control_kernel A) : M A := on_part s_ck (fun k s => s <| s_ck := k |>) m.
Definition on_ladder {A} (m : st (lw (fw G N) N) A) : M A :=
  on_part (fun s => Lw (lp_lad (s_lad s)) (s_fw s) (lp_nvs (s_lad s)) (lp_clock (s_lad s)))
    (fun l s => s <| s_fw := lw_world l |> <| s_lad := LadderPart (lad l) (lw_nvs l) (lw_clock l) |>) m.
Definition on_automation {A} (m : st (aw (fw G N) N Q) A) : M A :=
  on_part (fun s => let c := s_cl s in
      Aw (s_au s) (Cw (cp_mgr c) (owners (fw_io (s_fw s))) (cp_self c) (cp_started c) (cp_outbox c) (cp_clock c) (s_fw s))
        (pvars (fw_io (s_fw s))) (s_aunvs s))
    (fun a s => let c := acl a in
      s <| s_au := au a |> <| s_aunvs := anvs a |>
        <| s_cl := ClusterPart (mgr c) (failover_self c) (failover_started c) (outbox c) (cw_clock c) |>
        <| s_fw := cw_world c <| fw_io := fw_io (cw_world c) <| owners := cio c |> <| pvars := apve a |> |> |>) m.

(** *** The inputs, and one command *)

Definition io_command_pop_next : M (option io_cmd) := on_part s_cmds (fun q s => s <| s_cmds := q |>) io_command_pop.
(** [while (budget-- && io_command_pop(&cmd)) state_set_int(cmd.id, cmd.value);] *)
Fixpoint pop_commands (budget : nat) : M () :=
  match budget with
  | O => mret tt
  | S budget =>
    c ← io_command_pop_next;
    match c with
    | None => mret tt
    | Some c => on_fw (state_set_int (EventBus.cmd_id c) (EventBus.cmd_value c));; pop_commands budget
    end
  end.
Definition scheduler_run_io : M () :=
  on_io io_driver_scan_inputs;; on_io (on_image io_image_scan_inputs);; pop_commands IO_CMD_BUDGET.

(** *** The other phases *)

Definition scheduler_run_io_apply (others : nat -> st (iow G) ()) : M () := on_io (io_driver_update others).
Definition scheduler_run_fieldbus : M () := on_fieldbus fieldbus_tick.
Definition scheduler_run_automation : M () :=
  on_automation automation_engine_tick_1ms;; on_ladder ladder_engine_run;; on_kernel control_kernel_task.

(** A handler runs on the system with the bus in its place. *)
Definition call_subscriber (h : subscriber) (ev : event) : st (event_bus subscriber * system G N Q P) () :=
  fun '(b, s) =>
    let s := s <| s_fw := s_fw s <| fw_io := fw_io (s_fw s) <| sto := sto (fw_io (s_fw s)) <| bus := b |> |> |> |> in
    let s := match h with
             | on_automation_event => (on_automation (automation_event_handler ev) s).2
             | on_input_learning_event => s <| s_learn := input_learning_event_handler ev (s_learn s) |>
             end in
    (tt, (bus (sto (fw_io (s_fw s))), s)).
Definition scheduler_run_events : M () :=
  on_part (fun s => (bus (sto (fw_io (s_fw s))), s))
    (fun r _ => r.2 <| s_fw := s_fw r.2 <| fw_io := fw_io (s_fw r.2) <| sto := sto (fw_io (s_fw r.2)) <| bus := r.1 |> |> |> |>)
    (event_bus_dispatch_budgeted call_subscriber EVENT_BUS_BUDGET).

(** The order of [phase_table] in [control_loop.c]. *)
Definition phases (others : nat -> st (iow G) ()) : list (M ()) :=
  [scheduler_run_io; scheduler_run_fieldbus; scheduler_run_automation; scheduler_run_io_apply others; scheduler_run_events].
Definition control_cycle (others : nat -> st (iow G) ()) : M () := for_each (fun phase => phase) (phases others).
End scheduler.

(** ** Phases that leave the pins alone

    On a node without automation rules the fieldbus, the automation engine, the
    supervisor and the waiting events change nothing that the inputs, the ladder
    program and the outputs look at. *)

Section quiet_phases.
Context {G N Q P : Type} `{HardwareLaws G} `{Nvs N} `{RemoteQueue Q} `{SerialPort P}.
Implicit Types s : system G N Q P.
Definition io_of_sys s : iow G := fw_io (s_fw s).
Record undisturbed s s' : Prop := {
  un_io : same_io (io_of_sys s) (io_of_sys s');
  un_inputs : input_table (io_of_sys s') = input_table (io_of_sys s);
  un_owners : owners (io_of_sys s') = owners (io_of_sys s);
  un_ladder : lp_lad (s_lad s') = lp_lad (s_lad s);
  un_rules : rules (s_au s') = rules (s_au s);
  un_cmds : s_cmds s' = s_cmds s;
}.
Lemma undisturbed_refl s : undisturbed s s.
Proof. by constructor. Qed.
Lemma undisturbed_trans s1 s2 s3 : undisturbed s1 s2 -> undisturbed s2 s3 -> undisturbed s1 s3.
Proof. intros [] []. constructor; [by eapply same_io_trans|congruence..]. Qed.

Lemma undisturbed_fieldbus s : undisturbed s (scheduler_run_fieldbus s).2.
Proof. unfold scheduler_run_fieldbus, on_fieldbus, on_part. by destruct (fieldbus_tick _) as [[] b]. Qed.
Lemma undisturbed_kernel s : undisturbed s (on_kernel control_kernel_task s).2.
Proof. unfold on_kernel, on_part. by destruct (control_kernel_task _) as [[] b]. Qed.
Lemma undisturbed_tick s : rules (s_au s) = [] -> undisturbed s (on_automation automation_engine_tick_1ms s).2.
Proof. intros Hr. unfold on_automation, on_part, automation_engine_tick_1ms, on_au. run. cbn [au rules update]. by rewrite Hr. Qed.

Definition with_bus (b : event_bus subscriber) s : system G N Q P :=
  s <| s_fw := s_fw s <| fw_io := fw_io (s_fw s) <| sto := sto (fw_io (s_fw s)) <| bus := b |> |> |> |>.
Lemma undisturbed_bus b s : undisturbed s (with_bus b s).
Proof. by constructor. Qed.
Lemma undisturbed_call sub ev b s : rules (s_au s) = [] -> undisturbed s (call_subscriber sub ev (b, s)).2.2.
Proof.
  intros Hr. apply (undisturbed_trans _ (with_bus b s)); [apply undisturbed_bus|]. unfold call_subscriber. fold (with_bus b s).
  set (s1 := with_bus b s) in *. cbn [snd]. destruct sub; [|done].
  unfold on_automation, on_part, automation_event_handler. destruct (negb _); [done|].
  match goal with |- context [(automation_now_ms ≫= _) ?a] => set (a0 := a) end.
  assert (exists t c, automation_now_ms a0 = (t, a0 <| acl := acl a0 <| cw_clock := c |> |>)) as (t & c & Hnow)
    by (unfold automation_now_ms, on_cl, on_part; destruct (Cluster.now_ms (acl a0)) as [t cl] eqn:E;
        exists t, (cw_clock cl); do 2 f_equal; unfold Cluster.now_ms, on_part in E; by injection E as _ <-).
  rewrite (run_bind_eq _ _ _ _ _ Hnow). run. cbn [au rules a0 update s1 with_bus s_au]. by rewrite Hr.
Qed.
Lemma undisturbed_events s : rules (s_au s) = [] -> undisturbed s (scheduler_run_events s).2.
Proof.
  intros Hr. unfold scheduler_run_events, on_part.
  assert (forall subs ev b s, rules (s_au s) = [] -> undisturbed s (foldr (fun x m => call_subscriber x ev;; m) (mret tt) subs (b, s)).2.2) as Hsubs.
  { clear s Hr. intros subs ev. induction subs as [|x subs IH]; intros b s Hr; [apply undisturbed_refl|]. cbn [foldr]. rewrite run_bind_surj.
    pose proof (undisturbed_call x ev b s Hr) as Hc. destruct (call_subscriber x ev (b, s)) as [[] [b1 s1]]. cbn [snd] in *.
    eapply undisturbed_trans; [exact Hc|]. apply IH. by rewrite (un_rules _ _ Hc). }
  assert (forall n b s, rules (s_au s) = [] -> undisturbed s (event_bus_dispatch_loop call_subscriber n (b, s)).2.2) as Hloop.
  { clear s Hr. induction n as [|n IH]; intros b s Hr; [apply undisturbed_refl|]. cbn [event_bus_dispatch_loop].
    destruct (event_bus_take _) as [[e|] q]; [|apply undisturbed_refl]. rewrite run_bind_surj. cbn [fst snd].
    assert (undisturbed s (event_bus_deliver call_subscriber e (b <| queue := q |>, s)).2.2) as Hd
      by (unfold event_bus_deliver; case_match; [by apply Hsubs|apply undisturbed_refl]).
    destruct (event_bus_deliver _ _ _) as [[] [b1 s1]]. cbn [snd] in *. eapply undisturbed_trans; [exact Hd|]. apply IH. by rewrite (un_rules _ _ Hd). }
  specialize (Hloop (Z.to_nat EVENT_BUS_BUDGET) (bus (sto (fw_io (s_fw s)))) s Hr).
  unfold event_bus_dispatch_budgeted. destruct (event_bus_dispatch_loop _ _ _) as [[] [b s']]. cbn [snd] in *.
  eapply undisturbed_trans; [exact Hloop|apply (undisturbed_bus b s')].
Qed.
End quiet_phases.

(** ** From a contact to a relay

    One input, one output and a ladder program between them, on a node without
    automation rules. *)

Section contact_to_relay.
Context {G N Q P : Type} `{HardwareLaws G} `{Nvs N} `{RemoteQueue Q} `{SerialPort P}.
Implicit Types (s : system G N Q P) (w : iow G).
Abbreviation M := (st (system G N Q P)).

Lemma update_inputs (others : nat -> st (iow G) ()) w : (forall k v, input_table (others k v).2 = input_table v) ->
  input_table (io_driver_update others w).2 = input_table w.
Proof.
  intros Ho. unfold io_driver_update. run. case_match; [done|]. rewrite run_bind_surj.
  assert (forall n mask, input_table (for_fold refresh_owner (seq 0 n) mask w).2 = input_table w) as Href.
  { intros n mask. apply (for_fold_ind (fun _ _ v => input_table v = input_table w)); [done|]. intros k a v _ <-.
    unfold refresh_owner. run. case_match; [|done]. by case_match. }
  case_match; [rewrite run_ret; apply Href|].
  apply (for_each_ind (fun _ v => input_table v = input_table w)); [apply Href|]. intros k v _ <-.
  unfold apply_output. case_match; [done|]. run. case_match; [|done]. rewrite !run_bind_surj. cbn [snd set_pending on_store].
  assert (forall ch' on v', input_table (drive ch' on v').2 = input_table v') as Hd by (intros ch' on v'; by destruct (drive_spec ch' on v') as [->|[_ ->]]).
  unfold set_pending, on_store, on_part. cbn. rewrite Ho. repeat case_match; try apply Hd; done.
Qed.
Lemma scan_frame t o : keeps (fun w => output_table w = t /\ owners w = o) io_driver_scan_inputs.
Proof.
  set (I := fun w => _). assert (forall m : st store bool, keeps I (on_store m)) by (intros m; by apply keeps_on_part).
  assert (forall m : st store (), keeps I (on_store m)) by (intros m; by apply keeps_on_part).
  assert (forall k, keeps I (on_hw (adc_oneshot_read k))) by (intros k; by apply keeps_on_part).
  assert (forall i raw, keeps I (on_pve_update i raw)) by (intros i raw; by apply keeps_on_part).
  assert (forall f, keeps I (on_image f)) by (intros f; by apply keeps_modify).
  assert (forall i f, keeps I (upd_input i f)) by (intros i f; by apply keeps_modify).
  assert (forall i, keeps I (scan_input i)).
  { intros i. unfold scan_input, scan_analog, scan_digital, feed_pve, http_server_notify_state_change. keeps. }
  apply keeps_bind; [apply keeps_gets|intros n]. by apply keeps_for_each.
Qed.

(** Input [c0] is [i]-th in the table, and the relay [ch] is the [k]-th output,
    local to this node. *)
Context (i k : nat) (c0 : input_channel) (ch : output_channel) (ids : list Z) (own : cluster_io).
Context (Hid : 0 <= ic_id c0 < 256) (Hback : backend c0 <> DEVICE_CHANNEL_BACKEND_ADC_NATIVE).
Context (Hnd : NoDup ids) (Hat : ids !! i = Some (ic_id c0)) (Hne : oc_id ch <> ic_id c0).
Context (Hlocal : cluster_io_is_local (oc_id ch) own = true) (Hpin : 0 <= oc_gpio ch).

(** The samples of the input so far are [h], newest first. *)
Record wired (h : list Z) w : Prop := {
  wi_inv : io_inv w;
  wi_in : follows i c0 ids (hw w) h w;
  wi_out : output_table w !! k = Some ch;
  wi_own : owners w = own;
  wi_apart : ~ out_pin (ic_gpio c0) w;
}.
Lemma out_pin_same p w w' : output_table w' = output_table w -> out_pin p w' -> out_pin p w.
Proof. intros Ht. unfold out_pin. by rewrite Ht. Qed.
Lemma wired_same h w w' : same_io w w' -> input_table w' = input_table w -> owners w' = owners w -> wired h w -> wired h w'.
Proof.
  intros Hs Hin Hown [Hi [Hl Hids _ Hc] Ho Hw Hap].
  constructor; [by eapply same_io_inv| |by rewrite (sm_outputs _ _ Hs)|congruence|by intros Hp%(out_pin_same _ w); [|apply Hs]].
  constructor; [by rewrite (sm_values _ _ Hs)|by rewrite Hin|done|].
  destruct Hc as (c & Hc & Hr & E1 & E2 & E3 & E4 & E5 & Hv). exists c. rewrite Hin. split_and!; try done. rewrite <- Hv.
  cbn. unfold get_int. by rewrite (sm_values _ _ Hs).
Qed.
Lemma wired_scan h w : wired h w -> wired (logical_of c0 (hw w) :: h) (io_driver_scan_inputs w).2.
Proof.
  intros [Hi Hf Ho Hw Hap]. destruct (scan_frame (output_table w) (owners w) w) as [Ht Hown]; [done|].
  pose proof (follows_scan i c0 ids (hw w) h w Hid Hback Hnd Hat Hf) as Hf'.
  constructor; [by apply io_inv_scan| |by rewrite Ht|by rewrite Hown|by intros Hp%(out_pin_same _ w)]. by destruct Hf'.
Qed.
Lemma wired_set h id v w : id <> ic_id c0 -> wired h w -> wired h (state_set_int id v w).2.
Proof.
  intros Hid' [Hi Hf Ho Hw Hap].
  assert (output_table (state_set_int id v w).2 = output_table w /\ owners (state_set_int id v w).2 = owners w) as [Ht Hown].
  { cbn [state_set_int iow_state]. unfold on_store, on_part. by destruct (state_set_int id v (sto w)). }
  pose proof (watched_set i (ic_id c0) ids (hw w) _ Hid id v Hid' w Hf) as Hf'. change (on_store (state_set_int id v)) with (state_set_int (W := iow G) id v) in Hf'.
  constructor; [by apply io_inv_set| |by rewrite Ht|by rewrite Hown|by intros Hp%(out_pin_same _ w)]. by destruct Hf'.
Qed.
Lemma wired_update h w : wired h w -> wired h (io_driver_update idle w).2 /\
  shows ch (state_on (oc_id ch) w) (io_driver_update idle w).2.
Proof.
  intros [Hi [Hl Hids _ Hc] Ho Hw Hap]. pose proof (update_ok w Hi) as [Hi' Ho' Ht Hv Hb Hp].
  assert (input_table (io_driver_update idle w).2 = input_table w) as Hin by by apply update_inputs.
  set (w' := (io_driver_update idle w).2) in *. split.
  - constructor; [done| |by rewrite Ht|congruence|by intros Hx%(out_pin_same _ w)]. constructor; [by rewrite Hv|by rewrite Hin|done|].
    destruct Hc as (c & Hc & Hr & E1 & E2 & E3 & E4 & E5 & Hval). exists c. rewrite Hin. split_and!; try done. rewrite <- Hval.
    cbn. unfold get_int. by rewrite Hv.
  - pose proof (ii_sync _ Hi' k ch) as Hs. rewrite Ht in Hs. specialize (Hs Ho Hpin (Hp k ch Ho)).
    rewrite (Hb k ch Ho) in Hs. unfold is_local in Hs. rewrite Hw, Hlocal in Hs. cbn [andb] in Hs.
    by rewrite (state_on_values _ w) in Hs.
Qed.

Record rig (prog : list Z * Z * bool) (h : list Z) s : Prop := {
  rg_io : wired h (io_of_sys s);
  rg_prog : prog_part (lp_lad (s_lad s)) = prog;
  rg_rules : rules (s_au s) = [];
  rg_cmds : EventBus.head (s_cmds s) = EventBus.tail (s_cmds s);
}.
Lemma rig_on_io prog h (m : st (iow G) ()) : keeps (wired h) m -> keeps (rig prog h) (on_io m).
Proof.
  intros Hm s [Hi Hp Hr Hc]. specialize (Hm _ Hi). unfold on_io, on_fw, fw_on_io, on_part.
  change (fw_io (s_fw s)) with (io_of_sys s). destruct (m (io_of_sys s)) as [[] w]. by constructor.
Qed.
Lemma pop_empty prog h n s : rig prog h s -> pop_commands n s = (tt, s) \/ n = O.
Proof.
  destruct n as [|n]; [by right|]. intros [_ _ _ Hc]. left. cbn [pop_commands].
  assert (io_command_pop_next s = (None, s)) as Hpop; [|by rewrite (run_bind_eq _ _ _ _ _ Hpop)].
  unfold io_command_pop_next, on_part, io_command_pop. rewrite Hc, Z.eqb_refl. by destruct s.
Qed.
Lemma rig_run_io prog h s : rig prog h s ->
  rig prog (logical_of c0 (hw (io_of_sys s)) :: h) (scheduler_run_io s).2.
Proof.
  intros Hs. unfold scheduler_run_io. rewrite run_bind_surj. set (s1 := (on_io io_driver_scan_inputs s).2).
  assert (rig prog (logical_of c0 (hw (io_of_sys s)) :: h) s1) as Hs1.
  { destruct Hs as [Hi Hp Hr Hc]. pose proof (wired_scan _ _ Hi) as Hw. unfold s1, on_io, on_fw, fw_on_io, on_part.
    change (fw_io (s_fw s)) with (io_of_sys s). destruct (io_driver_scan_inputs (io_of_sys s)) as [[] w]. by constructor. }
  rewrite run_bind_surj. set (s2 := (on_io (on_image io_image_scan_inputs) s1).2).
  assert (rig prog (logical_of c0 (hw (io_of_sys s)) :: h) s2) as Hs2.
  { apply rig_on_io; [|done]. intros w Hw. by apply (wired_same _ w). }
  by destruct (pop_empty _ _ IO_CMD_BUDGET _ Hs2) as [->|?].
Qed.

(** A program of one rung: a contact of the input drives the relay. *)
Context (neg : bool) (w0 w1 : lw (fw G N) N).
Context (Hfits : rung_fits neg (ic_id c0) Wire (oc_id ch)).
Context (Hload : ladder_engine_load_program (assemble (rung neg (ic_id c0) Wire (oc_id ch))) w0 = (ESP_OK, w1)).
Abbreviation prog := (prog_part (lad w1)).
Definition relay_on (h : list Z) : bool :=
  xorb neg (0 <? default 0 (last_window (Z.to_nat (debounce_samples c0)) h)).

Lemma rig_undisturbed h s s' : undisturbed s s' -> rig prog h s -> rig prog h s'.
Proof.
  intros Hu [Hi Hp Hr Hc]. constructor; [|by rewrite (un_ladder _ _ Hu)|by rewrite (un_rules _ _ Hu)|by rewrite (un_cmds _ _ Hu)].
  destruct Hu. by apply (wired_same _ (io_of_sys s)).
Qed.
Lemma rig_ladder h s : rig prog h s -> rig prog h (on_ladder ladder_engine_run s).2 /\
  state_on (oc_id ch) (io_of_sys (on_ladder ladder_engine_run s).2) = relay_on h.
Proof.
  intros [Hi Hp Hr Hc]. set (l := Lw (lp_lad (s_lad s)) (s_fw s) (lp_nvs (s_lad s)) (lp_clock (s_lad s))).
  pose proof (rung_runs neg _ Wire _ _ _ Hfits Hload l Hp) as Hrun.
  assert (prog_part (lad (ladder_engine_run l).2) = prog) as Hp'.
  { rewrite <- Hp. pose proof (ladder_engine_run_prog (bytecode (lad l)) (bytecode_length (lad l)) l) as Hk.
    unfold same_program, prog_part in *. cbn [l lad] in *.
    destruct (has_program (lp_lad (s_lad s))) eqn:E; [destruct Hk as (-> & -> & ->); by rewrite ?E|].
    rewrite Hrun in *. exfalso. rewrite (proj2 (load_program_ok _ _ _ Hload)) in Hp. by injection Hp. }
  pose proof (exec_rung neg (ic_id c0) Wire (oc_id ch) l) as Hex. rewrite <- Hrun in Hex. specialize (Hex ltac:(cbn; lia)).
  assert (lw_world (ladder_engine_run l).2 = (state_set_int (oc_id ch) (if relay_on h then 1 else 0) (s_fw s)).2) as Hworld.
  { rewrite Hex. cbn [closed]. rewrite andb_true_r. do 4 f_equal. unfold relay_on. do 2 f_equal.
    unfold tag_on, read_tag. f_equal. destruct Hi as [_ [_ _ _ (c & Hc' & [_ _ _ Hst] & _ & _ & _ & _ & Hd & Hv)] _ _ _].
    change (state_get_int (ic_id c0) (lw_world l)) with (state_get_int (ic_id c0) (sto (io_of_sys s))). by rewrite Hv, <- Hst, Hd. }
  unfold on_ladder, on_part. fold l. destruct (ladder_engine_run l) as [[] l']. cbn [snd] in *.
  pose proof (wired_set h (oc_id ch) (if relay_on h then 1 else 0) _ Hne Hi) as Hset.
  assert (fw_io (lw_world l') = (state_set_int (oc_id ch) (if relay_on h then 1 else 0) (io_of_sys s)).2) as Hio.
  { rewrite Hworld. cbn [state_set_int fw_state]. unfold fw_on_io, on_part. change (fw_io (s_fw s)) with (io_of_sys s).
    by destruct (state_set_int (W := iow G) _ _ _). }
  split.
  - constructor; cbn; try done. unfold io_of_sys at 1. cbn. by rewrite Hio.
  - unfold io_of_sys at 1. cbn [s_fw update]. rewrite Hio. unfold state_on. cbn [state_set_int iow_state]. unfold on_store, on_part.
    pose proof (tk_valid _ (ii_tables _ (wi_inv _ _ Hi)) ch) as Hv.
    pose proof (set_int_reads (oc_id ch) (if relay_on h then 1 else 0) (sto (io_of_sys s)) (oc_id ch) (tk_len _ (ii_tables _ (wi_inv _ _ Hi)))) as Hr'.
    rewrite Z.eqb_refl in Hr'. destruct (state_set_int (oc_id ch) _ (sto (io_of_sys s))) as [b st']. cbn [snd sto update] in *.
    rewrite Hr'; [by destruct (relay_on h)|]. apply Hv. eapply list_elem_of_lookup_2, (wi_out _ _ Hi).
Qed.

(** The rest of the cycle touches neither the pins nor the input. *)
Definition pin_shows (on : bool) s : Prop := shows ch on (io_of_sys s).
Definition after_apply (h : list Z) s : Prop := rig prog h s /\ pin_shows (relay_on h) s.
Lemma events_quiet h s : after_apply h s -> after_apply h (scheduler_run_events s).2.
Proof.
  intros [Hs Hsh]. pose proof (undisturbed_events s (rg_rules _ _ _ Hs)) as Hu. split; [by eapply rig_undisturbed|].
  unfold pin_shows, shows in *. rewrite <- Hsh. apply (sm_driven _ _ (un_io _ _ Hu)).
  eapply out_pin_at; [apply (wi_out _ _ (rg_io _ _ _ Hs))|done].
Qed.

Lemma cycle_relay h s : rig prog h s -> after_apply (logical_of c0 (hw (io_of_sys s)) :: h) (control_cycle idle s).2.
Proof.
  intros Hs. unfold control_cycle, phases. cbn [for_each]. rewrite !run_bind_surj. cbn [mret st_ret snd]. apply events_quiet.
  apply rig_run_io in Hs. set (h' := _ :: h) in *. set (s1 := (scheduler_run_io s).2) in *.
  pose proof (rig_undisturbed h' _ _ (undisturbed_fieldbus s1) Hs) as Hs2.
  set (s2 := (scheduler_run_fieldbus s1).2) in *. unfold scheduler_run_automation. rewrite !run_bind_surj.
  pose proof (rig_undisturbed h' _ _ (undisturbed_tick s2 (rg_rules _ _ _ Hs2)) Hs2) as Hs2'.
  destruct (rig_ladder h' _ Hs2') as [Hs3 Hon]. set (s3 := (on_ladder ladder_engine_run _).2) in *.
  pose proof (undisturbed_kernel s3) as Hk. pose proof (rig_undisturbed h' _ _ Hk Hs3) as Hs4.
  set (s4 := (on_kernel control_kernel_task s3).2) in *. rewrite <- (state_on_values _ (io_of_sys s3) (io_of_sys s4)) in Hon by apply (sm_values _ _ (un_io _ _ Hk)).
  destruct Hs4 as [Hi Hp Hr Hc]. destruct (wired_update h' _ Hi) as [Hi' Hsh]. rewrite Hon in Hsh.
  unfold scheduler_run_io_apply, on_io, on_fw, fw_on_io, on_part. change (fw_io (s_fw s4)) with (io_of_sys s4).
  destruct (io_driver_update idle (io_of_sys s4)) as [[] w]. by split; [constructor|].
Qed.

(** A change of the contacts: the other pins stay, and the input's pin reads [l]. *)
Definition contact_change (f : G -> G) (l : Z) : Prop := forall g, gpio_get_level (ic_gpio c0) (f g) = l /\
  forall p, p <> ic_gpio c0 -> driven p (f g) = driven p g /\ (only_output p g -> only_output p (f g)).
Definition set_contacts (f : G -> G) : M () := on_io (modify (fun w => w <| hw := f (hw w) |>)).
Definition run_cycles (fs : list (G -> G)) : M () := for_each (fun f => set_contacts f;; control_cycle idle) fs.
Lemma rig_contacts h f l s : contact_change f l -> rig prog h s ->
  rig prog h (set_contacts f s).2 /\ gpio_get_level (ic_gpio c0) (hw (io_of_sys (set_contacts f s).2)) = l.
Proof.
  intros Hf [Hi Hp Hr Hc]. split; [|apply Hf]. constructor; try done. destruct (Hf (hw (io_of_sys s))) as [_ Hpins]. pose proof (wi_apart _ _ Hi) as Hap.
  apply (wired_same _ (io_of_sys s)); [|done|done|done].
  constructor; try done; intros p Hp'; apply Hpins; intros ->; by apply Hap.
Qed.

End contact_to_relay.

(** ** The ladder's boot self test and the inputs

    [core_init_services] calls [ladder_engine_run_self_test] after
    [io_driver_init]. *)

Section self_test.
Context {G N : Type} `{HardwareLaws G} `{Nvs N}.
Implicit Types (l : lw (iow G) N) (w : iow G).

Definition test_rung : list instr := rung false (ENDAP_INPUT_ID 0) Wire (ENDAP_OUTPUT_ID 0).
Lemma test_rung_fits : rung_fits false (ENDAP_INPUT_ID 0) Wire (ENDAP_OUTPUT_ID 0).
Proof. repeat split; try (cbn; lia); by vm_compute. Qed.
Lemma input_0_in : 0 <= ENDAP_INPUT_ID 0 < 256.
Proof. by vm_compute. Qed.
Lemma output_0_in : 0 <= ENDAP_OUTPUT_ID 0 < 256.
Proof. by vm_compute. Qed.
Lemma test_prog_rung : test_prog = assemble test_rung.
Proof. reflexivity. Qed.

(** Where the self test has come: the loaded program is [p], input 0 reads [vi]
    and output 0 [vo]; the pins and the channels are those of [l0]. *)
Record tested (p : list Z * Z * bool) (vi vo : option Z) l0 l : Prop := {
  te_prog : prog_part (lad l) = p;
  te_len : length (int_values (sto (lw_world l))) = 256%nat;
  te_inputs : input_table (lw_world l) = input_table (lw_world l0);
  te_hw : hw (lw_world l) = hw (lw_world l0);
  te_in : state_get_int (ENDAP_INPUT_ID 0) (sto (lw_world l)) = vi;
  te_out : state_get_int (ENDAP_OUTPUT_ID 0) (sto (lw_world l)) = vo;
}.
Lemma world_set id v w : length (int_values (sto w)) = 256%nat ->
  let w' := (state_set_int id v w).2 in
  length (int_values (sto w')) = 256%nat /\ input_table w' = input_table w /\ hw w' = hw w /\
  forall id', 0 <= id' < 256 -> state_get_int id' (sto w') = if id' =? id then Some v else state_get_int id' (sto w).
Proof.
  intros Hl. cbn [state_set_int iow_state]. unfold on_store, on_part.
  pose proof (fun id' => set_int_reads id v (sto w) id' Hl) as Hr. pose proof (set_int_length id v (sto w)) as Hlen.
  destruct (state_set_int id v (sto w)) as [b st']. cbn [fst snd] in *. split_and!; [by rewrite <- Hl|done|done|exact Hr].
Qed.
Lemma write_tag_world id v l : lw_world (write_tag id v l).2 = (state_set_int id v (lw_world l)).2 /\ lad (write_tag id v l).2 = lad l.
Proof. unfold write_tag, on_world, on_part. rewrite run_bind_surj. by destruct (state_set_int id v (lw_world l)). Qed.
Lemma tested_write id p vi vo v l0 l : tested p vi vo l0 l ->
  tested p (if ENDAP_INPUT_ID 0 =? id then Some v else vi) (if ENDAP_OUTPUT_ID 0 =? id then Some v else vo) l0 (write_tag id v l).2.
Proof.
  intros [Hp Hl Hi Hh Hin Hout]. destruct (write_tag_world id v l) as [Ew El].
  destruct (world_set id v _ Hl) as (Hl' & Hi' & Hh' & Hr).
  constructor; rewrite ?Ew, ?El; try congruence.
  - rewrite (Hr _ input_0_in). by rewrite Hin.
  - rewrite (Hr _ output_0_in). by rewrite Hout.
Qed.
Lemma tested_run vi vo l0 l l1 l2 : ladder_engine_load_program test_prog l1 = (ESP_OK, l2) ->
  tested (prog_part (lad l2)) (Some vi) vo l0 l -> tested (prog_part (lad l2)) (Some vi) (Some (if 0 <? vi then 1 else 0)) l0 (ladder_engine_run l).2.
Proof.
  intros Hload [Hp Hl Hi Hh Hin Hout]. pose proof (rung_runs _ _ _ _ _ _ test_rung_fits Hload l Hp) as Hrun.
  pose proof (exec_rung false (ENDAP_INPUT_ID 0) Wire (ENDAP_OUTPUT_ID 0) l (Nat.le_0_l _)) as Hex. rewrite <- Hrun in Hex.
  cbn [closed xorb] in Hex. rewrite andb_true_r in Hex. unfold tag_on, read_tag in Hex.
  change (state_get_int (ENDAP_INPUT_ID 0) (lw_world l)) with (state_get_int (ENDAP_INPUT_ID 0) (sto (lw_world l))) in Hex.
  rewrite Hin in Hex. cbn [default] in Hex. change (id vi) with vi in Hex.
  destruct (world_set (ENDAP_OUTPUT_ID 0) (if 0 <? vi then 1 else 0) _ Hl) as (Hl' & Hi' & Hh' & Hr).
  pose proof (Hr _ input_0_in) as Hri. pose proof (Hr _ output_0_in) as Hro. rewrite Z.eqb_refl in Hro.
  change (ENDAP_INPUT_ID 0 =? ENDAP_OUTPUT_ID 0) with false in Hri. cbv iota in Hri.
  constructor; [|rewrite Hex; congruence..].
  pose proof (ladder_engine_run_prog (bytecode (lad l)) (bytecode_length (lad l)) l) as Hk. unfold same_program in Hk.
  assert (has_program (lad l) = true) as Hhas.
  { rewrite (proj2 (load_program_ok _ _ _ Hload)) in Hp. unfold prog_part in Hp. by injection Hp. }
  destruct Hk as (E1 & E2 & E3); [done|]. rewrite <- Hp. unfold prog_part. by rewrite E1, E2, E3, Hhas.
Qed.
Lemma tested_scan vi vo x l0 l l1 l2 : ladder_engine_load_program test_prog l1 = (ESP_OK, l2) -> x = 0 \/ x = 1 ->
  tested (prog_part (lad l2)) vi vo l0 l ->
  exists l', self_test_scan x x l = (true, l') /\ tested (prog_part (lad l2)) (Some x) (Some x) l0 l'.
Proof.
  intros Hload Hx Ht. apply (tested_write (ENDAP_INPUT_ID 0) _ _ _ x), (tested_run _ _ _ _ _ _ Hload) in Ht.
  assert ((if 0 <? x then 1 else 0) = x) as Hb by (by destruct Hx as [->| ->]). rewrite Hb in Ht.
  unfold self_test_scan. rewrite !run_bind_surj. set (a := (ladder_engine_run _).2) in *. exists a. split; [|done].
  run. unfold gets. cbn [fst snd]. change (state_get_int (ENDAP_OUTPUT_ID 0) (lw_world a)) with (state_get_int (ENDAP_OUTPUT_ID 0) (sto (lw_world a))).
  by rewrite (te_out _ _ _ _ _ Ht), Z.eqb_refl.
Qed.

Lemma keeps_lad_world (P : iow G -> Prop) (f : ladder -> ladder) : keeps (fun l => P (lw_world l)) (on_lad (modify f)).
Proof. by intros l Hl. Qed.
Lemma keeps_flash_world {A} (P : iow G -> Prop) (m : st N A) : keeps (fun l => P (lw_world l)) (lad_flash m).
Proof. intros l Hl. unfold lad_flash, on_part. by destruct (m _). Qed.
Lemma keeps_clear_world (P : iow G -> Prop) : keeps (fun l => P (lw_world l)) ladder_engine_clear.
Proof. unfold ladder_engine_clear. keeps; by apply keeps_flash_world. Qed.
Lemma keeps_load_world (P : iow G -> Prop) : keeps (fun l => P (lw_world l)) (ladder_engine_load_program test_prog).
Proof.
  unfold ladder_engine_load_program. case_match; try apply keeps_ret.
  keeps; first [apply keeps_clear_world|apply keeps_lad_world|apply keeps_flash_world].
Qed.
Lemma keeps_restore_world (P : iow G -> Prop) saved : keeps (fun l => P (lw_world l)) (self_test_restore saved).
Proof. unfold self_test_restore. case_match; [apply keeps_lad_world|]. keeps. apply keeps_clear_world. Qed.
(** The self test succeeds, and leaves 0 in the input and in the output. *)
Lemma self_test_passes l : length (int_values (sto (lw_world l))) = 256%nat ->
  exists l1, ladder_engine_run_self_test l = (true, (self_test_restore (lad l) l1).2) /\ tested (prog_part (lad l1)) (Some 0) (Some 0) l l1.
Proof.
  intros Hlen. unfold ladder_engine_run_self_test. run. rewrite run_bind_surj.
  assert (check_program test_prog = ESP_OK) as Hc by (vm_compute; reflexivity).
  pose proof (load_program_err test_prog l Hc) as He. destruct (ladder_engine_load_program test_prog l) as [e l2] eqn:Hload.
  cbn [fst snd] in *. subst e. rewrite bool_decide_eq_false_2 by auto.
  pose proof (keeps_load_world (fun w => w = lw_world l) l eq_refl) as Hw. rewrite Hload in Hw. cbn [snd] in Hw.
  assert (tested (prog_part (lad l2)) (state_get_int (ENDAP_INPUT_ID 0) (sto (lw_world l2))) (state_get_int (ENDAP_OUTPUT_ID 0) (sto (lw_world l2))) l l2) as H0'
    by (constructor; congruence).
  apply (tested_write (ENDAP_INPUT_ID 0) _ _ _ 0) in H0'. apply (tested_write (ENDAP_OUTPUT_ID 0) _ _ _ 1) in H0'.
  apply (tested_run _ _ _ _ _ _ Hload) in H0'. rewrite !run_bind_surj. set (a := (ladder_engine_run _).2) in *.
  run. assert (forall v vo l', tested (prog_part (lad l2)) v vo l l' -> state_get_int (ENDAP_OUTPUT_ID 0) (lw_world l') = vo) as Hget
    by (intros v vo l' []; done).
  rewrite (Hget _ _ _ H0'). cbn -[self_test_scan ladder_engine_run self_test_restore].
  destruct (tested_scan _ _ 1 _ _ _ _ Hload (or_intror eq_refl) H0') as (b & Hb & H1'). rewrite (run_bind_eq _ _ _ _ _ Hb). cbn [negb].
  destruct (tested_scan _ _ 0 _ _ _ _ Hload (or_introl eq_refl) H1') as (d & Hd & H2'). rewrite (run_bind_eq _ _ _ _ _ Hd). cbn [negb].
  rewrite run_bind_surj. exists d. split; [done|]. destruct H2'. by constructor.
Qed.

(** A channel that is steady at the sampled value does not move. *)
Lemma steady_round i c ids g v w : 0 <= ic_id c < 256 -> backend c <> DEVICE_CHANNEL_BACKEND_ADC_NATIVE ->
  last_sample c = stable_value c -> stable_count c = debounce_samples c -> logical_of c g = stable_value c ->
  watched i (ic_id c) ids g (fun c' v' => c' = c /\ v' = v) w ->
  watched i (ic_id c) ids g (fun c' v' => c' = c /\ v' = v) (scan_input i w).2.
Proof.
  intros Hid Hb Hls Hsc Hlog [Hl Hi Hp (c' & Hc & -> & Hv)]. unfold scan_input. run. rewrite Hc, (proj2 (Z.eqb_neq _ _)) by done.
  unfold scan_digital. run. unfold logical_of in Hlog. rewrite Hp, Hlog.
  assert (debounce (stable_value c) c = (c, false)) as Hd.
  { unfold debounce. rewrite Hls, Z.eqb_refl. cbn [negb]. by rewrite Hsc, Z.ltb_irrefl, Z.eqb_refl, andb_false_r. }
  rewrite Hd. cbn [snd]. rewrite run_bind_surj, run_ret. constructor; try done; cbn -[debounce].
  - rewrite <- Hi. apply fmap_alter_same. intros x Hx. rewrite Hc in Hx. injection Hx as <-. cbv beta. by rewrite Hd.
  - exists c. rewrite list_lookup_alter_eq, Hc. cbn -[debounce]. by rewrite Hd.
Qed.

(** The self test of the ladder engine, which the boot runs after the inputs
    have their first values, always passes and forces input 0 and output 0 to 0
    in the state table.  The input's channel is not told: if its contact was
    closed at boot and stays closed, no number of scans ever publishes it, and
    the rest of the program sees an open contact until it has been opened and
    closed again.  Output 0 does not keep the value that the fail-safe gave it
    at start either. *)
Theorem self_test_hides_contact i c l (gs : list G) :
  length (int_values (sto (lw_world l))) = 256%nat -> NoDup (ic_id <$> input_table (lw_world l)) ->
  input_table (lw_world l) !! i = Some c -> ic_id c = ENDAP_INPUT_ID 0 -> backend c <> DEVICE_CHANNEL_BACKEND_ADC_NATIVE ->
  last_sample c = 1 -> stable_value c = 1 -> stable_count c = debounce_samples c ->
  Forall (fun g => logical_of c g = 1) gs ->
  let '(passed, l') := ladder_engine_run_self_test l in
  passed = true /\ state_get_int (ENDAP_OUTPUT_ID 0) (sto (lw_world l')) = Some 0 /\
  state_get_int (ENDAP_INPUT_ID 0) (sto (scans gs (lw_world l')).2) = Some 0.
Proof.
  intros Hlen Hnd Hc Hid Hb Hls Hst Hsc Hgs. destruct (self_test_passes l Hlen) as (l1 & -> & [Hp Hl Hi Hh Hin Hout]).
  pose proof (keeps_restore_world (fun w => w = lw_world l1) (lad l) l1 eq_refl) as Hw. rewrite Hw. do 2 (split; [done|]).
  set (ids := ic_id <$> input_table (lw_world l)) in *.
  assert (forall gs w, Forall (fun g => logical_of c g = 1) gs ->
    watched i (ic_id c) ids (hw w) (fun c' v' => c' = c /\ v' = Some 0) w -> state_get_int (ic_id c) (sto (scans gs w).2) = Some 0) as Hgo.
  { clear gs Hgs. induction gs as [|g gs IH]; intros w Hgs [Hl' Hi' Hp' (c' & Hc' & -> & Hv)]; [exact Hv|].
    apply Forall_cons in Hgs as [Hg Hgs]. unfold scans. cbn [for_each]. fold (scans gs). rewrite run_bind_surj. apply IH; [done|].
    run. destruct (watched_scan i (ic_id c) ids g (fun c' v' => c' = c /\ v' = Some 0) (fun c' v' => c' = c /\ v' = Some 0) (w <| hw := g |>))
      as [Hl2 Hi2 Hp2 Hc2]; try done.
    - by rewrite Hid; apply input_0_in.
    - subst ids. by rewrite list_lookup_fmap, Hc.
    - intros v. apply steady_round; try done; [by rewrite Hid; apply input_0_in|by rewrite Hls, Hst|by rewrite Hg, Hst].
    - constructor; try done. by exists c. }
  rewrite <- Hid. apply Hgo; [done|]. constructor; try done; [by rewrite Hi|].
  exists c. split; [by rewrite Hi|]. split; [done|]. by rewrite Hid.
Qed.
End self_test.

(** Input 10 (pin 16), closed, with a normally closed contact on output 100
    (pin 22, active low). *)
Definition demo_fw : fw board flash := Fw demo_booted (Rw (Registry [] false 0) None) None.
Definition demo_ladder0 : lw (fw board flash) flash := Lw ladder_cleared demo_fw None (Clock (fun k => 1000 * Z.of_nat k) 0).
Definition demo_program : list Z := assemble (rung true 10 Wire 100).
Definition demo_ladder : lw (fw board flash) flash := (ladder_engine_load_program demo_program demo_ladder0).2.
Definition demo_system : system board flash fifo script :=
  System demo_fw (io_command_init (ring_zero IO_CMD_QUEUE_SIZE io_cmd_zero))
    (LadderPart (lad demo_ladder) (lw_nvs demo_ladder) (lw_clock demo_ladder))
    (Automation [] false 0 (Some []) true)
    (ClusterPart (Manager [] true 0 0) 0 true [] (Clock (fun _ => 8000000) 0)) None
    (InputLearning false false 0) (fieldbus_zero lonely_master) (ControlKernel 0 0 0 0 0 (Clock (fun k => 1000 * Z.of_nat k) 0)).
Definition set_level (l : Z) (g : board) : board := Board (outs g) (with_pin 16 false (output_only g)) (with_pin 16 l (contacts g)) (samples g).
Definition demo_steps : list ((board -> board) * Z) := (fun l => (set_level l, l)) <$> [0; 1; 0; 0; 0; 0; 0; 0; 0; 0].
Definition demo_channel : input_channel := InputChannel 10 16 false 8 1 1 8 0 0 0 0 0 0 0 0 (-1) 0 0.
Definition demo_relay : output_channel := OutputChannel 100 22 true.
Lemma demo_follows : follows 0 demo_channel [10; 22] (hw demo_booted) (replicate 8 1) demo_booted.
Proof.
  constructor; [vm_compute; reflexivity|vm_compute; reflexivity|done|]. exists demo_channel.
  split; [vm_compute; reflexivity|]. split; [constructor; [cbn; lia|vm_compute; reflexivity..]|].
  do 5 (split; [reflexivity|]). vm_compute. reflexivity.
Qed.
Lemma demo_apart : ~ out_pin 16 demo_booted.
Proof.
  intros (ch & Hch & Hg & _). assert (Forall (fun ch => oc_gpio ch <> 16) (output_table demo_booted)) as Hall
    by (apply (bool_decide_unpack _); vm_compute; exact I).
  rewrite Forall_forall in Hall. by apply (Hall ch Hch).
Qed.
Lemma demo_wired : wired 0 0 demo_channel demo_relay [10; 22] (cluster_io_init 0) (replicate 8 1) demo_booted.
Proof.
  constructor; [|exact demo_follows|vm_compute; reflexivity|vm_compute; reflexivity|exact demo_apart].
  apply io_driver_init_ok; [exact demo_wiring|vm_compute; reflexivity].
Qed.
Lemma demo_rig : rig 0 0 demo_channel demo_relay [10; 22] (cluster_io_init 0) (prog_part (lad demo_ladder)) (replicate 8 1) demo_system.
Proof.
  constructor; [exact demo_wired|exact eq_refl|exact eq_refl|exact eq_refl].
Qed.

Lemma demo_inputs_at_boot : state_get_int 10 (sto demo_booted) = Some 1 /\ length (int_values (sto demo_booted)) = 256%nat /\
  NoDup (ic_id <$> input_table demo_booted).
Proof.
  split; [vm_compute; reflexivity|]. split; [vm_compute; reflexivity|].
  assert (ic_id <$> input_table demo_booted = [10; 22]) as -> by (vm_compute; reflexivity).
  apply (bool_decide_unpack _). vm_compute. exact I.
Qed.
(** The relay of output 0 starts on, input 0 is closed. *)
Lemma self_test_hides_contact_witness :
  let boot : lw (iow board) flash := Lw ladder_cleared demo_booted None (Clock (fun k => 1000 * Z.of_nat k) 0) in
  let '(passed, l') := ladder_engine_run_self_test boot in
  state_get_int 10 (sto demo_booted) = Some 1 /\
  passed = true /\ state_get_int (ENDAP_OUTPUT_ID 0) (sto (lw_world l')) = Some 0 /\
  state_get_int (ENDAP_INPUT_ID 0) (sto (scans (replicate 100 (hw demo_booted)) (lw_world l')).2) = Some 0.
Proof.
  intros boot.
  assert (exists c, input_table demo_booted !! 0%nat = Some c /\ ic_id c = ENDAP_INPUT_ID 0 /\ backend c <> DEVICE_CHANNEL_BACKEND_ADC_NATIVE /\
    last_sample c = 1 /\ stable_value c = 1 /\ stable_count c = debounce_samples c /\ logical_of c (hw demo_booted) = 1)
    as (c & Hc & E1 & E2 & E3 & E4 & E5 & E6)
    by (eexists; split; [vm_compute; reflexivity|]; repeat split; discriminate).
  pose proof (self_test_hides_contact (N := flash) 0 c boot (replicate 100 (hw demo_booted))) as Hthm.
  destruct (ladder_engine_run_self_test boot) as [passed l'].
  destruct demo_inputs_at_boot as (Hin & Hlen & Hnd). refine (conj Hin _). apply Hthm; [exact Hlen|exact Hnd|exact Hc|exact E1|exact E2|exact E3|exact E4|exact E5|].
  by apply Forall_replicate.
Defined.
