(* ===== verification/Watchdog.v ===== *)
(** * The task watchdog ([components/kernel/watchdog/watchdog.c])

    Sixteen slots, one per supervised task.  A task feeds its slot; the monitor
    checks all of them, and restarts the device when a slot was found late three
    times since it was last fed and is still late when looked at again.  Every
    critical section is one step: other tasks run between two of them. *)

From S2P Require Import Prelude.

(** ** Data *)

Definition MAX_WD : Z := 16.
Definition WATCHDOG_MAX_MISSES : Z := 3.
Definition configTICK_RATE_HZ : Z := 1000.   (* sdkconfig, CONFIG_FREERTOS_HZ *)

Record wd_entry := WdEntry { timeout_ticks : Z; last_feed_tick : Z; miss_count : Z; wd_active : bool }.
#[export] Instance wd_entry_rebuild : Rebuild wd_entry :=
  fun e => WdEntry (timeout_ticks e) (last_feed_tick e) (miss_count e) (wd_active e).
Definition wd_entry_zero : wd_entry := WdEntry 0 0 0 false.

(** The table, with the time since boot in ticks. *)
Record wd := Wd { wd_table : list wd_entry; uptime : Z }.
#[export] Instance wd_rebuild : Rebuild wd := fun w => Wd (wd_table w) (uptime w).
Definition wd_boot : wd := Wd (replicate 16 wd_entry_zero) 0.

Definition xTaskGetTickCount (w : wd) : Z := u32 (uptime w).
Definition pdMS_TO_TICKS (ms : Z) : Z := u32 (ms * configTICK_RATE_HZ) / 1000.

(** ** Operations *)

Definition on_slot (id : Z) (f : wd_entry -> wd_entry) : st wd () :=
  modify (fun w => w <| wd_table := alter f (Z.to_nat id) (wd_table w) |>).

Definition watchdog_init : st wd () :=
  modify (fun w => w <| wd_table := (fun _ => wd_entry_zero) <$> wd_table w |>).

Definition watchdog_register (id timeout_ms : Z) : st wd () :=
  if MAX_WD <=? id then mret tt
  else
    now ← gets xTaskGetTickCount;
    let t := pdMS_TO_TICKS timeout_ms in
    on_slot id (fun _ => WdEntry (if t =? 0 then 1 else t) now 0 true).

Definition watchdog_feed (id : Z) : st wd () :=
  if MAX_WD <=? id then mret tt
  else
    now ← gets xTaskGetTickCount;
    on_slot id (fun e => if wd_active e then e <| last_feed_tick := now |> <| miss_count := 0 |> else e).

(** The first critical section of a round of [watchdog_check]: is a restart
    needed? *)
Definition elapsed (now : Z) (e : wd_entry) : Z := u32 (now - last_feed_tick e).
Definition sample_entry (now : Z) (e : wd_entry) : wd_entry :=
  if negb (wd_active e) then e
  else if timeout_ticks e <? elapsed now e
       then e <| miss_count := if miss_count e <? 255 then u8 (miss_count e + 1) else miss_count e |>
       else e <| miss_count := 0 |>.
Definition sampled_late (now : Z) (e : wd_entry) : bool :=
  wd_active e && (timeout_ticks e <? elapsed now e) && (WATCHDOG_MAX_MISSES <=? miss_count (sample_entry now e)).
Definition watchdog_sample (i : nat) : st wd bool :=
  w ← gets (fun w => w);
  on_slot (Z.of_nat i) (sample_entry (xTaskGetTickCount w));;
  mret (match wd_table w !! i with Some e => sampled_late (xTaskGetTickCount w) e | None => false end).

(** The second one: is the slot still late? *)
Definition still_expired (now : Z) (e : wd_entry) : bool :=
  wd_active e && ((timeout_ticks e <? elapsed now e) && (WATCHDOG_MAX_MISSES <=? miss_count e)).
Definition watchdog_confirm (i : nat) (w : wd) : bool :=
  match wd_table w !! i with Some e => still_expired (xTaskGetTickCount w) e | None => false end.

(** [watchdog_check]; [others k] is what the other tasks do in the [k]-th gap
    between two critical sections.  The result is whether [esp_restart] was
    called, which does not return. *)
Section check.
Context (others : nat -> st wd ()).
Fixpoint check_slots (slots : list nat) : st wd bool :=
  match slots with
  | [] => mret false
  | i :: slots =>
    restart_needed ← watchdog_sample i;
    others (2 * i)%nat;;
    expired ← gets (watchdog_confirm i);
    if (restart_needed : bool) && expired then mret true
    else others (2 * i + 1)%nat;; check_slots slots
  end.
Definition watchdog_check : st wd bool := check_slots (seq 0 16).
End check.

(** ** When a device restarts *)

(** What happens to the table between two feeds of a task: time passes, other
    tasks register and feed their slots, the monitor looks at a slot. *)
Inductive wd_event :=
| ev_tick
| ev_register (id timeout_ms : Z)
| ev_feed (id : Z)
| ev_sample (i : nat).
Definition wd_step (e : wd_event) : st wd () :=
  match e with
  | ev_tick => modify (fun w => w <| uptime := uptime w + 1 |>)
  | ev_register id ms => watchdog_register id ms
  | ev_feed id => watchdog_feed id
  | ev_sample i => watchdog_sample i;; mret tt
  end.
(** Events of other tasks. *)
Definition silent (i : nat) (e : wd_event) : Prop :=
  match e with
  | ev_register id _ | ev_feed id => 0 <= id /\ id <> Z.of_nat i
  | _ => True
  end.
(** The ticks among the events, and how many times the monitor looked at slot
    [i] more than [timeout] ticks after the start, [el] having passed before. *)
Fixpoint ticks_of (es : list wd_event) : Z :=
  match es with
  | [] => 0
  | ev_tick :: es => 1 + ticks_of es
  | _ :: es => ticks_of es
  end.
Fixpoint late_samples (i : nat) (timeout el : Z) (es : list wd_event) : Z :=
  match es with
  | [] => 0
  | ev_tick :: es => late_samples i timeout (el + 1) es
  | ev_sample j :: es => (if (bool_decide (i = j)) && (timeout <? el) then 1 else 0) + late_samples i timeout el es
  | _ :: es => late_samples i timeout el es
  end.

Lemma ticks_nonneg es : 0 <= ticks_of es.
Proof. induction es as [|[] es IH]; cbn [ticks_of]; lia. Qed.
Lemma late_nonneg i timeout el es : 0 <= late_samples i timeout el es.
Proof. revert el. induction es as [|[] es IH]; intros el; cbn [late_samples]; try apply IH; [lia|]. specialize (IH el). case_match; lia. Qed.

(** The slot [el] ticks after it was fed at [t0], having been found late [n]
    times; the counter saturates. *)
Definition slot_at (i : nat) (timeout t0 el n : Z) (w : wd) : Prop :=
  uptime w = t0 + el /\ wd_table w !! i = Some (WdEntry timeout (u32 t0) (Z.min n 255) true).

Lemma on_slot_other i id f w : 0 <= id -> id <> Z.of_nat i ->
  uptime (on_slot id f w).2 = uptime w /\ wd_table (on_slot id f w).2 !! i = wd_table w !! i.
Proof. intros. cbn. split; [done|]. apply list_lookup_alter_ne. lia. Qed.

Lemma other_step i timeout t0 el n e w : silent i e -> slot_at i timeout t0 el n w ->
  match e with ev_register _ _ | ev_feed _ => slot_at i timeout t0 el n (wd_step e w).2 | _ => True end.
Proof.
  destruct e as [|id ms|id|j]; try done; intros [? ?] [Hup Hs]; cbn [wd_step].
  - unfold watchdog_register. case_match; [done|]. rewrite run_bind_gets. cbv zeta.
    edestruct (on_slot_other i id) as [Hu1 Hs1]; [done|done|]. unfold slot_at. by rewrite Hu1, Hs1.
  - unfold watchdog_feed. case_match; [done|]. rewrite run_bind_gets.
    edestruct (on_slot_other i id) as [Hu1 Hs1]; [done|done|]. unfold slot_at. by rewrite Hu1, Hs1.
Qed.

Lemma elapsed_fed t0 el : 0 <= el < 4294967296 -> u32 (u32 (t0 + el) - u32 t0) = el.
Proof. intros. word_lia. Qed.

Lemma sample_step i j timeout t0 el n w : 0 <= el < 4294967296 -> 0 <= n -> slot_at i timeout t0 el n w -> (n = 0 \/ timeout < el) ->
  slot_at i timeout t0 el ((if bool_decide (i = j) && (timeout <? el) then 1 else 0) + n) (watchdog_sample j w).2.
Proof.
  intros Hel Hn [Hup Hs] Hz. unfold watchdog_sample. rewrite run_bind_gets. unfold on_slot. rewrite run_bind_modify, run_ret.
  cbn [snd]. unfold slot_at. cbn [uptime wd_table update]. split; [done|]. rewrite Nat2Z.id. case_bool_decide as Hij; cbn [andb].
  - subst j. rewrite list_lookup_alter_eq, Hs. cbn. unfold sample_entry, elapsed, xTaskGetTickCount. cbn [wd_active timeout_ticks last_feed_tick miss_count negb].
    rewrite Hup, elapsed_fed by done. f_equal. destruct (Z.ltb_spec timeout el).
    + unfold update. cbn -[Z.min Z.ltb Z.add]. f_equal. destruct (Z.ltb_spec (Z.min n 255) 255); [rewrite u8_id by lia|]; lia.
    + unfold update. cbn -[Z.min Z.ltb Z.add]. f_equal. lia.
  - by rewrite list_lookup_alter_ne.
Qed.

Lemma slot_after i timeout t0 es w el n :
  slot_at i timeout t0 el n w ->
  Forall (silent i) es -> 0 <= el -> el + ticks_of es < 4294967296 -> 0 <= n -> (n = 0 \/ timeout < el) ->
  slot_at i timeout t0 (el + ticks_of es) (n + late_samples i timeout el es) (for_each wd_step es w).2.
Proof.
  revert w el n. induction es as [|e es IH]; intros w el n Hw Hs Hel Ht Hn Hz; cbn [for_each late_samples ticks_of].
  { by rewrite !Z.add_0_r. }
  apply Forall_cons in Hs as [He Hs]. rewrite run_bind_surj. pose proof (ticks_nonneg es) as Hnn.
  cbn [ticks_of] in Ht. destruct e as [|id ms|id|j].
  - rewrite Z.add_assoc. apply IH; try done; [|lia..]. destruct Hw as [Hup Hsl]. split; [|done]. cbn. lia.
  - apply IH; try done. by apply (other_step i timeout t0 el n (ev_register id ms)).
  - apply IH; try done. by apply (other_step i timeout t0 el n (ev_feed id)).
  - rewrite (Z.add_assoc n), (Z.add_comm n). apply IH; try done.
    + cbn [wd_step]. rewrite run_bind_surj. by apply sample_step; [lia|..].
    + case_match; lia.
    + destruct (bool_decide (i = j) && (timeout <? el)) eqn:Hb; [|lia]. apply andb_prop in Hb as [_ Hb]. apply Z.ltb_lt in Hb. by right.
Qed.

Lemma slot_fed (i : nat) e w : (i < 16)%nat -> wd_table w !! i = Some e -> wd_active e = true ->
  slot_at i (timeout_ticks e) (uptime w) 0 0 (watchdog_feed (Z.of_nat i) w).2.
Proof.
  intros Hi He Ha. unfold watchdog_feed, MAX_WD. destruct (Z.leb_spec 16 (Z.of_nat i)); [lia|]. rewrite run_bind_gets. unfold on_slot.
  rewrite run_modify. cbn [snd]. unfold slot_at. cbn [uptime wd_table update]. rewrite Nat2Z.id. split; [lia|].
  rewrite list_lookup_alter_eq, He. destruct e as [? ? ? a]. cbn in Ha. by subst a.
Qed.

Lemma slot_expired i timeout t0 el n w : slot_at i timeout t0 el n w -> 0 <= el < 4294967296 ->
  watchdog_confirm i w = (timeout <? el) && (3 <=? n).
Proof.
  intros [Hup Hs] Hel. unfold watchdog_confirm. rewrite Hs. unfold still_expired, elapsed, xTaskGetTickCount. cbn [wd_active timeout_ticks last_feed_tick miss_count andb].
  rewrite Hup, elapsed_fed by done. unfold WATCHDOG_MAX_MISSES. destruct (timeout <? el); cbn [andb]; [|done].
  destruct (Z.leb_spec 3 (Z.min n 255)), (Z.leb_spec 3 n); try done; lia.
Qed.
Lemma sample_late i timeout t0 el n w : 0 <= el < 4294967296 -> slot_at i timeout t0 el n w ->
  timeout < el -> 2 <= n -> (watchdog_sample i w).1 = true.
Proof.
  intros Hel [Hup Hs] Ht Hn. unfold watchdog_sample. rewrite run_bind_gets. unfold on_slot. rewrite run_bind_modify, run_ret. cbn [fst].
  rewrite Hs. unfold sampled_late, sample_entry, elapsed, xTaskGetTickCount. cbn [wd_active timeout_ticks last_feed_tick negb andb].
  rewrite Hup, elapsed_fed by done. destruct (Z.ltb_spec timeout el); [|lia]. cbn [update miss_count andb]. unfold WATCHDOG_MAX_MISSES.
  apply Z.leb_le. destruct (Z.ltb_spec (Z.min n 255) 255); word_lia.
Qed.

(** C16: The restart decision, for any interleaving: after task [i] was fed, slot
    [i] is found expired exactly when more than its timeout has passed and the
    monitor has looked at it at least three times after that. *)
Theorem restart_exactly_when_stalled (i : nat) (w : wd) (e : wd_entry) (es : list wd_event) :
  (i < 16)%nat -> wd_table w !! i = Some e -> wd_active e = true -> Forall (silent i) es -> ticks_of es < 4294967296 ->
  watchdog_confirm i (for_each wd_step es (watchdog_feed (Z.of_nat i) w).2).2 = true <->
  timeout_ticks e < ticks_of es /\ 3 <= late_samples i (timeout_ticks e) 0 es.
Proof.
  intros Hi He Ha Hs Ht. pose proof (ticks_nonneg es). pose proof (late_nonneg i (timeout_ticks e) 0 es).
  pose proof (slot_after i _ _ es _ 0 0 (slot_fed i e w Hi He Ha) Hs (Z.le_refl 0) Ht (Z.le_refl 0) (or_introl eq_refl)) as Hw.
  rewrite (slot_expired _ _ _ _ _ _ Hw ltac:(lia)), andb_true_iff, Z.ltb_lt, Z.leb_le, !Z.add_0_l. done.
Qed.

(** ** A stalled task *)

(** What the other tasks do in the gaps of a check, as events. *)
Definition in_gaps (gaps : nat -> list wd_event) (k : nat) : st wd () := for_each wd_step (gaps k).
Definition gap_ticks (gaps : nat -> list wd_event) (slots : list nat) : Z :=
  foldr (fun i n => ticks_of (gaps (2 * i)%nat) + ticks_of (gaps (2 * i + 1)%nat) + n) 0 slots.
Lemma gap_nonneg gaps slots : 0 <= gap_ticks gaps slots.
Proof.
  induction slots as [|j slots IH]; [done|]. change (gap_ticks gaps (j :: slots)) with
    (ticks_of (gaps (2 * j)%nat) + ticks_of (gaps (2 * j + 1)%nat) + gap_ticks gaps slots).
  pose proof (ticks_nonneg (gaps (2 * j)%nat)). pose proof (ticks_nonneg (gaps (2 * j + 1)%nat)). lia.
Qed.

Lemma check_slots_run i timeout t0 gaps slots w el n :
  (forall k, Forall (silent i) (gaps k)) -> slot_at i timeout t0 el n w ->
  timeout < el -> 0 <= el -> el + gap_ticks gaps slots < 4294967296 -> 0 <= n ->
  let r := check_slots (in_gaps gaps) slots w in
  r.1 = true \/
  exists el' n', slot_at i timeout t0 el' n' r.2 /\ el <= el' <= el + gap_ticks gaps slots /\ n <= n' /\ (i ∈ slots -> n < 2 /\ n + 1 <= n').
Proof.
  intros Hg. cbv zeta. revert w el n. induction slots as [|j slots IH]; intros w el n Hw Hlate Hel Hb Hn.
  { right. exists el, n. split_and!; [done|lia|cbn; lia|lia|]. by intros ?%not_elem_of_nil. }
  change (gap_ticks gaps (j :: slots)) with (ticks_of (gaps (2 * j)%nat) + ticks_of (gaps (2 * j + 1)%nat) + gap_ticks gaps slots) in *.
  pose proof (ticks_nonneg (gaps (2 * j)%nat)) as Hg1. pose proof (ticks_nonneg (gaps (2 * j + 1)%nat)) as Hg2. pose proof (gap_nonneg gaps slots) as Hg3.
  cbn [check_slots]. rewrite run_bind_surj. pose proof (sample_step i j timeout t0 el n w ltac:(lia) Hn Hw (or_intror Hlate)) as Hw1.
  set (n1 := (if bool_decide (i = j) && (timeout <? el) then 1 else 0) + n) in *.
  assert (n <= n1 /\ (i = j -> n1 = n + 1)) as [Hn1 Hij].
  { unfold n1. apply Z.ltb_lt in Hlate as ->. rewrite andb_true_r. case_bool_decide; split; try done; lia. }
  assert (i = j -> 2 <= n -> (watchdog_sample j w).1 = true) as Hdue by (intros <- ?; apply (sample_late i timeout t0 el n); (done || lia)).
  destruct (watchdog_sample j w) as [due w1]. cbn [fst snd] in *. rewrite run_bind_surj, run_bind_gets.
  pose proof (late_nonneg i timeout el (gaps (2 * j)%nat)) as Hl1.
  pose proof (slot_after i timeout t0 _ _ _ _ Hw1 (Hg (2 * j)%nat) Hel ltac:(lia) ltac:(lia) (or_intror Hlate)) as Hw2. fold (in_gaps gaps (2 * j)%nat) in Hw2.
  pose proof (slot_expired _ _ _ _ _ _ Hw2 ltac:(lia)) as Hexp. destruct (due && _) eqn:Hr; [by left|].
  rewrite run_bind_surj.
  pose proof (late_nonneg i timeout (el + ticks_of (gaps (2 * j)%nat)) (gaps (2 * j + 1)%nat)) as Hl2.
  pose proof (slot_after i timeout t0 _ _ _ _ Hw2 (Hg (2 * j + 1)%nat) ltac:(lia) ltac:(lia) ltac:(lia) ltac:(lia)) as Hw3.
  fold (in_gaps gaps (2 * j + 1)%nat) in Hw3.
  destruct (IH _ _ _ Hw3 ltac:(lia) ltac:(lia) ltac:(lia) ltac:(lia)) as [Hdone|(el' & n' & Hs & Hel' & Hn' & Hin)]; [by left|right].
  exists el', n'. split_and!; [done|lia..|]. intros [->|Hj]%elem_of_cons; [|destruct (Hin Hj); lia].
  specialize (Hij eq_refl). split; [|lia]. destruct (Z.lt_ge_cases n 2) as [|Hn2]; [done|exfalso]. rewrite (Hdue eq_refl Hn2), Hexp in Hr. cbn [andb] in Hr.
  apply andb_false_iff in Hr as [Hr|Hr]; [apply Z.ltb_ge in Hr|apply Z.leb_gt in Hr]; lia.
Qed.

(** The monitor: between two checks other things happen. *)
Record round := Round { before : list wd_event; gaps : nat -> list wd_event }.
Definition round_ticks (r : round) : Z := ticks_of (before r) + gap_ticks (gaps r) (seq 0 16).
Fixpoint monitor (rs : list round) : st wd bool :=
  match rs with
  | [] => mret false
  | r :: rs =>
    for_each wd_step (before r);;
    restarted ← watchdog_check (in_gaps (gaps r));
    if restarted : bool then mret true else monitor rs
  end.
Definition round_silent (i : nat) (r : round) : Prop := Forall (silent i) (before r) /\ forall k, Forall (silent i) (gaps r k).

Definition monitor_ticks (rs : list round) : Z := foldr (fun r n => round_ticks r + n) 0 rs.

(** One round finds a late slot once more, unless it restarts. *)
Lemma round_run i timeout t0 r w el n :
  (i < 16)%nat -> round_silent i r -> slot_at i timeout t0 el n w ->
  0 <= el -> el + round_ticks r < 4294967296 -> 0 <= n -> n = 0 \/ timeout < el -> timeout < el + ticks_of (before r) ->
  let w1 := (for_each wd_step (before r) w).2 in let c := watchdog_check (in_gaps (gaps r)) w1 in
  c.1 = true \/
  exists el' n', slot_at i timeout t0 el' n' c.2 /\ (timeout < el' /\ el <= el' <= el + round_ticks r) /\ n < 2 /\ n + 1 <= n'.
Proof.
  intros Hi [Hb Hg] Hw Hel Ht Hn Hz Hlate. cbv zeta. unfold round_ticks in *.
  pose proof (ticks_nonneg (before r)) as Hb0. pose proof (gap_nonneg (gaps r) (seq 0 16)) as Hg0. pose proof (late_nonneg i timeout el (before r)) as Hl.
  pose proof (slot_after i timeout t0 _ _ _ _ Hw Hb Hel ltac:(lia) Hn Hz) as Hw1.
  destruct (check_slots_run i timeout t0 (gaps r) (seq 0 16) _ _ _ Hg Hw1 Hlate ltac:(lia) ltac:(lia) ltac:(lia)) as [|(el' & n' & Hs & Hel' & Hn' & Hin)]; [by left|right].
  destruct Hin as [Hn2 Hn3]; [by apply elem_of_seq; lia|]. exists el', n'. split_and!; [exact Hs|lia..].
Qed.

(** A stalled task restarts the device.  Once a task has not fed its slot for
    longer than its timeout, the third check after that restarts the device at
    the latest, whatever the other tasks do before, between and during the
    checks. *)
Theorem stalled_task_restarts (i : nat) (w : wd) (e : wd_entry) (r1 r2 r3 : round) :
  (i < 16)%nat -> wd_table w !! i = Some e -> wd_active e = true -> Forall (round_silent i) [r1; r2; r3] ->
  timeout_ticks e < ticks_of (before r1) -> monitor_ticks [r1; r2; r3] < 4294967296 ->
  (monitor [r1; r2; r3] (watchdog_feed (Z.of_nat i) w).2).1 = true.
Proof.
  intros Hi He Ha Hs Hlate Ht. rewrite !Forall_cons in Hs. destruct Hs as (Hs1 & Hs2 & Hs3 & _). unfold monitor_ticks in Ht. cbn [foldr] in Ht.
  assert (forall r, 0 <= round_ticks r) as Hnn.
  { intros r. unfold round_ticks. pose proof (ticks_nonneg (before r)). pose proof (gap_nonneg (gaps r) (seq 0 16)). lia. }
  pose proof (Hnn r1). pose proof (Hnn r2). pose proof (Hnn r3). pose proof (ticks_nonneg (before r2)) as Hb2. pose proof (ticks_nonneg (before r3)) as Hb3.
  pose proof (slot_fed i e w Hi He Ha) as Hw. set (T := timeout_ticks e) in *. set (t0 := uptime w) in *.
  cbn [monitor]. rewrite !run_bind_surj.
  destruct (round_run i T t0 r1 _ 0 0 Hi Hs1 Hw ltac:(lia) ltac:(lia) ltac:(lia) (or_introl eq_refl) ltac:(lia)) as [->|(el1 & n1 & Hw1 & Hel1 & _ & Hn1)]; [done|].
  destruct (watchdog_check _ _) as [[] w1]; [done|]. cbn [fst snd] in *. rewrite !run_bind_surj.
  destruct (round_run i T t0 r2 _ el1 n1 Hi Hs2 Hw1 ltac:(lia) ltac:(lia) ltac:(lia) ltac:(lia) ltac:(lia)) as [->|(el2 & n2 & Hw2 & Hel2 & _ & Hn2)]; [done|].
  destruct (watchdog_check _ _) as [[] w2]; [done|]. cbn [fst snd] in *. rewrite !run_bind_surj.
  destruct (round_run i T t0 r3 _ el2 n2 Hi Hs3 Hw2 ltac:(lia) ltac:(lia) ltac:(lia) ltac:(lia) ltac:(lia)) as [->|(el3 & n3 & _ & _ & Hn3 & _)]; [done|lia].
Qed.

(** ** Concrete runs *)

(** Task 2 with a timeout of 5 ms; the monitor runs every 6 ms while task 0 is
    fed in every gap. *)
Definition wd_demo : wd := (watchdog_register 2 5 wd_boot).2.
Definition wd_demo_entry : wd_entry := WdEntry 5 0 0 true.
Definition demo_events : list wd_event := replicate 6 ev_tick ++ [ev_sample 2; ev_feed 0; ev_sample 2; ev_tick; ev_sample 2].
Definition demo_round : round := Round (replicate 6 ev_tick) (fun _ => [ev_feed 0]).

Lemma demo_silent : Forall (silent 2) demo_events /\ round_silent 2 demo_round.
Proof.
  split; [|split; [|intros k]]; repeat constructor; by cbn; lia.
Qed.

Lemma restart_exactly_when_stalled_witness :
  (wd_table wd_demo !! 2%nat = Some wd_demo_entry /\ Forall (silent 2) demo_events) /\
  watchdog_confirm 2 (for_each wd_step demo_events (watchdog_feed (Z.of_nat 2) wd_demo).2).2 = true.
Proof.
  assert (wd_table wd_demo !! 2%nat = Some wd_demo_entry) as He by reflexivity.
  split; [exact (conj He (proj1 demo_silent))|].
  apply (restart_exactly_when_stalled 2 wd_demo wd_demo_entry demo_events ltac:(lia) He eq_refl (proj1 demo_silent)); vm_compute; done.
Defined.

Lemma stalled_task_restarts_witness :
  Forall (round_silent 2) [demo_round; demo_round; demo_round] /\
  (monitor [demo_round; demo_round; demo_round] (watchdog_feed (Z.of_nat 2) wd_demo).2).1 = true.
Proof.
  assert (Forall (round_silent 2) [demo_round; demo_round; demo_round]) as Hs by (pose proof (proj2 demo_silent); by repeat constructor).
  split; [exact Hs|].
  apply (stalled_task_restarts 2 wd_demo wd_demo_entry demo_round demo_round demo_round ltac:(lia) eq_refl eq_refl Hs); vm_compute; done.
Defined.
