(* ===== verification/ControlLoop.v ===== *)
(** * The control loop ([components/kernel/control_loop/control_loop.c])

    One round of the 1 ms task: the tick it waits for, the drift correction, the
    five phases with their times, the deadline, the totals and the watchdog.
    The two timers are streams of readings; a notification is one tick of the
    hardware timer's interrupt.  The priority, the stack and the creation of the
    task are left out, and so are the log lines and the fault injection that
    only a test build has. *)

From S2P Require Import Prelude Persist EventBus State Ladder Automation Rs485Engine IoDriver Observability Scheduler Watchdog.

Definition BOOT_IGNORE_CYCLES : Z := 2000.
Definition DEADLINE_FAULT_THRESHOLD : Z := 200.
Definition WD_CONTROL_LOOP : Z := 0.

(** ** State *)

(** The phases in the order of [phase_table]. *)
Inductive phase := phase_io | phase_fieldbus | phase_automation | phase_io_apply | phase_events.
#[export] Instance phase_eq_dec : EqDecision phase.
Proof. solve_decision. Defined.
Definition phase_table : list phase := [phase_io; phase_fieldbus; phase_automation; phase_io_apply; phase_events].
Definition PHASE_COUNT : Z := Z.of_nat (length phase_table).

(** The static variables of the file. *)
Record loop_vars := LoopVars {
  expected_cycle_time : Z; cycle_counter : Z;
  jitter_sum : Z; jitter_samples : Z; jitter_min : Z; jitter_max : Z;
  exec_min : Z; exec_max : Z;
  deadline_miss : Z; consecutive_deadline_miss : Z; overrun_count : Z;
  phase_io_max : Z; phase_io_apply_max : Z; phase_fieldbus_max : Z; phase_automation_max : Z; phase_events_max : Z;
}.
#[export] Instance loop_vars_rebuild : Rebuild loop_vars := fun v =>
  LoopVars (expected_cycle_time v) (cycle_counter v) (jitter_sum v) (jitter_samples v) (jitter_min v) (jitter_max v)
    (exec_min v) (exec_max v) (deadline_miss v) (consecutive_deadline_miss v) (overrun_count v)
    (phase_io_max v) (phase_io_apply_max v) (phase_fieldbus_max v) (phase_automation_max v) (phase_events_max v).
Definition loop_vars_boot : loop_vars := LoopVars 0 0 0 0 UINT64_MAX 0 UINT64_MAX 0 0 0 0 0 0 0 0 0.

(** [*phase_max_table[i]], in the order of that table. *)
Definition phase_max (i : Z) (v : loop_vars) : Z :=
  if i =? 0 then phase_io_max v else if i =? 1 then phase_io_apply_max v else if i =? 2 then phase_fieldbus_max v
  else if i =? 3 then phase_automation_max v else phase_events_max v.
Definition set_phase_max (i dt : Z) (v : loop_vars) : loop_vars :=
  if i =? 0 then v <| phase_io_max := dt |> else if i =? 1 then v <| phase_io_apply_max := dt |>
  else if i =? 2 then v <| phase_fieldbus_max := dt |> else if i =? 3 then v <| phase_automation_max := dt |>
  else v <| phase_events_max := dt |>.

(** The loop and what it calls: the ticks not yet taken, [esp_timer], the raw
    count of [loop_timer], the monitors, the watchdog and the system of the
    phases. *)
Record control {Y : Type} := Control {
  vars : loop_vars;
  notified : Z;
  esp_timer : clock; loop_timer : clock;
  load : load_test; overrun_counter : list Z; km : kernel_metrics_t; kpm : kernel_phase_metrics;
  cprobe : probe; ctrace : trace; cwd : wd;
  sys : Y;
}.
Arguments control : clear implicits.
Arguments Control {Y}.
#[export] Instance control_rebuild {Y} : Rebuild (control Y) := fun c =>
  Control (vars c) (notified c) (esp_timer c) (loop_timer c) (load c) (overrun_counter c) (km c) (kpm c) (cprobe c) (ctrace c) (cwd c) (sys c).

(** ** A round *)

Definition safe_time_diff (start end_ : Z) : Z := if start <=? end_ then end_ - start else 0.
Definition later (us : Z) (c : clock) : clock := Clock (fun k => readings c k + us) (taken c).

Section control_loop.
Context {Y : Type} (run_phase : phase -> st Y ()).
Implicit Types (c : control Y) (v : loop_vars).
Abbreviation M := (st (control Y)).

Definition upd (f : loop_vars -> loop_vars) : M () := modify (fun c => c <| vars := f (vars c) |>).
Definition monotonic_time_us : M Z := t ← on_part esp_timer (fun k c => c <| esp_timer := k |>) clock_read; mret (u64 t).
Definition read_time : M Z := t ← on_part loop_timer (fun k c => c <| loop_timer := k |>) clock_read; mret (u64 t).
(** [esp_rom_delay_us]: the readings that follow are so much later. *)
Definition delay_us (us : Z) : M () := modify (fun c => c <| esp_timer := later us (esp_timer c) |> <| loop_timer := later us (loop_timer c) |>).

(** [ulTaskNotifyTake(pdTRUE, ..)]: the number of ticks pending, which it clears. *)
Definition ulTaskNotifyTake : M Z := fun c => (notified c, c <| notified := 0 |>).
Definition timer_callback : M () := modify (fun c => c <| notified := u32 (notified c + 1) |>).
Fixpoint interrupts (n : nat) : M () := match n with O => mret tt | S n => timer_callback;; interrupts n end.
Definition count_overrun v : loop_vars := v <| overrun_count := u32 (overrun_count v + 1) |>.
(** [while (ulTaskNotifyTake(pdTRUE, 0)) overrun_count++;]: [ticks] are the
    interrupts before each call; there is none after the last one listed. *)
Fixpoint drain (ticks : list nat) : M () :=
  match ticks with
  | [] => n ← ulTaskNotifyTake; if n =? 0 then mret tt else upd count_overrun
  | t :: ticks => interrupts t;;
    n ← ulTaskNotifyTake; if n =? 0 then mret tt else upd count_overrun;; drain ticks
  end.

(** The distance to the expected start, [(int64_t)start - (int64_t)expected]. *)
Definition jitter_of (start : Z) v : Z := Z.abs (start - expected_cycle_time v).
Definition jitter_stats (j : Z) v : loop_vars :=
  if BOOT_IGNORE_CYCLES <? cycle_counter v then
    if j <? LOOP_PERIOD_US then
      v <| jitter_min := if j <? jitter_min v then j else jitter_min v |>
        <| jitter_max := if jitter_max v <? j then j else jitter_max v |>
        <| jitter_sum := u64 (jitter_sum v + j) |> <| jitter_samples := u32 (jitter_samples v + 1) |>
    else v
  else v.
Definition drift_correction (start : Z) v : loop_vars :=
  if expected_cycle_time v <? start
  then v <| expected_cycle_time := u64 (expected_cycle_time v + ((start - expected_cycle_time v) / LOOP_PERIOD_US + 1) * LOOP_PERIOD_US) |>
  else v <| expected_cycle_time := u64 (expected_cycle_time v + LOOP_PERIOD_US) |>.

(** Round [i] of the loop over the phases. *)
Definition note_phase_max (i dt : Z) v : loop_vars := if phase_max i v <? dt then set_phase_max i (u32 dt) v else v.
Definition timed_phase (i : Z) (p : phase) : M () :=
  t_before ← read_time;
  on_part sys (fun s c => c <| sys := s |>) (run_phase p);;
  l ← gets load; delay_us (phase_load_test_apply i l);;
  t_after ← read_time;
  let dt := safe_time_diff t_before t_after in
  upd (note_phase_max i dt);;
  modify (fun c => c <| overrun_counter := phase_monitor_check i (u32 dt) (overrun_counter c) |>).
Fixpoint phases_from (i : Z) (ps : list phase) : M () :=
  match ps with
  | [] => mret tt
  | p :: ps => timed_phase i p;; phases_from (i + 1) ps
  end.
Definition run_phases : M () := phases_from 0 phase_table.

Definition exec_stats (exec : Z) v : loop_vars :=
  v <| exec_min := if exec <? exec_min v then exec else exec_min v |>
    <| exec_max := if exec_max v <? exec then exec else exec_max v |>.
(** The deadline: the new counts, and whether the system is aborted. *)
Definition deadline_monitor (exec : Z) v : loop_vars * bool :=
  if LOOP_PERIOD_US <? exec then
    let v := v <| deadline_miss := u32 (deadline_miss v + 1) |>
               <| consecutive_deadline_miss := u32 (consecutive_deadline_miss v + 1) |> in
    (v, DEADLINE_FAULT_THRESHOLD <? consecutive_deadline_miss v)
  else (v <| consecutive_deadline_miss := 0 |>, false).

(** Every 5000 rounds the totals are handed over and started again. *)
Definition reset_window v : loop_vars :=
  LoopVars (expected_cycle_time v) (cycle_counter v) 0 0 UINT64_MAX 0 UINT64_MAX 0
    (deadline_miss v) (consecutive_deadline_miss v) (overrun_count v) 0 0 0 0 0.
Definition metrics_update c : control Y :=
  let v := vars c in
  if negb (jitter_samples v =? 0) && (cycle_counter v mod 5000 =? 0) then
    c <| km := (kernel_metrics_update (jitter_max v) (exec_max v) (deadline_miss v) (overrun_count v) (km c)).2 |>
      <| kpm := kernel_phase_metrics_update
           (if phase_io_apply_max v <? phase_io_max v then phase_io_max v else phase_io_apply_max v)
           (phase_fieldbus_max v) (phase_automation_max v) (phase_events_max v) |>
      <| vars := reset_window v |>
  else c.

(** What a round was: left at once because the time made no sense, run, or ended
    by [esp_system_abort]; with its execution time. *)
Inductive outcome := glitch | ran (exec : Z) | aborted (exec : Z).

Definition wait_tick (ticks : list nat) : M Z :=
  ulTaskNotifyTake;;
  drain ticks;;
  start ← monotonic_time_us;
  upd (fun v => if expected_cycle_time v =? 0 then v <| expected_cycle_time := start |> else v);;
  mret start.
Definition begin_cycle (start jitter : Z) : M () :=
  upd (fun v => v <| cycle_counter := u32 (cycle_counter v + 1) |>);;
  upd (jitter_stats jitter);;
  upd (drift_correction start);;
  modify (fun c => c <| cprobe := determinism_probe_cycle_start start (cprobe c) |>);;
  modify (fun c => c <| ctrace := kernel_trace_cycle_start start (ctrace c) |>).
Definition end_cycle (end_ : Z) : M () :=
  modify (fun c => c <| cprobe := determinism_probe_cycle_end end_ (cprobe c) |>);;
  modify (fun c => c <| ctrace := kernel_trace_cycle_end end_ (ctrace c) |>);;
  modify metrics_update;;
  on_part cwd (fun w c => c <| cwd := w |>) (watchdog_feed WD_CONTROL_LOOP).
Definition control_loop_round (ticks : list nat) : M outcome :=
  start ← wait_tick ticks;
  jitter ← gets (fun c => jitter_of start (vars c));
  if 1000000 <? jitter then
    upd (fun v => v <| expected_cycle_time := u64 (start + LOOP_PERIOD_US) |>);; mret glitch
  else
    begin_cycle start jitter;;
    run_phases;;
    end_ ← monotonic_time_us;
    let exec := safe_time_diff start end_ in
    upd (exec_stats exec);;
    fault ← gets (fun c => (deadline_monitor exec (vars c)).2);
    upd (fun v => (deadline_monitor exec v).1);;
    if (fault : bool) then mret (aborted exec) else end_cycle end_;; mret (ran exec).

(** [control_loop_run]: rounds until one aborts; the outcomes, newest first. *)
Fixpoint control_loop_run (rounds : list (list nat)) (done_ : list outcome) : M (list outcome) :=
  match rounds with
  | [] => mret done_
  | ticks :: rounds =>
    o ← control_loop_round ticks;
    match o with aborted _ => mret (o :: done_) | _ => control_loop_run rounds (o :: done_) end
  end.

(** [control_loop_get_metrics] *)
Definition control_loop_get_metrics c : Z * Z * Z * Z := kernel_metrics_get (km c).
End control_loop.

(** The phases of [scheduler.c]. *)
Definition run_phase {G N Q P} `{Hardware G} `{Nvs N} `{RemoteQueue Q} `{SerialPort P} (others : nat -> st (iow G) ()) (p : phase) :
    st (system G N Q P) () :=
  match p with
  | phase_io => scheduler_run_io
  | phase_fieldbus => scheduler_run_fieldbus
  | phase_automation => scheduler_run_automation
  | phase_io_apply => scheduler_run_io_apply others
  | phase_events => scheduler_run_events
  end.

(** ** What a round does, step by step *)

Section facts.
Context {Y : Type} (run_phase : phase -> st Y ()).
Implicit Types (c : control Y) (v : loop_vars).
Abbreviation round := (control_loop_round run_phase).

(** The time measured around phase number [i]. *)
Definition phase_time (i : Z) c : Z :=
  let t := loop_timer c in
  safe_time_diff (u64 (readings t (taken t))) (u64 (readings t (S (taken t)) + phase_load_test_apply i (load c))).
Definition after_phase (i : Z) (p : phase) c : control Y :=
  let us := phase_load_test_apply i (load c) in
  c <| sys := (run_phase p (sys c)).2 |> <| esp_timer := later us (esp_timer c) |>
    <| loop_timer := Clock (fun k => readings (loop_timer c) k + us) (S (S (taken (loop_timer c)))) |>
    <| vars := note_phase_max i (phase_time i c) (vars c) |>
    <| overrun_counter := phase_monitor_check i (u32 (phase_time i c)) (overrun_counter c) |>.
Lemma timed_phase_eq i p c : (timed_phase run_phase i p c).2 = after_phase i p c.
Proof.
  destruct c as [v n e t l oc k1 k2 pr tr w s]. unfold timed_phase, after_phase, phase_time, read_time, on_part.
  destruct (run_phase p s) as [[] s'] eqn:E. unfold mbind, st_bind, mret, st_ret, gets, delay_us, upd, modify. cbn. by rewrite E.
Qed.
Lemma run_phases_eq c : (run_phases run_phase c).2 =
  after_phase 4 phase_events (after_phase 3 phase_io_apply (after_phase 2 phase_automation
    (after_phase 1 phase_fieldbus (after_phase 0 phase_io c)))).
Proof. unfold run_phases, phase_table, phases_from. by rewrite !run_bind_surj, run_ret, !timed_phase_eq. Qed.

(** The variables without the phases' maxima, which is all that a phase changes
    of them. *)
Definition core v : loop_vars :=
  v <| phase_io_max := 0 |> <| phase_io_apply_max := 0 |> <| phase_fieldbus_max := 0 |> <| phase_automation_max := 0 |> <| phase_events_max := 0 |>.
Lemma core_phases c : core (vars (run_phases run_phase c).2) = core (vars c).
Proof.
  assert (forall i p c, core (vars (after_phase i p c)) = core (vars c)) as Hp
    by (intros; cbn; unfold note_phase_max, set_phase_max; by repeat case_match).
  by rewrite run_phases_eq, !Hp.
Qed.
Lemma sys_phases c : sys (run_phases run_phase c).2 = (for_each run_phase phase_table (sys c)).2.
Proof. rewrite run_phases_eq. unfold phase_table. cbn [for_each]. by rewrite !run_bind_surj. Qed.
Lemma wd_phases c : cwd (run_phases run_phase c).2 = cwd c.
Proof. by rewrite run_phases_eq. Qed.

Lemma drain_eq ticks c : exists n k, drain ticks c = (tt, c <| notified := n |> <| vars := vars c <| overrun_count := k |> |>) /\
  (Forall (eq O) ticks -> notified c = 0 -> k = overrun_count (vars c)).
Proof.
  assert (forall t (c : control Y), exists n, interrupts t c = (tt, c <| notified := n |>) /\ (t = O -> n = notified c)) as Ht.
  { induction t as [|t IH]; intros c'; cbn [interrupts]; [exists (notified c'); by destruct c'|].
    rewrite run_bind_surj. destruct (IH (timer_callback c').2) as (n & -> & _). by exists n. }
  revert c. induction ticks as [|t ticks IH]; intros c; cbn [drain].
  - rewrite run_bind_surj. unfold ulTaskNotifyTake. cbn [fst snd]. destruct (Z.eqb_spec (notified c) 0).
    + exists 0, (overrun_count (vars c)). split; [by destruct c as [[] ?]|done].
    + by eexists _, _.
  - rewrite run_bind_surj. destruct (Ht t c) as (n & Hn & Hz). rewrite Hn. cbn [snd]. rewrite run_bind_surj. unfold ulTaskNotifyTake.
    cbn [fst snd notified update]. destruct (Z.eqb_spec n 0) as [->|Hnz].
    + exists 0, (overrun_count (vars c)). split; [by destruct c as [[] ?]|done].
    + rewrite run_bind_surj. destruct (IH (upd count_overrun (c <| notified := n |> <| notified := 0 |>)).2) as (n' & k & -> & _). exists n', k.
      split; [done|]. intros [<- _]%Forall_cons Hc. by rewrite Hz in Hnz.
Qed.
(** Up to the time read at the start. *)
Definition set_first (start : Z) v : loop_vars := if expected_cycle_time v =? 0 then v <| expected_cycle_time := start |> else v.
Definition tick_time c : Z := u64 (readings (esp_timer c) (taken (esp_timer c))).
Lemma wait_tick_eq ticks c : exists n k, wait_tick ticks c =
  (tick_time c, c <| notified := n |> <| esp_timer := Clock (readings (esp_timer c)) (S (taken (esp_timer c))) |>
                  <| vars := set_first (tick_time c) (vars c <| overrun_count := k |>) |>) /\
  (Forall (eq O) ticks -> k = overrun_count (vars c)).
Proof.
  unfold wait_tick. rewrite run_bind_surj. destruct (drain_eq ticks (ulTaskNotifyTake c).2) as (n & k & Hd & Hk).
  rewrite (run_bind_eq _ _ _ _ _ Hd). exists n, k. split; [unfold tick_time; by destruct c as [[] ?]|]. intros Ht. by apply Hk.
Qed.

(** The variables when the phases start. *)
Definition begun (start : Z) v : loop_vars :=
  drift_correction start (jitter_stats (jitter_of start v) (v <| cycle_counter := u32 (cycle_counter v + 1) |>)).
(** The state [b] in which the phases start, and the state [c'] in which a round
    that is executed comes to its deadline with the execution time [e]. *)
Record at_deadline (start : Z) v0 (e : Z) c b c' : Prop := {
  ad_begun : vars b = begun start v0;
  ad_timer : loop_timer b = loop_timer c;
  ad_load : load b = load c;
  ad_counter : overrun_counter b = overrun_counter c;
  ad_vars : vars c' = exec_stats e (vars (run_phases run_phase b).2);
  ad_overruns : overrun_counter c' = overrun_counter (run_phases run_phase b).2;
  ad_sys : sys c' = (for_each run_phase phase_table (sys c)).2;
  ad_wd : cwd c' = cwd c;
}.
Lemma at_deadline_core start v0 e c b c' : at_deadline start v0 e c b c' -> core (vars c') = core (exec_stats e (begun start v0)).
Proof.
  intros [Hb _ _ _ Hv _ _ _]. rewrite Hv.
  change (exec_stats e (core (vars (run_phases run_phase b).2)) = exec_stats e (core (begun start v0))). by rewrite core_phases, Hb.
Qed.
Lemma round_cases ticks c : exists k, (Forall (eq O) ticks -> k = overrun_count (vars c)) /\ let start := tick_time c in
  let v0 := set_first start (vars c <| overrun_count := k |>) in
  let '(o, c') := round ticks c in
  match o with
  | glitch => 1000000 < jitter_of start v0 /\ vars c' = v0 <| expected_cycle_time := u64 (start + LOOP_PERIOD_US) |> /\
              sys c' = sys c /\ cwd c' = cwd c
  | ran e => jitter_of start v0 <= 1000000 /\ exists t b c1, at_deadline start v0 e c b c1 /\
              (deadline_monitor e (vars c1)).2 = false /\ c' = (end_cycle t (c1 <| vars := (deadline_monitor e (vars c1)).1 |>)).2
  | aborted e => jitter_of start v0 <= 1000000 /\ exists b c1, at_deadline start v0 e c b c1 /\
              (deadline_monitor e (vars c1)).2 = true /\ c' = c1 <| vars := (deadline_monitor e (vars c1)).1 |>
  end.
Proof.
  unfold control_loop_round. destruct (wait_tick_eq ticks c) as (n & k & Hw & Hk). exists k. split; [exact Hk|]. cbv zeta.
  rewrite (run_bind_eq _ _ _ _ _ Hw). set (start := tick_time c). set (v0 := set_first start _). run. cbn [vars update].
  destruct (Z.ltb_spec 1000000 (jitter_of start v0)) as [Hj|Hj]; [by split_and!|]. rewrite !run_bind_surj.
  set (b := (begin_cycle start _ _).2). set (c1 := (run_phases run_phase b).2). run. cbn [fst snd monotonic_time_us].
  set (e := safe_time_diff start _). set (c2 := (upd (exec_stats e) _).2).
  assert (at_deadline start v0 e c b c2) as Had.
  { constructor; try done.
    - change (sys c1 = (for_each run_phase phase_table (sys c)).2). subst c1. by rewrite sys_phases.
    - change (cwd c1 = cwd c). subst c1. by rewrite wd_phases. }
  destruct (deadline_monitor e (vars c2)).2 eqn:Hd.
  - split; [done|]. by exists b, c2.
  - rewrite run_bind_surj. split; [done|]. by eexists _, b, c2.
Qed.

Lemma begun_kept {A} (f : loop_vars -> A) start v k :
  (forall v x, f (v <| cycle_counter := x |>) = f v) -> (forall v x, f (v <| expected_cycle_time := x |>) = f v) ->
  (forall v x, f (v <| overrun_count := x |>) = f v) -> (forall v x, f (v <| jitter_min := x |>) = f v) ->
  (forall v x, f (v <| jitter_max := x |>) = f v) -> (forall v x, f (v <| jitter_sum := x |>) = f v) ->
  (forall v x, f (v <| jitter_samples := x |>) = f v) ->
  f (begun start (set_first start (v <| overrun_count := k |>))) = f v.
Proof.
  intros H1 H2 H3 H4 H5 H6 H7. unfold begun, drift_correction, jitter_stats, set_first.
  repeat case_match; by rewrite ?H2, ?H7, ?H6, ?H5, ?H4, ?H1, ?H2, ?H3.
Qed.
Lemma end_cycle_vars t c : vars (end_cycle t c).2 = vars c \/ vars (end_cycle t c).2 = reset_window (vars c).
Proof.
  assert (vars (end_cycle t c).2 = vars (metrics_update (c <| cprobe := determinism_probe_cycle_end t (cprobe c) |>
    <| ctrace := kernel_trace_cycle_end t (ctrace c) |>))) as -> by (unfold end_cycle, on_part; rewrite !run_bind_surj; by destruct (watchdog_feed _ _)).
  unfold metrics_update. case_match; [by right|by left].
Qed.

Lemma end_cycle_frame t c : sys (end_cycle t c).2 = sys c /\ cwd (end_cycle t c).2 = (watchdog_feed WD_CONTROL_LOOP (cwd c)).2.
Proof.
  unfold end_cycle. rewrite !run_bind_surj. set (c1 := (modify metrics_update _).2).
  assert (sys c1 = sys c /\ cwd c1 = cwd c) as [<- <-] by (subst c1; cbn -[metrics_update]; unfold metrics_update; by case_match).
  unfold on_part. by destruct (watchdog_feed WD_CONTROL_LOOP (cwd c1)).
Qed.

Lemma end_cycle_counter t c : overrun_counter (end_cycle t c).2 = overrun_counter c.
Proof. unfold end_cycle, on_part. rewrite !run_bind_surj. destruct (watchdog_feed _ _). cbn -[metrics_update]. unfold metrics_update. by case_match. Qed.

(** *** Deadlines *)

Definition exec_of (o : outcome) : option Z := match o with glitch => None | ran e => Some e | aborted e => Some e end.
(** Execution times, newest first, and how many of the newest ones are too long. *)
Definition times (os : list outcome) : list Z := omap exec_of os.
Fixpoint miss_run (ts : list Z) : Z :=
  match ts with t :: ts => if LOOP_PERIOD_US <? t then 1 + miss_run ts else 0 | [] => 0 end.
Lemma miss_run_nonneg ts : 0 <= miss_run ts.
Proof. induction ts as [|t ts IH]; cbn [miss_run]; [lia|]. case_match; lia. Qed.
Lemma miss_run_ge n ts : Z.of_nat n <= miss_run ts <-> (n <= length ts)%nat /\ Forall (fun t => LOOP_PERIOD_US < t) (take n ts).
Proof.
  revert n. induction ts as [|t ts IH]; intros n; cbn [miss_run length].
  - split; [intros Hn; assert (n = 0)%nat as -> by lia; by split|intros [Hn _]; lia].
  - destruct n as [|n]; [split; [split; [lia|constructor]|intros _; case_match; pose proof (miss_run_nonneg ts); lia]|].
    cbn [take]. rewrite Forall_cons. specialize (IH n). destruct (Z.ltb_spec LOOP_PERIOD_US t); [|split; [lia|intros [_ [? _]]; lia]].
    split; [intros Hn|intros [Hn [_ Hf]]].
    + destruct IH as [IH _]. destruct IH as [Hl Hf]; [lia|]. split; [lia|done].
    + destruct IH as [_ IH]. assert (Z.of_nat n <= miss_run ts) by (apply IH; split; [lia|done]). lia.
Qed.

Lemma round_deadline ticks c n : consecutive_deadline_miss (vars c) = n -> 0 <= n <= DEADLINE_FAULT_THRESHOLD ->
  let '(o, c') := round ticks c in
  match o with
  | glitch => consecutive_deadline_miss (vars c') = n
  | ran e => consecutive_deadline_miss (vars c') = (if LOOP_PERIOD_US <? e then n + 1 else 0) /\ (LOOP_PERIOD_US < e -> n < DEADLINE_FAULT_THRESHOLD)
  | aborted e => LOOP_PERIOD_US < e /\ n = DEADLINE_FAULT_THRESHOLD
  end.
Proof.
  intros Hn Hr. destruct (round_cases ticks c) as (k & _ & Hc). cbv zeta in Hc. destruct (round ticks c) as [o c'].
  set (v0 := set_first _ _) in *.
  assert (forall e b c1, at_deadline (tick_time c) v0 e c b c1 -> consecutive_deadline_miss (vars c1) = n) as Hpre.
  { intros e b c1 Had%at_deadline_core. change (consecutive_deadline_miss (core (vars c1)) = n). rewrite Had. rewrite <- Hn.
    by apply (begun_kept consecutive_deadline_miss). }
  assert (u32 (n + 1) = n + 1) as Hu by (apply u32_id; unfold DEADLINE_FAULT_THRESHOLD in *; lia).
  destruct o as [|e|e].
  - destruct Hc as (_ & -> & _). subst v0. rewrite <- Hn. unfold set_first. by case_match.
  - destruct Hc as (_ & t & b & c1 & Had & Hd & ->). apply Hpre in Had. unfold deadline_monitor in *.
    set (c2 := c1 <| vars := _ |>). assert (consecutive_deadline_miss (vars (end_cycle t c2).2) = consecutive_deadline_miss (vars c2)) as ->
      by (by destruct (end_cycle_vars t c2) as [->| ->]).
    subst c2. destruct (Z.ltb_spec LOOP_PERIOD_US e); cbn in *; rewrite ?Had, ?Hu in *; [|by split; [|lia]].
    apply Z.ltb_ge in Hd. split; [done|]. lia.
  - destruct Hc as (_ & b & c1 & Had & Hd & ->). apply Hpre in Had. unfold deadline_monitor in *.
    destruct (Z.ltb_spec LOOP_PERIOD_US e); cbn in *; [|done]. rewrite Had, Hu in Hd. apply Z.ltb_lt in Hd. lia.
Qed.

Definition sustained (e : Z) (before : list outcome) : Prop :=
  LOOP_PERIOD_US < e /\ (200 <= length (times before))%nat /\ Forall (fun t => LOOP_PERIOD_US < t) (take 200 (times before)).
Lemma sustained_run e before : sustained e before <-> LOOP_PERIOD_US < e /\ DEADLINE_FAULT_THRESHOLD <= miss_run (times before).
Proof. unfold sustained. by rewrite <- (miss_run_ge 200). Qed.
Definition faults_justified (os : list outcome) : Prop :=
  forall i o e, os !! i = Some o -> exec_of o = Some e -> (o = aborted e <-> sustained e (drop (S i) os)).
Lemma faults_cons o os : faults_justified os -> (forall e, exec_of o = Some e -> (o = aborted e <-> sustained e os)) -> faults_justified (o :: os).
Proof. intros Hos Ho [|i] o' e; cbn; [intros [= <-]; apply Ho|apply Hos]. Qed.
Lemma run_deadlines rounds : forall done_ c, faults_justified done_ ->
  consecutive_deadline_miss (vars c) = miss_run (times done_) -> miss_run (times done_) <= DEADLINE_FAULT_THRESHOLD ->
  faults_justified (control_loop_run run_phase rounds done_ c).1.
Proof.
  induction rounds as [|ticks rounds IH]; intros done_ c Hd Hc Hle; [done|]. cbn [control_loop_run]. rewrite run_bind_surj.
  pose proof (round_deadline ticks c _ Hc (conj (miss_run_nonneg _) Hle)) as Hr. destruct (round ticks c) as [o c']. cbn [fst snd].
  destruct o as [|e|e].
  - apply IH; [by apply faults_cons|done|done].
  - destruct Hr as [Hr Hlt]. apply IH.
    + apply faults_cons; [done|]. intros e' [= <-]. rewrite sustained_run. split; [done|]. intros [H1 H2]. specialize (Hlt H1). lia.
    + change (times (ran e :: done_)) with (e :: times done_). cbn [miss_run]. by rewrite Hr, Z.add_comm.
    + change (times (ran e :: done_)) with (e :: times done_). cbn [miss_run]. pose proof (miss_run_nonneg (times done_)). destruct (Z.ltb_spec LOOP_PERIOD_US e) as [Hl|]; [specialize (Hlt Hl); lia|].
      unfold DEADLINE_FAULT_THRESHOLD. lia.
  - rewrite run_ret. destruct Hr as [Hr1 Hr2]. apply faults_cons; [done|]. intros e' [= <-]. rewrite sustained_run. split; [|done]. intros _. lia.
Qed.

(** *** Overruns, the grid and the watchdog *)

Lemma round_overruns ticks c : Forall (eq O) ticks -> overrun_count (vars (round ticks c).2) = overrun_count (vars c).
Proof.
  intros Ht. destruct (round_cases ticks c) as (k & Hk & Hc). rewrite (Hk Ht) in Hc. cbv zeta in Hc. destruct (round ticks c) as [o c'].
  assert (forall e b c1, at_deadline (tick_time c) (set_first (tick_time c) (vars c <| overrun_count := overrun_count (vars c) |>)) e c b c1 ->
    overrun_count (vars c1) = overrun_count (vars c)) as Hpre.
  { intros e b c1 Had%at_deadline_core. change (overrun_count (core (vars c1)) = overrun_count (vars c)). rewrite Had.
    change (overrun_count (core (exec_stats e ?x))) with (overrun_count x).
    unfold begun, drift_correction, jitter_stats, set_first. by repeat case_match. }
  assert (forall e v, overrun_count (deadline_monitor e v).1 = overrun_count v) as Hdm
    by (intros e v; unfold deadline_monitor; by destruct (LOOP_PERIOD_US <? e)).
  destruct o as [|e|e]; cbn [snd].
  - destruct Hc as (_ & -> & _). unfold set_first. by case_match.
  - destruct Hc as (_ & t & b & c1 & Had & _ & ->). destruct (end_cycle_vars t (c1 <| vars := (deadline_monitor e (vars c1)).1 |>)) as [->| ->];
      cbn; rewrite Hdm; by eapply Hpre.
  - destruct Hc as (_ & b & c1 & Had & _ & ->). cbn. rewrite Hdm. by eapply Hpre.
Qed.

Lemma round_sys ticks c : let '(o, c') := round ticks c in
  sys c' = Nat.iter (length (times [o])) (fun s => (for_each run_phase phase_table s).2) (sys c).
Proof.
  destruct (round_cases ticks c) as (k & _ & Hc). cbv zeta in Hc. destruct (round ticks c) as [[|e|e] c'].
  - by destruct Hc as (_ & _ & -> & _).
  - destruct Hc as (_ & t & b & c1 & Had & _ & ->). rewrite (proj1 (end_cycle_frame _ _)). exact (ad_sys _ _ _ _ _ _ Had).
  - destruct Hc as (_ & b & c1 & Had & _ & ->). apply Had.
Qed.
Lemma run_sys rounds : forall done_ c, let '(os, c') := control_loop_run run_phase rounds done_ c in
  exists n, length (times os) = (n + length (times done_))%nat /\
    sys c' = Nat.iter n (fun s => (for_each run_phase phase_table s).2) (sys c).
Proof.
  induction rounds as [|ticks rounds IH]; intros done_ c; [by exists O|]. cbn [control_loop_run].
  pose proof (round_sys ticks c) as Hs. destruct (round ticks c) as [o c'] eqn:E. rewrite (run_bind_eq _ _ _ _ _ E).
  assert (length (times (o :: done_)) = (length (times [o]) + length (times done_))%nat) as Hl by (by destruct o).
  set (f := fun s : Y => _) in *.
  assert (let '(os, c2) := control_loop_run run_phase rounds (o :: done_) c' in
    exists n, length (times os) = (n + length (times done_))%nat /\ sys c2 = Nat.iter n f (sys c)) as Hgo.
  { specialize (IH (o :: done_) c'). destruct (control_loop_run _ _ _ _) as [os c2]. destruct IH as (n & Hn & Hc2).
    exists (n + length (times [o]))%nat. split; [lia|]. by rewrite Hc2, Hs, Nat.iter_add. }
  destruct o; [exact Hgo|exact Hgo|]. exists 1%nat. by split.
Qed.

Lemma drift_same start v v' : expected_cycle_time v = expected_cycle_time v' ->
  expected_cycle_time (drift_correction start v) = expected_cycle_time (drift_correction start v').
Proof. intros E. unfold drift_correction. rewrite E. by case_match. Qed.
Lemma drift_grid start v : 0 <= start < 2 ^ 63 -> 0 <= expected_cycle_time v < 2 ^ 63 ->
  let e := expected_cycle_time v in let e' := expected_cycle_time (drift_correction start v) in
  start < e' /\ (e' - e) mod LOOP_PERIOD_US = 0 /\ (e <= start -> e' <= start + LOOP_PERIOD_US).
Proof.
  intros Hs He. cbv zeta. unfold drift_correction, LOOP_PERIOD_US. set (e := expected_cycle_time v) in *.
  destruct (Z.ltb_spec e start); cbn.
  - pose proof (Z.div_mod (start - e) 1000 ltac:(lia)). pose proof (Z.mod_pos_bound (start - e) 1000 ltac:(lia)).
    set (q := (start - e) / 1000) in *. rewrite u64_id by lia. split; [lia|]. split; [|lia].
    replace (e + (q + 1) * 1000 - e) with ((q + 1) * 1000) by lia. by apply Z.mod_mul.
  - rewrite u64_id by lia. split; [lia|]. split; [|lia]. by replace (e + 1000 - e) with 1000 by lia.
Qed.

(** *** Times of the phases *)

(** What the timer's readings give for the [i]-th phase that is run, and what a
    maximum becomes. *)
Definition count_at c (j : nat) : Z := u64 (readings (loop_timer c) (taken (loop_timer c) + j)%nat).
Definition spent c (i : nat) : Z := safe_time_diff (count_at c (2 * i)) (count_at c (2 * i + 1)).
Definition grow (m d : Z) : Z := if m <? d then u32 d else m.
Definition missed_by (i : Z) (d : Z) : Z := if default 0 (zget phase_deadline i) <? u32 d then 1 else 0.

Lemma note_get i j d v : 0 <= i < 5 -> 0 <= j < 5 ->
  phase_max i (note_phase_max j d v) = if i =? j then grow (phase_max i v) d else phase_max i v.
Proof.
  intros Hi Hj. assert (i = 0 \/ i = 1 \/ i = 2 \/ i = 3 \/ i = 4) as Hi' by lia.
  assert (j = 0 \/ j = 1 \/ j = 2 \/ j = 3 \/ j = 4) as Hj' by lia. unfold note_phase_max, grow.
  destruct Hi' as [->|[->|[->|[->| ->]]]]; destruct Hj' as [->|[->|[->|[->| ->]]]]; cbn; by case_match.
Qed.
Lemma monitor_get i j d k : 0 <= i < 5 -> 0 <= j < 5 -> length k = 5%nat ->
  length (phase_monitor_check j (u32 d) k) = 5%nat /\
  zget (phase_monitor_check j (u32 d) k) i =
    if (i =? j) && (missed_by j d =? 1) then (fun x => u32 (x + 1)) <$> zget k i else zget k i.
Proof.
  intros Hi Hj Hk. unfold phase_monitor_check, missed_by. rewrite (proj2 (Z.leb_gt _ _)) by lia.
  case_match; cbn [Z.eqb]; [|by rewrite andb_false_r]. split; [by rewrite length_zset|]. change (1 =? 1) with true. rewrite andb_true_r.
  destruct (Z.eqb_spec i j) as [->|]; [|by rewrite zget_zset_ne by done]. rewrite zget_zset_eq by lia.
  destruct (zget k j) as [x|] eqn:E; [done|]. exfalso. unfold zget in E. rewrite (proj2 (Z.leb_le _ _)) in E by lia.
  apply lookup_ge_None in E. lia.
Qed.
(** Without artificial load, nothing but the readings matters. *)
Lemma idle_phase i p c : phase_mask (load c) = 0 ->
  phase_time i c = spent c 0 /\ load (after_phase i p c) = load c /\ forall j, count_at (after_phase i p c) j = count_at c (S (S j)).
Proof.
  intros Hm. unfold phase_time, spent, count_at. assert (phase_load_test_apply i (load c) = 0) as E
    by (unfold phase_load_test_apply; rewrite Hm; cbn; by case_match).
  cbn [after_phase load update loop_timer readings taken]. rewrite E. split; [|split; [done|]].
  - by rewrite Nat.add_0_r, Z.add_0_r, Nat.add_1_r.
  - intros j. rewrite Z.add_0_r. do 2 f_equal. lia.
Qed.
(** [n] phases from number [k] on, run one after the other. *)
Lemma phases_measured ps : forall k c, phase_mask (load c) = 0 -> length (overrun_counter c) = 5%nat -> (k + length ps <= 5)%nat ->
  let c' := (phases_from run_phase (Z.of_nat k) ps c).2 in
  forall i, (i < 5)%nat ->
    let on := bool_decide (k <= i < k + length ps)%nat in let d := spent c (i - k) in
    phase_max (Z.of_nat i) (vars c') = (if on then grow (phase_max (Z.of_nat i) (vars c)) d else phase_max (Z.of_nat i) (vars c)) /\
    zget (overrun_counter c') (Z.of_nat i) =
      (if on && (missed_by (Z.of_nat i) d =? 1) then (fun x => u32 (x + 1)) <$> zget (overrun_counter c) (Z.of_nat i)
       else zget (overrun_counter c) (Z.of_nat i)).
Proof.
  induction ps as [|p ps IH]; intros k c Hm Hlen Hk; cbv zeta; intros i Hi.
  - rewrite bool_decide_eq_false_2 by (cbn; lia). done.
  - cbn [phases_from]. rewrite run_bind_surj, timed_phase_eq. destruct (idle_phase (Z.of_nat k) p c Hm) as (Ht & Hl & Hc).
    set (c1 := after_phase (Z.of_nat k) p c) in *. cbn [length] in *.
    destruct (monitor_get (Z.of_nat i) (Z.of_nat k) (spent c 0) (overrun_counter c)) as [Hlen1 Hget]; [lia|lia|done|].
    pose proof (note_get (Z.of_nat i) (Z.of_nat k) (spent c 0) (vars c) ltac:(lia) ltac:(lia)) as Hmax. rewrite <- Ht in *.
    specialize (IH (S k) c1 ltac:(by rewrite Hl) Hlen1 ltac:(lia)). cbv zeta in IH.
    replace (Z.of_nat (S k)) with (Z.of_nat k + 1) in IH by lia. destruct (IH i Hi) as [-> ->]. clear IH.
    change (vars c1) with (note_phase_max (Z.of_nat k) (phase_time (Z.of_nat k) c) (vars c)).
    change (overrun_counter c1) with (phase_monitor_check (Z.of_nat k) (u32 (phase_time (Z.of_nat k) c)) (overrun_counter c)).
    rewrite Hmax, Hget. destruct (Z.eqb_spec (Z.of_nat i) (Z.of_nat k)) as [He|He].
    + assert (i = k) as -> by lia. rewrite (bool_decide_eq_false_2 (S k <= k < _)%nat), (bool_decide_eq_true_2 (k <= k < _)%nat) by lia.
      rewrite Nat.sub_diag, <- Ht. done.
    + destruct (decide (k <= i < k + S (length ps))%nat) as [Hin|Hin].
      * rewrite (bool_decide_eq_true_2 (S k <= i < _)%nat), (bool_decide_eq_true_2 (k <= i < _)%nat) by lia.
        assert (spent c1 (i - S k) = spent c (i - k)) as ->; [|done]. unfold spent. rewrite !Hc. do 2 f_equal; lia.
      * rewrite (bool_decide_eq_false_2 (S k <= i < _)%nat), (bool_decide_eq_false_2 (k <= i < _)%nat) by lia. done.
Qed.
Lemma end_cycle_max t c i : phase_max i (vars (end_cycle t c).2) = phase_max i (vars c) \/ phase_max i (vars (end_cycle t c).2) = 0.
Proof. destruct (end_cycle_vars t c) as [->| ->]; [by left|right]. unfold phase_max, reset_window. by repeat case_match. Qed.
Lemma end_cycle_keeps t c : cycle_counter (vars c) mod 5000 <> 0 -> vars (end_cycle t c).2 = vars c.
Proof.
  intros Hne. assert (vars (end_cycle t c).2 = vars (metrics_update (c <| cprobe := determinism_probe_cycle_end t (cprobe c) |>
    <| ctrace := kernel_trace_cycle_end t (ctrace c) |>))) as -> by (unfold end_cycle, on_part; rewrite !run_bind_surj; by destruct (watchdog_feed _ _)).
  unfold metrics_update. cbn -[andb Z.modulo]. apply Z.eqb_neq in Hne. by rewrite Hne, andb_false_r.
Qed.
Lemma round_measured ticks c : phase_mask (load c) = 0 -> length (overrun_counter c) = 5%nat ->
  let '(o, c') := round ticks c in exec_of o <> None -> forall i, (i < 5)%nat ->
    let d := spent c i in
    (phase_max (Z.of_nat i) (vars c') = grow (phase_max (Z.of_nat i) (vars c)) d \/
     phase_max (Z.of_nat i) (vars c') = 0 /\ u32 (cycle_counter (vars c) + 1) mod 5000 = 0) /\
    zget (overrun_counter c') (Z.of_nat i) =
      (if missed_by (Z.of_nat i) d =? 1 then (fun x => u32 (x + 1)) <$> zget (overrun_counter c) (Z.of_nat i)
       else zget (overrun_counter c) (Z.of_nat i)).
Proof.
  intros Hm Hlen. destruct (round_cases ticks c) as (k & _ & Hc). cbv zeta in Hc. set (v0 := set_first _ _) in *.
  assert (forall e b c1, at_deadline (tick_time c) v0 e c b c1 -> cycle_counter (vars c1) = u32 (cycle_counter (vars c) + 1) /\
    forall i, (i < 5)%nat -> phase_max (Z.of_nat i) (vars c1) = grow (phase_max (Z.of_nat i) (vars c)) (spent c i) /\
      zget (overrun_counter c1) (Z.of_nat i) = (if missed_by (Z.of_nat i) (spent c i) =? 1
        then (fun x => u32 (x + 1)) <$> zget (overrun_counter c) (Z.of_nat i) else zget (overrun_counter c) (Z.of_nat i))) as Hpre.
  { intros e b c1 Had. split.
    { apply at_deadline_core in Had. change (cycle_counter (core (vars c1)) = u32 (cycle_counter (vars c) + 1)). rewrite Had.
      change (cycle_counter (core (exec_stats e ?x))) with (cycle_counter x). subst v0.
      unfold begun, drift_correction, jitter_stats, set_first. by repeat case_match. }
    intros i Hi. destruct Had as [Hb Hlt Hld Hoc Hv Ho _ _]. unfold run_phases in *.
    pose proof (phases_measured phase_table 0 b ltac:(by rewrite Hld) ltac:(by rewrite Hoc) ltac:(cbn; lia) i Hi) as [Hmax Hget].
    rewrite bool_decide_eq_true_2 in Hmax, Hget by (cbn; lia). rewrite Nat.sub_0_r in *. change (Z.of_nat 0) with 0 in *.
    rewrite Hv, Ho. change (phase_max (Z.of_nat i) (exec_stats e ?x)) with (phase_max (Z.of_nat i) x). rewrite Hmax, Hget, Hoc, Hb.
    assert (spent b i = spent c i) as -> by (unfold spent, count_at; by rewrite Hlt).
    subst v0. by rewrite (begun_kept (phase_max (Z.of_nat i))). }
  assert (forall e v i, phase_max i (deadline_monitor e v).1 = phase_max i v /\ cycle_counter (deadline_monitor e v).1 = cycle_counter v) as Hdm
    by (intros e v i; unfold deadline_monitor; by destruct (LOOP_PERIOD_US <? e)).
  destruct (round ticks c) as [[|e|e] c']; intros He i Hi; [done| |].
  - destruct Hc as (_ & t & b & c1 & Had & _ & ->). destruct (Hpre e b c1 Had) as [Hcc Hall]. destruct (Hall i Hi) as [Hmax Hget].
    set (c2 := c1 <| vars := _ |>). destruct (Hdm e (vars c1) (Z.of_nat i)) as [Hdm1 Hdm2].
    assert (overrun_counter (end_cycle t c2).2 = overrun_counter c1) as -> by (by rewrite end_cycle_counter). split; [|exact Hget].
    destruct (decide (u32 (cycle_counter (vars c) + 1) mod 5000 = 0)) as [H0|H0].
    + destruct (end_cycle_max t c2 (Z.of_nat i)) as [->| ->]; [left; subst c2; cbn; by rewrite Hdm1|by right].
    + left. rewrite end_cycle_keeps; subst c2; cbn; [by rewrite Hdm1|by rewrite Hdm2, Hcc].
  - destruct Hc as (_ & b & c1 & Had & _ & ->). destruct (Hpre e b c1 Had) as [Hcc Hall]. destruct (Hall i Hi) as [Hmax Hget].
    split; [|exact Hget]. left. cbn. by rewrite (proj1 (Hdm e (vars c1) (Z.of_nat i))).
Qed.
End facts.

(** ** Theorems *)

Section theorems.
Context {Y : Type} (run_phase : phase -> st Y ()).
Implicit Types (c : control Y) (v : loop_vars).

(** C15: The loop aborts the system exactly when misses of the deadline are
    sustained: a round ends in the fault if and only if it took more than 1 ms
    and so did each of the 200 executed rounds before it, rounds that were
    left for a senseless time not counted.  Shorter bursts, however often they
    come, never do. *)
Theorem deadline_fault_when_sustained (rounds : list (list nat)) c : consecutive_deadline_miss (vars c) = 0 ->
  let os := (control_loop_run run_phase rounds [] c).1 in
  forall i o e, os !! i = Some o -> exec_of o = Some e ->
    o = aborted e <->
      LOOP_PERIOD_US < e /\ (200 <= length (times (drop (S i) os)))%nat /\
      Forall (fun t => LOOP_PERIOD_US < t) (take 200 (times (drop (S i) os))).
Proof. intros Hc os. by apply run_deadlines. Qed.

(** Every round that is executed, also the one that ends in the fault, runs
    the five phases once in the order inputs, fieldbus, automation, outputs,
    events: after any number of rounds the system is the one that as many
    control cycles lead to, and rounds that are left for a senseless time run
    none. *)
Theorem rounds_run_control_cycles {G N Q P} `{Hardware G} `{Persist.Nvs N} `{RemoteQueue Q} `{SerialPort P}
    (others : nat -> st (iow G) ()) (rounds : list (list nat)) (c : control (system G N Q P)) :
  let '(os, c') := control_loop_run (ControlLoop.run_phase others) rounds [] c in
  sys c' = Nat.iter (length (times os)) (fun s => (control_cycle others s).2) (sys c).
Proof.
  pose proof (run_sys (ControlLoop.run_phase others) rounds [] c) as Hr. destruct (control_loop_run _ _ _ _) as [os c'].
  destruct Hr as (n & Hn & ->). rewrite Hn, Nat.add_0_r. reflexivity.
Qed.

(** A round that is executed moves the expected start to the next point of
    the 1 ms grid after the time read, however many periods were missed (at
    most one period ahead when the loop was not early), and feeds the
    watchdog's slot of the loop unless it ends in the fault.  A round whose
    time is more than a second off starts a new grid, runs no phase and does
    not feed the watchdog. *)
Theorem round_keeps_grid ticks c : 0 <= tick_time c < 2 ^ 63 -> 0 <= expected_cycle_time (vars c) < 2 ^ 63 ->
  let start := tick_time c in
  let grid := if expected_cycle_time (vars c) =? 0 then start else expected_cycle_time (vars c) in
  let '(o, c') := control_loop_round run_phase ticks c in
  let next := expected_cycle_time (vars c') in
  match o with
  | glitch => 1000000 < Z.abs (start - grid) /\ next = start + LOOP_PERIOD_US /\ sys c' = sys c /\ cwd c' = cwd c
  | _ => Z.abs (start - grid) <= 1000000 /\ start < next /\ (next - grid) mod LOOP_PERIOD_US = 0 /\
         (grid <= start -> next <= start + LOOP_PERIOD_US) /\
         cwd c' = match o with ran _ => (watchdog_feed WD_CONTROL_LOOP (cwd c)).2 | _ => cwd c end
  end.
Proof.
  intros Hs He. cbv zeta. destruct (round_cases run_phase ticks c) as (k & _ & Hc). cbv zeta in Hc.
  set (start := tick_time c) in *. set (v0 := set_first _ _) in *.
  assert (expected_cycle_time v0 = if expected_cycle_time (vars c) =? 0 then start else expected_cycle_time (vars c)) as Hg
    by (subst v0; unfold set_first; cbn; by destruct (expected_cycle_time (vars c) =? 0)).
  set (grid := if expected_cycle_time (vars c) =? 0 then start else expected_cycle_time (vars c)) in *. assert (0 <= grid < 2 ^ 63) as Hgr by (subst grid; case_match; lia).
  unfold jitter_of in Hc. rewrite Hg in Hc.
  assert (forall e b c1, at_deadline run_phase start v0 e c b c1 -> forall x, expected_cycle_time (deadline_monitor x (vars c1)).1 =
    expected_cycle_time (drift_correction start v0)) as Hpre.
  { intros e b c1 Had%at_deadline_core x. transitivity (expected_cycle_time (core (vars c1))).
    - unfold deadline_monitor. by destruct (LOOP_PERIOD_US <? x).
    - rewrite Had. change (expected_cycle_time (core (exec_stats e ?y))) with (expected_cycle_time y).
      apply drift_same. unfold jitter_stats. by repeat case_match. }
  assert (expected_cycle_time v0 = grid) as Hgrid by exact Hg.
  destruct (drift_grid start v0 Hs ltac:(by rewrite Hgrid)) as (D1 & D2 & D3). rewrite Hgrid in *.
  destruct (control_loop_round run_phase ticks c) as [[|e|e] c'].
  - destruct Hc as (Hj & Hv & Hsys & Hwd). split_and!; try done. rewrite Hv. cbn. apply u64_id. unfold LOOP_PERIOD_US. lia.
  - destruct Hc as (Hj & t & b & c1 & Had & _ & ->). split; [done|]. set (c2 := c1 <| vars := _ |>).
    assert (expected_cycle_time (vars (end_cycle t c2).2) = expected_cycle_time (drift_correction start v0)) as ->
      by (destruct (end_cycle_vars t c2) as [->| ->]; exact (Hpre e b c1 Had e)).
    rewrite (proj2 (end_cycle_frame t c2)). subst c2. cbn [cwd update]. split_and!; try done. by rewrite (ad_wd _ _ _ _ _ _ _ Had).
  - destruct Hc as (Hj & b & c1 & Had & _ & ->). split; [done|]. cbn [vars cwd update]. rewrite (Hpre e b c1 Had e). split_and!; try done. apply Had.
Qed.

(** The loop does not count the ticks it missed: whatever the number of ticks
    pending when it wakes up, [ulTaskNotifyTake(pdTRUE, ..)] takes them all at
    once, and [overrun_count] stays as it was unless another tick comes between
    that call and the next. *)
Theorem missed_ticks_not_counted ticks c (pending : Z) : Forall (eq O) ticks ->
  overrun_count (vars (control_loop_round run_phase ticks (c <| notified := pending |>)).2) = overrun_count (vars c).
Proof. intros Ht. by rewrite round_overruns. Qed.

(** The place of a phase in the table. *)
Definition position (p : phase) : nat := default O (find_idx (fun q => bool_decide (q = p)) phase_table).
Definition time_of (p : phase) c : Z := spent c (position p).

(** The times and the deadlines are attributed to the wrong phases: the table
    of the phases has the fieldbus second, the automation third and the outputs
    fourth, the tables of the maxima and of the deadlines have the outputs
    second, the fieldbus third and the automation fourth.  What is reported for
    the outputs is the time of the fieldbus, what is reported for the fieldbus
    that of the automation, and what is reported for the automation that of the
    outputs; the deadline of 30 us meant for the outputs is the one the
    fieldbus is held to. *)
Theorem phase_times_mislabelled ticks c : phase_mask (load c) = 0 -> length (overrun_counter c) = 5%nat ->
  u32 (cycle_counter (vars c) + 1) mod 5000 <> 0 ->
  let '(o, c') := control_loop_round run_phase ticks c in exec_of o <> None ->
  let before := phase_monitor_get (overrun_counter c) in let after := phase_monitor_get (overrun_counter c') in
  phase_io_apply_max (vars c') = grow (phase_io_apply_max (vars c)) (time_of phase_fieldbus c) /\
  phase_fieldbus_max (vars c') = grow (phase_fieldbus_max (vars c)) (time_of phase_automation c) /\
  phase_automation_max (vars c') = grow (phase_automation_max (vars c)) (time_of phase_io_apply c) /\
  io_apply_overruns after = (if io_apply_deadline_us after <? u32 (time_of phase_fieldbus c)
    then u32 (io_apply_overruns before + 1) else io_apply_overruns before) /\
  fieldbus_overruns after = (if fieldbus_deadline_us after <? u32 (time_of phase_automation c)
    then u32 (fieldbus_overruns before + 1) else fieldbus_overruns before) /\
  automation_overruns after = (if automation_deadline_us after <? u32 (time_of phase_io_apply c)
    then u32 (automation_overruns before + 1) else automation_overruns before).
Proof.
  intros Hm Hlen Hne. pose proof (round_measured run_phase ticks c Hm Hlen) as Hr.
  destruct (control_loop_round run_phase ticks c) as [o c']. intros Ho. specialize (Hr Ho).
  assert (forall i, (i < 5)%nat -> phase_max (Z.of_nat i) (vars c') = grow (phase_max (Z.of_nat i) (vars c)) (spent c i) /\
    default 0 (zget (overrun_counter c') (Z.of_nat i)) = if default 0 (zget phase_deadline (Z.of_nat i)) <? u32 (spent c i)
      then u32 (default 0 (zget (overrun_counter c) (Z.of_nat i)) + 1) else default 0 (zget (overrun_counter c) (Z.of_nat i))) as Hall.
  { intros i Hi. destruct (Hr i Hi) as [[Hmax|[_ ?]] Hget]; [|done]. split; [done|]. rewrite Hget. unfold missed_by.
    destruct (_ <? u32 _); cbn [Z.eqb]; [|done]. change (1 =? 1) with true. cbv iota.
    destruct (zget (overrun_counter c) (Z.of_nat i)) as [x|] eqn:E; [done|]. exfalso. rewrite zget_nat in E.
    apply lookup_ge_None in E. lia. }
  destruct (Hall 1%nat ltac:(lia)) as [M1 O1]. destruct (Hall 2%nat ltac:(lia)) as [M2 O2]. destruct (Hall 3%nat ltac:(lia)) as [M3 O3].
  by split_and!.
Qed.

(** The hardware timer restarts every millisecond, so a phase is measured
    modulo its period: no phase is ever recorded as longer than 999 us, and one
    that takes a whole number of milliseconds is not counted as late, be it
    15 ms. *)
Theorem long_phase_not_measured (at_ : nat -> Z) ticks c :
  (forall k, readings (loop_timer c) k = at_ k mod LOOP_PERIOD_US) ->
  phase_mask (load c) = 0 -> length (overrun_counter c) = 5%nat ->
  let '(o, c') := control_loop_round run_phase ticks c in exec_of o <> None -> forall i, (i < 5)%nat ->
  let n := taken (loop_timer c) in
  let duration := at_ (n + (2 * i + 1))%nat - at_ (n + 2 * i)%nat in
  phase_max (Z.of_nat i) (vars c') <= Z.max (phase_max (Z.of_nat i) (vars c)) 999 /\
  (duration mod LOOP_PERIOD_US = 0 -> zget (overrun_counter c') (Z.of_nat i) = zget (overrun_counter c) (Z.of_nat i)).
Proof.
  intros Hw Hm Hlen. pose proof (round_measured run_phase ticks c Hm Hlen) as Hr.
  destruct (control_loop_round run_phase ticks c) as [o c']. intros Ho i Hi. cbv zeta. destruct (Hr Ho i Hi) as [Hmax Hget].
  assert (forall j, count_at c j = at_ (taken (loop_timer c) + j)%nat mod 1000 /\ 0 <= count_at c j < 1000) as Hcount.
  { intros j. unfold count_at. rewrite Hw. unfold LOOP_PERIOD_US. pose proof (Z.mod_pos_bound (at_ (taken (loop_timer c) + j)%nat) 1000 ltac:(lia)).
    rewrite u64_id by lia. done. }
  destruct (Hcount (2 * i)%nat) as [C0 R0]. destruct (Hcount (2 * i + 1)%nat) as [C1 R1].
  assert (0 <= spent c i <= 999) as Hs
    by (unfold spent, safe_time_diff; destruct (Z.leb_spec (count_at c (2 * i)) (count_at c (2 * i + 1))); lia). split.
  - destruct Hmax as [->|[-> _]]; [|lia]. unfold grow. rewrite u32_id by lia. destruct (Z.ltb_spec (phase_max (Z.of_nat i) (vars c)) (spent c i)); lia.
  - intros Hd. unfold LOOP_PERIOD_US in Hd. rewrite Zminus_mod, <- C0, <- C1 in Hd.
    assert (spent c i = 0) as E.
    { unfold spent, safe_time_diff. destruct (Z.leb_spec (count_at c (2 * i)) (count_at c (2 * i + 1))); [|done].
      rewrite Z.mod_small in Hd by lia. done. }
    rewrite Hget, E. unfold missed_by. change (u32 0) with 0.
    assert ((default 0 (zget phase_deadline (Z.of_nat i)) <? 0) = false) as ->; [|done].
    do 5 (destruct i as [|i]; [done|]). lia.
Qed.
End theorems.

(** ** Examples: a system whose phases do nothing, only take time *)

Definition no_phase (p : phase) : st () () := mret tt.
Definition demo_control (v : loop_vars) (pending : Z) (esp raw : nat -> Z) : control () :=
  Control v pending (Clock esp 0) (Clock raw 0) (LoadTest (replicate 5 0) 0) (replicate 5 0) kernel_metrics_init
    (KernelPhaseMetrics 0 0 0 0) determinism_probe_init kernel_trace_init (watchdog_register WD_CONTROL_LOOP 100 wd_boot).2 tt.

(** Every round takes 1200 us. *)
Definition slow_clock (k : nat) : Z := 1000 + 2000 * Z.of_nat (k / 2) + (if Nat.odd k then 1200 else 0).
Lemma deadline_fault_when_sustained_witness :
  let os := (control_loop_run no_phase (replicate 300 []) [] (demo_control loop_vars_boot 1 slow_clock (fun _ => 0))).1 in
  length os = 201%nat /\ os !! 0%nat = Some (aborted 1200) /\ Forall (fun t => LOOP_PERIOD_US < t) (take 200 (times (drop 1 os))).
Proof.
  intros os. assert (length os = 201%nat) as Hlen by (vm_compute; reflexivity). assert (os !! 0%nat = Some (aborted 1200)) as H0 by (vm_compute; reflexivity).
  split; [exact Hlen|]. split; [exact H0|].
  apply (deadline_fault_when_sustained no_phase (replicate 300 []) (demo_control loop_vars_boot 1 slow_clock (fun _ => 0)) eq_refl 0%nat
    (aborted 1200) 1200 H0 eq_refl). reflexivity.
Defined.
(** Expected at 2000, woken at 5300: the next is at 6000. *)
Definition late_control : control () := demo_control (loop_vars_boot <| expected_cycle_time := 2000 |>) 3 (fun k => 5300 + 100 * Z.of_nat k) (fun _ => 0).
Lemma round_keeps_grid_witness :
  let '(o, c') := control_loop_round no_phase [] late_control in
  o = ran 100 /\ 5300 < expected_cycle_time (vars c') /\ (expected_cycle_time (vars c') - 2000) mod 1000 = 0 /\
  expected_cycle_time (vars c') <= 6300 /\ cwd c' = (watchdog_feed WD_CONTROL_LOOP (cwd late_control)).2.
Proof.
  pose proof (round_keeps_grid no_phase [] late_control) as Hg. cbv zeta in Hg.
  assert ((control_loop_round no_phase [] late_control).1 = ran 100) as Ho by (vm_compute; reflexivity).
  destruct (control_loop_round no_phase [] late_control) as [o c']. cbn [fst] in Ho. subst o. split; [reflexivity|].
  change (tick_time late_control) with 5300 in Hg. change (expected_cycle_time (vars late_control)) with 2000 in Hg.
  destruct Hg as (_ & H1 & H2 & H3 & H4); [lia|lia|]. split; [exact H1|]. split; [exact H2|]. split; [|exact H4]. apply H3. cbn. lia.
Defined.
(** Three ticks were missed; one cycle runs, and none is counted. *)
Lemma missed_ticks_not_counted_witness :
  overrun_count (vars (control_loop_round no_phase [0%nat; 0%nat] (late_control <| notified := 4 |>)).2) = 0.
Proof. apply (missed_ticks_not_counted no_phase [0%nat; 0%nat] late_control 4). repeat constructor. Defined.
(** The fieldbus takes 80 us, the automation 110 and the outputs 5. *)
Definition phases_at (k : nat) : Z := nth k [0; 10; 10; 90; 90; 200; 200; 205; 205; 210] 210.
Definition mixed_control : control () := demo_control loop_vars_boot 1 (fun k => 1000 + 300 * Z.of_nat k) phases_at.
Lemma phase_times_mislabelled_witness :
  let c' := (control_loop_round no_phase [] mixed_control).2 in
  phase_io_apply_max (vars c') = 80 /\ phase_fieldbus_max (vars c') = 110 /\ phase_automation_max (vars c') = 5 /\
  io_apply_overruns (phase_monitor_get (overrun_counter c')) = 1.
Proof.
  pose proof (phase_times_mislabelled no_phase [] mixed_control eq_refl eq_refl ltac:(discriminate)) as Hp.
  assert ((control_loop_round no_phase [] mixed_control).1 = ran 300) as Ho by (vm_compute; reflexivity).
  destruct (control_loop_round no_phase [] mixed_control) as [o c']. cbn [fst] in Ho. subst o.
  destruct Hp as (H1 & H2 & H3 & H4 & _); [discriminate|]. cbn [snd]. rewrite H1, H2, H3, H4. repeat split; vm_compute; reflexivity.
Defined.
(** The fieldbus blocks for 15 ms. *)
Definition blocked_at (k : nat) : Z := if (k <? 3)%nat then 500 else 15500.
Definition blocked_control : control () := demo_control loop_vars_boot 1 (fun k => 1000 + 15000 * Z.of_nat k) (fun k => blocked_at k mod 1000).
Lemma long_phase_not_measured_witness :
  let '(o, c') := control_loop_round no_phase [] blocked_control in
  o = ran 15000 /\ phase_io_apply_max (vars c') <= 999 /\ zget (overrun_counter c') 1 = Some 0.
Proof.
  pose proof (long_phase_not_measured no_phase blocked_at [] blocked_control ltac:(reflexivity) eq_refl eq_refl) as Hp.
  assert ((control_loop_round no_phase [] blocked_control).1 = ran 15000) as Ho by (vm_compute; reflexivity).
  destruct (control_loop_round no_phase [] blocked_control) as [o c']. cbn [fst] in Ho. subst o. split; [reflexivity|].
  destruct (Hp ltac:(discriminate) 1%nat ltac:(lia)) as [H1 H2]. split; [exact H1|exact (H2 eq_refl)].
Defined.
