(* ===== verification/NetworkPolicy.v ===== *)
(** * The network policy and the pins it reserves
    ([components/device_profile/device_profile.c], [device_profile_sensors.c],
     [device_profile_templates.c])

    Which transports a node uses, stored in flash in four successive layouts;
    the pins taken by the console, the sensors, RS485 and the W5500; the
    templates of the node profiles. *)

From Stdlib Require Import String Ascii.
From S2P Require Import Prelude Persist EventBus State DeviceProfile.
Local Open Scope string_scope.
Local Open Scope list_scope.
Local Open Scope Z_scope.

Definition as_u8 (b : bool) : Z := if b then 1 else 0.
Definition nonzero (x : Z) : bool := negb (x =? 0).

(** ** Sensors ([device_profile_sensors.c]) *)

Definition SENSOR_PROFILE_MAGIC : Z := 1581601537.     (* 0x5E455301 *)
Definition SENSOR_PROFILE_VERSION : Z := 1.
(** [device_sensor_profile_t] *)
Record sensor_profile := SensorProfile {
  dht11_enabled : bool; dht11_gpio : Z; ds18b20_enabled : bool; ds18b20_gpio : Z;
  aht10_enabled : bool; aht10_sda_gpio : Z; aht10_scl_gpio : Z;
}.
Definition default_sensors : sensor_profile := SensorProfile false (-1) false (-1) false 21 22.

(** [sensor_profile_blob_v1_t], packed: 13 bytes and the checksum. *)
Definition sizeof_sensor_blob : nat := 17.
Definition sensor_body (c : sensor_profile) : list Z :=
  pack [(4%nat, SENSOR_PROFILE_MAGIC); (2%nat, SENSOR_PROFILE_VERSION); (1%nat, as_u8 (dht11_enabled c)); (1%nat, u8 (dht11_gpio c));
        (1%nat, as_u8 (ds18b20_enabled c)); (1%nat, u8 (ds18b20_gpio c)); (1%nat, as_u8 (aht10_enabled c));
        (1%nat, u8 (aht10_sda_gpio c)); (1%nat, u8 (aht10_scl_gpio c))].
Definition sensor_blob (c : sensor_profile) : list Z := sensor_body c ++ le 4 (crc32 (sensor_body c)).

Section sensors.
Context {N : Type} `{Nvs N}.
(** [current_sensors] and the flash of its namespace. *)
Definition device_profile_sensors_init (w : sensor_profile * N) : sensor_profile * N :=
  match nvs_get_blob w.2 with
  | None => w
  | Some b =>
    if negb (Nat.eqb (length b) sizeof_sensor_blob) then w
    else if (field 0 4 b =? SENSOR_PROFILE_MAGIC) && (field 4 2 b =? SENSOR_PROFILE_VERSION)
            && (field 13 4 b =? crc32 (take 13 b))
    then (SensorProfile (nonzero (field 6 1 b)) (i8 (field 7 1 b)) (nonzero (field 8 1 b)) (i8 (field 9 1 b))
            (nonzero (field 10 1 b)) (i8 (field 11 1 b)) (i8 (field 12 1 b)), w.2)
    else w
  end.
(** The outcome of the commit is not looked at. *)
Definition device_profile_set_sensors (config : option sensor_profile) : st (sensor_profile * N) bool :=
  match config with
  | None => mret false
  | Some c => fun w =>
    let '(opened, n) := nvs_open_rw w.2 in
    if opened : bool then
      let '(written, n) := nvs_set_blob (sensor_blob c) n in
      if written : bool then (true, (c, (nvs_commit n).2)) else (false, (w.1, n))
    else (false, (w.1, n))
  end.
End sensors.

(** ** The network profile *)

Definition DEVICE_PROFILE_TRANSPORT_NONE : Z := 0.
Definition DEVICE_PROFILE_TRANSPORT_WIFI : Z := 1.
Definition DEVICE_PROFILE_TRANSPORT_ETHERNET : Z := 2.
Definition DEVICE_PROFILE_TRANSPORT_RS485 : Z := 3.
Definition DEVICE_PROFILE_TRANSPORT_ESPNOW : Z := 4.
Definition DEVICE_PROFILE_TRANSPORT_MESH : Z := 5.
Definition DEVICE_PROFILE_WIFI_MODE_INFRA : Z := 0.
Definition DEVICE_PROFILE_ETH_NONE : Z := 0.
Definition DEVICE_PROFILE_ETH_SPI_W5500 : Z := 2.
Definition DEVICE_PROFILE_NETWORK_CONFIG_OK : Z := 0.
Definition DEVICE_PROFILE_NETWORK_CONFIG_UNSUPPORTED : Z := 1.
Definition DEVICE_PROFILE_NETWORK_CONFIG_PERSIST_FAILED : Z := 2.
Definition DEVICE_PROFILE_NETWORK_MAGIC : Z := 1162757200.   (* 0x454E4450 *)
Definition DEVICE_PROFILE_NETWORK_VERSION : Z := 4.
Definition DEVICE_PROFILE_FAILOVER_DELAY_DEFAULT_MS : Z := 5000.
Definition DEVICE_PROFILE_RECOVERY_HYST_DEFAULT_MS : Z := 15000.
Definition NODE_PROFILE_GATEWAY : Z := 0.
Definition NODE_PROFILE_FIELD : Z := 1.
Definition NODE_PROFILE_RELAY : Z := 2.
Definition NODE_PROFILE_SENSOR : Z := 3.
Definition NODE_PROFILE_CUSTOM : Z := 4.
Definition NODE_PROFILE_MAX : Z := NODE_PROFILE_CUSTOM + 1.

(** [device_network_w5500_profile_t], its pins. *)
Record w5500_pins := W5500 { mosi_gpio : Z; miso_gpio : Z; sclk_gpio : Z; cs_gpio : Z; int_gpio : Z; reset_gpio : Z }.
Definition w5500_zero : w5500_pins := W5500 0 0 0 0 0 0.

(** [device_network_profile_t] *)
Record network_profile := NetworkProfile {
  wifi_supported : bool; ethernet_supported : bool; rs485_supported : bool;
  wifi_enabled : bool; ethernet_enabled : bool; rs485_enabled : bool;
  wifi_mode : Z; onboarding_pending : bool; primary_transport : Z; fallback_transport : Z;
  failover_delay_ms : Z; recovery_hysteresis_ms : Z; ethernet_mode : Z;
  allow_local_ap : bool; allow_dashboard : bool; allow_ota : bool; label : string; w5500 : w5500_pins;
}.
#[export] Instance network_profile_rebuild : Rebuild network_profile := fun n =>
  NetworkProfile (wifi_supported n) (ethernet_supported n) (rs485_supported n) (wifi_enabled n) (ethernet_enabled n) (rs485_enabled n)
    (wifi_mode n) (onboarding_pending n) (primary_transport n) (fallback_transport n) (failover_delay_ms n)
    (recovery_hysteresis_ms n) (ethernet_mode n) (allow_local_ap n) (allow_dashboard n) (allow_ota n) (label n) (w5500 n).
Definition network_profile_zero : network_profile :=
  NetworkProfile false false false false false false 0 false 0 0 0 0 0 false false false "" w5500_zero.

(** What [sdkconfig] chooses: the transports built in and the pins of the W5500. *)
Record build_config := BuildConfig {
  CONFIG_ENDAP_WIFI_ENABLED : bool; CONFIG_ENDAP_ETHERNET_ENABLED : bool; CONFIG_ENDAP_RS485_ENABLED : bool;
  eth_backend : Z; CONFIG_ENDAP_W5500_GPIO : w5500_pins;
}.
Definition gpio_from_config (value : Z) : Z := if value <? 0 then GPIO_NUM_NC else value.
Definition device_profile_detect_ethernet_mode (b : build_config) : Z := eth_backend b.

(** ** Decisions on a profile *)

Definition device_profile_transport_allowed_in_network (transport : Z) (n : network_profile) : bool :=
  if transport =? DEVICE_PROFILE_TRANSPORT_WIFI then wifi_supported n
  else if transport =? DEVICE_PROFILE_TRANSPORT_ETHERNET then ethernet_supported n
  else if transport =? DEVICE_PROFILE_TRANSPORT_RS485 then rs485_supported n && rs485_enabled n
  else true.
Definition device_profile_w5500_is_configured_from_profile (n : network_profile) : bool :=
  (ethernet_mode n =? DEVICE_PROFILE_ETH_SPI_W5500)
  && (negb (mosi_gpio (w5500 n) =? GPIO_NUM_NC) && negb (miso_gpio (w5500 n) =? GPIO_NUM_NC)
      && negb (sclk_gpio (w5500 n) =? GPIO_NUM_NC) && negb (cs_gpio (w5500 n) =? GPIO_NUM_NC)).

Definition device_profile_apply_legacy_transport_policy (wifi eth : bool) (n : network_profile) : network_profile :=
  let n := n <| onboarding_pending := false |> <| rs485_enabled := false |> in
  if wifi && eth then n <| primary_transport := DEVICE_PROFILE_TRANSPORT_ETHERNET |> <| fallback_transport := DEVICE_PROFILE_TRANSPORT_WIFI |>
  else if eth then n <| primary_transport := DEVICE_PROFILE_TRANSPORT_ETHERNET |> <| fallback_transport := DEVICE_PROFILE_TRANSPORT_NONE |>
  else if wifi then n <| primary_transport := DEVICE_PROFILE_TRANSPORT_WIFI |> <| fallback_transport := DEVICE_PROFILE_TRANSPORT_NONE |>
  else n <| primary_transport := DEVICE_PROFILE_TRANSPORT_NONE |> <| fallback_transport := DEVICE_PROFILE_TRANSPORT_NONE |>.

Definition device_profile_apply_manual_network_selection (wifi eth rs485 : bool) (mode : Z) (n : network_profile) : network_profile :=
  let wifi_allowed := wifi_supported n && wifi in
  let ethernet_allowed := ethernet_supported n && eth in
  let rs485_allowed := rs485_supported n && rs485 in
  let n := n <| onboarding_pending := false |> <| wifi_enabled := wifi_allowed |> <| ethernet_enabled := ethernet_allowed |>
             <| rs485_enabled := rs485_allowed |> <| wifi_mode := mode |> in
  let primary := if ethernet_allowed then DEVICE_PROFILE_TRANSPORT_ETHERNET
                 else if wifi_allowed then DEVICE_PROFILE_TRANSPORT_WIFI
                 else if rs485_allowed then DEVICE_PROFILE_TRANSPORT_RS485 else DEVICE_PROFILE_TRANSPORT_NONE in
  let fallback := if negb (primary =? DEVICE_PROFILE_TRANSPORT_ETHERNET) && ethernet_allowed then DEVICE_PROFILE_TRANSPORT_ETHERNET
                  else if negb (primary =? DEVICE_PROFILE_TRANSPORT_WIFI) && wifi_allowed then DEVICE_PROFILE_TRANSPORT_WIFI
                  else if negb (primary =? DEVICE_PROFILE_TRANSPORT_RS485) && rs485_allowed then DEVICE_PROFILE_TRANSPORT_RS485
                  else DEVICE_PROFILE_TRANSPORT_NONE in
  n <| primary_transport := primary |> <| fallback_transport := fallback |>.

(** The transport a profile without a usable choice starts with. *)
Definition first_supported (n : network_profile) : Z :=
  if wifi_supported n then DEVICE_PROFILE_TRANSPORT_WIFI
  else if ethernet_supported n then DEVICE_PROFILE_TRANSPORT_ETHERNET else DEVICE_PROFILE_TRANSPORT_NONE.

Definition normalize_delays (n : network_profile) : network_profile :=
  let n := if failover_delay_ms n =? 0 then n <| failover_delay_ms := DEVICE_PROFILE_FAILOVER_DELAY_DEFAULT_MS |> else n in
  if recovery_hysteresis_ms n =? 0 then n <| recovery_hysteresis_ms := DEVICE_PROFILE_RECOVERY_HYST_DEFAULT_MS |> else n.
Definition normalize_primary (n : network_profile) : network_profile :=
  if device_profile_transport_allowed_in_network (primary_transport n) n then n
  else n <| primary_transport := if ethernet_supported n then DEVICE_PROFILE_TRANSPORT_ETHERNET
                                 else if wifi_supported n then DEVICE_PROFILE_TRANSPORT_WIFI
                                 else if rs485_supported n && rs485_enabled n then DEVICE_PROFILE_TRANSPORT_RS485
                                 else DEVICE_PROFILE_TRANSPORT_NONE |>.
Definition normalize_fallback (n : network_profile) : network_profile :=
  if negb (device_profile_transport_allowed_in_network (fallback_transport n) n) || (fallback_transport n =? primary_transport n)
  then n <| fallback_transport := DEVICE_PROFILE_TRANSPORT_NONE |> else n.
Definition normalize_enabled (n : network_profile) : network_profile :=
  if primary_transport n =? DEVICE_PROFILE_TRANSPORT_ETHERNET then
    n <| ethernet_enabled := ethernet_supported n |> <| wifi_enabled := fallback_transport n =? DEVICE_PROFILE_TRANSPORT_WIFI |>
  else if primary_transport n =? DEVICE_PROFILE_TRANSPORT_WIFI then
    n <| wifi_enabled := wifi_supported n |> <| ethernet_enabled := fallback_transport n =? DEVICE_PROFILE_TRANSPORT_ETHERNET |>
  else n <| wifi_enabled := false |> <| ethernet_enabled := false |>.
Definition normalize_rs485 (n : network_profile) : network_profile :=
  if negb (rs485_supported n) then n <| rs485_enabled := false |>
  else if (primary_transport n =? DEVICE_PROFILE_TRANSPORT_RS485) || (fallback_transport n =? DEVICE_PROFILE_TRANSPORT_RS485)
  then n <| rs485_enabled := true |> else n.

Definition device_profile_normalize_transport_policy (n : network_profile) : network_profile :=
  let n := normalize_delays n in
  if onboarding_pending n then
    n <| primary_transport := first_supported n |> <| fallback_transport := DEVICE_PROFILE_TRANSPORT_NONE |>
      <| wifi_enabled := wifi_supported n |> <| ethernet_enabled := false |> <| rs485_enabled := false |>
  else normalize_rs485 (normalize_enabled (normalize_fallback (normalize_primary n))).

Definition device_profile_network_label_from_profile (n : network_profile) : string :=
  let p := primary_transport n in
  let f := fallback_transport n in
  if onboarding_pending n then "wifi-onboarding"
  else if (p =? DEVICE_PROFILE_TRANSPORT_ETHERNET) && (f =? DEVICE_PROFILE_TRANSPORT_WIFI) then "ethernet-primary / wifi-fallback"
  else if (p =? DEVICE_PROFILE_TRANSPORT_ETHERNET) && (f =? DEVICE_PROFILE_TRANSPORT_RS485) then "ethernet-primary / rs485-fallback"
  else if (p =? DEVICE_PROFILE_TRANSPORT_WIFI) && (f =? DEVICE_PROFILE_TRANSPORT_ETHERNET) then "wifi-primary / ethernet-fallback"
  else if (p =? DEVICE_PROFILE_TRANSPORT_WIFI) && (f =? DEVICE_PROFILE_TRANSPORT_RS485) then "wifi-primary / rs485-fallback"
  else if p =? DEVICE_PROFILE_TRANSPORT_ETHERNET then
    if device_profile_w5500_is_configured_from_profile n then "ethernet-primary" else "ethernet-setup"
  else if p =? DEVICE_PROFILE_TRANSPORT_WIFI then "wifi-primary"
  else if p =? DEVICE_PROFILE_TRANSPORT_ESPNOW then "espnow-primary"
  else if p =? DEVICE_PROFILE_TRANSPORT_MESH then "mesh-primary"
  else if p =? DEVICE_PROFILE_TRANSPORT_RS485 then "rs485-primary"
  else if rs485_enabled n then "rs485-runtime"
  else "network-disabled".

Definition relabel (n : network_profile) : network_profile := n <| label := device_profile_network_label_from_profile n |>.

(** ** The image in flash *)

Definition sizeof_blob_v4 : nat := 32.
Definition sizeof_blob_v3 : nat := 28.
Definition sizeof_blob_v2 : nat := 24.
Definition sizeof_blob_v1 : nat := 12.

(** [device_profile_network_blob_v4_t]: two bytes reserved and two of padding
    before the delays. *)
Definition blob_v4_members (n : network_profile) : list (nat * Z) :=
  [(4%nat, DEVICE_PROFILE_NETWORK_MAGIC); (2%nat, DEVICE_PROFILE_NETWORK_VERSION);
   (1%nat, as_u8 (wifi_enabled n)); (1%nat, as_u8 (ethernet_enabled n)); (1%nat, as_u8 (rs485_enabled n));
   (1%nat, as_u8 (onboarding_pending n)); (1%nat, u8 (primary_transport n)); (1%nat, u8 (fallback_transport n));
   (1%nat, u8 (wifi_mode n)); (1%nat, as_u8 (allow_local_ap n)); (1%nat, as_u8 (allow_dashboard n)); (1%nat, as_u8 (allow_ota n));
   (2%nat, 0); (2%nat, 0); (4%nat, failover_delay_ms n); (4%nat, recovery_hysteresis_ms n)].
Definition blob_v4 (n : network_profile) : list Z :=
  let body := pack (blob_v4_members n) in body ++ le 4 (crc32 body).

Definition wifi_mode_of (b : Z) : Z := if b <=? 2 then b else DEVICE_PROFILE_WIFI_MODE_INFRA.
(** Magic, version and checksum, which is the last field. *)
Definition blob_valid (size : nat) (version : Z) (b : list Z) : bool :=
  (field 0 4 b =? DEVICE_PROFILE_NETWORK_MAGIC) && (field 4 2 b =? version)
  && (field (size - 4) 4 b =? crc32 (take (size - 4) b)).

Definition load_v4 (b : list Z) (n : network_profile) : network_profile :=
  n <| wifi_enabled := if wifi_supported n then nonzero (field 6 1 b) else false |>
    <| ethernet_enabled := if ethernet_supported n then nonzero (field 7 1 b) else false |>
    <| rs485_enabled := if rs485_supported n then nonzero (field 8 1 b) else false |>
    <| wifi_mode := wifi_mode_of (field 12 1 b) |> <| onboarding_pending := nonzero (field 9 1 b) |>
    <| primary_transport := field 10 1 b |> <| fallback_transport := field 11 1 b |>
    <| failover_delay_ms := field 20 4 b |> <| recovery_hysteresis_ms := field 24 4 b |>
    <| allow_local_ap := nonzero (field 13 1 b) |> <| allow_dashboard := nonzero (field 14 1 b) |> <| allow_ota := nonzero (field 15 1 b) |>.
Definition load_v3 (b : list Z) (n : network_profile) : network_profile :=
  n <| wifi_enabled := if wifi_supported n then nonzero (field 6 1 b) else false |>
    <| ethernet_enabled := if ethernet_supported n then nonzero (field 7 1 b) else false |>
    <| rs485_enabled := if rs485_supported n then nonzero (field 8 1 b) else false |>
    <| wifi_mode := wifi_mode_of (field 12 1 b) |> <| onboarding_pending := nonzero (field 9 1 b) |>
    <| primary_transport := field 10 1 b |> <| fallback_transport := field 11 1 b |>
    <| failover_delay_ms := field 16 4 b |> <| recovery_hysteresis_ms := field 20 4 b |>
    <| allow_local_ap := true |> <| allow_dashboard := true |> <| allow_ota := true |>.
Definition load_v2 (b : list Z) (n : network_profile) : network_profile :=
  n <| wifi_enabled := if wifi_supported n then nonzero (field 6 1 b) else false |>
    <| ethernet_enabled := if ethernet_supported n then nonzero (field 7 1 b) else false |>
    <| rs485_enabled := false |> <| onboarding_pending := nonzero (field 8 1 b) |>
    <| primary_transport := field 9 1 b |> <| fallback_transport := field 10 1 b |>
    <| failover_delay_ms := field 12 4 b |> <| recovery_hysteresis_ms := field 16 4 b |>.
Definition load_v1 (b : list Z) (n : network_profile) : network_profile :=
  let n := n <| wifi_enabled := if wifi_supported n then nonzero (field 6 1 b) else false |>
             <| ethernet_enabled := if ethernet_supported n then nonzero (field 7 1 b) else false |>
             <| rs485_enabled := false |> in
  device_profile_apply_legacy_transport_policy (wifi_enabled n) (ethernet_enabled n) n.

Definition load_blob (b : list Z) (n : network_profile) : network_profile :=
  let len := length b in
  if Nat.eqb len sizeof_blob_v4 then
    if blob_valid sizeof_blob_v4 DEVICE_PROFILE_NETWORK_VERSION b then load_v4 b n else n
  else if Nat.eqb len sizeof_blob_v3 then
    if blob_valid sizeof_blob_v3 3 b then load_v3 b n else n
  else if Nat.eqb len sizeof_blob_v2 then
    if blob_valid sizeof_blob_v2 2 b then load_v2 b n else n
  else if Nat.eqb len sizeof_blob_v1 then
    if blob_valid sizeof_blob_v1 1 b && (field 6 1 b <=? 1) && (field 7 1 b <=? 1) then load_v1 b n else n
  else n.

(** The namespace "dev_profile": the blob "net_cfg_v2" and the byte
    "node_profile". *)
Class NvsProfile (N : Type) `{Nvs N} := {
  nvs_open_ro : N -> bool;
  nvs_get_u8 : N -> option Z;
  nvs_set_u8 : Z -> N -> N;        (* with its commit; the outcomes are not looked at *)
}.

Record net_policy {N : Type} := Policy {
  current_node_profile : Z; network : network_profile;
  network_profile_initialized : bool; network_profile_initializing : bool; policy_nvs : N;
}.
Arguments net_policy : clear implicits.
Arguments Policy {N}.
#[export] Instance policy_rebuild {N} : Rebuild (net_policy N) := fun p =>
  Policy (current_node_profile p) (network p) (network_profile_initialized p) (network_profile_initializing p) (policy_nvs p).

(** A blob is made of bytes, and is only there when its namespace opens. *)
Class NvsProfileLaws (N : Type) `{NvsProfile N} := {
  nvs_blob_bytes n bytes : nvs_get_blob n = Some bytes -> Forall (fun x => is_u8 x) bytes;
  nvs_blob_opens n bytes : nvs_get_blob n = Some bytes -> nvs_open_ro n = true;
}.

Section policy.
Context {N : Type} `{NvsProfile N} (b : build_config).
Implicit Types p : net_policy N.

(** Power on: what the initialisers of the statics say. *)
Definition policy_boot (n : N) : net_policy N := Policy NODE_PROFILE_FIELD network_profile_zero false false n.
Definition on_network (f : network_profile -> network_profile) p : net_policy N := p <| network := f (network p) |>.

Definition device_profile_load_network_config p : net_policy N :=
  if negb (nvs_open_ro (policy_nvs p)) then p
  else
    let p := match nvs_get_u8 (policy_nvs p) with
             | Some v => if v <? NODE_PROFILE_MAX then p <| current_node_profile := v |> else p
             | None => on_network (fun n => n <| onboarding_pending := true |>) (p <| current_node_profile := NODE_PROFILE_FIELD |>)
             end in
    match nvs_get_blob (policy_nvs p) with
    | Some blob => if Nat.leb (length blob) sizeof_blob_v4 then on_network (load_blob blob) p else p
    | None => p
    end.

(** The profile before the flash is read. *)
Definition build_network : network_profile :=
  let n := network_profile_zero <| wifi_supported := CONFIG_ENDAP_WIFI_ENABLED b |> <| ethernet_supported := CONFIG_ENDAP_ETHERNET_ENABLED b |>
             <| rs485_supported := CONFIG_ENDAP_RS485_ENABLED b |> in
  n <| wifi_enabled := wifi_supported n |> <| ethernet_enabled := false |> <| rs485_enabled := false |> <| onboarding_pending := true |>
    <| primary_transport := first_supported n |> <| fallback_transport := DEVICE_PROFILE_TRANSPORT_NONE |>
    <| failover_delay_ms := DEVICE_PROFILE_FAILOVER_DELAY_DEFAULT_MS |> <| recovery_hysteresis_ms := DEVICE_PROFILE_RECOVERY_HYST_DEFAULT_MS |>
    <| allow_local_ap := true |> <| allow_dashboard := true |> <| allow_ota := true |>
    <| ethernet_mode := device_profile_detect_ethernet_mode b |>
    <| w5500 := let c := CONFIG_ENDAP_W5500_GPIO b in
         W5500 (gpio_from_config (mosi_gpio c)) (gpio_from_config (miso_gpio c)) (gpio_from_config (sclk_gpio c))
           (gpio_from_config (cs_gpio c)) (gpio_from_config (int_gpio c)) (gpio_from_config (reset_gpio c)) |>.

Definition device_profile_init_network_profile p : net_policy N :=
  if network_profile_initialized p then p
  else if network_profile_initializing p then p
  else
    let p := p <| network_profile_initializing := true |> <| network := build_network |> in
    let p := device_profile_load_network_config p in
    let p := on_network device_profile_normalize_transport_policy p in
    let p := on_network relabel p in
    p <| network_profile_initialized := true |> <| network_profile_initializing := false |>.

Definition device_profile_network : st (net_policy N) network_profile := fun p =>
  let p := device_profile_init_network_profile p in (network p, p).

Definition device_profile_persist_network_config : st (net_policy N) Z := fun p =>
  let '(opened, n) := nvs_open_rw (policy_nvs p) in
  if negb opened then (DEVICE_PROFILE_NETWORK_CONFIG_PERSIST_FAILED, p <| policy_nvs := n |>)
  else
    let '(written, n) := nvs_set_blob (blob_v4 (network p)) n in
    if negb written then (DEVICE_PROFILE_NETWORK_CONFIG_PERSIST_FAILED, p <| policy_nvs := n |>)
    else
      let '(committed, n) := nvs_commit n in
      (if committed : bool then DEVICE_PROFILE_NETWORK_CONFIG_OK else DEVICE_PROFILE_NETWORK_CONFIG_PERSIST_FAILED,
       p <| policy_nvs := n |>).

Definition device_profile_set_network_enabled (wifi eth rs485 : bool) (mode : Z) : st (net_policy N) Z :=
  modify device_profile_init_network_profile;;
  n ← gets network;
  if wifi && negb (wifi_supported n) then mret DEVICE_PROFILE_NETWORK_CONFIG_UNSUPPORTED
  else if eth && negb (ethernet_supported n) then mret DEVICE_PROFILE_NETWORK_CONFIG_UNSUPPORTED
  else if rs485 && negb (rs485_supported n) then mret DEVICE_PROFILE_NETWORK_CONFIG_UNSUPPORTED
  else
    modify (on_network (device_profile_apply_manual_network_selection wifi eth rs485 mode));;
    modify (on_network device_profile_normalize_transport_policy);;
    modify (on_network relabel);;
    device_profile_persist_network_config.

Definition device_profile_set_transport_policy (onboarding : bool) (primary fallback delay hysteresis : Z) : st (net_policy N) Z :=
  modify device_profile_init_network_profile;;
  modify (on_network (fun n => n <| onboarding_pending := onboarding |> <| primary_transport := primary |> <| fallback_transport := fallback |>
                                 <| failover_delay_ms := delay |> <| recovery_hysteresis_ms := hysteresis |>));;
  modify (on_network device_profile_normalize_transport_policy);;
  modify (on_network relabel);;
  device_profile_persist_network_config.

(** ** What the rest of the firmware asks; [n] is what [device_profile_network]
    gives *)
Definition device_profile_w5500_is_configured (n : network_profile) : bool := device_profile_w5500_is_configured_from_profile n.
Definition device_profile_supports_wifi (n : network_profile) : bool := wifi_supported n && wifi_enabled n.
Definition device_profile_supports_ethernet (n : network_profile) : bool := ethernet_supported n && ethernet_enabled n.
Definition device_profile_transport_supported (transport : Z) (n : network_profile) : bool :=
  if transport =? DEVICE_PROFILE_TRANSPORT_WIFI then wifi_supported n
  else if transport =? DEVICE_PROFILE_TRANSPORT_ETHERNET then ethernet_supported n
  else if transport =? DEVICE_PROFILE_TRANSPORT_RS485 then rs485_supported n
  else true.
Definition device_profile_transport_enabled (transport : Z) (n : network_profile) : bool :=
  if negb (device_profile_transport_allowed_in_network transport n) then false
  else if transport =? DEVICE_PROFILE_TRANSPORT_WIFI then wifi_enabled n
  else if transport =? DEVICE_PROFILE_TRANSPORT_ETHERNET then ethernet_enabled n
  else if transport =? DEVICE_PROFILE_TRANSPORT_RS485 then rs485_enabled n
  else true.
Definition device_profile_supports_rs485 (n : network_profile) : bool := device_profile_transport_enabled DEVICE_PROFILE_TRANSPORT_RS485 n.
Definition device_profile_transport_visible (transport : Z) (n : network_profile) : bool :=
  if transport =? DEVICE_PROFILE_TRANSPORT_NONE then true else device_profile_transport_enabled transport n.
Definition device_profile_should_start_wifi_on_boot (n : network_profile) : bool :=
  if onboarding_pending n then device_profile_transport_supported DEVICE_PROFILE_TRANSPORT_WIFI n
  else device_profile_transport_enabled DEVICE_PROFILE_TRANSPORT_WIFI n && (primary_transport n =? DEVICE_PROFILE_TRANSPORT_WIFI).
Definition device_profile_should_start_ethernet_on_boot (n : network_profile) : bool :=
  if onboarding_pending n then false
  else device_profile_transport_enabled DEVICE_PROFILE_TRANSPORT_ETHERNET n && (primary_transport n =? DEVICE_PROFILE_TRANSPORT_ETHERNET).
Definition device_profile_should_start_rs485_on_boot (n : network_profile) : bool := rs485_supported n && rs485_enabled n.
End policy.

(** ** Pins *)

Definition input_gpio_options : list Z := [16; 17; 18; 19; 21; 22; 23; 25; 26; 27; 32; 33; 34; 35; 36; 39].
Definition output_gpio_options : list Z := [4; 5; 13; 14; 16; 17; 18; 19; 21; 22; 23; 25; 26; 27; 32; 33].
Definition device_profile_gpio_is_listed (options : list Z) (gpio : Z) : bool := existsb (fun o => o =? gpio) options.

Definition device_profile_gpio_reserved_for_platform (gpio : Z) (c : sensor_profile) (n : network_profile) : bool :=
  (gpio =? 1) || (gpio =? 3)
  || (dht11_enabled c && (gpio =? dht11_gpio c)) || (ds18b20_enabled c && (gpio =? ds18b20_gpio c))
  || (rs485_supported n && rs485_enabled n && ((gpio =? 25) || (gpio =? 26) || (gpio =? 27))).
Definition w5500_uses (gpio : Z) (w : w5500_pins) : bool :=
  (gpio =? mosi_gpio w) || (gpio =? miso_gpio w) || (gpio =? sclk_gpio w) || (gpio =? cs_gpio w)
  || (gpio =? int_gpio w) || (gpio =? reset_gpio w).
Definition device_profile_gpio_reserved_for_network (gpio : Z) (n : network_profile) : bool :=
  ethernet_supported n && ethernet_enabled n && device_profile_w5500_is_configured_from_profile n && w5500_uses gpio (w5500 n).

Definition device_profile_input_gpio_allowed (gpio : Z) (c : sensor_profile) (n : network_profile) : bool :=
  device_profile_gpio_is_listed input_gpio_options gpio
  && negb (device_profile_gpio_reserved_for_platform gpio c n) && negb (device_profile_gpio_reserved_for_network gpio n).
Definition device_profile_output_gpio_allowed (gpio : Z) (c : sensor_profile) (n : network_profile) : bool :=
  device_profile_gpio_is_listed output_gpio_options gpio
  && negb (device_profile_gpio_reserved_for_platform gpio c n) && negb (device_profile_gpio_reserved_for_network gpio n).

(** Who reserves a pin, for the inventory a user is shown. *)
Definition device_profile_gpio_reserved_by (gpio : Z) (c : sensor_profile) (n : network_profile) : option string :=
  if (gpio =? 1) || (gpio =? 3) then Some "UART/Console"
  else if (gpio =? 0) || (gpio =? 12) || (gpio =? 15) then Some "Strapping/Boot"
  else if (6 <=? gpio) && (gpio <=? 11) then Some "Flash SPI"
  else if aht10_enabled c && ((gpio =? aht10_sda_gpio c) || (gpio =? aht10_scl_gpio c)) then Some "I2C/AHT10"
  else if dht11_enabled c && (gpio =? dht11_gpio c) then Some "DHT11"
  else if ds18b20_enabled c && (gpio =? ds18b20_gpio c) then Some "DS18B20"
  else if rs485_supported n && rs485_enabled n && ((gpio =? 14) || (gpio =? 25) || (gpio =? 26) || (gpio =? 27)) then Some "RS-485"
  else if ethernet_supported n && ethernet_enabled n && device_profile_w5500_is_configured_from_profile n && w5500_uses gpio (w5500 n)
  then Some "W5500"
  else None.

Definition hardware_monitored_gpios : list Z := [4; 5; 13; 14; 16; 17; 18; 19; 21; 22; 23; 25; 26; 27; 32; 33; 34; 35; 36; 39].
(** [device_gpio_resource_state_t], and [device_gpio_inventory_item_t] without
    the texts. *)
Definition DEVICE_GPIO_STATE_AVAILABLE : Z := 0.
Definition DEVICE_GPIO_STATE_IN_USE_INPUT : Z := 1.
Definition DEVICE_GPIO_STATE_IN_USE_OUTPUT : Z := 2.
Definition DEVICE_GPIO_STATE_RESERVED : Z := 3.
Record gpio_item := GpioItem {
  gi_gpio : Z; input_capable : bool; output_capable : bool; analog_capable : bool; gi_state : Z;
  reserved_by : option string; bound_id : Z; plc_channel : string;
}.
#[export] Instance gpio_item_rebuild : Rebuild gpio_item := fun i =>
  GpioItem (gi_gpio i) (input_capable i) (output_capable i) (analog_capable i) (gi_state i) (reserved_by i) (bound_id i) (plc_channel i).
Definition inventory_item (c : sensor_profile) (n : network_profile) (g : Z) : gpio_item :=
  let res := device_profile_gpio_reserved_by g c n in
  GpioItem g
    ((g =? 34) || (g =? 35) || (g =? 36) || (g =? 39) || device_profile_gpio_is_listed input_gpio_options g)
    (negb (device_profile_gpio_is_input_only g) && device_profile_gpio_is_listed output_gpio_options g)
    ((g =? 32) || (g =? 33) || (g =? 34) || (g =? 35) || (g =? 36) || (g =? 39))
    (match res with Some _ => DEVICE_GPIO_STATE_RESERVED | None => DEVICE_GPIO_STATE_AVAILABLE end) res 0 "".
Definition device_profile_export_gpio_inventory (max_items : Z) (c : sensor_profile) (n : network_profile) : list gpio_item :=
  if max_items <=? 0 then [] else inventory_item c n <$> take (Z.to_nat max_items) hardware_monitored_gpios.

(** ** The templates of the node profiles ([device_profile_templates.c]) *)

(** [plc_channel_desc_t] *)
Record plc_channel_desc := PlcChannel {
  plc_code : string; plc_class : Z; plc_index : Z; plc_gpio : Z; default_name : string; available : bool; plc_role : string;
}.
Definition gateway_plc_channels : list plc_channel_desc :=
  [PlcChannel "DI00" DEVICE_CHANNEL_CLASS_DIGITAL_INPUT 0 18 "Botão de Emergência Geral" true "emergency_stop";
   PlcChannel "DI01" DEVICE_CHANNEL_CLASS_DIGITAL_INPUT 1 19 "Botão de Reset/Start" true "start_reset";
   PlcChannel "DO00" DEVICE_CHANNEL_CLASS_DIGITAL_OUTPUT 0 4 "Sinalizador de Alarme Geral" true "alarm";
   PlcChannel "DO01" DEVICE_CHANNEL_CLASS_DIGITAL_OUTPUT 1 5 "Sinalizador de Sistema em Execução" true "running";
   PlcChannel "AI00" DEVICE_CHANNEL_CLASS_ANALOG_INPUT 0 34 "Sensor de Tensão de Linha" true "voltage_sensor";
   PlcChannel "AO00" DEVICE_CHANNEL_CLASS_ANALOG_OUTPUT 0 GPIO_NUM_NC "Saída Analógica (Não Disponível)" false "disabled"].
Definition field_plc_channels : list plc_channel_desc :=
  [PlcChannel "DI00" DEVICE_CHANNEL_CLASS_DIGITAL_INPUT 0 16 "Sensor da Porta" true "door_sensor";
   PlcChannel "DI01" DEVICE_CHANNEL_CLASS_DIGITAL_INPUT 1 17 "Válvula de Entrada" true "valve";
   PlcChannel "DI02" DEVICE_CHANNEL_CLASS_DIGITAL_INPUT 2 21 "Chave de Habilitação Geral" true "enable_switch";
   PlcChannel "DI03" DEVICE_CHANNEL_CLASS_DIGITAL_INPUT 3 22 "Reset de Failsafe Local" true "reset_switch";
   PlcChannel "DI04" DEVICE_CHANNEL_CLASS_DIGITAL_INPUT 4 27 "Boia de Nível Mínimo" true "level_switch";
   PlcChannel "DI05" DEVICE_CHANNEL_CLASS_DIGITAL_INPUT 5 26 "Entrada Digital 05" true "input";
   PlcChannel "DI06" DEVICE_CHANNEL_CLASS_DIGITAL_INPUT 6 GPIO_NUM_NC "Modo Auto/Manual" false "auto_manual_switch";
   PlcChannel "DI07" DEVICE_CHANNEL_CLASS_DIGITAL_INPUT 7 GPIO_NUM_NC "Pressostato de Alta" false "high_pressure_switch";
   PlcChannel "DI08" DEVICE_CHANNEL_CLASS_DIGITAL_INPUT 8 GPIO_NUM_NC "Pressostato de Baixa" false "low_pressure_switch";
   PlcChannel "DI09" DEVICE_CHANNEL_CLASS_DIGITAL_INPUT 9 GPIO_NUM_NC "Fluxo de Retorno" false "flow_switch";
   PlcChannel "DO00" DEVICE_CHANNEL_CLASS_DIGITAL_OUTPUT 0 22 "Bomba Principal" true "pump";
   PlcChannel "DO01" DEVICE_CHANNEL_CLASS_DIGITAL_OUTPUT 1 4 "Válvula de Dreno" true "drain_valve";
   PlcChannel "DO02" DEVICE_CHANNEL_CLASS_DIGITAL_OUTPUT 2 5 "Válvula de Alimentação" true "feed_valve";
   PlcChannel "DO03" DEVICE_CHANNEL_CLASS_DIGITAL_OUTPUT 3 14 "Sinalizador de Operação" true "running";
   PlcChannel "DO04" DEVICE_CHANNEL_CLASS_DIGITAL_OUTPUT 4 25 "Alarme Sonoro Local" true "alarm";
   PlcChannel "DO05" DEVICE_CHANNEL_CLASS_DIGITAL_OUTPUT 5 33 "Saída Digital 05" true "output";
   PlcChannel "DO06" DEVICE_CHANNEL_CLASS_DIGITAL_OUTPUT 6 GPIO_NUM_NC "Válvula de Recirculação" false "recirc_valve";
   PlcChannel "DO07" DEVICE_CHANNEL_CLASS_DIGITAL_OUTPUT 7 GPIO_NUM_NC "Aquecedor" false "heater";
   PlcChannel "DO08" DEVICE_CHANNEL_CLASS_DIGITAL_OUTPUT 8 GPIO_NUM_NC "Válvula de Purga" false "purge_valve";
   PlcChannel "DO09" DEVICE_CHANNEL_CLASS_DIGITAL_OUTPUT 9 GPIO_NUM_NC "Sinalizador Remoto de Interlock" false "remote_signal";
   PlcChannel "AI00" DEVICE_CHANNEL_CLASS_ANALOG_INPUT 0 34 "Transdutor de Pressão" true "pressure_sensor";
   PlcChannel "AI01" DEVICE_CHANNEL_CLASS_ANALOG_INPUT 1 35 "Sensor de Nível Analógico" true "level_sensor";
   PlcChannel "AI02" DEVICE_CHANNEL_CLASS_ANALOG_INPUT 2 36 "Sensor de Temperatura" true "temperature_sensor";
   PlcChannel "AI03" DEVICE_CHANNEL_CLASS_ANALOG_INPUT 3 39 "Sensor de Vazão" true "flow_sensor";
   PlcChannel "AO00" DEVICE_CHANNEL_CLASS_ANALOG_OUTPUT 0 GPIO_NUM_NC "Referência VFD" false "vfd_ref"].
Definition relay_plc_channels : list plc_channel_desc :=
  [PlcChannel "DI00" DEVICE_CHANNEL_CLASS_DIGITAL_INPUT 0 18 "Entrada Digital 1" true "input";
   PlcChannel "DI01" DEVICE_CHANNEL_CLASS_DIGITAL_INPUT 1 19 "Entrada Digital 2" true "input";
   PlcChannel "DO00" DEVICE_CHANNEL_CLASS_DIGITAL_OUTPUT 0 22 "Relé 1" true "relay";
   PlcChannel "DO01" DEVICE_CHANNEL_CLASS_DIGITAL_OUTPUT 1 4 "Relé 2" true "relay";
   PlcChannel "AI00" DEVICE_CHANNEL_CLASS_ANALOG_INPUT 0 GPIO_NUM_NC "Entrada Analógica (Desabilitada)" false "disabled";
   PlcChannel "AO00" DEVICE_CHANNEL_CLASS_ANALOG_OUTPUT 0 GPIO_NUM_NC "Saída Analógica (Desabilitada)" false "disabled"].
Definition sensor_plc_channels : list plc_channel_desc :=
  [PlcChannel "DI00" DEVICE_CHANNEL_CLASS_DIGITAL_INPUT 0 16 "Sensor Digital 1" true "sensor";
   PlcChannel "DI01" DEVICE_CHANNEL_CLASS_DIGITAL_INPUT 1 17 "Sensor Digital 2" true "sensor";
   PlcChannel "DO00" DEVICE_CHANNEL_CLASS_DIGITAL_OUTPUT 0 22 "Status LED / Atuador" true "status";
   PlcChannel "DO01" DEVICE_CHANNEL_CLASS_DIGITAL_OUTPUT 1 4 "Alarme Local" true "alarm";
   PlcChannel "AI00" DEVICE_CHANNEL_CLASS_ANALOG_INPUT 0 34 "Sensor Analógico 1" true "analog_sensor";
   PlcChannel "AO00" DEVICE_CHANNEL_CLASS_ANALOG_OUTPUT 0 GPIO_NUM_NC "Saída Analógica (Desabilitada)" false "disabled"].

Definition gateway_net_profile (b : build_config) : network_profile :=
  let rs485 := CONFIG_ENDAP_RS485_ENABLED b in
  network_profile_zero <| wifi_supported := true |> <| ethernet_supported := true |> <| rs485_supported := rs485 |> <| wifi_enabled := true |>
    <| ethernet_enabled := false |> <| rs485_enabled := rs485 |> <| wifi_mode := DEVICE_PROFILE_WIFI_MODE_INFRA |> <| onboarding_pending := false |>
    <| primary_transport := DEVICE_PROFILE_TRANSPORT_WIFI |>
    <| fallback_transport := if rs485 then DEVICE_PROFILE_TRANSPORT_RS485 else DEVICE_PROFILE_TRANSPORT_NONE |>
    <| failover_delay_ms := 5000 |> <| recovery_hysteresis_ms := 15000 |> <| ethernet_mode := DEVICE_PROFILE_ETH_NONE |>
    <| allow_local_ap := true |> <| allow_dashboard := true |> <| allow_ota := true |> <| label := "gateway-network" |>.
Definition field_net_profile (b : build_config) : network_profile :=
  let rs485 := CONFIG_ENDAP_RS485_ENABLED b in
  network_profile_zero <| wifi_supported := true |> <| ethernet_supported := true |> <| rs485_supported := rs485 |> <| wifi_enabled := true |>
    <| ethernet_enabled := false |> <| rs485_enabled := rs485 |> <| wifi_mode := DEVICE_PROFILE_WIFI_MODE_INFRA |> <| onboarding_pending := true |>
    <| primary_transport := if rs485 then DEVICE_PROFILE_TRANSPORT_RS485 else DEVICE_PROFILE_TRANSPORT_WIFI |>
    <| fallback_transport := if rs485 then DEVICE_PROFILE_TRANSPORT_WIFI else DEVICE_PROFILE_TRANSPORT_NONE |>
    <| failover_delay_ms := 5000 |> <| recovery_hysteresis_ms := 15000 |> <| ethernet_mode := DEVICE_PROFILE_ETH_NONE |>
    <| allow_local_ap := false |> <| allow_dashboard := true |> <| allow_ota := true |> <| label := "field-network" |>.
Definition relay_net_profile (b : build_config) : network_profile :=
  let rs485 := CONFIG_ENDAP_RS485_ENABLED b in
  network_profile_zero <| wifi_supported := true |> <| ethernet_supported := false |> <| rs485_supported := rs485 |> <| wifi_enabled := true |>
    <| ethernet_enabled := false |> <| rs485_enabled := rs485 |> <| wifi_mode := DEVICE_PROFILE_WIFI_MODE_INFRA |> <| onboarding_pending := true |>
    <| primary_transport := if rs485 then DEVICE_PROFILE_TRANSPORT_RS485 else DEVICE_PROFILE_TRANSPORT_WIFI |>
    <| fallback_transport := DEVICE_PROFILE_TRANSPORT_NONE |>
    <| failover_delay_ms := 5000 |> <| recovery_hysteresis_ms := 15000 |> <| ethernet_mode := DEVICE_PROFILE_ETH_NONE |>
    <| allow_local_ap := false |> <| allow_dashboard := false |> <| allow_ota := true |> <| label := "relay-network" |>.
Definition sensor_net_profile (b : build_config) : network_profile :=
  let rs485 := CONFIG_ENDAP_RS485_ENABLED b in
  network_profile_zero <| wifi_supported := true |> <| ethernet_supported := false |> <| rs485_supported := rs485 |> <| wifi_enabled := true |>
    <| ethernet_enabled := false |> <| rs485_enabled := rs485 |> <| wifi_mode := DEVICE_PROFILE_WIFI_MODE_INFRA |> <| onboarding_pending := true |>
    <| primary_transport := DEVICE_PROFILE_TRANSPORT_WIFI |>
    <| fallback_transport := if rs485 then DEVICE_PROFILE_TRANSPORT_RS485 else DEVICE_PROFILE_TRANSPORT_NONE |>
    <| failover_delay_ms := 5000 |> <| recovery_hysteresis_ms := 15000 |> <| ethernet_mode := DEVICE_PROFILE_ETH_NONE |>
    <| allow_local_ap := false |> <| allow_dashboard := false |> <| allow_ota := true |> <| label := "sensor-network" |>.

(** [node_profile_desc_t]: what the templates say of the network and the channels. *)
Record node_profile_desc := NodeProfile { np_type : Z; np_label : string; np_network : network_profile; plc_channels : list plc_channel_desc }.
Definition node_profile_templates (b : build_config) : list node_profile_desc :=
  [NodeProfile NODE_PROFILE_GATEWAY "Gateway" (gateway_net_profile b) gateway_plc_channels;
   NodeProfile NODE_PROFILE_FIELD "Field Node" (field_net_profile b) field_plc_channels;
   NodeProfile NODE_PROFILE_RELAY "Relay Node" (relay_net_profile b) relay_plc_channels;
   NodeProfile NODE_PROFILE_SENSOR "Sensor Node" (sensor_net_profile b) sensor_plc_channels;
   NodeProfile NODE_PROFILE_CUSTOM "Custom Node" (field_net_profile b) field_plc_channels].

Definition device_profile_is_valid (type : Z) : bool := (0 <=? type) && (type <? NODE_PROFILE_MAX).
Definition device_profile_get_template (b : build_config) (type : Z) : option node_profile_desc :=
  if negb (device_profile_is_valid type) then None else zget (node_profile_templates b) type.
Definition device_profile_plc_channel_count (b : build_config) (type : Z) : Z :=
  match device_profile_get_template b type with Some t => Z.of_nat (length (plc_channels t)) | None => 0 end.
Definition device_profile_plc_channel_at (b : build_config) (type index : Z) : option plc_channel_desc :=
  t ← device_profile_get_template b type;
  if (index <? 0) || (Z.of_nat (length (plc_channels t)) <=? index) then None else zget (plc_channels t) index.
Definition device_profile_get_plc_channel (b : build_config) (type : Z) (code : option string) : option plc_channel_desc :=
  code ← code; t ← device_profile_get_template b type;
  i ← find_idx (fun c => (plc_code c =? code)%string) (plc_channels t); plc_channels t !! i.

Definition ESP_OK : Z := 0.
Definition ESP_ERR_INVALID_ARG : Z := 258.
Definition ESP_ERR_NOT_FOUND : Z := 261.

Section templates.
Context {N : Type} `{NvsProfile N} (b : build_config).

Definition device_profile_get_current (p : net_policy N) : option node_profile_desc :=
  match device_profile_get_template b (current_node_profile p) with
  | Some t => Some t
  | None => device_profile_get_template b NODE_PROFILE_FIELD
  end.
Definition device_profile_set_current (type : Z) : st (net_policy N) Z :=
  if negb (device_profile_is_valid type) then mret ESP_ERR_INVALID_ARG
  else
    modify (fun p => p <| current_node_profile := type |>);;
    modify (fun p => let '(opened, n) := nvs_open_rw (policy_nvs p) in
                     p <| policy_nvs := if opened : bool then nvs_set_u8 (u8 type) n else n |>);;
    mret ESP_OK.
Definition device_profile_apply_template (type : Z) : st (net_policy N) Z :=
  if negb (device_profile_is_valid type) then mret ESP_ERR_INVALID_ARG
  else
    match device_profile_get_template b type with
    | None => mret ESP_ERR_NOT_FOUND
    | Some t =>
      let net := np_network t in
      modify (device_profile_init_network_profile b);;
      device_profile_set_network_enabled b (wifi_enabled net) (ethernet_enabled net) (rs485_enabled net) (wifi_mode net);;
      device_profile_set_transport_policy b (onboarding_pending net) (primary_transport net) (fallback_transport net)
        (failover_delay_ms net) (recovery_hysteresis_ms net);;
      device_profile_set_current type
    end.
End templates.

(** ** A consistent policy *)

(** The transports that are enabled are those the policy uses.  With RS485 as
    primary no other is, not even the fallback. *)
Definition uses_wifi (n : network_profile) : bool :=
  (primary_transport n =? DEVICE_PROFILE_TRANSPORT_WIFI)
  || (primary_transport n =? DEVICE_PROFILE_TRANSPORT_ETHERNET) && (fallback_transport n =? DEVICE_PROFILE_TRANSPORT_WIFI).
Definition uses_ethernet (n : network_profile) : bool :=
  (primary_transport n =? DEVICE_PROFILE_TRANSPORT_ETHERNET)
  || (primary_transport n =? DEVICE_PROFILE_TRANSPORT_WIFI) && (fallback_transport n =? DEVICE_PROFILE_TRANSPORT_ETHERNET).

Record policy_ok (n : network_profile) : Prop := {
  ok_delay : failover_delay_ms n <> 0;
  ok_hysteresis : recovery_hysteresis_ms n <> 0;
  ok_wifi : wifi_enabled n = true -> wifi_supported n = true;
  ok_ethernet : ethernet_enabled n = true -> ethernet_supported n = true;
  ok_rs485 : rs485_enabled n = true -> rs485_supported n = true;
  ok_distinct : fallback_transport n = primary_transport n -> fallback_transport n = DEVICE_PROFILE_TRANSPORT_NONE;
  ok_pending : onboarding_pending n = true ->
    primary_transport n = first_supported n /\ fallback_transport n = DEVICE_PROFILE_TRANSPORT_NONE
    /\ wifi_enabled n = wifi_supported n /\ ethernet_enabled n = false /\ rs485_enabled n = false;
  ok_chosen : onboarding_pending n = false ->
    device_profile_transport_allowed_in_network (primary_transport n) n = true
    /\ device_profile_transport_allowed_in_network (fallback_transport n) n = true
    /\ wifi_enabled n = uses_wifi n /\ ethernet_enabled n = uses_ethernet n;
}.

Lemma normalize_delays_spec n : exists d h, d <> 0 /\ h <> 0 /\
  normalize_delays n = n <| failover_delay_ms := d |> <| recovery_hysteresis_ms := h |>.
Proof.
  exists (if failover_delay_ms n =? 0 then DEVICE_PROFILE_FAILOVER_DELAY_DEFAULT_MS else failover_delay_ms n),
    (if recovery_hysteresis_ms n =? 0 then DEVICE_PROFILE_RECOVERY_HYST_DEFAULT_MS else recovery_hysteresis_ms n).
  destruct n. unfold normalize_delays. cbn. by repeat match goal with |- context [?a =? 0] => destruct (Z.eqb_spec a 0); cbn end.
Qed.

Abbreviation allowed t n := (device_profile_transport_allowed_in_network t n).
Lemma normalize_primary_spec n : exists p, allowed p n = true /\ normalize_primary n = n <| primary_transport := p |>.
Proof.
  unfold normalize_primary. destruct (allowed (primary_transport n) n) eqn:E; [exists (primary_transport n); split; [done|by destruct n]|].
  eexists. split; [|done]. destruct (ethernet_supported n) eqn:He; [done|]. destruct (wifi_supported n) eqn:Hw; [done|].
  by destruct (rs485_supported n && rs485_enabled n) eqn:Hr.
Qed.
Lemma normalize_fallback_spec n : exists f, allowed f n = true /\ (f = primary_transport n -> f = DEVICE_PROFILE_TRANSPORT_NONE) /\
  normalize_fallback n = n <| fallback_transport := f |>.
Proof.
  unfold normalize_fallback. destruct (allowed (fallback_transport n) n) eqn:E; cbn [negb orb]; [|by exists DEVICE_PROFILE_TRANSPORT_NONE].
  destruct (Z.eqb_spec (fallback_transport n) (primary_transport n)); [by exists DEVICE_PROFILE_TRANSPORT_NONE|].
  exists (fallback_transport n). split; [done|]. split; [done|by destruct n].
Qed.
Lemma normalize_enabled_spec n : allowed (primary_transport n) n = true ->
  normalize_enabled n = n <| wifi_enabled := uses_wifi n |> <| ethernet_enabled := uses_ethernet n |>.
Proof.
  unfold normalize_enabled, uses_wifi, uses_ethernet, device_profile_transport_allowed_in_network.
  destruct (Z.eqb_spec (primary_transport n) DEVICE_PROFILE_TRANSPORT_WIFI) as [->|].
  - change (DEVICE_PROFILE_TRANSPORT_WIFI =? DEVICE_PROFILE_TRANSPORT_ETHERNET) with false. by intros ->.
  - destruct (Z.eqb_spec (primary_transport n) DEVICE_PROFILE_TRANSPORT_ETHERNET) as [_|]; [by intros ->|done].
Qed.
Lemma normalize_rs485_spec n : allowed (primary_transport n) n = true -> allowed (fallback_transport n) n = true ->
  normalize_rs485 n = n <| rs485_enabled := rs485_supported n && rs485_enabled n |>.
Proof.
  intros Hp Hf. unfold normalize_rs485. destruct (rs485_supported n) eqn:Hs; cbn [negb andb]; [|done].
  destruct (Z.eqb_spec (primary_transport n) DEVICE_PROFILE_TRANSPORT_RS485) as [He|]; cbn [orb].
  { rewrite He in Hp. apply andb_prop in Hp as [_ ->]. done. }
  destruct (Z.eqb_spec (fallback_transport n) DEVICE_PROFILE_TRANSPORT_RS485) as [He|]; [|by destruct n].
  rewrite He in Hf. apply andb_prop in Hf as [_ ->]. done.
Qed.

Lemma uses_wifi_supported n : allowed (primary_transport n) n = true -> allowed (fallback_transport n) n = true ->
  uses_wifi n = true -> wifi_supported n = true.
Proof.
  intros Hp Hf Hu. apply orb_prop in Hu as [Hu|[_ Hu]%andb_prop]; apply Z.eqb_eq in Hu; rewrite Hu in *; done.
Qed.
Lemma uses_ethernet_supported n : allowed (primary_transport n) n = true -> allowed (fallback_transport n) n = true ->
  uses_ethernet n = true -> ethernet_supported n = true.
Proof.
  intros Hp Hf Hu. apply orb_prop in Hu as [Hu|[_ Hu]%andb_prop]; apply Z.eqb_eq in Hu; rewrite Hu in *; done.
Qed.

(** Without onboarding, the normalized profile in one assignment. *)
Lemma normalize_chosen n : onboarding_pending n = false -> exists d h p f m,
  d <> 0 /\ h <> 0 /\ allowed p n = true /\ allowed f n = true /\ (f = p -> f = DEVICE_PROFILE_TRANSPORT_NONE) /\
  m = n <| failover_delay_ms := d |> <| recovery_hysteresis_ms := h |> <| primary_transport := p |> <| fallback_transport := f |> /\
  device_profile_normalize_transport_policy n =
    m <| wifi_enabled := uses_wifi m |> <| ethernet_enabled := uses_ethernet m |> <| rs485_enabled := rs485_supported n && rs485_enabled n |>.
Proof.
  intros Ho. unfold device_profile_normalize_transport_policy. destruct (normalize_delays_spec n) as (d & h & Hd & Hh & ->). cbv zeta.
  set (n1 := n <| failover_delay_ms := d |> <| recovery_hysteresis_ms := h |>). change (onboarding_pending n1) with (onboarding_pending n). rewrite Ho.
  destruct (normalize_primary_spec n1) as (p & Hp & ->). set (n2 := n1 <| primary_transport := p |>).
  destruct (normalize_fallback_spec n2) as (f & Hf & Hd2 & ->). set (n3 := n2 <| fallback_transport := f |>).
  exists d, h, p, f, n3. refine (conj Hd (conj Hh (conj Hp (conj Hf (conj Hd2 (conj eq_refl _)))))).
  rewrite normalize_enabled_spec by exact Hp. by rewrite normalize_rs485_spec.
Qed.

Lemma normalize_ok n : policy_ok (device_profile_normalize_transport_policy n).
Proof.
  destruct (onboarding_pending n) eqn:Ho.
  - unfold device_profile_normalize_transport_policy. destruct (normalize_delays_spec n) as (d & h & Hd & Hh & ->). cbv zeta.
    cbn [onboarding_pending update]. rewrite Ho. split; cbn; rewrite ?Ho; done.
  - destruct (normalize_chosen n Ho) as (d & h & p & f & m & Hd & Hh & Hp & Hf & Hdf & Hm & ->).
    assert (allowed (primary_transport m) m = true) as Hpm by (by rewrite Hm).
    assert (allowed (fallback_transport m) m = true) as Hfm by (by rewrite Hm).
    assert (forall t, allowed t m = true -> allowed t (m <| rs485_enabled := rs485_supported n && rs485_enabled n |>) = true) as Hr.
    { intros t. unfold device_profile_transport_allowed_in_network. rewrite Hm. cbn. by destruct (rs485_supported n). }
    split; cbn; try (by rewrite Hm).
    + by apply uses_wifi_supported.
    + by apply uses_ethernet_supported.
    + rewrite Hm. by intros []%andb_prop.
    + rewrite Hm. cbn. by rewrite Ho.
    + intros _. split_and!; [by apply Hr|by apply Hr|done|done].
Qed.

(** A consistent policy is left alone. *)
Lemma normalize_idle n : policy_ok n -> device_profile_normalize_transport_policy n = n.
Proof.
  intros []. unfold device_profile_normalize_transport_policy.
  assert (normalize_delays n = n) as ->.
  { unfold normalize_delays. destruct (Z.eqb_spec (failover_delay_ms n) 0); [done|]. by destruct (Z.eqb_spec (recovery_hysteresis_ms n) 0). }
  cbv zeta. destruct (onboarding_pending n) eqn:Ho.
  - destruct (ok_pending0 eq_refl) as (H1 & H2 & H3 & H4 & H5). unfold first_supported in *. destruct n. cbn in *. by subst.
  - destruct (ok_chosen0 eq_refl) as (Hp & Hf & Hw & He).
    assert (normalize_primary n = n) as -> by (unfold normalize_primary; by rewrite Hp).
    assert (normalize_fallback n = n) as ->.
    { unfold normalize_fallback. rewrite Hf. cbn [negb orb]. destruct (Z.eqb_spec (fallback_transport n) (primary_transport n)) as [Hfp|]; [|done].
      rewrite <- (ok_distinct0 Hfp). by destruct n. }
    rewrite normalize_enabled_spec, <- Hw, <- He by done. assert (n <| wifi_enabled := wifi_enabled n |> <| ethernet_enabled := ethernet_enabled n |> = n) as -> by (by destruct n).
    rewrite normalize_rs485_spec by done.
    destruct (rs485_enabled n) eqn:Hr; [rewrite (ok_rs486 eq_refl)|rewrite andb_false_r]; unfold uses_wifi, uses_ethernet in *; destruct n; cbn in *; by subst.
Qed.

(** ** Every profile the firmware ever uses *)

Ltac typed_fields :=
  intros (?&?&?&?&?); split_and!; cbn; try lia; repeat case_match;
  unfold DEVICE_PROFILE_TRANSPORT_NONE, DEVICE_PROFILE_TRANSPORT_WIFI, DEVICE_PROFILE_TRANSPORT_ETHERNET, DEVICE_PROFILE_TRANSPORT_RS485,
    DEVICE_PROFILE_FAILOVER_DELAY_DEFAULT_MS, DEVICE_PROFILE_RECOVERY_HYST_DEFAULT_MS in *; lia.

Ltac typed_members := refine (conj _ (conj _ (conj _ (conj _ _)))); cbn; first [solve [auto] | by split].

Section reachable.
Context {N : Type} `{NvsProfile N} (b : build_config).
Implicit Types (p : net_policy N) (n : network_profile).

(** What only the build decides. *)
Definition built n : Prop :=
  wifi_supported n = CONFIG_ENDAP_WIFI_ENABLED b /\ ethernet_supported n = CONFIG_ENDAP_ETHERNET_ENABLED b /\
  rs485_supported n = CONFIG_ENDAP_RS485_ENABLED b /\ ethernet_mode n = ethernet_mode (build_network b) /\ w5500 n = w5500 (build_network b).
(** The values have the types the image in flash has room for. *)
Definition typed n : Prop :=
  0 <= wifi_mode n <= 2 /\ is_u8 (primary_transport n) /\ is_u8 (fallback_transport n) /\ is_u32 (failover_delay_ms n) /\ is_u32 (recovery_hysteresis_ms n).

Lemma normalize_built n : built n -> built (device_profile_normalize_transport_policy n).
Proof.
  intros Hb. destruct (onboarding_pending n) eqn:Ho.
  - unfold device_profile_normalize_transport_policy. destruct (normalize_delays_spec n) as (d & h & _ & _ & ->). cbv zeta.
    cbn [onboarding_pending update]. by rewrite Ho.
  - destruct (normalize_chosen n Ho) as (d & h & p & f & m & _ & _ & _ & _ & _ & -> & ->). exact Hb.
Qed.
Lemma normalize_delays_typed n : typed n -> typed (normalize_delays n).
Proof. unfold normalize_delays. case_match; case_match; typed_fields. Qed.
Lemma normalize_primary_typed n : typed n -> typed (normalize_primary n).
Proof. unfold normalize_primary. case_match; [done|]. typed_fields. Qed.
Lemma normalize_fallback_typed n : typed n -> typed (normalize_fallback n).
Proof. unfold normalize_fallback. case_match; [|done]. typed_fields. Qed.
Lemma normalize_enabled_typed n : typed n -> typed (normalize_enabled n).
Proof. unfold normalize_enabled. by repeat case_match. Qed.
Lemma normalize_rs485_typed n : typed n -> typed (normalize_rs485 n).
Proof. unfold normalize_rs485. by repeat case_match. Qed.
Lemma normalize_typed n : typed n -> typed (device_profile_normalize_transport_policy n).
Proof.
  intros Ht%normalize_delays_typed. unfold device_profile_normalize_transport_policy. cbv zeta.
  destruct (onboarding_pending (normalize_delays n)).
  - revert Ht. unfold first_supported. typed_fields.
  - by apply normalize_rs485_typed, normalize_enabled_typed, normalize_fallback_typed, normalize_primary_typed.
Qed.

(** ** Calls *)

Inductive call := ReadProfile | SetNetwork (wifi eth rs485 : bool) (mode : Z) | SetPolicy (onboarding : bool) (primary fallback delay hysteresis : Z)
  | ApplyTemplate (type : Z) | SetCurrent (type : Z).
Definition run_call (c : call) : st (net_policy N) Z :=
  match c with
  | ReadProfile => device_profile_network b;; mret 0
  | SetNetwork wifi eth rs485 mode => device_profile_set_network_enabled b wifi eth rs485 mode
  | SetPolicy onboarding primary fallback delay hysteresis => device_profile_set_transport_policy b onboarding primary fallback delay hysteresis
  | ApplyTemplate type => device_profile_apply_template b type
  | SetCurrent type => device_profile_set_current type
  end.
Fixpoint run_calls (cs : list call) p : net_policy N := match cs with [] => p | c :: cs => run_calls cs (run_call c p).2 end.

Definition choose (onboarding : bool) (primary fallback delay hysteresis : Z) n : network_profile :=
  n <| onboarding_pending := onboarding |> <| primary_transport := primary |> <| fallback_transport := fallback |>
    <| failover_delay_ms := delay |> <| recovery_hysteresis_ms := hysteresis |>.
Definition resettle n : network_profile := relabel (device_profile_normalize_transport_policy n).

Lemma persist_frame p : exists r (m : N), device_profile_persist_network_config p = (r, p <| policy_nvs := m |>).
Proof.
  unfold device_profile_persist_network_config. destruct (nvs_open_rw (policy_nvs p)) as [[] m]; cbn [negb]; [|by exists DEVICE_PROFILE_NETWORK_CONFIG_PERSIST_FAILED, m].
  destruct (nvs_set_blob (blob_v4 (network p)) m) as [[] n2]; cbn [negb]; [|by exists DEVICE_PROFILE_NETWORK_CONFIG_PERSIST_FAILED, n2].
  destruct (nvs_commit n2) as [c n3]. by eexists _, n3.
Qed.

(** An invariant [K] of the profile, to be instantiated below. *)
Section invariant.
Variable K : network_profile -> Prop.
Hypothesis K_settle : forall n, K n -> K (resettle n).
Hypothesis K_init : forall p, K (network (device_profile_load_network_config (p <| network_profile_initializing := true |> <| network := build_network b |>))).

Definition settled n : Prop := policy_ok n /\ K n /\ label n = device_profile_network_label_from_profile n.
Definition policy_inv p : Prop :=
  network_profile_initializing p = false /\ (network_profile_initialized p = true -> settled (network p)).
Definition ready p : Prop := policy_inv p /\ network_profile_initialized p = true.

Lemma settle_settled n : K n -> settled (resettle n).
Proof.
  intros Hk%K_settle. split; [|by split]. unfold resettle. destruct (normalize_ok n). by split.
Qed.
Lemma init_ready p : policy_inv p -> ready (device_profile_init_network_profile b p).
Proof.
  intros [Hi Hj]. unfold device_profile_init_network_profile. destruct (network_profile_initialized p) eqn:E.
  { refine (conj (conj Hi _) E). intros _. by apply Hj. }
  rewrite Hi. cbv zeta. split; [|done]. split; [done|]. intros _. cbn [network on_network update]. apply settle_settled, K_init.
Qed.
(** The end of both setters. *)
Lemma store_ready (f : network_profile -> network_profile) p : (forall n, K n -> K (f n)) -> ready p ->
  ready (device_profile_persist_network_config (on_network relabel (on_network device_profile_normalize_transport_policy (on_network f p)))).2.
Proof.
  intros Hf [[Hi Hj] Hr]. destruct (persist_frame (on_network relabel (on_network device_profile_normalize_transport_policy (on_network f p)))) as (r & n & ->).
  split; [|done]. split; [done|]. intros _. cbn [network on_network update snd]. apply settle_settled, Hf. by apply Hj.
Qed.
Lemma set_network_ready wifi eth rs485 mode p :
  (forall n, K n -> K (device_profile_apply_manual_network_selection wifi eth rs485 mode n)) -> policy_inv p ->
  ready (device_profile_set_network_enabled b wifi eth rs485 mode p).2.
Proof.
  intros Hf Hp%init_ready. unfold device_profile_set_network_enabled. rewrite run_bind_modify, run_bind_gets.
  repeat (case_match; [done|]). rewrite !run_bind_modify. by apply store_ready.
Qed.
Lemma set_policy_ready onboarding primary fallback delay hysteresis p :
  (forall n, K n -> K (choose onboarding primary fallback delay hysteresis n)) -> policy_inv p ->
  ready (device_profile_set_transport_policy b onboarding primary fallback delay hysteresis p).2.
Proof.
  intros Hf Hp%init_ready. unfold device_profile_set_transport_policy. rewrite !run_bind_modify.
  by apply (store_ready (choose onboarding primary fallback delay hysteresis)).
Qed.
Lemma set_current_inv type : keeps policy_inv (device_profile_set_current (N := N) type).
Proof.
  unfold device_profile_set_current. case_match; [apply keeps_ret|]. intros p Hp. rewrite !run_bind_modify. unfold mret, st_ret. cbn [snd].
  destruct (nvs_open_rw _) as [o n]. exact Hp.
Qed.
(** The two setters a call runs leave [K] alone. *)
Definition call_keeps (c : call) : Prop :=
  match c with
  | SetNetwork wifi eth rs485 mode => forall n, K n -> K (device_profile_apply_manual_network_selection wifi eth rs485 mode n)
  | SetPolicy onboarding primary fallback delay hysteresis => forall n, K n -> K (choose onboarding primary fallback delay hysteresis n)
  | ApplyTemplate type => forall t, device_profile_get_template b type = Some t ->
    let net := np_network t in
    (forall n, K n -> K (device_profile_apply_manual_network_selection (wifi_enabled net) (ethernet_enabled net) (rs485_enabled net) (wifi_mode net) n)) /\
    (forall n, K n -> K (choose (onboarding_pending net) (primary_transport net) (fallback_transport net) (failover_delay_ms net) (recovery_hysteresis_ms net) n))
  | _ => True
  end.
Lemma run_call_inv c p : call_keeps c -> policy_inv p -> policy_inv (run_call c p).2.
Proof.
  destruct c as [|wifi eth rs485 mode|onboarding primary fallback delay hysteresis|type|type]; cbn [call_keeps run_call]; intros Hc Hp.
  - by apply init_ready.
  - by apply set_network_ready.
  - by apply set_policy_ready.
  - unfold device_profile_apply_template. case_match; [done|]. destruct (device_profile_get_template b type) as [t|]; [|done].
    destruct (Hc t eq_refl) as [Hc1 Hc2]. cbv zeta. rewrite run_bind_modify, run_bind_surj, run_bind_surj.
    apply set_current_inv, set_policy_ready; [done|]. apply set_network_ready; [done|]. by apply init_ready.
  - by apply set_current_inv.
Qed.
Lemma run_calls_inv cs p : Forall call_keeps cs -> policy_inv p -> policy_inv (run_calls cs p).
Proof.
  intros Hcs. revert p. induction Hcs as [|c cs Hc _ IH]; intros p Hp; [done|]. cbn [run_calls]. by apply IH, run_call_inv.
Qed.
Lemma boot_inv (flash : N) : policy_inv (policy_boot flash).
Proof. by split. Qed.
End invariant.

Lemma settle_built n : built n -> built (resettle n).
Proof. intros Hb%normalize_built. exact Hb. Qed.
Lemma load_blob_built bytes n : built n -> built (load_blob bytes n).
Proof.
  intros Hb. unfold load_blob. repeat (case_match; try exact Hb).
  unfold load_v1, device_profile_apply_legacy_transport_policy. by repeat case_match.
Qed.
Lemma load_config_built p : built (network p) -> built (network (device_profile_load_network_config p)).
Proof.
  intros Hb. unfold device_profile_load_network_config. destruct (negb (nvs_open_ro (policy_nvs p))); [done|].
  set (q := match nvs_get_u8 (policy_nvs p) with Some _ => _ | None => _ end).
  assert (built (network q)) as Hq by (unfold q; destruct (nvs_get_u8 (policy_nvs p)); [case_match; exact Hb|exact Hb]).
  destruct (nvs_get_blob (policy_nvs q)) as [bytes|]; [|exact Hq]. case_match; [|exact Hq]. exact (load_blob_built bytes _ Hq).
Qed.
Lemma built_call c : call_keeps built c.
Proof. by destruct c; cbn. Qed.

(** C17: Whatever the flash holds at boot and whatever calls follow, with any
    arguments, the network profile in use is consistent: delays are not 0, only
    supported transports are enabled, the fallback is not the primary, while
    onboarding only Wi-Fi (or nothing) runs, and otherwise both transports of the
    policy are supported and Wi-Fi and Ethernet run exactly when it uses them. *)
Theorem policy_always_consistent (cs : list call) (flash : N) :
  policy_ok (device_profile_network b (run_calls cs (policy_boot flash))).1.
Proof.
  pose proof (fun p => load_config_built (p <| network_profile_initializing := true |> <| network := build_network b |>) ltac:(done)) as Hinit.
  assert (policy_inv built (run_calls cs (policy_boot flash))) as Hp.
  { apply run_calls_inv; [exact settle_built|exact Hinit|apply Forall_forall; intros c _; apply built_call|apply boot_inv]. }
  destruct (init_ready built settle_built Hinit _ Hp) as [[_ Hj] Hr]. by apply Hj.
Qed.
End reachable.

(** ** The image and its round trip *)

Lemma length_blob_v4 n : length (blob_v4 n) = 32%nat.
Proof. unfold blob_v4. by rewrite length_app, length_pack, length_le. Qed.
Lemma blob_v4_bytes n : Forall (fun x => is_u8 x) (blob_v4 n).
Proof. apply Forall_app. split; [apply pack_bytes|apply le_bytes]. Qed.
Lemma crc_at_end body : field (length body) 4 (body ++ le 4 (crc32 body)) = crc32 body.
Proof. rewrite <- (app_nil_r (le 4 (crc32 body))). apply field_app_le, crc32_range. Qed.
Lemma blob_v4_valid n : blob_valid sizeof_blob_v4 DEVICE_PROFILE_NETWORK_VERSION (blob_v4 n) = true.
Proof.
  unfold blob_valid. pose proof (length_pack (blob_v4_members n)) as Hl. change (sum_list _) with 28%nat in Hl.
  change (sizeof_blob_v4 - 4)%nat with 28%nat.
  assert (field 0 4 (blob_v4 n) = DEVICE_PROFILE_NETWORK_MAGIC) as -> by (by apply (field_pack 0 (blob_v4_members n))).
  assert (field 4 2 (blob_v4 n) = DEVICE_PROFILE_NETWORK_VERSION) as -> by (by apply (field_pack 1 (blob_v4_members n))).
  unfold blob_v4. cbv zeta. revert Hl. generalize (pack (blob_v4_members n)). intros body Hl.
  rewrite (take_app_length' body) by done. rewrite <- Hl at 1. rewrite crc_at_end. by rewrite !Z.eqb_refl.
Qed.
Lemma nonzero_as_u8 c : nonzero (as_u8 c) = c.
Proof. by destruct c. Qed.
Lemma as_u8_range c : 0 <= as_u8 c < 256 ^ Z.of_nat 1.
Proof. by destruct c. Qed.
(** The members of the image, read back. *)
Lemma member_v4 k size x n : blob_v4_members n !! k = Some (size, x) -> 0 <= x < 256 ^ Z.of_nat size ->
  field (offset_of k (blob_v4_members n)) size (blob_v4 n) = x.
Proof. apply field_pack. Qed.
Lemma load_blob_v4 b n m : typed n -> built b n -> built b m -> policy_ok n ->
  load_blob (blob_v4 n) m = n <| label := label m |>.
Proof.
  intros Ht Hn Hm Hok. unfold load_blob. rewrite length_blob_v4. cbn [Nat.eqb sizeof_blob_v4]. rewrite blob_v4_valid.
  destruct Ht as (Hwm & Hpt & Hft & Hfd & Hrh). unfold load_v4.
  assert (field 6 1 (blob_v4 n) = as_u8 (wifi_enabled n)) as -> by exact (member_v4 2 1 _ n eq_refl (as_u8_range _)).
  assert (field 7 1 (blob_v4 n) = as_u8 (ethernet_enabled n)) as -> by exact (member_v4 3 1 _ n eq_refl (as_u8_range _)).
  assert (field 8 1 (blob_v4 n) = as_u8 (rs485_enabled n)) as -> by exact (member_v4 4 1 _ n eq_refl (as_u8_range _)).
  assert (field 9 1 (blob_v4 n) = as_u8 (onboarding_pending n)) as -> by exact (member_v4 5 1 _ n eq_refl (as_u8_range _)).
  assert (field 10 1 (blob_v4 n) = u8 (primary_transport n)) as -> by exact (member_v4 6 1 _ n eq_refl (u8_range _)).
  assert (field 11 1 (blob_v4 n) = u8 (fallback_transport n)) as -> by exact (member_v4 7 1 _ n eq_refl (u8_range _)).
  assert (field 12 1 (blob_v4 n) = u8 (wifi_mode n)) as -> by exact (member_v4 8 1 _ n eq_refl (u8_range _)).
  assert (field 13 1 (blob_v4 n) = as_u8 (allow_local_ap n)) as -> by exact (member_v4 9 1 _ n eq_refl (as_u8_range _)).
  assert (field 14 1 (blob_v4 n) = as_u8 (allow_dashboard n)) as -> by exact (member_v4 10 1 _ n eq_refl (as_u8_range _)).
  assert (field 15 1 (blob_v4 n) = as_u8 (allow_ota n)) as -> by exact (member_v4 11 1 _ n eq_refl (as_u8_range _)).
  assert (field 20 4 (blob_v4 n) = failover_delay_ms n) as -> by exact (member_v4 14 4 _ n eq_refl Hfd).
  assert (field 24 4 (blob_v4 n) = recovery_hysteresis_ms n) as -> by exact (member_v4 15 4 _ n eq_refl Hrh).
  rewrite !nonzero_as_u8, !u8_id by lia. unfold wifi_mode_of. destruct (Z.leb_spec (wifi_mode n) 2); [|lia].
  destruct Hn as (N1 & N2 & N3 & N4 & N5), Hm as (M1 & M2 & M3 & M4 & M5).
  pose proof (ok_wifi n Hok) as K1. pose proof (ok_ethernet n Hok) as K2. pose proof (ok_rs485 n Hok) as K3.
  clear - N1 N2 N3 N4 N5 M1 M2 M3 M4 M5 K1 K2 K3. destruct n, m. cbn in *. subst.
  assert (forall sup en : bool, (en = true -> sup = true) -> (if sup then en else false) = en) as Hif
    by (intros [] [] Hk; [done|done|by discriminate Hk|done]).
  by rewrite !Hif.
Qed.

(** ** Reboot *)

Section reboot.
Context {N : Type} `{NvsProfile N, !NvsProfileLaws N, !NvsLaws N} (b : build_config).

Definition known n : Prop := built b n /\ typed n.
(** The arguments have the values of their types. *)
Definition call_typed (c : call) : Prop :=
  match c with
  | SetNetwork _ _ _ mode => 0 <= mode <= 2
  | SetPolicy _ primary fallback delay hysteresis => is_u8 primary /\ is_u8 fallback /\ is_u32 delay /\ is_u32 hysteresis
  | _ => True
  end.
Lemma manual_known wifi eth rs485 mode n : 0 <= mode <= 2 -> known n -> known (device_profile_apply_manual_network_selection wifi eth rs485 mode n).
Proof.
  intros Hm [Hb Ht]. split; [exact Hb|]. revert Ht. unfold device_profile_apply_manual_network_selection. cbv zeta.
  generalize (ethernet_supported n && eth) (wifi_supported n && wifi) (rs485_supported n && rs485). intros [] [] []; typed_fields.
Qed.
Lemma choose_known onboarding primary fallback delay hysteresis n :
  is_u8 primary -> is_u8 fallback -> is_u32 delay -> is_u32 hysteresis -> known n -> known (choose onboarding primary fallback delay hysteresis n).
Proof. intros ???? [Hb (Hm & _)]. split; [exact Hb|]. by split_and!; cbn; try lia. Qed.
Lemma typed_call_keeps c : call_typed c -> call_keeps b known c.
Proof.
  destruct c as [| | |type|]; cbn [call_typed call_keeps]; try done.
  - intros Hm n. by apply manual_known.
  - intros (?&?&?&?) n. by apply choose_known.
  - intros _ t Ht. cbv zeta. unfold device_profile_get_template in Ht. destruct (device_profile_is_valid type); [|done]. cbn [negb] in Ht.
    assert (0 <= wifi_mode (np_network t) <= 2 /\ is_u8 (primary_transport (np_network t)) /\ is_u8 (fallback_transport (np_network t)) /\
      is_u32 (failover_delay_ms (np_network t)) /\ is_u32 (recovery_hysteresis_ms (np_network t))) as (?&?&?&?&?).
    { assert (t ∈ node_profile_templates b) as Hin by (unfold zget in Ht; case_match; [by eapply list_elem_of_lookup_2|done]).
      unfold node_profile_templates in Hin. clear - Hin.
      repeat (apply elem_of_cons in Hin as [->|Hin]; [cbn; destruct (CONFIG_ENDAP_RS485_ENABLED b); by split_and!|]). by apply not_elem_of_nil in Hin. }
    split; intros n; [by apply manual_known|by apply choose_known].
Qed.

Lemma load_blob_typed bytes n : Forall (fun x => is_u8 x) bytes -> typed n -> typed (load_blob bytes n).
Proof.
  intros Hb (Hm & Hp & Hf & Hd & Hh).
  assert (forall off, is_u8 (field off 1 bytes)) as F1 by (intros; apply (field_range off 1 bytes Hb)).
  assert (forall off, is_u32 (field off 4 bytes)) as F4 by (intros; apply (field_range off 4 bytes Hb)).
  assert (0 <= wifi_mode_of (field 12 1 bytes) <= 2) as Hw.
  { unfold wifi_mode_of, DEVICE_PROFILE_WIFI_MODE_INFRA. specialize (F1 12%nat). destruct (Z.leb_spec (field 12 1 bytes) 2); lia. }
  unfold load_blob. repeat (case_match; [case_match; [|done]|]); [..|done].
  1-3: typed_members.
  unfold load_v1, device_profile_apply_legacy_transport_policy. repeat case_match; typed_members.
Qed.
Lemma load_config_typed (p : net_policy N) : typed (network p) -> typed (network (device_profile_load_network_config p)).
Proof.
  intros Hb. unfold device_profile_load_network_config. destruct (negb (nvs_open_ro (policy_nvs p))); [done|].
  set (q := match nvs_get_u8 (policy_nvs p) with Some _ => _ | None => _ end).
  assert (typed (network q)) as Hq by (unfold q; destruct (nvs_get_u8 (policy_nvs p)); [case_match; exact Hb|exact Hb]).
  destruct (nvs_get_blob (policy_nvs q)) as [bytes|] eqn:Hg; [|exact Hq]. case_match; [|exact Hq].
  apply (load_blob_typed bytes); [by eapply nvs_blob_bytes|exact Hq].
Qed.
Lemma build_typed : typed (build_network b).
Proof.
  unfold build_network, first_supported. cbv zeta. cbn. destruct (CONFIG_ENDAP_WIFI_ENABLED b), (CONFIG_ENDAP_ETHERNET_ENABLED b); typed_members.
Qed.
Lemma init_known (p : net_policy N) :
  known (network (device_profile_load_network_config (p <| network_profile_initializing := true |> <| network := build_network b |>))).
Proof. split; [by apply load_config_built|]. exact (load_config_typed (p <| network_profile_initializing := true |> <| network := build_network b |>) build_typed). Qed.
Lemma settle_known n : known n -> known (resettle n).
Proof. intros [Hb Ht]. split; [by apply settle_built|]. exact (normalize_typed n Ht). Qed.

Lemma persist_ok (p p' : net_policy N) : device_profile_persist_network_config p = (DEVICE_PROFILE_NETWORK_CONFIG_OK, p') ->
  nvs_get_blob (policy_nvs p') = Some (blob_v4 (network p')).
Proof.
  unfold device_profile_persist_network_config. destruct (nvs_open_rw (policy_nvs p)) as [[] m]; [|done]. cbn [negb].
  destruct (nvs_set_blob (blob_v4 (network p)) m) as [[] m2] eqn:Hs; [|done]. cbn [negb].
  destruct (nvs_commit m2) as [[] m3] eqn:Hc; [|done]. intros [= <-]. cbn.
  pose proof (nvs_commit_durable _ _ _ Hs) as Hd. rewrite Hc in Hd. by apply Hd.
Qed.
(** What a restart reads is what was stored. *)
Lemma load_config_blob (p : net_policy N) n : known n -> policy_ok n -> built b (network p) -> nvs_get_blob (policy_nvs p) = Some (blob_v4 n) ->
  exists l, network (device_profile_load_network_config p) = n <| label := l |>.
Proof.
  intros [Hb Ht] Hok Hp Hg. unfold device_profile_load_network_config. rewrite (nvs_blob_opens _ _ Hg). cbn [negb].
  set (q := match nvs_get_u8 (policy_nvs p) with Some _ => _ | None => _ end).
  assert (built b (network q) /\ policy_nvs q = policy_nvs p) as [Hq ->]
    by (unfold q; destruct (nvs_get_u8 (policy_nvs p)); [case_match; by split|by split]).
  cbv zeta. rewrite Hg, length_blob_v4. cbn [Nat.leb sizeof_blob_v4]. unfold on_network. cbn [network update].
  rewrite (load_blob_v4 b) by done. by eexists.
Qed.
Lemma build_built : built b (build_network b).
Proof. by repeat refine (conj eq_refl _). Qed.
Lemma restart_reads (p : net_policy N) : settled known (network p) -> nvs_get_blob (policy_nvs p) = Some (blob_v4 (network p)) ->
  (device_profile_network b (policy_boot (policy_nvs p))).1 = network p.
Proof.
  intros (Hok & Hk & Hlab) Hg. set (q0 := Policy NODE_PROFILE_FIELD (build_network b) false true (policy_nvs p)).
  change (relabel (device_profile_normalize_transport_policy (network (device_profile_load_network_config q0))) = network p).
  destruct (load_config_blob q0 (network p) Hk Hok build_built Hg) as [l ->].
  assert (policy_ok (network p <| label := l |>)) as Hok' by (revert Hok; clear; intros []; by split).
  rewrite normalize_idle by done. unfold relabel. revert Hlab. clear. destruct (network p). cbn. by intros ->.
Qed.

(** A network setting that was accepted and stored is the one in use after a
    restart, field by field, whatever the flash held before and whatever calls
    preceded; so normalizing once more what is read changes nothing. *)
Theorem network_policy_survives_reboot (cs : list call) (c : call) (flash : N) (p' : net_policy N) :
  Forall call_typed (c :: cs) -> (match c with SetNetwork _ _ _ _ | SetPolicy _ _ _ _ _ => True | _ => False end) ->
  run_call b c (run_calls b cs (policy_boot flash)) = (DEVICE_PROFILE_NETWORK_CONFIG_OK, p') ->
  (device_profile_network b (policy_boot (policy_nvs p'))).1 = network p'.
Proof.
  intros [Hc Hcs]%Forall_cons Hset Hrun. set (p := run_calls b cs (policy_boot flash)) in *.
  assert (policy_inv known p) as Hp.
  { apply run_calls_inv; [exact settle_known|exact init_known| |apply boot_inv]. eapply Forall_impl; [exact Hcs|]. intros ?. apply typed_call_keeps. }
  pose proof (run_call_inv b known settle_known init_known c p (typed_call_keeps c Hc) Hp) as Hp'. rewrite Hrun in Hp'.
  assert (network_profile_initialized p' = true /\ nvs_get_blob (policy_nvs p') = Some (blob_v4 (network p'))) as [Hi Hg].
  { destruct c as [|wifi eth rs485 mode|onboarding primary fallback delay hysteresis| |]; [done| | |done|done]; cbn [run_call] in Hrun.
    - pose proof (set_network_ready b known settle_known init_known _ _ _ _ p (fun n => manual_known wifi eth rs485 mode n Hc) Hp) as [_ Hr].
      rewrite Hrun in Hr. refine (conj Hr _). unfold device_profile_set_network_enabled in Hrun. rewrite run_bind_modify, run_bind_gets in Hrun.
      repeat (case_match; [done|]). rewrite !run_bind_modify in Hrun. exact (persist_ok _ _ Hrun).
    - destruct Hc as (C1 & C2 & C3 & C4).
      pose proof (set_policy_ready b known settle_known init_known onboarding primary fallback delay hysteresis p
                    (fun n => choose_known onboarding primary fallback delay hysteresis n C1 C2 C3 C4) Hp) as [_ Hr].
      rewrite Hrun in Hr. refine (conj Hr _). unfold device_profile_set_transport_policy in Hrun. rewrite !run_bind_modify in Hrun. exact (persist_ok _ _ Hrun). }
  destruct Hp' as [_ Hj]. apply restart_reads; [by apply Hj|exact Hg].
Qed.
End reboot.

(** ** Templates *)

Section template_effect.
Context {N : Type} `{NvsProfile N} (b : build_config).

Lemma set_policy_network onboarding primary fallback delay hysteresis (p : net_policy N) :
  network (device_profile_set_transport_policy b onboarding primary fallback delay hysteresis p).2
  = resettle (choose onboarding primary fallback delay hysteresis (network (device_profile_init_network_profile b p))).
Proof.
  unfold device_profile_set_transport_policy. rewrite !run_bind_modify. set (q := on_network relabel _).
  destruct (persist_frame q) as (r & m & ->). done.
Qed.
Lemma set_current_network type (p : net_policy N) : device_profile_is_valid type = true ->
  (device_profile_set_current type p).1 = ESP_OK /\ network (device_profile_set_current type p).2 = network p /\
  current_node_profile (device_profile_set_current type p).2 = type.
Proof.
  intros Hv. unfold device_profile_set_current. rewrite Hv. cbn [negb]. rewrite !run_bind_modify. unfold mret, st_ret. cbn [fst snd].
  by destruct (nvs_open_rw _) as [o m].
Qed.
Lemma template_there type : device_profile_is_valid type = true ->
  exists t, device_profile_get_template b type = Some t /\ (type <> NODE_PROFILE_GATEWAY -> onboarding_pending (np_network t) = true).
Proof.
  intros Hv. unfold device_profile_get_template. rewrite Hv. cbn [negb]. unfold device_profile_is_valid, NODE_PROFILE_MAX, NODE_PROFILE_CUSTOM in Hv.
  assert (type = 0 \/ type = 1 \/ type = 2 \/ type = 3 \/ type = 4) as [->|[->|[->|[->| ->]]]] by lia; by eexists.
Qed.

(** Applying any template but the gateway's succeeds and leaves the node
    waiting for onboarding, on the first supported transport, with RS485 and
    Ethernet off: the RS485 settings these templates carry never take effect,
    whatever the policy was. *)
Lemma template_result (type : Z) (p : net_policy N) :
  device_profile_is_valid type = true -> type <> NODE_PROFILE_GATEWAY ->
  let '(r, p') := device_profile_apply_template b type p in
  r = ESP_OK /\ current_node_profile p' = type /\ onboarding_pending (network p') = true /\
  rs485_enabled (network p') = false /\ ethernet_enabled (network p') = false /\
  primary_transport (network p') = first_supported (network p') /\ wifi_enabled (network p') = wifi_supported (network p').
Proof.
  intros Hv Hg. unfold device_profile_apply_template. rewrite Hv. cbn [negb].
  destruct (template_there type Hv) as (t & -> & Ht). cbv zeta. rewrite run_bind_modify, !run_bind_surj.
  set (p1 := (device_profile_set_network_enabled _ _ _ _ _ _).2). set (net := np_network t) in *.
  set (p2 := (device_profile_set_transport_policy _ _ _ _ _ _ _).2).
  assert (onboarding_pending (network p2) = true) as Hp2.
  { unfold p2. rewrite set_policy_network, (Ht Hg). unfold resettle, device_profile_normalize_transport_policy.
    set (m := choose true _ _ _ _ _). destruct (normalize_delays_spec m) as (d & h & _ & _ & ->). done. }
  assert (policy_ok (network p2)) as Hok by (unfold p2; rewrite set_policy_network; apply (settle_settled (fun _ => True)); done).
  destruct (set_current_network type p2 Hv) as (Hr & Hn & Hc).
  destruct (device_profile_set_current type p2) as [r p']. cbn [fst snd] in *. rewrite Hn.
  destruct (ok_pending _ Hok Hp2) as (H1 & H2 & H3 & H4 & H5). done.
Qed.
End template_effect.

(** The pins that may be bound as outputs against the inventory the user is
    shown.  An allowed pin is shown as available, except that pin 14 is shown as
    taken by RS485 and the pins of the AHT10 as taken by it; a listed pin shown
    as available is allowed. *)
Theorem output_pins_inventory (gpio : Z) (c : sensor_profile) (n : network_profile) :
  (device_profile_output_gpio_allowed gpio c n = true ->
   device_profile_gpio_reserved_by gpio c n = None
   \/ (gpio = 14 /\ device_profile_gpio_reserved_by gpio c n = Some "RS-485")
   \/ (aht10_enabled c = true /\ device_profile_gpio_reserved_by gpio c n = Some "I2C/AHT10")) /\
  (device_profile_gpio_is_listed output_gpio_options gpio = true -> device_profile_gpio_reserved_by gpio c n = None ->
   device_profile_output_gpio_allowed gpio c n = true).
Proof.
  unfold device_profile_output_gpio_allowed, device_profile_gpio_reserved_by, device_profile_gpio_reserved_for_platform, device_profile_gpio_reserved_for_network.
  set (uart := (gpio =? 1) || (gpio =? 3)). set (dht := dht11_enabled c && (gpio =? dht11_gpio c)). set (ds := ds18b20_enabled c && (gpio =? ds18b20_gpio c)).
  set (w5500 := ethernet_supported n && ethernet_enabled n && device_profile_w5500_is_configured_from_profile n && w5500_uses gpio (w5500 n)).
  generalize (rs485_supported n && rs485_enabled n). intros rs. split.
  - intros [[Hl Hp]%andb_prop Hn]%andb_prop. apply negb_true_iff in Hp, Hn. rewrite Hn.
    apply orb_false_elim in Hp as [[[-> ->]%orb_false_elim ->]%orb_false_elim Hrs].
    assert ((gpio =? 0) || (gpio =? 12) || (gpio =? 15) = false /\ (6 <=? gpio) && (gpio <=? 11) = false) as [-> ->].
    { apply existsb_exists in Hl as (o & Ho & ->%Z.eqb_eq). cbn in Ho. lia. }
    destruct (aht10_enabled c) eqn:Ha; cbn [andb]; [destruct ((gpio =? aht10_sda_gpio c) || (gpio =? aht10_scl_gpio c)); [by right; right|]|].
    all: destruct (Z.eqb_spec gpio 14) as [->|]; [destruct rs; [by right; left|by left]|]; cbn [orb]; rewrite Hrs; by left.
  - intros Hl. rewrite Hl. cbn [andb]. destruct uart; [done|]. do 3 (case_match; [done|]). destruct dht; [done|]. destruct ds; [done|].
    destruct w5500; [by case_match|]. destruct rs; [|done]. destruct (gpio =? 25), (gpio =? 26), (gpio =? 27); rewrite ?orb_true_r; try done.
Qed.

(** ** The flash of the concrete runs

    It never fails on bytes; the namespace opens once something is stored. *)
Definition profile_flash : Type := option (list Z) * option Z.
Definition bytes_only (blob : option (list Z)) : option (list Z) :=
  match blob with Some bytes => if forallb (fun x => (0 <=? x) && (x <? 256)) bytes then Some bytes else None | None => None end.
#[export] Instance profile_flash_nvs : Nvs profile_flash := {
  nvs_open_rw f := (true, f);
  nvs_set_blob bytes f := match bytes_only (Some bytes) with Some bytes => (true, (Some bytes, f.2)) | None => (false, f) end;
  nvs_commit f := (true, f);
  nvs_get_blob f := bytes_only f.1;
  nvs_erase_key f := (true, (None, f.2));
}.
#[export] Instance profile_flash_profile : NvsProfile profile_flash := {
  nvs_open_ro f := match bytes_only f.1, f.2 with None, None => false | _, _ => true end;
  nvs_get_u8 f := f.2;
  nvs_set_u8 v f := (f.1, Some v);
}.
#[export] Program Instance profile_flash_laws : NvsLaws profile_flash.
Next Obligation.
  intros buf n n'. cbn. destruct (forallb _ buf) eqn:E; [|done]. intros [= <-] _. cbn. by rewrite E.
Qed.
#[export] Program Instance profile_flash_profile_laws : NvsProfileLaws profile_flash.
Next Obligation.
  intros [[bytes|] u] blob; [|done]. cbn. destruct (forallb _ bytes) eqn:E; [|done]. intros [= <-].
  apply Forall_forall. intros x Hx. rewrite forallb_forall in E. apply list_elem_of_In in Hx. specialize (E x Hx). lia.
Qed.
Next Obligation. intros n blob. cbn. by intros ->. Qed.

(** A gateway build on its first boot is told to prefer Ethernet with Wi-Fi as its
    fallback. *)
Definition example_pins : w5500_pins := W5500 23 19 18 5 4 (-1).
Definition example_build : build_config := BuildConfig true true true 2 example_pins.
Lemma network_policy_survives_reboot_witness :
  let c := SetPolicy false DEVICE_PROFILE_TRANSPORT_ETHERNET DEVICE_PROFILE_TRANSPORT_WIFI 0 0 in
  let p' := (run_call example_build c (policy_boot (None, None))).2 in
  primary_transport (network p') = DEVICE_PROFILE_TRANSPORT_ETHERNET /\ ethernet_enabled (network p') = true /\
  (device_profile_network example_build (policy_boot (policy_nvs p'))).1 = network p'.
Proof.
  cbv zeta. split; [by vm_compute|]. split; [by vm_compute|].
  apply (network_policy_survives_reboot example_build [] (SetPolicy false DEVICE_PROFILE_TRANSPORT_ETHERNET DEVICE_PROFILE_TRANSPORT_WIFI 0 0) (None, None)).
  - repeat constructor; by vm_compute.
  - done.
  - by vm_compute.
Defined.

(** With RS485 enabled and nothing on pin 14, the inventory shows that pin as
    taken and an output may be bound to it. *)
Lemma output_pins_inventory_witness :
  let n := network_profile_zero <| rs485_supported := true |> <| rs485_enabled := true |> in
  device_profile_output_gpio_allowed 14 default_sensors n = true /\
  (device_profile_gpio_reserved_by 14 default_sensors n = None
   \/ (14 = 14 /\ device_profile_gpio_reserved_by 14 default_sensors n = Some "RS-485")
   \/ (aht10_enabled default_sensors = true /\ device_profile_gpio_reserved_by 14 default_sensors n = Some "I2C/AHT10")).
Proof.
  cbv zeta. split; [by vm_compute|]. apply output_pins_inventory. by vm_compute.
Defined.
