(* ===== verification/Onboarding.v ===== *)
(** * Onboarding ([components/onboarding/endap_onboarding.c])

    Adoption of a node by a gateway: the state kept in the namespace
    "onboarding", and the claim, which applies a template of the node profiles
    ([NetworkPolicy]) and records who adopted the node.  The node's name is an
    array of 32 bytes. *)

From Stdlib Require Import String.
From S2P Require Import Prelude Persist NetworkPolicy.
Local Open Scope string_scope.
Local Open Scope list_scope.
Local Open Scope Z_scope.

Definition ENDAP_NODE_NAME_MAX : nat := 32.
Definition ENDAP_ONBOARDING_CONFIG_VERSION : Z := 1.
Definition ENDAP_ONBOARDING_STATE_PENDING : Z := 0.
Definition ENDAP_ONBOARDING_STATE_DISCOVERED : Z := 1.
Definition ENDAP_ONBOARDING_STATE_CLAIMED : Z := 2.
Definition ENDAP_ONBOARDING_STATE_ACTIVE : Z := 3.

(** [endap_onboarding_config_t], 44 bytes. *)
Record onboarding_config := OnboardingConfig {
  ob_version : Z; ob_state : Z; ob_profile : Z; reserved0 : Z; adopted_by_gateway_id : Z; adopted_timestamp : Z; node_name : list Z;
}.
#[export] Instance onboarding_config_rebuild : Rebuild onboarding_config := fun c =>
  OnboardingConfig (ob_version c) (ob_state c) (ob_profile c) (reserved0 c) (adopted_by_gateway_id c) (adopted_timestamp c) (node_name c).
Definition sizeof_onboarding_config : nat := 44.
Definition config_members (c : onboarding_config) : list (nat * Z) :=
  [(1%nat, ob_version c); (1%nat, ob_state c); (1%nat, ob_profile c); (1%nat, reserved0 c);
   (4%nat, adopted_by_gateway_id c); (4%nat, adopted_timestamp c)].
Definition config_bytes (c : onboarding_config) : list Z := pack (config_members c) ++ node_name c.
Definition config_of (b : list Z) : onboarding_config :=
  OnboardingConfig (field 0 1 b) (field 1 1 b) (field 2 1 b) (field 3 1 b) (field 4 4 b) (field 8 4 b) (take ENDAP_NODE_NAME_MAX (drop 12 b)).

(** An array of 32 bytes initialised with a text. *)
Definition name_array (s : string) : list Z := strncpy (replicate ENDAP_NODE_NAME_MAX 0) (bytes_of s) ENDAP_NODE_NAME_MAX.
Definition onboarding_default : onboarding_config :=
  OnboardingConfig ENDAP_ONBOARDING_CONFIG_VERSION ENDAP_ONBOARDING_STATE_PENDING NODE_PROFILE_FIELD 0 0 0 (name_array "ENDAP-Field-Node").

(** The statics, the namespace "onboarding", and the device profile. *)
Record onboarding {O N : Type} := Onboarding {
  g_onboarding_cfg : onboarding_config; g_onboarding_initialized : bool; onboarding_nvs : O; profile_policy : net_policy N;
}.
Arguments onboarding : clear implicits.
Arguments Onboarding {O N}.
#[export] Instance onboarding_rebuild {O N} : Rebuild (onboarding O N) := fun o =>
  Onboarding (g_onboarding_cfg o) (g_onboarding_initialized o) (onboarding_nvs o) (profile_policy o).

Section onboarding.
(** [nvs_err] is the code of a call to NVS that failed. *)
Context {O N : Type} `{Nvs O} `{NvsProfile N} (b : build_config) (nvs_err : Z).
Implicit Types o : onboarding O N.
Abbreviation world := (onboarding O N).

(** Power on. *)
Definition onboarding_boot (f : O) (n : N) : world := Onboarding onboarding_default false f (policy_boot n).
Definition on_cfg (f : onboarding_config -> onboarding_config) o : world := o <| g_onboarding_cfg := f (g_onboarding_cfg o) |>.
Definition on_profile {A} (c : st (net_policy N) A) : st world A := on_part profile_policy (fun p o => o <| profile_policy := p |>) c.

Definition save_config_to_nvs : st world Z := fun o =>
  let '(opened, f) := nvs_open_rw (onboarding_nvs o) in
  if negb opened then (nvs_err, o <| onboarding_nvs := f |>)
  else
    let '(written, f) := nvs_set_blob (config_bytes (g_onboarding_cfg o)) f in
    if negb written then (nvs_err, o <| onboarding_nvs := f |>)
    else let '(committed, f) := nvs_commit f in (if committed : bool then ESP_OK else nvs_err, o <| onboarding_nvs := f |>).

(** Only [save_config_to_nvs] writes the key, so what is there has its size. *)
Definition load_config_from_nvs o : option onboarding_config :=
  match nvs_get_blob (onboarding_nvs o) with
  | Some blob =>
    if negb (Nat.eqb (length blob) sizeof_onboarding_config) then None
    else if negb (ob_version (config_of blob) =? ENDAP_ONBOARDING_CONFIG_VERSION) then None else Some (config_of blob)
  | None => None
  end.

Definition endap_onboarding_init : st world Z := fun o =>
  if g_onboarding_initialized o then (ESP_OK, o)
  else
    let o := match load_config_from_nvs o with
      | Some c => o <| g_onboarding_cfg := c |>
      | None =>
        match device_profile_get_current b (profile_policy o) with
        | Some t =>
          if np_type t =? NODE_PROFILE_GATEWAY then
            let o := on_cfg (fun c => c <| ob_state := ENDAP_ONBOARDING_STATE_ACTIVE |> <| ob_profile := NODE_PROFILE_GATEWAY |>
                               <| node_name := strncpy (node_name c) (bytes_of "ENDAP-Gateway") (ENDAP_NODE_NAME_MAX - 1) |>) o in
            (save_config_to_nvs o).2
          else on_cfg (fun c => c <| ob_state := ENDAP_ONBOARDING_STATE_PENDING |> <| ob_profile := u8 (np_type t) |>) o
        | None => on_cfg (fun c => c <| ob_state := ENDAP_ONBOARDING_STATE_PENDING |> <| ob_profile := NODE_PROFILE_FIELD |>) o
        end
      end in
    (ESP_OK, o <| g_onboarding_initialized := true |>).

Definition endap_onboarding_get_state : st world Z := endap_onboarding_init;; gets (fun o => ob_state (g_onboarding_cfg o)).
Definition endap_onboarding_is_pending : st world bool :=
  s ← endap_onboarding_get_state; mret ((s =? ENDAP_ONBOARDING_STATE_PENDING) || (s =? ENDAP_ONBOARDING_STATE_DISCOVERED)).
Definition endap_onboarding_get_config : st world onboarding_config := endap_onboarding_init;; gets g_onboarding_cfg.

(** Is this the claim the node already holds? *)
Definition same_claim (type gateway_id : Z) (name : option (list Z)) (c : onboarding_config) : bool :=
  (ob_state c =? ENDAP_ONBOARDING_STATE_ACTIVE) && (ob_profile c =? u8 type) && (adopted_by_gateway_id c =? gateway_id)
  && match name with Some s => bool_decide (cstr (node_name c) = cstr s) | None => false end.
(** What a claim writes; [now] is the time in seconds. *)
Definition claimed (type gateway_id now : Z) (name : option (list Z)) (c : onboarding_config) : onboarding_config :=
  let c := c <| ob_version := ENDAP_ONBOARDING_CONFIG_VERSION |> <| ob_state := ENDAP_ONBOARDING_STATE_ACTIVE |> <| ob_profile := u8 type |>
             <| adopted_by_gateway_id := gateway_id |> <| adopted_timestamp := now |> in
  match name with
  | Some s =>
    if Nat.ltb 0 (length (cstr s))
    then c <| node_name := <[(ENDAP_NODE_NAME_MAX - 1)%nat := 0]> (strncpy (node_name c) s (ENDAP_NODE_NAME_MAX - 1)) |>
    else c
  | None => c
  end.
Definition endap_onboarding_claim (type gateway_id now : Z) (name : option (list Z)) : st world Z :=
  if negb (device_profile_is_valid type) then mret ESP_ERR_INVALID_ARG
  else
    endap_onboarding_init;;
    c ← gets g_onboarding_cfg;
    if same_claim type gateway_id name c then mret ESP_OK
    else
      err ← on_profile (device_profile_apply_template b type);
      if negb (err =? ESP_OK) then mret err
      else
        modify (on_cfg (claimed type gateway_id now name));;
        save_config_to_nvs.

Definition endap_onboarding_reset : st world Z :=
  modify (fun o => let '(opened, f) := nvs_open_rw (onboarding_nvs o) in
                   o <| onboarding_nvs := if opened : bool then (nvs_commit (nvs_erase_key f).2).2 else f |>);;
  modify (on_cfg (fun c => c <| ob_state := ENDAP_ONBOARDING_STATE_PENDING |> <| adopted_by_gateway_id := 0 |> <| adopted_timestamp := 0 |>
                             <| node_name := strncpy (node_name c) (bytes_of "ENDAP-Field-Node") (ENDAP_NODE_NAME_MAX - 1) |>));;
  mret ESP_OK.

(** [nvs_erase_all] is NVS's, on the namespace of the device profile. *)
Definition endap_factory_reset_full (nvs_erase_all : N -> N) : st world Z :=
  endap_onboarding_reset;;
  on_profile (device_profile_set_current NODE_PROFILE_FIELD);;
  on_profile (device_profile_apply_template b NODE_PROFILE_FIELD);;
  modify (fun o => let p := profile_policy o in
                   let '(opened, n) := nvs_open_rw (policy_nvs p) in
                   o <| profile_policy := p <| policy_nvs := if opened : bool then (nvs_commit (nvs_erase_all n)).2 else n |> |>);;
  mret ESP_OK.
End onboarding.

(** ** The stored form *)

Record config_typed (c : onboarding_config) : Prop := {
  typed_version : is_u8 (ob_version c);
  typed_state : is_u8 (ob_state c);
  typed_profile : is_u8 (ob_profile c);
  typed_reserved : is_u8 (reserved0 c);
  typed_gateway : is_u32 (adopted_by_gateway_id c);
  typed_timestamp : is_u32 (adopted_timestamp c);
  typed_name : Forall (fun x => is_u8 x) (node_name c);
  typed_length : length (node_name c) = ENDAP_NODE_NAME_MAX;
}.

Lemma length_config_bytes c : length (node_name c) = ENDAP_NODE_NAME_MAX -> length (config_bytes c) = sizeof_onboarding_config.
Proof. intros Hl. unfold config_bytes. by rewrite length_app, length_pack, Hl. Qed.
Lemma config_roundtrip c : config_typed c -> config_of (config_bytes c) = c.
Proof.
  intros []. unfold config_of, config_bytes.
  rewrite (field_pack 0 (config_members c) 1 (ob_version c)), (field_pack 1 (config_members c) 1 (ob_state c)),
    (field_pack 2 (config_members c) 1 (ob_profile c)), (field_pack 3 (config_members c) 1 (reserved0 c)),
    (field_pack 4 (config_members c) 4 (adopted_by_gateway_id c)), (field_pack 5 (config_members c) 4 (adopted_timestamp c)) by done.
  rewrite (drop_app_length' (pack (config_members c))) by (by rewrite length_pack).
  rewrite take_ge by (by rewrite typed_length0). by destruct c.
Qed.
Lemma config_of_typed blob : Forall (fun x => is_u8 x) blob -> length blob = sizeof_onboarding_config -> config_typed (config_of blob).
Proof.
  intros Hb Hl. pose proof (fun off => field_range off 1 blob Hb) as F1. pose proof (fun off => field_range off 4 blob Hb) as F4.
  split; cbn [config_of ob_version ob_state ob_profile reserved0 adopted_by_gateway_id adopted_timestamp node_name].
  1-4: apply F1. 1-2: apply F4.
  - by apply Forall_take, Forall_drop.
  - by rewrite length_take, length_drop, Hl.
Qed.

(** ** Claims *)

Section claims.
Context {O N : Type} `{Nvs O, !NvsLaws O} `{NvsProfile N} (b : build_config) (nvs_err : Z).
Hypothesis nvs_err_not_ok : nvs_err <> ESP_OK.
(** Flash holds bytes. *)
Hypothesis blobs_are_bytes : forall (f : O) blob, nvs_get_blob f = Some blob -> Forall (fun x => is_u8 x) blob.
Abbreviation world := (onboarding O N).
Abbreviation claim := (endap_onboarding_claim b nvs_err).

Inductive ob_call := ObInit | ObClaim (type gateway_id now : Z) (name : option (list Z)) | ObReset.
Definition run_ob (c : ob_call) : st world Z :=
  match c with
  | ObInit => endap_onboarding_init b nvs_err
  | ObClaim type gateway_id now name => claim type gateway_id now name
  | ObReset => endap_onboarding_reset
  end.
Fixpoint run_obs (cs : list ob_call) (o : world) : world := match cs with [] => o | c :: cs => run_obs cs (run_ob c o).2 end.
(** The arguments have the values of their types. *)
Definition ob_typed (c : ob_call) : Prop :=
  match c with
  | ObClaim _ gateway_id now name => is_u32 gateway_id /\ is_u32 now /\ (if name is Some s then Forall (fun x => is_u8 x) s else True)
  | _ => True
  end.
Definition typed_world (o : world) : Prop := config_typed (g_onboarding_cfg o).

Lemma save_frame (o : world) : exists r f, save_config_to_nvs nvs_err o = (r, o <| onboarding_nvs := f |>).
Proof.
  unfold save_config_to_nvs. destruct (nvs_open_rw (onboarding_nvs o)) as [[] f1]; cbn [negb]; [|by eexists _, _].
  destruct (nvs_set_blob _ f1) as [[] f2]; cbn [negb]; [|by eexists _, _]. destruct (nvs_commit f2) as [c f3]. by eexists _, _.
Qed.
Lemma save_ok (o o' : world) : save_config_to_nvs nvs_err o = (ESP_OK, o') ->
  nvs_get_blob (onboarding_nvs o') = Some (config_bytes (g_onboarding_cfg o')) /\ g_onboarding_cfg o' = g_onboarding_cfg o.
Proof.
  unfold save_config_to_nvs. destruct (nvs_open_rw (onboarding_nvs o)) as [[] f1]; cbn [negb]; [|by intros [= He]].
  destruct (nvs_set_blob _ f1) as [[] f2] eqn:Hs; cbn [negb]; [|by intros [= He]]. destruct (nvs_commit f2) as [[] f3] eqn:Hc; [|by intros [= He]].
  intros [= <-]. cbn. split; [|done]. pose proof (nvs_commit_durable _ _ _ Hs) as Hd. rewrite Hc in Hd. by apply Hd.
Qed.

Lemma rename_typed c dst s n : (n <= 31)%nat -> Forall (fun x => is_u8 x) s -> config_typed c -> dst = node_name c ->
  config_typed (c <| node_name := strncpy dst s n |>).
Proof.
  intros Hn Hs [] ->. split; try done; cbn [node_name update]; [by apply strncpy_bytes|]. unfold ENDAP_NODE_NAME_MAX in *. rewrite length_strncpy; lia.
Qed.
Lemma claimed_typed type gateway_id now name c : ob_typed (ObClaim type gateway_id now name) -> config_typed c -> config_typed (claimed type gateway_id now name c).
Proof.
  intros (Hg & Hn & Hs) []. unfold claimed. cbv zeta.
  destruct name as [s|]; [|split; try done; apply u8_range]. destruct (0 <? length (cstr s))%nat; [|split; try done; apply u8_range].
  split; try done; cbn [node_name update]; [apply u8_range| |].
  - apply Forall_insert; [by apply strncpy_bytes|done].
  - unfold ENDAP_NODE_NAME_MAX in *. rewrite length_insert, length_strncpy; lia.
Qed.
Lemma load_typed (o : world) c : load_config_from_nvs o = Some c -> config_typed c.
Proof.
  unfold load_config_from_nvs. destruct (nvs_get_blob (onboarding_nvs o)) as [blob|] eqn:Hg; [|done].
  destruct (Nat.eqb_spec (length blob) sizeof_onboarding_config); [|done]. cbn [negb]. case_match; [done|]. intros [= <-].
  apply config_of_typed; [by eapply blobs_are_bytes|done].
Qed.
Lemma init_typed (o : world) : typed_world o -> typed_world (endap_onboarding_init b nvs_err o).2.
Proof.
  intros Ht. unfold endap_onboarding_init. destruct (g_onboarding_initialized o); [done|]. cbv zeta.
  destruct (load_config_from_nvs o) as [c|] eqn:Hl; [by apply load_typed in Hl|].
  destruct (device_profile_get_current b (profile_policy o)) as [t|]; [|by destruct Ht; split].
  destruct (np_type t =? NODE_PROFILE_GATEWAY).
  - destruct (save_frame (on_cfg (fun c => c <| ob_state := ENDAP_ONBOARDING_STATE_ACTIVE |> <| ob_profile := NODE_PROFILE_GATEWAY |>
      <| node_name := strncpy (node_name c) (bytes_of "ENDAP-Gateway") (ENDAP_NODE_NAME_MAX - 1) |>) o)) as (r & f & ->).
    unfold typed_world. cbn [snd g_onboarding_cfg on_cfg update]. apply (rename_typed (g_onboarding_cfg o <| ob_state := ENDAP_ONBOARDING_STATE_ACTIVE |> <| ob_profile := NODE_PROFILE_GATEWAY |>));
      [unfold ENDAP_NODE_NAME_MAX; lia|by repeat constructor|by destruct Ht; split|done].
  - destruct Ht. split; try done. apply u8_range.
Qed.
Lemma run_ob_typed c (o : world) : ob_typed c -> typed_world o -> typed_world (run_ob c o).2.
Proof.
  destruct c as [|type gateway_id now name|]; intros Hc Ht; cbn [run_ob].
  - by apply init_typed.
  - unfold endap_onboarding_claim. case_match; [done|]. rewrite run_bind_surj. apply init_typed in Ht.
    set (o1 := (endap_onboarding_init b nvs_err o).2) in *. rewrite run_bind_gets. case_match; [done|]. rewrite run_bind_surj.
    unfold on_profile, on_part. destruct (device_profile_apply_template b type (profile_policy o1)) as [err p]. cbn [fst snd].
    case_match; [done|]. rewrite run_bind_modify. set (o2 := on_cfg _ _). destruct (save_frame o2) as (r & f & ->).
    by apply claimed_typed.
  - unfold endap_onboarding_reset. rewrite !run_bind_modify. destruct (nvs_open_rw _) as [opened f].
    unfold typed_world, mret, st_ret. cbn [snd g_onboarding_cfg on_cfg update]. apply (rename_typed (g_onboarding_cfg o <| ob_state := ENDAP_ONBOARDING_STATE_PENDING |> <| adopted_by_gateway_id := 0 |> <| adopted_timestamp := 0 |>));
      [unfold ENDAP_NODE_NAME_MAX; lia|by repeat constructor|by destruct Ht; split|done].
Qed.
Lemma run_obs_typed cs (o : world) : Forall ob_typed cs -> typed_world o -> typed_world (run_obs cs o).
Proof. intros Hcs. revert o. induction Hcs as [|c cs Hc _ IH]; intros o Ho; [done|]. cbn [run_obs]. by apply IH, run_ob_typed. Qed.
Lemma boot_typed (f : O) (n : N) : typed_world (onboarding_boot f n).
Proof. split; try done. by repeat constructor. Qed.

(** A name that fits is stored whole. *)
Lemma cstr_copied dst s n : length dst = S n -> 0 ∉ s -> (length s <= n)%nat -> cstr (<[n := 0]> (strncpy dst s n)) = s.
Proof.
  intros Hd Hs Hn. unfold strncpy. rewrite (take_ge s), (cstr_id s) by assumption. cbv zeta. rewrite insert_app_r_alt by done.
  destruct (n - length s)%nat as [|k] eqn:Ek.
  - cbn [replicate app]. destruct (drop n dst) as [|x l] eqn:Ed; [apply (f_equal length) in Ed; rewrite length_drop in Ed; cbn in Ed; lia|].
    by apply cstr_app_zero.
  - cbn [replicate app]. by apply cstr_app_zero.
Qed.

(** A claim that does something and is acknowledged is what the node comes
    back with after a restart, whatever happened before: it is active, with the
    profile and the gateway of the claim, and with its name if the name fits. *)
Theorem claim_survives_reboot (cs : list ob_call) (f : O) (n n' : N) (type gateway_id now : Z) (name : option (list Z)) (o' : world) :
  Forall ob_typed (ObClaim type gateway_id now name :: cs) ->
  let o := run_obs cs (onboarding_boot f n) in
  same_claim type gateway_id name (endap_onboarding_get_config b nvs_err o).1 = false ->
  claim type gateway_id now name o = (ESP_OK, o') ->
  let c := (endap_onboarding_get_config b nvs_err (onboarding_boot (onboarding_nvs o') n')).1 in
  c = g_onboarding_cfg o' /\ ob_state c = ENDAP_ONBOARDING_STATE_ACTIVE /\ ob_profile c = type /\ adopted_by_gateway_id c = gateway_id /\
  (forall s, name = Some s -> 0 ∉ s -> (0 < length s < ENDAP_NODE_NAME_MAX)%nat -> cstr (node_name c) = s).
Proof.
  intros [Hc Hcs]%Forall_cons o Hsame Hrun.
  assert (typed_world o) as Ho by (apply run_obs_typed; [done|apply boot_typed]).
  pose proof (run_ob_typed (ObClaim type gateway_id now name) o Hc Ho) as Ho'. cbn [run_ob] in Ho'. rewrite Hrun in Ho'. cbn [snd] in Ho'.
  apply init_typed in Ho. unfold endap_onboarding_get_config in Hsame. rewrite run_bind_surj, run_gets in Hsame. cbn [fst] in Hsame.
  unfold endap_onboarding_claim in Hrun. destruct (device_profile_is_valid type) eqn:Hv; [|done]. cbn [negb] in Hrun.
  rewrite run_bind_surj, run_bind_gets, Hsame, run_bind_surj in Hrun. set (o1 := (endap_onboarding_init b nvs_err o).2) in *.
  unfold on_profile, on_part in Hrun. destruct (device_profile_apply_template b type (profile_policy o1)) as [err p]. cbn [fst snd] in Hrun.
  destruct (Z.eqb_spec err ESP_OK); cbn [negb] in Hrun; [|by injection Hrun].
  rewrite run_bind_modify in Hrun. apply save_ok in Hrun as [Hg Hcfg]. cbn [g_onboarding_cfg on_cfg update] in Hcfg.
  assert ((endap_onboarding_get_config b nvs_err (onboarding_boot (onboarding_nvs o') n')).1 = g_onboarding_cfg o') as ->.
  { unfold endap_onboarding_get_config. rewrite run_bind_surj, run_gets. cbn [fst].
    unfold endap_onboarding_init, load_config_from_nvs. cbn [onboarding_boot g_onboarding_initialized onboarding_nvs]. rewrite Hg.
    rewrite length_config_bytes by apply Ho'. rewrite config_roundtrip by done.
    assert (ob_version (g_onboarding_cfg o') = ENDAP_ONBOARDING_CONFIG_VERSION) as ->; [|done].
    rewrite Hcfg. unfold claimed. destruct name as [s|]; [|done]. by destruct (0 <? _)%nat. }
  unfold device_profile_is_valid, NODE_PROFILE_MAX, NODE_PROFILE_CUSTOM in Hv. pose proof (typed_length _ Ho) as Hlen.
  rewrite Hcfg. clear - Hv Hlen. unfold claimed. cbv zeta.
  split; [done|]. destruct name as [s|]; [|split_and!; try done; cbn; rewrite u8_id; lia].
  destruct (Nat.ltb_spec 0 (length (cstr s))) as [Hl|Hl].
  - split_and!; [done|by apply u8_id; lia|done|]. intros ? [= <-] Hs Hn. cbn [node_name update]. apply cstr_copied; [done|done|]. unfold ENDAP_NODE_NAME_MAX in *. lia.
  - split_and!; [done|by apply u8_id; lia|done|]. intros ? [= <-] Hs Hn. rewrite cstr_id in Hl by done. lia.
Qed.

(** A claim with any profile but the gateway's makes the node active in its own
    records and leaves its network waiting for onboarding: only Wi-Fi (or
    nothing) runs, and the RS485 line the template asks for is off.  This
    includes every claim without a name, which is never taken as a repetition:
    it resets the network an operator has set. *)
Theorem claimed_node_network_pending (type gateway_id now : Z) (name : option (list Z)) (o o' : world) :
  type <> NODE_PROFILE_GATEWAY ->
  same_claim type gateway_id name (endap_onboarding_get_config b nvs_err o).1 = false \/ name = None ->
  claim type gateway_id now name o = (ESP_OK, o') ->
  ob_state (g_onboarding_cfg o') = ENDAP_ONBOARDING_STATE_ACTIVE /\ ob_profile (g_onboarding_cfg o') = type /\
  onboarding_pending (network (profile_policy o')) = true /\ rs485_enabled (network (profile_policy o')) = false /\
  ethernet_enabled (network (profile_policy o')) = false /\
  wifi_enabled (network (profile_policy o')) = wifi_supported (network (profile_policy o')).
Proof.
  intros Hg Hsame Hrun.
  assert (same_claim type gateway_id name (endap_onboarding_get_config b nvs_err o).1 = false) as Hs
    by (destruct Hsame as [Hs| ->]; [exact Hs|by apply andb_false_r]).
  unfold endap_onboarding_get_config in Hs. rewrite run_bind_surj, run_gets in Hs. cbn [fst] in Hs.
  unfold endap_onboarding_claim in Hrun. destruct (device_profile_is_valid type) eqn:Hv; [|done]. cbn [negb] in Hrun.
  rewrite run_bind_surj, run_bind_gets, Hs, run_bind_surj in Hrun. set (o1 := (endap_onboarding_init b nvs_err o).2) in *.
  pose proof (template_result b type (profile_policy o1) Hv Hg) as Ht.
  unfold on_profile, on_part in Hrun. destruct (device_profile_apply_template b type (profile_policy o1)) as [err p]. cbn [fst snd] in Hrun.
  destruct Ht as (-> & _ & Hpend & Hrs & Heth & _ & Hwifi). cbn [negb Z.eqb ESP_OK] in Hrun. rewrite run_bind_modify in Hrun.
  set (o2 := on_cfg (claimed type gateway_id now name) (o1 <| profile_policy := p |>)) in *.
  destruct (save_frame o2) as (r & f & Hf). rewrite Hf in Hrun. injection Hrun as _ <-.
  unfold device_profile_is_valid, NODE_PROFILE_MAX, NODE_PROFILE_CUSTOM in Hv.
  assert (u8 type = type) as Hu by (apply u8_id; lia).
  split; [|split; [|done]]; cbn [g_onboarding_cfg on_cfg update o2]; unfold claimed; cbv zeta; (destruct name; [destruct (0 <? _)%nat|]; done).
Qed.
End claims.

(** ** Concrete runs *)

(** A field node adopted by gateway 7 as "P1". *)
Lemma claim_survives_reboot_witness :
  let boot := onboarding_boot (None, None) (None, None) : onboarding profile_flash profile_flash in
  let name := Some (bytes_of "P1") in
  let o' := (endap_onboarding_claim example_build (-1) NODE_PROFILE_FIELD 7 60 name boot).2 in
  let c := (endap_onboarding_get_config example_build (-1) (onboarding_boot (onboarding_nvs o') (None, None) : onboarding profile_flash profile_flash)).1 in
  c = g_onboarding_cfg o' /\ ob_state c = ENDAP_ONBOARDING_STATE_ACTIVE /\ ob_profile c = NODE_PROFILE_FIELD /\ adopted_by_gateway_id c = 7 /\
  (forall s, name = Some s -> 0 ∉ s -> (0 < length s < ENDAP_NODE_NAME_MAX)%nat -> cstr (node_name c) = s).
Proof.
  cbv zeta.
  apply (claim_survives_reboot example_build (-1) ltac:(done) (fun f blob => nvs_blob_bytes f blob) [] (None, None) (None, None) (None, None) NODE_PROFILE_FIELD 7 60).
  - repeat constructor; by vm_compute.
  - by vm_compute.
  - by vm_compute.
Defined.
(** The RS485 line of the field template is not in use after the claim. *)
Lemma claimed_node_network_pending_witness :
  let boot := onboarding_boot (None, None) (None, None) : onboarding profile_flash profile_flash in
  let o' := (endap_onboarding_claim example_build (-1) NODE_PROFILE_FIELD 7 60 None boot).2 in
  rs485_enabled (field_net_profile example_build) = true /\
  ob_state (g_onboarding_cfg o') = ENDAP_ONBOARDING_STATE_ACTIVE /\ ob_profile (g_onboarding_cfg o') = NODE_PROFILE_FIELD /\
  onboarding_pending (network (profile_policy o')) = true /\ rs485_enabled (network (profile_policy o')) = false /\
  ethernet_enabled (network (profile_policy o')) = false /\
  wifi_enabled (network (profile_policy o')) = wifi_supported (network (profile_policy o')).
Proof.
  cbv zeta. split; [by vm_compute|].
  apply (claimed_node_network_pending example_build (-1) NODE_PROFILE_FIELD 7 60 None (onboarding_boot (None, None) (None, None) : onboarding profile_flash profile_flash)).
  - by vm_compute.
  - by right.
  - by vm_compute.
Defined.
