(* ===== verification/IoBinding.v ===== *)
(** * Bindings of channels to pins ([components/runtime/io_binding/io_binding.c])

    Each active input and output has an address: a GPIO pin, a port of an
    MCP23x17 expander, or a channel of the native converter.  Two tables of at
    most 16 entries, each with its blob in the namespace "io_binding".  The C
    code is written twice, once per direction; here it is written once, on a
    [side], and the two instances carry the names of the source. *)

From Stdlib Require Import String Ascii.
From S2P Require Import Prelude Persist EventBus State DeviceProfile NetworkPolicy.
Local Open Scope string_scope.
Local Open Scope list_scope.
Local Open Scope Z_scope.

Definition IO_BINDING_NAME_LEN : nat := 24.
Definition IO_BINDING_ROLE_LEN : nat := 24.
Definition IO_BINDING_MAX_INPUTS : nat := 16.
Definition IO_BINDING_MAX_OUTPUTS : nat := 16.
Definition IO_BINDING_MAGIC_INPUTS : Z := 1229080910.    (* 0x4942494E *)
Definition IO_BINDING_MAGIC_OUTPUTS : Z := 1229082453.   (* 0x49424F55 *)
Definition IO_BINDING_VERSION : Z := 4.
Definition IO_BINDING_VERSION_V3 : Z := 3.
Definition IO_BINDING_VERSION_V2 : Z := 2.
Definition IO_BINDING_VERSION_V1 : Z := 1.
Inductive io_binding_result :=
  | IO_BINDING_RESULT_OK | IO_BINDING_RESULT_NOT_FOUND | IO_BINDING_RESULT_INVALID_GPIO | IO_BINDING_RESULT_GPIO_CONFLICT
  | IO_BINDING_RESULT_ALREADY_ACTIVE | IO_BINDING_RESULT_LIMIT_REACHED | IO_BINDING_RESULT_PROTECTED | IO_BINDING_RESULT_INVALID_BACKEND
  | IO_BINDING_RESULT_UNSUPPORTED_BACKEND | IO_BINDING_RESULT_INVALID_ENDPOINT | IO_BINDING_RESULT_ADDRESS_CONFLICT.

Inductive side := In | Out.
#[export] Instance side_eq_dec : EqDecision side.
Proof. solve_decision. Defined.
Definition other_side (s : side) : side := match s with In => Out | Out => In end.

(** [io_binding_input_entry_t] and [io_binding_output_entry_t] *)
Record entry := Entry {
  e_id : Z; e_gpio : Z; e_instance : Z; e_endpoint : Z; e_backend : Z; e_class : Z; e_reserved : Z; e_name : list Z; e_role : list Z;
}.
#[export] Instance entry_rebuild : Rebuild entry := fun e =>
  Entry (e_id e) (e_gpio e) (e_instance e) (e_endpoint e) (e_backend e) (e_class e) (e_reserved e) (e_name e) (e_role e).

(** What the two profiles say of a channel: its pin and its name. *)
Definition profile_of (s : side) (id : Z) : option (Z * list Z) :=
  match s with
  | In => p ← device_profile_find_input id; Some (ip_gpio p, bytes_of (ip_name p))
  | Out => p ← device_profile_find_output id; Some (op_gpio p, bytes_of (op_name p))
  end.
(** The channels that are active on a new node. *)
Definition default_channels (s : side) : list (Z * (Z * list Z)) :=
  match s with
  | In => (fun p => (ip_id p, (ip_gpio p, bytes_of (ip_name p)))) <$> take (Z.to_nat ENDAP_DEFAULT_ACTIVE_INPUTS) input_profile
  | Out => (fun p => (op_id p, (op_gpio p, bytes_of (op_name p)))) <$> take (Z.to_nat ENDAP_DEFAULT_ACTIVE_OUTPUTS) output_profile
  end.

(** ** Backends and addresses *)

Definition io_binding_backend_code (backend : Z) : string :=
  if backend =? DEVICE_CHANNEL_BACKEND_GPIO then "gpio"
  else if backend =? DEVICE_CHANNEL_BACKEND_MCP23X17 then "mcp23x17"
  else if backend =? DEVICE_CHANNEL_BACKEND_ADC_NATIVE then "adc-native"
  else if backend =? DEVICE_CHANNEL_BACKEND_ADC_EXTERNAL then "adc-external" else "unknown".
Definition io_binding_backend_label (backend : Z) : string :=
  if backend =? DEVICE_CHANNEL_BACKEND_GPIO then "GPIO nativo"
  else if backend =? DEVICE_CHANNEL_BACKEND_MCP23X17 then "MCP23x17"
  else if backend =? DEVICE_CHANNEL_BACKEND_ADC_NATIVE then "ADC nativo"
  else if backend =? DEVICE_CHANNEL_BACKEND_ADC_EXTERNAL then "ADC externo" else "Desconhecido".
Definition io_binding_backend_is_gpio (backend : Z) : bool := backend =? DEVICE_CHANNEL_BACKEND_GPIO.
Definition io_binding_backend_is_mcp (backend : Z) : bool := backend =? DEVICE_CHANNEL_BACKEND_MCP23X17.

(** [expansion_capabilities] *)
Definition supports_mcp23x17 : bool := true.
Definition recommended_mcp_instances : Z := 2.
Definition channels_per_mcp : Z := 16.

Definition io_binding_backend_allows_input (backend : Z) : bool :=
  if backend =? DEVICE_CHANNEL_BACKEND_GPIO then true
  else if backend =? DEVICE_CHANNEL_BACKEND_MCP23X17 then supports_mcp23x17
  else backend =? DEVICE_CHANNEL_BACKEND_ADC_NATIVE.
Definition io_binding_backend_allows_output (backend : Z) : bool :=
  if backend =? DEVICE_CHANNEL_BACKEND_GPIO then true else if backend =? DEVICE_CHANNEL_BACKEND_MCP23X17 then supports_mcp23x17 else false.
Definition io_binding_backend_selectable_now (backend : Z) (s : side) : bool :=
  match s with In => io_binding_backend_allows_input backend | Out => io_binding_backend_allows_output backend end.

Definition io_binding_mcp_endpoint_label (endpoint : Z) : string :=
  match zget ["A0"; "A1"; "A2"; "A3"; "A4"; "A5"; "A6"; "A7"; "B0"; "B1"; "B2"; "B3"; "B4"; "B5"; "B6"; "B7"] endpoint with
  | Some l => l
  | None => "?"
  end.
Definition io_binding_mcp_instance_count : Z :=
  if negb supports_mcp23x17 then 0 else if recommended_mcp_instances <=? 0 then 1 else recommended_mcp_instances.
Definition mcp_channel_count : Z := if channels_per_mcp <=? 0 then 16 else channels_per_mcp.
Definition io_binding_mcp_address_valid (instance endpoint : Z) : bool :=
  if negb supports_mcp23x17 then false
  else (0 <=? instance) && (instance <? io_binding_mcp_instance_count) && (0 <=? endpoint) && (endpoint <? mcp_channel_count).
(** The pins of the four native analog inputs and their converter channels. *)
Definition adc_endpoint (gpio : Z) : option Z :=
  if gpio =? 34 then Some 6 else if gpio =? 35 then Some 7 else if gpio =? 36 then Some 0 else if gpio =? 39 then Some 3 else None.

(** Which pins may be used is the device profile's answer. *)
Record pin_rules := PinRules { input_gpio_allowed : Z -> bool; output_gpio_allowed : Z -> bool }.
Definition gpio_allowed (rules : pin_rules) (s : side) : Z -> bool := match s with In => input_gpio_allowed rules | Out => output_gpio_allowed rules end.
Definition device_rules (c : sensor_profile) (n : network_profile) : pin_rules :=
  PinRules (fun g => device_profile_input_gpio_allowed g c n) (fun g => device_profile_output_gpio_allowed g c n).

Definition io_binding_backend_address_valid (rules : pin_rules) (backend : Z) (s : side) (gpio instance endpoint : Z) : bool :=
  if backend =? DEVICE_CHANNEL_BACKEND_GPIO then gpio_allowed rules s gpio
  else if backend =? DEVICE_CHANNEL_BACKEND_MCP23X17 then io_binding_backend_selectable_now backend s && io_binding_mcp_address_valid instance endpoint
  else if backend =? DEVICE_CHANNEL_BACKEND_ADC_NATIVE then
    match s with
    | In => io_binding_backend_selectable_now backend s && match adc_endpoint gpio with Some e => endpoint =? e | None => false end
    | Out => false
    end
  else false.

(** ** Entries *)

(** [io_binding_copy_text] to an array of 24 bytes. *)
Definition io_binding_copy_text (src : list Z) : list Z := strncpy (replicate 24 0) src 23.
(** A text that is not [NULL] and not empty. *)
Definition given (text : option (list Z)) : option (list Z) :=
  match text with Some (c :: l) => if c =? 0 then None else Some (c :: l) | _ => None end.
Definition io_binding_default_role_for (s : side) : list Z := bytes_of (match s with In => "Input" | Out => "Actuator" end).
Definition channel_class_of (s : side) (backend : Z) : Z :=
  match s with
  | In => if (backend =? DEVICE_CHANNEL_BACKEND_ADC_NATIVE) || (backend =? DEVICE_CHANNEL_BACKEND_ADC_EXTERNAL)
          then DEVICE_CHANNEL_CLASS_ANALOG_INPUT else DEVICE_CHANNEL_CLASS_DIGITAL_INPUT
  | Out => DEVICE_CHANNEL_CLASS_DIGITAL_OUTPUT
  end.
(** Every caller passes a profile; [profile_name] is its name. *)
Definition prepare_entry (s : side) (id : Z) (name role : option (list Z)) (backend gpio instance endpoint : Z) (profile_name : list Z) : entry :=
  Entry (u16 id) (i16 gpio) (i16 instance) (i16 endpoint) (u8 backend) (channel_class_of s backend) 0
    (io_binding_copy_text (default profile_name (given name))) (io_binding_copy_text (default (io_binding_default_role_for s) (given role))).
Definition io_binding_prepare_input_entry := prepare_entry In.
Definition io_binding_prepare_output_entry := prepare_entry Out.

Definition same_address (backend instance endpoint : Z) (e : entry) : bool :=
  (e_backend e =? backend) && (e_instance e =? instance) && (e_endpoint e =? endpoint).
Definition address_in_use (l : list entry) (backend instance endpoint ignore_id : Z) : bool :=
  existsb (fun e => negb (e_id e =? ignore_id) && same_address backend instance endpoint e) l.
Definition lookup_entry (l : list entry) (id : Z) : option entry := i ← find_idx (fun e => e_id e =? id) l; l !! i.
Definition has_entry (l : list entry) (id : Z) : bool := existsb (fun e => e_id e =? id) l.
Definition is_protected (s : side) (id : Z) : bool :=
  match s with In => device_profile_is_default_input_id id | Out => device_profile_is_default_output_id id end.

(** ** The blobs *)

Definition magic_of (s : side) : Z := match s with In => IO_BINDING_MAGIC_INPUTS | Out => IO_BINDING_MAGIC_OUTPUTS end.
Definition sizeof_entry : nat := 60.
Definition sizeof_entry_v2 : nat := 52.
Definition sizeof_entry_v1 : nat := 50.
Definition sizeof_binding_blob : nat := 972.
Definition sizeof_binding_blob_v2 : nat := 844.
Definition sizeof_binding_blob_v1 : nat := 812.
Definition entry_members (e : entry) : list (nat * Z) :=
  [(2%nat, e_id e); (2%nat, u16 (e_gpio e)); (2%nat, u16 (e_instance e)); (2%nat, u16 (e_endpoint e));
   (1%nat, e_backend e); (1%nat, e_class e); (2%nat, e_reserved e)].
Definition binding_entry_bytes (e : entry) : list Z := pack (entry_members e) ++ e_name e ++ e_role e.
Definition binding_entry_of (b : list Z) : entry :=
  Entry (field 0 2 b) (i16 (field 2 2 b)) (i16 (field 4 2 b)) (i16 (field 6 2 b)) (field 8 1 b) (field 9 1 b) (field 10 2 b)
    (take 24 (drop 12 b)) (take 24 (drop 36 b)).
Definition binding_blob_body (s : side) (l : list entry) : list Z :=
  pack [(4%nat, magic_of s); (2%nat, IO_BINDING_VERSION); (2%nat, u16 (Z.of_nat (length l)))] ++ array_bytes 16 sizeof_entry (binding_entry_bytes <$> l).
Definition binding_blob (s : side) (l : list entry) : list Z := let body := binding_blob_body s l in body ++ le 4 (crc32 body).

Definition crc_valid (size : nat) (b : list Z) : bool := field (size - 4) 4 b =? crc32 (take (size - 4) b).
Definition entries_of (b : list Z) : list entry :=
  (fun i => binding_entry_of (array_slot 8 sizeof_entry i b)) <$> seq 0 (Z.to_nat (field 6 2 b)).
Definition blob_has_duplicate (l : list entry) (index : nat) : bool :=
  match l !! index with
  | Some e =>
    existsb (fun i => match l !! i with
                      | Some f => negb (Nat.eqb i index)
                          && ((e_id f =? e_id e)
                              || same_address (e_backend e) (e_instance e) (e_endpoint e) f && negb (e_endpoint e =? GPIO_NUM_NC))
                      | None => false
                      end) (seq 0 (length l))
  | None => false
  end.
Definition is_valid_channel (s : side) (id : Z) : bool :=
  match s with In => device_profile_is_valid_input id | Out => device_profile_is_valid_output id end.
(** [addr_valid] of the version 3 loaders. *)
Definition stored_address_valid (rules : pin_rules) (s : side) (e : entry) : bool :=
  if (e_backend e =? DEVICE_CHANNEL_BACKEND_GPIO) && (e_gpio e =? GPIO_NUM_NC) then true
  else io_binding_backend_address_valid rules (e_backend e) s (e_gpio e) (e_instance e) (e_endpoint e).
Definition stored_entries_valid (rules : pin_rules) (s : side) (l : list entry) : bool :=
  forallb (fun i => match l !! i with
                    | Some e => is_valid_channel s (e_id e) && stored_address_valid rules s e && negb (blob_has_duplicate l i)
                    | None => true
                    end) (seq 0 (length l)).

(** ** The tables *)

(** The statics of the file and its two keys in flash. *)
Record bindings {N : Type} := Bindings {
  input_entries : list entry; output_entries : list entry; gpio_restart_required : bool; input_nvs : N; output_nvs : N;
}.
Arguments bindings : clear implicits.
Arguments Bindings {N}.
#[export] Instance bindings_rebuild {N} : Rebuild (bindings N) := fun w =>
  Bindings (input_entries w) (output_entries w) (gpio_restart_required w) (input_nvs w) (output_nvs w).

(** Power on. *)
Definition bindings_boot {N} (fi fo : N) : bindings N := Bindings [] [] false fi fo.
Definition entries {N} (s : side) (w : bindings N) : list entry := match s with In => input_entries w | Out => output_entries w end.
Definition put_entries {N} (s : side) (l : list entry) (w : bindings N) : bindings N :=
  match s with In => w <| input_entries := l |> | Out => w <| output_entries := l |> end.
Definition max_entries (s : side) : nat := match s with In => IO_BINDING_MAX_INPUTS | Out => IO_BINDING_MAX_OUTPUTS end.

Definition validate_address {N} (rules : pin_rules) (s : side) (id backend gpio instance endpoint : Z) (w : bindings N) : io_binding_result :=
  if negb (io_binding_backend_selectable_now backend s) then
    if io_binding_backend_is_mcp backend then IO_BINDING_RESULT_UNSUPPORTED_BACKEND else IO_BINDING_RESULT_INVALID_BACKEND
  else if negb (io_binding_backend_address_valid rules backend s gpio instance endpoint) then
    if io_binding_backend_is_gpio backend then IO_BINDING_RESULT_INVALID_GPIO else IO_BINDING_RESULT_INVALID_ENDPOINT
  else if address_in_use (entries s w) backend instance endpoint id || address_in_use (entries (other_side s) w) backend instance endpoint 0 then
    if io_binding_backend_is_gpio backend then IO_BINDING_RESULT_GPIO_CONFLICT else IO_BINDING_RESULT_ADDRESS_CONFLICT
  else IO_BINDING_RESULT_OK.

Section binding.
Context {N : Type} `{Nvs N} (rules : pin_rules).
Implicit Types w : bindings N.

Definition io_binding_find_input_entry (id : Z) w : option entry := lookup_entry (input_entries w) id.
Definition io_binding_find_output_entry (id : Z) w : option entry := lookup_entry (output_entries w) id.
Definition io_binding_has_input (id : Z) w : bool := has_entry (input_entries w) id.
Definition io_binding_has_output (id : Z) w : bool := has_entry (output_entries w) id.
Definition io_binding_validate_input_address : Z -> Z -> Z -> Z -> Z -> bindings N -> io_binding_result := validate_address rules In.
Definition io_binding_validate_output_address : Z -> Z -> Z -> Z -> Z -> bindings N -> io_binding_result := validate_address rules Out.

(** The outcome of a write is only logged. *)
Definition write_blob (s : side) (l : list entry) (n : N) : N :=
  let '(opened, n) := nvs_open_rw n in
  if opened : bool then
    let '(written, n) := nvs_set_blob (binding_blob s l) n in
    if written : bool then (nvs_commit n).2 else n
  else n.
Definition io_binding_persist_inputs w : bindings N := w <| input_nvs := write_blob In (input_entries w) (input_nvs w) |>.
Definition io_binding_persist_outputs w : bindings N := w <| output_nvs := write_blob Out (output_entries w) (output_nvs w) |>.
Definition persist (s : side) w : bindings N := match s with In => io_binding_persist_inputs w | Out => io_binding_persist_outputs w end.

(** ** Defaults *)

(** The native analog inputs: channel, pin, converter channel. *)
Definition analog_slots : list (Z * Z * Z) :=
  [(ENDAP_INPUT_ID 12, 34, 6); (ENDAP_INPUT_ID 13, 35, 7); (ENDAP_INPUT_ID 14, 36, 0); (ENDAP_INPUT_ID 15, 39, 3)].
Definition analog_bound (l : list entry) (id gpio : Z) : bool :=
  existsb (fun e => (e_id e =? id) || (e_backend e =? DEVICE_CHANNEL_BACKEND_GPIO) && (e_gpio e =? i16 gpio)) l.
(** The entries after the slots that are left, and whether one was added. *)
Fixpoint add_analog (slots : list (Z * Z * Z)) (l : list entry) : list entry * bool :=
  match slots with
  | [] => (l, false)
  | (id, gpio, endpoint) :: slots =>
    match profile_of In id with
    | None => add_analog slots l
    | Some (pin, name) =>
      if (pin =? GPIO_NUM_NC) || analog_bound l id gpio then add_analog slots l
      else if Nat.leb IO_BINDING_MAX_INPUTS (length l) then (l, false)
      else
        let e := prepare_entry In id (Some name) (Some (io_binding_default_role_for In)) DEVICE_CHANNEL_BACKEND_ADC_NATIVE gpio 0 endpoint name in
        ((add_analog slots (l ++ [e])).1, true)
    end
  end.
Definition io_binding_ensure_analog_inputs w : bindings N :=
  if Nat.leb IO_BINDING_MAX_INPUTS (length (input_entries w)) then w
  else
    let '(l, changed) := add_analog analog_slots (input_entries w) in
    let w := w <| input_entries := l |> in
    if changed : bool then io_binding_persist_inputs w else w.

Definition default_input_entry (c : Z * (Z * list Z)) : entry :=
  let '(id, (gpio, name)) := c in
  let '(backend, endpoint) := match adc_endpoint gpio with
                              | Some e => (DEVICE_CHANNEL_BACKEND_ADC_NATIVE, e)
                              | None => (DEVICE_CHANNEL_BACKEND_GPIO, gpio)
                              end in
  prepare_entry In id (Some name) (Some (io_binding_default_role_for In)) backend gpio 0 endpoint name.
Definition default_output_entry (c : Z * (Z * list Z)) : entry :=
  let '(id, (gpio, name)) := c in
  prepare_entry Out id (Some name) (Some (io_binding_default_role_for Out)) DEVICE_CHANNEL_BACKEND_GPIO gpio 0 gpio name.
Definition io_binding_apply_input_defaults w : bindings N :=
  io_binding_ensure_analog_inputs (w <| input_entries := default_input_entry <$> take IO_BINDING_MAX_INPUTS (default_channels In) |>).
Definition io_binding_apply_output_defaults w : bindings N :=
  w <| output_entries := default_output_entry <$> take IO_BINDING_MAX_OUTPUTS (default_channels Out) |>.

(** ** Loading *)

(** Versions 3 and 4: the table is replaced when every entry is good. *)
Definition load_blob_v3 (s : side) (b : list Z) w : bool * bindings N :=
  if negb ((field 0 4 b =? magic_of s) && ((field 4 2 b =? IO_BINDING_VERSION) || (field 4 2 b =? IO_BINDING_VERSION_V3))
           && (field 6 2 b <=? Z.of_nat (max_entries s)))
  then (false, w)
  else if stored_entries_valid rules s (entries_of b) then (true, put_entries s (entries_of b) w) else (false, w).
Definition io_binding_load_inputs_v3 := load_blob_v3 In.
Definition io_binding_load_outputs_v3 := load_blob_v3 Out.

(** The older versions: entry after entry, stopping at the first bad one with
    those before it in the table. *)
Definition entry_of_v2 (s : side) (b : list Z) : option entry :=
  let id := field 0 2 b in
  let gpio := i16 (field 2 2 b) in
  p ← profile_of s id;
  if match s with In => negb (gpio =? GPIO_NUM_NC) && negb (input_gpio_allowed rules gpio) | Out => negb (output_gpio_allowed rules gpio) end
  then None
  else Some (prepare_entry s id (Some (take 24 (drop 4 b))) (Some (take 24 (drop 28 b))) DEVICE_CHANNEL_BACKEND_GPIO gpio 0 gpio p.2).
Definition entry_of_v1 (s : side) (b : list Z) : option entry :=
  let id := field 0 2 b in
  p ← profile_of s id;
  Some (prepare_entry s id (Some (take 24 (drop 2 b))) (Some (take 24 (drop 26 b))) DEVICE_CHANNEL_BACKEND_GPIO p.1 0 p.1 p.2).
Fixpoint convert (f : list Z -> option entry) (slots : list (list Z)) : list entry * bool :=
  match slots with
  | [] => ([], true)
  | b :: slots => match f b with Some e => (e :: (convert f slots).1, (convert f slots).2) | None => ([], false) end
  end.
Definition load_blob_old (s : side) (version : Z) (size : nat) (f : list Z -> option entry) (b : list Z) w : bool * bindings N :=
  let w := put_entries s [] w in
  if negb ((field 0 4 b =? magic_of s) && (field 4 2 b =? version) && (field 6 2 b <=? Z.of_nat (max_entries s))) then (false, w)
  else
    let '(l, ok) := convert f ((fun i => array_slot 8 size i b) <$> seq 0 (Z.to_nat (field 6 2 b))) in
    let w := put_entries s l w in
    if ok : bool then (true, persist s w) else (false, w).
Definition load_blob_v2 (s : side) := load_blob_old s IO_BINDING_VERSION_V2 sizeof_entry_v2 (entry_of_v2 s).
Definition load_blob_v1 (s : side) := load_blob_old s IO_BINDING_VERSION_V1 sizeof_entry_v1 (entry_of_v1 s).
Definition io_binding_load_inputs_v2 := load_blob_v2 In.
Definition io_binding_load_outputs_v2 := load_blob_v2 Out.
Definition io_binding_load_inputs_v1 := load_blob_v1 In.
Definition io_binding_load_outputs_v1 := load_blob_v1 Out.

Definition load_entries (s : side) w : bindings N :=
  match nvs_get_blob (match s with In => input_nvs w | Out => output_nvs w end) with
  | None => w
  | Some b =>
    if Nat.eqb (length b) sizeof_binding_blob then if crc_valid sizeof_binding_blob b then (load_blob_v3 s b w).2 else w
    else if Nat.eqb (length b) sizeof_binding_blob_v2 then if crc_valid sizeof_binding_blob_v2 b then (load_blob_v2 s b w).2 else w
    else if Nat.eqb (length b) sizeof_binding_blob_v1 then if crc_valid sizeof_binding_blob_v1 b then (load_blob_v1 s b w).2 else w
    else w
  end.
Definition io_binding_load_inputs := load_entries In.
Definition io_binding_load_outputs := load_entries Out.

(** ** Conflicts and migration *)

(** Every entry of one side whose pin the other side uses goes back to its
    profile's pin. *)
Definition conflicts (s : side) (others : list entry) (e : entry) : bool :=
  match profile_of s (e_id e) with
  | Some _ => (e_backend e =? DEVICE_CHANNEL_BACKEND_GPIO) && address_in_use others DEVICE_CHANNEL_BACKEND_GPIO 0 (e_gpio e) 0
  | None => false
  end.
Definition to_profile_pin (s : side) (e : entry) : entry :=
  match profile_of s (e_id e) with Some (gpio, _) => e <| e_gpio := i16 gpio |> <| e_endpoint := i16 gpio |> | None => e end.
Definition resolve_side (s : side) (others l : list entry) : list entry :=
  (fun e => if conflicts s others e then to_profile_pin s e else e) <$> l.
Definition io_binding_resolve_cross_conflicts_after_load w : bindings N :=
  let changed_out := existsb (conflicts Out (input_entries w)) (output_entries w) in
  let w := w <| output_entries := resolve_side Out (input_entries w) (output_entries w) |> in
  let changed_in := existsb (conflicts In (output_entries w)) (input_entries w) in
  let w := w <| input_entries := resolve_side In (output_entries w) (input_entries w) |> in
  if negb (changed_out || changed_in) then w else io_binding_persist_outputs (io_binding_persist_inputs w).

Definition on_profile_pin (l : list entry) (c : Z * (Z * list Z)) : bool :=
  match lookup_entry l c.1 with
  | Some e => (e_backend e =? DEVICE_CHANNEL_BACKEND_GPIO) && (e_gpio e =? i16 c.2.1)
  | None => false
  end.
(** A GPIO input on pin 33 or on a pin of a GPIO output. *)
Definition misplaced_input (outs : list entry) (e : entry) : bool :=
  (e_backend e =? DEVICE_CHANNEL_BACKEND_GPIO)
  && ((e_gpio e =? 33)
      || existsb (fun o => (e_backend o =? DEVICE_CHANNEL_BACKEND_GPIO) && (e_gpio o =? e_gpio e) && negb (e_gpio e =? GPIO_NUM_NC)) outs).
Definition misplaced_output (e : entry) : bool := (e_backend e =? DEVICE_CHANNEL_BACKEND_GPIO) && (e_gpio e =? 26).
Definition migration_needed (ins outs : list entry) : bool :=
  Nat.ltb (length ins) (length (default_channels In)) || Nat.ltb (length outs) (length (default_channels Out))
  || negb (forallb (on_profile_pin ins) (default_channels In)) || negb (forallb (on_profile_pin outs) (default_channels Out))
  || existsb (misplaced_input outs) ins || existsb misplaced_output outs.
Definition io_binding_validate_and_migrate_nvs w : bindings N :=
  if negb (migration_needed (input_entries w) (output_entries w)) then w
  else io_binding_persist_outputs (io_binding_persist_inputs (io_binding_apply_output_defaults (io_binding_apply_input_defaults w))).

Definition io_binding_init w : bindings N :=
  let w := w <| gpio_restart_required := false |> in
  let w := io_binding_apply_input_defaults w in
  let w := io_binding_apply_output_defaults w in
  let w := io_binding_load_inputs w in
  let w := io_binding_ensure_analog_inputs w in
  let w := io_binding_load_outputs w in
  let w := io_binding_resolve_cross_conflicts_after_load w in
  io_binding_validate_and_migrate_nvs w.

(** ** Operations *)

(** The end of an addition: the address is validated and the entry appended. *)
Definition bind_entry (s : side) (id : Z) (name role : option (list Z)) (backend : Z) (profile_name : list Z) (gpio instance endpoint : Z) w
  : io_binding_result * bindings N :=
  match validate_address rules s id backend gpio instance endpoint w with
  | IO_BINDING_RESULT_OK =>
    let e := prepare_entry s id name role backend gpio instance endpoint profile_name in
    (IO_BINDING_RESULT_OK, persist s (put_entries s (entries s w ++ [e]) w <| gpio_restart_required := true |>))
  | r => (r, w)
  end.
Definition add_entry (s : side) (id : Z) (name role : option (list Z)) (backend gpio instance endpoint : Z) w : io_binding_result * bindings N :=
  match profile_of s id with
  | None => (IO_BINDING_RESULT_NOT_FOUND, w)
  | Some (_, profile_name) =>
    if has_entry (entries s w) id then (IO_BINDING_RESULT_ALREADY_ACTIVE, w)
    else if Nat.leb (max_entries s) (length (entries s w)) then (IO_BINDING_RESULT_LIMIT_REACHED, w)
    else
      let bind := bind_entry s id name role backend profile_name in
      if backend =? DEVICE_CHANNEL_BACKEND_GPIO then if gpio <? 0 then (IO_BINDING_RESULT_INVALID_GPIO, w) else bind gpio 0 gpio w
      else if backend =? DEVICE_CHANNEL_BACKEND_MCP23X17 then bind GPIO_NUM_NC instance endpoint w
      else (IO_BINDING_RESULT_INVALID_BACKEND, w)
  end.
Definition io_binding_add_input_ex := add_entry In.
Definition io_binding_add_output_ex := add_entry Out.
Definition io_binding_add_input (id : Z) (name role : option (list Z)) (gpio : Z) :=
  io_binding_add_input_ex id name role DEVICE_CHANNEL_BACKEND_GPIO gpio 0 gpio.
Definition io_binding_add_output (id : Z) (name role : option (list Z)) (gpio : Z) :=
  io_binding_add_output_ex id name role DEVICE_CHANNEL_BACKEND_GPIO gpio 0 gpio.

Definition remove_entry (s : side) (id : Z) w : io_binding_result * bindings N :=
  if is_protected s id then (IO_BINDING_RESULT_PROTECTED, w)
  else
    match find_idx (fun e => e_id e =? id) (entries s w) with
    | Some i => (IO_BINDING_RESULT_OK, persist s (put_entries s (delete i (entries s w)) w <| gpio_restart_required := true |>))
    | None => (IO_BINDING_RESULT_NOT_FOUND, w)
    end.
Definition io_binding_remove_input := remove_entry In.
Definition io_binding_remove_output := remove_entry Out.

(** The address a set asks for: what is not given is kept. *)
Definition resolve_address (s : side) (e : entry) (backend gpio instance endpoint : Z) : option (Z * Z * Z) :=
  let pin := if 0 <=? gpio then gpio else e_gpio e in
  if backend =? DEVICE_CHANNEL_BACKEND_GPIO then Some (pin, 0, pin)
  else if backend =? DEVICE_CHANNEL_BACKEND_MCP23X17 then
    Some (GPIO_NUM_NC, (if instance <? 0 then e_instance e else instance), (if endpoint <? 0 then e_endpoint e else endpoint))
  else
    match s with
    | In => if backend =? DEVICE_CHANNEL_BACKEND_ADC_NATIVE
            then Some (pin, (if instance <? 0 then 0 else instance), default endpoint (adc_endpoint pin)) else None
    | Out => None
    end.
Definition changed_address (e : entry) (backend gpio instance endpoint : Z) : bool :=
  negb (e_gpio e =? i16 gpio) || negb (e_backend e =? u8 backend) || negb (e_instance e =? i16 instance) || negb (e_endpoint e =? i16 endpoint).
Definition set_entry (s : side) (id : Z) (name role : option (list Z)) (backend gpio instance endpoint : Z) w : io_binding_result * bindings N :=
  match find_idx (fun e => e_id e =? id) (entries s w), profile_of s id with
  | Some i, Some (_, profile_name) =>
    match entries s w !! i with
    | None => (IO_BINDING_RESULT_NOT_FOUND, w)
    | Some e =>
      match resolve_address s e backend gpio instance endpoint with
      | None => (IO_BINDING_RESULT_INVALID_BACKEND, w)
      | Some (pin, inst, ep) =>
        match validate_address rules s id backend pin inst ep w with
        | IO_BINDING_RESULT_OK =>
          let w := if changed_address e backend pin inst ep then w <| gpio_restart_required := true |> else w in
          let e' := e <| e_gpio := i16 pin |> <| e_backend := u8 backend |> <| e_class := channel_class_of s backend |>
                      <| e_instance := i16 inst |> <| e_endpoint := i16 ep |>
                      <| e_name := io_binding_copy_text (default profile_name (given name)) |>
                      <| e_role := io_binding_copy_text (default (io_binding_default_role_for s) (given role)) |> in
          (IO_BINDING_RESULT_OK, persist s (put_entries s (<[i := e']> (entries s w)) w))
        | r => (r, w)
        end
      end
    end
  | _, _ => (IO_BINDING_RESULT_NOT_FOUND, w)
  end.
Definition io_binding_set_input_ex := set_entry In.
Definition io_binding_set_output_ex := set_entry Out.
Definition io_binding_set_input (id : Z) (name role : option (list Z)) (gpio : Z) :=
  io_binding_set_input_ex id name role DEVICE_CHANNEL_BACKEND_GPIO gpio 0 gpio.
Definition io_binding_set_output (id : Z) (name role : option (list Z)) (gpio : Z) :=
  io_binding_set_output_ex id name role DEVICE_CHANNEL_BACKEND_GPIO gpio 0 gpio.
Definition io_binding_reset_input (id : Z) w : io_binding_result * bindings N :=
  match profile_of In id with
  | None => (IO_BINDING_RESULT_NOT_FOUND, w)
  | Some (gpio, name) => io_binding_set_input id (Some name) (Some (io_binding_default_role_for In)) gpio w
  end.
Definition io_binding_reset_output (id : Z) w : io_binding_result * bindings N :=
  match profile_of Out id with
  | None => (IO_BINDING_RESULT_NOT_FOUND, w)
  | Some (gpio, name) => io_binding_set_output id (Some name) (Some (io_binding_default_role_for Out)) gpio w
  end.
End binding.

(** ** Queries *)

(** The identifiers written to the array, and the total. *)
Definition available (s : side) (l : list entry) (max_ids : option Z) : list Z * Z :=
  let all := List.filter (fun id => negb (has_entry l id)) (match s with In => local_input_ids | Out => local_output_ids end) in
  (match max_ids with Some m => take (Z.to_nat m) all | None => [] end, Z.of_nat (length all)).
Definition io_binding_available_inputs {N} (max_ids : option Z) (w : bindings N) := available In (input_entries w) max_ids.
Definition io_binding_available_outputs {N} (max_ids : option Z) (w : bindings N) := available Out (output_entries w) max_ids.

(** [io_binding_input_view_t] and [io_binding_output_view_t], without the
    description. *)
Record binding_view := BindingView {
  bv_id : Z; bv_gpio : Z; default_gpio : Z; bv_instance : Z; bv_endpoint : Z; bv_backend : Z; bv_class : Z;
  configurable_now : bool; expansion_path : bool; backend_name : list Z; address : list Z; bv_name : list Z; bv_role : list Z;
}.
Definition decimal_signed (x : Z) : list Z := if x <? 0 then 45 :: decimal (- x) else decimal x.
(** [io_binding_channel_address_text]: at most 31 characters and the zeros. *)
Definition address_text (backend instance endpoint gpio : Z) : list Z :=
  let text := if backend =? DEVICE_CHANNEL_BACKEND_GPIO then bytes_of "GPIO" ++ decimal_signed gpio
    else if backend =? DEVICE_CHANNEL_BACKEND_MCP23X17 then
      bytes_of "MCP" ++ decimal_signed instance ++ bytes_of ":" ++ bytes_of (io_binding_mcp_endpoint_label endpoint)
    else if backend =? DEVICE_CHANNEL_BACKEND_ADC_NATIVE then bytes_of "ADC" ++ decimal_signed endpoint
    else if backend =? DEVICE_CHANNEL_BACKEND_ADC_EXTERNAL then bytes_of "ADCX" ++ decimal_signed instance ++ bytes_of ":" ++ decimal_signed endpoint
    else bytes_of "N/A" in
  strncpy (replicate 32 0) text 31.
Definition get_view (s : side) (l : list entry) (id : Z) : option binding_view :=
  e ← lookup_entry l id; p ← profile_of s id;
  let local := (e_backend e =? DEVICE_CHANNEL_BACKEND_GPIO) || (e_backend e =? DEVICE_CHANNEL_BACKEND_MCP23X17) in
  Some (BindingView id (e_gpio e) p.1 (e_instance e) (e_endpoint e) (e_backend e) (e_class e) local
          (negb (e_backend e =? DEVICE_CHANNEL_BACKEND_GPIO)) (io_binding_copy_text (bytes_of (io_binding_backend_label (e_backend e))))
          (address_text (e_backend e) (e_instance e) (e_endpoint e) (e_gpio e)) (io_binding_copy_text (e_name e)) (io_binding_copy_text (e_role e))).
Definition io_binding_get_input {N} (id : Z) (w : bindings N) := get_view In (input_entries w) id.
Definition io_binding_get_output {N} (id : Z) (w : bindings N) := get_view Out (output_entries w) id.
(** [max] is [None] for an array that is [NULL]; slots the call does not fill are
    left out. *)
Definition export_views (s : side) (l : list entry) (max : option Z) : list binding_view * Z :=
  match max with
  | Some max =>
    if max <=? 0 then ([], Z.of_nat (length l))
    else (omap (fun e => get_view s l (e_id e)) (take (Z.to_nat max) l), Z.min (Z.of_nat (length l)) max)
  | None => ([], Z.of_nat (length l))
  end.
Definition io_binding_export_inputs {N} (max : option Z) (w : bindings N) := export_views In (input_entries w) max.
Definition io_binding_export_outputs {N} (max : option Z) (w : bindings N) := export_views Out (output_entries w) max.

(** Expanders: the channels active on each, and who holds each port. *)
Definition on_instance (instance : Z) (e : entry) : bool :=
  (e_backend e =? DEVICE_CHANNEL_BACKEND_MCP23X17) && (e_instance e =? instance).
Definition active_on (instance : Z) (l : list entry) : Z := Z.of_nat (length (List.filter (on_instance instance) l)).
Definition io_binding_export_mcp_instances {N} (max_instances : option Z) (w : bindings N) : list (Z * Z * Z) * Z :=
  let total := io_binding_mcp_instance_count in
  (match max_instances with
   | Some m => (fun i => let i := Z.of_nat i in (i, active_on i (input_entries w), active_on i (output_entries w)))
                 <$> seq 0 (Z.to_nat (Z.min total m))
   | None => []
   end, total).
Inductive holder := FreePort | InputPort (id : Z) | OutputPort (id : Z).
Definition port_holder {N} (instance endpoint : Z) (w : bindings N) : holder :=
  let at_port e := on_instance instance e && (e_endpoint e =? endpoint) in
  match hd_error (List.filter at_port (input_entries w)), hd_error (List.filter at_port (output_entries w)) with
  | Some e, _ => InputPort (e_id e)
  | None, Some e => OutputPort (e_id e)
  | None, None => FreePort
  end.
Definition io_binding_export_mcp_endpoints {N} (instance : Z) (max_endpoints : option Z) (w : bindings N) : list holder * Z :=
  if negb (io_binding_mcp_address_valid instance 0) then ([], 0)
  else
    (match max_endpoints with
     | Some m => (fun k => port_holder instance (Z.of_nat k) w) <$> seq 0 (Z.to_nat (Z.min mcp_channel_count m))
     | None => []
     end, mcp_channel_count).

(** The inventory of [device_profile.c] with the pins in use; the channel codes
    are left out. *)
Definition pin_input (gpio : Z) (e : entry) : bool :=
  ((e_backend e =? DEVICE_CHANNEL_BACKEND_GPIO) || (e_backend e =? DEVICE_CHANNEL_BACKEND_ADC_NATIVE)) && (e_gpio e =? gpio).
Definition pin_output (gpio : Z) (e : entry) : bool := (e_backend e =? DEVICE_CHANNEL_BACKEND_GPIO) && (e_gpio e =? gpio).
Definition inventory_use {N} (w : bindings N) (i : gpio_item) : gpio_item :=
  if gi_state i =? DEVICE_GPIO_STATE_RESERVED then i
  else
    match hd_error (List.filter (pin_input (gi_gpio i)) (input_entries w)), hd_error (List.filter (pin_output (gi_gpio i)) (output_entries w)) with
    | Some e, _ => i <| gi_state := DEVICE_GPIO_STATE_IN_USE_INPUT |> <| bound_id := e_id e |>
    | None, Some e => i <| gi_state := DEVICE_GPIO_STATE_IN_USE_OUTPUT |> <| bound_id := e_id e |>
    | None, None => i
    end.
Definition io_binding_export_gpio_inventory {N} (max_items : Z) (c : sensor_profile) (n : network_profile) (w : bindings N) : list gpio_item :=
  inventory_use w <$> device_profile_export_gpio_inventory max_items c n.

(** ** The blob and its round trip *)

Record typed_entry (e : entry) : Prop := {
  te_id : is_u16 (e_id e);
  te_gpio : is_i16 (e_gpio e);
  te_instance : is_i16 (e_instance e);
  te_endpoint : is_i16 (e_endpoint e);
  te_backend : is_u8 (e_backend e);
  te_class : is_u8 (e_class e);
  te_reserved : is_u16 (e_reserved e);
  te_name : length (e_name e) = IO_BINDING_NAME_LEN;
  te_role : length (e_role e) = IO_BINDING_ROLE_LEN;
}.

Lemma length_binding_entry e : typed_entry e -> length (binding_entry_bytes e) = sizeof_entry.
Proof. intros []. unfold binding_entry_bytes. by rewrite !length_app, length_pack, te_name0, te_role0. Qed.
Lemma entry_roundtrip e : typed_entry e -> binding_entry_of (binding_entry_bytes e) = e.
Proof.
  intros []. unfold binding_entry_of, binding_entry_bytes.
  assert (forall x, is_i16 x -> i16 (u16 x) = x) as Hi by (intros; word_lia).
  assert (forall x, 0 <= u16 x < 256 ^ Z.of_nat 2) as Hu by (intros; apply u16_range).
  rewrite (field_pack 0 (entry_members e) 2 (e_id e)), (field_pack 1 (entry_members e) 2 (u16 (e_gpio e))),
    (field_pack 2 (entry_members e) 2 (u16 (e_instance e))), (field_pack 3 (entry_members e) 2 (u16 (e_endpoint e))),
    (field_pack 4 (entry_members e) 1 (e_backend e)), (field_pack 5 (entry_members e) 1 (e_class e)),
    (field_pack 6 (entry_members e) 2 (e_reserved e)) by first [done | apply Hu].
  rewrite !Hi by done.
  rewrite (drop_app_length' (pack (entry_members e))) by (by rewrite length_pack).
  change 36%nat with (12 + 24)%nat. rewrite <- drop_drop, (drop_app_length' (pack (entry_members e))) by (by rewrite length_pack).
  rewrite (take_app_length' (e_name e)), (drop_app_length' (e_name e)), take_ge by (by rewrite ?te_name0, ?te_role0).
  by destruct e.
Qed.

Section blob.
Variables (s : side) (l : list entry).
Hypothesis l_typed : Forall typed_entry l.
Hypothesis l_short : (length l <= 16)%nat.

Definition blob_header : list Z := pack [(4%nat, magic_of s); (2%nat, IO_BINDING_VERSION); (2%nat, u16 (Z.of_nat (length l)))].
Lemma slots_sized : Forall (fun x => length x = sizeof_entry) (binding_entry_bytes <$> l).
Proof. apply Forall_fmap. eapply Forall_impl; [exact l_typed|]. intros e. apply length_binding_entry. Qed.
Lemma length_binding_body : length (binding_blob_body s l) = 968%nat.
Proof.
  unfold binding_blob_body. rewrite length_app, length_pack, (length_array_bytes 16 sizeof_entry); [done|exact slots_sized|]. by rewrite length_fmap.
Qed.
Lemma length_binding_blob : length (binding_blob s l) = sizeof_binding_blob.
Proof. unfold binding_blob. cbv zeta. by rewrite length_app, length_binding_body, length_le. Qed.
Lemma binding_blob_crc : crc_valid sizeof_binding_blob (binding_blob s l) = true.
Proof.
  unfold crc_valid, binding_blob. cbv zeta. change (sizeof_binding_blob - 4)%nat with 968%nat.
  rewrite <- length_binding_body, (take_app_length' (binding_blob_body s l)) by done. rewrite crc_at_end. apply Z.eqb_refl.
Qed.
Lemma binding_blob_header : field 0 4 (binding_blob s l) = magic_of s /\ field 4 2 (binding_blob s l) = IO_BINDING_VERSION
  /\ field 6 2 (binding_blob s l) = Z.of_nat (length l).
Proof.
  unfold binding_blob, binding_blob_body. cbv zeta. rewrite <- app_assoc. fold blob_header. unfold blob_header.
  set (ms := [(4%nat, magic_of s); (2%nat, IO_BINDING_VERSION); (2%nat, u16 (Z.of_nat (length l)))]).
  refine (conj _ (conj _ _)).
  - apply (field_pack 0 ms 4 (magic_of s)); [done|]. by destruct s.
  - by apply (field_pack 1 ms 2 IO_BINDING_VERSION).
  - rewrite <- (u16_id (Z.of_nat (length l))) by lia. apply (field_pack 2 ms 2); [done|apply u16_range].
Qed.
Lemma entries_of_blob : entries_of (binding_blob s l) = l.
Proof.
  unfold entries_of. destruct binding_blob_header as (_ & _ & ->). rewrite Nat2Z.id. apply list_eq. intros i.
  rewrite list_lookup_fmap. destruct (decide (i < length l)%nat) as [Hi|Hi].
  - rewrite lookup_seq_lt by done. destruct (lookup_lt_is_Some_2 l i Hi) as [e He]. rewrite He. cbn [fmap option_fmap option_map Nat.add]. f_equal.
    unfold binding_blob, binding_blob_body. cbv zeta. rewrite <- app_assoc. fold blob_header.
    change 8%nat with (length blob_header) at 1. rewrite (array_slot_app 16 sizeof_entry (binding_entry_bytes <$> l) blob_header _ i (binding_entry_bytes e));
      [|exact slots_sized|by rewrite list_lookup_fmap, He].
    apply entry_roundtrip. by eapply Forall_lookup_1.
  - rewrite lookup_seq_ge, lookup_ge_None_2 by lia. done.
Qed.
(** What the loader makes of a blob the code has written. *)
Lemma load_binding_blob {N} `{Nvs N} (rules : pin_rules) (w : bindings N) :
  nvs_get_blob (match s with In => input_nvs w | Out => output_nvs w end) = Some (binding_blob s l) ->
  load_entries rules s w = if stored_entries_valid rules s l then put_entries s l w else w.
Proof.
  intros Hg. unfold load_entries. rewrite Hg, length_binding_blob. cbn [Nat.eqb sizeof_binding_blob]. rewrite binding_blob_crc.
  unfold load_blob_v3. destruct binding_blob_header as (-> & -> & ->). rewrite entries_of_blob, !Z.eqb_refl. cbn [andb orb].
  assert ((Z.of_nat (length l) <=? Z.of_nat (max_entries s)) = true) as ->
    by (unfold max_entries, IO_BINDING_MAX_INPUTS, IO_BINDING_MAX_OUTPUTS; destruct s; apply Z.leb_le; apply inj_le; exact l_short).
  cbn [negb].
  by destruct (stored_entries_valid rules s l).
Qed.
End blob.

(** ** Start-up

    [default_inputs]: the six default channels and the four analog inputs. *)

Definition default_inputs : list entry := (add_analog analog_slots (default_input_entry <$> default_channels In)).1.
Definition default_outputs : list entry := default_output_entry <$> default_channels Out.

Lemma default_inputs_typed : Forall typed_entry default_inputs.
Proof. repeat constructor; by vm_compute. Qed.
Lemma default_outputs_typed : Forall typed_entry default_outputs.
Proof. repeat constructor; by vm_compute. Qed.

Section boot.
Context {N : Type} `{Nvs N, !NvsLaws N} (rules : pin_rules).
Implicit Types w : bindings N.

Lemma add_analog_defaults : add_analog analog_slots (default_input_entry <$> take IO_BINDING_MAX_INPUTS (default_channels In)) = (default_inputs, true).
Proof. by vm_compute. Qed.
Lemma input_defaults_eq w : io_binding_apply_input_defaults w = io_binding_persist_inputs (w <| input_entries := default_inputs |>).
Proof.
  unfold io_binding_apply_input_defaults, io_binding_ensure_analog_inputs. cbn [input_entries update]. by rewrite add_analog_defaults.
Qed.
Lemma output_defaults_eq w : io_binding_apply_output_defaults w = w <| output_entries := default_outputs |>.
Proof. done. Qed.
(** With the defaults in the table, no slot is added. *)
Lemma ensure_idle w : input_entries w = default_inputs -> io_binding_ensure_analog_inputs w = w.
Proof.
  intros Hi. unfold io_binding_ensure_analog_inputs. rewrite Hi. assert (add_analog analog_slots default_inputs = (default_inputs, false)) as -> by by vm_compute.
  change (Nat.leb IO_BINDING_MAX_INPUTS (length default_inputs)) with false. cbv iota. rewrite <- Hi. by destruct w.
Qed.

(** Whatever the flash holds, after start-up the twelve default channels are
    on the pins of the device profile, no pin is both an input and an output, no
    input is on pin 33 and no output on pin 26: a default channel that was moved
    is back, whatever was answered when it was moved. *)
Theorem boot_pins_safe (fi fo : N) :
  let w := io_binding_init rules (bindings_boot fi fo) in
  (forall c, c ∈ default_channels In -> on_profile_pin (input_entries w) c = true) /\
  (forall c, c ∈ default_channels Out -> on_profile_pin (output_entries w) c = true) /\
  (forall e f, e ∈ input_entries w -> f ∈ output_entries w -> e_backend e = DEVICE_CHANNEL_BACKEND_GPIO -> e_backend f = DEVICE_CHANNEL_BACKEND_GPIO ->
     e_gpio e = e_gpio f -> e_gpio e = GPIO_NUM_NC) /\
  (forall e, e ∈ input_entries w -> e_backend e = DEVICE_CHANNEL_BACKEND_GPIO -> e_gpio e <> 33) /\
  (forall f, f ∈ output_entries w -> e_backend f = DEVICE_CHANNEL_BACKEND_GPIO -> e_gpio f <> 26).
Proof.
  intros w.
  assert (migration_needed (input_entries w) (output_entries w) = false) as Hm.
  { unfold w, io_binding_init. cbv zeta. unfold io_binding_validate_and_migrate_nvs. set (w' := io_binding_resolve_cross_conflicts_after_load _).
    destruct (migration_needed (input_entries w') (output_entries w')) eqn:E; cbn [negb]; [|exact E].
    rewrite input_defaults_eq, output_defaults_eq. by vm_compute. }
  clearbody w. unfold migration_needed in Hm.
  apply orb_false_elim in Hm as [[[[_ Di]%orb_false_elim Do]%orb_false_elim Mi]%orb_false_elim Mo].
  apply negb_false_iff in Di, Do. rewrite forallb_forall in Di, Do.
  assert (forall e, e ∈ input_entries w -> misplaced_input (output_entries w) e = false) as Mi'.
  { intros e He. apply not_true_is_false. intros Ht. assert (existsb (misplaced_input (output_entries w)) (input_entries w) = true) as Hx; [|congruence].
    apply existsb_exists. exists e. by rewrite <- list_elem_of_In. }
  refine (conj _ (conj _ (conj _ (conj _ _)))).
  - intros c Hc. by apply Di, list_elem_of_In.
  - intros c Hc. by apply Do, list_elem_of_In.
  - intros e f He Hf Hbe Hbf Hg. specialize (Mi' e He). unfold misplaced_input in Mi'. rewrite Hbe, Z.eqb_refl in Mi'. cbn [andb] in Mi'.
    apply orb_false_elim in Mi' as [_ Mi']. destruct (Z.eqb_spec (e_gpio e) GPIO_NUM_NC) as [|Hne]; [done|]. exfalso.
    match type of Mi' with existsb ?p _ = _ => assert (existsb p (output_entries w) = true) as Hx; [|congruence] end.
    apply existsb_exists. exists f. rewrite <- list_elem_of_In. split; [done|]. by rewrite Hbf, Hg, !Z.eqb_refl.
  - intros e He Hbe Hg. specialize (Mi' e He). unfold misplaced_input in Mi'. by rewrite Hbe, Hg in Mi'.
  - intros f Hf Hbf Hg. assert (existsb misplaced_output (output_entries w) = true) as Hx; [|congruence].
    apply existsb_exists. exists f. rewrite <- list_elem_of_In. split; [done|]. unfold misplaced_output. by rewrite Hbf, Hg.
Qed.

(** With flash that takes every write. *)
Section writes.
Context `{!NvsReliable N}.

Lemma write_blob_read s l (n : N) : nvs_get_blob (write_blob s l n) = Some (binding_blob s l).
Proof.
  unfold write_blob. pose proof (open_succeeds n) as Ho. destruct (nvs_open_rw n) as [opened n1]. cbn in Ho. subst opened.
  pose proof (set_succeeds (binding_blob s l) n1) as Hs. destruct (nvs_set_blob (binding_blob s l) n1) as [written n2] eqn:E. cbn in Hs. subst written.
  apply (nvs_commit_durable _ _ _ E). apply commit_succeeds.
Qed.

(** The tables when start-up looks for conflicts. *)
Lemma load_outputs_inputs w : input_entries (load_entries rules Out w) = input_entries w.
Proof.
  unfold load_entries, load_blob_v3, load_blob_v2, load_blob_v1, load_blob_old. destruct (nvs_get_blob (output_nvs w)) as [b|]; [|done].
  repeat case_match; done.
Qed.
Lemma inputs_loaded w : load_entries rules In (io_binding_persist_inputs (w <| input_entries := default_inputs |>))
  = io_binding_persist_inputs (w <| input_entries := default_inputs |>).
Proof.
  rewrite (load_binding_blob In default_inputs default_inputs_typed ltac:(by vm_compute; lia)) by apply write_blob_read.
  by case_match.
Qed.
Lemma inputs_resolved w : input_entries w = default_inputs ->
  input_entries (io_binding_resolve_cross_conflicts_after_load w) = default_inputs.
Proof.
  intros Hi. unfold io_binding_resolve_cross_conflicts_after_load. cbv zeta. cbn [input_entries output_entries update].
  match goal with |- input_entries (if _ then ?a else _) = _ => transitivity (input_entries a); [by case_match|] end.
  cbn [input_entries update]. rewrite Hi. set (o := resolve_side Out _ _).
  unfold resolve_side. rewrite <- (map_id default_inputs) at 2. apply map_ext_in. intros e He. unfold conflicts.
  assert (to_profile_pin In e = e \/ (e_backend e =? DEVICE_CHANNEL_BACKEND_GPIO) = false) as Hp.
  { clear - He. cbn in He. repeat (destruct He as [<-|He]; [first [left; by vm_compute | right; by vm_compute]|]). done. }
  destruct (profile_of In (e_id e)); [|done]. destruct Hp as [->| ->]; [by case_match|done].
Qed.

Definition loaded_outputs (fo : N) : list entry := output_entries (load_entries rules Out (bindings_boot fo fo <| output_entries := default_outputs |>)).
Lemma load_outputs_output w : output_entries w = default_outputs -> output_entries (load_entries rules Out w) = loaded_outputs (output_nvs w).
Proof.
  intros Hw. unfold loaded_outputs, load_entries, load_blob_v3, load_blob_v2, load_blob_v1, load_blob_old. cbn [output_nvs update bindings_boot].
  destruct (nvs_get_blob (output_nvs w)) as [b|]; [|done]. repeat case_match; done.
Qed.
(** Start-up, as a function of the stored outputs. *)
Lemma boot_tables (fi fo : N) : let w := io_binding_init rules (bindings_boot fi fo) in
  input_entries w = default_inputs /\
  output_entries w = (let o := resolve_side Out default_inputs (loaded_outputs fo) in if migration_needed default_inputs o then default_outputs else o).
Proof.
  unfold io_binding_init. cbv zeta. rewrite input_defaults_eq, output_defaults_eq.
  set (w := bindings_boot fi fo <| gpio_restart_required := false |> <| output_entries := default_outputs |>).
  change (io_binding_persist_inputs _ <| output_entries := default_outputs |>) with (io_binding_persist_inputs (w <| input_entries := default_inputs |>)).
  unfold io_binding_load_inputs, io_binding_load_outputs. rewrite inputs_loaded, ensure_idle by done.
  set (w1 := load_entries rules Out _). assert (input_entries w1 = default_inputs) as H1 by (unfold w1; by rewrite load_outputs_inputs).
  assert (output_entries w1 = loaded_outputs fo) as H2 by (unfold w1; by rewrite load_outputs_output).
  pose proof (inputs_resolved w1 H1) as H3. set (w2 := io_binding_resolve_cross_conflicts_after_load w1) in *.
  assert (output_entries w2 = resolve_side Out default_inputs (loaded_outputs fo)) as H4.
  { unfold w2, io_binding_resolve_cross_conflicts_after_load. cbv zeta. rewrite H1, H2. by case_match. }
  unfold io_binding_validate_and_migrate_nvs. rewrite H3, H4. destruct (migration_needed _ _); cbn [negb]; [|done].
  rewrite input_defaults_eq, output_defaults_eq. done.
Qed.
End writes.
End boot.

(** ** No digital address is bound twice *)

Definition digital (e : entry) : bool := io_binding_backend_is_gpio (e_backend e) || io_binding_backend_is_mcp (e_backend e).
(** Two entries on one digital address.  A channel without a pin has none. *)
Definition clash (e f : entry) : bool :=
  digital e && negb (e_endpoint e =? GPIO_NUM_NC) && same_address (e_backend e) (e_instance e) (e_endpoint e) f.

Record binding_ok (s : side) (e : entry) : Prop := {
  eo_typed : typed_entry e;
  eo_valid : is_valid_channel s (e_id e) = true;
  eo_gpio : e_backend e = DEVICE_CHANNEL_BACKEND_GPIO -> e_instance e = 0 /\ e_endpoint e = e_gpio e /\ -1 <= e_gpio e < 40;
  eo_output : s = Out -> digital e = true;
  eo_mcp : e_backend e = DEVICE_CHANNEL_BACKEND_MCP23X17 -> io_binding_mcp_address_valid (e_instance e) (e_endpoint e) = true;
  eo_unwired : e_backend e = DEVICE_CHANNEL_BACKEND_GPIO -> e_gpio e = GPIO_NUM_NC -> exists name, profile_of s (e_id e) = Some (GPIO_NUM_NC, name);
}.
Record binding_table_ok (s : side) (l : list entry) : Prop := {
  to_entries : Forall (binding_ok s) l;
  to_ids : NoDup (e_id <$> l);
  to_exclusive : forall i j e f, l !! i = Some e -> l !! j = Some f -> i <> j -> clash e f = false;
  to_short : (length l <= 16)%nat;
}.
Record bindings_ok {N} (w : bindings N) : Prop := {
  tk_side : forall s, binding_table_ok s (entries s w);
  tk_cross : forall e f, e ∈ input_entries w -> f ∈ output_entries w -> clash e f = false;
}.

Lemma clash_sym e f : clash e f = clash f e.
Proof.
  unfold clash, same_address, digital.
  destruct (Z.eqb_spec (e_backend f) (e_backend e)) as [->|Hb].
  - rewrite Z.eqb_refl. destruct (Z.eqb_spec (e_instance f) (e_instance e)) as [->|Hi].
    + rewrite Z.eqb_refl. destruct (Z.eqb_spec (e_endpoint f) (e_endpoint e)) as [->|He]; [by rewrite Z.eqb_refl|].
      destruct (Z.eqb_spec (e_endpoint e) (e_endpoint f)); [congruence|]. by rewrite !andb_false_r.
    + destruct (Z.eqb_spec (e_instance e) (e_instance f)); [congruence|]. by rewrite !andb_false_r.
  - destruct (Z.eqb_spec (e_backend e) (e_backend f)); [congruence|]. by rewrite !andb_false_r.
Qed.

Lemma profile_of_valid s id p : profile_of s id = Some p -> is_valid_channel s id = true /\ is_u16 id.
Proof.
  destruct s; cbn [profile_of is_valid_channel].
  - destruct (device_profile_find_input id) as [q|] eqn:E; [|done]. intros _. split; [by unfold device_profile_is_valid_input; rewrite E|].
    apply find_input_range in E. lia.
  - destruct (device_profile_find_output id) as [q|] eqn:E; [|done]. intros _. split; [by unfold device_profile_is_valid_output; rewrite E|].
    apply find_output_range in E. lia.
Qed.
Lemma copy_text_length24 src : length (io_binding_copy_text src) = 24%nat.
Proof. unfold io_binding_copy_text. rewrite length_strncpy, length_replicate; [done|rewrite length_replicate; lia]. Qed.

(** The pins the device profile allows are pins of the chip. *)
Lemma device_rules_pins c n s g : gpio_allowed (device_rules c n) s g = true -> 0 <= g < 40.
Proof.
  assert (forall l, forallb (fun o => (0 <=? o) && (o <? 40)) l = true -> device_profile_gpio_is_listed l g = true -> 0 <= g < 40) as Hl.
  { intros l Hl (o & Ho & ->%Z.eqb_eq)%existsb_exists. rewrite forallb_forall in Hl. specialize (Hl g Ho). lia. }
  destruct s; cbn; intros [[? _]%andb_prop _]%andb_prop; (eapply Hl; [|eassumption]; by vm_compute).
Qed.

(** What a successful validation says of the entry that is then written. *)
Section validated.
Context {N : Type} (c : sensor_profile) (n : network_profile).
Variables (s : side) (w : bindings N) (id backend gpio instance endpoint : Z).
Hypothesis valid : validate_address (device_rules c n) s id backend gpio instance endpoint w = IO_BINDING_RESULT_OK.
Hypothesis gpio_address : backend = DEVICE_CHANNEL_BACKEND_GPIO -> instance = 0 /\ endpoint = gpio.

Lemma validated_parts : io_binding_backend_selectable_now backend s = true /\
  io_binding_backend_address_valid (device_rules c n) backend s gpio instance endpoint = true /\
  address_in_use (entries s w) backend instance endpoint id = false /\ address_in_use (entries (other_side s) w) backend instance endpoint 0 = false.
Proof.
  revert valid. unfold validate_address. destruct (io_binding_backend_selectable_now backend s); cbn [negb]; [|by case_match].
  destruct (io_binding_backend_address_valid _ _ _ _ _ _); cbn [negb]; [|by case_match].
  destruct (address_in_use (entries s w) _ _ _ _); cbn [orb]; [by case_match|]. destruct (address_in_use _ _ _ _ 0); [by case_match|]. done.
Qed.
Lemma backend_cases : backend = DEVICE_CHANNEL_BACKEND_GPIO /\ 0 <= gpio < 40 /\ instance = 0 /\ endpoint = gpio
  \/ backend = DEVICE_CHANNEL_BACKEND_MCP23X17 /\ 0 <= instance < 2 /\ 0 <= endpoint < 16
  \/ s = In /\ backend = DEVICE_CHANNEL_BACKEND_ADC_NATIVE.
Proof.
  destruct validated_parts as (_ & Ha & _ & _). unfold io_binding_backend_address_valid in Ha.
  destruct (Z.eqb_spec backend DEVICE_CHANNEL_BACKEND_GPIO) as [Hb|_].
  { left. destruct (gpio_address Hb). split; [done|]. split; [by eapply device_rules_pins|done]. }
  destruct (Z.eqb_spec backend DEVICE_CHANNEL_BACKEND_MCP23X17) as [Hb|_].
  { right. left. split; [done|]. apply andb_prop in Ha as [_ Ha]. unfold io_binding_mcp_address_valid in Ha.
    change io_binding_mcp_instance_count with 2 in Ha. change mcp_channel_count with 16 in Ha. cbn [negb supports_mcp23x17] in Ha. lia. }
  destruct (Z.eqb_spec backend DEVICE_CHANNEL_BACKEND_ADC_NATIVE) as [Hb|_]; [|done]. right. right. by destruct s.
Qed.

Variable e : entry.
Hypothesis e_at : e_id e = id /\ e_gpio e = i16 gpio /\ e_instance e = i16 instance /\ e_endpoint e = i16 endpoint /\ e_backend e = u8 backend.

Lemma written_backend : e_backend e = backend.
Proof. destruct e_at as (_&_&_&_& ->). destruct backend_cases as [(-> & _)|[(-> & _)|(_ & ->)]]; done. Qed.
Lemma written_digital : digital e = true -> e_instance e = instance /\ e_endpoint e = endpoint.
Proof.
  unfold digital. rewrite written_backend. destruct e_at as (_&_& -> & -> &_).
  destruct backend_cases as [(-> & Hg & -> & ->)|[(-> & Hi & He)|(_ & ->)]]; [..|done]; intros _; by rewrite !i16_id by lia.
Qed.
Lemma written_ok : typed_entry e -> is_valid_channel s id = true -> binding_ok s e.
Proof.
  intros Ht Hv. destruct e_at as (Hid & Hg & Hi & He & _). split; [done|by rewrite Hid| | | |].
  - rewrite written_backend. intros Hb. destruct (gpio_address Hb) as [Hi0 He0].
    destruct backend_cases as [(_ & Hr & _)|[(Hb' & _)|(_ & Hb')]]; [|by rewrite Hb in Hb'..].
    rewrite Hi, He, Hg, Hi0, He0. split; [done|]. split; [done|]. rewrite i16_id by lia. lia.
  - intros Hs. unfold digital. rewrite written_backend. destruct backend_cases as [(-> & _)|[(-> & _)|(Hin & _)]]; [done..|congruence].
  - rewrite written_backend. intros Hb. destruct backend_cases as [(Hb' & _)|[(_ & Hin & Hen)|(_ & Hb')]]; [by rewrite Hb in Hb'| |by rewrite Hb in Hb'].
    rewrite Hi, He, !i16_id by lia. unfold io_binding_mcp_address_valid. change io_binding_mcp_instance_count with 2. change mcp_channel_count with 16. cbn [negb supports_mcp23x17]. lia.
  - rewrite written_backend, Hg. intros Hb Hnc. exfalso. destruct backend_cases as [(_ & Hr & _)|[(Hb' & _)|(_ & Hb')]]; [|by rewrite Hb in Hb'..].
    rewrite i16_id in Hnc by lia. unfold GPIO_NUM_NC in Hnc. lia.
Qed.
(** It clashes with no other entry of its table and none of the other table. *)
Lemma written_no_clash f : (f ∈ entries s w /\ e_id f <> id) \/ (f ∈ entries (other_side s) w /\ e_id f <> 0) -> clash e f = false.
Proof.
  intros Hf. unfold clash. destruct (digital e) eqn:Hd; [|done]. cbn [andb]. destruct (written_digital Hd) as [-> ->]. rewrite written_backend.
  assert (forall l ign, address_in_use l backend instance endpoint ign = false -> f ∈ l -> e_id f <> ign -> same_address backend instance endpoint f = false) as Hu.
  { intros l ign Hl Hin Hne. apply not_true_is_false. intros Hs. assert (address_in_use l backend instance endpoint ign = true) as Hx; [|congruence].
    apply existsb_exists. exists f. rewrite <- list_elem_of_In. split; [done|]. rewrite Hs, andb_true_r. destruct (Z.eqb_spec (e_id f) ign); done. }
  destruct validated_parts as (_ & _ & Hown & Hother).
  destruct Hf as [[Hin Hne]|[Hin Hne]]; [rewrite (Hu _ _ Hown Hin Hne)|rewrite (Hu _ _ Hother Hin Hne)]; apply andb_false_r.
Qed.
End validated.

(** The three ways a table changes. *)
Lemma table_snoc s l e : binding_table_ok s l -> (length l < 16)%nat -> binding_ok s e -> (forall f, f ∈ l -> e_id f <> e_id e) ->
  (forall f, f ∈ l -> clash e f = false) -> binding_table_ok s (l ++ [e]).
Proof.
  intros [He Hi Hx _] Hl Hok Hid Hc. split.
  - apply Forall_app. split; [done|by constructor].
  - rewrite fmap_app. apply NoDup_app. split; [done|]. split; [|by apply NoDup_singleton].
    intros x Hx' ->%list_elem_of_singleton. apply list_elem_of_fmap in Hx' as (f & Hf & Hin). by apply (Hid f Hin).
  - intros i j f g Hf Hg Hij.
    destruct (decide (i < length l)%nat) as [Hil|Hil]; [rewrite lookup_app_l in Hf by done|apply lookup_snoc_Some in Hf as [[? _]|[-> <-]]; [lia|]];
      (destruct (decide (j < length l)%nat) as [Hjl|Hjl]; [rewrite lookup_app_l in Hg by done|apply lookup_snoc_Some in Hg as [[? _]|[-> <-]]; [lia|]]).
    + by eapply Hx.
    + rewrite clash_sym. apply Hc. by eapply list_elem_of_lookup_2.
    + apply Hc. by eapply list_elem_of_lookup_2.
    + done.
  - rewrite length_app. cbn. lia.
Qed.
Lemma table_delete s l i : binding_table_ok s l -> binding_table_ok s (delete i l).
Proof.
  intros [He Hi Hx Hl]. split.
  - by apply Forall_delete.
  - rewrite list_fmap_delete. eapply sublist_NoDup; [exact Hi|apply sublist_delete].
  - intros j k f g Hf Hg Hjk. rewrite list_lookup_delete in Hf, Hg.
    repeat case_decide; (eapply Hx; [exact Hf|exact Hg|lia]).
  - etransitivity; [apply sublist_length, sublist_delete|done].
Qed.
Lemma table_insert s l i e e0 : binding_table_ok s l -> l !! i = Some e0 -> e_id e = e_id e0 -> binding_ok s e ->
  (forall f, f ∈ l -> e_id f <> e_id e -> clash e f = false) -> binding_table_ok s (<[i := e]> l).
Proof.
  intros [He Hi Hx Hl] H0 Hid Hok Hc.
  assert (e_id <$> <[i := e]> l = e_id <$> l) as Hids.
  { rewrite list_fmap_insert, Hid. apply list_insert_id. by rewrite list_lookup_fmap, H0. }
  assert (forall k f, k <> i -> l !! k = Some f -> clash e f = false) as Hc'.
  { intros k f Hk Hf. apply Hc; [by eapply list_elem_of_lookup_2|]. rewrite Hid. intros Heq. apply Hk.
    eapply (NoDup_lookup (e_id <$> l)); [done|rewrite list_lookup_fmap, Hf; done|by rewrite list_lookup_fmap, H0, Heq]. }
  assert (forall k f, <[i := e]> l !! k = Some f -> k = i /\ f = e \/ k <> i /\ l !! k = Some f) as Hlk.
  { intros k f Hf. apply list_lookup_insert_Some in Hf as [(-> & <- & _)|[? ?]]; [by left|by right]. }
  split; [by apply Forall_insert|by rewrite Hids| |by rewrite length_insert].
  intros j k f g [[-> ->]|[Hj Hf]]%Hlk [[-> ->]|[Hk Hg]]%Hlk Hjk; [done|by eapply Hc'| |by eapply Hx].
  rewrite clash_sym. by eapply Hc'.
Qed.

(** ** Calls *)

Inductive binding_call :=
  | AddEntry (s : side) (id : Z) (name role : option (list Z)) (backend gpio instance endpoint : Z)
  | RemoveEntry (s : side) (id : Z)
  | SetEntry (s : side) (id : Z) (name role : option (list Z)) (backend gpio instance endpoint : Z)
  | ResetEntry (s : side) (id : Z).
Section calls.
Context {N : Type} `{Nvs N}.
Implicit Types w : bindings N.

Definition run_binding (rules : pin_rules) (c : binding_call) w : io_binding_result * bindings N :=
  match c with
  | AddEntry s id name role backend gpio instance endpoint => add_entry rules s id name role backend gpio instance endpoint w
  | RemoveEntry s id => remove_entry s id w
  | SetEntry s id name role backend gpio instance endpoint => set_entry rules s id name role backend gpio instance endpoint w
  | ResetEntry In id => io_binding_reset_input rules id w
  | ResetEntry Out id => io_binding_reset_output rules id w
  end.
(** The sensors and the network may change between calls. *)
Fixpoint run_bindings (cs : list (sensor_profile * network_profile * binding_call)) w : bindings N :=
  match cs with
  | [] => w
  | (c, n, call) :: cs => run_bindings cs (run_binding (device_rules c n) call w).2
  end.

Lemma entries_persist s t w : entries t (persist s w) = entries t w.
Proof. by destruct s, t. Qed.
Lemma entries_put s l w : entries s (put_entries s l w) = l.
Proof. by destruct s. Qed.
Lemma entries_put_other s l w : entries (other_side s) (put_entries s l w) = entries (other_side s) w.
Proof. by destruct s. Qed.
Lemma cross_ok w : bindings_ok w -> forall s e f, e ∈ entries s w -> f ∈ entries (other_side s) w -> clash e f = false.
Proof. intros [_ Hc] [] e f He Hf; [by apply Hc|]. rewrite clash_sym. by apply Hc. Qed.
(** A new table for one side. *)
Lemma put_tables s l w w' : bindings_ok w -> entries s w' = l -> entries (other_side s) w' = entries (other_side s) w -> binding_table_ok s l ->
  (forall e f, e ∈ l -> f ∈ entries (other_side s) w -> clash e f = false) -> bindings_ok w'.
Proof.
  intros Hw Hl Ho Ht Hc. split.
  - intros t. destruct (decide (t = s)) as [->|]; [by rewrite Hl|]. assert (t = other_side s) as -> by (by destruct s, t). rewrite Ho. apply Hw.
  - intros e f He Hf. destruct s; cbn in *; rewrite ?Hl, ?Ho in *; [by apply Hc|]. rewrite clash_sym. by apply Hc.
Qed.
Lemma table_ids s l f : binding_table_ok s l -> f ∈ l -> is_valid_channel s (e_id f) = true.
Proof. intros [He _ _ _] Hf. rewrite Forall_forall in He. apply (eo_valid s f), He, Hf. Qed.
Lemma id_nonzero s id : is_valid_channel s id = true -> id <> 0.
Proof. destruct s; cbn; intros Hv ->; by vm_compute in Hv. Qed.

Lemma bind_tables c n s id name role backend pname gpio instance endpoint w p : bindings_ok w -> profile_of s id = Some p ->
  has_entry (entries s w) id = false -> (length (entries s w) < 16)%nat ->
  (backend = DEVICE_CHANNEL_BACKEND_GPIO -> instance = 0 /\ endpoint = gpio) ->
  bindings_ok (bind_entry (device_rules c n) s id name role backend pname gpio instance endpoint w).2.
Proof.
  intros Hw Hp Hh Hlen Hg. unfold bind_entry.
  destruct (validate_address (device_rules c n) s id backend gpio instance endpoint w) eqn:Hv; try done.
  set (e := prepare_entry _ _ _ _ _ _ _ _ _). cbv zeta. cbn [snd].
  destruct (profile_of_valid s id _ Hp) as [Hvalid Hu].
  assert (e_id e = id /\ e_gpio e = i16 gpio /\ e_instance e = i16 instance /\ e_endpoint e = i16 endpoint /\ e_backend e = u8 backend) as He
    by (unfold e, prepare_entry; cbn [e_id e_gpio e_instance e_endpoint e_backend]; by rewrite u16_id).
  assert (typed_entry e) as Ht.
  { split; try apply i16_range; try apply copy_text_length24; [apply u16_range|apply u8_range|destruct s; cbn; [by case_match|done]|done]. }
  assert (forall f, f ∈ entries s w -> e_id f <> id) as Hid.
  { intros f Hf Heq. assert (has_entry (entries s w) id = true) as Hx; [|congruence].
    apply existsb_exists. exists f. rewrite <- list_elem_of_In. split; [done|]. by apply Z.eqb_eq. }
  pose proof (written_ok c n s w id backend gpio instance endpoint Hv Hg e He Ht Hvalid) as Hok.
  pose proof (fun f => written_no_clash c n s w id backend gpio instance endpoint Hv Hg e He f) as Hc.
  apply (put_tables s (entries s w ++ [e]) w); [done|by rewrite entries_persist; destruct s|by rewrite entries_persist; destruct s| |].
  - apply table_snoc; [apply Hw|done|done| |]; intros f Hf; [destruct He as [-> _]; by apply Hid|]. apply Hc. left. split; [done|by apply Hid].
  - intros f g [Hf| ->%list_elem_of_singleton]%elem_of_app Hgf; [by eapply cross_ok|]. apply Hc. right. split; [done|].
    eapply id_nonzero, table_ids; [apply Hw|exact Hgf].
Qed.
Lemma add_tables c n s id name role backend gpio instance endpoint w : bindings_ok w ->
  bindings_ok (add_entry (device_rules c n) s id name role backend gpio instance endpoint w).2.
Proof.
  intros Hw. unfold add_entry. destruct (profile_of s id) as [[pin pname]|] eqn:Hp; [|done].
  destruct (has_entry (entries s w) id) eqn:Hh; [done|]. destruct (Nat.leb_spec (max_entries s) (length (entries s w))) as [|Hlen]; [done|].
  assert (length (entries s w) < 16)%nat as Hl by (destruct s; exact Hlen). cbv zeta.
  destruct (Z.eqb_spec backend DEVICE_CHANNEL_BACKEND_GPIO) as [Hb0|Hb0]; [case_match; [done|]; by eapply bind_tables|].
  destruct (Z.eqb_spec backend DEVICE_CHANNEL_BACKEND_MCP23X17); [|done]. by eapply bind_tables.
Qed.
Lemma remove_tables s id w : bindings_ok w -> bindings_ok (remove_entry s id w).2.
Proof.
  intros Hw. unfold remove_entry. case_match; [done|]. destruct (find_idx _ _) as [i|]; [|done]. cbn [snd].
  apply (put_tables s (delete i (entries s w)) w); [done|by rewrite entries_persist; destruct s|by rewrite entries_persist; destruct s| |].
  - apply table_delete, Hw.
  - intros e f He Hf. eapply cross_ok; [done| |exact Hf]. apply list_elem_of_lookup in He as [k Hk]. rewrite list_lookup_delete in Hk. by eapply list_elem_of_lookup_2.
Qed.
Lemma set_tables c n s id name role backend gpio instance endpoint w : bindings_ok w ->
  bindings_ok (set_entry (device_rules c n) s id name role backend gpio instance endpoint w).2.
Proof.
  intros Hw. unfold set_entry. destruct (find_idx _ _) as [i|] eqn:Hi; [|done]. destruct (profile_of s id) as [[pin pname]|] eqn:Hp; [|done].
  destruct (find_idx_Some _ _ _ Hi) as (e0 & H0 & Hid & _). apply Z.eqb_eq in Hid. rewrite H0.
  destruct (resolve_address s e0 backend gpio instance endpoint) as [[[g ins] ep]|] eqn:Hr; [|done].
  destruct (validate_address (device_rules c n) s id backend g ins ep w) eqn:Hv; try done. cbv zeta.
  set (w1 := if changed_address _ _ _ _ _ then _ else w). set (e := e0 <| e_gpio := _ |> <| e_backend := _ |> <| e_class := _ |> <| e_instance := _ |> <| e_endpoint := _ |> <| e_name := _ |> <| e_role := _ |>).
  assert (forall t, entries t w1 = entries t w) as Hw1 by (intros t; unfold w1; case_match; by destruct t). cbn [snd].
  assert (backend = DEVICE_CHANNEL_BACKEND_GPIO -> ins = 0 /\ ep = g) as Hg.
  { intros ->. unfold resolve_address in Hr. cbn in Hr. by injection Hr as <- <- <-. }
  destruct (profile_of_valid s id _ Hp) as [Hvalid _].
  assert (e_id e = id /\ e_gpio e = i16 g /\ e_instance e = i16 ins /\ e_endpoint e = i16 ep /\ e_backend e = u8 backend) as He by done.
  assert (binding_ok s e0) as Hok0 by (destruct (tk_side _ Hw s) as [Hall _ _ _]; by eapply Forall_lookup_1).
  assert (typed_entry e) as Ht.
  { destruct (eo_typed s e0 Hok0). split; try apply i16_range; try apply copy_text_length24; [done|apply u8_range|destruct s; cbn; [by case_match|done]|done]. }
  pose proof (written_ok c n s w id backend g ins ep Hv Hg e He Ht Hvalid) as Hok.
  pose proof (fun f => written_no_clash c n s w id backend g ins ep Hv Hg e He f) as Hc.
  assert (forall f, f ∈ entries s w -> e_id f <> e_id e -> clash e f = false) as Hown by (intros f Hf Hne; apply Hc; left; by destruct He as [<- _]).
  apply (put_tables s (<[i := e]> (entries s w)) w); [done| | | |].
  - by rewrite entries_persist, entries_put, Hw1.
  - by rewrite entries_persist, entries_put_other, Hw1.
  - apply (table_insert s _ i e e0); [apply Hw|done| |done|done]. done.
  - intros f f2 Hf Hf2. apply list_elem_of_lookup in Hf as [k Hk]. apply list_lookup_insert_Some in Hk as [(_ & <- & _)|[_ Hk]].
    + apply Hc. right. split; [done|]. eapply id_nonzero, table_ids; [apply Hw|exact Hf2].
    + eapply cross_ok; [done|by eapply list_elem_of_lookup_2|done].
Qed.
Lemma run_binding_tables c n call w : bindings_ok w -> bindings_ok (run_binding (device_rules c n) call w).2.
Proof.
  intros Hw. destruct call as [s id name role backend gpio instance endpoint|s id|s id name role backend gpio instance endpoint|[] id]; cbn [run_binding].
  - by apply add_tables.
  - by apply remove_tables.
  - by apply set_tables.
  - unfold io_binding_reset_input. destruct (profile_of In id) as [[g nm]|]; [|done]. by apply set_tables.
  - unfold io_binding_reset_output. destruct (profile_of Out id) as [[g nm]|]; [|done]. by apply set_tables.
Qed.
Lemma run_bindings_tables cs w : bindings_ok w -> bindings_ok (run_bindings cs w).
Proof. revert w. induction cs as [|[[c n] call] cs IH]; intros w Hw; [done|]. cbn [run_bindings]. by apply IH, run_binding_tables. Qed.
End calls.

Lemma default_tables_ok s : binding_table_ok s (match s with In => default_inputs | Out => default_outputs end).
Proof.
  assert (forall l, forallb (fun i => forallb (fun j => match l !! i, l !! j with Some e, Some f => (i =? j)%nat || negb (clash e f) | _, _ => true end)
     (seq 0 (length l))) (seq 0 (length l)) = true -> forall i j e f, l !! i = Some e -> l !! j = Some f -> i <> j -> clash e f = false) as Hx.
  { intros l Hl i j e f Hi Hj Hij. rewrite forallb_forall in Hl. specialize (Hl i). rewrite forallb_forall in Hl. 
    pose proof (lookup_lt_Some _ _ _ Hi). pose proof (lookup_lt_Some _ _ _ Hj).
    specialize (Hl ltac:(apply in_seq; lia) j ltac:(apply in_seq; lia)). rewrite Hi, Hj in Hl. destruct (Nat.eqb_spec i j); [done|]. by apply negb_true_iff. }
  destruct s; split.
  - repeat constructor; try (by vm_compute); cbn; intros; try done; by eexists.
  - apply (bool_decide_unpack _). by vm_compute.
  - apply Hx. by vm_compute.
  - by vm_compute; lia.
  - repeat constructor; try (by vm_compute); cbn; intros; try done; by eexists.
  - apply (bool_decide_unpack _). by vm_compute.
  - apply Hx. by vm_compute.
  - by vm_compute; lia.
Qed.

(** ** Restarts *)

Section restart.
Context {N : Type} `{Nvs N, !NvsLaws N, !NvsReliable N}.
Implicit Types w : bindings N.
Definition restart (rules : pin_rules) w : bindings N := io_binding_init rules (bindings_boot (input_nvs w) (output_nvs w)).

Lemma factory_boot rules (fi fo : N) : nvs_get_blob fo = None ->
  let w := io_binding_init rules (bindings_boot fi fo) in input_entries w = default_inputs /\ output_entries w = default_outputs.
Proof.
  intros Hf. destruct (boot_tables rules fi fo) as [Hi Ho]. split; [exact Hi|]. rewrite Ho. cbv zeta.
  assert (loaded_outputs rules fo = default_outputs) as -> by (unfold loaded_outputs, load_entries; cbn [output_nvs update bindings_boot]; by rewrite Hf).
  by vm_compute.
Qed.
Lemma factory_tables rules (fi fo : N) : nvs_get_blob fo = None -> bindings_ok (io_binding_init rules (bindings_boot fi fo)).
Proof.
  intros [Hi Ho]%(factory_boot rules fi). split.
  - intros []; cbn [entries]; [rewrite Hi; exact (default_tables_ok In)|rewrite Ho; exact (default_tables_ok Out)].
  - rewrite Hi, Ho. intros e f He Hf.
    assert (forallb (fun e => forallb (fun f => negb (clash e f)) default_outputs) default_inputs = true) as Hall by by vm_compute.
    rewrite forallb_forall in Hall. specialize (Hall e ltac:(by apply list_elem_of_In)). rewrite forallb_forall in Hall.
    by apply negb_true_iff, Hall, list_elem_of_In.
Qed.


(** Start-up writes the default inputs over the stored ones before it reads
    them.  With working flash, whatever was stored and whatever calls were
    accepted before, the inputs after a restart are the six default channels and
    the four analog inputs under their default names: no change to an input, no
    added input and no removal outlives a restart. *)
Theorem input_bindings_lost_at_boot (rules rules' : pin_rules) (fi fo : N) (cs : list (sensor_profile * network_profile * binding_call)) :
  input_entries (restart rules' (run_bindings cs (io_binding_init rules (bindings_boot fi fo)))) = default_inputs.
Proof.
  unfold restart. generalize (run_bindings cs (io_binding_init rules (bindings_boot fi fo))). intros w.
  destruct (boot_tables rules' (input_nvs w) (output_nvs w)) as [Hi _]. exact Hi.
Qed.

(** *** Outputs *)

Lemma no_duplicate s l i e : binding_table_ok s l -> l !! i = Some e -> digital e = true -> blob_has_duplicate l i = false.
Proof.
  intros [_ Hid Hx _] Hi Hd. unfold blob_has_duplicate. rewrite Hi. apply not_true_is_false. intros (j & _ & Hj)%existsb_exists.
  destruct (l !! j) as [f|] eqn:Hf; [|done]. apply andb_prop in Hj as [Hji Hj]. destruct (Nat.eqb_spec j i) as [|Hne]; [done|].
  apply orb_prop in Hj as [Heq%Z.eqb_eq|[Ha Hn]%andb_prop].
  - apply Hne. eapply (NoDup_lookup (e_id <$> l)); [done|by rewrite list_lookup_fmap, Hf|by rewrite list_lookup_fmap, Hi; cbn; rewrite Heq].
  - assert (clash e f = true) as Hc; [|by rewrite (Hx i j e f Hi Hf) in Hc].
    unfold clash. by rewrite Hd, Hn, Ha.
Qed.
(** What start-up demands of the stored outputs. *)
Record outputs_keepable (rules : pin_rules) (l : list entry) : Prop := {
  ok_in_place : forall c, c ∈ default_channels Out -> on_profile_pin l c = true;
  ok_pins : forall e, e ∈ l -> e_backend e = DEVICE_CHANNEL_BACKEND_GPIO -> e_gpio e <> GPIO_NUM_NC ->
    output_gpio_allowed rules (e_gpio e) = true /\ e_gpio e ∉ (fun c => c.2.1) <$> default_channels In;
}.
Lemma keepable_valid rules l : binding_table_ok Out l -> outputs_keepable rules l -> stored_entries_valid rules Out l = true.
Proof.
  intros Ht [_ Hp]. apply forallb_forall. intros i _. destruct (l !! i) as [e|] eqn:He; [|done].
  assert (binding_ok Out e) as Hok by (destruct Ht as [Hall _ _ _]; by eapply Forall_lookup_1).
  pose proof (list_elem_of_lookup_2 _ _ _ He) as Hin. destruct Hok as [_ Hv Hg Hd Hm _].
  rewrite (no_duplicate Out l i e) by (try done; by apply Hd). rewrite Hv, andb_true_r. cbn [andb].
  unfold stored_address_valid, io_binding_backend_address_valid. specialize (Hd eq_refl). unfold digital in Hd.
  destruct (Z.eqb_spec (e_backend e) DEVICE_CHANNEL_BACKEND_GPIO) as [Hb|Hb]; cbn [andb].
  - destruct (Z.eqb_spec (e_gpio e) GPIO_NUM_NC); [done|]. by apply Hp.
  - unfold io_binding_backend_is_gpio, io_binding_backend_is_mcp in Hd. destruct (Z.eqb_spec (e_backend e) DEVICE_CHANNEL_BACKEND_GPIO); [done|].
    cbn [orb] in Hd. rewrite Hd. apply Z.eqb_eq in Hd. by rewrite Hd, Hm.
Qed.
Lemma default_pins_used g : address_in_use default_inputs DEVICE_CHANNEL_BACKEND_GPIO 0 g 0 = true -> g ∈ (fun c => c.2.1) <$> default_channels In.
Proof.
  intros (e & He & Hb)%existsb_exists. apply andb_prop in Hb as [_ Hb]. unfold same_address in Hb. cbn in He.
  repeat (destruct He as [<-|He]; [cbn in Hb; first [done|apply Z.eqb_eq in Hb as <-; cbn; set_solver]|]). done.
Qed.
Lemma keepable_resolved rules l : binding_table_ok Out l -> outputs_keepable rules l -> resolve_side Out default_inputs l = l.
Proof.
  intros [Hall _ _ _] [_ Hp]. unfold resolve_side. rewrite <- (map_id l) at 2. apply map_ext_in. intros e He%list_elem_of_In.
  rewrite Forall_forall in Hall. destruct (Hall e He) as [_ _ Hg _ _ Hun].
  unfold conflicts, to_profile_pin. destruct (profile_of Out (e_id e)) as [[pin name]|] eqn:Hpr; [|done].
  destruct (Z.eqb_spec (e_backend e) DEVICE_CHANNEL_BACKEND_GPIO) as [Hb|]; cbn [andb]; [|done].
  destruct (address_in_use _ _ _ _ _) eqn:Hu; [|done]. apply default_pins_used in Hu.
  destruct (decide (e_gpio e = GPIO_NUM_NC)) as [Hnc|Hnc]; [|by destruct (Hp e He Hb Hnc)].
  destruct (Hun Hb Hnc) as [nm Hpr']. injection Hpr' as -> _. destruct (Hg Hb) as (Hi & Hep & _). clear -Hnc Hep. destruct e. cbn in *. by subst.
Qed.
Lemma keepable_not_migrated rules l : outputs_keepable rules l -> migration_needed default_inputs l = false.
Proof.
  intros [Hd Hp]. unfold migration_needed.
  assert ((length l <? length (default_channels Out)) = false)%nat as ->.
  { apply Nat.ltb_ge. rewrite <- (length_fmap e_id l), <- (length_fmap fst (default_channels Out)).
    apply NoDup_incl_length; [by apply NoDup_ListNoDup; apply (bool_decide_unpack _); vm_compute|].
    intros id Hid%list_elem_of_In. apply list_elem_of_fmap in Hid as (c & -> & Hc). apply list_elem_of_In, list_elem_of_fmap.
    specialize (Hd c Hc). unfold on_profile_pin, lookup_entry in Hd. destruct (find_idx _ l) as [i|] eqn:Hi; [|done].
    destruct (find_idx_Some _ _ _ Hi) as (e & He & Heq%Z.eqb_eq & _). exists e. split; [done|by eapply list_elem_of_lookup_2]. }
  assert (forallb (on_profile_pin l) (default_channels Out) = true) as -> by (apply forallb_forall; intros c Hc%list_elem_of_In; by apply Hd).
  change (length default_inputs <? length (default_channels In))%nat with false.
  assert (forallb (on_profile_pin default_inputs) (default_channels In) = true) as -> by by vm_compute. cbn [orb negb].
  assert (forall e g, e ∈ l -> e_backend e = DEVICE_CHANNEL_BACKEND_GPIO -> e_gpio e = g -> g <> GPIO_NUM_NC -> g ∈ (fun c => c.2.1) <$> default_channels In -> False) as Hno.
  { intros e g He Hb <- Hnc Hin. by destruct (Hp e He Hb Hnc). }
  apply orb_false_intro; apply not_true_is_false.
  - intros (e & He & Hm)%existsb_exists. unfold misplaced_input in Hm. apply andb_prop in Hm as [Hb Hm]. apply orb_prop in Hm as [H33|Hm].
    + cbn in He. repeat (destruct He as [<-|He]; [done|]). done.
    + apply existsb_exists in Hm as (o & Ho & Hm). apply andb_prop in Hm as [[Hbo%Z.eqb_eq Hg%Z.eqb_eq]%andb_prop Hnc%negb_true_iff].
      apply (Hno o (e_gpio e)); [by apply list_elem_of_In|done|done|lia|]. clear Hg.
      cbn in He. repeat (destruct He as [<-|He]; [cbn in *; first [done|set_solver]|]). done.
  - intros (o & Ho & Hm)%existsb_exists. unfold misplaced_output in Hm. apply andb_prop in Hm as [Hb%Z.eqb_eq Hg%Z.eqb_eq].
    apply (Hno o 26); [by apply list_elem_of_In|done|done|done|]. cbn. set_solver.
Qed.

(** Flash holds the outputs in use. *)
Definition outputs_stored w : Prop := nvs_get_blob (output_nvs w) = Some (binding_blob Out (output_entries w)).
Lemma persist_stored s w : (s = In -> outputs_stored w) -> outputs_stored (persist s w).
Proof. destruct s; intros Hw; [exact (Hw eq_refl)|]. apply write_blob_read. Qed.
Lemma put_stored l w : outputs_stored w -> outputs_stored (put_entries In l w <| gpio_restart_required := true |>).
Proof. exact id. Qed.
Lemma factory_stored rules (fi fo : N) : nvs_get_blob fo = None -> outputs_stored (io_binding_init rules (bindings_boot fi fo)).
Proof.
  intros Hf. unfold io_binding_init. cbv zeta. rewrite input_defaults_eq, output_defaults_eq.
  set (w := bindings_boot fi fo <| gpio_restart_required := false |> <| output_entries := default_outputs |>).
  change (io_binding_persist_inputs _ <| output_entries := default_outputs |>) with (io_binding_persist_inputs (w <| input_entries := default_inputs |>)).
  unfold io_binding_load_inputs, io_binding_load_outputs. rewrite inputs_loaded, ensure_idle by done.
  set (w1 := io_binding_persist_inputs _).
  assert (load_entries rules Out w1 = w1) as -> by (unfold load_entries, w1; cbn [output_nvs io_binding_persist_inputs update w bindings_boot]; by rewrite Hf).
  unfold io_binding_resolve_cross_conflicts_after_load. cbv zeta. cbn [input_entries output_entries update].
  change (output_entries w1) with default_outputs. change (input_entries w1) with default_inputs.
  assert (existsb (conflicts Out default_inputs) default_outputs = true) as -> by by vm_compute. cbn [orb negb].
  assert (resolve_side Out default_inputs default_outputs = default_outputs) as -> by by vm_compute.
  assert (resolve_side In default_outputs default_inputs = default_inputs) as -> by by vm_compute.
  unfold io_binding_validate_and_migrate_nvs. cbn [input_entries output_entries io_binding_persist_outputs io_binding_persist_inputs update].
  assert (migration_needed default_inputs default_outputs = false) as -> by by vm_compute. cbn [negb].
  unfold outputs_stored. cbn [output_nvs output_entries io_binding_persist_outputs io_binding_persist_inputs update]. apply write_blob_read.
Qed.
Lemma run_binding_stored rules call w : outputs_stored w -> outputs_stored (run_binding rules call w).2.
Proof.
  intros Hw.
  assert (forall s id name role backend gpio instance endpoint, outputs_stored (set_entry rules s id name role backend gpio instance endpoint w).2) as Hset.
  { intros. unfold set_entry. repeat (case_match; try exact Hw); cbn [snd]; apply persist_stored; intros ->; exact Hw. }
  assert (forall s id name role backend pname gpio instance endpoint, outputs_stored (bind_entry rules s id name role backend pname gpio instance endpoint w).2) as Hbind.
  { intros. unfold bind_entry. case_match; try exact Hw. cbn [snd]. apply persist_stored. intros ->. exact Hw. }
  destruct call as [s id name role backend gpio instance endpoint|s id|s id name role backend gpio instance endpoint|[] id]; cbn [run_binding].
  - unfold add_entry. destruct (profile_of s id) as [[? ?]|]; [|exact Hw]. cbv zeta. repeat (case_match; try exact Hw); apply Hbind.
  - unfold remove_entry. case_match; [exact Hw|]. destruct (find_idx _ _); [|exact Hw]. cbn [snd]. apply persist_stored. intros ->. exact Hw.
  - apply Hset.
  - unfold io_binding_reset_input. destruct (profile_of In id) as [[? ?]|]; [apply Hset|exact Hw].
  - unfold io_binding_reset_output. destruct (profile_of Out id) as [[? ?]|]; [apply Hset|exact Hw].
Qed.
Lemma run_bindings_stored cs w : outputs_stored w -> outputs_stored (run_bindings cs w).
Proof. revert w. induction cs as [|[[c n] call] cs IH]; intros w Hw; [done|]. cbn [run_bindings]. by apply IH, run_binding_stored. Qed.

(** From a node without stored outputs and after any calls, the outputs are the
    same after a restart, every address, name and role, when the default ones are
    on their pins and the others on pins that are still allowed and are not those
    of the default inputs. *)
Theorem output_bindings_survive_reboot (rules rules' : pin_rules) (fi fo : N) (cs : list (sensor_profile * network_profile * binding_call)) :
  nvs_get_blob fo = None ->
  let w := run_bindings cs (io_binding_init rules (bindings_boot fi fo)) in
  outputs_keepable rules' (output_entries w) ->
  output_entries (restart rules' w) = output_entries w.
Proof.
  intros Hf w Hk. destruct (run_bindings_tables cs _ (factory_tables rules fi fo Hf)) as [Ht _]. fold w in Ht. specialize (Ht Out). cbn [entries] in Ht.
  pose proof (run_bindings_stored cs _ (factory_stored rules fi fo Hf)) as Hg. fold w in Hg.
  clearbody w. unfold restart. destruct (boot_tables rules' (input_nvs w) (output_nvs w)) as [_ Ho]. rewrite Ho. cbv zeta.
  assert (loaded_outputs rules' (output_nvs w) = output_entries w) as ->.
  { unfold loaded_outputs. assert (Forall typed_entry (output_entries w)) as Hty
      by (destruct Ht as [Hall _ _ _]; eapply Forall_impl; [exact Hall|]; intros e []; done).
    rewrite (load_binding_blob Out (output_entries w) Hty (to_short _ _ Ht)) by exact Hg. by rewrite keepable_valid. }
  by rewrite (keepable_resolved rules'), (keepable_not_migrated rules').
Qed.
End restart.

(** ** Concrete runs *)

Definition plain_rules : pin_rules := device_rules default_sensors network_profile_zero.
Definition demo_calls : list (sensor_profile * network_profile * binding_call) :=
  [(default_sensors, network_profile_zero, AddEntry In 16 (Some (bytes_of "Door")) None DEVICE_CHANNEL_BACKEND_GPIO 18 0 18);
   (default_sensors, network_profile_zero, AddEntry Out 106 (Some (bytes_of "Pump")) None DEVICE_CHANNEL_BACKEND_GPIO 13 0 13);
   (default_sensors, network_profile_zero, AddEntry Out 107 None None DEVICE_CHANNEL_BACKEND_MCP23X17 (-1) 1 3)].
Definition demo_bindings : bindings flash := run_bindings demo_calls (io_binding_init plain_rules (bindings_boot None None)).

(** The input that was added is gone. *)
Lemma input_bindings_lost_at_boot_witness :
  has_entry (input_entries demo_bindings) 16 = true /\ input_entries (restart plain_rules demo_bindings) = default_inputs /\
  has_entry default_inputs 16 = false.
Proof.
  split; [by vm_compute|]. split; [|by vm_compute]. exact (input_bindings_lost_at_boot plain_rules plain_rules (None : flash) (None : flash) demo_calls).
Defined.
(** The demand on the outputs, decided. *)
Definition keepable_check (rules : pin_rules) (l : list entry) : bool :=
  forallb (on_profile_pin l) (default_channels Out)
  && forallb (fun e => negb (e_backend e =? DEVICE_CHANNEL_BACKEND_GPIO) || (e_gpio e =? GPIO_NUM_NC)
       || output_gpio_allowed rules (e_gpio e) && negb (existsb (Z.eqb (e_gpio e)) ((fun c => c.2.1) <$> default_channels In))) l.
Lemma keepable_checked rules l : keepable_check rules l = true -> outputs_keepable rules l.
Proof.
  intros [Hd Hp]%andb_prop. rewrite forallb_forall in Hd, Hp. split; [intros c Hc; by apply Hd, list_elem_of_In|].
  intros e He%list_elem_of_In Hb Hn. specialize (Hp e He). rewrite Hb, Z.eqb_refl in Hp. cbn [negb orb] in Hp.
  destruct (Z.eqb_spec (e_gpio e) GPIO_NUM_NC); [congruence|]. apply andb_prop in Hp as [Ha Hx]. split; [exact Ha|].
  intros Hin%list_elem_of_In. apply negb_true_iff in Hx. apply not_true_iff_false in Hx. apply Hx, existsb_exists.
  exists (e_gpio e). split; [exact Hin|apply Z.eqb_refl].
Qed.
(** The outputs that were added are still there. *)
Lemma output_bindings_survive_reboot_witness :
  keepable_check plain_rules (output_entries demo_bindings) = true /\
  output_entries (restart plain_rules demo_bindings) = output_entries demo_bindings.
Proof.
  assert (keepable_check plain_rules (output_entries demo_bindings) = true) as Hk by (vm_compute; reflexivity).
  split; [exact Hk|]. apply keepable_checked in Hk. revert Hk. unfold demo_bindings.
  exact (output_bindings_survive_reboot plain_rules plain_rules (None : flash) (None : flash) demo_calls eq_refl).
Defined.
(** A pin of the converter can also be bound as a digital input: the two
    addresses differ. *)
Lemma analog_pin_bound_twice :
  let w := io_binding_init plain_rules (bindings_boot (None : flash) None) in
  let '(r, w') := io_binding_add_input plain_rules 16 None None 34 w in
  r = IO_BINDING_RESULT_OK /\ (e_id <$> List.filter (fun e => e_gpio e =? 34) (input_entries w')) = [22; 16].
Proof. by vm_compute. Qed.
