(* ===== verification/V3.v ===== *)
(** * The resource catalogue of V3 ([components/v3])

    [Catalog]: the records of the resources, sorted by identifier in a pool of
    1024 and found by binary search; it implements a finite map.  [Events]: the
    ring that drops its oldest event.  [Discovery]: which slot is probed next.
    [Persistence]: the journal of dirty positions and the copy in flash.
    [Api]: the cursor of the listing. *)

From stdpp Require Import gmap sorting.
From S2P Require Import Prelude Persist EventBus.

(** [memmove(&l[dst], &l[src], n * sizeof(l[0]))] *)
Definition memmove {A} (dst src n : nat) (l : list A) : list A :=
  take dst l ++ take n (drop src l) ++ drop (dst + n) l.

Section memmove.
Context {A : Type}.
Implicit Types (a b d l : list A) (x y : A).
Lemma memmove_0 i l : memmove (S i) i 0 l = l.
Proof. unfold memmove. rewrite Nat.add_0_r. cbn [take app]. apply take_drop. Qed.
Lemma length_memmove dst src n l : (dst + n <= length l)%nat -> (src + n <= length l)%nat -> length (memmove dst src n l) = length l.
Proof. intros. unfold memmove. rewrite !length_app, !length_take, !length_drop. lia. Qed.
(** Making room for one element, and closing the gap of one. *)
Lemma memmove_up a b y d x :
  <[length a := x]> (memmove (S (length a)) (length a) (length b) (a ++ b ++ y :: d)) = a ++ x :: b ++ d.
Proof.
  unfold memmove. rewrite drop_app_length, take_app_length.
  rewrite <- Nat.add_1_r, take_app_add, <- (app_assoc a).
  rewrite <- (Nat.add_0_r (length a)) at 1. rewrite insert_app_r. f_equal.
  replace (length a + 1 + length b)%nat with (length a + (length b + 1))%nat by lia.
  rewrite <- drop_drop, drop_app_length, <- drop_drop, drop_app_length. by destruct b.
Qed.
Lemma memmove_down a x b d : take (length a + length b) (memmove (length a) (S (length a)) (length b) (a ++ x :: b ++ d)) = a ++ b.
Proof.
  unfold memmove. rewrite take_app_length, <- Nat.add_1_r, <- drop_drop, drop_app_length. cbn [drop]. rewrite drop_0.
  rewrite take_app_length, app_assoc, <- length_app. by rewrite take_app_length.
Qed.
End memmove.

Module Catalog.
Definition V3_CATALOG_MAX_RESOURCES : Z := 1024.

(** [resource_record_t]; the key is its [raw] view. *)
Record resource_record := ResourceRecord {
  rec_id : Z; rec_key : Z; last_seen_tick : Z; status : Z; sync_flags : Z;
  desired_state : Z; reported_state : Z;
}.
#[export] Instance resource_record_rebuild : Rebuild resource_record := fun r =>
  ResourceRecord (rec_id r) (rec_key r) (last_seen_tick r) (status r) (sync_flags r) (desired_state r) (reported_state r).
Definition resource_record_zero : resource_record := ResourceRecord 0 0 0 0 0 0 0.

Record catalog := Pool { s_pool : list resource_record; s_count : Z }.
#[export] Instance catalog_rebuild : Rebuild catalog := fun c => Pool (s_pool c) (s_count c).
Definition catalog_zero : catalog :=
  Pool (replicate (Z.to_nat V3_CATALOG_MAX_RESOURCES) resource_record_zero) 0.

Definition pool_at (i : Z) (c : catalog) : resource_record := default resource_record_zero (zget (s_pool c) i).
Definition pool_set (i : Z) (r : resource_record) (c : catalog) : catalog := c <| s_pool := zset (s_pool c) i r |>.

(** The loop that [find_index], [find_insertion_index] and the listing share:
    the position of [id], or where it would be inserted.  [None] is out of
    fuel. *)
Fixpoint search (fuel : nat) (id : Z) (c : catalog) (low high : Z) : option (Z + Z) :=
  match fuel with
  | O => None
  | S fuel =>
    if low <=? high then
      let mid := low + Z.quot (high - low) 2 in
      if rec_id (pool_at mid c) =? id then Some (inl mid)
      else if rec_id (pool_at mid c) <? id then search fuel id c (mid + 1) high
      else search fuel id c low (mid - 1)
    else Some (inr low)
  end.
(** One round per live record, and the one that ends the loop. *)
Definition search_all (id : Z) (c : catalog) : option (Z + Z) :=
  search (S (Z.to_nat (s_count c))) id c 0 (s_count c - 1).

Definition find_index (id : Z) (c : catalog) : Z :=
  match search_all id c with Some (inl mid) => mid | _ => -1 end.
Definition find_insertion_index (id : Z) (c : catalog) : Z :=
  match search_all id c with Some (inl mid) => mid | Some (inr low) => low | None => -1 end.

Definition insert (r : resource_record) (c : catalog) : bool * catalog :=
  let idx := find_insertion_index (rec_id r) c in
  if (idx <? s_count c) && (rec_id (pool_at idx c) =? rec_id r) then (true, pool_set idx r c)
  else if V3_CATALOG_MAX_RESOURCES <=? s_count c then (false, c)
  else
    let c := if idx <? s_count c
             then c <| s_pool := memmove (Z.to_nat (idx + 1)) (Z.to_nat idx) (Z.to_nat (s_count c - idx)) (s_pool c) |>
             else c in
    (true, pool_set idx r c <| s_count := s_count c + 1 |>).

Definition find (id : Z) (c : catalog) : option resource_record :=
  let idx := find_index id c in if idx =? -1 then None else Some (pool_at idx c).

Definition get_by_index (index : Z) (c : catalog) : option resource_record :=
  if s_count c <=? index then None else Some (pool_at index c).

Definition update_desired (id desired : Z) (c : catalog) : bool * catalog :=
  let idx := find_index id c in
  if idx =? -1 then (false, c) else (true, pool_set idx (pool_at idx c <| desired_state := desired |>) c).
Definition update_reported (id reported : Z) (c : catalog) : bool * catalog :=
  let idx := find_index id c in
  if idx =? -1 then (false, c) else (true, pool_set idx (pool_at idx c <| reported_state := reported |>) c).

Definition remove_record (id : Z) (c : catalog) : bool * catalog :=
  let idx := find_index id c in
  if idx =? -1 then (false, c)
  else
    let c := if idx <? s_count c - 1
             then c <| s_pool := memmove (Z.to_nat idx) (Z.to_nat (idx + 1)) (Z.to_nat (s_count c - idx - 1)) (s_pool c) |>
             else c in
    (true, c <| s_count := s_count c - 1 |>).

Definition size (c : catalog) : Z := s_count c.

(** [in_count] is [*in_out_count], [None] when one of the pointers is [NULL]. *)
Definition snapshot (in_count : option Z) (c : catalog) : option (list resource_record) :=
  match in_count with
  | None => None
  | Some n => Some (take (Z.to_nat (if n <? s_count c then n else s_count c)) (s_pool c))
  end.

(** ** The map it implements

    What a client may rely on: a finite map from identifiers to records, of at
    most 1024 entries, whose entries are numbered in the order of their
    identifiers. *)
Inductive op :=
  | Insert (r : resource_record) | Find (id : Z) | GetByIndex (index : nat) | UpdateDesired (id v : Z)
  | UpdateReported (id v : Z) | Remove (id : Z) | Size | Snapshot (in_count : option nat).
Inductive answer := Done (ok : bool) | Found (r : option resource_record) | Count (n : Z) | Copied (l : option (list resource_record)).

Definition step (o : op) (c : catalog) : answer * catalog :=
  match o with
  | Insert r => let '(ok, c) := insert r c in (Done ok, c)
  | Find id => (Found (find id c), c)
  | GetByIndex i => (Found (get_by_index (Z.of_nat i) c), c)
  | UpdateDesired id v => let '(ok, c) := update_desired id v c in (Done ok, c)
  | UpdateReported id v => let '(ok, c) := update_reported id v c in (Done ok, c)
  | Remove id => let '(ok, c) := remove_record id c in (Done ok, c)
  | Size => (Count (size c), c)
  | Snapshot n => (Copied (snapshot (Z.of_nat <$> n) c), c)
  end.

(** The records of the map in the order of their identifiers. *)
Definition ordered (m : gmap Z resource_record) : list resource_record :=
  omap (m !!.) (merge_sort Z.le (elements (dom m))).
Definition change (id : Z) (f : resource_record -> resource_record) (m : gmap Z resource_record) : answer * gmap Z resource_record :=
  (Done (bool_decide (is_Some (m !! id))), alter f id m).
Definition map_step (o : op) (m : gmap Z resource_record) : answer * gmap Z resource_record :=
  match o with
  | Insert r =>
    if bool_decide (is_Some (m !! rec_id r) \/ (base.size m < 1024)%nat) then (Done true, <[rec_id r := r]> m) else (Done false, m)
  | Find id => (Found (m !! id), m)
  | GetByIndex i => (Found (ordered m !! i), m)
  | UpdateDesired id v => change id (fun r => r <| desired_state := v |>) m
  | UpdateReported id v => change id (fun r => r <| reported_state := v |>) m
  | Remove id => (Done (bool_decide (is_Some (m !! id))), delete id m)
  | Size => (Count (Z.of_nat (base.size m)), m)
  | Snapshot n => (Copied ((fun n => take n (ordered m)) <$> n), m)
  end.

(** The records in use, and the map they stand for. *)
Definition live (c : catalog) : list resource_record := take (Z.to_nat (s_count c)) (s_pool c).
Definition to_map (l : list resource_record) : gmap Z resource_record := list_to_map ((fun r => (rec_id r, r)) <$> l).
Definition view (c : catalog) : gmap Z resource_record := to_map (live c).
Definition catalog_wf (c : catalog) : Prop :=
  length (s_pool c) = 1024%nat /\ 0 <= s_count c <= 1024 /\ StronglySorted Z.lt (rec_id <$> live c).

Lemma sorted_lookup (l : list Z) i j x y : StronglySorted Z.lt l -> (i < j)%nat -> l !! i = Some x -> l !! j = Some y -> x < y.
Proof.
  intros Hs. revert i j. induction Hs as [|a l Hs IH Ha]; intros i j Hij Hi Hj; [done|].
  destruct i as [|i], j as [|j]; cbn in *; try lia.
  - simplify_eq. rewrite Forall_forall in Ha. apply Ha. by apply list_elem_of_lookup_2 in Hj.
  - apply (IH i j); [lia|done..].
Qed.

Section wf.
Variable c : catalog.
Hypothesis Hc : catalog_wf c.

Lemma live_length : length (live c) = Z.to_nat (s_count c).
Proof. destruct Hc as (Hl & Hn & _). unfold live. rewrite length_take. lia. Qed.
Lemma live_at (i : nat) : (i < Z.to_nat (s_count c))%nat -> live c !! i = Some (pool_at (Z.of_nat i) c).
Proof.
  destruct Hc as (Hl & Hn & _). intros Hi. unfold live, pool_at. rewrite lookup_take_lt, zget_nat by lia.
  destruct (lookup_lt_is_Some_2 (s_pool c) i) as [r ->]; [lia|done].
Qed.
Lemma live_at_Z i : 0 <= i < s_count c -> live c !! Z.to_nat i = Some (pool_at i c).
Proof. intros. rewrite live_at by lia. by rewrite Z2Nat.id by lia. Qed.
Lemma ids_increase i j : 0 <= i < j -> j < s_count c -> rec_id (pool_at i c) < rec_id (pool_at j c).
Proof.
  intros Hi Hj. destruct Hc as (_ & _ & Hs). apply (sorted_lookup _ (Z.to_nat i) (Z.to_nat j) _ _ Hs); [lia|..];
    by rewrite list_lookup_fmap, live_at_Z by lia.
Qed.

(** Enough fuel, and the position found splits the records. *)
Definition splits (id i : Z) : Prop :=
  0 <= i <= s_count c /\ (forall j, 0 <= j < i -> rec_id (pool_at j c) < id) /\
  (forall j, i <= j < s_count c -> id < rec_id (pool_at j c)).
Lemma search_spec fuel id low high :
  (Z.to_nat (high - low + 1) < fuel)%nat -> 0 <= low -> low <= high + 1 -> high < s_count c ->
  (forall j, 0 <= j < low -> rec_id (pool_at j c) < id) ->
  (forall j, high < j < s_count c -> id < rec_id (pool_at j c)) ->
  (exists i, search fuel id c low high = Some (inl i) /\ 0 <= i < s_count c /\ rec_id (pool_at i c) = id) \/
  (exists i, search fuel id c low high = Some (inr i) /\ splits id i).
Proof.
  revert low high. induction fuel as [|fuel IH]; intros low high Hf Hlow Hlh Hhigh Hbelow Habove; [lia|]. cbn [search].
  destruct (Z.leb_spec low high) as [Hle|Hgt].
  - set (mid := low + Z.quot (high - low) 2).
    assert (low <= mid <= high) as Hmid by (unfold mid; Z.to_euclidean_division_equations; lia).
    destruct (Z.eqb_spec (rec_id (pool_at mid c)) id) as [He|Hne]; [left; exists mid; split_and!; try done; lia|].
    destruct (Z.ltb_spec (rec_id (pool_at mid c)) id) as [Hlt|Hge].
    + apply IH; try lia; [|done]. intros j Hj. destruct (decide (j = mid)) as [->|]; [done|].
      pose proof (ids_increase j mid). lia.
    + apply IH; try lia; [done|]. intros j Hj. destruct (decide (j = mid)) as [->|]; [lia|].
      pose proof (ids_increase mid j). lia.
  - right. exists low. split; [done|]. split_and!; [lia|lia|done|]. intros. apply Habove. lia.
Qed.
Lemma search_all_spec id :
  (exists i, search_all id c = Some (inl i) /\ 0 <= i < s_count c /\ rec_id (pool_at i c) = id) \/
  (exists i, search_all id c = Some (inr i) /\ splits id i).
Proof. destruct Hc as (_ & Hn & _). apply search_spec; try lia; intros; lia. Qed.

Lemma live_pool_set i r : 0 <= i < s_count c -> live (pool_set i r c) = <[Z.to_nat i := r]> (live c).
Proof.
  intros. unfold live, pool_set, zset. cbn. destruct (Z.leb_spec 0 i); [|lia]. apply take_insert_lt. lia.
Qed.
(** The pool around position [i]: what is before, what is after, one free place. *)
Lemma pool_room i : 0 <= i <= s_count c -> s_count c < 1024 ->
  exists y d, s_pool c = take (Z.to_nat i) (live c) ++ drop (Z.to_nat i) (live c) ++ y :: d.
Proof.
  destruct Hc as (Hl & Hn & _). intros Hi Hfull. destruct (drop (Z.to_nat (s_count c)) (s_pool c)) as [|y d] eqn:E.
  - apply (f_equal length) in E. rewrite length_drop, Hl in E. cbn in E. lia.
  - exists y, d. rewrite app_assoc, take_drop, <- E. unfold live. by rewrite take_drop.
Qed.
End wf.

(** The pool after [record] went in at [i], and after the record at [i] went out. *)
Definition inserted (i : Z) (r : resource_record) (c : catalog) : catalog :=
  (pool_set i r (c <| s_pool := memmove (Z.to_nat (i + 1)) (Z.to_nat i) (Z.to_nat (s_count c - i)) (s_pool c) |>))
    <| s_count := s_count c + 1 |>.
Definition removed (i : Z) (c : catalog) : catalog :=
  c <| s_pool := memmove (Z.to_nat i) (Z.to_nat (i + 1)) (Z.to_nat (s_count c - i - 1)) (s_pool c) |> <| s_count := s_count c - 1 |>.

Lemma inserted_live i r c : catalog_wf c -> 0 <= i <= s_count c -> s_count c < 1024 ->
  live (inserted i r c) = take (Z.to_nat i) (live c) ++ r :: drop (Z.to_nat i) (live c) /\ length (s_pool (inserted i r c)) = 1024%nat.
Proof.
  intros Hc Hi Hfull. pose proof (live_length c Hc) as Hlen. destruct (pool_room c Hc i Hi Hfull) as (y & d & Hp).
  destruct Hc as (Hl & Hn & _). unfold inserted, pool_set, live at 1, zset. cbn [s_pool s_count update].
  destruct (Z.leb_spec 0 i); [|lia]. split; [|rewrite length_insert, length_memmove; lia].
  set (a := take (Z.to_nat i) (live c)) in *. set (b := drop (Z.to_nat i) (live c)) in *.
  assert (length a = Z.to_nat i) as Ha by (unfold a; rewrite length_take; lia).
  assert (length b = Z.to_nat (s_count c - i)) as Hb by (unfold b; rewrite length_drop; lia).
  rewrite Hp. replace (Z.to_nat (i + 1)) with (S (length a)) by lia. rewrite <- Ha, <- Hb, memmove_up.
  replace (Z.to_nat (s_count c + 1)) with (length (a ++ r :: b)) by (rewrite length_app; cbn; lia).
  change (r :: b ++ d) with ((r :: b) ++ d). rewrite app_assoc. apply take_app_length.
Qed.
Lemma removed_live i c : catalog_wf c -> 0 <= i < s_count c ->
  live (removed i c) = take (Z.to_nat i) (live c) ++ drop (S (Z.to_nat i)) (live c) /\ length (s_pool (removed i c)) = 1024%nat.
Proof.
  intros Hc Hi. pose proof (live_length c Hc) as Hlen. pose proof (live_at_Z c Hc i Hi) as Hx. apply take_drop_middle in Hx.
  destruct Hc as (Hl & Hn & _). unfold removed, live at 1. cbn [s_pool s_count update].
  split; [|rewrite length_memmove; lia].
  set (a := take (Z.to_nat i) (live c)) in *. set (b := drop (S (Z.to_nat i)) (live c)) in *.
  assert (length a = Z.to_nat i) as Ha by (unfold a; rewrite length_take; lia).
  assert (length b = Z.to_nat (s_count c - i - 1)) as Hb by (unfold b; rewrite length_drop; lia).
  replace (s_pool c) with (a ++ pool_at i c :: b ++ drop (Z.to_nat (s_count c)) (s_pool c)).
  - replace (Z.to_nat (i + 1)) with (S (length a)) by lia. rewrite <- Ha, <- Hb.
    replace (Z.to_nat (s_count c - 1)) with (length a + length b)%nat by lia. apply memmove_down.
  - rewrite app_comm_cons, app_assoc, Hx. apply take_drop.
Qed.

(** ** Lists of records sorted by identifier, as maps *)

Abbreviation ids l := (rec_id <$> l).
Section to_map.
Implicit Types (l : list resource_record) (r : resource_record).

Lemma to_map_keys l : ((fun r => (rec_id r, r)) <$> l).*1 = ids l.
Proof. by rewrite <- list_fmap_compose. Qed.
Lemma sorted_NoDup (l : list Z) : StronglySorted Z.lt l -> NoDup l.
Proof.
  induction 1 as [|x l _ IH Hx]; [constructor|]. constructor; [|done].
  rewrite Forall_forall in Hx. intros Hin. specialize (Hx x Hin). lia.
Qed.
Lemma to_map_middle l1 r l2 : NoDup (ids (l1 ++ r :: l2)) -> to_map (l1 ++ r :: l2) = <[rec_id r := r]> (to_map (l1 ++ l2)).
Proof.
  intros Hn. unfold to_map. erewrite list_to_map_proper; [|by rewrite to_map_keys|].
  - by rewrite <- list_to_map_cons.
  - rewrite !fmap_app, fmap_cons. by rewrite <- Permutation_middle.
Qed.
Lemma to_map_none l id : id ∉ ids l -> to_map l !! id = None.
Proof. intros. apply not_elem_of_list_to_map_1. by rewrite to_map_keys. Qed.
Lemma to_map_some l r : NoDup (ids l) -> r ∈ l -> to_map l !! rec_id r = Some r.
Proof. intros Hn Hr. apply elem_of_list_to_map_1; [by rewrite to_map_keys|]. apply list_elem_of_fmap. by exists r. Qed.
Lemma to_map_size l : NoDup (ids l) -> base.size (to_map l) = length l.
Proof.
  intros Hn. unfold to_map. rewrite <- length_map_to_list, map_to_list_to_map by (by rewrite to_map_keys). by rewrite length_fmap.
Qed.
(** The numbering by identifier is the order of the list. *)
Lemma ordered_to_map l : StronglySorted Z.lt (ids l) -> ordered (to_map l) = l.
Proof.
  intros Hs. pose proof (sorted_NoDup _ Hs) as Hn. unfold ordered.
  assert (merge_sort Z.le (elements (dom (to_map l))) = ids l) as ->.
  { apply (StronglySorted_unique Z.le).
    - apply StronglySorted_merge_sort; apply _.
    - clear Hn. induction Hs as [|x xs Hs IH Hx]; constructor; [done|]. eapply Forall_impl; [exact Hx|]. intros. lia.
    - rewrite merge_sort_Permutation. unfold to_map. rewrite dom_list_to_map_L, to_map_keys. by apply elements_list_to_set. }
  assert (forall l', (forall r, r ∈ l' -> to_map l !! rec_id r = Some r) -> omap (to_map l !!.) (ids l') = l') as H.
  { induction l' as [|r l' IH]; intros Hl; [done|]. cbn. rewrite (Hl r) by left. f_equal. apply IH. intros. apply Hl. by right. }
  apply H. intros r Hr. by apply to_map_some.
Qed.
Lemma sorted_middle l1 l2 r : StronglySorted Z.lt (ids (l1 ++ l2)) ->
  Forall (fun x => rec_id x < rec_id r) l1 -> Forall (fun x => rec_id r < rec_id x) l2 -> StronglySorted Z.lt (ids (l1 ++ r :: l2)).
Proof.
  rewrite !fmap_app, fmap_cons, !StronglySorted_app. rewrite !Forall_forall. intros (H12 & H1 & H2) Hl Hr.
  split_and!; [|done|].
  - intros x1 x2 Hx1 [->|Hx2]%elem_of_cons; [|by apply H12]. apply list_elem_of_fmap in Hx1 as (y & -> & Hy). by apply Hl.
  - constructor; [done|]. apply Forall_forall. intros x Hx. apply list_elem_of_fmap in Hx as (y & -> & Hy). by apply Hr.
Qed.
Lemma sorted_delete l1 r l2 : StronglySorted Z.lt (ids (l1 ++ r :: l2)) -> StronglySorted Z.lt (ids (l1 ++ l2)).
Proof.
  rewrite !fmap_app, fmap_cons, !StronglySorted_app, StronglySorted_cons. intros (H12 & H1 & _ & H2). split_and!; try done.
  intros. apply H12; [done|]. by right.
Qed.
End to_map.

(** ** Each operation, on the list of live records *)

Section operations.
Variable c : catalog.
Hypothesis Hc : catalog_wf c.

Lemma view_some i : 0 <= i < s_count c -> view c !! rec_id (pool_at i c) = Some (pool_at i c).
Proof.
  intros Hi. destruct Hc as (_ & _ & Hs). apply to_map_some; [by apply sorted_NoDup|].
  apply (list_elem_of_lookup_2 _ (Z.to_nat i)). by apply live_at_Z.
Qed.
Lemma view_size : base.size (view c) = Z.to_nat (s_count c).
Proof. destruct Hc as (_ & _ & Hs). unfold view. rewrite to_map_size by (by apply sorted_NoDup). by apply live_length. Qed.
Lemma splits_ids id i : splits c id i ->
  Forall (fun r => rec_id r < id) (take (Z.to_nat i) (live c)) /\ Forall (fun r => id < rec_id r) (drop (Z.to_nat i) (live c)).
Proof.
  intros (Hi & Hb & Ha). pose proof (live_length c Hc) as Hlen. split; apply Forall_forall; intros r (j & Hj)%list_elem_of_lookup_1.
  - assert (j < Z.to_nat i)%nat by (apply lookup_lt_Some in Hj; rewrite length_take in Hj; lia).
    rewrite lookup_take_lt, live_at in Hj by (done || lia). injection Hj as <-. apply Hb. lia.
  - rewrite lookup_drop in Hj. assert (Z.to_nat i + j < Z.to_nat (s_count c))%nat by (apply lookup_lt_Some in Hj; lia).
    rewrite live_at in Hj by done. injection Hj as <-. apply Ha. lia.
Qed.
Lemma absent_view id i : splits c id i -> view c !! id = None.
Proof.
  intros Hi. destruct (splits_ids id i Hi) as [Hb Ha]. apply to_map_none. intros (r & -> & Hr)%list_elem_of_fmap.
  rewrite <- (take_drop (Z.to_nat i) (live c)) in Hr. rewrite Forall_forall in Hb, Ha.
  apply elem_of_app in Hr as [Hr|Hr]; [specialize (Hb r Hr)|specialize (Ha r Hr)]; lia.
Qed.
(** What a search says about the map. *)
Lemma find_index_spec id :
  (exists i, find_index id c = i /\ find_insertion_index id c = i /\ 0 <= i < s_count c /\ rec_id (pool_at i c) = id /\ view c !! id = Some (pool_at i c)) \/
  (find_index id c = -1 /\ exists i, find_insertion_index id c = i /\ splits c id i /\ view c !! id = None).
Proof.
  unfold find_index, find_insertion_index. destruct (search_all_spec c Hc id) as [(i & -> & Hi & He)|(i & -> & Hi)].
  - left. exists i. split_and!; try done; try lia. rewrite <- He. by apply view_some.
  - right. split; [done|]. exists i. split_and!; try done. by eapply absent_view.
Qed.

(** A record replaced by one of the same identifier. *)
Lemma pool_set_ok i r : 0 <= i < s_count c -> rec_id r = rec_id (pool_at i c) ->
  catalog_wf (pool_set i r c) /\ view (pool_set i r c) = <[rec_id r := r]> (view c).
Proof.
  intros Hi He. pose proof (live_pool_set c i r Hi) as Hlive. pose proof (live_at_Z c Hc i Hi) as Hx.
  pose proof (lookup_lt_Some _ _ _ Hx) as Hlt. pose proof Hc as (Hl & Hn & Hs).
  assert (ids (live (pool_set i r c)) = ids (live c)) as Hids.
  { rewrite Hlive, list_fmap_insert. apply list_insert_id. by rewrite list_lookup_fmap, Hx, He. }
  split; [refine (conj _ (conj Hn _)); [cbn; unfold zset; case_match; by rewrite ?length_insert|by rewrite Hids]|].
  unfold view. rewrite Hlive. rewrite (insert_take_drop _ _ _ Hlt).
  assert (NoDup (ids (live c))) as Hnd by (by apply sorted_NoDup).
  rewrite to_map_middle.
  - rewrite <- (take_drop_middle _ _ _ Hx) at 3. rewrite to_map_middle by (by rewrite take_drop_middle).
    by rewrite <- He, insert_insert_eq.
  - rewrite <- Hids, Hlive, (insert_take_drop _ _ _ Hlt) in Hnd. done.
Qed.
Lemma inserted_ok i r : splits c (rec_id r) i -> s_count c < 1024 ->
  catalog_wf (inserted i r c) /\ view (inserted i r c) = <[rec_id r := r]> (view c).
Proof.
  intros Hi Hfull. destruct (splits_ids _ _ Hi) as [Hb Ha]. destruct (inserted_live i r c Hc ltac:(apply Hi) Hfull) as [Hlive Hlen].
  pose proof Hc as (Hl & Hn & Hs). rewrite <- (take_drop (Z.to_nat i) (live c)) in Hs. pose proof (sorted_middle _ _ r Hs Hb Ha) as Hsr.
  split; [refine (conj Hlen (conj _ _)); [cbn; lia|by rewrite Hlive]|].
  unfold view. rewrite Hlive, to_map_middle by (by apply sorted_NoDup). by rewrite take_drop.
Qed.
Lemma removed_ok i : 0 <= i < s_count c ->
  catalog_wf (removed i c) /\ view (removed i c) = delete (rec_id (pool_at i c)) (view c).
Proof.
  intros Hi. destruct (removed_live i c Hc Hi) as [Hlive Hlen]. pose proof (live_at_Z c Hc i Hi) as Hx. apply take_drop_middle in Hx.
  pose proof Hc as (Hl & Hn & Hs). rewrite <- Hx in Hs. pose proof (sorted_delete _ _ _ Hs) as Hsd.
  split; [refine (conj Hlen (conj _ _)); [cbn; lia|by rewrite Hlive]|].
  unfold view. rewrite Hlive. rewrite <- Hx at 3. rewrite to_map_middle by (by apply sorted_NoDup). rewrite delete_insert_id; [done|].
  apply to_map_none. apply sorted_NoDup in Hs. rewrite fmap_app, fmap_cons in Hs. apply NoDup_app in Hs as (_ & H1 & H2).
  apply NoDup_cons in H2 as [H2 _]. rewrite fmap_app. intros [Hin|Hin]%elem_of_app; [|done]. apply (H1 _ Hin). left.
Qed.
End operations.

(** ** Each operation is the one of the map *)

Definition refines (o : op) (c : catalog) : Prop :=
  catalog_wf (step o c).2 /\ map_step o (view c) = ((step o c).1, view (step o c).2).

Section refinement.
Variable c : catalog.
Hypothesis Hc : catalog_wf c.

Lemma insert_refines r : refines (Insert r) c.
Proof.
  unfold refines. cbn [step map_step]. unfold insert. rewrite (view_size c Hc). pose proof Hc as (_ & Hn & _).
  destruct (find_index_spec c Hc (rec_id r)) as [(i & _ & -> & Hi & He & Hv)|(_ & i & -> & Hi & Hv)]; rewrite Hv.
  - destruct (Z.ltb_spec i (s_count c)); [|lia]. rewrite He, Z.eqb_refl, bool_decide_eq_true_2 by (left; done).
    cbn [andb fst snd]. destruct (pool_set_ok c Hc i r Hi (eq_sym He)) as [Hwf Hview]. by rewrite Hview.
  - assert ((i <? s_count c) && (rec_id (pool_at i c) =? rec_id r) = false) as ->.
    { destruct (Z.ltb_spec i (s_count c)); [|done]. destruct Hi as (? & _ & Ha). specialize (Ha i ltac:(lia)). cbn. apply Z.eqb_neq. lia. }
    unfold V3_CATALOG_MAX_RESOURCES. destruct (Z.leb_spec 1024 (s_count c)) as [Hfull|Hroom].
    { rewrite bool_decide_eq_false_2; [done|]. intros [[? ?]|]; [done|lia]. }
    rewrite bool_decide_eq_true_2 by (right; lia).
    assert ((if i <? s_count c then c <| s_pool := memmove (Z.to_nat (i + 1)) (Z.to_nat i) (Z.to_nat (s_count c - i)) (s_pool c) |> else c)
      = c <| s_pool := memmove (Z.to_nat (i + 1)) (Z.to_nat i) (Z.to_nat (s_count c - i)) (s_pool c) |>) as ->.
    { destruct (Z.ltb_spec i (s_count c)); [done|]. destruct Hi as (? & _).
      replace (Z.to_nat (s_count c - i)) with O by lia. replace (Z.to_nat (i + 1)) with (S (Z.to_nat i)) by lia.
      rewrite memmove_0. by destruct c. }
    destruct (inserted_ok c Hc i r Hi Hroom) as [Hwf Hview]. cbn [fst snd]. change (catalog_wf (inserted i r c) /\ (Done true, <[rec_id r:=r]> (view c)) = (Done true, view (inserted i r c))).
    by rewrite Hview.
Qed.

Lemma change_refines id (f : resource_record -> resource_record) : (forall r, rec_id (f r) = rec_id r) ->
  let out := if find_index id c =? -1 then (false, c) else (true, pool_set (find_index id c) (f (pool_at (find_index id c) c)) c) in
  catalog_wf out.2 /\ change id f (view c) = (Done out.1, view out.2).
Proof.
  intros Hf. cbv zeta. unfold change.
  destruct (find_index_spec c Hc id) as [(i & -> & _ & Hi & He & Hv)|(-> & i & _ & Hi & Hv)]; rewrite Hv.
  - destruct (Z.eqb_spec i (-1)); [lia|]. cbn [fst snd].
    destruct (pool_set_ok c Hc i (f (pool_at i c)) Hi (Hf _)) as [Hwf Hview]. rewrite Hview, Hf, He. split; [done|].
    rewrite bool_decide_eq_true_2 by done. f_equal. apply map_eq. intros k. destruct (decide (k = id)) as [->|].
    + by rewrite lookup_alter_eq, lookup_insert_eq, Hv.
    + by rewrite lookup_alter_ne, lookup_insert_ne.
  - cbn. split; [done|]. f_equal.
    apply map_eq. intros k. destruct (decide (k = id)) as [->|]; [by rewrite lookup_alter_eq, Hv|by rewrite lookup_alter_ne].
Qed.

Lemma remove_refines id : refines (Remove id) c.
Proof.
  unfold refines. cbn [step map_step]. unfold remove_record. pose proof Hc as (_ & Hn & _).
  destruct (find_index_spec c Hc id) as [(i & -> & _ & Hi & He & Hv)|(-> & i & _ & Hi & Hv)]; rewrite Hv.
  - destruct (Z.eqb_spec i (-1)); [lia|]. rewrite bool_decide_eq_true_2 by done.
    assert ((if i <? s_count c - 1 then c <| s_pool := memmove (Z.to_nat i) (Z.to_nat (i + 1)) (Z.to_nat (s_count c - i - 1)) (s_pool c) |> else c) <| s_count := s_count c - 1 |>
      = if i <? s_count c - 1 then removed i c else c <| s_count := s_count c - 1 |>) as Heq by (by destruct (i <? _)).
    destruct (removed_ok c Hc i Hi) as [Hwf Hview]. rewrite He in Hview.
    destruct (Z.ltb_spec i (s_count c - 1)); cbn [fst snd].
    + change (catalog_wf (removed i c) /\ (Done true, delete id (view c)) = (Done true, view (removed i c))). by rewrite Hview.
    + assert (removed i c = c <| s_pool := s_pool (removed i c) |> <| s_count := s_count c - 1 |>) as Hr by done.
      assert (s_pool (removed i c) = s_pool c) as Hp.
      { cbn. replace (Z.to_nat (s_count c - i - 1)) with O by lia. unfold memmove. rewrite Nat.add_0_r. cbn [take app]. apply take_drop. }
      rewrite Hp in Hr. assert (c <| s_count := s_count c - 1 |> = removed i c) as -> by (rewrite Hr; by destruct c). by rewrite Hview.
  - cbn. split; [done|]. f_equal. by apply delete_id.
Qed.

Lemma step_refines o : refines o c.
Proof.
  pose proof Hc as (Hl & Hn & Hs). assert (ordered (view c) = live c) as Hord by (by apply ordered_to_map).
  destruct o as [r|id|i|id v|id v|id| |n].
  - apply insert_refines.
  - split; [done|]. cbn. f_equal. unfold find.
    destruct (find_index_spec c Hc id) as [(i & -> & _ & Hi & He & ->)|(-> & i & _ & Hi & ->)]; [|done].
    destruct (Z.eqb_spec i (-1)); [lia|done].
  - split; [done|]. cbn. rewrite Hord. do 2 f_equal. unfold get_by_index.
    destruct (Z.leb_spec (s_count c) (Z.of_nat i)); [|apply (live_at c Hc); lia].
    apply lookup_ge_None. rewrite live_length by done. lia.
  - destruct (change_refines id (fun r => r <| desired_state := v |>) ltac:(done)) as [H1 H2]. unfold refines. cbn [step map_step].
    unfold update_desired. cbv zeta in *. rewrite H2. revert H1.
    by destruct (find_index id c =? -1).
  - destruct (change_refines id (fun r => r <| reported_state := v |>) ltac:(done)) as [H1 H2]. unfold refines. cbn [step map_step].
    unfold update_reported. cbv zeta in *. rewrite H2. revert H1.
    by destruct (find_index id c =? -1).
  - apply remove_refines.
  - split; [done|]. cbn. f_equal. f_equal. rewrite view_size by done. unfold size. lia.
  - split; [done|]. cbn. rewrite Hord. do 2 f_equal. destruct n as [n|]; [|done]. cbn. f_equal. unfold live. rewrite take_take. f_equal.
    destruct (Z.ltb_spec (Z.of_nat n) (s_count c)); lia.
Qed.
End refinement.

Lemma catalog_zero_wf : catalog_wf catalog_zero.
Proof. split_and!; [done|done|done|constructor]. Qed.

(** C19: The catalogue is a finite map: from the start of the firmware, and for
    any sequence of its operations, every answer is the one of a map from
    identifiers to records that refuses a new identifier when it holds 1024, and
    the records are numbered in the order of their identifiers. *)
Theorem catalog_refines_map (ops : list op) :
  (run_ops step ops catalog_zero).1 = (run_ops map_step ops ∅).1 /\
  view (run_ops step ops catalog_zero).2 = (run_ops map_step ops ∅).2.
Proof.
  assert (forall c, catalog_wf c -> (run_ops step ops c).1 = (run_ops map_step ops (view c)).1 /\
    view (run_ops step ops c).2 = (run_ops map_step ops (view c)).2) as H; [|exact (H _ catalog_zero_wf)].
  induction ops as [|o ops IH]; intros c Hc; [done|]. cbn [run_ops]. destruct (step_refines c Hc o) as [Hc' Hs].
  rewrite Hs. destruct (step o c) as [a c']. cbn [fst snd] in *. destruct (IH c' Hc') as [H1 H2].
  destruct (run_ops step ops c'), (run_ops map_step ops (view c')). cbn in *. by rewrite H1, H2.
Qed.
End Catalog.

Module Events.
Definition V3_EVENTS_QUEUE_SIZE : Z := 256.
Definition V3_EVENTS_MASK : Z := V3_EVENTS_QUEUE_SIZE - 1.
(** [v3_event_type_t] *)
Definition RESOURCE_EVT_CREATED : Z := 0.
Definition RESOURCE_EVT_ONLINE : Z := 1.
Definition RESOURCE_EVT_OFFLINE : Z := 2.
Definition RESOURCE_EVT_LOST : Z := 3.
Definition RESOURCE_EVT_REMOVED : Z := 4.

(** [v3_event_t], without its padding. *)
Record v3_event := V3Event { resource_id : Z; timestamp_epoch : Z; evt_type : Z }.
Definition v3_event_zero : v3_event := V3Event 0 0 0.

(** [ticks] is [xTaskGetTickCount]. *)
Record event_queue := EventQueue {
  s_queue : list v3_event; s_head : Z; s_tail : Z; s_pending : Z; s_drop_count : Z; ticks : clock;
}.
#[export] Instance event_queue_rebuild : Rebuild event_queue := fun e =>
  EventQueue (s_queue e) (s_head e) (s_tail e) (s_pending e) (s_drop_count e) (ticks e).
Definition events_zero (c : clock) : event_queue :=
  EventQueue (replicate (Z.to_nat V3_EVENTS_QUEUE_SIZE) v3_event_zero) 0 0 0 0 c.

Definition tick_count : st event_queue Z := on_part ticks (fun c e => e <| ticks := c |>) clock_read.

(** The critical section of [v3_events_post]. *)
Definition post_event (ev : v3_event) (e : event_queue) : event_queue :=
  let e := if s_pending e =? V3_EVENTS_QUEUE_SIZE
           then e <| s_tail := Z.land (s_tail e + 1) V3_EVENTS_MASK |> <| s_drop_count := u32 (s_drop_count e + 1) |>
           else e <| s_pending := s_pending e + 1 |> in
  e <| s_queue := zset (s_queue e) (s_head e) ev |> <| s_head := Z.land (s_head e + 1) V3_EVENTS_MASK |>.
Definition v3_events_post (id type : Z) : st event_queue bool :=
  now ← tick_count;
  modify (post_event (V3Event id (u32 now) (u8 type)));;
  mret true.

Definition take_event (e : event_queue) : v3_event * event_queue :=
  (default v3_event_zero (zget (s_queue e) (s_tail e)), e <| s_tail := Z.land (s_tail e + 1) V3_EVENTS_MASK |>).
Fixpoint take_events (n : nat) (e : event_queue) : list v3_event * event_queue :=
  match n with
  | O => ([], e)
  | S n => let '(ev, e) := take_event e in let '(evs, e) := take_events n e in (ev :: evs, e)
  end.
(** The batch; [None] is a [NULL] pointer for it. *)
Definition v3_events_poll (max_count : option Z) : st event_queue (list v3_event) :=
  match max_count with
  | None => mret []
  | Some max_count =>
    if max_count =? 0 then mret []
    else fun e =>
      let to_read := if s_pending e <? max_count then s_pending e else max_count in
      let '(batch, e) := take_events (Z.to_nat to_read) e in
      (batch, e <| s_pending := s_pending e - to_read |>)
  end.
Definition v3_events_get_drop_count (e : event_queue) : Z := s_drop_count e.

(** ** The queue it implements: the last 256 events, and how many were lost *)

Inductive op := Post (id type : Z) | Poll (max_count : option nat) | DropCount.
Inductive answer := Posted (ok : bool) | Batch (evs : list v3_event) | Dropped (n : Z).
Definition step (o : op) (e : event_queue) : answer * event_queue :=
  match o with
  | Post id type => let '(ok, e) := v3_events_post id type e in (Posted ok, e)
  | Poll n => let '(evs, e) := v3_events_poll (Z.of_nat <$> n) e in (Batch evs, e)
  | DropCount => (Dropped (v3_events_get_drop_count e), e)
  end.

Record log := Log { pending : list v3_event; lost : Z; tick : clock }.
Definition log_step (o : op) (l : log) : answer * log :=
  match o with
  | Post id type =>
    let '(now, c) := clock_read (tick l) in
    let all := pending l ++ [V3Event id (u32 now) (u8 type)] in
    (Posted true, Log (drop (length all - 256) all) (lost l + Z.of_nat (length all - 256)) c)
  | Poll None => (Batch [], l)
  | Poll (Some n) => (Batch (take n (pending l)), Log (drop n (pending l)) (lost l) (tick l))
  | DropCount => (Dropped (u32 (lost l)), l)
  end.

Definition at_slot (e : event_queue) (k : nat) : v3_event := default v3_event_zero (zget (s_queue e) ((s_tail e + Z.of_nat k) mod 256)).
Definition events_wf (e : event_queue) : Prop :=
  length (s_queue e) = 256%nat /\ 0 <= s_tail e < 256 /\ 0 <= s_pending e <= 256 /\ s_head e = (s_tail e + s_pending e) mod 256 /\ is_u32 (s_drop_count e).
(** [e] stands for the log [l]. *)
Definition stands_for (e : event_queue) (l : log) : Prop :=
  events_wf e /\ pending l = at_slot e <$> seq 0 (Z.to_nat (s_pending e)) /\ s_drop_count e = u32 (lost l) /\ ticks e = tick l.

Lemma mask_mod x : Z.land x V3_EVENTS_MASK = x mod 256.
Proof. apply (land_mask x 8). lia. Qed.
Lemma slot_mod a k : ((a + 1) mod 256 + k) mod 256 = (a + (k + 1)) mod 256.
Proof. rewrite Z.add_mod_idemp_l by lia. f_equal. lia. Qed.

Lemma slots_differ a i j : 0 <= i < j -> j < i + 256 -> (a + i) mod 256 <> (a + j) mod 256.
Proof. intros Hi Hj He. Z.to_euclidean_division_equations. lia. Qed.

Lemma seq_from s n : seq s n = Nat.add s <$> seq 0 n.
Proof. by rewrite fmap_add_seq, Nat.add_0_r. Qed.

(** Writing the slot [n] after the tail leaves the [n] first ones alone. *)
Lemma at_slot_write e e' ev (s n : nat) : length (s_queue e) = 256%nat -> (s + n <= 256)%nat -> (n < 256)%nat ->
  s_tail e' = (s_tail e + Z.of_nat s) mod 256 -> s_queue e' = zset (s_queue e) ((s_tail e + Z.of_nat (s + n)) mod 256) ev ->
  at_slot e' <$> seq 0 (S n) = (at_slot e <$> seq s n) ++ [ev].
Proof.
  intros Hl Hs Hn Ht Hq. rewrite seq_S, fmap_app. cbn [fmap list_fmap Nat.add]. f_equal.
  - rewrite (seq_from s), <- list_fmap_compose. apply list_fmap_ext. intros i k Hk%lookup_seq. unfold at_slot. cbn.
    rewrite Hq, Ht, Z.add_mod_idemp_l, zget_zset_ne by (try lia; intros He; revert He; rewrite <- Z.add_assoc; apply not_eq_sym, slots_differ; lia).
    f_equal. f_equal. f_equal. lia.
  - unfold at_slot. rewrite Hq, Ht, Z.add_mod_idemp_l by lia. replace (s_tail e + Z.of_nat s + Z.of_nat n) with (s_tail e + Z.of_nat (s + n)) by lia.
    rewrite zget_zset_eq; [done|]. rewrite Hl. pose proof (Z.mod_pos_bound (s_tail e + Z.of_nat (s + n)) 256). lia.
Qed.

Lemma post_event_log ev e : events_wf e ->
  let all := (at_slot e <$> seq 0 (Z.to_nat (s_pending e))) ++ [ev] in
  let e' := post_event ev e in
  events_wf e' /\ at_slot e' <$> seq 0 (Z.to_nat (s_pending e')) = drop (length all - 256) all /\
  s_drop_count e' = u32 (s_drop_count e + Z.of_nat (length all - 256)) /\ ticks e' = ticks e.
Proof.
  intros (Hl & Ht & Hn & Hh & Hd). cbv zeta. rewrite length_app, length_fmap, length_seq. cbn [length].
  pose proof (Z.mod_pos_bound (s_tail e + 1) 256 ltac:(lia)). pose proof (Z.mod_pos_bound (s_head e + 1) 256 ltac:(lia)).
  unfold post_event, V3_EVENTS_QUEUE_SIZE. destruct (Z.eqb_spec (s_pending e) 256) as [Hfull|Hroom].
  - rewrite Hfull in *. change (Z.to_nat 256 + 1 - 256)%nat with 1%nat. split_and!.
    + split_and!; cbn; rewrite ?length_zset, ?mask_mod, ?Hh; try (done || lia); [|apply u32_range..].
      rewrite Z.add_mod_idemp_l, Z.add_mod_idemp_l by lia. f_equal. lia.
    + cbn [s_pending update]. rewrite Hfull. change (Z.to_nat 256) with (S 255).
      rewrite (at_slot_write e _ ev 1 255); [|done|lia|lia|cbn; by rewrite mask_mod|cbn; by rewrite Hh]. done.
    + done.
    + done.
  - replace (Z.to_nat (s_pending e) + 1 - 256)%nat with 0%nat by lia. split_and!.
    + split_and!; cbn; rewrite ?length_zset, ?mask_mod, ?Hh; try (done || lia).
      rewrite Z.add_mod_idemp_l by lia. f_equal. lia.
    + cbn [s_pending update]. replace (Z.to_nat (s_pending e + 1)) with (S (Z.to_nat (s_pending e))) by lia.
      rewrite (at_slot_write e _ ev 0); [done|done|lia|lia|cbn; rewrite Z.add_0_r; symmetry; apply Z.mod_small; lia|].
      cbn. rewrite Hh. do 2 f_equal. lia.
    + cbn. rewrite Z.add_0_r. symmetry. by apply u32_id.
    + done.
Qed.

Lemma take_events_log n e : length (s_queue e) = 256%nat -> 0 <= s_tail e < 256 ->
  take_events n e = (at_slot e <$> seq 0 n, e <| s_tail := (s_tail e + Z.of_nat n) mod 256 |>).
Proof.
  revert e. induction n as [|n IH]; intros e Hl Ht.
  - cbn. rewrite Z.add_0_r, Z.mod_small by lia. by destruct e.
  - cbn [take_events]. unfold take_event. rewrite mask_mod. pose proof (Z.mod_pos_bound (s_tail e + 1) 256 ltac:(lia)).
    rewrite IH by done. cbn [s_tail update s_queue]. rewrite Z.add_mod_idemp_l by lia. f_equal.
    + cbn [seq fmap list_fmap]. f_equal; [unfold at_slot; by rewrite Z.add_0_r, Z.mod_small by lia|].
      rewrite <- fmap_S_seq, <- list_fmap_compose. apply list_fmap_ext. intros i k _. unfold at_slot. cbn. rewrite slot_mod. do 3 f_equal. lia.
    + rewrite <- (Z.add_assoc _ 1). by replace (1 + Z.of_nat n) with (Z.of_nat (S n)) by lia.
Qed.

Lemma posts_event id type e : v3_events_post id type e =
  (true, post_event (V3Event id (u32 (clock_read (ticks e)).1) (u8 type)) (e <| ticks := (clock_read (ticks e)).2 |>)).
Proof. done. Qed.

Lemma step_stands_for o e l : stands_for e l -> (step o e).1 = (log_step o l).1 /\ stands_for (step o e).2 (log_step o l).2.
Proof.
  intros (Hw & Hp & Hd & Hc). destruct o as [id type|[n|]|].
  - cbn [step log_step]. rewrite posts_event, Hc. unfold clock_read. cbn [fst snd].
    set (ev := V3Event _ _ _). set (c := Clock _ _). destruct (post_event_log ev (e <| ticks := c |>)) as (H1 & H2 & H3 & H4); [exact Hw|].
    cbn [s_pending update] in H2, H3. change (at_slot (e <| ticks := c |>)) with (at_slot e) in *. rewrite <- Hp in H2, H3.
    split; [done|]. split_and!; [apply H1..|done| |done]. rewrite H3. cbn. rewrite Hd. unfold u32. by rewrite Z.add_mod_idemp_l by lia.
  - cbn [step log_step fmap option_fmap option_map]. unfold v3_events_poll. destruct (Z.eqb_spec (Z.of_nat n) 0) as [Hz|Hz].
    { replace n with O by lia. cbn. rewrite drop_0, take_0. split; [done|]. by split_and!; try apply Hw. }
    pose proof Hw as (Hl & Ht & Hn & Hh & Hdc). set (k := if s_pending e <? Z.of_nat n then s_pending e else Z.of_nat n).
    assert (0 <= k <= s_pending e) as Hk by (unfold k; destruct (Z.ltb_spec (s_pending e) (Z.of_nat n)); lia).
    rewrite take_events_log by done. cbn [fst snd].
    assert (Z.to_nat (s_pending e) = Z.to_nat k + Z.to_nat (s_pending e - k))%nat as Hsum by lia.
    assert (k < Z.of_nat n -> Z.to_nat (s_pending e - k) = O) as Hall by (unfold k; destruct (Z.ltb_spec (s_pending e) (Z.of_nat n)); lia).
    assert (k <= Z.of_nat n) as Hkn by (unfold k; destruct (Z.ltb_spec (s_pending e) (Z.of_nat n)); lia).
    rewrite Hp, Hsum, seq_app, fmap_app. cbn [Nat.add]. split.
    + f_equal. destruct (decide (k = Z.of_nat n)) as [->|]; [by rewrite take_app_length' by (rewrite length_fmap, length_seq; lia)|].
      rewrite (Hall ltac:(lia)), app_nil_r, take_ge; [done|]. rewrite length_fmap, length_seq. lia.
    + split_and!; cbn; try done; rewrite ?Z2Nat.id by lia.
      * split_and!; cbn; try (done || lia); try apply Z.mod_pos_bound; try lia.
        rewrite Hh, Z.add_mod_idemp_l by lia. f_equal. lia.
      * destruct (decide (k = Z.of_nat n)) as [He|].
        -- rewrite drop_app_length' by (rewrite length_fmap, length_seq; lia).
           rewrite (seq_from (Z.to_nat k)), <- list_fmap_compose. apply list_fmap_ext. intros i j _.
           unfold at_slot. cbn. rewrite Z.add_mod_idemp_l by lia. do 3 f_equal. lia.
        -- rewrite (Hall ltac:(lia)), app_nil_r, drop_ge; [done|]. rewrite length_fmap, length_seq. lia.
  - done.
  - cbn. split; [by f_equal|done].
Qed.

Lemma events_zero_wf c : stands_for (events_zero c) (Log [] 0 c).
Proof. split_and!; [|done..]. split_and!; done || (cbn; lia). Qed.

(** The event queue never refuses an event: from the start, and for any
    sequence of posts and polls, it hands out the events in the order they were
    posted, and when more than 256 wait it loses exactly the oldest ones, which
    the drop counter counts modulo 2^32. *)
Theorem newest_events_kept (ops : list op) (c : clock) :
  (run_ops step ops (events_zero c)).1 = (run_ops log_step ops (Log [] 0 c)).1.
Proof.
  assert (forall e l, stands_for e l -> (run_ops step ops e).1 = (run_ops log_step ops l).1) as H; [|exact (H _ _ (events_zero_wf c))].
  induction ops as [|o ops IH]; intros e l Hr; [done|]. cbn [run_ops]. destruct (step_stands_for o e l Hr) as [Ha Hr'].
  destruct (step o e) as [a e'], (log_step o l) as [b l']. cbn [fst snd] in *. specialize (IH e' l' Hr').
  destruct (run_ops step ops e'), (run_ops log_step ops l'). cbn in *. by rewrite Ha, IH.
Qed.
End Events.

Module Discovery.
(** [v3_node_state_t] *)
Definition NODE_STATE_UNKNOWN : Z := 0.
Definition NODE_STATE_PROBE : Z := 1.
Definition NODE_STATE_ACTIVE : Z := 2.
Definition NODE_STATE_LOST : Z := 3.

(** [events] is the queue of [v3_events.c]. *)
Record discovery := Disc { s_probe_mask : list Z; s_node_states : list Z; events : Events.event_queue }.
#[export] Instance discovery_rebuild : Rebuild discovery := fun d => Disc (s_probe_mask d) (s_node_states d) (events d).
Definition discovery_zero (c : clock) : discovery :=
  Disc (replicate 32 0) (replicate (Z.to_nat 1024) NODE_STATE_UNKNOWN) (Events.events_zero c).

Definition set_bit (word bit : Z) : Z := Z.lor word (u32 (Z.shiftl 1 bit)).
Definition clear_bit (word bit : Z) : Z := Z.land word (u32 (Z.lnot (u32 (Z.shiftl 1 bit)))).
(** [__builtin_ffs(word) - 1] *)
Definition lowest_bit (word : Z) : Z :=
  match find_idx (fun i => Z.testbit word (Z.of_nat i)) (seq 0 32) with Some i => Z.of_nat i | None => -1 end.

Definition v3_discovery_report_node (physical_slot : Z) (d : discovery) : discovery :=
  if 1024 <=? physical_slot then d
  else
    let i := physical_slot / 32 in
    d <| s_probe_mask := zset (s_probe_mask d) i (set_bit (default 0 (zget (s_probe_mask d) i)) (physical_slot mod 32)) |>.

(** The loop over the words [i ..]; another task or an interrupt may report a
    node between two of its critical sections: [others i]. *)
Fixpoint pulse_from (others : Z -> list Z) (words : nat) (i : Z) (d : discovery) : discovery :=
  match words with
  | O => d
  | S words =>
    let mask := default 0 (zget (s_probe_mask d) i) in
    if negb (mask =? 0) then
      let bit_idx := lowest_bit mask in
      let d := d <| s_probe_mask := zset (s_probe_mask d) i (clear_bit mask bit_idx) |> in
      let physical_slot := i * 32 + bit_idx in
      d <| s_node_states := zset (s_node_states d) physical_slot NODE_STATE_PROBE |>
    else pulse_from others words (i + 1) (foldl (fun d slot => v3_discovery_report_node slot d) d (others i))
  end.
Definition v3_discovery_pulse_100ms (others : Z -> list Z) (d : discovery) : discovery := pulse_from others 32 0 d.

(** [key] is the raw value of the key, [None] a [NULL] pointer. *)
Definition v3_discovery_inject_identity (physical_slot : Z) (key : option Z) : st discovery bool :=
  match key with
  | None => mret false
  | Some key =>
    if 1024 <=? physical_slot then mret false
    else
      modify (fun d => d <| s_node_states := zset (s_node_states d) physical_slot NODE_STATE_ACTIVE |>);;
      on_part events (fun e d => d <| events := e |>) (Events.v3_events_post key Events.RESOURCE_EVT_ONLINE);;
      mret true
  end.

(** ** Which slots wait to be probed, lowest first *)

Definition bits (word : Z) : list nat := filter (fun i => Z.testbit word (Z.of_nat i) = true) (seq 0 32).
Fixpoint waiting_from (i : Z) (words : list Z) : list Z :=
  match words with
  | [] => []
  | w :: words => ((fun b => i * 32 + Z.of_nat b) <$> bits w) ++ waiting_from (i + 1) words
  end.
Definition waiting_slots (d : discovery) : list Z := waiting_from 0 (s_probe_mask d).
Definition discovery_wf (d : discovery) : Prop := length (s_probe_mask d) = 32%nat /\ Forall (fun w => is_u32 w) (s_probe_mask d).

Lemma elem_of_bits w i : i ∈ bits w <-> Z.testbit w (Z.of_nat i) = true /\ (i < 32)%nat.
Proof. unfold bits. rewrite list_elem_of_filter, elem_of_seq. split; intros [? ?]; (split; [done|lia]). Qed.
Lemma bits_nil w : is_u32 w -> bits w = [] -> w = 0.
Proof.
  intros Hw Hb. apply Z.bits_inj'. intros i Hi. rewrite Z.bits_0. destruct (decide (i < 32)); [|apply (testbit_above w 32); lia].
  destruct (Z.testbit w i) eqn:E; [|done]. exfalso. apply (not_elem_of_nil (Z.to_nat i)). rewrite <- Hb, elem_of_bits, Z2Nat.id by lia. split; [done|lia].
Qed.
Lemma lowest_bit_first w b rest : bits w = b :: rest -> lowest_bit w = Z.of_nat b.
Proof.
  unfold lowest_bit, bits. intros Hb.
  assert (forall l, filter (fun i => Z.testbit w (Z.of_nat i) = true) l = b :: rest ->
    exists k, find_idx (fun i => Z.testbit w (Z.of_nat i)) l = Some k /\ l !! k = Some b) as H.
  { induction l as [|x l IH]; [done|]. rewrite filter_cons. cbn [find_idx]. destruct (Z.testbit w (Z.of_nat x)) eqn:E.
    - rewrite decide_True by done. intros [= -> _]. by exists O.
    - rewrite decide_False by done. intros (k & -> & Hk)%IH. exists (S k). done. }
  destruct (H _ Hb) as (k & Hk & Hx). rewrite Hk. apply lookup_seq in Hx as [-> _]. done.
Qed.
Lemma clear_bit_spec w b j : 0 <= b < 32 -> 0 <= j < 32 -> Z.testbit (clear_bit w b) j = Z.testbit w j && negb (j =? b).
Proof.
  intros Hb Hj. unfold clear_bit, u32. change 4294967296 with (2 ^ 32).
  rewrite Z.land_spec, Z.mod_pow2_bits_low, Z.lnot_spec, Z.mod_pow2_bits_low, Z.shiftl_spec by lia. do 2 f_equal.
  destruct (Z.eqb_spec j b) as [->|]; [by rewrite Z.sub_diag|].
  change 1 with (2 ^ 0). apply Z.pow2_bits_false. lia.
Qed.
Lemma filter_ext {A} (P Q : A -> Prop) `{!forall x, Decision (P x), !forall x, Decision (Q x)} (l : list A) :
  (forall x, x ∈ l -> P x <-> Q x) -> filter P l = filter Q l.
Proof.
  induction l as [|x l IH]; intros HPQ; [done|]. rewrite !filter_cons, IH by (intros; apply HPQ; by right).
  specialize (HPQ x ltac:(left)). by destruct (decide (P x)), (decide (Q x)); naive_solver.
Qed.
Lemma bits_clear w b rest : bits w = b :: rest -> bits (clear_bit w (Z.of_nat b)) = rest.
Proof.
  intros Hb. assert (b ∈ bits w) as [_ Hlt]%elem_of_bits by (rewrite Hb; left).
  assert (NoDup (b :: rest)) as [Hnd _]%NoDup_cons by (rewrite <- Hb; apply NoDup_filter, NoDup_seq).
  transitivity (filter (fun i => i <> b) (bits w)).
  - unfold bits. rewrite list_filter_filter. apply filter_ext. intros i [_ Hi]%elem_of_seq.
    rewrite clear_bit_spec, andb_true_iff, negb_true_iff, Z.eqb_neq by lia. naive_solver lia.
  - rewrite Hb, filter_cons, decide_False by naive_solver. clear Hb. induction rest as [|x rest IH]; [done|].
    rewrite filter_cons, decide_True by (intros ->; apply Hnd; left). f_equal. apply IH. intros Hin. apply Hnd. by right.
Qed.
Lemma clear_bit_range w b : is_u32 w -> is_u32 (clear_bit w b).
Proof.
  intros Hw. unfold clear_bit.
  assert (Z.land w (u32 (Z.lnot (u32 (Z.shiftl 1 b)))) = Z.land w (u32 (Z.lnot (u32 (Z.shiftl 1 b)))) mod 2 ^ 32) as ->.
  { apply Z.bits_inj'. intros i Hi. destruct (decide (i < 32)); [by rewrite Z.mod_pow2_bits_low|].
    by rewrite Z.mod_pow2_bits_high, Z.land_spec, (testbit_above w 32) by lia. }
  apply Z.mod_pos_bound. lia.
Qed.

(** One pulse, when nothing is reported meanwhile. *)
Abbreviation alone := (fun _ : Z => @nil Z).
Lemma pulse_from_spec ws (pre : list Z) d : s_probe_mask d = pre ++ ws -> Forall (fun w => is_u32 w) ws ->
  let d' := pulse_from alone (length ws) (Z.of_nat (length pre)) d in
  match waiting_from (Z.of_nat (length pre)) ws with
  | [] => d' = d
  | slot :: rest => exists ws', s_probe_mask d' = pre ++ ws' /\ waiting_from (Z.of_nat (length pre)) ws' = rest /\
      length ws' = length ws /\ Forall (fun w => is_u32 w) ws' /\ s_node_states d' = zset (s_node_states d) slot NODE_STATE_PROBE
  end.
Proof.
  revert pre. induction ws as [|w ws IH]; intros pre Hp Hws; [done|]. apply Forall_cons in Hws as [Hw Hws].
  cbn [waiting_from pulse_from length]. rewrite Hp, zget_nat, lookup_app_r, Nat.sub_diag by lia. cbn [lookup list_lookup default from_option id].
  destruct (bits w) as [|b rest] eqn:Hb.
  - rewrite (bits_nil w Hw Hb) in *. cbn [Z.eqb negb fmap list_fmap app foldl].
    specialize (IH (pre ++ [0])). rewrite length_app in IH. cbn [length] in IH. rewrite Nat2Z.inj_add in IH.
    specialize (IH ltac:(by rewrite <- app_assoc) Hws). cbv zeta in IH. change (Z.of_nat 1) with 1 in IH.
    destruct (waiting_from (Z.of_nat (length pre) + 1) ws) as [|slot rest]; [done|].
    destruct IH as (ws' & H1 & H2 & H3 & H4 & H5). exists (0 :: ws'). rewrite H1, <- app_assoc. cbn [waiting_from]. split_and!; try done.
    + cbn. by rewrite H3.
    + by constructor.
  - assert (b ∈ bits w) as [Hbit Hlt]%elem_of_bits by (rewrite Hb; left).
    destruct (Z.eqb_spec w 0) as [->|Hne]; [by rewrite Z.testbit_0_l in Hbit|]. cbn [negb fmap list_fmap app].
    rewrite (lowest_bit_first w b rest Hb). exists (clear_bit w (Z.of_nat b) :: ws). split_and!.
    + cbn [s_probe_mask update]. unfold zset. destruct (Z.leb_spec 0 (Z.of_nat (length pre))); [|lia].
      rewrite Nat2Z.id, <- (Nat.add_0_r (length pre)), insert_app_r. done.
    + cbn [waiting_from]. by rewrite (bits_clear w b rest Hb).
    + done.
    + constructor; [by apply clear_bit_range|done].
    + done.
Qed.

Lemma pulse_spec d : discovery_wf d ->
  let d' := v3_discovery_pulse_100ms alone d in
  discovery_wf d' /\ waiting_slots d' = drop 1 (waiting_slots d) /\
  s_node_states d' = foldl (fun states slot => zset states slot NODE_STATE_PROBE) (s_node_states d) (take 1 (waiting_slots d)).
Proof.
  intros [Hl Hw]. pose proof (pulse_from_spec (s_probe_mask d) [] d eq_refl Hw) as H. rewrite Hl in H. cbv zeta in H. change (Z.of_nat (length (@nil Z))) with 0 in H. cbn [app] in H.
  unfold waiting_slots, v3_discovery_pulse_100ms. cbv zeta in *. destruct (waiting_from 0 (s_probe_mask d)) as [|slot rest] eqn:E.
  - rewrite H, E. done.
  - destruct H as (ws' & H1 & H2 & H3 & H4 & H5). unfold discovery_wf. rewrite H1, H5, H2. split; [split; [lia|done]|done].
Qed.

(** Reports keep the table of slots well-formed. *)
Lemma report_wf slot d : discovery_wf d -> discovery_wf (v3_discovery_report_node slot d).
Proof.
  intros [Hl Hw]. unfold v3_discovery_report_node. case_match; [done|]. unfold discovery_wf. cbn. rewrite length_zset. split; [done|].
  unfold zset. destruct (Z.leb_spec 0 (slot / 32)); [|done]. apply Forall_insert; [done|].
  assert (is_u32 (default 0 (zget (s_probe_mask d) (slot / 32)))) as Hr.
  { destruct (zget (s_probe_mask d) (slot / 32)) as [w|] eqn:E; [|cbn; lia]. cbn. unfold zget in E.
    destruct (0 <=? slot / 32); [|done]. exact (Forall_lookup_1 _ _ _ _ Hw E). }
  unfold set_bit. set (w := default _ _) in *. set (m := u32 _). assert (is_u32 m) as Hm by apply u32_range.
  assert (Z.lor w m = Z.lor w m mod 2 ^ 32) as ->; [|apply Z.mod_pos_bound; lia].
  apply Z.bits_inj'. intros i Hi. destruct (decide (i < 32)); [by rewrite Z.mod_pow2_bits_low|].
  by rewrite Z.mod_pow2_bits_high, Z.lor_spec, (testbit_above w 32), (testbit_above m 32) by lia.
Qed.

(** Discovery probes one node per pulse, the lowest reported slot first: after
    any number of pulses without new reports the nodes probed are that many of
    the slots that waited, in increasing order, and the others still wait; so
    every reported node is probed after at most as many pulses as nodes waited. *)
Theorem pulses_probe_in_order (n : nat) (d : discovery) (Hd : discovery_wf d) :
  let d' := Nat.iter n (v3_discovery_pulse_100ms alone) d in
  waiting_slots d' = drop n (waiting_slots d) /\
  s_node_states d' = foldl (fun states slot => zset states slot NODE_STATE_PROBE) (s_node_states d) (take n (waiting_slots d)).
Proof.
  cbv zeta. assert (discovery_wf (Nat.iter n (v3_discovery_pulse_100ms alone) d) /\
    waiting_slots (Nat.iter n (v3_discovery_pulse_100ms alone) d) = drop n (waiting_slots d) /\
    s_node_states (Nat.iter n (v3_discovery_pulse_100ms alone) d) =
    foldl (fun states slot => zset states slot NODE_STATE_PROBE) (s_node_states d) (take n (waiting_slots d))) as H; [|apply H].
  induction n as [|n (Hw & IH1 & IH2)]; [by rewrite drop_0, take_0|]. rewrite !Nat.iter_succ.
  destruct (pulse_spec _ Hw) as (H1 & H2 & H3). rewrite H2, H3, IH1, IH2. split_and!; [done| |].
  - rewrite drop_drop. f_equal. lia.
  - rewrite <- foldl_app, take_take_drop. do 2 f_equal. lia.
Qed.

(** Nodes 40 and 7 answer on the bus; 7 is probed first. *)
Lemma pulses_probe_in_order_witness :
  let d := v3_discovery_report_node 7 (v3_discovery_report_node 40 (discovery_zero (Clock (fun _ => 0) 0))) in
  waiting_slots (Nat.iter 1 (v3_discovery_pulse_100ms alone) d) = [40].
Proof.
  intros d. assert (discovery_wf d) as Hd.
  { apply report_wf, report_wf. split; [done|]. by apply Forall_replicate. }
  destruct (pulses_probe_in_order 1 d Hd) as [-> _]. by vm_compute.
Defined.
End Discovery.

Module Persistence.
Import Catalog.

(** The calls of [nvs.h] on the entries of the namespace "v3_cat".  A handle is
    open for reading only or for reading and writing; any call may fail, and
    writing through a read-only handle does, as the documentation says
    ([ESP_ERR_NVS_READ_ONLY]).  Keys are strings of character codes. *)
Inductive open_mode := NVS_READONLY | NVS_READWRITE.
Class NvsEntries (N : Type) := {
  entries_open : open_mode -> st N bool;
  entries_set : open_mode -> list Z -> list Z -> st N bool;
  entries_commit : st N ();
  entries_find : N -> list (list Z);           (* the keys an iteration meets *)
  entries_get : list Z -> N -> option (list Z);
}.
Class NvsEntriesLaws (N : Type) `{NvsEntries N} := {
  entries_read_only k v n : entries_set NVS_READONLY k v n = (false, n);
}.

(** [resource_record_t] is packed. *)
Definition sizeof_resource_record : nat := 32.
Definition record_bytes (r : resource_record) : list Z :=
  pack [(8%nat, rec_id r); (8%nat, rec_key r); (4%nat, last_seen_tick r); (2%nat, status r); (2%nat, sync_flags r);
        (4%nat, desired_state r); (4%nat, reported_state r)].
Definition record_of (b : list Z) : resource_record :=
  ResourceRecord (field 0 8 b) (field 8 8 b) (field 16 4 b) (field 20 2 b) (field 22 2 b) (field 24 4 b) (field 28 4 b).

Record persistence {N : Type} := Persistence {
  dirty_mask : list Z; s_nvs_handle : option open_mode; nvs : N; cat : catalog;
}.
Arguments persistence : clear implicits.
Arguments Persistence {N}.
#[export] Instance persistence_rebuild {N} : Rebuild (persistence N) := fun p =>
  Persistence (dirty_mask p) (s_nvs_handle p) (nvs p) (cat p).

(** The digits go in from place 14 down to place 0 of the buffer: [places] of
    them are left. *)
Definition digit (rem : Z) : Z := if rem <? 10 then 48 + rem else 65 + (rem - 10).
Fixpoint key_digits (places : nat) (val : Z) (key : list Z) : list Z :=
  match places with
  | O => key
  | S places => if 0 <? val then key_digits places (val / 36) (digit (val mod 36) :: key) else key
  end.
Definition get_nvs_key (id : Z) : list Z := if id =? 0 then [48] else key_digits 15 id [].

Section persistence.
Context {N : Type} `{NvsEntries N}.

Definition persistence_zero (n : N) : persistence N := Persistence (replicate 32 0) None n catalog_zero.
Definition on_entries {A} (m : st N A) : st (persistence N) A :=
  on_part nvs (fun n p => Persistence (dirty_mask p) (s_nvs_handle p) n (cat p)) m.
Definition word_of (i : Z) (p : persistence N) : Z := default 0 (zget (dirty_mask p) i).

Definition v3_persistence_mark_dirty (idx : Z) (p : persistence N) : persistence N :=
  if V3_CATALOG_MAX_RESOURCES <=? idx then p
  else p <| dirty_mask := zset (dirty_mask p) (idx / 32) (Discovery.set_bit (word_of (idx / 32) p) (idx mod 32)) |>.

Definition write_record (handle : open_mode) (rec : resource_record) : st (persistence N) Z :=
  ok ← on_entries (entries_set handle (get_nvs_key (rec_id rec)) (record_bytes rec));
  mret (if ok : bool then 1 else 0).
(** The body of the [while]: 1 when a record was written. *)
Definition flush_one (handle : open_mode) (i : Z) : st (persistence N) Z :=
  mask ← gets (word_of i);
  let bit_idx := Discovery.lowest_bit mask in
  rec ← gets (fun p => get_by_index (i * 32 + bit_idx) (cat p));
  written ← match rec with Some rec => write_record handle rec | None => mret 0 end;
  modify (fun p => p <| dirty_mask := zset (dirty_mask p) i (Discovery.clear_bit (word_of i p) bit_idx) |>);;
  mret written.
(** A word has 32 bits, and every round clears one. *)
Fixpoint flush_word (fuel : nat) (handle : open_mode) (i write_count : Z) : st (persistence N) Z :=
  match fuel with
  | O => mret write_count
  | S fuel =>
    mask ← gets (word_of i);
    if mask =? 0 then mret write_count
    else written ← flush_one handle i; flush_word fuel handle i (write_count + written)
  end.
Fixpoint flush_words (words : nat) (handle : open_mode) (i write_count : Z) : st (persistence N) Z :=
  match words with
  | O => mret write_count
  | S words => write_count ← flush_word 32 handle i write_count; flush_words words handle (i + 1) write_count
  end.

Definition v3_persistence_flush_dirty_records : st (persistence N) Z :=
  handle ← gets s_nvs_handle;
  handle ← match handle with
           | Some mode => mret (Some mode)
           | None =>
             ok ← on_entries (entries_open NVS_READWRITE);
             if ok : bool then modify (fun p => p <| s_nvs_handle := Some NVS_READWRITE |>);; mret (Some NVS_READWRITE)
             else mret None
           end;
  match handle with
  | None => mret 0
  | Some mode =>
    write_count ← flush_words 32 mode 0 0;
    (if 0 <? write_count then on_entries entries_commit else mret tt);;
    mret write_count
  end.

(** A blob shorter than the record leaves [stack], what the variable held, in
    the rest of it; a longer one is an error. *)
Definition restore_resource (stack : list Z) (key : list Z) (p : persistence N) : persistence N :=
  match entries_get key (nvs p) with
  | Some blob =>
    if Nat.leb (length blob) sizeof_resource_record
    then p <| cat := (insert (record_of (blob ++ drop (length blob) stack)) (cat p)).2 |>
    else p
  | None => p
  end.
Definition v3_persistence_restore_catalog (stack : list Z) : st (persistence N) bool :=
  ok ← on_entries (entries_open NVS_READONLY);
  if negb ok then mret false
  else
    modify (fun p => p <| s_nvs_handle := Some NVS_READONLY |>);;
    modify (fun p => foldl (fun p key => restore_resource stack key p) p (entries_find (nvs p)));;
    mret true.
End persistence.

(** ** Keys name records uniquely *)

Definition undigit (c : Z) : Z := if c <? 65 then c - 48 else c - 65 + 10.
Definition key_value (acc : Z) (key : list Z) : Z := foldl (fun v c => v * 36 + undigit c) acc key.
Lemma undigit_digit r : 0 <= r < 36 -> undigit (digit r) = r.
Proof.
  intros. unfold undigit, digit. destruct (Z.ltb_spec r 10); destruct (Z.ltb_spec (48 + r) 65), (Z.ltb_spec (65 + (r - 10)) 65); lia.
Qed.
Lemma key_digits_value places val key : 0 <= val < 36 ^ Z.of_nat places ->
  key_value 0 (key_digits places val key) = key_value val key.
Proof.
  revert val key. induction places as [|n IH]; intros val key Hv.
  - cbn in *. by replace val with 0 by lia.
  - rewrite Nat2Z.inj_succ, Z.pow_succ_r in Hv by lia. cbn [key_digits]. destruct (Z.ltb_spec 0 val) as [Hp|Hz].
    + rewrite IH by (split; [apply Z.div_pos; lia|apply Z.div_lt_upper_bound; lia]). unfold key_value. cbn [foldl].
      rewrite undigit_digit by (apply Z.mod_pos_bound; lia). f_equal. pose proof (Z.div_mod val 36). lia.
    + by replace val with 0 by lia.
Qed.
Lemma key_of_id id : is_u64 id -> key_value 0 (get_nvs_key id) = id.
Proof.
  intros Hid. unfold get_nvs_key. destruct (Z.eqb_spec id 0) as [->|]; [done|].
  rewrite key_digits_value; [done|]. change (36 ^ Z.of_nat 15) with 221073919720733357899776. lia.
Qed.
Lemma get_nvs_key_inj id id' : is_u64 id -> is_u64 id' -> get_nvs_key id = get_nvs_key id' -> id = id'.
Proof. intros H H' He. by rewrite <- (key_of_id id H), <- (key_of_id id' H'), He. Qed.

(** ** The journal after a restore *)

Section read_only.
Context {N : Type} `{NvsEntriesLaws N}.
Implicit Types p q : persistence N.
Definition journal_wf p : Prop := length (dirty_mask p) = 32%nat /\ Forall (fun w => is_u32 w) (dirty_mask p).
Definition with_mask (mask : list Z) p : persistence N := p <| dirty_mask := mask |>.

Lemma flush_one_read_only i p : 0 <= i ->
  (flush_one NVS_READONLY i p).1 = 0 /\
  (flush_one NVS_READONLY i p).2 = with_mask (zset (dirty_mask p) i (Discovery.clear_bit (word_of i p) (Discovery.lowest_bit (word_of i p)))) p.
Proof.
  intros Hi. unfold flush_one. rewrite run_bind_gets. cbv zeta. rewrite run_bind_gets. destruct (get_by_index _ _) as [rec|]; [|done].
  unfold write_record, on_entries, on_part, mbind, st_bind. rewrite entries_read_only. by destruct p.
Qed.
Lemma flush_word_read_only fuel i wc p : 0 <= i < 32 -> journal_wf p -> (length (Discovery.bits (word_of i p)) <= fuel)%nat ->
  flush_word fuel NVS_READONLY i wc p = (wc, with_mask (zset (dirty_mask p) i 0) p).
Proof.
  intros Hi. revert wc p. induction fuel as [|fuel IH]; intros wc p [Hl Hw] Hf.
  all: destruct (zget_some (dirty_mask p) i) as [w Hget]; [rewrite Hl; lia|].
  all: assert (word_of i p = w) as Hword by (unfold word_of; by rewrite Hget).
  all: assert (is_u32 w) as Hwr by (unfold zget in Hget; destruct (0 <=? i); [exact (Forall_lookup_1 _ _ _ _ Hw Hget)|done]).
  all: assert (w = 0 -> with_mask (zset (dirty_mask p) i 0) p = p) as Hsame
    by (intros ->; unfold with_mask, zset, zget in *; destruct (0 <=? i); [rewrite (list_insert_id _ _ _ Hget); by destruct p|done]).
  - cbn. rewrite Hsame; [done|]. rewrite Hword in Hf. apply Discovery.bits_nil; [done|]. destruct (Discovery.bits w); [done|cbn in Hf; lia].
  - cbn [flush_word]. rewrite run_bind_gets, Hword. destruct (Z.eqb_spec w 0) as [Hz|Hz]; [cbn; by rewrite Hsame|].
    rewrite run_bind_surj. destruct (flush_one_read_only i p ltac:(lia)) as [-> ->]. rewrite Hword in *. rewrite Z.add_0_r.
    destruct (Discovery.bits w) as [|b rest] eqn:Hb; [by apply Discovery.bits_nil in Hb|].
    rewrite (Discovery.lowest_bit_first w b rest Hb). set (q := with_mask _ p).
    assert (word_of i q = Discovery.clear_bit w (Z.of_nat b)) as Hq by (unfold word_of; cbn; by rewrite zget_zset_eq by (rewrite Hl; lia)).
    rewrite IH.
    + unfold q, with_mask, zset. cbn. destruct (0 <=? i); [|done]. by rewrite list_insert_insert_eq.
    + split; [cbn; by rewrite length_zset|]. cbn. unfold zset. destruct (0 <=? i); [|done]. apply Forall_insert; [done|]. by apply Discovery.clear_bit_range.
    + rewrite Hq, (Discovery.bits_clear w b rest Hb). cbn in Hf. lia.
Qed.
Lemma length_bits w : (length (Discovery.bits w) <= 32)%nat.
Proof. unfold Discovery.bits. etransitivity; [apply length_filter|]. by rewrite length_seq. Qed.
Lemma zset_zero_wf i p : journal_wf p -> journal_wf (with_mask (zset (dirty_mask p) i 0) p).
Proof.
  intros [Hl Hw]. split; [cbn; by rewrite length_zset|]. cbn. unfold zset. destruct (0 <=? i); [|done]. apply Forall_insert; [done|]. lia.
Qed.
Lemma flush_words_read_only words i wc p : journal_wf p -> (i + words = 32)%nat ->
  flush_words words NVS_READONLY (Z.of_nat i) wc p = (wc, with_mask (take i (dirty_mask p) ++ replicate words 0) p).
Proof.
  revert i p. induction words as [|words IH]; intros i p Hp Hi.
  - cbn. rewrite app_nil_r, take_ge by (destruct Hp; lia). by destruct p.
  - cbn [flush_words]. erewrite run_bind_eq; [|exact (flush_word_read_only 32 (Z.of_nat i) wc p ltac:(lia) Hp (length_bits _))].
    replace (Z.of_nat i + 1) with (Z.of_nat (S i)) by lia. rewrite (IH (S i)) by (lia || by apply zset_zero_wf).
    enough (take (S i) (zset (dirty_mask p) (Z.of_nat i) 0) ++ replicate words 0 = take i (dirty_mask p) ++ replicate (S words) 0) as He
      by (unfold with_mask; cbn [dirty_mask update]; by rewrite He).
    unfold zset. destruct (Z.leb_spec 0 (Z.of_nat i)); [|lia].
    rewrite Nat2Z.id. destruct Hp as [Hl _]. rewrite take_insert_lt by lia.
    destruct (lookup_lt_is_Some_2 (dirty_mask p) i ltac:(lia)) as [x Hx]. rewrite (take_S_r _ _ _ Hx).
    rewrite insert_app_r_alt by (rewrite length_take; lia). rewrite length_take, Nat.min_l, Nat.sub_diag by lia. cbn. by rewrite <- app_assoc.
Qed.

(** After a boot that restored the catalogue nothing is ever saved again: the
    restore leaves its read-only handle for the flush to use, and from then on,
    whatever the catalogue and the marks have become, a flush reports 0 records,
    writes nothing, and clears every mark, so the changes are forgotten. *)
Theorem no_save_after_restore (stack : list Z) p q q' :
  v3_persistence_restore_catalog stack p = (true, q) -> s_nvs_handle q' = s_nvs_handle q -> journal_wf q' ->
  v3_persistence_flush_dirty_records q' = (0, q' <| dirty_mask := replicate 32 0 |>).
Proof.
  intros Hr Hh Hw. unfold v3_persistence_restore_catalog in Hr. rewrite run_bind_surj in Hr.
  destruct (on_entries (entries_open NVS_READONLY) p) as [[] p']; cbn in Hr; [|done]. injection Hr as <-.
  assert (s_nvs_handle q' = Some NVS_READONLY) as Hq.
  { rewrite Hh. assert (forall keys r, s_nvs_handle r = Some NVS_READONLY ->
      s_nvs_handle (foldl (fun p key => restore_resource stack key p) r keys) = Some NVS_READONLY) as Hk by
      (induction keys as [|k keys IH]; intros r Hr; [done|]; cbn; apply IH; unfold restore_resource; by repeat case_match).
    by apply Hk. }
  unfold v3_persistence_flush_dirty_records. rewrite run_bind_gets, Hq, run_bind_ret.
  erewrite run_bind_eq; [|exact (flush_words_read_only 32 0 0 q' Hw eq_refl)]. done.
Qed.
End read_only.

(** Flash that never fails. *)
Definition entry_flash : Type := gmap (list Z) (list Z).
#[export] Instance entry_flash_entries : NvsEntries entry_flash := {
  entries_open _ n := (true, n);
  entries_set mode k v n := match mode with NVS_READONLY => (false, n) | NVS_READWRITE => (true, <[k := v]> n) end;
  entries_commit n := (tt, n);
  entries_find n := (map_to_list n).*1;
  entries_get k n := n !! k;
}.
#[export] Instance entry_flash_laws : NvsEntriesLaws entry_flash.
Proof. split. done. Qed.

(** A first run saves a record; the next one restores it and cannot save its new
    state. *)
Lemma no_save_after_restore_witness :
  let p1 := persistence_zero (N := entry_flash) ∅ in
  let p := v3_persistence_mark_dirty 0 (p1 <| cat := (insert (ResourceRecord 5 0 0 0 0 0 0) (cat p1)).2 |>) in
  let saved := v3_persistence_flush_dirty_records p in
  let q := (v3_persistence_restore_catalog [] (persistence_zero (nvs saved.2))).2 in
  let q' := v3_persistence_mark_dirty 0 (q <| cat := (update_desired 5 1 (cat q)).2 |>) in
  saved.1 = 1 /\ find 5 (cat q') = Some (ResourceRecord 5 0 0 0 0 1 0) /\ (v3_persistence_flush_dirty_records q').1 = 0.
Proof.
  intros p1 p saved q q'. split; [by vm_compute|]. split; [by vm_compute|].
  rewrite (no_save_after_restore [] (persistence_zero (nvs saved.2)) q).
  - done.
  - by vm_compute.
  - done.
  - assert (dirty_mask q' = 1 :: replicate 31 0) as Hm by (by vm_compute). unfold journal_wf. rewrite Hm.
    split; [done|]. constructor; [lia|]. apply Forall_replicate. lia.
Defined.
End Persistence.

Module Api.
Import Catalog.

(** ** [v3_automation.c] *)
Definition v3_automation_write_desired (target_id desired : Z) (c : catalog) : bool * catalog := update_desired target_id desired c.
Definition v3_automation_update_reported (target_id reported : Z) (c : catalog) : bool * catalog := update_reported target_id reported c.

(** ** The listing ([v3_api.c]) *)
Definition V3_API_STREAM_BUFFER_SIZE : Z := 512.
(** [v3_api_cursor_t] *)
Record cursor := Cursor { after_id : Z; limit : Z }.

(** The line of a record: [{"id":"..","k":"..","s":..,"t":..,"d":..,"r":..}] in
    character codes.  It has at most 112 of the 127 characters there is room
    for, so [snprintf] never cuts it. *)
Definition line_of (r : resource_record) : list Z :=
  [123; 34; 105; 100; 34; 58; 34] ++ decimal (rec_id r) ++ [34; 44; 34; 107; 34; 58; 34] ++ decimal (rec_key r)
  ++ [34; 44; 34; 115; 34; 58] ++ decimal (status r) ++ [44; 34; 116; 34; 58] ++ decimal (last_seen_tick r)
  ++ [44; 34; 100; 34; 58] ++ decimal (desired_state r) ++ [44; 34; 114; 34; 58] ++ decimal (reported_state r) ++ [125; 10].

(** The chunks given to the sink, the buffer, and the last identifier. *)
Record stream := Stream { chunks : list (list Z); stream_buf : list Z; last_id : Z }.
Definition stream_record (r : resource_record) (s : stream) : stream :=
  let line := line_of r in
  let '(chunks, buf) :=
    if V3_API_STREAM_BUFFER_SIZE <=? Z.of_nat (length (stream_buf s)) + Z.of_nat (length line)
    then (chunks s ++ [stream_buf s], []) else (chunks s, stream_buf s) in
  Stream chunks (buf ++ line) (rec_id r).
(** The loop over the positions [i .. stop - 1], [n] of them. *)
Fixpoint stream_from (n : nat) (i : Z) (c : catalog) (s : stream) : stream :=
  match n with
  | O => s
  | S n => stream_from n (i + 1) c (stream_record (pool_at i c) s)
  end.

Definition start_index (after : Z) (c : catalog) : Z :=
  if negb (after =? 0) then
    match search_all after c with Some (inl found_idx) => found_idx + 1 | _ => 0 end
  else 0.

(** The chunks the sink received and the value returned. *)
Definition v3_api_stream_catalog_ndjson (cur : cursor) (c : catalog) : list (list Z) * Z :=
  let start := start_index (after_id cur) c in
  let stop := Z.min (size c) (start + limit cur) in
  let s := stream_from (Z.to_nat (stop - start)) start c (Stream [] [] 0) in
  (if 0 <? Z.of_nat (length (stream_buf s)) then chunks s ++ [stream_buf s] else chunks s, last_id s).

(** ** What a page holds *)

(** The client of the header: it asks for the next page until it gets 0. *)
Fixpoint pages (fuel : nat) (lim after : Z) (c : catalog) : option (list Z) :=
  match fuel with
  | O => None
  | S fuel =>
    let '(chunks, last) := v3_api_stream_catalog_ndjson (Cursor after lim) c in
    if last =? 0 then Some (concat chunks)
    else (fun rest => concat chunks ++ rest) <$> pages fuel lim last c
  end.

Lemma stream_from_records n i c s : catalog_wf c -> 0 <= i -> i + Z.of_nat n <= s_count c ->
  let s' := stream_from n i c s in
  let rs := take n (drop (Z.to_nat i) (live c)) in
  concat (chunks s') ++ stream_buf s' = concat (chunks s) ++ stream_buf s ++ concat (line_of <$> rs) /\
  last_id s' = default (last_id s) (rec_id <$> last rs).
Proof.
  intros Hc. revert i s. induction n as [|n IH]; intros i s Hi Hn.
  - cbn. by rewrite app_nil_r.
  - cbn [stream_from]. destruct (IH (i + 1) (stream_record (pool_at i c) s) ltac:(lia) ltac:(lia)) as [H1 H2]. cbv zeta.
    rewrite H1, H2. pose proof (live_at_Z c Hc i ltac:(lia)) as Hx.
    replace (Z.to_nat (i + 1)) with (S (Z.to_nat i)) by lia.
    rewrite (drop_S _ _ _ Hx). cbn [take fmap list_fmap concat]. split.
    + unfold stream_record. generalize (line_of (pool_at i c)) as line. intros line.
      destruct (_ <=? _); cbn [chunks stream_buf]; rewrite ?concat_app; cbn [concat app]; by rewrite ?app_nil_r, <- ?app_assoc.
    + assert (last_id (stream_record (pool_at i c) s) = rec_id (pool_at i c)) as -> by (unfold stream_record; by destruct (_ <=? _)).
      generalize (take n (drop (S (Z.to_nat i)) (live c))) as l. intros l.
      destruct l as [|r l _] using rev_ind; [done|].
      by rewrite app_comm_cons, !last_snoc.
Qed.

Lemma page_spec cur c : catalog_wf c -> 0 <= start_index (after_id cur) c <= s_count c -> 0 <= limit cur ->
  let start := start_index (after_id cur) c in
  let rs := take (Z.to_nat (Z.min (s_count c) (start + limit cur) - start)) (drop (Z.to_nat start) (live c)) in
  concat (v3_api_stream_catalog_ndjson cur c).1 = concat (line_of <$> rs) /\
  (v3_api_stream_catalog_ndjson cur c).2 = default 0 (rec_id <$> last rs).
Proof.
  intros Hc Hi Hlim. cbv zeta. set (start := start_index _ c) in *. set (n := Z.to_nat _).
  destruct (stream_from_records n start c (Stream [] [] 0) Hc ltac:(lia) ltac:(lia)) as [H1 H2].
  unfold v3_api_stream_catalog_ndjson, size. cbv zeta. fold start. fold n. cbn [fst snd]. split; [|exact H2].
  cbn in H1. rewrite <- H1. set (s := stream_from _ _ _ _).
  destruct (stream_buf s) as [|z l]; [by rewrite app_nil_r|].
  replace (0 <? Z.of_nat (length (z :: l))) with true by (symmetry; apply Z.ltb_lt; cbn [length]; lia).
  rewrite concat_app. cbn [concat]. by rewrite app_nil_r.
Qed.

(** The position after a record, and the beginning for an identifier that is not there. *)
Lemma start_index_known i c : catalog_wf c -> 0 <= i < s_count c -> rec_id (pool_at i c) <> 0 ->
  start_index (rec_id (pool_at i c)) c = i + 1.
Proof.
  intros Hc Hi Hne. unfold start_index. destruct (Z.eqb_spec (rec_id (pool_at i c)) 0); [done|]. cbn [negb].
  destruct (search_all_spec c Hc (rec_id (pool_at i c))) as [(j & -> & Hj & He)|(j & -> & Hj & Hb & Ha)].
  - destruct (decide (i = j)) as [->|]; [done|]. exfalso.
    destruct (decide (i < j)); [pose proof (ids_increase c Hc i j)|pose proof (ids_increase c Hc j i)]; lia.
  - exfalso. destruct (decide (i < j)); [specialize (Hb i ltac:(lia))|specialize (Ha i ltac:(lia))]; lia.
Qed.
Lemma start_index_unknown id c : catalog_wf c -> view c !! id = None -> start_index id c = 0.
Proof.
  intros Hc Hv. unfold start_index. destruct (negb _); [|done].
  destruct (search_all_spec c Hc id) as [(j & -> & Hj & He)|(j & -> & Hj)]; [|done].
  rewrite <- He, (view_some c Hc j Hj) in Hv. done.
Qed.

Lemma pages_from fuel lim after c : catalog_wf c -> Forall (fun r => rec_id r <> 0) (live c) -> 0 < lim ->
  0 <= start_index after c <= s_count c -> (Z.to_nat (s_count c - start_index after c) < fuel)%nat ->
  pages fuel lim after c = Some (concat (line_of <$> drop (Z.to_nat (start_index after c)) (live c))).
Proof.
  intros Hc Hids Hlim. revert after. induction fuel as [|fuel IH]; intros after Hs Hf; [lia|]. cbn [pages].
  destruct (page_spec (Cursor after lim) c Hc Hs ltac:(cbn; lia)) as [H1 H2]. cbn [after_id limit] in *. cbv zeta in H1, H2.
  destruct (v3_api_stream_catalog_ndjson _ c) as [cs r]. cbn [fst snd] in *. subst r. rewrite H1. clear H1.
  set (i := start_index after c) in *. pose proof (live_length c Hc) as Hlen.
  destruct (decide (i = s_count c)) as [->|Hlt].
  { rewrite drop_ge by lia. by rewrite take_nil. }
  set (stop := Z.min (s_count c) (i + lim)). assert (i < stop <= s_count c) as Hstop by (unfold stop; lia).
  assert (last (take (Z.to_nat (stop - i)) (drop (Z.to_nat i) (live c))) = Some (pool_at (stop - 1) c)) as ->.
  { rewrite last_lookup, length_take, length_drop, lookup_take_lt, lookup_drop by lia.
    rewrite <- (live_at_Z c Hc (stop - 1)) by lia. f_equal. lia. }
  cbn [fmap option_fmap option_map default from_option id]. pose proof (live_at_Z c Hc (stop - 1) ltac:(lia)) as Hx.
  assert (rec_id (pool_at (stop - 1) c) <> 0) as Hne by exact (Forall_lookup_1 _ _ _ _ Hids Hx).
  destruct (Z.eqb_spec (rec_id (pool_at (stop - 1) c)) 0); [done|].
  assert (start_index (rec_id (pool_at (stop - 1) c)) c = stop) as Hst by (rewrite start_index_known by (done || lia); lia).
  rewrite IH by (rewrite Hst; lia). rewrite Hst. cbn [fmap option_fmap option_map]. f_equal.
  rewrite <- concat_app, <- fmap_app. f_equal. f_equal.
  replace (drop (Z.to_nat stop) (live c)) with (drop (Z.to_nat (stop - i)) (drop (Z.to_nat i) (live c))) by (rewrite drop_drop; f_equal; lia).
  apply take_drop.
Qed.

(** A client that asks for page after page until it gets 0 receives the line of
    every record exactly once, in the order of the identifiers, whatever the page
    size, when the catalogue does not change meanwhile and no identifier is 0. *)
Theorem pages_list_catalogue (lim : Z) (c : catalog) :
  catalog_wf c -> Forall (fun r => rec_id r <> 0) (live c) -> 0 < lim ->
  pages (S (Z.to_nat (s_count c))) lim 0 c = Some (concat (line_of <$> live c)).
Proof.
  intros Hc Hids Hlim. pose proof Hc as (_ & Hn & _). rewrite pages_from; [done|done|done|done|cbn; lia|cbn; lia].
Qed.

(** Three records, two to a page. *)
Lemma pages_list_catalogue_witness :
  let c := (run_ops step [Insert (ResourceRecord 9 1 0 0 0 0 0); Insert (ResourceRecord 4 2 0 0 0 0 0); Insert (ResourceRecord 6 3 0 0 0 0 0)] catalog_zero).2 in
  pages 4 2 0 c = Some (line_of (ResourceRecord 4 2 0 0 0 0 0) ++ line_of (ResourceRecord 6 3 0 0 0 0 0) ++ line_of (ResourceRecord 9 1 0 0 0 0 0)).
Proof.
  intros c. assert (live c = [ResourceRecord 4 2 0 0 0 0 0; ResourceRecord 6 3 0 0 0 0 0; ResourceRecord 9 1 0 0 0 0 0]) as Hl by (by vm_compute).
  assert (s_count c = 3) as Hn by (by vm_compute).
  assert (catalog_wf c) as Hc.
  { refine (conj _ (conj _ _)); [by vm_compute|rewrite Hn; lia|]. rewrite Hl. repeat constructor; cbn; lia. }
  pose proof (pages_list_catalogue 2 c Hc ltac:(rewrite Hl; repeat constructor; cbn; lia) ltac:(lia)) as H.
  rewrite Hn, Hl in H. exact H.
Defined.

(** The cursor is not immune to changes, as its comment claims: when the record
    it points after has been removed, the next page starts again with the first
    record. *)
Theorem removed_cursor_restarts (id lim : Z) (c : catalog) :
  catalog_wf c -> v3_api_stream_catalog_ndjson (Cursor id lim) (remove_record id c).2
    = v3_api_stream_catalog_ndjson (Cursor 0 lim) (remove_record id c).2.
Proof.
  intros Hc. destruct (remove_refines c Hc id) as [Hc' Hs]. cbn [step map_step] in Hc', Hs.
  destruct (remove_record id c) as [ok c']. cbn [snd] in *. injection Hs as _ Hview.
  unfold v3_api_stream_catalog_ndjson. cbn [after_id limit]. rewrite (start_index_unknown id); [done|done|].
  rewrite <- Hview. apply lookup_delete_eq.
Qed.

Lemma removed_cursor_restarts_witness :
  let c := (run_ops step [Insert (ResourceRecord 4 2 0 0 0 0 0); Insert (ResourceRecord 6 3 0 0 0 0 0)] catalog_zero).2 in
  (v3_api_stream_catalog_ndjson (Cursor 6 1) (remove_record 6 c).2).1 = [line_of (ResourceRecord 4 2 0 0 0 0 0)].
Proof.
  intros c. rewrite removed_cursor_restarts; [by vm_compute|].
  assert (live c = [ResourceRecord 4 2 0 0 0 0 0; ResourceRecord 6 3 0 0 0 0 0]) as Hl by (by vm_compute).
  refine (conj _ (conj _ _)); [by vm_compute|assert (s_count c = 2) as -> by (by vm_compute); lia|]. rewrite Hl. repeat constructor; cbn; lia.
Defined.
End Api.
