(* ===== verification/Auth.v ===== *)
(** * Local accounts and sessions ([components/security/auth/auth.c])

    The six accounts of a node, kept as one blob in the namespace
    "security_auth", its four sessions, and the ring of the last 16 audit
    records.  A text argument is the list of its bytes without the terminator
    and [None] a null pointer.  The time is constant during a call.  The hash
    ([mbedtls]) and the random bytes ([esp_fill_random]) are parameters. *)

From Stdlib Require Import String.
From S2P Require Import Prelude Persist.
Local Open Scope string_scope.
Local Open Scope list_scope.
Local Open Scope Z_scope.

Definition AUTH_CONFIG_VERSION : Z := 2.
Definition AUTH_LEGACY_CONFIG_VERSION : Z := 1.
Definition AUTH_HASH_LEN : nat := 32.
Definition AUTH_SALT_LEN : nat := 16.
Definition AUTH_USERNAME_LEN : nat := 24.
Definition AUTH_PASSWORD_MIN_LEN : nat := 8.
Definition AUTH_SESSION_TOKEN_LEN : nat := 64.
Definition AUTH_MAX_ACCOUNTS : nat := 6.
Definition AUTH_MAX_SESSIONS : nat := 4.
Definition AUTH_AUDIT_CAPACITY : nat := 16.
Definition AUTH_AUDIT_ACTION_LEN : nat := 24.
Definition AUTH_AUDIT_DETAIL_LEN : nat := 80.
Definition AUTH_ACCOUNT_FLAG_BOOTSTRAP : Z := 1.
Definition AUTH_RATE_LIMIT_THRESHOLD : Z := 5.
Definition AUTH_RATE_LIMIT_BASE_SECONDS : Z := 5.
Definition AUTH_RATE_LIMIT_MAX_SECONDS : Z := 60.
(** [auth_session_timeout_seconds_value]: nothing writes it. *)
Definition auth_session_timeout_seconds : Z := 1800.

Definition AUTH_ROLE_NONE : Z := 0.
Definition AUTH_ROLE_ADMIN : Z := 1.
Definition AUTH_ROLE_INSTALLER : Z := 2.
Definition AUTH_ROLE_OPERATOR : Z := 3.
Definition AUTH_ROLE_VIEWER : Z := 4.

(** [auth_capability_t]: bit [n] of a mask. *)
Inductive auth_capability :=
  AUTH_CAP_DASHBOARD_READ | AUTH_CAP_MANUAL_IO | AUTH_CAP_NODE_ADMISSION | AUTH_CAP_PROFILE_WRITE | AUTH_CAP_TRANSPORT_WRITE
| AUTH_CAP_AUTOMATION_WRITE | AUTH_CAP_REBOOT_RECOVERY | AUTH_CAP_RUNTIME_DIAGNOSTICS | AUTH_CAP_SECURITY_ADMIN | AUTH_CAP_FAILSAFE_WRITE.
#[export] Instance auth_capability_eq : EqDecision auth_capability.
Proof. solve_decision. Defined.
Definition cap_bit (c : auth_capability) : Z :=
  match c with
  | AUTH_CAP_DASHBOARD_READ => 1 | AUTH_CAP_MANUAL_IO => 2 | AUTH_CAP_NODE_ADMISSION => 4 | AUTH_CAP_PROFILE_WRITE => 8
  | AUTH_CAP_TRANSPORT_WRITE => 16 | AUTH_CAP_AUTOMATION_WRITE => 32 | AUTH_CAP_REBOOT_RECOVERY => 64
  | AUTH_CAP_RUNTIME_DIAGNOSTICS => 128 | AUTH_CAP_SECURITY_ADMIN => 256 | AUTH_CAP_FAILSAFE_WRITE => 512
  end.
Definition mask_of (l : list auth_capability) : Z := foldl (fun m c => Z.lor m (cap_bit c)) 0 l.
Definition auth_role_capability_mask (role : Z) : Z :=
  if role =? AUTH_ROLE_ADMIN then
    mask_of [AUTH_CAP_DASHBOARD_READ; AUTH_CAP_MANUAL_IO; AUTH_CAP_NODE_ADMISSION; AUTH_CAP_PROFILE_WRITE; AUTH_CAP_TRANSPORT_WRITE;
             AUTH_CAP_AUTOMATION_WRITE; AUTH_CAP_REBOOT_RECOVERY; AUTH_CAP_RUNTIME_DIAGNOSTICS; AUTH_CAP_SECURITY_ADMIN; AUTH_CAP_FAILSAFE_WRITE]
  else if role =? AUTH_ROLE_INSTALLER then
    mask_of [AUTH_CAP_DASHBOARD_READ; AUTH_CAP_MANUAL_IO; AUTH_CAP_NODE_ADMISSION; AUTH_CAP_PROFILE_WRITE; AUTH_CAP_TRANSPORT_WRITE;
             AUTH_CAP_AUTOMATION_WRITE; AUTH_CAP_REBOOT_RECOVERY; AUTH_CAP_RUNTIME_DIAGNOSTICS; AUTH_CAP_FAILSAFE_WRITE]
  else if role =? AUTH_ROLE_OPERATOR then mask_of [AUTH_CAP_DASHBOARD_READ; AUTH_CAP_MANUAL_IO]
  else if role =? AUTH_ROLE_VIEWER then mask_of [AUTH_CAP_DASHBOARD_READ]
  else 0.
Definition auth_role_has_capability (role : Z) (c : auth_capability) : bool := negb (Z.land (auth_role_capability_mask role) (cap_bit c) =? 0).

Definition auth_role_name (role : Z) : string :=
  if role =? AUTH_ROLE_ADMIN then "admin" else if role =? AUTH_ROLE_INSTALLER then "integrator"
  else if role =? AUTH_ROLE_OPERATOR then "operator" else if role =? AUTH_ROLE_VIEWER then "viewer" else "".
Definition auth_role_from_text (text : option (list Z)) : option Z :=
  match text with
  | None => None
  | Some t =>
    if bool_decide (t = bytes_of "admin") then Some AUTH_ROLE_ADMIN
    else if bool_decide (t = bytes_of "integrator") || bool_decide (t = bytes_of "installer") then Some AUTH_ROLE_INSTALLER
    else if bool_decide (t = bytes_of "operator") then Some AUTH_ROLE_OPERATOR
    else if bool_decide (t = bytes_of "viewer") then Some AUTH_ROLE_VIEWER
    else None
  end.

(** ** Data *)

(** [auth_account_record_t], 77 bytes. *)
Record account := Account {
  in_use : Z; enabled : Z; role : Z; flags : Z; username : list Z; salt : list Z; hash : list Z;
}.
#[export] Instance account_rebuild : Rebuild account := fun a =>
  Account (in_use a) (enabled a) (role a) (flags a) (username a) (salt a) (hash a).
#[export] Instance account_eq_dec : EqDecision account.
Proof. solve_decision. Defined.
Definition account_zero : account :=
  Account 0 0 0 0 (replicate (AUTH_USERNAME_LEN + 1) 0) (replicate AUTH_SALT_LEN 0) (replicate AUTH_HASH_LEN 0).

(** [auth_config_blob_t]: 470 bytes and 2 of padding. *)
Record auth_config_blob := AuthConfig { version : Z; configured : Z; reserved : list Z; accounts : list account }.
#[export] Instance auth_config_blob_rebuild : Rebuild auth_config_blob := fun c =>
  AuthConfig (version c) (configured c) (reserved c) (accounts c).
#[export] Instance auth_config_blob_eq_dec : EqDecision auth_config_blob.
Proof. solve_decision. Defined.
Definition config_zero : auth_config_blob := AuthConfig 0 0 [0; 0; 0] (replicate AUTH_MAX_ACCOUNTS account_zero).

(** [auth_session_state_t]; the token is a text. *)
Record session := Session { active : bool; token : list Z; expires_at_ms : Z; issued_at_ms : Z; account_index : Z }.
#[export] Instance session_rebuild : Rebuild session := fun s =>
  Session (active s) (token s) (expires_at_ms s) (issued_at_ms s) (account_index s).
Definition session_zero : session := Session false [] 0 0 0.

(** [auth_audit_entry_t]; the two members are texts. *)
Record audit_entry := AuditEntry { timestamp_ms : Z; action : list Z; detail : list Z }.
Definition audit_zero : audit_entry := AuditEntry 0 [] [].

(** [auth_status_t] and [auth_account_info_t]. *)
Record auth_status := AuthStatus {
  st_authenticated : bool; st_configured : bool; st_bootstrap_open : bool; st_password_change_required : bool; st_role : Z;
  st_capabilities : Z; st_session_expires_in : Z; st_session_timeout_seconds : Z; st_retry_after_seconds : Z; st_username : list Z;
}.
Record account_info := AccountInfo {
  info_enabled : bool; info_bootstrap : bool; info_current_session : bool; info_role : Z; info_username : list Z;
}.

Inductive auth_login_result :=
  AUTH_LOGIN_OK | AUTH_LOGIN_INVALID_CREDENTIALS | AUTH_LOGIN_RATE_LIMITED | AUTH_LOGIN_SESSION_CREATE_FAILED.
Inductive auth_change_password_result :=
  AUTH_CHANGE_PASSWORD_OK | AUTH_CHANGE_PASSWORD_INVALID_CURRENT | AUTH_CHANGE_PASSWORD_WEAK | AUTH_CHANGE_PASSWORD_SAVE_FAILED
| AUTH_CHANGE_PASSWORD_INTERNAL_ERROR.
Inductive auth_bootstrap_create_result :=
  AUTH_BOOTSTRAP_CREATE_OK | AUTH_BOOTSTRAP_CREATE_INVALID_USERNAME | AUTH_BOOTSTRAP_CREATE_WEAK_PASSWORD
| AUTH_BOOTSTRAP_CREATE_ALREADY_CONFIGURED | AUTH_BOOTSTRAP_CREATE_SAVE_FAILED | AUTH_BOOTSTRAP_CREATE_SESSION_CREATE_FAILED.
Inductive auth_account_save_result :=
  AUTH_ACCOUNT_SAVE_OK | AUTH_ACCOUNT_SAVE_INVALID_USERNAME | AUTH_ACCOUNT_SAVE_INVALID_ROLE | AUTH_ACCOUNT_SAVE_WEAK_PASSWORD
| AUTH_ACCOUNT_SAVE_NO_SPACE | AUTH_ACCOUNT_SAVE_SAVE_FAILED | AUTH_ACCOUNT_SAVE_FORBIDDEN | AUTH_ACCOUNT_SAVE_LAST_ADMIN.
Inductive auth_account_delete_result :=
  AUTH_ACCOUNT_DELETE_OK | AUTH_ACCOUNT_DELETE_NOT_FOUND | AUTH_ACCOUNT_DELETE_SAVE_FAILED | AUTH_ACCOUNT_DELETE_FORBIDDEN
| AUTH_ACCOUNT_DELETE_LAST_ADMIN.

(** The statics, the namespace, the source of random bytes and the time
    ([esp_timer_get_time], in microseconds). *)
Record auth {N R : Type} := Auth {
  auth_config : auth_config_blob;
  auth_sessions : list session;
  auth_audit_ring : list audit_entry;
  auth_audit_index : Z;
  auth_device_mac : list Z;
  auth_failed_attempts : Z;
  auth_block_until_ms : Z;
  auth_initialized : bool;
  auth_nvs : N;
  rng : R;
  esp_timer : Z;
}.
Arguments auth : clear implicits.
Arguments Auth {N R}.
#[export] Instance auth_rebuild {N R} : Rebuild (auth N R) := fun a =>
  Auth (auth_config a) (auth_sessions a) (auth_audit_ring a) (auth_audit_index a) (auth_device_mac a) (auth_failed_attempts a)
    (auth_block_until_ms a) (auth_initialized a) (auth_nvs a) (rng a) (esp_timer a).

(** ** The blobs *)

Definition sizeof_account : nat := 77.
Definition sizeof_auth_config : nat := 472.
Definition sizeof_auth_config_v1 : nat := 56.
Definition account_bytes (a : account) : list Z :=
  pack [(1%nat, in_use a); (1%nat, enabled a); (1%nat, role a); (1%nat, flags a)] ++ username a ++ salt a ++ hash a.
Definition account_of (b : list Z) : account :=
  Account (field 0 1 b) (field 1 1 b) (field 2 1 b) (field 3 1 b)
    (take (AUTH_USERNAME_LEN + 1) (drop 4 b)) (take AUTH_SALT_LEN (drop 29 b)) (take AUTH_HASH_LEN (drop 45 b)).
Definition config_head (c : auth_config_blob) : list Z := pack [(4%nat, version c); (1%nat, configured c)] ++ reserved c.
(** The padding is written as 0 and never read. *)
Definition auth_config_bytes (c : auth_config_blob) : list Z :=
  config_head c ++ array_bytes AUTH_MAX_ACCOUNTS sizeof_account (account_bytes <$> accounts c) ++ [0; 0].
Definition auth_config_of (b : list Z) : auth_config_blob :=
  AuthConfig (field 0 4 b) (field 4 1 b) (take 3 (drop 5 b))
    ((fun i => account_of (array_slot 8 sizeof_account i b)) <$> seq 0 AUTH_MAX_ACCOUNTS).

(** ** Texts *)

Definition trim (l : list Z) : list Z := rev (skip_spaces (rev (skip_spaces l))).
Definition username_char (c : Z) : bool :=
  isalnum c || (tolower c =? 46) || (tolower c =? 45) || (tolower c =? 95).
(** The buffer has [AUTH_USERNAME_LEN + 1] bytes at every call. *)
Definition auth_username_normalize (input : option (list Z)) (allow_default_admin : bool) : option (list Z) :=
  let t := trim (default [] input) in
  match t with
  | [] => if negb allow_default_admin then None else Some (bytes_of "admin")
  | _ =>
    if Nat.ltb AUTH_USERNAME_LEN (length t) then None
    else if forallb username_char t then Some (tolower <$> t) else None
  end.

Definition auth_password_is_strong (password : option (list Z)) : bool :=
  match password with
  | None | Some [] => false
  | Some p => Nat.leb AUTH_PASSWORD_MIN_LEN (length p)
  end.

(** [auth_constant_time_equals] on two arrays of the same length. *)
Definition auth_constant_time_equals (left right : list Z) : bool :=
  foldl (fun diff xy => u8 (Z.lor diff (u8 (Z.lxor xy.1 xy.2)))) 0 (zip left right) =? 0.

Definition hex_digit (x : Z) : Z := nth (Z.to_nat x) (bytes_of "0123456789abcdef") 0.
Definition hex_text (raw : list Z) : list Z := raw ≫= (fun b => [hex_digit (Z.land (Z.shiftr b 4) 15); hex_digit (Z.land b 15)]).

(** ** Accounts *)

Definition auth_account_in_use (a : account) : bool := negb (in_use a =? 0) && negb (nth 0 (username a) 0 =? 0).
Definition auth_account_enabled (a : account) : bool := auth_account_in_use a && negb (enabled a =? 0).
Definition auth_account_bootstrap (a : account) : bool :=
  auth_account_in_use a && negb (Z.land (flags a) AUTH_ACCOUNT_FLAG_BOOTSTRAP =? 0).
Definition enabled_admin (a : account) : bool := auth_account_enabled a && (role a =? AUTH_ROLE_ADMIN).
Definition account_at (i : nat) (c : auth_config_blob) : account := nth i (accounts c) account_zero.
Definition on_account (i : nat) (f : account -> account) (c : auth_config_blob) : auth_config_blob := c <| accounts := alter f i (accounts c) |>.

Definition auth_has_any_account (c : auth_config_blob) : bool := existsb auth_account_in_use (accounts c).
(** The first position of a list where [p] holds; [None] stands for -1. *)
Fixpoint find_first {A} (p : A -> bool) (i : nat) (l : list A) : option nat :=
  match l with [] => None | x :: l => if p x then Some i else find_first p (S i) l end.
Definition auth_find_account_index (name : list Z) (c : auth_config_blob) : option nat :=
  match name with
  | [] => None
  | _ => find_first (fun a => auth_account_in_use a && bool_decide (cstr (username a) = name)) 0 (accounts c)
  end.
Definition auth_find_free_account_index (c : auth_config_blob) : option nat :=
  find_first (fun a => negb (auth_account_in_use a)) 0 (accounts c).
Definition auth_count_enabled_admins_excluding (excluded : nat) (c : auth_config_blob) : nat :=
  length (List.filter (fun ia => negb (Nat.eqb ia.1 excluded) && enabled_admin ia.2) (zip (seq 0 (length (accounts c))) (accounts c))).

Definition auth_open_config : auth_config_blob := config_zero <| version := AUTH_CONFIG_VERSION |> <| configured := 0 |>.
Definition auth_bootstrap_open_state (c : auth_config_blob) : bool := (configured c =? 0) && negb (auth_has_any_account c).
(** (changed, bootstrap migrated) and the configuration. *)
Definition auth_sanitize_loaded_config (c : auth_config_blob) : bool * bool * auth_config_blob :=
  if negb (version c =? AUTH_CONFIG_VERSION) then (true, false, auth_open_config)
  else if configured c =? 0 then
    if auth_has_any_account c then (true, true, auth_open_config) else (false, false, c)
  else if negb (auth_has_any_account c) then (true, false, auth_open_config)
  else (false, false, c).
(** What [auth_migrate_legacy_config] makes of a version 1 blob. *)
Definition legacy_config (b : list Z) : auth_config_blob :=
  if negb (field 4 1 b =? 0) then
    on_account 0 (fun a => a <| in_use := 1 |> <| enabled := 1 |> <| role := AUTH_ROLE_ADMIN |> <| flags := 0 |>
                             <| username := snprintf_into (username a) (bytes_of "admin") |>
                             <| salt := take AUTH_SALT_LEN (drop 8 b) |> <| hash := take AUTH_HASH_LEN (drop 24 b) |>)
      (auth_open_config <| configured := 1 |>)
  else auth_open_config.

(** [auth_fill_status] ignores its arguments. *)
Definition auth_fill_status : auth_status :=
  AuthStatus true true false false AUTH_ROLE_ADMIN (auth_role_capability_mask AUTH_ROLE_ADMIN) 3600 3600 0 (bytes_of "admin").

(** ** The operations *)

Section operations.
Context {N R : Type} `{Nvs N}.
(** SHA-256, [esp_fill_random] and the address [esp_read_mac] gives. *)
Variable sha256 : list Z -> list Z.
Variable esp_fill_random : nat -> R -> list Z * R.
Variable esp_mac : list Z.
Abbreviation world := (auth N R).
Implicit Types w : world.

(** Power on: the statics as the loader leaves them. *)
Definition auth_boot (n : N) (r : R) (t : Z) : world :=
  Auth config_zero (replicate AUTH_MAX_SESSIONS session_zero) (replicate AUTH_AUDIT_CAPACITY audit_zero) 0 (replicate 6 0) 0 0 false n r t.

Definition auth_now_ms w : Z := u64 (Z.quot (esp_timer w) 1000).
Definition fill_random (n : nat) : st world (list Z) := fun w =>
  let '(raw, r) := esp_fill_random n (rng w) in (raw, w <| rng := r |>).
Definition on_config (f : auth_config_blob -> auth_config_blob) w : world := w <| auth_config := f (auth_config w) |>.

Definition auth_hash_password (password salt : list Z) w : list Z := sha256 (salt ++ auth_device_mac w ++ password).
Definition auth_account_password_matches (a : account) (password : option (list Z)) w : bool :=
  auth_account_enabled a
  && match password with
     | None | Some [] => false
     | Some p => auth_constant_time_equals (auth_hash_password p (salt a) w) (hash a)
     end.

(** *** Audit *)

(** The records, with [detail] when it is not null. *)
Definition auth_audit_log (act det : option (list Z)) : st world () :=
  modify (fun w =>
    let e := AuditEntry (u32 (auth_now_ms w)) (cut AUTH_AUDIT_ACTION_LEN (default (bytes_of "event") act)) (cut AUTH_AUDIT_DETAIL_LEN (default [] det)) in
    w <| auth_audit_ring := <[Z.to_nat (auth_audit_index w `mod` Z.of_nat AUTH_AUDIT_CAPACITY) := e]> (auth_audit_ring w) |>
      <| auth_audit_index := u8 ((auth_audit_index w + 1) `mod` Z.of_nat AUTH_AUDIT_CAPACITY) |>).
Definition audit (act : string) (det : list Z) : st world () := auth_audit_log (Some (bytes_of act)) (Some det).

(** *** Configuration *)

Definition auth_save_config : st world bool := fun w =>
  let '(opened, n) := nvs_open_rw (auth_nvs w) in
  if negb opened then (false, w <| auth_nvs := n |>)
  else
    let '(written, n) := nvs_set_blob (auth_config_bytes (auth_config w)) n in
    if negb written then (false, w <| auth_nvs := n |>)
    else let '(committed, n) := nvs_commit n in (committed, w <| auth_nvs := n |>).

Definition auth_seed_open_bootstrap : st world () := modify (on_config (fun _ => auth_open_config)).

(** A failed save is only logged. *)
Definition auth_migrate_legacy_config (legacy : list Z) : st world bool :=
  if negb (field 0 4 legacy =? AUTH_LEGACY_CONFIG_VERSION) then mret false
  else
    modify (on_config (fun _ => legacy_config legacy));;
    auth_save_config;;
    (if field 4 1 legacy =? 0
     then audit "bootstrap_open_migrated" (bytes_of "legacy bootstrap convertido para criacao local da primeira conta") else mret tt);;
    mret true.

Definition auth_load_config : st world bool := fun w =>
  match nvs_get_blob (auth_nvs w) with
  | None => (false, w)
  | Some blob =>
    if Nat.eqb (length blob) sizeof_auth_config then
      let loaded := auth_config_of blob in
      if negb (version loaded =? AUTH_CONFIG_VERSION) then (false, w)
      else
        let '(changed, migrated, c) := auth_sanitize_loaded_config loaded in
        let w := on_config (fun _ => c) w in
        ((if changed : bool then
            auth_save_config;;
            if migrated : bool
            then audit "bootstrap_open_migrated" (bytes_of "bootstrap antigo convertido para conta inicial pela dashboard")
            else mret tt
          else mret tt);; mret true) w
    else if Nat.eqb (length blob) sizeof_auth_config_v1 then auth_migrate_legacy_config blob w
    else (false, w)
  end.

Definition auth_reset_sessions : st world () := modify (fun w => w <| auth_sessions := replicate AUTH_MAX_SESSIONS session_zero |>).

Definition auth_init : st world () :=
  initialized ← gets auth_initialized;
  if initialized : bool then mret tt
  else
    modify (on_config (fun _ => config_zero));;
    auth_reset_sessions;;
    modify (fun w => w <| auth_device_mac := esp_mac |>);;
    loaded ← auth_load_config;
    (if loaded : bool then mret tt
     else
       auth_seed_open_bootstrap;;
       auth_save_config;;
       audit "bootstrap_open" (bytes_of "primeira conta admin aguardando criacao local"));;
    modify (fun w => w <| auth_initialized := true |>).

Definition auth_is_configured : st world bool := auth_init;; gets (fun w => negb (configured (auth_config w) =? 0)).
Definition auth_bootstrap_open : st world bool := auth_init;; gets (fun w => auth_bootstrap_open_state (auth_config w)).

(** *** Sessions *)

Definition expired w (s : session) : bool := active s && (expires_at_ms s <=? auth_now_ms w).
Definition auth_prune_expired_sessions : st world () :=
  modify (fun w => w <| auth_sessions := (fun s => if expired w s then session_zero else s) <$> auth_sessions w |>).
Definition auth_find_session_index (tok : option (list Z)) : st world (option nat) :=
  auth_prune_expired_sessions;;
  match tok with
  | None | Some [] => mret None
  | Some t => gets (fun w => find_first (fun s => active s && bool_decide (token s = t)) 0 (auth_sessions w))
  end.
Definition session_at (i : nat) w : session := nth i (auth_sessions w) session_zero.
Definition auth_session_account_index_from_token (tok : option (list Z)) : st world Z :=
  i ← auth_find_session_index tok;
  match i with None => mret (-1) | Some i => gets (fun w => account_index (session_at i w)) end.
Definition auth_invalidate_sessions_for_account (i : nat) : st world () :=
  modify (fun w => w <| auth_sessions := (fun s => if active s && (account_index s =? Z.of_nat i) then session_zero else s) <$> auth_sessions w |>).

(** The first free place, or the session issued first. *)
Fixpoint session_target (i : nat) (oldest : Z) (target : option nat) (l : list session) : option nat :=
  match l with
  | [] => target
  | s :: l =>
    if negb (active s) then Some i
    else if issued_at_ms s <? oldest then session_target (S i) (issued_at_ms s) (Some i) l
    else session_target (S i) oldest target l
  end.
(** [out] is the size of the buffer for the token, [None] a null pointer. *)
Definition auth_create_session_for_account (index : Z) (out : option nat) : st world (option (list Z)) :=
  auth_prune_expired_sessions;;
  target ← gets (fun w => session_target 0 18446744073709551615 None (auth_sessions w));
  match target, out with
  | Some i, Some size =>
    if Nat.ltb size (AUTH_SESSION_TOKEN_LEN + 1) then mret None
    else
      raw ← fill_random (AUTH_SESSION_TOKEN_LEN / 2);
      now ← gets auth_now_ms;
      modify (fun w => w <| auth_sessions := <[i := Session true (hex_text raw) (u64 (now + auth_session_timeout_seconds * 1000)) now index]> (auth_sessions w) |>);;
      mret (Some (cut size (hex_text raw)))
  | _, _ => mret None
  end.

(** *** Rate limit *)

(** The answer, with the seconds to wait. *)
Definition auth_rate_limit_check : st world (bool * Z) :=
  auth_init;;
  gets (fun w => if auth_now_ms w <? auth_block_until_ms w
                 then (false, u32 ((u64 (auth_block_until_ms w - auth_now_ms w) + 999) `div` 1000)) else (true, 0)).
Definition named (user : list Z) : list Z := match user with [] => bytes_of "unknown" | _ => user end.
Definition auth_record_login_success (user : list Z) (bootstrap_session : bool) : st world () :=
  modify (fun w => w <| auth_failed_attempts := 0 |> <| auth_block_until_ms := 0 |>);;
  audit "login_success" (cut 64 (bytes_of "user=" ++ named user ++ bytes_of (if bootstrap_session then " bootstrap" else ""))).
(** No function calls it. *)
Definition auth_record_login_failure (user : list Z) : st world () :=
  modify (fun w => w <| auth_failed_attempts := u32 (auth_failed_attempts w + 1) |>);;
  attempts ← gets auth_failed_attempts;
  let seconds := if AUTH_RATE_LIMIT_THRESHOLD <=? attempts
                 then Z.min AUTH_RATE_LIMIT_MAX_SECONDS (u32 (AUTH_RATE_LIMIT_BASE_SECONDS * u32 (attempts - AUTH_RATE_LIMIT_THRESHOLD + 1))) else 0 in
  (if AUTH_RATE_LIMIT_THRESHOLD <=? attempts
   then modify (fun w => w <| auth_block_until_ms := u64 (auth_now_ms w + seconds * 1000) |>) else mret tt);;
  audit "login_failure" (cut 80 (bytes_of "user=" ++ named user ++ bytes_of " " ++ bytes_of (if seconds =? 0 then "invalid-credentials" else "rate-limited"))).

(** *** Requests *)

(** The credentials are not looked at; the token is the same for everybody. *)
Definition auth_login (user password : option (list Z)) (out : option nat) : st world (auth_login_result * option (list Z) * auth_status) :=
  auth_init;;
  mret (AUTH_LOGIN_OK,
        match out with Some (S size) => Some (cut (S size) (bytes_of "master_admin_session_token")) | _ => None end,
        auth_fill_status).
Definition auth_validate_session (tok : option (list Z)) : st world (bool * auth_status) := auth_init;; mret (true, auth_fill_status).
Definition auth_get_status (tok : option (list Z)) : st world auth_status := auth_init;; mret auth_fill_status.

Definition auth_destroy_session (tok : option (list Z)) : st world () :=
  auth_init;;
  match tok with
  | None | Some [] => auth_reset_sessions
  | _ =>
    i ← auth_find_session_index tok;
    match i with
    | Some i => modify (fun w => w <| auth_sessions := <[i := session_zero]> (auth_sessions w) |>)
    | None => mret tt
    end
  end.

(** [account] with a new password: a fresh salt and its hash. *)
Definition set_password (i : nat) (password : list Z) : st world () :=
  s ← fill_random AUTH_SALT_LEN;
  modify (on_config (on_account i (fun a => a <| salt := s |>)));;
  modify (fun w => on_config (on_account i (fun a => a <| hash := auth_hash_password password (salt a) w |>)) w).
(** Save, or take the configuration [previous] back. *)
Definition save_or_restore {A} (previous : auth_config_blob) (saved failed : st world A) : st world A :=
  ok ← auth_save_config;
  if ok : bool then saved else modify (on_config (fun _ => previous));; failed.

(** The place is cleared and takes an account of this name. *)
Definition new_account (i : nat) (name : list Z) (en r : Z) (password : list Z) : st world () :=
  modify (on_config (on_account i (fun _ =>
    account_zero <| in_use := 1 |> <| enabled := en |> <| role := r |> <| username := snprintf_into (username account_zero) name |>)));;
  set_password i password.

Definition auth_bootstrap_create_first_admin (user password : option (list Z)) (out : option nat) :
    st world (auth_bootstrap_create_result * option (list Z) * auth_status) :=
  auth_init;;
  previous ← gets auth_config;
  if negb (auth_bootstrap_open_state previous) then mret (AUTH_BOOTSTRAP_CREATE_ALREADY_CONFIGURED, None, auth_fill_status)
  else
    match auth_username_normalize user true with
    | None => mret (AUTH_BOOTSTRAP_CREATE_INVALID_USERNAME, None, auth_fill_status)
    | Some name =>
      if negb (auth_password_is_strong password) then mret (AUTH_BOOTSTRAP_CREATE_WEAK_PASSWORD, None, auth_fill_status)
      else
        new_account 0 name 1 AUTH_ROLE_ADMIN (default [] password);;
        modify (on_config (fun c => c <| configured := 1 |>));;
        save_or_restore previous
          (tok ← auth_create_session_for_account 0 out;
           match tok with
           | None => s ← auth_get_status None; mret (AUTH_BOOTSTRAP_CREATE_SESSION_CREATE_FAILED, None, s)
           | Some t =>
             auth_record_login_success name false;;
             audit "bootstrap_admin_created" (cut 96 (bytes_of "user=" ++ name ++ bytes_of " first-admin-created"));;
             s ← auth_get_status (Some t);
             mret (AUTH_BOOTSTRAP_CREATE_OK, Some t, s)
           end)
          (audit "bootstrap_admin_create_failed" name;; mret (AUTH_BOOTSTRAP_CREATE_SAVE_FAILED, None, auth_fill_status))
    end.

Definition valid_account_index (i : Z) : bool := (0 <=? i) && (i <? Z.of_nat AUTH_MAX_ACCOUNTS).

Definition auth_change_password (tok current new_password : option (list Z)) : st world auth_change_password_result :=
  auth_init;;
  si ← auth_find_session_index tok;
  match si with
  | None => mret AUTH_CHANGE_PASSWORD_INTERNAL_ERROR
  | Some si =>
    ai ← gets (fun w => account_index (session_at si w));
    if negb (valid_account_index ai) then mret AUTH_CHANGE_PASSWORD_INTERNAL_ERROR
    else
      let ai := Z.to_nat ai in
      previous ← gets auth_config;
      let a := account_at ai previous in
      if negb (auth_account_enabled a) then mret AUTH_CHANGE_PASSWORD_INTERNAL_ERROR
      else
        matches ← gets (auth_account_password_matches a current);
        if negb (auth_account_bootstrap a) && negb matches
        then audit "password_change_invalid_current" (cstr (username a));; mret AUTH_CHANGE_PASSWORD_INVALID_CURRENT
        else if negb (auth_password_is_strong new_password)
        then audit "password_change_weak" (cstr (username a));; mret AUTH_CHANGE_PASSWORD_WEAK
        else
          set_password ai (default [] new_password);;
          modify (on_config (on_account ai (fun a => a <| flags := Z.land (flags a) 254 |>)));;
          modify (on_config (fun c => c <| configured := 1 |>));;
          save_or_restore previous
            (modify (fun w => w <| auth_sessions := alter (fun s => s <| expires_at_ms := u64 (auth_now_ms w + auth_session_timeout_seconds * 1000) |>) si (auth_sessions w) |>);;
             audit "password_changed" (cut 64 (bytes_of "user=" ++ cstr (username a) ++ bytes_of " " ++
               bytes_of (if auth_account_bootstrap a then "bootstrap-completed" else "password-updated")));;
             mret AUTH_CHANGE_PASSWORD_OK)
            (audit "password_change_save_failed" (cstr (username a));; mret AUTH_CHANGE_PASSWORD_SAVE_FAILED)
  end.

(** [max] is the size of the array, 0 when it is null. *)
Definition auth_list_accounts (max : nat) : st world (list account_info) :=
  auth_init;;
  auth_prune_expired_sessions;;
  gets (fun w => take max
    ((fun ia : nat * account =>
        AccountInfo (negb (enabled ia.2 =? 0)) (auth_account_bootstrap ia.2)
          (existsb (fun s => active s && (account_index s =? Z.of_nat ia.1)) (auth_sessions w)) (role ia.2) (cut 25 (cstr (username ia.2))))
     <$> List.filter (fun ia => auth_account_in_use ia.2) (zip (seq 0 AUTH_MAX_ACCOUNTS) (accounts (auth_config w))))).

(** Is the session's account one that may administer accounts? *)
Definition administers (i : Z) (c : auth_config_blob) : bool := valid_account_index i && enabled_admin (account_at (Z.to_nat i) c).
Definition known_role (r : Z) : bool :=
  (r =? AUTH_ROLE_ADMIN) || (r =? AUTH_ROLE_INSTALLER) || (r =? AUTH_ROLE_OPERATOR) || (r =? AUTH_ROLE_VIEWER).
Definition saved_detail (name : list Z) (r : Z) (en : bool) (what : string) : list Z :=
  cut 96 (bytes_of "user=" ++ name ++ bytes_of " role=" ++ bytes_of (auth_role_name r) ++ bytes_of " enabled=" ++ decimal (if en then 1 else 0) ++ bytes_of what).

Definition auth_save_account (tok user : option (list Z)) (r : Z) (en : bool) (password : option (list Z)) : st world auth_account_save_result :=
  auth_init;;
  match auth_username_normalize user true with
  | None => mret AUTH_ACCOUNT_SAVE_INVALID_USERNAME
  | Some name =>
    if negb (known_role r) then mret AUTH_ACCOUNT_SAVE_INVALID_ROLE
    else
      current ← auth_session_account_index_from_token tok;
      previous ← gets auth_config;
      if negb (administers current previous) then mret AUTH_ACCOUNT_SAVE_FORBIDDEN
      else
        let present := match password with None | Some [] => false | _ => true end in
        let flag := if en then 1 else 0 in
        let finish what := save_or_restore previous
          (audit "account_saved" (saved_detail name r en what);; mret AUTH_ACCOUNT_SAVE_OK)
          (audit "account_save_failed" name;; mret AUTH_ACCOUNT_SAVE_SAVE_FAILED) in
        match auth_find_account_index name previous with
        | Some i =>
          if Z.of_nat i =? current then mret AUTH_ACCOUNT_SAVE_FORBIDDEN
          else if (negb en || negb (r =? AUTH_ROLE_ADMIN)) && (role (account_at i previous) =? AUTH_ROLE_ADMIN)
                  && Nat.eqb (auth_count_enabled_admins_excluding i previous) 0 then mret AUTH_ACCOUNT_SAVE_LAST_ADMIN
          else
            modify (on_config (on_account i (fun a => a <| enabled := flag |> <| role := u8 r |>)));;
            if present && negb (auth_password_is_strong password) then mret AUTH_ACCOUNT_SAVE_WEAK_PASSWORD
            else
              (if present then
                 set_password i (default [] password);;
                 modify (on_config (on_account i (fun a => a <| flags := Z.land (flags a) 254 |>)));;
                 auth_invalidate_sessions_for_account i
               else mret tt);;
              finish " updated"
        | None =>
          if negb present then mret AUTH_ACCOUNT_SAVE_WEAK_PASSWORD
          else if negb (auth_password_is_strong password) then mret AUTH_ACCOUNT_SAVE_WEAK_PASSWORD
          else
            match auth_find_free_account_index previous with
            | None => mret AUTH_ACCOUNT_SAVE_NO_SPACE
            | Some i => new_account i name flag (u8 r) (default [] password);; finish " created"
            end
        end
  end.

Definition auth_delete_account (tok user : option (list Z)) : st world auth_account_delete_result :=
  auth_init;;
  match auth_username_normalize user true with
  | None => mret AUTH_ACCOUNT_DELETE_NOT_FOUND
  | Some name =>
    current ← auth_session_account_index_from_token tok;
    previous ← gets auth_config;
    if negb (administers current previous) then mret AUTH_ACCOUNT_DELETE_FORBIDDEN
    else
      match auth_find_account_index name previous with
      | None => mret AUTH_ACCOUNT_DELETE_NOT_FOUND
      | Some i =>
        if Z.of_nat i =? current then mret AUTH_ACCOUNT_DELETE_FORBIDDEN
        else if (role (account_at i previous) =? AUTH_ROLE_ADMIN) && Nat.eqb (auth_count_enabled_admins_excluding i previous) 0
        then mret AUTH_ACCOUNT_DELETE_LAST_ADMIN
        else
          modify (on_config (on_account i (fun _ => account_zero)));;
          auth_invalidate_sessions_for_account i;;
          save_or_restore previous
            (audit "account_deleted" (cut 64 (bytes_of "user=" ++ name ++ bytes_of " deleted"));; mret AUTH_ACCOUNT_DELETE_OK)
            (audit "account_delete_failed" name;; mret AUTH_ACCOUNT_DELETE_SAVE_FAILED)
      end
  end.

(** [max] is the size of the array, 0 when it is null. *)
Definition auth_export_audit (max : nat) : st world (list audit_entry) :=
  auth_init;;
  gets (fun w =>
    let used e := match action e with [] => false | _ => true end in
    let count := length (List.filter used (auth_audit_ring w)) in
    let start := if Nat.eqb count AUTH_AUDIT_CAPACITY then auth_audit_index w else 0 in
    take max (List.filter used ((fun i => nth (Z.to_nat (u8 ((start + Z.of_nat i) `mod` Z.of_nat AUTH_AUDIT_CAPACITY))) (auth_audit_ring w) audit_zero) <$> seq 0 count))).
End operations.

(** ** The stored form *)

Record account_typed (a : account) : Prop := {
  typed_in_use : is_u8 (in_use a);
  typed_enabled : is_u8 (enabled a);
  typed_role : is_u8 (role a);
  typed_flags : is_u8 (flags a);
  typed_username : length (username a) = S AUTH_USERNAME_LEN;
  typed_salt : length (salt a) = AUTH_SALT_LEN;
  typed_hash : length (hash a) = AUTH_HASH_LEN;
}.
Record auth_config_typed (c : auth_config_blob) : Prop := {
  typed_version : version c = AUTH_CONFIG_VERSION;
  typed_configured : is_u8 (configured c);
  typed_reserved : length (reserved c) = 3%nat;
  typed_accounts : Forall account_typed (accounts c);
  typed_length : length (accounts c) = AUTH_MAX_ACCOUNTS;
}.

Lemma length_account_bytes a : account_typed a -> length (account_bytes a) = sizeof_account.
Proof. intros []. unfold account_bytes. by rewrite !length_app, length_pack, typed_username0, typed_salt0, typed_hash0. Qed.
Lemma account_roundtrip a : account_typed a -> account_of (account_bytes a) = a.
Proof.
  intros []. unfold account_of, account_bytes. set (ms := [(1%nat, in_use a); (1%nat, enabled a); (1%nat, role a); (1%nat, flags a)]).
  assert (length (pack ms) = 4%nat) as Hl by (by rewrite length_pack).
  rewrite (field_pack 0 ms 1 (in_use a)), (field_pack 1 ms 1 (enabled a)), (field_pack 2 ms 1 (role a)), (field_pack 3 ms 1 (flags a)) by done.
  change 45%nat with (4 + (25 + 16))%nat. change 29%nat with (4 + 25)%nat. rewrite <- !drop_drop, !(drop_app_length' (pack ms)) by done.
  rewrite !(drop_app_length' (username a)), !(drop_app_length' (salt a)), !take_app_length', take_ge by (by rewrite ?typed_hash0). by destruct a.
Qed.
Lemma length_config_head c : auth_config_typed c -> length (config_head c) = 8%nat.
Proof. intros []. unfold config_head. by rewrite length_app, length_pack, typed_reserved0. Qed.
Lemma account_places c : auth_config_typed c -> Forall (fun s => length s = sizeof_account) (account_bytes <$> accounts c).
Proof. intros []. rewrite Forall_fmap. eapply Forall_impl; [done|]. intros a. apply length_account_bytes. Qed.
Lemma length_auth_config_bytes c : auth_config_typed c -> length (auth_config_bytes c) = sizeof_auth_config.
Proof.
  intros Hc. unfold auth_config_bytes. rewrite !length_app, length_config_head by done.
  by rewrite (length_array_bytes AUTH_MAX_ACCOUNTS sizeof_account) by (try apply account_places; rewrite ?length_fmap, ?typed_length by done; done).
Qed.
Lemma auth_config_roundtrip c : auth_config_typed c -> auth_config_of (auth_config_bytes c) = c.
Proof.
  intros Hc. unfold auth_config_of.
  assert (((fun i => account_of (array_slot 8 sizeof_account i (auth_config_bytes c))) <$> seq 0 AUTH_MAX_ACCOUNTS) = accounts c) as ->.
  { rewrite <- (typed_length c Hc). apply list_eq. intros i. rewrite list_lookup_fmap.
    destruct (accounts c !! i) as [a|] eqn:Ha.
    - rewrite lookup_seq_lt by (by eapply lookup_lt_Some). cbn [fmap option_fmap option_map]. f_equal. rewrite Nat.add_0_l.
      pose proof (array_slot_app AUTH_MAX_ACCOUNTS sizeof_account (account_bytes <$> accounts c) (config_head c) [0; 0] i (account_bytes a)
        (account_places c Hc)) as Hslot. rewrite length_config_head, list_lookup_fmap, Ha in Hslot by done. unfold auth_config_bytes. rewrite Hslot by done.
      apply account_roundtrip. eapply Forall_lookup_1; [apply Hc|done].
    - rewrite lookup_seq_ge; [done|by apply lookup_ge_None]. }
  destruct Hc as [Hv Hcf Hr _ _]. unfold auth_config_bytes, config_head. set (ms := [(4%nat, version c); (1%nat, configured c)]). rewrite <- !app_assoc.
  rewrite (field_pack 0 ms 4 (version c)), (field_pack 1 ms 1 (configured c)) by (done || (rewrite Hv; by vm_compute)).
  rewrite (drop_app_length' (pack ms)), take_app_length' by (by rewrite ?length_pack). by destruct c.
Qed.

(** ** Accounts and names *)

Lemma find_first_spec {A} (p : A -> bool) l i j : find_first p i l = Some j -> exists k x, j = (i + k)%nat /\ l !! k = Some x /\ p x = true.
Proof.
  revert i. induction l as [|x l IH]; intros i; cbn; [done|]. destruct (p x) eqn:Hp.
  - intros [= <-]. exists 0%nat, x. by rewrite Nat.add_0_r.
  - intros (k & y & -> & Hy & Hpy)%IH. exists (S k), y. split; [lia|done].
Qed.
Lemma find_first_none {A} (p : A -> bool) l i : Forall (fun x => p x = false) l -> find_first p i l = None.
Proof. revert i. induction l as [|x l IH]; intros i; [done|]. intros [Hx Hl]%Forall_cons. cbn. rewrite Hx. by apply IH. Qed.
Lemma find_first_0 {A} (p : A -> bool) l j : find_first p 0 l = Some j -> exists x, l !! j = Some x /\ p x = true.
Proof. intros (k & x & -> & ?)%find_first_spec. by exists x. Qed.

Lemma account_at_lookup i c a : accounts c !! i = Some a -> account_at i c = a.
Proof. intros Hi. unfold account_at. by apply nth_lookup_Some. Qed.
Lemma account_at_in i c : auth_account_in_use (account_at i c) = true -> accounts c !! i = Some (account_at i c).
Proof.
  unfold account_at. destruct (accounts c !! i) as [a|] eqn:Hi; [intros _; by rewrite (nth_lookup_Some _ _ _ _ Hi)|].
  by rewrite nth_overflow by (by apply lookup_ge_None).
Qed.
Lemma enabled_in_use a : auth_account_enabled a = true -> auth_account_in_use a = true.
Proof. unfold auth_account_enabled. by destruct (auth_account_in_use a). Qed.
Lemma admin_enabled a : enabled_admin a = true -> auth_account_enabled a = true /\ role a = AUTH_ROLE_ADMIN.
Proof. unfold enabled_admin. rewrite andb_true_iff, Z.eqb_eq. done. Qed.

Lemma skip_spaces_suffix l : exists p, l = p ++ skip_spaces l.
Proof.
  induction l as [|c l [p Hp]]; [by exists []|]. cbn. destruct (isspace c); [|by exists []]. exists (c :: p). by rewrite Hp at 1.
Qed.
Lemma tolower_nonzero c : username_char c = true -> tolower c <> 0.
Proof.
  intros Hc He. assert (c = 0 \/ c <> 0 /\ tolower c <> 0) as [->|[_ ?]]; [|by vm_compute in Hc|done].
  unfold tolower, isupper. destruct (Z.eqb_spec c 0); [by left|right]. split; [done|].
  destruct (Z.leb_spec 65 c); cbn [andb]; [|done]. destruct (Z.leb_spec c 90); [lia|done].
Qed.
(** A name that is accepted has a byte, has none that is 0, and fits. *)
Lemma normalize_spec input b name : auth_username_normalize input b = Some name ->
  (0 < length name <= AUTH_USERNAME_LEN)%nat /\ 0 ∉ name.
Proof.
  unfold auth_username_normalize. destruct (trim (default [] input)) as [|c t] eqn:Ht.
  - destruct b; [|done]. intros [= <-]. split; [unfold AUTH_USERNAME_LEN; cbn; lia|]. apply (bool_decide_unpack (0 ∉ bytes_of "admin")). by vm_compute.
  - destruct (Nat.ltb_spec AUTH_USERNAME_LEN (length (c :: t))) as [|Hl]; [done|].
    destruct (forallb username_char (c :: t)) eqn:Hf; [|done]. intros Hn. assert (name = tolower <$> c :: t) as -> by congruence. split; [rewrite length_fmap; cbn [length] in *; unfold AUTH_USERNAME_LEN in *; lia|].
    intros (x & Hx & Hin)%list_elem_of_fmap. rewrite forallb_forall in Hf. symmetry in Hx.
    apply (tolower_nonzero x); [by apply Hf, list_elem_of_In|done].
Qed.

(** ** What a call may do to the accounts *)

(** The calls, and the passing of time. *)
Inductive auth_call :=
| CallLogin (user password : option (list Z)) (out : option nat)
| CallValidate (tok : option (list Z))
| CallStatus (tok : option (list Z))
| CallConfigured
| CallBootstrapOpen
| CallRateLimit
| CallLogout (tok : option (list Z))
| CallBootstrap (user password : option (list Z)) (out : option nat)
| CallChange (tok current new_password : option (list Z))
| CallList (max : nat)
| CallSave (tok user : option (list Z)) (r : Z) (en : bool) (password : option (list Z))
| CallDelete (tok user : option (list Z))
| CallExport (max : nat)
| CallAudit (act det : option (list Z))
| TimeIs (t : Z).

Definition with_password (s h : list Z) (a : account) : account := a <| salt := s |> <| hash := h |>.
Definition completed (a : account) : account := a <| flags := Z.land (flags a) 254 |>.
Definition with_role (en : bool) (r : Z) (a : account) : account := a <| enabled := if en then 1 else 0 |> <| role := u8 r |>.
Definition fresh_account (name : list Z) (en r : Z) : account :=
  account_zero <| in_use := 1 |> <| enabled := en |> <| role := r |> <| username := snprintf_into (username account_zero) name |>.

Section changes.
Context {N R : Type} `{Nvs N, !NvsLaws N}.
Variable sha256 : list Z -> list Z.
Variable esp_fill_random : nat -> R -> list Z * R.
Variable esp_mac : list Z.
Abbreviation world := (auth N R).
Implicit Types w : world.
Abbreviation matches := (auth_account_password_matches sha256).
Abbreviation hash_of := (auth_hash_password sha256).

(** Has the change been made, as the caller is told? *)
Definition ack_first (r : auth_bootstrap_create_result) : bool := match r with AUTH_BOOTSTRAP_CREATE_OK => true | _ => false end.
Definition ack_password (r : auth_change_password_result) : bool := match r with AUTH_CHANGE_PASSWORD_OK => true | _ => false end.
Definition ack_save (r : auth_account_save_result) : bool := match r with AUTH_ACCOUNT_SAVE_OK => true | _ => false end.
Definition ack_delete (r : auth_account_delete_result) : bool := match r with AUTH_ACCOUNT_DELETE_OK => true | _ => false end.
Definition run_auth (c : auth_call) : st world bool :=
  match c with
  | CallLogin u p out => auth_login esp_mac u p out;; mret false
  | CallValidate t => auth_validate_session esp_mac t;; mret false
  | CallStatus t => auth_get_status esp_mac t;; mret false
  | CallConfigured => auth_is_configured esp_mac;; mret false
  | CallBootstrapOpen => auth_bootstrap_open esp_mac;; mret false
  | CallRateLimit => auth_rate_limit_check esp_mac;; mret false
  | CallLogout t => auth_destroy_session esp_mac t;; mret false
  | CallBootstrap u p out => x ← auth_bootstrap_create_first_admin sha256 esp_fill_random esp_mac u p out; mret (ack_first x.1.1)
  | CallChange t c n => x ← auth_change_password sha256 esp_fill_random esp_mac t c n; mret (ack_password x)
  | CallList max => auth_list_accounts esp_mac max;; mret false
  | CallSave t u r en p => x ← auth_save_account sha256 esp_fill_random esp_mac t u r en p; mret (ack_save x)
  | CallDelete t u => x ← auth_delete_account esp_mac t u; mret (ack_delete x)
  | CallExport max => auth_export_audit esp_mac max;; mret false
  | CallAudit a d => auth_audit_log a d;; mret false
  | TimeIs t => modify (fun w => w <| esp_timer := t |>);; mret false
  end.

(** A session that [t] opens now. *)
Definition live_session w (t : list Z) (s : session) : Prop :=
  s ∈ auth_sessions w /\ active s = true /\ token s = t /\ auth_now_ms w < expires_at_ms s.
(** ... of an enabled administrator. *)
Definition admin_session w (tok : option (list Z)) (s : session) : Prop :=
  (exists t, tok = Some t /\ live_session w t s) /\ administers (account_index s) (auth_config w) = true.

(** A fresh salt and the hash of the password with it. *)
Definition fresh_password w (p s h : list Z) : Prop :=
  (exists r, s = (esp_fill_random AUTH_SALT_LEN r).1) /\ h = hash_of p s w.
(** The configuration after a call. *)
Inductive account_change w : auth_call -> auth_config_blob -> Prop :=
| change_none c : account_change w c (auth_config w)
| change_first user p out name s h :
    auth_bootstrap_open_state (auth_config w) = true -> auth_username_normalize user true = Some name -> auth_password_is_strong (Some p) = true ->
    fresh_password w p s h ->
    account_change w (CallBootstrap user (Some p) out)
      (on_account 0 (fun _ => with_password s h (fresh_account name 1 AUTH_ROLE_ADMIN)) (auth_config w) <| configured := 1 |>)
| change_pass t current p sess s h :
    live_session w t sess -> valid_account_index (account_index sess) = true ->
    (let a := account_at (Z.to_nat (account_index sess)) (auth_config w) in
     auth_account_enabled a = true /\ (auth_account_bootstrap a = true \/ matches a current w = true)) ->
    auth_password_is_strong (Some p) = true -> fresh_password w p s h ->
    account_change w (CallChange (Some t) current (Some p))
      (on_account (Z.to_nat (account_index sess)) (fun a => completed (with_password s h a)) (auth_config w) <| configured := 1 |>)
| change_role tok user r en password sess name i f :
    admin_session w tok sess -> auth_username_normalize user true = Some name ->
    auth_find_account_index name (auth_config w) = Some i -> Z.of_nat i <> account_index sess ->
    (f = with_role en r \/
     exists p s h, password = Some p /\ auth_password_is_strong (Some p) = true /\ fresh_password w p s h /\
       f = (fun a => completed (with_password s h (with_role en r a)))) ->
    account_change w (CallSave tok user r en password) (on_account i f (auth_config w))
| change_new tok user r en p sess name i s h :
    admin_session w tok sess -> auth_username_normalize user true = Some name -> auth_password_is_strong (Some p) = true ->
    auth_find_account_index name (auth_config w) = None -> auth_find_free_account_index (auth_config w) = Some i ->
    fresh_password w p s h ->
    account_change w (CallSave tok user r en (Some p))
      (on_account i (fun _ => with_password s h (fresh_account name (if en then 1 else 0) (u8 r))) (auth_config w))
| change_delete tok user sess name i :
    admin_session w tok sess -> auth_username_normalize user true = Some name ->
    auth_find_account_index name (auth_config w) = Some i -> Z.of_nat i <> account_index sess ->
    account_change w (CallDelete tok user) (on_account i (fun _ => account_zero) (auth_config w)).

(** *** The steps of the calls *)

Lemma init_done w : auth_initialized w = true -> auth_init esp_mac w = (tt, w).
Proof. intros Hi. unfold auth_init. run. by rewrite Hi. Qed.

(** The accounts, and whether and where they are kept. *)
Definition same_accounts w w' : Prop :=
  auth_config w' = auth_config w /\ auth_nvs w' = auth_nvs w /\ auth_initialized w' = auth_initialized w.
Definition saved w w' : Prop :=
  auth_initialized w' = true /\ (auth_nvs w' = auth_nvs w \/ nvs_get_blob (auth_nvs w') = Some (auth_config_bytes (auth_config w'))).

Lemma find_session_spec tok w : exists r w', auth_find_session_index tok w = (r, w') /\ same_accounts w w' /\
  auth_device_mac w' = auth_device_mac w /\ esp_timer w' = esp_timer w /\ rng w' = rng w /\
  (forall i, r = Some i -> exists t, tok = Some t /\ live_session w t (session_at i w')).
Proof.
  unfold auth_find_session_index, auth_prune_expired_sessions. rewrite run_bind_modify. set (w' := w <| auth_sessions := _ |>).
  destruct tok as [[|x t]|]; [eexists None, w'; by split_and!| |eexists None, w'; by split_and!].
  rewrite run_gets. eexists _, w'. split; [done|]. split_and!; try done. intros i Hi. exists (x :: t). split; [done|].
  apply find_first_0 in Hi as (s & Hs & Hp). unfold session_at. rewrite (nth_lookup_Some _ _ _ _ Hs).
  cbn [w' auth_sessions update] in Hs. rewrite list_lookup_fmap in Hs. destruct (auth_sessions w !! i) as [s0|] eqn:H0; [|done].
  cbn in Hs. apply andb_true_iff in Hp as [Ha Ht%bool_decide_eq_true]. injection Hs as Hs.
  destruct (expired w s0) eqn:He; [by rewrite <- Hs in Ha|]. subst s0. split_and!; [by eapply list_elem_of_lookup_2|done|done|].
  unfold expired in He. rewrite Ha in He. cbn in He. lia.
Qed.

Lemma save_spec w : exists ok n, auth_save_config w = (ok, w <| auth_nvs := n |>) /\
  (ok = true -> nvs_get_blob n = Some (auth_config_bytes (auth_config w))).
Proof.
  unfold auth_save_config. destruct (nvs_open_rw (auth_nvs w)) as [[] n1]; cbn [negb]; [|by eexists false, n1].
  destruct (nvs_set_blob _ n1) as [[] n2] eqn:Hs; cbn [negb]; [|by eexists false, n2].
  pose proof (nvs_commit_durable _ _ _ Hs) as Hd. destruct (nvs_commit n2) as [ok n3]. by exists ok, n3.
Qed.
Lemma set_password_spec i p w : exists s h r,
  set_password sha256 esp_fill_random i p w =
    (tt, w <| rng := r |> <| auth_config := on_account i (with_password s h) (auth_config w) |>) /\
  fresh_password w p s h.
Proof.
  unfold set_password, fill_random. rewrite run_bind_surj. destruct (esp_fill_random AUTH_SALT_LEN (rng w)) as [s r] eqn:Hr. cbn [fst snd].
  eexists s, _, r. split; [|split; [exists (rng w); by rewrite Hr|done]]. rewrite run_bind_modify, run_modify. f_equal. unfold on_config, on_account.
  cbn [auth_config accounts update rng auth_device_mac]. by rewrite alter_twice.
Qed.

(** After [auth_init], with these accounts and this flash. *)
Definition kept (c : auth_config_blob) (n : N) w : Prop := auth_config w = c /\ auth_nvs w = n /\ auth_initialized w = true.
Lemma kept_log c n a d : keeps (kept c n) (auth_audit_log a d : st world ()).
Proof. by intros w. Qed.
Lemma kept_init c n : keeps (kept c n) (auth_init esp_mac).
Proof. intros w (? & ? & Hi). by rewrite init_done. Qed.
Lemma kept_sessions c n f : keeps (kept c n) (modify (fun w => w <| auth_sessions := f w |>)).
Proof. by intros w. Qed.
Lemma kept_find c n tok : keeps (kept c n) (auth_find_session_index tok : st world _).
Proof. intros w (? & ? & ?). destruct (find_session_spec tok w) as (r & w' & -> & (? & ? & ?) & _). unfold kept. cbn. split_and!; congruence. Qed.
Lemma kept_random c n k : keeps (kept c n) (fill_random esp_fill_random k).
Proof. intros w Hw. unfold fill_random. by destruct (esp_fill_random k (rng w)). Qed.
Lemma kept_success c n user b : keeps (kept c n) (auth_record_login_success user b : st world ()).
Proof. unfold auth_record_login_success, audit. keeps; try done. apply kept_log. Qed.
Lemma kept_create c n i out : keeps (kept c n) (auth_create_session_for_account esp_fill_random i out).
Proof.
  unfold auth_create_session_for_account, auth_prune_expired_sessions. keeps; try done. apply kept_random.
Qed.
Lemma kept_prune c n : keeps (kept c n) (auth_prune_expired_sessions : st world ()).
Proof. apply kept_sessions. Qed.
End changes.
#[export] Hint Resolve kept_log kept_init kept_sessions kept_find kept_random kept_success kept_create kept_prune : keeps.

Section calls.
Context {N R : Type} `{Nvs N, !NvsLaws N}.
Variable sha256 : list Z -> list Z.
Variable esp_fill_random : nat -> R -> list Z * R.
Variable esp_mac : list Z.
Abbreviation world := (auth N R).
Implicit Types w : world.
Abbreviation run := (run_auth sha256 esp_fill_random esp_mac).
Abbreviation change := (account_change sha256 esp_fill_random).

(** Every save succeeds. *)
Definition always_saves : Prop := forall w : world, (auth_save_config w).1 = true.
(** What is shown of each call. *)
Definition call_ok (c : auth_call) w (x : bool * world) : Prop :=
  auth_initialized x.2 = true /\ change w c (auth_config x.2) /\ (always_saves -> saved w x.2) /\
  (x.1 = true -> nvs_get_blob (auth_nvs x.2) = Some (auth_config_bytes (auth_config x.2))).

Lemma kept_call_ok c w w' : kept (auth_config w) (auth_nvs w) w' -> call_ok c w (false, w').
Proof.
  intros (Hc & Hn & Hi). split; [done|]. cbn [snd]. split; [rewrite Hc; constructor|]. split; [|done]. intros _. split; [done|]. by left.
Qed.
(** A call that changes no account. *)
Lemma keeps_call_ok {A} c (m : st world A) w : auth_initialized w = true ->
  keeps (kept (auth_config w) (auth_nvs w)) m -> call_ok c w ((m;; mret false) w).
Proof. intros Hi Hk. rewrite run_bind_surj. by apply kept_call_ok, Hk. Qed.

(** A change, and the save that ends it. *)
Lemma save_or_restore_spec {A} (ack : A -> bool) c w w1 (done_ failed : st world A) :
  (forall cfg n, keeps (kept cfg n) done_) -> (forall cfg n, keeps (kept cfg n) failed) -> (forall w', ack (failed w').1 = false) ->
  auth_initialized w1 = true -> change w c (auth_config w1) -> auth_nvs w1 = auth_nvs w ->
  call_ok c w ((x ← save_or_restore (auth_config w) done_ failed; mret (ack x)) w1).
Proof.
  intros Hd Hf Ha Hi Hc Hn. unfold save_or_restore. rewrite run_bind_assoc.
  destruct (save_spec w1) as (ok & n & Hs & Hok). rewrite (run_bind_eq _ _ _ _ _ Hs).
  destruct ok.
  - rewrite run_bind_surj. destruct (Hd (auth_config w1) n (w1 <| auth_nvs := n |>)) as (Hc' & Hn' & Hi'); [done|]. unfold call_ok. cbn [mret st_ret fst snd].
    split; [done|]. rewrite Hc', Hn'. specialize (Hok eq_refl). split_and!; [done| |done]. intros _. split; [done|]. right. by rewrite Hn', Hc'.
  - rewrite run_bind_assoc, run_bind_modify, run_bind_surj. set (w2 := on_config _ _).
    destruct (Hf (auth_config w) n w2) as (Hc' & Hn' & Hi'); [done|]. unfold call_ok. cbn [mret st_ret fst snd].
    split; [done|]. rewrite Hc', Ha. split_and!; [constructor| |done]. intros Hall. specialize (Hall w1). by rewrite Hs in Hall.
Qed.

Lemma bootstrap_ok user password out w : auth_initialized w = true ->
  call_ok (CallBootstrap user password out) w (run (CallBootstrap user password out) w).
Proof.
  intros Hi. cbn [run_auth]. unfold auth_bootstrap_create_first_admin. rewrite run_bind_assoc, (run_bind_eq _ _ _ _ _ (init_done _ w Hi)), run_bind_assoc, run_bind_gets.
  destruct (auth_bootstrap_open_state (auth_config w)) eqn:Ho; [cbn [negb]|by apply kept_call_ok].
  destruct (auth_username_normalize user true) as [name|] eqn:Hname; [|by apply kept_call_ok].
  destruct (auth_password_is_strong password) eqn:Hp; [cbn [negb]|by apply kept_call_ok].
  destruct password as [p|]; [|done]. unfold new_account. rewrite !run_bind_assoc, run_bind_modify. set (w1 := on_config _ w).
  destruct (set_password_spec sha256 esp_fill_random 0 (default [] (Some p)) w1) as (s & h & r & Hset & Hfresh).
  rewrite (run_bind_eq _ _ _ _ _ Hset), run_bind_assoc, run_bind_modify.
  apply (save_or_restore_spec (fun x => ack_first x.1.1)); [| |done|done| |done].
  - intros cfg n. unfold auth_get_status, audit. keeps.
  - intros cfg n. unfold audit. keeps.
  - cbn [auth_config on_config update w1]. unfold on_account. cbn [accounts update]. rewrite alter_twice. by eapply change_first.
Qed.

Lemma change_ok tok current password w : auth_initialized w = true ->
  call_ok (CallChange tok current password) w (run (CallChange tok current password) w).
Proof.
  intros Hi. cbn [run_auth]. unfold auth_change_password. rewrite run_bind_assoc, (run_bind_eq _ _ _ _ _ (init_done _ w Hi)).
  destruct (find_session_spec tok w) as (si & w1 & Hf & (Hc1 & Hn1 & Hi1) & Hm1 & _ & _ & Hs1).
  rewrite run_bind_assoc, (run_bind_eq _ _ _ _ _ Hf). assert (kept (auth_config w) (auth_nvs w) w1) as Hk1 by (unfold kept; split_and!; congruence).
  destruct si as [si|]; [|by apply kept_call_ok]. destruct (Hs1 si eq_refl) as (t & -> & Hl). clear Hs1 Hf. rewrite run_bind_assoc, run_bind_gets.
  set (sess := session_at si w1) in *. destruct (valid_account_index (account_index sess)) eqn:Hv; [cbn [negb]|by apply kept_call_ok].
  rewrite run_bind_assoc, run_bind_gets. set (i := Z.to_nat (account_index sess)) in *.
  destruct (auth_account_enabled (account_at i (auth_config w1))) eqn:He; [cbn [negb]|by apply kept_call_ok]. rewrite run_bind_assoc, run_bind_gets.
  set (a := account_at i (auth_config w1)) in *.
  destruct (negb (auth_account_bootstrap a) && negb (auth_account_password_matches sha256 a current w1)) eqn:Hold; [by apply kept_call_ok|].
  destruct (auth_password_is_strong password) eqn:Hp; [cbn [negb]|by apply kept_call_ok]. destruct password as [p|]; [|done].
  destruct (set_password_spec sha256 esp_fill_random i (default [] (Some p)) w1) as (s & h & r & Hset & Hfresh).
  rewrite run_bind_assoc, (run_bind_eq _ _ _ _ _ Hset), run_bind_assoc, run_bind_modify, run_bind_assoc, run_bind_modify, Hc1.
  apply (save_or_restore_spec ack_password); [| |done|exact (eq_trans Hi1 Hi)| |done].
  - intros cfg n. unfold audit. keeps.
  - intros cfg n. unfold audit. keeps.
  - cbn [auth_config on_config update]. unfold on_account at 1 2. cbn [accounts update]. rewrite alter_twice.
    unfold a in *. rewrite Hc1 in He, Hold. apply (change_pass _ _ w t current p sess s h); [done|done| |done|]. 2: { destruct Hfresh as [Hr ->]. split; [done|]. unfold auth_hash_password. by rewrite Hm1. }
    fold i. split; [done|].
    apply andb_false_iff in Hold as [Hb|Hb]; apply negb_false_iff in Hb; [by left|right].
    revert Hb. unfold auth_account_password_matches, auth_hash_password. by rewrite Hm1.
Qed.

(** The session's account, as [auth_save_account] and [auth_delete_account]
    look it up. *)
Lemma session_account_spec tok w : exists (i : Z) (w1 : world), auth_session_account_index_from_token tok w = (i, w1) /\ same_accounts w w1 /\ auth_device_mac w1 = auth_device_mac w /\
  (administers i (auth_config w) = true -> exists sess, account_index sess = i /\ admin_session w tok sess).
Proof.
  unfold auth_session_account_index_from_token. destruct (find_session_spec tok w) as (si & w1 & Hf & Hq & Hm & _ & _ & Hs).
  rewrite (run_bind_eq _ _ _ _ _ Hf). destruct si as [si|]; [|by exists (-1), w1].
  eexists _, w1. rewrite run_gets. split; [done|]. split; [done|]. split; [done|]. intros Ha. exists (session_at si w1). split; [done|].
  destruct (Hs si eq_refl) as (t & -> & Hl). split; [by exists t|done].
Qed.

Lemma save_account_ok tok user r en password w : auth_initialized w = true ->
  call_ok (CallSave tok user r en password) w (run (CallSave tok user r en password) w).
Proof.
  intros Hi. cbn [run_auth]. unfold auth_save_account. rewrite run_bind_assoc, (run_bind_eq _ _ _ _ _ (init_done _ w Hi)).
  destruct (auth_username_normalize user true) as [name|] eqn:Hname; [|by apply kept_call_ok].
  destruct (known_role r); [cbn [negb]|by apply kept_call_ok].
  destruct (session_account_spec tok w) as (cur & w1 & Hf & (Hc1 & Hn1 & Hi1) & Hm1 & Ha). rewrite run_bind_assoc, (run_bind_eq _ _ _ _ _ Hf), run_bind_assoc, run_bind_gets, Hc1.
  assert (kept (auth_config w) (auth_nvs w) w1) as Hk1 by (unfold kept; split_and!; congruence).
  destruct (administers cur (auth_config w)) eqn:Hadm; [cbn [negb]|by apply kept_call_ok]. destruct (Ha eq_refl) as (sess & <- & Hs). clear Ha Hf.
  cbv zeta. destruct (auth_find_account_index name (auth_config w)) as [i|] eqn:Hfi.
  - destruct (Z.eqb_spec (Z.of_nat i) (account_index sess)) as [|Hne]; [by apply kept_call_ok|].
    destruct (_ && _ && _); [by apply kept_call_ok|]. rewrite run_bind_assoc, run_bind_modify. set (w2 := on_config _ w1).
    assert (change w (CallSave tok user r en password) (auth_config w2)) as Hrole.
    { cbn [w2 on_config auth_config update]. rewrite Hc1. eapply change_role; try done. by left. }
    destruct (match password with Some (_ :: _) => true | _ => false end) eqn:Hpr; cbn [andb].
    2: { rewrite run_bind_assoc, run_bind_ret.
         apply (save_or_restore_spec ack_save); [intros ??; unfold audit; keeps..|done|exact (eq_trans Hi1 Hi)|done|done]. }
    destruct (auth_password_is_strong password) eqn:Hp; cbn [negb].
    2: { split; [exact (eq_trans Hi1 Hi)|]. split; [done|]. split; [|done]. intros _. split; [exact (eq_trans Hi1 Hi)|]. by left. }
    destruct (set_password_spec sha256 esp_fill_random i (default [] password) w2) as (s & h & rn & Hset & Hr & Hh).
    rewrite !run_bind_assoc, (run_bind_eq _ _ _ _ _ Hset), run_bind_assoc, run_bind_modify.
    unfold auth_invalidate_sessions_for_account. rewrite run_bind_modify.
    apply (save_or_restore_spec ack_save); [intros ??; unfold audit; keeps..|done|exact (eq_trans Hi1 Hi)| |done].
    cbn [auth_config on_config update w2]. unfold on_account. cbn [accounts update]. rewrite !alter_twice, Hc1.
    eapply change_role; try done. right. destruct password as [p|]; [|done]. exists p, s, h. split_and!; try done.
    split; [done|]. rewrite Hh. unfold auth_hash_password. cbn [w2 on_config auth_device_mac update]. by rewrite Hm1.
  - destruct (match password with Some (_ :: _) => true | _ => false end); cbn [negb]; [|by apply kept_call_ok].
    destruct (auth_password_is_strong password) eqn:Hp; [cbn [negb]|by apply kept_call_ok]. destruct password as [p|]; [|done].
    destruct (auth_find_free_account_index (auth_config w)) as [i|] eqn:Hfree; [|by apply kept_call_ok].
    unfold new_account. rewrite !run_bind_assoc, run_bind_modify. set (w2 := on_config _ w1).
    destruct (set_password_spec sha256 esp_fill_random i (default [] (Some p)) w2) as (s & h & rn & Hset & Hr & Hh).
    rewrite (run_bind_eq _ _ _ _ _ Hset). apply (save_or_restore_spec ack_save); [intros ??; unfold audit; keeps..|done|exact (eq_trans Hi1 Hi)| |done].
    cbn [auth_config on_config update w2]. unfold on_account. cbn [accounts update]. rewrite alter_twice, Hc1. eapply change_new; try done.
    split; [done|]. rewrite Hh. unfold auth_hash_password. cbn [w2 on_config auth_device_mac update]. by rewrite Hm1.
Qed.

Lemma delete_ok tok user w : auth_initialized w = true -> call_ok (CallDelete tok user) w (run (CallDelete tok user) w).
Proof.
  intros Hi. cbn [run_auth]. unfold auth_delete_account. rewrite run_bind_assoc, (run_bind_eq _ _ _ _ _ (init_done _ w Hi)).
  destruct (auth_username_normalize user true) as [name|] eqn:Hname; [|by apply kept_call_ok].
  destruct (session_account_spec tok w) as (cur & w1 & Hf & (Hc1 & Hn1 & Hi1) & Hm1 & Ha). rewrite run_bind_assoc, (run_bind_eq _ _ _ _ _ Hf), run_bind_assoc, run_bind_gets, Hc1.
  assert (kept (auth_config w) (auth_nvs w) w1) as Hk1 by (unfold kept; split_and!; congruence).
  destruct (administers cur (auth_config w)) eqn:Hadm; [cbn [negb]|by apply kept_call_ok]. destruct (Ha eq_refl) as (sess & <- & Hs). clear Ha Hf.
  destruct (auth_find_account_index name (auth_config w)) as [i|] eqn:Hfi; [|by apply kept_call_ok].
  destruct (Z.eqb_spec (Z.of_nat i) (account_index sess)) as [|Hne]; [by apply kept_call_ok|].
  destruct (_ && _); [by apply kept_call_ok|]. unfold auth_invalidate_sessions_for_account. rewrite run_bind_assoc, run_bind_modify, run_bind_assoc, run_bind_modify.
  apply (save_or_restore_spec ack_delete); [intros ??; unfold audit; keeps..|done|exact (eq_trans Hi1 Hi)| |done].
  cbn [auth_config on_config update]. rewrite Hc1. by eapply change_delete.
Qed.

Lemma call_spec c w : auth_initialized w = true -> call_ok c w (run c w).
Proof.
  intros Hi. destruct c; cbn [run_auth].
  8: by apply bootstrap_ok.
  8: by apply change_ok.
  9: by apply save_account_ok.
  9: by apply delete_ok.
  all: apply keeps_call_ok; [done|].
  all: unfold auth_login, auth_validate_session, auth_get_status, auth_is_configured, auth_bootstrap_open, auth_rate_limit_check,
    auth_destroy_session, auth_reset_sessions, auth_list_accounts, auth_export_audit; keeps.
  by destruct l; keeps.
Qed.
End calls.

(** ** Who may change an account *)

Lemma account_at_other i j f c : j <> i -> account_at j (on_account i f c) = account_at j c.
Proof. intros Hne. unfold account_at, on_account. cbn [accounts update]. by rewrite !nth_lookup, list_lookup_alter_ne by congruence. Qed.
Lemma account_at_same i f c : (i < length (accounts c))%nat -> account_at i (on_account i f c) = f (account_at i c).
Proof.
  intros (a & Ha)%lookup_lt_is_Some_2. unfold account_at, on_account. cbn [accounts update]. by rewrite !nth_lookup, list_lookup_alter_eq, Ha.
Qed.

Section authority.
Context {N R : Type} `{Nvs N, !NvsLaws N}.
Variable sha256 : list Z -> list Z.
Variable esp_fill_random : nat -> R -> list Z * R.
Variable esp_mac : list Z.
Abbreviation world := (auth N R).
Implicit Types w : world.
Abbreviation run := (run_auth sha256 esp_fill_random esp_mac).

(** C21: An account changes only through: the first administrator of a node
    without accounts; a password change on a live session of an enabled account
    that gives the old password (or is in its first login), of that account
    only; and the requests of a live session of an enabled administrator, which
    never touch that administrator's own account. *)
Theorem account_changes_authorized c w :
  auth_initialized w = true -> auth_config (run c w).2 <> auth_config w ->
  match c with
  | CallBootstrap user password _ => auth_bootstrap_open_state (auth_config w) = true /\ auth_password_is_strong password = true
  | CallChange tok current password =>
    exists t s, tok = Some t /\ live_session w t s /\ auth_password_is_strong password = true /\
      let i := Z.to_nat (account_index s) in
      auth_account_enabled (account_at i (auth_config w)) = true /\
      (auth_account_bootstrap (account_at i (auth_config w)) = true \/
       auth_account_password_matches sha256 (account_at i (auth_config w)) current w = true) /\
      forall j, j <> i -> account_at j (auth_config (run c w).2) = account_at j (auth_config w)
  | CallSave tok _ _ _ _ | CallDelete tok _ =>
    exists s, admin_session w tok s /\
      account_at (Z.to_nat (account_index s)) (auth_config (run c w).2) = account_at (Z.to_nat (account_index s)) (auth_config w)
  | _ => False
  end.
Proof.
  intros Hi Hne. destruct (call_spec sha256 esp_fill_random esp_mac c w Hi) as (_ & Hc & _). revert Hc Hne.
  generalize (auth_config (run c w).2). intros cfg Hc. destruct Hc as [c|user p out name s h Ho _ Hp _|t current p sess s h Hl Hv [He Hb] Hp _
    |tok user r en password sess name i f Hs _ _ Hne _|tok user r en p sess name i s h Hs _ _ _ Hfree _|tok user sess name i Hs _ _ Hne]; intros Hdiff; try done.
  - exists t, sess. cbv zeta. split_and!; try done. intros j Hj. by apply account_at_other.
  - exists sess. split; [done|]. destruct Hs as [_ Hadm]. apply andb_true_iff in Hadm as [Hv _]. unfold valid_account_index in Hv. apply account_at_other. lia.
  - exists sess. split; [done|]. destruct Hs as [_ Hadm]. apply andb_true_iff in Hadm as [_ Ha]. apply account_at_other. intros <-.
    apply find_first_0 in Hfree as (a & Hat & Hin). apply account_at_lookup in Hat. apply admin_enabled in Ha as [He%enabled_in_use _].
    rewrite Hat in He. by rewrite He in Hin.
  - exists sess. split; [done|]. destruct Hs as [_ Hadm]. apply andb_true_iff in Hadm as [Hv _]. unfold valid_account_index in Hv. apply account_at_other. lia.
Qed.
End authority.

(** ** An administrator remains *)

(** A configuration the node can be administered with. *)
Record good (c : auth_config_blob) : Prop := {
  good_typed : auth_config_typed c;
  good_admin : auth_bootstrap_open_state c = true \/ configured c <> 0 /\ exists i, enabled_admin (account_at i c) = true;
}.

Lemma account_zero_typed : account_typed account_zero.
Proof. by split. Qed.
Lemma fresh_typed name en r : is_u8 en -> is_u8 r -> account_typed (fresh_account name en r).
Proof. intros. split; try done. unfold fresh_account. cbn [username update]. rewrite length_snprintf; [done|]. by cbn; lia. Qed.
Lemma password_typed s h a : length s = AUTH_SALT_LEN -> length h = AUTH_HASH_LEN -> account_typed a -> account_typed (with_password s h a).
Proof. intros ?? []. by split. Qed.
Lemma completed_typed a : account_typed a -> account_typed (completed a).
Proof.
  intros []. split; try done. cbn [completed flags update].
  assert (Z.land (flags a) 254 = Z.land (flags a) 254 mod 2 ^ 8) as -> by (by rewrite <- land_mask, <- Z.land_assoc).
  by apply Z.mod_pos_bound.
Qed.

Lemma open_good : good auth_open_config.
Proof. split; [|by left]. split; try done. by repeat constructor. Qed.
Lemma sanitize_good c : good c -> auth_sanitize_loaded_config c = (false, false, c).
Proof.
  intros [[Hv _ _ _ _] Ha]. unfold auth_sanitize_loaded_config. rewrite Hv. cbn [negb Z.eqb AUTH_CONFIG_VERSION]. destruct Ha as [Ho|[Hcf [i Hi]]].
  - unfold auth_bootstrap_open_state in Ho. apply andb_true_iff in Ho as [Ho Hno%negb_true_iff]. cbn. by rewrite Ho, Hno.
  - destruct (Z.eqb_spec (configured c) 0) as [|_]; [done|]. apply admin_enabled in Hi as [Hi%enabled_in_use _].
    assert (auth_has_any_account c = true) as ->; [|done]. apply existsb_exists. exists (account_at i c).
    split; [|done]. apply list_elem_of_In. by eapply list_elem_of_lookup_2, account_at_in.
Qed.
(** An account in use rules out the open state. *)
Lemma used_not_open i c : auth_account_in_use (account_at i c) = true -> auth_bootstrap_open_state c = false.
Proof.
  intros Hi. apply andb_false_iff. right. apply negb_false_iff, existsb_exists. exists (account_at i c).
  split; [|done]. apply list_elem_of_In. by eapply list_elem_of_lookup_2, account_at_in.
Qed.
Lemma on_account_typed i f c : (forall a, account_typed a -> account_typed (f a)) -> auth_config_typed c -> auth_config_typed (on_account i f c).
Proof.
  intros Hf []. split; try done; cbn [on_account accounts update]; [|by rewrite length_alter].
  apply Forall_alter; [done|]. intros a _. apply Hf.
Qed.
Lemma configured_typed c : auth_config_typed c -> auth_config_typed (c <| configured := 1 |>).
Proof. intros []. by split. Qed.

Section administrators.
Context {N R : Type} `{Nvs N, !NvsLaws N}.
Variable sha256 : list Z -> list Z.
Variable esp_fill_random : nat -> R -> list Z * R.
Variable esp_mac : list Z.
Hypothesis sha256_length : forall l, length (sha256 l) = AUTH_HASH_LEN.
Hypothesis random_length : forall n r, length (esp_fill_random n r).1 = n.
Abbreviation world := (auth N R).
Implicit Types w : world.
Abbreviation run := (run_auth sha256 esp_fill_random esp_mac).

Lemma fresh_password_typed w p s h a : fresh_password sha256 esp_fill_random w p s h -> account_typed a -> account_typed (with_password s h a).
Proof. intros [[r ->] ->] Ha. apply password_typed; [apply random_length|apply sha256_length|done]. Qed.
Lemma fresh_admin w p s h name : fresh_password sha256 esp_fill_random w p s h -> (0 < length name)%nat -> 0 ∉ name ->
  enabled_admin (with_password s h (fresh_account name 1 AUTH_ROLE_ADMIN)) = true.
Proof. intros _ Hl Hn. destruct name as [|x name]; [by cbn in Hl; lia|]. apply not_elem_of_cons in Hn as [Hx _].
  unfold enabled_admin, auth_account_enabled, auth_account_in_use. cbn. destruct (Z.eqb_spec x 0); [congruence|done].
Qed.

(** An administrator does not change the own account. *)
Lemma admin_stays w tok sess i f :
  admin_session w tok sess -> Z.of_nat i <> account_index sess -> good (auth_config w) ->
  configured (on_account i f (auth_config w)) <> 0 /\ enabled_admin (account_at (Z.to_nat (account_index sess)) (on_account i f (auth_config w))) = true.
Proof.
  intros [_ Hadm] Hne [_ Ha]. apply andb_true_iff in Hadm as [Hv Hadm]. unfold valid_account_index in Hv. rewrite account_at_other by lia.
  split; [|done]. destruct (admin_enabled _ Hadm) as [He%enabled_in_use _]. rewrite (used_not_open _ _ He) in Ha. by destruct Ha as [|[Ha _]].
Qed.
(** No change leaves the node without an enabled administrator. *)
Lemma change_good w c cfg : good (auth_config w) -> account_change sha256 esp_fill_random w c cfg -> good cfg.
Proof.
  intros Hg Hc. destruct Hc as [c|user p out name s h Ho Hname Hp Hf|t current p sess s h Hl Hv [He _] Hp Hf
    |tok user r en password sess name i f Hs _ _ Hne Hf|tok user r en p sess name i s h Hs _ _ _ Hfree Hf|tok user sess name i Hs _ _ Hne]; [done|..];
    destruct Hg as [Ht Ha].
  - split; [|right; split; [done|]].
    + apply configured_typed, on_account_typed; [|done]. intros _ _. by eapply fresh_password_typed, fresh_typed.
    + exists 0%nat. change (account_at 0 (?c <| configured := 1 |>)) with (account_at 0 c).
      rewrite account_at_same by (rewrite (typed_length _ Ht); unfold AUTH_MAX_ACCOUNTS; lia). apply normalize_spec in Hname as [[Hl _] Hn]. by eapply fresh_admin.
  - split; [|right; split; [done|]].
    + apply configured_typed, on_account_typed; [|done]. intros a Hta. by apply completed_typed; eapply fresh_password_typed.
    + rewrite (used_not_open _ _ (enabled_in_use _ He)) in Ha. destruct Ha as [|[_ [j Hj]]]; [done|]. exists j.
      change (account_at j (?c <| configured := 1 |>)) with (account_at j c).
      destruct (decide (j = Z.to_nat (account_index sess))) as [->|]; [|by rewrite account_at_other].
      rewrite account_at_same; [done|]. unfold valid_account_index in Hv. rewrite (typed_length _ Ht). lia.
  - destruct (admin_stays _ _ _ _ f Hs Hne (Build_good _ Ht Ha)) as [Hcf Hj]. split; [|right; split; [done|by eexists]].
    apply on_account_typed; [|done]. intros a Hta.
    assert (account_typed (with_role en r a)) as Hr by (destruct Hta; split; try done; [by destruct en|apply u8_range]).
    destruct Hf as [->|(p & s & h & _ & _ & Hf & ->)]; [done|]. by apply completed_typed; eapply fresh_password_typed.
  - assert (Z.of_nat i <> account_index sess) as Hne.
    { intros Hi. destruct Hs as [_ Hadm]. apply andb_true_iff in Hadm as [_ Hadm]. rewrite <- Hi, Nat2Z.id in Hadm.
      apply find_first_0 in Hfree as (a & Hat & Hin). apply account_at_lookup in Hat. apply admin_enabled in Hadm as [He%enabled_in_use _].
      rewrite Hat in He. by rewrite He in Hin. }
    destruct (admin_stays _ _ _ _ (fun _ => with_password s h (fresh_account name (if en then 1 else 0) (u8 r))) Hs Hne (Build_good _ Ht Ha)) as [Hcf Hj].
    split; [|right; split; [done|by eexists]]. apply on_account_typed; [|done]. intros _ _.
    eapply fresh_password_typed, fresh_typed; [done|by destruct en|apply u8_range].
  - destruct (admin_stays _ _ _ _ (fun _ => account_zero) Hs Hne (Build_good _ Ht Ha)) as [Hcf Hj]. split; [|right; split; [done|by eexists]].
    apply on_account_typed; [|done]. intros _ _. apply account_zero_typed.
Qed.

(** ** Restarts *)

Lemma init_of_stored (n : N) (r : R) t c : nvs_get_blob n = Some (auth_config_bytes c) -> good c ->
  let w := (auth_init esp_mac (auth_boot n r t)).2 in auth_config w = c /\ auth_nvs w = n /\ auth_initialized w = true.
Proof.
  intros Hn Hg. cbv zeta. unfold auth_init. rewrite run_bind_gets. cbn [auth_initialized auth_boot]. unfold auth_reset_sessions. rewrite !run_bind_modify.
  set (w1 := _ <| auth_device_mac := esp_mac |>). assert (auth_load_config w1 = (true, on_config (fun _ => c) w1)) as Hl.
  { unfold auth_load_config. change (auth_nvs w1) with n. rewrite Hn. rewrite length_auth_config_bytes by apply Hg. cbn [Nat.eqb sizeof_auth_config].
    rewrite auth_config_roundtrip by apply Hg. cbv zeta. rewrite (typed_version c) by apply Hg. cbn [negb Z.eqb AUTH_CONFIG_VERSION].
    by rewrite sanitize_good. }
  by rewrite (run_bind_eq _ _ _ _ _ Hl), run_bind_ret, run_modify.
Qed.

(** A change that is acknowledged is what the node comes back with after a
    restart. *)
Theorem accounts_survive_reboot c w w' (r : R) t :
  auth_initialized w = true -> good (auth_config w) -> run c w = (true, w') ->
  auth_config (auth_init esp_mac (auth_boot (auth_nvs w') r t)).2 = auth_config w'.
Proof.
  intros Hi Hg Hrun. destruct (call_spec sha256 esp_fill_random esp_mac c w Hi) as (_ & Hc & _ & Hack). rewrite Hrun in Hc, Hack.
  apply (init_of_stored _ r t); [by apply Hack|by eapply change_good].
Qed.

Inductive auth_event := Called (c : auth_call) | Restarted (r : R) (t : Z).
Definition run_event (e : auth_event) w : world :=
  match e with Called c => (run c w).2 | Restarted r t => (auth_init esp_mac (auth_boot (auth_nvs w) r t)).2 end.
Fixpoint run_events (es : list auth_event) w : world := match es with [] => w | e :: es => run_events es (run_event e w) end.

Context `{!NvsReliable N}.
Lemma reliable_saves : always_saves (N := N) (R := R).
Proof.
  intros w. unfold auth_save_config. pose proof (open_succeeds (auth_nvs w)) as Ho. destruct (nvs_open_rw (auth_nvs w)) as [opened n1].
  cbn in Ho. rewrite Ho. cbn [negb]. pose proof (set_succeeds (auth_config_bytes (auth_config w)) n1) as Hs. destruct (nvs_set_blob _ n1) as [written n2].
  cbn in Hs. rewrite Hs. cbn [negb]. pose proof (commit_succeeds n2) as Hc. by destruct (nvs_commit n2).
Qed.
(** Both the accounts in use and the stored ones can be administered. *)
Definition sound w : Prop :=
  auth_initialized w = true /\ good (auth_config w) /\ exists c, nvs_get_blob (auth_nvs w) = Some (auth_config_bytes c) /\ good c.
Lemma event_sound e w : sound w -> sound (run_event e w).
Proof.
  intros (Hi & Hg & c0 & Hb & Hg0). destruct e as [c|r t]; cbn [run_event].
  - destruct (call_spec sha256 esp_fill_random esp_mac c w Hi) as (Hi' & Hc & Hs & _). destruct (Hs reliable_saves) as [_ Hn].
    assert (good (auth_config (run c w).2)) as Hg' by (by eapply change_good). split; [done|]. split; [done|].
    destruct Hn as [->|Hn]; [by exists c0|by eexists].
  - destruct (init_of_stored (auth_nvs w) r t c0 Hb Hg0) as (Hc & Hn & Hi'). split; [done|]. rewrite Hc, Hn. split; [done|]. by exists c0.
Qed.
Lemma blank_sound (n : N) (r : R) t : nvs_get_blob n = None -> sound (auth_init esp_mac (auth_boot n r t)).2.
Proof.
  intros Hn. unfold auth_init. rewrite run_bind_gets. cbn [auth_initialized auth_boot]. unfold auth_reset_sessions. rewrite !run_bind_modify.
  set (w1 := _ <| auth_device_mac := esp_mac |>).
  assert (auth_load_config w1 = (false, w1)) as Hl by (unfold auth_load_config; change (auth_nvs w1) with n; by rewrite Hn).
  rewrite (run_bind_eq _ _ _ _ _ Hl). unfold auth_seed_open_bootstrap. rewrite run_bind_assoc, run_bind_modify, run_bind_assoc.
  destruct (save_spec (on_config (fun _ => auth_open_config) w1)) as (ok & n' & Hs & Hok).
  pose proof (reliable_saves (on_config (fun _ => auth_open_config) w1)) as Ha. rewrite Hs in Ha. cbn in Ha. subst ok.
  rewrite (run_bind_eq _ _ _ _ _ Hs). split; [done|]. split; [apply open_good|]. exists auth_open_config. split; [by apply Hok|apply open_good].
Qed.

(** C20: Whatever is called and however often the node restarts, from its first
    start on: either the node has no account yet and waits for its first
    administrator, or it has an enabled administrator. *)
Theorem administrator_never_lost (n : N) (r : R) t es :
  nvs_get_blob n = None ->
  let c := auth_config (run_events es (auth_init esp_mac (auth_boot n r t)).2) in
  auth_bootstrap_open_state c = true \/ configured c <> 0 /\ exists i, enabled_admin (account_at i c) = true.
Proof.
  intros Hn c. apply (blank_sound n r t) in Hn. unfold c. clear c. revert Hn. generalize (auth_init esp_mac (auth_boot n r t)).2. intros w Hw.
  enough (sound (run_events es w)) as (_ & Hg & _) by apply Hg. revert w Hw.
  induction es as [|e es IH]; intros w Hw; [done|]. by apply IH, event_sound.
Qed.
End administrators.

(** ** After a restart *)

Section locked.
Context {N R : Type} `{Nvs N}.
Variable sha256 : list Z -> list Z.
Variable esp_fill_random : nat -> R -> list Z * R.
Variable esp_mac : list Z.
Abbreviation world := (auth N R).
Implicit Types w : world.
Abbreviation run := (run_auth sha256 esp_fill_random esp_mac).

(** The node has accounts, and nobody a session. *)
Definition locked (cfg : auth_config_blob) w : Prop :=
  auth_initialized w = true /\ auth_config w = cfg /\ Forall (fun s => active s = false) (auth_sessions w).
Lemma locked_log cfg a d : keeps (locked cfg) (auth_audit_log a d : st world ()).
Proof. by intros w. Qed.
Lemma locked_init cfg : keeps (locked cfg) (auth_init esp_mac).
Proof. intros w (Hi & ? & ?). by rewrite init_done. Qed.
Lemma locked_reset cfg : keeps (locked cfg) (auth_reset_sessions : st world ()).
Proof. intros w (? & ? & ?). by repeat constructor. Qed.
Lemma prune_locked cfg w : locked cfg w -> locked cfg (auth_prune_expired_sessions w).2.
Proof.
  intros (? & ? & Hs). split; [done|]. split; [done|]. cbn. apply Forall_fmap. eapply Forall_impl; [exact Hs|]. intros s. cbn. by destruct (expired w s).
Qed.
Lemma find_session_locked cfg tok w : locked cfg w -> exists w', auth_find_session_index tok w = (None, w') /\ locked cfg w'.
Proof.
  intros Hw%prune_locked. unfold auth_find_session_index. rewrite run_bind_surj. eexists. split; [|exact Hw].
  destruct tok as [[|x t]|]; [done| |done]. rewrite run_gets, find_first_none; [done|]. destruct Hw as (_ & _ & Hs).
  eapply Forall_impl; [exact Hs|]. intros s Ha. cbn in *. by rewrite Ha.
Qed.

(** Without a session no change is made, whatever is called. *)
Lemma locked_call cfg c w : auth_bootstrap_open_state cfg = false -> locked cfg w -> exists w', run c w = (false, w') /\ locked cfg w'.
Proof.
  intros Ho Hw. pose proof Hw as (Hi & Hc & Hs). pose proof (init_done esp_mac w Hi) as Hinit.
  assert (forall {A} (m : st world A), keeps (locked cfg) m -> exists w', (m;; mret false) w = (false, w') /\ locked cfg w') as Hkeep.
  { intros A m Hk. rewrite run_bind_surj. eexists. split; [done|]. by apply Hk. }
  assert (keeps (locked cfg) (auth_prune_expired_sessions : st world ())) as Hprune by (intros w0; apply prune_locked).
  destruct c; cbn [run_auth].
  1-6,10,13,14: apply Hkeep; unfold auth_login, auth_validate_session, auth_get_status, auth_is_configured, auth_bootstrap_open,
    auth_rate_limit_check, auth_list_accounts, auth_export_audit; keeps; try apply locked_init; try done; apply locked_log.
  - apply Hkeep. unfold auth_destroy_session. apply keeps_bind; [apply locked_init|]. intros _.
    destruct tok as [[|x l]|]; try apply locked_reset. intros w1 Hw1. destruct (find_session_locked cfg (Some (x :: l)) w1 Hw1) as (w2 & Hf & Hw2).
    by rewrite (run_bind_eq _ _ _ _ _ Hf).
  - unfold auth_bootstrap_create_first_admin. rewrite run_bind_assoc, (run_bind_eq _ _ _ _ _ Hinit), run_bind_assoc, run_bind_gets, Hc, Ho. by eexists.
  - unfold auth_change_password. destruct (find_session_locked cfg tok w Hw) as (w1 & Hf & Hw1).
    rewrite run_bind_assoc, (run_bind_eq _ _ _ _ _ Hinit), run_bind_assoc, (run_bind_eq _ _ _ _ _ Hf). by eexists.
  - unfold auth_save_account. rewrite run_bind_assoc, (run_bind_eq _ _ _ _ _ Hinit).
    destruct (auth_username_normalize user true); [|by eexists]. destruct (known_role r); [cbn [negb]|by eexists].
    unfold auth_session_account_index_from_token. destruct (find_session_locked cfg tok w Hw) as (w1 & Hf & Hw1).
    rewrite !run_bind_assoc, (run_bind_eq _ _ _ _ _ Hf), run_bind_ret, run_bind_assoc, run_bind_gets. by eexists.
  - unfold auth_delete_account. rewrite run_bind_assoc, (run_bind_eq _ _ _ _ _ Hinit).
    destruct (auth_username_normalize user true); [|by eexists].
    unfold auth_session_account_index_from_token. destruct (find_session_locked cfg tok w Hw) as (w1 & Hf & Hw1).
    rewrite !run_bind_assoc, (run_bind_eq _ _ _ _ _ Hf), run_bind_ret, run_bind_assoc, run_bind_gets. by eexists.
  - rewrite run_bind_modify. eexists. split; [done|]. by destruct Hw as (? & ? & ?).
Qed.

(** No session is open; the start keeps that. *)
Definition no_session w : Prop := Forall (fun s => active s = false) (auth_sessions w).
Lemma idle_log a d : keeps no_session (auth_audit_log a d : st world ()).
Proof. by intros w. Qed.
Lemma idle_save : keeps no_session (auth_save_config : st world bool).
Proof.
  intros w Hw. unfold auth_save_config. destruct (nvs_open_rw _) as [[] n1]; [|done]. cbn [negb].
  destruct (nvs_set_blob _ n1) as [[] n2]; [|done]. cbn [negb]. by destruct (nvs_commit n2).
Qed.
Lemma idle_config f : keeps no_session (modify (on_config f) : st world ()).
Proof. by intros w. Qed.
Hint Resolve idle_log idle_save idle_config : keeps.
Lemma idle_load : keeps no_session (auth_load_config : st world bool).
Proof.
  intros w Hw. unfold auth_load_config. destruct (nvs_get_blob (auth_nvs w)) as [blob|]; [|done].
  destruct (Nat.eqb _ _).
  - destruct (negb _); [done|]. destruct (auth_sanitize_loaded_config _) as [[changed migrated] c].
    revert w Hw. intros w Hw. refine ((_ : keeps no_session _) (on_config (fun _ => c) w) _); [|done]. unfold audit. keeps.
  - destruct (Nat.eqb _ _); [|done]. refine ((_ : keeps no_session _) w Hw). unfold auth_migrate_legacy_config, audit. keeps.
Qed.
Lemma idle_seed (loaded : bool) : keeps no_session
  (if loaded then mret tt else auth_seed_open_bootstrap;; auth_save_config;;
     audit "bootstrap_open" (bytes_of "primeira conta admin aguardando criacao local") : st world ()).
Proof. unfold auth_seed_open_bootstrap, audit. keeps. Qed.
Lemma start_locked (n : N) (r : R) t : let w := (auth_init esp_mac (auth_boot n r t)).2 in locked (auth_config w) w.
Proof.
  cbv zeta. unfold auth_init. rewrite run_bind_gets. cbn [auth_initialized auth_boot]. unfold auth_reset_sessions. rewrite !run_bind_modify.
  set (w1 := _ <| auth_device_mac := esp_mac |>). rewrite run_bind_surj.
  assert (no_session (auth_load_config w1).2) as Hw by (apply idle_load; unfold no_session; cbn; by repeat constructor). revert Hw. generalize (auth_load_config w1). intros [loaded w2] Hw.
  cbn [fst snd]. rewrite run_bind_surj. split; [done|]. split; [done|]. exact (idle_seed loaded w2 Hw).
Qed.

Fixpoint run_auths (cs : list auth_call) w : world := match cs with [] => w | c :: cs => run_auths cs (run c w).2 end.

(** From a start at which the node finds accounts, every login is answered
    with an administrator's session, whatever name and password it gives, yet
    no change of an account is ever made, not even on that session's token: a
    forgotten or leaked password cannot be replaced until the flash is erased. *)
Theorem accounts_locked_after_restart (n : N) (r : R) t cs :
  let w0 := (auth_init esp_mac (auth_boot n r t)).2 in
  auth_bootstrap_open_state (auth_config w0) = false ->
  let w := run_auths cs w0 in
  auth_config w = auth_config w0 /\
  (forall user password out, (auth_login esp_mac user password out w).1.1.1 = AUTH_LOGIN_OK /\
    auth_role_has_capability (st_role (auth_login esp_mac user password out w).1.2) AUTH_CAP_SECURITY_ADMIN = true) /\
  forall c, (run c w).1 = false.
Proof.
  intros w0 Ho w. assert (locked (auth_config w0) w) as Hw.
  { apply (fun k : forall v, locked (auth_config w0) v -> locked (auth_config w0) (run_auths cs v) => k w0 (start_locked n r t)).
    clear w. induction cs as [|c cs IH]; intros w Hw; [done|].
    cbn [run_auths]. destruct (locked_call (auth_config w0) c w Ho Hw) as (w' & -> & Hw'). by apply IH. }
  split; [apply Hw|]. split.
  - intros user password out. unfold auth_login. rewrite (run_bind_eq _ _ _ _ _ (init_done esp_mac w (proj1 Hw))). done.
  - intros c. by destruct (locked_call _ c w Ho Hw) as (w' & -> & _).
Qed.
End locked.

(** ** A rejected request that is carried out *)

Section rejected.
Context {N R : Type} `{Nvs N, !NvsLaws N}.
Variable sha256 : list Z -> list Z.
Variable esp_fill_random : nat -> R -> list Z * R.
Variable esp_mac : list Z.
Implicit Types w : auth N R.

(** A request on an existing account that is refused for its weak password
    has changed the account's role and enabled it or not, in memory only: the
    change lasts until a restart, or is stored with the next one. *)
Theorem refused_change_takes_effect tok user r en password w w' name i :
  auth_initialized w = true -> auth_username_normalize user true = Some name ->
  auth_find_account_index name (auth_config w) = Some i ->
  auth_save_account sha256 esp_fill_random esp_mac tok user r en password w = (AUTH_ACCOUNT_SAVE_WEAK_PASSWORD, w') ->
  account_at i (auth_config w') = with_role en r (account_at i (auth_config w)) /\ auth_nvs w' = auth_nvs w.
Proof.
  intros Hi Hname Hfi. unfold auth_save_account. rewrite (run_bind_eq _ _ _ _ _ (init_done esp_mac w Hi)), Hname.
  destruct (known_role r); [cbn [negb]|done].
  destruct (session_account_spec tok w) as (cur & w1 & Hf & (Hc1 & Hn1 & Hi1) & _ & _). rewrite (run_bind_eq _ _ _ _ _ Hf), run_bind_gets, Hc1.
  destruct (administers cur (auth_config w)); [cbn [negb]|done]. cbv zeta. rewrite Hfi.
  destruct (Z.eqb_spec (Z.of_nat i) cur); [done|]. destruct (_ && _ && _); [done|]. rewrite run_bind_modify.
  assert (i < length (accounts (auth_config w)))%nat as Hr.
  { destruct name as [|x name]; [done|]. apply find_first_0 in Hfi as (a & Ha & _). by eapply lookup_lt_Some. }
  destruct (match password with Some (_ :: _) => true | _ => false end && negb (auth_password_is_strong password)) eqn:Hweak.
  - intros [= <-]. cbn [auth_config on_config auth_nvs update]. rewrite Hc1. split; [by apply account_at_same|done].
  - rewrite run_bind_surj. match goal with |- save_or_restore _ _ _ ?v = _ -> _ => generalize v end. intros w2.
    unfold save_or_restore. rewrite run_bind_surj. by destruct (auth_save_config w2) as [[] w3].
Qed.
End rejected.

(** ** Concrete runs *)

(** A sum for the hash, and a counter for the random bytes. *)
Definition example_sha256 (l : list Z) : list Z := replicate AUTH_HASH_LEN (foldl Z.add 0 l `mod` 256).
Definition example_random (n : nat) (r : Z) : list Z * Z := (replicate n (r `mod` 256), r + 1).
Definition example_mac : list Z := [36; 111; 40; 1; 2; 3].
Definition example_start : auth flash Z := (auth_init example_mac (auth_boot None 1 0)).2.
Definition text (s : string) : option (list Z) := Some (bytes_of s).
(** "ana" becomes the first administrator, and gets the token of the bytes 2. *)
Definition example_first : auth_call := CallBootstrap (text " Ana ") (text "secret-1") (Some 65%nat).
Definition example_token : option (list Z) := Some (hex_text (replicate 32 2)).
Definition example_admin : auth flash Z := (run_auth example_sha256 example_random example_mac example_first example_start).2.
Definition example_add : auth_call := CallSave example_token (text "Bob") AUTH_ROLE_OPERATOR true (text "secret-2").
Definition example_two : auth flash Z := (run_auth example_sha256 example_random example_mac example_add example_admin).2.

Lemma example_sha256_length l : length (example_sha256 l) = AUTH_HASH_LEN.
Proof. done. Qed.
Lemma example_random_length n r : length (example_random n r).1 = n.
Proof. apply length_replicate. Qed.
Lemma example_good : good (auth_config example_admin).
Proof.
  assert (sound example_start) as Hs by (by apply blank_sound).
  apply (event_sound example_sha256 example_random example_mac example_sha256_length example_random_length (Called example_first)) in Hs.
  unfold example_admin. cbn [run_event] in Hs. destruct Hs as (_ & Hg & _). exact Hg.
Qed.

(** "ana" adds "bob". *)
Lemma account_changes_authorized_witness :
  let c := CallSave example_token (text "Bob") AUTH_ROLE_OPERATOR true (text "secret-2") in
  let w' := (run_auth example_sha256 example_random example_mac c example_admin).2 in
  exists s, admin_session example_admin example_token s /\
    account_at (Z.to_nat (account_index s)) (auth_config w') = account_at (Z.to_nat (account_index s)) (auth_config example_admin).
Proof.
  intros c w'. assert (auth_initialized example_admin = true) as Hi by (by vm_compute).
  assert (auth_config w' <> auth_config example_admin) as Hne by (by vm_compute).
  exact (account_changes_authorized example_sha256 example_random example_mac c example_admin Hi Hne).
Defined.
Lemma accounts_survive_reboot_witness :
  auth_config (auth_init example_mac (auth_boot (auth_nvs example_two) 9 0)).2 = auth_config example_two.
Proof.
  apply (accounts_survive_reboot example_sha256 example_random example_mac example_sha256_length example_random_length example_add example_admin example_two 9 0).
  - by vm_compute.
  - apply example_good.
  - by vm_compute.
Defined.
(** "ana" is still the administrator after "bob" was added, refused the removal
    of "ana", and the node restarted. *)
Lemma administrator_never_lost_witness :
  let es := [Called example_first; Called example_add; Called (CallDelete example_token (text "ana")); Restarted 5 0] in
  let c := auth_config (run_events example_sha256 example_random example_mac es (auth_init example_mac (auth_boot (None : flash) 1 0)).2) in
  auth_bootstrap_open_state c = true \/ configured c <> 0 /\ exists i, enabled_admin (account_at i c) = true.
Proof.
  intros es c.
  apply (administrator_never_lost example_sha256 example_random example_mac example_sha256_length example_random_length (None : flash) 1 0 es).
  by vm_compute.
Defined.
Lemma accounts_locked_after_restart_witness :
  let w0 := (auth_init example_mac (auth_boot (auth_nvs example_two) 9 0)).2 in
  let w := run_auths example_sha256 example_random example_mac [example_first; CallLogin None None (Some 65%nat); example_add] w0 in
  auth_config w = auth_config w0 /\
  (forall user password out, (auth_login example_mac user password out w).1.1.1 = AUTH_LOGIN_OK /\
    auth_role_has_capability (st_role (auth_login example_mac user password out w).1.2) AUTH_CAP_SECURITY_ADMIN = true) /\
  forall c, (run_auth example_sha256 example_random example_mac c w).1 = false.
Proof. intros w0 w. apply (accounts_locked_after_restart example_sha256 example_random example_mac). by vm_compute. Defined.
(** "bob", with a password of three letters, becomes an administrator. *)
Lemma refused_change_takes_effect_witness :
  let request := auth_save_account example_sha256 example_random example_mac example_token (text "bob") AUTH_ROLE_ADMIN true (text "abc") in
  role (account_at 1 (auth_config example_two)) = AUTH_ROLE_OPERATOR /\
  account_at 1 (auth_config (request example_two).2) = with_role true AUTH_ROLE_ADMIN (account_at 1 (auth_config example_two)) /\
  auth_nvs (request example_two).2 = auth_nvs example_two.
Proof.
  intros request. split; [by vm_compute|].
  apply (refused_change_takes_effect example_sha256 example_random example_mac example_token (text "bob") AUTH_ROLE_ADMIN true (text "abc") _ _ (bytes_of "bob")); by vm_compute.
Defined.
