(* ===== verification/NetworkReady.v ===== *)
(** * Link state ([components/runtime/network/network_ready/network_ready.c])

    The three IP links, the snapshot that is kept of them, and the listeners
    that are told when it changes.  A callback is a pair of numbers, the
    function and its context; [told] records every call of one. *)

From Stdlib Require Import String.
From S2P Require Import Prelude.
Local Open Scope string_scope.
Local Open Scope list_scope.
Local Open Scope Z_scope.

Definition NETWORK_READY_MAX_CALLBACKS : nat := 4.
Definition NETWORK_READY_LINK_NONE : Z := 0.
Definition NETWORK_READY_LINK_WIFI_AP : Z := 1.
Definition NETWORK_READY_LINK_WIFI_STA : Z := 2.
Definition NETWORK_READY_LINK_ETHERNET : Z := 3.

Record link := Link { up : bool; ip_addr : Z; netmask_addr : Z }.
#[export] Instance link_rebuild : Rebuild link := fun l => Link (up l) (ip_addr l) (netmask_addr l).
Definition link_zero : link := Link false 0 0.

(** [network_ready_snapshot_t] *)
Record link_snapshot := Snapshot {
  ready : bool; active_link : Z; active_ip_addr : Z; active_netmask_addr : Z;
  wifi_ap_up : bool; wifi_sta_up : bool; ethernet_up : bool;
  wifi_ap_ip_addr : Z; wifi_ap_netmask_addr : Z; wifi_sta_ip_addr : Z; wifi_sta_netmask_addr : Z;
  ethernet_ip_addr : Z; ethernet_netmask_addr : Z;
}.
Definition snapshot_zero : link_snapshot := Snapshot false 0 0 0 false false false 0 0 0 0 0 0.

Definition callback : Type := Z * Z.
Record links := Links {
  link_state : list link; current_snapshot : link_snapshot; callback_entries : list (option callback); told : list (callback * link_snapshot);
}.
#[export] Instance links_rebuild : Rebuild links := fun l => Links (link_state l) (current_snapshot l) (callback_entries l) (told l).

(** The link at a number of the enumeration. *)
Definition link_at (i : Z) (ls : list link) : link := nth (Z.to_nat i) ls link_zero.
Definition network_ready_choose_active_link (ls : list link) : Z :=
  if up (link_at NETWORK_READY_LINK_ETHERNET ls) then NETWORK_READY_LINK_ETHERNET
  else if up (link_at NETWORK_READY_LINK_WIFI_STA ls) then NETWORK_READY_LINK_WIFI_STA
  else if up (link_at NETWORK_READY_LINK_WIFI_AP ls) then NETWORK_READY_LINK_WIFI_AP
  else NETWORK_READY_LINK_NONE.
Definition network_ready_refresh_snapshot (ls : list link) : link_snapshot :=
  let act := network_ready_choose_active_link ls in
  let ap := link_at NETWORK_READY_LINK_WIFI_AP ls in
  let sta := link_at NETWORK_READY_LINK_WIFI_STA ls in
  let eth := link_at NETWORK_READY_LINK_ETHERNET ls in
  Snapshot (negb (act =? NETWORK_READY_LINK_NONE)) act (ip_addr (link_at act ls)) (netmask_addr (link_at act ls))
    (up ap) (up sta) (up eth) (ip_addr ap) (netmask_addr ap) (ip_addr sta) (netmask_addr sta) (ip_addr eth) (netmask_addr eth).
Definition network_ready_snapshot_equals (a b : link_snapshot) : bool :=
  Bool.eqb (ready a) (ready b) && (active_link a =? active_link b) && (active_ip_addr a =? active_ip_addr b)
  && (active_netmask_addr a =? active_netmask_addr b) && Bool.eqb (wifi_ap_up a) (wifi_ap_up b) && Bool.eqb (wifi_sta_up a) (wifi_sta_up b)
  && Bool.eqb (ethernet_up a) (ethernet_up b) && (wifi_ap_ip_addr a =? wifi_ap_ip_addr b) && (wifi_ap_netmask_addr a =? wifi_ap_netmask_addr b)
  && (wifi_sta_ip_addr a =? wifi_sta_ip_addr b) && (wifi_sta_netmask_addr a =? wifi_sta_netmask_addr b)
  && (ethernet_ip_addr a =? ethernet_ip_addr b) && (ethernet_netmask_addr a =? ethernet_netmask_addr b).

(** Every registered callback, in the order of the table. *)
Definition network_ready_notify (s : link_snapshot) : st links () :=
  modify (fun l => l <| told := told l ++ omap (fun e => (fun c => (c, s)) <$> e) (callback_entries l) |>).

Definition network_ready_init : st links () :=
  modify (fun l => l <| link_state := replicate 4 link_zero |> <| callback_entries := replicate NETWORK_READY_MAX_CALLBACKS None |>
                     <| current_snapshot := snapshot_zero |>).

(** The first free place of the table takes [c]. *)
Fixpoint put_callback (c : callback) (l : list (option callback)) : option (list (option callback)) :=
  match l with
  | [] => None
  | None :: l => Some (Some c :: l)
  | Some d :: l => (fun l => Some d :: l) <$> put_callback c l
  end.
Definition is_callback (c : callback) (e : option callback) : bool := bool_decide (e = Some c).
(** [None] is a null function. *)
Definition network_ready_register_callback (cb : option callback) : st links bool :=
  match cb with
  | None => mret false
  | Some c => fun l =>
    if existsb (is_callback c) (callback_entries l) then (true, l)
    else match put_callback c (callback_entries l) with
         | Some t => (true, l <| callback_entries := t |>)
         | None => (false, l)
         end
  end.

Definition is_link (i : Z) : bool := (NETWORK_READY_LINK_NONE <? i) && (i <=? NETWORK_READY_LINK_ETHERNET).
(** What the two calls below share. *)
Definition publish_link (i : Z) (k : link) : st links bool :=
  if negb (is_link i) then mret false
  else
    previous ← gets current_snapshot;
    modify (fun l => l <| link_state := <[Z.to_nat i := k]> (link_state l) |>);;
    modify (fun l => l <| current_snapshot := network_ready_refresh_snapshot (link_state l) |>);;
    next ← gets current_snapshot;
    (if network_ready_snapshot_equals previous next then mret tt else network_ready_notify next);;
    mret true.
Definition network_ready_publish_up (i ip netmask : Z) : st links bool := publish_link i (Link true ip netmask).
Definition network_ready_publish_down (i : Z) : st links bool := publish_link i (Link false 0 0).

Definition network_ready_is_up (l : links) : bool := ready (current_snapshot l).
Definition network_ready_active_link (l : links) : Z := active_link (current_snapshot l).
Definition network_ready_get_snapshot (l : links) : link_snapshot := current_snapshot l.
Definition network_ready_link_name (i : Z) : string :=
  if i =? NETWORK_READY_LINK_WIFI_AP then "wifi-ap" else if i =? NETWORK_READY_LINK_WIFI_STA then "wifi-sta"
  else if i =? NETWORK_READY_LINK_ETHERNET then "ethernet" else "none".
Definition network_ready_active_name (l : links) : string := network_ready_link_name (network_ready_active_link l).

(** The variables at program start. *)
Definition links_boot : links := Links (replicate 4 link_zero) snapshot_zero (replicate NETWORK_READY_MAX_CALLBACKS None) [].

(** ** Listeners *)

Inductive link_call := PublishUp (i ip netmask : Z) | PublishDown (i : Z) | Register (cb : option callback).
Definition run_link (c : link_call) : st links bool :=
  match c with
  | PublishUp i ip netmask => network_ready_publish_up i ip netmask
  | PublishDown i => network_ready_publish_down i
  | Register cb => network_ready_register_callback cb
  end.
Fixpoint run_links (cs : list link_call) (l : links) : links := match cs with [] => l | c :: cs => run_links cs (run_link c l).2 end.

Lemma snapshot_equals_spec a b : network_ready_snapshot_equals a b = true <-> a = b.
Proof.
  destruct a, b. unfold network_ready_snapshot_equals. cbn. rewrite !andb_true_iff, !Bool.eqb_true_iff, !Z.eqb_eq. split; [naive_solver|].
  intros [=]. by split_and!.
Qed.

(** The last snapshot a callback was told. *)
Definition last_told (c : callback) (t : list (callback * link_snapshot)) : option link_snapshot :=
  snd <$> last (filter (fun x => x.1 = c) t).
Definition registered (c : callback) (l : links) : Prop := Some c ∈ callback_entries l.

Lemma last_told_app c t u : last_told c (t ++ u) = match last_told c u with Some s => Some s | None => last_told c t end.
Proof.
  unfold last_told. rewrite filter_app, last_app. by destruct (last (filter _ u)).
Qed.
Lemma last_told_notified c s es : Some c ∈ es -> last_told c (omap (fun e => (fun c => (c, s)) <$> e) es) = Some s.
Proof.
  intros Hin. unfold last_told. assert (forall x, x ∈ filter (fun x : callback * link_snapshot => x.1 = c) (omap (fun e => (fun c => (c, s)) <$> e) es) -> x.2 = s) as Hall.
  { intros x [_ Hx]%list_elem_of_filter. apply list_elem_of_omap in Hx as (e & _ & He). destruct e; [|done]. by injection He as <-. }
  destruct (last _) as [x|] eqn:Hl; [by cbn; rewrite (Hall x) by (by apply last_Some_elem_of)|].
  apply last_None in Hl. assert ((c, s) ∈ filter (fun x : callback * link_snapshot => x.1 = c) (omap (fun e => (fun c => (c, s)) <$> e) es)) as Hx.
  { apply list_elem_of_filter. split; [done|]. apply list_elem_of_omap. by exists (Some c). }
  rewrite Hl in Hx. by apply not_elem_of_nil in Hx.
Qed.
Lemma put_callback_keeps c d l t : put_callback c l = Some t -> Some d ∈ l -> Some d ∈ t.
Proof.
  revert t. induction l as [|[e|] l IH]; intros t; cbn; [done| |].
  - destruct (put_callback c l) as [u|]; [|done]. intros [= <-] [->|Hd]%elem_of_cons; [by left|]. right. by apply IH.
  - intros [= <-] [|Hd]%elem_of_cons; [done|]. by right.
Qed.

(** The snapshot is that of the links, and [c] has been told it, unless it is
    still [s], the one at its registration. *)
Definition informed (c : callback) (s : link_snapshot) (l : links) : Prop :=
  registered c l /\ current_snapshot l = default s (last_told c (told l)).
Lemma informed_step c s call l : informed c s l -> informed c s (run_link call l).2.
Proof.
  intros [Hr Hs]. assert (forall i k, informed c s (publish_link i k l).2) as Hp.
  { intros i k. unfold publish_link. destruct (is_link i); [cbn [negb]|done]. rewrite run_bind_gets, !run_bind_modify, run_bind_gets.
    set (l1 := _ <| current_snapshot := _ |>). destruct (network_ready_snapshot_equals _ _) eqn:He.
    - apply snapshot_equals_spec in He. split; [done|]. cbn [snd mret st_ret]. rewrite run_bind_ret. cbn [mret st_ret snd]. rewrite <- He. exact Hs.
    - split; [done|]. unfold network_ready_notify. rewrite run_bind_modify. cbn [mret st_ret snd told update current_snapshot].
      rewrite last_told_app, last_told_notified; [done|]. exact Hr. }
  destruct call as [i ip netmask|i|cb]; cbn [run_link]; [apply Hp..|].
  destruct cb as [d|]; [|done]. cbn. destruct (existsb _ _); [done|]. destruct (put_callback d _) as [t|] eqn:Ht; [|done].
  split; [|done]. by eapply put_callback_keeps.
Qed.

(** A listener that is registered always knows the current state of the
    links: what it was told last, or found when it registered, is what holds,
    whatever is published and whoever registers since. *)
Theorem listener_up_to_date c cs l :
  registered c l -> last_told c (told l) = None ->
  let l' := run_links cs l in
  network_ready_get_snapshot l' = default (network_ready_get_snapshot l) (last_told c (told l')).
Proof.
  intros Hr Hn. assert (informed c (current_snapshot l) l) as Hi by (split; [done|by rewrite Hn]).
  enough (informed c (current_snapshot l) (run_links cs l)) as [_ He] by exact He. revert Hi. generalize (current_snapshot l). intros s.
  clear. revert l. induction cs as [|call cs IH]; intros l Hi; [done|]. by apply IH, informed_step.
Qed.

(** The active link is the best one that is up. *)
Definition best_link (ls : list link) (a : Z) : Prop :=
  (a = NETWORK_READY_LINK_NONE \/ is_link a = true /\ up (link_at a ls) = true) /\ forall i, a < i -> is_link i = true -> up (link_at i ls) = false.
Lemma choose_best ls : best_link ls (network_ready_choose_active_link ls).
Proof.
  unfold network_ready_choose_active_link, best_link, is_link, NETWORK_READY_LINK_ETHERNET, NETWORK_READY_LINK_WIFI_STA, NETWORK_READY_LINK_WIFI_AP, NETWORK_READY_LINK_NONE.
  destruct (up (link_at 3 ls)) eqn:H3; [split; [by right|lia]|].
  destruct (up (link_at 2 ls)) eqn:H2; [split; [by right|]; intros i ? ?; by assert (i = 3) as -> by lia|].
  destruct (up (link_at 1 ls)) eqn:H1; (split; [by (by right) || (by left)|]); intros i ? ?;
    [assert (i = 2 \/ i = 3) as [->| ->] by lia|assert (i = 1 \/ i = 2 \/ i = 3) as [->|[->| ->]] by lia]; done.
Qed.

(** Whatever is published, the active link is the best one that is up
    (Ethernet, then the station, then the access point), and the address it is
    given with is that link's. *)
Theorem active_link_best cs :
  let l := run_links cs links_boot in
  best_link (link_state l) (network_ready_active_link l) /\
  active_ip_addr (network_ready_get_snapshot l) = ip_addr (link_at (network_ready_active_link l) (link_state l)) /\
  network_ready_is_up l = negb (network_ready_active_link l =? NETWORK_READY_LINK_NONE).
Proof.
  intros l. enough (current_snapshot l = network_ready_refresh_snapshot (link_state l)) as He.
  { unfold network_ready_active_link, network_ready_get_snapshot, network_ready_is_up. rewrite He. split; [apply choose_best|done]. }
  unfold l. clear l. assert (current_snapshot links_boot = network_ready_refresh_snapshot (link_state links_boot)) as Hb by done.
  revert Hb. generalize links_boot. induction cs as [|call cs IH]; intros l Hl; [done|]. apply IH. destruct call as [i ip netmask|i|cb]; cbn [run_link].
  3: { destruct cb as [d|]; [|done]. cbn. destruct (existsb _ _); [done|]. by destruct (put_callback d _). }
  all: unfold network_ready_publish_up, network_ready_publish_down, publish_link; destruct (is_link i); [cbn [negb]|done].
  all: rewrite run_bind_gets, !run_bind_modify, run_bind_gets; by destruct (network_ready_snapshot_equals _ _).
Qed.

(** The transport registered; Wi-Fi comes up, another listener registers, and
    the Wi-Fi network goes away. *)
Lemma listener_up_to_date_witness :
  let l := (network_ready_register_callback (Some (1, 0)) links_boot).2 in
  let cs := [PublishUp 2 16820416 16777215; Register (Some (2, 0)); PublishDown 2] in
  registered (1, 0) l /\ length (told (run_links cs l)) = 3%nat /\
  network_ready_get_snapshot (run_links cs l) = default (network_ready_get_snapshot l) (last_told (1, 0) (told (run_links cs l))).
Proof.
  intros l cs. assert (registered (1, 0) l) as Hr by (by apply list_elem_of_lookup_2 with 0%nat).
  refine (conj Hr (conj _ _)); [by vm_compute|]. by apply (listener_up_to_date (1, 0) cs l Hr).
Defined.
