(* ===== verification/SystemDiag.v ===== *)
(** * Boot counter ([components/data/system_diag/system_diag.c])

    The number of starts, kept as one 32-bit value in the namespace
    "system_diag", and the name of the reset reason. *)

From Stdlib Require Import String.
From S2P Require Import Prelude.
Local Open Scope string_scope.
Local Open Scope list_scope.
Local Open Scope Z_scope.

(** The NVS calls of the component: opening, and the one value, whose writes'
    outcomes are not looked at. *)
Class NvsU32 (D : Type) := {
  u32_open : D -> bool;
  u32_get : D -> option Z;
  u32_set : Z -> D -> D;           (* nvs_set_u32 and nvs_commit *)
}.
(** Flash that keeps what it is given. *)
Class NvsU32Reliable (D : Type) `{NvsU32 D} := {
  u32_opens (d : D) : u32_open d = true;
  u32_opens_set v (d : D) : u32_open (u32_set v d) = true;
  u32_get_set v (d : D) : u32_get (u32_set v d) = Some v;
}.
#[export] Instance cell_nvs : NvsU32 (option Z) := { u32_open _ := true; u32_get d := d; u32_set v _ := Some v }.
#[export] Instance cell_nvs_reliable : NvsU32Reliable (option Z).
Proof. by split. Qed.

(** [esp_reset_reason_t] of ESP-IDF, as far as it is named. *)
Inductive esp_reset_reason :=
  ESP_RST_UNKNOWN | ESP_RST_POWERON | ESP_RST_EXT | ESP_RST_SW | ESP_RST_PANIC | ESP_RST_INT_WDT | ESP_RST_TASK_WDT | ESP_RST_WDT
| ESP_RST_DEEPSLEEP | ESP_RST_BROWNOUT | ESP_RST_SDIO | ESP_RST_OTHER.

Record diag {D : Type} := Diag { g_boot_count : Z; g_reset_reason : esp_reset_reason; g_diag_initialized : bool; diag_nvs : D }.
Arguments diag : clear implicits.
Arguments Diag {D}.
#[export] Instance diag_rebuild {D} : Rebuild (diag D) := fun d => Diag (g_boot_count d) (g_reset_reason d) (g_diag_initialized d) (diag_nvs d).

Section diag.
Context {D : Type} `{NvsU32 D}.
(** [esp_reset_reason] is the chip's. *)
Variable reason : esp_reset_reason.

Definition diag_boot (d : D) : diag D := Diag 0 ESP_RST_UNKNOWN false d.
Definition system_diag_get_reset_reason (d : diag D) : esp_reset_reason := g_reset_reason d.
Definition system_diag_get_reset_reason_str (d : diag D) : string :=
  match g_reset_reason d with
  | ESP_RST_POWERON => "POWERON" | ESP_RST_EXT => "EXTERNAL_PIN" | ESP_RST_SW => "SW_RESET" | ESP_RST_PANIC => "EXCEPTION_PANIC"
  | ESP_RST_INT_WDT => "INTERRUPT_WATCHDOG" | ESP_RST_TASK_WDT => "TASK_WATCHDOG" | ESP_RST_WDT => "OTHER_WATCHDOG"
  | ESP_RST_DEEPSLEEP => "DEEP_SLEEP" | ESP_RST_BROWNOUT => "BROWNOUT" | ESP_RST_SDIO => "SDIO" | _ => "UNKNOWN"
  end.

Definition system_diag_init : st (diag D) () := modify (fun d =>
  if g_diag_initialized d then d
  else
    let d := d <| g_reset_reason := reason |> in
    let d := if u32_open (diag_nvs d)
             then let count := u32 (default 0 (u32_get (diag_nvs d)) + 1) in
                  d <| g_boot_count := count |> <| diag_nvs := u32_set count (diag_nvs d) |>
             else d <| g_boot_count := 1 |> in
    d <| g_diag_initialized := true |>).
Definition system_diag_get_boot_count : st (diag D) Z :=
  ready ← gets g_diag_initialized;
  (if ready : bool then mret tt else system_diag_init);;
  gets g_boot_count.

(** A start: the statics are lost, and the count is asked for. *)
Definition start (d : D) : Z * D := let '(n, s) := system_diag_get_boot_count (diag_boot d) in (n, diag_nvs s).
Fixpoint starts (k : nat) (d : D) : D := match k with O => d | S k => starts k (start d).2 end.
Fixpoint asks (k : nat) (s : diag D) : diag D := match k with O => s | S k => asks k (system_diag_get_boot_count s).2 end.

Lemma start_spec d : u32_open d = true -> start d = (u32 (default 0 (u32_get d) + 1), u32_set (u32 (default 0 (u32_get d) + 1)) d).
Proof. intros Ho. unfold start, system_diag_get_boot_count, system_diag_init.
  rewrite run_bind_gets. cbn [diag_boot g_diag_initialized]. rewrite run_bind_modify. cbn [diag_boot g_diag_initialized diag_nvs update].
  rewrite Ho. by rewrite run_gets.
Qed.
Lemma asks_done k s : g_diag_initialized s = true -> asks k s = s.
Proof.
  intros Hs. induction k as [|k IH]; [done|]. cbn [asks]. unfold system_diag_get_boot_count. rewrite run_bind_gets, Hs. exact IH.
Qed.

Context `{!NvsU32Reliable D}.
Lemma starts_count k d : u32_get d = None -> u32_get (starts (S k) d) = Some (u32 (Z.of_nat (S k))).
Proof.
  assert (forall k n d, u32_get d = Some (u32 n) -> u32_get (starts k d) = Some (u32 (n + Z.of_nat k))) as Hgo.
  { clear k d. induction k as [|k IH]; intros n d Hd; [cbn; rewrite Hd; do 2 f_equal; lia|]. cbn [starts].
    rewrite start_spec by apply u32_opens. cbn [snd]. rewrite Hd. cbn [default from_option id].
    rewrite (IH (n + 1)); [do 2 f_equal; lia|]. rewrite u32_get_set. f_equal. unfold u32. rewrite Zplus_mod_idemp_l. done. }
  intros Hd. cbn [starts]. rewrite start_spec by apply u32_opens. cbn [snd]. rewrite Hd. cbn [default from_option id].
  rewrite (Hgo k 1); [do 2 f_equal; lia|]. by rewrite u32_get_set.
Qed.

(** The n-th start of a node is counted n, modulo 2^32, and asking for the
    count any number of times during a run does not change it. *)
Theorem boots_counted (k : nat) (d : D) :
  u32_get d = None -> forall asked, g_boot_count (asks (S asked) (diag_boot (starts k d))) = u32 (Z.of_nat k + 1).
Proof.
  intros Hd asked. cbn [asks]. rewrite asks_done.
  - pose proof (start_spec (starts k d) (u32_opens _)) as Hs. unfold start in Hs.
    assert (g_boot_count (system_diag_get_boot_count (diag_boot (starts k d))).2 = (system_diag_get_boot_count (diag_boot (starts k d))).1) as -> by done.
    destruct (system_diag_get_boot_count (diag_boot (starts k d))) as [n s]. injection Hs as -> _. cbn [fst].
    destruct k as [|k]; [cbn [starts]; by rewrite Hd|]. rewrite starts_count by done. cbn [default from_option id].
    unfold u32. by rewrite Zplus_mod_idemp_l.
  - unfold system_diag_get_boot_count, system_diag_init. rewrite run_bind_gets. cbn [diag_boot g_diag_initialized]. by rewrite run_bind_modify.
Qed.
End diag.

(** The third start. *)
Lemma boots_counted_witness :
  g_boot_count (asks ESP_RST_POWERON 3 (diag_boot (starts ESP_RST_POWERON 2 (None : option Z)))) = 3.
Proof. refine (boots_counted ESP_RST_POWERON 2 (None : option Z) _ 2). reflexivity. Defined.
