(* ===== verification/ClusterTransport.v ===== *)
(** * Cluster transport ([components/cluster/cluster_transport*.c])

    How frames travel between nodes: the choice of the link ([UDP], [ESP-NOW],
    [ESP-MESH] or RS485) from the network profile and the links that are up, the
    heartbeat, the broadcast of frames, and the two requests a gateway sends to
    a node, its adoption and the change of its transport.  It calls the RS485
    engine ([Rs485Engine]), the network policy ([NetworkPolicy]), onboarding
    ([Onboarding]), the link state ([NetworkReady]) and the boot counter
    ([SystemDiag]).

    The receiving tasks are one definition per packet.  What is handed to the
    two registered callbacks is recorded in [heard] and [delivered].  An address
    is [s_addr], 32 bits in memory order, and a socket -1 when it is closed.  A
    request that waits is two definitions: up to the wait, and from its end. *)

From Stdlib Require Import String.
From S2P Require Import Prelude Persist Rs485Wire Rs485Engine NetworkPolicy Onboarding NetworkReady SystemDiag.
Local Open Scope string_scope.
Local Open Scope list_scope.
Local Open Scope Z_scope.

Definition CLUSTER_TRANSPORT_FRAME_PORT : Z := 5000.
Definition CLUSTER_TRANSPORT_DISCOVERY_PORT : Z := 5005.
Definition CLUSTER_TRANSPORT_NONE : Z := 0.
Definition CLUSTER_TRANSPORT_WIFI_UDP : Z := 1.
Definition CLUSTER_TRANSPORT_ETHERNET_UDP : Z := 2.
Definition CLUSTER_TRANSPORT_RS485 : Z := 3.
Definition CLUSTER_TRANSPORT_WIFI_MESH : Z := 4.
Definition CLUSTER_TRANSPORT_WIFI_NOW : Z := 5.
Definition ENDAP_CLUSTER_MAGIC : Z := 1162757200.
Definition ENDAP_REMOTE_CLAIM_MAGIC : Z := 1129073969.
Definition ENDAP_REMOTE_CLAIM_REQ : Z := 1.
Definition ENDAP_REMOTE_CLAIM_RESP : Z := 2.
Definition ENDAP_REMOTE_TRANSPORT_MAGIC : Z := 1414680625.
Definition ENDAP_REMOTE_TRANSPORT_SET : Z := 1.
Definition ENDAP_REMOTE_TRANSPORT_ACK : Z := 2.
(** [htonl(INADDR_BROADCAST)] *)
Definition INADDR_BROADCAST : Z := 4294967295.
Definition DEVICE_PROFILE_WIFI_MODE_MESH : Z := 1.
Definition DEVICE_PROFILE_WIFI_MODE_NOW : Z := 2.

(** ** Messages *)

(** [endap_heartbeat_t], 18 bytes; the magic is written by the encoder. *)
Record wire_heartbeat := WireHeartbeat { wh_node_id : Z; wh_boot_counter : Z; wh_uptime_seconds : Z; wh_node_type : Z; wh_state : Z }.
Definition sizeof_heartbeat : nat := 18.
Definition heartbeat_members (m : wire_heartbeat) : list (nat * Z) :=
  [(4%nat, ENDAP_CLUSTER_MAGIC); (4%nat, wh_node_id m); (4%nat, wh_boot_counter m); (4%nat, wh_uptime_seconds m); (1%nat, wh_node_type m); (1%nat, wh_state m)].
Definition heartbeat_bytes (m : wire_heartbeat) : list Z := pack (heartbeat_members m).
Definition magic_of_message (d : list Z) : Z := field 0 4 d.
Definition heartbeat_of (d : list Z) : wire_heartbeat := WireHeartbeat (field 4 4 d) (field 8 4 d) (field 12 4 d) (field 16 1 d) (field 17 1 d).

(** [cluster_transport_heartbeat_t] *)
Record heartbeat := Heartbeat {
  hb_node_id : Z; hb_timestamp_ms : Z; hb_source_ip : Z; hb_source_transport : Z; hb_device_profile : Z; hb_flags : Z; hb_uptime_seconds : Z;
}.

(** [endap_remote_claim_msg_t], 48 bytes. *)
Record claim_msg := ClaimMsg { cm_msg_type : Z; cm_profile : Z; cm_status_code : Z; cm_target_node_id : Z; cm_gateway_id : Z; cm_node_name : list Z }.
Definition sizeof_claim_msg : nat := 48.
Definition claim_members (m : claim_msg) : list (nat * Z) :=
  [(4%nat, ENDAP_REMOTE_CLAIM_MAGIC); (1%nat, cm_msg_type m); (1%nat, cm_profile m); (2%nat, cm_status_code m); (4%nat, cm_target_node_id m); (4%nat, cm_gateway_id m)].
Definition claim_bytes (m : claim_msg) : list Z := pack (claim_members m) ++ cm_node_name m.
Definition claim_of (d : list Z) : claim_msg := ClaimMsg (field 4 1 d) (field 5 1 d) (field 6 2 d) (field 8 4 d) (field 12 4 d) (take 32 (drop 16 d)).
Definition claim_zero : claim_msg := ClaimMsg 0 0 0 0 0 (replicate 32 0).

(** [endap_remote_transport_msg_t], 19 bytes. *)
Record transport_msg := TransportMsg {
  tm_msg_type : Z; tm_primary : Z; tm_fallback : Z; tm_wifi_mode : Z; tm_flags : Z; tm_status_code : Z; tm_target_node_id : Z; tm_gateway_id : Z;
}.
Definition sizeof_transport_msg : nat := 19.
Definition transport_members (m : transport_msg) : list (nat * Z) :=
  [(4%nat, ENDAP_REMOTE_TRANSPORT_MAGIC); (1%nat, tm_msg_type m); (1%nat, tm_primary m); (1%nat, tm_fallback m); (1%nat, tm_wifi_mode m);
   (1%nat, tm_flags m); (2%nat, tm_status_code m); (4%nat, tm_target_node_id m); (4%nat, tm_gateway_id m)].
Definition transport_bytes (m : transport_msg) : list Z := pack (transport_members m).
Definition transport_of (d : list Z) : transport_msg :=
  TransportMsg (field 4 1 d) (field 5 1 d) (field 6 1 d) (field 7 1 d) (field 8 1 d) (field 9 2 d) (field 11 4 d) (field 15 4 d).
Definition transport_msg_zero : transport_msg := TransportMsg 0 0 0 0 0 0 0 0.

(** ** The state *)

(** lwIP, FreeRTOS, ESP-NOW and ESP-MESH. *)
Class Net (L : Type) := {
  net_socket : st L Z;                          (* socket(): -1, or a socket *)
  net_bind : Z -> Z -> st L bool;               (* of a socket to a port *)
  net_close : Z -> st L ();
  net_sendto : Z -> list Z -> Z -> Z -> st L Z; (* socket, data, address, port *)
  net_task : st L bool;                         (* xTaskCreatePinnedToCore *)
  net_semaphore : st L bool;                    (* xSemaphoreCreate..: not NULL *)
  esp_now_init : st L bool;
  esp_now_register_recv_cb : st L bool;
  esp_now_add_peer : list Z -> st L bool;       (* ESP_OK, or that the peer exists *)
  esp_now_is_peer_exist : list Z -> L -> bool;
  esp_now_del_peer : list Z -> st L ();
  esp_now_deinit : st L ();
  esp_now_send : list Z -> st L bool;           (* to the broadcast address *)
  esp_mesh_send : list Z -> list Z -> st L bool; (* to an address *)
  mesh_task_stopped : st L bool;                (* the wait for the task's end *)
}.

(** [cluster_now_stats_t] without [rx_errors], which nothing writes. *)
Record now_stats := NowStats { tx_packets : Z; rx_packets : Z; tx_errors : Z; last_tx_ms : Z; last_rx_ms : Z; peers_count : Z }.
#[export] Instance now_stats_rebuild : Rebuild now_stats := fun s =>
  NowStats (tx_packets s) (rx_packets s) (tx_errors s) (last_tx_ms s) (last_rx_ms s) (peers_count s).
Definition now_stats_zero : now_stats := NowStats 0 0 0 0 0 0.

Record transport {O N P D L : Type} := Transport {
  discovery_sock : Z; frame_sock : Z;
  discovery_broadcast_addr : Z; frame_broadcast_addr : Z;
  self_node_id : Z;
  transport_started : bool; network_callback_registered : bool; udp_runtime_started : bool;
  active_type : Z;
  heartbeat_callback : bool; frame_callback : bool;
  rs485_msg_id_counter : Z;
  remote_claim_mutex : bool; remote_claim_sem : option bool; pending_claim_target_node_id : Z; remote_claim_response : claim_msg;
  remote_transport_sem : option bool; remote_transport_response : transport_msg;
  now_node_id : Z; now_initialized : bool; now_heartbeat_cb : bool; now_frame_cb : bool; the_now_stats : now_stats;
  mesh_node_id : Z; mesh_initialized : bool; mesh_heartbeat_cb : bool; mesh_frame_cb : bool; mesh_rx_task : bool; mesh_rx_stop_sem : bool;
  heard : list heartbeat; delivered : list (list Z);
  the_onboarding : onboarding O N; rs485 : engine P; the_links : links; the_diag : diag D; net : L; esp_timer : Z;
}.
Arguments transport : clear implicits.
Arguments Transport {O N P D L}.
#[export] Instance transport_rebuild {O N P D L} : Rebuild (transport O N P D L) := fun t =>
  Transport (discovery_sock t) (frame_sock t) (discovery_broadcast_addr t) (frame_broadcast_addr t) (self_node_id t) (transport_started t)
    (network_callback_registered t) (udp_runtime_started t) (active_type t) (heartbeat_callback t) (frame_callback t) (rs485_msg_id_counter t)
    (remote_claim_mutex t) (remote_claim_sem t) (pending_claim_target_node_id t) (remote_claim_response t) (remote_transport_sem t)
    (remote_transport_response t) (now_node_id t) (now_initialized t) (now_heartbeat_cb t) (now_frame_cb t) (the_now_stats t) (mesh_node_id t)
    (mesh_initialized t) (mesh_heartbeat_cb t) (mesh_frame_cb t) (mesh_rx_task t) (mesh_rx_stop_sem t) (heard t) (delivered t)
    (the_onboarding t) (rs485 t) (the_links t) (the_diag t) (net t) (esp_timer t).

Definition cluster_transport_name (type : Z) : string :=
  if type =? CLUSTER_TRANSPORT_WIFI_UDP then "wifi-udp" else if type =? CLUSTER_TRANSPORT_ETHERNET_UDP then "ethernet-udp"
  else if type =? CLUSTER_TRANSPORT_RS485 then "rs485" else if type =? CLUSTER_TRANSPORT_WIFI_MESH then "wifi-mesh"
  else if type =? CLUSTER_TRANSPORT_WIFI_NOW then "wifi-now" else "none".
Definition cluster_transport_type_uses_udp (type : Z) : bool :=
  (type =? CLUSTER_TRANSPORT_WIFI_UDP) || (type =? CLUSTER_TRANSPORT_ETHERNET_UDP).
Definition profile_from_cluster_transport (type : Z) : Z :=
  if type =? CLUSTER_TRANSPORT_WIFI_UDP then DEVICE_PROFILE_TRANSPORT_WIFI
  else if type =? CLUSTER_TRANSPORT_ETHERNET_UDP then DEVICE_PROFILE_TRANSPORT_ETHERNET
  else if type =? CLUSTER_TRANSPORT_RS485 then DEVICE_PROFILE_TRANSPORT_RS485
  else if type =? CLUSTER_TRANSPORT_WIFI_NOW then DEVICE_PROFILE_TRANSPORT_ESPNOW
  else if type =? CLUSTER_TRANSPORT_WIFI_MESH then DEVICE_PROFILE_TRANSPORT_MESH
  else DEVICE_PROFILE_TRANSPORT_NONE.
(** [n] is what [device_profile_network] gives. *)
Definition cluster_transport_profile_allows (n : network_profile) (type : Z) : bool :=
  if type =? CLUSTER_TRANSPORT_ETHERNET_UDP then device_profile_transport_enabled DEVICE_PROFILE_TRANSPORT_ETHERNET n
  else if type =? CLUSTER_TRANSPORT_WIFI_UDP then device_profile_transport_enabled DEVICE_PROFILE_TRANSPORT_WIFI n
  else if type =? CLUSTER_TRANSPORT_RS485 then device_profile_transport_enabled DEVICE_PROFILE_TRANSPORT_RS485 n
  else if type =? CLUSTER_TRANSPORT_WIFI_NOW then device_profile_transport_enabled DEVICE_PROFILE_TRANSPORT_ESPNOW n
  else if type =? CLUSTER_TRANSPORT_WIFI_MESH then device_profile_transport_enabled DEVICE_PROFILE_TRANSPORT_MESH n
  else true.
Definition cluster_transport_compute_broadcast_addr (ip mask : Z) : Z :=
  if (ip =? 0) || (mask =? 0) then INADDR_BROADCAST else Z.lor (Z.land ip mask) (u32 (Z.lnot mask)).

(** [available] is whether the RS485 engine is enabled, [None] a null snapshot. *)
Definition cluster_transport_select_best (n : network_profile) (available : bool) (s : option link_snapshot) : Z :=
  let allows := cluster_transport_profile_allows n in
  let eth := match s with Some s => ethernet_up s | None => false end in
  let wifi := match s with Some s => wifi_sta_up s || wifi_ap_up s | None => false end in
  let prefers t := (primary_transport n =? t) && negb (primary_transport n =? DEVICE_PROFILE_TRANSPORT_NONE) in
  if prefers DEVICE_PROFILE_TRANSPORT_RS485 && allows CLUSTER_TRANSPORT_RS485 && available then CLUSTER_TRANSPORT_RS485
  else if prefers DEVICE_PROFILE_TRANSPORT_ETHERNET && eth && allows CLUSTER_TRANSPORT_ETHERNET_UDP then CLUSTER_TRANSPORT_ETHERNET_UDP
  else if wifi && prefers DEVICE_PROFILE_TRANSPORT_WIFI && allows CLUSTER_TRANSPORT_WIFI_UDP then CLUSTER_TRANSPORT_WIFI_UDP
  else if wifi && prefers DEVICE_PROFILE_TRANSPORT_MESH && allows CLUSTER_TRANSPORT_WIFI_MESH then CLUSTER_TRANSPORT_WIFI_MESH
  else if wifi && prefers DEVICE_PROFILE_TRANSPORT_ESPNOW && allows CLUSTER_TRANSPORT_WIFI_NOW then CLUSTER_TRANSPORT_WIFI_NOW
  else if eth && allows CLUSTER_TRANSPORT_ETHERNET_UDP then CLUSTER_TRANSPORT_ETHERNET_UDP
  else if wifi && (wifi_mode n =? DEVICE_PROFILE_WIFI_MODE_MESH) && allows CLUSTER_TRANSPORT_WIFI_MESH then CLUSTER_TRANSPORT_WIFI_MESH
  else if wifi && (wifi_mode n =? DEVICE_PROFILE_WIFI_MODE_NOW) && allows CLUSTER_TRANSPORT_WIFI_NOW then CLUSTER_TRANSPORT_WIFI_NOW
  else if wifi && allows CLUSTER_TRANSPORT_WIFI_UDP then CLUSTER_TRANSPORT_WIFI_UDP
  else if allows CLUSTER_TRANSPORT_WIFI_NOW then CLUSTER_TRANSPORT_WIFI_NOW
  else if allows CLUSTER_TRANSPORT_RS485 && available then CLUSTER_TRANSPORT_RS485
  else CLUSTER_TRANSPORT_NONE.

Section transport.
Context {O N P D L : Type} `{Nvs O} `{NvsProfile N} `{SerialPort P} `{NvsU32 D} `{Net L}.
(** The build, the code of a failed NVS call, the reset reason, and the address
    of the station interface. *)
Variables (b : build_config) (nvs_err : Z) (reason : esp_reset_reason) (sta_mac : list Z).
Abbreviation world := (transport O N P D L).
Implicit Types w : world.

Definition on_net {A} (m : st L A) : st world A := on_part net (fun x w => w <| net := x |>) m.
Definition on_rs485_engine {A} (m : st (engine P) A) : st world A := on_part rs485 (fun x w => w <| rs485 := x |>) m.
Definition on_onboarding {A} (m : st (onboarding O N) A) : st world A := on_part the_onboarding (fun x w => w <| the_onboarding := x |>) m.
Definition on_policy {A} (m : st (net_policy N) A) : st world A := on_onboarding (on_profile m).
Definition on_links {A} (m : st links A) : st world A := on_part the_links (fun x w => w <| the_links := x |>) m.
Definition on_diag {A} (m : st (diag D) A) : st world A := on_part the_diag (fun x w => w <| the_diag := x |>) m.
Definition uptime_ms w : Z := u32 (Z.quot (esp_timer w) 1000).
Definition uptime_seconds w : Z := u32 (Z.quot (esp_timer w) 1000000).

(** Power on. *)
Definition transport_boot (ob : onboarding O N) (e : engine P) (k : links) (d : diag D) (x : L) : world :=
  Transport (-1) (-1) 0 0 0 false false false CLUSTER_TRANSPORT_NONE false false 1 false None 0 claim_zero None transport_msg_zero
    0 false false false now_stats_zero 0 false false false false false [] [] ob e k d x 0.

(** The registered callbacks. *)
Definition hear (h : heartbeat) : st world () := modify (fun w => w <| heard := heard w ++ [h] |>).
Definition hand_over (d : list Z) : st world () := modify (fun w => if frame_callback w then w <| delivered := delivered w ++ [d] |> else w).

(** *** ESP-NOW ([cluster_transport_now.c]) *)

Definition ESP_NOW_BROADCAST : list Z := replicate 6 255.
Definition on_stats (f : now_stats -> now_stats) w : world := w <| the_now_stats := f (the_now_stats w) |>.

Definition cluster_transport_now_init (id : Z) : st world bool :=
  ready ← gets now_initialized;
  if ready : bool then mret true
  else
    modify (fun w => w <| now_node_id := id |> <| the_now_stats := now_stats_zero |>);;
    started ← on_net esp_now_init;
    if negb started then mret false
    else
      hooked ← on_net esp_now_register_recv_cb;
      if negb hooked then on_net esp_now_deinit;; mret false
      else
        added ← on_net (esp_now_add_peer ESP_NOW_BROADCAST);
        if negb added then on_net esp_now_deinit;; mret false
        else modify (fun w => w <| now_initialized := true |>);; mret true.

Definition cluster_transport_now_deinit : st world () :=
  ready ← gets now_initialized;
  if negb ready then mret tt
  else
    on_net (esp_now_del_peer ESP_NOW_BROADCAST);;
    on_net esp_now_deinit;;
    modify (fun w => w <| now_initialized := false |>).

Definition cluster_transport_now_send (data : list Z) : st world bool :=
  ready ← gets now_initialized;
  if negb ready || bool_decide (data = []) then mret false
  else
    sent ← on_net (esp_now_send data);
    if negb sent then modify (on_stats (fun s => s <| tx_errors := u32 (tx_errors s + 1) |>));; mret false
    else
      modify (fun w => on_stats (fun s => s <| tx_packets := u32 (tx_packets s + 1) |> <| last_tx_ms := uptime_ms w |>) w);;
      mret true.

(** A heartbeat from another node, as [source] hears it. *)
Definition remote_heartbeat (source : Z) (m : wire_heartbeat) : heartbeat :=
  Heartbeat (wh_node_id m) (u32 (wh_uptime_seconds m * 1000)) 0 source (wh_node_type m) (wh_state m) (wh_uptime_seconds m).
Definition is_heartbeat (d : list Z) : bool := Nat.leb sizeof_heartbeat (length d) && (magic_of_message d =? ENDAP_CLUSTER_MAGIC).

(** *** ESP-MESH ([cluster_transport_mesh.c]) *)

Definition cluster_transport_mesh_init (id : Z) : st world bool :=
  ready ← gets mesh_initialized;
  if ready : bool then mret true
  else
    modify (fun w => w <| mesh_node_id := id |>);;
    sem ← gets mesh_rx_stop_sem;
    (if sem : bool then mret tt
     else made ← on_net net_semaphore; modify (fun w => w <| mesh_rx_stop_sem := made |>));;
    made ← on_net net_task;
    if negb made then mret false
    else modify (fun w => w <| mesh_rx_task := true |> <| mesh_initialized := true |>);; mret true.

(** The task is told to stop with a heartbeat of the node's own. *)
Definition cluster_transport_mesh_deinit : st world () :=
  ready ← gets mesh_initialized;
  if negb ready then mret tt
  else
    task ← gets mesh_rx_task;
    (if task : bool then
       id ← gets mesh_node_id;
       on_net (esp_mesh_send sta_mac (heartbeat_bytes (WireHeartbeat id 0 0 0 0)));;
       sem ← gets mesh_rx_stop_sem;
       (if sem : bool then on_net mesh_task_stopped;; modify (fun w => w <| mesh_rx_task := false |>) else mret tt)
     else mret tt);;
    modify (fun w => w <| mesh_initialized := false |>).

Definition cluster_transport_mesh_send (data : list Z) : st world bool :=
  ready ← gets mesh_initialized;
  if negb ready || bool_decide (data = []) then mret false
  else on_net (esp_mesh_send ESP_NOW_BROADCAST data).

(** *** RS485 *)

Definition cluster_transport_next_rs485_msg_id : st world Z :=
  current ← gets rs485_msg_id_counter;
  modify (fun w => let next := u16 (current + 1) in w <| rs485_msg_id_counter := if next =? 0 then 1 else next |>);;
  mret current.
Definition cluster_transport_rs485_available : st world bool :=
  m ← on_rs485_engine rs485_engine_get_metrics; mret (em_enabled m).
Definition network_of : st world network_profile := on_policy (device_profile_network b).
Definition cluster_transport_rs485_rx_enabled : st world bool :=
  n ← network_of;
  if cluster_transport_profile_allows n CLUSTER_TRANSPORT_RS485 then cluster_transport_rs485_available else mret false.

(** *** UDP *)

Definition cluster_transport_make_udp_socket (port : Z) : st world Z :=
  s ← on_net net_socket;
  if s <? 0 then mret (-1)
  else
    bound ← on_net (net_bind s port);
    if negb bound then on_net (net_close s);; mret (-1) else mret s.
Definition cluster_transport_close_all : st world () :=
  d ← gets discovery_sock;
  (if 0 <=? d then on_net (net_close d);; modify (fun w => w <| discovery_sock := -1 |>) else mret tt);;
  f ← gets frame_sock;
  (if 0 <=? f then on_net (net_close f);; modify (fun w => w <| frame_sock := -1 |>) else mret tt);;
  modify (fun w => w <| udp_runtime_started := false |>).
Definition set_broadcast (addr : Z) w : world := w <| discovery_broadcast_addr := addr |> <| frame_broadcast_addr := addr |>.

Definition cluster_transport_start_udp_runtime : st world bool :=
  running ← gets (fun w => udp_runtime_started w && (0 <=? discovery_sock w) && (0 <=? frame_sock w));
  if running : bool then mret true
  else
    d ← cluster_transport_make_udp_socket CLUSTER_TRANSPORT_DISCOVERY_PORT;
    modify (fun w => w <| discovery_sock := d |>);;
    if d <? 0 then mret false
    else
      f ← cluster_transport_make_udp_socket CLUSTER_TRANSPORT_FRAME_PORT;
      modify (fun w => w <| frame_sock := f |>);;
      if f <? 0 then cluster_transport_close_all;; mret false
      else
        modify (set_broadcast INADDR_BROADCAST);;
        rx ← on_net net_task;
        fr ← on_net net_task;
        if negb rx || negb fr then cluster_transport_close_all;; mret false
        else modify (fun w => w <| udp_runtime_started := true |>);; mret true.

(** *** The route *)

(** The type to use next, and its broadcast address. *)
Definition next_route (s : option link_snapshot) (fallback : Z) : st world (Z * Z) :=
  n ← network_of;
  available ← cluster_transport_rs485_available;
  let preferred := cluster_transport_select_best n available s in
  if negb (preferred =? CLUSTER_TRANSPORT_NONE) then
    if cluster_transport_type_uses_udp preferred then
      started ← cluster_transport_start_udp_runtime;
      if started : bool then
        mret (preferred, match s with
                         | Some s => cluster_transport_compute_broadcast_addr (active_ip_addr s) (active_netmask_addr s)
                         | None => INADDR_BROADCAST
                         end)
      else if cluster_transport_profile_allows n CLUSTER_TRANSPORT_RS485 && available then mret (CLUSTER_TRANSPORT_RS485, INADDR_BROADCAST)
      else mret (CLUSTER_TRANSPORT_NONE, INADDR_BROADCAST)
    else mret (preferred, INADDR_BROADCAST)
  else if cluster_transport_profile_allows n fallback then
    if negb (cluster_transport_type_uses_udp fallback) then mret (fallback, INADDR_BROADCAST)
    else
      started ← cluster_transport_start_udp_runtime;
      mret (if started : bool then fallback else CLUSTER_TRANSPORT_NONE, INADDR_BROADCAST)
  else mret (CLUSTER_TRANSPORT_NONE, INADDR_BROADCAST).

Definition cluster_transport_apply_network_snapshot (s : option link_snapshot) (fallback : Z) : st world () :=
  r ← next_route s fallback;
  previous ← gets active_type;
  previous_addr ← gets discovery_broadcast_addr;
  modify (fun w => set_broadcast r.2 w <| active_type := r.1 |>);;
  if (previous =? r.1) && (previous_addr =? r.2) then mret tt
  else
    id ← gets self_node_id;
    (if r.1 =? CLUSTER_TRANSPORT_WIFI_NOW then cluster_transport_now_init id;; mret tt
     else if previous =? CLUSTER_TRANSPORT_WIFI_NOW then cluster_transport_now_deinit else mret tt);;
    (if r.1 =? CLUSTER_TRANSPORT_WIFI_MESH then cluster_transport_mesh_init id;; mret tt
     else if previous =? CLUSTER_TRANSPORT_WIFI_MESH then cluster_transport_mesh_deinit else mret tt).

Definition cluster_transport_active_type w : Z := active_type w.
Definition cluster_transport_active_name w : string := cluster_transport_name (cluster_transport_active_type w).
Definition cluster_transport_set_active_type (type : Z) : st world () := modify (fun w => w <| active_type := type |>).

Definition cluster_transport_is_ready : st world bool :=
  type ← gets active_type;
  base ← gets (fun w => transport_started w && negb (active_type w =? CLUSTER_TRANSPORT_NONE));
  if negb base then mret false
  else if type =? CLUSTER_TRANSPORT_RS485 then cluster_transport_rs485_available
  else gets (fun w => (0 <=? discovery_sock w) && (0 <=? frame_sock w)).

(** *** Sending *)

(** A frame for the RS485 engine; its payload is an array of 64 bytes. *)
Definition rs485_send (type : Z) (data : list Z) : st world bool :=
  id ← gets self_node_id;
  msg ← cluster_transport_next_rs485_msg_id;
  if RS485_FRAME_MAX_PAYLOAD <? Z.of_nat (length data) then mret false
  else
    on_rs485_engine (rs485_engine_send (Frame (u8 id) msg type (u8 (Z.of_nat (length data))) (data ++ replicate (64 - length data) 0)));;
    mret true.
Definition udp_send (sock addr port : Z) (data : list Z) : st world bool :=
  n ← on_net (net_sendto sock data addr port); mret (n =? Z.of_nat (length data)).

Definition cluster_transport_send_heartbeat : st world bool :=
  id ← gets self_node_id;
  boots ← on_diag (system_diag_get_boot_count reason);
  up ← gets uptime_seconds;
  let data := heartbeat_bytes (WireHeartbeat id boots up 1 1) in
  ready ← cluster_transport_is_ready;
  if negb ready then mret false
  else
    type ← gets active_type;
    if type =? CLUSTER_TRANSPORT_RS485 then rs485_send RS485_FRAME_TYPE_CLUSTER_HEARTBEAT data
    else if type =? CLUSTER_TRANSPORT_WIFI_NOW then cluster_transport_now_send data
    else if type =? CLUSTER_TRANSPORT_WIFI_MESH then cluster_transport_mesh_send data
    else
      route ← gets (fun w => (discovery_sock w, discovery_broadcast_addr w));
      udp_send route.1 route.2 CLUSTER_TRANSPORT_DISCOVERY_PORT data.

(** The data pointer is not null. *)
Definition cluster_transport_broadcast_frame (data : list Z) : st world bool :=
  ready ← cluster_transport_is_ready;
  if negb ready || bool_decide (data = []) then mret false
  else
    type ← gets active_type;
    if type =? CLUSTER_TRANSPORT_RS485 then rs485_send RS485_FRAME_TYPE_CLUSTER_FRAME data
    else if type =? CLUSTER_TRANSPORT_WIFI_NOW then cluster_transport_now_send data
    else if type =? CLUSTER_TRANSPORT_WIFI_MESH then cluster_transport_mesh_send data
    else
      route ← gets (fun w => (frame_sock w, frame_broadcast_addr w));
      udp_send route.1 route.2 CLUSTER_TRANSPORT_FRAME_PORT data.

(** *** Receiving *)

(** The claim of a node by the gateway, and its answer. *)
Definition cluster_transport_handle_claim_frame (data : list Z) : st world () :=
  if Nat.ltb (length data) sizeof_claim_msg || negb (magic_of_message data =? ENDAP_REMOTE_CLAIM_MAGIC) then mret tt
  else
    let msg := claim_of data in
    id ← gets self_node_id;
    if cm_msg_type msg =? ENDAP_REMOTE_CLAIM_REQ then
      if cm_target_node_id msg =? id then
        now ← gets uptime_seconds;
        err ← on_onboarding (endap_onboarding_claim b nvs_err (cm_profile msg) (cm_gateway_id msg) now (Some (cm_node_name msg)));
        cluster_transport_broadcast_frame
          (claim_bytes (ClaimMsg ENDAP_REMOTE_CLAIM_RESP (cm_profile msg) (u16 err) id (cm_gateway_id msg)
                          (snprintf_into (replicate 32 0) (cstr (cm_node_name msg)))));;
        mret tt
      else mret tt
    else if cm_msg_type msg =? ENDAP_REMOTE_CLAIM_RESP then
      modify (fun w =>
        match remote_claim_sem w with
        | Some _ => if (cm_gateway_id msg =? id) && (cm_target_node_id msg =? pending_claim_target_node_id w)
                    then w <| remote_claim_response := msg |> <| remote_claim_sem := Some true |> else w
        | None => w
        end)
    else mret tt.

(** The change of a node's transport by its gateway, and its acknowledgement. *)
Definition cluster_transport_handle_transport_frame (data : list Z) : st world () :=
  if Nat.ltb (length data) sizeof_transport_msg || negb (magic_of_message data =? ENDAP_REMOTE_TRANSPORT_MAGIC) then mret tt
  else
    let msg := transport_of data in
    id ← gets self_node_id;
    if tm_msg_type msg =? ENDAP_REMOTE_TRANSPORT_SET then
      if tm_target_node_id msg =? id then
        s ← on_onboarding (endap_onboarding_get_state b nvs_err);
        if negb (s =? ENDAP_ONBOARDING_STATE_ACTIVE) then mret tt
        else
          cfg ← on_onboarding (endap_onboarding_get_config b nvs_err);
          if negb (adopted_by_gateway_id cfg =? tm_gateway_id msg) then mret tt
          else
            let flag i := Z.testbit (tm_flags msg) i in
            r1 ← on_policy (device_profile_set_network_enabled b (flag 0) (flag 1) (flag 2) (tm_wifi_mode msg));
            r2 ← on_policy (device_profile_set_transport_policy b false (tm_primary msg) (tm_fallback msg) 5000 15000);
            let status := if (r1 =? DEVICE_PROFILE_NETWORK_CONFIG_OK) && (r2 =? DEVICE_PROFILE_NETWORK_CONFIG_OK) then 0 else 1 in
            type ← gets active_type;
            cluster_transport_broadcast_frame
              (transport_bytes (TransportMsg ENDAP_REMOTE_TRANSPORT_ACK (profile_from_cluster_transport type) 0 0 0 status id (tm_gateway_id msg)));;
            (if status =? 0 then
               snap ← gets (fun w => network_ready_get_snapshot (the_links w));
               type ← gets active_type;
               cluster_transport_apply_network_snapshot (Some snap) type
             else mret tt)
      else mret tt
    else if tm_msg_type msg =? ENDAP_REMOTE_TRANSPORT_ACK then
      modify (fun w =>
        match remote_transport_sem w with
        | Some _ => if tm_gateway_id msg =? id then w <| remote_transport_response := msg |> <| remote_transport_sem := Some true |> else w
        | None => w
        end)
    else mret tt.

Definition cluster_transport_internal_frame_callback (data : list Z) : st world () :=
  cluster_transport_handle_claim_frame data;;
  cluster_transport_handle_transport_frame data;;
  hand_over data.

(** One frame of the RS485 engine. *)
Definition cluster_transport_on_rs485_frame (f : rs485_frame) : st world () :=
  enabled ← cluster_transport_rs485_rx_enabled;
  if negb enabled then mret tt
  else if ftype f =? RS485_FRAME_TYPE_CLUSTER_HEARTBEAT then
    listens ← gets heartbeat_callback;
    id ← gets self_node_id;
    let data := take sizeof_heartbeat (payload f) in
    if negb listens || (flen f <? Z.of_nat sizeof_heartbeat) then mret tt
    else if negb (magic_of_message data =? ENDAP_CLUSTER_MAGIC) || (wh_node_id (heartbeat_of data) =? id) then mret tt
    else hear (remote_heartbeat CLUSTER_TRANSPORT_RS485 (heartbeat_of data))
  else if ftype f =? RS485_FRAME_TYPE_CLUSTER_FRAME then
    cluster_transport_internal_frame_callback (take (Z.to_nat (flen f)) (payload f))
  else mret tt.

(** One datagram at the discovery socket, from the address [source]; the buffer
    takes the size of a heartbeat. *)
Definition discovery_received (data : list Z) (source : Z) : st world () :=
  let raw := take sizeof_heartbeat data in
  if Nat.ltb (length raw) sizeof_heartbeat then mret tt
  else
    listens ← gets heartbeat_callback;
    id ← gets self_node_id;
    let m := heartbeat_of raw in
    if negb listens || negb (magic_of_message raw =? ENDAP_CLUSTER_MAGIC) || (wh_node_id m =? id) then mret tt
    else
      now ← gets uptime_ms;
      type ← gets active_type;
      hear (Heartbeat (wh_node_id m) now source (u8 type) (wh_node_type m) (wh_state m) (wh_uptime_seconds m)).
(** One datagram at the frame socket; the buffer has 256 bytes. *)
Definition frame_received (data : list Z) : st world () :=
  match take 256 data with
  | [] => mret tt
  | d => cluster_transport_internal_frame_callback d
  end.
(** One ESP-NOW packet, from the address [src] when it is known. *)
Definition cluster_now_recv_cb (src : option (list Z)) (data : list Z) : st world () :=
  if bool_decide (data = []) then mret tt
  else
    modify (fun w => on_stats (fun s => s <| rx_packets := u32 (rx_packets s + 1) |> <| last_rx_ms := uptime_ms w |>) w);;
    (match src with
     | None => mret tt
     | Some a =>
       known ← gets (fun w => esp_now_is_peer_exist a (net w));
       if known : bool then mret tt
       else
         added ← on_net (esp_now_add_peer a);
         if added : bool then modify (on_stats (fun s => s <| peers_count := u32 (peers_count s + 1) |>)) else mret tt
     end);;
    if is_heartbeat data then
      let m := heartbeat_of data in
      listens ← gets now_heartbeat_cb;
      id ← gets now_node_id;
      if listens && negb (wh_node_id m =? id) then hear (remote_heartbeat CLUSTER_TRANSPORT_WIFI_NOW m) else mret tt
    else
      wants ← gets now_frame_cb;
      if wants : bool then cluster_transport_internal_frame_callback data else mret tt.
(** One packet of [cluster_mesh_rx_task]. *)
Definition mesh_received (data : list Z) : st world () :=
  if bool_decide (data = []) then mret tt
  else if is_heartbeat data then
    let m := heartbeat_of data in
    listens ← gets mesh_heartbeat_cb;
    id ← gets mesh_node_id;
    if listens && negb (wh_node_id m =? id) then hear (remote_heartbeat CLUSTER_TRANSPORT_WIFI_MESH m) else mret tt
  else
    wants ← gets mesh_frame_cb;
    if wants : bool then cluster_transport_internal_frame_callback data else mret tt.

(** *** Registration and start *)

Definition register_radio_callbacks w : world :=
  w <| now_heartbeat_cb := heartbeat_callback w |> <| now_frame_cb := true |> <| mesh_heartbeat_cb := heartbeat_callback w |> <| mesh_frame_cb := true |>.
Definition cluster_transport_register_heartbeat_callback (cb : bool) : st world () :=
  modify (fun w => register_radio_callbacks (w <| heartbeat_callback := cb |>)).
Definition cluster_transport_register_frame_callback (cb : bool) : st world () :=
  modify (fun w => register_radio_callbacks (w <| frame_callback := cb |>)).

Definition cluster_transport_on_network_ready (s : link_snapshot) : st world () :=
  started ← gets transport_started;
  if negb started then mret tt
  else
    available ← cluster_transport_rs485_available;
    type ← gets active_type;
    cluster_transport_apply_network_snapshot (Some s) (if available : bool then CLUSTER_TRANSPORT_RS485 else type).
(** The transport's entry in the table of [NetworkReady]. *)
Definition transport_listener : callback := (1, 0).
(** A change of the links, with the callback it calls. *)
Definition link_change (m : st links bool) : st world bool :=
  before ← gets (fun w => length (told (the_links w)));
  r ← on_links m;
  calls ← gets (fun w => drop before (told (the_links w)));
  for_each (fun c => if bool_decide (c.1 = transport_listener) then cluster_transport_on_network_ready c.2 else mret tt) calls;;
  mret r.

Definition cluster_transport_start (id type : Z) : st world bool :=
  has_mutex ← gets remote_claim_mutex;
  mutex ← (if has_mutex : bool then mret true else on_net net_semaphore);
  modify (fun w => w <| remote_claim_mutex := mutex |>);;
  if negb mutex then mret false
  else
    has_sem ← gets remote_claim_sem;
    sem ← (match has_sem with Some g => mret (Some g) | None => made ← on_net net_semaphore; mret (if made : bool then Some false else None) end);
    modify (fun w => w <| remote_claim_sem := sem |>);;
    match sem with
    | None => mret false
    | Some _ =>
      started ← gets transport_started;
      modify (fun w => w <| self_node_id := id |>);;
      on_rs485_engine (rs485_engine_register_external_frame_callback true);;
      (if started : bool then mret tt
       else
         modify (set_broadcast INADDR_BROADCAST);;
         hooked ← gets network_callback_registered;
         (if hooked : bool then mret tt
          else ok ← on_links (network_ready_register_callback (Some transport_listener)); modify (fun w => w <| network_callback_registered := ok |>));;
         modify (fun w => w <| transport_started := true |>));;
      snap ← gets (fun w => network_ready_get_snapshot (the_links w));
      cluster_transport_apply_network_snapshot (Some snap) type;;
      mret true
    end.

(** *** Requests to a node *)

(** Up to the wait ([None]), or to an answer without one.  The mutex is free. *)
Definition remote_claim_begin (target profile gateway : Z) (name : option (list Z)) : st world (option bool) :=
  usable ← gets (fun w => remote_claim_mutex w && match remote_claim_sem w with Some _ => true | None => false end);
  if negb usable then mret (Some false)
  else
    modify (fun w => w <| remote_claim_sem := Some false |> <| remote_claim_response := claim_zero |> <| pending_claim_target_node_id := target |>);;
    let node_name := match name with Some s => snprintf_into (replicate 32 0) s | None => replicate 32 0 end in
    sent ← cluster_transport_broadcast_frame (claim_bytes (ClaimMsg ENDAP_REMOTE_CLAIM_REQ profile 0 target gateway node_name));
    if negb sent then modify (fun w => w <| pending_claim_target_node_id := 0 |>);; mret (Some false)
    else mret None.
(** The wait is over: the semaphore was given, or the time has passed. *)
Definition remote_claim_end : st world bool :=
  given ← gets (fun w => bool_decide (remote_claim_sem w = Some true));
  status ← gets (fun w => cm_status_code (remote_claim_response w));
  modify (fun w => if given : bool then w <| remote_claim_sem := Some false |> else w);;
  modify (fun w => w <| pending_claim_target_node_id := 0 |>);;
  mret (given && (status =? 0)).

Definition remote_transport_begin (target primary fallback mode flags gateway : Z) : st world (option bool) :=
  has_sem ← gets remote_transport_sem;
  sem ← (match has_sem with Some g => mret (Some g) | None => made ← on_net net_semaphore; mret (if made : bool then Some false else None) end);
  modify (fun w => w <| remote_transport_sem := sem |>);;
  match sem with
  | None => mret (Some false)
  | Some _ =>
    modify (fun w => w <| remote_transport_sem := Some false |> <| remote_transport_response := transport_msg_zero |>);;
    sent ← cluster_transport_broadcast_frame (transport_bytes (TransportMsg ENDAP_REMOTE_TRANSPORT_SET primary fallback mode flags 0 target gateway));
    mret (if negb sent then Some false else None)
  end.
Definition remote_transport_end : st world bool :=
  given ← gets (fun w => bool_decide (remote_transport_sem w = Some true));
  status ← gets (fun w => tm_status_code (remote_transport_response w));
  modify (fun w => if given : bool then w <| remote_transport_sem := Some false |> else w);;
  mret (given && (status =? 0)).
End transport.

(** ** Messages survive the wire *)

Definition wire_heartbeat_typed (m : wire_heartbeat) : Prop :=
  is_u32 (wh_node_id m) /\ is_u32 (wh_boot_counter m) /\ is_u32 (wh_uptime_seconds m) /\ is_u8 (wh_node_type m) /\ is_u8 (wh_state m).
Record claim_typed (m : claim_msg) : Prop := {
  typed_cm_type : is_u8 (cm_msg_type m);
  typed_cm_profile : is_u8 (cm_profile m);
  typed_cm_status : is_u16 (cm_status_code m);
  typed_cm_target : is_u32 (cm_target_node_id m);
  typed_cm_gateway : is_u32 (cm_gateway_id m);
  typed_cm_name : length (cm_node_name m) = 32%nat;
}.
Record transport_typed (m : transport_msg) : Prop := {
  typed_tm_bytes : is_u8 (tm_msg_type m) /\ is_u8 (tm_primary m) /\ is_u8 (tm_fallback m) /\ is_u8 (tm_wifi_mode m) /\ is_u8 (tm_flags m);
  typed_tm_status : is_u16 (tm_status_code m);
  typed_tm_target : is_u32 (tm_target_node_id m);
  typed_tm_gateway : is_u32 (tm_gateway_id m);
}.

Lemma length_heartbeat_bytes m : length (heartbeat_bytes m) = sizeof_heartbeat.
Proof. apply length_pack. Qed.
Lemma heartbeat_magic m : magic_of_message (heartbeat_bytes m) = ENDAP_CLUSTER_MAGIC.
Proof. unfold heartbeat_bytes, magic_of_message. by packed 0%nat. Qed.
Lemma heartbeat_roundtrip m : wire_heartbeat_typed m -> heartbeat_of (heartbeat_bytes m) = m.
Proof.
  intros (? & ? & ? & ? & ?). unfold heartbeat_of, heartbeat_bytes. destruct m as [i c u t s].
  cbn [wh_node_id wh_boot_counter wh_uptime_seconds wh_node_type wh_state] in *. f_equal.
  - by packed 1%nat.
  - by packed 2%nat.
  - by packed 3%nat.
  - by packed 4%nat.
  - by packed 5%nat.
Qed.
Lemma length_claim_bytes m : length (cm_node_name m) = 32%nat -> length (claim_bytes m) = sizeof_claim_msg.
Proof. intros Hl. unfold claim_bytes. by rewrite length_app, length_pack, Hl. Qed.
Lemma claim_magic m : magic_of_message (claim_bytes m) = ENDAP_REMOTE_CLAIM_MAGIC.
Proof. unfold claim_bytes, magic_of_message. by packed 0%nat. Qed.
Lemma claim_roundtrip m : claim_typed m -> claim_of (claim_bytes m) = m.
Proof.
  intros [? ? ? ? ? Hn]. unfold claim_of, claim_bytes. rewrite (drop_app_length' (pack (claim_members m))) by (by rewrite length_pack).
  rewrite take_ge by (by rewrite Hn). destruct m as [t p s ta g nm].
  cbn [cm_msg_type cm_profile cm_status_code cm_target_node_id cm_gateway_id cm_node_name] in *. f_equal.
  - by packed 1%nat.
  - by packed 2%nat.
  - by packed 3%nat.
  - by packed 4%nat.
  - by packed 5%nat.
Qed.
Lemma length_transport_bytes m : length (transport_bytes m) = sizeof_transport_msg.
Proof. apply length_pack. Qed.
Lemma transport_magic m : magic_of_message (transport_bytes m) = ENDAP_REMOTE_TRANSPORT_MAGIC.
Proof. unfold transport_bytes, magic_of_message. by packed 0%nat. Qed.
Lemma transport_roundtrip m : transport_typed m -> transport_of (transport_bytes m) = m.
Proof.
  intros [(? & ? & ? & ? & ?) ? ? ?]. unfold transport_of, transport_bytes. destruct m as [t p f wm fl s ta g].
  cbn [tm_msg_type tm_primary tm_fallback tm_wifi_mode tm_flags tm_status_code tm_target_node_id tm_gateway_id] in *. f_equal.
  - by packed 1%nat.
  - by packed 2%nat.
  - by packed 3%nat.
  - by packed 4%nat.
  - by packed 5%nat.
  - by packed 6%nat.
  - by packed 7%nat.
  - by packed 8%nat.
Qed.

(** ** The answer to a claim *)

Section claims.
Context {O N P D L : Type} `{Nvs O} `{NvsProfile N} `{SerialPort P} `{NvsU32 D} `{Net L}.
Variables (b : build_config) (nvs_err : Z) (reason : esp_reset_reason) (sta_mac : list Z).
Abbreviation world := (transport O N P D L).
Implicit Types w : world.
Abbreviation receive := (cluster_transport_internal_frame_callback b nvs_err sta_mac).
Abbreviation broadcast := (cluster_transport_broadcast_frame).

(** What the gateway's wait for an answer looks at. *)
Definition claim_view w : Z * option bool * Z * claim_msg :=
  (self_node_id w, remote_claim_sem w, pending_claim_target_node_id w, remote_claim_response w).
Abbreviation same v := (fun w => claim_view w = v).

Lemma view_net {A} v (m : st L A) : keeps (same v) (on_net m : st world A).
Proof. by apply keeps_on_part. Qed.
Lemma view_engine {A} v (m : st (engine P) A) : keeps (same v) (on_rs485_engine m : st world A).
Proof. by apply keeps_on_part. Qed.
Lemma view_onboarding {A} v (m : st (onboarding O N) A) : keeps (same v) (on_onboarding m : st world A).
Proof. by apply keeps_on_part. Qed.
Lemma view_policy {A} v (m : st (net_policy N) A) : keeps (same v) (on_policy m : st world A).
Proof. apply view_onboarding. Qed.
Hint Resolve view_net view_engine view_onboarding view_policy : keeps.

Lemma view_now_init v id : keeps (same v) (cluster_transport_now_init id : st world bool).
Proof. unfold cluster_transport_now_init. keeps; done. Qed.
Lemma view_now_deinit v : keeps (same v) (cluster_transport_now_deinit : st world ()).
Proof. unfold cluster_transport_now_deinit. keeps; done. Qed.
Lemma view_now_send v data : keeps (same v) (cluster_transport_now_send data : st world bool).
Proof. unfold cluster_transport_now_send. keeps; done. Qed.
Lemma view_mesh_init v id : keeps (same v) (cluster_transport_mesh_init id : st world bool).
Proof. unfold cluster_transport_mesh_init. keeps; done. Qed.
Lemma view_mesh_deinit v : keeps (same v) (cluster_transport_mesh_deinit sta_mac : st world ()).
Proof. unfold cluster_transport_mesh_deinit. keeps; done. Qed.
Lemma view_mesh_send v data : keeps (same v) (cluster_transport_mesh_send data : st world bool).
Proof. unfold cluster_transport_mesh_send. keeps; done. Qed.
Hint Resolve view_now_init view_now_deinit view_now_send view_mesh_init view_mesh_deinit view_mesh_send : keeps.

Lemma view_available v : keeps (same v) (cluster_transport_rs485_available : st world bool).
Proof. unfold cluster_transport_rs485_available. keeps. Qed.
Lemma view_ready v : keeps (same v) (cluster_transport_is_ready : st world bool).
Proof. unfold cluster_transport_is_ready, cluster_transport_rs485_available. keeps. Qed.
Lemma view_socket v port : keeps (same v) (cluster_transport_make_udp_socket port : st world Z).
Proof. unfold cluster_transport_make_udp_socket. keeps. Qed.
Lemma view_close v : keeps (same v) (cluster_transport_close_all : st world ()).
Proof. unfold cluster_transport_close_all. keeps; done. Qed.
Hint Resolve view_available view_ready view_socket view_close : keeps.
Lemma view_udp v : keeps (same v) (cluster_transport_start_udp_runtime : st world bool).
Proof. unfold cluster_transport_start_udp_runtime. keeps; done. Qed.
Hint Resolve view_udp : keeps.
Lemma view_apply v s fallback : keeps (same v) (cluster_transport_apply_network_snapshot b sta_mac s fallback : st world ()).
Proof. unfold cluster_transport_apply_network_snapshot, next_route, network_of. keeps; done. Qed.
Lemma view_broadcast v data : keeps (same v) (broadcast data : st world bool).
Proof. unfold cluster_transport_broadcast_frame, rs485_send, cluster_transport_next_rs485_msg_id, udp_send. keeps; done. Qed.
Lemma view_deliver v data : keeps (same v) (hand_over data : st world ()).
Proof. unfold hand_over. keeps. by destruct (frame_callback _). Qed.
Hint Resolve view_apply view_broadcast view_deliver : keeps.
Lemma view_transport v data : keeps (same v) (cluster_transport_handle_transport_frame b nvs_err sta_mac data : st world ()).
Proof.
  unfold cluster_transport_handle_transport_frame. keeps. destruct (remote_transport_sem _); [|done]. by destruct (_ =? _).
Qed.
Hint Resolve view_transport : keeps.

(** Is [data] an answer to the claim of [target] by [gateway]? *)
Definition is_answer (gateway target : Z) (data : list Z) : bool :=
  Nat.leb sizeof_claim_msg (length data) && (magic_of_message data =? ENDAP_REMOTE_CLAIM_MAGIC)
  && (cm_msg_type (claim_of data) =? ENDAP_REMOTE_CLAIM_RESP) && (cm_gateway_id (claim_of data) =? gateway)
  && (cm_target_node_id (claim_of data) =? target).
(** The frames a node receives while it waits. *)
Fixpoint receive_all (fs : list (list Z)) w : world := match fs with [] => w | d :: fs => receive_all fs (receive d w).2 end.

Lemma receive_view data id g target r w : claim_view w = (id, Some g, target, r) ->
  claim_view (receive data w).2 = if is_answer id target data then (id, Some true, target, claim_of data) else (id, Some g, target, r).
Proof.
  intros Hw. unfold cluster_transport_internal_frame_callback. rewrite run_bind_surj.
  enough (claim_view (cluster_transport_handle_claim_frame b nvs_err data w).2 =
    if is_answer id target data then (id, Some true, target, claim_of data) else (id, Some g, target, r)) as He.
  { revert He. generalize (if is_answer id target data then (id, Some true, target, claim_of data) else (id, Some g, target, r)). intros v He.
    match goal with |- claim_view ?x.2 = _ => refine ((_ : keeps (same v) _) _ He) end. keeps. }
  unfold cluster_transport_handle_claim_frame, is_answer.
  destruct (Nat.ltb_spec (length data) sizeof_claim_msg) as [Hl|Hl]; [by rewrite (proj2 (Nat.leb_gt _ _)) by lia|].
  rewrite (proj2 (Nat.leb_le _ _)) by lia. cbn [orb andb]. destruct (magic_of_message data =? ENDAP_REMOTE_CLAIM_MAGIC); cbn [negb andb]; [|done].
  rewrite run_bind_gets. assert (self_node_id w = id) as -> by (unfold claim_view in Hw; congruence).
  destruct (Z.eqb_spec (cm_msg_type (claim_of data)) ENDAP_REMOTE_CLAIM_REQ) as [->|].
  - cbn [andb]. destruct (_ =? id); [|done]. match goal with |- claim_view (?m w).2 = _ => refine ((_ : keeps (same _) m) w Hw) end. keeps.
  - destruct (cm_msg_type (claim_of data) =? ENDAP_REMOTE_CLAIM_RESP); [|done]. cbn [andb]. rewrite run_modify. cbn [snd].
    assert (remote_claim_sem w = Some g) as -> by (unfold claim_view in Hw; congruence).
    assert (pending_claim_target_node_id w = target) as -> by (unfold claim_view in Hw; congruence).
    destruct (_ && _); [|done]. unfold claim_view in *. cbn [self_node_id remote_claim_sem pending_claim_target_node_id remote_claim_response update].
    by injection Hw as -> _ -> _.
Qed.
Lemma receive_all_view fs id g target r w : claim_view w = (id, Some g, target, r) -> Forall (fun d => is_answer id target d = false) fs ->
  claim_view (receive_all fs w) = (id, Some g, target, r).
Proof.
  revert w. induction fs as [|d fs IH]; intros w Hw Hf; [done|]. apply Forall_cons in Hf as [Hd Hf]. cbn [receive_all]. apply IH; [|done].
  by rewrite (receive_view d id g target r w Hw), Hd.
Qed.
Lemma receive_all_app fs gs w : receive_all (fs ++ gs) w = receive_all gs (receive_all fs w).
Proof. revert w. induction fs as [|d fs IH]; intros w; [done|]. apply IH. Qed.
Lemma end_view id g target r w : claim_view w = (id, Some g, target, r) -> (remote_claim_end w).1 = g && (cm_status_code r =? 0).
Proof.
  intros Hw. unfold claim_view in Hw. injection Hw as _ Hg _ Hr. unfold remote_claim_end. rewrite !run_bind_gets, !run_bind_modify, run_ret, Hg, Hr.
  by destruct g.
Qed.

(** What a node answers: the claim's outcome, as 16 bits. *)
Definition answer_of (req : claim_msg) (err id : Z) : claim_msg :=
  ClaimMsg ENDAP_REMOTE_CLAIM_RESP (cm_profile req) (u16 err) id (cm_gateway_id req) (snprintf_into (replicate 32 0) (cstr (cm_node_name req))).
Lemma handle_request req w : claim_typed req -> cm_msg_type req = ENDAP_REMOTE_CLAIM_REQ -> cm_target_node_id req = self_node_id w ->
  let '(err, ob) := endap_onboarding_claim b nvs_err (cm_profile req) (cm_gateway_id req) (uptime_seconds w) (Some (cm_node_name req)) (the_onboarding w) in
  cluster_transport_handle_claim_frame b nvs_err (claim_bytes req) w =
    (tt, (broadcast (claim_bytes (answer_of req err (self_node_id w))) (w <| the_onboarding := ob |>)).2).
Proof.
  intros Ht Hreq Htarget. unfold cluster_transport_handle_claim_frame. rewrite length_claim_bytes by apply Ht.
  rewrite claim_magic, claim_roundtrip by done. cbn [Nat.ltb Nat.leb sizeof_claim_msg orb]. rewrite Z.eqb_refl. cbn [negb].
  rewrite run_bind_gets, Hreq, Z.eqb_refl, Htarget, Z.eqb_refl, run_bind_gets. unfold on_onboarding at 1, on_part. rewrite run_bind_surj.
  destruct (endap_onboarding_claim _ _ _ _ _ _ _) as [err ob]. cbn [fst snd]. rewrite run_bind_surj. done.
Qed.
Lemma answer_typed req err id : claim_typed req -> is_u32 id -> claim_typed (answer_of req err id).
Proof.
  intros [] Hid. split; try done; cbn [answer_of cm_status_code cm_node_name]; [apply u16_range|]. rewrite length_snprintf; [done|]. by rewrite length_replicate; lia.
Qed.

(** C31: The adoption of a node over the network.  The gateway [g] asks and waits;
    the node [w] it names takes the claim ([endap_onboarding_claim]), and what
    it broadcasts then makes the gateway's call return whether the claim was
    made, whatever else the gateway receives before and after, other nodes'
    answers included. *)
Theorem remote_claim_end_to_end (g g1 w : world) (profile : Z) (name : option (list Z)) :
  is_u8 profile -> is_u32 (self_node_id g) -> is_u32 (self_node_id w) ->
  remote_claim_begin (self_node_id w) profile (self_node_id g) name g = (None, g1) ->
  let node_name := match name with Some s => snprintf_into (replicate 32 0) s | None => replicate 32 0 end in
  let req := ClaimMsg ENDAP_REMOTE_CLAIM_REQ profile 0 (self_node_id w) (self_node_id g) node_name in
  let '(err, ob) := endap_onboarding_claim b nvs_err profile (self_node_id g) (uptime_seconds w) (Some node_name) (the_onboarding w) in
  is_u16 err ->
  exists answer,
    cluster_transport_handle_claim_frame b nvs_err (claim_bytes req) w = (tt, (broadcast answer (w <| the_onboarding := ob |>)).2) /\
    forall before after,
      Forall (fun d => is_answer (self_node_id g) (self_node_id w) d = false) (before ++ after) ->
      (remote_claim_end (receive_all (before ++ answer :: after) g1)).1 = (err =? ESP_OK).
Proof.
  intros Hp Hg Hw Hbegin node_name req.
  assert (claim_typed req) as Ht.
  { split; try done. cbn. unfold node_name. destruct name as [s|]; [|done]. rewrite length_snprintf; [done|]. by rewrite length_replicate; lia. }
  pose proof (handle_request req w Ht eq_refl eq_refl) as Hh. cbn [req cm_profile cm_gateway_id cm_node_name] in Hh.
  destruct (endap_onboarding_claim _ _ _ _ _ _ _) as [err ob]. intros Herr. eexists. split; [exact Hh|]. clear Hh. intros before after [Hb Ha]%Forall_app.
  set (answer := answer_of req err (self_node_id w)). assert (claim_typed answer) as Hta by (by apply answer_typed).
  assert (claim_view g1 = (self_node_id g, Some false, self_node_id w, claim_zero)) as Hv.
  { revert Hbegin. unfold remote_claim_begin. rewrite run_bind_gets. destruct (_ && _); [cbn [negb]|done]. rewrite run_bind_modify.
    set (g0 := _ <| pending_claim_target_node_id := _ |>). fold node_name. fold req. rewrite run_bind_surj.
    pose proof (view_broadcast (claim_view g0) (claim_bytes req) g0 eq_refl) as Hk. revert Hk.
    destruct (broadcast (claim_bytes req) g0) as [[] g2]; cbn [fst snd negb]; [|done]. intros Hk [= <-]. by rewrite Hk. }
  rewrite receive_all_app. cbn [receive_all].
  pose proof (receive_all_view before _ _ _ _ g1 Hv Hb) as Hv1. apply (receive_view (claim_bytes answer)) in Hv1.
  assert (is_answer (self_node_id g) (self_node_id w) (claim_bytes answer) = true) as Hans.
  { unfold is_answer. rewrite length_claim_bytes by apply Hta. rewrite claim_magic, claim_roundtrip by done. cbn. by rewrite !Z.eqb_refl. }
  rewrite Hans, claim_roundtrip in Hv1 by done. apply (receive_all_view after) in Hv1; [|done].
  rewrite (end_view _ _ _ _ _ Hv1). cbn [andb answer answer_of cm_status_code]. by rewrite u16_id.
Qed.
End claims.

(** ** The route *)

Section route.
Context {O N P D L : Type} `{Nvs O} `{NvsProfile N} `{SerialPort P} `{NvsU32 D} `{Net L}.
Variables (b : build_config) (nvs_err : Z) (reason : esp_reset_reason) (sta_mac : list Z).
Abbreviation world := (transport O N P D L).
Implicit Types w : world.
Abbreviation apply_snapshot := (cluster_transport_apply_network_snapshot b sta_mac).

(** The node's network profile and whether its RS485 engine runs. *)
Definition profile_in_use w : network_profile := (device_profile_network b (profile_policy (the_onboarding w))).1.
Definition rs485_running w : bool := engine_enabled (rs485 w).

(** What is kept while the radios are switched. *)
Definition route_view w : Z * Z * Z * bool := (discovery_sock w, frame_sock w, active_type w, transport_started w).
Abbreviation same v := (fun w => route_view w = v).
Lemma route_net {A} v (m : st L A) : keeps (same v) (on_net m : st world A).
Proof. by apply keeps_on_part. Qed.
Lemma route_engine {A} v (m : st (engine P) A) : keeps (same v) (on_rs485_engine m : st world A).
Proof. by apply keeps_on_part. Qed.
Hint Resolve route_net route_engine : keeps.
Lemma route_now_init v id : keeps (same v) (cluster_transport_now_init id : st world bool).
Proof. unfold cluster_transport_now_init. keeps; done. Qed.
Lemma route_now_deinit v : keeps (same v) (cluster_transport_now_deinit : st world ()).
Proof. unfold cluster_transport_now_deinit. keeps; done. Qed.
Lemma route_mesh_init v id : keeps (same v) (cluster_transport_mesh_init id : st world bool).
Proof. unfold cluster_transport_mesh_init. keeps; done. Qed.
Lemma route_mesh_deinit v : keeps (same v) (cluster_transport_mesh_deinit sta_mac : st world ()).
Proof. unfold cluster_transport_mesh_deinit. keeps; done. Qed.
Hint Resolve route_now_init route_now_deinit route_mesh_init route_mesh_deinit : keeps.

Definition sockets_open w : Prop := 0 <= discovery_sock w /\ 0 <= frame_sock w.
Lemma start_udp_open w : (cluster_transport_start_udp_runtime w).1 = true -> sockets_open (cluster_transport_start_udp_runtime w).2.
Proof.
  unfold cluster_transport_start_udp_runtime. rewrite run_bind_gets.
  destruct (udp_runtime_started w && (0 <=? discovery_sock w) && (0 <=? frame_sock w)) eqn:Hr; [intros _; cbn; unfold sockets_open; lia|].
  rewrite run_bind_surj. destruct (cluster_transport_make_udp_socket _ w) as [d w1]. cbn [fst snd]. rewrite run_bind_modify.
  destruct (Z.ltb_spec d 0); [done|]. rewrite run_bind_surj. set (w2 := w1 <| discovery_sock := d |>).
  assert (discovery_sock (cluster_transport_make_udp_socket CLUSTER_TRANSPORT_FRAME_PORT w2).2 = d) as Hd.
  { refine ((_ : keeps (fun w => discovery_sock w = d) _) w2 eq_refl). unfold cluster_transport_make_udp_socket. keeps; by apply keeps_on_part. }
  destruct (cluster_transport_make_udp_socket _ w2) as [f w3]. cbn [fst snd] in *. rewrite run_bind_modify.
  destruct (Z.ltb_spec f 0); [by rewrite run_bind_surj|]. rewrite run_bind_modify, run_bind_surj.
  set (w4 := set_broadcast _ _). assert (discovery_sock w4 = d /\ frame_sock w4 = f) as Hw4 by done.
  unfold on_net, on_part. destruct (net_task (net w4)) as [rx x]. cbn [fst snd]. rewrite run_bind_surj. cbn [net update].
  destruct (net_task x) as [fr y]. cbn [fst snd]. destruct (negb rx || negb fr); [by rewrite run_bind_surj|]. rewrite run_bind_modify. intros _.
  unfold sockets_open. cbn [snd mret st_ret discovery_sock frame_sock update]. destruct Hw4 as [-> ->]. lia.
Qed.

Lemma select_allowed n available s : cluster_transport_profile_allows n (cluster_transport_select_best n available s) = true.
Proof.
  unfold cluster_transport_select_best. cbv zeta.
  repeat match goal with |- cluster_transport_profile_allows n (if ?c then _ else _) = true => destruct c eqn:?E end;
    try done; rewrite ?andb_true_iff in *; tauto.
Qed.
Lemma next_route_spec s fallback w : let r := next_route b s fallback w in
  cluster_transport_profile_allows (profile_in_use w) r.1.1 = true /\ (cluster_transport_type_uses_udp r.1.1 = true -> sockets_open r.2).
Proof.
  cbv zeta. unfold next_route, network_of. rewrite run_bind_surj.
  assert ((on_policy (device_profile_network b) w).1 = profile_in_use w) as ->.
  { unfold profile_in_use, on_policy, on_onboarding, on_profile, on_part. by destruct (device_profile_network b _). }
  generalize (profile_in_use w). intros n. generalize (on_policy (device_profile_network b) w).2. clear w. intros w.
  rewrite run_bind_surj. destruct (cluster_transport_rs485_available w) as [available w1]. cbn [fst snd].
  pose proof (select_allowed n available s) as Hsel. set (t := cluster_transport_select_best n available s) in *.
  destruct (t =? CLUSTER_TRANSPORT_NONE); cbn [negb].
  - destruct (cluster_transport_profile_allows n fallback) eqn:Hf; [|done]. destruct (cluster_transport_type_uses_udp fallback) eqn:Hu; cbn [negb].
    + rewrite run_bind_surj. pose proof (start_udp_open w1) as Ho. destruct (cluster_transport_start_udp_runtime w1) as [[] w2]; [|done]. split; [done|]. intros _. by apply Ho.
    + split; [done|]. cbn. by rewrite Hu.
  - destruct (cluster_transport_type_uses_udp t) eqn:Hu; [|split; [done|]; cbn; by rewrite Hu].
    rewrite run_bind_surj. pose proof (start_udp_open w1) as Ho. destruct (cluster_transport_start_udp_runtime w1) as [[] w2].
    + split; [done|]. intros _. by apply Ho.
    + destruct (cluster_transport_profile_allows n CLUSTER_TRANSPORT_RS485) eqn:Hr; [|done]. destruct available; done.
Qed.
Lemma apply_view s fallback w : let r := next_route b s fallback w in
  route_view (apply_snapshot s fallback w).2 = (discovery_sock r.2, frame_sock r.2, r.1.1, transport_started r.2).
Proof.
  cbv zeta. unfold cluster_transport_apply_network_snapshot. rewrite run_bind_surj. destruct (next_route b s fallback w) as [r w1]. cbn [fst snd].
  rewrite !run_bind_gets, run_bind_modify. match goal with |- route_view (?m ?v).2 = ?x => refine ((_ : keeps (same x) m) v eq_refl) end. keeps.
Qed.

(** Whatever the links and the policy say, the transport that is used is one
    the profile allows, and when it is UDP its two sockets are open. *)
Theorem route_allowed s fallback w :
  let w' := (apply_snapshot s fallback w).2 in
  cluster_transport_profile_allows (profile_in_use w) (cluster_transport_active_type w') = true /\
  (cluster_transport_type_uses_udp (cluster_transport_active_type w') = true -> sockets_open w').
Proof.
  cbv zeta. pose proof (next_route_spec s fallback w) as [Ha Hu]. pose proof (apply_view s fallback w) as Hv. cbv zeta in Hv.
  unfold route_view in Hv. injection Hv as Hd Hf Ht Hs. unfold cluster_transport_active_type, sockets_open. rewrite Hd, Hf, Ht. done.
Qed.

(** A node without an IP link whose profile does not prefer RS485 chooses
    ESP-NOW, which the profile always allows, and can then send nothing at all:
    [cluster_transport_is_ready] asks for the UDP sockets, which ESP-NOW does
    not open.  This holds with an RS485 line that is allowed and running, the
    last choice of [cluster_transport_select_best]. *)
Theorem isolated_without_ip s fallback w data :
  discovery_sock w = -1 -> primary_transport (profile_in_use w) <> DEVICE_PROFILE_TRANSPORT_RS485 ->
  ethernet_up s = false -> wifi_sta_up s = false -> wifi_ap_up s = false ->
  let w' := (apply_snapshot (Some s) fallback w).2 in
  cluster_transport_active_type w' = CLUSTER_TRANSPORT_WIFI_NOW /\
  (cluster_transport_broadcast_frame data w').1 = false /\ (cluster_transport_send_heartbeat reason w').1 = false.
Proof.
  intros Hd Hp He Hs Ha w'.
  assert (route_view w' = (-1, frame_sock w', CLUSTER_TRANSPORT_WIFI_NOW, transport_started w')) as Hv.
  { pose proof (apply_view (Some s) fallback w) as Hv. cbv zeta in Hv. fold w' in Hv.
    assert ((next_route b (Some s) fallback w).1.1 = CLUSTER_TRANSPORT_WIFI_NOW /\ discovery_sock (next_route b (Some s) fallback w).2 = -1) as [Ht Hd'].
    { clear Hv w'. unfold next_route, network_of. rewrite run_bind_surj.
      assert ((on_policy (device_profile_network b) w).1 = profile_in_use w) as ->.
      { unfold profile_in_use, on_policy, on_onboarding, on_profile, on_part. by destruct (device_profile_network b _). }
      assert (discovery_sock (on_policy (device_profile_network b) w).2 = -1) as Hd1 by (refine ((_ : keeps (fun w => discovery_sock w = -1) _) w Hd); by apply keeps_on_part).
      revert Hd1. generalize (on_policy (device_profile_network b) w).2. intros w1 Hd1. rewrite run_bind_surj.
      assert (discovery_sock (cluster_transport_rs485_available w1).2 = -1) as Hd2
        by (refine ((_ : keeps (fun w => discovery_sock w = -1) _) w1 Hd1); unfold cluster_transport_rs485_available; keeps; by apply keeps_on_part).
      destruct (cluster_transport_rs485_available w1) as [available w2]. cbn [fst snd] in *.
      assert (cluster_transport_select_best (profile_in_use w) available (Some s) = CLUSTER_TRANSPORT_WIFI_NOW) as ->; [|done].
      unfold cluster_transport_select_best. rewrite He, Hs, Ha. cbv zeta. rewrite (proj2 (Z.eqb_neq _ _) Hp), !andb_false_r. done. }
    rewrite Hd', Ht in Hv. unfold route_view in *. congruence. }
  assert (discovery_sock w' = -1 /\ active_type w' = CLUSTER_TRANSPORT_WIFI_NOW) as [Hd' Ht] by (unfold route_view in Hv; split; congruence).
  clear Hv. clearbody w'. split; [exact Ht|].
  assert (forall v : world, discovery_sock v = -1 -> active_type v = CLUSTER_TRANSPORT_WIFI_NOW -> exists v' : world, cluster_transport_is_ready v = (false, v')) as Hready.
  { intros v Hdv Htv. unfold cluster_transport_is_ready. rewrite !run_bind_gets, Htv. destruct (transport_started v); cbn [andb negb]; [|by eexists].
    change (CLUSTER_TRANSPORT_WIFI_NOW =? CLUSTER_TRANSPORT_NONE) with false. change (CLUSTER_TRANSPORT_WIFI_NOW =? CLUSTER_TRANSPORT_RS485) with false.
    cbn [negb]. rewrite run_gets, Hdv. by eexists. }
  split.
  - unfold cluster_transport_broadcast_frame. destruct (Hready w' Hd' Ht) as [v' Hr]. by rewrite (run_bind_eq _ _ _ _ _ Hr).
  - unfold cluster_transport_send_heartbeat. rewrite run_bind_gets, run_bind_surj. unfold on_diag, on_part.
    destruct (system_diag_get_boot_count reason (the_diag w')) as [boots d]. cbn [fst snd]. rewrite run_bind_gets. cbv zeta.
    match goal with |- context [(cluster_transport_is_ready ≫= _) ?v] => destruct (Hready v Hd' Ht) as [v' Hr] end. by rewrite (run_bind_eq _ _ _ _ _ Hr).
Qed.
End route.

(** ** Heartbeats and acknowledgements *)

Section heartbeats.
Context {O N P D L : Type} `{Nvs O} `{NvsProfile N} `{SerialPort P} `{NvsU32 D} `{Net L}.
Variables (b : build_config) (nvs_err : Z) (sta_mac : list Z).
Abbreviation world := (transport O N P D L).
Implicit Types w : world.

(** How a heartbeat arrives. *)
Inductive arrival := ByUdp (source : Z) | ByRs485 (node msg : Z) | ByNow (src : option (list Z)) | ByMesh.
Definition arrive (a : arrival) (data : list Z) : st world () :=
  match a with
  | ByUdp source => discovery_received data source
  | ByRs485 node msg =>
    cluster_transport_on_rs485_frame b nvs_err sta_mac
      (Frame node msg RS485_FRAME_TYPE_CLUSTER_HEARTBEAT (u8 (Z.of_nat (length data))) (data ++ replicate (64 - length data) 0))
  | ByNow src => cluster_now_recv_cb b nvs_err sta_mac src data
  | ByMesh => mesh_received b nvs_err sta_mac data
  end.
(** The link listens, under the identity [id]. *)
Definition listening (a : arrival) (id : Z) w : Prop :=
  match a with
  | ByUdp _ => heartbeat_callback w = true /\ self_node_id w = id
  | ByRs485 _ _ => heartbeat_callback w = true /\ self_node_id w = id /\
      cluster_transport_profile_allows (profile_in_use b w) CLUSTER_TRANSPORT_RS485 = true /\ rs485_running w = true
  | ByNow _ => now_heartbeat_cb w = true /\ now_node_id w = id
  | ByMesh => mesh_heartbeat_cb w = true /\ mesh_node_id w = id
  end.
(** The time a heartbeat is given: the receiver's over UDP, the sender's own
    elsewhere. *)
Definition arrival_time (a : arrival) (m : wire_heartbeat) w : Z :=
  match a with ByUdp _ => uptime_ms w | _ => u32 (wh_uptime_seconds m * 1000) end.
Definition arrival_source (a : arrival) w : Z * Z :=
  match a with
  | ByUdp source => (source, u8 (active_type w))
  | ByRs485 _ _ => (0, CLUSTER_TRANSPORT_RS485) | ByNow _ => (0, CLUSTER_TRANSPORT_WIFI_NOW) | ByMesh => (0, CLUSTER_TRANSPORT_WIFI_MESH)
  end.

Lemma hear_if (c : bool) h w : heard ((if c then hear h else mret tt : st world ()) w).2 = heard w ++ (if c then [h] else []).
Proof. destruct c; [done|]. by rewrite app_nil_r. Qed.
Lemma keeps_heard_part {V A} l (get : world -> V) (put : V -> world -> world) (m : st V A) :
  (forall v w, heard (put v w) = heard w) -> keeps (fun w => heard w = l) (on_part get put m).
Proof. intros Hp. apply keeps_on_part. intros w Hw. by rewrite Hp. Qed.

(** A heartbeat that a node sends is heard by the others on every link, with
    the sender's identity and uptime, and by the sender itself on none. *)
Theorem heartbeat_heard a m id w :
  wire_heartbeat_typed m -> listening a id w ->
  heard (arrive a (heartbeat_bytes m) w).2 =
    heard w ++ (if wh_node_id m =? id then []
                else [Heartbeat (wh_node_id m) (arrival_time a m w) (arrival_source a w).1 (arrival_source a w).2
                        (wh_node_type m) (wh_state m) (wh_uptime_seconds m)]).
Proof.
  intros Ht Hl. pose proof (length_heartbeat_bytes m) as Hlen. pose proof (heartbeat_magic m) as Hmagic. pose proof (heartbeat_roundtrip m Ht) as Hr.
  assert (is_heartbeat (heartbeat_bytes m) = true) as Hh by (unfold is_heartbeat; by rewrite Hlen, Hmagic).
  assert (heartbeat_bytes m <> []) as Hne by (intros He; by rewrite He in Hlen).
  destruct a as [source|node msg|src|]; cbn [arrive listening] in *.
  - unfold discovery_received. rewrite take_ge by (by rewrite Hlen). rewrite Hlen. destruct Hl as [Hl <-].
    change (sizeof_heartbeat <? sizeof_heartbeat)%nat with false. cbv iota. rewrite !run_bind_gets, Hl, Hr, Hmagic, Z.eqb_refl. cbn [negb orb].
    destruct (wh_node_id m =? self_node_id w); [by rewrite app_nil_r|]. by rewrite !run_bind_gets.
  - destruct Hl as (Hl & <- & Ha & He). unfold cluster_transport_on_rs485_frame, cluster_transport_rs485_rx_enabled, network_of.
    rewrite run_bind_assoc, run_bind_surj.
    assert ((on_policy (device_profile_network b) w).1 = profile_in_use b w) as ->.
    { unfold profile_in_use, on_policy, on_onboarding, on_profile, on_part. by destruct (device_profile_network b _). }
    rewrite Ha. unfold on_policy, on_onboarding, on_part. destruct (on_profile _ (the_onboarding w)) as [n ob]. cbn [snd].
    unfold cluster_transport_rs485_available, on_rs485_engine, on_part. rewrite run_bind_assoc, run_bind_surj.
    unfold rs485_engine_get_metrics. rewrite run_bind_modify, run_gets. cbn [fst snd]. rewrite run_bind_ret. cbn [em_enabled metrics update rs485 engine_enabled].
    unfold rs485_running in He. rewrite He. cbn [negb ftype]. rewrite Z.eqb_refl, !run_bind_gets. cbn [heartbeat_callback self_node_id update payload flen]. rewrite Hl, Hlen.
    rewrite take_app_length' by done. rewrite Hr, Hmagic. change (u8 (Z.of_nat sizeof_heartbeat) <? Z.of_nat sizeof_heartbeat) with false.
    rewrite Z.eqb_refl. cbn [negb orb]. by destruct (wh_node_id m =? self_node_id w); [rewrite app_nil_r|].
  - destruct Hl as [Hl <-]. unfold cluster_now_recv_cb. rewrite bool_decide_eq_false_2 by done. rewrite run_bind_modify, run_bind_surj.
    set (w1 := on_stats _ w). match goal with |- context [(?m w1).2] => set (k := m) end.
    assert (heard (k w1).2 = heard w /\ now_heartbeat_cb (k w1).2 = true /\ now_node_id (k w1).2 = now_node_id w) as (Hk1 & Hk2 & Hk3).
    { refine ((_ : keeps (fun v => heard v = heard w /\ now_heartbeat_cb v = true /\ now_node_id v = now_node_id w) k) w1 _); [|done].
      unfold k. keeps; try done. by apply keeps_on_part. }
    rewrite Hh, !run_bind_gets, Hk2, Hk3, Hr. cbn [andb]. rewrite hear_if, Hk1. by destruct (_ =? _).
  - destruct Hl as [Hl <-]. unfold mesh_received. rewrite bool_decide_eq_false_2 by done. rewrite Hh, !run_bind_gets, Hl, Hr. cbn [andb].
    rewrite hear_if. by destruct (_ =? _).
Qed.

(** The gateway that asks a node to change its transport takes the first
    acknowledgement addressed to it, from whatever node: a late answer of
    another node makes the call succeed. *)
Theorem transport_ack_from_any_node (g g1 : world) target primary fallback mode fl m :
  remote_transport_begin target primary fallback mode fl (self_node_id g) g = (None, g1) ->
  transport_typed m -> tm_msg_type m = ENDAP_REMOTE_TRANSPORT_ACK -> tm_gateway_id m = self_node_id g1 -> tm_status_code m = 0 ->
  (remote_transport_end (cluster_transport_handle_transport_frame b nvs_err sta_mac (transport_bytes m) g1).2).1 = true.
Proof.
  intros Hb Ht Hack Hg Hs. assert (exists v, remote_transport_sem g1 = Some v) as [v Hsem].
  { revert Hb. unfold remote_transport_begin. rewrite run_bind_gets, run_bind_surj.
    match goal with |- context [(?m g).1] => destruct (m g) as [sem g2] end. cbn [fst snd]. rewrite run_bind_modify.
    destruct sem as [v|]; [|done]. rewrite run_bind_modify, run_bind_surj. match goal with |- context [(?m ?x).1] => set (g3 := x); set (k := m) end.
    assert (remote_transport_sem (k g3).2 = Some false) as Hk.
    { refine ((_ : keeps (fun w => remote_transport_sem w = Some false) k) g3 eq_refl). unfold k, cluster_transport_broadcast_frame, cluster_transport_is_ready,
        cluster_transport_rs485_available, rs485_send, cluster_transport_next_rs485_msg_id, cluster_transport_now_send, cluster_transport_mesh_send, udp_send.
      keeps; try done; by apply keeps_on_part. }
    destruct (k g3) as [sent g4]. cbn [fst snd] in *. intros [= _ <-]. by exists false. }
  unfold cluster_transport_handle_transport_frame. rewrite length_transport_bytes, transport_magic, transport_roundtrip by done.
  change (sizeof_transport_msg <? sizeof_transport_msg)%nat with false. rewrite Z.eqb_refl. cbn [negb orb]. rewrite run_bind_gets, Hack.
  change (ENDAP_REMOTE_TRANSPORT_ACK =? ENDAP_REMOTE_TRANSPORT_SET) with false. rewrite Z.eqb_refl, run_modify, Hsem, Hg, Z.eqb_refl. cbn [snd].
  unfold remote_transport_end. rewrite !run_bind_gets, run_bind_modify, run_ret. cbn [fst remote_transport_sem remote_transport_response update]. by rewrite Hs.
Qed.
End heartbeats.

(** ** Concrete runs *)

(** Sockets numbered from [next_sock]; what is sent is recorded. *)
Record wires := Wires { next_sock : Z; sent_data : list (list Z) }.
#[export] Instance wires_net : Net wires := {
  net_socket x := (next_sock x, Wires (next_sock x + 1) (sent_data x));
  net_bind _ _ x := (true, x);
  net_close _ x := (tt, x);
  net_sendto _ data _ _ x := (Z.of_nat (length data), Wires (next_sock x) (sent_data x ++ [data]));
  net_task x := (true, x);
  net_semaphore x := (true, x);
  esp_now_init x := (true, x);
  esp_now_register_recv_cb x := (true, x);
  esp_now_add_peer _ x := (true, x);
  esp_now_is_peer_exist _ _ := false;
  esp_now_del_peer _ x := (tt, x);
  esp_now_deinit x := (tt, x);
  esp_now_send data x := (true, Wires (next_sock x) (sent_data x ++ [data]));
  esp_mesh_send _ data x := (true, Wires (next_sock x) (sent_data x ++ [data]));
  mesh_task_stopped x := (true, x);
}.
Definition demo_station : Type := transport profile_flash profile_flash script (option Z) wires.
Definition demo_line : engine script := engine_zero (Script [] []) (Clock (fun i => Z.of_nat i) 0) None <| engine_enabled := true |>.
(** A new node on the Wi-Fi network, or without one. *)
Definition demo_boot (k : links) : demo_station :=
  transport_boot (onboarding_boot (None, None) (None, None)) demo_line k (diag_boot None) (Wires 3 []).
Definition demo_up (id : Z) : demo_station :=
  (cluster_transport_start example_build [] id CLUSTER_TRANSPORT_WIFI_UDP (demo_boot (network_ready_publish_up NETWORK_READY_LINK_WIFI_STA 16820416 16777215 links_boot).2)).2.
(** ... whose profile also enables RS485. *)
Definition demo_rs485 : demo_station :=
  (on_policy (device_profile_set_network_enabled example_build true false true DEVICE_PROFILE_WIFI_MODE_INFRA) (demo_boot links_boot)).2 <| transport_started := true |>.

(** Gateway 1 adopts node 2. *)
Lemma remote_claim_end_to_end_witness :
  exists answer, forall before after,
    Forall (fun d => is_answer 1 2 d = false) (before ++ after) ->
    (remote_claim_end (receive_all example_build (-1) [] (before ++ answer :: after)
       (remote_claim_begin 2 NODE_PROFILE_FIELD 1 (Some (bytes_of "P1")) (demo_up 1)).2)).1 = true.
Proof.
  assert (self_node_id (demo_up 1) = 1 /\ self_node_id (demo_up 2) = 2) as [H1 H2] by (by vm_compute).
  assert (exists ob, endap_onboarding_claim example_build (-1) NODE_PROFILE_FIELD 1 (uptime_seconds (demo_up 2))
    (Some (snprintf_into (replicate 32 0) (bytes_of "P1"))) (the_onboarding (demo_up 2)) = (0, ob)) as [ob Hc] by (eexists; by vm_compute).
  assert (exists g1, remote_claim_begin 2 NODE_PROFILE_FIELD 1 (Some (bytes_of "P1")) (demo_up 1) = (None, g1)) as [g1 Hg] by (eexists; by vm_compute).
  rewrite Hg. cbn [snd].
  revert ob Hc Hg H1 H2. generalize (demo_up 1) (demo_up 2). intros g w ob Hc Hg H1 H2.
  pose proof (remote_claim_end_to_end example_build (-1) [] g g1 w NODE_PROFILE_FIELD (Some (bytes_of "P1"))) as Ht.
  rewrite H1, H2 in Ht. specialize (Ht ltac:(done) ltac:(done) ltac:(done) Hg). cbv zeta in Ht. rewrite Hc in Ht.
  destruct (Ht ltac:(done)) as (answer & _ & Hend). by exists answer.
Defined.
(** No Wi-Fi, and an RS485 line that is allowed and running. *)
Lemma isolated_without_ip_witness :
  let w' := (cluster_transport_apply_network_snapshot example_build [] (Some snapshot_zero) CLUSTER_TRANSPORT_RS485 demo_rs485).2 in
  cluster_transport_profile_allows (profile_in_use example_build demo_rs485) CLUSTER_TRANSPORT_RS485 = true /\ rs485_running demo_rs485 = true /\
  cluster_transport_active_type w' = CLUSTER_TRANSPORT_WIFI_NOW /\
  (cluster_transport_broadcast_frame [1] w').1 = false /\ (cluster_transport_send_heartbeat ESP_RST_POWERON w').1 = false.
Proof.
  intros w'. refine (conj _ (conj _ _)); [by vm_compute|by vm_compute|].
  apply (isolated_without_ip example_build ESP_RST_POWERON [] snapshot_zero CLUSTER_TRANSPORT_RS485 demo_rs485 [1]); by vm_compute.
Defined.
Lemma heartbeat_heard_witness :
  let w := (cluster_transport_register_heartbeat_callback true (demo_up 1)).2 in
  let m := WireHeartbeat 2 5 60 1 1 in
  heard (arrive example_build (-1) [] (ByUdp 33597632) (heartbeat_bytes m) w).2 = heard w ++ [Heartbeat 2 0 33597632 1 1 1 60].
Proof.
  intros w m. rewrite (heartbeat_heard example_build (-1) [] (ByUdp 33597632) m 1 w); [by vm_compute|done|by vm_compute].
Defined.
(** Node 9 acknowledges what node 2 was asked. *)
Lemma transport_ack_from_any_node_witness :
  let g1 := (remote_transport_begin 2 2 1 0 3 1 (demo_up 1)).2 in
  let m := TransportMsg ENDAP_REMOTE_TRANSPORT_ACK 1 0 0 0 0 9 1 in
  (remote_transport_end (cluster_transport_handle_transport_frame example_build (-1) [] (transport_bytes m) g1).2).1 = true.
Proof.
  intros g1 m. apply (transport_ack_from_any_node example_build (-1) [] (demo_up 1) g1 2 2 1 0 3 m); by vm_compute.
Defined.
