(* ===== verification/Rs485Port.v ===== *)
(** * The RS485 port ([components/hal/rs485/rs485.c])

    The half-duplex line under the engine: the direction pins of the
    transceiver, the deadlines after which the line is given back, and the ring
    that holds received bytes.  It implements [SerialPort].

    The ESP-IDF calls are the class [Uart]; the time is a clock.  The ring is
    the one of [EventBus], with 256 places. *)

From S2P Require Import Prelude EventBus Rs485Engine.

(** ** Data *)

Definition UART_NUM_MAX : Z := 3.
Definition RX_BUFFER_SIZE : Z := 256.
Definition RX_CHUNK : Z := 64.
Definition RS485_DEFAULT_TX_DONE_TIMEOUT_MS : Z := 20.
Definition RS485_DEFAULT_TX_GUARD_US : Z := 100.
Definition RS485_DEFAULT_RX_RECOVERY_US : Z := 0.
Definition RS485_AUTO_TX_GUARD_US : Z := 3000.
Definition RS485_AUTO_RX_RECOVERY_US : Z := 2000.

(** [rs485_config_t] *)
Record port_config := PortConfig {
  uart_num : Z; tx_pin : Z; rx_pin : Z; de_pin : Z; re_pin : Z; baudrate : Z;
  auto_direction : bool; tx_guard_us : Z; rx_recovery_us : Z; tx_done_timeout_ms : Z;
}.
#[export] Instance port_config_rebuild : Rebuild port_config := fun c =>
  PortConfig (uart_num c) (tx_pin c) (rx_pin c) (de_pin c) (re_pin c) (baudrate c) (auto_direction c) (tx_guard_us c) (rx_recovery_us c)
    (tx_done_timeout_ms c).
Definition port_config_zero : port_config := PortConfig 0 0 0 0 0 0 false 0 0 0.

(** [rs485_hal_metrics_t] *)
Record port_metrics := PortMetrics {
  initialized : bool; is_auto_direction : bool;
  tx_bytes : Z; rx_bytes : Z; rx_dropped_bytes : Z; tx_errors : Z; last_tx_ms : Z; last_rx_ms : Z;
  rx_poll_calls : Z; rx_chunks : Z; max_rx_chunk : Z; last_rx_chunk : Z; rx_reads_while_tx_window : Z;
}.
#[export] Instance port_metrics_rebuild : Rebuild port_metrics := fun m =>
  PortMetrics (initialized m) (is_auto_direction m) (tx_bytes m) (rx_bytes m) (rx_dropped_bytes m) (tx_errors m) (last_tx_ms m) (last_rx_ms m)
    (rx_poll_calls m) (rx_chunks m) (max_rx_chunk m) (last_rx_chunk m) (rx_reads_while_tx_window m).
Definition port_metrics_zero : port_metrics := PortMetrics false false 0 0 0 0 0 0 0 0 0 0 0.

(** [rs485_tx_state_t] *)
Record tx_state := TxState { active : bool; release_deadline_us : Z; rx_release_deadline_us : Z; pending_len : Z }.
#[export] Instance tx_state_rebuild : Rebuild tx_state := fun t =>
  TxState (active t) (release_deadline_us t) (rx_release_deadline_us t) (pending_len t).
Definition tx_state_zero : tx_state := TxState false 0 0 0.

(** ESP-IDF's UART and GPIO drivers.  [pin_level] is what a pin is driven to. *)
Class Uart (U : Type) := {
  uart_param_config : st U bool;
  uart_set_pin : st U bool;
  uart_driver_install : st U bool;
  uart_set_mode : st U bool;
  uart_driver_delete : st U ();
  uart_flush_input : st U ();
  uart_wait_tx_done : Z -> st U bool;
  uart_write_bytes : list Z -> st U Z;
  uart_get_buffered_data_len : st U (option Z);
  uart_read_bytes : Z -> st U (list Z);
  gpio_config_outputs : Z -> st U bool;
  gpio_set_level : Z -> Z -> st U ();
  pin_level : U -> Z -> Z;
}.
(** Only [gpio_set_level] changes a level; [handed] is what reads have given so
    far. *)
Class UartLaws (U : Type) `{Uart U} := {
  handed : U -> list Z;
  handed_read n (u : U) : handed (uart_read_bytes n u).2 = handed u ++ (uart_read_bytes n u).1;
  handed_level p v (u : U) : handed (gpio_set_level p v u).2 = handed u;
  handed_wait t (u : U) : handed (uart_wait_tx_done t u).2 = handed u;
  handed_write d (u : U) : handed (uart_write_bytes d u).2 = handed u;
  handed_buffered (u : U) : handed (uart_get_buffered_data_len u).2 = handed u;
  level_set p v (u : U) : pin_level (gpio_set_level p v u).2 p = v;
  level_other p q v (u : U) : p <> q -> pin_level (gpio_set_level p v u).2 q = pin_level u q;
  level_flush p (u : U) : pin_level (uart_flush_input u).2 p = pin_level u p;
  level_wait t p (u : U) : pin_level (uart_wait_tx_done t u).2 p = pin_level u p;
  level_write d p (u : U) : pin_level (uart_write_bytes d u).2 p = pin_level u p;
  level_buffered p (u : U) : pin_level (uart_get_buffered_data_len u).2 p = pin_level u p;
  level_read n p (u : U) : pin_level (uart_read_bytes n u).2 p = pin_level u p;
}.

Record port {U : Type} := Port {
  cfg : port_config; the_metrics : port_metrics; driver_installed : bool;
  de_pin_configured : bool; re_pin_configured : bool;
  rx_buffer : ring Z; the_tx : tx_state;
  uart : U; port_clock : clock;
}.
Arguments port : clear implicits.
Arguments Port {U}.
#[export] Instance port_rebuild {U} : Rebuild (port U) := fun w =>
  Port (cfg w) (the_metrics w) (driver_installed w) (de_pin_configured w) (re_pin_configured w) (rx_buffer w) (the_tx w) (uart w) (port_clock w).

(** ** The code *)

Definition rs485_has_valid_uart (c : port_config) : bool := (0 <=? uart_num c) && (uart_num c <? UART_NUM_MAX).
Definition rs485_has_valid_data_pins (c : port_config) : bool := (0 <=? tx_pin c) && (0 <=? rx_pin c).

Definition rs485_apply_defaults (c : port_config) : port_config :=
  let c := if auto_direction c then c <| de_pin := -1 |> <| re_pin := -1 |> else c in
  let c := if tx_guard_us c =? 0
    then c <| tx_guard_us := if auto_direction c then RS485_AUTO_TX_GUARD_US else RS485_DEFAULT_TX_GUARD_US |> else c in
  let c := if rx_recovery_us c =? 0
    then c <| rx_recovery_us := if auto_direction c then RS485_AUTO_RX_RECOVERY_US else RS485_DEFAULT_RX_RECOVERY_US |> else c in
  if tx_done_timeout_ms c =? 0 then c <| tx_done_timeout_ms := RS485_DEFAULT_TX_DONE_TIMEOUT_MS |> else c.

Section port.
Context {U : Type} `{Uart U}.
Abbreviation world := (port U).
Implicit Types w : world.

Definition on_uart {A} (m : st U A) : st world A := on_part uart (fun u w => w <| uart := u |>) m.
Definition port_time : st world Z := t ← on_part port_clock (fun c w => w <| port_clock := c |>) clock_read; mret (u64 t).
Definition on_metrics (f : port_metrics -> port_metrics) : st world () := modify (fun w => w <| the_metrics := f (the_metrics w) |>).

(** Power on. *)
Definition port_boot (u : U) (c : clock) : world :=
  Port port_config_zero port_metrics_zero false false false (ring_zero RX_BUFFER_SIZE 0) tx_state_zero u c.

Definition rs485_uses_external_direction w : bool := negb (auto_direction (cfg w)) && ((0 <=? de_pin (cfg w)) || (0 <=? re_pin (cfg w))).

Definition rs485_estimate_tx_time_us w (len : Z) : Z :=
  if (baudrate (cfg w) <=? 0) || (len =? 0) then 0
  else
    let bits := u64 (len * 10) in
    let us := u64 (bits * 1000000 + baudrate (cfg w) - 1) / baudrate (cfg w) in
    let us := u64 (us + tx_guard_us (cfg w)) in
    if 4294967295 <? us then 4294967295 else us.

(** [rs485_set_tx_mode] is level 1, [rs485_set_rx_mode] level 0; they differ in
    the order of the pins. *)
Definition rs485_set_tx_mode : st world () := fun w =>
  if negb (rs485_uses_external_direction w) then (tt, w)
  else
    ((if re_pin_configured w then on_uart (gpio_set_level (re_pin (cfg w)) 1) else mret tt);;
     (if de_pin_configured w then on_uart (gpio_set_level (de_pin (cfg w)) 1) else mret tt)) w.
Definition rs485_set_rx_mode : st world () := fun w =>
  if negb (rs485_uses_external_direction w) then (tt, w)
  else
    ((if de_pin_configured w then on_uart (gpio_set_level (de_pin (cfg w)) 0) else mret tt);;
     (if re_pin_configured w then on_uart (gpio_set_level (re_pin (cfg w)) 0) else mret tt)) w.

Definition rs485_tx_busy w : bool := active (the_tx w).
Definition tx_release : st world () := rs485_set_rx_mode;; modify (fun w => w <| the_tx := tx_state_zero |>).

Definition rs485_tx_service : st world () :=
  ready ← gets (fun w => initialized (the_metrics w) && active (the_tx w));
  if negb ready then mret tt
  else
    now ← port_time;
    tx ← gets the_tx;
    if now <? release_deadline_us tx then mret tt
    else
      timeout ← gets (fun w => tx_done_timeout_ms (cfg w));
      done ← on_uart (uart_wait_tx_done timeout);
      if done : bool then tx_release
      else if u64 (release_deadline_us tx + timeout * 1000) <=? now
      then on_metrics (fun m => m <| tx_errors := u32 (tx_errors m + 1) |>);; tx_release
      else mret tt.

(** The part of [rs485_init] on the direction pins. *)
Definition direction_init : st world bool :=
  external ← gets rs485_uses_external_direction;
  if external : bool then
    c ← gets cfg;
    let mask := Z.lor (if 0 <=? de_pin c then Z.shiftl 1 (de_pin c) else 0) (if 0 <=? re_pin c then Z.shiftl 1 (re_pin c) else 0) in
    ok ← (if negb (mask =? 0) then on_uart (gpio_config_outputs mask) else mret true);
    if negb ok then on_uart uart_driver_delete;; modify (fun w => w <| driver_installed := false |>);; mret false
    else
      modify (fun w => w <| de_pin_configured := 0 <=? de_pin (cfg w) |> <| re_pin_configured := 0 <=? re_pin (cfg w) |>);;
      rs485_set_rx_mode;;
      mret true
  else modify (fun w => w <| de_pin_configured := false |> <| re_pin_configured := false |>);; mret true.

Definition rs485_init (config : port_config) : st world () :=
  if negb (rs485_has_valid_uart config) || negb (rs485_has_valid_data_pins config) || (baudrate config <=? 0) then mret tt
  else
    installed ← gets driver_installed;
    if installed : bool then mret tt
    else
      modify (fun w => let c := rs485_apply_defaults config in
        w <| cfg := c |> <| the_metrics := port_metrics_zero <| is_auto_direction := auto_direction c |> |>
          <| rx_buffer := (rx_buffer w) <| head := 0 |> <| tail := 0 |> |> <| the_tx := tx_state_zero |>);;
      ok ← on_uart uart_param_config;
      if negb ok then mret tt
      else
        ok ← on_uart uart_set_pin;
        if negb ok then mret tt
        else
          ok ← on_uart uart_driver_install;
          if negb ok then mret tt
          else
            modify (fun w => w <| driver_installed := true |>);;
            ok ← on_uart uart_set_mode;
            if negb ok then on_uart uart_driver_delete;; modify (fun w => w <| driver_installed := false |>)
            else
              go ← direction_init;
              if negb go then mret tt
              else on_uart uart_flush_input;; on_metrics (fun m => m <| initialized := true |>).

Definition rs485_send_bytes (data : list Z) : st world () :=
  up ← gets (fun w => initialized (the_metrics w));
  if negb up || (Z.of_nat (length data) =? 0) then mret tt
  else
    rs485_tx_service;;
    busy ← gets rs485_tx_busy;
    if busy : bool then on_metrics (fun m => m <| tx_errors := u32 (tx_errors m + 1) |>)
    else
      rs485_set_tx_mode;;
      written ← on_uart (uart_write_bytes data);
      if written <? 0 then on_metrics (fun m => m <| tx_errors := u32 (tx_errors m + 1) |>);; rs485_set_rx_mode
      else
        now ← port_time;
        modify (fun w =>
          let release := u64 (now + rs485_estimate_tx_time_us w (u16 written)) in
          w <| the_tx := TxState true release (u64 (release + rx_recovery_us (cfg w))) (u16 written) |>);;
        on_metrics (fun m => m <| tx_bytes := u32 (tx_bytes m + u32 written) |> <| last_tx_ms := u32 (now / 1000) |>).

(** The loop that stores what was read: the ring and the bytes dropped. *)
Definition store_byte (s : ring Z * Z) (b : Z) : ring Z * Z :=
  let '(ok, r) := ring_push RX_BUFFER_SIZE b s.1 in (r, if ok : bool then s.2 else u32 (s.2 + 1)).

Definition store_chunk (data : list Z) w : world :=
  let s := foldl store_byte (rx_buffer w, rx_dropped_bytes (the_metrics w)) data in
  w <| rx_buffer := s.1 |> <| the_metrics := (the_metrics w) <| rx_dropped_bytes := s.2 |> |>.
(** The part of [rs485_poll_rx] that reads, when [n] bytes are there. *)
Definition read_chunk (n : Z) : st world () :=
  data ← on_uart (uart_read_bytes (Z.min n RX_CHUNK));
  let len := Z.of_nat (length data) in
  if len <=? 0 then mret tt
  else
    on_metrics (fun m => m <| rx_chunks := u32 (rx_chunks m + 1) |> <| last_rx_chunk := len |> <| max_rx_chunk := Z.max (max_rx_chunk m) len |>);;
    modify (store_chunk data);;
    on_metrics (fun m => m <| rx_bytes := u32 (rx_bytes m + len) |>);;
    now ← port_time;
    on_metrics (fun m => m <| last_rx_ms := u32 (now / 1000) |>).

Definition rs485_poll_rx : st world () :=
  up ← gets (fun w => initialized (the_metrics w));
  if negb up then mret tt
  else
    on_metrics (fun m => m <| rx_poll_calls := u32 (rx_poll_calls m + 1) |>);;
    now ← port_time;
    auto ← gets (fun w => auto_direction (cfg w));
    tx ← gets the_tx;
    if negb auto && active tx then mret tt
    else if auto && (now <? rx_release_deadline_us tx)
    then on_metrics (fun m => m <| rx_reads_while_tx_window := u32 (rx_reads_while_tx_window m + 1) |>)
    else
      buffered ← on_uart uart_get_buffered_data_len;
      match buffered with
      | None => mret tt
      | Some n =>
        if n =? 0 then mret tt else read_chunk n
      end.

Definition rs485_available : st world bool :=
  rs485_tx_service;;
  rs485_poll_rx;;
  gets (fun w => negb (head (rx_buffer w) =? tail (rx_buffer w))).

Definition rs485_read_byte : st world Z := fun w =>
  match ring_pop RX_BUFFER_SIZE 0 (rx_buffer w) with
  | (Some b, r) => (b, w <| rx_buffer := r |>)
  | (None, _) => (0, w)
  end.

(** The copying loop: until the ring is empty or [n] bytes are out. *)
Fixpoint take_bytes (n : nat) (r : ring Z) : list Z * ring Z :=
  match n with
  | O => ([], r)
  | S n =>
    match ring_pop RX_BUFFER_SIZE 0 r with
    | (Some b, r) => let '(l, r) := take_bytes n r in (b :: l, r)
    | (None, _) => ([], r)
    end
  end.

Definition take_out (max_len : Z) : st world (list Z) := fun w =>
  let '(l, r) := take_bytes (Z.to_nat max_len) (rx_buffer w) in (l, w <| rx_buffer := r |>).

Definition rs485_read_bytes (max_len : Z) : st world (list Z) :=
  if max_len =? 0 then mret []
  else
    rs485_tx_service;;
    rs485_poll_rx;;
    take_out max_len.

Definition rs485_read_frame (max_len : Z) : st world (list Z) :=
  if max_len <=? 0 then mret [] else rs485_read_bytes (u16 max_len).
End port.

(** The port as its users call it. *)
Inductive port_op := Send (data : list Z) | Service | ReadBytes (n : Z) | ReadByte.
Section port_ops.
Context {U : Type} `{Uart U}.
Definition port_step (o : port_op) : st (port U) (list Z) :=
  match o with
  | Send data => rs485_send_bytes data;; mret []
  | Service => rs485_tx_service;; mret []
  | ReadBytes n => rs485_read_bytes n
  | ReadByte =>
    some ← rs485_available;
    if some : bool then b ← rs485_read_byte; mret [b] else mret []
  end.
(** The engine's serial port. *)
#[export] Instance rs485_serial_port : SerialPort (port U) := { recv n := rs485_read_bytes n; send data := rs485_send_bytes data }.
End port_ops.

(** ** Direction of the line *)

Section direction.
Context {U : Type} `{UartLaws U}.
Abbreviation world := (port U).
Implicit Types w : world.

Definition level_of (on : bool) : Z := if on then 1 else 0.
(** Every configured direction pin is at the level [on]. *)
Definition pins_at (on : bool) w : Prop :=
  (de_pin_configured w = true -> pin_level (uart w) (de_pin (cfg w)) = level_of on) /\
  (re_pin_configured w = true -> pin_level (uart w) (re_pin (cfg w)) = level_of on).
(** With an external transceiver, the pins follow the transmission. *)
Definition direction_ok w : Prop :=
  initialized (the_metrics w) = true -> rs485_uses_external_direction w = true -> pins_at (active (the_tx w)) w.

(** What the pins and the configuration are seen through. *)
Definition line w : port_config * bool * bool * bool * bool := (cfg w, initialized (the_metrics w), de_pin_configured w, re_pin_configured w, active (the_tx w)).
Definition same_line w' w : Prop := line w = line w' /\ forall p, pin_level (uart w) p = pin_level (uart w') p.

Lemma same_line_refl w : same_line w w.
Proof. done. Qed.
Lemma direction_same w w' : same_line w w' -> direction_ok w -> direction_ok w'.
Proof.
  intros [[= Hc Hi Hd Hr Ha] Hp] Hok. unfold direction_ok, pins_at, rs485_uses_external_direction in *. by rewrite Hc, Hi, Hd, Hr, Ha, !Hp.
Qed.
Lemma keeps_uart {A} v (m : st U A) : (forall p u, pin_level (m u).2 p = pin_level u p) -> keeps (same_line v) (on_uart m).
Proof. intros Hm. apply keeps_on_part. intros w [Hl Hp]. split; [done|]. intros p. cbn. by rewrite Hm. Qed.
Lemma keeps_port_time v : keeps (same_line v) port_time.
Proof. intros w Hw. done. Qed.
Lemma keeps_metrics v f : (forall m, initialized (f m) = initialized m) -> keeps (same_line v) (on_metrics f : st world ()).
Proof. intros Hf w [Hl Hp]. split; [|done]. unfold line in *. cbn. by rewrite Hf. Qed.

Lemma set_mode_pins (on : bool) w : rs485_uses_external_direction w = true ->
  let m := if on then rs485_set_tx_mode else rs485_set_rx_mode in
  pins_at on (m w).2 /\ line (m w).2 = line w.
Proof.
  intros He m. assert (forall p q v u, pin_level u q = v -> pin_level (gpio_set_level p v u).2 q = v) as Hk.
  { intros p q v u <-. destruct (decide (p = q)) as [->|]; [apply level_set|by apply level_other]. }
  subst m. unfold rs485_set_tx_mode, rs485_set_rx_mode. destruct on; rewrite He; cbn [negb];
    unfold pins_at; destruct (de_pin_configured w) eqn:Hd, (re_pin_configured w) eqn:Hr; rewrite !run_bind_surj;
    unfold on_uart, on_part; repeat (case_match; cbn); simplify_eq/=;
    repeat match goal with Heq : gpio_set_level ?p ?v ?u = (_, ?u') |- _ =>
      let X := fresh in assert (u' = (gpio_set_level p v u).2) as X by (by rewrite Heq); clear Heq; subst u' end;
    (split; [|done]); rewrite ?Hd, ?Hr; split; intros; try done; try apply level_set; apply Hk, level_set.
Qed.

(** Without an external transceiver the pins are left alone. *)
Lemma set_mode_none (on : bool) w : rs485_uses_external_direction w = false -> (if on then rs485_set_tx_mode w else rs485_set_rx_mode w) = (tt, w).
Proof. intros He. unfold rs485_set_tx_mode, rs485_set_rx_mode. by destruct on; rewrite He. Qed.

Lemma keeps_direction {A} (m : st world A) : (forall v, keeps (same_line v) m) -> keeps direction_ok m.
Proof. intros Hm w Hw. apply (direction_same w); [|done]. by apply Hm. Qed.
Lemma external_cfg w w' : cfg w = cfg w' -> rs485_uses_external_direction w = rs485_uses_external_direction w'.
Proof. unfold rs485_uses_external_direction. by intros ->. Qed.

(** Giving the line back. *)
Lemma rx_mode_ok w : active (the_tx w) = false -> direction_ok (rs485_set_rx_mode w).2.
Proof.
  intros Ha _. destruct (rs485_uses_external_direction w) eqn:He.
  - intros _. destruct (set_mode_pins false w He) as [Hp [= _ _ _ _ Hact]]. by rewrite Hact, Ha.
  - rewrite (set_mode_none false w He). cbn [snd]. by rewrite He.
Qed.
Lemma tx_release_spec w : direction_ok (tx_release w).2 /\ active (the_tx (tx_release w).2) = false.
Proof.
  split; [|unfold tx_release; by rewrite run_bind_surj]. unfold tx_release. rewrite run_bind_surj.
  destruct (rs485_uses_external_direction w) eqn:He.
  - destruct (set_mode_pins false w He) as [Hp _]. by intros _ _.
  - rewrite (set_mode_none false w He). intros _ He'. unfold rs485_uses_external_direction in *. cbn in He'. congruence.
Qed.

Lemma tx_service_direction : keeps direction_ok rs485_tx_service.
Proof.
  unfold rs485_tx_service. keeps.
  - apply keeps_direction. intros v. apply keeps_port_time.
  - apply keeps_direction. intros v. apply keeps_uart. intros. apply level_wait.
  - intros w _. apply tx_release_spec.
  - apply keeps_direction. intros v. by apply keeps_metrics.
  - intros w _. apply tx_release_spec.
Qed.

Lemma poll_rx_line v : keeps (same_line v) rs485_poll_rx.
Proof.
  unfold rs485_poll_rx, read_chunk. keeps; try (by apply keeps_metrics); try apply keeps_port_time.
  - apply keeps_uart. intros. apply level_buffered.
  - apply keeps_uart. intros. apply level_read.
Qed.

Lemma send_direction data : keeps direction_ok (rs485_send_bytes data).
Proof.
  unfold rs485_send_bytes. apply keeps_bind; [apply keeps_gets|]. intros up. apply keeps_if; [apply keeps_ret|].
  apply keeps_bind; [apply tx_service_direction|]. intros _ w Hw. rewrite run_bind_gets. unfold rs485_tx_busy.
  destruct (active (the_tx w)) eqn:Ha; [by apply (keeps_direction (on_metrics _)); [intros v; apply keeps_metrics|]|].
  set (driving := fun w => active (the_tx w) = false /\ (rs485_uses_external_direction w = true -> pins_at true w)).
  assert (driving (rs485_set_tx_mode w).2) as Hd.
  { unfold driving. destruct (rs485_uses_external_direction w) eqn:He.
    - destruct (set_mode_pins true w He) as [Hp [= _ _ _ _ Hact]]. by rewrite Hact.
    - rewrite (set_mode_none true w He). cbn [snd]. by rewrite He. }
  rewrite run_bind_surj. generalize dependent (rs485_set_tx_mode w).2. intros w1 [Ha1 Hp1]. rewrite run_bind_surj.
  assert (same_line w1 (on_uart (uart_write_bytes data) w1).2) as Hs.
  { apply keeps_uart; [intros; apply level_write|apply same_line_refl]. }
  destruct (on_uart (uart_write_bytes data) w1) as [written w2]. cbn [fst snd] in *.
  pose proof Hs as [Hl Hp]. injection Hl as Hc Hi Hde Hre Hact. case_match.
  - rewrite run_bind_surj. apply rx_mode_ok. cbn. congruence.
  - unfold port_time, on_metrics, mbind, st_bind, on_part, clock_read, mret, st_ret, modify.
    cbn [fst snd]. intros Hi' He'. unfold pins_at. cbn in He' |- *.
    assert (rs485_uses_external_direction w1 = true) as He by (rewrite <- He'; by apply external_cfg).
    destruct (Hp1 He) as [Hpd Hpr]. rewrite !Hp, Hc, Hde, Hre. done.
Qed.

(** Before the port is up. *)
Definition down w : Prop := initialized (the_metrics w) = false /\ active (the_tx w) = false.
Lemma down_uart {A} (m : st U A) : keeps down (on_uart m).
Proof. by apply keeps_on_part. Qed.
Lemma down_ok w : down w -> direction_ok w.
Proof. intros [Hi _] Hi'. congruence. Qed.
Lemma down_rx_mode w : down w -> down (rs485_set_rx_mode w).2.
Proof.
  intros [Hi Ha]. destruct (rs485_uses_external_direction w) eqn:He; [|by rewrite (set_mode_none false w He)].
  destruct (set_mode_pins false w He) as [_ [= _ Hi' _ _ Ha']]. unfold down. by rewrite Hi', Ha'.
Qed.
Lemma direction_init_spec : hoare down direction_init
  (fun go w => down w /\ (go = true -> rs485_uses_external_direction w = true -> pins_at false w)).
Proof.
  unfold direction_init. intros w Hw. rewrite run_bind_gets. destruct (rs485_uses_external_direction w) eqn:He.
  - rewrite run_bind_gets. cbv zeta. set (configure := if negb _ then _ else mret true).
    assert (keeps (fun v => down v /\ cfg v = cfg w) configure) as Kc by (subst configure; apply keeps_if; [by apply keeps_on_part|by apply keeps_ret]).
    rewrite run_bind_surj. destruct (Kc w (conj Hw eq_refl)) as [Hw1 Hc1]. clearbody configure. destruct (configure w) as [ok w1]. cbn [fst snd] in *. case_match.
    + rewrite run_bind_surj. unfold modify. rewrite run_bind_surj. cbn. split; [|done]. by apply (down_uart uart_driver_delete).
    + rewrite run_bind_modify. set (w2 := w1 <| de_pin_configured := _ |> <| re_pin_configured := _ |>).
      rewrite run_bind_surj. cbn [fst snd mret st_ret]. assert (down w2) as Hw2 by done. split; [by apply down_rx_mode|]. intros _ _.
      apply (set_mode_pins false w2). by rewrite (external_cfg _ w).
  - split; [done|]. intros _ He'. rewrite (external_cfg _ w) in He' by done. congruence.
Qed.

Lemma init_direction config : keeps direction_ok (rs485_init config).
Proof.
  unfold rs485_init. case_match; [apply keeps_ret|]. intros w Hw. rewrite run_bind_gets. case_match; [done|].
  rewrite run_bind_modify. match goal with |- context [on_uart uart_param_config ≫= ?k] => set (rest := k) end.
  assert (hoare down (on_uart uart_param_config ≫= rest) (fun _ => direction_ok)) as Hh; [|by apply Hh].
  assert (forall a, hoare down (mret a : st world ()) (fun _ => direction_ok)) as Hret by (intros a; apply hoare_ret; apply down_ok).
  subst rest. do 3 (apply hoare_keep; [apply down_uart|]; intros ?; case_match; [apply Hret|]).
  apply hoare_keep; [apply keeps_modify; by intros|]. intros _.
  apply hoare_keep; [apply down_uart|]. intros ok. case_match.
  { apply hoare_keep; [apply down_uart|]. intros _ w' Hw'. by apply down_ok. }
  eapply hoare_bind; [apply direction_init_spec|]. intros go w' [Hw' Hp]. cbn beta. destruct go; cbn [negb]; [|by apply down_ok].
  assert (same_line w' (on_uart uart_flush_input w').2) as [Hl Hlev] by (apply keeps_uart; [intros; apply level_flush|apply same_line_refl]).
  rewrite run_bind_surj. destruct (on_uart uart_flush_input w') as [[] w2]. cbn [snd] in Hl, Hlev. injection Hl as Hc Hi Hde Hre Hact.
  intros _ He'. unfold rs485_uses_external_direction, pins_at in *. cbn in He' |- *. rewrite Hc in *. destruct Hw' as [_ Ha].
  rewrite Hact, Ha, Hde, Hre, !Hlev. by apply Hp.
Qed.

End direction.

(** ** Received bytes *)

Section receive.
Context {U : Type} `{UartLaws U}.
Abbreviation world := (port U).
Implicit Types w : world.
Abbreviation queued := (waiting RX_BUFFER_SIZE 0).

Lemma rx_size : 1 < RX_BUFFER_SIZE.
Proof. done. Qed.

(** One byte of the storing loop, then the loop. *)
Lemma store_byte_spec r d b : ring_wf RX_BUFFER_SIZE r -> exists kept,
  ring_wf RX_BUFFER_SIZE (store_byte (r, d) b).1 /\ queued (store_byte (r, d) b).1 = queued r ++ kept /\
  sublist kept [b] /\ (store_byte (r, d) b).2 = if decide (kept = []) then u32 (d + 1) else d.
Proof.
  intros Hr. pose proof (ring_push_wf _ rx_size b r Hr) as Hw. destruct (ring_push_spec _ 0 rx_size b r Hr) as [Hp Hq].
  unfold store_byte. cbn [fst snd]. rewrite Hp in Hw |- *. cbn [fst snd] in *. case_match.
  - exists [b]. cbn [fst snd]. rewrite decide_False by done. split_and!; [done|done|done|done].
  - exists []. cbn [fst snd]. rewrite decide_True, app_nil_r by done. split_and!; [done|done|apply sublist_nil_l|done].
Qed.
Lemma store_spec data r d : ring_wf RX_BUFFER_SIZE r -> is_u32 d -> exists kept,
  let s := foldl store_byte (r, d) data in
  ring_wf RX_BUFFER_SIZE s.1 /\ queued s.1 = queued r ++ kept /\ sublist kept data /\
  s.2 = u32 (d + (Z.of_nat (length data) - Z.of_nat (length kept))).
Proof.
  revert r d. induction data as [|b data IH]; intros r d Hr Hd.
  - exists []. cbn. rewrite app_nil_r, u32_id by lia. split_and!; [done|done|done|lia].
  - destruct (store_byte_spec r d b Hr) as (k1 & Hw1 & Hq1 & Hs1 & Hd1). cbn [foldl].
    destruct (store_byte (r, d) b) as [r1 d1]. cbn [fst snd] in *.
    destruct (IH r1 d1 Hw1) as (k2 & Hw2 & Hq2 & Hs2 & Hd2).
    { rewrite Hd1. case_decide; [apply u32_range|done]. }
    exists (k1 ++ k2). cbv zeta in *. split_and!; [done|by rewrite Hq2, Hq1, app_assoc|change (b :: data) with ([b] ++ data); by apply sublist_app|].
    rewrite Hd2, Hd1. rewrite length_app. cbn [length]. apply sublist_length in Hs1 as Hl. cbn in Hl.
    destruct k1 as [|c [|]]; cbn in Hl |- *; [rewrite decide_True by done|rewrite decide_False by done|lia]; word_lia.
Qed.

Lemma take_bytes_spec n r : ring_wf RX_BUFFER_SIZE r ->
  (take_bytes n r).1 = take n (queued r) /\ queued (take_bytes n r).2 = drop n (queued r) /\ ring_wf RX_BUFFER_SIZE (take_bytes n r).2.
Proof.
  revert r. induction n as [|n IH]; intros r Hr; [done|]. cbn [take_bytes].
  pose proof (ring_pop_spec _ 0 rx_size r Hr) as Hs. pose proof (ring_pop_wf _ 0 rx_size r Hr) as Hw.
  destruct (queued r) as [|b l] eqn:Hq.
  - rewrite Hs. cbn. by rewrite Hq.
  - destruct Hs as [Hp Hq']. destruct (ring_pop RX_BUFFER_SIZE 0 r) as [o r']. cbn [fst snd] in *. subst o.
    destruct (IH r' Hw) as (H1' & H2' & H3'). destruct (take_bytes n r') as [l' r'']. cbn [fst snd] in *.
    by rewrite H1', H2', Hq'.
Qed.

Abbreviation dropped w := (rx_dropped_bytes (the_metrics w)).
Definition rx_wf w : Prop := ring_wf RX_BUFFER_SIZE (rx_buffer w) /\ is_u32 (dropped w).
(** From [w] to [w'] the port gave out [out], and of the [new] bytes that the
    UART handed over it kept [kept]. *)
Definition received w (out : list Z) w' : Prop :=
  rx_wf w' /\ exists new kept,
    handed (uart w') = handed (uart w) ++ new /\ out ++ queued (rx_buffer w') = queued (rx_buffer w) ++ kept /\
    sublist kept new /\ dropped w' = u32 (dropped w + (Z.of_nat (length new) - Z.of_nat (length kept))).

Definition rx_view w : list Z * ring Z * Z := (handed (uart w), rx_buffer w, dropped w).
Abbreviation same_rx v := (fun w => rx_view w = v).
Lemma received_same w w' : rx_wf w -> rx_view w' = rx_view w -> received w [] w'.
Proof.
  intros [Hr Hd] [= Hh Hb Hd']. unfold received, rx_wf. rewrite Hh, Hb, Hd'. split; [done|]. exists [], [].
  rewrite !app_nil_r. cbn. rewrite Z.sub_diag, Z.add_0_r, u32_id by done. done.
Qed.
Lemma received_trans w1 w2 w3 out1 out2 : received w1 out1 w2 -> received w2 out2 w3 -> received w1 (out1 ++ out2) w3.
Proof.
  intros (_ & n1 & k1 & Hh1 & Hq1 & Hs1 & Hd1) (Hw & n2 & k2 & Hh2 & Hq2 & Hs2 & Hd2).
  split; [done|]. exists (n1 ++ n2), (k1 ++ k2).
  split_and!; [by rewrite Hh2, Hh1, app_assoc|by rewrite <- app_assoc, Hq2, !app_assoc, Hq1|by apply sublist_app|]. rewrite Hd2, Hd1, !length_app. word_lia.
Qed.
Lemma received_wf w out w' : received w out w' -> rx_wf w'.
Proof. by intros [? _]. Qed.

Lemma same_rx_uart {A} v (m : st U A) : (forall u, handed (m u).2 = handed u) -> keeps (same_rx v) (on_uart m).
Proof. intros Hm. apply keeps_on_part. unfold rx_view. cbn. intros w. by rewrite Hm. Qed.
Lemma same_rx_metrics v f : (forall m, rx_dropped_bytes (f m) = rx_dropped_bytes m) -> keeps (same_rx v) (on_metrics f : st world ()).
Proof. intros Hf. apply keeps_modify. unfold rx_view. cbn. intros w. by rewrite Hf. Qed.
Lemma same_rx_time v : keeps (same_rx v) port_time.
Proof. by intros w Hw. Qed.
Lemma same_rx_mode v : keeps (same_rx v) rs485_set_rx_mode /\ keeps (same_rx v) rs485_set_tx_mode.
Proof.
  split; intros w Hw; unfold rs485_set_rx_mode, rs485_set_tx_mode; (case_match; [done|]);
    (refine ((_ : keeps (same_rx v) _) w Hw)); keeps; apply same_rx_uart; intros; apply handed_level.
Qed.
Lemma same_rx_release v : keeps (same_rx v) tx_release.
Proof. unfold tx_release. keeps. apply same_rx_mode. Qed.
Lemma same_rx_service v : keeps (same_rx v) rs485_tx_service.
Proof.
  unfold rs485_tx_service. keeps; try apply same_rx_release; try (by apply same_rx_metrics).
  - apply same_rx_time.
  - apply same_rx_uart. intros. apply handed_wait.
Qed.
Lemma same_rx_send v data : keeps (same_rx v) (rs485_send_bytes data).
Proof.
  unfold rs485_send_bytes. keeps; try apply same_rx_service; try apply same_rx_mode; try (by apply same_rx_metrics).
  - apply same_rx_uart. intros. apply handed_write.
  - apply same_rx_time.
Qed.

Lemma received_store w u data : rx_wf w -> handed u = handed (uart w) ++ data -> received w [] (store_chunk data (w <| uart := u |>)).
Proof.
  intros [Hr Hd] Hu. destruct (store_spec data (rx_buffer w) (dropped w) Hr Hd) as (kept & Hw & Hq & Hs & Hdrop). cbv zeta in *.
  split; [split; [done|cbn; rewrite Hdrop; apply u32_range]|]. by exists data, kept.
Qed.
Lemma keeps_received {A} w0 out (m : st world A) : (forall v, keeps (same_rx v) m) -> keeps (received w0 out) m.
Proof.
  intros Hm w Hw. rewrite <- (app_nil_r out). apply (received_trans _ w); [done|].
  apply received_same; [by apply received_wf in Hw|]. by apply Hm.
Qed.
Lemma received_chunk w0 out n : keeps (received w0 out) (read_chunk n).
Proof.
  intros w Hw. unfold read_chunk. rewrite run_bind_surj.
  assert (exists u data, (on_uart (uart_read_bytes (Z.min n RX_CHUNK)) w) = (data, w <| uart := u |>) /\ handed u = handed (uart w) ++ data) as (u & data & Hr & Hu).
  { unfold on_uart, on_part. pose proof (handed_read (Z.min n RX_CHUNK) (uart w)) as Hh.
    destruct (uart_read_bytes _ (uart w)) as [data u]. by exists u, data. }
  rewrite Hr. cbn [fst snd]. cbv zeta. destruct (Z.leb_spec (Z.of_nat (length data)) 0).
  - destruct data; [|cbn in *; lia]. rewrite app_nil_r in Hu. rewrite <- (app_nil_r out). apply (received_trans _ w); [done|].
    apply received_same; [by apply received_wf in Hw|]. unfold rx_view. cbn. by rewrite Hu.
  - unfold on_metrics. rewrite run_bind_modify. set (w1 := _ <| the_metrics := _ |>).
    assert (received w0 out (store_chunk data w1)) as Hst.
    { rewrite <- (app_nil_r out). apply (received_trans _ w); [done|].
      pose proof (received_store w u data (received_wf _ _ _ Hw) Hu) as Hs. unfold received in *.
      destruct Hs as (Hwf & new & kept & ?). split; [done|]. by exists new, kept. }
    clearbody w1. rewrite run_bind_modify. refine ((_ : keeps (received w0 out) _) _ Hst).
    apply keeps_received. intros v. keeps. apply same_rx_time.
Qed.
Lemma received_poll w0 out : keeps (received w0 out) rs485_poll_rx.
Proof.
  unfold rs485_poll_rx. keeps; try apply received_chunk; apply keeps_received; intros v; try (by apply same_rx_metrics).
  - apply same_rx_time.
  - apply same_rx_uart. intros. apply handed_buffered.
Qed.

Lemma received_step o w : rx_wf w -> received w (port_step o w).1 (port_step o w).2.
Proof.
  intros Hw. assert (received w [] w) as Hw0 by (by apply received_same). destruct o as [data| |n|]; cbn [port_step].
  - rewrite run_bind_surj. apply (keeps_received w [] (rs485_send_bytes data)); [intros; apply same_rx_send|done].
  - rewrite run_bind_surj. apply (keeps_received w [] rs485_tx_service); [intros; apply same_rx_service|done].
  - unfold rs485_read_bytes. case_match; [done|]. rewrite !run_bind_surj.
    assert (received w [] (rs485_poll_rx (rs485_tx_service w).2).2) as Hp.
    { apply received_poll. apply (keeps_received w [] rs485_tx_service); [intros; apply same_rx_service|done]. }
    generalize dependent (rs485_poll_rx (rs485_tx_service w).2).2. intros w1 Hw1. unfold take_out.
    destruct (take_bytes_spec (Z.to_nat n) (rx_buffer w1) (proj1 (received_wf _ _ _ Hw1))) as (Ht & Hq & Hr).
    destruct (take_bytes (Z.to_nat n) (rx_buffer w1)) as [l r]. cbn [fst snd] in *. destruct Hw1 as [[_ Hd] (new & kept & Hh & Hk & Hs & Hdr)].
    split; [done|]. exists new, kept. cbn. by rewrite Ht, Hq, take_drop.
  - rewrite run_bind_surj. unfold rs485_available. rewrite !run_bind_surj.
    assert (received w [] (rs485_poll_rx (rs485_tx_service w).2).2) as Hp.
    { apply received_poll. apply (keeps_received w [] rs485_tx_service); [intros; apply same_rx_service|done]. }
    generalize dependent (rs485_poll_rx (rs485_tx_service w).2).2. intros w1 Hw1. cbn [fst snd gets].
    destruct (Z.eqb_spec (head (rx_buffer w1)) (tail (rx_buffer w1))) as [|Hne]; cbn [negb]; [done|].
    rewrite run_bind_surj. unfold rs485_read_byte.
    pose proof (proj1 (received_wf _ _ _ Hw1)) as Hr. pose proof (ring_pop_spec _ 0 rx_size _ Hr) as Hs. pose proof (ring_pop_wf _ 0 rx_size _ Hr) as Hwf.
    destruct Hw1 as [[_ Hd] (new & kept & Hh & Hk & Hsub & Hdr)]. destruct (queued (rx_buffer w1)) as [|b l] eqn:Hq.
    + rewrite Hs. unfold ring_pop in Hs. destruct (Z.eqb_spec (tail (rx_buffer w1)) (head (rx_buffer w1))); [congruence|done].
    + destruct Hs as [Hp Hq']. destruct (ring_pop RX_BUFFER_SIZE 0 (rx_buffer w1)) as [o r]. cbn [fst snd] in *. subst o.
      split; [done|]. exists new, kept. cbn. by rewrite Hq'.
Qed.
End receive.

(** ** What the port promises *)

Section promises.
Context {U : Type} `{UartLaws U}.
Abbreviation world := (port U).
Implicit Types w : world.

(** The calls of a program that uses the port. *)
Inductive port_call := Init (c : port_config) | Use (o : port_op).
Definition port_do (c : port_call) : st world (list Z) :=
  match c with Init c => rs485_init c;; mret [] | Use o => port_step o end.
Fixpoint port_run (cs : list port_call) : st world (list Z) :=
  match cs with
  | [] => mret []
  | c :: cs => out ← port_do c; rest ← port_run cs; mret (out ++ rest)
  end.

Lemma read_direction n : keeps direction_ok (rs485_read_bytes n : st world (list Z)).
Proof.
  unfold rs485_read_bytes. keeps.
  - apply tx_service_direction.
  - apply keeps_direction. intros. apply poll_rx_line.
  - intros w Hw. unfold take_out. by destruct (take_bytes _ _).
Qed.
Lemma port_do_direction c : keeps direction_ok (port_do c).
Proof.
  destruct c as [c|[data| |n|]]; cbn [port_do port_step]; keeps; try apply tx_service_direction.
  - apply init_direction.
  - apply send_direction.
  - apply read_direction.
  - unfold rs485_available. keeps; [apply tx_service_direction|]. apply keeps_direction. intros. apply poll_rx_line.
  - intros w Hw. unfold rs485_read_byte. destruct (ring_pop _ _ _) as [[b|] r]; done.
Qed.
Lemma port_run_direction cs : keeps direction_ok (port_run cs).
Proof. induction cs as [|c cs IH]; cbn [port_run]; keeps. apply port_do_direction. Qed.

(** C23: With a transceiver whose direction the processor controls, the node drives
    the bus exactly while a transmission of its own is in progress: after any
    calls since power on, the direction pins are high when the port is busy and
    low when it is not. *)
Theorem bus_driven_only_while_sending u c cs :
  let w := (port_run cs (port_boot u c)).2 in
  initialized (the_metrics w) = true -> rs485_uses_external_direction w = true -> pins_at (rs485_tx_busy w) w.
Proof. intros w. by apply port_run_direction. Qed.

(** A transmission ends: once its time and the driver's allowance are over,
    the next service call gives the bus back, whatever the driver answers. *)
Theorem bus_given_back w (Hup : initialized (the_metrics w) = true) (Hb : rs485_tx_busy w = true)
    (Hlate : release_deadline_us (the_tx w) + tx_done_timeout_ms (cfg w) * 1000 <= u64 (clock_read (port_clock w)).1)
    (Ht : 0 <= release_deadline_us (the_tx w)) (Hn : 0 <= tx_done_timeout_ms (cfg w)) :
  let w' := (rs485_tx_service w).2 in
  rs485_tx_busy w' = false /\ (rs485_uses_external_direction w' = true -> pins_at false w').
Proof.
  set (free := fun w' : world => rs485_tx_busy w' = false /\ (rs485_uses_external_direction w' = true -> pins_at false w')).
  change (free (rs485_tx_service w).2).
  assert (forall w1 : world, initialized (the_metrics w1) = true -> free (tx_release w1).2) as Hrel.
  { intros w1 Hi. destruct (tx_release_spec w1) as [Hok Ha]. split; [done|]. intros He. rewrite <- Ha. apply Hok; [|done].
    unfold tx_release. rewrite run_bind_surj. cbn. destruct (rs485_uses_external_direction w1) eqn:He1.
    - destruct (set_mode_pins false w1 He1) as [_ [= _ -> _ _ _]]. done.
    - by rewrite (set_mode_none false w1 He1). }
  unfold rs485_tx_service. rewrite run_bind_gets. unfold rs485_tx_busy in Hb. rewrite Hup, Hb. cbn [andb negb].
  unfold port_time at 1. rewrite run_bind_assoc, run_bind_surj. rewrite run_bind_ret, run_bind_gets.
  set (w1 := (on_part port_clock _ clock_read w).2). change ((on_part port_clock _ clock_read w).1) with (clock_read (port_clock w)).1.
  assert (the_tx w1 = the_tx w) as -> by done.
  pose proof (u64_range (clock_read (port_clock w)).1) as Hr.
  destruct (Z.ltb_spec (u64 (clock_read (port_clock w)).1) (release_deadline_us (the_tx w))) as [Hlt|_]; [lia|].
  rewrite run_bind_gets, run_bind_surj.
  assert (cfg w1 = cfg w) as Hc by done. assert (initialized (the_metrics w1) = true) as Hi1 by done. rewrite Hc. clearbody w1.
  set (w2 := (on_uart _ w1).2).
  assert (cfg w2 = cfg w /\ initialized (the_metrics w2) = true) as [Hc2 Hi2].
  { subst w2. unfold on_uart, on_part. by destruct (uart_wait_tx_done _ _). }
  clearbody w2. case_match; [by apply Hrel|].
  rewrite u64_id by lia. destruct (Z.leb_spec (release_deadline_us (the_tx w) + tx_done_timeout_ms (cfg w) * 1000) (u64 (clock_read (port_clock w)).1)) as [_|]; [|lia].
  unfold on_metrics. rewrite run_bind_modify. by apply Hrel.
Qed.

(** The time a frame is given is enough for its bits on the line: ten bits a
    byte, and the guard time on top, unless it would not fit 32 bits. *)
Theorem frame_gets_its_time w len (Hl : 0 <= len < 65536) (Hb : 0 < baudrate (cfg w) < 2147483648)
    (Hg : is_u32 (tx_guard_us (cfg w))) :
  let t := rs485_estimate_tx_time_us w len in
  0 <= t <= 4294967295 /\ (0 < len -> t < 4294967295 -> len * 10 * 1000000 <= (t - tx_guard_us (cfg w)) * baudrate (cfg w)).
Proof.
  intros t. subst t. unfold rs485_estimate_tx_time_us. set (b := baudrate (cfg w)) in *. set (g := tx_guard_us (cfg w)) in *.
  destruct (Z.leb_spec b 0); [lia|]. cbn [orb]. destruct (Z.eqb_spec len 0) as [->|Hne]; [lia|].
  rewrite (u64_id (len * 10)) by lia. rewrite (u64_id (len * 10 * 1000000 + b - 1)) by lia.
  set (n := len * 10 * 1000000). assert (0 < n <= 655350000000) as Hn by lia.
  pose proof (Z.div_mod (n + b - 1) b ltac:(lia)) as Hdm. pose proof (Z.mod_pos_bound (n + b - 1) b ltac:(lia)) as Hm.
  set (q := (n + b - 1) / b) in *. assert (0 <= q <= n) as Hq by nia. rewrite (u64_id (q + g)) by lia.
  destruct (Z.ltb_spec 4294967295 (q + g)); [lia|]. split; [lia|]. intros _ _. nia.
Qed.

(** The engine gets the bytes of the line in their order: what reads gave out
    together with what still waits is what waited before, followed by the bytes
    the UART handed over with those left out for which there was no room; their
    number is what the counter of dropped bytes counts. *)
Theorem received_in_order os w (Hw : rx_wf w) :
  let '(out, w') := port_run (Use <$> os) w in
  exists new kept,
    handed (uart w') = handed (uart w) ++ new /\
    out ++ waiting RX_BUFFER_SIZE 0 (rx_buffer w') = waiting RX_BUFFER_SIZE 0 (rx_buffer w) ++ kept /\
    sublist kept new /\
    rx_dropped_bytes (the_metrics w') = u32 (rx_dropped_bytes (the_metrics w) + (Z.of_nat (length new) - Z.of_nat (length kept))).
Proof.
  assert (received w (port_run (Use <$> os) w).1 (port_run (Use <$> os) w).2) as Hr.
  { revert w Hw. induction os as [|o os IH]; intros w Hw; [by apply received_same|]. rewrite fmap_cons. cbn [port_run port_do].
    rewrite !run_bind_surj. cbn [fst snd mret st_ret]. pose proof (received_step o w Hw) as Hs. apply (received_trans _ _ _ _ _ Hs).
    apply IH. by apply received_wf in Hs. }
  destruct (port_run (Use <$> os) w) as [out w']. by destruct Hr.
Qed.
End promises.

(** ** Concrete runs *)

(** A line whose UART is done at once, with bytes that arrive. *)
Record demo_uart := DemoUart { levels : list (Z * Z); arriving : list Z; given : list Z }.
#[export] Instance demo_uart_port : Uart demo_uart := {
  uart_param_config u := (true, u); uart_set_pin u := (true, u); uart_driver_install u := (true, u); uart_set_mode u := (true, u);
  uart_driver_delete u := (tt, u); uart_flush_input u := (tt, u); uart_wait_tx_done _ u := (true, u);
  uart_write_bytes d u := (Z.of_nat (length d), u);
  uart_get_buffered_data_len u := (Some (Z.of_nat (length (arriving u))), u);
  uart_read_bytes n u := (take (Z.to_nat n) (arriving u), DemoUart (levels u) (drop (Z.to_nat n) (arriving u)) (given u ++ take (Z.to_nat n) (arriving u)));
  gpio_config_outputs _ u := (true, u);
  gpio_set_level p v u := (tt, DemoUart ((p, v) :: levels u) (arriving u) (given u));
  pin_level u p := default 0 (snd <$> list_find (fun x => x.1 = p) (levels u) ≫= fun x => Some x.2);
}.
#[export] Program Instance demo_uart_laws : UartLaws demo_uart := {| handed := given |}.
Solve Obligations with try done.
Next Obligation. intros p v u. cbn. by rewrite decide_True. Qed.
Next Obligation. intros p q v u Hne. cbn. rewrite decide_False by done. cbn. by destruct (list_find _ (levels u)) as [[]|]. Qed.

(** The port as [core_boot.c] configures it, on a line where four bytes arrive
    and the time advances by half a millisecond a reading. *)
Definition boot_config : port_config := PortConfig 2 25 26 27 14 115200 false 200 2000 20.
Definition demo_port : port demo_uart :=
  port_boot (DemoUart [] [7; 8; 9; 10] []) (Clock (fun i => 500 * Z.of_nat i) 0).

Lemma bus_driven_only_while_sending_witness :
  let w := (port_run [Init boot_config; Use (Send [1; 2; 3])] demo_port).2 in
  pins_at (rs485_tx_busy w) w /\ rs485_tx_busy w = true /\ pin_level (uart w) 27 = 1.
Proof.
  split; [|by vm_compute].
  apply (bus_driven_only_while_sending (DemoUart [] [7; 8; 9; 10] []) (Clock (fun i => 500 * Z.of_nat i) 0) [Init boot_config; Use (Send [1; 2; 3])]); by vm_compute.
Defined.

Lemma bus_given_back_witness :
  let w := (port_run [Init boot_config; Use (Send [1; 2; 3])] demo_port).2 <| port_clock := Clock (fun _ => 1000000) 0 |> in
  rs485_tx_busy w = true /\ rs485_tx_busy (rs485_tx_service w).2 = false /\ pins_at false (rs485_tx_service w).2.
Proof.
  intros w. split; [by vm_compute|].
  destruct (bus_given_back w) as [Hb Hp]; [by vm_compute..|]. split; [done|]. apply Hp. by vm_compute.
Defined.

Lemma frame_gets_its_time_witness :
  let w := (port_run [Init boot_config] demo_port).2 in rs485_estimate_tx_time_us w 12 = 1242 /\ 12 * 10 * 1000000 <= (1242 - 200) * 115200.
Proof.
  intros w. assert (rs485_estimate_tx_time_us w 12 = 1242) as Ht by (by vm_compute). split; [done|].
  pose proof (frame_gets_its_time w 12) as Hf. cbv zeta in Hf. rewrite Ht in Hf.
  apply Hf; vm_compute; try done; by split.
Defined.

Lemma received_in_order_witness :
  let w := (port_run [Init boot_config] demo_port).2 in (port_run (Use <$> [ReadBytes 3; ReadByte]) w).1 = [7; 8; 9; 10] /\ rx_wf w.
Proof.
  intros w. assert (rx_wf w) as Hw.
  { split; [|by vm_compute]. split; [by vm_compute|]. by vm_compute. }
  pose proof (received_in_order [ReadBytes 3; ReadByte] w Hw) as _. split; [by vm_compute|done].
Defined.
