(* ===== verification/HttpText.v ===== *)
(** * Texts of the web interface
    ([components/runtime/http_server/http_server.c], its helpers)

    Percent-decoding of forms, numbers of a query, the cookie header, and the
    builder of JSON answers, each with the reference it is compared to: an
    encoder, a parser of JSON strings.  A text is the list of its bytes without
    the terminator. *)

From Stdlib Require Import String.
From S2P Require Import Prelude Persist.
Local Open Scope string_scope.
Local Open Scope list_scope.
Local Open Scope Z_scope.

(** ** Percent-decoding *)

Definition isdigit (c : Z) : bool := (48 <=? c) && (c <=? 57).
Definition isxdigit (c : Z) : bool := isdigit c || ((97 <=? tolower c) && (tolower c <=? 102)).
Definition xdigit_value (c : Z) : Z := if isdigit c then c - 48 else 10 + (tolower c - 97).
Definition xdigit_pair (h l : Z) : Z := u8 (Z.lor (Z.shiftl (xdigit_value h) 4) (xdigit_value l)).

(** [http_url_decode_inplace]: [src] and [dst] are the two indices; [fuel] is the
    number of iterations allowed. *)
Fixpoint decode_inplace (fuel : nat) (buf : list Z) (src dst : nat) : list Z :=
  match fuel with
  | O => buf
  | S fuel =>
    let at_ i := nth i buf 0 in
    if at_ src =? 0 then <[dst := 0]> buf
    else if at_ src =? 43 then decode_inplace fuel (<[dst := 32]> buf) (S src) (S dst)
    else if (at_ src =? 37) && isxdigit (at_ (src + 1)%nat) && isxdigit (at_ (src + 2)%nat)
    then decode_inplace fuel (<[dst := xdigit_pair (at_ (src + 1)%nat) (at_ (src + 2)%nat)]> buf) (src + 3) (S dst)
    else decode_inplace fuel (<[dst := at_ src]> buf) (S src) (S dst)
  end.
Definition http_url_decode_inplace (buf : list Z) : list Z := decode_inplace (S (length buf)) buf 0 0.

(** The same on a text. *)
Fixpoint url_decode (l : list Z) : list Z :=
  match l with
  | [] => []
  | c :: l1 =>
    if c =? 43 then 32 :: url_decode l1
    else
      match l1 with
      | h :: (lo :: l2) => if (c =? 37) && isxdigit h && isxdigit lo then xdigit_pair h lo :: url_decode l2 else c :: url_decode l1
      | _ => c :: url_decode l1
      end
  end.
(** What a browser sends for a form: every byte but letters and digits as
    [%XX]. *)
Definition hex_digit_upper (x : Z) : Z := if x <? 10 then 48 + x else 55 + x.
Definition url_encode_byte (b : Z) : list Z := if isalnum b then [b] else [37; hex_digit_upper (b / 16); hex_digit_upper (b mod 16)].
Definition url_encode (s : list Z) : list Z := s ≫= url_encode_byte.

(** A statement about every byte is checked on the 256 of them. *)
Lemma every_byte (p : Z -> bool) : forallb p (Z.of_nat <$> seq 0 256) = true -> forall b, is_u8 b -> p b = true.
Proof.
  intros Hp b Hb. rewrite forallb_forall in Hp. apply Hp, list_elem_of_In, list_elem_of_fmap. exists (Z.to_nat b).
  split; [lia|]. apply elem_of_seq. lia.
Qed.
Lemma xdigit_value_upper b : is_u8 b ->
  isxdigit (hex_digit_upper (b / 16)) = true /\ isxdigit (hex_digit_upper (b mod 16)) = true /\
  xdigit_pair (hex_digit_upper (b / 16)) (hex_digit_upper (b mod 16)) = b.
Proof.
  intros Hb. pose proof (every_byte (fun b => isxdigit (hex_digit_upper (b / 16)) && isxdigit (hex_digit_upper (b mod 16)) &&
    (xdigit_pair (hex_digit_upper (b / 16)) (hex_digit_upper (b mod 16)) =? b)) ltac:(by vm_compute) b Hb) as He.
  apply andb_prop in He as [[? ?]%andb_prop ?%Z.eqb_eq]. done.
Qed.
Lemma alnum_plain b : is_u8 b -> isalnum b = true -> (b =? 43) = false /\ (b =? 37) = false.
Proof.
  intros Hb Ha. pose proof (every_byte (fun b => negb (isalnum b) || (negb (b =? 43) && negb (b =? 37))) ltac:(by vm_compute) b Hb) as He.
  cbn beta in He. rewrite Ha in He. cbn [negb orb] in He. apply andb_prop in He as [?%negb_true_iff ?%negb_true_iff]. done.
Qed.

Lemma url_decode_plain c l : (c =? 43) = false -> (c =? 37) = false -> url_decode (c :: l) = c :: url_decode l.
Proof. intros H1 H2. cbn [url_decode]. rewrite H1, H2. by destruct l as [|h [|lo l]]. Qed.
Lemma url_decode_encode s : Forall (fun b => is_u8 b) s -> url_decode (url_encode s) = s.
Proof.
  induction 1 as [|b s Hb Hs IH]; [done|]. unfold url_encode in *. cbn [mbind list_bind]. unfold url_encode_byte at 1.
  destruct (isalnum b) eqn:Ha.
  - destruct (alnum_plain b Hb Ha). cbn [app]. by rewrite url_decode_plain, IH.
  - destruct (xdigit_value_upper b Hb) as (H1 & H2 & H3). cbn [app url_decode]. by rewrite H1, H2, H3, IH.
Qed.

(** The writing index never passes the reading index, so that what is read is
    what was there before. *)
Lemma drop_insert_before (l : list Z) i j x : (i < j)%nat -> drop j (<[i := x]> l) = drop j l.
Proof. intros. by apply drop_insert_lt. Qed.
Lemma nth_drop (l : list Z) i k : nth (i + k) l 0 = nth k (drop i l) 0.
Proof. revert l. induction i as [|i IH]; intros l; [done|]. destruct l as [|x l]; cbn; [by destruct k|apply IH]. Qed.

Lemma decode_inplace_spec fuel buf src dst s rest :
  drop src buf = s ++ 0 :: rest -> 0 ∉ s -> (dst <= src)%nat -> (length s < fuel)%nat ->
  let buf' := decode_inplace fuel buf src dst in
  length buf' = length buf /\ take dst buf' = take dst buf /\ exists tail, drop dst buf' = url_decode s ++ 0 :: tail.
Proof.
  revert buf src dst s. induction fuel as [|fuel IH]; intros buf src dst s Hd Hs Hle Hf; [lia|]. cbv zeta.
  assert (length (drop src buf) = length s + S (length rest))%nat as Hlen by (rewrite Hd, length_app; done). rewrite length_drop in Hlen.
  assert (forall k, nth (src + k) buf 0 = nth k (s ++ 0 :: rest) 0) as Hn by (intros k; by rewrite nth_drop, Hd).
  pose proof (Hn 0%nat) as Hn0. rewrite Nat.add_0_r in Hn0. pose proof (Hn 1%nat) as Hn1. pose proof (Hn 2%nat) as Hn2. clear Hn.
  assert (forall x (n : nat) s', (dst < src + n)%nat -> drop n (s ++ 0 :: rest) = s' ++ 0 :: rest -> 0 ∉ s' -> (length s' < fuel)%nat ->
    let buf' := decode_inplace fuel (<[dst := x]> buf) (src + n) (S dst) in
    length buf' = length buf /\ take dst buf' = take dst buf /\ exists tail, drop dst buf' = x :: url_decode s' ++ 0 :: tail) as Hgo.
  { intros x n s' Hlt Hdr Hs' Hf'. cbv zeta.
    destruct (IH (<[dst := x]> buf) (src + n)%nat (S dst) s') as (H1 & H2 & tail & H3); [|done|lia|done|].
    { rewrite drop_insert_before by lia. by rewrite <- drop_drop, Hd. }
    cbv zeta in *. set (buf' := decode_inplace _ _ _ _) in *. rewrite length_insert in H1.
    assert (buf' !! dst = Some x) as Hx.
    { rewrite <- (lookup_take_lt buf' (S dst)) by lia. rewrite H2, lookup_take_lt by lia. apply list_lookup_insert_eq. lia. }
    split; [done|]. split.
    - replace dst with (dst `min` S dst)%nat by lia. rewrite <- !take_take, H2, !take_take. replace (dst `min` S dst)%nat with dst by lia. apply take_insert_ge. lia.
    - exists tail. rewrite (drop_S _ _ _ Hx). by rewrite H3. }
  cbn [decode_inplace]. destruct s as [|c s].
  - cbn in Hn0. rewrite Hn0. cbn. rewrite length_insert. split; [done|]. split; [by apply take_insert_ge|].
    exists (drop (S dst) buf). rewrite (drop_S _ 0 dst) by (apply list_lookup_insert_eq; lia). by rewrite drop_insert_before by lia.
  - apply not_elem_of_cons in Hs as [Hc Hs]. cbn [app nth] in Hn0, Hn1, Hn2. cbn [length] in Hf. rewrite Hn0.
    destruct (Z.eqb_spec c 0) as [->|_]; [done|]. cbn [url_decode].
    destruct (Z.eqb_spec c 43) as [->|Hp]; [rewrite <- Nat.add_1_r; apply (Hgo _ 1%nat); try done; lia|].
    assert (let buf' := decode_inplace fuel (<[dst:=c]> buf) (S src) (S dst) in
      length buf' = length buf /\ take dst buf' = take dst buf /\ exists tail, drop dst buf' = c :: url_decode s ++ 0 :: tail) as Hplain.
    { rewrite <- (Nat.add_1_r src). apply (Hgo _ 1%nat); try done; lia. }
    destruct s as [|h [|lo s]]; cbn [app nth] in Hn1, Hn2; rewrite Hn1.
    + rewrite andb_false_r. exact Hplain.
    + rewrite Hn2. rewrite andb_false_r. exact Hplain.
    + rewrite Hn2. destruct ((c =? 37) && isxdigit h && isxdigit lo) eqn:He; [|exact Hplain].
      rewrite !not_elem_of_cons in Hs. cbn [length] in Hf. apply (Hgo _ 3%nat); try done; try lia. by destruct Hs as (_ & _ & ?).
Qed.

(** ** Numbers *)

(** [strtol] and [strtoul] of the C library for base 10 with 32-bit [long]: the
    value, what is left of the text, and whether [errno] is [ERANGE]. *)
Fixpoint digits (l : list Z) (acc : Z) : Z * list Z :=
  match l with
  | c :: l' => if isdigit c then digits l' (acc * 10 + (c - 48)) else (acc, l)
  | [] => (acc, [])
  end.
Definition sign (l : list Z) : bool * list Z :=
  match l with c :: l' => if c =? 45 then (true, l') else if c =? 43 then (false, l') else (false, l) | [] => (false, []) end.
(** Without a digit nothing is read. *)
Definition scan_number (text : list Z) : option (bool * Z * list Z) :=
  let '(neg, l) := sign (skip_spaces text) in
  match l with
  | c :: _ => if isdigit c then let '(v, rest) := digits l 0 in Some (neg, v, rest) else None
  | [] => None
  end.
Definition strtol (text : list Z) : Z * list Z * bool :=
  match scan_number text with
  | None => (0, text, false)
  | Some (neg, v, rest) =>
    let v := if neg then - v else v in
    if v <? -2147483648 then (-2147483648, rest, true) else if 2147483647 <? v then (2147483647, rest, true) else (v, rest, false)
  end.
Definition strtoul (text : list Z) : Z * list Z * bool :=
  match scan_number text with
  | None => (0, text, false)
  | Some (neg, v, rest) => if 4294967295 <? v then (4294967295, rest, true) else (if neg then u32 (- v) else v, rest, false)
  end.
(** [atoi] is [strtol] without its errors. *)
Definition atoi (text : list Z) : Z := (strtol text).1.1.

Definition query_parse_int (text : list Z) (min_value max_value : Z) : option Z :=
  match text with
  | [] => None
  | _ =>
    let '(parsed, rest, erange) := strtol text in
    if erange || negb (bool_decide (rest = [])) then None
    else if (parsed <? min_value) || (max_value <? parsed) then None
    else Some parsed
  end.
Definition query_parse_u32 (text : list Z) : option Z :=
  match text with
  | [] => None
  | c :: _ =>
    if c =? 45 then None
    else
      let '(parsed, rest, erange) := strtoul text in
      if erange || negb (bool_decide (rest = [])) || (4294967295 <? parsed) then None
      else Some parsed
  end.

(** ** The cookie *)

(** [strchr] and the two parts around it. *)
Fixpoint split_at (c : Z) (l : list Z) : list Z * option (list Z) :=
  match l with
  | [] => ([], None)
  | x :: l => if x =? c then ([], Some l) else let '(a, b) := split_at c l in (x :: a, b)
  end.
Fixpoint skip_separators (l : list Z) : list Z :=
  match l with c :: l' => if (c =? 32) || (c =? 59) then skip_separators l' else l | [] => [] end.
(** The loop of [http_cookie_get_value] over the entries of the header. *)
Fixpoint cookie_scan (fuel : nat) (header name : list Z) : option (list Z) :=
  match fuel with
  | O => None
  | S fuel =>
    match skip_separators header with
    | [] => None
    | h =>
      let '(entry, rest) := split_at 59 h in
      let found := match split_at 61 entry with
                   | (key, Some value) => if bool_decide (key = name) then Some value else None
                   | (_, None) => None
                   end in
      match found with
      | Some value => Some value
      | None => match rest with Some rest => cookie_scan fuel rest name | None => None end
      end
    end
  end.

Definition HTTP_HEADER_BUFFER_SIZE : Z := 256.
(** [http_get_header_value]: [value] is the header of the request. *)
Definition http_get_header_value (value : option (list Z)) (size : Z) : option (list Z) :=
  match value with
  | None => None
  | Some v => let len := Z.of_nat (length v) in if (len =? 0) || (size <? len + 1) then None else Some v
  end.
Definition http_cookie_get_value (header : option (list Z)) (name : list Z) (size : nat) : option (list Z) :=
  h ← http_get_header_value header HTTP_HEADER_BUFFER_SIZE;
  cut size <$> cookie_scan (S (length h)) h name.

(** ** JSON *)

(** A buffer of [size] bytes whose first bytes are [out]; [None] when the text
    does not fit with its terminator. *)
Definition append_text (size : Z) (text out : list Z) : option (list Z) :=
  if size <=? Z.of_nat (length out) then None
  else if size - Z.of_nat (length out) <=? Z.of_nat (length text) then None
  else Some (out ++ text).
(** [written] is what [vsnprintf] gives for the format. *)
Definition append_format (size : Z) (written out : list Z) : option (list Z) :=
  if size <=? Z.of_nat (length out) then None
  else if size - Z.of_nat (length out) <=? Z.of_nat (length written) then None
  else Some (out ++ written).
Definition hex_digit_lower (x : Z) : Z := if x <? 10 then 48 + x else 87 + x.
(** One byte of [append_json_string]. *)
Definition append_json_byte (size c : Z) (out : list Z) : option (list Z) :=
  if c =? 34 then append_text size [92; 34] out
  else if c =? 92 then append_text size [92; 92] out
  else if c =? 8 then append_text size [92; 98] out
  else if c =? 12 then append_text size [92; 102] out
  else if c =? 10 then append_text size [92; 110] out
  else if c =? 13 then append_text size [92; 114] out
  else if c =? 9 then append_text size [92; 116] out
  else if c <? 32 then append_format size [92; 117; 48; 48; hex_digit_lower (c / 16); hex_digit_lower (c mod 16)] out
  else append_format size [c] out.
Fixpoint append_json_bytes (size : Z) (text out : list Z) : option (list Z) :=
  match text with
  | [] => Some out
  | c :: text => out ← append_json_byte size c out; append_json_bytes size text out
  end.
Definition append_json_string (size : Z) (text out : list Z) : option (list Z) :=
  out ← append_text size [34] out;
  out ← append_json_bytes size text out;
  append_text size [34] out.

(** RFC 8259: the characters of a string and what follows its closing quote;
    [\u] only for the characters of one byte. *)
Definition json_simple_escape (c : Z) : option Z :=
  if c =? 34 then Some 34 else if c =? 92 then Some 92 else if c =? 47 then Some 47 else if c =? 98 then Some 8
  else if c =? 102 then Some 12 else if c =? 110 then Some 10 else if c =? 114 then Some 13 else if c =? 116 then Some 9 else None.
Fixpoint json_characters (l : list Z) : option (list Z * list Z) :=
  match l with
  | [] => None
  | c :: l =>
    if c =? 34 then Some ([], l)
    else if c =? 92 then
      match l with
      | [] => None
      | e :: l =>
        if e =? 117 then
          match l with
          | a :: (b :: (h :: (lo :: l))) =>
            if (a =? 48) && (b =? 48) && isxdigit h && isxdigit lo && (xdigit_pair h lo <? 128)
            then r ← json_characters l; Some (xdigit_pair h lo :: r.1, r.2) else None
          | _ => None
          end
        else x ← json_simple_escape e; r ← json_characters l; Some (x :: r.1, r.2)
      end
    else if c <? 32 then None
    else r ← json_characters l; Some (c :: r.1, r.2)
  end.
Definition json_string (l : list Z) : option (list Z * list Z) :=
  match l with c :: l => if c =? 34 then json_characters l else None | [] => None end.

(** ** What the helpers promise *)

Lemma url_encode_no_zero s : Forall (fun b => is_u8 b) s -> 0 ∉ url_encode s.
Proof.
  intros Hs Hin. apply list_elem_of_bind in Hin as (b & Hb & Hbs). rewrite Forall_forall in Hs. specialize (Hs b Hbs).
  pose proof (every_byte (fun b => forallb (fun x => negb (x =? 0)) (url_encode_byte b) || (b =? 0)) ltac:(by vm_compute) b Hs) as He.
  cbn beta in He. apply orb_prop in He as [He|He%Z.eqb_eq].
  - rewrite forallb_forall in He. specialize (He 0 ltac:(by apply list_elem_of_In)). done.
  - subst b. unfold url_encode_byte in Hb. cbn in Hb. rewrite !elem_of_cons in Hb. by destruct Hb as [|[|[|?%not_elem_of_nil]]].
Qed.

Lemma decoded_form s rest : Forall (fun b => is_u8 b) s -> 0 ∉ s ->
  let buf := url_encode s ++ 0 :: rest in
  cstr (http_url_decode_inplace buf) = s /\ length (http_url_decode_inplace buf) = length buf.
Proof.
  intros Hs Hz buf. unfold http_url_decode_inplace.
  destruct (decode_inplace_spec (S (length buf)) buf 0 0 (url_encode s) rest) as (Hl & _ & tail & Hd);
    [done|by apply url_encode_no_zero|lia|unfold buf; rewrite length_app; lia|].
  cbv zeta in *. rewrite drop_0 in Hd. split; [|done]. rewrite Hd, url_decode_encode by done. by apply cstr_app_zero.
Qed.

(** What a form sends is what the handlers get: decoding in place, within the
    buffer, the encoding of any text leaves that text. *)
Theorem form_value_decoded s rest (Hs : Forall (fun b => is_u8 b) s) (Hz : 0 ∉ s) :
  let buf := url_encode s ++ 0 :: rest in
  cstr (http_url_decode_inplace buf) = s /\ length (http_url_decode_inplace buf) = length buf.
Proof. by apply decoded_form. Qed.

Lemma append_text_spec size text out out' : append_text size text out = Some out' ->
  out' = out ++ text /\ Z.of_nat (length out') < size.
Proof.
  unfold append_text. repeat case_match; try done. intros [= <-]. split; [done|]. rewrite length_app. lia.
Qed.
Lemma append_text_fits size text out : Z.of_nat (length out + length text) < size -> append_text size text out = Some (out ++ text).
Proof.
  intros Hl. unfold append_text. destruct (Z.leb_spec size (Z.of_nat (length out))); [lia|].
  by destruct (Z.leb_spec (size - Z.of_nat (length out)) (Z.of_nat (length text))); [lia|].
Qed.
Lemma append_format_text size text out : append_format size text out = append_text size text out.
Proof. done. Qed.

(** The bytes one character becomes. *)
Definition json_escape (c : Z) : list Z :=
  if c =? 34 then [92; 34] else if c =? 92 then [92; 92] else if c =? 8 then [92; 98] else if c =? 12 then [92; 102]
  else if c =? 10 then [92; 110] else if c =? 13 then [92; 114] else if c =? 9 then [92; 116]
  else if c <? 32 then [92; 117; 48; 48; hex_digit_lower (c / 16); hex_digit_lower (c mod 16)] else [c].
Lemma append_json_byte_text size c out : append_json_byte size c out = append_text size (json_escape c) out.
Proof. unfold append_json_byte, json_escape. by repeat case_match. Qed.
Lemma length_escape c : (length (json_escape c) <= 6)%nat.
Proof. unfold json_escape. repeat case_match; cbn; lia. Qed.

(** Reading one escaped character back. *)
Lemma json_characters_escape c rest : is_u8 c ->
  json_characters (json_escape c ++ rest) = r ← json_characters rest; Some (c :: r.1, r.2).
Proof.
  intros Hc. unfold json_escape.
  repeat (match goal with |- context [if ?x =? ?n then _ else _] => destruct (Z.eqb_spec x n) as [->|?] end; [done|]).
  destruct (Z.ltb_spec c 32) as [Hlt|Hge].
  - pose proof (every_byte (fun c => negb (c <? 32) || (isxdigit (hex_digit_lower (c / 16)) && isxdigit (hex_digit_lower (c mod 16)) &&
      (xdigit_pair (hex_digit_lower (c / 16)) (hex_digit_lower (c mod 16)) =? c))) ltac:(by vm_compute) c Hc) as He.
    cbn beta in He. destruct (Z.ltb_spec c 32); [|lia]. cbn [negb orb] in He. apply andb_prop in He as [[H1 H2]%andb_prop H3%Z.eqb_eq].
    cbn [app json_characters]. rewrite H1, H2, H3. destruct (Z.ltb_spec c 128); [done|lia].
  - cbn [app json_characters]. destruct (Z.eqb_spec c 34); [done|]. destruct (Z.eqb_spec c 92); [done|].
    by destruct (Z.ltb_spec c 32); [lia|].
Qed.

Lemma append_json_bytes_spec size text out out' : append_json_bytes size text out = Some out' ->
  out' = out ++ (text ≫= json_escape) /\ (text = [] \/ Z.of_nat (length out') < size).
Proof.
  revert out. induction text as [|c text IH]; intros out; cbn [append_json_bytes].
  - intros [= <-]. rewrite app_nil_r. by split; [|left].
  - rewrite append_json_byte_text. destruct (append_text _ _ _) as [o|] eqn:E; cbn; [|done].
    destruct (append_text_spec _ _ _ _ E) as [-> Hl]. intros Ho. destruct (IH _ Ho) as [-> Hl'].
    split; [by rewrite <- app_assoc|]. right. destruct Hl' as [->|]; [|done]. cbn. by rewrite app_nil_r.
Qed.
Lemma append_json_bytes_fits size text out : Z.of_nat (length out + 6 * length text) < size -> is_Some (append_json_bytes size text out).
Proof.
  revert out. induction text as [|c text IH]; intros out Hl; cbn [append_json_bytes]; [done|].
  pose proof (length_escape c). cbn [length] in Hl. rewrite append_json_byte_text, append_text_fits by lia. cbn.
  apply IH. rewrite length_app. lia.
Qed.
Lemma json_characters_bytes text rest : Forall (fun b => is_u8 b) text ->
  json_characters ((text ≫= json_escape) ++ 34 :: rest) = Some (text, rest).
Proof.
  induction 1 as [|c text Hc Ht IH]; [done|]. change ((c :: text) ≫= json_escape) with (json_escape c ++ (text ≫= json_escape)).
  by rewrite <- app_assoc, json_characters_escape, IH.
Qed.

Lemma length_escaped text : (length (text ≫= json_escape) <= 6 * length text)%nat.
Proof.
  induction text as [|c text IH]; [done|]. change ((c :: text) ≫= json_escape) with (json_escape c ++ (text ≫= json_escape)).
  rewrite length_app. pose proof (length_escape c). cbn [length]. lia.
Qed.
Definition json_literal (text : list Z) : list Z := 34 :: (text ≫= json_escape) ++ [34].
Lemma append_json_string_fits size text out : Z.of_nat (length out + 6 * length text + 2) < size ->
  append_json_string size text out = Some (out ++ json_literal text).
Proof.
  intros Hlt. pose proof (length_escaped text). unfold append_json_string. rewrite append_text_fits by (cbn [length]; lia). cbn [mbind option_bind].
  destruct (append_json_bytes_fits size text (out ++ [34])) as [o Ho]; [rewrite length_app; cbn; lia|]. rewrite Ho. cbn [mbind option_bind].
  destruct (append_json_bytes_spec _ _ _ _ Ho) as [-> _]. rewrite append_text_fits by (rewrite !length_app; cbn [length]; lia).
  by rewrite <- !app_assoc.
Qed.
Lemma length_literal text : (length (json_literal text) <= 6 * length text + 2)%nat.
Proof. unfold json_literal. cbn [length]. rewrite length_app. pose proof (length_escaped text). cbn. lia. Qed.


(** Decimal digits and back. *)
Lemma digits_decimal fuel x tail : 0 <= x < 10 ^ Z.of_nat fuel -> (0 < fuel)%nat -> digits (decimal_digits fuel x tail) 0 = digits tail x.
Proof.
  revert x tail. induction fuel as [|fuel IH]; intros x tail Hx Hf; [lia|]. cbn [decimal_digits]. cbv zeta.
  assert (isdigit (48 + x mod 10) = true) as Hd by (unfold isdigit; apply andb_true_intro; split; apply Z.leb_le; word_lia).
  destruct (Z.eqb_spec (x / 10) 0) as [H0|H0].
  - cbn [digits]. rewrite Hd. f_equal. word_lia.
  - assert (0 < fuel)%nat by (destruct fuel; [cbn in Hx; word_lia|lia]).
    rewrite IH; [|rewrite Nat2Z.inj_succ, Z.pow_succ_r in Hx by lia; word_lia|done].
    cbn [digits]. rewrite Hd. f_equal. word_lia.
Qed.
Lemma decimal_head fuel x tail : 0 <= x -> exists d l, decimal_digits (S fuel) x tail = d :: l /\ isdigit d = true.
Proof.
  revert x tail. induction fuel as [|fuel IH]; intros x tail Hx; cbn [decimal_digits]; cbv zeta;
    assert (isdigit (48 + x mod 10) = true) as Hd by (unfold isdigit; apply andb_true_intro; split; apply Z.leb_le; word_lia).
  - case_match; eauto.
  - case_match; [eauto|]. apply (IH (x / 10)). word_lia.
Qed.
Lemma isdigit_not_space d : isdigit d = true -> isspace d = false /\ (d =? 45) = false /\ (d =? 43) = false.
Proof.
  unfold isdigit, isspace. intros [?%Z.leb_le ?%Z.leb_le]%andb_prop.
  destruct (Z.eqb_spec d 32), (Z.leb_spec 9 d), (Z.leb_spec d 13), (Z.eqb_spec d 45), (Z.eqb_spec d 43); try lia; done.
Qed.
Lemma scan_decimal n : 0 <= n < 10 ^ 20 -> scan_number (decimal n) = Some (false, n, []).
Proof.
  intros Hn. pose proof (digits_decimal 20 n [] ltac:(lia) ltac:(lia)) as Hd. unfold decimal in *.
  destruct (decimal_head 19 n [] ltac:(lia)) as (d & l & He & Hdig). rewrite He in *.
  destruct (isdigit_not_space d Hdig) as (H1 & H2 & H3). unfold scan_number. cbn [skip_spaces]. rewrite H1. cbn [sign]. rewrite H2, H3.
  by rewrite Hdig, Hd.
Qed.
Lemma scan_negative n : 0 <= n < 10 ^ 20 -> scan_number (45 :: decimal n) = Some (true, n, []).
Proof.
  intros Hn. pose proof (digits_decimal 20 n [] ltac:(lia) ltac:(lia)) as Hd. unfold decimal in *.
  destruct (decimal_head 19 n [] ltac:(lia)) as (d & l & He & Hdig). rewrite He in *. unfold scan_number.
  change (skip_spaces (45 :: d :: l)) with (45 :: d :: l). change (sign (45 :: d :: l)) with (true, d :: l).
  cbv iota beta. by rewrite Hdig, Hd.
Qed.

Lemma decimal_not_signed n : 0 <= n -> exists d l, decimal n = d :: l /\ (d =? 45) = false.
Proof. intros Hn. destruct (decimal_head 19 n [] Hn) as (d & l & He & Hd). exists d, l. split; [done|]. by apply isdigit_not_space. Qed.
Lemma parse_int_text lo hi n : is_i32 lo -> is_i32 hi -> lo <= n <= hi ->
  query_parse_int (if n <? 0 then 45 :: decimal (- n) else decimal n) lo hi = Some n.
Proof.
  intros Hlo Hhi Hn. destruct (Z.ltb_spec n 0).
  - unfold query_parse_int, strtol. rewrite scan_negative by lia. rewrite Z.opp_involutive.
    destruct (Z.ltb_spec n (-2147483648)), (Z.ltb_spec 2147483647 n); try lia. cbn.
    by destruct (Z.ltb_spec n lo), (Z.ltb_spec hi n); try lia.
  - unfold query_parse_int, strtol. rewrite scan_decimal by lia. destruct (decimal_not_signed n ltac:(lia)) as (d & l & -> & _).
    destruct (Z.ltb_spec n (-2147483648)), (Z.ltb_spec 2147483647 n); try lia. cbn.
    by destruct (Z.ltb_spec n lo), (Z.ltb_spec hi n); try lia.
Qed.

(** A number in a query is read as it is written and only in its range: the
    decimal digits of any number between the bounds give that number, also with
    a minus sign, and nothing outside the bounds is ever accepted. *)
Theorem query_number_round_trip lo hi (Hlo : is_i32 lo) (Hhi : is_i32 hi) :
  (forall n, lo <= n <= hi -> query_parse_int (if n <? 0 then 45 :: decimal (- n) else decimal n) lo hi = Some n) /\
  (forall text v, query_parse_int text lo hi = Some v -> lo <= v <= hi) /\
  (forall n, is_u32 n -> query_parse_u32 (decimal n) = Some n).
Proof.
  split_and!.
  - intros n Hn. by apply parse_int_text.
  - intros text v. unfold query_parse_int. destruct text; [done|]. destruct (strtol _) as [[p r] e]. case_match; [done|].
    destruct (Z.ltb_spec p lo), (Z.ltb_spec hi p); cbn; try done. intros [= <-]. lia.
  - intros n Hn. unfold query_parse_u32, strtoul. rewrite scan_decimal by lia. destruct (decimal_not_signed n ltac:(lia)) as (d & l & -> & ->).
    destruct (Z.ltb_spec 4294967295 n); [lia|]. cbn. by destruct (Z.ltb_spec 4294967295 n); [lia|].
Qed.

(** The header a browser sends for its cookies. *)
Fixpoint cookie_header (es : list (list Z * list Z)) : list Z :=
  match es with
  | [] => []
  | [(k, v)] => k ++ (61 :: v)
  | (k, v) :: es => k ++ (61 :: v ++ (59 :: 32 :: cookie_header es))
  end.
Definition cookie_ok (e : list Z * list Z) : Prop := (59 ∉ e.1) /\ (61 ∉ e.1) /\ (32 ∉ e.1) /\ (59 ∉ e.2).

Lemma split_at_found c a b : c ∉ a -> split_at c (a ++ c :: b) = (a, Some b).
Proof.
  induction a as [|x a IH]; intros Ha; cbn; [by rewrite Z.eqb_refl|]. apply not_elem_of_cons in Ha as [Hx Ha].
  destruct (Z.eqb_spec x c); [congruence|]. by rewrite IH.
Qed.
Lemma split_at_none c a : c ∉ a -> split_at c a = (a, None).
Proof.
  induction a as [|x a IH]; intros Ha; cbn; [done|]. apply not_elem_of_cons in Ha as [Hx Ha].
  destruct (Z.eqb_spec x c); [congruence|]. by rewrite IH.
Qed.
Lemma skip_none k l : 59 ∉ k -> 32 ∉ k -> skip_separators (k ++ 61 :: l) = k ++ 61 :: l.
Proof.
  destruct k as [|c k]; [done|]. intros [H1 _]%not_elem_of_cons [H2 _]%not_elem_of_cons. cbn.
  by destruct (Z.eqb_spec c 32), (Z.eqb_spec c 59); try congruence.
Qed.
Lemma cookie_scan_skip fuel l name : cookie_scan fuel (32 :: l) name = cookie_scan fuel l name.
Proof. by destruct fuel. Qed.

Lemma cookie_scan_spec es name fuel : Forall cookie_ok es -> (length es < fuel)%nat ->
  cookie_scan fuel (cookie_header es) name = (fun e => e.2.2) <$> list_find (fun e => e.1 = name) es.
Proof.
  intros Hes. revert fuel. induction Hes as [|[k v] es (H1 & H2 & H3 & H4) Hes IH]; intros fuel Hf; (destruct fuel as [|fuel]; [cbn in Hf; lia|]).
  - done.
  - cbn [fst snd length] in *.
    assert (exists l, cookie_header ((k, v) :: es) = k ++ 61 :: l /\
      split_at 59 (k ++ 61 :: l) = (k ++ 61 :: v, match es with [] => None | _ => Some (32 :: cookie_header es) end)) as (l & -> & Hl).
    { destruct es as [|e es]; [exists v|exists (v ++ 59 :: 32 :: cookie_header (e :: es))]; (split; [done|]).
      - apply split_at_none. rewrite elem_of_app, elem_of_cons. by intros [|[|]].
      - replace (k ++ 61 :: v ++ 59 :: 32 :: cookie_header (e :: es)) with ((k ++ 61 :: v) ++ 59 :: 32 :: cookie_header (e :: es)) by (by rewrite <- app_assoc).
        apply split_at_found. rewrite elem_of_app, elem_of_cons. by intros [|[|]]. }
    cbn [cookie_scan]. rewrite skip_none by done. revert Hl.
    destruct (k ++ 61 :: l) as [|c r] eqn:Hr; [by destruct k|]. intros ->. rewrite split_at_found by done. cbn [list_find].
    case_bool_decide as Hk; case_decide as Hd; cbn [fst] in Hd; try done. destruct es as [|e es]; [done|].
    rewrite cookie_scan_skip, IH by lia. rewrite <- !option_fmap_compose || idtac. by destruct (list_find _ (e :: es)) as [[]|].
Qed.

Lemma length_cookie_header es : Forall cookie_ok es -> (length es <= length (cookie_header es))%nat.
Proof.
  induction 1 as [|[k v] es _ Hes IH]; [done|]. destruct es as [|e es].
  - cbn. rewrite length_app. cbn. lia.
  - change (cookie_header ((k, v) :: e :: es)) with (k ++ 61 :: v ++ 59 :: 32 :: cookie_header (e :: es)).
    rewrite length_app. cbn [length] in *. rewrite length_app. cbn [length]. lia.
Qed.

(** The session cookie is found among the others: in the header a browser
    sends, the value given is the one of the first cookie with that name, and
    none when there is none. *)
Theorem cookie_found es name size (Hes : Forall cookie_ok es) (Hne : es <> [])
    (Hl : Z.of_nat (length (cookie_header es)) < HTTP_HEADER_BUFFER_SIZE) :
  http_cookie_get_value (Some (cookie_header es)) name size = (fun e => cut size e.2.2) <$> list_find (fun e => e.1 = name) es.
Proof.
  unfold http_cookie_get_value, http_get_header_value. pose proof (length_cookie_header es Hes) as Hle.
  destruct (Z.eqb_spec (Z.of_nat (length (cookie_header es))) 0) as [H0|_].
  { destruct es; [done|]. cbn [length] in *. lia. }
  destruct (Z.ltb_spec HTTP_HEADER_BUFFER_SIZE (Z.of_nat (length (cookie_header es)) + 1)); [lia|]. cbn [orb mbind option_bind].
  rewrite cookie_scan_spec by (try done; lia). by destruct (list_find _ es).
Qed.

(** ** Concrete runs *)

Lemma form_value_decoded_witness :
  let buf := url_encode (bytes_of "Bomba 1 & 2") ++ [0; 7; 7] in cstr (http_url_decode_inplace buf) = bytes_of "Bomba 1 & 2".
Proof.
  intros buf. apply (form_value_decoded (bytes_of "Bomba 1 & 2") [7; 7]).
  - vm_compute. repeat constructor; by intros.
  - apply (bool_decide_unpack (0 ∉ bytes_of "Bomba 1 & 2")). by vm_compute.
Defined.


Lemma query_number_round_trip_witness : query_parse_int (45 :: decimal 40) (-50) 50 = Some (-40).
Proof. destruct (query_number_round_trip (-50) 50) as (H & _ & _); [by split..|]. apply (H (-40)). by split. Defined.

Lemma cookie_found_witness :
  http_cookie_get_value (Some (bytes_of "theme=dark; endap_session=5f3a")) (bytes_of "endap_session") 65 = Some (bytes_of "5f3a").
Proof.
  apply (cookie_found [(bytes_of "theme", bytes_of "dark"); (bytes_of "endap_session", bytes_of "5f3a")] (bytes_of "endap_session") 65); [|done|by vm_compute].
  rewrite !Forall_cons. unfold cookie_ok. split_and!; try done; apply (bool_decide_unpack _); by vm_compute.
Defined.
