(* ===== verification/InstallationMap.v ===== *)
(** * The installation map
    ([components/runtime/http_server/http_server.c], [installation_map_*])

    Names and codes the installer gives to channels of this and of other nodes:
    a table of 64 entries in RAM, kept in flash, by which the web interface finds
    the output a command is for. *)

From Stdlib Require Import String.
From S2P Require Import Prelude Persist.
Local Open Scope string_scope.
Local Open Scope list_scope.
Local Open Scope Z_scope.

Definition INSTALLATION_MAP_VERSION : Z := 2.
Definition INSTALLATION_MAP_VERSION_V1 : Z := 1.
Definition INSTALLATION_MAP_MAX_ENTRIES : Z := 64.
Definition INSTALLATION_MAP_V1_MAX_ENTRIES : Z := 128.
Definition INSTALLATION_MAP_LOCAL_CODE_LEN : nat := 12.
Definition INSTALLATION_MAP_GLOBAL_CODE_LEN : nat := 24.
Definition INSTALLATION_MAP_ALIAS_LEN : nat := 40.
Definition INSTALLATION_MAP_ROOM_LEN : nat := 20.
Definition INSTALLATION_MAP_GROUP_LEN : nat := 20.
Definition INSTALLATION_MAP_VISIBILITY_LEN : nat := 12.
Definition INSTALLATION_MAP_NOTES_LEN : nat := 48.

(** ** Data *)

(** [installation_map_entry_t], 188 bytes; a text is its array. *)
Record map_entry := MapEntry {
  me_node_id : Z; me_kind : Z; me_reserved : Z; me_channel_id : Z;
  me_local_code : list Z; me_global_code : list Z; me_alias : list Z; me_room : list Z; me_group : list Z; me_visibility : list Z; me_notes : list Z;
  me_sort_order : Z; me_reserved2 : Z;
}.
#[export] Instance map_entry_rebuild : Rebuild map_entry := fun e =>
  MapEntry (me_node_id e) (me_kind e) (me_reserved e) (me_channel_id e) (me_local_code e) (me_global_code e) (me_alias e) (me_room e)
    (me_group e) (me_visibility e) (me_notes e) (me_sort_order e) (me_reserved2 e).
Definition map_entry_zero : map_entry :=
  MapEntry 0 0 0 0 (replicate INSTALLATION_MAP_LOCAL_CODE_LEN 0) (replicate INSTALLATION_MAP_GLOBAL_CODE_LEN 0)
    (replicate INSTALLATION_MAP_ALIAS_LEN 0) (replicate INSTALLATION_MAP_ROOM_LEN 0) (replicate INSTALLATION_MAP_GROUP_LEN 0)
    (replicate INSTALLATION_MAP_VISIBILITY_LEN 0) (replicate INSTALLATION_MAP_NOTES_LEN 0) 0 0.

Definition sizeof_map_entry : nat := 188.
Definition map_entry_head (e : map_entry) : list (nat * Z) := [(4%nat, me_node_id e); (1%nat, me_kind e); (1%nat, me_reserved e); (2%nat, me_channel_id e)].
Definition map_entry_tail (e : map_entry) : list (nat * Z) := [(2%nat, u16 (me_sort_order e)); (2%nat, me_reserved2 e)].
Definition map_entry_bytes (e : map_entry) : list Z :=
  pack (map_entry_head e) ++ (me_local_code e ++ me_global_code e ++ me_alias e ++ me_room e ++ me_group e ++ me_visibility e ++ me_notes e)
    ++ pack (map_entry_tail e).
Definition text_at (off n : nat) (d : list Z) : list Z := take n (drop off d).
Definition map_entry_of (d : list Z) : map_entry :=
  MapEntry (field 0 4 d) (field 4 1 d) (field 5 1 d) (field 6 2 d)
    (text_at 8 12 d) (text_at 20 24 d) (text_at 44 40 d) (text_at 84 20 d) (text_at 104 20 d) (text_at 124 12 d) (text_at 136 48 d)
    (i16 (field 184 2 d)) (field 186 2 d).

(** [installation_map_blob_t], 12040 bytes. *)
Record imap := Imap { im_version : Z; im_count : Z; im_reserved : Z; im_entries : list map_entry }.
#[export] Instance imap_rebuild : Rebuild imap := fun m => Imap (im_version m) (im_count m) (im_reserved m) (im_entries m).
Definition imap_zero : imap := Imap INSTALLATION_MAP_VERSION 0 0 (replicate (Z.to_nat INSTALLATION_MAP_MAX_ENTRIES) map_entry_zero).
Definition sizeof_map_blob : Z := 12040.
Definition map_blob_head (m : imap) : list (nat * Z) := [(4%nat, im_version m); (2%nat, im_count m); (2%nat, im_reserved m)].
Definition map_blob_bytes (m : imap) : list Z := pack (map_blob_head m) ++ array_bytes 64 sizeof_map_entry (map_entry_bytes <$> im_entries m).
Definition map_blob_of (d : list Z) : imap :=
  Imap (field 0 4 d) (field 4 2 d) (field 6 2 d) ((fun i => map_entry_of (array_slot 8 sizeof_map_entry i d)) <$> seq 0 64).

(** [installation_map_blob_v1_t], 10760 bytes: 128 entries of 84 bytes, which
    end with the alias. *)
Definition sizeof_map_blob_v1 : Z := 10760.
Definition sizeof_map_entry_v1 : nat := 84.
(** The entry that is copied from an old one: its texts end at their
    terminator. *)
Definition map_entry_of_v1 (d : list Z) : map_entry :=
  map_entry_zero <| me_node_id := field 0 4 d |> <| me_kind := field 4 1 d |> <| me_channel_id := field 6 2 d |>
    <| me_local_code := snprintf_into (me_local_code map_entry_zero) (cstr (text_at 8 12 d)) |>
    <| me_global_code := snprintf_into (me_global_code map_entry_zero) (cstr (text_at 20 24 d)) |>
    <| me_alias := snprintf_into (me_alias map_entry_zero) (cstr (text_at 44 40 d)) |>.
Definition map_blob_of_v1 (d : list Z) : imap :=
  let copy_count := Z.min (Z.min (field 4 2 d) INSTALLATION_MAP_V1_MAX_ENTRIES) INSTALLATION_MAP_MAX_ENTRIES in
  imap_zero <| im_count := copy_count |>
    <| im_entries := ((fun i => map_entry_of_v1 (array_slot 8 sizeof_map_entry_v1 i d)) <$> seq 0 (Z.to_nat copy_count))
         ++ replicate (64 - Z.to_nat copy_count) map_entry_zero |>.

(** The table and its namespace. *)
Record mapw {N : Type} := Mapw { the_map : imap; map_nvs : N }.
Arguments mapw : clear implicits.
Arguments Mapw {N}.
#[export] Instance mapw_rebuild {N} : Rebuild (mapw N) := fun w => Mapw (the_map w) (map_nvs w).

(** ** Operations *)

Section installation_map.
Context {N : Type} `{Nvs N}.
Abbreviation M := (st (mapw N)).
Implicit Types (w : mapw N) (m : imap) (e : map_entry).

Definition on_map (f : imap -> imap) : M () := modify (fun w => w <| the_map := f (the_map w) |>).
Definition on_map_nvs {A} (k : st N A) : M A := on_part map_nvs (fun n w => w <| map_nvs := n |>) k.

Definition installation_map_save : M bool :=
  opened ← on_map_nvs nvs_open_rw;
  if negb opened then mret false
  else
    m ← gets the_map;
    set ← on_map_nvs (nvs_set_blob (map_blob_bytes m));
    if negb set then mret false else on_map_nvs nvs_commit.

Definition installation_map_load : M bool :=
  on_map (fun _ => imap_zero);;
  blob ← gets (fun w => nvs_get_blob (map_nvs w));
  match blob with
  | None => mret false
  | Some d =>
    let len := Z.of_nat (length d) in
    if (len =? 0) || (len <? 4) then mret false
    else if (field 0 4 d =? INSTALLATION_MAP_VERSION) && (len =? sizeof_map_blob) then
      let m := map_blob_of d in
      if im_count m <=? INSTALLATION_MAP_MAX_ENTRIES then on_map (fun _ => m);; mret true else on_map (fun _ => imap_zero);; mret false
    else if (field 0 4 d =? INSTALLATION_MAP_VERSION_V1) && (len =? sizeof_map_blob_v1) then
      on_map (fun _ => map_blob_of_v1 d);; installation_map_save;; mret true
    else on_map (fun _ => imap_zero);; mret false
  end.

(** The entries in use. *)
Definition live m : list map_entry := take (Z.to_nat (im_count m)) (im_entries m).

(** [local_code] is a text, empty when it is not given. *)
Definition entry_matches (node_id kind channel_id : Z) (local_code : list Z) e : bool :=
  (me_node_id e =? node_id) && (me_kind e =? kind) && (me_channel_id e =? channel_id) &&
  (bool_decide (local_code = []) || bool_decide (cstr (me_local_code e) = local_code)).
Definition installation_map_find (node_id kind channel_id : Z) (local_code : list Z) m : option nat :=
  find_idx (entry_matches node_id kind channel_id local_code) (live m).

(** What a resource is called: its global code, or its local one. *)
Definition resource_name e : list Z := if bool_decide (cstr (me_global_code e) = []) then cstr (me_local_code e) else cstr (me_global_code e).
Definition installation_map_find_by_resource_id (resource_id : list Z) m : option map_entry :=
  if bool_decide (resource_id = []) then None
  else find_idx (fun e => bool_decide (resource_name e = resource_id)) (live m) ≫= fun i => live m !! i.

(** The texts of an upsert. *)
Record map_texts := MapTexts { mt_local : list Z; mt_global : list Z; mt_alias : list Z; mt_room : list Z; mt_group : list Z; mt_visibility : list Z; mt_notes : list Z }.
Definition write_entry (t : map_texts) (sort_order : Z) e : map_entry :=
  e <| me_local_code := snprintf_into (me_local_code e) (mt_local t) |>
    <| me_global_code := snprintf_into (me_global_code e) (mt_global t) |>
    <| me_alias := snprintf_into (me_alias e) (mt_alias t) |>
    <| me_room := snprintf_into (me_room e) (mt_room t) |>
    <| me_group := snprintf_into (me_group e) (mt_group t) |>
    <| me_visibility := snprintf_into (me_visibility e) (mt_visibility t) |>
    <| me_notes := snprintf_into (me_notes e) (mt_notes t) |>
    <| me_sort_order := sort_order |>.
Definition is_removal (t : map_texts) (sort_order : Z) : bool :=
  bool_decide (mt_global t = []) && bool_decide (mt_alias t = []) && bool_decide (mt_room t = []) && bool_decide (mt_group t = []) &&
  bool_decide (mt_visibility t = []) && bool_decide (mt_notes t = []) && (sort_order =? 0).

(** [for (i = index + 1; i < count; i++) entries[i - 1] = entries[i];] *)
Definition close_gap (index : nat) m : imap :=
  m <| im_entries := foldl (fun l i => match l !! i with Some e => <[(i - 1)%nat := e]> l | None => l end) (im_entries m)
                       (seq (S index) (Z.to_nat (im_count m) - S index)) |>.
Definition remove_at (index : nat) m : imap :=
  let m := close_gap index m in
  let m := if 0 <? im_count m then m <| im_count := im_count m - 1 |> else m in
  m <| im_entries := zset (im_entries m) (im_count m) map_entry_zero |>.

Definition installation_map_upsert (node_id kind channel_id : Z) (t : map_texts) (sort_order : Z) : M bool :=
  m ← gets the_map;
  let target := installation_map_find node_id kind channel_id (mt_local t) m in
  if is_removal t sort_order then
    match target with
    | None => mret true
    | Some index => on_map (remove_at index);; installation_map_save
    end
  else
    match target with
    | Some index =>
      on_map (fun m => m <| im_entries := alter (write_entry t sort_order) index (im_entries m) |>);; installation_map_save
    | None =>
      if INSTALLATION_MAP_MAX_ENTRIES <=? im_count m then mret false
      else
        on_map (fun m =>
          let e := map_entry_zero <| me_node_id := node_id |> <| me_kind := kind |> <| me_channel_id := channel_id |> in
          m <| im_entries := zset (im_entries m) (im_count m) (write_entry t sort_order e) |> <| im_count := im_count m + 1 |>);;
        installation_map_save
    end.

Definition installation_map_replace_node (old_id new_id : Z) : M bool :=
  m ← gets the_map;
  if existsb (fun e => me_node_id e =? old_id) (live m) then
    on_map (fun m => m <| im_entries :=
      ((fun e => if me_node_id e =? old_id then e <| me_node_id := new_id |> else e) <$> live m) ++ drop (Z.to_nat (im_count m)) (im_entries m) |>);;
    installation_map_save
  else mret true.

(** The bytes of the suffix, in UTF-8, and the copy of an entry. *)
Definition COPY_SUFFIX : list Z := [32; 40; 67; 195; 179; 112; 105; 97; 41].
Definition cloned_entry (new_id : Z) e : map_entry :=
  let e := e <| me_node_id := new_id |> <| me_global_code := <[0%nat := 0]> (me_global_code e) |> in
  match cstr (me_alias e) with
  | [] => e
  | _ => e <| me_alias := snprintf_into (me_alias e) (take 28 (cstr (me_alias e)) ++ COPY_SUFFIX) |>
  end.
(** The loop over the first [original_count] entries; [break] when the table is
    full.  [count] is [new_count]. *)
Fixpoint clone_loop (old_id new_id : Z) (todo : list map_entry) (l : list map_entry) (count : Z) (changed : bool) : list map_entry * Z * bool :=
  match todo with
  | [] => (l, count, changed)
  | e :: todo =>
    if me_node_id e =? old_id then
      if INSTALLATION_MAP_MAX_ENTRIES <=? count then (l, count, changed)
      else clone_loop old_id new_id todo (zset l count (cloned_entry new_id e)) (count + 1) true
    else clone_loop old_id new_id todo l count changed
  end.
Definition installation_map_clone_node (old_id new_id : Z) : M bool :=
  m ← gets the_map;
  let '(l, count, changed) := clone_loop old_id new_id (live m) (im_entries m) (im_count m) false in
  if changed then on_map (fun m => m <| im_entries := l |> <| im_count := count |>);; installation_map_save
  else mret true.
End installation_map.

(** ** Well-formed tables *)

Definition bytes_u8 (l : list Z) : Prop := Forall (fun b => is_u8 b) l.
Definition text_wf (n : nat) (t : list Z) : Prop := length t = n /\ bytes_u8 t.
Definition map_entry_wf (e : map_entry) : Prop :=
  (is_u32 (me_node_id e) /\ is_u8 (me_kind e) /\ is_u8 (me_reserved e) /\ is_u16 (me_channel_id e) /\ is_i16 (me_sort_order e) /\ is_u16 (me_reserved2 e)) /\
  (text_wf 12 (me_local_code e) /\ text_wf 24 (me_global_code e) /\ text_wf 40 (me_alias e) /\ text_wf 20 (me_room e) /\
   text_wf 20 (me_group e) /\ text_wf 12 (me_visibility e) /\ text_wf 48 (me_notes e)).
Definition map_wf (m : imap) : Prop :=
  im_version m = INSTALLATION_MAP_VERSION /\ 0 <= im_count m <= 64 /\ is_u16 (im_reserved m) /\ length (im_entries m) = 64%nat /\ Forall map_entry_wf (im_entries m).

Lemma bytes_zeros n : bytes_u8 (replicate n 0).
Proof. apply Forall_replicate. lia. Qed.
Lemma map_entry_zero_wf : map_entry_wf map_entry_zero.
Proof.
  split; cbn -[replicate]; [lia|]. split_and!; (split; [by rewrite length_replicate|apply bytes_zeros]).
Qed.
Lemma map_zero_wf : map_wf imap_zero.
Proof. split_and!; try done. apply Forall_replicate, map_entry_zero_wf. Qed.

Lemma snprintf_wf n dst s : (0 < n)%nat -> text_wf n dst -> bytes_u8 s -> text_wf n (snprintf_into dst s).
Proof.
  intros Hn [Hl Hd] Hs. split; [rewrite length_snprintf; lia|]. unfold snprintf_into, cut. cbv zeta. apply Forall_app. split; [by apply Forall_take|].
  constructor; [lia|by apply Forall_drop].
Qed.

(** *** The blob *)

Lemma length_map_entry_bytes e : map_entry_wf e -> length (map_entry_bytes e) = sizeof_map_entry.
Proof.
  intros (_ & (H1 & _) & (H2 & _) & (H3 & _) & (H4 & _) & (H5 & _) & (H6 & _) & (H7 & _)). unfold map_entry_bytes.
  rewrite !length_app, !length_pack, H1, H2, H3, H4, H5, H6, H7. done.
Qed.
(** A member of a structure made of consecutive parts. *)
Lemma part_at parts k c : parts !! k = Some c -> text_at (sum_list (length <$> take k parts)) (length c) (concat parts) = c.
Proof.
  revert parts. induction k as [|k IH]; intros [|p parts] Hk; cbn in Hk; try done.
  - injection Hk as ->. unfold text_at. cbn. by rewrite drop_0, take_app_length.
  - unfold text_at in *. cbn. rewrite <- drop_drop, drop_app_length. by apply IH.
Qed.
Definition map_entry_parts (e : map_entry) : list (list Z) :=
  [pack (map_entry_head e); me_local_code e; me_global_code e; me_alias e; me_room e; me_group e; me_visibility e; me_notes e; pack (map_entry_tail e)].
Lemma map_entry_bytes_parts e : map_entry_bytes e = concat (map_entry_parts e).
Proof. unfold map_entry_bytes, map_entry_parts. cbn [concat]. by rewrite <- !app_assoc, app_nil_r. Qed.
Lemma field_text off n k d : (off + n <= k)%nat -> field off n (take k d) = field off n d.
Proof. apply field_take. Qed.

Lemma map_entry_of_bytes e : map_entry_wf e -> map_entry_of (map_entry_bytes e) = e.
Proof.
  intros [Hr Hx]. rewrite map_entry_bytes_parts.
  assert (forall k c off n, map_entry_parts e !! k = Some c -> off = sum_list (length <$> take k (map_entry_parts e)) -> n = length c ->
    text_at off n (concat (map_entry_parts e)) = c) as Hp by (intros k c off n Hk -> ->; by apply part_at).
  destruct Hx as ((H1 & _) & (H2 & _) & (H3 & _) & (H4 & _) & (H5 & _) & (H6 & _) & (H7 & _)).
  assert (forall off n, (off + n <= 8)%nat -> field off n (concat (map_entry_parts e)) = field off n (pack (map_entry_head e))) as Hhead.
  { intros off n Hn. rewrite <- (field_take off n 8) by done. by rewrite <- (Hp 0%nat (pack (map_entry_head e)) 0%nat 8%nat). }
  assert (forall off n, (off + n <= 4)%nat -> field (184 + off) n (concat (map_entry_parts e)) = field off n (pack (map_entry_tail e))) as Htail.
  { intros off n Hn. rewrite field_drop, <- (field_take off n 4) by done.
    rewrite <- (Hp 8%nat (pack (map_entry_tail e)) 184%nat 4%nat); [done|done| |done].
    cbn -[pack]. rewrite length_pack, H1, H2, H3, H4, H5, H6, H7. done. }
  pose proof (Htail 0%nat 2%nat ltac:(lia)) as Ht0. pose proof (Htail 2%nat 2%nat ltac:(lia)) as Ht2. cbn [Nat.add] in Ht0, Ht2.
  unfold map_entry_of. rewrite !Hhead, Ht0, Ht2 by lia.
  rewrite (Hp 1%nat (me_local_code e) 8%nat 12%nat), (Hp 2%nat (me_global_code e) 20%nat 24%nat), (Hp 3%nat (me_alias e) 44%nat 40%nat),
    (Hp 4%nat (me_room e) 84%nat 20%nat), (Hp 5%nat (me_group e) 104%nat 20%nat), (Hp 6%nat (me_visibility e) 124%nat 12%nat),
    (Hp 7%nat (me_notes e) 136%nat 48%nat) by (try done; cbn -[pack]; rewrite ?length_pack, ?H1, ?H2, ?H3, ?H4, ?H5, ?H6; done).
  assert (field 0 4 (pack (map_entry_head e)) = me_node_id e) as -> by (packed 0%nat; [done|lia]).
  assert (field 4 1 (pack (map_entry_head e)) = me_kind e) as -> by (packed 1%nat; [done|lia]).
  assert (field 5 1 (pack (map_entry_head e)) = me_reserved e) as -> by (packed 2%nat; [done|lia]).
  assert (field 6 2 (pack (map_entry_head e)) = me_channel_id e) as -> by (packed 3%nat; [done|lia]).
  assert (field 0 2 (pack (map_entry_tail e)) = u16 (me_sort_order e)) as -> by (packed 0%nat; [done|apply u16_range]).
  assert (field 2 2 (pack (map_entry_tail e)) = me_reserved2 e) as -> by (packed 1%nat; [done|lia]).
  replace (i16 (u16 (me_sort_order e))) with (me_sort_order e) by word_lia. by destruct e.
Qed.

Lemma map_blob_length m : map_wf m -> Z.of_nat (length (map_blob_bytes m)) = sizeof_map_blob.
Proof.
  intros (_ & _ & _ & Hl & He). unfold map_blob_bytes. rewrite length_app, length_pack, length_array_bytes.
  - done.
  - apply Forall_fmap. eapply Forall_impl; [done|]. intros e. apply length_map_entry_bytes.
  - by rewrite length_fmap, Hl.
Qed.
Lemma map_blob_field m off n : (off + n <= 8)%nat -> field off n (map_blob_bytes m) = field off n (pack (map_blob_head m)).
Proof.
  intros Hn. unfold map_blob_bytes. rewrite <- (field_take off n 8) by done. rewrite take_app_length' by (by rewrite length_pack). done.
Qed.
Lemma map_blob_of_bytes m : map_wf m -> map_blob_of (map_blob_bytes m) = m.
Proof.
  intros Hm. pose proof Hm as (Hv & Hc & Hr & Hl & He). unfold map_blob_of. rewrite !map_blob_field by lia.
  assert (field 0 4 (pack (map_blob_head m)) = im_version m) as -> by (packed 0%nat; [done|rewrite Hv; done]).
  assert (field 4 2 (pack (map_blob_head m)) = im_count m) as -> by (packed 1%nat; [done|lia]).
  assert (field 6 2 (pack (map_blob_head m)) = im_reserved m) as -> by (packed 2%nat; [done|lia]).
  assert ((fun i => map_entry_of (array_slot 8 sizeof_map_entry i (map_blob_bytes m))) <$> seq 0 64 = im_entries m) as ->; [|by destruct m].
  apply list_eq. intros i. rewrite list_lookup_fmap. destruct (decide (i < 64)%nat) as [Hi|Hi].
  - rewrite lookup_seq_lt by done. destruct (lookup_lt_is_Some_2 (im_entries m) i ltac:(lia)) as [e Hei]. rewrite Hei.
    change (Some (map_entry_of (array_slot 8 sizeof_map_entry i (map_blob_bytes m))) = Some e). f_equal. unfold map_blob_bytes.
    pose proof (array_slot_app 64 sizeof_map_entry (map_entry_bytes <$> im_entries m) (pack (map_blob_head m)) [] i (map_entry_bytes e)) as Hs.
    rewrite app_nil_r in Hs. change (length (pack (map_blob_head m))) with 8%nat in Hs. rewrite Hs.
    + apply map_entry_of_bytes. by eapply Forall_lookup_1.
    + apply Forall_fmap. eapply Forall_impl; [done|]. intros e'. apply length_map_entry_bytes.
    + by rewrite list_lookup_fmap, Hei.
  - rewrite lookup_seq_ge by lia. by rewrite lookup_ge_None_2 by lia.
Qed.

(** *** The array and the entries in use *)

Lemma map_live_length m : map_wf m -> length (live m) = Z.to_nat (im_count m).
Proof. intros (_ & Hc & _ & Hl & _). unfold live. rewrite length_take, Hl. lia. Qed.
Lemma find_live p m i : find_idx p (live m) = Some i -> (i < Z.to_nat (im_count m))%nat.
Proof. intros Hf%find_idx_lt. unfold live in Hf. rewrite length_take in Hf. lia. Qed.

Lemma shift_down (l : list map_entry) s n : (0 < s)%nat -> (s + n <= length l)%nat ->
  foldl (fun l i => match l !! i with Some e => <[(i - 1)%nat := e]> l | None => l end) l (seq s n) =
    take (s - 1) l ++ take n (drop s l) ++ drop (s - 1 + n) l.
Proof.
  revert l s. induction n as [|n IH]; intros l s Hs Hl; cbn [seq foldl].
  - rewrite Nat.add_0_r. change (take 0 (drop s l)) with (@nil map_entry). by rewrite app_nil_l, take_drop.
  - destruct (lookup_lt_is_Some_2 l s ltac:(lia)) as [e He]. rewrite He, IH by (rewrite ?length_insert; lia).
    replace (S s - 1)%nat with s by lia. rewrite !drop_insert_lt by lia.
    replace s with (S (s - 1)) at 1 by lia.
    rewrite (take_S_r _ (s - 1) e) by (apply list_lookup_insert_eq; lia). rewrite take_insert_ge by lia.
    rewrite (drop_S l e s He). cbn [take]. rewrite <- app_assoc. cbn [app]. do 3 f_equal. f_equal. lia.
Qed.

Lemma remove_live m i : map_wf m -> (i < Z.to_nat (im_count m))%nat ->
  live (remove_at i m) = delete i (live m) /\ map_wf (remove_at i m).
Proof.
  intros (Hv & Hc & Hr & Hl & He) Hi. unfold remove_at, close_gap. cbn [im_count update].
  rewrite shift_down by lia. set (l := im_entries m) in *. set (c := Z.to_nat (im_count m)) in *.
  destruct (Z.ltb_spec 0 (im_count m)); [|lia].
  replace (S i - 1)%nat with i by lia. cbn -[take drop]. set (l' := take i l ++ take (c - S i) (drop (S i) l) ++ drop (i + (c - S i)) l).
  assert (length l' = 64%nat) as Hl' by (subst l'; rewrite !length_app, !length_take, !length_drop; lia).
  assert (take (c - 1) l' = delete i (take c l)) as Ht.
  { subst l'. rewrite take_app_ge by (rewrite length_take; lia). rewrite length_take.
    rewrite take_app_le by (rewrite length_take, length_drop; lia). rewrite take_take.
    rewrite (delete_take_drop (take c l)). rewrite take_take, skipn_firstn_comm. f_equal; [f_equal; lia|].
    f_equal. lia. }
  split.
  - unfold live. cbn -[take]. replace (Z.to_nat (im_count m - 1)) with (c - 1)%nat by lia.
    unfold zset. destruct (Z.leb_spec 0 (im_count m - 1)); [|lia]. rewrite take_insert_ge by lia. done.
  - split_and!; try done; cbn -[take drop]; try lia; [by rewrite length_zset|].
    unfold zset. destruct (Z.leb_spec 0 (im_count m - 1)); [|lia]. apply Forall_insert; [|apply map_entry_zero_wf].
    subst l'. rewrite !Forall_app. split_and!; by repeat first [apply Forall_take | apply Forall_drop].
Qed.

Lemma alter_live m i f : map_wf m -> (forall e, map_entry_wf e -> map_entry_wf (f e)) -> (i < Z.to_nat (im_count m))%nat ->
  let m' := m <| im_entries := alter f i (im_entries m) |> in live m' = alter f i (live m) /\ map_wf m'.
Proof.
  intros (Hv & Hc & Hr & Hl & He) Hf Hi m'. split.
  - change (take (Z.to_nat (im_count m)) (alter f i (im_entries m)) = alter f i (live m)). unfold live.
    apply list_eq. intros j. rewrite lookup_take. case_decide as Hj.
    + destruct (decide (i = j)) as [->|]; [|rewrite !list_lookup_alter_ne by done; by rewrite lookup_take_lt].
      rewrite !list_lookup_alter_eq. by rewrite lookup_take_lt.
    + rewrite list_lookup_alter_ne by lia. by rewrite lookup_take_ge by lia.
  - refine (conj Hv (conj Hc (conj Hr (conj _ _)))); [by etransitivity; [apply length_alter|]|].
    apply Forall_alter; [done|]. intros e Hei _. apply Hf. by eapply Forall_lookup_1.
Qed.
Lemma append_live m e : map_wf m -> map_entry_wf e -> im_count m < 64 ->
  let m' := m <| im_entries := zset (im_entries m) (im_count m) e |> <| im_count := im_count m + 1 |> in live m' = live m ++ [e] /\ map_wf m'.
Proof.
  intros (Hv & Hc & Hr & Hl & He) Hw Hlt m'. split.
  - unfold live. cbn -[take]. unfold zset. destruct (Z.leb_spec 0 (im_count m)); [|lia].
    rewrite Z2Nat.inj_add by lia. change (Z.to_nat 1) with 1%nat. rewrite Nat.add_1_r.
    rewrite (take_S_r _ _ e) by (apply list_lookup_insert_eq; lia). by rewrite take_insert_ge by lia.
  - split_and!; try done; cbn; try lia; [by rewrite length_zset|].
    unfold zset. destruct (Z.leb_spec 0 (im_count m)); [|lia]. by apply Forall_insert.
Qed.

(** The texts of a request. *)
Definition texts_wf (t : map_texts) : Prop :=
  bytes_u8 (mt_local t) /\ bytes_u8 (mt_global t) /\ bytes_u8 (mt_alias t) /\ bytes_u8 (mt_room t) /\ bytes_u8 (mt_group t) /\
  bytes_u8 (mt_visibility t) /\ bytes_u8 (mt_notes t).
Lemma write_entry_wf t s e : texts_wf t -> is_i16 s -> map_entry_wf e -> map_entry_wf (write_entry t s e).
Proof.
  intros (T1 & T2 & T3 & T4 & T5 & T6 & T7) Hs [(?&?&?&?&?&?) (E1 & E2 & E3 & E4 & E5 & E6 & E7)].
  split; [cbn; lia|]. split_and!; by (apply snprintf_wf; [lia|done|done]).
Qed.

(** ** What the operations do *)

Section contract.
Context {N : Type} `{NvsLaws N}.
Implicit Types (w : mapw N).

Lemma save_keeps_map w : the_map (installation_map_save w).2 = the_map w.
Proof.
  unfold installation_map_save, on_map_nvs, on_part, mbind, st_bind, gets, mret, st_ret. destruct (nvs_open_rw _) as [[|] n1]; cbn; [|done].
  destruct (nvs_set_blob _ _) as [[|] n2]; cbn; [|done]. by destruct (nvs_commit _).
Qed.
Lemma save_stores w : (installation_map_save w).1 = true -> nvs_get_blob (map_nvs (installation_map_save w).2) = Some (map_blob_bytes (the_map w)).
Proof.
  unfold installation_map_save, on_map_nvs, on_part, mbind, st_bind, gets, mret, st_ret. destruct (nvs_open_rw _) as [[|] n1]; cbn; [|done].
  destruct (nvs_set_blob _ _) as [[|] n2] eqn:Hs; cbn; [|done]. pose proof (nvs_commit_durable _ _ _ Hs) as Hd.
  destruct (nvs_commit n2) as [c n3]. cbn in *. intros ->. by apply Hd.
Qed.

Lemma load_saved n m m0 : map_wf m -> nvs_get_blob n = Some (map_blob_bytes m) -> installation_map_load (Mapw m0 n) = (true, Mapw m n).
Proof.
  intros Hw Hn. unfold installation_map_load, on_map. rewrite run_bind_modify, run_bind_gets. cbn [map_nvs update].
  rewrite Hn. cbv zeta. rewrite map_blob_length by done.
  change ((sizeof_map_blob =? 0) || (sizeof_map_blob <? 4)) with false. cbv iota.
  assert (field 0 4 (map_blob_bytes m) = INSTALLATION_MAP_VERSION) as ->.
  { rewrite map_blob_field by lia. destruct Hw as (Hv & _). rewrite <- Hv. packed 0%nat; [done|rewrite Hv; done]. }
  rewrite !Z.eqb_refl. cbn [andb]. rewrite map_blob_of_bytes by done.
  destruct Hw as (_ & Hc & _). destruct (Z.leb_spec (im_count m) INSTALLATION_MAP_MAX_ENTRIES) as [_|Hgt]; [done|].
  unfold INSTALLATION_MAP_MAX_ENTRIES in Hgt. lia.
Qed.

(** The installation map survives a restart: what a successful save wrote is
    the table the next boot loads, entry by entry. *)
Theorem installation_map_survives_reboot w (Hw : map_wf (the_map w)) (Hs : (installation_map_save w).1 = true) m0 :
  let '(loaded, w') := installation_map_load (Mapw m0 (map_nvs (installation_map_save w).2)) in
  loaded = true /\ the_map w' = the_map w.
Proof. by rewrite (load_saved _ _ m0 Hw (save_stores w Hs)). Qed.

(** What an upsert makes of the entries in use; [None] when the table is full. *)
Definition upserted (node kind channel : Z) (t : map_texts) (sort : Z) (l : list map_entry) : option (list map_entry) :=
  match find_idx (entry_matches node kind channel (mt_local t)) l with
  | Some i => Some (if is_removal t sort then delete i l else alter (write_entry t sort) i l)
  | None =>
    if is_removal t sort then Some l
    else if decide (length l < 64)%nat
    then Some (l ++ [write_entry t sort (map_entry_zero <| me_node_id := node |> <| me_kind := kind |> <| me_channel_id := channel |>)])
    else None
  end.

Lemma upsert_spec node kind channel t sort w : map_wf (the_map w) -> texts_wf t -> is_u32 node -> is_u8 kind -> is_u16 channel -> is_i16 sort ->
  let '(ok, w') := installation_map_upsert node kind channel t sort w in
  map_wf (the_map w') /\
  match upserted node kind channel t sort (live (the_map w)) with
  | Some l => live (the_map w') = l /\
      (ok = true -> is_removal t sort = true \/ nvs_get_blob (map_nvs w') = Some (map_blob_bytes (the_map w')))
  | None => ok = false /\ w' = w
  end.
Proof.
  intros Hw Ht Hn Hk Hch Hs. unfold installation_map_upsert, upserted, on_map. rewrite run_bind_gets. unfold installation_map_find.
  assert (forall m, map_wf m -> let '(ok, w') := (modify (fun w => w <| the_map := m |>);; installation_map_save) w in
    map_wf (the_map w') /\ the_map w' = m /\ (ok = true -> nvs_get_blob (map_nvs w') = Some (map_blob_bytes m))) as Hsave.
  { intros m Hm. rewrite run_bind_modify. pose proof (save_keeps_map (w <| the_map := m |>)) as Hkm. pose proof (save_stores (w <| the_map := m |>)) as Hst.
    destruct (installation_map_save _) as [ok w']. cbn in *. rewrite Hkm. by split_and!. }
  pose proof (map_live_length _ Hw) as Hll.
  destruct (find_idx _ (live (the_map w))) as [i|] eqn:Hf.
  - pose proof (find_live _ _ _ Hf) as Hi. destruct (is_removal t sort).
    + destruct (remove_live _ i Hw Hi) as [Hl Hw']. specialize (Hsave _ Hw'). rewrite run_bind_modify in Hsave |- *.
      destruct (installation_map_save _) as [ok w'] eqn:Hsv. destruct Hsave as (Hm & -> & Hok). split; [done|]. split; [done|]. intros. by right; apply Hok.
    + destruct (alter_live _ i (write_entry t sort) Hw (fun e => write_entry_wf t sort e Ht Hs) Hi) as [Hl Hw']. cbv zeta in *.
      specialize (Hsave _ Hw'). rewrite run_bind_modify in Hsave |- *.
      destruct (installation_map_save _) as [ok w'] eqn:Hsv. destruct Hsave as (Hm & -> & Hok). split; [done|]. split; [done|]. intros. by right; apply Hok.
  - destruct (is_removal t sort); [by split_and!; [|..|left]|].
    unfold INSTALLATION_MAP_MAX_ENTRIES. destruct (Z.leb_spec 64 (im_count (the_map w))).
    + rewrite decide_False by lia. done.
    + rewrite decide_True by (destruct Hw as (_ & ? & _); lia).
      set (e := write_entry _ _ _).
      assert (map_entry_wf e) as Hwe.
      { subst e. apply write_entry_wf; [done|done|]. destruct map_entry_zero_wf as [_ Hz]. split; [cbn; lia|exact Hz]. }
      destruct (append_live _ e Hw Hwe ltac:(lia)) as [Hl Hw']. cbv zeta in *.
      specialize (Hsave _ Hw'). rewrite run_bind_modify in Hsave |- *.
      destruct (installation_map_save _) as [ok w'] eqn:Hsv. destruct Hsave as (Hm & -> & Hok). split; [done|]. split; [done|]. intros. by right; apply Hok.
Qed.

(** *** Finding what was named *)

Definition is_channel (node kind channel : Z) (e : map_entry) : Prop := me_node_id e = node /\ me_kind e = kind /\ me_channel_id e = channel.
Lemma entry_matches_channel node kind channel local e : entry_matches node kind channel local e = true -> is_channel node kind channel e.
Proof. unfold entry_matches, is_channel. rewrite !andb_true_iff, !Z.eqb_eq. tauto. Qed.
Lemma resource_by_name g m (P : map_entry -> Prop) : g <> [] -> (exists e, e ∈ live m /\ resource_name e = g) ->
  (forall e, e ∈ live m -> resource_name e = g -> P e) -> exists e, installation_map_find_by_resource_id g m = Some e /\ P e.
Proof.
  intros Hg (e & He & Hn) HP. unfold installation_map_find_by_resource_id. rewrite bool_decide_false by done.
  destruct (find_idx_is_Some (fun e => bool_decide (resource_name e = g)) (live m) e He) as [i Hi]; [by apply bool_decide_true|].
  rewrite Hi. cbn. apply find_idx_Some in Hi as (e' & He' & Hb & _). rewrite He'. exists e'. split; [done|].
  apply HP; [by eapply list_elem_of_lookup_2|]. by apply bool_decide_eq_true in Hb.
Qed.
Lemma written_name t s e : map_entry_wf e -> mt_global t <> [] -> 0 ∉ mt_global t -> (length (mt_global t) < 24)%nat ->
  resource_name (write_entry t s e) = mt_global t.
Proof.
  intros [_ (_ & [Hl _] & _)] Hg Hz Hlt. unfold resource_name, write_entry. cbn -[snprintf_into cstr].
  rewrite cstr_snprintf by (rewrite ?Hl; done). by rewrite bool_decide_false.
Qed.

(** What a successful upsert that is not a removal leaves: the entry it wrote,
    every other entry as it was, and the table in flash. *)
Lemma upsert_written node kind channel t sort w : map_wf (the_map w) -> texts_wf t -> is_u32 node -> is_u8 kind -> is_u16 channel -> is_i16 sort ->
  is_removal t sort = false -> (installation_map_upsert node kind channel t sort w).1 = true ->
  let w' := (installation_map_upsert node kind channel t sort w).2 in
  map_wf (the_map w') /\ nvs_get_blob (map_nvs w') = Some (map_blob_bytes (the_map w')) /\
  exists e0, is_channel node kind channel e0 /\ map_entry_wf e0 /\ write_entry t sort e0 ∈ live (the_map w') /\
    forall e, e ∈ live (the_map w') -> e = write_entry t sort e0 \/ e ∈ live (the_map w).
Proof.
  intros Hw Ht Hn Hk Hc Hs Hrem Hok. pose proof (upsert_spec node kind channel t sort w Hw Ht Hn Hk Hc Hs) as Hu.
  destruct (installation_map_upsert node kind channel t sort w) as [ok w']. cbn in Hok. subst ok. cbn zeta. cbn [snd].
  destruct Hu as [Hw' Hu]. split; [done|]. unfold upserted in Hu. rewrite Hrem in Hu.
  set (fresh := map_entry_zero <| me_node_id := node |> <| me_kind := kind |> <| me_channel_id := channel |>) in Hu.
  assert (map_entry_wf fresh) as Hfw by (destruct map_entry_zero_wf as [_ Hzw]; split; [cbn; lia|exact Hzw]).
  destruct (find_idx _ (live (the_map w))) as [i|] eqn:Hf.
  - apply find_idx_Some in Hf as (e0 & Hi & Hm & _). destruct Hu as [-> Hst]. split; [by destruct (Hst eq_refl)|]. exists e0.
    assert (e0 ∈ live (the_map w)) as Hel by by eapply list_elem_of_lookup_2. split_and!; [by eapply entry_matches_channel| | |].
    + destruct Hw as (_ & _ & _ & _ & Hall). rewrite Forall_forall in Hall. apply Hall. by eapply elem_of_take in Hel as (? & ? & ?); eapply list_elem_of_lookup_2.
    + eapply list_elem_of_lookup_2. by rewrite list_lookup_alter_eq, Hi.
    + intros e (j & Hj)%list_elem_of_lookup_1. destruct (decide (i = j)) as [->|Hij].
      * rewrite list_lookup_alter_eq, Hi in Hj. injection Hj as <-. by left.
      * rewrite list_lookup_alter_ne in Hj by done. right. by eapply list_elem_of_lookup_2.
  - destruct (decide _); [|by destruct Hu]. destruct Hu as [-> Hst]. split; [by destruct (Hst eq_refl)|]. exists fresh.
    split_and!; [by split_and!|done| |].
    + apply elem_of_app. right. by apply list_elem_of_singleton.
    + intros e He. apply elem_of_app in He as [?|He]; [by right|]. left. by apply list_elem_of_singleton in He.
Qed.

(** C38: A channel that was given a global code no other entry is called by is
    found by that code, at once and after a restart: the code names the node,
    kind and channel it was given for. *)
Theorem named_channel_found node kind channel t sort w m0
    (Hw : map_wf (the_map w)) (Ht : texts_wf t) (Hn : is_u32 node) (Hk : is_u8 kind) (Hc : is_u16 channel) (Hs : is_i16 sort)
    (Hg : mt_global t <> []) (Hz : 0 ∉ mt_global t) (Hl : (length (mt_global t) < 24)%nat)
    (Hfree : forall e, e ∈ live (the_map w) -> resource_name e = mt_global t -> is_channel node kind channel e)
    (Hok : (installation_map_upsert node kind channel t sort w).1 = true) :
  let w' := (installation_map_upsert node kind channel t sort w).2 in
  let rebooted := (installation_map_load (Mapw m0 (map_nvs w'))).2 in
  exists e, installation_map_find_by_resource_id (mt_global t) (the_map w') = Some e /\
    installation_map_find_by_resource_id (mt_global t) (the_map rebooted) = Some e /\ is_channel node kind channel e.
Proof.
  cbn zeta. assert (is_removal t sort = false) as Hrem by (unfold is_removal; by rewrite bool_decide_false).
  destruct (upsert_written node kind channel t sort w Hw Ht Hn Hk Hc Hs Hrem Hok) as (Hw' & Hst & e0 & Hch & He0 & Hin & Hrest).
  destruct (resource_by_name (mt_global t) _ (is_channel node kind channel) Hg
    (ex_intro _ _ (conj Hin (written_name t sort e0 He0 Hg Hz Hl)))) as (e & He & Hp).
  - intros e He Hname. destruct (Hrest e He) as [->|Hold]; [exact Hch|by apply Hfree].
  - exists e. split; [done|]. split; [|done]. by rewrite (load_saved _ _ m0 Hw' Hst).
Qed.

(** *** Cloning a node *)

Lemma clone_loop_full old new todo l count changed : INSTALLATION_MAP_MAX_ENTRIES <= count -> clone_loop old new todo l count changed = (l, count, changed).
Proof.
  intros Hc. induction todo as [|e todo IH]; [done|]. cbn [clone_loop]. destruct (_ =? old); [|done]. by destruct (Z.leb_spec INSTALLATION_MAP_MAX_ENTRIES count); [|lia].
Qed.
(** Cloning a node into a full table answers success although no entry of
    the new node was made and nothing was stored. *)
Theorem clone_into_full_table_reports_success old new w (Hfull : im_count (the_map w) = INSTALLATION_MAP_MAX_ENTRIES) :
  installation_map_clone_node old new w = (true, w).
Proof.
  unfold installation_map_clone_node. rewrite run_bind_gets. by rewrite clone_loop_full by (rewrite Hfull; done).
Qed.
End contract.

Definition demo_texts : map_texts := MapTexts [81; 48] [66; 79; 77; 66; 65] [] [] [] [] [].
Definition demo_map : mapw flash := Mapw imap_zero None.
Definition demo_named : mapw flash := (installation_map_upsert 42 2 3 demo_texts 0 demo_map).2.

Lemma demo_texts_wf : texts_wf demo_texts.
Proof. by split_and!; repeat constructor. Qed.
Lemma installation_map_survives_reboot_witness :
  let '(loaded, w') := installation_map_load (Mapw imap_zero (map_nvs (installation_map_save demo_named).2)) in
  loaded = true /\ the_map w' = the_map demo_named.
Proof.
  refine (installation_map_survives_reboot demo_named _ _ imap_zero); [|vm_compute; reflexivity].
  exact (proj1 (upsert_written 42 2 3 demo_texts 0 demo_map map_zero_wf demo_texts_wf ltac:(lia) ltac:(lia) ltac:(lia) ltac:(lia) eq_refl eq_refl)).
Defined.
Lemma named_channel_found_witness :
  exists e, installation_map_find_by_resource_id [66; 79; 77; 66; 65] (the_map demo_named) = Some e /\ is_channel 42 2 3 e.
Proof.
  destruct (named_channel_found 42 2 3 demo_texts 0 demo_map imap_zero map_zero_wf demo_texts_wf) as (e & He & _ & Hc);
    try lia; try done.
  - by apply (bool_decide_unpack _); vm_compute.
  - cbn. lia.
  - intros e He. by apply not_elem_of_nil in He.
  - exists e. exact (conj He Hc).
Defined.
Lemma clone_into_full_table_reports_success_witness :
  installation_map_clone_node 1 2 (Mapw (imap_zero <| im_count := 64 |>) (None : flash)) = (true, Mapw (imap_zero <| im_count := 64 |>) None).
Proof. exact (clone_into_full_table_reports_success 1 2 (Mapw (imap_zero <| im_count := 64 |>) (None : flash)) eq_refl). Defined.
