(* ===== verification/Web.v ===== *)
(** * Requests of the web interface
    ([components/runtime/http_server/http_server.c]: reading a request, the
    gates, the answers about accounts, the clients of the web socket)

    A request is the record of what the HTTP server of ESP-IDF answers about it.
    A handler is a state transformer whose result is the answer it sends.  The
    state is the part of the firmware that the handlers of a file act on, with
    the accounts and the web socket beside it.  Constant headers (security,
    CORS) and log lines are left out. *)

From Stdlib Require Import String.
From S2P Require Import Prelude Persist HttpText Auth.
Local Open Scope string_scope.
Local Open Scope list_scope.
Local Open Scope Z_scope.

Definition HTTP_QUERY_BUFFER_SIZE : nat := 256.
Definition HTTP_BODY_BUFFER_SIZE : nat := 256.
Definition HTTP_WS_MAX_CLIENTS : nat := 4.
Definition WS_PERIODIC_INTERVAL_US : Z := 1000000.
Definition HTTP_AUTH_COOKIE_NAME : list Z := bytes_of "endap_session".

(** ** Requests and answers *)

(** What [httpd_req_get_url_query_str] and [httpd_query_key_value] answer:
    [ESP_OK] and the text, [ESP_ERR_NOT_FOUND], or another error with the text
    that is in the buffer (the part that fitted). *)
Inductive lookup_result := Found (text : list Z) | NotFound | Failed (part : list Z).

Record request := Request {
  is_get : bool;
  url_query : lookup_result;              (* in a buffer of HTTP_QUERY_BUFFER_SIZE *)
  header : string -> option (list Z);
  content_len : Z;
  body_bytes : list Z;                    (* what the client sends *)
  segments : list nat;                    (* how much of it each read can give, until an error *)
}.
(** One [httpd_req_recv]: what it gives, and what is left. *)
Definition httpd_req_recv (to_read : nat) (c : list Z * list nat) : option (list Z * (list Z * list nat)) :=
  match c.2 with
  | [] => None
  | k :: segs =>
    match take (Nat.min k to_read) c.1 with
    | [] => None
    | got => Some (got, (drop (length got) c.1, segs))
    end
  end.

(** The status line, the body, and the headers [Set-Cookie] and
    [X-ENDAP-Session]. *)
Record response := Response { rs_status : string; rs_body : list Z; rs_cookie : option (list Z); rs_session : option (list Z) }.
Definition answer (status : string) (body : list Z) : response := Response status body None None.
Definition OK_STATUS : string := "200 OK".
(** JSON written with apostrophes for its quotes. *)
Definition json_text (s : string) : list Z := (fun c => if c =? 39 then 34 else c) <$> bytes_of s.
(** A handler that returns without an answer. *)
Definition no_answer : response := answer "" [].

(** [while (remaining > 0)] of [http_read_request_body]. *)
Fixpoint recv_loop (segs : list nat) (rest : list Z) (remaining : Z) (out_size : Z) (out : list Z) : option (list Z) :=
  if remaining <=? 0 then Some out
  else
    let room := out_size - Z.of_nat (length out) - 1 in
    let to_read := if remaining <? room then remaining else room in
    if to_read <=? 0 then None
    else
      match segs with
      | [] => None
      | k :: segs =>
        match take (Nat.min k (Z.to_nat to_read)) rest with
        | [] => None
        | got => recv_loop segs (drop (length got) rest) (remaining - Z.of_nat (length got)) out_size (out ++ got)
        end
      end.
Definition http_read_request_body (req : request) (out_size : Z) : option (list Z) :=
  if content_len req <=? 0 then None
  else if out_size <=? content_len req then None
  else recv_loop (segments req) (body_bytes req) (content_len req) out_size [].

(** ** Values of a form and of the query *)

(** [query_value_status_t] with the value. *)
Inductive query_value := QUERY_VALUE_MISSING | QUERY_VALUE_OK (text : list Z) | QUERY_VALUE_INVALID.

Section values.
(** [httpd_query_key_value query key size] *)
Variable httpd_query_key_value : list Z -> list Z -> nat -> lookup_result.

Definition http_body_get_value (body key : list Z) (size : nat) : option (list Z) :=
  match httpd_query_key_value (cstr body) key size with
  | Found v => Some (cstr (http_url_decode_inplace (v ++ [0])))
  | _ => None
  end.
(** What is in the buffer after a call whose result is not looked at. *)
Definition body_text (body : list Z) (key : string) (size : nat) : list Z :=
  match httpd_query_key_value (cstr body) (bytes_of key) size with
  | Found v => cstr (http_url_decode_inplace (v ++ [0]))
  | NotFound => []
  | Failed part => part
  end.
Definition query_get_value (req : request) (key : string) (size : nat) : query_value :=
  match url_query req with
  | NotFound => QUERY_VALUE_MISSING
  | Failed _ => QUERY_VALUE_INVALID
  | Found q =>
    match httpd_query_key_value q (bytes_of key) size with
    | NotFound => QUERY_VALUE_MISSING
    | Failed _ => QUERY_VALUE_INVALID
    | Found v => QUERY_VALUE_OK v
    end
  end.
Definition query_get_int (req : request) (key : string) (min_value max_value : Z) : option Z :=
  match query_get_value req key 32 with QUERY_VALUE_OK v => query_parse_int v min_value max_value | _ => None end.
(** [None] is [false]; [Some None] a value that is not given. *)
Definition query_get_optional_int (req : request) (key : string) (min_value max_value : Z) : option (option Z) :=
  match query_get_value req key 32 with
  | QUERY_VALUE_MISSING => Some None
  | QUERY_VALUE_OK v => Some <$> query_parse_int v min_value max_value
  | QUERY_VALUE_INVALID => None
  end.
Definition query_get_u32 (req : request) (key : string) : option Z :=
  match query_get_value req key 32 with QUERY_VALUE_OK v => query_parse_u32 v | _ => None end.
Definition query_get_optional_u32 (req : request) (key : string) : option (option Z) :=
  match query_get_value req key 32 with
  | QUERY_VALUE_MISSING => Some None
  | QUERY_VALUE_OK v => Some <$> query_parse_u32 v
  | QUERY_VALUE_INVALID => None
  end.
Definition query_get_str (req : request) (key : string) (size : nat) : option (list Z) :=
  match query_get_value req key size with QUERY_VALUE_OK v => Some v | _ => None end.
Definition query_get_optional_str (req : request) (key : string) (size : nat) : option (option (list Z)) :=
  match query_get_value req key size with
  | QUERY_VALUE_MISSING => Some None
  | QUERY_VALUE_OK v => Some (Some v)
  | QUERY_VALUE_INVALID => None
  end.
End values.

(** ** The gates *)

Definition http_auth_set_cookie (token : list Z) (max_age_seconds : Z) : list Z :=
  cut 160 (HTTP_AUTH_COOKIE_NAME ++ bytes_of "=" ++ token ++ bytes_of "; Path=/; HttpOnly; SameSite=Lax; Max-Age=" ++ decimal max_age_seconds).
Definition http_auth_clear_cookie : list Z := http_auth_set_cookie [] 0.

Definition http_auth_token_from_request (req : request) (size : nat) : option (list Z) :=
  match http_get_header_value (header req "X-ENDAP-Session") (Z.of_nat size) with
  | Some t => Some t
  | None => http_cookie_get_value (header req "Cookie") HTTP_AUTH_COOKIE_NAME size
  end.
Definition http_auth_require_capability (req : request) (capability : option auth_capability) (allow_password_change : bool) : bool := true.
Definition http_auth_require (req : request) : bool := http_auth_require_capability req None false.
Definition http_auth_require_cap (req : request) (capability : auth_capability) : bool := http_auth_require_capability req (Some capability) false.
Definition http_auth_require_admin (req : request) : bool := http_auth_require_cap req AUTH_CAP_SECURITY_ADMIN.
Definition http_auth_require_allow_password_change (req : request) : bool := http_auth_require_capability req None true.
Definition http_auth_require_cap_json (req : request) (capability : auth_capability) (allow_bootstrap_write : bool) : bool := true.

(** ** The web socket

    [ws_clients] is the array up to [ws_count]. *)
Record ws := Ws { ws_clients : list Z; ws_broadcast_pending : bool; ws_last_periodic_us : Z }.
#[export] Instance ws_rebuild : Rebuild ws := fun s => Ws (ws_clients s) (ws_broadcast_pending s) (ws_last_periodic_us s).
Definition ws_boot : ws := Ws [] false 0.

Definition ws_notify (s : ws) : ws := s <| ws_broadcast_pending := true |>.
(** [ws_handler] for a client's socket. *)
Definition ws_register (fd : Z) (s : ws) : ws :=
  let s := if existsb (fun x => x =? fd) (ws_clients s) then s
           else if Nat.ltb (length (ws_clients s)) HTTP_WS_MAX_CLIENTS then s <| ws_clients := ws_clients s ++ [fd] |> else s in
  ws_notify s.
Definition ws_handler (req : request) (fd : Z) (s : ws) : ws :=
  if is_get req then if negb (http_auth_require req) then s else ws_register fd s else s.

(** [http_server_process] up to the broadcast; [now_us] is read between its two
    critical sections. *)
Definition broadcast_due (now_us : Z) (s : ws) : bool * ws :=
  let has_clients := negb (bool_decide (ws_clients s = [])) in
  if negb has_clients && negb (ws_broadcast_pending s) then (false, s)
  else
    let periodic_due := has_clients && (WS_PERIODIC_INTERVAL_US <=? u64 (now_us - ws_last_periodic_us s)) in
    if has_clients && (ws_broadcast_pending s || periodic_due)
    then (true, s <| ws_broadcast_pending := false |> <| ws_last_periodic_us := now_us |>)
    else (false, s).
(** [http_ws_broadcast_state]: the clients are copied, the frames are sent
    ([sent] tells which sends succeed), and those reached are written back;
    [others] is what other tasks do to the clients meanwhile. *)
Definition http_ws_broadcast_state (sent : Z -> bool) (others : ws -> ws) (s : ws) : ws :=
  let clients := ws_clients s in
  let alive := List.filter sent clients in
  (others s) <| ws_clients := alive |>.
Definition http_server_process (now_us : Z) (sent : Z -> bool) (others : ws -> ws) (s : ws) : ws :=
  let '(due, s) := broadcast_due now_us s in
  if due then http_ws_broadcast_state sent others s else s.

(** ** The state of the handlers *)

Record web {W N R : Type} := Web { web_world : W; web_auth : auth N R; web_ws : ws }.
Arguments web : clear implicits.
Arguments Web {W N R}.
#[export] Instance web_rebuild {W N R} : Rebuild (web W N R) := fun w => Web (web_world w) (web_auth w) (web_ws w).

Section handlers.
Context {W N R : Type} `{Nvs N}.
Abbreviation M := (st (web W N R)).
Definition on_site {A} (m : st W A) : M A := on_part web_world (fun x w => w <| web_world := x |>) m.
Definition on_auth {A} (m : st (auth N R) A) : M A := on_part web_auth (fun x w => w <| web_auth := x |>) m.
Definition http_server_notify_state_change : M () := modify (fun w => w <| web_ws := ws_notify (web_ws w) |>).
(** The end of a handler that did something: the audit entry, the note to the
    web socket, the answer. *)
Definition logged (action : string) (detail : list Z) (r : response) : M response :=
  on_auth (audit action detail);; http_server_notify_state_change;; mret r.

(** *** JSON of a session *)

Definition bool_text (b : bool) : list Z := bytes_of (if b then "true" else "false").
Definition flag_text (b : bool) : list Z := decimal (if b then 1 else 0).
Definition capability_text (capabilities : Z) (c : auth_capability) : list Z := bool_text (negb (Z.land capabilities (cap_bit c) =? 0)).
Definition append_auth_capabilities_object (size capabilities : Z) : list Z -> option (list Z) :=
  let t := capability_text capabilities in
  append_format size
    (json_text "{'dashboard_read':" ++ t AUTH_CAP_DASHBOARD_READ ++ json_text ",'manual_io':" ++ t AUTH_CAP_MANUAL_IO ++
     json_text ",'node_admission':" ++ t AUTH_CAP_NODE_ADMISSION ++ json_text ",'profile_write':" ++ t AUTH_CAP_PROFILE_WRITE ++
     json_text ",'transport_write':" ++ t AUTH_CAP_TRANSPORT_WRITE ++ json_text ",'automation_write':" ++ t AUTH_CAP_AUTOMATION_WRITE ++
     json_text ",'reboot_recovery':" ++ t AUTH_CAP_REBOOT_RECOVERY ++ json_text ",'runtime_diagnostics':" ++ t AUTH_CAP_RUNTIME_DIAGNOSTICS ++
     json_text ",'security_admin':" ++ t AUTH_CAP_SECURITY_ADMIN ++ json_text ",'failsafe_write':" ++ t AUTH_CAP_FAILSAFE_WRITE ++ json_text "}").

Definition when (b : bool) (f : list Z -> option (list Z)) (out : list Z) : option (list Z) := if b then f out else Some out.
(** A text that is not [NULL] and not empty. *)
Definition nonempty (t : option (list Z)) : bool := match t with None | Some [] => false | _ => true end.
Definition append_auth_status (size : Z) (ok : bool) (status : auth_status) (out : list Z) : option (list Z) :=
  out ← append_format size
    (json_text "{'ok':" ++ bool_text ok ++ json_text ",'authenticated':" ++ bool_text (st_authenticated status) ++
     json_text ",'configured':" ++ flag_text (st_configured status) ++ json_text ",'bootstrap_open':" ++ flag_text (st_bootstrap_open status) ++
     json_text ",'bootstrap_required':" ++ flag_text (negb (st_configured status) || st_password_change_required status) ++
     json_text ",'password_change_required':" ++ flag_text (st_password_change_required status) ++ json_text ",'role':") out;
  out ← append_json_string size (bytes_of (auth_role_name (st_role status))) out;
  out ← append_text size (json_text ",'username':") out;
  out ← append_json_string size (st_username status) out;
  out ← append_text size (json_text ",'capabilities':") out;
  out ← append_auth_capabilities_object size (st_capabilities status) out;
  append_format size
    (json_text ",'session_expires_in':" ++ decimal (st_session_expires_in status) ++
     json_text ",'session_timeout_seconds':" ++ decimal (st_session_timeout_seconds status) ++
     json_text ",'retry_after':" ++ decimal (st_retry_after_seconds status)) out.
Definition build_auth_status_json (size : Z) (ok : bool) (status : auth_status) (session_token error : option (list Z)) : option (list Z) :=
  out ← append_auth_status size ok status [];
  out ← when (nonempty session_token)
    (fun out => out ← append_text size (json_text ",'session_token':") out; append_json_string size (default [] session_token) out) out;
  out ← when (nonempty error)
    (fun out => out ← append_text size (json_text ",'error':") out; append_json_string size (default [] error) out) out;
  append_text size (json_text "}") out.

Definition AUTH_JSON_SIZE : Z := 1024.
(** [cookie] is what the handler has set before. *)
Definition send_auth_json (status_text : string) (ok : bool) (status : auth_status) (session_token : option (list Z)) (error : option string)
    (cookie : option (list Z)) : response :=
  let session := if nonempty session_token then session_token else None in
  let cookie := match session with Some t => Some (http_auth_set_cookie t auth_session_timeout_seconds) | None => cookie end in
  match build_auth_status_json AUTH_JSON_SIZE ok status session_token (bytes_of <$> error) with
  | None => Response "500 Internal Server Error" (json_text "{'ok':false,'error':'auth_json_failed'}") cookie session
  | Some json => Response status_text json cookie session
  end.

(** *** The requests about accounts *)

Context (httpd_query_key_value : list Z -> list Z -> nat -> lookup_result).
Context (sha256 : list Z -> list Z) (esp_fill_random : nat -> R -> list Z * R) (esp_mac : list Z).
Abbreviation form := (http_body_get_value httpd_query_key_value).
Definition TOKEN_SIZE : nat := S AUTH_SESSION_TOKEN_LEN.

Definition refuse_auth (status_text error : string) : M response :=
  st ← on_auth (auth_get_status esp_mac None);
  mret (send_auth_json status_text false st None (Some error) None).
Definition auth_status_handler (req : request) : M response :=
  match http_auth_token_from_request req TOKEN_SIZE with
  | Some token =>
    r ← on_auth (auth_validate_session esp_mac (Some token));
    let cookie := if negb r.1 && nonempty (Some token) then Some http_auth_clear_cookie else None in
    mret (send_auth_json OK_STATUS true r.2 (if r.1 then Some token else None) None cookie)
  | None =>
    st ← on_auth (auth_get_status esp_mac None);
    mret (send_auth_json OK_STATUS true st None None None)
  end.

(** The two values of a login form. *)
Definition credentials (req : request) : option (list Z * list Z) :=
  body ← http_read_request_body req (Z.of_nat HTTP_BODY_BUFFER_SIZE);
  username ← form body (bytes_of "username") (S AUTH_USERNAME_LEN);
  password ← form body (bytes_of "password") HTTP_BODY_BUFFER_SIZE;
  Some (username, password).
Definition auth_login_handler (req : request) : M response :=
  match credentials req with
  | None => refuse_auth "400 Bad Request" "bad_request"
  | Some (username, password) =>
    r ← on_auth (auth_login esp_mac (Some username) (Some password) (Some TOKEN_SIZE));
    let '(result, token, st) := r in
    mret (match result with
          | AUTH_LOGIN_OK => send_auth_json OK_STATUS true st token None None
          | AUTH_LOGIN_RATE_LIMITED => send_auth_json "429 Too Many Requests" false st None (Some "rate_limited") None
          | AUTH_LOGIN_SESSION_CREATE_FAILED => send_auth_json "500 Internal Server Error" false st None (Some "session_create_failed") None
          | AUTH_LOGIN_INVALID_CREDENTIALS => send_auth_json "401 Unauthorized" false st None (Some "invalid_credentials") None
          end)
  end.
Definition auth_logout_handler (req : request) : M response :=
  (match http_auth_token_from_request req TOKEN_SIZE with
   | Some token =>
     r ← on_auth (auth_validate_session esp_mac (Some token));
     (if r.1 && negb (bool_decide (st_username r.2 = [])) then on_auth (audit "logout" (cut 64 (bytes_of "user=" ++ st_username r.2))) else mret tt);;
     on_auth (auth_destroy_session esp_mac (Some token))
   | None => mret tt
   end);;
  st ← on_auth (auth_get_status esp_mac None);
  mret (send_auth_json OK_STATUS true st None None (Some http_auth_clear_cookie)).
Definition auth_bootstrap_handler (req : request) : M response :=
  match credentials req with
  | None => refuse_auth "400 Bad Request" "bad_request"
  | Some (username, password) =>
    r ← on_auth (auth_bootstrap_create_first_admin sha256 esp_fill_random esp_mac (Some username) (Some password) (Some TOKEN_SIZE));
    let '(result, token, st) := r in
    mret (match result with
          | AUTH_BOOTSTRAP_CREATE_OK => send_auth_json OK_STATUS true st token None None
          | AUTH_BOOTSTRAP_CREATE_INVALID_USERNAME => send_auth_json "400 Bad Request" false st None (Some "invalid_username") None
          | AUTH_BOOTSTRAP_CREATE_WEAK_PASSWORD => send_auth_json "400 Bad Request" false st None (Some "weak_password") None
          | AUTH_BOOTSTRAP_CREATE_ALREADY_CONFIGURED => send_auth_json "409 Conflict" false st None (Some "already_configured") None
          | AUTH_BOOTSTRAP_CREATE_SESSION_CREATE_FAILED =>
            send_auth_json "500 Internal Server Error" false st None (Some "session_create_failed") None
          | AUTH_BOOTSTRAP_CREATE_SAVE_FAILED => send_auth_json "500 Internal Server Error" false st None (Some "bootstrap_save_failed") None
          end)
  end.
Definition auth_password_handler (req : request) : M response :=
  if negb (http_auth_require_allow_password_change req) then mret no_answer
  else
    let values :=
      token ← http_auth_token_from_request req TOKEN_SIZE;
      body ← http_read_request_body req (2 * Z.of_nat HTTP_BODY_BUFFER_SIZE);
      new_password ← form body (bytes_of "new_password") HTTP_BODY_BUFFER_SIZE;
      Some (token, body, new_password) in
    match values with
    | None => refuse_auth "400 Bad Request" "bad_request"
    | Some (token, body, new_password) =>
      let current_password := body_text httpd_query_key_value body "current_password" HTTP_BODY_BUFFER_SIZE in
      result ← on_auth (auth_change_password sha256 esp_fill_random esp_mac (Some token) (Some current_password) (Some new_password));
      st ← on_auth (auth_get_status esp_mac (Some token));
      mret (match result with
            | AUTH_CHANGE_PASSWORD_OK => send_auth_json OK_STATUS true st (Some token) None None
            | AUTH_CHANGE_PASSWORD_INVALID_CURRENT => send_auth_json "403 Forbidden" false st None (Some "invalid_current_password") None
            | AUTH_CHANGE_PASSWORD_WEAK => send_auth_json "400 Bad Request" false st None (Some "weak_password") None
            | AUTH_CHANGE_PASSWORD_SAVE_FAILED => send_auth_json "500 Internal Server Error" false st None (Some "password_save_failed") None
            | AUTH_CHANGE_PASSWORD_INTERNAL_ERROR => send_auth_json "401 Unauthorized" false st None (Some "session_invalid") None
            end)
    end.

(** A list of objects separated by commas, as the loops over accounts and
    events build it. *)
Fixpoint append_objects {A} (size : Z) (append : A -> list Z -> option (list Z)) (first : bool) (xs : list A) (out : list Z) : option (list Z) :=
  match xs with
  | [] => Some out
  | x :: xs =>
    out ← when (negb first) (append_text size (json_text ",")) out;
    out ← append x out;
    append_objects size append false xs out
  end.
Definition append_account (size : Z) (a : account_info) (out : list Z) : option (list Z) :=
  out ← append_text size (json_text "{'username':") out;
  out ← append_json_string size (info_username a) out;
  out ← append_text size (json_text ",'role':") out;
  out ← append_json_string size (bytes_of (auth_role_name (info_role a))) out;
  append_format size (json_text ",'enabled':" ++ bool_text (info_enabled a) ++ json_text ",'bootstrap':" ++ bool_text (info_bootstrap a) ++
                      json_text ",'current_session':" ++ bool_text (info_current_session a) ++ json_text "}") out.
Definition users_json (accounts : list account_info) : option (list Z) :=
  out ← append_text 2048 (json_text "{'users':[") [];
  out ← append_objects 2048 (append_account 2048) true accounts out;
  append_text 2048 (json_text "]}") out.
(** [ESP_FAIL] without an answer closes the connection. *)
Definition auth_users_handler (req : request) : M response :=
  if negb (http_auth_require_admin req) then mret no_answer
  else
    accounts ← on_auth (auth_list_accounts esp_mac AUTH_MAX_ACCOUNTS);
    mret (match users_json accounts with None => no_answer | Some json => answer OK_STATUS json end).

Definition append_event (size : Z) (e : audit_entry) (out : list Z) : option (list Z) :=
  out ← append_format size (json_text "{'timestamp_ms':" ++ decimal (timestamp_ms e) ++ json_text ",'action':") out;
  out ← append_json_string size (action e) out;
  out ← append_text size (json_text ",'detail':") out;
  out ← append_json_string size (detail e) out;
  append_text size (json_text "}") out.
Definition audit_json (events : list audit_entry) : option (list Z) :=
  out ← append_text 4096 (json_text "{'events':[") [];
  out ← append_objects 4096 (append_event 4096) true events out;
  append_text 4096 (json_text "]}") out.
Definition auth_audit_handler (req : request) : M response :=
  if negb (http_auth_require_admin req) then mret no_answer
  else
    events ← on_auth (auth_export_audit esp_mac AUTH_AUDIT_CAPACITY);
    mret (match audit_json events with None => no_answer | Some json => answer OK_STATUS json end).

Definition json_error (error : string) : list Z := json_text "{'ok':false,'error':'" ++ bytes_of error ++ json_text "'}".
Definition save_error (r : auth_account_save_result) : string :=
  match r with
  | AUTH_ACCOUNT_SAVE_INVALID_USERNAME => "invalid_username" | AUTH_ACCOUNT_SAVE_INVALID_ROLE => "invalid_role"
  | AUTH_ACCOUNT_SAVE_WEAK_PASSWORD => "weak_password" | AUTH_ACCOUNT_SAVE_NO_SPACE => "account_limit_reached"
  | AUTH_ACCOUNT_SAVE_FORBIDDEN => "forbidden_operation" | AUTH_ACCOUNT_SAVE_LAST_ADMIN => "last_admin"
  | AUTH_ACCOUNT_SAVE_SAVE_FAILED | AUTH_ACCOUNT_SAVE_OK => "save_failed"
  end.
Definition auth_users_save_handler (req : request) : M response :=
  if negb (http_auth_require_admin req) then mret no_answer
  else
    let values :=
      token ← http_auth_token_from_request req TOKEN_SIZE;
      body ← http_read_request_body req (2 * Z.of_nat HTTP_BODY_BUFFER_SIZE);
      username ← form body (bytes_of "username") (S AUTH_USERNAME_LEN);
      role_text ← form body (bytes_of "role") 24;
      role ← auth_role_from_text (Some role_text);
      Some (token, body, username, role) in
    match values with
    | None => mret (answer "400 Bad Request" (json_error "bad_request"))
    | Some (token, body, username, role) =>
      let enabled_text := body_text httpd_query_key_value body "enabled" 8 in
      let password := body_text httpd_query_key_value body "password" HTTP_BODY_BUFFER_SIZE in
      let enabled := bool_decide (enabled_text = []) || negb (bool_decide (enabled_text = bytes_of "0")) in
      result ← on_auth (auth_save_account sha256 esp_fill_random esp_mac (Some token) (Some username) role enabled (Some password));
      match result with
      | AUTH_ACCOUNT_SAVE_OK => auth_users_handler req
      | _ => mret (answer "409 Conflict" (json_error (save_error result)))
      end
    end.
Definition delete_error (r : auth_account_delete_result) : string :=
  match r with
  | AUTH_ACCOUNT_DELETE_NOT_FOUND => "not_found" | AUTH_ACCOUNT_DELETE_FORBIDDEN => "forbidden_operation"
  | AUTH_ACCOUNT_DELETE_LAST_ADMIN => "last_admin" | AUTH_ACCOUNT_DELETE_SAVE_FAILED | AUTH_ACCOUNT_DELETE_OK => "delete_failed"
  end.
Definition auth_users_delete_handler (req : request) : M response :=
  if negb (http_auth_require_admin req) then mret no_answer
  else
    let values :=
      token ← http_auth_token_from_request req TOKEN_SIZE;
      body ← http_read_request_body req (Z.of_nat HTTP_BODY_BUFFER_SIZE);
      username ← form body (bytes_of "username") (S AUTH_USERNAME_LEN);
      Some (token, username) in
    match values with
    | None => mret (answer "400 Bad Request" (json_error "bad_request"))
    | Some (token, username) =>
      result ← on_auth (auth_delete_account esp_mac (Some token) (Some username));
      match result with
      | AUTH_ACCOUNT_DELETE_OK => auth_users_handler req
      | _ => mret (answer "409 Conflict" (json_error (delete_error result)))
      end
    end.
End handlers.

(** ** Reading a body *)

Lemma recv_loop_whole segs rest size out : Forall (fun k => (0 < k)%nat) segs -> (length rest <= sum_list segs)%nat ->
  Z.of_nat (length out + length rest) < size -> recv_loop segs rest (Z.of_nat (length rest)) size out = Some (out ++ rest).
Proof.
  intros Hs. revert rest out. induction Hs as [|k segs Hk Hs IH]; intros rest out Hsum Hsize.
  - destruct rest; [cbn; by rewrite app_nil_r|cbn in Hsum; lia].
  - cbn [recv_loop]. destruct rest as [|x rest]; [cbn; by rewrite app_nil_r|]. set (l := x :: rest) in *.
    assert (0 < length l)%nat as Hl by (unfold l; cbn; lia).
    destruct (Z.leb_spec (Z.of_nat (length l)) 0); [lia|]. cbv zeta.
    set (to_read := if Z.of_nat (length l) <? _ then _ else _).
    assert (to_read = Z.of_nat (length l)) as -> by (unfold to_read; destruct (Z.ltb_spec (Z.of_nat (length l)) (size - Z.of_nat (length out) - 1)); lia).
    destruct (Z.leb_spec (Z.of_nat (length l)) 0); [lia|]. rewrite Nat2Z.id.
    destruct (take (Nat.min k (length l)) l) as [|y got] eqn:Hg.
    { apply (f_equal length) in Hg. rewrite length_take in Hg. cbn [length] in Hg. lia. }
    rewrite <- Hg, length_take. replace (Nat.min (Nat.min k (length l)) (length l)) with (Nat.min k (length l)) by lia.
    replace (Z.of_nat (length l) - Z.of_nat (Nat.min k (length l))) with (Z.of_nat (length (drop (Nat.min k (length l)) l))) by (rewrite length_drop; lia).
    rewrite IH; [by rewrite <- app_assoc, take_drop| |].
    + change (length l <= k + sum_list segs)%nat in Hsum. rewrite length_drop. lia.
    + rewrite length_app, length_take, length_drop. lia.
Qed.
(** The client's bytes arrive, in segments of any size. *)
Definition arrives (req : request) : Prop :=
  Forall (fun k => (0 < k)%nat) (segments req) /\ (length (body_bytes req) <= sum_list (segments req))%nat /\
  content_len req = Z.of_nat (length (body_bytes req)).
Lemma body_read req size : arrives req -> 0 < content_len req < size -> http_read_request_body req size = Some (body_bytes req).
Proof.
  intros (Hs & Hsum & Hc) Hl. unfold http_read_request_body. destruct (Z.leb_spec (content_len req) 0); [lia|].
  destruct (Z.leb_spec size (content_len req)); [lia|]. rewrite Hc. by rewrite recv_loop_whole by (try done; cbn; lia).
Qed.

Lemma take_take_same {A} (n : nat) (l : list A) : take (Nat.min n (length l)) l = take n l.
Proof. destruct (decide (n <= length l)%nat); [by rewrite Nat.min_l|]. by rewrite Nat.min_r, !take_ge by lia. Qed.
(** What is read never outgrows its buffer and is what the client sent first. *)
Lemma recv_loop_prefix segs rest remaining size out b : recv_loop segs rest remaining size out = Some b -> 0 <= remaining ->
  exists got, b = out ++ got /\ got = take (Z.to_nat remaining) rest /\ length got = Z.to_nat remaining.
Proof.
  revert rest remaining out. induction segs as [|k segs IH]; intros rest remaining out; cbn [recv_loop];
    (destruct (Z.leb_spec remaining 0); [intros [= <-] ?; exists []; assert (remaining = 0) as -> by lia; by rewrite app_nil_r|]); cbv zeta.
  - by case_match.
  - set (room := size - Z.of_nat (length out) - 1). set (to_read := if remaining <? room then remaining else room).
    assert (to_read <= remaining) by (unfold to_read; destruct (Z.ltb_spec remaining room); lia).
    destruct (Z.leb_spec to_read 0); [done|]. destruct (take (Nat.min k (Z.to_nat to_read)) rest) as [|y got] eqn:Hg; [done|].
    set (g := y :: got) in *. assert (length g <= Z.to_nat to_read)%nat as Hlen by (rewrite <- Hg, length_take; lia).
    intros Hr Hrem. apply IH in Hr as (got' & -> & Hgot & Hl); [|lia]. exists (g ++ got'). split; [by rewrite app_assoc|].
    assert (g = take (length g) rest) as Hgt.
    { rewrite <- Hg at 1. symmetry. rewrite <- Hg, length_take. apply take_take_same. }
    split; [|rewrite length_app; lia].
    rewrite Hgot. rewrite Hgt at 1. replace (Z.to_nat remaining) with (length g + Z.to_nat (remaining - Z.of_nat (length g)))%nat by lia.
    by rewrite take_take_drop.
Qed.

(** A request body is read as it was sent, whatever segments it arrives in:
    a body that fits is read whole once it has arrived, and what is read is
    never anything but the [content_len] bytes that were sent first. *)
Theorem body_read_as_sent req size :
  (arrives req -> 0 < content_len req < size -> http_read_request_body req size = Some (body_bytes req)) /\
  (forall b, http_read_request_body req size = Some b ->
     b = take (Z.to_nat (content_len req)) (body_bytes req) /\ Z.of_nat (length b) = content_len req /\ content_len req < size).
Proof.
  split; [apply body_read|]. intros b. unfold http_read_request_body. destruct (Z.leb_spec (content_len req) 0); [done|].
  destruct (Z.leb_spec size (content_len req)); [done|]. intros Hr. apply recv_loop_prefix in Hr as (got & -> & Hg & Hl); [|lia].
  cbn [app]. split; [done|]. lia.
Qed.

(** ** Forms reach the accounts *)

(** A form with its values encoded. *)
Fixpoint form_text (fields : list (list Z * list Z)) : list Z :=
  match fields with
  | [] => []
  | [(k, v)] => k ++ (61 :: url_encode v)
  | (k, v) :: fields => k ++ (61 :: (url_encode v ++ (38 :: form_text fields)))
  end.
Definition value_of (fields : list (list Z * list Z)) (key : list Z) : option (list Z) := (fun e => e.2.2) <$> list_find (fun e => e.1 = key) fields.
Definition field_ok (e : list Z * list Z) : Prop := (38 ∉ e.1) /\ (61 ∉ e.1) /\ (0 ∉ e.1) /\ Forall (fun b => is_u8 b) e.2.
(** What [httpd_query_key_value] is documented to do: the value of the first
    field with that name, as it is written, when it fits. *)
Definition reads_forms (kv : list Z -> list Z -> nat -> lookup_result) : Prop :=
  forall fields key v size, Forall field_ok fields -> value_of fields key = Some v -> (length (url_encode v) < size)%nat ->
    kv (form_text fields) key size = Found (url_encode v).

(** The same for a query, whose values are taken as they are, and a name that is
    not there. *)
Fixpoint query_text (fields : list (list Z * list Z)) : list Z :=
  match fields with
  | [] => []
  | [(k, v)] => k ++ (61 :: v)
  | (k, v) :: fields => k ++ (61 :: (v ++ (38 :: query_text fields)))
  end.
Definition plain_field (e : list Z * list Z) : Prop := (38 ∉ e.1) /\ (61 ∉ e.1) /\ (0 ∉ e.1) /\ (38 ∉ e.2) /\ (0 ∉ e.2).
Definition reads_queries (kv : list Z -> list Z -> nat -> lookup_result) : Prop :=
  forall fields key size, Forall plain_field fields -> fields <> [] ->
    match value_of fields key with
    | Some v => (length v < size)%nat -> kv (query_text fields) key size = Found v
    | None => kv (query_text fields) key size = NotFound
    end.
Definition encode_field (e : list Z * list Z) : list Z * list Z := (e.1, url_encode e.2).
Lemma form_is_query fields : form_text fields = query_text (encode_field <$> fields).
Proof.
  induction fields as [|[k v] [|e fields] IH]; [done..|].
  change (form_text ((k, v) :: e :: fields)) with (k ++ (61 :: (url_encode v ++ (38 :: form_text (e :: fields))))). by rewrite IH.
Qed.
Lemma value_encoded fields key : value_of (encode_field <$> fields) key = url_encode <$> value_of fields key.
Proof.
  unfold value_of. induction fields as [|e fields IH]; [done|]. cbn [fmap list_fmap list_find encode_field fst].
  case_decide; [done|]. destruct (list_find _ fields) as [[]|], (list_find _ (encode_field <$> fields)) as [[]|]; cbn in *; congruence.
Qed.

Lemma encoded_byte b x : is_u8 b -> x ∈ url_encode_byte b -> negb (x =? 0) && negb (x =? 38) && negb (x =? 61) = true.
Proof.
  intros Hb Hx. pose proof (every_byte (fun b => forallb (fun x => negb (x =? 0) && negb (x =? 38) && negb (x =? 61)) (url_encode_byte b))
    ltac:(vm_compute; reflexivity) b Hb) as He. cbv beta in He. rewrite forallb_forall in He. by apply He, list_elem_of_In.
Qed.
Lemma encoded_plain v x : Forall (fun b => is_u8 b) v -> x ∈ url_encode v -> x <> 0 /\ x <> 38 /\ x <> 61.
Proof.
  intros Hv (b & Hx & Hb)%list_elem_of_bind. rewrite Forall_forall in Hv. pose proof (encoded_byte b x (Hv b Hb) Hx) as He.
  rewrite !andb_true_iff, !negb_true_iff, !Z.eqb_neq in He. tauto.
Qed.
Lemma form_no_zero fields : Forall field_ok fields -> 0 ∉ form_text fields.
Proof.
  induction 1 as [|[k v] fields (H1 & H2 & H3 & H4) Hf IH]; [apply not_elem_of_nil|]. cbn [fst snd] in *.
  assert (0 ∉ k ++ (61 :: url_encode v)) as Hkv.
  { rewrite elem_of_app, elem_of_cons. intros [|[|Hx]]; [done|done|]. by apply (encoded_plain v 0 H4) in Hx as (? & _). }
  destruct fields as [|e fields]; [exact Hkv|].
  change (0 ∉ k ++ (61 :: url_encode v) ++ (38 :: form_text (e :: fields))).
  rewrite app_assoc, elem_of_app, elem_of_cons. by intros [|[|]].
Qed.

Lemma form_value kv fields key v size : reads_forms kv -> Forall field_ok fields -> value_of fields key = Some v -> 0 ∉ v ->
  (length (url_encode v) < size)%nat -> http_body_get_value kv (form_text fields) key size = Some v.
Proof.
  intros Hkv Hf Hv Hz Hl. unfold http_body_get_value. rewrite cstr_id by by apply form_no_zero. rewrite (Hkv fields key v size) by done.
  f_equal. apply (decoded_form v []); [|done]. unfold value_of in Hv.
  destruct (list_find _ fields) as [[i [k v']]|] eqn:Hfind; [|done]. injection Hv as <-.
  apply list_find_Some in Hfind as (Hi & _). by destruct (Forall_lookup_1 _ _ _ _ Hf Hi) as (_ & _ & _ & ?).
Qed.

(** The body is the form, and arrives. *)
Definition sends_form (req : request) (fields : list (list Z * list Z)) : Prop :=
  body_bytes req = form_text fields /\ arrives req /\ 0 < content_len req < Z.of_nat HTTP_BODY_BUFFER_SIZE.
Definition login_fields (user password : list Z) : list (list Z * list Z) := [(bytes_of "username", user); (bytes_of "password", password)].
Definition text_ok (t : list Z) : Prop := Forall (fun b => is_u8 b) t /\ 0 ∉ t.

Lemma login_fields_ok user password : text_ok user -> text_ok password -> Forall field_ok (login_fields user password).
Proof.
  intros [Hu _] [Hp _]. assert (forall s, forallb (fun c => negb (c =? 38) && negb (c =? 61) && negb (c =? 0)) (bytes_of s) = true ->
    (38 ∉ bytes_of s) /\ (61 ∉ bytes_of s) /\ (0 ∉ bytes_of s)) as Hk.
  { intros s Hs. rewrite forallb_forall in Hs. split_and!; intros Hx%list_elem_of_In; specialize (Hs _ Hx); done. }
  repeat constructor; cbn [fst snd]; try apply Hk; done.
Qed.
Lemma credentials_read kv req user password : reads_forms kv -> sends_form req (login_fields user password) -> text_ok user -> text_ok password ->
  (length (url_encode user) < S AUTH_USERNAME_LEN)%nat -> (length (url_encode password) < HTTP_BODY_BUFFER_SIZE)%nat ->
  credentials kv req = Some (user, password).
Proof.
  intros Hkv (Hb & Ha & Hc) Hu Hp Hlu Hlp. unfold credentials. rewrite (body_read _ _ Ha Hc), Hb. cbn [mbind option_bind].
  pose proof (login_fields_ok user password Hu Hp) as Hf.
  rewrite (form_value kv _ (bytes_of "username") user _ Hkv Hf) by (try done; apply Hu). cbn [mbind option_bind].
  by rewrite (form_value kv _ (bytes_of "password") password _ Hkv Hf) by (try done; apply Hp).
Qed.

Section accounts.
Context {W N R : Type} `{Nvs N}.
Context (kv : list Z -> list Z -> nat -> lookup_result) (sha256 : list Z -> list Z) (esp_fill_random : nat -> R -> list Z * R) (esp_mac : list Z).

(** What a request about an account gives, whatever the state. *)
Definition gives {A} (m : st (auth N R) A) (P : A -> Prop) : Prop := hoare (fun _ => True) m (fun a _ => P a).
Lemma gives_ret {A} (a : A) (P : A -> Prop) : P a -> gives (mret a) P.
Proof. intros Ha. by apply hoare_ret. Qed.
Lemma gives_bind {A B} (m : st (auth N R) A) (k : A -> st (auth N R) B) (Q : A -> Prop) (P : B -> Prop) :
  gives m Q -> (forall a, Q a -> gives (k a) P) -> gives (m ≫= k) P.
Proof. intros Hm Hk. apply (hoare_bind _ _ _ (fun a _ => Q a)); [done|]. intros a w Hq. by apply Hk. Qed.
Lemma gives_any {A} (m : st (auth N R) A) : gives m (fun _ => True).
Proof. done. Qed.
Lemma gives_after {A B} (m : st (auth N R) A) (k : A -> st (auth N R) B) (P : B -> Prop) : (forall a, gives (k a) P) -> gives (m ≫= k) P.
Proof. intros Hk. apply (gives_bind _ _ (fun _ => True)); [done|]. intros a _. apply Hk. Qed.

Lemma status_given tok : gives (auth_get_status esp_mac tok) (fun st => st = auth_fill_status).
Proof. unfold auth_get_status. apply gives_after. intros ?. by apply gives_ret. Qed.
Lemma session_token_length i : gives (auth_create_session_for_account esp_fill_random i (Some TOKEN_SIZE)) (fun t => forall l, t = Some l -> (length l <= 64)%nat).
Proof.
  unfold auth_create_session_for_account. do 2 (apply gives_after; intros ?). case_match; [|by apply gives_ret].
  cbn [Nat.ltb]. change (Nat.ltb TOKEN_SIZE (AUTH_SESSION_TOKEN_LEN + 1)) with false. cbv iota.
  do 3 (apply gives_after; intros ?). apply gives_ret. intros l [= <-]. unfold cut. rewrite length_take. change (TOKEN_SIZE - 1)%nat with 64%nat. lia.
Qed.
Lemma bootstrap_gives user password : gives (auth_bootstrap_create_first_admin sha256 esp_fill_random esp_mac user password (Some TOKEN_SIZE))
  (fun r => r.2 = auth_fill_status /\ forall t, r.1.2 = Some t -> (length t <= 64)%nat).
Proof.
  unfold auth_bootstrap_create_first_admin. do 2 (apply gives_after; intros ?). case_match; [by apply gives_ret|].
  case_match; [|by apply gives_ret]. case_match; [by apply gives_ret|]. do 2 (apply gives_after; intros ?).
  unfold save_or_restore. apply gives_after; intros [|].
  - eapply gives_bind; [apply session_token_length|]. intros [t|] Ht; cbn beta.
    + do 2 (apply gives_after; intros ?). eapply gives_bind; [apply status_given|]. intros st ->. apply gives_ret. by split.
    + eapply gives_bind; [apply status_given|]. intros st ->. by apply gives_ret.
  - do 2 (apply gives_after; intros ?). by apply gives_ret.
Qed.
(** The answer of a success fits its buffer. *)
Lemma success_json_fits token : (forall t, token = Some t -> (length t <= 64)%nat) ->
  is_Some (build_auth_status_json AUTH_JSON_SIZE true auth_fill_status token None).
Proof.
  intros Hl. unfold build_auth_status_json.
  destruct (append_auth_status AUTH_JSON_SIZE true auth_fill_status []) as [out|] eqn:Hout; [|by vm_compute in Hout].
  assert (Z.of_nat (length out) <= 600) as Hlen by (vm_compute in Hout; injection Hout as <-; vm_compute; discriminate). clear Hout. cbn [mbind option_bind].
  assert (Z.of_nat (length (json_text ",'session_token':")) = 17) as Ht by done.
  destruct (nonempty token) eqn:Hne; cbn [when mbind option_bind nonempty].
  - destruct token as [token|]; [|done]. change (default [] (Some token)) with token. specialize (Hl token eq_refl). pose proof (length_literal token). rewrite append_text_fits by (unfold AUTH_JSON_SIZE; lia). cbn [mbind option_bind].
    rewrite append_json_string_fits by (rewrite length_app; unfold AUTH_JSON_SIZE; lia). cbn [when mbind option_bind].
    rewrite append_text_fits; [done|]. rewrite !length_app. unfold AUTH_JSON_SIZE. cbn [length]. change (length (json_text "}")) with 1%nat. lia.
  - rewrite append_text_fits; [done|]. unfold AUTH_JSON_SIZE. change (length (json_text "}")) with 1%nat. lia.
Qed.

(** C22: The first administrator is created with the name and the password typed
    into the form, whatever characters they are made of: the request has
    exactly the effect of the account operation on the two texts, and says
    [200 OK] exactly when it succeeded. *)
Theorem first_admin_as_typed req user password (w : web W N R)
    (Hkv : reads_forms kv) (Hreq : sends_form req (login_fields user password)) (Hu : text_ok user) (Hp : text_ok password)
    (Hlu : (length (url_encode user) <= AUTH_USERNAME_LEN)%nat) (Hlp : (length (url_encode password) < HTTP_BODY_BUFFER_SIZE)%nat) :
  let '(r, w') := auth_bootstrap_handler kv sha256 esp_fill_random esp_mac req w in
  let '(result, token, _, a) := auth_bootstrap_create_first_admin sha256 esp_fill_random esp_mac (Some user) (Some password) (Some TOKEN_SIZE) (web_auth w) in
  w' = w <| web_auth := a |> /\
  (rs_status r = OK_STATUS <-> result = AUTH_BOOTSTRAP_CREATE_OK) /\
  (result = AUTH_BOOTSTRAP_CREATE_OK -> rs_session r = if nonempty token then token else None).
Proof.
  unfold auth_bootstrap_handler. rewrite (credentials_read kv req user password) by (try done; lia).
  unfold on_auth, on_part, mbind, st_bind, mret, st_ret.
  pose proof (bootstrap_gives (Some user) (Some password) (web_auth w) I) as [Hst Htok].
  destruct (auth_bootstrap_create_first_admin _ _ _ _ _ _ _) as [[[result token] st] a]. cbn [fst snd] in Hst, Htok. subst st.
  destruct (success_json_fits token Htok) as [json Hjson].
  split; [done|]. destruct result; unfold send_auth_json; [change (bytes_of <$> None) with (@None (list Z)); rewrite Hjson; by split|..]; (case_match; by split).
Qed.
End accounts.

(** ** The clients of the web socket *)

(** What the requests and the server's task do, whatever their order: a client
    connects, something changes, and the task runs, with such steps between its
    copy of the clients and their return. *)
Inductive ws_event := WsConnect (fd : Z) | WsChange.
Definition ws_event_step (e : ws_event) (s : ws) : ws := match e with WsConnect fd => ws_register fd s | WsChange => ws_notify s end.
Definition ws_events (es : list ws_event) (s : ws) : ws := foldl (fun s e => ws_event_step e s) s es.
Inductive ws_step (s : ws) : ws -> Prop :=
  | ws_requests e : ws_step s (ws_event_step e s)
  | ws_process now sent es : ws_step s (http_server_process now sent (ws_events es) s).
Definition ws_ok (s : ws) : Prop := NoDup (ws_clients s) /\ (length (ws_clients s) <= HTTP_WS_MAX_CLIENTS)%nat.

Lemma ws_event_ok e s : ws_ok s -> ws_ok (ws_event_step e s).
Proof.
  intros [Hn Hl]. destruct e as [fd|]; [|done]. unfold ws_event_step, ws_register. destruct (existsb _ _) eqn:He; [done|].
  destruct (Nat.ltb_spec (length (ws_clients s)) HTTP_WS_MAX_CLIENTS) as [Hlt|]; [|done]. split; cbn; [|rewrite length_app; cbn; lia].
  apply NoDup_app. split; [done|]. split; [|apply NoDup_singleton]. intros x Hx ->%list_elem_of_singleton.
  assert (existsb (fun x => x =? fd) (ws_clients s) = true) as Ht; [|congruence].
  apply existsb_exists. exists fd. split; [by apply list_elem_of_In|apply Z.eqb_refl].
Qed.
Lemma ws_events_pending es s : ws_broadcast_pending s = true -> ws_broadcast_pending (ws_events es s) = true.
Proof.
  revert s. induction es as [|e es IH]; intros s Hs; [done|]. cbn. apply IH. by destruct e.
Qed.
Lemma alive_ok sent (l : list Z) : NoDup l -> NoDup (List.filter sent l) /\ (length (List.filter sent l) <= length l)%nat.
Proof.
  induction 1 as [|x l Hx Hl [IH Hle]]; cbn; [split; [constructor|lia]|]. destruct (sent x); cbn; [|split; [done|lia]].
  split; [|lia]. constructor; [|done]. intros [Hin _]%list_elem_of_In%filter_In. by apply Hx, list_elem_of_In.
Qed.

(** At every moment the table of web socket clients has no client twice and
    never more than its four places, whatever the order of connections, changes
    and broadcasts. *)
Theorem ws_clients_sound s : rtc ws_step ws_boot s -> ws_ok s.
Proof.
  assert (ws_ok ws_boot) as H0 by (split; [constructor|cbn; lia]). revert H0. generalize ws_boot. intros s0 H0 Hs. revert H0.
  induction Hs as [s|s1 s2 s3 Hstep _ IH]; [done|]. intros [Hn Hl]. apply IH. destruct Hstep as [e|now sent es]; [by apply ws_event_ok|].
  unfold http_server_process, broadcast_due. repeat case_match; simplify_eq; try done.
  all: destruct (alive_ok sent (ws_clients s1) Hn); split; [done|]; cbn; lia.
Qed.

(** A change that was notified is sent to every connected client the next
    time the task runs, at once; without a change, a connected client is sent
    the state once a second; and a change notified while the frames are being
    sent stays pending for the next run. *)
Theorem change_reaches_clients s now :
  ((broadcast_due now s).1 = true <->
    ws_clients s <> [] /\ (ws_broadcast_pending s = true \/ WS_PERIODIC_INTERVAL_US <= u64 (now - ws_last_periodic_us s))) /\
  (forall sent es1 es2, (broadcast_due now s).1 = true ->
    ws_broadcast_pending (http_server_process now sent (fun s => ws_events es2 (ws_notify (ws_events es1 s))) s) = true).
Proof.
  split.
  - unfold broadcast_due. destruct (bool_decide_reflect (ws_clients s = [])) as [He|He]; cbn [negb andb orb].
    + destruct (ws_broadcast_pending s); cbn; by split; [|intros []].
    + destruct (ws_broadcast_pending s); cbn [andb orb fst]; [by split; [intros _; split; [|left]|]|].
      destruct (Z.leb_spec WS_PERIODIC_INTERVAL_US (u64 (now - ws_last_periodic_us s))); cbn [fst].
      * split; [|done]. intros _. by split; [|right].
      * split; [done|]. intros [_ [|]]; [done|lia].
  - intros sent es1 es2 Hdue. unfold http_server_process. destruct (broadcast_due now s) as [due s']. cbn in Hdue. rewrite Hdue.
    unfold http_ws_broadcast_state. cbn. by apply ws_events_pending.
Qed.

(** A client that connects while a broadcast is on its way is forgotten: the
    list that the broadcast copied at its start is written back over it. *)
Theorem client_connecting_during_broadcast_lost s now sent fd (Hdue : (broadcast_due now s).1 = true) (Hnew : fd ∉ ws_clients s) :
  fd ∉ ws_clients (http_server_process now sent (ws_register fd) s).
Proof.
  unfold http_server_process. assert (ws_clients (broadcast_due now s).2 = ws_clients s) as Hc by (unfold broadcast_due; by repeat case_match).
  destruct (broadcast_due now s) as [due s']. cbn in Hdue, Hc. rewrite Hdue. cbn. rewrite Hc.
  intros [Hin _]%list_elem_of_In%filter_In. by apply Hnew, list_elem_of_In.
Qed.

(** ** Concrete runs

    A parser of queries that does what is documented. *)
Fixpoint kv_scan (fuel : nat) (q key : list Z) (size : nat) : lookup_result :=
  match fuel with
  | O => NotFound
  | S fuel =>
    let '(entry, rest) := split_at 38 q in
    let next := match rest with Some rest => kv_scan fuel rest key size | None => NotFound end in
    match split_at 61 entry with
    | (k, Some v) => if bool_decide (k = key) then if Nat.ltb (length v) size then Found v else Failed (take (size - 1) v) else next
    | (_, None) => next
    end
  end.
Definition plain_key_value (q key : list Z) (size : nat) : lookup_result := kv_scan (S (length q)) q key size.

(** It finds the first field of the name, and nothing when there is none. *)
Lemma plain_scan fields key size fuel : Forall plain_field fields -> fields <> [] -> (length (query_text fields) < fuel)%nat ->
  kv_scan fuel (query_text fields) key size =
    match value_of fields key with Some v => if Nat.ltb (length v) size then Found v else Failed (take (size - 1) v) | None => NotFound end.
Proof.
  intros Hf. revert fuel. induction Hf as [|[k v] fields (H1 & H2 & _ & H4 & _) Hf IH]; [done|]. intros fuel _ Hfuel. destruct fuel as [|fuel]; [lia|]. cbn [fst snd] in *.
  assert (38 ∉ k ++ (61 :: v)) as Hkv by (rewrite elem_of_app, elem_of_cons; intros [|[|Hx]]; done).
  assert (exists rest, split_at 38 (query_text ((k, v) :: fields)) = (k ++ (61 :: v), rest) /\
    rest = match fields with [] => None | _ => Some (query_text fields) end) as (rest & Hs & ->).
  { destruct fields as [|e fields]; eexists; (split; [|reflexivity]); [by apply split_at_none|].
    change (query_text ((k, v) :: e :: fields)) with (k ++ (61 :: v) ++ (38 :: query_text (e :: fields))).
    rewrite app_assoc. by apply split_at_found. }
  cbn [kv_scan]. rewrite Hs, split_at_found by done. unfold value_of in IH |- *. cbn [list_find fst].
  case_bool_decide as Hk; case_decide as Hd; try done. destruct fields as [|e fields]; [done|]. rewrite IH; [|done|].
  - by destruct (list_find (fun e0 => e0.1 = key) (e :: fields)) as [[]|].
  - change (query_text ((k, v) :: e :: fields)) with (k ++ (61 :: v) ++ (38 :: query_text (e :: fields))) in Hfuel.
    rewrite !length_app in Hfuel. cbn [length] in Hfuel. lia.
Qed.
Lemma plain_reads_queries : reads_queries plain_key_value.
Proof.
  intros fields key size Hf Hne. unfold plain_key_value. rewrite plain_scan by (try done; lia).
  destruct (value_of fields key) as [v|]; [|done]. intros Hl. by destruct (Nat.ltb_spec (length v) size); [|lia].
Qed.
Lemma plain_reads_forms : reads_forms plain_key_value.
Proof.
  intros fields key v size Hf Hv Hl. rewrite form_is_query. pose proof (plain_reads_queries (encode_field <$> fields) key size) as Hr.
  rewrite value_encoded, Hv in Hr. apply Hr; [|by destruct fields|done].
  apply Forall_fmap. eapply Forall_impl; [exact Hf|]. intros [k x] (H1 & H2 & H3 & H4). cbn in *.
  split_and!; try done; intros Hx; by apply (encoded_plain x _ H4) in Hx as (? & ? & ?).
Qed.

Definition demo_request (body : list Z) : request :=
  Request false NotFound (fun _ => None) (Z.of_nat (length body)) body [1; 9; 300]%nat.
Definition demo_web : web () flash Z := Web tt example_start ws_boot.
Lemma body_read_as_sent_witness : http_read_request_body (demo_request (bytes_of "a=1&b=2")) 256 = Some (bytes_of "a=1&b=2").
Proof.
  apply (body_read_as_sent (demo_request (bytes_of "a=1&b=2")) 256); [|cbn; lia].
  split; [by repeat constructor; lia|]. split; [cbn; lia|done].
Defined.
(** A name and a password with an ampersand, a space and a percent sign. *)
Lemma first_admin_as_typed_witness :
  let req := demo_request (form_text (login_fields (bytes_of "ana") (bytes_of "a b&c=%41"))) in
  let '(r, w') := auth_bootstrap_handler plain_key_value example_sha256 example_random example_mac req demo_web in
  rs_status r = OK_STATUS /\ auth_config (web_auth w') <> auth_config example_start.
Proof.
  intros req. pose proof (first_admin_as_typed plain_key_value example_sha256 example_random example_mac req (bytes_of "ana") (bytes_of "a b&c=%41") demo_web
    plain_reads_forms) as Hthm.
  assert (sends_form req (login_fields (bytes_of "ana") (bytes_of "a b&c=%41"))) as Hreq.
  { split; [done|]. split; [|by split; vm_compute]. split; [by repeat constructor; lia|]. split; [vm_compute; lia|done]. }
  assert (forall t, forallb (fun b => (0 <? b) && (b <? 256)) (bytes_of t) = true -> text_ok (bytes_of t)) as Hok.
  { intros t Ht. rewrite forallb_forall in Ht. split; [apply Forall_forall; intros b Hb%list_elem_of_In|intros Hb%list_elem_of_In];
      specialize (Ht _ Hb); cbv beta in Ht; lia. }
  specialize (Hthm Hreq (Hok "ana" eq_refl) (Hok "a b&c=%41" eq_refl) ltac:(vm_compute; lia) ltac:(vm_compute; lia)).
  destruct (auth_bootstrap_handler _ _ _ _ _ _) as [r w'] eqn:Hrun.
  destruct (auth_bootstrap_create_first_admin _ _ _ _ _ _ _) as [[[result token] st] a] eqn:Hop.
  destruct Hthm as (-> & Hst & _). vm_compute in Hop. injection Hop as <- <- <- <-. split; [by apply Hst|]. by vm_compute.
Defined.
Lemma ws_clients_sound_witness : ws_ok (http_server_process 5 (fun _ => true) (ws_events []) (ws_register 7 ws_boot)).
Proof.
  apply ws_clients_sound. eapply rtc_l; [exact (ws_requests ws_boot (WsConnect 7))|]. eapply rtc_l; [|apply rtc_refl].
  exact (ws_process (ws_register 7 ws_boot) 5 (fun _ => true) []).
Defined.
Lemma client_connecting_during_broadcast_lost_witness :
  8 ∉ ws_clients (http_server_process 5 (fun _ => true) (ws_register 8) (ws_register 7 ws_boot)).
Proof.
  apply (client_connecting_during_broadcast_lost (ws_register 7 ws_boot) 5 (fun _ => true) 8); [reflexivity|].
  by apply (bool_decide_unpack _); vm_compute.
Defined.
