(* ===== verification/WebIo.v ===== *)
(** * Requests that act on the outputs
    ([components/runtime/http_server/http_server.c]: [set_handler],
    [resource_actuate_handler], [failsafe_*_handler])

    The handlers run on the system of [Scheduler], the installation map and the
    cluster's transport, which is an interface.  The main theorem follows a
    request to the pin: what a web page switches on is on in the cycle that
    takes its command out of the queue. *)

From Stdlib Require Import String Ascii.
From S2P Require Import Prelude Persist Auth HttpText InstallationMap Web.
From S2P Require Import EventBus State DeviceProfile Pve Failsafe Ladder Cluster Automation NodeRegistry Rs485Engine Fieldbus IoDriver Scheduler.
Local Open Scope string_scope.
Local Open Scope list_scope.
Local Open Scope Z_scope.

(** The transport of the cluster, as the handlers call it. *)
Class TransportApi (T : Type) := {
  transport_is_ready : st T bool;                   (* cluster_transport_is_ready *)
  transport_broadcast : protocol_msg -> st T bool;  (* cluster_transport_broadcast_frame *)
}.
(** A transport that is down. *)
#[export] Instance no_transport : TransportApi () := { transport_is_ready := mret false; transport_broadcast _ := mret false }.

Record plant {G N Q P T : Type} := Plant { pl_sys : system G N Q P; pl_map : mapw N; pl_net : T }.
Arguments plant : clear implicits.
Arguments Plant {G N Q P T}.
#[export] Instance plant_rebuild {G N Q P T} : Rebuild (plant G N Q P T) := fun p => Plant (pl_sys p) (pl_map p) (pl_net p).

(** cJSON, which is not part of the repository: a document, and the text or the
    number of an item of it when it has that type. *)
Record json_reader := JsonReader {
  json_doc : Type;
  cJSON_Parse : list Z -> option json_doc;
  json_string_item : json_doc -> string -> option (list Z);
  json_int_item : json_doc -> string -> option Z;
}.
Definition text_string (l : list Z) : string := string_of_list_ascii ((fun c => ascii_of_nat (Z.to_nat c)) <$> l).
(** [%d]: with its sign. *)
Definition integer (x : Z) : list Z := if x <? 0 then 45 :: decimal (- x) else decimal x.

Section handlers.
Context {G N Q P T R : Type} `{Hardware G} `{Nvs N} `{RemoteQueue Q} `{SerialPort P} `{TransportApi T}.
Context (httpd_query_key_value : list Z -> list Z -> nat -> lookup_result) (cjson : json_reader).
Abbreviation world := (web (plant G N Q P T) N R).
Abbreviation M := (st world).
Abbreviation query_int := (query_get_int httpd_query_key_value).

Definition on_system {A} (m : st (system G N Q P) A) : M A := on_site (on_part pl_sys (fun s p => p <| pl_sys := s |>) m).
Definition on_transport {A} (m : st T A) : M A := on_site (on_part pl_net (fun s p => p <| pl_net := s |>) m).
Definition on_failsafe {A} (m : st (fsw store N) A) : M A := on_system (on_fw (fw_on_failsafe m)).
Definition the_system (w : world) : system G N Q P := pl_sys (web_world w).
Definition the_failsafe (w : world) : failsafe := fsafe (fw_io (s_fw (the_system w))).
Definition reply (status body : string) : M response := mret (answer status (bytes_of body)).

(** ** Switching an output *)

(** [cluster_get_metrics().self_node] *)
Definition metrics_self (w : world) : Z := met_self (cluster_get_metrics (cp_mgr (s_cl (the_system w)))).
Definition io_is_local (id : Z) (w : world) : bool := cluster_io_is_local id (owners (fw_io (s_fw (the_system w)))).
Definition io_owner (id : Z) (w : world) : Z := cluster_io_get_owner id (owners (fw_io (s_fw (the_system w)))).
Definition is_operational (node : Z) (w : world) : bool := node_registry_is_operational node (fw_reg (s_fw (the_system w))).
Definition command_push (id value : Z) : M bool := on_system (on_part s_cmds (fun q s => s <| s_cmds := q |>) (io_command_push id value)).

(** The common end of the two handlers: [target] is the node of the request,
    [None] when it names none. *)
Definition switch_output (id value : Z) (target : option Z) : M response :=
  if negb (device_profile_is_valid_output (u16 id)) then reply "404 Not Found" "NOT_FOUND"
  else
    self ← gets metrics_self;
    let explicit := match target with Some t => negb (t =? 0) && negb (self =? 0) && negb (t =? self) | None => false end in
    local ← gets (io_is_local (u16 id));
    if explicit || negb local then
      if self =? 0 then reply "409 Conflict" "SELF_NODE_UNAVAILABLE"
      else
        recorded ← gets (io_owner (u16 id));
        let owner := match target with Some t => if t =? 0 then recorded else t | None => recorded end in
        if (owner =? 0) || (owner =? self) then reply "409 Conflict" "REMOTE_OWNER_UNRESOLVED"
        else
          operational ← gets (is_operational owner);
          if negb operational then reply "409 Conflict" "REMOTE_OWNER_OFFLINE"
          else
            ready ← on_transport transport_is_ready;
            if negb ready then reply "503 Service Unavailable" "TRANSPORT_NOT_READY"
            else
              sent ← on_transport (transport_broadcast (PROTOCOL_MSG_OUTPUT_COMMAND owner self (u16 id) value));
              if negb sent then reply "503 Service Unavailable" "DISPATCH_FAILED"
              else
                logged "manual_output_command_remote"
                  (cut 96 (bytes_of "output=" ++ integer id ++ bytes_of " value=" ++ integer value ++ bytes_of " target=" ++ decimal owner ++
                           bytes_of (match target with Some _ => " explicit" | None => "" end)))
                  (answer "202 Accepted" (bytes_of "DISPATCHED_REMOTE"))
    else
      r ← on_failsafe (failsafe_guard_command (u16 id) value);
      if negb r.1.1 then
        on_auth (audit "manual_output_blocked_failsafe"
          (cut 96 (bytes_of "output=" ++ integer id ++ bytes_of " value=" ++ integer value ++ bytes_of " blocked reason=" ++
                   bytes_of (default "unknown" r.2))));;
        reply "409 Conflict" "FAILSAFE_ACTIVE"
      else
        let effective := default value r.1.2 in
        pushed ← command_push id effective;
        if negb pushed then reply "503 Service Unavailable" "BUSY"
        else
          logged "manual_output_command" (cut 96 (bytes_of "output=" ++ integer id ++ bytes_of " value=" ++ integer effective))
            (answer OK_STATUS (bytes_of "OK")).

(** The channel an entry of the map stands for, when it is an output. *)
Definition mapped_output (resource_id : list Z) (m : imap) : option map_entry :=
  e ← installation_map_find_by_resource_id resource_id m;
  if me_kind e =? 1 then Some e else None.

Definition set_handler (req : request) : M response :=
  if negb (http_auth_require_cap req AUTH_CAP_MANUAL_IO) then mret no_answer
  else
    m ← gets (fun w => the_map (pl_map (web_world w)));
    match query_get_str httpd_query_key_value req "resource_id" 64 with
    | Some (c :: rid) =>
      match mapped_output (c :: rid) m with
      | None => reply "404 Not Found" "RESOURCE_NOT_FOUND"
      | Some e =>
        match query_int req "value" 0 1 with
        | None => reply "400 Bad Request" "BAD_REQUEST"
        | Some value => switch_output (me_channel_id e) value (Some (me_node_id e))
        end
      end
    | _ =>
      match query_int req "id" 0 65535, query_int req "value" 0 1, query_get_optional_u32 httpd_query_key_value req "target_node" with
      | Some id, Some value, Some target => switch_output id value target
      | _, _, _ => reply "400 Bad Request" "BAD_REQUEST"
      end
    end.

Definition resource_actuate_handler (req : request) : M response :=
  if negb (http_auth_require_cap req AUTH_CAP_MANUAL_IO) then mret no_answer
  else
    match http_read_request_body req (Z.of_nat HTTP_BODY_BUFFER_SIZE) with
    | None => reply "400 Bad Request" "BAD_REQUEST"
    | Some body =>
      match cJSON_Parse cjson (cstr body) with
      | None => reply "400 Bad Request" "INVALID_JSON"
      | Some doc =>
        match json_string_item cjson doc "resource_id", json_int_item cjson doc "value" with
        | Some resource_id, Some value =>
          m ← gets (fun w => the_map (pl_map (web_world w)));
          match mapped_output resource_id m with
          | None => reply "404 Not Found" "RESOURCE_NOT_FOUND"
          | Some e => switch_output (me_channel_id e) value (Some (me_node_id e))
          end
        | _, _ => reply "400 Bad Request" "MISSING_FIELDS"
        end
      end
    end.

(** ** Fail-safe policies *)

Definition failsafe_json_error (status error : string) : M response := mret (answer status (json_error error)).
(** The result, and what the buffer holds. *)
Definition failsafe_query_get_value (req : request) (key : string) (size : nat) : bool * list Z :=
  match url_query req with
  | Found q =>
    match httpd_query_key_value q (bytes_of key) size with Found v => (true, v) | NotFound => (false, []) | Failed part => (false, part) end
  | _ => (false, [])
  end.
Definition failsafe_body_or_query_value (req : request) (body : list Z) (key : string) (size : nat) : bool * list Z :=
  match (if bool_decide (cstr body = []) then None else http_body_get_value httpd_query_key_value body (bytes_of key) size) with
  | Some v => (true, v)
  | None => failsafe_query_get_value req key size
  end.

Fixpoint skip_to_digit (l : list Z) : list Z := match l with c :: l' => if isdigit c then l else skip_to_digit l' | [] => [] end.
Definition failsafe_resolve_output_id_from_text (text : list Z) : option Z :=
  match skip_to_digit text with
  | [] => None
  | p =>
    match query_parse_int p 0 65535 with
    | None => None
    | Some parsed =>
      let slot n := let candidate := ENDAP_OUTPUT_ID (u16 n) in if device_profile_is_valid_output candidate then Some candidate else None in
      if device_profile_is_valid_output (u16 parsed) then Some (u16 parsed)
      else
        match (if (1 <=? parsed) && (parsed <=? ENDAP_MAX_OUTPUT_SLOTS) then slot (parsed - 1) else None) with
        | Some id => Some id
        | None => if (0 <=? parsed) && (parsed <? ENDAP_MAX_OUTPUT_SLOTS) then slot parsed else None
        end
    end
  end.
Definition output_id_keys : list string := ["output_id"; "id"; "channel_id"; "output"; "global_code"; "local_code"].
(** The first of the keys whose value names an output. *)
Fixpoint request_output_id (req : request) (body : list Z) (keys : list string) : option Z :=
  match keys with
  | [] => None
  | key :: keys =>
    let '(found, text) := failsafe_body_or_query_value req body key 32 in
    match (if found then failsafe_resolve_output_id_from_text text else None) with
    | Some id => Some id
    | None => request_output_id req body keys
    end
  end.
Definition failsafe_request_output_id (req : request) (body : list Z) : option Z := request_output_id req body output_id_keys.

(** The body, empty when there is none. *)
Definition optional_body (req : request) : option (list Z) :=
  match http_read_request_body req (Z.of_nat HTTP_BODY_BUFFER_SIZE) with
  | Some b => Some b
  | None => if 0 <? content_len req then None else Some []
  end.
Definition failsafe_get_output_policy (id : Z) (w : world) : option policy := fe_policy <$> entry_of id (the_failsafe w).

(** The values of a policy that a request asks for. *)
Record wanted := Wanted { wa_enabled : Z; wa_boot : Z; wa_comm_loss : Z; wa_runtime_fault : Z; wa_safe_value : Z; wa_recovery : Z }.
Definition wanted_of (p : policy) : wanted :=
  Wanted (if enabled p =? 0 then 0 else 1) (boot_action p) (comm_loss_action p) (runtime_fault_action p)
    (if safe_value p =? 0 then 0 else 1) (recovery_mode p).
Section parse.
Variables (req : request) (body : list Z).
Abbreviation value := (failsafe_body_or_query_value req body).
Definition int_value (key : string) (size : nat) (current : Z) (error : string) : string + Z :=
  let '(found, text) := value key size in
  if found then match query_parse_int text 0 1 with Some v => inr v | None => inl error end else inr current.
(** A code under one of two names; an empty one leaves the value. *)
Definition code_value (key other : string) (current : Z) (error : string) : string + Z :=
  let '(found, text) := value key 32 in
  let text := if found then text else (value other 32).2 in
  match text with
  | [] => inr current
  | _ => match failsafe_action_from_code (text_string text) with Some a => inr a | None => inl error end
  end.
Definition fault_value (current : Z) : string + Z :=
  let '(found, text) := value "runtime_fault_action" 32 in
  if found then match failsafe_action_from_code (text_string text) with Some a => inr a | None => inl "invalid_runtime_fault_action" end
  else inr current.
Definition recovery_value (current : Z) : string + Z :=
  let '(found, text) := value "recovery_mode" 24 in
  if found then match failsafe_recovery_from_code (text_string text) with Some r => inr r | None => inl "invalid_recovery_mode" end
  else
    match text with
    | [] =>
      let '(found1, t1) := value "manual_rearm" 16 in
      let '(found2, t2) := if found1 then (true, t1) else value "manual_reset_required" 16 in
      if found2 then
        match query_parse_int t2 0 1 with
        | Some m => inr (if m =? 0 then FAILSAFE_RECOVERY_AUTO else FAILSAFE_RECOVERY_MANUAL)
        | None => inl "invalid_manual_reset"
        end
      else inr current
    | _ => inr current
    end.
Definition parse_policy (p : policy) : string + wanted :=
  let c := wanted_of p in
  match int_value "enabled" 16 (wa_enabled c) "invalid_enabled" with
  | inl e => inl e
  | inr en =>
    match code_value "boot_action" "startup_mode" (wa_boot c) "invalid_boot_action" with
    | inl e => inl e
    | inr boot =>
      match code_value "comm_loss_action" "comm_loss_mode" (wa_comm_loss c) "invalid_comm_loss_action" with
      | inl e => inl e
      | inr comm =>
        match fault_value (wa_runtime_fault c) with
        | inl e => inl e
        | inr fault =>
          match int_value "safe_value" 16 (wa_safe_value c) "invalid_safe_value" with
          | inl e => inl e
          | inr safe =>
            match recovery_value (wa_recovery c) with
            | inl e => inl e
            | inr recovery => inr (Wanted en boot comm fault safe recovery)
            end
          end
        end
      end
    end
  end.
End parse.

Definition policy_detail (id : Z) (x : wanted) : list Z :=
  cut 160 (bytes_of "output=" ++ decimal id ++ bytes_of " enabled=" ++ integer (wa_enabled x) ++
           bytes_of " boot=" ++ bytes_of (failsafe_action_to_code (wa_boot x)) ++
           bytes_of " comm_loss=" ++ bytes_of (failsafe_action_to_code (wa_comm_loss x)) ++
           bytes_of " runtime_fault=" ++ bytes_of (failsafe_action_to_code (wa_runtime_fault x)) ++
           bytes_of " safe=" ++ integer (wa_safe_value x) ++ bytes_of " recovery=" ++ bytes_of (failsafe_recovery_to_code (wa_recovery x))).
Definition ok_json : response := answer OK_STATUS (json_text "{'ok':true}").

Definition failsafe_save_handler (req : request) : M response :=
  if negb (http_auth_require_cap_json req AUTH_CAP_FAILSAFE_WRITE false) then mret no_answer
  else
    match optional_body req with
    | None => failsafe_json_error "400 Bad Request" "bad_request_body"
    | Some body =>
      match failsafe_request_output_id req body with
      | None => failsafe_json_error "400 Bad Request" "invalid_or_missing_output_id"
      | Some id =>
        current ← gets (failsafe_get_output_policy id);
        match current with
        | None => failsafe_json_error "404 Not Found" "invalid_output"
        | Some p =>
          match parse_policy req body p with
          | inl error => failsafe_json_error "400 Bad Request" error
          | inr x =>
            ok ← on_failsafe (failsafe_set_output_policy id (negb (wa_enabled x =? 0)) (wa_boot x) (wa_comm_loss x) (wa_runtime_fault x)
                                (wa_safe_value x) (wa_recovery x));
            if negb ok then failsafe_json_error "500 Internal Server Error" "persist_failed"
            else logged "failsafe_policy_changed" (policy_detail id x) ok_json
          end
        end
      end
    end.

Definition failsafe_rearm_handler (req : request) : M response :=
  if negb (http_auth_require_cap_json req AUTH_CAP_FAILSAFE_WRITE false) then mret no_answer
  else
    match optional_body req with
    | None => failsafe_json_error "400 Bad Request" "bad_request_body"
    | Some body =>
      match failsafe_request_output_id req body with
      | None => failsafe_json_error "400 Bad Request" "invalid_or_missing_output_id"
      | Some id =>
        ok ← on_failsafe (failsafe_rearm id);
        if negb ok then failsafe_json_error "404 Not Found" "invalid_output"
        else logged "failsafe_rearmed" (cut 64 (bytes_of "output=" ++ decimal id)) ok_json
      end
    end.

Definition failsafe_test_handler (req : request) : M response :=
  if negb (http_auth_require_cap_json req AUTH_CAP_FAILSAFE_WRITE false) then mret no_answer
  else
    match optional_body req with
    | None => failsafe_json_error "400 Bad Request" "bad_request_body"
    | Some body =>
      match failsafe_request_output_id req body with
      | None => failsafe_json_error "400 Bad Request" "invalid_or_missing_output_id"
      | Some id =>
        r ← on_failsafe (failsafe_trigger_manual_test id);
        match r with
        | None => failsafe_json_error "404 Not Found" "invalid_output"
        | Some v =>
          on_system (on_fw (state_set_int id v));;
          logged "failsafe_test_triggered"
            (cut 96 (bytes_of "output=" ++ decimal id ++ bytes_of " reason=" ++ bytes_of (failsafe_reason_name FAILSAFE_REASON_MANUAL_TEST) ++
                     bytes_of " value=" ++ integer v)) ok_json
        end
      end
    end.
End handlers.

(** ** From a request to a relay

    A node without a ladder program and without automation rules, so that
    nothing but commands writes its outputs. *)

Section request_to_relay.
Context {G N Q P T R : Type} `{HardwareLaws G} `{Nvs N} `{RemoteQueue Q} `{SerialPort P} `{TransportApi T}.
Context (kv : list Z -> list Z -> nat -> lookup_result).
Implicit Types s : system G N Q P.
Abbreviation world := (web (plant G N Q P T) N R).
Implicit Types w : world.
(** Output [ch] is the [k]-th of the table, local to this node. *)
Context (k : nat) (ch : output_channel) (own : cluster_io).
Context (Hvalid : device_profile_is_valid_output (oc_id ch) = true).
Context (Hlocal : cluster_io_is_local (oc_id ch) own = true) (Hpin : 0 <= oc_gpio ch).

Definition queued s : list io_cmd := EventBus.waiting IO_CMD_QUEUE_SIZE io_cmd_zero (s_cmds s).
Record switchable s : Prop := {
  sw_io : io_inv (io_of_sys s);
  sw_out : output_table (io_of_sys s) !! k = Some ch;
  sw_own : owners (io_of_sys s) = own;
  sw_rules : rules (s_au s) = [];
  sw_prog : has_program (lp_lad (s_lad s)) = false;
  sw_cmds : EventBus.ring_wf IO_CMD_QUEUE_SIZE (s_cmds s);
}.
Lemma switchable_same s s' : undisturbed s s' -> switchable s -> switchable s' /\ queued s' = queued s /\
  (forall id, state_on id (io_of_sys s') = state_on id (io_of_sys s)) /\
  (forall on, shows ch on (io_of_sys s) -> shows ch on (io_of_sys s')).
Proof.
  intros Hu [Hi Ho Hw Hr Hp Hc]. pose proof (un_io _ _ Hu) as Hs. split_and!.
  - constructor; [by eapply same_io_inv|by rewrite (sm_outputs _ _ Hs)|by rewrite (un_owners _ _ Hu)|by rewrite (un_rules _ _ Hu)|by rewrite (un_ladder _ _ Hu)
      |by rewrite (un_cmds _ _ Hu)].
  - unfold queued. by rewrite (un_cmds _ _ Hu).
  - intros id. apply state_on_values, (sm_values _ _ Hs).
  - intros on Hsh. unfold shows in *. rewrite <- Hsh. apply (sm_driven _ _ Hs). by eapply out_pin_at.
Qed.

Lemma undisturbed_no_program s : has_program (lp_lad (s_lad s)) = false -> undisturbed s (on_ladder ladder_engine_run s).2.
Proof. intros Hp. unfold on_ladder, on_part, ladder_engine_run. run. cbn [lad]. by rewrite Hp. Qed.
Lemma switchable_scan s : switchable s -> switchable (on_io io_driver_scan_inputs s).2 /\ queued (on_io io_driver_scan_inputs s).2 = queued s.
Proof.
  intros [Hi Ho Hw Hr Hp Hc]. pose proof (io_inv_scan _ Hi) as Hi'.
  destruct (scan_frame (output_table (io_of_sys s)) (owners (io_of_sys s)) (io_of_sys s)) as [Ht Hown]; [done|].
  unfold on_io, on_fw, fw_on_io, on_part. change (fw_io (s_fw s)) with (io_of_sys s).
  destruct (io_driver_scan_inputs (io_of_sys s)) as [[] w]. cbn [snd] in *. split; [|done]. constructor; try done; unfold io_of_sys at 1; cbn; congruence.
Qed.
Lemma undisturbed_io_image s : undisturbed s (on_io (on_image io_image_scan_inputs) s).2.
Proof. by constructor. Qed.

(** The oldest command goes into the state table. *)
Definition put_cmds (q : ring io_cmd) s : system G N Q P := s <| s_cmds := q |>.
Lemma pop_next_spec s : EventBus.ring_wf IO_CMD_QUEUE_SIZE (s_cmds s) ->
  match queued s with
  | [] => io_command_pop_next s = (None, s)
  | c :: rest => exists q, io_command_pop_next s = (Some c, put_cmds q s) /\ EventBus.ring_wf IO_CMD_QUEUE_SIZE q /\
      EventBus.waiting IO_CMD_QUEUE_SIZE io_cmd_zero q = rest
  end.
Proof.
  intros Hwf. pose proof (ring_pop_spec IO_CMD_QUEUE_SIZE io_cmd_zero ltac:(done) _ Hwf) as Hp. unfold queued, io_command_pop_next, on_part.
  rewrite io_command_pop_ring. pose proof (ring_pop_wf IO_CMD_QUEUE_SIZE io_cmd_zero ltac:(done) _ Hwf) as Hwf'.
  destruct (EventBus.waiting _ _ _) as [|c rest]; [rewrite Hp; by destruct s|]. destruct Hp as [Hp1 Hp2].
  destruct (ring_pop _ _ _) as [o q]. cbn [fst snd] in *. subst o. by exists q.
Qed.
Lemma set_switchable id v s : switchable s ->
  let s' := (on_fw (state_set_int id v) s).2 in
  switchable s' /\ s_cmds s' = s_cmds s /\ (id = oc_id ch -> state_on (oc_id ch) (io_of_sys s') = negb (v =? 0)).
Proof.
  intros [Hi Ho Hw Hr Hp Hc]. pose proof (io_inv_set id v _ Hi) as Hi'. unfold on_fw, on_part. cbn [state_set_int fw_state].
  unfold fw_on_io, on_part. change (fw_io (s_fw s)) with (io_of_sys s).
  assert (output_table (state_set_int id v (io_of_sys s)).2 = output_table (io_of_sys s) /\
    owners (state_set_int id v (io_of_sys s)).2 = owners (io_of_sys s)) as [Ht Hown].
  { cbn [state_set_int iow_state]. unfold on_store, on_part. by destruct (state_set_int id v (sto (io_of_sys s))). }
  assert (id = oc_id ch -> state_on (oc_id ch) (state_set_int id v (io_of_sys s)).2 = negb (v =? 0)) as Hon.
  { intros ->. unfold state_on. cbn [state_set_int iow_state]. unfold on_store, on_part.
    pose proof (set_int_reads (oc_id ch) v (sto (io_of_sys s)) (oc_id ch) (tk_len _ (ii_tables _ Hi))) as Hrd. rewrite Z.eqb_refl in Hrd.
    destruct (state_set_int (oc_id ch) v (sto (io_of_sys s))) as [b st']. cbn [snd sto update] in *.
    rewrite Hrd; [done|]. apply (tk_valid _ (ii_tables _ Hi)). by eapply list_elem_of_lookup_2. }
  change (on_store (state_set_int id v)) with (state_set_int (W := iow G) id v) in Hi'.
  destruct (state_set_int id v (io_of_sys s)) as [b w]. cbn [snd] in *. split; [|done].
  constructor; try done; unfold io_of_sys at 1; cbn; congruence.
Qed.
Lemma pop_one s : switchable s ->
  let s' := (pop_commands IO_CMD_BUDGET s).2 in
  switchable s' /\ queued s' = tl (queued s) /\
  forall c rest, queued s = c :: rest -> EventBus.cmd_id c = oc_id ch -> state_on (oc_id ch) (io_of_sys s') = negb (EventBus.cmd_value c =? 0).
Proof.
  intros Hs. cbv zeta. pose proof (pop_next_spec s (sw_cmds _ Hs)) as Hp. cbn [pop_commands IO_CMD_BUDGET].
  destruct (queued s) as [|c rest] eqn:Hq.
  - rewrite (run_bind_eq _ _ _ _ _ Hp). cbn [mret st_ret snd]. by rewrite Hq.
  - destruct Hp as (q & Hpop & Hwf & Hrest). rewrite (run_bind_eq _ _ _ _ _ Hpop).
    assert (switchable (put_cmds q s)) as Hs1 by (destruct Hs; by constructor).
    rewrite run_bind_surj. destruct (set_switchable (EventBus.cmd_id c) (EventBus.cmd_value c) _ Hs1) as (Hs2 & Hc2 & Hon2).
    cbn [mret st_ret snd]. split; [done|]. split; [unfold queued; rewrite Hc2; exact Hrest|]. intros c' rest' [= <- <-] Hid. by apply Hon2.
Qed.

(** The outputs follow the state table. *)
Lemma apply_shows s : switchable s ->
  let s' := (scheduler_run_io_apply idle s).2 in
  switchable s' /\ queued s' = queued s /\ shows ch (state_on (oc_id ch) (io_of_sys s)) (io_of_sys s').
Proof.
  intros [Hi Ho Hw Hr Hp Hc]. pose proof (update_ok (io_of_sys s) Hi) as [Hi' Ho' Ht Hv Hb Hpd].
  pose proof (ii_sync _ Hi' k ch) as Hs. rewrite Ht in Hs. specialize (Hs Ho Hpin (Hpd k ch Ho)). rewrite (Hb k ch Ho) in Hs.
  unfold is_local in Hs. rewrite Hw, Hlocal in Hs. cbn [andb] in Hs. rewrite (state_on_values _ (io_of_sys s)) in Hs by done.
  unfold scheduler_run_io_apply, on_io, on_fw, fw_on_io, on_part. change (fw_io (s_fw s)) with (io_of_sys s).
  destruct (io_driver_update idle (io_of_sys s)) as [[] w]. cbn [snd] in *. split; [|done].
  constructor; try done; unfold io_of_sys at 1; cbn; congruence.
Qed.
(** What runs between the commands and the outputs changes neither. *)
Lemma undisturbed_middle s : switchable s -> undisturbed s (scheduler_run_automation (scheduler_run_fieldbus s).2).2.
Proof.
  intros Hs. pose proof (undisturbed_fieldbus s) as Hu1. destruct (switchable_same _ _ Hu1 Hs) as (Hs1 & _).
  set (s1 := (scheduler_run_fieldbus s).2) in *. eapply undisturbed_trans; [exact Hu1|]. unfold scheduler_run_automation. rewrite !run_bind_surj.
  pose proof (undisturbed_tick s1 (sw_rules _ Hs1)) as Hu2. destruct (switchable_same _ _ Hu2 Hs1) as (Hs2 & _).
  eapply undisturbed_trans; [exact Hu2|]. eapply undisturbed_trans; [by apply undisturbed_no_program, (sw_prog _ Hs2)|apply undisturbed_kernel].
Qed.

(** One cycle takes the oldest command to the relay. *)
Lemma cycle_takes_command s : switchable s ->
  let s' := (control_cycle idle s).2 in
  switchable s' /\ queued s' = tl (queued s) /\
  forall c rest, queued s = c :: rest -> EventBus.cmd_id c = oc_id ch -> shows ch (negb (EventBus.cmd_value c =? 0)) (io_of_sys s').
Proof.
  intros Hs. cbv zeta. unfold control_cycle, phases. cbn [for_each]. rewrite !run_bind_surj. cbn [mret st_ret snd].
  unfold scheduler_run_io. rewrite !run_bind_surj.
  destruct (switchable_scan s Hs) as [Hs1 Hq1]. set (s1 := (on_io io_driver_scan_inputs s).2) in *.
  destruct (switchable_same _ _ (undisturbed_io_image s1) Hs1) as (Hs2 & Hq2 & _). set (s2 := (on_io (on_image _) s1).2) in *.
  destruct (pop_one s2 Hs2) as (Hs3 & Hq3 & Hon). set (s3 := (pop_commands IO_CMD_BUDGET s2).2) in *. rewrite Hq2, Hq1 in Hq3, Hon.
  destruct (switchable_same _ _ (undisturbed_middle s3 Hs3) Hs3) as (Hs4 & Hq4 & Hv4 & _).
  set (s4 := (scheduler_run_automation _).2) in *.
  destruct (apply_shows s4 Hs4) as (Hs5 & Hq5 & Hsh). set (s5 := (scheduler_run_io_apply idle s4).2) in *.
  destruct (switchable_same _ _ (undisturbed_events s5 (sw_rules _ Hs5)) Hs5) as (Hs6 & Hq6 & _ & Hsh6).
  split; [done|]. split; [congruence|]. intros c rest Hq Hid. apply Hsh6. by rewrite <- (Hon c rest Hq Hid), <- Hv4.
Qed.
Definition cycles (n : nat) : st (system G N Q P) () := for_each (fun _ => control_cycle idle) (seq 0 n).
Lemma cycles_S n s : (cycles (S n) s).2 = (control_cycle idle (cycles n s).2).2.
Proof.
  assert (forall l s, ((for_each (fun _ : nat => control_cycle idle) l) s).2 = Nat.iter (length l) (fun s => (control_cycle idle s).2) s) as Hit.
  { intros l. induction l as [|x l IH]; intros s'; [done|]. cbn [for_each]. rewrite run_bind_surj, IH. cbn [length]. by rewrite Nat.iter_succ_r. }
  unfold cycles. by rewrite !Hit, !length_seq.
Qed.
(** The command at place [n] of the queue is at the relay after [n + 1] cycles. *)
Lemma cycles_take_commands n s : switchable s ->
  switchable (cycles n s).2 /\ queued (cycles n s).2 = drop n (queued s).
Proof.
  intros Hs. induction n as [|n [IHs IHq]]; [split; [done|by rewrite drop_0]|]. rewrite cycles_S.
  destruct (cycle_takes_command _ IHs) as (Hs' & Hq' & _). split; [done|]. rewrite Hq', IHq. change (drop 1 (drop n (queued s)) = drop (S n) (queued s)). rewrite drop_drop. f_equal. lia.
Qed.
Lemma command_reaches_relay n s c : switchable s -> queued s !! n = Some c -> EventBus.cmd_id c = oc_id ch ->
  shows ch (negb (EventBus.cmd_value c =? 0)) (io_of_sys (cycles (S n) s).2).
Proof.
  intros Hs Hc Hid. destruct (cycles_take_commands n s Hs) as [Hs' Hq]. rewrite cycles_S.
  destruct (cycle_takes_command _ Hs') as (_ & _ & Hsh). apply (Hsh c (drop (S n) (queued s))); [|done]. rewrite Hq. by apply drop_S.
Qed.

(** What the request asks for. *)
Definition asks (req : request) (id value : Z) (target : option Z) : Prop :=
  query_get_str kv req "resource_id" 64 = None /\ query_get_int kv req "id" 0 65535 = Some id /\
  query_get_int kv req "value" 0 1 = Some value /\ query_get_optional_u32 kv req "target_node" = Some target.
(** The fail-safe holds the output until it is rearmed. *)
Definition held (e : fs_entry) : bool := negb (enabled (fe_policy e) =? 0) && active e && latches e.

Definition with_system (f : system G N Q P -> system G N Q P) w : world := w <| web_world := web_world w <| pl_sys := f (pl_sys (web_world w)) |> |>.
Lemma run_system {A} (m : st (system G N Q P) A) w : on_system m w = ((m (the_system w)).1, with_system (fun _ => (m (the_system w)).2) w).
Proof. unfold on_system, on_site, on_part, with_system, the_system. by destruct (m _). Qed.
Lemma guard_undisturbed id v s e : entry_of id (fsafe (fw_io (s_fw s))) = Some e ->
  exists s' reason, on_fw (fw_on_failsafe (failsafe_guard_command id v)) s = ((negb (held e), Some (failsafe_binary_value v), reason), s') /\ undisturbed s s'.
Proof.
  intros He. unfold on_fw, fw_on_failsafe, on_part, failsafe_guard_command. run. cbn [fs]. rewrite He. unfold held.
  destruct (_ && _ && _); cbn; eexists _, _; (split; [reflexivity|by constructor]).
Qed.
Lemma push_undisturbed id v s : EventBus.ring_wf IO_CMD_QUEUE_SIZE (s_cmds s) -> switchable s ->
  let '(ok, s') := on_part s_cmds (fun q s => s <| s_cmds := q |>) (io_command_push id v) s in
  ok = bool_decide (Z.of_nat (length (queued s)) < 31) /\ switchable s' /\ queued s' = if ok then queued s ++ [IoCmd id v] else queued s.
Proof.
  intros Hwf Hs. unfold on_part. pose proof (io_command_push_ring (IoCmd id v) (s_cmds s)) as Hr. cbn [EventBus.cmd_id EventBus.cmd_value] in Hr. rewrite Hr.
  destruct (ring_push_spec IO_CMD_QUEUE_SIZE io_cmd_zero ltac:(done) (IoCmd id v) (s_cmds s) Hwf) as [Hp Hw].
  pose proof (ring_push_wf IO_CMD_QUEUE_SIZE ltac:(done) (IoCmd id v) (s_cmds s) Hwf) as Hwf'.
  rewrite Hp. split; [done|]. split; [by destruct Hs; constructor|exact Hw].
Qed.

End request_to_relay.

(** Output 100 again, its fail-safe armed, no program: a page switches it on. *)
Definition demo_switch_io : iow board :=
  (io_driver_init demo_outputs demo_inputs (demo_io <| fsafe := Failsafe [failsafe_default_entry 100] 0 |>)).2.
Definition demo_switch_system : system board flash fifo script :=
  demo_system <| s_fw := demo_fw <| fw_io := demo_switch_io |> |> <| s_lad := LadderPart ladder_cleared None (Clock (fun k => 1000 * Z.of_nat k) 0) |>.
Definition demo_switch_web : web (plant board flash fifo script ()) flash Z :=
  Web (Plant demo_switch_system demo_map tt) example_start ws_boot.
Definition demo_switch_request : request :=
  Request true (Found (bytes_of "id=100&value=1")) (fun _ => None) 0 [] [].
Lemma demo_switchable : switchable 0 demo_relay (cluster_io_init 0) demo_switch_system.
Proof.
  constructor; [|vm_compute; reflexivity..|by vm_compute].
  apply io_driver_init_ok; [exact demo_wiring|vm_compute; reflexivity].
Qed.
