(* ===== verification/WebConfig.v ===== *)
(** * Requests that configure the node
    ([components/runtime/http_server/http_server.c]: the requests about bindings,
    automation rules, the ladder program, nodes and diagnostics)

    Each handler reads its parameters from the query, calls one operation of the
    components modelled elsewhere and says what it answered.  The theorems take
    what a page asks for to the tables of those components: a rule written into
    a query is the rule that is stored, and no request about nodes makes one
    trusted that was not. *)

From Stdlib Require Import String Ascii.
From S2P Require Import Prelude Persist Auth HttpText InstallationMap Web.
From S2P Require Import EventBus State DeviceProfile Pve Failsafe Ladder Cluster Automation NodeRegistry Rs485Engine Fieldbus IoDriver InputLearning Observability Scheduler IoBinding WebIo.
Local Open Scope string_scope.
Local Open Scope list_scope.
Local Open Scope Z_scope.

(** The components these requests reach. *)
Record house {G N Q P : Type} := House { ho_sys : system G N Q P; ho_map : mapw N; ho_bind : bindings N; ho_load : load_test }.
Arguments house : clear implicits.
Arguments House {G N Q P}.
#[export] Instance house_rebuild {G N Q P} : Rebuild (house G N Q P) := fun h => House (ho_sys h) (ho_map h) (ho_bind h) (ho_load h).

Definition bad_request : response := answer "400 Bad Request" (bytes_of "BAD_REQUEST").
Definition said (body : string) : response := answer OK_STATUS (bytes_of body).
(** [respond_binding_result]: what a refusal answers. *)
Definition respond_binding_result (r : io_binding_result) : option response :=
  match r with
  | IO_BINDING_RESULT_OK => None
  | IO_BINDING_RESULT_INVALID_GPIO => Some (answer "409 Conflict" (bytes_of "INVALID_GPIO"))
  | IO_BINDING_RESULT_GPIO_CONFLICT => Some (answer "409 Conflict" (bytes_of "GPIO_CONFLICT"))
  | IO_BINDING_RESULT_ALREADY_ACTIVE => Some (answer "409 Conflict" (bytes_of "ALREADY_ACTIVE"))
  | IO_BINDING_RESULT_LIMIT_REACHED => Some (answer "409 Conflict" (bytes_of "LIMIT_REACHED"))
  | IO_BINDING_RESULT_PROTECTED => Some (answer "409 Conflict" (bytes_of "PROTECTED_SLOT"))
  | _ => Some (answer "404 Not Found" (bytes_of "NOT_FOUND"))
  end.
Definition kernel_load_phase_from_text (text : string) : option Z :=
  if (text =? "io")%string then Some PHASE_LOAD_TEST_IO
  else if (text =? "io_apply")%string then Some PHASE_LOAD_TEST_IO_APPLY
  else if (text =? "fieldbus")%string then Some PHASE_LOAD_TEST_FIELDBUS
  else if (text =? "automation")%string then Some PHASE_LOAD_TEST_AUTOMATION
  else if (text =? "events")%string then Some PHASE_LOAD_TEST_EVENTS
  else None.
(** [text[0] ? text : "-"] *)
Definition or_dash (text : list Z) : list Z := match text with [] => bytes_of "-" | _ => text end.

Section handlers.
Context {G N Q P R : Type} `{Hardware G} `{Nvs N} `{RemoteQueue Q} `{SerialPort P}.
Context (kv : list Z -> list Z -> nat -> lookup_result) (pins : pin_rules).
Abbreviation world := (web (house G N Q P) N R).
Abbreviation M := (st world).
Abbreviation query_int := (query_get_int kv).
Abbreviation optional_int := (query_get_optional_int kv).
Abbreviation optional_text := (query_get_optional_str kv).

Definition at_system {A} (m : st (system G N Q P) A) : M A := on_site (on_part ho_sys (fun s h => h <| ho_sys := s |>) m).
Definition at_bindings {A} (m : bindings N -> A * bindings N) : M A := on_site (on_part ho_bind (fun b h => h <| ho_bind := b |>) m).
Definition at_map {A} (m : st (mapw N) A) : M A := on_site (on_part ho_map (fun x h => h <| ho_map := x |>) m).
Definition at_load (f : load_test -> load_test) : M () := on_site (modify (fun h => h <| ho_load := f (ho_load h) |>)).
Definition at_learning (f : input_learning -> input_learning) : M () := at_system (modify (fun s => s <| s_learn := f (s_learn s) |>)).
Definition at_registry {A} (m : st (rw N) A) : M A := at_system (on_fw (on_part fw_reg (fun r f => f <| fw_reg := r |>) m)).
Definition the_house (w : world) : system G N Q P := ho_sys (web_world w).
Definition registered (w : world) : list reg_entry := reg_entries (reg (fw_reg (s_fw (the_house w)))).
Definition cluster_nodes (w : world) : list cluster_node := Cluster.nodes (cp_mgr (s_cl (the_house w))).

(** An optional number whose errors are not looked at, and the text left in a
    buffer by such a call. *)
Definition int_or (req : request) (key : string) (lo hi d : Z) : Z :=
  match optional_int req key lo hi with Some (Some v) => v | _ => d end.
Definition text_left (req : request) (key : string) (size : nat) : list Z :=
  match url_query req with
  | Found q => match kv q (bytes_of key) size with Found v => v | NotFound => [] | Failed part => part end
  | _ => []
  end.

(** ** Bindings *)

(** The answer after a change, and the four kinds of change, each for inputs and
    for outputs. *)
Definition finish (r : io_binding_result) (action : string) (detail : list Z) (body : string) : M response :=
  match respond_binding_result r with Some refusal => mret refusal | None => logged action detail (said body) end.
Definition config_handler (set : Z -> option (list Z) -> option (list Z) -> Z -> bindings N -> io_binding_result * bindings N)
    (action label : string) (req : request) : M response :=
  match query_int req "id" 0 65535, optional_text req "name" IO_BINDING_NAME_LEN, optional_text req "role" IO_BINDING_ROLE_LEN,
        optional_int req "gpio" (-1) 32767 with
  | Some id, Some name, Some role, Some gpio =>
    let name := default [] name in let gpio := default (-1) gpio in
    r ← at_bindings (set (u16 id) (Some name) (Some (default [] role)) gpio);
    finish r action (cut 96 (bytes_of label ++ bytes_of "=" ++ integer id ++ bytes_of " gpio=" ++ integer gpio ++ bytes_of " name=" ++ or_dash name)) "SAVED"
  | _, _, _, _ => mret bad_request
  end.
Definition reset_handler (reset : Z -> bindings N -> io_binding_result * bindings N) (action : string) (req : request) : M response :=
  match query_int req "id" 0 65535 with
  | None => mret bad_request
  | Some id => r ← at_bindings (reset (u16 id)); finish r action (bytes_of "binding-reset") "RESET"
  end.
Definition add_handler (add : Z -> option (list Z) -> option (list Z) -> Z -> bindings N -> io_binding_result * bindings N)
    (action label : string) (req : request) : M response :=
  match query_int req "id" 0 65535, query_int req "gpio" 0 32767, optional_text req "name" IO_BINDING_NAME_LEN,
        optional_text req "role" IO_BINDING_ROLE_LEN with
  | Some id, Some gpio, Some name, Some role =>
    r ← at_bindings (add (u16 id) (Some (default [] name)) (Some (default [] role)) gpio);
    finish r action (cut 96 (bytes_of label ++ bytes_of "=" ++ integer id ++ bytes_of " gpio=" ++ integer gpio)) "ADDED"
  | _, _, _, _ => mret bad_request
  end.
Definition remove_handler (remove : Z -> bindings N -> io_binding_result * bindings N) (action : string) (req : request) : M response :=
  match query_int req "id" 0 65535 with
  | None => mret bad_request
  | Some id => r ← at_bindings (remove (u16 id)); finish r action (bytes_of "binding-removed") "REMOVED"
  end.
Definition gated cap (req : request) (m : M response) : M response :=
  if negb (http_auth_require_cap req cap) then mret no_answer else m.

Definition output_config_handler (req : request) : M response :=
  gated AUTH_CAP_PROFILE_WRITE req (config_handler (io_binding_set_output pins) "output_config_updated" "output" req).
Definition input_config_handler (req : request) : M response :=
  gated AUTH_CAP_PROFILE_WRITE req (config_handler (io_binding_set_input pins) "input_config_updated" "input" req).
Definition input_reset_handler (req : request) : M response :=
  gated AUTH_CAP_PROFILE_WRITE req (reset_handler (io_binding_reset_input pins) "input_reset" req).
Definition output_reset_handler (req : request) : M response :=
  gated AUTH_CAP_PROFILE_WRITE req (reset_handler (io_binding_reset_output pins) "output_reset" req).
Definition input_add_handler (req : request) : M response :=
  gated AUTH_CAP_PROFILE_WRITE req (add_handler (io_binding_add_input pins) "input_added" "input" req).
Definition output_add_handler (req : request) : M response :=
  gated AUTH_CAP_PROFILE_WRITE req (add_handler (io_binding_add_output pins) "output_added" "output" req).
Definition input_remove_handler (req : request) : M response :=
  gated AUTH_CAP_PROFILE_WRITE req (remove_handler io_binding_remove_input "input_removed" req).
Definition output_remove_handler (req : request) : M response :=
  gated AUTH_CAP_PROFILE_WRITE req (remove_handler io_binding_remove_output "output_removed" req).

Definition input_learn_handler (req : request) : M response :=
  gated AUTH_CAP_RUNTIME_DIAGNOSTICS req
    match optional_text req "action" 16 with
    | None => mret bad_request
    | Some given =>
      let action := from_option text_string "arm" given in
      if (action =? "arm")%string then at_learning input_learning_arm;; logged "input_learn" (bytes_of "arm") (said "ARMED")
      else if (action =? "cancel")%string then at_learning input_learning_cancel;; logged "input_learn" (bytes_of "cancel") (said "CANCELLED")
      else if (action =? "clear")%string then at_learning input_learning_clear;; logged "input_learn" (bytes_of "clear") (said "CLEARED")
      else mret (answer "400 Bad Request" (bytes_of "INVALID_ACTION"))
    end.

Definition kernel_load_handler (req : request) : M response :=
  gated AUTH_CAP_RUNTIME_DIAGNOSTICS req
    (if (text_string (text_left req "action" 16) =? "clear")%string then
       at_load phase_load_test_clear;; logged "kernel_load" (bytes_of "clear") (said "CLEARED")
     else
       match query_get_str kv req "phase" 24, query_int req "us" 0 2147483647 with
       | Some phase_text, Some extra_us =>
         match kernel_load_phase_from_text (text_string phase_text) with
         | None => mret bad_request
         | Some phase =>
           at_load phase_load_test_clear;;
           (if 0 <? extra_us then at_load (phase_load_test_set phase (u32 extra_us)) else mret tt);;
           logged "kernel_load" (cut 96 (bytes_of "phase=" ++ phase_text ++ bytes_of " us=" ++ integer extra_us))
             (said (if extra_us =? 0 then "CLEARED" else "APPLIED"))
         end
       | _, _ => mret bad_request
       end).

(** ** Automation *)

(** The first view on a pin. *)
Definition bound_at (gpio : Z) (vs : list binding_view) : option Z := bv_id <$> List.find (fun v => bv_gpio v =? gpio) vs.
Definition input_bound_at (gpio : Z) (b : bindings N) : option Z :=
  match bound_at gpio (io_binding_export_inputs (Some (Z.of_nat IO_BINDING_MAX_INPUTS)) b).1 with
  | Some id => Some id
  | None => bound_at gpio (io_binding_export_outputs (Some (Z.of_nat IO_BINDING_MAX_OUTPUTS)) b).1
  end.
Definition output_bound_at (gpio : Z) (b : bindings N) : option Z :=
  bound_at gpio (io_binding_export_outputs (Some (Z.of_nat IO_BINDING_MAX_OUTPUTS)) b).1.
(** A channel by its pin or by its number. *)
Definition channel_asked (req : request) (pin_key key unbound : string) (find : Z -> bindings N -> option Z) (b : bindings N) : response + Z :=
  match optional_int req pin_key 0 39 with
  | Some (Some gpio) => from_option inr (inl (answer "400 Bad Request" (bytes_of unbound))) (find gpio b)
  | _ => from_option inr (inl bad_request) (query_int req key 0 65535)
  end.
(** An operator or a mode: its text, and its number or the default. *)
Definition code_asked (req : request) (key : string) (size : nat) (of_code : string -> option Z) (d : Z) (invalid : string) : response + (list Z * Z) :=
  match optional_text req key size with
  | None => inl bad_request
  | Some text =>
    match default [] text with
    | [] => inr ([], d)
    | t => from_option (fun v => inr (t, v)) (inl (answer "400 Bad Request" (bytes_of invalid))) (of_code (text_string t))
    end
  end.
(** The parameters of a rule, and the text of its mode. *)
Definition rule_asked (req : request) (b : bindings N) : response + (automation_node * list Z) :=
  match channel_asked req "input_gpio" "input" "INPUT_GPIO_NOT_BOUND" input_bound_at b with
  | inl r => inl r
  | inr inp =>
    match query_int req "threshold" (-2147483648) 2147483647 with
    | None => inl bad_request
    | Some t =>
      match channel_asked req "output_gpio" "output" "OUTPUT_GPIO_NOT_BOUND" output_bound_at b with
      | inl r => inl r
      | inr out =>
        match code_asked req "op" 8 automation_engine_operator_from_code AUTOMATION_OP_GT "INVALID_OPERATOR" with
        | inl r => inl r
        | inr (_, o) =>
          match code_asked req "mode" 16 automation_engine_mode_from_code AUTOMATION_MODE_FOLLOW "INVALID_MODE" with
          | inl r => inl r
          | inr (mode_text, m) =>
            match optional_int req "duration_ms" 0 65535, optional_int req "on_true" 0 1, optional_int req "on_false" 0 1 with
            | Some d, Some t1, Some t0 =>
              inr (AutomationNode inp out t o m (default 0 d) (default 1 t1) (default 0 t0), mode_text)
            | _, _, _ => inl bad_request
            end
          end
        end
      end
    end
  end.
(** One condition of an interlock, when its channel is given. *)
Definition condition_asked (req : request) (channel_key op_key val_key : string) : list automation_condition :=
  let chan := int_or req channel_key 0 65535 (-1) in
  if 0 <=? chan then
    let text := text_left req op_key 8 in
    [Condition (u16 chan) (match text with [] => AUTOMATION_OP_EQ | _ => default AUTOMATION_OP_EQ (automation_engine_operator_from_code (text_string text)) end)
       (i8 (int_or req val_key (-128) 127 0))]
  else [].
Definition interlock_asked (req : request) : automation_interlock :=
  let cs := condition_asked req "interlock_cond1_channel" "interlock_cond1_op" "interlock_cond1_val" ++
            condition_asked req "interlock_cond2_channel" "interlock_cond2_op" "interlock_cond2_val" in
  Interlock 1 (u8 (int_or req "interlock_logic" 0 1 0)) (Z.of_nat (length cs)) 0 (nth 0 cs condition_zero) (nth 1 cs condition_zero).

(** The interlock of the rule that was just added, taken to be the last one. *)
Definition store_interlock (k : automation_interlock) : M () :=
  count ← gets (fun w => automation_engine_get_node_count (s_au (the_house w)));
  if 0 <? count then at_system (on_automation (automation_engine_set_interlock_at (count - 1) (Some k)));; mret tt else mret tt.

Definition automation_add_handler (req : request) : M response :=
  gated AUTH_CAP_AUTOMATION_WRITE req
    (b ← gets (fun w => ho_bind (web_world w));
     match rule_asked req b with
     | inl refusal => mret refusal
     | inr (n, mode_text) =>
       result ← at_system (on_automation (automation_engine_add_rule (Automation.input n) (Automation.op n) (Automation.mode n) (threshold n) (duration_ms n)
                             (Automation.output n) (on_true n) (on_false n)));
       match result with
       | AUTOMATION_RESULT_INVALID => mret (answer "400 Bad Request" (bytes_of "INVALID_RULE"))
       | AUTOMATION_RESULT_CONFLICT => mret (answer "409 Conflict" (bytes_of "OUTPUT_CONFLICT"))
       | AUTOMATION_RESULT_FULL => mret (answer "409 Conflict" (bytes_of "RULE_TABLE_FULL"))
       | _ =>
         let interlock_en := int_or req "interlock_en" 0 1 0 in
         (if interlock_en =? 0 then mret tt else store_interlock (interlock_asked req));;
         logged "automation_added"
           (cut 96 (bytes_of "input=" ++ integer (Automation.input n) ++ bytes_of " output=" ++ integer (Automation.output n) ++ bytes_of " mode=" ++
                    match mode_text with [] => bytes_of (automation_engine_mode_to_code (Automation.mode n)) | t => t end ++
                    bytes_of " interlock=" ++ integer interlock_en))
           (said (match result with AUTOMATION_RESULT_DUPLICATE => "DUPLICATE" | _ => "OK" end))
       end
     end).

Definition automation_remove_handler (req : request) : M response :=
  gated AUTH_CAP_AUTOMATION_WRITE req
    match query_int req "index" 0 (AUTOMATION_ENGINE_MAX_NODES - 1) with
    | None => mret bad_request
    | Some index =>
      ok ← at_system (on_automation (automation_engine_remove_node_at index));
      if negb ok then mret (answer "404 Not Found" (bytes_of "NOT_FOUND"))
      else logged "automation_removed" (bytes_of "rule-removed") (said "REMOVED")
    end.

Definition automation_clear_handler (req : request) : M response :=
  gated AUTH_CAP_AUTOMATION_WRITE req
    (at_system (on_automation automation_engine_clear);; at_system (on_ladder ladder_engine_clear);;
     logged "automation_cleared" (bytes_of "all-rules-cleared") (said "CLEARED")).

(** [malloc n] is the block it gives, with what is in it. *)
Definition automation_ladder_handler (malloc : nat -> option (list Z)) (req : request) : M response :=
  if is_get req then
    program ← gets (fun w => ladder_engine_get_program 2048 (Lw (lp_lad (s_lad (the_house w))) (s_fw (the_house w)) (lp_nvs (s_lad (the_house w))) (lp_clock (s_lad (the_house w)))));
    match program with
    | [] => mret (answer "404 Not Found" (json_text "{'ok':false,'error':'no_program_loaded'}"))
    | _ => mret (answer OK_STATUS program)
    end
  else gated AUTH_CAP_AUTOMATION_WRITE req
    (if content_len req =? 0 then
       at_system (on_ladder ladder_engine_clear);; mret (answer OK_STATUS (json_text "{'ok':true,'status':'ladder_cleared'}"))
     else if 2048 <? content_len req then mret (answer "400 Bad Request" (json_text "{'ok':false,'error':'invalid_payload_size'}"))
     else
       let len := Z.to_nat (content_len req) in
       match malloc len with
       | None => mret (answer "500 Internal Server Error" (json_text "{'ok':false,'error':'no_memory'}"))
       | Some block =>
         match httpd_req_recv len (body_bytes req, segments req) with
         | None => mret (answer "500 Internal Server Error" (json_text "{'ok':false,'error':'recv_failed'}"))
         | Some (got, _) =>
           err ← at_system (on_ladder (ladder_engine_load_program (got ++ drop (length got) block)));
           match err with
           | ESP_OK => mret (answer OK_STATUS (json_text "{'ok':true,'status':'ladder_deployed'}"))
           | _ => mret (answer "400 Bad Request" (json_text "{'ok':false,'error':'invalid_bytecode'}"))
           end
         end
       end).

(** ** Nodes *)

Definition node_detail (size : nat) (id : Z) : list Z := cut size (bytes_of "node=" ++ decimal id).
Definition must_claim : response := answer "409 Conflict" (bytes_of "MUST_USE_REMOTE_CLAIM").
Definition not_found : response := answer "404 Not Found" (bytes_of "NOT_FOUND").

Definition node_adopt_handler (req : request) : M response :=
  gated AUTH_CAP_NODE_ADMISSION req
    match query_get_u32 kv req "id" with
    | None => mret bad_request
    | Some id =>
      w ← gets (fun w => w);
      if node_registry_get_state id (registered w) <? NODE_REGISTRY_STATE_ACTIVE then mret must_claim
      else
        ok ← at_registry (node_registry_adopt id (cluster_nodes w));
        if negb ok then mret not_found else logged "node_adopted" (node_detail 64 id) (said "ADOPTED")
    end.
Definition node_configure_handler (req : request) : M response :=
  gated AUTH_CAP_NODE_ADMISSION req
    match query_get_u32 kv req "id", query_get_str kv req "profile" 24, optional_text req "template" 24 with
    | Some id, Some prof, Some tmpl =>
      let tmpl := default [] tmpl in
      w ← gets (fun w => w);
      if node_registry_get_state id (registered w) <? NODE_REGISTRY_STATE_ACTIVE then mret must_claim
      else
        ok ← at_registry (node_registry_configure id prof tmpl (cluster_nodes w));
        if negb ok then mret not_found
        else logged "node_configured"
               (cut 96 (bytes_of "node=" ++ decimal id ++ bytes_of " profile=" ++ prof ++ bytes_of " template=" ++ or_dash tmpl)) (said "CONFIGURED")
    | _, _, _ => mret bad_request
    end.
Definition node_activate_handler (req : request) : M response :=
  gated AUTH_CAP_NODE_ADMISSION req
    match query_get_u32 kv req "id" with
    | None => mret bad_request
    | Some id =>
      w ← gets (fun w => w);
      if node_registry_get_state id (registered w) <? NODE_REGISTRY_STATE_ACTIVE then mret must_claim
      else
        ok ← at_registry (node_registry_activate id (cluster_nodes w));
        if negb ok then mret (answer "409 Conflict" (bytes_of "INVALID_STATE"))
        else logged "node_activated" (node_detail 64 id) (said "ACTIVATED")
    end.
Definition node_revoke_handler (req : request) : M response :=
  gated AUTH_CAP_NODE_ADMISSION req
    match query_get_u32 kv req "id" with
    | None => mret bad_request
    | Some id =>
      ok ← at_registry (node_registry_revoke id);
      if negb ok then mret not_found else logged "node_revoked" (node_detail 64 id) (said "REVOKED")
    end.

Definition json_failure (status error : string) : response :=
  answer status (json_text "{'ok':false,'error':'" ++ bytes_of error ++ json_text "'}").
(** [(uint32_t)strtoul(text, NULL, 10)]: on a 32-bit target. *)
Definition node_number (text : list Z) : Z := u32 (strtoul text).1.1.
(** The two nodes of a form. *)
Definition form_nodes (req : request) : response + (Z * Z * list Z) :=
  match (body ← http_read_request_body req (Z.of_nat HTTP_BODY_BUFFER_SIZE);
         old ← http_body_get_value kv body (bytes_of "old_id") 24;
         new ← http_body_get_value kv body (bytes_of "new_id") 24; Some (old, new)) with
  | None => inl (json_failure "400 Bad Request" "bad_request")
  | Some (old, new) =>
    let old_id := node_number old in let new_id := node_number new in
    if (old_id =? 0) || (new_id =? 0) || (old_id =? new_id) then inl (json_failure "400 Bad Request" "invalid_nodes")
    else inr (old_id, new_id, new)
  end.
Definition nodes_replace_handler (req : request) : M response :=
  gated AUTH_CAP_NODE_ADMISSION req
    match form_nodes req with
    | inl refusal => mret refusal
    | inr (old_id, new_id, text) =>
      ok ← at_registry (node_registry_replace old_id new_id);
      if negb ok then mret (json_failure "500 Internal Server Error" "registry_error")
      else
        at_map (installation_map_replace_node old_id new_id);;
        on_auth (audit "node_replaced" text);; mret ok_json
    end.
Definition nodes_clone_handler (req : request) : M response :=
  gated AUTH_CAP_NODE_ADMISSION req
    match form_nodes req with
    | inl refusal => mret refusal
    | inr (old_id, new_id, text) =>
      ok ← at_map (installation_map_clone_node old_id new_id);
      if negb ok then mret (json_failure "500 Internal Server Error" "installation_map_error")
      else on_auth (audit "node_cloned" text);; mret ok_json
    end.
End handlers.

(** ** What a query says *)

Lemma decimal_digits_plain fuel x acc : Forall (fun c => isdigit c = true) acc -> Forall (fun c => isdigit c = true) (decimal_digits fuel x acc).
Proof.
  revert x acc. induction fuel as [|fuel IH]; intros x acc Ha; [done|]. cbn [decimal_digits]. cbv zeta.
  assert (isdigit (48 + x mod 10) = true) as Hd by (unfold isdigit; apply andb_true_intro; split; apply Z.leb_le; word_lia).
  case_match; [by constructor|]. apply IH. by constructor.
Qed.
Lemma length_decimal_digits fuel x acc : (length (decimal_digits fuel x acc) <= fuel + length acc)%nat.
Proof.
  revert x acc. induction fuel as [|fuel IH]; intros x acc; [done|]. cbn [decimal_digits]. cbv zeta. case_match; [cbn; lia|].
  specialize (IH (x / 10) ((48 + x mod 10) :: acc)). cbn [length] in IH. lia.
Qed.
Lemma length_integer x : (length (integer x) < 32)%nat.
Proof.
  unfold integer, decimal. pose proof (length_decimal_digits 20 x []). pose proof (length_decimal_digits 20 (- x) []). cbn [length] in *. case_match; cbn [length]; lia.
Qed.
Lemma integer_plain c x : c ∈ integer x -> c <> 38 /\ c <> 0.
Proof.
  assert (forall y, Forall (fun c => isdigit c = true) (decimal y)) as Hd by (intros y; by apply decimal_digits_plain).
  assert (isdigit c = true \/ c = 45 -> c <> 38 /\ c <> 0) as Hc.
  { intros [Hi| ->]; [|lia]. unfold isdigit in Hi. apply andb_prop in Hi as [?%Z.leb_le ?%Z.leb_le]. lia. }
  unfold integer. case_match; [intros [->|Hx]%elem_of_cons|intros Hx]; apply Hc; [by right|left|left].
  - exact (proj1 (Forall_forall _ _) (Hd (- x)) c Hx).
  - exact (proj1 (Forall_forall _ _) (Hd x) c Hx).
Qed.

Section queries.
Context (kv : list Z -> list Z -> nat -> lookup_result) (Hkv : reads_queries kv).
(** A request with these parameters, which fit the buffer for the query. *)
Definition asks_query (req : request) (fields : list (list Z * list Z)) : Prop :=
  url_query req = Found (query_text fields) /\ (length (query_text fields) < HTTP_QUERY_BUFFER_SIZE)%nat.
Context (req : request) (fields : list (list Z * list Z)) (Hreq : asks_query req fields) (Hf : Forall plain_field fields) (Hne : fields <> []).

Lemma value_given key v size : value_of fields (bytes_of key) = Some v -> (length v < size)%nat -> query_get_value kv req key size = QUERY_VALUE_OK v.
Proof. intros Hv Hl. unfold query_get_value. rewrite (proj1 Hreq). pose proof (Hkv fields (bytes_of key) size Hf Hne) as Hr. rewrite Hv in Hr. by rewrite Hr. Qed.
Lemma value_missing key size : value_of fields (bytes_of key) = None -> query_get_value kv req key size = QUERY_VALUE_MISSING.
Proof. intros Hv. unfold query_get_value. rewrite (proj1 Hreq). pose proof (Hkv fields (bytes_of key) size Hf Hne) as Hr. rewrite Hv in Hr. by rewrite Hr. Qed.
Lemma int_given key x lo hi : value_of fields (bytes_of key) = Some (integer x) -> is_i32 lo -> is_i32 hi -> lo <= x <= hi ->
  query_get_int kv req key lo hi = Some x /\ query_get_optional_int kv req key lo hi = Some (Some x) /\ forall d, int_or kv req key lo hi d = x.
Proof.
  intros Hv Hlo Hhi Hx. unfold int_or, query_get_int, query_get_optional_int. rewrite (value_given key _ 32 Hv) by apply length_integer.
  unfold integer. by rewrite parse_int_text.
Qed.
Lemma int_missing key lo hi : value_of fields (bytes_of key) = None ->
  query_get_optional_int kv req key lo hi = Some None /\ forall d, int_or kv req key lo hi d = d.
Proof. intros Hv. unfold int_or, query_get_optional_int. by rewrite value_missing. Qed.
Lemma text_given key v size : value_of fields (bytes_of key) = Some v -> (length v < size)%nat ->
  query_get_optional_str kv req key size = Some (Some v) /\ text_left kv req key size = v.
Proof.
  intros Hv Hl. unfold query_get_optional_str, text_left. rewrite (value_given key v size Hv Hl), (proj1 Hreq).
  pose proof (Hkv fields (bytes_of key) size Hf Hne) as Hr. rewrite Hv in Hr. by rewrite Hr.
Qed.
End queries.

(** ** The query that asks for a rule *)

Definition query_field (e : string * list Z) : list Z * list Z := (bytes_of e.1, e.2).
Definition rule_fields (n : automation_node) : list (list Z * list Z) := query_field <$>
  [("input", integer (Automation.input n)); ("threshold", integer (threshold n)); ("output", integer (Automation.output n));
   ("op", bytes_of (automation_engine_operator_to_code (Automation.op n))); ("mode", bytes_of (automation_engine_mode_to_code (Automation.mode n)));
   ("duration_ms", integer (duration_ms n)); ("on_true", integer (on_true n)); ("on_false", integer (on_false n))].
Definition condition_fields (k : string) (c : automation_condition) : list (list Z * list Z) := query_field <$>
  [(("interlock_cond" ++ k ++ "_channel")%string, integer (cd_channel c));
   (("interlock_cond" ++ k ++ "_op")%string, bytes_of (automation_engine_operator_to_code (cd_op c)));
   (("interlock_cond" ++ k ++ "_val")%string, integer (cd_target c))].
(** The interlock that is wanted: none, or a connective and its conditions. *)
Definition wanted_interlock := option (Z * list automation_condition).
Definition interlock_fields (x : wanted_interlock) : list (list Z * list Z) :=
  match x with
  | None => [query_field ("interlock_en", integer 0)]
  | Some (lg, cs) => [query_field ("interlock_en", integer 1); query_field ("interlock_logic", integer lg)] ++
      match cs with
      | [] => []
      | [c1] => condition_fields "1" c1
      | c1 :: c2 :: _ => condition_fields "1" c1 ++ condition_fields "2" c2
      end
  end.
Definition interlock_wanted (x : wanted_interlock) : automation_interlock :=
  match x with
  | None => interlock_zero
  | Some (lg, cs) => Interlock 1 lg (Z.of_nat (length cs)) 0 (nth 0 cs condition_zero) (nth 1 cs condition_zero)
  end.
Definition condition_ok (c : automation_condition) : Prop := is_u16 (cd_channel c) /\ 0 <= cd_op c < AUTOMATION_OP_MAX /\ -128 <= cd_target c < 128.
Definition wanted_ok (x : wanted_interlock) : Prop :=
  match x with None => True | Some (lg, cs) => 0 <= lg <= 1 /\ (length cs <= 2)%nat /\ Forall condition_ok cs end.

(** The codes of operators and modes, in a query. *)
Record code_text (of_code : string -> option Z) (size : nat) (v : Z) (t : list Z) : Prop := {
  ct_size : (length t < size)%nat;
  ct_some : exists c l, t = c :: l;
  ct_plain : (38 ∉ t) /\ (0 ∉ t);
  ct_read : of_code (text_string t) = Some v;
}.
Lemma closed_code_text of_code size v t :
  Nat.ltb (length t) size && negb (bool_decide (t = [])) && bool_decide (38 ∉ t) && bool_decide (0 ∉ t) && bool_decide (of_code (text_string t) = Some v) = true ->
  code_text of_code size v t.
Proof.
  rewrite !andb_true_iff, Nat.ltb_lt, negb_true_iff. intros ((((? & Hne) & ?%bool_decide_eq_true) & ?%bool_decide_eq_true) & ?%bool_decide_eq_true).
  constructor; try done. apply bool_decide_eq_false in Hne. destruct t; [done|]. eauto.
Qed.
Lemma op_text o : 0 <= o < AUTOMATION_OP_MAX -> code_text automation_engine_operator_from_code 8 o (bytes_of (automation_engine_operator_to_code o)).
Proof.
  unfold AUTOMATION_OP_MAX. intros Ho. apply closed_code_text.
  assert (o = 0 \/ o = 1 \/ o = 2 \/ o = 3 \/ o = 4 \/ o = 5) as [-> | [-> | [-> | [-> | [-> | ->]]]]] by lia; vm_compute; reflexivity.
Qed.
Lemma mode_text m : 0 <= m < AUTOMATION_MODE_MAX -> code_text automation_engine_mode_from_code 16 m (bytes_of (automation_engine_mode_to_code m)).
Proof.
  unfold AUTOMATION_MODE_MAX. intros Hm. apply closed_code_text.
  assert (m = 0 \/ m = 1 \/ m = 2 \/ m = 3 \/ m = 4 \/ m = 5 \/ m = 6) as [-> | [-> | [-> | [-> | [-> | [-> | ->]]]]]] by lia; vm_compute; reflexivity.
Qed.

Definition key_ok (k : string) : bool := bool_decide (38 ∉ bytes_of k) && bool_decide (61 ∉ bytes_of k) && bool_decide (0 ∉ bytes_of k).
Lemma plain_named k v : key_ok k = true -> (38 ∉ v) -> (0 ∉ v) -> plain_field (query_field (k, v)).
Proof. unfold key_ok. rewrite !andb_true_iff, !bool_decide_eq_true. intros [[? ?] ?] ? ?. by split_and!. Qed.
Lemma plain_number k x : key_ok k = true -> plain_field (query_field (k, integer x)).
Proof. intros Hk. apply plain_named; [done|by intros (? & _)%integer_plain|by intros (_ & ?)%integer_plain]. Qed.
Lemma condition_plain k c : condition_ok c -> forallb (fun e => key_ok ("interlock_cond" ++ k ++ e)) ["_channel"; "_op"; "_val"] = true ->
  Forall plain_field (condition_fields k c).
Proof.
  intros (_ & Ho & _) Hk. rewrite forallb_forall in Hk. destruct (op_text _ Ho) as [_ _ [? ?] _].
  unfold condition_fields. cbn [fmap list_fmap]. rewrite !Forall_cons, Forall_nil.
  split_and!; [apply plain_number|apply plain_named; [|done..]|apply plain_number|done]; apply Hk; cbn; tauto.
Qed.
Definition codes_ok (n : automation_node) : Prop := 0 <= Automation.op n < AUTOMATION_OP_MAX /\ 0 <= Automation.mode n < AUTOMATION_MODE_MAX.
Lemma fields_plain n x : codes_ok n -> wanted_ok x -> Forall plain_field (rule_fields n ++ interlock_fields x).
Proof.
  intros [Ho Hm] Hx. apply Forall_app. split.
  - destruct (op_text _ Ho) as [_ _ [? ?] _], (mode_text _ Hm) as [_ _ [? ?] _]. unfold rule_fields. cbn [fmap list_fmap].
    rewrite !Forall_cons, Forall_nil. split_and!; [apply plain_number|apply plain_number|apply plain_number|apply plain_named|apply plain_named
      |apply plain_number|apply plain_number|apply plain_number|]; done.
  - destruct x as [[lg cs]|]; [|apply Forall_singleton; by apply plain_number]. destruct Hx as (_ & _ & Hcs). apply Forall_app. split.
    + rewrite !Forall_cons, Forall_nil. split_and!; [apply plain_number|apply plain_number|]; done.
    + destruct cs as [|c1 cs]; [by apply Forall_nil|]. apply Forall_cons in Hcs as [H1 Hcs].
      destruct cs as [|c2 cs]; [by apply condition_plain|]. apply Forall_cons in Hcs as [H2 _]. apply Forall_app. split; by apply condition_plain.
Qed.

Section reading.
Context {N : Type} (kv : list Z -> list Z -> nat -> lookup_result) (Hkv : reads_queries kv).
Context (req : request) (n : automation_node) (x : wanted_interlock) (Hreq : asks_query req (rule_fields n ++ interlock_fields x)).
Context (Hvalid : automation_rule_is_valid n = true) (Htyped : node_typed n) (Hx : wanted_ok x).

Lemma valid_codes : codes_ok n.
Proof.
  destruct Htyped as (_ & _ & _ & Ho & Hm & _). unfold automation_rule_is_valid, automation_valid_operator, automation_valid_mode in Hvalid.
  rewrite !andb_true_iff in Hvalid. destruct Hvalid as ((((((_ & _) & ?) & ?) & _) & _) & _). split; lia.
Qed.
Lemma the_fields : Forall plain_field (rule_fields n ++ interlock_fields x) /\ rule_fields n ++ interlock_fields x <> [].
Proof. split; [apply fields_plain; [apply valid_codes|done]|done]. Qed.
Lemma number_asked key v lo hi : value_of (rule_fields n ++ interlock_fields x) (bytes_of key) = Some (integer v) -> is_i32 lo -> is_i32 hi -> lo <= v <= hi ->
  query_get_int kv req key lo hi = Some v /\ query_get_optional_int kv req key lo hi = Some (Some v) /\ forall d, int_or kv req key lo hi d = v.
Proof. destruct the_fields. by eapply int_given. Qed.
Lemma number_left_out key lo hi : value_of (rule_fields n ++ interlock_fields x) (bytes_of key) = None ->
  query_get_optional_int kv req key lo hi = Some None /\ forall d, int_or kv req key lo hi d = d.
Proof. destruct the_fields. by eapply int_missing. Qed.
Lemma code_asked_given key size of_code v t d invalid : value_of (rule_fields n ++ interlock_fields x) (bytes_of key) = Some t -> code_text of_code size v t ->
  code_asked kv req key size of_code d invalid = inr (t, v) /\ text_left kv req key size = t.
Proof.
  intros Hv [Hs (c & l & ->) _ Hr]. destruct the_fields. destruct (text_given kv Hkv req _ Hreq ltac:(done) ltac:(done) key _ size Hv Hs) as [Hq Hl].
  split; [|done]. unfold code_asked. rewrite Hq. cbn [default from_option id]. by rewrite Hr.
Qed.

(** The parameters are the rule's, whatever the bindings are. *)
Lemma rule_read (b : bindings N) : rule_asked kv req b = inr (n, bytes_of (automation_engine_mode_to_code (Automation.mode n))).
Proof.
  destruct valid_codes as [Ho Hm]. destruct Htyped as (Hi & Hout & Ht & _ & _ & Hd). destruct (valid_actions n Hvalid) as [Hbt Hbf]. unfold bit in *.
  assert (forall key, key = "input_gpio" \/ key = "output_gpio" -> query_get_optional_int kv req key 0 39 = Some None) as Hpin.
  { intros key Hk. apply number_left_out. destruct Hk as [-> | ->], x as [[lg [|c1 [|c2 cs]]]|]; reflexivity. }
  unfold rule_asked, channel_asked. rewrite !Hpin by tauto. cbn [from_option].
  rewrite (proj1 (number_asked "input" (Automation.input n) 0 65535 eq_refl ltac:(lia) ltac:(lia) ltac:(lia))). cbn [from_option].
  rewrite (proj1 (number_asked "threshold" (threshold n) (-2147483648) 2147483647 eq_refl ltac:(lia) ltac:(lia) ltac:(lia))).
  rewrite (proj1 (number_asked "output" (Automation.output n) 0 65535 eq_refl ltac:(lia) ltac:(lia) ltac:(lia))). cbn [from_option].
  rewrite (proj1 (code_asked_given "op" 8 _ _ _ AUTOMATION_OP_GT "INVALID_OPERATOR" eq_refl (op_text _ Ho))).
  rewrite (proj1 (code_asked_given "mode" 16 _ _ _ AUTOMATION_MODE_FOLLOW "INVALID_MODE" eq_refl (mode_text _ Hm))).
  rewrite (proj1 (proj2 (number_asked "duration_ms" (duration_ms n) 0 65535 eq_refl ltac:(lia) ltac:(lia) ltac:(lia)))).
  rewrite (proj1 (proj2 (number_asked "on_true" (on_true n) 0 1 eq_refl ltac:(lia) ltac:(lia) ltac:(lia)))).
  rewrite (proj1 (proj2 (number_asked "on_false" (on_false n) 0 1 eq_refl ltac:(lia) ltac:(lia) ltac:(lia)))).
  cbn [default from_option id]. by destruct n.
Qed.

(** And so is the interlock. *)
Lemma condition_read ck ok vk c : condition_ok c ->
  value_of (rule_fields n ++ interlock_fields x) (bytes_of ck) = Some (integer (cd_channel c)) ->
  value_of (rule_fields n ++ interlock_fields x) (bytes_of ok) = Some (bytes_of (automation_engine_operator_to_code (cd_op c))) ->
  value_of (rule_fields n ++ interlock_fields x) (bytes_of vk) = Some (integer (cd_target c)) -> condition_asked kv req ck ok vk = [c].
Proof.
  intros (Hc & Ho & Ht) H1 H2 H3. unfold condition_asked. pose proof (op_text _ Ho) as Hop.
  rewrite (proj2 (proj2 (number_asked ck _ 0 65535 H1 ltac:(lia) ltac:(lia) ltac:(lia)))).
  rewrite (proj2 (proj2 (number_asked vk _ (-128) 127 H3 ltac:(lia) ltac:(lia) ltac:(lia)))).
  rewrite (proj2 (code_asked_given ok 8 _ _ _ AUTOMATION_OP_GT "INVALID_OPERATOR" H2 Hop)).
  destruct Hop as [_ (a & l & Hal) _ Hr]. destruct (Z.leb_spec 0 (cd_channel c)); [|lia]. cbv zeta. rewrite Hal in Hr |- *. rewrite Hr. cbn [default].
  rewrite u16_id by lia. assert (i8 (cd_target c) = cd_target c) as -> by (unfold i8; word_lia). by destruct c.
Qed.
Lemma condition_left_out ck ok vk : value_of (rule_fields n ++ interlock_fields x) (bytes_of ck) = None -> condition_asked kv req ck ok vk = [].
Proof. intros Hv. unfold condition_asked. by rewrite (proj2 (number_left_out ck 0 65535 Hv)). Qed.
Lemma interlock_read : int_or kv req "interlock_en" 0 1 0 = (match x with None => 0 | Some _ => 1 end) /\
  (x <> None -> interlock_asked kv req = interlock_wanted x).
Proof.
  pose proof Hx as Hok. destruct x as [[lg cs]|] eqn:Ex in |- *; rewrite Ex in Hok.
  - destruct Hok as (Hlg & Hlen & Hcs). split.
    { apply (number_asked _ 1 0 1); [by rewrite Ex|lia..]. }
    intros _. unfold interlock_asked.
    rewrite (proj2 (proj2 (number_asked "interlock_logic" lg 0 1 ltac:(by rewrite Ex) ltac:(lia) ltac:(lia) ltac:(lia)))), u8_id by lia.
    destruct cs as [|c1 cs]; [by rewrite !condition_left_out by (by rewrite Ex)|]. apply Forall_cons in Hcs as [H1 Hcs].
    rewrite (condition_read "interlock_cond1_channel" "interlock_cond1_op" "interlock_cond1_val" c1 H1) by (rewrite Ex; by destruct cs).
    destruct cs as [|c2 cs]; [by rewrite condition_left_out by (by rewrite Ex)|]. apply Forall_cons in Hcs as [H2 _].
    rewrite (condition_read "interlock_cond2_channel" "interlock_cond2_op" "interlock_cond2_val" c2 H2) by (by rewrite Ex).
    destruct cs; [done|cbn in Hlen; lia].
  - split; [|done]. apply (number_asked _ 0 0 1); [by rewrite Ex|lia..].
Qed.
End reading.

(** ** What the requests do *)

Section requests.
Context {G N Q P R : Type} `{Hardware G} `{Nvs N} `{RemoteQueue Q} `{SerialPort P}.
Context (kv : list Z -> list Z -> nat -> lookup_result) (pins : pin_rules).
Implicit Types s : system G N Q P.
Abbreviation world := (web (house G N Q P) N R).
Implicit Types w : world.
Definition system_rules w : list (automation_node * automation_interlock) := cfg (s_au (the_house w)).

Definition with_house (s' : system G N Q P) w : world := w <| web_world := web_world w <| ho_sys := s' |> |>.
Lemma run_at_system {A} (m : st (system G N Q P) A) w : at_system m w = ((m (the_house w)).1, with_house (m (the_house w)).2 w).
Proof. unfold at_system, on_site, on_part, with_house, the_house. by destruct (m _). Qed.
Lemma the_house_with s' w : the_house (with_house s' w) = s'.
Proof. done. Qed.
Lemma same_house w : with_house (the_house w) w = w.
Proof. by destruct w as [[]]. Qed.
(** The engine sees its own table. *)
Lemma run_on_automation {A} (m : st (aw (fw G N) N Q) A) s : exists v, au v = s_au s /\ (on_automation m s).1 = (m v).1 /\
  s_au (on_automation m s).2 = au (m v).2 /\ ((m v).2 = v -> (on_automation m s).2 = s).
Proof.
  unfold on_automation, on_part. cbv zeta. set (v := Aw _ _ _ _). exists v. split; [done|]. destruct (m v) as [a v']. split; [done|]. split; [done|].
  cbn. intros ->. unfold v. by destruct s as [[[]] ? ? ? [] ? ? ? ?].
Qed.
Lemma logged_answer action detail (r : response) w : (logged action detail r w).1 = r /\ web_world (logged action detail r w).2 = web_world w.
Proof.
  unfold logged. rewrite !run_bind_surj. cbn [mret st_ret fst snd]. split; [done|].
  unfold on_auth, on_part. destruct (audit action detail (web_auth w)) as [[] x]. done.
Qed.
Lemma candidate_refusals c rs refusal : check_candidate c rs = Some refusal -> refusal = AUTOMATION_RESULT_DUPLICATE \/ refusal = AUTOMATION_RESULT_CONFLICT.
Proof. induction rs as [|r rs IH]; cbn; [done|]. repeat case_match; intros; simplify_eq; auto. Qed.

Lemma result_weaken {A B} (e : A * B) (U V : A -> B -> Prop) : (let '(a, b) := e in U a b) -> (forall a b, U a b -> V a b) -> let '(a, b) := e in V a b.
Proof. destruct e. auto. Qed.
Lemma store_interlock_rules k w : system_rules (store_interlock k w).2 = alter (fun p => (p.1, k)) (length (rules (s_au (the_house w))) - 1)%nat (system_rules w).
Proof.
  unfold store_interlock. rewrite run_bind_gets. unfold automation_engine_get_node_count, node_count, system_rules.
  destruct (Z.ltb_spec 0 (Z.of_nat (length (rules (s_au (the_house w)))))) as [Hlt|Hle].
  - rewrite (run_bind_eq _ _ _ _ _ (run_at_system _ w)). cbn [mret st_ret snd]. rewrite the_house_with.
    set (m := automation_engine_set_interlock_at _ _). destruct (run_on_automation m (the_house w)) as (v & Hau & _ & -> & _). unfold m.
    rewrite set_interlock_cfg, Hau by (unfold valid_index, node_count; rewrite Hau; lia). f_equal. lia.
  - cbn [mret st_ret snd]. destruct (rules (s_au (the_house w))) eqn:Hr; [by unfold cfg; rewrite Hr|cbn in Hle; lia].
Qed.
(** What follows an accepted rule. *)
Lemma after_rule req (x : wanted_interlock) action detail r w :
  (x <> None -> interlock_asked kv req = interlock_wanted x) ->
  let '(r', w') := ((if (match x with None => 0 | Some _ => 1 end) =? 0 then mret tt else store_interlock (interlock_asked kv req));; logged action detail r) w in
  r' = r /\ system_rules w' = match x with None => system_rules w | Some _ => alter (fun p => (p.1, interlock_wanted x)) (length (rules (s_au (the_house w))) - 1)%nat (system_rules w) end.
Proof.
  intros Hk. rewrite run_bind_surj. set (w1 := (_ w).2). pose proof (logged_answer action detail r w1) as [Hr Hw].
  destruct (logged action detail r w1) as [r' w']. cbn [fst snd] in *. split; [done|]. unfold system_rules at 1, the_house. rewrite Hw.
  change (system_rules w1 = match x with None => system_rules w | Some _ => alter (fun p => (p.1, interlock_wanted x)) (length (rules (s_au (the_house w))) - 1)%nat (system_rules w) end).
  unfold w1. destruct x as [x|]; [|done]. rewrite <- Hk by done. apply store_interlock_rules.
Qed.

(** C14: A rule asked for in a query is the rule that is stored, interlock included:
    the numbers and codes a page writes come back from the parser as they were,
    so a valid rule without conflict is added to the end of the table with
    exactly the interlock asked for.  A conflict and a full table are refused and
    change nothing.  A rule that is there already is answered [DUPLICATE], but an
    interlock asked for with it replaces that of the last rule of the table,
    whichever rule that is. *)
Theorem rule_request_stores_rule req n x w (Hkv : reads_queries kv) (Hreq : asks_query req (rule_fields n ++ interlock_fields x))
    (Hv : automation_rule_is_valid n = true) (Ht : node_typed n) (Hx : wanted_ok x) (Hok : table_ok (system_rules w)) :
  let before := rules (s_au (the_house w)) in
  let '(r, w') := automation_add_handler kv req w in
  match check_candidate n before with
  | None =>
    if decide (16 <= length before)%nat then r = answer "409 Conflict" (bytes_of "RULE_TABLE_FULL") /\ the_house w' = the_house w
    else r = said "OK" /\ system_rules w' = system_rules w ++ [(n, interlock_wanted x)]
  | Some AUTOMATION_RESULT_DUPLICATE =>
    r = said "DUPLICATE" /\
    system_rules w' = match x with None => system_rules w | Some _ => alter (fun p => (p.1, interlock_wanted x)) (length before - 1)%nat (system_rules w) end
  | Some _ => r = answer "409 Conflict" (bytes_of "OUTPUT_CONFLICT") /\ the_house w' = the_house w
  end.
Proof.
  cbv zeta. unfold automation_add_handler, gated. cbn [http_auth_require_cap http_auth_require_capability negb]. rewrite run_bind_gets.
  rewrite (rule_read kv Hkv req n x Hreq Hv Ht Hx). destruct (interlock_read kv Hkv req n x Hreq Hv Ht Hx) as [Hen Hilk]. rewrite Hen.
  set (m := automation_engine_add_rule _ _ _ _ _ _ _ _). destruct (run_on_automation m (the_house w)) as (v & Hau & Hr1 & Hr2 & Hr3).
  pose proof (add_rule_stores n v Hv Ht ltac:(by rewrite Hau)) as Hadd.
  fold m in Hadd. rewrite Hau in Hadd.
  rewrite (run_bind_eq _ _ _ _ _ (run_at_system (on_automation m) w)), Hr1. destruct (m v) as [result v']. cbn [fst snd] in *.
  destruct (check_candidate n (rules (s_au (the_house w)))) as [refusal|] eqn:Hc.
  - destruct Hadd as [-> ->]. rewrite (Hr3 eq_refl), same_house. destruct (candidate_refusals _ _ _ Hc) as [-> | ->]; [|done].
    match goal with |- context [logged ?a ?d _] => exact (after_rule req x a d (said "DUPLICATE") w Hilk) end.
  - unfold node_count, AUTOMATION_ENGINE_MAX_NODES in Hadd. case_decide as Hlen.
    + destruct (Z.leb_spec 16 (Z.of_nat (length (rules (s_au (the_house w)))))); [|lia]. destruct Hadd as [-> ->]. by rewrite (Hr3 eq_refl), same_house.
    + destruct (Z.leb_spec 16 (Z.of_nat (length (rules (s_au (the_house w)))))); [lia|]. destruct Hadd as [-> Hcfg].
      set (w1 := with_house _ w).
      assert (system_rules w1 = system_rules w ++ [(n, interlock_zero)]) as Hw1 by (unfold system_rules; unfold w1; rewrite the_house_with, Hr2; exact Hcfg).
      match goal with |- context [logged ?a ?d _] => pose proof (after_rule req x a d (said "OK") w1 Hilk) as Hafter end.
      refine (result_weaken _ _ _ Hafter _). intros r w2 [-> Hrules]. split; [done|]. rewrite Hrules, Hw1.
      destruct x as [x|]; [|done]. assert (length (rules (s_au (the_house w1))) = length (system_rules w1)) as -> by (unfold system_rules, cfg; by rewrite length_fmap).
      rewrite Hw1, length_app, Nat.add_sub. by rewrite alter_app_r_alt, Nat.sub_diag by done.
Qed.

(** *** Admission of nodes *)

Lemma run_at_registry {A} (m : st (rw N) A) w : (at_registry m w).1 = (m (fw_reg (s_fw (the_house w)))).1 /\
  registered (at_registry m w).2 = reg_entries (reg (m (fw_reg (s_fw (the_house w)))).2).
Proof.
  unfold at_registry. rewrite run_at_system. unfold registered. cbn [fst snd]. rewrite the_house_with. unfold on_fw, on_part.
  by destruct (m (fw_reg (s_fw (the_house w)))).
Qed.
Lemma logged_registered action detail (r : response) w : registered (logged action detail r w).2 = registered w.
Proof. unfold registered, the_house. by rewrite (proj2 (logged_answer action detail r w)). Qed.
Lemma operational_view id es : id <> 0 -> node_registry_operational id es = (NODE_REGISTRY_STATE_ACTIVE <=? (admin_view id es).1.1).
Proof. intros Hid. unfold node_registry_operational. by rewrite get_state_view. Qed.

Inductive admission := Adopt | Configure | Activate | Revoke.
Definition admission_handler (a : admission) : request -> st world response :=
  match a with Adopt => node_adopt_handler kv | Configure => node_configure_handler kv | Activate => node_activate_handler kv | Revoke => node_revoke_handler kv end.
Definition run_admissions (l : list (admission * request)) : st world () := for_each (fun e => admission_handler e.1 e.2;; mret tt) l.

(** An action of the registry behind a request, and the answer after it. *)
Definition grants_nothing (id : Z) (w w' : world) : Prop :=
  node_registry_operational id (registered w') = true -> node_registry_operational id (registered w) = true.
Lemma action_grants_nothing id id' seed f (k : bool -> st world response) w : id <> 0 -> id' <> 0 ->
  (forall e e', f e = Some e' -> re_node e' = re_node e) ->
  (node_registry_operational id' (registered w) = true \/ forall e e', f e = Some e' -> registry_state e' = NODE_REGISTRY_STATE_DISCOVERED) ->
  (forall b v, registered (k b v).2 = registered v) ->
  grants_nothing id w ((at_registry (admin_update seed id' f) ≫= k) w).2.
Proof.
  intros Hid Hid' Hf Hop Hk. unfold grants_nothing. rewrite run_bind_surj, Hk, (proj2 (run_at_registry _ w)).
  set (r := fw_reg (s_fw (the_house w))). change (registered w) with (reg_entries (reg r)) in *.
  pose proof (admin_update_view seed id' f r Hid' Hf) as Hv. pose proof (failed_admin_view seed id' f r id' Hid' Hid' Hf) as Hfail.
  destruct (admin_update seed id' f r) as [ok r']. cbn [fst snd] in *. rewrite !operational_view in * by done. destruct Hv as [Hother Hsame].
  destruct (decide (id = id')) as [->|Hne]; [|by rewrite Hother]. destruct Hop as [Hop|Hdown]; [done|].
  destruct ok; [|by rewrite Hfail]. destruct (Hsame eq_refl) as (previous & e & He & ->). unfold decision. cbn [fst]. by rewrite (Hdown _ _ He).
Qed.
Lemma nothing_done id b (k : bool -> st world response) w : (forall b v, registered (k b v).2 = registered v) ->
  grants_nothing id w ((at_registry (mret b) ≫= k) w).2.
Proof. intros Hk. unfold grants_nothing. by rewrite run_bind_surj, Hk, (proj2 (run_at_registry _ w)). Qed.
Lemma not_below id w : (node_registry_get_state id (registered w) <? NODE_REGISTRY_STATE_ACTIVE) = false ->
  id <> 0 /\ node_registry_operational id (registered w) = true.
Proof.
  intros Hs. split; [|unfold node_registry_operational; apply Z.leb_le; by apply Z.ltb_ge in Hs]. intros ->. done.
Qed.
Lemma admission_grants_nothing a req id w : id <> 0 -> grants_nothing id w (admission_handler a req w).2.
Proof.
  intros Hid. assert (forall r : response, grants_nothing id w ((mret r : st world response) w).2) as Hret by (intros r; unfold grants_nothing; by cbn).
  destruct a; cbn [admission_handler]; unfold node_adopt_handler, node_configure_handler, node_activate_handler, node_revoke_handler, gated;
    cbn [http_auth_require_cap http_auth_require_capability negb]; (destruct (query_get_u32 kv req "id") as [id'|]; [|apply Hret]).
  - rewrite run_bind_gets. destruct (_ <? _) eqn:Hs; [apply Hret|]. apply not_below in Hs as [Hid' Hop].
    unfold node_registry_adopt. destruct (Z.eqb_spec id' 0); [done|]. apply action_grants_nothing; auto.
    + intros e e' [= <-]. by case_match.
    + intros [] v; [apply logged_registered|done].
  - destruct (query_get_str kv req "profile" 24) as [prof|]; [|apply Hret]. destruct (query_get_optional_str kv req "template" 24) as [tmpl|]; [|apply Hret].
    cbv zeta. rewrite run_bind_gets. destruct (_ <? _) eqn:Hs; [apply Hret|]. apply not_below in Hs as [Hid' Hop].
    unfold node_registry_configure. destruct (_ || _ || _); [apply nothing_done; intros [] v; [apply logged_registered|done]|]. apply action_grants_nothing; auto.
    + by intros e e' [= <-].
    + intros [] v; [apply logged_registered|done].
  - rewrite run_bind_gets. destruct (_ <? _) eqn:Hs; [apply Hret|]. apply not_below in Hs as [Hid' Hop].
    unfold node_registry_activate. destruct (Z.eqb_spec id' 0); [done|]. apply action_grants_nothing; auto.
    + intros e e'. case_match; [|done]. by intros [= <-].
    + intros [] v; [apply logged_registered|done].
  - unfold node_registry_revoke. destruct (Z.eqb_spec id' 0); [apply nothing_done; intros [] v; [apply logged_registered|done]|]. apply action_grants_nothing; auto.
    + by intros e e' [= <-].
    + right. by intros e e' [= <-].
    + intros [] v; [apply logged_registered|done].
Qed.


(** *** The ladder program *)

Lemma run_on_ladder {A} (m : st (lw (fw G N) N) A) s : exists v, lad v = lp_lad (s_lad s) /\ (on_ladder m s).1 = (m v).1 /\
  lp_lad (s_lad (on_ladder m s).2) = lad (m v).2 /\ ((m v).2 = v -> (on_ladder m s).2 = s).
Proof.
  unfold on_ladder, on_part. set (v := Lw _ _ _ _). exists v. split; [done|]. destruct (m v) as [a v']. split; [done|]. split; [done|].
  cbn. intros ->. unfold v. by destruct s as [? ? [] ? ? ? ? ? ?].
Qed.
Lemma program_download malloc get program w : is_get get = true -> program <> [] -> Z.of_nat (length program) <= 2048 ->
  lp_lad (s_lad (the_house w)) = install program ladder_cleared -> automation_ladder_handler malloc get w = (answer OK_STATUS program, w).
Proof.
  intros Hget Hne Hlen Hl. unfold automation_ladder_handler. rewrite Hget, run_bind_gets, Hl. unfold ladder_engine_get_program. cbn [lad install has_program bytecode_length bytecode update].
  change (negb true || (2048 =? 0)) with false. cbv iota.
  assert (take (Z.to_nat (if Z.of_nat (length program) <? 2048 then Z.of_nat (length program) else 2048)) (program ++ drop (length program) (bytecode ladder_cleared)) = program) as ->.
  { destruct (Z.ltb_spec (Z.of_nat (length program)) 2048); [rewrite Nat2Z.id; apply take_app_length|]. rewrite take_app_length' by lia. done. }
  by destruct program.
Qed.

(** A program is checked and taken over as the first read delivers it.  A body
    that arrives in one read is the program, and a later download gives back
    exactly its bytes; when the first read gives fewer bytes, the rest of the
    program is whatever was in the memory the buffer was allocated in.  A program
    that is refused changes nothing. *)
Theorem ladder_upload_reads_back malloc req get block k segs w (Hpost : is_get req = false) (Hget : is_get get = true)
    (Hlen : 0 < content_len req <= 2048) (Hbody : Z.of_nat (length (body_bytes req)) = content_len req)
    (Hmalloc : malloc (length (body_bytes req)) = Some block) (Hblock : length block = length (body_bytes req))
    (Hseg : segments req = k :: segs) (Hk : (0 < k)%nat) :
  let program := take k (body_bytes req) ++ drop k block in
  let '(r, w') := automation_ladder_handler malloc req w in
  ((length (body_bytes req) <= k)%nat -> program = body_bytes req) /\
  if decide (check_program program = ESP_OK)
  then r = answer OK_STATUS (json_text "{'ok':true,'status':'ladder_deployed'}") /\ automation_ladder_handler malloc get w' = (answer OK_STATUS program, w')
  else rs_status r = "400 Bad Request" /\ w' = w.
Proof.
  intros program. assert ((length (body_bytes req) <= k)%nat -> program = body_bytes req) as Hone
    by (intros Hle; unfold program; by rewrite take_ge, drop_ge, app_nil_r by lia).
  assert (length program = length (body_bytes req)) as Hplen by (unfold program; rewrite length_app, length_take, length_drop; lia).
  assert (Z.to_nat (content_len req) = length (body_bytes req)) as Hn by lia. unfold automation_ladder_handler at 1. rewrite Hpost. unfold gated.
  cbn [http_auth_require_cap http_auth_require_capability negb]. destruct (Z.eqb_spec (content_len req) 0); [lia|]. destruct (Z.ltb_spec 2048 (content_len req)); [lia|].
  cbv zeta. rewrite Hn, Hmalloc. unfold httpd_req_recv. cbn [fst snd]. rewrite Hseg.
  assert (take (Nat.min k (length (body_bytes req))) (body_bytes req) = take k (body_bytes req)) as -> by (rewrite <- take_take; by rewrite (take_ge (body_bytes req)) by lia).
  assert (length (take k (body_bytes req)) = Nat.min k (length (body_bytes req))) as Hgot by apply length_take.
  assert (take k (body_bytes req) ++ drop (length (take k (body_bytes req))) block = program) as Hprogram.
  { unfold program. f_equal. rewrite Hgot. destruct (Nat.min_spec k (length (body_bytes req))) as [[_ ->] | [? ->]]; [done|]. rewrite !drop_ge by lia. done. }
  destruct (take k (body_bytes req)) as [|b got]; [cbn in Hgot; lia|]. rewrite Hprogram. clearbody program.
  destruct (run_on_ladder (ladder_engine_load_program program) (the_house w)) as (v & _ & Hr1 & Hr2 & Hr3).
  rewrite (run_bind_eq _ _ _ _ _ (run_at_system _ w)), Hr1. case_decide as Hcheck.
  - rewrite load_program_err by done. cbn [mret st_ret]. split; [done|]. split; [done|].
    apply program_download; [done|intros Hnil; by rewrite Hnil in Hcheck|lia|]. rewrite the_house_with, Hr2. by apply load_program_lad.
  - assert (ladder_engine_load_program program v = (check_program program, v)) as Hload by (unfold ladder_engine_load_program; by destruct (check_program program)).
    rewrite Hload in *. cbn [fst snd] in *. rewrite (Hr3 eq_refl), same_house. by destruct (check_program program).
Qed.
End requests.

(** ** Concrete runs *)

Definition demo_house (r : registry) : web (house board flash fifo script) flash Z :=
  Web (House (demo_switch_system <| s_fw := demo_fw <| fw_io := demo_switch_io |> <| fw_reg := Rw r None |> |>) demo_map (bindings_boot None None) (LoadTest (replicate 5 0) 0))
    example_start ws_boot.
Definition demo_query (fields : list (list Z * list Z)) : request := Request true (Found (query_text fields)) (fun _ => None) 0 [] [].
Definition demo_no_nodes : registry := Registry [] false 0.

(** Input 10 at least 1 drives output 100, while input 11 reads 1. *)
Definition demo_rule : automation_node := AutomationNode 10 100 1 AUTOMATION_OP_GE AUTOMATION_MODE_FOLLOW 0 1 0.
Definition demo_interlock : wanted_interlock := Some (0, [Condition 11 AUTOMATION_OP_EQ 1]).
Lemma demo_interlock_ok : wanted_ok demo_interlock.
Proof. split; [lia|]. split; [cbn; lia|]. apply Forall_singleton. unfold condition_ok, AUTOMATION_OP_MAX, AUTOMATION_OP_EQ. cbn. lia. Qed.
Lemma rule_request_stores_rule_witness :
  let '(r, w') := automation_add_handler plain_key_value (demo_query (rule_fields demo_rule ++ interlock_fields demo_interlock)) (demo_house demo_no_nodes) in
  r = said "OK" /\ system_rules w' = [(demo_rule, Interlock 1 0 1 0 (Condition 11 AUTOMATION_OP_EQ 1) condition_zero)].
Proof.
  assert (asks_query (demo_query (rule_fields demo_rule ++ interlock_fields demo_interlock)) (rule_fields demo_rule ++ interlock_fields demo_interlock)) as Hq
    by (split; [reflexivity|vm_compute; lia]).
  pose proof (rule_request_stores_rule (R := Z) plain_key_value (demo_query (rule_fields demo_rule ++ interlock_fields demo_interlock)) demo_rule demo_interlock
    (demo_house demo_no_nodes) plain_reads_queries Hq ltac:(vm_compute; reflexivity) ltac:(vm_compute; intuition discriminate)
    demo_interlock_ok table_ok_nil) as Hthm.
  cbv zeta in Hthm. assert (rules (s_au (the_house (demo_house demo_no_nodes))) = []) as Hr by (vm_compute; reflexivity).
  rewrite Hr in Hthm. cbn [check_candidate length] in Hthm. destruct (automation_add_handler _ _ _) as [r w']. exact Hthm.
Defined.

(** Node 42 is operational, node 43 is only known. *)
Definition demo_nodes : registry :=
  Registry [reg_entry_zero <| re_node := 42 |> <| registry_state := NODE_REGISTRY_STATE_ACTIVE |>; reg_entry_zero <| re_node := 43 |>] true 0.

(** A program in one piece. *)
Definition demo_upload : request := Request false NotFound (fun _ => None) (Z.of_nat (length demo_program)) demo_program [300]%nat.
Definition demo_memory (n : nat) : option (list Z) := Some (replicate n 170).
Lemma ladder_upload_reads_back_witness :
  let '(r, w') := automation_ladder_handler demo_memory demo_upload (demo_house demo_no_nodes) in
  rs_body r = json_text "{'ok':true,'status':'ladder_deployed'}" /\
  automation_ladder_handler demo_memory (demo_query []) w' = (answer OK_STATUS demo_program, w').
Proof.
  pose proof (ladder_upload_reads_back (R := Z) demo_memory demo_upload (demo_query []) (replicate (length demo_program) 170) 300 []
    (demo_house demo_no_nodes) eq_refl eq_refl ltac:(vm_compute; intuition discriminate) eq_refl eq_refl ltac:(vm_compute; reflexivity) eq_refl ltac:(lia)) as Hthm.
  cbv zeta in Hthm. destruct (automation_ladder_handler demo_memory demo_upload (demo_house demo_no_nodes)) as [r w'].
  destruct Hthm as [Hone Hthm]. rewrite Hone in Hthm by (apply Nat.leb_le; vm_compute; reflexivity).
  assert (check_program (body_bytes demo_upload) = ESP_OK) as Hc by (vm_compute; reflexivity).
  case_decide as Hd; [|done]. destruct Hthm as [-> Hget]. split; [reflexivity|]. exact Hget.
Defined.
